(* ===== verification/_CoqProject ===== *)
-Q . S2P
Prelude.v
PyValue.v
FloatFacts.v
ProxyParser.v
ProxyState.v
ProxyEvidence.v
PyTime.v
ProxyCoalesce.v
AuditChain.v
Rollback.v
PolicyGate.v
RemediationRoutes.v
Delivery.v
OrderFlow.v
ProxyDisable.v
EvidenceTiers.v
EvidencePolicy.v
Timing.v
Stakeholder.v
DecisionContext.v
CanonicalState.v
Reasoning.v
ReasoningReplay.v
Incidents.v
ProofTier.v
HumanReview.v
ProxyReplay.v
EventStore.v
IncidentClusters.v
EvidenceSchema.v
ProxyHealth.v
IncidentClassifier.v
EndpointControls.v
RiskScoring.v
AnalyticsPipeline.v
RegistryWriter.v
WriterAttribution.v
WatchDiagnosis.v
StopListener.v
GuardPolicy.v
FinalCausation.v
TypedEvidence.v
ProxyRestore.v
GuardTransition.v
RegistryReader.v
GuardLoop.v
ProxyWatchLoop.v
DecisionIntelligence.v
