(* ===== verification/Prelude.v ===== *)
(** * Verification of the Windows Network Recovery Toolkit decision core

    The toolkit watches the WinINET proxy settings of a Windows host, turns each
    change into an evidence event whose claims are bounded by what was observed,
    keeps tamper-evident audit rows, and lets an operator preview, confirm and
    execute a small set of allowlisted repairs.  This library models that path in
    the order data flows through it, from the registry text to the subprocess, the
    reasoning, coordination and incident components around it, and two smaller
    machines of the repository (message delivery and order flow).

    ** How the parts interact

    A registry snapshot (a dictionary) is normalised by [normalize_proxy_state],
    which calls the [ProxyServer] parser.  Two states are compared and labelled by
    [classify_transition]; [build_proxy_evidence_event] wraps the label with risk,
    confidence, proof tier, attribution and limitations.  [coalesce_proxy_events]
    and [CoalescingBuffer] merge bursts of events, [detect_reverter_loop_pattern]
    looks for localhost proxies that come back, and [replay_proxy_events] runs a
    recorded session through all of them and checks the result with six controls.
    Custody events and decisions are appended to a SHA-256 chained log with a tip
    anchor beside it.  A failure event may lead to a remediation preview: the
    registry, the policy gate and the role of the caller decide, a rollback package
    is attached, and the execute route runs an allowlisted script after the typed
    confirmation.

    Beside that path, observations are turned into failure hypotheses by the
    reasoning engine, which follows declared scenarios, projects them on canonical
    endpoint states, scores the impact and asks its own policy gate; the run is
    stored and replayed.  The timing and stakeholder evaluators decide when and by
    whom a decision is acted on, and the orchestrator joins their answers in an
    envelope whose four audit rows go to the chained log.  Incidents, failure
    clusters, human reviews and lifecycle records describe the same evidence to
    people; the event bus and the event store keep their rows.

    A second path starts from audit rows.  They are normalised into evidence events,
    grouped by endpoint, classified into incidents, tested against six controls and
    scored; the dashboard counts the result.  Registry writes reported by Sysmon, the
    Security log and Procmon are the only source of writer proof: the writer collection,
    the attribution engine and the final causation engine each decide what may be
    claimed from them.  The proxy guard reads operator policies, compares snapshots with
    a known good one, and can terminate the process that listens on the proxy port.

    A third path is live.  In each poll the guard loop reads the registry through
    [reg query], compares the snapshot with the last one, judges the change from the
    path probes, the port owner and the allowlist, and, when the limiter lets it, runs the
    restore commands and reads the registry back.  The read-only watch loop diffs the
    same snapshots, alerts on a localhost proxy that is switched on, and ends with a soak
    verdict; a second soak tells whether a disable sticks.  The decision intelligence API
    keeps events, evidence, decisions and outcomes beside all of this and counts them.

    ** Files and the code they model

    - [Prelude]: scope, hint database, tactics, the error type ([result], [pyexc])
      and the lemmas on lists, options and stable sorting the components share.
    - [PyValue]: Python values, dictionaries in insertion order, the string methods,
      [int]/[str]/[bool], binary64 floats, [json.dumps] and UTF-8.
    - [FloatFacts]: bounds of rounded binary64 products, for the risk score.
    - [PyTime]: the part of [datetime] the code uses.
    - [ProxyParser]: [src/src/proxy_guard/parser.py] with the result types of
      [src/src/core/models.py]; the two regular expressions are scanners.
    - [ProxyState], [ProxyEvidence], [ProxyCoalesce]:
      [src/windows_network_toolkit/proxy_state_machine.py], function by function.
      The coalescing buffer is a record passed through [buffer_add] and
      [buffer_flush].
    - [ProxyReplay]: [src/windows_network_toolkit/proxy_replay.py] and
      [src/windows_network_toolkit/proxy_watch_controls.py].
    - [AuditChain]: [src/src/platform_core/governance/chain_of_custody.py] and
      [src/src/platform_core/audit/] (writer, tip anchor, readers, schema, custody).
      The store is the text of the log, read line by line as the code does, and the
      anchor.
    - [Rollback]: [src/src/platform_core/policy/approval.py] and
      [src/src/platform_core/remediation/rollback.py].
    - [PolicyGate]: [src/platform_core/remediation_registry.py],
      [src/platform_core/policy/classic.py], [src/platform_core/policy/engine.py],
      [src/platform_core/policy_engine.py], [src/platform_core/rbac.py] and the
      principal of [src/backend/platform_auth.py].
    - [RemediationRoutes]: the preview and execute handlers of
      [src/backend/platform_routes.py] over the JSONL stores.  A handler returns its
      result and the store; what it wrote before it raised stays written.
    - [ProxyDisable]: [src/src/proxy_guard/remediation.py] and its preview in
      [src/windows_network_toolkit/remediation/proxy_disable.py].
    - [EvidenceTiers]: [src/src/platform_core/evidence/] (tiers, guards, the tier
      state machine, conflicts, explanations).
    - [EvidencePolicy]: [src/src/platform_core/policy/] (actions, engine, outcome
      vocabulary), the records of [src/src/platform_core/contracts.py] they use and
      [src/src/platform_core/remediation/planner.py].
    - [Timing], [Stakeholder]: [src/src/platform_core/timing/] and
      [src/src/platform_core/stakeholder/]; the timing evaluator is a chain of
      stages that each return or pass on.
    - [DecisionContext]: [src/src/platform_core/decision_context/] (envelope,
      orchestrator, explanation, store) and
      [src/src/platform_core/governance/coordination_kpis.py].
    - [CanonicalState]: [src/platform_core/state_machine.py].
    - [Reasoning]: [src/platform_core/failure_scenarios.py], [reasoning_engine.py],
      [impact_score.py], [policy_v2.py], [evidence_tree.py] and the records of
      [reasoning_models.py] beside it.
    - [ReasoningReplay]: [src/platform_core/reasoning_audit.py] and
      [src/platform_core/correlation_engine.py].
    - [Incidents]: [src/platform_core/incident_model.py], [incident_store.py],
      [incident_engine.py] and the three transition routes of
      [src/backend/platform_routes.py]; [service_step] interleaves requests between their
      two reads and their append.
    - [IncidentClusters]: [src/platform_core/incidents.py].
    - [EventStore]: [src/platform_core/event_bus.py] and
      [src/platform_core/event_store.py].
    - [ProofTier]: [src/src/platform_core/governance/proof_tier.py] and
      [evidence_decision_lifecycle.py] beside it.
    - [HumanReview]: [src/src/platform_core/governance/human_review.py],
      [evidence_to_action.py] beside it and the forum of
      [src/src/platform_core/risk/business_impact_mapping.py].
    - [Delivery]: [src/windows_network_toolkit/distributed_delivery.py].
    - [OrderFlow]: [src/order_flow_simulator/] (models, table, simulator).
    - [ProxyHealth]: the checks of [src/windows_network_toolkit/proxy_health.py].
    - [EvidenceSchema], [IncidentClassifier], [EndpointControls], [RiskScoring],
      [AnalyticsPipeline]: [evidence_schema.py], [incident_classifier.py],
      [control_tests.py], [risk_scoring_engine.py], [analytics.py] and
      [analytics_pipeline.py] of [src/windows_network_toolkit/], composed as the
      pipeline composes them.
    - [RegistryWriter]: [src/evidence/registry_writer.py] and
      [registry_writer_proof.py].
    - [WriterAttribution]: [src/evidence/attribution_engine.py], the readers and
      records beside it.
    - [WatchDiagnosis]: [src/windows_network_toolkit/proxy_watch_diagnosis.py].
    - [StopListener]: [src/src/proxy_guard/stop_listener.py], [stop_reverter.py],
      [owner.py] and [src/src/attribution/port_owner.py].  A run returns its result and
      the log of the processes it ran [taskkill] on.
    - [GuardPolicy]: [src/src/proxy_guard/policy.py], [known_good_diff.py],
      [src/src/network_state/policy.py] and [diff_engine.py].
    - [FinalCausation]: [src/src/proxy_guard/final_causation.py],
      [registry_writer_proof.py], [proxy_path_proof.py], the parent walk of
      [process_tree.py] and [src/src/telemetry/registry_targets.py].
    - [TypedEvidence]: [src/src/platform_core/evidence/record.py].
    - [ProxyRestore]: [src/src/proxy_guard/rollback.py] and the command runner of
      [src/src/repair/executor.py].
    - [GuardTransition]: [proxy_path_operational.py], [guard_evaluation.py],
      [connectivity.py], [decision.py] and [pipeline.py] of [src/src/proxy_guard/].
    - [RegistryReader]: [registry.py], [probes.py], [snapshot_capture.py] and [diff.py]
      beside them.
    - [GuardLoop]: [guard.py], [rollback_limits.py], [planning.py], the plan of [audit.py]
      and the settings of [config.py] beside them.  A poll maps the loop's state, the
      host's registry and what was observed to the next state, registry and outcome.
    - [ProxyWatchLoop]: [state.py], [wininet_change_diff.py], [proxy_watch.py], [soak.py]
      and [flip_flop.py] beside them.
    - [DecisionIntelligence]: [src/backend/decision_intelligence/] (models, store, metrics,
      routes) and [src/platform_core/outcome_learning/].

    ** What the theorems show

    - Parser and states: every parse is well formed, host and port round-trip, the
      mode is characterised by the fields, normalisation is idempotent through
      [to_dict] and raises only on an infinite float, NO_CHANGE means equal fields,
      a cleared server is a removal whatever else changed.
    - Evidence: unless a caller forces a remote class, no event calls an empty server a
      remote proxy, and a forced one is recorded as a safety violation; without registry
      writer proof the tier stays at T2 or below and nobody is accused; human review
      is asked exactly for remote proxies.
    - Coalescing: the batches are the maximal windows of the time-sorted events and
      lose nothing; the live buffer refines the batch function on consecutive
      segments of the stream; a reverter suspicion has its cycles in the timeline.
    - Replay: the safety controls hold of every replayed session whatever the clock
      says, and the events account for every transition.
    - Audit log: verification accepts exactly the chained logs and names the first
      broken record; records that JSON carries on one line are read back from the text of
      the log and verify, and one with a line separator starts the chain over; a log that
      passes against the anchor of another one has the same hashed records, unless the two
      logs themselves hold colliding texts; custody rows drop secret-named keys and only
      those.
    - Remediation: the gate is characterised as an equivalence; over any sequence of
      requests, each subprocess ever started ran an allowlisted script for an admin
      with the typed phrase; every returning execution leaves its rows; a rollback
      never executes.
    - Evidence policy: a tier never goes down and a proven tier is earned by the proofs of
      one call, while a direct proposal of correlation needs none;
      a batch of signals gives the highest tier it supports; a destructive action is
      permitted exactly with full causation, and then under approval; the proxy guard
      mutates exactly on a known row, allowlisted fields and the typed phrase.
    - Decision context: the staged timing decision equals a priority list; the next
      maintenance window is found; authority is bounded by the resolved roles; a READY
      envelope is ready in every respect; envelopes are audited and stored faithfully.
    - Reasoning: an action is allowed exactly for a safe key with confirmed proof and
      operator confirmation; the engine follows its declared scenario; the canonical
      path is one walk; scores are bounded; a stored run replays to its decision.
    - Incidents and clusters: under any interleaving of requests every recorded state of
      an incident is allowed after an earlier one, and with one request on it at a time
      its history follows the table and ends; clusters are the maximal runs of their groups, count
      every event once, and are at most one step more severe than their worst event.
    - Stores: a recorded run is found again exactly under an identifier without space
      around it; the bus reader returns a bounded prefix of what passes its filter.
    - Proof tiers and reviews: a rung is reached exactly with its evidence; an AI
      actor never records an approval, and a refusal writes nothing.
    - Delivery: a key's side effect completes at most once under any interleaving;
      the retry queue is bounded and drains; each disposition has exactly its effect.
    - Order flow: the audit rows replay to the states and form paths of the table.
    - Analytics: from any events the run returns one incident per endpoint, its controls and
      its score, all with proof tier T1; the newest events show what the class of an
      incident reports, LOW is never given over an alarm, and after a health check the class
      agrees with what was measured unless the direct path was not tried; ownership passes only on writer proof;
      scores stay below one hundred; the charts count every incident once.
    - Writer evidence: what is collected names a monitored value under the key, absence
      is disclosed, levels rest on the telemetry they name; a report claims final
      causation exactly when Sysmon recorded a value set.
    - Proxy guard: [taskkill] runs only outside dry runs, elevated, under the phrase of its
      target, and whatever ends lies in the process tree of such a target; the process
      allowlist denies by default and reports the rule that decided, the network policy has
      the priority its loops spell; the snapshot
      diff is empty exactly for equal settings; the parent walk ends on any inventory.
    - Typed evidence: a sealed record verifies and its hash determines its content up to
      collisions.
    - Restore and read-back: on a host that keeps the laws of [reg.exe], a restore that
      reports success leaves the texts of the snapshot and its switch when it knows one,
      and AutoDetect as it was; the reader reads of each value this or nothing, and all of
      it when every query answers; a dry run changes nothing.
    - Guard: an allowed transition has one of the listed justifications and the verdict on
      a loopback proxy is characterised; a poll writes only when the configuration, the
      verdict and the limiter permit it; while the queries of the host answer
      ([responsive]), an unchanged registry causes nothing and a successful rollback brings
      back the prior settings; no window of any run has more rollbacks
      than its limit.
    - Watching: both soaks end and their verdict is the one of the samples; switching a
      localhost proxy on is always alerted; an active reverter is reported exactly when
      enough transitions of the switch lie in the window.
    - Decision intelligence: rows that JSON carries on one line are read back, and the
      counters grow by exactly the rows added since the process started; the pages of a
      listing hold the matching rows once each, newest first; what is learned from outcomes
      does not depend on their order.
    - A last group states behaviours the comments of the code describe differently
      (an alias passes the list of forbidden names, an empty log's anchor is refused,
      a non-ASCII token raises, a remote-to-localhost switch is unclassified, a plan
      may report that it can execute beside a refused policy gate, two interleaved
      requests move a resolved incident, rows that record a state replay as no
      change, an offset is dropped from a cluster's times, a parent is terminated and
      reported unchanged, a moved port is diagnosed as the same, scores can be negative,
      a restore repeated on a restored registry reports a failure because the values it
      deletes are absent, a change that is not rolled back becomes the next baseline,
      a query that times out is recorded as a change and its rollback deletes the value it
      could not read, a row with a line separator blocks every listing of its file, a
      destructive action gets the same answer in a dry run, a direct path that was not
      tried is reported as working).

    ** Parameters

    What the sources call and do not contain is an argument: [PyHost] ([repr] of
    floats and of compound values, the SHA-256 digest), [PyZone] (the local time
    zone), [TzDatabase] (named zones, with [TzLaws]), [UnicodeTable] (which non-ASCII
    characters are alphanumeric), [Uuid5], [RecordCodec] (the JSON printer and parser of
    the audit log and of the decision store, with [JsonLaws] on values that JSON carries
    on one line, [json_plain], and nothing assumed of others; [DemoCodec] satisfies them),
    [EnvelopeCodec], [ReasoningCodec], [IncidentCodec] and [RowModels] (reading back what
    pydantic printed, with their round-trip laws where a theorem needs them), [Probes]
    (what the network answers to a health check), the clock readings, random
    identifiers and tokens, the files on disk, the platform and the outcome of a
    subprocess ([request_env], [package_draws], [plan_env], [tick], [replay_clocks]),
    pydantic's range check of a confidence, the side effect of a delivery,
    [EndpointHost] (the host name), the answers of the host to the proxy guard
    ([guard_host], with the documented effect of [taskkill /T] as [ends_trees];
    [path_probes], [policy_file]), decoded JSON and CSV, the order in
    which a set of names is walked, the host that runs commands ([CommandHost]) and the
    registry it shows ([RegistryView], with the documented behaviour of [reg.exe] as
    [RegistryLaws] and [RegistryQueryLaws], which let any query fail or time out;
    [DemoRegistry] and [DemoQuery] satisfy them), the
    observations of a guard poll ([PollInputs]) and the sum of floats ([FloatSum]).
    [HexDigest] is the one law assumed of the digest (it is lower-case hexadecimal
    and not empty); collisions of texts the compared logs or records hash are a
    disjunct of the theorems, never excluded.
    [DemoHost] and the Witness modules instantiate them all.

    ** Bounds and fuel

    Integers are unbounded, as in Python.  Floats are binary64 with the IEEE
    comparisons and rounding of [SpecFloat].  Text is the UTF-8 encoding of a Python
    string; [strip], [lower], [upper] and the digit tests act on ASCII characters.
    Loops that are not structural carry fuel: the pair scanner has the length of the
    text, since every step consumes a character (more fuel never changes the matches,
    [finditer_fuel_irrelevant]); the decimal printer has one more than the binary
    logarithm (the printed digits denote the number, [digits_fuel_val]); the UTF-8
    decoder has the number of bytes; the digit runs of ISO time stamps and the text
    replacement have the length of the text.  The walk over parent processes has one
    round more than the inventory has rows ([walk_enough]).  The monotonic clock of the
    guard, the watch loop and the soaks is whole nanoseconds; the loops consume a list of
    readings, one per sample, and the soak theorems say how many are enough for a verdict.
    The DWORD printer has eight digits, which every 32-bit value fits.

    ** Not modelled

    - Live collection: the event log, Sysmon, Procmon and process table readers, the
      sockets and [curl] probes, and the attribution and investigation built directly on
      them ([change_attribution.py] and [investigation_risk.py] of
      [src/src/proxy_guard/], the Sysmon lineage graph).  What they deliver is an input of
      the modelled decisions.
    - Command lines: [src/src/cli.py], [src/src/command_handlers.py] and
      [src/windows_network_toolkit/cli.py] parse arguments, call the modelled functions
      and print.
    - Storage back ends: the PostgreSQL stores, file locks, rotation and directories.  The
      audit log and the decision store are texts, the other logs lists of their lines.
    - HTTP plumbing and the routes other than remediation, incident transitions and
      decision intelligence; dashboards, Power BI exports, Streamlit pages, Markdown and
      HTML reports.
    - The rest of the risk decision records and of [src/src/platform_core/risk/], the
      platform metrics of [src/platform_core/metrics.py] and the reliability rows of the
      watchers: summaries drawn from the modelled records, left out for their breadth. *)

From stdpp Require Export base tactics option list strings numbers.
From Stdlib Require Export ZArith Lia.
From Stdlib Require Import Permutation Sorted.

#[export] Set Default Goal Selector "!".

(** ** Scope, hint database and tactics of the development *)

Declare Scope py_scope.
Delimit Scope py_scope with py.

Create HintDb toolkit.

(** Split boolean conjunctions and disjunctions of the hypotheses into
    propositions, and normalise negated tests. *)
Ltac bool_facts :=
  repeat match goal with
  | H : (_ && _)%bool = true |- _ => apply andb_true_iff in H; destruct H
  | H : (_ || _)%bool = false |- _ => apply orb_false_iff in H; destruct H
  | H : negb _ = true |- _ => apply negb_true_iff in H
  | H : negb _ = false |- _ => apply negb_false_iff in H
  | H : String.eqb _ _ = true |- _ => apply String.eqb_eq in H
  | H : String.eqb _ _ = false |- _ => apply String.eqb_neq in H
  end.

(** Case analysis on the innermost test of an [if] or [match] in the goal. *)
Ltac split_goal :=
  match goal with
  | |- context [if ?b then _ else _] => destruct b eqn:?
  | |- context [match ?x with _ => _ end] => destruct x eqn:?
  end.

(** Case analysis on a test in a hypothesis. *)
Ltac split_hyp H :=
  match type of H with
  | context [if ?b then _ else _] => destruct b eqn:?
  | context [match ?x with _ => _ end] => destruct x eqn:?
  end.

(** ** Python exceptions as values

    A call of the program either returns a value or raises one of the
    built-in exceptions the modelled code can reach. *)

Inductive pyexc :=
| TypeError
| ValueError
| KeyError
| IndexError
| AttributeError
| OverflowError
| HTTPException (status : Z).

Inductive result (A : Type) :=
| Ok (a : A)
| Raise (e : pyexc).
Arguments Ok {A} a.
Arguments Raise {A} e.

#[export] Instance result_ret : MRet result := fun _ a => Ok a.
#[export] Instance result_bind : MBind result :=
  fun _ _ f r => match r with Ok a => f a | Raise e => Raise e end.
#[export] Instance result_fmap : FMap result :=
  fun _ _ f r => match r with Ok a => Ok (f a) | Raise e => Raise e end.

(** [try: r / except (...) : h], where [handled] says which exceptions the
    clause catches. *)
Definition try_except {A} (r : result A) (handled : pyexc -> bool) (h : A) : result A :=
  match r with
  | Ok a => Ok a
  | Raise e => if handled e then Ok h else Raise e
  end.

Definition is_ok {A} (r : result A) : bool :=
  match r with Ok _ => true | Raise _ => false end.

(** Invert [Ok] equations through binds. *)
Lemma bind_ok_l {A B} (a : A) (f : A -> result B) : mbind f (Ok a) = f a.
Proof. reflexivity. Qed.

Lemma bind_Ok {A B} (r : result A) (f : A -> result B) b :
  mbind f r = Ok b <-> exists a, r = Ok a /\ f a = Ok b.
Proof.
  destruct r as [a|e]; cbn; split.
  - intros H. by exists a.
  - by intros (a' & [= ->] & H).
  - done.
  - by intros (a' & ? & _).
Qed.

Lemma bind_Raise {A B} (r : result A) (f : A -> result B) e :
  mbind f r = Raise e <-> r = Raise e \/ exists a, r = Ok a /\ f a = Raise e.
Proof.
  destruct r as [a|e']; cbn; split.
  - intros E. right. by exists a.
  - intros [E|(a' & E & E')]; [done|]. by injection E as <-.
  - intros E. left. by injection E as ->.
  - intros [E|(a' & E & _)]; [by injection E as ->|done].
Qed.

Ltac inv_ok :=
  repeat match goal with
  | H : mbind _ _ = Ok _ |- _ =>
      let a := fresh "v" in let E := fresh "E" in
      apply bind_Ok in H; destruct H as (a & E & H)
  | H : Ok _ = Ok _ |- _ => injection H as H; try subst
  | H : Raise _ = Ok _ |- _ => discriminate H
  | H : mret _ = Ok _ |- _ => injection H as H; try subst
  end.

(** Map a raising function over a list, left to right. *)
Fixpoint mapM_result {A B} (f : A -> result B) (l : list A) : result (list B) :=
  match l with
  | [] => Ok []
  | x :: l' => y ← f x; ys ← mapM_result f l'; Ok (y :: ys)
  end.

Lemma mapM_result_Forall2 {A B} (f : A -> result B) l l' :
  mapM_result f l = Ok l' <-> Forall2 (fun x y => f x = Ok y) l l'.
Proof.
  split.
  - revert l'. induction l as [|x l IH]; cbn; intros l' H.
    + injection H as <-. constructor.
    + inv_ok. constructor; auto.
  - induction 1 as [|x y l l' Hx _ IH]; [done|]. cbn. by rewrite Hx; cbn; rewrite IH.
Qed.

(** ** Lists *)

Fixpoint last_opt {A} (l : list A) : option A :=
  match l with
  | [] => None
  | [x] => Some x
  | _ :: l' => last_opt l'
  end.

Lemma last_opt_app {A} (l : list A) x : last_opt (l ++ [x]) = Some x.
Proof.
  induction l as [|y l IH]; [done|]. cbn.
  destruct (l ++ [x]) eqn:E; [by destruct l|]. done.
Qed.

Lemma last_opt_map {A B} (f : A -> B) l : last_opt (map f l) = option_map f (last_opt l).
Proof. induction l as [|x [|y l] IH]; [done|done|]. exact IH. Qed.

Lemma last_opt_None {A} (l : list A) : last_opt l = None -> l = [].
Proof.
  destruct l as [|x l]; [done|]. revert x. induction l as [|y l IH]; intros x E; [done|].
  by specialize (IH y E).
Qed.

Lemma last_opt_In {A} (l : list A) x : last_opt l = Some x -> In x l.
Proof.
  induction l as [|y l IH]; [done|]. destruct l as [|z l]; cbn in *.
  - intros [= ->]. by left.
  - intros E. right. by apply IH.
Qed.

(** [dict.fromkeys]: keep the first occurrence of every element. *)
Section Dedupe.
Context {A : Type} (eqb : A -> A -> bool).

Fixpoint dedupe_from (seen : list A) (l : list A) : list A :=
  match l with
  | [] => []
  | x :: l' =>
      if existsb (eqb x) seen then dedupe_from seen l'
      else x :: dedupe_from (x :: seen) l'
  end.

Definition dedupe (l : list A) : list A := dedupe_from [] l.

Context (eqb_spec : forall x y, eqb x y = true <-> x = y).

Lemma existsb_eqb_In x l : existsb (eqb x) l = true <-> In x l.
Proof using eqb_spec.
  rewrite existsb_exists. split.
  - intros (y & Hy & E). apply eqb_spec in E. by subst.
  - intros H. exists x. by rewrite eqb_spec.
Qed.

Lemma dedupe_from_In seen l x :
  In x (dedupe_from seen l) <-> In x l /\ ~ In x seen.
Proof using eqb_spec.
  revert seen. induction l as [|y l IH]; intros seen; cbn; [tauto|].
  destruct (existsb (eqb y) seen) eqn:E.
  - apply existsb_eqb_In in E. rewrite IH. split; [tauto|].
    intros [[->|?] ?]; tauto.
  - assert (~ In y seen) as Hy by (rewrite <- existsb_eqb_In; congruence).
    cbn. rewrite IH. cbn. split.
    + intros [->|[? ?]]; [tauto|]. intuition.
    + intros [[->|?] ?]; [tauto|].
      destruct (eqb y x) eqn:Eyx; [apply eqb_spec in Eyx; tauto|].
      right. split; [done|]. intros [->|?]; [|done].
      enough (eqb x x = true) by congruence. by apply eqb_spec.
Qed.

Lemma dedupe_In l x : In x (dedupe l) <-> In x l.
Proof using eqb_spec. unfold dedupe. rewrite dedupe_from_In. cbn. tauto. Qed.

Lemma dedupe_from_NoDup seen l : List.NoDup (dedupe_from seen l).
Proof using eqb_spec.
  revert seen. induction l as [|y l IH]; intros seen; cbn; [constructor|].
  destruct (existsb (eqb y) seen); [apply IH|].
  constructor; [|apply IH]. rewrite dedupe_from_In. cbn. tauto.
Qed.

Lemma dedupe_NoDup l : List.NoDup (dedupe l).
Proof using eqb_spec. apply dedupe_from_NoDup. Qed.
End Dedupe.

(** Keeping the first element of each key: the keys that remain are the
    distinct ones, and nothing is made up. *)
Lemma dedupe_incl {A} (eqb : A -> A -> bool) l x : In x (dedupe eqb l) -> In x l.
Proof.
  unfold dedupe. generalize (@nil A). induction l as [|y l IH]; intros seen; [done|]. cbn.
  destruct (existsb (eqb y) seen); [by intros ?%IH; right|].
  intros [->|?%IH]; [by left|by right].
Qed.

Lemma map_dedupe {A B} (eqb : B -> B -> bool) (key : A -> B) l :
  map key (dedupe (fun a b => eqb (key a) (key b)) l) = dedupe eqb (map key l).
Proof.
  unfold dedupe. change (@nil B) with (map key []). generalize (@nil A).
  induction l as [|x l IH]; intros seen; [done|]. cbn.
  assert (existsb (eqb (key x)) (map key seen) =
          existsb (fun b => eqb (key x) (key b)) seen) as ->
    by (induction seen as [|y seen IHs]; cbn; [done|by rewrite IHs]).
  destruct (existsb _ seen); [apply IH|]. cbn. by rewrite IH.
Qed.

(** ** Stable sort ([sorted(l, key=...)]), as insertion by key. *)
Section StableSort.
Context {A K : Type} (ltb : K -> K -> bool) (key : A -> K).

Fixpoint insert_by (x : A) (l : list A) : list A :=
  match l with
  | [] => [x]
  | y :: l' => if ltb (key y) (key x) then y :: insert_by x l' else x :: y :: l'
  end.

Definition sorted_by (l : list A) : list A := foldr insert_by [] l.

Lemma insert_by_Permutation x l : Permutation (insert_by x l) (x :: l).
Proof.
  induction l as [|y l IH]; cbn; [done|].
  destruct (ltb (key y) (key x)); [|done].
  rewrite IH. apply perm_swap.
Qed.

Lemma sorted_by_Permutation l : Permutation (sorted_by l) l.
Proof.
  induction l as [|x l IH]; cbn; [done|].
  rewrite insert_by_Permutation. by constructor.
Qed.

Lemma sorted_by_nil l : sorted_by l = [] -> l = [].
Proof.
  intros H. apply Permutation_nil. rewrite <- H. apply sorted_by_Permutation.
Qed.

(** Equal or increasing keys are left in place: the sort is stable. *)
Lemma sorted_by_id l :
  (forall i j x y, i < j -> l !! i = Some x -> l !! j = Some y ->
     ltb (key y) (key x) = false) ->
  sorted_by l = l.
Proof.
  unfold sorted_by. induction l as [|x l IH]; cbn; intros H; [done|].
  rewrite IH.
  - destruct l as [|y l]; cbn; [done|].
    by rewrite (H 0 1 x y); [|lia|..].
  - intros i j a b Hij Hi Hj. apply (H (S i) (S j)); [lia|done|done].
Qed.
End StableSort.

(** Sorting by a strict total order forgets the order of rows with different keys. *)
Section SortUnique.
Context {A K : Type} (ltb : K -> K -> bool) (key : A -> K).
Context (ltb_trans : forall a b c, ltb a b = true -> ltb b c = true -> ltb a c = true).
Context (ltb_asym : forall a b, ltb a b = true -> ltb b a = false).
Context (ltb_total : forall a b, a <> b -> ltb a b = true \/ ltb b a = true).
Context (decide_key : forall a b : K, a = b \/ a <> b).

Lemma insert_swap_lt (x y : A) (l : list A) :
  ltb (key x) (key y) = true ->
  insert_by ltb key x (insert_by ltb key y l) = insert_by ltb key y (insert_by ltb key x l).
Proof.
  intros Hxy. induction l as [|z l IH]; cbn [insert_by].
  - by rewrite Hxy, (ltb_asym _ _ Hxy).
  - destruct (ltb (key z) (key y)) eqn:Hzy, (ltb (key z) (key x)) eqn:Hzx; cbn [insert_by];
      rewrite ?Hzy, ?Hzx, ?Hxy, ?(ltb_asym _ _ Hxy); [by rewrite IH|done| |done].
    by rewrite (ltb_trans _ _ _ Hzx Hxy) in Hzy.
Qed.

Lemma insert_swap (x y : A) (l : list A) :
  key x <> key y ->
  insert_by ltb key x (insert_by ltb key y l) = insert_by ltb key y (insert_by ltb key x l).
Proof.
  intros [H|H]%ltb_total; [by apply insert_swap_lt|symmetry; by apply insert_swap_lt].
Qed.

Lemma sorted_by_perm (l l' : list A) :
  Permutation l l' -> List.NoDup (map key l) -> sorted_by ltb key l = sorted_by ltb key l'.
Proof.
  unfold sorted_by. induction 1 as [|x l l' _ IH|x y l|l l' l'' Hl IH1 _ IH2]; cbn [map foldr]; intros Hn.
  - done.
  - inversion_clear Hn. by rewrite IH.
  - inversion_clear Hn as [|? ? Hy _]. apply insert_swap. intros E. apply Hy. rewrite E. by left.
  - rewrite IH1 by done. apply IH2. eapply Permutation_NoDup; [|exact Hn]. by apply Permutation_map.
Qed.
(** The result is in order. *)
Lemma insert_by_sorted (x : A) (l : list A) :
  StronglySorted (fun a b => ltb (key b) (key a) = false) l ->
  StronglySorted (fun a b => ltb (key b) (key a) = false) (insert_by ltb key x l).
Proof.
  induction 1 as [|y l Hl IH Hy]; cbn [insert_by]; [by repeat constructor|].
  destruct (ltb (key y) (key x)) eqn:Eyx.
  - constructor; [done|]. rewrite insert_by_Permutation. constructor; [by apply ltb_asym|done].
  - constructor; [by constructor|]. constructor; [done|]. revert Hy. apply List.Forall_impl.
    intros z Hzy. cbn beta in Hzy |- *. destruct (ltb (key z) (key x)) eqn:Ezx; [|done].
    destruct (decide_key (key x) (key y)) as [E|[H|H]%ltb_total]; [congruence| |congruence].
    by rewrite (ltb_trans _ _ _ Ezx H) in Hzy.
Qed.

Lemma sorted_by_sorted (l : list A) :
  StronglySorted (fun a b => ltb (key b) (key a) = false) (sorted_by ltb key l).
Proof. unfold sorted_by. induction l as [|x l IH]; cbn; [constructor|by apply insert_by_sorted]. Qed.
End SortUnique.

Lemma ascii_compare_N (a b : Ascii.ascii) : Ascii.compare a b = (Ascii.N_of_ascii a ?= Ascii.N_of_ascii b)%N.
Proof. reflexivity. Qed.

Lemma string_ltb_trans (a b c : string) :
  String.ltb a b = true -> String.ltb b c = true -> String.ltb a c = true.
Proof.
  unfold String.ltb. revert b c. induction a as [|x a IH]; intros [|y b] [|z c]; cbn; try done.
  rewrite !ascii_compare_N. intros Hab Hbc.
  destruct (N.compare_spec (Ascii.N_of_ascii x) (Ascii.N_of_ascii y)) as [Exy|Hxy|]; [| |done];
    destruct (N.compare_spec (Ascii.N_of_ascii y) (Ascii.N_of_ascii z)) as [Eyz|Hyz|]; try done;
    destruct (N.compare_spec (Ascii.N_of_ascii x) (Ascii.N_of_ascii z)); try lia; try done.
  by apply (IH b c).
Qed.

Lemma string_ltb_asym (a b : string) : String.ltb a b = true -> String.ltb b a = false.
Proof. unfold String.ltb. rewrite (String.compare_antisym b a). by destruct (String.compare a b). Qed.

Lemma string_ltb_total (a b : string) : a <> b -> String.ltb a b = true \/ String.ltb b a = true.
Proof.
  unfold String.ltb. rewrite (String.compare_antisym b a). intros Hne.
  destruct (String.compare a b) eqn:E; [|by left|by right]. by apply String.compare_eq_iff in E.
Qed.

Lemma string_eq_or (a b : string) : a = b \/ a <> b.
Proof. destruct (decide (a = b)); [by left|by right]. Qed.

(** [sorted] of a set of strings. *)
Definition sorted_set (l : list string) : list string :=
  sorted_by String.ltb id (dedupe String.eqb l).

(** ** Partition into groups

    Rows grouped by the text of a key, as a dictionary of lists does. *)

Section GroupBy.
Context {A : Type} (key : A -> string).

Definition group (rows : list A) (k : string) : list A :=
  List.filter (fun r => String.eqb (key r) k) rows.

Lemma filter_split (p : A -> bool) rows :
  Permutation (List.filter p rows ++ List.filter (fun r => negb (p r)) rows)%list rows.
Proof.
  induction rows as [|r rows IH]; [done|]. cbn. destruct (p r); cbn.
  - by constructor.
  - rewrite <- Permutation_middle. by constructor.
Qed.

Lemma group_skip k k' rows : k <> k' ->
  group (List.filter (fun r => negb (String.eqb (key r) k)) rows) k' = group rows k'.
Proof.
  intros Hk. unfold group in *. induction rows as [|r rows IH]; [done|]. cbn.
  destruct (String.eqb_spec (key r) k) as [->|Hr]; cbn.
  - destruct (String.eqb_spec k k'); [done|apply IH].
  - by rewrite <- IH.
Qed.

Lemma groups_Permutation keys rows :
  List.NoDup keys -> (forall r, In r rows -> In (key r) keys) ->
  Permutation (concat (map (group rows) keys)) rows.
Proof.
  revert rows. induction keys as [|k keys IH]; intros rows Hnd Hin.
  - destruct rows as [|r rows]; [done|]. destruct (Hin r (or_introl eq_refl)).
  - inversion_clear Hnd as [|? ? Hk Hnd']. cbn [map concat].
    rewrite <- (filter_split (fun r => String.eqb (key r) k) rows) at 3.
    apply Permutation_app_head.
    rewrite <- (IH (List.filter (fun r => negb (String.eqb (key r) k)) rows)) at 1; [|done|].
    + erewrite map_ext_in; [reflexivity|]. intros k' Hk'. symmetry. apply group_skip.
      intros ->. done.
    + intros r [Hr Hne]%filter_In. destruct (Hin r Hr) as [Er|?]; [|done].
      by rewrite <- Er, String.eqb_refl in Hne.
Qed.
End GroupBy.

Lemma sorted_set_NoDup l : List.NoDup (sorted_set l).
Proof.
  unfold sorted_set. eapply Permutation_NoDup.
  - symmetry. apply sorted_by_Permutation.
  - apply dedupe_NoDup. apply String.eqb_eq.
Qed.

Lemma sorted_set_In l x : In x (sorted_set l) <-> In x l.
Proof.
  unfold sorted_set. rewrite sorted_by_Permutation. apply dedupe_In. apply String.eqb_eq.
Qed.
