(* ===== verification/PyValue.v ===== *)
(** * The Python values and built-ins the toolkit uses

    The program passes [dict[str, Any]] values around: registry snapshots,
    JSONL rows, classifier outputs.  This file gives the value type of those
    dictionaries with the built-in conversions the code applies to them
    ([bool], [int], [str], [dict.get], [dict.setdefault], [dict.update]), the
    string methods, binary64 floats (through [SpecFloat], so that every
    comparison is the IEEE one and evaluates), and [json.dumps].

    Text is modelled as the UTF-8 encoding of the Python string; [strip],
    [lower], [upper] and [isspace] act on its ASCII characters. *)

From S2P Require Import Prelude.
From Stdlib Require Import SpecFloat Ascii String.
From stdpp Require Import strings.

Open Scope string_scope.
Open Scope Z_scope.

(** ** Binary64 floats *)
Module F64.
Definition prec : Z := 53.
Definition emax : Z := 1024.
Abbreviation t := spec_float.

Definition zero : t := S754_zero false.

(** The integer [z] as a float, correctly rounded. *)
Definition of_Z (z : Z) : t := binary_normalize prec emax z 0 false.

Definition div (x y : t) : t := SFdiv prec emax x y.
Definition add (x y : t) : t := SFadd prec emax x y.
Definition sub (x y : t) : t := SFsub prec emax x y.
Definition mul (x y : t) : t := SFmul prec emax x y.
Definition ltb (x y : t) : bool := SFltb x y.
Definition leb (x y : t) : bool := SFleb x y.
Definition eqb (x y : t) : bool := SFeqb x y.

(** The literal [n / d]: both integers are exact, so the quotient is the
    correctly rounded value of the decimal literal. *)
Definition lit (n d : Z) : t := div (of_Z n) (of_Z d).

(** [a / b] of two integers, correctly rounded whatever their size. *)
Definition of_mantissa (z : Z) : t :=
  match z with
  | Z0 => zero
  | Zpos p => S754_finite false p 0
  | Zneg p => S754_finite true p 0
  end.
Definition int_div (a b : Z) : t := SFdiv prec emax (of_mantissa a) (of_mantissa b).

(** Python's two-argument [min] and [max] keep the first argument on ties. *)
Definition pymin (x y : t) : t := if ltb y x then y else x.
Definition pymax (x y : t) : t := if ltb x y then y else x.

(** [n / d] rounded to the nearest integer, ties to even, for [0 < d]. *)
Definition div_half_even (n d : Z) : Z :=
  let q := n / d in
  let r := 2 * (n mod d) in
  if r <? d then q else if d <? r then q + 1 else if Z.even q then q else q + 1.

(** [round(f, digits)]: the decimal nearest to the exact value (ties to even),
    correctly rounded back to a float. *)
Definition round_digits (digits : Z) (x : t) : t :=
  match x with
  | S754_finite s m e =>
      let z := if s then Z.neg m else Z.pos m in
      let n :=
        if 0 <=? e then z * 2 ^ e * 10 ^ digits
        else div_half_even (z * 10 ^ digits) (2 ^ (- e)) in
      match n with
      | Z0 => S754_zero s
      | _ => int_div n (10 ^ digits)
      end
  | _ => x
  end.

(** [bool(f)]. *)
Definition truth (x : t) : bool := negb (eqb x zero).

Definition is_infinity (x : t) : bool :=
  match x with S754_infinity _ => true | _ => false end.

(** [int(f)] truncates toward zero, and raises on NaN and infinities. *)
Definition to_int (x : t) : result Z :=
  match x with
  | S754_zero _ => Ok 0
  | S754_nan => Raise ValueError
  | S754_infinity _ => Raise OverflowError
  | S754_finite s m e =>
      let a := if 0 <=? e then Z.pos m * 2 ^ e else Z.pos m / 2 ^ (- e) in
      Ok (if s then - a else a)
  end.
End F64.

(** ** Strings *)
Module PyStr.
Definition code (c : ascii) : N := N_of_ascii c.

(** Characters [str.isspace] and the regular expression class [\s] accept. *)
Definition is_space (c : ascii) : bool :=
  let n := code c in
  ((9 <=? n) && (n <=? 13))%N || ((28 <=? n) && (n <=? 32))%N.

Definition is_digit (c : ascii) : bool :=
  let n := code c in ((48 <=? n) && (n <=? 57))%N.

Definition is_upper (c : ascii) : bool :=
  let n := code c in ((65 <=? n) && (n <=? 90))%N.

Definition is_lower (c : ascii) : bool :=
  let n := code c in ((97 <=? n) && (n <=? 122))%N.

Definition is_alpha (c : ascii) : bool := is_upper c || is_lower c.

Definition lower_char (c : ascii) : ascii :=
  if is_upper c then ascii_of_N (code c + 32) else c.

Definition upper_char (c : ascii) : ascii :=
  if is_lower c then ascii_of_N (code c - 32) else c.

Fixpoint map_chars (f : ascii -> ascii) (s : string) : string :=
  match s with
  | EmptyString => EmptyString
  | String c s' => String (f c) (map_chars f s')
  end.

Definition lower : string -> string := map_chars lower_char.
Definition upper : string -> string := map_chars upper_char.

Fixpoint lstrip_by (p : ascii -> bool) (s : string) : string :=
  match s with
  | EmptyString => EmptyString
  | String c s' => if p c then lstrip_by p s' else s
  end.

Fixpoint rstrip_by (p : ascii -> bool) (s : string) : string :=
  match s with
  | EmptyString => EmptyString
  | String c s' =>
      match rstrip_by p s' with
      | EmptyString => if p c then EmptyString else String c EmptyString
      | r => String c r
      end
  end.

Definition strip_by (p : ascii -> bool) (s : string) : string :=
  rstrip_by p (lstrip_by p s).

(** [s.strip()] and [s.strip(chars)]. *)
Definition strip (s : string) : string := strip_by is_space s.
Definition strip_chars (chars : string) (s : string) : string :=
  strip_by (fun c => existsb (Ascii.eqb c) (list_ascii_of_string chars)) s.

Definition is_empty (s : string) : bool :=
  match s with EmptyString => true | _ => false end.

Definition startswith (s pre : string) : bool := String.prefix pre s.

(** [sub in s]. *)
Fixpoint contains (sub s : string) : bool :=
  String.prefix sub s ||
  match s with
  | EmptyString => false
  | String _ s' => contains sub s'
  end.

Definition endswith (s suf : string) : bool :=
  (String.length suf <=? String.length s)%nat &&
  String.eqb (String.substring (String.length s - String.length suf) (String.length suf) s) suf.

(** [s.replace(a, b)] for one-character [a] and [b]. *)
Definition replace_char (a b : ascii) : string -> string :=
  map_chars (fun c => if Ascii.eqb c a then b else c).

(** [s[:n]]. *)
Definition take (n : nat) (s : string) : string := String.substring 0 n s.

(** [s in {...}]. *)
Definition mem (s : string) (l : list string) : bool := existsb (String.eqb s) l.

Fixpoint join (sep : string) (l : list string) : string :=
  match l with
  | [] => ""
  | [s] => s
  | s :: l' => s ++ sep ++ join sep l'
  end.

(** Maximal prefix of characters that satisfy [p], with the rest. *)
Fixpoint span (p : ascii -> bool) (s : string) : string * string :=
  match s with
  | EmptyString => (EmptyString, EmptyString)
  | String c s' =>
      if p c then let '(a, b) := span p s' in (String c a, b)
      else (EmptyString, s)
  end.

(** Decimal digits of a natural number, most significant first. *)
Definition digit_char (d : Z) : ascii := ascii_of_N (48 + Z.to_N d).

Fixpoint digits_fuel (fuel : nat) (n : Z) (acc : string) : string :=
  match fuel with
  | O => acc
  | S fuel' =>
      let acc' := String (digit_char (n mod 10)) acc in
      if n <? 10 then acc' else digits_fuel fuel' (n / 10) acc'
  end.

(** [str(n)]: [log2 n + 1] digits are always enough. *)
Definition of_Z (n : Z) : string :=
  if n <? 0 then String "-" (digits_fuel (S (Z.to_nat (Z.log2 (- n)))) (- n) "")
  else digits_fuel (S (Z.to_nat (Z.log2 n))) n "".

Definition digit_val (c : ascii) : Z := Z.of_N (code c) - 48.

(** Digits with single underscores between them; [prev] says whether the
    previous character was a digit. *)
Fixpoint digits_val (acc : Z) (prev : bool) (s : string) : option Z :=
  match s with
  | EmptyString => if prev then Some acc else None
  | String c s' =>
      if is_digit c then digits_val (acc * 10 + digit_val c) true s'
      else if Ascii.eqb c "_" && prev then digits_val acc false s'
      else None
  end.

(** [int(s)] of a string: surrounding space, an optional sign, digits. *)
Definition to_int (s : string) : result Z :=
  let digits d :=
    match digits_val 0 false d with
    | Some z => Ok z
    | None => Raise ValueError
    end in
  match strip s with
  | String "-" d => z ← digits d; Ok (- z)
  | String "+" d => digits d
  | d => digits d
  end.

(** *** Laws of the string methods *)

Lemma lstrip_by_head p s c s' : lstrip_by p s = String c s' -> p c = false.
Proof. induction s as [|d s IH]; cbn; [done|]. destruct (p d) eqn:E; [done|]. by intros [= <- _]. Qed.

Lemma rstrip_by_head p c s : p c = false -> exists s', rstrip_by p (String c s) = String c s'.
Proof. intros H. cbn. destruct (rstrip_by p s); [rewrite H|]; eauto. Qed.

Lemma rstrip_by_idem p s : rstrip_by p (rstrip_by p s) = rstrip_by p s.
Proof.
  induction s as [|c s IH]; cbn; [done|].
  destruct (rstrip_by p s) as [|d r] eqn:E.
  - destruct (p c) eqn:Ec; cbn; [done|]. by rewrite Ec.
  - cbn [rstrip_by] in *. by rewrite IH.
Qed.

Lemma lstrip_by_fix p s : (forall c s', s = String c s' -> p c = false) -> lstrip_by p s = s.
Proof. destruct s as [|c s]; cbn; [done|]. intros H. by rewrite (H c s eq_refl). Qed.

(** Stripping twice is stripping once. *)
Lemma strip_by_idem p s : strip_by p (strip_by p s) = strip_by p s.
Proof.
  unfold strip_by. rewrite (lstrip_by_fix p (rstrip_by p (lstrip_by p s))).
  - apply rstrip_by_idem.
  - intros c s' H. destruct (lstrip_by p s) as [|d r] eqn:E; [done|].
    pose proof (lstrip_by_head _ _ _ _ E) as Hd.
    destruct (rstrip_by_head p d r Hd) as [r' Hr]. rewrite Hr in H. by injection H as <- _.
Qed.

Lemma strip_idem s : strip (strip s) = strip s.
Proof. apply strip_by_idem. Qed.

(** Mapping characters commutes with stripping when it keeps the stripped class. *)
Lemma strip_by_map p f s :
  (forall c, p (f c) = p c) -> strip_by p (map_chars f s) = map_chars f (strip_by p s).
Proof.
  intros Hf. unfold strip_by.
  assert (forall t, lstrip_by p (map_chars f t) = map_chars f (lstrip_by p t)) as ->.
  { induction t as [|c t IH]; cbn; [done|]. rewrite Hf. by destruct (p c). }
  generalize (lstrip_by p s). induction s0 as [|c t IH]; cbn; [done|].
  rewrite IH, Hf. by destruct (rstrip_by p t), (p c).
Qed.

Lemma lower_char_space c : is_space (lower_char c) = is_space c.
Proof. by destruct c as [[] [] [] [] [] [] [] []]. Qed.

Lemma lower_char_idem c : lower_char (lower_char c) = lower_char c.
Proof. by destruct c as [[] [] [] [] [] [] [] []]. Qed.

Lemma strip_lower s : strip (lower s) = lower (strip s).
Proof. apply strip_by_map, lower_char_space. Qed.

Lemma lower_idem s : lower (lower s) = lower s.
Proof. unfold lower. induction s as [|c s IH]; cbn; [done|]. by rewrite lower_char_idem, IH. Qed.

Lemma mem_In s l : mem s l = true <-> In s l.
Proof. apply existsb_eqb_In. apply String.eqb_eq. Qed.

Lemma is_empty_true s : is_empty s = true <-> s = "".
Proof. by destruct s. Qed.

Lemma is_empty_false s : is_empty s = false <-> s <> "".
Proof. by destruct s. Qed.

Lemma span_app p s : (span p s).1 ++ (span p s).2 = s.
Proof.
  induction s as [|c s IH]; cbn; [done|]. destruct (p c); [|done].
  destruct (span p s) as [a b]. simpl in *. change (String c (a +:+ b) = String c s). by rewrite IH.
Qed.
(** *** Predicates on all characters of a string *)

Fixpoint all_chars (p : ascii -> bool) (s : string) : bool :=
  match s with
  | EmptyString => true
  | String c s' => p c && all_chars p s'
  end.

Lemma append_cons c a b : String c a ++ b = String c (a ++ b).
Proof. done. Qed.

Lemma all_chars_app p a b : all_chars p (a ++ b) = all_chars p a && all_chars p b.
Proof.
  induction a as [|c a IH]; [done|]. rewrite append_cons. cbn. by rewrite IH, andb_assoc.
Qed.

Lemma all_chars_impl (p q : ascii -> bool) s :
  (forall c, p c = true -> q c = true) -> all_chars p s = true -> all_chars q s = true.
Proof.
  intros Hpq. induction s as [|c s IH]; cbn; [done|]. intros H. bool_facts.
  apply andb_true_iff. auto.
Qed.

Lemma span_all p s : all_chars p s = true -> span p s = (s, "").
Proof.
  induction s as [|c s IH]; cbn; [done|]. intros [Hc Hs]%andb_true_iff.
  rewrite Hc. by rewrite IH.
Qed.

Lemma span_stop p a c b :
  all_chars p a = true -> p c = false -> span p (a ++ String c b) = (a, String c b).
Proof.
  intros Ha Hc. induction a as [|d a IH].
  - change (span p (String c b) = ("", String c b)). cbn. by rewrite Hc.
  - rewrite append_cons. cbn in *. apply andb_true_iff in Ha as [Hd Ha].
    rewrite Hd. by rewrite IH.
Qed.

Lemma span_fst_all p s : all_chars p (span p s).1 = true.
Proof.
  induction s as [|c s IH]; cbn; [done|]. destruct (p c) eqn:E; [|done].
  destruct (span p s). cbn in *. by rewrite E.
Qed.

Lemma rstrip_by_none p s :
  all_chars (fun c => negb (p c)) s = true -> rstrip_by p s = s.
Proof.
  induction s as [|c s IH]; cbn; [done|]. intros [Hc Hs]%andb_true_iff.
  rewrite IH by done. destruct s; [|done]. by destruct (p c).
Qed.

Lemma strip_by_none p s :
  all_chars (fun c => negb (p c)) s = true -> strip_by p s = s.
Proof.
  intros H. unfold strip_by. rewrite lstrip_by_fix; [by apply rstrip_by_none|].
  intros c s' ->. cbn in H. by apply andb_true_iff in H as [?%negb_true_iff _].
Qed.

Lemma strip_none s : all_chars (fun c => negb (is_space c)) s = true -> strip s = s.
Proof. apply strip_by_none. Qed.

(** *** Decimal text of integers *)

Lemma digit_char_spec d :
  0 <= d < 10 -> is_digit (digit_char d) = true /\ digit_val (digit_char d) = d.
Proof.
  intros H.
  assert (d = 0 \/ d = 1 \/ d = 2 \/ d = 3 \/ d = 4 \/ d = 5 \/ d = 6 \/ d = 7 \/ d = 8 \/ d = 9)
    as Hd by lia.
  by repeat destruct Hd as [->|Hd]; subst.
Qed.

Lemma is_digit_not_space c : is_digit c = true -> is_space c = false.
Proof. by destruct c as [[] [] [] [] [] [] [] []]. Qed.

Lemma digits_fuel_val fuel n s :
  0 <= n < 2 ^ Z.of_nat fuel ->
  exists k, forall a p,
    digits_val a p (digits_fuel fuel n s) = digits_val (a * 10 ^ Z.of_nat k + n)
      (match fuel with O => p | _ => true end) s.
Proof.
  revert n s. induction fuel as [|fuel IH]; intros n s Hn.
  - exists O. intros a p. cbn. f_equal. cbn in Hn. lia.
  - rewrite Nat2Z.inj_succ, Z.pow_succ_r in Hn by lia.
    assert (0 <= n mod 10 < 10) as Hm by (apply Z.mod_pos_bound; lia).
    destruct (digit_char_spec _ Hm) as [Hd Hv].
    cbn [digits_fuel]. destruct (n <? 10) eqn:E.
    + exists 1%nat. intros a p. cbn [digits_val]. rewrite Hd, Hv, Z.mod_small by lia.
      by rewrite Z.pow_1_r.
    + assert (0 <= n / 10 < 2 ^ Z.of_nat fuel) as Hq.
      { split; [apply Z.div_pos; lia|]. apply Z.div_lt_upper_bound; lia. }
      destruct (IH _ (String (digit_char (n mod 10)) s) Hq) as [k Hk].
      exists (S k). intros a p. rewrite Hk. cbn [digits_val]. rewrite Hd, Hv.
      f_equal. rewrite Nat2Z.inj_succ, Z.pow_succ_r by lia.
      pose proof (Z.div_mod n 10). lia.
Qed.

Lemma digits_fuel_all_digits fuel n s :
  0 <= n -> all_chars is_digit s = true -> all_chars is_digit (digits_fuel fuel n s) = true.
Proof.
  revert n s. induction fuel as [|fuel IH]; intros n s Hn Hs; [done|].
  destruct (digit_char_spec (n mod 10)) as [Hd _]; [apply Z.mod_pos_bound; lia|].
  cbn. destruct (n <? 10); cbn.
  - by rewrite Hd.
  - apply IH; [apply Z.div_pos; lia|]. cbn. by rewrite Hd.
Qed.

Lemma digits_fuel_length fuel n s k :
  0 <= n < 10 ^ Z.of_nat k -> (1 <= k)%nat ->
  (String.length (digits_fuel fuel n s) <= k + String.length s)%nat.
Proof.
  revert n s k. induction fuel as [|fuel IH]; intros n s k Hn Hk; cbn; [lia|].
  destruct (n <? 10) eqn:E; cbn; [lia|].
  destruct k as [|k]; [lia|].
  rewrite Nat2Z.inj_succ, Z.pow_succ_r in Hn by lia.
  assert (1 <= k)%nat by (destruct k; [cbn in Hn; lia|lia]).
  specialize (IH (n / 10) (String (digit_char (n mod 10)) s) k). cbn in IH.
  assert (0 <= n / 10 < 10 ^ Z.of_nat k).
  { split; [apply Z.div_pos; lia|]. apply Z.div_lt_upper_bound; lia. }
  specialize (IH H0 H). lia.
Qed.

Lemma digits_fuel_cons fuel n s : exists c r, digits_fuel (S fuel) n s = String c r.
Proof.
  revert n s. induction fuel as [|fuel IH]; intros n s; cbn [digits_fuel].
  - destruct (n <? 10); eauto.
  - destruct (n <? 10); eauto.
Qed.

Lemma log2_bound n : 0 <= n -> n < 2 ^ Z.of_nat (S (Z.to_nat (Z.log2 n))).
Proof.
  intros Hn. rewrite Nat2Z.inj_succ, Z2Nat.id by apply Z.log2_nonneg.
  destruct (Z.eq_dec n 0) as [->|]; [done|]. apply Z.log2_spec. lia.
Qed.

Lemma of_Z_digits n : 0 <= n -> all_chars is_digit (of_Z n) = true.
Proof.
  intros Hn. unfold of_Z. destruct (n <? 0) eqn:E; [lia|].
  by apply digits_fuel_all_digits.
Qed.

Lemma of_Z_nonempty n : 0 <= n -> is_empty (of_Z n) = false.
Proof.
  intros Hn. unfold of_Z. destruct (n <? 0) eqn:E; [lia|].
  by destruct (digits_fuel_cons (Z.to_nat (Z.log2 n)) n "") as (c & r & ->).
Qed.

Lemma of_Z_length n k :
  0 <= n < 10 ^ Z.of_nat k -> (1 <= k)%nat -> (String.length (of_Z n) <= k)%nat.
Proof.
  intros Hn Hk. unfold of_Z. destruct (n <? 0) eqn:E; [lia|].
  pose proof (digits_fuel_length (S (Z.to_nat (Z.log2 n))) n "" k Hn Hk). cbn in *. lia.
Qed.

(** Decimal text is parsed back: [int(str(n)) == n]. *)
Lemma to_int_of_Z n : 0 <= n -> to_int (of_Z n) = Ok n.
Proof.
  intros Hn. pose proof (of_Z_digits n Hn) as Hd. unfold to_int.
  rewrite strip_none by (eapply all_chars_impl; [|exact Hd]; intros c Hc;
                         by rewrite is_digit_not_space).
  assert (digits_val 0 false (of_Z n) = Some n) as Hv.
  { unfold of_Z. destruct (n <? 0) eqn:E; [lia|].
    destruct (digits_fuel_val (S (Z.to_nat (Z.log2 n))) n "" (conj Hn (log2_bound n Hn)))
      as [k Hk].
    by rewrite Hk. }
  destruct (of_Z n) as [|c r] eqn:E; [done|].
  cbn in Hd. apply andb_true_iff in Hd as [Hc _].
  destruct c as [[] [] [] [] [] [] [] []];
    first [discriminate Hc | cbn -[digits_val]; by rewrite Hv].
Qed.
End PyStr.

(** ** Values and dictionaries *)

#[local] Set Warnings "-register-all".

Inductive pyval :=
| PNone
| PBool (b : bool)
| PInt (z : Z)
| PFloat (f : F64.t)
| PStr (s : string)
| PList (l : list pyval)
| PDict (d : list (string * pyval)).

(** A dictionary, in insertion order and with distinct keys. *)
Abbreviation pydict := (list (string * pyval)).

Notation "k :-> v" := (@pair string pyval k v) (at level 70, no associativity) : py_scope.
Open Scope py_scope.

(** What the interpreter and the host provide: the [repr] of floats and of
    compound values, and the SHA-256 hex digest of a UTF-8 string. *)
Class PyHost := {
  float_repr : F64.t -> string;
  compound_repr : pyval -> string;
  sha256_hexdigest : string -> string;
}.

Definition py_bool (v : pyval) : bool :=
  match v with
  | PNone => false
  | PBool b => b
  | PInt z => negb (z =? 0)
  | PFloat f => F64.truth f
  | PStr s => negb (PyStr.is_empty s)
  | PList l => match l with [] => false | _ => true end
  | PDict d => match d with [] => false | _ => true end
  end.

Definition py_int (v : pyval) : result Z :=
  match v with
  | PNone | PList _ | PDict _ => Raise TypeError
  | PBool b => Ok (if b then 1 else 0)
  | PInt z => Ok z
  | PFloat f => F64.to_int f
  | PStr s => PyStr.to_int s
  end.

(** [float(s)] of a string.  Underscores may stand between two digits only. *)
Module PyFloat.
Fixpoint drop_underscores (prev : bool) (s : string) : option string :=
  match s with
  | EmptyString => Some EmptyString
  | String c s' =>
      if Ascii.eqb c "_" then
        match s' with
        | String d _ => if prev && PyStr.is_digit d then drop_underscores false s' else None
        | EmptyString => None
        end
      else r ← drop_underscores (PyStr.is_digit c) s'; Some (String c r)
  end.

(** The value of a run of digits. *)
Fixpoint nat_val (acc : Z) (s : string) : Z :=
  match s with
  | EmptyString => acc
  | String c s' => nat_val (acc * 10 + PyStr.digit_val c) s'
  end.

(** The decimal exponent at the end of a literal. *)
Definition exponent (s : string) : option Z :=
  let digits t :=
    if PyStr.is_empty t || negb (PyStr.all_chars PyStr.is_digit t) then None
    else Some (nat_val 0 t) in
  match s with
  | EmptyString => Some 0
  | String c s' =>
      if Ascii.eqb (PyStr.lower_char c) "e" then
        match s' with
        | String "-" t => z ← digits t; Some (- z)
        | String "+" t => digits t
        | t => digits t
        end
      else None
  end.

Definition unsigned (s : string) : option F64.t :=
  if PyStr.mem (PyStr.lower s) ["inf"; "infinity"] then Some (S754_infinity false)
  else if String.eqb (PyStr.lower s) "nan" then Some S754_nan
  else
    let '(whole, r) := PyStr.span PyStr.is_digit s in
    let '(frac, r') :=
      match r with
      | String "." r1 => PyStr.span PyStr.is_digit r1
      | _ => ("", r)
      end in
    if PyStr.is_empty whole && PyStr.is_empty frac then None else
    e ← exponent r';
    let m := nat_val 0 (whole ++ frac) in
    let e := e - Z.of_nat (String.length frac) in
    Some (if 0 <=? e then F64.int_div (m * 10 ^ e) 1 else F64.int_div m (10 ^ (- e))).

Definition of_string (s : string) : result F64.t :=
  match
    t ← drop_underscores false (PyStr.strip s);
    match t with
    | String "-" r => x ← unsigned r; Some (SFopp x)
    | String "+" r => unsigned r
    | r => unsigned r
    end
  with
  | Some x => Ok x
  | None => Raise ValueError
  end.
End PyFloat.

(** [float(v)]. *)
Definition py_float (v : pyval) : result F64.t :=
  match v with
  | PNone | PList _ | PDict _ => Raise TypeError
  | PBool b => Ok (F64.of_Z (if b then 1 else 0))
  | PInt z => if F64.is_infinity (F64.of_Z z) then Raise OverflowError else Ok (F64.of_Z z)
  | PFloat f => Ok f
  | PStr s => PyFloat.of_string s
  end.

(** [except (TypeError, ValueError)]. *)
Definition type_or_value_error (e : pyexc) : bool :=
  match e with TypeError | ValueError => true | _ => false end.

(** [a or b]. *)
Definition py_or (a b : pyval) : pyval := if py_bool a then a else b.

(** [v in (None, "")]. *)
Definition none_or_empty (v : pyval) : bool :=
  match v with
  | PNone => true
  | PStr s => PyStr.is_empty s
  | _ => false
  end.

Definition is_none (v : pyval) : bool :=
  match v with PNone => true | _ => false end.

(** An optional Python value as [option]. *)
Definition of_opt {A} (f : A -> pyval) (o : option A) : pyval :=
  match o with Some a => f a | None => PNone end.

Definition str_list (l : list string) : pyval := PList (map PStr l).

Section Host.
Context {H : PyHost}.

(** [str(v)]. *)
Definition py_str (v : pyval) : string :=
  match v with
  | PNone => "None"
  | PBool true => "True"
  | PBool false => "False"
  | PInt z => PyStr.of_Z z
  | PFloat f => float_repr f
  | PStr s => s
  | PList _ | PDict _ => compound_repr v
  end.
End Host.

Module Dict.
Fixpoint lookup (k : string) (d : pydict) : option pyval :=
  match d with
  | [] => None
  | (k', v) :: d' => if String.eqb k k' then Some v else lookup k d'
  end.

(** [d.get(k)] and [d.get(k, default)]. *)
Definition get (k : string) (d : pydict) : pyval := default PNone (lookup k d).
Definition get_default (k : string) (v : pyval) (d : pydict) : pyval := default v (lookup k d).

Definition mem (k : string) (d : pydict) : bool :=
  match lookup k d with Some _ => true | None => false end.

(** [d[k] = v]: overwrite in place, append when the key is new. *)
Fixpoint set (k : string) (v : pyval) (d : pydict) : pydict :=
  match d with
  | [] => [(k, v)]
  | (k', v') :: d' => if String.eqb k k' then (k, v) :: d' else (k', v') :: set k v d'
  end.

Definition setdefault (k : string) (v : pyval) (d : pydict) : pydict :=
  if mem k d then d else set k v d.

(** [d.update(e)]. *)
Definition update (d e : pydict) : pydict := foldl (fun acc kv => set kv.1 kv.2 acc) d e.

(** The receiver of [.get]: attribute access on a non-dictionary raises. *)
Definition of_val (v : pyval) : result pydict :=
  match v with PDict d => Ok d | _ => Raise AttributeError end.

Lemma lookup_set_eq k v d : lookup k (set k v d) = Some v.
Proof.
  induction d as [|[k' v'] d IH]; cbn; [by rewrite String.eqb_refl|].
  destruct (String.eqb k k') eqn:E; cbn; [by rewrite String.eqb_refl|]. by rewrite E.
Qed.

Lemma lookup_set_ne k k' v d : k <> k' -> lookup k (set k' v d) = lookup k d.
Proof.
  intros Hne. induction d as [|[k0 v0] d IH]; cbn.
  - by rewrite (proj2 (String.eqb_neq k k') Hne).
  - destruct (String.eqb k' k0) eqn:E; cbn.
    + apply String.eqb_eq in E. subst. by rewrite (proj2 (String.eqb_neq k k0) Hne).
    + by rewrite IH.
Qed.

Lemma lookup_setdefault_ne k k' v d :
  k <> k' -> lookup k (setdefault k' v d) = lookup k d.
Proof. intros Hne. unfold setdefault. destruct (mem k' d); [done|]. by apply lookup_set_ne. Qed.

Lemma lookup_update d e k :
  ~ In k (map fst e) -> lookup k (update d e) = lookup k d.
Proof.
  unfold update. revert d. induction e as [|[k' v] e IH]; intros d Hk; [done|].
  cbn in *. rewrite IH by tauto. apply lookup_set_ne. intros ->. tauto.
Qed.

Lemma keys_set k v d : map fst (set k v d) = if mem k d then map fst d else (map fst d ++ [k])%list.
Proof.
  unfold mem. induction d as [|[k' v'] d IH]; cbn; [done|].
  destruct (String.eqb k k') eqn:E; cbn.
  - apply String.eqb_eq in E. by subst.
  - rewrite IH. by destruct (lookup k d).
Qed.

Lemma lookup_None k d : lookup k d = None <-> ~ In k (map fst d).
Proof.
  induction d as [|[k' v'] d IH]; cbn; [tauto|].
  destruct (String.eqb k k') eqn:E.
  - apply String.eqb_eq in E. subst. split; [done|]. tauto.
  - apply String.eqb_neq in E. rewrite IH. intuition congruence.
Qed.

(** Assignment keeps the keys distinct. *)
Lemma set_NoDup k v d : List.NoDup (map fst d) -> List.NoDup (map fst (set k v d)).
Proof.
  intros Hd. rewrite keys_set. destruct (mem k d) eqn:E; [done|].
  apply NoDup_ListNoDup. apply NoDup_app. repeat split.
  - by apply NoDup_ListNoDup.
  - intros x Hx%list_elem_of_In. intros ->%list_elem_of_singleton.
    unfold mem in E. destruct (lookup k d) eqn:El; [done|]. by apply lookup_None in El.
  - apply NoDup_singleton.
Qed.
End Dict.


(** [text in v]: an element, a key or a substring; other values raise. *)
Definition py_contains (text : string) (v : pyval) : result bool :=
  match v with
  | PList l => Ok (existsb (fun x => match x with PStr s => String.eqb s text | _ => false end) l)
  | PDict d => Ok (Dict.mem text d)
  | PStr s => Ok (PyStr.contains text s)
  | _ => Raise TypeError
  end.

(** ** [json.dumps(v, sort_keys=True, separators=(...))] *)
Module Json.
(** Code points of a UTF-8 byte string; a byte that starts no valid sequence
    is the lone surrogate the [surrogateescape] handler produces. *)
Definition is_cont (b : N) : bool := (128 <=? b)%N && (b <? 192)%N.

(** The code point that starts with byte [b0], and the bytes after it. *)
Definition decode_head (b0 : N) (r : list N) : N * list N :=
  let bad := ((56320 + b0)%N, r) in
  if (b0 <? 128)%N then (b0, r)
  else match r with
  | b1 :: r1 =>
      if ((194 <=? b0) && (b0 <=? 223))%N && is_cont b1
      then (((b0 - 192) * 64 + (b1 - 128))%N, r1)
      else match r1 with
      | b2 :: r2 =>
          let c3 := ((b0 - 224) * 4096 + (b1 - 128) * 64 + (b2 - 128))%N in
          if ((224 <=? b0) && (b0 <=? 239))%N && is_cont b1 && is_cont b2 && (2048 <=? c3)%N
          then (c3, r2)
          else match r2 with
          | b3 :: r3 =>
              let c4 := ((b0 - 240) * 262144 + (b1 - 128) * 4096
                         + (b2 - 128) * 64 + (b3 - 128))%N in
              if ((240 <=? b0) && (b0 <=? 244))%N && is_cont b1 && is_cont b2
                 && is_cont b3 && (65536 <=? c4)%N && (c4 <=? 1114111)%N
              then (c4, r3) else bad
          | [] => bad
          end
      | [] => bad
      end
  | [] => bad
  end.

Fixpoint decode (fuel : nat) (l : list N) : list N :=
  match fuel, l with
  | S f, b0 :: r => let '(c, r') := decode_head b0 r in c :: decode f r'
  | _, _ => []
  end.

Definition code_points (s : string) : list N :=
  let l := map PyStr.code (list_ascii_of_string s) in decode (length l) l.

Definition hex_digit (n : N) : ascii :=
  ascii_of_N (if (n <? 10)%N then 48 + n else 87 + n)%N.

Definition hex4 (n : N) : string :=
  String (hex_digit (n / 4096 mod 16)) (String (hex_digit (n / 256 mod 16))
    (String (hex_digit (n / 16 mod 16)) (String (hex_digit (n mod 16)) ""))).

Definition backslash : ascii := ascii_of_N 92.
Definition quote_char : ascii := ascii_of_N 34.

Definition esc (c : ascii) : string := String backslash (String c "").

(** One code point, with [ensure_ascii=True]. *)
Definition escape (n : N) : string :=
  if (n =? 34)%N then esc quote_char
  else if (n =? 92)%N then esc backslash
  else if (n =? 10)%N then esc "n"
  else if (n =? 13)%N then esc "r"
  else if (n =? 9)%N then esc "t"
  else if (n =? 12)%N then esc "f"
  else if (n =? 8)%N then esc "b"
  else if ((32 <=? n) && (n <=? 126))%N then String (ascii_of_N n) ""
  else if (n <? 65536)%N then esc "u" ++ hex4 n
  else let m := (n - 65536)%N in
    esc "u" ++ hex4 (55296 + m / 1024)%N ++ esc "u" ++ hex4 (56320 + m mod 1024)%N.

Definition quote (s : string) : string :=
  String quote_char (String.concat "" (map escape (code_points s))
                     ++ String quote_char "").

Section Dumps.
Context {H : PyHost}.
Variables item_sep key_sep : string.

Fixpoint dumps (v : pyval) : string :=
  match v with
  | PNone => "null"
  | PBool true => "true"
  | PBool false => "false"
  | PInt z => PyStr.of_Z z
  | PFloat S754_nan => "NaN"
  | PFloat (S754_infinity false) => "Infinity"
  | PFloat (S754_infinity true) => "-Infinity"
  | PFloat f => float_repr f
  | PStr s => quote s
  | PList l => "[" ++ PyStr.join item_sep (map dumps l) ++ "]"
  | PDict d =>
      "{" ++ PyStr.join item_sep
               (map (fun kt => quote kt.1 ++ key_sep ++ kt.2)
                  (sorted_by String.ltb fst
                     (map (fun kv => (kv.1, dumps kv.2)) d))) ++ "}"
  end.
End Dumps.

(** [separators=(",", ":")] and the default [(", ", ": ")]. *)
Definition dumps_compact {H : PyHost} : pyval -> string := dumps "," ":".
Definition dumps_default {H : PyHost} : pyval -> string := dumps ", " ": ".
End Json.

(** The UTF-8 bytes of a code point, and the text of a list of them. *)
Module Utf8.
Definition byte (n : N) : ascii := ascii_of_N n.
Definition encode_char (c : N) : string :=
  (if c <? 128 then String (byte c) ""
   else if c <? 2048 then String (byte (192 + c / 64)) (String (byte (128 + c mod 64)) "")
   else if c <? 65536 then
     String (byte (224 + c / 4096)) (String (byte (128 + c / 64 mod 64))
       (String (byte (128 + c mod 64)) ""))
   else
     String (byte (240 + c / 262144)) (String (byte (128 + c / 4096 mod 64))
       (String (byte (128 + c / 64 mod 64)) (String (byte (128 + c mod 64)) ""))))%N.
Definition encode (l : list N) : string := String.concat "" (map encode_char l).

(** [s[:n]]: the first [n] code points. *)
Definition prefix (n : nat) (s : string) : string := encode (firstn n (Json.code_points s)).

Example encode_decode : encode (Json.code_points "aé…𝄞") = "aé…𝄞".
Proof. vm_compute. reflexivity. Qed.
End Utf8.

(** [s.splitlines()] on code points; a carriage return and line feed are one break. *)
Definition is_line_break (c : N) : bool :=
  existsb (N.eqb c) [10; 11; 12; 13; 28; 29; 30; 133; 8232; 8233]%N.

Fixpoint split_lines (cur : list N) (l : list N) : list (list N) :=
  match l with
  | [] => match cur with [] => [] | _ => [rev cur] end
  | c :: l' =>
      if is_line_break c then
        rev cur ::
        match l' with
        | d :: l'' => if (c =? 13)%N && (d =? 10)%N then split_lines [] l'' else split_lines [] l'
        | [] => split_lines [] l'
        end
      else split_lines (c :: cur) l'
  end.

Definition splitlines (s : string) : list string :=
  map Utf8.encode (split_lines [] (Json.code_points s)).

Lemma split_lines_plain (l : list N) (cur rest : list N) :
  forallb (fun c => negb (is_line_break c)) l = true ->
  split_lines cur (l ++ 10%N :: rest) = (rev cur ++ l)%list :: split_lines [] rest.
Proof.
  revert cur. induction l as [|c l IH]; intros cur; cbn [forallb app split_lines].
  - intros _. rewrite app_nil_r. change (is_line_break 10) with true. cbn. by destruct rest.
  - intros [Hc%negb_true_iff Hl]%andb_true_iff. rewrite Hc, IH by done. cbn [rev]. by rewrite <- app_assoc.
Qed.

(** The text after the last break, when it is ended by a line feed, is the last line. *)
Lemma split_lines_last (l cur : list N) (c : N) (after : list N) :
  is_line_break c = true -> c <> 13%N -> after <> [] ->
  forallb (fun x => negb (is_line_break x)) after = true ->
  exists ls, split_lines cur (l ++ c :: after ++ [10%N]) = (ls ++ [after])%list.
Proof.
  intros Hc Hcr Hne Ha.
  assert (forall cur, exists ls, split_lines cur (c :: after ++ [10%N]) = (ls ++ [after])%list) as Hbase.
  { clear cur. intros cur. exists [rev cur]. cbn [split_lines]. rewrite Hc. cbn [app]. f_equal.
    rewrite (proj2 (N.eqb_neq c 13) Hcr). cbn [andb].
    assert (split_lines [] (after ++ [10%N]) = [after]) as E by (by apply split_lines_plain).
    destruct (after ++ [10%N])%list; exact E. }
  revert cur. remember (length l) as n eqn:Hn. revert l Hn.
  induction n as [n IH] using lt_wf_ind. intros [|d l] Hn cur; [apply Hbase|].
  cbn [app split_lines]. destruct (is_line_break d).
  2: { eapply IH; [|reflexivity]. cbn in Hn. lia. }
  assert (exists ls, split_lines [] (l ++ c :: after ++ [10%N]) = (ls ++ [after])%list) as [ls E].
  { eapply IH; [|reflexivity]. cbn in Hn. lia. }
  destruct l as [|e l]; cbn [app] in *.
  - destruct ((d =? 13) && (c =? 10))%N; [|by rewrite E; exists (rev cur :: ls)].
    exists [rev cur]. cbn [app]. f_equal. by apply split_lines_plain.
  - destruct ((d =? 13) && (e =? 10))%N; [|by rewrite E; exists (rev cur :: ls)].
    destruct (IH (length l) ltac:(cbn in Hn; lia) l eq_refl []) as [ls' ->]. by exists (rev cur :: ls').
Qed.

(** [list(v)]: the elements of a list, the characters of a text, the keys of a
    dictionary. *)
Definition py_list (v : pyval) : result (list pyval) :=
  match v with
  | PList l => Ok l
  | PStr s => Ok (map (fun c => PStr (Utf8.encode [c])) (Json.code_points s))
  | PDict d => Ok (map (fun kv => PStr kv.1) d)
  | _ => Raise TypeError
  end.

(** [format(f, ".2f")]: the nearest two-digit decimal of the exact value. *)
Definition format_2f (x : F64.t) : string :=
  let sign (s : bool) := if s then "-" else "" in
  let digits (n : Z) :=
    PyStr.of_Z (n / 100) ++ "." ++ PyStr.of_Z (n / 10 mod 10) ++ PyStr.of_Z (n mod 10) in
  match x with
  | S754_nan => "nan"
  | S754_infinity s => sign s ++ "inf"
  | S754_zero s => sign s ++ "0.00"
  | S754_finite s m e =>
      sign s ++ digits (if 0 <=? e then Z.pos m * 2 ^ e * 100
                        else F64.div_half_even (Z.pos m * 100) (2 ^ (- e)))
  end.

(** ** Equality of values

    Numbers compare by exact value across their types, dictionaries by content. *)

(** The exact value [m * 2 ^ e] of a finite number. *)
Definition number (v : pyval) : option (Z * Z) :=
  match v with
  | PBool b => Some (if b then 1 else 0, 0)
  | PInt z => Some (z, 0)
  | PFloat (S754_zero _) => Some (0, 0)
  | PFloat (S754_finite s m e) => Some (if s then Z.neg m else Z.pos m, e)
  | _ => None
  end.

Definition number_eqb (a b : Z * Z) : bool :=
  let k := Z.min a.2 b.2 in
  a.1 * 2 ^ (a.2 - k) =? b.1 * 2 ^ (b.2 - k).

(** [a == b]. *)
Fixpoint py_eqb (a b : pyval) {struct a} : bool :=
  match a, b with
  | PNone, PNone => true
  | PStr s, PStr t => String.eqb s t
  | PList l, PList m =>
      (fix go (l m : list pyval) : bool :=
         match l, m with
         | [], [] => true
         | x :: l', y :: m' => py_eqb x y && go l' m'
         | _, _ => false
         end) l m
  | PDict d, PDict e =>
      (length d =? length e)%nat
      && (fix go (d : pydict) : bool :=
            match d with
            | [] => true
            | (k, v) :: d' =>
                match Dict.lookup k e with Some w => py_eqb v w | None => false end && go d'
            end) d
  | PFloat (S754_infinity s), PFloat (S754_infinity t) => Bool.eqb s t
  | _, _ =>
      match number a, number b with
      | Some x, Some y => number_eqb x y
      | _, _ => false
      end
  end.

(** A host for evaluating the definitions on concrete inputs.  Its digest is a
    polynomial checksum written in hexadecimal: evaluation only needs some
    function of the text. *)
Module DemoHost.
Fixpoint checksum (acc : N) (s : string) : N :=
  match s with
  | EmptyString => acc
  | String c s' => checksum ((acc * 257 + PyStr.code c + 1) mod 4294967291)%N s'
  end.

Definition digest (s : string) : string :=
  let n := checksum 7 s in Json.hex4 (n / 65536)%N ++ Json.hex4 (n mod 65536)%N.

Definition demo_host : PyHost :=
  {| float_repr := fun f => "<float>";
     compound_repr := fun v => "<object>";
     sha256_hexdigest := digest |}.
End DemoHost.
