(* ===== verification/FloatFacts.v ===== *)
(** * Facts about binary64 results

    Mantissas of rounded results stay below [2^53], results keep their sign, and
    a score capped at one hundred is at most one hundred after rounding to one
    decimal.  The proofs work on the integer definitions of the rounding. *)

From S2P Require Import Prelude PyValue.
From Stdlib Require Import ZArith Lia SpecFloat.

Open Scope Z_scope.

(** What every rounded result with sign [s] is: no NaN, a mantissa of at most 53 bits. *)
Definition rounded (s : bool) (x : F64.t) : Prop :=
  match x with
  | S754_zero s' | S754_infinity s' => s' = s
  | S754_finite s' m _ => s' = s /\ Z.pos m < 2 ^ 53
  | S754_nan => False
  end.

Lemma shr_1_m r : 0 <= r.(shr_m) -> (shr_1 r).(shr_m) = r.(shr_m) / 2.
Proof.
  destruct r as [[|[p|p|]|p] b s]; cbn [shr_m shr_1]; intros; try lia; try reflexivity;
    apply (Z.div_unique_pos _ _ _ 1) + apply (Z.div_unique_pos _ _ _ 0); lia.
Qed.

Lemma iter_shr_m p r :
  0 <= r.(shr_m) -> (iter_pos shr_1 p r).(shr_m) = r.(shr_m) / 2 ^ Z.pos p.
Proof.
  revert r. induction p as [p IH|p IH|]; intros r Hr; cbn [iter_pos].
  - pose proof (shr_1_m r Hr) as H1.
    assert (0 <= (shr_1 r).(shr_m)) as H2 by (rewrite H1; apply Z.div_pos; lia).
    rewrite IH by (rewrite IH by done; apply Z.div_pos; lia).
    rewrite IH, H1, !Z.div_div by lia. f_equal.
    replace (Z.pos p~1) with (1 + Z.pos p + Z.pos p) by lia. rewrite !Z.pow_add_r by lia. lia.
  - rewrite IH by (rewrite IH by done; apply Z.div_pos; lia).
    rewrite IH, Z.div_div by lia. f_equal.
    replace (Z.pos p~0) with (Z.pos p + Z.pos p) by lia. by rewrite Z.pow_add_r by lia.
  - rewrite shr_1_m by done. reflexivity.
Qed.

Lemma digits2_pos_bound p : Z.pos p < 2 ^ Z.pos (digits2_pos p).
Proof.
  induction p as [p IH|p IH|]; cbn [digits2_pos]; [..|reflexivity];
    rewrite Pos2Z.inj_succ, Z.pow_succ_r; lia.
Qed.

Lemma shr_fexp_bound m e l :
  0 <= m -> 0 <= (shr_fexp F64.prec F64.emax m e l).1.(shr_m) < 2 ^ 53.
Proof.
  intros Hm. unfold shr_fexp.
  assert ((shr_record_of_loc m l).(shr_m) = m) as Hl by (by destruct l as [|[]]).
  assert (Hd : m < 2 ^ Zdigits2 m)
    by (destruct m; [reflexivity|apply digits2_pos_bound|lia]).
  assert (Hn : Zdigits2 m - 53 <= fexp F64.prec F64.emax (Zdigits2 m + e) - e)
    by (unfold fexp, F64.prec; lia).
  assert (Hd0 : 0 <= Zdigits2 m) by (destruct m; cbn; lia).
  destruct (fexp F64.prec F64.emax (Zdigits2 m + e) - e) as [|p|p]; cbn [shr fst].
  1,3: rewrite Hl; split; [done|]; eapply Z.lt_le_trans; [exact Hd|];
       apply Z.pow_le_mono_r; lia.
  rewrite iter_shr_m, Hl by (by rewrite Hl).
  split; [apply Z.div_pos; lia|]. apply Z.div_lt_upper_bound; [lia|].
  rewrite <- Z.pow_add_r by lia. eapply Z.lt_le_trans; [exact Hd|].
  apply Z.pow_le_mono_r; lia.
Qed.

Lemma round_aux_rounded s m e l :
  0 <= m -> rounded s (binary_round_aux F64.prec F64.emax s m e l).
Proof.
  intros Hm. unfold binary_round_aux.
  pose proof (shr_fexp_bound m e l Hm) as H1.
  destruct (shr_fexp _ _ m e l) as [r e']. cbn [fst] in H1.
  assert (0 <= round_nearest_even r.(shr_m) (loc_of_shr_record r)) as H2
    by (unfold round_nearest_even; destruct (loc_of_shr_record r) as [|[]];
        try destruct (Z.even _); lia).
  pose proof (shr_fexp_bound _ e' loc_Exact H2) as H3.
  destruct (shr_fexp _ _ _ e' loc_Exact) as [r' e'']. cbn [fst] in H3.
  destruct r'.(shr_m); [done| |lia]. destruct (e'' <=? _); [split; [done|lia]|done].
Qed.

Lemma int_div_rounded s p q : rounded s (F64.int_div (if s then Z.neg p else Z.pos p) (Z.pos q)).
Proof.
  destruct s; unfold F64.int_div; cbn [F64.of_mantissa SFdiv xorb]; unfold SFdiv_core_binary.
  all: match goal with |- context [Z.div_eucl ?a ?b] =>
         assert (0 <= a) as Ha by
           (destruct (Z.sub _ _); [lia|apply Z.shiftl_nonneg; lia|lia]);
         pose proof (Z.div_pos a b Ha ltac:(lia)) as Hq; unfold Z.div in Hq;
         destruct (Z.div_eucl a b) end;
       by apply round_aux_rounded.
Qed.

(** The mantissa bound of a product. *)
Definition narrow (x : F64.t) : Prop :=
  match x with S754_finite _ m _ => Z.pos m < 2 ^ 53 | _ => True end.

Lemma rounded_narrow s x : rounded s x -> narrow x.
Proof. destruct x; cbn; tauto. Qed.

Lemma mul_narrow x y : narrow (F64.mul x y).
Proof.
  destruct x, y; cbn; try exact I.
  eapply rounded_narrow, round_aux_rounded. lia.
Qed.

Lemma div_half_even_le n d k : 0 < d -> n <= k * d -> F64.div_half_even n d <= k.
Proof.
  intros Hd Hn. unfold F64.div_half_even.
  pose proof (Z.div_mod n d ltac:(lia)). pose proof (Z.mod_pos_bound n d Hd).
  destruct (_ <? d) eqn:E1; [|destruct (d <? _) eqn:E2; [|destruct (Z.even _)]];
    bool_facts; nia.
Qed.

Lemma div_half_even_neg n d : 0 < d -> n <= 0 -> F64.div_half_even n d <= 0.
Proof. intros Hd Hn. apply div_half_even_le; lia. Qed.

Lemma of_Z_100 : F64.of_Z 100 = S754_finite false 7036874417766400 (-46).
Proof. reflexivity. Qed.

Lemma tenths_le_100 n :
  1 <= n <= 1000 -> F64.leb (F64.int_div n 10) (F64.of_Z 100) = true.
Proof.
  intros Hn.
  assert (forallb (fun k => F64.leb (F64.int_div (Z.of_nat k) 10) (F64.of_Z 100))
            (List.seq 1 1000) = true) as Hall by (vm_compute; reflexivity).
  rewrite forallb_forall in Hall. rewrite <- (Z2Nat.id n) by lia.
  apply Hall, in_seq. lia.
Qed.

Lemma negative_le_100 x : rounded true x -> F64.leb x (F64.of_Z 100) = true.
Proof.
  rewrite of_Z_100.
  destruct x; cbn [rounded]; [intros ->|intros ->|contradiction|intros [-> _]]; reflexivity.
Qed.

Lemma mantissa_lt m c :
  match Some (Pos.compare_cont Eq m c) with Some Lt => true | _ => false end = true ->
  Z.pos m < Z.pos c.
Proof.
  fold (Pos.compare m c). destruct (Pos.compare_spec m c); [discriminate|done|discriminate].
Qed.

(** The decimal numerator of a float below one hundred. *)
Lemma below_100_tenths m e :
  Z.pos m < 2 ^ 53 -> F64.ltb (S754_finite false m e) (F64.of_Z 100) = true ->
  e < 0 /\ F64.div_half_even (Z.pos m * 10) (2 ^ (- e)) <= 1000.
Proof.
  rewrite of_Z_100. intros Hm. unfold F64.ltb, SFltb. cbn [SFcompare].
  destruct (Z.compare_spec e (-46)) as [->|He|He]; [|intros _|discriminate].
  - intros Hc. split; [lia|]. apply div_half_even_le; [lia|].
    apply mantissa_lt in Hc. change (2 ^ (- -46)) with 70368744177664. lia.
  - split; [lia|]. apply div_half_even_le; [apply Z.pow_pos_nonneg; lia|].
    assert (2 ^ 47 <= 2 ^ (- e)) by (apply Z.pow_le_mono_r; lia).
    change (2 ^ 53) with (64 * 2 ^ 47) in Hm. lia.
Qed.

(** [round(min(100.0, x), 1)] is at most 100.0 for every rounded product [x]. *)
Lemma capped_round_le_100 x :
  narrow x ->
  F64.leb (F64.round_digits 1 (F64.pymin (F64.of_Z 100) x)) (F64.of_Z 100) = true.
Proof.
  intros Hx. unfold F64.pymin. destruct (F64.ltb x (F64.of_Z 100)) eqn:Hlt; [|reflexivity].
  destruct x as [s|s| |s m e]; try (by destruct s); try discriminate.
  cbn [F64.round_digits narrow] in *. change (10 ^ 1) with 10.
  destruct s.
  - match goal with |- context [match ?n with Z0 => _ | Zpos _ => _ | Zneg _ => _ end] =>
      assert (n <= 0) as Hn; [|destruct n as [|p|p]; [done|lia|]] end.
    + destruct (Z.leb_spec 0 e).
      * assert (0 < 2 ^ e) by (apply Z.pow_pos_nonneg; lia). nia.
      * apply div_half_even_neg; [apply Z.pow_pos_nonneg; lia|lia].
    + apply negative_le_100, (int_div_rounded true p 10).
  - destruct (below_100_tenths m e Hx Hlt) as [He Hn].
    rewrite (proj2 (Z.leb_gt 0 e) He).
    destruct (F64.div_half_even (Z.pos m * 10) (2 ^ (- e))) as [|p|p]; [done| |].
    + apply tenths_le_100. lia.
    + apply negative_le_100, (int_div_rounded true p 10).
Qed.

Lemma ltb_leb x y : F64.ltb x y = true -> F64.leb x y = true.
Proof. unfold F64.ltb, F64.leb, SFltb, SFleb. by destruct (SFcompare x y) as [[]|]. Qed.
