(* ===== verification/ProxyParser.v ===== *)
(** * The WinINET [ProxyServer] parser ([src/proxy_guard/parser.py])

    The two regular expressions of the module are written out as the
    deterministic scanners they denote: [host_port] for [_HOST_PORT] and
    [finditer_pair] for [_PAIR.finditer].  [parse_proxy_server] follows the
    function branch by branch. *)

From S2P Require Import Prelude PyValue.
From Stdlib Require Import Ascii String.
From stdpp Require Import strings.

Open Scope string_scope.
Open Scope Z_scope.

(** The [ProxyMode] literal of [src/core/models.py]. *)
Inductive ParsedMode :=
| missing
| malformed
| disabled_server_field
| manual_localhost
| manual_explicit
| socks_localhost
| http_https_localhost
| multi_scheme_explicit.

#[export] Instance ParsedMode_eq_dec : EqDecision ParsedMode.
Proof. solve_decision. Defined.

Record ParsedProxy := {
  pp_raw : option string;
  is_missing : bool;
  is_malformed : bool;
  is_localhost_proxy : bool;
  localhost_host : option string;
  localhost_port : option Z;
  pp_mode : ParsedMode;
  socks_port : option Z;
  http_localhost_port : option Z;
  https_localhost_port : option Z;
}.

Definition _is_local_host (host : string) : bool :=
  let h := PyStr.lower (PyStr.strip_chars "[]" (PyStr.strip host)) in
  PyStr.mem h ["127.0.0.1"; "localhost"; "::1"] || PyStr.startswith h "127.".

Definition is_some {A} (o : option A) : bool := match o with Some _ => true | None => false end.

Definition _mode_from_parts
    (raw : option string) (missing_ malformed_ is_localhost : bool)
    (localhost_port_ socks_port_ http_lp https_lp : option Z) : ParsedMode :=
  if missing_ then missing
  else if malformed_ then malformed
  else if is_some http_lp || is_some https_lp then
    if is_localhost then http_https_localhost else multi_scheme_explicit
  else if is_some socks_port_ then
    if is_localhost then socks_localhost else multi_scheme_explicit
  else if is_localhost && is_some localhost_port_ then manual_localhost
  else if is_some localhost_port_ then manual_explicit
  else match raw with
       | Some r => if PyStr.is_empty (PyStr.strip r) then disabled_server_field else malformed
       | None => malformed
       end.

(** [_HOST_PORT]: after the host, the end of the text or [:\d{1,5}] and the
    end.  [Some (host, port_text)] is a match. *)
Definition port_suffix (rest : string) : option (option string) :=
  match rest with
  | EmptyString => Some None
  | String ":" d =>
      let '(ds, r) := PyStr.span PyStr.is_digit d in
      if PyStr.is_empty r && negb (PyStr.is_empty ds) && (String.length ds <=? 5)%nat
      then Some (Some ds) else None
  | _ => None
  end.

Definition host_char (c : ascii) : bool := negb (PyStr.is_space c) && negb (Ascii.eqb c ":").

Definition bracket_char (c : ascii) : bool :=
  PyStr.is_digit c || Ascii.eqb c ":" || Ascii.eqb c "." ||
  let n := PyStr.code c in
  (((97 <=? n) && (n <=? 102)) || ((65 <=? n) && (n <=? 70)))%N.

Definition bracket_host (s : string) : option (string * string) :=
  match s with
  | String "[" s' =>
      let '(body, r) := PyStr.span bracket_char s' in
      match r with
      | String "]" r' =>
          if PyStr.is_empty body then None else Some ("[" ++ body ++ "]", r')
      | _ => None
      end
  | _ => None
  end.

Definition host_port (s : string) : option (string * option string) :=
  let alt2 :=
    match bracket_host s with
    | Some (h, r) => match port_suffix r with Some p => Some (h, p) | None => None end
    | None => None
    end in
  let '(h, r) := PyStr.span host_char s in
  if PyStr.is_empty h then alt2
  else match port_suffix r with Some p => Some (h, p) | None => alt2 end.

(** [(host, port, ok)]. *)
Definition _parse_host_port_segment (segment : string) : option string * option Z * bool :=
  let segment := PyStr.strip segment in
  if PyStr.is_empty segment then (None, None, false)
  else match host_port segment with
  | None => (None, None, false)
  | Some (host, None) => (Some host, None, false)
  | Some (host, Some port_s) =>
      match PyStr.to_int port_s with
      | Raise _ => (Some host, None, false)
      | Ok p => if (1 <=? p) && (p <=? 65535) then (Some host, Some p, true)
                else (Some host, None, false)
      end
  end.

(** One match of [_PAIR] at the head of the text:
    [(scheme, rest, remaining text)].  When only whitespace follows the equals
    sign the pattern gives its last character back to [rest]. *)
Definition match_pair (s : string) : option (string * string * string) :=
  let '(scheme, r) := PyStr.span PyStr.is_alpha s in
  if PyStr.is_empty scheme then None
  else match (PyStr.span PyStr.is_space r).2 with
  | String "=" r1 =>
      let '(ws, r2) := PyStr.span PyStr.is_space r1 in
      let '(rest, r3) := PyStr.span (fun c => negb (Ascii.eqb c ";")) r2 in
      if PyStr.is_empty rest then
        if PyStr.is_empty ws then None
        else Some (scheme, String.substring (String.length ws - 1) 1 ws, r3)
      else Some (scheme, rest, r3)
  | _ => None
  end.

Fixpoint finditer_fuel (fuel : nat) (s : string) : list (string * string) :=
  match fuel with
  | O => []
  | S f =>
      match s with
      | EmptyString => []
      | String _ s' =>
          match match_pair s with
          | Some (scheme, rest, r) => (scheme, rest) :: finditer_fuel f r
          | None => finditer_fuel f s'
          end
      end
  end.

(** Every step consumes a character: the length of the text is enough fuel. *)
Definition finditer_pair (s : string) : list (string * string) :=
  finditer_fuel (String.length s) s.

(** The loop state of the multi-scheme branch. *)
Record PairAcc := {
  pa_socks : option Z;
  pa_http : option Z;
  pa_https : option Z;
  pa_host : option string;
  pa_port : option Z;
  pa_local : bool;
  pa_ok : bool;
}.

Definition pair_init : PairAcc := {|
  pa_socks := None; pa_http := None; pa_https := None;
  pa_host := None; pa_port := None; pa_local := false; pa_ok := false |}.

(** [a or b] on optional ports, where [0] is falsy. *)
Definition or_port (a b : option Z) : option Z :=
  match a with
  | Some p => if p =? 0 then b else a
  | None => b
  end.

Definition pair_step (st : PairAcc) (pm : string * string) : PairAcc :=
  let scheme := PyStr.lower pm.1 in
  let rest := PyStr.strip pm.2 in
  match _parse_host_port_segment rest with
  | (Some host, Some port, true) =>
      let local := _is_local_host host in
      {| pa_ok := true;
         pa_local := if local then true else st.(pa_local);
         pa_host := if local then Some (PyStr.strip_chars "[]" host) else st.(pa_host);
         pa_port := if local then or_port st.(pa_port) (Some port) else st.(pa_port);
         pa_socks := if String.eqb scheme "socks" then Some port else st.(pa_socks);
         pa_http := if String.eqb scheme "http" then Some port else st.(pa_http);
         pa_https := if String.eqb scheme "https" then Some port else st.(pa_https) |}
  | _ => st
  end.

Definition missing_proxy (raw : option string) : ParsedProxy := {|
  pp_raw := raw; is_missing := true; is_malformed := false;
  is_localhost_proxy := false; localhost_host := None; localhost_port := None;
  pp_mode := missing; socks_port := None;
  http_localhost_port := None; https_localhost_port := None |}.

Definition malformed_proxy (raw : option string) : ParsedProxy := {|
  pp_raw := raw; is_missing := false; is_malformed := true;
  is_localhost_proxy := false; localhost_host := None; localhost_port := None;
  pp_mode := malformed; socks_port := None;
  http_localhost_port := None; https_localhost_port := None |}.

(** The branch for text with [scheme=] pairs. *)
Definition parse_pairs (raw : string) (pairs : list (string * string)) : ParsedProxy :=
  let st := foldl pair_step pair_init pairs in
  if negb st.(pa_ok) then malformed_proxy (Some raw)
  else
    let primary_port :=
      or_port st.(pa_port) (or_port st.(pa_https) (or_port st.(pa_http) st.(pa_socks))) in
    {| pp_raw := Some raw; is_missing := false; is_malformed := false;
       is_localhost_proxy := st.(pa_local);
       localhost_host := st.(pa_host);
       localhost_port := if st.(pa_local) then primary_port else None;
       pp_mode := _mode_from_parts (Some raw) false false st.(pa_local) primary_port
                    st.(pa_socks) st.(pa_http) st.(pa_https);
       socks_port := st.(pa_socks);
       http_localhost_port := st.(pa_http);
       https_localhost_port := st.(pa_https) |}.

(** The branch for a single [host:port]. *)
Definition parse_single (raw text : string) : ParsedProxy :=
  match _parse_host_port_segment text with
  | (Some host, Some port, true) =>
      let local := _is_local_host host in
      {| pp_raw := Some raw; is_missing := false; is_malformed := false;
         is_localhost_proxy := local;
         localhost_host := if local then Some (PyStr.strip_chars "[]" host) else None;
         localhost_port := Some port;
         pp_mode := _mode_from_parts (Some raw) false false local (Some port) None None None;
         socks_port := None; http_localhost_port := None; https_localhost_port := None |}
  | _ => malformed_proxy (Some raw)
  end.

Definition parse_proxy_server (raw : option string) : ParsedProxy :=
  match raw with
  | None => missing_proxy None
  | Some r =>
      let text := PyStr.strip r in
      if PyStr.is_empty text then missing_proxy (Some r)
      else match finditer_pair text with
           | [] => parse_single r text
           | pairs => parse_pairs r pairs
           end
  end.

Inductive RiskLabel := risk_low | risk_medium | risk_high.

Definition summarize_proxy_risk (parsed : ParsedProxy) (proxy_enable_is_on : bool) : RiskLabel :=
  if negb proxy_enable_is_on then risk_low
  else if parsed.(is_localhost_proxy) then risk_high
  else if bool_decide (parsed.(pp_mode) ∈ [manual_explicit; multi_scheme_explicit; socks_localhost])
  then risk_medium
  else if parsed.(is_malformed) then risk_medium
  else risk_low.

(** ** Termination of the scan: more fuel never changes the matches. *)

Lemma span_snd_length p s : (String.length (PyStr.span p s).2 <= String.length s)%nat.
Proof.
  induction s as [|c s IH]; cbn; [lia|]. destruct (p c); cbn; [|lia].
  destruct (PyStr.span p s). cbn in *. lia.
Qed.

Lemma span_snd_length_lt p s :
  PyStr.is_empty (PyStr.span p s).1 = false ->
  (String.length (PyStr.span p s).2 < String.length s)%nat.
Proof.
  destruct s as [|c s]; cbn; [done|]. destruct (p c); cbn; [|done].
  pose proof (span_snd_length p s). destruct (PyStr.span p s). cbn in *. lia.
Qed.

Lemma match_pair_shorter s scheme rest r :
  match_pair s = Some (scheme, rest, r) -> (String.length r < String.length s)%nat.
Proof.
  unfold match_pair.
  pose proof (span_snd_length_lt PyStr.is_alpha s) as H0.
  destruct (PyStr.span PyStr.is_alpha s) as [a r0]. cbn in H0.
  destruct (PyStr.is_empty a); [done|]. specialize (H0 eq_refl).
  pose proof (span_snd_length PyStr.is_space r0) as H1.
  destruct (PyStr.span PyStr.is_space r0).2 as [|c r1]; [done|].
  destruct c as [[] [] [] [] [] [] [] []]; try done.
  pose proof (span_snd_length PyStr.is_space r1) as H2.
  destruct (PyStr.span PyStr.is_space r1) as [ws r2].
  pose proof (span_snd_length (fun c => negb (Ascii.eqb c ";")) r2) as H3.
  destruct (PyStr.span (fun c => negb (Ascii.eqb c ";")) r2) as [b r3]. cbn in *.
  destruct (PyStr.is_empty b), (PyStr.is_empty ws); intros [= <- <- <-]; lia.
Qed.

Lemma finditer_fuel_irrelevant f g s :
  (String.length s <= f)%nat -> (String.length s <= g)%nat ->
  finditer_fuel f s = finditer_fuel g s.
Proof.
  revert g s. induction f as [|f IH]; intros [|g] [|c s] Hf Hg; cbn [finditer_fuel];
    try done; cbn in Hf, Hg; try lia.
  destruct (match_pair (String c s)) as [[[sc rest] r]|] eqn:E.
  - apply match_pair_shorter in E. cbn in E. f_equal. apply IH; lia.
  - apply IH; lia.
Qed.

(** ** Well-formedness of the parse *)

Definition port_ok (o : option Z) : Prop :=
  match o with Some p => 1 <= p <= 65535 | None => True end.

Definition local_mode (m : ParsedMode) : bool :=
  match m with manual_localhost | socks_localhost | http_https_localhost => true | _ => false end.

Record parsed_wf (r : ParsedProxy) : Prop := {
  wf_port : port_ok r.(localhost_port);
  wf_socks : port_ok r.(socks_port);
  wf_http : port_ok r.(http_localhost_port);
  wf_https : port_ok r.(https_localhost_port);
  wf_exclusive : r.(is_missing) && r.(is_malformed) = false;
  wf_missing_mode : r.(is_missing) = bool_decide (r.(pp_mode) = missing);
  wf_local_mode : r.(is_localhost_proxy) = local_mode r.(pp_mode);
  wf_local : r.(is_localhost_proxy) = true ->
    is_some r.(localhost_host) = true /\ is_some r.(localhost_port) = true;
  wf_no_parse : r.(is_missing) || r.(is_malformed) = true ->
    r.(is_localhost_proxy) = false /\ r.(localhost_host) = None /\ r.(localhost_port) = None;
}.

Lemma segment_port s h p :
  _parse_host_port_segment s = (Some h, Some p, true) -> 1 <= p <= 65535.
Proof.
  unfold _parse_host_port_segment. intros H.
  repeat (split_hyp H; try done); injection H as <- <-; lia.
Qed.

Record acc_wf (st : PairAcc) : Prop := {
  aw_socks : port_ok st.(pa_socks);
  aw_http : port_ok st.(pa_http);
  aw_https : port_ok st.(pa_https);
  aw_port : port_ok st.(pa_port);
  aw_local : st.(pa_local) = is_some st.(pa_port);
  aw_host : st.(pa_local) = is_some st.(pa_host);
}.

Lemma or_port_ok a b : port_ok a -> port_ok b -> port_ok (or_port a b).
Proof. destruct a as [p|]; cbn; [destruct (p =? 0)|]; done. Qed.

Lemma or_port_some a b : port_ok a -> is_some (or_port a b) = is_some a || is_some b.
Proof. destruct a as [p|]; cbn; [|done]. intros H. by destruct (p =? 0) eqn:E; [lia|]. Qed.

#[export] Hint Resolve or_port_ok : toolkit.

Lemma pair_step_wf st pm : acc_wf st -> acc_wf (pair_step st pm).
Proof.
  intros [Hs Hh Hhs Hp Hl Hho]. unfold pair_step.
  destruct (_parse_host_port_segment _) as [[[h|] [p|]] []] eqn:E;
    try (constructor; assumption).
  apply segment_port in E.
  constructor; cbn; repeat split_goal; cbn; auto with toolkit;
    rewrite ?or_port_some by done; cbn; by rewrite ?orb_true_r.
Qed.

Lemma pairs_wf pairs : acc_wf (foldl pair_step pair_init pairs).
Proof.
  assert (forall st, acc_wf st -> acc_wf (foldl pair_step st pairs)) as H.
  { induction pairs as [|pm pairs IH]; cbn; auto using pair_step_wf. }
  apply H. by constructor.
Qed.

Lemma mode_local raw local lp sp hp hsp :
  local = true -> is_some lp = true -> local_mode (_mode_from_parts raw false false local lp sp hp hsp) = true.
Proof. intros -> Hlp. unfold _mode_from_parts. rewrite Hlp. by repeat split_goal. Qed.

Lemma mode_not_local raw lp sp hp hsp :
  local_mode (_mode_from_parts raw false false false lp sp hp hsp) = false.
Proof. unfold _mode_from_parts. cbn. by repeat split_goal. Qed.

Lemma mode_not_missing raw local lp sp hp hsp :
  bool_decide (_mode_from_parts raw false false local lp sp hp hsp = missing) = false.
Proof. unfold _mode_from_parts. cbn. by repeat split_goal. Qed.

Lemma parse_pairs_wf raw pairs : parsed_wf (parse_pairs raw pairs).
Proof.
  unfold parse_pairs. destruct (pairs_wf pairs) as [Hs Hh Hhs Hp Hl Hho].
  destruct (foldl _ _ _) as [so ht hs ho po lo ok]. cbn -[_mode_from_parts] in *.
  destruct ok; [|by constructor].
  constructor; cbn -[_mode_from_parts]; auto with toolkit.
  - destruct lo; cbn; auto with toolkit.
  - by rewrite mode_not_missing.
  - destruct lo; [|by rewrite mode_not_local].
    rewrite mode_local; [done..|]. by rewrite or_port_some, <- Hl.
  - intros ->. by rewrite or_port_some, <- Hl, <- Hho.
  - done.
Qed.

Lemma parse_single_wf raw text : parsed_wf (parse_single raw text).
Proof.
  unfold parse_single.
  destruct (_parse_host_port_segment text) as [[[h|] [p|]] []] eqn:E; try by constructor.
  apply segment_port in E. constructor; cbn -[_mode_from_parts]; try done.
  - by rewrite mode_not_missing.
  - destruct (_is_local_host h); [by rewrite mode_local|by rewrite mode_not_local].
  - by intros ->.
Qed.

(** C39: whatever text the registry holds, the parse is well formed: every port
    it reports is a TCP port (1..65535), "missing" and "malformed" exclude each
    other and report no host or port, the localhost flag agrees with the mode,
    and a localhost proxy always comes with its host and its port. *)
Theorem parse_proxy_server_wf raw : parsed_wf (parse_proxy_server raw).
Proof.
  destruct raw as [r|]; cbn; [|by constructor].
  destruct (PyStr.is_empty (PyStr.strip r)); [by constructor|].
  destruct (finditer_pair (PyStr.strip r)); [apply parse_single_wf|apply parse_pairs_wf].
Qed.

(** ** Round trip of [host:port] *)

Definition plain_host_char (c : ascii) : bool := host_char c && negb (Ascii.eqb c "=").

Lemma plain_host_char_no_space c : plain_host_char c = true -> PyStr.is_space c = false.
Proof.
  unfold plain_host_char, host_char. intros H. by bool_facts.
Qed.

Lemma all_chars_span_snd q p s :
  PyStr.all_chars q s = true -> PyStr.all_chars q (PyStr.span p s).2 = true.
Proof.
  intros H. rewrite <- (PyStr.span_app p s), PyStr.all_chars_app in H.
  by apply andb_true_iff in H as [_ H].
Qed.

Lemma match_pair_no_eq s :
  PyStr.all_chars (fun c => negb (Ascii.eqb c "=")) s = true -> match_pair s = None.
Proof.
  intros H. unfold match_pair.
  pose proof (all_chars_span_snd _ PyStr.is_alpha s H) as H1.
  destruct (PyStr.span PyStr.is_alpha s) as [a r]. cbn in H1.
  destruct (PyStr.is_empty a); [done|].
  pose proof (all_chars_span_snd _ PyStr.is_space r H1) as H2.
  destruct (PyStr.span PyStr.is_space r).2 as [|c r1]; [done|].
  by destruct c as [[] [] [] [] [] [] [] []].
Qed.

Lemma finditer_no_eq s :
  PyStr.all_chars (fun c => negb (Ascii.eqb c "=")) s = true -> finditer_pair s = [].
Proof.
  unfold finditer_pair. generalize (String.length s) as f. intros f. revert s.
  induction f as [|f IH]; intros s H; [done|]. destruct s as [|c s]; [done|].
  cbn [finditer_fuel]. rewrite match_pair_no_eq by done.
  apply IH. cbn in H. by apply andb_true_iff in H as [_ ?].
Qed.

Lemma port_suffix_port p :
  1 <= p <= 65535 -> port_suffix (String ":" (PyStr.of_Z p)) = Some (Some (PyStr.of_Z p)).
Proof.
  intros Hp. cbn. rewrite PyStr.span_all by (apply PyStr.of_Z_digits; lia).
  rewrite PyStr.of_Z_nonempty by lia. cbn.
  destruct (Nat.leb_spec (String.length (PyStr.of_Z p)) 5) as [|Hlt]; [done|].
  pose proof (PyStr.of_Z_length p 5). lia.
Qed.

Lemma host_port_text_chars (q : ascii -> bool) h p :
  0 <= p -> PyStr.all_chars q h = true -> q ":"%char = true ->
  (forall c, PyStr.is_digit c = true -> q c = true) ->
  PyStr.all_chars q (h ++ String ":" (PyStr.of_Z p)) = true.
Proof.
  intros Hp Hh Hc Hd. rewrite PyStr.all_chars_app, Hh. cbn. rewrite Hc. cbn.
  eapply PyStr.all_chars_impl; [exact Hd|]. by apply PyStr.of_Z_digits.
Qed.

Lemma host_port_text_strip h p :
  PyStr.all_chars plain_host_char h = true -> 0 <= p ->
  PyStr.strip (h ++ String ":" (PyStr.of_Z p)) = h ++ String ":" (PyStr.of_Z p).
Proof.
  intros Hh Hp. apply PyStr.strip_none, host_port_text_chars; [lia| |done|].
  - eapply PyStr.all_chars_impl; [|exact Hh]. intros c Hc. by rewrite plain_host_char_no_space.
  - intros c Hc. by rewrite PyStr.is_digit_not_space.
Qed.

Lemma segment_host_port h p :
  h <> "" -> PyStr.all_chars plain_host_char h = true -> 1 <= p <= 65535 ->
  _parse_host_port_segment (h ++ String ":" (PyStr.of_Z p)) = (Some h, Some p, true).
Proof.
  intros Hne Hh Hp. unfold _parse_host_port_segment.
  rewrite host_port_text_strip by (done || lia).
  destruct (h ++ String ":" (PyStr.of_Z p)) as [|c0 r0] eqn:E; [by destruct h|]. cbn [PyStr.is_empty].
  rewrite <- E. unfold host_port.
  rewrite PyStr.span_stop; [|eapply PyStr.all_chars_impl; [|exact Hh];
    intros c Hc; by apply andb_true_iff in Hc as [? _]|done].
  rewrite (proj2 (PyStr.is_empty_false h) Hne), port_suffix_port by done.
  rewrite PyStr.to_int_of_Z by lia.
  by replace ((1 <=? p) && (p <=? 65535)) with true by lia.
Qed.

(** Printing a host and a port and parsing the text gives them back: for a
    host without whitespace, colon or equals sign and a TCP port, the parse of
    [host:port] is neither missing nor malformed, reports exactly that port,
    and is a localhost proxy exactly when the host is a loopback name. *)
Theorem parse_host_port_roundtrip h p :
  h <> "" -> PyStr.all_chars plain_host_char h = true -> 1 <= p <= 65535 ->
  let r := parse_proxy_server (Some (h ++ ":" ++ PyStr.of_Z p)) in
  r.(is_missing) = false /\ r.(is_malformed) = false /\
  r.(localhost_port) = Some p /\
  r.(is_localhost_proxy) = _is_local_host h /\
  r.(localhost_host) = (if _is_local_host h then Some (PyStr.strip_chars "[]" h) else None) /\
  r.(pp_mode) = (if _is_local_host h then manual_localhost else manual_explicit).
Proof.
  intros Hne Hh Hp. change (h ++ ":" ++ PyStr.of_Z p) with (h ++ String ":" (PyStr.of_Z p)).
  cbn. rewrite host_port_text_strip by (done || lia).
  replace (PyStr.is_empty (h ++ String ":" (PyStr.of_Z p))) with false by (by destruct h).
  rewrite finditer_no_eq.
  2: { apply host_port_text_chars; [lia| |done|].
       - eapply PyStr.all_chars_impl; [|exact Hh]. by intros c [_ ?]%andb_true_iff.
       - by intros [[] [] [] [] [] [] [] []]. }
  unfold parse_single. rewrite segment_host_port by done.
  unfold _mode_from_parts. cbn. by destruct (_is_local_host h).
Qed.

Lemma parse_host_port_roundtrip_witness :
  (parse_proxy_server (Some ("127.0.0.1" ++ ":" ++ PyStr.of_Z 59081))).(pp_mode) = manual_localhost.
Proof.
  destruct (parse_host_port_roundtrip "127.0.0.1" 59081) as (_ & _ & _ & _ & _ & H);
    [done|reflexivity|lia|]. rewrite H. reflexivity.
Defined.
