(* ===== verification/ProxyState.v ===== *)
(** * WinINET proxy state and transition classes

    [windows_network_toolkit/proxy_state_machine.py], first half: the
    normalisation of a registry snapshot, the comparison of two states and
    [classify_transition], which labels a before/after pair.  A snapshot is a
    dictionary of Python values; [int] on an infinite float is the one
    exception that escapes the handlers of the code. *)

From S2P Require Import Prelude PyValue ProxyParser.
From Stdlib Require Import Ascii String SpecFloat.
From stdpp Require Import strings.

Open Scope string_scope.
Open Scope Z_scope.
Open Scope py_scope.

(** ** Enumerations *)

Module ProxyMode.
Inductive proxyMode :=
| DISABLED | LOCALHOST_PROXY | REMOTE_PROXY | PAC_CONFIGURED
| AUTODETECT | INCONSISTENT | UNKNOWN.

Abbreviation t := proxyMode.

#[export] Instance proxyMode_eq_dec : EqDecision t.
Proof. solve_decision. Defined.

Definition mode_value (m : t) : string :=
  match m with
  | DISABLED => "DISABLED"
  | LOCALHOST_PROXY => "LOCALHOST_PROXY"
  | REMOTE_PROXY => "REMOTE_PROXY"
  | PAC_CONFIGURED => "PAC_CONFIGURED"
  | AUTODETECT => "AUTODETECT"
  | INCONSISTENT => "INCONSISTENT"
  | UNKNOWN => "UNKNOWN"
  end.

Definition proxyMode_eqb (a b : t) : bool := bool_decide (a = b).
End ProxyMode.

Module TransitionClass.
Inductive transitionClass :=
| NO_CHANGE
| PROXY_DISABLED
| PROXY_SERVER_REMOVED
| PROXY_SERVER_REMOVED_PARTIAL
| PROXY_DISABLED_AND_SERVER_REMOVED
| LOCALHOST_PROXY_ENABLED
| REMOTE_OR_NON_LOOPBACK_PROXY_CONFIGURED
| PROXY_SERVER_CHANGED_TO_REMOTE
| PROXY_ENABLED_WITH_NO_SERVER
| PAC_CONFIGURED
| PAC_REMOVED
| AUTODETECT_ENABLED
| WININET_WINHTTP_MISMATCH
| LOCALHOST_PROXY_PORT_CHANGED
| REVERTER_SUSPECTED_LOCALHOST_PROXY_LOOP
| ERROR_INSUFFICIENT_DATA.

Abbreviation t := transitionClass.

#[export] Instance transitionClass_eq_dec : EqDecision t.
Proof. solve_decision. Defined.

Definition class_value (c : t) : string :=
  match c with
  | NO_CHANGE => "NO_CHANGE"
  | PROXY_DISABLED => "PROXY_DISABLED"
  | PROXY_SERVER_REMOVED => "PROXY_SERVER_REMOVED"
  | PROXY_SERVER_REMOVED_PARTIAL => "PROXY_SERVER_REMOVED_PARTIAL"
  | PROXY_DISABLED_AND_SERVER_REMOVED => "PROXY_DISABLED_AND_SERVER_REMOVED"
  | LOCALHOST_PROXY_ENABLED => "LOCALHOST_PROXY_ENABLED"
  | REMOTE_OR_NON_LOOPBACK_PROXY_CONFIGURED => "REMOTE_OR_NON_LOOPBACK_PROXY_CONFIGURED"
  | PROXY_SERVER_CHANGED_TO_REMOTE => "PROXY_SERVER_CHANGED_TO_REMOTE"
  | PROXY_ENABLED_WITH_NO_SERVER => "PROXY_ENABLED_WITH_NO_SERVER"
  | PAC_CONFIGURED => "PAC_CONFIGURED"
  | PAC_REMOVED => "PAC_REMOVED"
  | AUTODETECT_ENABLED => "AUTODETECT_ENABLED"
  | WININET_WINHTTP_MISMATCH => "WININET_WINHTTP_MISMATCH"
  | LOCALHOST_PROXY_PORT_CHANGED => "LOCALHOST_PROXY_PORT_CHANGED"
  | REVERTER_SUSPECTED_LOCALHOST_PROXY_LOOP => "REVERTER_SUSPECTED_LOCALHOST_PROXY_LOOP"
  | ERROR_INSUFFICIENT_DATA => "ERROR_INSUFFICIENT_DATA"
  end.

Definition all_classes : list t :=
  [NO_CHANGE; PROXY_DISABLED; PROXY_SERVER_REMOVED; PROXY_SERVER_REMOVED_PARTIAL;
   PROXY_DISABLED_AND_SERVER_REMOVED; LOCALHOST_PROXY_ENABLED;
   REMOTE_OR_NON_LOOPBACK_PROXY_CONFIGURED; PROXY_SERVER_CHANGED_TO_REMOTE;
   PROXY_ENABLED_WITH_NO_SERVER; PAC_CONFIGURED; PAC_REMOVED; AUTODETECT_ENABLED;
   WININET_WINHTTP_MISMATCH; LOCALHOST_PROXY_PORT_CHANGED;
   REVERTER_SUSPECTED_LOCALHOST_PROXY_LOOP; ERROR_INSUFFICIENT_DATA].

(** [TransitionClass(text)], [None] for its [ValueError]. *)
Definition class_of_value (s : string) : option t :=
  find (fun c => String.eqb s (class_value c)) all_classes.

Definition transitionClass_eqb (a b : t) : bool := bool_decide (a = b).

Lemma class_of_value_inv c : class_of_value (class_value c) = Some c.
Proof. by destruct c. Qed.
End TransitionClass.

Module PrimaryClassification.
Inductive primaryClassification :=
| NO_CHANGE
| LOCALHOST_PROXY_REMOVED
| PROXY_REMOVED
| PROXY_DISABLED_OR_REMOVED
| LOCALHOST_PROXY_CONFIGURED
| LOCALHOST_PROXY_PORT_CHANGED
| PROXY_SERVER_CHANGED_TO_REMOTE
| REMOTE_PROXY_CONFIGURED
| PAC_CONFIGURED
| PAC_REMOVED
| PROXY_ENABLED_INCONSISTENT
| WININET_WINHTTP_MISMATCH
| REVERTER_SUSPECTED
| INSUFFICIENT_DATA.

Abbreviation t := primaryClassification.

#[export] Instance primaryClassification_eq_dec : EqDecision t.
Proof. solve_decision. Defined.

Definition primary_value (c : t) : string :=
  match c with
  | NO_CHANGE => "NO_CHANGE"
  | LOCALHOST_PROXY_REMOVED => "LOCALHOST_PROXY_REMOVED"
  | PROXY_REMOVED => "PROXY_REMOVED"
  | PROXY_DISABLED_OR_REMOVED => "PROXY_DISABLED_OR_REMOVED"
  | LOCALHOST_PROXY_CONFIGURED => "LOCALHOST_PROXY_CONFIGURED"
  | LOCALHOST_PROXY_PORT_CHANGED => "LOCALHOST_PROXY_PORT_CHANGED"
  | PROXY_SERVER_CHANGED_TO_REMOTE => "PROXY_SERVER_CHANGED_TO_REMOTE"
  | REMOTE_PROXY_CONFIGURED => "REMOTE_PROXY_CONFIGURED"
  | PAC_CONFIGURED => "PAC_CONFIGURED"
  | PAC_REMOVED => "PAC_REMOVED"
  | PROXY_ENABLED_INCONSISTENT => "PROXY_ENABLED_INCONSISTENT"
  | WININET_WINHTTP_MISMATCH => "WININET_WINHTTP_MISMATCH"
  | REVERTER_SUSPECTED => "REVERTER_SUSPECTED"
  | INSUFFICIENT_DATA => "INSUFFICIENT_DATA"
  end.
End PrimaryClassification.

#[export] Existing Instance ProxyMode.proxyMode_eq_dec.
#[export] Existing Instance TransitionClass.transitionClass_eq_dec.
#[export] Existing Instance PrimaryClassification.primaryClassification_eq_dec.

(** ** Normalised state *)

Record ProxyWininetState := {
  proxy_enable : bool;
  proxy_server : option string;
  auto_config_url : option string;
  auto_detect : option bool;
  proxy_override : option string;
  parsed_host : option string;
  parsed_port : option Z;
  proxy_mode : ProxyMode.t;
  winhttp_direct_access : option bool;
}.

Definition to_dict (st : ProxyWininetState) : pydict := [
  "proxy_enable" :-> PBool st.(proxy_enable);
  "proxy_server" :-> of_opt PStr st.(proxy_server);
  "auto_config_url" :-> of_opt PStr st.(auto_config_url);
  "auto_detect" :-> of_opt PBool st.(auto_detect);
  "proxy_override" :-> of_opt PStr st.(proxy_override);
  "parsed_host" :-> of_opt PStr st.(parsed_host);
  "parsed_port" :-> of_opt PInt st.(parsed_port);
  "proxy_mode" :-> PStr (ProxyMode.mode_value st.(proxy_mode));
  "winhttp_direct_access" :-> of_opt PBool st.(winhttp_direct_access)].

(** [_server_empty] on an optional string field of a normalised state. *)
Definition _server_empty (val : option string) : bool :=
  match val with
  | None => true
  | Some s => PyStr.is_empty (PyStr.strip s)
  end.

(** Truthiness of optional fields. *)
Definition truthy_str (o : option string) : bool :=
  match o with Some s => negb (PyStr.is_empty s) | None => false end.
Definition truthy_bool (o : option bool) : bool :=
  match o with Some b => b | None => false end.
Definition truthy_int (o : option Z) : bool :=
  match o with Some z => negb (z =? 0) | None => false end.

(** The flag conversion of [ProxyEnable] and [AutoDetect]: [None] stays
    unknown, a bool is itself, anything else is [int(v) == 1], and [bool(v)]
    when [int] rejects it. *)
Definition flag_of (v : pyval) : result (option bool) :=
  match v with
  | PNone => Ok None
  | PBool b => Ok (Some b)
  | _ =>
      b ← try_except (z ← py_int v; Ok (z =? 1)) type_or_value_error (py_bool v);
      Ok (Some b)
  end.

(** The mode derived from the normalised fields. *)
Definition derive_mode (parsed : ParsedProxy) (enable : bool) (server pac_str : option string)
    (auto_det : option bool) (port : option Z) : ProxyMode.t :=
  if parsed.(is_malformed) && enable then ProxyMode.INCONSISTENT
  else if negb enable && _server_empty server && negb (truthy_str pac_str)
          && negb (truthy_bool auto_det)
  then ProxyMode.DISABLED
  else if truthy_str pac_str then ProxyMode.PAC_CONFIGURED
  else if truthy_bool auto_det && negb enable && _server_empty server
  then ProxyMode.AUTODETECT
  else if enable && parsed.(is_localhost_proxy) && truthy_int port
  then ProxyMode.LOCALHOST_PROXY
  else if enable && negb (_server_empty server) && negb parsed.(is_localhost_proxy)
  then ProxyMode.REMOTE_PROXY
  else if enable && _server_empty server && negb (truthy_str pac_str)
  then ProxyMode.INCONSISTENT
  else if negb enable && negb (_server_empty server)
  then ProxyMode.INCONSISTENT
  else ProxyMode.UNKNOWN.

Section WithHost.
Context {H : PyHost}.

Definition server_of (server_raw : pyval) : option string :=
  match server_raw with
  | PNone => None
  | PStr s => if PyStr.is_empty (PyStr.strip s) then None else Some (PyStr.strip s)
  | v => Some (PyStr.strip (py_str v))
  end.

(** [str(v).strip() if v not in (None, "") else None]. *)
Definition text_of (v : pyval) : option string :=
  if none_or_empty v then None else Some (PyStr.strip (py_str v)).

Definition normalize_proxy_state (raw : option pydict) : result ProxyWininetState :=
  let raw := default [] raw in
  let enable_raw :=
    Dict.get_default "proxy_enable"
      (Dict.get_default "ProxyEnable" (Dict.get "wininet_proxy_enabled" raw) raw) raw in
  enable_o ← flag_of enable_raw;
  let enable := default false enable_o in
  let server := server_of
    (Dict.get_default "proxy_server"
       (Dict.get_default "ProxyServer" (Dict.get "wininet_proxy_server" raw) raw) raw) in
  let pac_str := text_of
    (Dict.get_default "auto_config_url"
       (Dict.get_default "AutoConfigURL" (Dict.get "wininet_auto_config_url" raw) raw) raw) in
  auto_det ← flag_of (Dict.get_default "auto_detect" (Dict.get "AutoDetect" raw) raw);
  let override := text_of
    (Dict.get_default "proxy_override"
       (Dict.get_default "ProxyOverride" (Dict.get "wininet_proxy_override" raw) raw) raw) in
  let winhttp_val :=
    match Dict.get "winhttp_direct_access" raw with
    | PNone => None
    | v => Some (py_bool v)
    end in
  let parsed := parse_proxy_server server in
  let host := if parsed.(is_localhost_proxy) then parsed.(localhost_host) else None in
  port ←
    match parsed.(localhost_port), Dict.get "localhost_port" raw with
    | None, PNone => Ok None
    | None, v => try_except (z ← py_int v; Ok (Some z)) type_or_value_error None
    | Some p, _ => Ok (Some p)
    end;
  Ok {| proxy_enable := enable;
        proxy_server := server;
        auto_config_url := pac_str;
        auto_detect := auto_det;
        proxy_override := override;
        parsed_host := host;
        parsed_port := port;
        proxy_mode := derive_mode parsed enable server pac_str auto_det port;
        winhttp_direct_access := winhttp_val |}.

Definition states_equal (a b : ProxyWininetState) : bool :=
  Bool.eqb a.(proxy_enable) b.(proxy_enable)
  && bool_decide (a.(proxy_server) = b.(proxy_server))
  && bool_decide (a.(auto_config_url) = b.(auto_config_url))
  && bool_decide (a.(auto_detect) = b.(auto_detect))
  && bool_decide (a.(proxy_override) = b.(proxy_override)).

Definition mode_is (st : ProxyWininetState) (m : ProxyMode.t) : bool :=
  ProxyMode.proxyMode_eqb st.(proxy_mode) m.

Definition server_removed (before after : ProxyWininetState) : bool :=
  negb (_server_empty before.(proxy_server)) && _server_empty after.(proxy_server).
Definition enable_off (before after : ProxyWininetState) : bool :=
  before.(proxy_enable) && negb after.(proxy_enable).
Definition enable_on (before after : ProxyWininetState) : bool :=
  negb before.(proxy_enable) && after.(proxy_enable).
Definition pac_added (before after : ProxyWininetState) : bool :=
  _server_empty before.(auto_config_url) && negb (_server_empty after.(auto_config_url)).
Definition pac_removed (before after : ProxyWininetState) : bool :=
  negb (_server_empty before.(auto_config_url)) && _server_empty after.(auto_config_url).
Definition pac_changed (before after : ProxyWininetState) : bool :=
  negb (_server_empty before.(auto_config_url))
  && negb (_server_empty after.(auto_config_url))
  && negb (bool_decide (before.(auto_config_url) = after.(auto_config_url))).
Definition autodetect_on (before after : ProxyWininetState) : bool :=
  negb (truthy_bool before.(auto_detect)) && truthy_bool after.(auto_detect).
Definition localhost_to_remote (before after : ProxyWininetState) : bool :=
  mode_is before ProxyMode.LOCALHOST_PROXY
  && mode_is after ProxyMode.REMOTE_PROXY
  && negb (_server_empty after.(proxy_server)).

(** The mismatch flag: the caller's, or inferred from the after state. *)
Definition effective_mismatch (winhttp_mismatch : option bool) (after : ProxyWininetState) : bool :=
  match winhttp_mismatch, after.(winhttp_direct_access) with
  | Some b, _ => b
  | None, Some d => after.(proxy_enable) && d
  | None, None => false
  end.

(** The decision list of [classify_transition] on normalised states. *)
Definition classify_states (before after : ProxyWininetState) (winhttp_mismatch : option bool)
    : TransitionClass.t :=
  if states_equal before after then TransitionClass.NO_CHANGE
  else if enable_off before after && server_removed before after
  then TransitionClass.PROXY_DISABLED_AND_SERVER_REMOVED
  else if server_removed before after && after.(proxy_enable)
  then TransitionClass.PROXY_SERVER_REMOVED_PARTIAL
  else if server_removed before after && negb after.(proxy_enable)
  then TransitionClass.PROXY_SERVER_REMOVED
  else if enable_off before after then TransitionClass.PROXY_DISABLED
  else if effective_mismatch winhttp_mismatch after && after.(proxy_enable)
  then TransitionClass.WININET_WINHTTP_MISMATCH
  else if after.(proxy_enable) && _server_empty after.(proxy_server)
          && negb (truthy_str after.(auto_config_url))
  then TransitionClass.PROXY_ENABLED_WITH_NO_SERVER
  else if after.(proxy_enable) && mode_is after ProxyMode.INCONSISTENT
  then TransitionClass.PROXY_ENABLED_WITH_NO_SERVER
  else if pac_removed before after then TransitionClass.PAC_REMOVED
  else if pac_added before after || pac_changed before after
  then TransitionClass.PAC_CONFIGURED
  else if autodetect_on before after then TransitionClass.AUTODETECT_ENABLED
  else if mode_is before ProxyMode.LOCALHOST_PROXY
          && mode_is after ProxyMode.LOCALHOST_PROXY
          && negb (bool_decide (before.(parsed_port) = after.(parsed_port)))
          && is_some before.(parsed_port) && is_some after.(parsed_port)
  then TransitionClass.LOCALHOST_PROXY_PORT_CHANGED
  else if enable_on before after && mode_is after ProxyMode.LOCALHOST_PROXY
  then TransitionClass.LOCALHOST_PROXY_ENABLED
  else if localhost_to_remote before after
  then TransitionClass.PROXY_SERVER_CHANGED_TO_REMOTE
  else if after.(proxy_enable) && negb (_server_empty after.(proxy_server))
          && mode_is after ProxyMode.REMOTE_PROXY
  then TransitionClass.REMOTE_OR_NON_LOOPBACK_PROXY_CONFIGURED
  else if mode_is after ProxyMode.PAC_CONFIGURED
          && negb (pac_added before after || pac_changed before after)
  then TransitionClass.PAC_CONFIGURED
  else TransitionClass.ERROR_INSUFFICIENT_DATA.

Definition classify_transition (before_raw after_raw : option pydict)
    (winhttp_mismatch : option bool) : result TransitionClass.t :=
  match before_raw, after_raw with
  | Some b, Some a =>
      before ← normalize_proxy_state (Some b);
      after ← normalize_proxy_state (Some a);
      Ok (classify_states before after winhttp_mismatch)
  | _, _ => Ok TransitionClass.ERROR_INSUFFICIENT_DATA
  end.
End WithHost.

(** ** Normal form of a state *)

Section Properties.
Context {H : PyHost}.

Lemma parse_is_missing o : (parse_proxy_server o).(is_missing) = _server_empty o.
Proof.
  destruct o as [s|]; cbn; [|done].
  destruct (PyStr.is_empty (PyStr.strip s)); [done|].
  destruct (finditer_pair _); unfold parse_single, parse_pairs; by repeat split_goal.
Qed.

(** What [normalize_proxy_state] guarantees about its result. *)
Record normal_form (st : ProxyWininetState) : Prop := {
  nf_mode : st.(proxy_mode) =
    derive_mode (parse_proxy_server st.(proxy_server)) st.(proxy_enable) st.(proxy_server)
      st.(auto_config_url) st.(auto_detect) st.(parsed_port);
  nf_host : st.(parsed_host) =
    (let parsed := parse_proxy_server st.(proxy_server) in
     if parsed.(is_localhost_proxy) then parsed.(localhost_host) else None);
  nf_port : forall p, (parse_proxy_server st.(proxy_server)).(localhost_port) = Some p ->
    st.(parsed_port) = Some p;
  nf_server : forall s, st.(proxy_server) = Some s -> PyStr.strip s = s;
  nf_pac : forall s, st.(auto_config_url) = Some s -> PyStr.strip s = s;
  nf_override : forall s, st.(proxy_override) = Some s -> PyStr.strip s = s;
}.

Lemma server_of_stripped v s : server_of v = Some s -> PyStr.strip s = s.
Proof.
  unfold server_of. intros E. repeat split_hyp E; try done; injection E as <-;
    apply PyStr.strip_idem.
Qed.

Lemma text_of_stripped v s : text_of v = Some s -> PyStr.strip s = s.
Proof.
  unfold text_of. destruct (none_or_empty v); [done|]. intros [= <-]. apply PyStr.strip_idem.
Qed.

Lemma normalize_normal_form raw st : normalize_proxy_state raw = Ok st -> normal_form st.
Proof.
  unfold normalize_proxy_state. intros E. cbn zeta in E.
  apply bind_Ok in E as (en & Een & E). apply bind_Ok in E as (ad & Ead & E).
  apply bind_Ok in E as (port & Eport & E). injection E as <-.
  constructor; cbn [proxy_mode proxy_server parsed_host parsed_port auto_config_url
                    proxy_override proxy_enable auto_detect].
  - done.
  - done.
  - intros p Hp. rewrite Hp in Eport. congruence.
  - apply server_of_stripped.
  - apply text_of_stripped.
  - apply text_of_stripped.
Qed.

(** On stripped optional text, "empty" and "falsy" coincide. *)
Lemma server_empty_truthy o :
  (forall s, o = Some s -> PyStr.strip s = s) -> _server_empty o = negb (truthy_str o).
Proof. destruct o as [s|]; cbn; [|done]. intros Hs. rewrite (Hs s eq_refl). by rewrite negb_involutive. Qed.

Lemma normal_form_local_port st :
  normal_form st -> (parse_proxy_server st.(proxy_server)).(is_localhost_proxy) = true ->
  truthy_int st.(parsed_port) = true.
Proof.
  intros Hn Hl. pose proof (parse_proxy_server_wf st.(proxy_server)) as Hwf.
  destruct (wf_local _ Hwf Hl) as [_ Hp]. pose proof (wf_port _ Hwf) as Hok.
  destruct (parse_proxy_server st.(proxy_server)).(localhost_port) as [p|] eqn:E; [|done].
  rewrite (nf_port _ Hn p) by done. cbn in *. lia.
Qed.

Lemma parse_local_not_blank o :
  (parse_proxy_server o).(is_localhost_proxy) = true ->
  _server_empty o = false /\ (parse_proxy_server o).(is_malformed) = false.
Proof.
  intros Hl. pose proof (wf_no_parse _ (parse_proxy_server_wf o)) as Hn.
  rewrite <- parse_is_missing.
  destruct (is_missing _), (is_malformed _); try done;
    destruct (Hn eq_refl) as [Hf _]; congruence.
Qed.

Lemma parse_malformed_not_blank o :
  (parse_proxy_server o).(is_malformed) = true -> _server_empty o = false.
Proof.
  intros Hm. pose proof (wf_exclusive _ (parse_proxy_server_wf o)) as He.
  rewrite <- parse_is_missing. by destruct (is_missing _); [rewrite Hm in He|].
Qed.

(** The operating mode, characterised on the fields of the state. *)
Definition mode_spec (st : ProxyWininetState) : Prop :=
  let parsed := parse_proxy_server st.(proxy_server) in
  (st.(proxy_mode) = ProxyMode.LOCALHOST_PROXY <->
     st.(proxy_enable) = true /\ parsed.(is_localhost_proxy) = true
     /\ truthy_str st.(auto_config_url) = false) /\
  (st.(proxy_mode) = ProxyMode.REMOTE_PROXY <->
     st.(proxy_enable) = true /\ _server_empty st.(proxy_server) = false
     /\ parsed.(is_localhost_proxy) = false /\ parsed.(is_malformed) = false
     /\ truthy_str st.(auto_config_url) = false) /\
  (st.(proxy_mode) = ProxyMode.DISABLED <->
     st.(proxy_enable) = false /\ _server_empty st.(proxy_server) = true
     /\ truthy_str st.(auto_config_url) = false /\ truthy_bool st.(auto_detect) = false) /\
  (st.(proxy_mode) = ProxyMode.AUTODETECT <->
     st.(proxy_enable) = false /\ _server_empty st.(proxy_server) = true
     /\ truthy_str st.(auto_config_url) = false /\ truthy_bool st.(auto_detect) = true) /\
  st.(proxy_mode) <> ProxyMode.UNKNOWN.

Lemma normal_form_mode_spec st : normal_form st -> mode_spec st.
Proof.
  intros Hn. unfold mode_spec. cbn zeta.
  rewrite (nf_mode _ Hn). unfold derive_mode.
  pose proof (normal_form_local_port st Hn) as Hport.
  pose proof (parse_local_not_blank st.(proxy_server)) as Hlocal.
  pose proof (parse_malformed_not_blank st.(proxy_server)) as Hmal.
  destruct (is_localhost_proxy _);
    [destruct (Hlocal eq_refl) as [He Hm]; rewrite He, Hm, (Hport eq_refl)|
     destruct (is_malformed _); [rewrite (Hmal eq_refl)|]];
    destruct st.(proxy_enable), (truthy_str _), (truthy_bool _);
    try destruct (_server_empty _); cbn; intuition congruence.
Qed.

(** The operating mode of a normalised snapshot, characterised on every
    branch: LOCALHOST_PROXY and REMOTE_PROXY are reported exactly for an enabled
    proxy without a PAC URL whose server text parses to a loopback,
    respectively non-loopback, endpoint; DISABLED and AUTODETECT exactly for a
    disabled proxy with no server; UNKNOWN is never reported. *)
Theorem proxy_mode_characterised raw st :
  normalize_proxy_state raw = Ok st -> mode_spec st.
Proof. intros Hn. by eapply normal_form_mode_spec, normalize_normal_form. Qed.

(** ** Soundness of the transition classes *)

Lemma server_removed_not_equal b a : server_removed b a = true -> states_equal b a = false.
Proof.
  unfold server_removed, states_equal. intros [Hb Ha]%andb_true_iff.
  destruct (decide (b.(proxy_server) = a.(proxy_server))) as [E|E].
  - rewrite E, Ha in Hb. done.
  - rewrite (bool_decide_eq_false_2 _ E). by rewrite andb_false_r.
Qed.

(** A removed ProxyServer always yields a removal class, selected by the
    enable flags alone; no WinHTTP mismatch, PAC or autodetect change can mask
    it. *)
Theorem classify_removed before after m :
  server_removed before after = true ->
  classify_states before after m =
    (if enable_off before after then TransitionClass.PROXY_DISABLED_AND_SERVER_REMOVED
     else if after.(proxy_enable) then TransitionClass.PROXY_SERVER_REMOVED_PARTIAL
     else TransitionClass.PROXY_SERVER_REMOVED).
Proof.
  intros Hr. unfold classify_states. rewrite (server_removed_not_equal _ _ Hr), Hr.
  rewrite andb_true_r. by destruct (enable_off before after), after.(proxy_enable).
Qed.

(** The classifier reports NO_CHANGE exactly when the two normalised states
    agree on enable flag, server, PAC URL, autodetect and override. *)
Theorem classify_no_change_iff before_raw after_raw m before after :
  normalize_proxy_state (Some before_raw) = Ok before ->
  normalize_proxy_state (Some after_raw) = Ok after ->
  classify_transition (Some before_raw) (Some after_raw) m = Ok TransitionClass.NO_CHANGE <->
  before.(proxy_enable) = after.(proxy_enable) /\
  before.(proxy_server) = after.(proxy_server) /\
  before.(auto_config_url) = after.(auto_config_url) /\
  before.(auto_detect) = after.(auto_detect) /\
  before.(proxy_override) = after.(proxy_override).
Proof.
  intros Hb Ha. unfold classify_transition. rewrite Hb, Ha. cbn.
  transitivity (states_equal before after = true).
  - unfold classify_states. destruct (states_equal before after); [done|].
    split; [|done]. intros E. injection E as E. by repeat split_hyp E.
  - unfold states_equal. rewrite !andb_true_iff, eqb_true_iff, !bool_decide_eq_true. tauto.
Qed.

Definition is_remote_class (c : TransitionClass.t) : bool :=
  match c with
  | TransitionClass.REMOTE_OR_NON_LOOPBACK_PROXY_CONFIGURED
  | TransitionClass.PROXY_SERVER_CHANGED_TO_REMOTE => true
  | _ => false
  end.

Lemma mode_is_true st m : mode_is st m = true -> st.(proxy_mode) = m.
Proof. unfold mode_is, ProxyMode.proxyMode_eqb. by intros ?%bool_decide_eq_true. Qed.

Lemma classify_states_remote before after m :
  is_remote_class (classify_states before after m) = true ->
  after.(proxy_mode) = ProxyMode.REMOTE_PROXY /\ _server_empty after.(proxy_server) = false.
Proof.
  unfold classify_states. intros E.
  repeat (split_hyp E; [try discriminate E|]); try discriminate E;
    unfold localhost_to_remote in *; bool_facts; eauto using mode_is_true.
Qed.

(** ** Errors of the normalisation *)

Lemma str_to_int_raise s e : PyStr.to_int s = Raise e -> e = ValueError.
Proof.
  unfold PyStr.to_int. intros E. repeat (split_hyp E; try congruence);
    cbn in E; congruence.
Qed.

Lemma py_int_raise v e :
  py_int v = Raise e ->
  type_or_value_error e = true \/
  (e = OverflowError /\ exists b, v = PFloat (S754_infinity b)).
Proof.
  destruct v as [| | |f|s| |]; cbn; try (intros [= <-]; by left); try done.
  - destruct f; cbn; try done; intros [= <-]; [right|left]; eauto.
  - intros ->%str_to_int_raise. by left.
Qed.

Lemma try_int_raise {A} (f : Z -> A) v h e :
  try_except (z ← py_int v; Ok (f z)) type_or_value_error h = Raise e ->
  e = OverflowError /\ exists b, v = PFloat (S754_infinity b).
Proof.
  destruct (py_int v) as [z|e'] eqn:E; cbn; [done|].
  apply py_int_raise in E as [Ht|[-> ?]].
  - rewrite Ht. done.
  - cbn. intros E'. injection E' as <-. done.
Qed.

Lemma flag_of_raise v e :
  flag_of v = Raise e -> e = OverflowError /\ exists b, v = PFloat (S754_infinity b).
Proof.
  unfold flag_of. destruct v; try done;
    match goal with |- mbind _ ?r = _ -> _ => destruct r as [x|x] eqn:E end; cbn; try done;
    intros [= <-]; by apply (try_int_raise _ _ _ _ E).
Qed.

Lemma get_default_lookup k v d b :
  Dict.get_default k v d = PFloat (S754_infinity b) ->
  (exists k', Dict.lookup k' d = Some (PFloat (S754_infinity b))) \/
  v = PFloat (S754_infinity b).
Proof.
  unfold Dict.get_default. destruct (Dict.lookup k d) eqn:E; cbn; [|tauto].
  intros ->. left. eauto.
Qed.

Lemma get_lookup k d b :
  Dict.get k d = PFloat (S754_infinity b) ->
  exists k', Dict.lookup k' d = Some (PFloat (S754_infinity b)).
Proof.
  intros E. destruct (get_default_lookup k PNone d b E); [done|discriminate].
Qed.

(** Normalising a snapshot never raises, except the OverflowError of
    converting an infinite float that the snapshot itself contains. *)
Theorem normalize_raises_only_overflow raw e :
  normalize_proxy_state (Some raw) = Raise e ->
  e = OverflowError /\ exists k b, Dict.lookup k raw = Some (PFloat (S754_infinity b)).
Proof.
  unfold normalize_proxy_state. cbn zeta.
  change (default [] (Some raw)) with raw. intros E.
  apply bind_Raise in E as [E1|(en & _ & E)].
  { apply flag_of_raise in E1 as [-> [b Hb]]. split; [done|].
    apply get_default_lookup in Hb as [[k Hk]|Hb]; [eauto|].
    apply get_default_lookup in Hb as [[k Hk]|Hb]; [eauto|].
    apply get_lookup in Hb as [k Hk]. eauto. }
  apply bind_Raise in E as [E2|(ad & _ & E)].
  { apply flag_of_raise in E2 as [-> [b Hb]]. split; [done|].
    apply get_default_lookup in Hb as [[k Hk]|Hb]; [eauto|].
    apply get_lookup in Hb as [k Hk]. eauto. }
  apply bind_Raise in E as [E3|(po & _ & E)]; [|done].
  destruct (localhost_port _); [done|].
  enough (e = OverflowError /\ exists b, Dict.get "localhost_port" raw = PFloat (S754_infinity b))
    as (-> & b & Hb) by (apply get_lookup in Hb as [k Hk]; eauto).
  destruct (Dict.get "localhost_port" raw); try done; by apply (try_int_raise _ _ _ _ E3).
Qed.

(** ** Re-normalising an emitted state *)

(** A state read back from an evidence row is the state that was written:
    normalising [asdict] of a normalised state gives it back, provided its port
    came from the server text (the row has no [localhost_port] key) and its PAC
    and override fields are not blank text. *)
Theorem normalize_to_dict_roundtrip raw st :
  normalize_proxy_state (Some raw) = Ok st ->
  st.(parsed_port) = (parse_proxy_server st.(proxy_server)).(localhost_port) ->
  st.(proxy_server) <> Some "" -> st.(auto_config_url) <> Some "" ->
  st.(proxy_override) <> Some "" ->
  normalize_proxy_state (Some (to_dict st)) = Ok st.
Proof.
  intros Hn%normalize_normal_form Hport Hs Hp Ho.
  destruct Hn as [Hmode Hhost _ Hss Hps Hos].
  destruct st as [en sv pac ad ov ho po mo wh].
  cbn [proxy_enable proxy_server auto_config_url auto_detect proxy_override parsed_host
       parsed_port proxy_mode winhttp_direct_access] in *.
  unfold normalize_proxy_state, to_dict. cbn -[parse_proxy_server derive_mode server_of text_of flag_of].
  assert (server_of (of_opt PStr sv) = sv) as ->.
  { destruct sv as [s|]; cbn; [|done]. rewrite (Hss s eq_refl). by destruct s. }
  assert (forall o, (forall s, o = Some s -> PyStr.strip s = s) -> o <> Some "" ->
    text_of (of_opt PStr o) = o) as Ht.
  { intros [[|c s]|] Hst Hne; [done| |done]. unfold text_of.
    cbn [of_opt none_or_empty PyStr.is_empty py_str]. by rewrite (Hst _ eq_refl). }
  rewrite (Ht pac), (Ht ov) by done.
  assert (flag_of (of_opt PBool ad) = Ok ad) as -> by (by destruct ad).
  cbn -[parse_proxy_server derive_mode].
  assert (forall o : option bool, match of_opt PBool o with PNone => None | v => Some (py_bool v) end = o)
    as -> by (by intros [[]|]).
  rewrite <- Hhost. rewrite Hport at 1.
  destruct (localhost_port (parse_proxy_server sv)) eqn:Elp; cbn -[parse_proxy_server derive_mode];
    rewrite <- Hport, <- Hmode; done.
Qed.
(** ** A complete pair that is left unclassified *)

Lemma normal_form_no_pac st :
  normal_form st -> truthy_str st.(auto_config_url) = false ->
  _server_empty st.(auto_config_url) = true.
Proof. intros Hn Hf. rewrite server_empty_truthy by apply (nf_pac _ Hn). by rewrite Hf. Qed.

Lemma mode_is_eq st m : mode_is st m = bool_decide (st.(proxy_mode) = m).
Proof. done. Qed.

(** Switching an enabled WinINET proxy from a remote server to a localhost
    one, with both snapshots complete, is labelled ERROR_INSUFFICIENT_DATA: no
    rule of the decision list covers it. *)
Theorem remote_to_localhost_unclassified before_raw after_raw before after :
  normalize_proxy_state (Some before_raw) = Ok before ->
  normalize_proxy_state (Some after_raw) = Ok after ->
  before.(proxy_mode) = ProxyMode.REMOTE_PROXY ->
  after.(proxy_mode) = ProxyMode.LOCALHOST_PROXY ->
  autodetect_on before after = false ->
  classify_transition (Some before_raw) (Some after_raw) (Some false) =
    Ok TransitionClass.ERROR_INSUFFICIENT_DATA.
Proof.
  intros Hb Ha Hmb Hma Had. unfold classify_transition. rewrite Hb, Ha. cbn. f_equal.
  apply normalize_normal_form in Hb, Ha.
  destruct (normal_form_mode_spec _ Hb) as (_ & [Sb _] & _).
  destruct (normal_form_mode_spec _ Ha) as ([Sa _] & _).
  destruct (Sb Hmb) as (Eb & Sbe & Lb & _ & Pb). destruct (Sa Hma) as (Ea & La & Pa).
  destruct (parse_local_not_blank _ La) as [Sae _].
  apply normal_form_no_pac in Pb as Pb'; [|done]. apply normal_form_no_pac in Pa as Pa'; [|done].
  unfold classify_states.
  assert (states_equal before after = false) as ->.
  { unfold states_equal. rewrite (bool_decide_eq_false_2 (proxy_server before = _)); [|congruence].
    by rewrite andb_false_r. }
  unfold enable_off, server_removed, enable_on, pac_removed, pac_added, pac_changed,
    localhost_to_remote, effective_mismatch.
  rewrite !mode_is_eq, Hmb, Hma, Had, Eb, Ea, Sae, Pb', Pa', Pa, !andb_false_r. done.
Qed.
End Properties.

(** ** Concrete instances *)
Module ProxyStateWitness.
#[local] Instance host : PyHost := DemoHost.demo_host.

Definition remote_raw : pydict :=
  ["ProxyEnable" :-> PInt 1; "ProxyServer" :-> PStr " proxy.corp:8080 "].
Definition local_raw : pydict :=
  ["ProxyEnable" :-> PInt 1; "ProxyServer" :-> PStr "127.0.0.1:59081"].
Definition off_raw : pydict := ["ProxyEnable" :-> PInt 0; "ProxyServer" :-> PStr ""].

Definition state_of (raw : pydict) : ProxyWininetState :=
  match normalize_proxy_state (Some raw) with
  | Ok st => st
  | Raise _ =>
      {| proxy_enable := false; proxy_server := None; auto_config_url := None;
         auto_detect := None; proxy_override := None; parsed_host := None;
         parsed_port := None; proxy_mode := ProxyMode.UNKNOWN; winhttp_direct_access := None |}
  end.

Lemma classify_removed_witness :
  classify_states (state_of local_raw) (state_of off_raw) (Some true) =
    TransitionClass.PROXY_DISABLED_AND_SERVER_REMOVED.
Proof. rewrite classify_removed; vm_compute; reflexivity. Defined.

Lemma classify_no_change_iff_witness :
  classify_transition (Some remote_raw) (Some remote_raw) None = Ok TransitionClass.NO_CHANGE.
Proof.
  apply (classify_no_change_iff remote_raw remote_raw None
           (state_of remote_raw) (state_of remote_raw));
    vm_compute; repeat split; reflexivity.
Defined.

Lemma proxy_mode_characterised_witness :
  (state_of local_raw).(proxy_mode) = ProxyMode.LOCALHOST_PROXY.
Proof.
  apply (proxy_mode_characterised (Some local_raw) (state_of local_raw));
    [reflexivity|]. vm_compute. repeat split; reflexivity.
Defined.

Definition infinite_raw : pydict := ["ProxyEnable" :-> PFloat (S754_infinity false)].

Lemma normalize_raises_only_overflow_witness :
  exists k b, Dict.lookup k infinite_raw = Some (PFloat (S754_infinity b)).
Proof. apply (normalize_raises_only_overflow infinite_raw OverflowError). reflexivity. Defined.

Lemma normalize_to_dict_roundtrip_witness :
  normalize_proxy_state (Some (to_dict (state_of local_raw))) = Ok (state_of local_raw).
Proof.
  apply (normalize_to_dict_roundtrip local_raw); vm_compute; try reflexivity; discriminate.
Defined.

Lemma remote_to_localhost_unclassified_witness :
  classify_transition (Some remote_raw) (Some local_raw) (Some false) =
    Ok TransitionClass.ERROR_INSUFFICIENT_DATA.
Proof.
  apply (remote_to_localhost_unclassified remote_raw local_raw
           (state_of remote_raw) (state_of local_raw)); vm_compute; reflexivity.
Defined.
End ProxyStateWitness.
