(* ===== verification/ProxyEvidence.v ===== *)
(** * Evidence events for a proxy transition

    [windows_network_toolkit/proxy_state_machine.py], second part: the tables
    that attach a risk, an ordinal confidence, a proof tier, a policy decision
    and limitations to a transition class, the safety validator, the process
    attribution, and the evidence event that carries them.  A listener payload
    comes out of JSONL rows and may be any Python value: [.get] on one that is
    not a dictionary raises [AttributeError]. *)

From S2P Require Import Prelude PyValue ProxyParser ProxyState.
From Stdlib Require Import Ascii String SpecFloat.
From stdpp Require Import strings.

Open Scope string_scope.
Open Scope Z_scope.
Open Scope py_scope.

(** ** Tables over the transition class *)

Definition _risk_for_transition (transition : TransitionClass.t)
    (listener_trusted listener_unknown : bool) : string :=
  match transition with
  | TransitionClass.REVERTER_SUSPECTED_LOCALHOST_PROXY_LOOP =>
      if listener_unknown then "HIGH" else if listener_trusted then "MEDIUM" else "HIGH"
  | TransitionClass.NO_CHANGE => "INFO"
  | TransitionClass.PROXY_DISABLED => "LOW"
  | TransitionClass.PROXY_SERVER_REMOVED => "LOW"
  | TransitionClass.PROXY_SERVER_REMOVED_PARTIAL => "LOW"
  | TransitionClass.PROXY_DISABLED_AND_SERVER_REMOVED => "LOW"
  | TransitionClass.LOCALHOST_PROXY_ENABLED => "MEDIUM"
  | TransitionClass.REMOTE_OR_NON_LOOPBACK_PROXY_CONFIGURED => "HIGH"
  | TransitionClass.PROXY_ENABLED_WITH_NO_SERVER => "MEDIUM"
  | TransitionClass.PAC_CONFIGURED => "MEDIUM"
  | TransitionClass.AUTODETECT_ENABLED => "LOW"
  | TransitionClass.WININET_WINHTTP_MISMATCH => "MEDIUM"
  | TransitionClass.LOCALHOST_PROXY_PORT_CHANGED => "MEDIUM"
  | TransitionClass.PAC_REMOVED => "LOW"
  | TransitionClass.PROXY_SERVER_CHANGED_TO_REMOTE => "HIGH"
  | TransitionClass.ERROR_INSUFFICIENT_DATA => "LOW"
  end.

(** PAC_REMOVED and PROXY_SERVER_CHANGED_TO_REMOTE have no entry in the table
    and take its default 0.55. *)
Definition _confidence_for_transition (transition : TransitionClass.t) (writer_proof : bool)
    : F64.t :=
  if writer_proof then F64.lit 92 100 else
  match transition with
  | TransitionClass.NO_CHANGE => F64.lit 1 1
  | TransitionClass.PROXY_DISABLED => F64.lit 85 100
  | TransitionClass.PROXY_SERVER_REMOVED => F64.lit 88 100
  | TransitionClass.PROXY_SERVER_REMOVED_PARTIAL => F64.lit 88 100
  | TransitionClass.PROXY_DISABLED_AND_SERVER_REMOVED => F64.lit 9 10
  | TransitionClass.LOCALHOST_PROXY_ENABLED => F64.lit 72 100
  | TransitionClass.REMOTE_OR_NON_LOOPBACK_PROXY_CONFIGURED => F64.lit 85 100
  | TransitionClass.PROXY_ENABLED_WITH_NO_SERVER => F64.lit 75 100
  | TransitionClass.PAC_CONFIGURED => F64.lit 8 10
  | TransitionClass.AUTODETECT_ENABLED => F64.lit 78 100
  | TransitionClass.WININET_WINHTTP_MISMATCH => F64.lit 7 10
  | TransitionClass.LOCALHOST_PROXY_PORT_CHANGED => F64.lit 8 10
  | TransitionClass.REVERTER_SUSPECTED_LOCALHOST_PROXY_LOOP => F64.lit 65 100
  | TransitionClass.ERROR_INSUFFICIENT_DATA => F64.lit 3 10
  | _ => F64.lit 55 100
  end.

Definition _proof_tier_for_transition (transition : TransitionClass.t)
    (writer_proof listener : bool) : string :=
  if writer_proof then "T3"
  else if listener &&
          match transition with
          | TransitionClass.LOCALHOST_PROXY_ENABLED
          | TransitionClass.REVERTER_SUSPECTED_LOCALHOST_PROXY_LOOP => true
          | _ => false
          end
  then "T2"
  else if TransitionClass.transitionClass_eqb transition TransitionClass.NO_CHANGE then "T0"
  else "T1".

Definition _policy_decision_for_risk (risk : string) : string :=
  if String.eqb risk "CRITICAL" then "REQUIRE_HUMAN_REVIEW"
  else if String.eqb risk "HIGH" then "REQUIRE_HUMAN_REVIEW"
  else if String.eqb risk "MEDIUM" then "ALERT"
  else if String.eqb risk "LOW" then "OBSERVE"
  else "OBSERVE".

Definition _recommended_action (transition : TransitionClass.t) : string :=
  match transition with
  | TransitionClass.NO_CHANGE => "observe — no WinINET proxy state change"
  | TransitionClass.PROXY_DISABLED =>
      "observe — proxy disabled during developer/tool session"
  | TransitionClass.PROXY_SERVER_REMOVED => "observe — ProxyServer removed"
  | TransitionClass.PROXY_SERVER_REMOVED_PARTIAL =>
      "observe — ProxyServer removed while ProxyEnable remained enabled"
  | TransitionClass.PROXY_DISABLED_AND_SERVER_REMOVED =>
      "observe — proxy disabled and server removed"
  | TransitionClass.LOCALHOST_PROXY_ENABLED =>
      "alert — localhost proxy enabled; investigate listener process executable path and command line"
  | TransitionClass.REMOTE_OR_NON_LOOPBACK_PROXY_CONFIGURED =>
      "require human review — remote or non-loopback proxy server configured"
  | TransitionClass.PROXY_ENABLED_WITH_NO_SERVER =>
      "alert — ProxyEnable set without ProxyServer; inconsistent WinINET state"
  | TransitionClass.PAC_CONFIGURED => "alert — PAC (AutoConfigURL) configured or changed"
  | TransitionClass.PAC_REMOVED => "observe — PAC (AutoConfigURL) removed"
  | TransitionClass.PROXY_SERVER_CHANGED_TO_REMOTE =>
      "require human review — proxy server changed to remote/non-loopback endpoint"
  | TransitionClass.AUTODETECT_ENABLED => "observe — WinINET auto-detect enabled"
  | TransitionClass.WININET_WINHTTP_MISMATCH =>
      "alert — WinINET proxy enabled while WinHTTP reports direct access"
  | TransitionClass.LOCALHOST_PROXY_PORT_CHANGED =>
      "alert — localhost proxy port changed; verify listener correlation only"
  | TransitionClass.REVERTER_SUSPECTED_LOCALHOST_PROXY_LOOP =>
      "require human review — pattern suggests a proxy reverter or auto-reapply loop; "
      ++ "this is correlation, not proof of registry write; collect Sysmon Event ID 13 or Procmon trace"
  | TransitionClass.ERROR_INSUFFICIENT_DATA =>
      "observe — insufficient state to classify transition"
  end.

Definition _limitations_for_transition (transition : TransitionClass.t) : list string :=
  "Registry writer proof unavailable" ::
  match transition with
  | TransitionClass.PROXY_SERVER_REMOVED_PARTIAL =>
      ["This event shows removal of ProxyServer, not remote proxy configuration"]
  | TransitionClass.PROXY_DISABLED_AND_SERVER_REMOVED =>
      ["This event shows proxy disable and server removal, not remote proxy configuration"]
  | TransitionClass.LOCALHOST_PROXY_ENABLED =>
      ["Process was listening on the configured localhost proxy port (correlation only)"]
  | TransitionClass.REVERTER_SUSPECTED_LOCALHOST_PROXY_LOOP =>
      ["Pattern suggests a proxy reverter or auto-reapply loop";
       "This is correlation, not proof of registry write";
       "Collect Sysmon Event ID 13 or Procmon trace for registry writer proof";
       "Investigate listener process executable path and command line"]
  | TransitionClass.REMOTE_OR_NON_LOOPBACK_PROXY_CONFIGURED =>
      ["Remote proxy configuration observed in registry state — verify business justification"]
  | _ => []
  end.

Definition _map_primary_classification (transition : TransitionClass.t)
    (before after : ProxyWininetState) : PrimaryClassification.t :=
  let before_localhost := mode_is before ProxyMode.LOCALHOST_PROXY in
  let removed :=
    if server_removed before after then
      if before_localhost then PrimaryClassification.LOCALHOST_PROXY_REMOVED
      else PrimaryClassification.PROXY_REMOVED
    else PrimaryClassification.INSUFFICIENT_DATA in
  match transition with
  | TransitionClass.NO_CHANGE => PrimaryClassification.NO_CHANGE
  | TransitionClass.REVERTER_SUSPECTED_LOCALHOST_PROXY_LOOP =>
      PrimaryClassification.REVERTER_SUSPECTED
  | TransitionClass.ERROR_INSUFFICIENT_DATA => PrimaryClassification.INSUFFICIENT_DATA
  | TransitionClass.WININET_WINHTTP_MISMATCH => PrimaryClassification.WININET_WINHTTP_MISMATCH
  | TransitionClass.LOCALHOST_PROXY_PORT_CHANGED =>
      PrimaryClassification.LOCALHOST_PROXY_PORT_CHANGED
  | TransitionClass.PROXY_SERVER_CHANGED_TO_REMOTE =>
      PrimaryClassification.PROXY_SERVER_CHANGED_TO_REMOTE
  | TransitionClass.REMOTE_OR_NON_LOOPBACK_PROXY_CONFIGURED =>
      PrimaryClassification.REMOTE_PROXY_CONFIGURED
  | TransitionClass.PAC_CONFIGURED => PrimaryClassification.PAC_CONFIGURED
  | TransitionClass.PAC_REMOVED => PrimaryClassification.PAC_REMOVED
  | TransitionClass.PROXY_ENABLED_WITH_NO_SERVER =>
      PrimaryClassification.PROXY_ENABLED_INCONSISTENT
  | TransitionClass.LOCALHOST_PROXY_ENABLED =>
      PrimaryClassification.LOCALHOST_PROXY_CONFIGURED
  | TransitionClass.PROXY_DISABLED_AND_SERVER_REMOVED =>
      PrimaryClassification.PROXY_DISABLED_OR_REMOVED
  | TransitionClass.PROXY_SERVER_REMOVED_PARTIAL =>
      if before_localhost then PrimaryClassification.LOCALHOST_PROXY_REMOVED else removed
  | TransitionClass.PROXY_SERVER_REMOVED => removed
  | TransitionClass.PROXY_DISABLED => PrimaryClassification.PROXY_DISABLED_OR_REMOVED
  | TransitionClass.AUTODETECT_ENABLED => PrimaryClassification.INSUFFICIENT_DATA
  end.

(** ** The safety validator

    The source iterates over a frozenset: the order of the messages is the
    order chosen here, and no theorem depends on it. *)
Definition FORBIDDEN_CLASSIFICATIONS_WHEN_AFTER_SERVER_EMPTY : list string :=
  ["REMOTE_OR_NON_LOOPBACK_PROXY_CONFIGURED"; "REMOTE_PROXY_CONFIGURED";
   "PROXY_SERVER_CHANGED_TO_REMOTE"; "NON_LOOPBACK_PROXY_CONFIGURED"].

Definition validate_classification_safety (after_proxy_server : option string)
    (primary_classification transition_class : string) : list string :=
  if _server_empty after_proxy_server then
    map (fun forbidden => "after_proxy_server is empty but classification is " ++ forbidden)
      (List.filter (fun forbidden => PyStr.mem forbidden [primary_classification; transition_class])
         FORBIDDEN_CLASSIFICATIONS_WHEN_AFTER_SERVER_EMPTY)
  else [].

Definition TRUSTED_DEV_TOOLS : list string :=
  ["node.exe"; "node"; "cursor.exe"; "cursor"; "code.exe"; "vscode.exe"].

Definition STANDARD_ATTRIBUTION_LIMITATIONS : list string :=
  ["Likely process / correlation only"; "Registry writer proof unavailable";
   "Attribution requires Sysmon, Procmon, or EventLog registry write evidence"].

(** ** Listener payloads *)

(** [proc]: the nested process dictionary when there is one, the listener
    itself otherwise, [None] when there is no listener. *)
Definition listener_proc (listener : pyval) : result (option pydict) :=
  if py_bool listener then
    d ← Dict.of_val listener;
    match Dict.get "process" d with
    | PDict p => Ok (Some p)
    | _ => Ok (Some d)
    end
  else Ok None.

(** Truthiness of [proc], and [proc.get(k)] under [if proc]. *)
Definition proc_truthy (proc : option pydict) : bool :=
  match proc with Some (_ :: _) => true | _ => false end.
Definition proc_get (k : string) (proc : option pydict) : pyval :=
  if proc_truthy proc then Dict.get k (default [] proc) else PNone.

Section WithHost.
Context {H : PyHost}.

Definition _secondary_signals (before after : ProxyWininetState)
    (transition : TransitionClass.t) (listener : pyval) (health : pydict) (writer_proof : bool)
    : result (list string) :=
  let before_localhost := mode_is before ProxyMode.LOCALHOST_PROXY in
  let direct_ok := py_bool (Dict.get "direct_probe_ok" health) in
  let proxy_ok := py_bool (Dict.get "proxy_probe_ok" health) in
  let have_health := match health with [] => false | _ => true end in
  proc ← listener_proc listener;
  Ok (dedupe String.eqb (
    (if before_localhost && server_removed before after then ["LOCALHOST_PROXY_REMOVED"] else []) ++
    (if TransitionClass.transitionClass_eqb transition
          TransitionClass.PROXY_DISABLED_AND_SERVER_REMOVED && before_localhost
     then ["LOCALHOST_PROXY_REMOVED"] else []) ++
    (if TransitionClass.transitionClass_eqb transition TransitionClass.PROXY_DISABLED
     then ["PROXY_ENABLE_DISABLED"] else []) ++
    (if mode_is after ProxyMode.LOCALHOST_PROXY then
       if py_bool (proc_get "name" proc) then ["LISTENER_PRESENT"]
       else match Dict.get "tcp_listening" health with
            | PBool false => ["LISTENER_MISSING"]
            | _ => ["LISTENER_UNKNOWN"]
            end
     else []) ++
    (if have_health then
       (if String.eqb (py_str (py_or (Dict.get "proxy_status" health) (PStr "")))
             "DEAD_LOCALHOST_PROXY" || (direct_ok && negb proxy_ok)
        then ["DIRECT_OK_PROXY_FAIL"] else []) ++
       (if proxy_ok && negb direct_ok then ["PROXY_OK_DIRECT_FAIL"] else []) ++
       (if negb direct_ok && negb proxy_ok then ["BOTH_PATHS_FAIL"] else [])
     else []) ++
    (if writer_proof then ["REGISTRY_WRITER_PROOF_PRESENT"]
     else ["REGISTRY_WRITER_PROOF_UNAVAILABLE"]))%list).

(** ** Explanations *)

(** [f"{label}: {before or 'None'} -> {after or 'None'}"]. *)
Definition or_none (o : option string) : string :=
  if truthy_str o then default "" o else "None".
Definition bit (b : bool) : string := if b then "1" else "0".

(** The two field lines, [label_server] and [label_enable] being their
    prefixes. *)
Definition change_lines (label_server label_enable : string) (before after : ProxyWininetState)
    : list string :=
  ((if bool_decide (before.(proxy_server) = after.(proxy_server)) then []
    else [label_server +:+ or_none before.(proxy_server) +:+ " -> " +:+ or_none after.(proxy_server)])
   ++
   (if Bool.eqb before.(proxy_enable) after.(proxy_enable) then []
    else [label_enable +:+ bit before.(proxy_enable) +:+ " -> " +:+ bit after.(proxy_enable)]))%list.

Definition is_remote_primary (p : PrimaryClassification.t) : bool :=
  match p with
  | PrimaryClassification.REMOTE_PROXY_CONFIGURED
  | PrimaryClassification.PROXY_SERVER_CHANGED_TO_REMOTE => true
  | _ => false
  end.

Definition build_explainable_classification (before_raw after_raw : pydict)
    (transition : TransitionClass.t) (listener : pyval) (health : pydict) (writer_proof : bool)
    : result pydict :=
  before ← normalize_proxy_state (Some before_raw);
  after ← normalize_proxy_state (Some after_raw);
  let primary := _map_primary_classification transition before after in
  secondary ← _secondary_signals before after transition listener health writer_proof;
  let why :=
    (change_lines "Observed ProxyServer transition: " "Observed ProxyEnable transition: "
       before after ++
     (if bool_decide (primary = PrimaryClassification.LOCALHOST_PROXY_REMOVED)
      then ["Evidence indicates localhost proxy server removal, not remote proxy configuration."]
      else []) ++
     (if bool_decide (primary = PrimaryClassification.REVERTER_SUSPECTED)
      then ["Repeated enable/disable pattern observed — correlation only without registry writer proof."]
      else []))%list in
  let next_checks :=
    ((if PyStr.mem "REGISTRY_WRITER_PROOF_UNAVAILABLE" secondary
      then ["Collect Sysmon Event ID 13, Security 4657, or Procmon registry write trace."]
      else []) ++
     (if PyStr.mem "LISTENER_MISSING" secondary
      then ["Identify process bound to configured localhost port or confirm stale proxy config."]
      else []) ++
     (if is_remote_primary primary
      then ["Verify business justification for non-loopback proxy endpoint."]
      else []))%list in
  let blocked :=
    ((if writer_proof then []
      else ["Malware accusation blocked because registry writer proof is missing.";
            "Process name treated as correlation only — not registry writer proof."]) ++
     (if _server_empty after.(proxy_server)
      then ["Remote proxy configured inference blocked because after_proxy_server is empty."]
      else []))%list in
  Ok ["primary_classification" :-> PStr (PrimaryClassification.primary_value primary);
      "secondary_signals" :-> str_list secondary;
      "confidence" :-> PFloat (_confidence_for_transition transition writer_proof);
      "confidence_semantics" :-> PStr "ordinal_not_probability";
      "why" :-> str_list (match why with
                          | [] => ["Full before/after WinINET state compared — not isolated field diff."]
                          | _ => why
                          end);
      "limitations" :-> str_list (_limitations_for_transition transition);
      "recommended_next_checks" :-> str_list next_checks;
      "unsafe_inferences_blocked" :-> str_list blocked;
      "transition_class" :-> PStr (TransitionClass.class_value transition);
      "safety_violations" :-> str_list
        (validate_classification_safety after.(proxy_server)
           (PrimaryClassification.primary_value primary)
           (TransitionClass.class_value transition))].

(** ** Attribution *)

Definition WRITER_KINDS : list string := ["eventlog"; "sysmon"; "procmon"].

Definition build_attribution (listener : pyval) (writer_proof : bool)
    (writer_kind : option string) : result pydict :=
  proc ← listener_proc listener;
  let '(kind, conf, limitations) :=
    match writer_kind with
    | Some k =>
        if writer_proof && PyStr.mem k WRITER_KINDS then (k, F64.lit 85 100, [])
        else if proc_truthy proc
        then ("correlation", F64.lit 55 100, STANDARD_ATTRIBUTION_LIMITATIONS)
        else ("none", F64.zero, STANDARD_ATTRIBUTION_LIMITATIONS)
    | None =>
        if proc_truthy proc
        then ("correlation", F64.lit 55 100, STANDARD_ATTRIBUTION_LIMITATIONS)
        else ("none", F64.zero, STANDARD_ATTRIBUTION_LIMITATIONS)
    end in
  Ok ["kind" :-> PStr kind;
      "process_name" :-> proc_get "name" proc;
      "pid" :-> proc_get "pid" proc;
      "parent_process" :-> py_or (proc_get "parent" proc) (proc_get "parent_name" proc);
      "executable_path" :-> py_or (proc_get "exe" proc) (proc_get "executable_path" proc);
      "command_line" :-> py_or (proc_get "cmdline" proc) (proc_get "command_line" proc);
      "confidence" :-> PFloat conf;
      "limitations" :-> str_list limitations].

(** ** The evidence event *)

Definition make_transition_event_id (timestamp_utc : string) (before after : pydict) : string :=
  PyStr.take 24 (sha256_hexdigest (Json.dumps_compact (PDict
    ["timestamp_utc" :-> PStr timestamp_utc; "before" :-> PDict before;
     "after" :-> PDict after]))).

(** [now] is the reading of the clock, used when no timestamp is given.
    [health], [coalesce_meta] and [raw_sub_events] are empty when absent. *)
Definition build_proxy_evidence_event (now : string) (before_raw after_raw : pydict)
    (timestamp_utc : option string) (listener : pyval) (writer_proof : bool)
    (writer_kind : option string) (winhttp_mismatch : option bool) (health : pydict)
    (transition_override : option TransitionClass.t) (coalesce_meta : pydict)
    (raw_sub_events : list pyval) : result pydict :=
  let ts := if truthy_str timestamp_utc then default "" timestamp_utc else now in
  before ← normalize_proxy_state (Some before_raw);
  after ← normalize_proxy_state (Some after_raw);
  transition ←
    match transition_override with
    | Some t => Ok t
    | None => classify_transition (Some before_raw) (Some after_raw) winhttp_mismatch
    end;
  proc ← listener_proc listener;
  let proc_name :=
    if proc_truthy proc then Dict.get_default "name" (PStr "") (default [] proc) else PStr "" in
  let listener_trusted := PyStr.mem (PyStr.lower (py_str proc_name)) TRUSTED_DEV_TOOLS in
  let listener_unknown := mode_is after ProxyMode.LOCALHOST_PROXY && negb (py_bool proc_name) in
  let risk := _risk_for_transition transition listener_trusted listener_unknown in
  let proof_tier := _proof_tier_for_transition transition writer_proof (py_bool listener) in
  attribution ← build_attribution listener writer_proof writer_kind;
  let attribution :=
    if PyStr.mem proof_tier ["T0"; "T1"; "T2"]
       && match Dict.get "kind" attribution with
          | PStr k => String.eqb k "correlation"
          | _ => false
          end
    then Dict.set "limitations" (str_list STANDARD_ATTRIBUTION_LIMITATIONS) attribution
    else attribution in
  let evidence_lines :=
    (change_lines "ProxyServer: " "ProxyEnable: " before after ++
     (if py_bool listener && py_bool proc_name
      then ["Process was listening on the configured localhost proxy port: "
            +:+ py_str proc_name +:+ " (Likely process / correlation only)"]
      else []))%list in
  classification ←
    build_explainable_classification before_raw after_raw transition listener health writer_proof;
  let event :=
    ["event_id" :-> PStr (make_transition_event_id ts (to_dict before) (to_dict after));
     "timestamp_utc" :-> PStr ts;
     "before_state" :-> PDict (to_dict before);
     "after_state" :-> PDict (to_dict after);
     "transition_class" :-> PStr (TransitionClass.class_value transition);
     "risk" :-> PStr risk;
     "confidence" :-> PFloat (_confidence_for_transition transition writer_proof);
     "proof_tier" :-> PStr proof_tier;
     "attribution" :-> PDict attribution;
     "evidence" :-> str_list evidence_lines;
     "limitations" :-> str_list (_limitations_for_transition transition);
     "recommended_action" :-> PStr (_recommended_action transition);
     "policy_decision" :-> PStr (_policy_decision_for_risk risk);
     "classification" :-> PDict classification] in
  let event :=
    Dict.set "primary_classification" (Dict.get "primary_classification" classification) event in
  let event := Dict.update event coalesce_meta in
  Ok (match raw_sub_events with
      | [] => event
      | _ => Dict.set "raw_sub_events" (PList raw_sub_events) event
      end).

(** ** Legacy strings *)

Definition transition_class_to_legacy_risk (transition : string) : string :=
  match TransitionClass.class_of_value transition with
  | None => "medium"
  | Some tc =>
      let risk := _risk_for_transition tc false false in
      if String.eqb risk "INFO" then "low" else PyStr.lower risk
  end.

Definition transition_class_to_legacy_reason (transition : string) : string :=
  match TransitionClass.class_of_value transition with
  | None => "Proxy-related registry fields changed"
  | Some TransitionClass.REMOTE_OR_NON_LOOPBACK_PROXY_CONFIGURED =>
      "Remote or non-loopback proxy server configured"
  | Some tc => _recommended_action tc
  end.
End WithHost.

(** ** Reading an event back *)

Section Properties.
Context {H : PyHost}.

(** The keys the coalescer adds. *)
Definition COALESCE_KEYS : list string :=
  ["coalesced"; "coalesce_window_ms"; "raw_sub_event_count"].
Definition coalesce_keys_only (meta : pydict) : Prop :=
  forall k, In k (map fst meta) -> In k COALESCE_KEYS.

(** What the fields of an evidence event are computed from. *)
Record event_view (before_raw after_raw : pydict) (listener : pyval) (writer_proof : bool)
    (writer_kind : option string) (winhttp_mismatch : option bool) (health : pydict)
    (override : option TransitionClass.t) (ev : pydict)
    (before after : ProxyWininetState) (transition : TransitionClass.t)
    (proc : option pydict) (attribution classification : pydict) : Prop := {
  ev_before : normalize_proxy_state (Some before_raw) = Ok before;
  ev_after : normalize_proxy_state (Some after_raw) = Ok after;
  ev_transition : transition = default (classify_states before after winhttp_mismatch) override;
  ev_proc : listener_proc listener = Ok proc;
  ev_attribution : build_attribution listener writer_proof writer_kind = Ok attribution;
  ev_classification :
    build_explainable_classification before_raw after_raw transition listener health writer_proof
      = Ok classification;
  ev_class_field :
    Dict.lookup "transition_class" ev = Some (PStr (TransitionClass.class_value transition));
  ev_risk_field : exists trusted unknown,
    Dict.lookup "risk" ev = Some (PStr (_risk_for_transition transition trusted unknown)) /\
    Dict.lookup "policy_decision" ev =
      Some (PStr (_policy_decision_for_risk (_risk_for_transition transition trusted unknown)));
  ev_tier_field : Dict.lookup "proof_tier" ev =
    Some (PStr (_proof_tier_for_transition transition writer_proof (py_bool listener)));
  ev_attribution_field : exists attribution',
    Dict.lookup "attribution" ev = Some (PDict attribution') /\
    Dict.lookup "kind" attribution' = Dict.lookup "kind" attribution /\
    (Dict.lookup "limitations" attribution' = Dict.lookup "limitations" attribution \/
     Dict.lookup "limitations" attribution' =
       Some (str_list STANDARD_ATTRIBUTION_LIMITATIONS));
  ev_classification_field : Dict.lookup "classification" ev = Some (PDict classification);
  ev_primary_field :
    Dict.lookup "primary_classification" ev =
      Some (Dict.get "primary_classification" classification);
}.

(** Adding coalescing metadata and sub-events leaves the other keys alone. *)
Lemma lookup_event_extras k ev meta (subs : list pyval) :
  coalesce_keys_only meta -> ~ In k ("raw_sub_events" :: COALESCE_KEYS) ->
  Dict.lookup k (match subs with
                 | [] => Dict.update ev meta
                 | _ => Dict.set "raw_sub_events" (PList subs) (Dict.update ev meta)
                 end) = Dict.lookup k ev.
Proof.
  intros Hm Hk. assert (Dict.lookup k (Dict.update ev meta) = Dict.lookup k ev) as E.
  { apply Dict.lookup_update. intros Hin%Hm. apply Hk. by right. }
  destruct subs; [done|]. rewrite Dict.lookup_set_ne; [done|]. intros ->. apply Hk. by left.
Qed.

Ltac event_field :=
  rewrite lookup_event_extras; [reflexivity|assumption|cbn; intuition discriminate].

Lemma event_inv now b a ts listener wp wk mm health override meta subs ev :
  build_proxy_evidence_event now b a ts listener wp wk mm health override meta subs = Ok ev ->
  coalesce_keys_only meta ->
  exists before after transition proc attribution classification,
    event_view b a listener wp wk mm health override ev
      before after transition proc attribution classification.
Proof.
  unfold build_proxy_evidence_event. cbn zeta. intros E Hm.
  apply bind_Ok in E as (before & Eb & E). apply bind_Ok in E as (after & Ea & E).
  apply bind_Ok in E as (t & Et & E). apply bind_Ok in E as (proc & Ep & E).
  apply bind_Ok in E as (attr & Eat & E). apply bind_Ok in E as (cls & Ec & E).
  assert (t = default (classify_states before after mm) override) as Ht.
  { destruct override; cbn in *; [by injection Et as ->|].
    rewrite Eb, Ea in Et. cbn in Et. by injection Et as ->. }
  injection E as <-. exists before, after, t, proc, attr, cls.
  constructor; try done; try by event_field.
  - do 2 eexists. split; by event_field.
  - eexists. split; [by event_field|].
    destruct (_ && _).
    + split; [by apply Dict.lookup_set_ne|]. right. apply Dict.lookup_set_eq.
    + split; [done|by left].
Qed.

(** ** The safety contract *)

(** The validator flags exactly the remote classes on an empty server. *)
Lemma validator_iff before after t :
  validate_classification_safety after.(proxy_server)
    (PrimaryClassification.primary_value (_map_primary_classification t before after))
    (TransitionClass.class_value t) = [] <->
  _server_empty after.(proxy_server) = false \/ is_remote_class t = false.
Proof.
  unfold validate_classification_safety.
  destruct (_server_empty _); [|tauto].
  unfold _map_primary_classification.
  destruct (server_removed before after), (mode_is before _), t; cbn;
    (split; [try done; by right|intros [?|?]; done]).
Qed.

Lemma explainable_inv b a t listener health wp cls :
  build_explainable_classification b a t listener health wp = Ok cls ->
  exists before after, normalize_proxy_state (Some b) = Ok before /\
    normalize_proxy_state (Some a) = Ok after /\
    Dict.lookup "primary_classification" cls =
      Some (PStr (PrimaryClassification.primary_value (_map_primary_classification t before after))) /\
    Dict.lookup "safety_violations" cls = Some (str_list
      (validate_classification_safety after.(proxy_server)
         (PrimaryClassification.primary_value (_map_primary_classification t before after))
         (TransitionClass.class_value t))) /\
    exists blocked, Dict.lookup "unsafe_inferences_blocked" cls = Some (str_list blocked) /\
      (wp = false ->
         In "Malware accusation blocked because registry writer proof is missing." blocked) /\
      (_server_empty after.(proxy_server) = true ->
         In "Remote proxy configured inference blocked because after_proxy_server is empty."
           blocked).
Proof.
  unfold build_explainable_classification. intros E.
  apply bind_Ok in E as (before & Eb & E). apply bind_Ok in E as (after & Ea & E).
  cbn zeta in E. apply bind_Ok in E as (sec & Es & E). injection E as <-.
  exists before, after. do 4 (split; [done|]).
  eexists. split; [reflexivity|]. split.
  - intros ->. by left.
  - intros ->. apply in_or_app. right. by left.
Qed.

(** A label of the event that the validator forbids on an empty server. *)
Definition forbidden_label (ev : pydict) : Prop :=
  exists s, In s FORBIDDEN_CLASSIFICATIONS_WHEN_AFTER_SERVER_EMPTY /\
    (Dict.lookup "transition_class" ev = Some (PStr s) \/
     Dict.lookup "primary_classification" ev = Some (PStr s)).

Lemma forbidden_labels_flagged server primary class ev :
  Dict.lookup "transition_class" ev = Some (PStr class) ->
  Dict.lookup "primary_classification" ev = Some (PStr primary) ->
  validate_classification_safety server primary class <> [] <->
  _server_empty server = true /\ forbidden_label ev.
Proof.
  intros Hc Hp. unfold validate_classification_safety, forbidden_label. rewrite Hc, Hp.
  destruct (_server_empty server); [|by split; [|intros []]]. split.
  - intros Hne. split; [done|]. destruct (List.filter _ _) as [|s rest] eqn:E; [by destruct Hne|].
    assert (In s (s :: rest)) as Hin by by left. rewrite <- E in Hin.
    apply filter_In in Hin as [Hin Hm]. apply PyStr.mem_In in Hm. exists s. split; [done|].
    destruct Hm as [->|[->|[]]]; tauto.
  - intros [_ (s & Hin & Hs)] Hnil%map_eq_nil. eapply in_nil. rewrite <- Hnil. apply filter_In.
    split; [exact Hin|]. apply PyStr.mem_In. destruct Hs as [[= ->]|[= ->]]; cbn; tauto.
Qed.

(** C1: whatever class the caller forces, the event of a transition to a state without
    ProxyServer says that the remote-proxy inference was blocked, and its recorded safety
    violations are non-empty exactly when the after state has no ProxyServer and one of the
    labels of the event is a forbidden remote one.  When no class is forced, or the forced
    one is not a remote class, there is no violation: on an empty server no label is
    remote.  The coalescing metadata has the keys of the coalescer. *)
Theorem evidence_event_safe now b a ts listener wp wk mm health override meta subs ev after :
  build_proxy_evidence_event now b a ts listener wp wk mm health override meta subs = Ok ev ->
  coalesce_keys_only meta ->
  normalize_proxy_state (Some a) = Ok after ->
  exists cls blocked violations,
    Dict.lookup "classification" ev = Some (PDict cls) /\
    Dict.lookup "unsafe_inferences_blocked" cls = Some (str_list blocked) /\
    Dict.lookup "safety_violations" cls = Some (str_list violations) /\
    (_server_empty after.(proxy_server) = true ->
       In "Remote proxy configured inference blocked because after_proxy_server is empty."
         blocked) /\
    (violations <> [] <-> _server_empty after.(proxy_server) = true /\ forbidden_label ev) /\
    ((forall t, override = Some t ->
        ~ In (TransitionClass.class_value t) FORBIDDEN_CLASSIFICATIONS_WHEN_AFTER_SERVER_EMPTY) ->
     violations = [] /\ (_server_empty after.(proxy_server) = true -> ~ forbidden_label ev)).
Proof.
  intros E Hm Ha. apply event_inv in E as (before & after' & t & proc & attr & cls & V); [|done].
  assert (after' = after) as -> by (destruct V; congruence).
  pose proof (ev_classification _ _ _ _ _ _ _ _ _ _ _ _ _ _ _ V) as Hc.
  apply explainable_inv in Hc as (before' & after' & Hb' & Ha' & Hp & Hs & blocked & Hbl & _ & Hre).
  assert (after' = after) as -> by congruence.
  pose proof (ev_primary_field _ _ _ _ _ _ _ _ _ _ _ _ _ _ _ V) as Hpf.
  unfold Dict.get in Hpf. rewrite Hp in Hpf. cbn [default] in Hpf.
  pose proof (forbidden_labels_flagged after.(proxy_server) _ _ ev
                (ev_class_field _ _ _ _ _ _ _ _ _ _ _ _ _ _ _ V) Hpf) as Hiff.
  eexists cls, blocked, _. split; [by destruct V|]. split; [done|]. split; [exact Hs|].
  split; [done|]. split; [exact Hiff|]. intros Ho.
  assert (_server_empty after.(proxy_server) = false \/ is_remote_class t = false) as Hv%(validator_iff before').
  { destruct (is_remote_class t) eqn:Er; [left|by right].
    rewrite (ev_transition _ _ _ _ _ _ _ _ _ _ _ _ _ _ _ V) in Er.
    destruct override as [o|]; [|by apply classify_states_remote in Er as [_ ?]].
    destruct (Ho o eq_refl). by destruct o; cbn in *; try tauto. }
  split; [exact Hv|]. intros He Hl. by apply (proj2 Hiff).
Qed.

(** C21: without registry writer proof an event never exceeds tier T2, its
    attribution is at most a correlation and carries the standard limitations,
    and its explanation blocks the malware accusation. *)
Theorem no_writer_proof_no_accusation now b a ts listener wk mm health override meta subs ev :
  build_proxy_evidence_event now b a ts listener false wk mm health override meta subs = Ok ev ->
  coalesce_keys_only meta ->
  exists tier attr kind cls blocked,
    Dict.lookup "proof_tier" ev = Some (PStr tier) /\ In tier ["T0"; "T1"; "T2"] /\
    Dict.lookup "attribution" ev = Some (PDict attr) /\
    Dict.lookup "kind" attr = Some (PStr kind) /\ In kind ["correlation"; "none"] /\
    Dict.lookup "limitations" attr = Some (str_list STANDARD_ATTRIBUTION_LIMITATIONS) /\
    Dict.lookup "classification" ev = Some (PDict cls) /\
    Dict.lookup "unsafe_inferences_blocked" cls = Some (str_list blocked) /\
    In "Malware accusation blocked because registry writer proof is missing." blocked.
Proof.
  intros E Hm. apply event_inv in E as (before & after & t & proc & attr & cls & V); [|done].
  destruct V as [_ _ _ _ Hattr Hc _ _ Ht (attr' & Ha & Hk & Hl) Hcf _].
  apply explainable_inv in Hc as (? & ? & _ & _ & _ & _ & blocked & Hbl & Hmal & _).
  assert (exists kind, Dict.lookup "kind" attr = Some (PStr kind) /\
            In kind ["correlation"; "none"] /\
            Dict.lookup "limitations" attr = Some (str_list STANDARD_ATTRIBUTION_LIMITATIONS))
    as (kind & Hkind & Hin & Hlim).
  { unfold build_attribution in Hattr. apply bind_Ok in Hattr as (p & _ & Hattr).
    destruct wk; destruct (proc_truthy p); injection Hattr as <-;
      eexists; (split; [reflexivity|]); split; cbn; tauto. }
  do 5 eexists. split; [exact Ht|]. split.
  { unfold _proof_tier_for_transition. cbn. repeat split_goal; tauto. }
  split; [exact Ha|]. split; [by rewrite Hk|]. split; [exact Hin|]. split.
  { destruct Hl as [-> | ->]; done. }
  split; [exact Hcf|]. split; [exact Hbl|]. by apply Hmal.
Qed.

(** When the class comes from the classifier, an event requires human
    review exactly when it reports a remote proxy. *)
Theorem human_review_iff_remote now b a ts listener wp wk mm health meta subs ev :
  build_proxy_evidence_event now b a ts listener wp wk mm health None meta subs = Ok ev ->
  coalesce_keys_only meta ->
  Dict.lookup "policy_decision" ev = Some (PStr "REQUIRE_HUMAN_REVIEW") <->
  Dict.lookup "transition_class" ev = Some (PStr "REMOTE_OR_NON_LOOPBACK_PROXY_CONFIGURED") \/
  Dict.lookup "transition_class" ev = Some (PStr "PROXY_SERVER_CHANGED_TO_REMOTE").
Proof.
  intros E Hm. apply event_inv in E as (before & after & t & proc & attr & cls & V); [|done].
  destruct V as [_ _ Ht _ _ _ Hc (tr & un & _ & Hp) _ _ _ _]. cbn in Ht.
  assert (t <> TransitionClass.REVERTER_SUSPECTED_LOCALHOST_PROXY_LOOP) as Hr.
  { intros ->. unfold classify_states in Ht. by repeat split_hyp Ht. }
  rewrite Hp, Hc. clear - Hr. destruct t; cbn; intuition congruence.
Qed.

(** An event built with registry writer proof is of tier T3 and still
    lists "Registry writer proof unavailable" as its first limitation. *)
Theorem writer_proof_limitation_contradiction now b a ts listener wk mm health override ev :
  build_proxy_evidence_event now b a ts listener true wk mm health override [] [] = Ok ev ->
  Dict.lookup "proof_tier" ev = Some (PStr "T3") /\
  exists rest, Dict.lookup "limitations" ev =
    Some (str_list ("Registry writer proof unavailable" :: rest)).
Proof.
  unfold build_proxy_evidence_event. cbn zeta. intros E.
  do 6 apply bind_Ok in E as (? & _ & E). injection E as <-.
  split; [done|]. eexists. reflexivity.
Qed.
End Properties.

(** ** Concrete instances *)
Module ProxyEvidenceWitness.
#[local] Instance host : PyHost := DemoHost.demo_host.

Definition local_raw : pydict :=
  ["ProxyEnable" :-> PInt 1; "ProxyServer" :-> PStr "127.0.0.1:59081"].
Definition removed_raw : pydict := ["ProxyEnable" :-> PInt 1; "ProxyServer" :-> PStr ""].
Definition remote_raw : pydict :=
  ["ProxyEnable" :-> PInt 1; "ProxyServer" :-> PStr "proxy.corp:8080"].
Definition listener : pyval := PDict ["process" :-> PDict ["name" :-> PStr "Node.exe"]].

Definition event (before after : pydict) (writer_proof : bool) : result pydict :=
  build_proxy_evidence_event "2026-01-01T00:00:00Z" before after None listener writer_proof
    None None [] None [] [].
Definition event_of (before after : pydict) (writer_proof : bool) : pydict :=
  match event before after writer_proof with Ok ev => ev | Raise _ => [] end.
Definition after_of (raw : pydict) : ProxyWininetState :=
  match normalize_proxy_state (Some raw) with
  | Ok st => st
  | Raise _ =>
      {| proxy_enable := false; proxy_server := None; auto_config_url := None;
         auto_detect := None; proxy_override := None; parsed_host := None;
         parsed_port := None; proxy_mode := ProxyMode.UNKNOWN; winhttp_direct_access := None |}
  end.

Lemma no_meta : coalesce_keys_only [].
Proof. by intros k. Qed.

Definition forced (t : TransitionClass.t) : result pydict :=
  build_proxy_evidence_event "2026-01-01T00:00:00Z" local_raw removed_raw None listener false None
    None [] (Some t) [] [].
Definition forced_event (t : TransitionClass.t) : pydict :=
  match forced t with Ok ev => ev | Raise _ => [] end.

(** A forced remote class on an empty server is flagged. *)
Lemma evidence_event_safe_witness :
  let ev := forced_event TransitionClass.PROXY_SERVER_CHANGED_TO_REMOTE in
  exists cls blocked violations,
    Dict.lookup "classification" ev = Some (PDict cls) /\
    Dict.lookup "unsafe_inferences_blocked" cls = Some (str_list blocked) /\
    Dict.lookup "safety_violations" cls = Some (str_list violations) /\
    violations <> [].
Proof.
  intros ev.
  destruct (evidence_event_safe "2026-01-01T00:00:00Z" local_raw removed_raw None listener false None
    None [] (Some TransitionClass.PROXY_SERVER_CHANGED_TO_REMOTE) [] [] ev (after_of removed_raw))
    as (cls & blocked & violations & H1 & H2 & H3 & _ & H4 & _);
    [vm_compute; reflexivity|apply no_meta|vm_compute; reflexivity|].
  exists cls, blocked, violations. do 3 (split; [assumption|]). apply H4.
  split; [vm_compute; reflexivity|]. exists "PROXY_SERVER_CHANGED_TO_REMOTE".
  split; [cbn; tauto|]. left. vm_compute. reflexivity.
Defined.

Lemma no_writer_proof_no_accusation_witness :
  exists tier attr kind cls blocked,
    Dict.lookup "proof_tier" (event_of removed_raw local_raw false) = Some (PStr tier) /\
    In tier ["T0"; "T1"; "T2"] /\
    Dict.lookup "attribution" (event_of removed_raw local_raw false) = Some (PDict attr) /\
    Dict.lookup "kind" attr = Some (PStr kind) /\ In kind ["correlation"; "none"] /\
    Dict.lookup "limitations" attr = Some (str_list STANDARD_ATTRIBUTION_LIMITATIONS) /\
    Dict.lookup "classification" (event_of removed_raw local_raw false) = Some (PDict cls) /\
    Dict.lookup "unsafe_inferences_blocked" cls = Some (str_list blocked) /\
    In "Malware accusation blocked because registry writer proof is missing." blocked.
Proof.
  apply (no_writer_proof_no_accusation "2026-01-01T00:00:00Z" removed_raw local_raw None listener
           None None [] None [] []); [vm_compute; reflexivity|apply no_meta].
Defined.

Lemma human_review_iff_remote_witness :
  Dict.lookup "policy_decision" (event_of local_raw remote_raw false) =
    Some (PStr "REQUIRE_HUMAN_REVIEW").
Proof.
  apply (human_review_iff_remote "2026-01-01T00:00:00Z" local_raw remote_raw None listener
           false None None [] [] []); [vm_compute; reflexivity|apply no_meta|].
  right. vm_compute. reflexivity.
Defined.

Lemma writer_proof_limitation_contradiction_witness :
  Dict.lookup "proof_tier" (event_of local_raw remote_raw true) = Some (PStr "T3") /\
  exists rest, Dict.lookup "limitations" (event_of local_raw remote_raw true) =
    Some (str_list ("Registry writer proof unavailable" :: rest)).
Proof.
  apply (writer_proof_limitation_contradiction "2026-01-01T00:00:00Z" local_raw remote_raw None
           listener None None [] None). vm_compute. reflexivity.
Defined.
End ProxyEvidenceWitness.
