(* ===== verification/PyTime.v ===== *)
(** * Dates and times

    The part of Python's [datetime] the toolkit uses: the proleptic Gregorian
    calendar, [datetime.fromisoformat] (calendar and week dates, basic and
    extended forms, fractional seconds, offsets), [timestamp()],
    [astimezone(UTC)], addition of a [timedelta] and the
    [strftime("%Y-%m-%dT%H:%M:%SZ")] of the audit rows.

    A date-time is its wall-clock reading in microseconds since
    0001-01-01T00:00:00 with the UTC offset of an aware one. *)

From S2P Require Import Prelude PyValue.
From Stdlib Require Import Ascii String.
From stdpp Require Import strings.

Open Scope string_scope.
Open Scope Z_scope.

#[local] Ltac Zify.zify_post_hook ::= Z.to_euclidean_division_equations.

(** ** Calendar *)
Module Cal.
Definition is_leap (y : Z) : bool :=
  (y mod 4 =? 0) && (negb (y mod 100 =? 0) || (y mod 400 =? 0)).

Definition days_in_month (y m : Z) : Z :=
  if m =? 2 then (if is_leap y then 29 else 28)
  else if (m =? 4) || (m =? 6) || (m =? 9) || (m =? 11) then 30 else 31.

Definition days_before_year (year : Z) : Z :=
  let y := year - 1 in y * 365 + y / 4 - y / 100 + y / 400.

Definition days_before_month_common (m : Z) : Z :=
  match m with
  | 1 => 0 | 2 => 31 | 3 => 59 | 4 => 90 | 5 => 120 | 6 => 151
  | 7 => 181 | 8 => 212 | 9 => 243 | 10 => 273 | 11 => 304 | 12 => 334 | _ => 365
  end.

Definition days_before_month (y m : Z) : Z :=
  days_before_month_common m + (if (2 <? m) && is_leap y then 1 else 0).

(** 0001-01-01 is day 1. *)
Definition ymd2ord (y m d : Z) : Z := days_before_year y + days_before_month y m + d.

Definition valid_date (y m d : Z) : bool :=
  (1 <=? y) && (y <=? 9999) && (1 <=? m) && (m <=? 12) && (1 <=? d) && (d <=? days_in_month y m).

(** Month and day of day [n] (from 0) of a year. *)
Definition month_day (leapyear : bool) (n : Z) : Z * Z :=
  let month := Z.shiftr (n + 50) 5 in
  let preceding :=
    days_before_month_common month + (if (2 <? month) && leapyear then 1 else 0) in
  if n <? preceding then
    let m := month - 1 in
    let preceding := preceding -
      (days_before_month_common month - days_before_month_common m
       + (if (m =? 2) && leapyear then 1 else 0)) in
    (m, n - preceding + 1)
  else (month, n - preceding + 1).

Definition ord2ymd (n : Z) : Z * Z * Z :=
  let n := n - 1 in
  let n400 := n / 146097 in let n := n mod 146097 in
  let n100 := n / 36524 in let n := n mod 36524 in
  let n4 := n / 1461 in let n := n mod 1461 in
  let n1 := n / 365 in let n := n mod 365 in
  let year := n400 * 400 + 1 + n100 * 100 + n4 * 4 + n1 in
  if (n1 =? 4) || (n100 =? 4) then (year - 1, 12, 31)
  else
    let leapyear := (n1 =? 3) && (negb (n4 =? 24) || (n100 =? 3)) in
    let '(month, day) := month_day leapyear n in
    (year, month, day).

(** Monday is 0. *)
Definition weekday (n : Z) : Z := (n + 6) mod 7.

(** The Monday that starts week 1 of an ISO year. *)
Definition isoweek1monday (year : Z) : Z :=
  let firstday := ymd2ord year 1 1 in
  let firstweekday := (firstday + 6) mod 7 in
  let week1monday := firstday - firstweekday in
  if 3 <? firstweekday then week1monday + 7 else week1monday.

Definition isoweek_to_ord (year week day : Z) : option Z :=
  let out_of_range :=
    if (1 <=? week) && (week <? 53) then false
    else if week =? 53 then
      let first_weekday := ymd2ord year 1 1 mod 7 in
      negb ((first_weekday =? 4) || ((first_weekday =? 3) && is_leap year))
    else true in
  if negb ((1 <=? year) && (year <=? 9999)) || out_of_range || negb ((1 <=? day) && (day <=? 7))
  then None
  else Some (isoweek1monday year + (week - 1) * 7 + day - 1).

(** *** The two conversions are inverse *)

Definition month_day_ok (leap : bool) (n : Z) : bool :=
  let '(m, d) := month_day leap n in
  let len := if m =? 2 then (if leap then 29 else 28)
             else if (m =? 4) || (m =? 6) || (m =? 9) || (m =? 11) then 30 else 31 in
  (days_before_month_common m + (if (2 <? m) && leap then 1 else 0) + d =? n + 1)
  && (1 <=? m) && (m <=? 12) && (1 <=? d) && (d <=? len).

Fixpoint check_from (f : Z -> bool) (n : nat) (z : Z) : bool :=
  match n with
  | O => true
  | S k => f z && check_from f k (z + 1)
  end.

Lemma check_from_spec f n z0 :
  check_from f n z0 = true -> forall z, z0 <= z < z0 + Z.of_nat n -> f z = true.
Proof.
  revert z0. induction n as [|n IH]; intros z0; cbn [check_from]; [lia|].
  intros [H1 H2]%andb_true_iff z Hz.
  destruct (Z.eq_dec z z0) as [->|]; [done|]. apply (IH (z0 + 1)); [done|lia].
Qed.

(** The days of a year, checked one by one. *)
Lemma month_day_checked (leap : bool) n :
  0 <= n < (if leap then 366 else 365) -> month_day_ok leap n = true.
Proof.
  intros Hn.
  apply (check_from_spec (month_day_ok leap) (Z.to_nat (if leap then 366 else 365)) 0);
    [by destruct leap|]. destruct leap; lia.
Qed.

Lemma month_day_spec y (leap : bool) n m d :
  is_leap y = leap -> 0 <= n < (if leap then 366 else 365) -> month_day leap n = (m, d) ->
  days_before_month y m + d = n + 1 /\ 1 <= m <= 12 /\ 1 <= d <= days_in_month y m.
Proof.
  intros Hl Hn%month_day_checked E. unfold month_day_ok in Hn. rewrite E in Hn.
  unfold days_before_month, days_in_month. rewrite Hl. bool_facts. lia.
Qed.

(** A year written in the mixed base 400, 100, 4, 1 of the algorithm. *)
Lemma year_digits k a b c :
  0 <= a <= 3 -> 0 <= b <= 24 -> 0 <= c <= 3 ->
  let y := k * 400 + 1 + a * 100 + b * 4 + c in
  days_before_year y = 146097 * k + 36524 * a + 1461 * b + 365 * c /\
  is_leap y = (c =? 3) && (negb (b =? 24) || (a =? 3)).
Proof.
  intros Ha Hb Hc. cbn zeta. unfold days_before_year, is_leap.
  assert ((k * 400 + 1 + a * 100 + b * 4 + c - 1) / 4 = k * 100 + a * 25 + b) as -> by lia.
  assert ((k * 400 + 1 + a * 100 + b * 4 + c - 1) / 100 = k * 4 + a) as -> by lia.
  assert ((k * 400 + 1 + a * 100 + b * 4 + c - 1) / 400 = k) as -> by lia.
  split; [lia|].
  assert ((k * 400 + 1 + a * 100 + b * 4 + c) mod 4 = (1 + c) mod 4) as -> by lia.
  assert ((k * 400 + 1 + a * 100 + b * 4 + c) mod 100 = (1 + b * 4 + c) mod 100) as -> by lia.
  assert ((k * 400 + 1 + a * 100 + b * 4 + c) mod 400 = (1 + a * 100 + b * 4 + c) mod 400)
    as -> by lia.
  apply eq_true_iff_eq. rewrite !andb_true_iff, !orb_true_iff, !negb_true_iff, !Z.eqb_eq, !Z.eqb_neq.
  lia.
Qed.

(** Every ordinal is the ordinal of its date, which is a valid calendar date. *)
Lemma ord2ymd_spec n y m d :
  1 <= n -> ord2ymd n = (y, m, d) ->
  ymd2ord y m d = n /\ 1 <= y /\ 1 <= m <= 12 /\ 1 <= d <= days_in_month y m.
Proof.
  intros Hn. unfold ord2ymd, ymd2ord. cbn zeta.
  set (k := (n - 1) / 146097). set (r := (n - 1) mod 146097).
  assert (0 <= k /\ 0 <= r < 146097 /\ n - 1 = 146097 * k + r) as (Hk & Hr & En) by lia.
  clearbody k r.
  set (a := r / 36524). set (r1 := r mod 36524).
  assert (0 <= a <= 4 /\ 0 <= r1 < 36524 /\ r = 36524 * a + r1) as (Ha & Hr1 & Er) by lia.
  clearbody a r1.
  set (b := r1 / 1461). set (r2 := r1 mod 1461).
  assert (0 <= b <= 24 /\ 0 <= r2 < 1461 /\ r1 = 1461 * b + r2) as (Hb & Hr2 & Er1) by lia.
  clearbody b r2.
  set (c := r2 / 365). set (r3 := r2 mod 365).
  assert (0 <= c <= 4 /\ 0 <= r3 < 365 /\ r2 = 365 * c + r3) as (Hc & Hr3 & Er2) by lia.
  clearbody c r3.
  destruct ((c =? 4) || (a =? 4)) eqn:Elast.
  - (* the last day of a leap year *)
    intros E. injection E as <- <- <-.
    assert (c = 4 /\ a <= 3 /\ r3 = 0 /\ (b <> 24 \/ a = 3) \/
            c = 0 /\ a = 4 /\ b = 0 /\ r3 = 0) as Hcase.
    { apply orb_true_iff in Elast. rewrite !Z.eqb_eq in Elast. lia. }
    destruct Hcase as [(-> & Ha' & -> & Hleap)|(-> & -> & -> & ->)].
    + destruct (year_digits k a b 3) as [Hd Hl]; [lia..|].
      replace (k * 400 + 1 + a * 100 + b * 4 + 4 - 1) with (k * 400 + 1 + a * 100 + b * 4 + 3) by lia.
      unfold days_before_month. rewrite Hd, Hl.
      assert (negb (b =? 24) || (a =? 3) = true) as -> by lia. cbn. lia.
    + destruct (year_digits k 3 24 3) as [Hd Hl]; [lia..|].
      replace (k * 400 + 1 + 4 * 100 + 0 * 4 + 0 - 1)
        with (k * 400 + 1 + 3 * 100 + 24 * 4 + 3) by lia.
      unfold days_before_month. rewrite Hd, Hl. cbn. lia.
  - apply orb_false_iff in Elast. rewrite !Z.eqb_neq in Elast.
    destruct (year_digits k a b c) as [Hd Hl]; [lia..|].
    destruct (month_day _ r3) as [mo da] eqn:Emd. intros E. injection E as <- <- <-.
    rewrite Hd. eapply month_day_spec in Emd as (Hs & Hm & Hdd); [|exact Hl|]; [lia|].
    destruct (_ && _); lia.
Qed.
End Cal.

(** ** Date-times *)

Definition US_PER_SEC : Z := 1000000.
Definition US_PER_DAY : Z := 86400 * US_PER_SEC.
Definition MAX_ORD : Z := 3652059.

Record datetime := {
  dt_wall : Z;              (** microseconds since 0001-01-01T00:00:00 *)
  dt_offset : option Z;     (** UTC offset in microseconds, [None] when naive *)
}.

Definition in_range (us : Z) : bool := (0 <=? us) && (us <? MAX_ORD * US_PER_DAY).

(** 1970-01-01T00:00:00 on the scale of [dt_wall]. *)
Definition EPOCH : Z := (Cal.ymd2ord 1970 1 1 - 1) * US_PER_DAY.

Definition dt_ordinal (us : Z) : Z := us / US_PER_DAY + 1.
Definition dt_time (us : Z) : Z := us mod US_PER_DAY.

Module Iso.
Definition sub (s : string) (pos len : nat) : string := String.substring pos len s.
Definition drop (n : nat) (s : string) : string := String.substring n (String.length s - n) s.

(** [int(text)] of a non-empty run of ASCII digits. *)
Definition num (s : string) : option Z :=
  if PyStr.is_empty s || negb (PyStr.all_chars PyStr.is_digit s) then None
  else PyStr.digits_val 0 false s.

Definition char_at (n : nat) (s : string) : option ascii := String.get n s.
Definition char_is (n : nat) (c : ascii) (s : string) : bool :=
  match String.get n s with Some c' => Ascii.eqb c c' | None => false end.
Definition digit_at (n : nat) (s : string) : bool :=
  match String.get n s with Some c => PyStr.is_digit c | None => false end.

Fixpoint digits_from (fuel idx : nat) (s : string) : nat :=
  match fuel with
  | O => idx
  | S f => if digit_at idx s then digits_from f (S idx) s else idx
  end.

(** Where the date ends. *)
Definition separator_location (s : string) : option nat :=
  let len := String.length s in
  if Nat.eqb len 7 then Some 7%nat
  else if char_is 4 "-" s then
    if char_is 5 "W" s then
      if char_is 8 "-" s then
        if Nat.eqb len 9 then None
        else if (10 <? len)%nat && digit_at 10 s then Some 8%nat else Some 10%nat
      else Some 8%nat
    else Some 10%nat
  else if char_is 4 "W" s then
    let idx := digits_from len 7 s in
    if (idx <? 9)%nat then Some idx
    else if Nat.even idx then Some 7%nat else Some 8%nat
  else Some 8%nat.

(** The ordinal of the date. *)
Definition parse_date (s : string) : option Z :=
  year ← num (sub s 0 4);
  let has_sep := char_is 4 "-" s in
  let pos := if has_sep then 5%nat else 4%nat in
  if char_is pos "W" s then
    weekno ← num (sub s (pos + 1) 2);
    let pos := (pos + 3)%nat in
    if (pos <? String.length s)%nat then
      if Bool.eqb (char_is pos "-" s) has_sep then
        dayno ← num (drop (if has_sep then S pos else pos) s);
        Cal.isoweek_to_ord year weekno dayno
      else None
    else Cal.isoweek_to_ord year weekno 1
  else
    month ← num (sub s pos 2);
    let pos := (pos + 2)%nat in
    if Bool.eqb (char_is pos "-" s) has_sep then
      day ← num (drop (if has_sep then S pos else pos) s);
      if Cal.valid_date year month day then Some (Cal.ymd2ord year month day) else None
    else None.

(** Microseconds of up to six fraction digits; further digits are dropped. *)
Definition parse_fraction (s : string) : option Z :=
  if PyStr.all_chars PyStr.is_digit s then
    let n := Nat.min 6 (String.length s) in
    us ← num (sub s 0 n);
    Some (us * 10 ^ (6 - Z.of_nat n))
  else None.

(** [HH[:MM[:SS[.ffffff]]]]; [comp] counts the components read so far. *)
Fixpoint parse_comps (left : nat) (first has_sep : bool) (s : string) : option (list Z) :=
  match left with
  | O => None
  | S left' =>
      v ← num (sub s 0 2);
      if (String.length s <? 2)%nat then None else
      let rest := drop 2 s in
      let has_sep := if first then char_is 0 ":" rest else has_sep in
      if PyStr.is_empty rest then Some [v]
      else match left' with
      | O =>
          if char_is 0 "." rest || char_is 0 "," rest then
            us ← parse_fraction (drop 1 rest); Some [v; us]
          else None
      | _ =>
          if has_sep then
            if char_is 0 ":" rest then
              vs ← parse_comps left' false has_sep (drop 1 rest); Some (v :: vs)
            else None
          else vs ← parse_comps left' false has_sep rest; Some (v :: vs)
      end
  end.

Definition parse_hh_mm_ss_ff (s : string) : option (Z * Z * Z * Z) :=
  vs ← parse_comps 3 true false s;
  match vs with
  | [h] => Some (h, 0, 0, 0)
  | [h; m] => Some (h, m, 0, 0)
  | [h; m; sec] => Some (h, m, sec, 0)
  | [h; m; sec; us] => Some (h, m, sec, us)
  | _ => None
  end.

Definition us_of (c : Z * Z * Z * Z) : Z :=
  let '(h, m, s, us) := c in ((h * 60 + m) * 60 + s) * US_PER_SEC + us.

Definition is_tz_char (c : ascii) : bool :=
  Ascii.eqb c "-" || Ascii.eqb c "+" || Ascii.eqb c "Z".

(** The time of day and the offset. *)
Definition parse_time (s : string) : option (Z * option Z) :=
  let '(timestr, tz) := PyStr.span (fun c => negb (is_tz_char c)) s in
  c ← parse_hh_mm_ss_ff timestr;
  let '(h, m, sec, us) := c in
  if negb ((h <? 24) && (m <? 60) && (sec <? 60)) then None else
  match tz with
  | EmptyString => Some (us_of c, None)
  | String "Z" EmptyString => Some (us_of c, Some 0)
  | String sign tzstr =>
      let n := String.length tzstr in
      if Ascii.eqb sign "Z" || Nat.eqb n 0 || Nat.eqb n 1 || Nat.eqb n 3 then None else
      o ← parse_hh_mm_ss_ff tzstr;
      let off := if Ascii.eqb sign "-" then - us_of o else us_of o in
      if (- US_PER_DAY <? off) && (off <? US_PER_DAY) then Some (us_of c, Some off) else None
  end.
End Iso.

(** [datetime.fromisoformat(s)], [None] for its [ValueError]. *)
Definition fromisoformat (s : string) : option datetime :=
  if (String.length s <? 7)%nat then None else
  loc ← Iso.separator_location s;
  ord ← Iso.parse_date (Iso.sub s 0 loc);
  if (1 <=? ord) && (ord <=? MAX_ORD) then
    let tstr := Iso.drop (S loc) s in
    if PyStr.is_empty tstr then Some {| dt_wall := (ord - 1) * US_PER_DAY; dt_offset := None |}
    else
      '(us, off) ← Iso.parse_time tstr;
      Some {| dt_wall := (ord - 1) * US_PER_DAY + us; dt_offset := off |}
  else None.

(** [dt.astimezone(UTC)] of an aware date-time, as a UTC wall clock. *)
Definition to_utc (wall off : Z) : result Z :=
  if in_range (wall - off) then Ok (wall - off) else Raise OverflowError.

(** [s.replace("Z", "+00:00")]. *)
Fixpoint replace_z (s : string) : string :=
  match s with
  | EmptyString => EmptyString
  | String c s' => (if Ascii.eqb c "Z" then "+00:00" else String c EmptyString) ++ replace_z s'
  end.

(** [dt.strftime("%Y-%m-%dT%H:%M:%SZ")] of a UTC wall clock.  Years below 1000
    are zero-padded to four digits, as [strftime] does since Python 3.11 on the
    platforms the toolkit runs on. *)
Definition pad (n : nat) (z : Z) : string :=
  let s := PyStr.of_Z z in
  String.concat "" (repeat "0" (n - String.length s)) ++ s.

Definition format_utc_wall (us : Z) : string :=
  let '(y, m, d) := Cal.ord2ymd (dt_ordinal us) in
  let t := dt_time us / US_PER_SEC in
  pad 4 y ++ "-" ++ pad 2 m ++ "-" ++ pad 2 d ++ "T" ++
  pad 2 (t / 3600) ++ ":" ++ pad 2 (t / 60 mod 60) ++ ":" ++ pad 2 (t mod 60) ++ "Z".

Example fromisoformat_utc :
  fromisoformat "2026-03-01T12:30:45.5+02:00" =
    Some {| dt_wall := (Cal.ymd2ord 2026 3 1 - 1) * US_PER_DAY + 45045500000; dt_offset := Some 7200000000 |}.
Proof. vm_compute. reflexivity. Qed.

Example format_utc_example :
  option_map (fun dt => format_utc_wall dt.(dt_wall)) (fromisoformat "2024-W09-4T01:02:03Z") =
    Some "2024-02-29T01:02:03Z".
Proof. vm_compute. reflexivity. Qed.

(** ** Printed time stamps parse back *)

Definition two_digits (z : Z) : string :=
  String (PyStr.digit_char (z / 10)) (String (PyStr.digit_char (z mod 10)) "").
Definition four_digits (z : Z) : string :=
  String (PyStr.digit_char (z / 1000)) (String (PyStr.digit_char (z / 100 mod 10))
    (String (PyStr.digit_char (z / 10 mod 10)) (String (PyStr.digit_char (z mod 10)) ""))).

Definition pad2_ok (z : Z) : bool :=
  String.eqb (pad 2 z) (two_digits z) && bool_decide (Iso.num (two_digits z) = Some z)
  && PyStr.all_chars PyStr.is_digit (two_digits z).
Definition pad4_ok (z : Z) : bool :=
  String.eqb (pad 4 z) (four_digits z) && bool_decide (Iso.num (four_digits z) = Some z)
  && PyStr.all_chars PyStr.is_digit (four_digits z).

Lemma pad2_spec z : 0 <= z < 100 ->
  exists a b, pad 2 z = String a (String b "") /\ PyStr.is_digit a = true /\
    PyStr.is_digit b = true /\ Iso.num (String a (String b "")) = Some z.
Proof.
  intros Hz. assert (pad2_ok z = true) as Hok.
  { apply (Cal.check_from_spec pad2_ok 100 0); [vm_compute; reflexivity|lia]. }
  unfold pad2_ok in Hok. apply andb_true_iff in Hok as [Hok Hd]. apply andb_true_iff in Hok as [Hp Hn].
  apply String.eqb_eq in Hp. apply bool_decide_eq_true in Hn. unfold two_digits in *.
  cbn [PyStr.all_chars] in Hd. bool_facts. eauto 8.
Qed.

Lemma pad4_spec z : 0 <= z < 10000 ->
  exists a b c d, pad 4 z = String a (String b (String c (String d ""))) /\
    PyStr.is_digit a = true /\ PyStr.is_digit b = true /\ PyStr.is_digit c = true /\
    PyStr.is_digit d = true /\ Iso.num (String a (String b (String c (String d "")))) = Some z.
Proof.
  intros Hz. assert (pad4_ok z = true) as Hok.
  { apply (Cal.check_from_spec pad4_ok (Z.to_nat 10000) 0); [vm_compute; reflexivity|lia]. }
  unfold pad4_ok in Hok. apply andb_true_iff in Hok as [Hok Hd]. apply andb_true_iff in Hok as [Hp Hn].
  apply String.eqb_eq in Hp. apply bool_decide_eq_true in Hn.
  unfold four_digits in *. cbn [PyStr.all_chars] in Hd. bool_facts.
  eexists _, _, _, _. split_and!; eassumption.
Qed.

Lemma digit_ne x c : PyStr.is_digit c = true -> PyStr.is_digit x = false -> Ascii.eqb x c = false.
Proof. intros Hc Hx. apply Ascii.eqb_neq. congruence. Qed.

Lemma digit_ne_r c x : PyStr.is_digit c = true -> PyStr.is_digit x = false -> Ascii.eqb c x = false.
Proof. intros Hc Hx. apply Ascii.eqb_neq. congruence. Qed.

(** Tests of a digit against a fixed separator fail. *)
Ltac digit_tests :=
  repeat match goal with
  | H : PyStr.is_digit ?c = true |- context [PyStr.is_space ?c] =>
      rewrite (PyStr.is_digit_not_space c H)
  | H : PyStr.is_digit ?c = true |- context [Ascii.eqb ?x ?c] =>
      rewrite (digit_ne x c H eq_refl)
  | H : PyStr.is_digit ?c = true |- context [Ascii.eqb ?c ?x] =>
      rewrite (digit_ne_r c x H eq_refl)
  end.

Section RoundTrip.
Variables a b c d e f g h i j k l m n : ascii.
Hypotheses (Ha : PyStr.is_digit a = true) (Hb : PyStr.is_digit b = true)
  (Hc : PyStr.is_digit c = true) (Hd : PyStr.is_digit d = true) (He : PyStr.is_digit e = true)
  (Hf : PyStr.is_digit f = true) (Hg : PyStr.is_digit g = true) (Hh : PyStr.is_digit h = true)
  (Hi : PyStr.is_digit i = true) (Hj : PyStr.is_digit j = true) (Hk : PyStr.is_digit k = true)
  (Hl : PyStr.is_digit l = true) (Hm : PyStr.is_digit m = true) (Hn : PyStr.is_digit n = true).
Variables year month day hour minute second : Z.
Hypotheses (Hyear : Iso.num (String a (String b (String c (String d "")))) = Some year)
  (Hmonth : Iso.num (String e (String f "")) = Some month)
  (Hday : Iso.num (String g (String h "")) = Some day)
  (Hhour : Iso.num (String i (String j "")) = Some hour)
  (Hminute : Iso.num (String k (String l "")) = Some minute)
  (Hsecond : Iso.num (String m (String n "")) = Some second).

Let date : string :=
  String a (String b (String c (String d (String "-" (String e (String f (String "-"
    (String g (String h ""))))))))).
Let clock : string :=
  String i (String j (String ":" (String k (String l (String ":" (String m (String n ""))))))).

Lemma parse_date_digits :
  Cal.valid_date year month day = true ->
  Iso.parse_date date = Some (Cal.ymd2ord year month day).
Proof.
  intros Hv. unfold Iso.parse_date, date, Iso.sub, Iso.drop, Iso.char_is.
  cbn [String.substring String.get String.length Nat.sub Nat.add]. rewrite Hyear.
  cbn [mbind option_bind]. change (Ascii.eqb "-" "-") with true. cbn [String.get String.substring].
  digit_tests. cbn [Nat.add String.substring String.get]. rewrite Hmonth.
  cbn [mbind option_bind]. change (Ascii.eqb "-" "-") with true. cbn [Bool.eqb Nat.sub String.substring].
  rewrite Hday. cbn [mbind option_bind]. by rewrite Hv.
Qed.

Lemma parse_clock_digits : Iso.parse_hh_mm_ss_ff clock = Some (hour, minute, second, 0).
Proof.
  unfold Iso.parse_hh_mm_ss_ff, clock, Iso.drop, Iso.sub, Iso.char_is.
  cbn [Iso.parse_comps Iso.sub Iso.drop String.substring String.length Nat.ltb Nat.leb Nat.sub].
  unfold Iso.sub, Iso.drop, Iso.char_is.
  cbn [String.substring String.get String.length Nat.sub Nat.ltb Nat.leb PyStr.is_empty].
  rewrite Hhour. cbn [mbind option_bind]. change (Ascii.eqb ":" ":") with true. cbn match.
  rewrite Hminute. cbn [mbind option_bind]. rewrite Hsecond. reflexivity.
Qed.

Lemma parse_time_digits :
  hour < 24 -> minute < 60 -> second < 60 ->
  Iso.parse_time (clock ++ "+00:00") =
    Some (Iso.us_of (hour, minute, second, 0), Some 0).
Proof.
  intros H1 H2 H3. unfold Iso.parse_time.
  assert (PyStr.span (fun x => negb (Iso.is_tz_char x)) (clock ++ "+00:00") = (clock, "+00:00")) as ->.
  { apply PyStr.span_stop; [|reflexivity]. unfold clock, Iso.is_tz_char. cbn [PyStr.all_chars].
    digit_tests. reflexivity. }
  rewrite parse_clock_digits. cbn [mbind option_bind].
  apply Z.ltb_lt in H1, H2, H3. rewrite H1, H2, H3. reflexivity.
Qed.

Lemma fromisoformat_digits ord :
  hour < 24 -> minute < 60 -> second < 60 -> Cal.valid_date year month day = true ->
  Cal.ymd2ord year month day = ord -> 1 <= ord <= MAX_ORD ->
  fromisoformat (replace_z (PyStr.strip (date ++ "T" ++ clock ++ "Z"))) =
    Some {| dt_wall := (ord - 1) * US_PER_DAY + Iso.us_of (hour, minute, second, 0);
            dt_offset := Some 0 |}.
Proof.
  intros H1 H2 H3 Hv Ho Hr.
  assert (PyStr.strip (date ++ "T" ++ clock ++ "Z") = date ++ "T" ++ clock ++ "Z") as ->.
  { apply PyStr.strip_none. rewrite !PyStr.all_chars_app. unfold date, clock. cbn [PyStr.all_chars].
    digit_tests. reflexivity. }
  assert (replace_z (date ++ "T" ++ clock ++ "Z") = date ++ String "T" (clock ++ "+00:00")) as ->.
  { cbv [String.append date clock replace_z]. digit_tests. reflexivity. }
  assert (forall t, Iso.separator_location (date ++ String "T" t) = Some 10%nat) as Hsep.
  { intros t. unfold Iso.separator_location, date, Iso.char_is.
    cbv [String.append]. cbn [String.length String.get Nat.eqb]. change (Ascii.eqb "-" "-") with true.
    digit_tests. reflexivity. }
  unfold fromisoformat. rewrite Hsep.
  assert ((String.length (date ++ String "T" (clock ++ "+00:00")) <? 7)%nat = false) as -> by reflexivity.
  cbn [mbind option_bind].
  assert (Iso.sub (date ++ String "T" (clock ++ "+00:00")) 0 10 = date) as -> by reflexivity.
  rewrite (parse_date_digits Hv), Ho. cbn [mbind option_bind].
  assert ((1 <=? ord) && (ord <=? MAX_ORD) = true) as -> by lia.
  assert (Iso.drop 11 (date ++ String "T" (clock ++ "+00:00")) = clock ++ "+00:00") as -> by reflexivity.
  rewrite parse_time_digits by assumption. reflexivity.
Qed.
End RoundTrip.

(** The years of the supported range have four digits. *)
Lemma year_in_range y m d n :
  Cal.ymd2ord y m d = n -> 1 <= y -> 1 <= m <= 12 -> 1 <= d -> n <= MAX_ORD -> y <= 9999.
Proof.
  unfold Cal.ymd2ord, Cal.days_before_year, Cal.days_before_month, MAX_ORD. intros Hn Hy Hm Hd Hmax.
  assert (0 <= Cal.days_before_month_common m) as Hc.
  { assert (m = 1 \/ m = 2 \/ m = 3 \/ m = 4 \/ m = 5 \/ m = 6 \/ m = 7 \/ m = 8 \/ m = 9 \/
            m = 10 \/ m = 11 \/ m = 12) as Hcases by lia.
    repeat destruct Hcases as [-> | Hcases]; subst; vm_compute; discriminate. }
  destruct (_ && _); lia.
Qed.

(** What [format_utc_wall] prints is read back, up to the fraction of a second it
    drops. *)
Lemma fromisoformat_format us :
  in_range us = true ->
  fromisoformat (replace_z (PyStr.strip (format_utc_wall us))) =
    Some {| dt_wall := us - us mod US_PER_SEC; dt_offset := Some 0 |}.
Proof.
  unfold in_range. intros Hr.
  assert (1 <= dt_ordinal us <= MAX_ORD) as Hord.
  { unfold dt_ordinal, US_PER_DAY, US_PER_SEC, MAX_ORD in *. lia. }
  unfold format_utc_wall. destruct (Cal.ord2ymd (dt_ordinal us)) as [[y m] d] eqn:Eymd.
  apply Cal.ord2ymd_spec in Eymd as (Ho & Hy & Hm & Hd); [|lia].
  assert (y <= 9999) as Hy' by (eapply year_in_range; [exact Ho|lia..]).
  assert (d <= 31) as Hd31.
  { unfold Cal.days_in_month in Hd. destruct (m =? 2); [destruct (Cal.is_leap y); lia|].
    destruct (_ || _); lia. }
  set (t := dt_time us / US_PER_SEC).
  assert (0 <= t < 86400) as Ht by (unfold t, dt_time, US_PER_DAY, US_PER_SEC; lia).
  destruct (pad4_spec y) as (a & b & c & e & -> & ? & ? & ? & ? & Hny); [lia|].
  destruct (pad2_spec m) as (f & g & -> & ? & ? & Hnm); [lia|].
  destruct (pad2_spec d) as (h & i & -> & ? & ? & Hnd); [lia|].
  destruct (pad2_spec (t / 3600)) as (j & k & -> & ? & ? & Hnh); [lia|].
  destruct (pad2_spec (t / 60 mod 60)) as (l & n & -> & ? & ? & Hnmin); [lia|].
  destruct (pad2_spec (t mod 60)) as (o & p & -> & ? & ? & Hns); [lia|].
  assert (Cal.valid_date y m d = true) as Hv by (unfold Cal.valid_date; lia).
  etransitivity.
  - eapply (fromisoformat_digits a b c e f g h i j k l n o p) with
      (year := y) (month := m) (day := d) (hour := t / 3600) (minute := t / 60 mod 60)
      (second := t mod 60) (ord := dt_ordinal us); try assumption; lia.
  - do 2 f_equal. unfold Iso.us_of, t, dt_ordinal, dt_time, US_PER_DAY, US_PER_SEC. lia.
Qed.
