(* ===== verification/ProxyCoalesce.v ===== *)
(** * Coalescing proxy events and detecting reverter loops

    [windows_network_toolkit/proxy_state_machine.py], last part: rapid proxy
    changes are merged into one evidence event per time window, either over a
    recorded list ([coalesce_proxy_events]) or as they arrive
    ([CoalescingBuffer]), and repeated localhost enable/disable cycles are
    flagged.  The clock is a parameter: a reading for every call, and the host's
    local time zone for time stamps without an offset. *)

From S2P Require Import Prelude PyValue PyTime ProxyParser ProxyState ProxyEvidence.
From Stdlib Require Import Ascii String SpecFloat Permutation.
From stdpp Require Import strings.

Open Scope string_scope.
Open Scope Z_scope.
Open Scope py_scope.

(** What the machine's clock provides: the UTC reading (in microseconds since
    the epoch) of a naive local time, [None] when it is out of range. *)
Class PyZone := {
  local_to_utc : Z -> option Z;
}.

(** A point of the reverter timeline: time, ProxyEnable, parsed port. *)
Abbreviation point := (F64.t * bool * option Z)%type.

Section WithHost.
Context {H : PyHost} {C : PyZone}.

(** [datetime.fromisoformat(...).timestamp()] with [ValueError] as [None]; a naive time that
    the local zone cannot represent, for which Python raises another error, is [None] too. *)
Definition timestamp (dt : datetime) : option F64.t :=
  match dt.(dt_offset) with
  | Some off => Some (F64.int_div (dt.(dt_wall) - off - EPOCH) US_PER_SEC)
  | None => us ← local_to_utc (dt.(dt_wall) - EPOCH); Some (F64.int_div us US_PER_SEC)
  end.

Definition _parse_ts (ts : string) : option F64.t :=
  if PyStr.is_empty ts then None else dt ← fromisoformat (replace_z ts); timestamp dt.

(** [_parse_ts(str(ev.get("timestamp_utc") or ""))]. *)
Definition event_ts (ev : pydict) : option F64.t :=
  _parse_ts (py_str (py_or (Dict.get "timestamp_utc" ev) (PStr ""))).

(** [... or 0.0]. *)
Definition ts_or (ts : option F64.t) (d : F64.t) : F64.t :=
  match ts with
  | Some f => if F64.truth f then f else d
  | None => d
  end.

(** ** Merging a batch *)

(** [dict(v)] of a before or after field.  Rows hold JSON objects there; a
    list, which [dict] would read as pairs, is reported as the [ValueError] of
    one whose elements are not pairs. *)
Definition dict_of (v : pyval) : result pydict :=
  match v with
  | PDict d => Ok d
  | PStr _ | PList _ => Raise ValueError
  | _ => Raise TypeError
  end.

Definition merge_coalesced_states (sub_events : list pydict)
    : result (pydict * pydict * list pyval) :=
  match sub_events, last_opt sub_events with
  | first :: _, Some last =>
      let before := py_or (py_or (py_or (Dict.get "before" first) (Dict.get "old_state" first))
                             (Dict.get "before_state" first)) (PDict []) in
      let after := py_or (py_or (py_or (Dict.get "after" last) (Dict.get "new_state" last))
                            (Dict.get "after_state" last)) (PDict []) in
      let raw := map (fun ev => PDict
        ["timestamp_utc" :-> Dict.get "timestamp_utc" ev;
         "before" :-> py_or (Dict.get "before" ev) (Dict.get "old_state" ev);
         "after" :-> py_or (Dict.get "after" ev) (Dict.get "new_state" ev);
         "changed_fields" :-> Dict.get "changed_fields" ev]) sub_events in
      b ← dict_of before;
      a ← dict_of after;
      Ok (b, a, raw)
  | _, _ => Ok ([], [], [])
  end.

(** ** Batches *)

(** [max(0.2, min(coalesce_window_ms / 1000.0, 5.0))]; an integer too large for
    a float raises. *)
Definition window_sec (coalesce_window_ms : Z) : result F64.t :=
  let ms := F64.of_Z coalesce_window_ms in
  if F64.is_infinity ms then Raise OverflowError
  else Ok (F64.pymax (F64.lit 2 10) (F64.pymin (F64.div ms (F64.of_Z 1000)) (F64.of_Z 5))).

(** [ts is not None and start is not None and (ts - start) <= window]. *)
Definition within (window : F64.t) (start ts : option F64.t) : bool :=
  match ts, start with
  | Some t, Some s => F64.leb (F64.sub t s) window
  | _, _ => false
  end.

(** The batching loop, after its first event: [current] is the open batch and
    [batch_start] the time stamp of its first event. *)
Fixpoint batch_loop (window : F64.t) (current : list pydict) (batch_start : option F64.t)
    (evs : list pydict) : list (list pydict) :=
  match evs with
  | [] => [current]
  | ev :: rest =>
      let ts := event_ts ev in
      if within window batch_start ts
      then batch_loop window (current ++ [ev])%list batch_start rest
      else current :: batch_loop window [ev] ts rest
  end.

Definition batches_of (window : F64.t) (sorted_events : list pydict) : list (list pydict) :=
  match sorted_events with
  | [] => []
  | ev :: rest => batch_loop window [ev] (event_ts ev) rest
  end.

Definition emit_batch (now : string) (coalesce_window_ms : Z) (batch : list pydict)
    : result pydict :=
  match batch, last_opt batch with
  | [ev], _ =>
      Ok (Dict.setdefault "raw_sub_event_count" (PInt 1)
            (Dict.setdefault "coalesce_window_ms" (PInt coalesce_window_ms)
               (Dict.setdefault "coalesced" (PBool false) ev)))
  | _, Some last =>
      '(before, after, raw_sub) ← merge_coalesced_states batch;
      let ts := py_or (Dict.get "timestamp_utc" last) (PStr now) in
      merged ← build_proxy_evidence_event now before after (Some (py_str ts))
        (py_or (Dict.get "owner" last) (Dict.get "listener" last)) false None None [] None
        ["coalesced" :-> PBool true;
         "coalesce_window_ms" :-> PInt coalesce_window_ms;
         "raw_sub_event_count" :-> PInt (Z.of_nat (length batch))]
        raw_sub;
      Ok (Dict.set "after" (PDict after) (Dict.set "before" (PDict before) merged))
  | _, None => Ok []
  end.

(** The i-th batch reads the clock as [clock i]. *)
Fixpoint emit_batches (clock : nat -> string) (coalesce_window_ms : Z) (i : nat)
    (batches : list (list pydict)) : result (list pydict) :=
  match batches with
  | [] => Ok []
  | b :: bs =>
      ev ← emit_batch (clock i) coalesce_window_ms b;
      evs ← emit_batches clock coalesce_window_ms (S i) bs;
      Ok (ev :: evs)
  end.

Definition sort_events (events : list pydict) : list pydict :=
  sorted_by F64.ltb (fun ev => ts_or (event_ts ev) F64.zero) events.

Definition coalesce_proxy_events (clock : nat -> string) (events : list pydict)
    (coalesce_window_ms : Z) : result (list pydict) :=
  match events with
  | [] => Ok []
  | _ =>
      window ← window_sec coalesce_window_ms;
      emit_batches clock coalesce_window_ms 0 (batches_of window (sort_events events))
  end.

(** ** The buffer of the live watcher *)

Record CoalescingBuffer := {
  coalesce_window_ms : Z;
  _pending : list pydict;
  _first_ts : option F64.t;
}.

(** [now] is the clock reading used for an unreadable time stamp. *)
Definition buffer_add (clock : nat -> string) (now : F64.t) (event : pydict)
    (self : CoalescingBuffer) : result (list pydict * CoalescingBuffer) :=
  let ts := ts_or (event_ts event) now in
  let restart :=
    {| coalesce_window_ms := self.(coalesce_window_ms); _pending := [event];
       _first_ts := Some ts |} in
  match self.(_pending) with
  | [] => Ok ([], restart)
  | pending =>
      window ← window_sec self.(coalesce_window_ms);
      if within window self.(_first_ts) (Some ts) then
        Ok ([], {| coalesce_window_ms := self.(coalesce_window_ms);
                   _pending := (pending ++ [event])%list; _first_ts := self.(_first_ts) |})
      else
        flushed ← coalesce_proxy_events clock pending self.(coalesce_window_ms);
        Ok (flushed, restart)
  end.

Definition buffer_flush (clock : nat -> string) (self : CoalescingBuffer)
    : result (list pydict * CoalescingBuffer) :=
  match self.(_pending) with
  | [] => Ok ([], self)
  | pending =>
      merged ← coalesce_proxy_events clock pending self.(coalesce_window_ms);
      Ok (merged, {| coalesce_window_ms := self.(coalesce_window_ms); _pending := [];
                     _first_ts := None |})
  end.

(** ** Reverter loops *)

Fixpoint build_timeline (timeline : list point) (transitions : list pydict)
    : result (list point) :=
  match transitions with
  | [] => Ok timeline
  | item :: rest =>
      match event_ts item with
      | None => build_timeline timeline rest
      | Some ts =>
          let before := py_or (py_or (py_or (Dict.get "before_state" item) (Dict.get "before" item))
                                 (Dict.get "old_state" item)) (PDict []) in
          let after := py_or (py_or (py_or (Dict.get "after_state" item) (Dict.get "after" item))
                                (Dict.get "new_state" item)) (PDict []) in
          first ←
            match timeline with
            | [] =>
                b ← Dict.of_val before;
                bst ← normalize_proxy_state (Some b);
                Ok [(ts, bst.(proxy_enable), bst.(parsed_port))]
            | _ => Ok []
            end;
          a ← Dict.of_val after;
          ast ← normalize_proxy_state (Some a);
          build_timeline (timeline ++ first ++ [(ts, ast.(proxy_enable), ast.(parsed_port))])%list
            rest
      end
  end.

Definition port_is (port : Z) (p : point) : bool := bool_decide (p.2 = Some port).

(** Off, on at [port], off: three consecutive points. *)
Fixpoint count_full_cycles (port : Z) (w : list point) : Z :=
  match w with
  | p0 :: ((p1 :: p2 :: _) as rest) =>
      (if negb p0.1.2 && p1.1.2 && port_is port p1 && negb p2.1.2 then 1 else 0)
      + count_full_cycles port rest
  | _ => 0
  end.

Fixpoint count_enables (port : Z) (w : list point) : Z :=
  match w with
  | p0 :: ((p1 :: _) as rest) =>
      (if negb p0.1.2 && p1.1.2 && port_is port p1 then 1 else 0) + count_enables port rest
  | _ => 0
  end.

Definition distinct_ports (w : list point) : list Z :=
  dedupe Z.eqb (omap snd w).

Definition detect_reverter_loop_pattern (transitions : list pydict) (window_seconds : F64.t)
    (min_cycles : Z) : result (option TransitionClass.t) :=
  if Z.of_nat (length transitions) <? min_cycles then Ok None else
  timeline ← build_timeline [] transitions;
  if Z.of_nat (length timeline) <? min_cycles + 1 then Ok None else
  let timeline := sorted_by F64.ltb (fun p => p.1.1) timeline in
  match last_opt timeline with
  | None => Raise IndexError
  | Some newest =>
      let windowed := List.filter (fun e => F64.leb (F64.sub newest.1.1 e.1.1) window_seconds)
                        timeline in
      if Z.of_nat (length windowed) <? min_cycles + 1 then Ok None else
      match distinct_ports windowed with
      | [port] =>
          if (min_cycles <=? count_full_cycles port windowed)
             || (min_cycles <=? count_enables port windowed)
          then Ok (Some TransitionClass.REVERTER_SUSPECTED_LOCALHOST_PROXY_LOOP)
          else Ok None
      | _ => Ok None
      end
  end.
End WithHost.

(** ** Specification of the batches *)

Section Properties.
Context {H : PyHost} {C : PyZone}.

(** A batch is not empty and every event is within the window of its first. *)
Definition batch_ok (window : F64.t) (b : list pydict) : Prop :=
  match b with
  | [] => False
  | e0 :: rest => Forall (fun e => within window (event_ts e0) (event_ts e) = true) rest
  end.

(** A batch is closed only by an event outside its window. *)
Fixpoint greedy (window : F64.t) (bs : list (list pydict)) : Prop :=
  match bs with
  | (e0 :: _) :: (((e1 :: _) :: _) as bs') =>
      within window (event_ts e0) (event_ts e1) = false /\ greedy window bs'
  | [_] | [] => True
  | _ => False
  end.

Lemma batch_loop_spec window e0 tail evs :
  batch_ok window (e0 :: tail) ->
  exists b bs, batch_loop window (e0 :: tail) (event_ts e0) evs = (e0 :: b) :: bs /\
    (concat ((e0 :: b) :: bs) = (e0 :: tail) ++ evs)%list /\
    Forall (batch_ok window) ((e0 :: b) :: bs) /\ greedy window ((e0 :: b) :: bs).
Proof.
  revert e0 tail. induction evs as [|ev evs IH]; intros e0 tail Hok; cbn [batch_loop].
  - exists tail, []. cbn. repeat split; auto.
  - destruct (within window (event_ts e0) (event_ts ev)) eqn:Ew.
    + destruct (IH e0 (tail ++ [ev])%list) as (b & bs & E & Hc & Hf & Hg).
      { apply Forall_app. split; [done|]. by constructor. }
      exists b, bs. rewrite <- app_comm_cons, E. split; [done|]. rewrite Hc. cbn.
      rewrite <- app_assoc. done.
    + destruct (IH ev []) as (b & bs & E & Hc & Hf & Hg); [constructor|].
      exists tail, ((ev :: b) :: bs). rewrite E. split; [done|].
      split; [cbn in *; by rewrite Hc|]. split; [by constructor|]. done.
Qed.

Lemma batches_of_spec window evs :
  concat (batches_of window evs) = evs /\ Forall (batch_ok window) (batches_of window evs) /\
  greedy window (batches_of window evs).
Proof.
  destruct evs as [|ev evs]; cbn; [repeat constructor|].
  destruct (batch_loop_spec window ev [] evs) as (b & bs & E & Hc & Hf & Hg); [constructor|].
  rewrite E. auto.
Qed.

(** The output event of batch [i]. *)
Definition emitted (clock : nat -> string) (ms : Z) (bs : list (list pydict))
    (out : list pydict) (i0 : nat) : Prop :=
  length out = length bs /\
  forall i b, bs !! i = Some b -> exists ev, out !! i = Some ev /\
    emit_batch (clock (i0 + i)%nat) ms b = Ok ev.

Lemma emit_batches_spec clock ms bs out i0 :
  emit_batches clock ms i0 bs = Ok out -> emitted clock ms bs out i0.
Proof.
  revert i0 out. induction bs as [|b bs IH]; intros i0 out; cbn; intros E.
  - injection E as <-. split; [done|]. intros i b Hb. done.
  - apply bind_Ok in E as (ev & Eev & E). apply bind_Ok in E as (evs & Eevs & E).
    injection E as <-. destruct (IH _ _ Eevs) as [Hl Hi]. split; [cbn; lia|].
    intros [|i] b' Hb; cbn in Hb |- *.
    + injection Hb as <-. exists ev. by rewrite Nat.add_0_r.
    + destruct (Hi i b' Hb) as (e & He & Hem). exists e.
      replace (i0 + S i)%nat with (S i0 + i)%nat by lia. done.
Qed.

(** C19: coalescing cuts the time-sorted events into consecutive batches, none
    empty and none lost: every event of a batch lies within the (clamped) window
    of the first event of the batch, a batch ends only at an event outside that
    window, and batch [i] yields output [i]. *)
Theorem coalesce_batches clock events ms out :
  coalesce_proxy_events clock events ms = Ok out -> events <> [] ->
  exists window batches, window_sec ms = Ok window /\
    concat batches = sort_events events /\ Permutation (concat batches) events /\
    Forall (batch_ok window) batches /\ greedy window batches /\
    emitted clock ms batches out 0.
Proof.
  intros E Hne. unfold coalesce_proxy_events in E. destruct events as [|e0 evs]; [done|].
  apply bind_Ok in E as (window & Ew & E).
  destruct (batches_of_spec window (sort_events (e0 :: evs))) as (Hc & Hf & Hg).
  exists window, (batches_of window (sort_events (e0 :: evs))).
  rewrite Hc. do 2 (split; [done|]). split; [apply sorted_by_Permutation|].
  do 2 (split; [done|]). by apply emit_batches_spec.
Qed.

(** ** Counting sub-events *)

Definition sub_event_count (ev : pydict) : Z :=
  match Dict.lookup "raw_sub_event_count" ev with Some (PInt z) => z | _ => 0 end.

Definition sum_Z (l : list Z) : Z := foldr Z.add 0 l.

(** The base keys of an event. *)
Lemma event_count_field now b a ts listener wp wk mm health override ms n subs ev :
  build_proxy_evidence_event now b a ts listener wp wk mm health override
    ["coalesced" :-> PBool true; "coalesce_window_ms" :-> PInt ms;
     "raw_sub_event_count" :-> PInt n] subs = Ok ev ->
  Dict.lookup "raw_sub_event_count" ev = Some (PInt n).
Proof.
  unfold build_proxy_evidence_event. cbn zeta. intros E.
  do 6 apply bind_Ok in E as (? & _ & E). injection E as <-.
  by destruct subs.
Qed.

Lemma emit_batch_count now ms b ev :
  (forall e, In e b -> Dict.mem "raw_sub_event_count" e = false) -> b <> [] ->
  emit_batch now ms b = Ok ev -> sub_event_count ev = Z.of_nat (length b).
Proof.
  intros Hfresh Hne E. unfold sub_event_count.
  destruct b as [|e0 [|e1 b]]; [done| |].
  - unfold emit_batch in E. cbn in E. injection E as <-.
    unfold Dict.setdefault at 1, Dict.mem. rewrite !Dict.lookup_setdefault_ne by done.
    pose proof (Hfresh e0 (or_introl eq_refl)) as H0. unfold Dict.mem in H0.
    destruct (Dict.lookup _ e0); [done|]. by rewrite Dict.lookup_set_eq.
  - unfold emit_batch in E. destruct (last_opt _) as [last|] eqn:El.
    + apply bind_Ok in E as ([[before after] raw] & _ & E). cbn zeta in E.
      apply bind_Ok in E as (merged & Em & E). injection E as <-.
      rewrite !Dict.lookup_set_ne by done. by rewrite (event_count_field _ _ _ _ _ _ _ _ _ _ _ _ _ _ Em).
    + exfalso. clear - El. revert El. cbn. revert e0 e1.
      induction b as [|e2 b IH]; intros e0 e1; [done|]. apply (IH e1 e2).
Qed.

Lemma emitted_count clock ms bs out i0 :
  (forall e, In e (concat bs) -> Dict.mem "raw_sub_event_count" e = false) ->
  Forall (fun b => b <> []) bs -> emit_batches clock ms i0 bs = Ok out ->
  sum_Z (map sub_event_count out) = Z.of_nat (length (concat bs)).
Proof.
  revert i0 out. induction bs as [|b bs IH]; intros i0 out Hf Hne E; cbn in E.
  - by injection E as <-.
  - apply bind_Ok in E as (ev & Eev & E). apply bind_Ok in E as (evs & Eevs & E).
    injection E as <-. apply Forall_cons in Hne as [Hb Hbs].
    apply emit_batch_count in Eev; [|intros e He; apply Hf; cbn; apply in_or_app; by left|done].
    apply IH in Eevs; [|intros e He; apply Hf; cbn; apply in_or_app; by right|done].
    change (sub_event_count ev + sum_Z (map sub_event_count evs) = Z.of_nat (length (b ++ concat bs)%list)).
    rewrite length_app. lia.
Qed.

Lemma batch_ok_ne window bs : Forall (batch_ok window) bs -> Forall (fun b => b <> []) bs.
Proof. intros Hf. eapply Forall_impl; [exact Hf|]. by intros [|] Hb. Qed.

(** The sub-event counts of the coalesced rows add up to the number of
    observed events, when the observed rows carry no count of their own. *)
Theorem coalesce_counts clock events ms out :
  coalesce_proxy_events clock events ms = Ok out ->
  (forall e, In e events -> Dict.mem "raw_sub_event_count" e = false) ->
  sum_Z (map sub_event_count out) = Z.of_nat (length events).
Proof.
  intros E Hf. unfold coalesce_proxy_events in E. destruct events as [|e0 evs].
  - by injection E as <-.
  - apply bind_Ok in E as (window & _ & E).
    destruct (batches_of_spec window (sort_events (e0 :: evs))) as (Hc & Hb & _).
    assert (Permutation (sort_events (e0 :: evs)) (e0 :: evs)) as Hp
      by apply sorted_by_Permutation.
    rewrite (emitted_count _ _ _ _ _ ltac:(intros e He; apply Hf; rewrite Hc in He;
      by rewrite <- Hp) (batch_ok_ne _ _ Hb) E).
    by rewrite Hc, Hp.
Qed.

(** ** The buffer as a transition system *)

(** One observation, with the clock readings of the call. *)
Record observation := {
  obs_event : pydict;
  obs_now : F64.t;
  obs_clock : nat -> string;
}.

(** Every observation is added in turn; the outputs are collected. *)
Fixpoint add_all (obs : list observation) (self : CoalescingBuffer)
    : result (list pydict * CoalescingBuffer) :=
  match obs with
  | [] => Ok ([], self)
  | o :: rest =>
      '(out1, self1) ← buffer_add o.(obs_clock) o.(obs_now) o.(obs_event) self;
      '(out2, self2) ← add_all rest self1;
      Ok ((out1 ++ out2)%list, self2)
  end.

(** Outputs of coalescing consecutive segments. *)
Inductive coalesced_segments (ms : Z) : list (list pydict) -> list pydict -> Prop :=
| segments_nil : coalesced_segments ms [] []
| segments_cons clock seg segs out outs :
    seg <> [] -> coalesce_proxy_events clock seg ms = Ok out ->
    coalesced_segments ms segs outs ->
    coalesced_segments ms (seg :: segs) (out ++ outs)%list.

Lemma buffer_add_cases clock now ev self out self' :
  buffer_add clock now ev self = Ok (out, self') ->
  self'.(coalesce_window_ms) = self.(coalesce_window_ms) /\
  (out = [] /\ self'.(_pending) = (self.(_pending) ++ [ev])%list \/
   self.(_pending) <> [] /\ self'.(_pending) = [ev] /\
   coalesce_proxy_events clock self.(_pending) self.(coalesce_window_ms) = Ok out).
Proof.
  unfold buffer_add. cbn zeta. destruct self as [ms [|e0 pending] first]; cbn [_pending coalesce_window_ms _first_ts].
  - intros E. injection E as <- <-. split; [done|]. by left.
  - intros E. apply bind_Ok in E as (window & _ & E). destruct (within _ _ _).
    + injection E as <- <-. split; [done|]. by left.
    + apply bind_Ok in E as (fl & Efl & E). injection E as <- <-.
      split; [done|]. right. split; [done|]. split; done.
Qed.

Lemma add_all_segments obs self out self' :
  add_all obs self = Ok (out, self') ->
  self'.(coalesce_window_ms) = self.(coalesce_window_ms) /\
  exists segs, coalesced_segments self.(coalesce_window_ms) segs out /\
    (concat segs ++ self'.(_pending) = self.(_pending) ++ map obs_event obs)%list /\
    (obs <> [] -> self'.(_pending) <> []).
Proof.
  revert self out. induction obs as [|o obs IH]; intros self out; cbn [add_all]; intros E.
  - injection E as <- <-. split; [done|]. exists []. split; [constructor|].
    split; [by rewrite app_nil_r|done].
  - apply bind_Ok in E as ([out1 self1] & E1 & E). apply bind_Ok in E as ([out2 self2] & E2 & E).
    injection E as <- <-. apply buffer_add_cases in E1 as [Hms Hc].
    destruct (IH _ _ E2) as (Hms2 & segs & Hseg & Hcat & Hne). split; [congruence|].
    assert (self2.(_pending) <> []) as Hp.
    { destruct obs as [|o' obs']; [|by apply Hne].
      cbn in E2. injection E2 as _ <-. destruct Hc as [[_ ->]|(_ & -> & _)]; [|done].
      by destruct (_pending self). }
    destruct Hc as [[-> Hpend]|(Hne0 & Hpend & Hco)].
    + exists segs. rewrite <- Hms. split; [done|]. split; [|done].
      rewrite Hcat, Hpend, <- app_assoc. done.
    + exists (self.(_pending) :: segs). split; [|split; [|done]].
      * eapply segments_cons; [done|exact Hco|]. by rewrite <- Hms.
      * cbn. rewrite <- app_assoc, Hcat, Hpend. done.
Qed.

Lemma coalesced_segments_app ms segs1 segs2 o1 o2 :
  coalesced_segments ms segs1 o1 -> coalesced_segments ms segs2 o2 ->
  coalesced_segments ms (segs1 ++ segs2) (o1 ++ o2).
Proof.
  induction 1 as [|clock seg segs out outs Hne Hco Hs IH]; intros H2; [done|].
  rewrite <- app_assoc. cbn. eapply segments_cons; eauto.
Qed.

(** C20: the live buffer loses and duplicates nothing.  Whatever the arrival
    order and the clock, adding observations to an empty buffer and flushing it
    emits exactly the coalescing of consecutive segments whose concatenation is
    the list of observed events, and leaves the buffer empty. *)
Theorem buffer_lossless ms first obs out out' self clock self' :
  add_all obs {| coalesce_window_ms := ms; _pending := []; _first_ts := first |}
    = Ok (out, self) ->
  buffer_flush clock self = Ok (out', self') ->
  self'.(_pending) = [] /\
  exists segs, concat segs = map obs_event obs /\ coalesced_segments ms segs (out ++ out')%list.
Proof.
  intros Ha Hf. apply add_all_segments in Ha as (Hms & segs & Hs & Hc & _). cbn in *.
  unfold buffer_flush in Hf. destruct (_pending self) as [|e0 pend] eqn:Ep.
  - injection Hf as <- <-. split; [done|]. exists segs. rewrite !app_nil_r in *. done.
  - apply bind_Ok in Hf as (m & Em & Hf). injection Hf as <- <-. split; [done|].
    exists (segs ++ [e0 :: pend])%list. split.
    + rewrite concat_app. cbn. rewrite app_nil_r. done.
    + apply coalesced_segments_app; [done|]. rewrite <- (app_nil_r m).
      eapply segments_cons; [done| |constructor]. by rewrite <- Hms, <- Ep, Ep.
Qed.

(** ** Reverter detection *)

(** Every counted off/on/off cycle starts with a counted enable. *)
Lemma full_cycles_le_enables port w : count_full_cycles port w <= count_enables port w.
Proof.
  induction w as [|p0 w IH]; [done|].
  destruct w as [|p1 w]; [done|]. destruct w as [|p2 w].
  - cbn. destruct (_ && _); lia.
  - cbn [count_full_cycles count_enables] in *.
    destruct (negb p0.1.2 && p1.1.2 && port_is port p1), p2.1.2; cbn [andb negb] in *; lia.
Qed.

(** Position [i] is a disabled point followed by one enabled at [port]. *)
Definition enables_at (port : Z) (w : list point) (i : nat) : Prop :=
  exists p0 p1, w !! i = Some p0 /\ w !! S i = Some p1 /\
    p0.1.2 = false /\ p1.1.2 = true /\ p1.2 = Some port.

Lemma count_enables_positions port w :
  exists idx, List.NoDup idx /\ Z.of_nat (length idx) = count_enables port w /\
    Forall (enables_at port w) idx.
Proof.
  induction w as [|p0 w IH]; [exists []; repeat constructor|].
  destruct w as [|p1 w]; [exists []; repeat constructor|].
  destruct IH as (idx & Hnd & Hlen & Hall). cbn [count_enables].
  assert (List.NoDup (map S idx)) as Hnd' by (apply Finite.Injective_map_NoDup; [intros ? ? ?; lia|done]).
  assert (Forall (enables_at port (p0 :: p1 :: w)) (map S idx)) as Hall'.
  { apply Forall_map. eapply Forall_impl; [exact Hall|]. intros i Hi. exact Hi. }
  destruct (negb p0.1.2 && p1.1.2 && port_is port p1) eqn:E.
  - exists (0%nat :: map S idx). split; [|split].
    + constructor; [|done]. intros (i & Hi & _)%in_map_iff. done.
    + cbn [length]. rewrite length_map. cbn [count_enables] in Hlen. lia.
    + constructor; [|done]. bool_facts. unfold port_is in H1. apply bool_decide_eq_true in H1.
      by exists p0, p1.
  - exists (map S idx). rewrite length_map. split; [done|]. split; [|done].
    cbn [count_enables] in Hlen. lia.
Qed.

Lemma distinct_ports_single w port :
  distinct_ports w = [port] -> Forall (fun p => p.2 = None \/ p.2 = Some port) w.
Proof.
  intros E. apply Forall_forall. intros [q [po|]] Hin; [|by left]. right. cbn. f_equal.
  enough (In po [port]) as [->|[]] by done. rewrite <- E. unfold distinct_ports.
  apply (dedupe_In Z.eqb Z.eqb_eq). apply list_elem_of_In. apply list_elem_of_omap.
  by exists (q, Some po).
Qed.

(** A reverter suspicion is backed by evidence: inside the time window
    that ends at the newest observation there are at least [min_cycles] distinct
    positions where the proxy goes from disabled to enabled at one and the same
    port, and no other port appears in the window. *)
Theorem reverter_sound transitions window min_cycles c :
  detect_reverter_loop_pattern transitions window min_cycles = Ok (Some c) ->
  c = TransitionClass.REVERTER_SUSPECTED_LOCALHOST_PROXY_LOOP /\
  exists timeline newest windowed port idx,
    build_timeline [] transitions = Ok timeline /\ In newest timeline /\
    incl windowed timeline /\
    Forall (fun p => F64.leb (F64.sub newest.1.1 p.1.1) window = true) windowed /\
    Forall (fun p => p.2 = None \/ p.2 = Some port) windowed /\
    List.NoDup idx /\ min_cycles <= Z.of_nat (length idx) /\ Forall (enables_at port windowed) idx.
Proof.
  unfold detect_reverter_loop_pattern. destruct (_ <? _); [done|]. intros E.
  apply bind_Ok in E as (timeline & Et & E). destruct (_ <? _); [done|]. cbn zeta in E.
  set (tl := sorted_by F64.ltb (fun p : point => p.1.1) timeline) in *.
  assert (Permutation tl timeline) as Hp by apply sorted_by_Permutation.
  destruct (last_opt tl) as [newest|] eqn:El; [|done].
  set (w := List.filter _ tl) in *. destruct (_ <? _); [done|].
  destruct (distinct_ports w) as [|port [|]] eqn:Ep; [done| |done].
  destruct (_ || _) eqn:Ec; [|done]. injection E as <-. split; [done|].
  destruct (count_enables_positions port w) as (idx & Hnd & Hlen & Hall).
  exists timeline, newest, w, port, idx. split; [done|].
  split; [rewrite <- Hp; by apply last_opt_In|].
  split; [intros p Hin%filter_In; rewrite <- Hp; tauto|].
  split; [apply List.Forall_forall; intros p Hin%filter_In; tauto|].
  split; [by apply distinct_ports_single|]. split; [done|]. split; [|done].
  pose proof (full_cycles_le_enables port w). lia.
Qed.
End Properties.

(** ** Concrete instances *)
Module ProxyCoalesceWitness.
#[local] Instance host : PyHost := DemoHost.demo_host.
#[local] Instance zone : PyZone := {| local_to_utc := fun us => Some us |}.

Definition clock (i : nat) : string := "2026-01-01T00:00:09Z".

Definition off_state : pydict := ["ProxyEnable" :-> PInt 0; "ProxyServer" :-> PStr "127.0.0.1:8080"].
Definition on_state : pydict := ["ProxyEnable" :-> PInt 1; "ProxyServer" :-> PStr "127.0.0.1:8080"].
Definition change (ts : string) (before after : pydict) : pydict :=
  ["timestamp_utc" :-> PStr ts; "before" :-> PDict before; "after" :-> PDict after].

(** Out of order, two of them 400 ms apart. *)
Definition flapping : list pydict :=
  [change "2026-01-01T00:00:02Z" off_state on_state;
   change "2026-01-01T00:00:00Z" off_state on_state;
   change "2026-01-01T00:00:00.400Z" on_state off_state].

Definition ok_or_nil {A} (r : result (list A)) : list A :=
  match r with Ok l => l | Raise _ => [] end.
Definition flapping_out : list pydict := ok_or_nil (coalesce_proxy_events clock flapping 1000).

Lemma coalesce_batches_witness :
  exists window batches, window_sec 1000 = Ok window /\
    concat batches = sort_events flapping /\ Permutation (concat batches) flapping /\
    Forall (batch_ok window) batches /\ greedy window batches /\
    emitted clock 1000 batches flapping_out 0.
Proof.
  apply (coalesce_batches clock flapping 1000 flapping_out); [vm_compute; reflexivity|done].
Defined.

Lemma coalesce_counts_witness :
  sum_Z (map sub_event_count flapping_out) = 3 /\ length flapping_out = 2%nat.
Proof.
  split; [|vm_compute; reflexivity].
  apply (coalesce_counts clock flapping 1000 flapping_out); [vm_compute; reflexivity|].
  intros e [<-|[<-|[<-|[]]]]; reflexivity.
Defined.

Definition observe (ev : pydict) : observation :=
  {| obs_event := ev; obs_now := F64.zero; obs_clock := clock |}.
Definition empty_buffer : CoalescingBuffer :=
  {| coalesce_window_ms := 1000; _pending := []; _first_ts := None |}.
Definition watched : list observation := map observe (rev flapping).
Definition after_adds : list pydict * CoalescingBuffer :=
  match add_all watched empty_buffer with Ok r => r | Raise _ => ([], empty_buffer) end.
Definition after_flush : list pydict * CoalescingBuffer :=
  match buffer_flush clock after_adds.2 with Ok r => r | Raise _ => ([], empty_buffer) end.

Lemma buffer_lossless_witness :
  after_flush.2.(_pending) = [] /\
  exists segs, concat segs = map obs_event watched /\
    coalesced_segments 1000 segs (after_adds.1 ++ after_flush.1)%list.
Proof.
  apply (buffer_lossless 1000 None watched after_adds.1 after_flush.1 after_adds.2 clock
           after_flush.2); vm_compute; reflexivity.
Defined.

(** Three disable/enable cycles of one localhost port. *)
Definition cycles : list pydict :=
  [change "2026-01-01T00:00:00Z" off_state on_state;
   change "2026-01-01T00:00:05Z" on_state off_state;
   change "2026-01-01T00:00:10Z" off_state on_state;
   change "2026-01-01T00:00:15Z" on_state off_state;
   change "2026-01-01T00:00:20Z" off_state on_state].

Lemma reverter_sound_witness :
  exists timeline newest windowed port idx,
    build_timeline [] cycles = Ok timeline /\ In newest timeline /\
    incl windowed timeline /\
    Forall (fun p => F64.leb (F64.sub newest.1.1 p.1.1) (F64.of_Z 300) = true) windowed /\
    Forall (fun p => p.2 = None \/ p.2 = Some port) windowed /\
    List.NoDup idx /\ 3 <= Z.of_nat (length idx) /\ Forall (enables_at port windowed) idx.
Proof.
  apply (reverter_sound cycles (F64.of_Z 300) 3
           TransitionClass.REVERTER_SUSPECTED_LOCALHOST_PROXY_LOOP).
  vm_compute. reflexivity.
Defined.
End ProxyCoalesceWitness.
