(* ===== verification/AuditChain.v ===== *)
(** * The hash-chained audit log

    [src/platform_core/governance/chain_of_custody.py] and
    [src/platform_core/audit/]: the chain hash and its verification, the writer
    that appends a record under the file lock, the tip anchor kept beside the
    log, the readers, and the custody events of the proxy and remediation paths.

    The log is its text, as code points; the readers cut it with [splitlines] and hand
    each line to [json.loads].  A record is written with pydantic's [model_dump_json].
    Printer and parser are the parameters of [RecordCodec]; [JsonLaws] says what is
    documented of them on values JSON can carry ([json_plain]), and nothing on others. *)

From S2P Require Import Prelude PyValue.
From Stdlib Require Import Ascii String Permutation SpecFloat.
From stdpp Require Import strings.
From stdpp Require countable.

Open Scope string_scope.
Open Scope Z_scope.
Open Scope py_scope.

(** ** Chain of custody *)

Definition HASH_CHAIN_EXCLUDED_FIELDS : list string :=
  ["previous_hash"; "current_hash"; "signature_status"].

Definition audit_hash_body (record : pydict) : pydict :=
  List.filter (fun kv => negb (PyStr.mem kv.1 HASH_CHAIN_EXCLUDED_FIELDS)) record.

Section Chain.
Context {H : PyHost}.

Definition _canonical_json (obj : pydict) : string := Json.dumps_compact (PDict obj).

Definition chain_payload (previous_hash : string) (record_body : pydict) : string :=
  previous_hash ++ "|" ++ _canonical_json record_body.

Definition chain_hash (previous_hash : string) (record_body : pydict) : string :=
  sha256_hexdigest (chain_payload previous_hash record_body).

(** [str(rec.get("current_hash", ""))]. *)
Definition current_of (rec : pydict) : string :=
  py_str (Dict.get_default "current_hash" (PStr "") rec).

(** The loop from index [idx] on, [prev] being the hash of the record before. *)
Fixpoint verify_from (prev : string) (idx : nat) (records : list pydict) : bool * string :=
  match records with
  | [] => (true, "ok")
  | rec :: rest =>
      let expected := chain_hash prev (audit_hash_body rec) in
      let current := current_of rec in
      if negb (String.eqb current expected)
      then (false, "chain break at index " ++ PyStr.of_Z (Z.of_nat idx))
      else verify_from current (S idx) rest
  end.

Definition verify_chain (records : list pydict) : bool * string :=
  verify_from "genesis" 0 records.
End Chain.

(** ** Log, tip anchor and store *)

(** A line of a JSON file: a value, text that is not JSON, or only space. *)
Inductive jline :=
| LJson (v : pyval)
| LBad
| LBlank.

(** A file is absent or its text; the tip file is read as one value. *)
Record audit_store := {
  log : option (list N);
  tip : option jline;
}.

(** The text of a record, and what [json.loads] reads from a text: nothing when it raises
    [JSONDecodeError]. *)
Class RecordCodec := {
  model_dump_json : pydict -> list N;
  json_loads : list N -> option pyval;
}.

(** [str.isspace] of a code point, and [str.strip] of a text. *)
Definition is_space_point (c : N) : bool :=
  existsb (fun r => (r.1 <=? c) && (c <=? r.2))%N
    [(9, 13); (28, 32); (133, 133); (160, 160); (5760, 5760); (8192, 8202); (8232, 8233);
     (8239, 8239); (8287, 8287); (12288, 12288)]%N.

Fixpoint drop_spaces (l : list N) : list N :=
  match l with
  | c :: rest => if is_space_point c then drop_spaces rest else l
  | [] => []
  end.

Definition strip_text (l : list N) : list N := rev (drop_spaces (rev (drop_spaces l))).

(** [text.splitlines()] of the log; an absent log has no lines. *)
Definition log_lines (st : audit_store) : list (list N) := split_lines [] (default [] st.(log)).

(** What a reader sees in a line. *)
Definition line_of {R : RecordCodec} (line : list N) : jline :=
  match strip_text line with
  | [] => LBlank
  | text => match json_loads text with Some v => LJson v | None => LBad end
  end.

Definition TIP_ANCHOR_SCHEMA : string := "audit_tip_anchor.v1".
Definition AUDIT_SCHEMA_VERSION : string := "erp.audit.v1".

Definition AUDIT_ACTIONS : list string :=
  ["event_received"; "evidence_attached"; "hypothesis_created"; "decision_created";
   "policy_evaluated"; "remediation_previewed"; "human_approval_requested";
   "human_approval_granted"; "action_executed"; "validation_completed"; "rollback_completed";
   "outcome_recorded"; "replay_certified"; "stakeholder_resolved"; "timing_evaluated";
   "coordination_status_set"; "decision_context_built"].

Definition validate_audit_record (record : pydict) : bool :=
  forallb (fun k => Dict.mem k record) ["audit_id"; "schema_version"; "timestamp_utc"; "action_type"].

Definition build_tip_anchor (now tip_hash : string) (record_count : Z) (audit_path : string) : pydict :=
  ["schema_version" :-> PStr TIP_ANCHOR_SCHEMA;
   "anchored_at_utc" :-> PStr now;
   "audit_path" :-> PStr audit_path;
   "tip_hash" :-> PStr tip_hash;
   "record_count" :-> PInt record_count;
   "limitations" :-> str_list
     ["Tip match proves consistency with a previously recorded chain tip — not observation truth.";
      "Same-host tip files are not WORM; relocate or sign tips for stronger custody."]].

(** [writable] says whether the file system accepts the write; the anchor is
    plain [json.dumps] text, which [json.loads] reads back. *)
Definition write_tip_anchor (writable : bool) (now tip_hash : string) (record_count : Z)
    (audit_path : string) (st : audit_store) : bool * audit_store :=
  if writable then
    (true, {| log := st.(log);
              tip := Some (LJson (PDict (build_tip_anchor now tip_hash record_count audit_path))) |})
  else (false, st).

Definition load_tip_anchor (st : audit_store) : option pydict :=
  match st.(tip) with
  | Some (LJson (PDict d)) => Some d
  | _ => None
  end.

Definition row_of (l : jline) : option pydict :=
  match l with LJson (PDict d) => Some d | _ => None end.

Definition read_audit_records {R : RecordCodec} (st : audit_store) : list pydict :=
  omap row_of (map line_of (log_lines st)).

Section Writer.
Context {H : PyHost} {R : RecordCodec}.

Definition _read_chain_tip (st : audit_store) : result string :=
  match last_opt (log_lines st) with
  | None => Ok "genesis"
  | Some line =>
      match json_loads line with
      | None => Ok "genesis"
      | Some v =>
          last ← Dict.of_val v;
          Ok (py_str (py_or (Dict.get "current_hash" last) (PStr "genesis")))
      end
  end.

Definition _count_records (st : audit_store) : Z :=
  Z.of_nat (length (List.filter (fun l => match strip_text l with [] => false | _ => true end)
                      (log_lines st))).

(** What a caller passes, and what the call reads from the machine. *)
Record audit_request := {
  action_type : string; trace_id : string; decision_id : string; incident_id : string;
  actor : string; payload : pydict;
}.
Record audit_env := {
  env_uuid : string; env_now : string; env_tip_now : string; env_tip_writable : bool;
  env_path : string;
}.

Definition audit_record (env : audit_env) (req : audit_request) (prev_hash current_hash : string)
    : pydict :=
  ["audit_id" :-> PStr env.(env_uuid);
   "schema_version" :-> PStr AUDIT_SCHEMA_VERSION;
   "timestamp_utc" :-> PStr env.(env_now);
   "action_type" :-> PStr req.(action_type);
   "trace_id" :-> PStr req.(trace_id);
   "decision_id" :-> PStr req.(decision_id);
   "incident_id" :-> PStr req.(incident_id);
   "actor" :-> PStr req.(actor);
   "payload" :-> PDict req.(payload);
   "previous_hash" :-> PStr prev_hash;
   "current_hash" :-> PStr current_hash;
   "signature_status" :-> PStr "hash_chained"].

(** The locked section; an action outside the vocabulary is rejected by the
    record's validation. *)
Definition append_audit (env : audit_env) (req : audit_request) (write_tip : bool)
    (st : audit_store) : result (pydict * audit_store) :=
  prev_hash ← _read_chain_tip st;
  if negb (PyStr.mem req.(action_type) AUDIT_ACTIONS) then Raise ValueError else
  let hash_body := audit_hash_body (audit_record env req prev_hash "") in
  let current_hash := chain_hash prev_hash hash_body in
  let record := audit_record env req prev_hash current_hash in
  let st1 := {| log := Some (default [] st.(log) ++ model_dump_json record ++ [10%N])%list;
                tip := st.(tip) |} in
  let st2 :=
    if write_tip then
      (write_tip_anchor env.(env_tip_writable) env.(env_tip_now) current_hash
         (_count_records st1) env.(env_path) st1).2
    else st1 in
  Ok (record, st2).

(** ** Verification against the anchor *)

Record verify_report := {
  vr_records : nat;
  chain_verified : bool;
  chain_message : string;
  actual_tip_hash : string;
  tip_present : bool;
  tip_match : option bool;
  tip_record_count_match : option bool;
  tip_message : string;
  verified : bool;
}.

Definition actual_tip (records : list pydict) : string :=
  match last_opt records with
  | Some r => py_str (py_or (Dict.get "current_hash" r) (PStr "genesis"))
  | None => "genesis"
  end.

Definition verify_audit_with_tip (st : audit_store) (require_tip : bool) : result verify_report :=
  let records := read_audit_records st in
  let '(chain_ok, chain_msg) :=
    match records with [] => (true, "empty_chain") | _ => verify_chain records end in
  let actual := actual_tip records in
  '(present, tmatch, cmatch, msg) ←
    match load_tip_anchor st with
    | None => Ok (false, None, None, "tip_anchor_missing")
    | Some t =>
        let tm := String.eqb (py_str (py_or (Dict.get "tip_hash" t) (PStr ""))) actual in
        count ← py_int (py_or (Dict.get "record_count" t) (PInt (-1)));
        let cm := count =? Z.of_nat (length records) in
        Ok (true, Some tm, Some cm,
            if tm && cm then "tip_match"
            else if negb tm then "tip_hash_mismatch" else "tip_record_count_mismatch")
    end;
  let matches := default false tmatch && default false cmatch in
  let ok :=
    if require_tip then chain_ok && present && matches
    else if present then chain_ok && matches
    else chain_ok in
  Ok {| vr_records := length records; chain_verified := chain_ok; chain_message := chain_msg;
        actual_tip_hash := actual; tip_present := present; tip_match := tmatch;
        tip_record_count_match := cmatch; tip_message := msg; verified := ok |}.

(** ** Readers *)

(** [rows[-limit:]]; a limit of 0 keeps everything. *)
Definition tail_slice {A} (limit : Z) (l : list A) : list A :=
  if limit =? 0 then l
  else if 0 <? limit then drop (length l - Z.to_nat limit) l
  else drop (Z.to_nat (- limit)) l.

Definition read_audit_tail (st : audit_store) (limit : Z) : list pydict :=
  tail_slice limit (List.filter validate_audit_record (read_audit_records st)).

Definition read_audit_for_decision (st : audit_store) (id : string) : list pydict :=
  List.filter (fun r => match Dict.get "decision_id" r with
                        | PStr s => String.eqb s id
                        | _ => false
                        end) (read_audit_tail st 10000).

(** ** Custody events *)

Definition map_event_to_action (event : string) : string :=
  match Dict.lookup event
    ["guardian_check" :-> PStr "event_received";
     "guardian_preview" :-> PStr "remediation_previewed";
     "guardian_blocked" :-> PStr "policy_evaluated";
     "guardian_apply" :-> PStr "action_executed";
     "proxy_fix_preview" :-> PStr "remediation_previewed";
     "proxy_fix_blocked" :-> PStr "policy_evaluated";
     "proxy_fix_applied" :-> PStr "action_executed";
     "prefer_direct_applied" :-> PStr "action_executed";
     "prefer_direct_blocked" :-> PStr "policy_evaluated";
     "ensure_proxy_health" :-> PStr "validation_completed"]
  with Some (PStr s) => s | _ => "event_received" end.

Definition SECRET_KEYS : list string :=
  ["confirm"; "confirmation"; "confirm_phrase"; "token"; "password"].

Record custody_event := {
  ce_event : string; ce_actor : string; ce_subsystem : string; ce_dry_run : option bool;
  ce_confirmation_supplied : bool; ce_before : option pydict; ce_after : option pydict;
  ce_outcome : option string; ce_limitations : list string; ce_extra : pydict;
}.

Definition opt_key (k : string) (o : option pyval) : pydict :=
  match o with Some v => [k :-> v] | None => [] end.

Definition scrub (extra : pydict) : pydict :=
  List.filter (fun kv => negb (PyStr.mem (PyStr.lower kv.1) SECRET_KEYS)) extra.

Definition custody_payload (e : custody_event) : pydict :=
  (["subsystem" :-> PStr e.(ce_subsystem);
    "event" :-> PStr e.(ce_event);
    "confirmation_supplied" :-> PBool e.(ce_confirmation_supplied)] ++
   opt_key "dry_run" (option_map PBool e.(ce_dry_run)) ++
   opt_key "before" (option_map PDict e.(ce_before)) ++
   opt_key "after" (option_map PDict e.(ce_after)) ++
   opt_key "outcome" (option_map PStr e.(ce_outcome)) ++
   opt_key "limitations"
     (match e.(ce_limitations) with [] => None | l => Some (str_list l) end) ++
   opt_key "detail"
     (match e.(ce_extra) with [] => None | x => Some (PDict (scrub x)) end))%list.

Definition custody_request (e : custody_event) : audit_request :=
  {| action_type := map_event_to_action e.(ce_event); trace_id := ""; decision_id := "";
     incident_id := ""; actor := e.(ce_actor); payload := custody_payload e |}.

(** [None] is the soft-failed result [{"ok": False, ...}]. *)
Definition append_custody_event (env : audit_env) (e : custody_event) (write_tip soft_fail : bool)
    (st : audit_store) : result (option pydict * audit_store) :=
  match append_audit env (custody_request e) write_tip st with
  | Ok (record, st') => Ok (Some record, st')
  | Raise ex => if soft_fail then Ok (None, st) else Raise ex
  end.
End Writer.

(** ** Specification of a chain *)

(** Documented form of a SHA-256 hex digest: lower-case hexadecimal, not empty. *)
Definition is_hex (c : ascii) : bool :=
  PyStr.is_digit c || ((97 <=? PyStr.code c) && (PyStr.code c <=? 102))%N.

Class HexDigest (H : PyHost) : Prop := {
  digest_hex : forall s, PyStr.all_chars is_hex (sha256_hexdigest s) = true;
  digest_nonempty : forall s, sha256_hexdigest s <> "";
}.

(** Values JSON carries unchanged on one line: finite floats, distinct keys, and texts in
    which only control characters, which JSON escapes, break lines. *)
Definition plain_text (s : string) : bool :=
  forallb (fun c => (c <? 32)%N || negb (is_line_break c)) (Json.code_points s).

Fixpoint json_plain (v : pyval) : bool :=
  match v with
  | PFloat f => match f with S754_nan | S754_infinity _ => false | _ => true end
  | PStr s => plain_text s
  | PList l => forallb json_plain l
  | PDict d =>
      bool_decide (base.NoDup (map fst d))
      && forallb (fun kv => plain_text kv.1 && json_plain kv.2) d
  | _ => true
  end.

(** Documented of the printer and the parser. *)
Class JsonLaws (R : RecordCodec) : Prop := {
  dump_object : forall d, exists body, model_dump_json d = ([123] ++ body ++ [125])%N%list;
  dump_one_line : forall d, json_plain (PDict d) = true ->
    forallb (fun c => negb (is_line_break c)) (model_dump_json d) = true;
  dump_loads : forall d, json_plain (PDict d) = true ->
    json_loads (model_dump_json d) = Some (PDict d);
}.

Section Properties.
Context {H : PyHost} {R : RecordCodec}.

(** Every record carries the hash of its body and of the record before. *)
Fixpoint chained (prev : string) (records : list pydict) : Prop :=
  match records with
  | [] => True
  | rec :: rest =>
      current_of rec = chain_hash prev (audit_hash_body rec) /\ chained (current_of rec) rest
  end.

(** The hash the next record has to extend. *)
Definition chain_tip (prev : string) (records : list pydict) : string :=
  foldl (fun _ r => current_of r) prev records.

Lemma chained_app prev rs rs' :
  chained prev (rs ++ rs') <-> chained prev rs /\ chained (chain_tip prev rs) rs'.
Proof.
  revert prev. induction rs as [|r rs IH]; intros prev; cbn; [tauto|]. rewrite IH. tauto.
Qed.

Lemma chain_tip_app prev rs r : chain_tip prev (rs ++ [r]) = current_of r.
Proof. unfold chain_tip. by rewrite foldl_app. Qed.

Lemma verify_from_spec prev idx rs :
  (verify_from prev idx rs = (true, "ok") /\ chained prev rs) \/
  exists good bad rest,
    (rs = good ++ bad :: rest)%list /\ chained prev good /\
    current_of bad <> chain_hash (chain_tip prev good) (audit_hash_body bad) /\
    verify_from prev idx rs =
      (false, "chain break at index " ++ PyStr.of_Z (Z.of_nat (idx + length good))).
Proof.
  revert prev idx. induction rs as [|r rs IH]; intros prev idx; cbn [verify_from chained]; [by left|].
  destruct (String.eqb (current_of r) _) eqn:E; cbn.
  - apply String.eqb_eq in E. destruct (IH (current_of r) (S idx)) as [[Hv Hc]|Hb].
    + left. split; [|done]. exact Hv.
    + right. destruct Hb as (good & bad & rest & -> & Hg & Hbad & Hv).
      exists (r :: good), bad, rest. split; [done|]. split; [by split|]. split; [done|].
      rewrite Hv. cbn [length]. by replace (S idx + length good)%nat with (idx + S (length good))%nat by lia.
  - right. apply String.eqb_neq in E. exists [], r, rs. split; [done|]. split; [done|].
    split; [done|]. cbn [length]. by rewrite Nat.add_0_r.
Qed.

Lemma verify_chain_ok rs : (verify_chain rs).1 = true <-> chained "genesis" rs.
Proof.
  unfold verify_chain. destruct (verify_from_spec "genesis" 0 rs) as [[-> Hc]|Hb]; [done|].
  destruct Hb as (good & bad & rest & -> & Hg & Hbad & ->). cbn. split; [done|].
  intros [_ [Hc _]]%chained_app. done.
Qed.

(** Verification accepts exactly the chains in which every record carries
    the hash of its body and of its predecessor, and otherwise names the first
    record that does not. *)
Theorem verify_chain_spec rs :
  (verify_chain rs = (true, "ok") /\ chained "genesis" rs) \/
  exists good bad rest,
    (rs = good ++ bad :: rest)%list /\ chained "genesis" good /\
    current_of bad <> chain_hash (chain_tip "genesis" good) (audit_hash_body bad) /\
    verify_chain rs =
      (false, "chain break at index " ++ PyStr.of_Z (Z.of_nat (length good))).
Proof. apply (verify_from_spec "genesis" 0). Qed.

(** ** Tamper evidence *)

(** The texts the records of a chain are hashed from. *)
Fixpoint hashed_texts (prev : string) (records : list pydict) : list string :=
  match records with
  | [] => []
  | rec :: rest => chain_payload prev (audit_hash_body rec) :: hashed_texts (current_of rec) rest
  end.

(** At some place the two chains hash different texts to the same digest. *)
Definition chains_collide (rs rs' : list pydict) : Prop :=
  exists i p q, hashed_texts "genesis" rs !! i = Some p /\ hashed_texts "genesis" rs' !! i = Some q
    /\ p <> q /\ sha256_hexdigest p = sha256_hexdigest q.

Lemma hashed_texts_app prev rs rs' :
  hashed_texts prev (rs ++ rs') = (hashed_texts prev rs ++ hashed_texts (chain_tip prev rs) rs')%list.
Proof. revert prev. induction rs as [|r rs IH]; intros prev; cbn; [done|]. by rewrite IH. Qed.

Lemma hashed_texts_length prev rs : length (hashed_texts prev rs) = length rs.
Proof. revert prev. induction rs as [|r rs IH]; intros prev; cbn; [done|]. by rewrite IH. Qed.

Lemma chains_collide_app rs rs' xs xs' :
  chains_collide rs rs' -> chains_collide (rs ++ xs) (rs' ++ xs').
Proof.
  intros (i & p & q & Hp & Hq & Hn). exists i, p, q. rewrite !hashed_texts_app.
  split; [by apply lookup_app_l_Some|]. split; [by apply lookup_app_l_Some|]. done.
Qed.

(** Up to the first separator, texts without it are equal. *)
Lemma split_bar a b x y :
  PyStr.all_chars (fun c => negb (Ascii.eqb c "|")) a = true ->
  PyStr.all_chars (fun c => negb (Ascii.eqb c "|")) b = true ->
  a ++ "|" ++ x = b ++ "|" ++ y -> a = b /\ x = y.
Proof.
  revert b. induction a as [|c a IH]; intros b Ha Hb E.
  - destruct b as [|d b].
    + split; [done|]. change (String "|" x = String "|" y) in E. congruence.
    + change (String "|" x = String d (b ++ "|" ++ y)) in E. injection E as <- _. done.
  - destruct b as [|d b].
    + change (String c (a ++ "|" ++ x) = String "|" y) in E. injection E as -> _. done.
    + rewrite !PyStr.append_cons in E. injection E as -> E. cbn in Ha, Hb. bool_facts.
      destruct (IH b) as [-> ->]; done.
Qed.

Context {HD : HexDigest H}.

Lemma hex_no_bar s :
  PyStr.all_chars is_hex s = true -> PyStr.all_chars (fun c => negb (Ascii.eqb c "|")) s = true.
Proof.
  apply PyStr.all_chars_impl. intros c. by destruct c as [[] [] [] [] [] [] [] []].
Qed.

(** Hashes that can precede a record. *)
Definition anchor_hash (h : string) : Prop :=
  h = "genesis" \/ PyStr.all_chars is_hex h = true.

Lemma anchor_no_bar h :
  anchor_hash h -> PyStr.all_chars (fun c => negb (Ascii.eqb c "|")) h = true.
Proof. intros [->|Hh]; [done|by apply hex_no_bar]. Qed.

Lemma chain_hash_inj h1 h2 b1 b2 :
  anchor_hash h1 -> anchor_hash h2 -> chain_hash h1 b1 = chain_hash h2 b2 ->
  (h1 = h2 /\ _canonical_json b1 = _canonical_json b2) \/
  chain_payload h1 b1 <> chain_payload h2 b2.
Proof.
  intros A1 A2 E. unfold chain_hash in E.
  destruct (String.eqb (chain_payload h1 b1) (chain_payload h2 b2)) eqn:Ep.
  - apply String.eqb_eq in Ep. left. apply split_bar in Ep; [done|by apply anchor_no_bar..].
  - right. by apply String.eqb_neq.
Qed.

Lemma chain_hash_hex h b : PyStr.all_chars is_hex (chain_hash h b) = true.
Proof. apply digest_hex. Qed.

Lemma chain_tip_anchor rs : chained "genesis" rs -> anchor_hash (chain_tip "genesis" rs).
Proof.
  induction rs as [|r rs _] using rev_ind; [by left|].
  rewrite chained_app, chain_tip_app. cbn. intros (_ & -> & _). right. apply chain_hash_hex.
Qed.

Lemma genesis_not_hash h b : chain_hash h b <> "genesis".
Proof.
  intros E. pose proof (chain_hash_hex h b) as Hx. rewrite E in Hx. discriminate Hx.
Qed.

(** What two records share when only excluded fields or layout may differ. *)
Definition same_record (r r' : pydict) : Prop :=
  current_of r = current_of r' /\
  _canonical_json (audit_hash_body r) = _canonical_json (audit_hash_body r').

Lemma same_tip_same_chain rs rs' :
  chained "genesis" rs -> chained "genesis" rs' -> length rs = length rs' ->
  chain_tip "genesis" rs = chain_tip "genesis" rs' ->
  Forall2 same_record rs rs' \/ chains_collide rs rs'.
Proof.
  revert rs'. induction rs as [|r rs IH] using rev_ind; intros rs' Hc Hc' Hl Ht;
    destruct rs' as [|r' rs' _] using rev_ind; try by rewrite length_app in Hl; cbn in Hl; lia.
  { by left. }
  rewrite !length_app in Hl. cbn in Hl.
  rewrite chained_app in Hc, Hc'. cbn in Hc, Hc'.
  destruct Hc as (Hc & Hr & _), Hc' as (Hc' & Hr' & _). rewrite !chain_tip_app in Ht.
  assert (chain_hash (chain_tip "genesis" rs) (audit_hash_body r) =
          chain_hash (chain_tip "genesis" rs') (audit_hash_body r')) as E by congruence.
  pose proof E as E'. apply chain_hash_inj in E' as [[Etip Ebody]|Hne]; [| |by apply chain_tip_anchor..].
  - destruct (IH rs' Hc Hc' ltac:(lia) Etip) as [HF|Hcol]; [left|by right; apply chains_collide_app].
    apply Forall2_app; [done|]. by repeat constructor.
  - right. exists (length rs). do 2 eexists. rewrite !hashed_texts_app.
    rewrite !lookup_app_r by (rewrite hashed_texts_length; lia). rewrite !hashed_texts_length.
    replace (length rs - length rs')%nat with 0%nat by lia.
    replace (length rs - length rs)%nat with 0%nat by lia. cbn. done.
Qed.

(** The excluded fields are not hashed: records that agree otherwise chain alike. *)
Lemma same_record_chained prev rs rs' :
  Forall2 same_record rs rs' -> chained prev rs -> chained prev rs'.
Proof.
  intros HF. revert prev. induction HF as [|r r' rs rs' [Hc Hb] HF IH]; intros prev; cbn; [done|].
  intros [E Hr]. split; [|rewrite <- Hc; by apply IH]. rewrite <- Hc, E.
  unfold chain_hash, chain_payload. by rewrite Hb.
Qed.

Lemma same_record_tip prev rs rs' :
  Forall2 same_record rs rs' -> chain_tip prev rs = chain_tip prev rs'.
Proof.
  intros HF. revert prev. induction HF as [|r r' rs rs' [Hc _] HF IH]; intros prev; cbn; [done|].
  rewrite Hc. apply IH.
Qed.

(** ** The report of the verifier *)

Definition text_hash (r : pydict) : Prop := exists h, Dict.lookup "current_hash" r = Some (PStr h).

Lemma actual_tip_chain rs :
  actual_tip rs = chain_tip "genesis" rs \/ actual_tip rs = "genesis".
Proof.
  destruct rs as [|r rs _] using rev_ind; [by left|]. unfold actual_tip.
  rewrite last_opt_app, chain_tip_app. unfold current_of, Dict.get, Dict.get_default.
  destruct (Dict.lookup "current_hash" r) as [v|]; cbn; [|by right].
  unfold py_or. destruct (py_bool v); [by left|by right].
Qed.

Lemma actual_tip_text r rs :
  text_hash r -> chained "genesis" (rs ++ [r]) ->
  actual_tip (rs ++ [r]) = chain_tip "genesis" (rs ++ [r]) /\
  actual_tip (rs ++ [r]) <> "genesis".
Proof.
  intros [h Hh] Hc. rewrite chained_app in Hc. cbn in Hc. destruct Hc as (_ & Hr & _).
  assert (current_of r = h) as Eh
    by (unfold current_of, Dict.get_default; by rewrite Hh).
  assert (actual_tip (rs ++ [r]) = h) as ->.
  { unfold actual_tip. rewrite last_opt_app. unfold Dict.get. rewrite Hh. cbn.
    destruct h; [|done]. exfalso. rewrite Eh in Hr. symmetry in Hr.
    by apply digest_nonempty in Hr. }
  split; [by rewrite chain_tip_app|]. rewrite <- Eh, Hr. apply genesis_not_hash.
Qed.

(** When a log is accepted together with its anchor. *)
Definition accepted (st : audit_store) : Prop :=
  exists r, verify_audit_with_tip st true = Ok r /\ r.(verified) = true.

Lemma accepted_iff st :
  accepted st <->
  chained "genesis" (read_audit_records st) /\
  exists t, load_tip_anchor st = Some t /\
    py_str (py_or (Dict.get "tip_hash" t) (PStr "")) = actual_tip (read_audit_records st) /\
    py_int (py_or (Dict.get "record_count" t) (PInt (-1)))
      = Ok (Z.of_nat (length (read_audit_records st))).
Proof.
  unfold accepted, verify_audit_with_tip. set (rs := read_audit_records st).
  assert (exists ok msg,
    match rs with [] => (true, "empty_chain") | _ => verify_chain rs end = (ok, msg) /\
    (ok = true <-> chained "genesis" rs)) as (ok & msg & -> & Hok).
  { destruct rs as [|r0 rs0] eqn:E; [by exists true, "empty_chain"|].
    destruct (verify_chain (r0 :: rs0)) as [ok msg] eqn:Ev. exists ok, msg. split; [done|].
    rewrite <- verify_chain_ok. by rewrite Ev. }
  cbn zeta. destruct (load_tip_anchor st) as [t|].
  2: { split; [|by intros (_ & t & ? & _)]. intros (r & E & Hv). cbn in E. injection E as <-. cbn in Hv.
       by rewrite andb_false_r in Hv. }
  split.
  - intros (r & E & Hv).
    apply bind_Ok in E as ([[[pr tm] cm] m] & E1 & E). apply bind_Ok in E1 as (n & En & E1).
    cbn zeta in E1. injection E1 as <- <- <- <-. cbn in E. injection E as <-. cbn in Hv.
    bool_facts. split; [by apply Hok|]. exists t. split; [done|]. split; [done|].
    rewrite En. f_equal. lia.
  - intros (Hc%Hok & ? & [= <-] & Ht & Hn). rewrite Hn. cbn. eexists. split; [reflexivity|]. cbn.
    subst ok. by rewrite Ht, String.eqb_refl, Z.eqb_refl.
Qed.

Lemma text_chain_tip rs :
  Forall text_hash rs -> chained "genesis" rs -> actual_tip rs = chain_tip "genesis" rs.
Proof.
  destruct rs as [|x rs _] using rev_ind; [done|]. intros [_ [Hx _]%Forall_cons]%Forall_app Hc.
  by apply actual_tip_text.
Qed.

(** C3: tamper evidence.  Take a log accepted with its anchor, its hashes being texts, and
    another one beside the same anchor.  If the other is accepted too, it has as many
    records, each with the hash and the canonical JSON body of the original one; or the two
    logs themselves contain, at one place, two different hashed texts with the same digest.
    Conversely a log whose records agree in these respects is accepted: [previous_hash] and
    [signature_status] of a record are protected by nothing. *)
Theorem tamper_evident st st' :
  Forall text_hash (read_audit_records st) -> accepted st ->
  load_tip_anchor st' = load_tip_anchor st ->
  (accepted st' ->
   Forall2 same_record (read_audit_records st) (read_audit_records st')
   \/ chains_collide (read_audit_records st) (read_audit_records st'))
  /\ (Forall text_hash (read_audit_records st') ->
      Forall2 same_record (read_audit_records st) (read_audit_records st') -> accepted st').
Proof.
  rewrite !accepted_iff. intros Htext (Hc & t & Ht & Htm & Hcm) Htip. rewrite Htip. split.
  - intros (Hc' & ? & Ht' & Htm' & Hcm'). rewrite Ht in Ht'. injection Ht' as <-.
    assert (length (read_audit_records st') = length (read_audit_records st)) as Hlen.
    { rewrite Hcm in Hcm'. injection Hcm'. lia. }
    apply same_tip_same_chain; [done|done|done|]. rewrite text_chain_tip in Htm by done.
    destruct (actual_tip_chain (read_audit_records st')) as [Ea'|Ea']; [congruence|].
    destruct (read_audit_records st) as [|x rs _] using rev_ind.
    { by destruct (read_audit_records st'). }
    apply Forall_app in Htext as [_ [Hx _]%Forall_cons].
    destruct (actual_tip_text x rs Hx Hc) as [Ea Hne]. congruence.
  - intros Htext' HF. pose proof (same_record_chained _ _ _ HF Hc) as Hc'. split; [done|].
    exists t. split; [done|]. rewrite <- (Forall2_length _ _ _ HF). split; [|done].
    rewrite Htm, !text_chain_tip by done. by apply same_record_tip.
Qed.

(** ** Appending *)

Context {L : JsonLaws R}.

(** A log of verified rows, as written, with an up-to-date anchor (none before the first). *)
Definition store_ok (st : audit_store) (rs : list pydict) : Prop :=
  default [] st.(log) = concat (map (fun r => model_dump_json r ++ [10%N]) rs)%list /\
  Forall (fun r => json_plain (PDict r) = true) rs /\
  chained "genesis" rs /\ Forall text_hash rs /\
  match rs with
  | [] => st.(tip) = None
  | _ => exists now path, st.(tip) = Some (LJson (PDict
           (build_tip_anchor now (chain_tip "genesis" rs) (Z.of_nat (length rs)) path)))
  end.

Lemma empty_store_ok : store_ok {| log := None; tip := None |} [].
Proof. by repeat split. Qed.

Lemma written_lines rs :
  Forall (fun r => json_plain (PDict r) = true) rs ->
  split_lines [] (concat (map (fun r => model_dump_json r ++ [10%N]) rs)%list) = map model_dump_json rs.
Proof.
  induction 1 as [|r rs Hr _ IH]; [done|]. cbn [map concat]. rewrite <- app_assoc. cbn [app].
  rewrite split_lines_plain by (by apply dump_one_line). by rewrite IH.
Qed.

Lemma strip_dump d : strip_text (model_dump_json d) = model_dump_json d.
Proof.
  destruct (dump_object d) as [body ->]. unfold strip_text. cbn [app drop_spaces].
  change (is_space_point 123) with false. cbv iota.
  rewrite app_comm_cons, rev_app_distr. cbn [rev app drop_spaces].
  change (is_space_point 125) with false. cbv iota. cbn [rev].
  by rewrite rev_app_distr, rev_involutive.
Qed.

Lemma line_of_dump d : json_plain (PDict d) = true -> line_of (model_dump_json d) = LJson (PDict d).
Proof.
  intros Hd. unfold line_of. rewrite strip_dump.
  destruct (model_dump_json d) as [|c l] eqn:E; [destruct (dump_object d) as [body Hb]; by rewrite E in Hb|].
  by rewrite <- E, dump_loads.
Qed.

Lemma store_lines st rs :
  store_ok st rs -> map line_of (log_lines st) = map (fun d => LJson (PDict d)) rs.
Proof.
  intros (Hl & Hp & _). unfold log_lines. rewrite Hl, written_lines by done. rewrite map_map.
  clear - Hp L. induction Hp as [|r rs Hr _ IH]; [done|]. cbn [map]. by rewrite line_of_dump, IH.
Qed.

Lemma store_records st rs : store_ok st rs -> read_audit_records st = rs.
Proof.
  intros Hst. unfold read_audit_records. rewrite (store_lines _ _ Hst). clear.
  induction rs as [|r rs IH]; cbn; [done|]. by rewrite IH.
Qed.

Lemma store_chain_tip st rs : store_ok st rs -> _read_chain_tip st = Ok (chain_tip "genesis" rs).
Proof.
  intros (Hl & Hp & Hc & Ht & _). unfold _read_chain_tip, log_lines. rewrite Hl, written_lines by done.
  destruct rs as [|r rs _] using rev_ind; [done|].
  rewrite map_app. cbn [map]. rewrite last_opt_app.
  apply Forall_app in Hp as [_ [Hp _]%Forall_cons]. apply Forall_app in Ht as [_ [Ht _]%Forall_cons].
  rewrite dump_loads by done. cbn.
  destruct (actual_tip_text r rs Ht Hc) as [<- _]. unfold actual_tip. by rewrite last_opt_app.
Qed.

Lemma count_written rs t :
  Forall (fun r => json_plain (PDict r) = true) rs ->
  _count_records {| log := Some (concat (map (fun r => model_dump_json r ++ [10%N]) rs)%list); tip := t |}
  = Z.of_nat (length rs).
Proof.
  intros Hp. unfold _count_records, log_lines. cbv [log from_option id]. rewrite written_lines by done.
  f_equal. clear Hp. induction rs as [|r rs IH]; [done|]. cbn [map List.filter]. rewrite strip_dump.
  destruct (dump_object r) as [body ->]. cbn [app length]. by rewrite IH.
Qed.

(** The hash of a written record is the one verification expects. *)
Lemma audit_record_hash env req prev :
  let body := audit_hash_body (audit_record env req prev "") in
  let rec := audit_record env req prev (chain_hash prev body) in
  current_of rec = chain_hash prev (audit_hash_body rec) /\ text_hash rec.
Proof. cbn zeta. split; [done|]. by eexists. Qed.

(** A call the log can carry: every text and the payload are plain, the action is in the
    vocabulary, and the anchor can be written. *)
Definition call_ok (c : audit_env * audit_request) : Prop :=
  json_plain (PDict (audit_record c.1 c.2 "" "")) = true /\
  PyStr.mem c.2.(action_type) AUDIT_ACTIONS = true /\
  c.1.(env_tip_writable) = true.

Lemma hex_points s :
  PyStr.all_chars is_hex s = true ->
  Json.code_points s = map PyStr.code (list_ascii_of_string s) /\
  Forall (fun c => is_line_break c = false) (map PyStr.code (list_ascii_of_string s)).
Proof.
  unfold Json.code_points. rewrite length_map. induction s as [|c s IH]; [by repeat constructor|].
  cbn [PyStr.all_chars list_ascii_of_string length map]. intros [Hc Hs]%andb_true_iff.
  destruct (IH Hs) as [E HF]. split.
  - cbn [Json.decode]. unfold Json.decode_head.
    assert ((PyStr.code c <? 128)%N = true) as -> by (by destruct c as [[] [] [] [] [] [] [] []]).
    by rewrite E.
  - constructor; [|exact HF]. by destruct c as [[] [] [] [] [] [] [] []].
Qed.

Lemma anchor_plain h : anchor_hash h -> plain_text h = true.
Proof.
  intros [->|Hh]; [done|]. destruct (hex_points h Hh) as [E HF]. unfold plain_text. rewrite E.
  apply forallb_forall. intros c Hc. rewrite Forall_forall in HF.
  rewrite (HF c) by (by apply list_elem_of_In). apply orb_true_r.
Qed.

Lemma record_plain env req prev cur :
  call_ok (env, req) -> anchor_hash prev -> anchor_hash cur ->
  json_plain (PDict (audit_record env req prev cur)) = true.
Proof.
  intros [Hp _] A1%anchor_plain A2%anchor_plain. revert Hp. cbn [fst snd]. unfold audit_record.
  cbn -[plain_text bool_decide]. rewrite A1, A2.
  change (plain_text "") with true. by rewrite !andb_true_l.
Qed.

Lemma append_audit_ok env req st rs :
  store_ok st rs -> call_ok (env, req) ->
  exists rec st', append_audit env req true st = Ok (rec, st') /\ store_ok st' (rs ++ [rec]).
Proof.
  intros Hst Hcall. pose proof Hcall as (_ & Hact & Hw). cbn [fst snd] in Hact, Hw.
  pose proof (store_chain_tip _ _ Hst) as Htip. destruct Hst as (Hl & Hp & Hc & Ht & _).
  unfold append_audit. rewrite Htip. cbn zeta.
  change (mbind ?f (Ok ?a)) with (f a). cbv beta. rewrite Hact. cbn [negb].
  set (prev := chain_tip "genesis" rs) in *.
  pose proof (audit_record_hash env req prev) as [Hrec Htext]. cbn zeta in Hrec, Htext.
  set (rec := audit_record env req prev _) in *. do 2 eexists. split; [reflexivity|].
  unfold write_tip_anchor. rewrite Hw.
  assert (json_plain (PDict rec) = true) as Hrp.
  { apply record_plain; [done|by apply chain_tip_anchor|right; apply chain_hash_hex]. }
  assert (Forall (fun r => json_plain (PDict r) = true) (rs ++ [rec])) as Hps
    by (apply Forall_app; split; [done|by constructor]).
  assert (default [] st.(log) ++ model_dump_json rec ++ [10%N] =
          concat (map (fun r => model_dump_json r ++ [10%N]) (rs ++ [rec])))%list as Hnew.
  { rewrite map_app, concat_app, <- Hl. cbn. by rewrite app_nil_r. }
  unfold store_ok. rewrite Hnew. split; [done|]. split; [done|]. split; [|split].
  - apply chained_app. split; [done|]. cbn. by split.
  - apply Forall_app. split; [done|]. by constructor.
  - rewrite (count_written _ _ Hps), chain_tip_app. cbn [tip snd log].
    destruct (rs ++ [rec])%list eqn:E; [by destruct rs|]. rewrite <- E. do 2 eexists. reflexivity.
Qed.

(** Appending in turn; [true] asks for the anchor to be refreshed. *)
Fixpoint append_all (calls : list (audit_env * audit_request)) (st : audit_store)
    : result (list pydict * audit_store) :=
  match calls with
  | [] => Ok ([], st)
  | (env, req) :: rest =>
      '(rec, st1) ← append_audit env req true st;
      '(recs, st2) ← append_all rest st1;
      Ok (rec :: recs, st2)
  end.

Lemma append_all_ok calls st rs :
  store_ok st rs -> Forall call_ok calls ->
  exists recs st', append_all calls st = Ok (recs, st') /\ store_ok st' (rs ++ recs) /\
    length recs = length calls.
Proof.
  revert st rs. induction calls as [|[env req] calls IH]; intros st rs Hst Hcs; cbn [append_all].
  - exists [], st. rewrite app_nil_r. by split.
  - apply Forall_cons in Hcs as [Hcall Hcs].
    destruct (append_audit_ok env req st rs Hst Hcall) as (rec & st1 & E & Hst1).
    rewrite E. cbn. destruct (IH st1 _ Hst1 Hcs) as (recs & st' & E' & Hst' & Hlen).
    rewrite E'. exists (rec :: recs), st'. split; [done|]. rewrite <- app_assoc in Hst'.
    split; [exact Hst'|]. cbn. by rewrite Hlen.
Qed.

Lemma store_ok_accepted st rs : store_ok st rs -> rs <> [] -> accepted st.
Proof.
  intros Hst Hne. apply accepted_iff. rewrite (store_records _ _ Hst).
  destruct Hst as (_ & _ & Hc & Ht & Htip). split; [done|].
  rewrite text_chain_tip by done.
  assert (exists now path, st.(tip) = Some (LJson (PDict
    (build_tip_anchor now (chain_tip "genesis" rs) (Z.of_nat (length rs)) path)))) as (now & path & Htip')
    by (by destruct rs).
  eexists. unfold load_tip_anchor. rewrite Htip'. split; [reflexivity|].
  unfold build_tip_anchor. cbn -[length]. unfold py_or. split.
  - destruct (chain_tip "genesis" rs) as [|c0 h0] eqn:Eh; [|done]. exfalso.
    destruct rs as [|r rs _] using rev_ind; [done|].
    rewrite chain_tip_app in Eh. rewrite chained_app in Hc. cbn in Hc.
    destruct Hc as (_ & Hr & _). rewrite Eh in Hr. symmetry in Hr. by apply digest_nonempty in Hr.
  - destruct rs; [done|]. cbn [length py_bool].
    assert (negb (Z.of_nat (S (length rs)) =? 0) = true) as -> by (apply negb_true_iff, Z.eqb_neq; lia).
    done.
Qed.

(** C4: what the writer appends, it and the verifier read back.  Start from an empty log and
    append records whose texts and payload JSON carries on one line (finite floats, distinct
    keys, no line separator outside the control characters), with actions of the vocabulary
    and an anchor that can be written.  Every append succeeds, the log reads as exactly the
    returned records in order, and the verifier accepts it with its anchor. *)
Theorem appended_log_verifies calls :
  calls <> [] -> Forall call_ok calls ->
  exists recs st, append_all calls {| log := None; tip := None |} = Ok (recs, st) /\
    read_audit_records st = recs /\ length recs = length calls /\ accepted st.
Proof.
  intros Hne Hcs. destruct (append_all_ok calls _ [] empty_store_ok Hcs) as (recs & st & E & Hst & Hlen).
  exists recs, st. split; [done|]. split; [exact (store_records _ _ Hst)|]. split; [done|].
  apply (store_ok_accepted _ _ Hst). intros Hr. cbn in Hr. subst. by destruct calls.
Qed.

(** A record whose text holds a line separator is lost, and the chain starts over: the
    reader of the last line finds the rest of the record, which is not JSON, and the next
    record is hashed as the first of a chain. *)
Theorem line_separator_restarts_chain env req st rec st1 before after c :
  append_audit env req true st = Ok (rec, st1) ->
  model_dump_json rec = (before ++ c :: after)%list ->
  is_line_break c = true -> c <> 13%N -> after <> [] ->
  forallb (fun x => negb (is_line_break x)) after = true ->
  json_loads after = None ->
  _read_chain_tip st1 = Ok "genesis".
Proof.
  unfold append_audit. intros E Hd Hc Hcr Hne Hp Hj. apply bind_Ok in E as (prev & _ & E).
  destruct (negb _); [done|]. cbn zeta in E.
  assert (log st1 = Some (default [] st.(log) ++ before ++ c :: after ++ [10%N])%list) as Hlog.
  { injection E as <- <-. unfold write_tip_anchor. rewrite Hd, <- app_assoc. cbn [app].
    by destruct (env_tip_writable env). }
  assert (log_lines st1 = split_lines [] ((default [] st.(log) ++ before) ++ c :: after ++ [10%N])%list) as Hls.
  { unfold log_lines. by rewrite Hlog, <- app_assoc. }
  unfold _read_chain_tip. rewrite Hls. generalize (default [] st.(log) ++ before)%list. intros l.
  assert (exists ls, split_lines [] (l ++ c :: after ++ [10%N]) = ls ++ [after])%list as [ls ->].
  { apply (split_lines_last l [] c after); try done. }
  by rewrite last_opt_app, Hj.
Qed.

(** An anchor that records an empty log never verifies against that empty
    log: its count 0 is read as "no count" and compared as -1. *)
Theorem empty_anchor_rejected now path require_tip :
  exists r,
    verify_audit_with_tip
      {| log := None;
         tip := Some (LJson (PDict (build_tip_anchor now "genesis" 0 path))) |} require_tip = Ok r
    /\ r.(chain_verified) = true /\ r.(tip_match) = Some true
    /\ r.(tip_message) = "tip_record_count_mismatch" /\ r.(verified) = false.
Proof. by destruct require_tip; eexists. Qed.

Lemma custody_payload_detail e d :
  In ("detail", d) (custody_payload e) -> d = PDict (scrub e.(ce_extra)).
Proof.
  unfold custody_payload. rewrite !in_app_iff.
  destruct e as [ev ac su dr cs be af ou li ex]; cbn [ce_dry_run ce_before ce_after ce_outcome
    ce_limitations ce_extra ce_subsystem ce_event ce_confirmation_supplied].
  intros [Hin|[Hin|[Hin|[Hin|[Hin|[Hin|Hin]]]]]].
  all: [> |destruct dr|destruct be|destruct af|destruct ou|destruct li|destruct ex];
    cbn -[scrub] in Hin; repeat destruct Hin as [Hin|Hin]; try done; by injection Hin as <-.
Qed.

Lemma append_audit_payload env req write_tip st rec st' :
  append_audit env req write_tip st = Ok (rec, st') ->
  Dict.lookup "payload" rec = Some (PDict req.(payload)).
Proof.
  unfold append_audit. intros E. apply bind_Ok in E as (prev & _ & E).
  destruct (negb _); [done|]. cbn zeta in E. by injection E as <- _.
Qed.

(** A custody row carries no confirmation secret: the detail block of the
    written payload has no key that spells one of the secret names, in any
    letter case, and keeps every other key of the caller's extras. *)
Theorem custody_scrubs_secrets env e write_tip soft st rec st' :
  append_custody_event env e write_tip soft st = Ok (Some rec, st') ->
  exists p, Dict.lookup "payload" rec = Some (PDict p) /\
    forall d, In ("detail", d) p -> exists kvs, d = PDict kvs /\
      forall k v, In (k, v) kvs <->
        In (k, v) e.(ce_extra) /\ ~ In (PyStr.lower k) SECRET_KEYS.
Proof.
  unfold append_custody_event. destruct (append_audit _ _ _ _) as [[r s1]|ex] eqn:E.
  2: { by destruct soft. }
  intros Eq. injection Eq as <- <-. apply append_audit_payload in E. cbn in E.
  exists (custody_payload e). split; [exact E|].
  intros d ->%custody_payload_detail. exists (scrub e.(ce_extra)). split; [done|].
  intros k v. unfold scrub. rewrite filter_In. cbn [fst]. rewrite negb_true_iff, <- PyStr.mem_In.
  by rewrite not_true_iff_false.
Qed.
End Properties.

(** ** Concrete instances *)

(** A printer and parser with the documented laws: a value is numbered, and its text is the
    binary numeral between braces. *)
Module DemoCodec.
Import stdpp.countable.
#[local] Open Scope string_scope.
#[local] Open Scope Z_scope.
Definition leaf : Type := nat * bool * Z * Z * string.
Definition mark (n : nat) : leaf := (n, false, 0, 0, "").

Fixpoint to_tree (v : pyval) : gen_tree leaf :=
  match v with
  | PNone => GenLeaf (mark 0)
  | PBool b => GenLeaf (1%nat, b, 0, 0, "")
  | PInt z => GenLeaf (2%nat, false, z, 0, "")
  | PFloat (S754_zero b) => GenLeaf (3%nat, b, 0, 0, "")
  | PFloat (S754_infinity b) => GenLeaf (4%nat, b, 0, 0, "")
  | PFloat S754_nan => GenLeaf (mark 5)
  | PFloat (S754_finite b m e) => GenLeaf (6%nat, b, Zpos m, e, "")
  | PStr s => GenLeaf (7%nat, false, 0, 0, s)
  | PList l => GenNode 0 (map to_tree l)
  | PDict d => GenNode 1 (map (fun kv => GenNode 2 [GenLeaf (7%nat, false, 0, 0, kv.1); to_tree kv.2]) d)
  end.

Definition of_leaf (l : leaf) : pyval :=
  let '(n, b, z, e, s) := l in
  match n with
  | 1%nat => PBool b
  | 2%nat => PInt z
  | 3%nat => PFloat (S754_zero b)
  | 4%nat => PFloat (S754_infinity b)
  | 5%nat => PFloat S754_nan
  | 6%nat => PFloat (S754_finite b (Z.to_pos z) e)
  | 7%nat => PStr s
  | _ => PNone
  end.

Fixpoint of_tree (t : gen_tree leaf) : pyval :=
  match t with
  | GenLeaf l => of_leaf l
  | GenNode 0 ts => PList (map of_tree ts)
  | GenNode _ ts =>
      PDict (map (fun t => match t with
                           | GenNode _ [GenLeaf l; v] => (l.2, of_tree v)
                           | _ => ("", PNone)
                           end) ts)
  end.

Fixpoint of_to_tree (v : pyval) : of_tree (to_tree v) = v.
Proof.
  destruct v as [|b|z|[b|b| |b m e]|s|l|d]; try reflexivity.
  - cbn. f_equal. induction l as [|v l IH]; [done|]. cbn. by rewrite of_to_tree, IH.
  - cbn. f_equal. induction d as [|[k v] d IH]; [done|]. cbn. by rewrite of_to_tree, IH.
Qed.

Fixpoint bits (p : positive) : list N :=
  match p with xH => [] | xO p => 48%N :: bits p | xI p => 49%N :: bits p end.
Fixpoint of_bits (l : list N) : option positive :=
  match l with
  | [125%N] => Some xH
  | 48%N :: l => xO <$> of_bits l
  | 49%N :: l => xI <$> of_bits l
  | _ => None
  end.

Lemma of_bits_bits p : of_bits (bits p ++ [125%N]) = Some p.
Proof. induction p as [p IH|p IH|]; cbn; [by rewrite IH..|done]. Qed.

#[export] Instance codec : RecordCodec := {|
  model_dump_json d := ([123%N] ++ bits (encode (to_tree (PDict d))) ++ [125%N])%list;
  json_loads l :=
    match l with
    | 123%N :: l => p ← of_bits l; t ← decode (A := gen_tree leaf) p; Some (of_tree t)
    | _ => None
    end;
|}.

#[export] Instance laws : JsonLaws codec.
Proof.
  constructor; intros d.
  - eexists. reflexivity.
  - intros _. unfold model_dump_json, codec. rewrite !forallb_app.
    generalize (encode (to_tree (PDict d))). intros p.
    assert (forallb (fun c => negb (is_line_break c)) (bits p) = true) as -> by (by induction p).
    reflexivity.
  - intros _. cbn [model_dump_json json_loads codec app]. rewrite of_bits_bits. cbn [mbind option_bind].
    rewrite decode_encode. cbn [mbind option_bind]. by rewrite of_to_tree.
Qed.
End DemoCodec.

Module AuditChainWitness.
#[local] Instance host : PyHost := DemoHost.demo_host.
#[local] Instance codec : RecordCodec := DemoCodec.codec.
#[local] Instance laws : JsonLaws codec := DemoCodec.laws.

Lemma hex_digit_hex n : is_hex (Json.hex_digit (n mod 16)) = true.
Proof.
  assert (n mod 16 < 16)%N as Hn by (apply N.mod_lt; done).
  revert Hn. generalize (n mod 16)%N. intros m Hm.
  assert (m = 0 \/ m = 1 \/ m = 2 \/ m = 3 \/ m = 4 \/ m = 5 \/ m = 6 \/ m = 7 \/ m = 8 \/
          m = 9 \/ m = 10 \/ m = 11 \/ m = 12 \/ m = 13 \/ m = 14 \/ m = 15)%N as Hd by lia.
  by repeat destruct Hd as [->|Hd]; subst.
Qed.

Lemma hex4_hex n : PyStr.all_chars is_hex (Json.hex4 n) = true.
Proof. unfold Json.hex4. cbn [PyStr.all_chars]. by rewrite !hex_digit_hex. Qed.

#[local] Instance demo_hex : HexDigest host.
Proof.
  constructor; intros s; cbn; unfold DemoHost.digest.
  - by rewrite PyStr.all_chars_app, !hex4_hex.
  - done.
Qed.

Definition env (id : string) : audit_env :=
  {| env_uuid := id; env_now := "2026-01-01T00:00:00Z"; env_tip_now := "2026-01-01T00:00:00Z";
     env_tip_writable := true; env_path := "canonical_custody.jsonl" |}.
Definition guard_event : custody_event :=
  {| ce_event := "proxy_fix_applied"; ce_actor := "operator"; ce_subsystem := "proxy_drift";
     ce_dry_run := Some false; ce_confirmation_supplied := true; ce_before := None;
     ce_after := None; ce_outcome := Some "ok"; ce_limitations := [];
     ce_extra := ["Token" :-> PStr "s3cret"; "port" :-> PInt 8080] |}.
Definition calls : list (audit_env * audit_request) :=
  [(env "a1", custody_request guard_event); (env "a2", custody_request guard_event)].
Definition store0 : audit_store := {| log := None; tip := None |}.

(** A log of two records, and the same log after an edit. *)
Definition first_record : pydict :=
  let r := audit_record (env "a1") (custody_request guard_event) "genesis" "" in
  Dict.set "current_hash" (PStr (chain_hash "genesis" (audit_hash_body r))) r.
Definition second_record (outcome : string) : pydict :=
  let req := custody_request guard_event in
  let r := audit_record (env "a2")
             {| action_type := req.(action_type); trace_id := ""; decision_id := ""; incident_id := "";
                actor := outcome; payload := req.(payload) |} (current_of first_record) "" in
  Dict.set "current_hash" (PStr (chain_hash (current_of first_record) (audit_hash_body r))) r.

Definition lines_of (a b c : pydict) : RecordCodec := {|
  model_dump_json := fun _ => [];
  json_loads := fun l =>
    match l with
    | [49%N] => Some (PDict a)
    | [50%N] => Some (PDict b)
    | [51%N] => Some (PDict c)
    | _ => None
    end;
|}.
(** The third line is the second record with another status and another previous hash. *)
Definition relabelled : pydict :=
  Dict.set "signature_status" (PStr "unsigned") (Dict.set "previous_hash" (PStr "forged") (second_record "operator")).
Definition table : RecordCodec := lines_of first_record (second_record "operator") relabelled.
Definition anchored (l : list N) : audit_store :=
  {| log := Some l;
     tip := Some (LJson (PDict (build_tip_anchor "2026-01-01T00:00:00Z"
              (current_of (second_record "operator")) 2 "canonical_custody.jsonl"))) |}.
Definition original : audit_store := anchored [49; 10; 50; 10]%N.
Definition edited : audit_store := anchored [49; 10; 51; 10]%N.

Lemma original_records :
  read_audit_records (R := table) original = [first_record; second_record "operator"].
Proof. vm_compute. reflexivity. Qed.
Lemma edited_records : read_audit_records (R := table) edited = [first_record; relabelled].
Proof. vm_compute. reflexivity. Qed.

(** Two different logs beside one anchor: the edit of unprotected fields is accepted. *)
Lemma tamper_evident_witness :
  read_audit_records (R := table) edited <> read_audit_records (R := table) original
  /\ accepted (R := table) edited.
Proof.
  split; [rewrite original_records, edited_records; vm_compute; discriminate|].
  apply (tamper_evident (R := table) original edited).
  - rewrite original_records. repeat constructor; eexists; vm_compute; reflexivity.
  - eexists. vm_compute. split; reflexivity.
  - reflexivity.
  - rewrite edited_records. repeat constructor; eexists; vm_compute; reflexivity.
  - rewrite original_records, edited_records. repeat constructor; vm_compute; reflexivity.
Defined.

(** Another actor in the same record is refused. *)
Example forged_actor_refused :
  ~ accepted (R := lines_of first_record (second_record "operator") (second_record "intruder")) edited.
Proof. intros (r & E & Hv). vm_compute in E. injection E as <-. discriminate Hv. Qed.

Lemma appended_log_verifies_witness :
  exists recs st, append_all calls store0 = Ok (recs, st) /\ read_audit_records st = recs
    /\ length recs = 2%nat /\ accepted st.
Proof.
  apply (appended_log_verifies calls); [discriminate|].
  repeat constructor.
Defined.

(** The text "a", U+2028, "b" of a record is read as two lines. *)
Definition split_codec : RecordCodec := {|
  model_dump_json := fun _ => [123; 8232; 98; 125]%N;
  json_loads := fun _ => None;
|}.
Lemma line_separator_restarts_chain_witness :
  match append_audit (R := split_codec) (env "a1") (custody_request guard_event) true store0 with
  | Ok (_, st) => _read_chain_tip (R := split_codec) st = Ok "genesis"
  | Raise _ => False
  end.
Proof.
  destruct (append_audit (R := split_codec) (env "a1") (custody_request guard_event) true store0)
    as [[rec st]|] eqn:E; [|vm_compute in E; discriminate].
  apply (line_separator_restarts_chain (R := split_codec) _ _ _ _ _ [123%N] [98; 125]%N 8232%N E);
    try reflexivity; discriminate.
Defined.

Definition custody_record : pydict :=
  match append_custody_event (R := table) (env "a1") guard_event true true store0 with
  | Ok (Some r, _) => r
  | _ => []
  end.
Definition custody_store : audit_store :=
  match append_custody_event (R := table) (env "a1") guard_event true true store0 with
  | Ok (_, st) => st
  | Raise _ => store0
  end.

Lemma custody_scrubs_secrets_witness :
  exists p, Dict.lookup "payload" custody_record = Some (PDict p) /\
    forall d, In ("detail", d) p -> exists kvs, d = PDict kvs /\
      forall k v, In (k, v) kvs <->
        In (k, v) guard_event.(ce_extra) /\ ~ In (PyStr.lower k) SECRET_KEYS.
Proof.
  apply (custody_scrubs_secrets (R := table) (env "a1") guard_event true true store0 custody_record
           custody_store). vm_compute. reflexivity.
Defined.
End AuditChainWitness.
