(* ===== verification/Rollback.v ===== *)
(** * Approval tokens and the rollback preview package

    [src/platform_core/policy/approval.py] and
    [src/platform_core/remediation/rollback.py]: the six-part preview package of
    a remediation and the gate of a rollback attempt.  Random identifiers, the
    issued token and the clock readings are arguments. *)

From S2P Require Import Prelude PyValue.
From Stdlib Require Import Ascii String.
From stdpp Require Import strings.

Open Scope string_scope.
Open Scope Z_scope.
Open Scope py_scope.

(** ** Approval tokens *)

Definition is_ascii (s : string) : bool :=
  PyStr.all_chars (fun c => (PyStr.code c <? 128)%N) s.

(** [secrets.compare_digest] of two strings: both must be ASCII. *)
Definition compare_digest (a b : string) : result bool :=
  if is_ascii a && is_ascii b then Ok (String.eqb a b) else Raise TypeError.

Definition validate_approval_token (provided expected : string) : result bool :=
  if PyStr.is_empty provided || PyStr.is_empty expected then Ok false
  else compare_digest (PyStr.strip provided) (PyStr.strip expected).

(** ** Constants *)

Definition ROLLBACK_CONFIRMATION_PHRASE : string := "RESTORE_PROXY_LKG".

Definition ROLLBACK_LIMITATIONS : list string :=
  ["Rollback restores captured values only — not a guarantee of safety or full prior state.";
   "Unknown prior PAC, proxy override, or per-user policy may differ after restore.";
   "Rollback preview does not execute registry or network mutations by default.";
   "Rollback success does not prove endpoint compromise is resolved.";
   "Human approval token and typed confirmation are required before any live rollback."].

Definition INTERNET_SETTINGS : string :=
  "HKCU\Software\Microsoft\Windows\CurrentVersion\Internet Settings".

(** What one builder call draws from the machine: a random hex string and the
    time. *)
Record draw := { hex : string; at_utc : string }.

Definition id_of (prefix : string) (d : draw) : string := prefix ++ PyStr.take 12 d.(hex).

Section WithHost.
Context {H : PyHost}.

Definition capture_pre_change_snapshot (d : draw) (endpoint_id incident_id : string)
    (evidence : pydict) (proxy_enable : option Z) (proxy_server : option string) : pydict :=
  ["snapshot_id" :-> PStr (id_of "snap-" d);
   "endpoint_id" :-> PStr endpoint_id;
   "incident_id" :-> PStr incident_id;
   "captured_at_utc" :-> PStr d.(at_utc);
   "source" :-> PStr "rollback_pre_change_snapshot";
   "proxy_registry" :-> PDict
     ["ProxyEnable" :-> match proxy_enable with
                        | Some z => PInt z
                        | None => Dict.get "proxy_enable" evidence
                        end;
      "ProxyServer" :-> match proxy_server with
                        | Some s => PStr s
                        | None => Dict.get "proxy_server" evidence
                        end;
      "AutoConfigURL" :-> Dict.get "auto_config_url" evidence;
      "ProxyOverride" :-> Dict.get "proxy_override" evidence];
   "evidence_tier" :->
     PStr (py_str (Dict.get_default "evidence_tier" (PStr "OBSERVED_ONLY") evidence));
   "limitations" :-> str_list ROLLBACK_LIMITATIONS;
   "read_only" :-> PBool true].

Definition default_mutations : list pyval :=
  [PDict ["operation" :-> PStr "registry_set";
          "target" :-> PStr INTERNET_SETTINGS;
          "field" :-> PStr "ProxyEnable";
          "value" :-> PInt 0;
          "human" :-> PStr "Disable WinINET proxy (preview)"]].

Definition build_proposed_mutation_preview (action_id endpoint_id : string) (dry_run : bool)
    (mutations : list pyval) : pydict :=
  ["action_id" :-> PStr action_id;
   "endpoint_id" :-> PStr endpoint_id;
   "dry_run" :-> PBool dry_run;
   "mutations" :-> PList (match mutations with [] => default_mutations | _ => mutations end);
   "executed" :-> PBool false;
   "limitations" :-> str_list ROLLBACK_LIMITATIONS].

Definition build_reversible_action_record (d : draw) (action_id endpoint_id : string)
    (pre_change_snapshot : pydict) (approval_token : string) : pydict :=
  ["reversible_action_id" :-> PStr (id_of "rev-" d);
   "action_id" :-> PStr action_id;
   "endpoint_id" :-> PStr endpoint_id;
   "pre_change_snapshot_id" :-> Dict.get "snapshot_id" pre_change_snapshot;
   "approval_token_hint" :-> PStr
     (if PyStr.is_empty approval_token then "" else PyStr.take 8 approval_token ++ "…");
   "requires_typed_confirmation" :-> PBool true;
   "required_confirmation" :-> PStr ROLLBACK_CONFIRMATION_PHRASE;
   "reversible" :-> PBool true;
   "executed" :-> PBool false;
   "created_at_utc" :-> PStr d.(at_utc);
   "limitations" :-> str_list ROLLBACK_LIMITATIONS].

Definition build_rollback_audit_record (d : draw)
    (rollback_preview_id endpoint_id incident_id action_id event_kind : string)
    (dry_run : bool) (gate_reason : string) (can_execute : bool) : pydict :=
  ["audit_id" :-> PStr (id_of "aud-rb-" d);
   "event_kind" :-> PStr event_kind;
   "rollback_preview_id" :-> PStr rollback_preview_id;
   "endpoint_id" :-> PStr endpoint_id;
   "incident_id" :-> PStr incident_id;
   "action_id" :-> PStr action_id;
   "timestamp_utc" :-> PStr d.(at_utc);
   "dry_run" :-> PBool dry_run;
   "executed" :-> PBool false;
   "can_execute" :-> PBool can_execute;
   "gate_reason" :-> PStr gate_reason;
   "policy_decision" :-> PStr "preview_only";
   "limitations" :-> str_list ROLLBACK_LIMITATIONS;
   "read_only" :-> PBool true].

Definition can_execute_rollback (dry_run : bool)
    (confirmation_token expected_token typed_confirmation required_phrase : string)
    : result (bool * string) :=
  if dry_run then Ok (false, "dry_run_default_no_execution") else
  valid ← validate_approval_token confirmation_token expected_token;
  if negb valid then Ok (false, "approval_token_missing_or_invalid")
  else if negb (String.eqb (PyStr.strip typed_confirmation) required_phrase)
  then Ok (false, "typed_confirmation_required")
  else Ok (false, "live_rollback_executor_disabled_preview_only").

(** Draws of one package: the fresh token, and one draw per builder. *)
Record package_draws := {
  pd_token : string; pd_reversible : draw; pd_preview : draw; pd_audit : draw;
}.

Definition build_rollback_preview_package (ds : package_draws)
    (endpoint_id incident_id action_id : string)
    (pre_change_snapshot proposed_mutation : pydict) (dry_run : bool)
    (approval_token confirmation_token typed_confirmation : string) : result pydict :=
  let token := if PyStr.is_empty approval_token then ds.(pd_token) else approval_token in
  let reversible :=
    build_reversible_action_record ds.(pd_reversible) action_id endpoint_id pre_change_snapshot
      token in
  let rollback_preview_id := id_of "rbprev-" ds.(pd_preview) in
  let rollback_preview :=
    ["rollback_preview_id" :-> PStr rollback_preview_id;
     "endpoint_id" :-> PStr endpoint_id;
     "incident_id" :-> PStr incident_id;
     "action_id" :-> PStr action_id;
     "dry_run" :-> PBool dry_run;
     "steps" :-> PList
       [PDict ["step" :-> PInt 1;
               "operation" :-> PStr "registry_restore";
               "target" :-> PStr INTERNET_SETTINGS;
               "values" :-> py_or (Dict.get "proxy_registry" pre_change_snapshot) (PDict []);
               "requires_typed_confirmation" :-> PBool true];
        PDict ["step" :-> PInt 2;
               "operation" :-> PStr "validate";
               "description" :-> PStr
                 "Re-run proxy-proof and browser path probes after rollback."]];
     "required_confirmation" :-> PStr ROLLBACK_CONFIRMATION_PHRASE;
     "limitations" :-> str_list ROLLBACK_LIMITATIONS;
     "executed" :-> PBool false] in
  '(can_execute, gate_reason) ←
    can_execute_rollback dry_run confirmation_token token typed_confirmation
      ROLLBACK_CONFIRMATION_PHRASE;
  let audit_record :=
    build_rollback_audit_record ds.(pd_audit) rollback_preview_id endpoint_id incident_id action_id
      "rollback_preview_generated" dry_run gate_reason can_execute in
  validated ←
    (if PyStr.is_empty confirmation_token then Ok false
     else validate_approval_token confirmation_token token);
  Ok ["rollback_preview_id" :-> PStr rollback_preview_id;
      "endpoint_id" :-> PStr endpoint_id;
      "incident_id" :-> PStr incident_id;
      "action_id" :-> PStr action_id;
      "dry_run" :-> PBool dry_run;
      "pre_change_snapshot" :-> PDict pre_change_snapshot;
      "proposed_mutation_preview" :-> PDict proposed_mutation;
      "human_approval_token" :-> PDict
        ["required" :-> PBool true;
         "expected_token" :-> PStr token;
         "expected_token_hint" :-> PStr (PyStr.take 8 token ++ "…");
         "provided" :-> PBool (negb (PyStr.is_empty confirmation_token));
         "validated" :-> PBool validated];
      "reversible_action_record" :-> PDict reversible;
      "rollback_preview" :-> PDict rollback_preview;
      "rollback_audit_record" :-> PDict audit_record;
      "can_execute_rollback" :-> PBool can_execute;
      "gate_reason" :-> PStr gate_reason;
      "limitations" :-> str_list ROLLBACK_LIMITATIONS].

(** A package whose [human_approval_token] is not a dictionary raises. *)
Definition attempt_rollback_execute (d : draw) (package : pydict)
    (confirmation_token typed_confirmation expected_token : string) (dry_run : bool)
    : result pydict :=
  ht ← Dict.of_val (py_or (Dict.get "human_approval_token" package) (PDict []));
  let token :=
    if PyStr.is_empty expected_token
    then py_str (Dict.get_default "expected_token" (PStr "") ht)
    else expected_token in
  '(can_execute, reason) ←
    can_execute_rollback dry_run confirmation_token token typed_confirmation
      ROLLBACK_CONFIRMATION_PHRASE;
  let text k := py_str (Dict.get_default k (PStr "") package) in
  let audit :=
    build_rollback_audit_record d (text "rollback_preview_id") (text "endpoint_id")
      (text "incident_id") (text "action_id") "rollback_execute_attempt" dry_run reason
      can_execute in
  Ok ["executed" :-> PBool false;
      "dry_run" :-> PBool dry_run;
      "can_execute" :-> PBool can_execute;
      "reason" :-> PStr reason;
      "rollback_audit_record" :-> PDict audit;
      "limitations" :-> str_list ROLLBACK_LIMITATIONS].

Definition build_rollback_plan (ds : package_draws) (snap : draw) (action_id : string)
    (prior_proxy_enable : Z) (prior_proxy_server : string) (dry_run : bool) : result pydict :=
  preview ← build_rollback_preview_package ds "local" "legacy" action_id
    (capture_pre_change_snapshot snap "local" "legacy" [] (Some prior_proxy_enable)
       (Some prior_proxy_server))
    (build_proposed_mutation_preview action_id "local" dry_run []) dry_run "" "" "";
  rb ← Dict.of_val (Dict.get "rollback_preview" preview);
  Ok ["action_id" :-> PStr action_id;
      "dry_run" :-> PBool dry_run;
      "description" :-> PStr
        "Restore prior WinINET proxy registry values from captured snapshot.";
      "steps" :-> Dict.get "steps" rb;
      "limitations" :-> Dict.get "limitations" rb;
      "rollback_preview_id" :-> Dict.get "rollback_preview_id" preview].

(** ** The gate *)

(** What a rollback attempt must satisfy to reach the last refusal. *)
Definition fully_approved (dry_run : bool)
    (confirmation_token expected_token typed_confirmation : string) : Prop :=
  dry_run = false /\ confirmation_token <> "" /\ expected_token <> "" /\
  PyStr.strip confirmation_token = PyStr.strip expected_token /\
  PyStr.strip typed_confirmation = ROLLBACK_CONFIRMATION_PHRASE.

Lemma validate_token_true p e :
  validate_approval_token p e = Ok true ->
  p <> "" /\ e <> "" /\ PyStr.strip p = PyStr.strip e.
Proof.
  unfold validate_approval_token, compare_digest.
  destruct (PyStr.is_empty p) eqn:Ep; [done|]. destruct (PyStr.is_empty e) eqn:Ee; [done|].
  apply PyStr.is_empty_false in Ep, Ee. cbn. destruct (_ && _); [|done].
  intros E. injection E as E. apply String.eqb_eq in E. auto.
Qed.

Lemma can_execute_rollback_spec dry tok exp typed b reason :
  can_execute_rollback dry tok exp typed ROLLBACK_CONFIRMATION_PHRASE = Ok (b, reason) ->
  b = false /\
  (reason = "live_rollback_executor_disabled_preview_only" -> fully_approved dry tok exp typed).
Proof.
  unfold can_execute_rollback. destruct dry; [intros E; by injection E as <- <-|]. intros E.
  apply bind_Ok in E as ([] & Ev & E); cbn [negb] in E; [|by injection E as <- <-].
  destruct (String.eqb _ _) eqn:Et; cbn [negb] in E; injection E as <- <-; [|done].
  split; [done|]. intros _. apply String.eqb_eq in Et.
  destruct (validate_token_true _ _ Ev) as (Hp & He & Hs). repeat split; done.
Qed.

(** No input makes the platform core execute a rollback: an attempt that
    returns reports [executed] and [can_execute] false in the result and in its
    audit row, and it is refused at the last gate only with a valid token, the
    typed phrase and no dry run. *)
Theorem rollback_never_executes d package tok typed exp dry out :
  attempt_rollback_execute d package tok typed exp dry = Ok out ->
  Dict.lookup "executed" out = Some (PBool false) /\
  Dict.lookup "can_execute" out = Some (PBool false) /\
  (exists audit, Dict.lookup "rollback_audit_record" out = Some (PDict audit) /\
     Dict.lookup "executed" audit = Some (PBool false) /\
     Dict.lookup "can_execute" audit = Some (PBool false)) /\
  exists reason, Dict.lookup "reason" out = Some (PStr reason) /\
    (reason = "live_rollback_executor_disabled_preview_only" ->
       exists token, fully_approved dry tok token typed).
Proof.
  unfold attempt_rollback_execute. intros E. apply bind_Ok in E as (ht & _ & E). cbn zeta in E.
  apply bind_Ok in E as ([can reason] & Ec & E). injection E as <-.
  apply can_execute_rollback_spec in Ec as [-> Hr].
  split; [done|]. split; [done|]. split.
  - eexists. split; [reflexivity|]. done.
  - exists reason. split; [reflexivity|]. intros Er. eexists. exact (Hr Er).
Qed.

(** A non-ASCII approval token makes a live rollback attempt raise
    [TypeError] instead of being refused. *)
Theorem non_ascii_token_raises d package tok typed exp :
  tok <> "" -> exp <> "" -> is_ascii (PyStr.strip tok) = false ->
  Dict.lookup "human_approval_token" package = None ->
  attempt_rollback_execute d package tok typed exp false = Raise TypeError.
Proof.
  intros Ht He Ha Hp. unfold attempt_rollback_execute, Dict.get. rewrite Hp.
  apply PyStr.is_empty_false in Ht, He. cbn. rewrite He.
  unfold can_execute_rollback, validate_approval_token, compare_digest. by rewrite Ht, He, Ha.
Qed.
End WithHost.

(** ** Concrete instances *)
Module RollbackWitness.
#[local] Instance host : PyHost := DemoHost.demo_host.

Definition dr : draw := {| hex := "0123456789abcdef"; at_utc := "2026-01-01T00:00:00Z" |}.
Definition package : pydict :=
  ["human_approval_token" :-> PDict ["expected_token" :-> PStr "cafe"]].
Definition attempt : result pydict :=
  attempt_rollback_execute dr package " cafe " "RESTORE_PROXY_LKG" "" false.
Definition attempt_out : pydict := match attempt with Ok d => d | Raise _ => [] end.

Lemma rollback_never_executes_witness :
  Dict.lookup "reason" attempt_out = Some (PStr "live_rollback_executor_disabled_preview_only") /\
  Dict.lookup "executed" attempt_out = Some (PBool false).
Proof.
  split; [vm_compute; reflexivity|].
  apply (rollback_never_executes dr package " cafe " "RESTORE_PROXY_LKG" "" false attempt_out).
  vm_compute. reflexivity.
Defined.

Lemma non_ascii_token_raises_witness :
  attempt_rollback_execute dr [] "é" "RESTORE_PROXY_LKG" "cafe" false = Raise TypeError.
Proof.
  apply (non_ascii_token_raises dr [] "é" "RESTORE_PROXY_LKG" "cafe");
    [discriminate|discriminate|vm_compute; reflexivity|reflexivity].
Defined.
End RollbackWitness.
