(* ===== verification/PolicyGate.v ===== *)
(** * Remediation registry, policy gates and roles

    [platform_core/remediation_registry.py], [platform_core/policy/classic.py],
    [platform_core/policy/engine.py], [platform_core/policy_engine.py] and
    [platform_core/rbac.py]: the allowlist of named actions, the registry-first
    allow/deny, the gate that combines it with the operator's role, the verbs
    shown to operators and the header-derived principals. *)

From S2P Require Import Prelude PyValue.
From Stdlib Require Import Ascii String.
From stdpp Require Import strings.

Open Scope string_scope.
Open Scope Z_scope.
Open Scope py_scope.

(** ** The registry *)

Inductive RiskName := read_only | low | medium | high | forbidden.
Inductive Surface := api | cli | dashboard.

#[export] Instance RiskName_eq_dec : EqDecision RiskName.
Proof. solve_decision. Defined.
#[export] Instance Surface_eq_dec : EqDecision Surface.
Proof. solve_decision. Defined.

Record RemediationActionDef := {
  action_name : string;
  script_path : option string;
  risk_level : RiskName;
  allowed_surfaces : list Surface;
  api_execute_allowed : bool;
  def_requires_confirmation : bool;
  def_phrase : string;
  dry_run_allowed : bool;
  manual_only : bool;
  rollback_plan : string;
}.

Definition _all_surfaces : list Surface := [api; cli; dashboard].

Definition _REMEDIATION_REGISTRY : list (string * RemediationActionDef) :=
  [("inspect_proxy",
    {| action_name := "inspect_proxy";
       script_path := None; risk_level := read_only;
       allowed_surfaces := _all_surfaces; api_execute_allowed := false;
       def_requires_confirmation := false; def_phrase := "";
       dry_run_allowed := true; manual_only := false;
       rollback_plan := "N/A (read-only inspection)." |});
   ("preview_dns_flush",
    {| action_name := "preview_dns_flush";
       script_path := None; risk_level := read_only;
       allowed_surfaces := _all_surfaces; api_execute_allowed := false;
       def_requires_confirmation := false; def_phrase := "";
       dry_run_allowed := true; manual_only := false;
       rollback_plan := "N/A (preview only)." |});
   ("export_report",
    {| action_name := "export_report";
       script_path := None; risk_level := read_only;
       allowed_surfaces := _all_surfaces; api_execute_allowed := false;
       def_requires_confirmation := false; def_phrase := "";
       dry_run_allowed := true; manual_only := false;
       rollback_plan := "Re-run collector; reports are non-destructive." |});
   ("reset_dns",
    {| action_name := "reset_dns";
       script_path := Some "reset_dns.bat"; risk_level := medium;
       allowed_surfaces := _all_surfaces; api_execute_allowed := true;
       def_requires_confirmation := true; def_phrase := "RUN_DNS_RESET";
       dry_run_allowed := true; manual_only := false;
       rollback_plan := "Restore prior DNS servers from backup notes if applicable." |});
   ("reset_proxy",
    {| action_name := "reset_proxy";
       script_path := Some "reset_proxy.bat"; risk_level := medium;
       allowed_surfaces := _all_surfaces; api_execute_allowed := true;
       def_requires_confirmation := true; def_phrase := "RUN_PROXY_RESET";
       dry_run_allowed := true; manual_only := false;
       rollback_plan := "Reconfigure WinHTTP/user proxy per policy documentation." |});
   ("stop_proxy_listener",
    {| action_name := "stop_proxy_listener";
       script_path := None; risk_level := high;
       allowed_surfaces := [cli]; api_execute_allowed := false;
       def_requires_confirmation := true; def_phrase := "STOP_PROXY_LISTENER";
       dry_run_allowed := true; manual_only := true;
       rollback_plan := "Process termination is not reversible; restart dev tooling manually if needed." |});
   ("stop_proxy_reverter",
    {| action_name := "stop_proxy_reverter";
       script_path := None; risk_level := high;
       allowed_surfaces := [cli]; api_execute_allowed := false;
       def_requires_confirmation := true; def_phrase := "STOP_PROXY_REVERTER";
       dry_run_allowed := true; manual_only := true;
       rollback_plan := "Parent powershell termination is not reversible; restart dev proxy scripts manually if needed." |});
   ("winsock_reset",
    {| action_name := "winsock_reset";
       script_path := None; risk_level := medium;
       allowed_surfaces := _all_surfaces; api_execute_allowed := false;
       def_requires_confirmation := true; def_phrase := "RUN_WINSOCK_RESET";
       dry_run_allowed := true; manual_only := true;
       rollback_plan := "Requires reboot planning; follow enterprise change windows." |});
   ("tcpip_reset",
    {| action_name := "tcpip_reset";
       script_path := None; risk_level := medium;
       allowed_surfaces := _all_surfaces; api_execute_allowed := false;
       def_requires_confirmation := true; def_phrase := "RUN_TCPIP_RESET";
       dry_run_allowed := true; manual_only := true;
       rollback_plan := "Document interface settings before stack reset." |});
   ("firewall_reset_manual_only",
    {| action_name := "firewall_reset_manual_only";
       script_path := Some "reset_firewall.bat"; risk_level := high;
       allowed_surfaces := _all_surfaces; api_execute_allowed := false;
       def_requires_confirmation := true; def_phrase := "RUN_FIREWALL_RESET";
       dry_run_allowed := true; manual_only := true;
       rollback_plan := "Manual restore of firewall profiles from backup or GPO." |});
   ("arbitrary_command_forbidden",
    {| action_name := "arbitrary_command_forbidden";
       script_path := None; risk_level := forbidden;
       allowed_surfaces := []; api_execute_allowed := false;
       def_requires_confirmation := false; def_phrase := "";
       dry_run_allowed := false; manual_only := false;
       rollback_plan := "Not applicable." |});
   ("adapter_disable_forbidden",
    {| action_name := "adapter_disable_forbidden";
       script_path := None; risk_level := forbidden;
       allowed_surfaces := []; api_execute_allowed := false;
       def_requires_confirmation := false; def_phrase := "";
       dry_run_allowed := false; manual_only := false;
       rollback_plan := "Not applicable." |});
   ("process_kill_forbidden",
    {| action_name := "process_kill_forbidden";
       script_path := None; risk_level := forbidden;
       allowed_surfaces := []; api_execute_allowed := false;
       def_requires_confirmation := false; def_phrase := "";
       dry_run_allowed := false; manual_only := false;
       rollback_plan := "Not applicable." |});
   ("certificate_delete_forbidden",
    {| action_name := "certificate_delete_forbidden";
       script_path := None; risk_level := forbidden;
       allowed_surfaces := []; api_execute_allowed := false;
       def_requires_confirmation := false; def_phrase := "";
       dry_run_allowed := false; manual_only := false;
       rollback_plan := "Not applicable." |})].

Definition _ACTION_ALIASES : list (string * string) :=
  [("reset_winsock", "winsock_reset");
   ("reset_tcpip", "tcpip_reset");
   ("reset_firewall", "firewall_reset_manual_only");
   ("arbitrary_command", "arbitrary_command_forbidden");
   ("arbitrary_command_forbidden", "arbitrary_command_forbidden");
   ("process_kill", "process_kill_forbidden");
   ("kill_process", "process_kill_forbidden");
   ("certificate_delete", "certificate_delete_forbidden");
   ("delete_certificate", "certificate_delete_forbidden")].

Fixpoint assoc {A} (k : string) (l : list (string * A)) : option A :=
  match l with
  | [] => None
  | (k', a) :: l' => if String.eqb k k' then Some a else assoc k l'
  end.

Definition canonical_action_name (name : string) : string :=
  default name (assoc name _ACTION_ALIASES).

Definition get_remediation_action (name : string) : option RemediationActionDef :=
  assoc (canonical_action_name name) _REMEDIATION_REGISTRY.

(** The set as a list without duplicates. *)
Definition list_script_basenames : list string :=
  dedupe String.eqb (omap (fun e : string * RemediationActionDef =>
    match e.2.(script_path) with
    | Some s => if PyStr.is_empty s then None else Some s
    | None => None
    end) _REMEDIATION_REGISTRY).

(** ** Registry-first policy *)

Record RemediationPolicy := {
  allowed_risk_levels : list RiskName;
  forbidden_actions : list string;
  pol_requires_confirmation : bool;
  can_run_from_api : bool;
  can_run_from_cli : bool;
}.

Definition DEFAULT_POLICY : RemediationPolicy :=
  {| allowed_risk_levels := [read_only; low; medium]; forbidden_actions := [];
     pol_requires_confirmation := true; can_run_from_api := true; can_run_from_cli := true |}.

Record PolicyDecision := { allowed : bool; reason : string; effective_risk : RiskName }.

Definition deny (r : string) (risk : RiskName) : PolicyDecision :=
  {| allowed := false; reason := r; effective_risk := risk |}.

Definition require_typed_confirmation (name : string) : string :=
  match get_remediation_action name with
  | None => ""
  | Some defn => defn.(def_phrase)
  end.

Definition surface_in (s : Surface) (l : list Surface) : bool := existsb (fun x => bool_decide (s = x)) l.
Definition risk_in (r : RiskName) (l : list RiskName) : bool := existsb (fun x => bool_decide (r = x)) l.

(** The checks of [evaluate_action] on a definition of the registry. *)
Definition evaluate_def (defn : RemediationActionDef) (name : string) (surface : Surface)
    (pol : RemediationPolicy) : PolicyDecision :=
  let risk := defn.(risk_level) in
  if bool_decide (risk = forbidden) then deny "forbidden_action" forbidden
  else if bool_decide (risk = high) then deny "high_risk_blocked_from_platform" high
  else if match defn.(allowed_surfaces) with
          | [] => false
          | l => negb (surface_in surface l)
          end
  then deny "surface_not_allowed" risk
  else if bool_decide (surface = api) && negb pol.(can_run_from_api)
  then deny "api_disabled_by_policy" risk
  else if bool_decide (surface = cli) && negb pol.(can_run_from_cli)
  then deny "cli_disabled_by_policy" risk
  else if negb (risk_in risk pol.(allowed_risk_levels)) then deny "risk_level_not_allowed" risk
  else if PyStr.mem name pol.(forbidden_actions) then deny "action_forbidden_by_policy" risk
  else {| allowed := true; reason := "ok"; effective_risk := risk |}.

Definition evaluate_action (name : string) (surface : Surface) (policy : option RemediationPolicy)
    : PolicyDecision :=
  let pol := default DEFAULT_POLICY policy in
  match get_remediation_action name with
  | None => deny "unknown_action" forbidden
  | Some defn => evaluate_def defn name surface pol
  end.

Definition validate_confirmation_phrase (name phrase : string) : bool :=
  let expected := require_typed_confirmation name in
  if PyStr.is_empty expected then true else String.eqb (PyStr.strip phrase) expected.

(** A shell metacharacter or a line break. *)
Definition is_shell_injection (text : string) : bool :=
  negb (PyStr.all_chars (fun c =>
    negb (existsb (Ascii.eqb c) [";"; "&"; "|"; "`"; "$"; ascii_of_N 10; ascii_of_N 13]%char)) text).

(** ** The role-aware gate *)

Inductive OperatorRole := viewer | operator | admin | security_auditor.

#[export] Instance OperatorRole_eq_dec : EqDecision OperatorRole.
Proof. solve_decision. Defined.

Record StructuredPolicyDecision := {
  execute_allowed : bool;
  preview_allowed : bool;
  reason_codes : list string;
  required_role : string;
  required_confirmation : option string;
  risk_tier : RiskName;
}.

Definition refused (codes : list string) (role : string) (risk : RiskName)
    : StructuredPolicyDecision :=
  {| execute_allowed := false; preview_allowed := false; reason_codes := codes;
     required_role := role; required_confirmation := None; risk_tier := risk |}.

(** [snapshot] is the construction of the telemetry model, which can reject its
    input and is not read afterwards. *)
Definition evaluate (snapshot : result unit) (remediation_action : option string)
    (role : OperatorRole) (surface : Surface) (policy : option RemediationPolicy)
    (allow_arbitrary_shell : bool) : result StructuredPolicyDecision :=
  if allow_arbitrary_shell
  then Ok (refused ["arbitrary_shell_forbidden_even_if_requested"] "admin" forbidden)
  else
  _ ← snapshot;
  Ok (
  if bool_decide (role = viewer) then refused ["viewer_preview_blocked"] "operator" read_only
  else match remediation_action with
  | None | Some EmptyString => refused ["no_remediation_action"] "admin" read_only
  | Some a =>
      let action_key := canonical_action_name (PyStr.strip a) in
      match get_remediation_action action_key with
      | None => refused ["unknown_action"] "admin" read_only
      | Some defn =>
          let pd := evaluate_action action_key surface policy in
          let risk := pd.(effective_risk) in
          let preview0 := pd.(allowed) && (bool_decide (role = operator) || bool_decide (role = admin)) in
          let confirmation := if PyStr.is_empty defn.(def_phrase) then None else Some defn.(def_phrase) in
          let codes1 :=
            if negb preview0 then [pd.(reason); "classic_gate_denied"]
            else if String.eqb pd.(reason) "ok" then [] else [pd.(reason)] in
          let codes2 :=
            match defn.(risk_level) with
            | forbidden | high => ["execute_blocked_high_or_forbidden_tier"]
            | _ => []
            end in
          let codes3 :=
            if PyStr.contains "firewall" (PyStr.lower action_key)
               || PyStr.contains "adapter_disable" (PyStr.lower action_key)
            then ["firewall_or_adapter_manual_only"] else [] in
          let arbitrary := PyStr.contains "arbitrary" action_key in
          let codes4 := if arbitrary then ["arbitrary_commands_forbidden"] else [] in
          let preview := preview0 && negb arbitrary in
          let exec_candidate :=
            preview && bool_decide (role = admin) && pd.(allowed) && defn.(api_execute_allowed)
            && negb defn.(manual_only) && negb (bool_decide (risk = high) || bool_decide (risk = forbidden)) in
          let codes5 :=
            if exec_candidate then
              "eligible_pending_confirmation_and_route_gates" ::
              match confirmation with Some _ => ["confirmation_phrase_required"] | None => [] end
            else if negb (bool_decide (role = admin)) && preview && pd.(allowed)
            then ["operator_may_preview_only_live_requires_admin"] else [] in
          let manual := defn.(manual_only) && negb arbitrary in
          let codes6 := if manual then ["manual_only_registry_entry"] else [] in
          {| execute_allowed := exec_candidate && negb manual;
             preview_allowed := preview && negb arbitrary;
             reason_codes :=
               dedupe String.eqb (List.filter (fun c => negb (PyStr.is_empty c))
                 (codes1 ++ codes2 ++ codes3 ++ codes4 ++ codes5 ++ codes6)%list);
             required_role := "admin";
             required_confirmation := confirmation;
             risk_tier := risk |}
      end
  end).

(** ** Verbs *)

Inductive PlatformDecisionVerb := allow | alert | block | preview_only | require_confirmation.

#[export] Instance PlatformDecisionVerb_eq_dec : EqDecision PlatformDecisionVerb.
Proof. solve_decision. Defined.

Record PlatformPolicyHints := {
  allow_developer_proxy_ports : list Z;
  localhost_proxy_requires_alert : bool;
  unsigned_path_alert_only : bool;
  rollback_requires_confirmation : bool;
}.

Definition DEFAULT_HINTS : PlatformPolicyHints :=
  {| allow_developer_proxy_ports := [7890; 8888]; localhost_proxy_requires_alert := true;
     unsigned_path_alert_only := true; rollback_requires_confirmation := true |}.

(** Elements of an iterated JSON value. *)
Definition iter_values (v : pyval) : result (list pyval) :=
  match v with
  | PList l => Ok l
  | PStr s => Ok (map (fun c => PStr (String c EmptyString)) (list_ascii_of_string s))
  | PDict d => Ok (map (fun kv => PStr kv.1) d)
  | _ => Raise TypeError
  end.

(** [file] is the parsed content, [None] for no path or no file. *)
Definition load_policy_hints (file : option pyval) : result PlatformPolicyHints :=
  match file with
  | None => Ok DEFAULT_HINTS
  | Some v =>
      raw ← Dict.of_val v;
      items ← iter_values (py_or (py_or (Dict.get "developer_proxy_allowlist_ports" raw)
                                    (Dict.get "allow_developer_proxy_ports" raw)) (PList []));
      ports ← mapM_result py_int items;
      let flag k := py_bool (Dict.get_default k (PBool true) raw) in
      Ok {| allow_developer_proxy_ports := ports;
            localhost_proxy_requires_alert := flag "localhost_proxy_requires_alert";
            unsigned_path_alert_only := flag "unsigned_path_alert_only";
            rollback_requires_confirmation := flag "rollback_requires_confirmation" |}
  end.

Definition _verb_from_structured (exec_allowed preview : bool) (codes : list string)
    : PlatformDecisionVerb :=
  if existsb (fun r => PyStr.contains "forbidden" r || PyStr.contains "arbitrary" r) codes then block
  else if exec_allowed then allow
  else if preview && existsb (PyStr.contains "confirmation") codes then require_confirmation
  else if preview then preview_only
  else alert.

(** [OperatorContext(role=...)] rejects any other text. *)
Definition role_of_text (s : string) : result OperatorRole :=
  if String.eqb s "viewer" then Ok viewer
  else if String.eqb s "operator" then Ok operator
  else if String.eqb s "admin" then Ok admin
  else if String.eqb s "security_auditor" then Ok security_auditor
  else Raise ValueError.

Section WithHost.
Context {H : PyHost}.

Definition signal_rules (hc : PlatformPolicyHints) (bundle : pydict) : list string :=
  let prox := PyStr.lower (py_str (py_or (Dict.get "proxy_server" bundle) (PStr ""))) in
  ((if (PyStr.contains "127.0.0.1" prox || PyStr.contains "localhost" prox)
       && hc.(localhost_proxy_requires_alert)
    then ["unknown_localhost_proxy"] else []) ++
   omap (fun p => let t := String ":" (PyStr.of_Z p) in
           if PyStr.endswith prox t || PyStr.contains t prox
           then Some "developer_proxy_allowlisted" else None) hc.(allow_developer_proxy_ports) ++
   (if py_bool (Dict.get "unsigned_path_hint" bundle) then ["unsigned_suspicious_path"] else []) ++
   (if py_bool (Dict.get "rollback_context" bundle) && hc.(rollback_requires_confirmation)
    then ["rollback_confirmation_required"] else []))%list.

Definition evaluate_route_decision (remediation_action : option string) (operator_role : string)
    (surface : Surface) (signal_bundle : pydict) (hints : option PlatformPolicyHints)
    : result (PlatformDecisionVerb * StructuredPolicyDecision * list string) :=
  let hc := default DEFAULT_HINTS hints in
  let applied := signal_rules hc signal_bundle in
  role ← role_of_text operator_role;
  sd ← evaluate (Ok tt) remediation_action role surface None false;
  let verb := _verb_from_structured sd.(execute_allowed) sd.(preview_allowed) sd.(reason_codes) in
  if bool_decide (sd.(risk_tier) = high) || bool_decide (sd.(risk_tier) = forbidden)
     || PyStr.mem "execute_blocked_high_or_forbidden_tier" sd.(reason_codes)
  then Ok (block, sd, (applied ++ ["high_risk_blocked"])%list)
  else Ok (verb, sd, applied).
End WithHost.

(** ** Roles *)

Record DemoPrincipal := { operator_id : string; role : OperatorRole }.

(** [a or b or c] on optional text. *)
Definition first_text (l : list (option string)) (d : string) : string :=
  default d (head (omap (fun o => match o with
                                  | Some s => if PyStr.is_empty s then None else Some s
                                  | None => None
                                  end) l)).

(** [env_role] is PLATFORM_DEFAULT_ROLE. *)
Definition _normalize_role (raw env_role : option string) : OperatorRole :=
  let r := PyStr.lower (PyStr.strip (first_text [raw; env_role] "operator")) in
  if String.eqb r "security" then security_auditor
  else if String.eqb r "viewer" then viewer
  else if String.eqb r "operator" then operator
  else if String.eqb r "admin" then admin
  else if String.eqb r "security_auditor" then security_auditor
  else operator.

Definition parse_demo_principal (x_operator_id x_operator_role env_id env_role : option string)
    : DemoPrincipal :=
  {| operator_id := PyStr.strip (first_text [x_operator_id; env_id] "anonymous");
     role := _normalize_role x_operator_role env_role |}.

(** Bearer API key or RBAC headers ([backend/platform_auth.py]). *)
Definition get_platform_principal (x_operator_id x_operator_role authorization : option string)
    (api_key : option string) (env_id env_role : option string) : result DemoPrincipal :=
  let headers :=
    parse_demo_principal (Some (first_text [x_operator_id] "anonymous"))
      (Some (first_text [x_operator_role] "viewer")) env_id env_role in
  match authorization with
  | Some auth =>
      if PyStr.startswith (PyStr.lower auth) "bearer " then
        let token := PyStr.strip (String.substring 7 (String.length auth - 7) auth) in
        match api_key with
        | Some key =>
            if PyStr.is_empty key then Ok headers
            else if String.eqb token key
            then Ok (parse_demo_principal (Some "api-key-client") (Some "admin") env_id env_role)
            else Raise (HTTPException 401)
        | None => Ok headers
        end
      else Ok headers
  | None => Ok headers
  end.

Definition require (b : bool) : result unit := if b then Ok tt else Raise (HTTPException 403).

Definition role_in (p : DemoPrincipal) (l : list OperatorRole) : bool :=
  existsb (fun x => bool_decide (p.(role) = x)) l.

Definition assert_can_preview (p : DemoPrincipal) : result unit :=
  if role_in p [viewer] then Raise (HTTPException 403)
  else if role_in p [security_auditor] then Raise (HTTPException 403)
  else require (role_in p [operator; admin]).

Definition assert_can_execute (p : DemoPrincipal) (dry_run : bool) : result unit :=
  if negb (role_in p [operator; admin]) then Raise (HTTPException 403)
  else if role_in p [operator] && negb dry_run then Raise (HTTPException 403)
  else Ok tt.

Definition assert_can_read_audit (p : DemoPrincipal) : result unit :=
  require (role_in p [admin; security_auditor]).
Definition assert_can_read_attribution (p : DemoPrincipal) : result unit :=
  require (role_in p [operator; admin; security_auditor]).
Definition assert_can_read_normalized_events (p : DemoPrincipal) : result unit :=
  require (role_in p [viewer; operator; admin; security_auditor]).
Definition assert_can_read_incidents (p : DemoPrincipal) : result unit :=
  require (role_in p [viewer; operator; admin; security_auditor]).
Definition assert_can_read_metrics (p : DemoPrincipal) : result unit :=
  require (role_in p [viewer; operator; admin; security_auditor]).

Definition assert_can_write_platform_payload (p : DemoPrincipal) : result unit :=
  if role_in p [viewer] then Raise (HTTPException 403)
  else if role_in p [security_auditor] then Raise (HTTPException 403)
  else require (role_in p [operator; admin]).

(** ** Lookup in the registry *)

Lemma assoc_In {A} k (l : list (string * A)) a : assoc k l = Some a -> In (k, a) l.
Proof.
  induction l as [|[k' a'] l IH]; cbn; [done|]. destruct (String.eqb k k') eqn:E.
  - apply String.eqb_eq in E. intros [= ->]. subst. by left.
  - intros Ha. right. auto.
Qed.

Lemma canonical_idem name :
  canonical_action_name (canonical_action_name name) = canonical_action_name name.
Proof.
  unfold canonical_action_name at 2 3. destruct (assoc name _ACTION_ALIASES) as [k|] eqn:E; cbn [default].
  - apply assoc_In in E. cbn in E. repeat (destruct E as [E|E]; [by injection E as <- <-|]). done.
  - unfold canonical_action_name. by rewrite E.
Qed.

(** What the registry guarantees about each of its rows. *)
Definition row_sound (key : string) (d : RemediationActionDef) : Prop :=
  d.(action_name) = key /\
  (d.(api_execute_allowed) = true ->
     d.(risk_level) = medium /\ d.(manual_only) = false /\ is_Some d.(script_path) /\
     d.(def_requires_confirmation) = true /\ d.(def_phrase) <> "") /\
  (d.(risk_level) = forbidden ->
     d.(allowed_surfaces) = [] /\ d.(script_path) = None /\ d.(dry_run_allowed) = false) /\
  (d.(risk_level) = high -> d.(manual_only) = true /\ d.(def_phrase) <> "") /\
  (d.(risk_level) <> forbidden -> d.(allowed_surfaces) <> []).

(** Every name the platform resolves, alias or not, denotes a sound row: an
    action the API may run is of medium risk, scripted, not manual and guarded by
    a typed phrase; a forbidden action has no surface, no script and no dry run;
    a high-risk action is manual.  Resolving is idempotent, and the script of any
    row is on the script allowlist. *)
Theorem registry_sound name d :
  get_remediation_action name = Some d ->
  row_sound (canonical_action_name name) d /\
  get_remediation_action (canonical_action_name name) = Some d /\
  (forall s, d.(script_path) = Some s -> In s list_script_basenames).
Proof.
  intros Hg. split; [|split].
  - unfold get_remediation_action in Hg. apply assoc_In in Hg. revert Hg.
    generalize (canonical_action_name name). intros k Hin. cbn in Hin.
    repeat (destruct Hin as [Hin|Hin];
      [injection Hin as <- <-; unfold row_sound; cbn; repeat split; intros;
       first [reflexivity|discriminate|by eexists|congruence]|]). done.
  - unfold get_remediation_action in *. by rewrite canonical_idem.
  - intros s Hs. unfold list_script_basenames. apply (dedupe_In String.eqb String.eqb_eq).
    apply list_elem_of_In, list_elem_of_omap. unfold get_remediation_action in Hg.
    apply assoc_In in Hg. exists (canonical_action_name name, d). split; [by apply list_elem_of_In|].
    cbn. rewrite Hs. cbn in Hg. assert (s <> "") as Hne%PyStr.is_empty_false.
    { repeat (destruct Hg as [Hg|Hg]; [injection Hg as _ <-; cbn in Hs; congruence|]). done. }
    by rewrite Hne.
Qed.

(** ** The execution gate *)

Lemma surface_in_all s : surface_in s _all_surfaces = true.
Proof. by destruct s. Qed.

Definition surface_enabled (surface : Surface) (pol : RemediationPolicy) : bool :=
  match surface with
  | api => pol.(can_run_from_api)
  | cli => pol.(can_run_from_cli)
  | dashboard => true
  end.

(** The two actions the API may run live. *)
Definition executable (key : string) : bool := PyStr.mem key ["reset_dns"; "reset_proxy"].

Lemma evaluate_def_allowed d name surface pol :
  (evaluate_def d name surface pol).(allowed) = true <->
  d.(risk_level) <> forbidden /\ d.(risk_level) <> high /\
  (d.(allowed_surfaces) = [] \/ surface_in surface d.(allowed_surfaces) = true) /\
  surface_enabled surface pol = true /\ risk_in d.(risk_level) pol.(allowed_risk_levels) = true /\
  ~ In name pol.(forbidden_actions).
Proof.
  unfold evaluate_def. rewrite <- PyStr.mem_In.
  case_bool_decide as Hf; [cbn; intuition congruence|].
  case_bool_decide as Hh; [cbn; intuition congruence|].
  destruct (match d.(allowed_surfaces) with [] => false | l => negb (surface_in surface l) end) eqn:Es.
  { destruct (allowed_surfaces d); [done|]. bool_facts. cbn [allowed deny]. intuition congruence. }
  assert (d.(allowed_surfaces) = [] \/ surface_in surface d.(allowed_surfaces) = true) as Hs.
  { destruct (allowed_surfaces d); [by left|]. right. by bool_facts. }
  destruct (bool_decide (surface = api) && negb pol.(can_run_from_api)) eqn:Ea.
  { apply andb_true_iff in Ea as [->%bool_decide_eq_true Ea%negb_true_iff]. cbn. intuition congruence. }
  destruct (bool_decide (surface = cli) && negb pol.(can_run_from_cli)) eqn:Ec.
  { apply andb_true_iff in Ec as [->%bool_decide_eq_true Ec%negb_true_iff]. cbn. intuition congruence. }
  assert (surface_enabled surface pol = true) as He.
  { destruct surface; cbn [surface_enabled];
      [destruct (can_run_from_api pol)|destruct (can_run_from_cli pol)|]; done. }
  destruct (risk_in _ _); [|cbn; intuition congruence].
  destruct (PyStr.mem _ _); cbn; intuition congruence.
Qed.

(** The definition an evaluated key resolves to. *)
Lemma key_cases key d :
  assoc key _REMEDIATION_REGISTRY = Some d ->
  (executable key = true /\ d.(api_execute_allowed) = true /\ d.(manual_only) = false /\
   d.(risk_level) = medium /\ d.(allowed_surfaces) = _all_surfaces /\
   PyStr.contains "arbitrary" key = false) \/
  (executable key = false /\ d.(api_execute_allowed) = false).
Proof.
  intros Hin%assoc_In. cbn in Hin.
  repeat (destruct Hin as [Hin|Hin];
    [injection Hin as <- <-; first [right; by split|left; by repeat split]|]). done.
Qed.

(** C8: the gate allows live execution exactly for an admin asking, without the
    shell flag, for one of the two scripted resets, on a surface the policy
    enables, at a risk level the policy accepts, and not under a name the policy
    forbids. *)
Theorem execute_allowed_iff a rl surface policy shell sd :
  let pol := default DEFAULT_POLICY policy in
  let key := canonical_action_name (PyStr.strip a) in
  evaluate (Ok tt) (Some a) rl surface policy shell = Ok sd ->
  sd.(execute_allowed) = true <->
  shell = false /\ rl = admin /\ a <> "" /\ In key ["reset_dns"; "reset_proxy"] /\
  surface_enabled surface pol = true /\ risk_in medium pol.(allowed_risk_levels) = true /\
  ~ In key pol.(forbidden_actions).
Proof.
  cbn zeta. rewrite <- PyStr.mem_In. fold (executable (canonical_action_name (PyStr.strip a))).
  unfold evaluate. destruct shell; [intros [= <-]; cbn; intuition congruence|].
  change (mbind ?f (Ok tt)) with (f tt). cbv beta. intros [= <-].
  case_bool_decide as Hv; [subst; cbn; intuition congruence|].
  destruct a as [|c a]; [cbn; intuition congruence|].
  set (key := canonical_action_name _). unfold evaluate_action, get_remediation_action.
  assert (canonical_action_name key = key) as -> by apply canonical_idem.
  clearbody key. destruct (assoc key _REMEDIATION_REGISTRY) as [d|] eqn:Ed.
  2: { assert (executable key = false) as ->; [|cbn; intuition congruence].
       destruct (executable key) eqn:E; [|done]. apply PyStr.mem_In in E.
       destruct E as [<-|[<-|[]]]; discriminate Ed. }
  destruct (key_cases key d Ed) as [(-> & Hx & Hm & Hr & Hs & Har)|[-> Hx]].
  2: { cbn -[evaluate_def dedupe PyStr.contains]. rewrite Hx, !andb_false_r. cbn. intuition congruence. }
  cbn -[evaluate_def dedupe PyStr.contains surface_enabled risk_in].
  rewrite Har, Hx, Hm. cbn -[evaluate_def dedupe surface_enabled risk_in].
  pose proof (evaluate_def_allowed d key surface (default DEFAULT_POLICY policy)) as Hal.
  rewrite Hr, Hs in Hal. pose proof (surface_in_all surface) as Hsa.
  assert (effective_risk (evaluate_def d key surface (default DEFAULT_POLICY policy)) = medium) as ->.
  { unfold evaluate_def. rewrite Hr, !(bool_decide_eq_false_2 (medium = _)) by done.
    by repeat match goal with |- context [if ?b then _ else _] => destruct b end. }
  destruct (allowed (evaluate_def _ _ _ _)) eqn:Ea.
  - apply proj1 in Hal. destruct (Hal eq_refl) as (_ & _ & _ & He & Hri & Hni).
    destruct rl; [done|..]; cbn -[bool_decide];
      (split; [intros E; try discriminate E; by repeat split|intros (_ & E & _); by try discriminate E]).
  - cbn. split; [done|]. intros (_ & _ & _ & _ & He & Hri & Hni). exfalso.
    enough (false = true) by done. apply Hal. repeat split; try done. by right.
Qed.

(** ** Verbs *)

Lemma evaluate_risky a rl surface policy d :
  a <> "" -> get_remediation_action (PyStr.strip a) = Some d ->
  d.(risk_level) = high \/ d.(risk_level) = forbidden ->
  exists sd, evaluate (Ok tt) (Some a) rl surface policy false = Ok sd /\
    sd.(execute_allowed) = false /\
    (rl <> viewer -> sd.(risk_tier) = d.(risk_level)) /\
    (rl = viewer -> sd = refused ["viewer_preview_blocked"] "operator" read_only).
Proof.
  intros Ha Hd Hr. unfold evaluate. change (mbind ?f (Ok tt)) with (f tt). cbv beta.
  eexists. split; [reflexivity|]. case_bool_decide as Hv; [by subst|].
  destruct a as [|c a]; [done|]. unfold evaluate_action.
  assert (get_remediation_action (canonical_action_name (PyStr.strip (String c a))) = Some d) as ->.
  { unfold get_remediation_action in *. by rewrite canonical_idem. }
  set (key := canonical_action_name _).
  assert (exists why, evaluate_def d key surface (default DEFAULT_POLICY policy)
            = deny why d.(risk_level)) as [why ->].
  { unfold evaluate_def. destruct Hr as [-> | ->]; eexists; reflexivity. }
  cbn -[PyStr.contains dedupe List.filter]. split; [done|]. split; [done|]. intros ->. done.
Qed.

(** For an action of the high or forbidden tier the route's verb is [block]
    for every role except the viewer, who gets [alert]; nobody may execute it. *)
Theorem risky_action_verb {H : PyHost} a text rl surface bundle hints d :
  a <> "" -> role_of_text text = Ok rl -> get_remediation_action (PyStr.strip a) = Some d ->
  d.(risk_level) = high \/ d.(risk_level) = forbidden ->
  exists sd applied,
    evaluate_route_decision (Some a) text surface bundle hints =
      Ok (if bool_decide (rl = viewer) then alert else block, sd, applied) /\
    sd.(execute_allowed) = false.
Proof.
  intros Ha Ht Hd Hr. destruct (evaluate_risky a rl surface None d Ha Hd Hr) as (sd & Esd & Hx & Hn & Hv).
  unfold evaluate_route_decision. rewrite Ht. change (mbind ?f (Ok rl)) with (f rl). cbv beta.
  rewrite Esd. change (mbind ?f (Ok sd)) with (f sd). cbv beta zeta.
  destruct (bool_decide_reflect (rl = viewer)) as [Hrl|Hrl].
  - rewrite (Hv Hrl) in *. exists (refused ["viewer_preview_blocked"] "operator" read_only).
    eexists. split; [|done]. reflexivity.
  - exists sd. eexists. split; [|done].
    rewrite (Hn Hrl). destruct Hr as [-> | ->]; reflexivity.
Qed.

(** ** Names the policy forbids *)

Definition forbid (key : string) (pol : RemediationPolicy) : RemediationPolicy :=
  {| allowed_risk_levels := pol.(allowed_risk_levels);
     forbidden_actions := key :: pol.(forbidden_actions);
     pol_requires_confirmation := pol.(pol_requires_confirmation);
     can_run_from_api := pol.(can_run_from_api); can_run_from_cli := pol.(can_run_from_cli) |}.

(** Forbidding an action in the policy under its registry name denies it
    under that name but leaves it allowed under an alias. *)
Theorem alias_bypasses_forbidden_list name surface pol :
  canonical_action_name name <> name ->
  (evaluate_action name surface (Some pol)).(allowed) = true ->
  let pol' := forbid (canonical_action_name name) pol in
  (evaluate_action name surface (Some pol')).(allowed) = true /\
  (evaluate_action (canonical_action_name name) surface (Some pol')).(allowed) = false.
Proof.
  intros Hne. cbn zeta. unfold evaluate_action. cbn [default].
  destruct (get_remediation_action name) as [d|] eqn:Ed; [|done].
  assert (get_remediation_action (canonical_action_name name) = Some d) as ->.
  { unfold get_remediation_action in *. by rewrite canonical_idem. }
  intros (H1 & H2 & H3 & H4 & H5 & H6)%evaluate_def_allowed. split.
  - apply evaluate_def_allowed. repeat split; try done. cbn. intros [E|E]; [done|by apply H6].
  - destruct (allowed _) eqn:E; [|done]. exfalso.
    apply evaluate_def_allowed in E as (_ & _ & _ & _ & _ & E). apply E. by left.
Qed.

(** ** Principals *)

(** What a principal may do follows from how it was authenticated: only a
    request with the configured API key as bearer token, or one that names the
    admin role in its header, can run a live remediation, and a configured key
    rejects every other bearer token. *)
Theorem live_execution_principal id hdr auth key eid erole p :
  get_platform_principal id hdr auth key eid erole = Ok p ->
  assert_can_execute p false = Ok tt ->
  p.(role) = admin /\
  ((exists a k, auth = Some a /\ key = Some k /\
      PyStr.strip (String.substring 7 (String.length a - 7) a) = k /\
      p.(operator_id) = "api-key-client") \/
   exists h, hdr = Some h /\ PyStr.lower (PyStr.strip h) = "admin").
Proof.
  intros Hp Hx.
  assert (p.(role) = admin) as Hadm.
  { destruct p as [oid []]; cbn in Hx; try discriminate Hx; done. }
  split; [done|].
  assert (forall i, role (parse_demo_principal i (Some (first_text [hdr] "viewer")) eid erole) = admin ->
    exists h, hdr = Some h /\ PyStr.lower (PyStr.strip h) = "admin") as Hhdr.
  { intros i. cbn [parse_demo_principal role]. unfold _normalize_role, first_text at 2.
    destruct hdr as [[|c h]|]; cbn -[PyStr.lower PyStr.strip]; [done| |done].
    set (r := PyStr.lower _). intros E. exists (String c h). split; [done|].
    fold r. clearbody r. repeat split_hyp E; try discriminate E. by apply String.eqb_eq. }
  unfold get_platform_principal in Hp. cbv zeta in Hp.
  destruct auth as [a|]; [|injection Hp as <-; right; by eapply Hhdr].
  destruct (PyStr.startswith _ _); [|injection Hp as <-; right; by eapply Hhdr].
  destruct key as [k|]; [|injection Hp as <-; right; by eapply Hhdr].
  destruct (PyStr.is_empty k); [injection Hp as <-; right; by eapply Hhdr|].
  destruct (String.eqb _ k) eqn:Ek; [|done]. apply String.eqb_eq in Ek.
  injection Hp as <-. left. by exists a, k.
Qed.

(** ** Concrete instances *)
Module PolicyGateWitness.
#[local] Instance host : PyHost := DemoHost.demo_host.

Definition dns_def : RemediationActionDef :=
  match get_remediation_action "reset_dns" with
  | Some d => d
  | None => {| action_name := ""; script_path := None; risk_level := forbidden;
               allowed_surfaces := []; api_execute_allowed := false;
               def_requires_confirmation := false; def_phrase := ""; dry_run_allowed := false;
               manual_only := false; rollback_plan := "" |}
  end.

Lemma registry_sound_witness : In "reset_dns.bat" list_script_basenames.
Proof. apply (registry_sound "reset_dns" dns_def); reflexivity. Defined.

Definition dns_decision : StructuredPolicyDecision :=
  match evaluate (Ok tt) (Some " reset_dns ") admin api None false with
  | Ok sd => sd
  | Raise _ => refused [] "" forbidden
  end.

Lemma execute_allowed_iff_witness : dns_decision.(execute_allowed) = true.
Proof.
  apply (execute_allowed_iff " reset_dns " admin api None false dns_decision);
    [reflexivity|].
  split; [done|]. split; [done|]. split; [done|]. split; [by left|].
  split; [done|]. split; [done|]. intros [].
Defined.

Definition kill_def : RemediationActionDef :=
  match get_remediation_action "kill_process" with Some d => d | None => dns_def end.

Lemma risky_action_verb_witness :
  exists sd applied,
    evaluate_route_decision (Some "kill_process") "viewer" api [] None = Ok (alert, sd, applied) /\
    sd.(execute_allowed) = false.
Proof.
  apply (risky_action_verb "kill_process" "viewer" viewer api [] None kill_def);
    [discriminate|reflexivity|reflexivity|by right].
Defined.

Lemma alias_bypasses_forbidden_list_witness :
  (evaluate_action "reset_winsock" api (Some (forbid "winsock_reset" DEFAULT_POLICY))).(allowed) = true /\
  (evaluate_action "winsock_reset" api (Some (forbid "winsock_reset" DEFAULT_POLICY))).(allowed) = false.
Proof.
  apply (alias_bypasses_forbidden_list "reset_winsock" api DEFAULT_POLICY);
    [discriminate|reflexivity].
Defined.

Definition key_principal : DemoPrincipal :=
  {| operator_id := "api-key-client"; role := admin |}.

Lemma live_execution_principal_witness :
  key_principal.(role) = admin /\
  ((exists a k, Some "Bearer s3cret" = Some a /\ Some "s3cret" = Some k /\
      PyStr.strip (String.substring 7 (String.length a - 7) a) = k /\
      key_principal.(operator_id) = "api-key-client") \/
   exists h, None = Some h /\ PyStr.lower (PyStr.strip h) = "admin").
Proof.
  apply (live_execution_principal None None (Some "Bearer s3cret") (Some "s3cret") None None
           key_principal); vm_compute; reflexivity.
Defined.
End PolicyGateWitness.
