(* ===== verification/RemediationRoutes.v ===== *)
(** * Preview and execution of a remediation

    [build_preview] of [platform_core/policy/classic.py], the script allowlist of
    [platform_core/remediation.py] and the two handlers of
    [backend/platform_routes.py] that stage a preview and execute it.  A handler
    is a state transformer over the JSONL stores that may raise an
    [HTTPException] after it has written: the store is threaded through both
    outcomes.  Random identifiers, the platform, the demo switch, the files on
    disk and the outcome of the subprocess come from the environment of the
    request; the output of the subprocess is given redacted and capped. *)

From S2P Require Import Prelude PyValue Rollback PolicyGate.
From Stdlib Require Import Ascii String SpecFloat.
From stdpp Require Import strings.

Open Scope string_scope.
Open Scope Z_scope.
Open Scope py_scope.

(** ** Rows *)

Record FailureEvent := {
  fe_event_id : string; fe_endpoint_id : string; fe_summary : string; fe_confidence : F64.t;
}.

Record RollbackPreviewFields := {
  rp_id : pyval; rp_snapshot : pyval; rp_mutation : pyval; rp_token_required : bool;
  rp_reversible : pyval; rp_steps : pyval; rp_confirmation : pyval; rp_dry_run : bool;
  rp_limitations : pyval;
}.

Record RemediationPreview := {
  preview_id : string;
  pv_endpoint_id : string;
  pv_failure_event_id : string;
  proposed_action : string;
  pv_risk_level : RiskName;
  rationale : string;
  commands_preview : list string;
  pv_rollback_plan : string;
  rollback_preview : option RollbackPreviewFields;
  requires_typed_confirmation : bool;
  pv_confirmation_phrase : string;
  allowed_by_policy : bool;
  policy_reason : string;
}.

Inductive exec_result := success | failure | blocked | dry_run_result.

#[export] Instance exec_result_eq_dec : EqDecision exec_result.
Proof. solve_decision. Defined.

Record RemediationExecution := {
  execution_id : string; ex_preview_id : string; ex_endpoint_id : string; ex_action : string;
  confirmed_by : string; ex_result : exec_result; stdout_redacted : string;
  stderr_redacted : string;
}.

(** Rows of [audit.jsonl]: operator rows and product-contract rows. *)
Inductive audit_row :=
| AuditRow (actor action target_type target_id decision why : string)
| ContractRow (event_id endpoint_id event_kind summary : string) (hypothesis : list string)
    (confidence : F64.t) (evidence_level policy_decision actor replay_ref : string).

(** A subprocess that was started: the script, for whom and with which phrase. *)
Record spawn := { sp_script : string; sp_principal : DemoPrincipal; sp_phrase : string;
                  sp_action : string }.

(** One counter update of the metrics pipeline. *)
Record metrics_call := { mc_endpoint : string; mc_hypothesis : string; mc_confidence : F64.t;
                         mc_outcome : string; mc_proxy_change : bool }.

Record platform_store := {
  failure_events : list FailureEvent;
  previews : list RemediationPreview;
  executions : list RemediationExecution;
  audit : list audit_row;
  metrics : list metrics_call;
  spawned : list spawn;
}.

(** ** Handlers *)

(** A handler keeps its writes when it raises. *)
Definition handler (A : Type) : Type := platform_store -> result A * platform_store.

Definition h_ret {A} (a : A) : handler A := fun st => (Ok a, st).
Definition h_raise {A} (e : pyexc) : handler A := fun st => (Raise e, st).
Definition h_bind {A B} (m : handler A) (f : A -> handler B) : handler B :=
  fun st => match m st with
            | (Ok a, st') => f a st'
            | (Raise e, st') => (Raise e, st')
            end.
Definition h_lift {A} (r : result A) : handler A := fun st => (r, st).
Definition h_get : handler platform_store := fun st => (Ok st, st).

Notation "'let*' x ':=' m 'in' f" := (h_bind m (fun x => f))
  (at level 10, x name, m at level 99, f at level 200) : py_scope.
Notation "'do*' m ';;' f" := (h_bind m (fun _ => f))
  (at level 10, m at level 99, f at level 200) : py_scope.

Definition append_preview (p : RemediationPreview) : handler unit := fun st =>
  (Ok tt, {| failure_events := st.(failure_events); previews := (st.(previews) ++ [p])%list;
             executions := st.(executions); audit := st.(audit); metrics := st.(metrics);
             spawned := st.(spawned) |}).
Definition append_execution (e : RemediationExecution) : handler unit := fun st =>
  (Ok tt, {| failure_events := st.(failure_events); previews := st.(previews);
             executions := (st.(executions) ++ [e])%list; audit := st.(audit);
             metrics := st.(metrics); spawned := st.(spawned) |}).
Definition append_audit_row (r : audit_row) : handler unit := fun st =>
  (Ok tt, {| failure_events := st.(failure_events); previews := st.(previews);
             executions := st.(executions); audit := (st.(audit) ++ [r])%list;
             metrics := st.(metrics); spawned := st.(spawned) |}).
Definition append_metrics (m : metrics_call) : handler unit := fun st =>
  (Ok tt, {| failure_events := st.(failure_events); previews := st.(previews);
             executions := st.(executions); audit := st.(audit);
             metrics := (st.(metrics) ++ [m])%list; spawned := st.(spawned) |}).
Definition append_spawn (s : spawn) : handler unit := fun st =>
  (Ok tt, {| failure_events := st.(failure_events); previews := st.(previews);
             executions := st.(executions); audit := st.(audit); metrics := st.(metrics);
             spawned := (st.(spawned) ++ [s])%list |}).

(** [find_by_id]: the last row with the identifier. *)
Definition find_by_id {A} (id_of_row : A -> string) (id : string) (rows : list A) : option A :=
  last_opt (List.filter (fun r => String.eqb (id_of_row r) id) rows).

(** ** Environment of a request *)

(** The subprocess completes with a return code and (redacted, capped) output,
    or is killed after 120 seconds. *)
Inductive proc_outcome :=
| Completed (returncode : Z) (out err : string)
| TimedOut.

Record request_env := {
  re_uuid : string;
  re_event_id : string;
  re_draws : package_draws;
  re_snapshot_draw : draw;
  re_demo_mode : bool;
  re_windows : bool;
  re_script_file : string -> bool;
  re_run : string -> proc_outcome;
}.

Definition _EXTRA_DIAGNOSTIC_SCRIPTS : list string := ["auto_diagnose.bat"; "proxy_status.bat"].

(** The script's name when it is allowlisted and its file exists. *)
Definition allowlisted_script (env : request_env) (script_basename : string) : option string :=
  if PyStr.mem script_basename (list_script_basenames ++ _EXTRA_DIAGNOSTIC_SCRIPTS)%list
     && env.(re_script_file) script_basename
  then Some script_basename else None.

Section WithHost.
Context {H : PyHost}.

(** ** Preview *)

Definition or_text (s d : string) : string := if PyStr.is_empty s then d else s.

Definition rollback_fields (env : request_env) (fe : FailureEvent) (action : string)
    : result RollbackPreviewFields :=
  let snapshot :=
    capture_pre_change_snapshot env.(re_snapshot_draw) fe.(fe_endpoint_id) fe.(fe_event_id) []
      None None in
  let mutation := build_proposed_mutation_preview action fe.(fe_endpoint_id) true [] in
  pkg ← build_rollback_preview_package env.(re_draws) fe.(fe_endpoint_id) fe.(fe_event_id) action
    snapshot mutation true "" "" "";
  rb ← Dict.of_val (Dict.get "rollback_preview" pkg);
  ht ← Dict.of_val (Dict.get "human_approval_token" pkg);
  Ok {| rp_id := Dict.get "rollback_preview_id" pkg;
        rp_snapshot := Dict.get "pre_change_snapshot" pkg;
        rp_mutation := Dict.get "proposed_mutation_preview" pkg;
        rp_token_required := py_bool (Dict.get "required" ht);
        rp_reversible := Dict.get "reversible_action_record" pkg;
        rp_steps := Dict.get "steps" rb;
        rp_confirmation := Dict.get "required_confirmation" rb;
        rp_dry_run := py_bool (Dict.get "dry_run" rb);
        rp_limitations := Dict.get "limitations" rb |}.

Definition build_preview (env : request_env) (fe : FailureEvent) (action : string)
    (surface : Surface) (policy : option RemediationPolicy) : result RemediationPreview :=
  let pol := default DEFAULT_POLICY policy in
  match get_remediation_action action with
  | None =>
      Ok {| preview_id := env.(re_uuid); pv_endpoint_id := fe.(fe_endpoint_id);
            pv_failure_event_id := fe.(fe_event_id); proposed_action := action;
            pv_risk_level := high; rationale := or_text fe.(fe_summary) "Unknown action key.";
            commands_preview := []; pv_rollback_plan := ""; rollback_preview := None;
            requires_typed_confirmation := true; pv_confirmation_phrase := "";
            allowed_by_policy := false; policy_reason := "unknown_action" |}
  | Some defn =>
      let risk := defn.(risk_level) in
      let commands :=
        (match defn.(script_path) with
         | Some s => ["scripts\\" +:+ s +:+ "  (allowlisted)"]
         | None => []
         end ++
         (if defn.(manual_only) && negb (match defn.(script_path) with Some _ => true | None => false end)
          then ["[manual] follow FailureBlock / operator runbook; no allowlisted .bat in prototype"]
          else []))%list in
      let pd := evaluate_action action surface (Some pol) in
      let needs_confirm :=
        pol.(pol_requires_confirmation) && (bool_decide (risk = low) || bool_decide (risk = medium)) in
      rollback ←
        (if PyStr.is_empty defn.(rollback_plan) then Ok None
         else r ← rollback_fields env fe action; Ok (Some r));
      Ok {| preview_id := env.(re_uuid); pv_endpoint_id := fe.(fe_endpoint_id);
            pv_failure_event_id := fe.(fe_event_id); proposed_action := action;
            pv_risk_level := risk;
            rationale := or_text fe.(fe_summary) "See FailureBlock / event linkage.";
            commands_preview := commands; pv_rollback_plan := defn.(rollback_plan);
            rollback_preview := rollback;
            requires_typed_confirmation := needs_confirm && negb (PyStr.is_empty defn.(def_phrase));
            pv_confirmation_phrase := defn.(def_phrase);
            allowed_by_policy := pd.(allowed); policy_reason := pd.(reason) |}
  end.

Definition _decision_for_preview (allowed : bool) : string :=
  if allowed then "preview_only" else "blocked".

Record PreviewIn := { pi_failure_event_id : string; requested_action : string; pi_surface : Surface }.

Definition remediation_preview (env : request_env) (body : PreviewIn) (principal : DemoPrincipal)
    : handler RemediationPreview :=
  do* h_lift (assert_can_preview principal) ;;
  if is_shell_injection body.(requested_action) then h_raise (HTTPException 400) else
  let* st := h_get in
  match find_by_id fe_event_id body.(pi_failure_event_id) st.(failure_events) with
  | None => h_raise (HTTPException 404)
  | Some fe =>
      let* preview := h_lift (build_preview env fe body.(requested_action) body.(pi_surface) None) in
      do* append_preview preview ;;
      do* append_audit_row
        (AuditRow principal.(operator_id) "remediation_preview" "failure_event"
           body.(pi_failure_event_id)
           (if preview.(allowed_by_policy) then "allowed" else "blocked") preview.(policy_reason)) ;;
      do* append_audit_row
        (ContractRow env.(re_event_id) preview.(pv_endpoint_id) "remediation_preview"
           ("Preview requested for " ++ preview.(proposed_action))
           (if PyStr.is_empty preview.(rationale) then [] else [preview.(rationale)])
           fe.(fe_confidence) "inference" (_decision_for_preview preview.(allowed_by_policy))
           principal.(operator_id) preview.(preview_id)) ;;
      do* append_metrics
        {| mc_endpoint := preview.(pv_endpoint_id);
           mc_hypothesis := or_text preview.(rationale) preview.(proposed_action);
           mc_confidence := fe.(fe_confidence);
           mc_outcome := if preview.(allowed_by_policy) then "PREVIEW" else "BLOCK";
           mc_proxy_change := PyStr.contains "proxy" (PyStr.lower preview.(proposed_action)) |} ;;
      h_ret preview
  end.

(** ** Execute *)

Record ExecuteIn := { ei_preview_id : string; ei_confirmation_phrase : string; ei_dry_run : bool }.

Record execution_payload := {
  ep_execution : RemediationExecution; ep_allowed : bool; ep_decision : string;
  ep_reason : string; ep_required_confirmation : string; ep_audit_event_id : string;
  ep_dry_run : bool;
}.

Definition _execution_contract_payload (execution : RemediationExecution) (decision why : string)
    (ok : bool) (audit_event_id confirmation : string) : execution_payload :=
  {| ep_execution := execution; ep_allowed := ok; ep_decision := decision; ep_reason := why;
     ep_required_confirmation := confirmation; ep_audit_event_id := audit_event_id;
     ep_dry_run := bool_decide (execution.(ex_result) = dry_run_result) |}.

(** The row written by every branch that records an execution. *)
Definition execution_row (env : request_env) (body : ExecuteIn) (preview : RemediationPreview)
    (principal : DemoPrincipal) (r : exec_result) (out err : string) : RemediationExecution :=
  {| execution_id := env.(re_uuid); ex_preview_id := body.(ei_preview_id);
     ex_endpoint_id := preview.(pv_endpoint_id); ex_action := preview.(proposed_action);
     confirmed_by := principal.(operator_id); ex_result := r; stdout_redacted := out;
     stderr_redacted := err |}.

Definition contract_row (env : request_env) (body : ExecuteIn) (preview : RemediationPreview)
    (principal : DemoPrincipal) (kind summary : string) (confidence : F64.t)
    (evidence_level decision : string) : audit_row :=
  ContractRow env.(re_event_id) preview.(pv_endpoint_id) kind summary [] confidence evidence_level
    decision principal.(operator_id) body.(ei_preview_id).

(** Execution row, optional operator audit row, contract row, payload. *)
Definition record_execution (env : request_env) (body : ExecuteIn) (preview : RemediationPreview)
    (principal : DemoPrincipal) (ex : RemediationExecution) (op_row : option audit_row)
    (contract : audit_row) (decision why : string) (ok : bool) : handler execution_payload :=
  do* append_execution ex ;;
  do* match op_row with Some r => append_audit_row r | None => h_ret tt end ;;
  do* append_audit_row contract ;;
  h_ret (_execution_contract_payload ex decision why ok env.(re_event_id)
           (if preview.(requires_typed_confirmation) then preview.(pv_confirmation_phrase) else "")).

Definition conf (n d : Z) : F64.t := F64.lit n d.

(** The live run of an allowlisted script. *)
Definition execute_live (env : request_env) (body : ExecuteIn) (preview : RemediationPreview)
    (principal : DemoPrincipal) (path : string) : handler execution_payload :=
  let row := execution_row env body preview principal in
  let contract := contract_row env body preview principal in
  let record := record_execution env body preview principal in
  let op := AuditRow principal.(operator_id) in
  do* append_audit_row (op "execute_live_pending" "preview" body.(ei_preview_id)
                          "pending" ("spawn_allowlisted:" ++ path)) ;;
  do* append_spawn {| sp_script := path; sp_principal := principal;
                      sp_phrase := body.(ei_confirmation_phrase);
                      sp_action := preview.(proposed_action) |} ;;
  match env.(re_run) path with
  | Completed rc out err =>
      let ok := rc =? 0 in
      let word := if ok then "success" else "failure" in
      record (row (if ok then success else failure) out err)
        (Some (op "execute" "preview" body.(ei_preview_id) word ""))
        (contract "remediation_execute_attempt"
           (if ok then "allowlisted subprocess completed" else "allowlisted subprocess failed")
           (conf 1 1) "observation" (if ok then "allow" else "preview_only"))
        (if ok then "allow" else "preview_only") word ok
  | TimedOut =>
      record (row failure "" "timeout") None
        (contract "remediation_execute_attempt" "timeout" (conf 1 1)
           "observation" "preview_only")
        "preview_only" "timeout" false
  end.

(** After the policy gate: typed phrase, manual-only rows, dry run, platform,
    allowlist. *)
Definition execute_allowed_action (env : request_env) (body : ExecuteIn)
    (preview : RemediationPreview) (principal : DemoPrincipal) (defn : RemediationActionDef)
    : handler execution_payload :=
  let row := execution_row env body preview principal in
  let contract := contract_row env body preview principal in
  let record := record_execution env body preview principal in
  let op := AuditRow principal.(operator_id) in
  if preview.(requires_typed_confirmation)
     && negb (validate_confirmation_phrase preview.(proposed_action) body.(ei_confirmation_phrase))
  then
    do* append_audit_row (contract "remediation_blocked" "confirmation_phrase mismatch"
                            (conf 1 1) "observation" "blocked") ;;
    h_raise (HTTPException 400)
  else if negb body.(ei_dry_run) && (defn.(manual_only) || negb defn.(api_execute_allowed)) then
    let why := "manual_only_or_api_execute_disabled" in
    record (row blocked "" why) (Some (op "execute" "" "" "blocked" why))
      (contract "remediation_blocked" why (conf 95 100) "inference" "blocked")
      "blocked" why false
  else
    let dry :=
      let why := "[dry-run] no subprocess" in
      record (row dry_run_result why "") None
        (contract "remediation_execute_attempt" why (conf 9 10) "observation" "preview_only")
        "preview_only" why true in
    match body.(ei_dry_run), defn.(script_path) with
    | true, _ | false, None => dry
    | false, Some script =>
        if negb env.(re_windows) then
          let why := "execution_only_supported_on_windows" in
          record (row failure "" why) None
            (contract "remediation_execute_attempt" why (conf 1 1) "observation" "blocked")
            "blocked" why false
        else match allowlisted_script env script with
        | None =>
            do* append_audit_row (contract "remediation_blocked" "script not allowlisted"
                                    (conf 1 1) "observation" "blocked") ;;
            h_raise (HTTPException 400)
        | Some path => execute_live env body preview principal path
        end
    end.

Definition remediation_execute (env : request_env) (body : ExecuteIn) (principal : DemoPrincipal)
    : handler execution_payload :=
  do* h_lift (assert_can_execute principal body.(ei_dry_run)) ;;
  if env.(re_demo_mode) && negb body.(ei_dry_run) then h_raise (HTTPException 403) else
  let* st := h_get in
  match find_by_id preview_id body.(ei_preview_id) st.(previews) with
  | None => h_raise (HTTPException 404)
  | Some preview =>
      let action := preview.(proposed_action) in
      let contract := contract_row env body preview principal in
      match get_remediation_action action with
      | None =>
          do* append_audit_row (contract "remediation_blocked" "unknown_action" (conf 1 1)
                                  "observation" "blocked") ;;
          h_raise (HTTPException 400)
      | Some defn =>
          let pd := evaluate_action action api None in
          if negb pd.(allowed) then
            record_execution env body preview principal
              (execution_row env body preview principal blocked "" pd.(reason))
              (Some (AuditRow principal.(operator_id) "execute" "" "" "blocked" pd.(reason)))
              (contract "remediation_blocked" pd.(reason) (conf 9 10) "inference" "blocked")
              "blocked" pd.(reason) false
          else execute_allowed_action env body preview principal defn
      end
  end.
End WithHost.

(** ** What a request can do *)

Section Properties.
Context {H : PyHost}.

Ltac run_handler E :=
  unfold execute_allowed_action, execute_live, record_execution, h_bind, h_lift, h_get, h_ret, h_raise, append_execution,
    append_audit_row, append_preview, append_metrics, append_spawn in E;
  cbn beta iota zeta in E.

Lemma assert_can_execute_ok p dry :
  assert_can_execute p dry = Ok tt ->
  p.(role) = admin \/ (p.(role) = operator /\ dry = true).
Proof. destruct p as [id []], dry; cbn; try discriminate; auto. Qed.

(** What holds when a subprocess is started. *)
Record live_run (env : request_env) (body : ExecuteIn) (p : DemoPrincipal) (st : platform_store)
    (s : spawn) (preview : RemediationPreview) (d : RemediationActionDef) : Prop := {
  lr_admin : p.(role) = admin;
  lr_live : body.(ei_dry_run) = false;
  lr_demo : env.(re_demo_mode) = false;
  lr_windows : env.(re_windows) = true;
  lr_preview : find_by_id preview_id body.(ei_preview_id) st.(previews) = Some preview;
  lr_def : get_remediation_action preview.(proposed_action) = Some d;
  lr_policy : (evaluate_action preview.(proposed_action) api None).(allowed) = true;
  lr_api : d.(api_execute_allowed) = true;
  lr_script : d.(script_path) = Some s.(sp_script);
  lr_file : env.(re_script_file) s.(sp_script) = true;
  lr_phrase : preview.(requires_typed_confirmation) = true ->
    validate_confirmation_phrase preview.(proposed_action) body.(ei_confirmation_phrase) = true;
  lr_spawn : s = {| sp_script := s.(sp_script); sp_principal := p;
                    sp_phrase := body.(ei_confirmation_phrase);
                    sp_action := preview.(proposed_action) |};
}.

(** One call of the execute handler: previews are untouched, and at most one
    subprocess is started, under the conditions above. *)
Lemma execute_effect env body p st r st' :
  remediation_execute env body p st = (r, st') ->
  st'.(previews) = st.(previews) /\ st'.(failure_events) = st.(failure_events) /\
  (st'.(spawned) = st.(spawned) \/
   exists s preview d, st'.(spawned) = (st.(spawned) ++ [s])%list /\
     live_run env body p st s preview d).
Proof.
  unfold remediation_execute. intros E. run_handler E.
  destruct (assert_can_execute p _) as [[]|e] eqn:Ex; [|injection E as <- <-; auto].
  destruct (env.(re_demo_mode) && _) eqn:Ed; [injection E as <- <-; auto|].
  destruct (find_by_id _ _ _) as [preview|] eqn:Ef; [|injection E as <- <-; auto].
  destruct (get_remediation_action _) as [d|] eqn:Eg; [|injection E as <- <-; auto].
  destruct (negb (allowed _)) eqn:Ea; [injection E as <- <-; auto|].
  destruct (requires_typed_confirmation preview && _) eqn:Ec; [injection E as <- <-; auto|].
  destruct (negb (ei_dry_run body) && _) eqn:Em; [injection E as <- <-; auto|].
  destruct (ei_dry_run body) eqn:Edry; [injection E as <- <-; auto|].
  destruct (script_path d) as [script|] eqn:Es; [|injection E as <- <-; auto].
  destruct (negb (re_windows env)) eqn:Ew; [injection E as <- <-; auto|].
  destruct (allowlisted_script env script) as [path|] eqn:El; [|injection E as <- <-; auto].
  assert (path = script /\ env.(re_script_file) script = true) as [-> Hfile].
  { revert El. unfold allowlisted_script.
    destruct (PyStr.mem script _ && _) eqn:Eal; [|done]. intros El. injection El as <-.
    split; [done|]. by apply andb_true_iff in Eal as [_ ?]. }
  set (s := {| sp_script := script; sp_principal := p;
               sp_phrase := ei_confirmation_phrase body;
               sp_action := proposed_action preview |}) in *.
  assert (previews st' = previews st /\ failure_events st' = failure_events st /\
          spawned st' = (spawned st ++ [s])%list) as (Hp & Hfe & Hs).
  { destruct (re_run env script); injection E as <- <-; auto. }
  split; [done|]. split; [done|]. right. exists s, preview, d. split; [done|].
  cbn [negb andb] in Em. bool_facts. constructor; cbn [s sp_script]; try done.
  - apply assert_can_execute_ok in Ex as [?|[_ ?]]; [done|congruence].
  - rewrite andb_true_r in Ed. done.
  - intros Hreq. rewrite Hreq in Ec. cbn in Ec. by bool_facts.
Qed.

Lemma preview_effect env body p st r st' :
  remediation_preview env body p st = (r, st') ->
  st'.(spawned) = st.(spawned) /\ st'.(executions) = st.(executions) /\
  st'.(failure_events) = st.(failure_events) /\
  (st'.(previews) = st.(previews) \/
   exists fe pv, build_preview env fe body.(requested_action) body.(pi_surface) None = Ok pv /\
     st'.(previews) = (st.(previews) ++ [pv])%list).
Proof.
  unfold remediation_preview. intros E. run_handler E.
  destruct (assert_can_preview p) as [[]|e]; [|injection E as <- <-; auto].
  destruct (is_shell_injection _); [injection E as <- <-; auto|].
  destruct (find_by_id _ _ _) as [fe|]; [|injection E as <- <-; auto].
  destruct (build_preview _ _ _ _ _) as [pv|e] eqn:Eb; [|injection E as <- <-; auto].
  injection E as <- <-. split; [done|]. split; [done|]. split; [done|].
  right. by exists fe, pv.
Qed.

(** ** Invariant of the stores *)

(** A preview of an action the API may run asks for the typed phrase. *)
Definition preview_sound (pv : RemediationPreview) : Prop :=
  forall d, get_remediation_action pv.(proposed_action) = Some d ->
    d.(api_execute_allowed) = true -> pv.(requires_typed_confirmation) = true.

(** A started subprocess ran one of the two reset scripts, for an admin who had
    typed the phrase of that action. *)
Definition spawn_ok (s : spawn) : Prop :=
  s.(sp_principal).(role) = admin /\
  ((s.(sp_script) = "reset_dns.bat" /\ canonical_action_name s.(sp_action) = "reset_dns" /\
    PyStr.strip s.(sp_phrase) = "RUN_DNS_RESET") \/
   (s.(sp_script) = "reset_proxy.bat" /\ canonical_action_name s.(sp_action) = "reset_proxy" /\
    PyStr.strip s.(sp_phrase) = "RUN_PROXY_RESET")).

Definition store_inv (st : platform_store) : Prop :=
  Forall preview_sound st.(previews) /\ Forall spawn_ok st.(spawned).

(** The rows of the actions the API may run. *)
Lemma api_rows name d :
  get_remediation_action name = Some d -> d.(api_execute_allowed) = true ->
  d.(risk_level) = medium /\
  ((d.(script_path) = Some "reset_dns.bat" /\ canonical_action_name name = "reset_dns" /\
    d.(def_phrase) = "RUN_DNS_RESET") \/
   (d.(script_path) = Some "reset_proxy.bat" /\ canonical_action_name name = "reset_proxy" /\
    d.(def_phrase) = "RUN_PROXY_RESET")).
Proof.
  unfold get_remediation_action. intros Hin%assoc_In. revert Hin.
  generalize (canonical_action_name name). intros k Hin Ha. cbn in Hin.
  repeat (destruct Hin as [Hin|Hin];
    [injection Hin as <- <-; first [discriminate Ha|split; [done|]; (by left) || (by right)]|]).
  done.
Qed.

Lemma build_preview_sound env fe action surface pv :
  build_preview env fe action surface None = Ok pv -> preview_sound pv.
Proof.
  unfold build_preview. cbn zeta. cbn [default].
  destruct (get_remediation_action action) as [d|] eqn:Ed; intros E.
  - apply bind_Ok in E as (rb & _ & E). injection E as <-. intros d' Hd' Ha. cbn in *.
    assert (d' = d) as -> by congruence.
    destruct (api_rows _ _ Ed Ha) as [-> [(_ & _ & ->)|(_ & _ & ->)]]; done.
  - injection E as <-. by intros d' Hd'.
Qed.

Lemma find_by_id_In {A} (f : A -> string) id l a : find_by_id f id l = Some a -> In a l.
Proof. unfold find_by_id. by intros [? _]%last_opt_In%filter_In. Qed.

Lemma live_run_ok env body p st s preview d :
  live_run env body p st s preview d -> Forall preview_sound st.(previews) -> spawn_ok s.
Proof.
  intros [Ha _ _ _ Hp Hd _ Hapi Hs _ Hph Hsp] Hinv.
  apply List.Forall_forall with (x := preview) in Hinv; [|by apply find_by_id_In in Hp].
  specialize (Hph (Hinv d Hd Hapi)). unfold validate_confirmation_phrase, PolicyGate.require_typed_confirmation in Hph.
  rewrite Hd in Hph. unfold spawn_ok. rewrite Hsp. cbn. split; [done|].
  destruct (api_rows _ _ Hd Hapi) as [_ [(Hsc & Hk & Hphrase)|(Hsc & Hk & Hphrase)]];
    rewrite Hphrase in Hph; apply String.eqb_eq in Hph; [left|right];
    (split; [congruence|]); by split.
Qed.

(** ** Any sequence of requests *)

Inductive request :=
| RPreview (env : request_env) (body : PreviewIn) (p : DemoPrincipal)
| RExecute (env : request_env) (body : ExecuteIn) (p : DemoPrincipal).

(** The store after a request, whether it returned or raised. *)
Definition serve (rq : request) (st : platform_store) : platform_store :=
  match rq with
  | RPreview env body p => (remediation_preview env body p st).2
  | RExecute env body p => (remediation_execute env body p st).2
  end.

Inductive reachable (st0 : platform_store) : platform_store -> Prop :=
| reach_init : reachable st0 st0
| reach_step st rq : reachable st0 st -> reachable st0 (serve rq st).

Lemma serve_inv rq st : store_inv st -> store_inv (serve rq st).
Proof.
  intros [Hp Hs]. destruct rq as [env body p|env body p]; cbn [serve].
  - destruct (remediation_preview env body p st) as [r st'] eqn:E.
    apply preview_effect in E as (Hsp & _ & _ & Hpv). change (store_inv st').
    split; [|by rewrite Hsp].
    destruct Hpv as [->|(fe & pv & Hb & ->)]; [done|].
    apply Forall_app. split; [done|]. constructor; [|done]. by eapply build_preview_sound.
  - destruct (remediation_execute env body p st) as [r st'] eqn:E.
    apply execute_effect in E as (Hpv & _ & Hsp). change (store_inv st').
    split; [by rewrite Hpv|].
    destruct Hsp as [->|(s & preview & d & -> & Hl)]; [done|].
    apply Forall_app. split; [done|]. constructor; [|done]. by eapply live_run_ok.
Qed.

(** C2: in every state reached from a store without previews by any sequence
    of preview and execute requests, with any roles, bodies and environments,
    each subprocess that was ever started ran one of the two allowlisted reset
    scripts, for an admin, and with the typed confirmation phrase of exactly
    that action. *)
Theorem every_spawn_authorised st0 st :
  st0.(previews) = [] -> st0.(spawned) = [] -> reachable st0 st ->
  Forall spawn_ok st.(spawned).
Proof.
  intros Hp Hs Hr. enough (store_inv st) as [_ ?] by done.
  induction Hr as [|st rq _ IH].
  - split; [rewrite Hp|rewrite Hs]; constructor.
  - by apply serve_inv.
Qed.

(** A branch that records its execution: one execution row, some audit rows. *)
Ltac trace_row E :=
  injection E as <- <-; cbn [executions audit spawned ep_execution _execution_contract_payload];
  split; [done|]; rewrite <- ?app_assoc; split; [eexists; split; [reflexivity|done]|].

(** The execute handler leaves a trace: a call that returns appends exactly
    one execution row and at least one audit row; one that raises appends no
    execution row; and a call that starts a subprocess writes the pending row
    before it, and its result is a success or a failure. *)
Theorem execute_traced env body p st r st' :
  remediation_execute env body p st = (r, st') ->
  match r with
  | Ok payload =>
      st'.(executions) = (st.(executions) ++ [payload.(ep_execution)])%list /\
      (exists rows, st'.(audit) = (st.(audit) ++ rows)%list /\ rows <> []) /\
      (st'.(spawned) <> st.(spawned) ->
         (payload.(ep_execution).(ex_result) = success \/
          payload.(ep_execution).(ex_result) = failure) /\
         exists path rows, st'.(audit) = (st.(audit) ++
           AuditRow p.(operator_id) "execute_live_pending" "preview" body.(ei_preview_id)
             "pending" ("spawn_allowlisted:" ++ path) :: rows)%list)
  | Raise _ => st'.(executions) = st.(executions) /\ st'.(spawned) = st.(spawned)
  end.
Proof.
  unfold remediation_execute. intros E. run_handler E.
  destruct (assert_can_execute p _) as [[]|e]; [|injection E as <- <-; done].
  destruct (env.(re_demo_mode) && _); [injection E as <- <-; done|].
  destruct (find_by_id _ _ _) as [preview|]; [|injection E as <- <-; done].
  destruct (get_remediation_action _) as [d|]; [|injection E as <- <-; done].
  destruct (negb (allowed _)); [by trace_row E|].
  destruct (requires_typed_confirmation preview && _); [injection E as <- <-; done|].
  destruct (negb (ei_dry_run body) && _); [by trace_row E|].
  destruct (ei_dry_run body); [by trace_row E|].
  destruct (script_path d) as [script|]; [|by trace_row E].
  destruct (negb (re_windows env)); [by trace_row E|].
  destruct (allowlisted_script env script) as [path|]; [|injection E as <- <-; done].
  destruct (re_run env path) as [rc out err|]; trace_row E; intros _;
    (split; [cbn; try destruct (rc =? 0); auto|]); do 2 eexists; reflexivity.
Qed.
End Properties.

(** ** Concrete instances *)
Module RemediationRoutesWitness.
#[local] Instance host : PyHost := DemoHost.demo_host.

Definition dr : draw := {| hex := "0123456789abcdef"; at_utc := "2026-01-01T00:00:00Z" |}.
Definition env (id : string) : request_env :=
  {| re_uuid := id; re_event_id := "ev-" ++ id;
     re_draws := {| pd_token := "cafe"; pd_reversible := dr; pd_preview := dr; pd_audit := dr |};
     re_snapshot_draw := dr; re_demo_mode := false; re_windows := true;
     re_script_file := fun _ => true; re_run := fun _ => Completed 0 "done" "" |}.
Definition boss : DemoPrincipal := {| operator_id := "alice"; role := admin |}.

Definition store0 : platform_store :=
  {| failure_events := [{| fe_event_id := "f1"; fe_endpoint_id := "e1"; fe_summary := "dns broken";
                           fe_confidence := F64.lit 7 10 |}];
     previews := []; executions := []; audit := []; metrics := []; spawned := [] |}.
Definition ask : request :=
  RPreview (env "p1")
    {| pi_failure_event_id := "f1"; requested_action := "reset_dns"; pi_surface := api |} boss.
Definition body : ExecuteIn :=
  {| ei_preview_id := "p1"; ei_confirmation_phrase := " RUN_DNS_RESET "; ei_dry_run := false |}.
Definition store2 : platform_store := serve (RExecute (env "x1") body boss) (serve ask store0).

Lemma every_spawn_authorised_witness :
  length store2.(spawned) = 1%nat /\ Forall spawn_ok store2.(spawned).
Proof.
  split; [vm_compute; reflexivity|].
  apply (every_spawn_authorised store0 store2); [reflexivity|reflexivity|].
  apply reach_step, reach_step, reach_init.
Defined.

Definition outcome : result execution_payload * platform_store :=
  remediation_execute (env "x1") body boss (serve ask store0).

Lemma execute_traced_witness :
  outcome.2.(spawned) <> (serve ask store0).(spawned) /\
  match outcome.1 with
  | Ok payload => length outcome.2.(executions) = 1%nat
  | Raise _ => False
  end.
Proof.
  split; [vm_compute; discriminate|].
  pose proof (execute_traced (env "x1") body boss (serve ask store0) outcome.1 outcome.2
                ltac:(vm_compute; reflexivity)) as E.
  destruct outcome.1 as [payload|e] eqn:Eo; [|vm_compute in Eo; discriminate].
  destruct E as [-> _]. vm_compute. reflexivity.
Defined.
End RemediationRoutesWitness.
