(* ===== verification/Delivery.v ===== *)
(** * Delivery contracts: idempotency, bounded retries, dead letters

    [windows_network_toolkit/distributed_delivery.py]: the idempotency ledger, the
    bounded queue and [DeliveryProcessor.process].  The side effect is a parameter
    of each call: it completes, fails permanently, fails transiently, or raises
    something the processor does not catch. *)

From S2P Require Import Prelude PyValue.
From Stdlib Require Import String.
From stdpp Require Import strings gmap.

Open Scope string_scope.
Open Scope Z_scope.

Inductive DeliveryDisposition := ACK | RETRY | DEAD_LETTER | DUPLICATE | BACKPRESSURE.

#[export] Instance DeliveryDisposition_eq_dec : EqDecision DeliveryDisposition.
Proof. solve_decision. Defined.

Section Delivery.
Context {T : Type}.

Record DeliveryEnvelope := {
  event_id : string;
  idempotency_key : string;
  env_payload : T;
  attempt : Z;
}.

Definition next_attempt (self : DeliveryEnvelope) : DeliveryEnvelope :=
  {| event_id := self.(event_id); idempotency_key := self.(idempotency_key);
     env_payload := self.(env_payload); attempt := self.(attempt) + 1 |}.

(** ** Components *)

Record RetryPolicy := { max_attempts : Z }.

Definition RetryPolicy_init (max_attempts : Z) : result RetryPolicy :=
  if max_attempts <? 1 then Raise ValueError else Ok {| max_attempts := max_attempts |}.

Record IdempotencyLedger := { completed_keys : gset string }.

Definition is_completed (self : IdempotencyLedger) (key : string) : bool :=
  bool_decide (key ∈ self.(completed_keys)).

Definition mark_completed (self : IdempotencyLedger) (key : string) : IdempotencyLedger :=
  {| completed_keys := {[key]} ∪ self.(completed_keys) |}.

Record BoundedDeliveryQueue := { capacity : Z; _items : list DeliveryEnvelope }.

Definition BoundedDeliveryQueue_init (capacity : Z) : result BoundedDeliveryQueue :=
  if capacity <? 1 then Raise ValueError else Ok {| capacity := capacity; _items := [] |}.

Definition depth (q : BoundedDeliveryQueue) : Z := Z.of_nat (length q.(_items)).

Definition utilization (q : BoundedDeliveryQueue) : F64.t := F64.int_div (depth q) q.(capacity).

Definition try_put (item : DeliveryEnvelope) (q : BoundedDeliveryQueue)
    : DeliveryDisposition * BoundedDeliveryQueue :=
  if q.(capacity) <=? depth q then (BACKPRESSURE, q)
  else (ACK, {| capacity := q.(capacity); _items := (q.(_items) ++ [item])%list |}).

Definition queue_get (q : BoundedDeliveryQueue) : option DeliveryEnvelope * BoundedDeliveryQueue :=
  match q.(_items) with
  | [] => (None, q)
  | item :: rest => (Some item, {| capacity := q.(capacity); _items := rest |})
  end.

(** ** The processor *)

Inductive effect_outcome :=
| Done
| PermanentDeliveryError (msg : string)
| TransientDeliveryError (msg : string)
| OtherError (e : pyexc).

Record DeliveryOutcome := {
  disposition : DeliveryDisposition;
  out_envelope : DeliveryEnvelope;
  error : option string;
}.

Record DeliveryProcessor := {
  retry_policy : RetryPolicy;
  ledger : IdempotencyLedger;
  retry_queue : BoundedDeliveryQueue;
  dead_letter_queue : list DeliveryEnvelope;
}.

(** Result, state after the call, and whether the side effect was called. *)
Record process_result := {
  pr_outcome : result DeliveryOutcome;
  pr_state : DeliveryProcessor;
  pr_called : bool;
}.

Definition dead_letter (self : DeliveryProcessor) (envelope : DeliveryEnvelope) (msg : string)
    : process_result :=
  {| pr_outcome := Ok {| disposition := DEAD_LETTER; out_envelope := envelope; error := Some msg |};
     pr_state := {| retry_policy := self.(retry_policy); ledger := self.(ledger);
                    retry_queue := self.(retry_queue);
                    dead_letter_queue := (self.(dead_letter_queue) ++ [envelope])%list |};
     pr_called := true |}.

Definition process (self : DeliveryProcessor) (envelope : DeliveryEnvelope)
    (side_effect : T -> effect_outcome) : process_result :=
  if is_completed self.(ledger) envelope.(idempotency_key) then
    {| pr_outcome := Ok {| disposition := DUPLICATE; out_envelope := envelope; error := None |};
       pr_state := self; pr_called := false |}
  else
    match side_effect envelope.(env_payload) with
    | PermanentDeliveryError msg => dead_letter self envelope msg
    | TransientDeliveryError msg =>
        if self.(retry_policy).(max_attempts) <=? envelope.(attempt)
        then dead_letter self envelope msg
        else
          let retry_envelope := next_attempt envelope in
          let '(queued, queue) := try_put retry_envelope self.(retry_queue) in
          let st := {| retry_policy := self.(retry_policy); ledger := self.(ledger);
                       retry_queue := queue; dead_letter_queue := self.(dead_letter_queue) |} in
          let out :=
            match queued with
            | BACKPRESSURE =>
                {| disposition := BACKPRESSURE; out_envelope := envelope; error := Some msg |}
            | _ => {| disposition := RETRY; out_envelope := retry_envelope; error := Some msg |}
            end in
          {| pr_outcome := Ok out; pr_state := st; pr_called := true |}
    | OtherError e => {| pr_outcome := Raise e; pr_state := self; pr_called := true |}
    | Done =>
        {| pr_outcome := Ok {| disposition := ACK; out_envelope := envelope; error := None |};
           pr_state := {| retry_policy := self.(retry_policy);
                          ledger := mark_completed self.(ledger) envelope.(idempotency_key);
                          retry_queue := self.(retry_queue);
                          dead_letter_queue := self.(dead_letter_queue) |};
           pr_called := true |}
    end.

(** ** A consumer: deliveries and retries in any order *)

Inductive step_kind :=
| Deliver (e : DeliveryEnvelope) (f : T -> effect_outcome)
| Redeliver (f : T -> effect_outcome).

(** What one step did: the envelope it processed and the result, if any. *)
Definition consumer_step (self : DeliveryProcessor) (s : step_kind)
    : option (DeliveryEnvelope * process_result) * DeliveryProcessor :=
  match s with
  | Deliver e f => let r := process self e f in (Some (e, r), r.(pr_state))
  | Redeliver f =>
      match queue_get self.(retry_queue) with
      | (None, _) => (None, self)
      | (Some e, q) =>
          let self' := {| retry_policy := self.(retry_policy); ledger := self.(ledger);
                          retry_queue := q; dead_letter_queue := self.(dead_letter_queue) |} in
          let r := process self' e f in (Some (e, r), r.(pr_state))
      end
  end.

Fixpoint run (self : DeliveryProcessor) (steps : list step_kind)
    : list (DeliveryEnvelope * process_result) * DeliveryProcessor :=
  match steps with
  | [] => ([], self)
  | s :: rest =>
      let '(o, self1) := consumer_step self s in
      let '(trace, self2) := run self1 rest in
      (match o with Some x => x :: trace | None => trace end, self2)
  end.

(** ** Properties *)

Definition acked (x : DeliveryEnvelope * process_result) : bool :=
  match x.2.(pr_outcome) with
  | Ok o => bool_decide (o.(disposition) = ACK)
  | Raise _ => false
  end.

(** The side effect of this delivery completed: it was called and returned. *)
Definition completions (key : string) (trace : list (DeliveryEnvelope * process_result)) : nat :=
  length (List.filter (fun x => acked x && String.eqb x.1.(idempotency_key) key) trace).

Lemma process_keys self e f k :
  let r := process self e f in
  k ∈ r.(pr_state).(ledger).(completed_keys) <->
  k ∈ self.(ledger).(completed_keys) \/ (acked (e, r) = true /\ e.(idempotency_key) = k).
Proof.
  cbn zeta. unfold process, acked, is_completed, dead_letter. cbn [snd fst].
  case_bool_decide as Hk; cbn; [intuition (congruence || discriminate)|].
  destruct (f (env_payload e)); cbn.
  - rewrite elem_of_union, elem_of_singleton. rewrite bool_decide_eq_true_2 by done. intuition congruence.
  - intuition (congruence || discriminate).
  - destruct (_ <=? _); cbn; [intuition (congruence || discriminate)|].
    unfold try_put. destruct (_ <=? _); cbn; intuition (congruence || discriminate).
  - intuition (congruence || discriminate).
Qed.

(** A completed key is never called or acknowledged again. *)
Lemma process_completed self e f :
  e.(idempotency_key) ∈ self.(ledger).(completed_keys) ->
  process self e f =
    {| pr_outcome := Ok {| disposition := DUPLICATE; out_envelope := e; error := None |};
       pr_state := self; pr_called := false |}.
Proof. intros Hk. unfold process, is_completed. by rewrite bool_decide_eq_true_2. Qed.

Lemma consumer_step_inv self s o self' :
  consumer_step self s = (o, self') ->
  (o = None /\ self' = self) \/
  exists e f self0, o = Some (e, process self0 e f) /\ self' = (process self0 e f).(pr_state) /\
    self0.(ledger) = self.(ledger).
Proof.
  destruct s as [e f|f]; cbn.
  - intros E. injection E as <- <-. right. by exists e, f, self.
  - unfold queue_get. destruct (_items (retry_queue self)) as [|e rest].
    + intros E. injection E as <- <-. by left.
    + intros E. injection E as <- <-. right. eexists e, f, _. split; [reflexivity|]. done.
Qed.

Lemma run_completions self steps trace self' key :
  run self steps = (trace, self') ->
  (key ∈ self.(ledger).(completed_keys) -> completions key trace = 0%nat) /\
  (completions key trace <= 1)%nat /\
  (key ∈ self'.(ledger).(completed_keys) <->
     key ∈ self.(ledger).(completed_keys) \/ completions key trace = 1%nat).
Proof.
  revert self trace. induction steps as [|s steps IH]; intros self trace; cbn [run].
  - intros E. injection E as <- <-. cbn. intuition lia.
  - destruct (consumer_step self s) as [o self1] eqn:Es.
    destruct (run self1 steps) as [tr self2] eqn:Er. intros E. injection E as <- <-.
    specialize (IH _ _ Er). destruct IH as (IH1 & IH2 & IH3).
    apply consumer_step_inv in Es as [[-> ->]|(e & f & self0 & -> & -> & Hl)]; [done|].
    pose proof (process_keys self0 e f key) as Hk. cbn zeta in Hk. rewrite Hl in Hk.
    set (r := process self0 e f) in *. unfold completions in *. cbn [List.filter fst].
    destruct (acked (e, r)) eqn:Ea; cbn [andb].
    + destruct (String.eqb (idempotency_key e) key) eqn:Eq.
      * apply String.eqb_eq in Eq. cbn [length].
        rewrite (IH1 ltac:(apply Hk; by right)) in *.
        assert (~ key ∈ completed_keys (ledger self)) as Hn.
        { intros Hin. unfold r in Ea. rewrite process_completed in Ea; [discriminate Ea|].
          by rewrite Hl, Eq. }
        split; [done|]. split; [lia|]. rewrite IH3, Hk. intuition.
      * apply String.eqb_neq in Eq. split; [intros Hin; apply IH1, Hk; by left|].
        split; [done|]. rewrite IH3, Hk. intuition congruence.
    + split; [intros Hin; apply IH1, Hk; by left|]. split; [done|].
      rewrite IH3, Hk. intuition congruence.
Qed.

(** Whatever the arrival order, the retries and the failures, the side effect
    of an idempotency key completes at most once, and a key is in the ledger at
    the end exactly when it was there before or its side effect completed. *)
Theorem completes_at_most_once self steps trace self' key :
  run self steps = (trace, self') ->
  (completions key trace <= 1)%nat /\
  (key ∈ self'.(ledger).(completed_keys) <->
     key ∈ self.(ledger).(completed_keys) \/ completions key trace = 1%nat).
Proof. intros E. by apply run_completions with (key := key) in E as (_ & ? & ?). Qed.

(** ** Bounds *)

(** The retry queue respects its capacity and holds only envelopes that may still
    be tried. *)
Definition processor_ok (self : DeliveryProcessor) : Prop :=
  depth self.(retry_queue) <= self.(retry_queue).(capacity) /\
  Forall (fun e => e.(attempt) <= self.(retry_policy).(max_attempts)) self.(retry_queue).(_items).

(** What a call may do to the retry queue. *)
Lemma process_queue self e f :
  let r := process self e f in
  r.(pr_state).(retry_policy) = self.(retry_policy) /\
  (r.(pr_state).(retry_queue) = self.(retry_queue) \/
   (e.(attempt) < self.(retry_policy).(max_attempts) /\
    depth self.(retry_queue) < self.(retry_queue).(capacity) /\
    r.(pr_state).(retry_queue) =
      {| capacity := self.(retry_queue).(capacity);
         _items := (self.(retry_queue).(_items) ++ [next_attempt e])%list |})).
Proof.
  cbn zeta. unfold process, dead_letter. destruct (is_completed _ _); [by auto|].
  destruct (f (env_payload e)); cbn; try by auto.
  destruct (_ <=? _) eqn:Em; [by auto|]. unfold try_put.
  destruct (capacity (retry_queue self) <=? depth (retry_queue self)) eqn:Ec; cbn; [by auto|].
  split; [done|]. right. split; [lia|]. split; [lia|]. done.
Qed.

Lemma process_ok self e f : processor_ok self -> processor_ok (process self e f).(pr_state).
Proof.
  intros [Hd Ha]. destruct (process_queue self e f) as [Hp [Hq|(Hlt & Hc & Hq)]];
    unfold processor_ok; rewrite Hp, Hq; [done|].
  unfold depth in *. cbn [capacity _items]. rewrite length_app. cbn [length]. split; [lia|].
  apply Forall_app. split; [done|]. constructor; [|done]. cbn. lia.
Qed.

Lemma consumer_step_ok self s : processor_ok self -> processor_ok (consumer_step self s).2.
Proof.
  intros Hok. destruct s as [e f|f]; cbn; [by apply process_ok|].
  unfold queue_get. destruct (_items (retry_queue self)) as [|e rest] eqn:Eq; [done|].
  apply process_ok. destruct Hok as [Hd Ha]. rewrite Eq in Ha. apply Forall_cons in Ha as [_ Ha].
  split; [|done]. unfold depth in *. rewrite Eq in Hd. cbn in *. lia.
Qed.

(** From a processor within its bounds, such as a new one, no sequence of deliveries and retries ever makes
    the retry queue exceed its capacity or hold an envelope beyond the policy's
    last attempt. *)
Theorem retry_queue_bounded self steps :
  processor_ok self -> processor_ok (run self steps).2.
Proof.
  revert self. induction steps as [|s steps IH]; intros self Hok; cbn [run]; [done|].
  pose proof (consumer_step_ok self s Hok) as H1.
  destruct (consumer_step self s) as [o self1]. cbn in H1. specialize (IH self1 H1).
  by destruct (run self1 steps).
Qed.

(** ** Retrying ends *)

(** Attempts left in the retry queue. *)
Definition work (self : DeliveryProcessor) : Z :=
  foldr (fun e acc => self.(retry_policy).(max_attempts) - e.(attempt) + 1 + acc) 0
    self.(retry_queue).(_items).

Lemma work_app m (l1 l2 : list DeliveryEnvelope) :
  foldr (fun e acc => m - e.(attempt) + 1 + acc) 0 (l1 ++ l2)%list =
  foldr (fun e acc => m - e.(attempt) + 1 + acc) 0 l1 +
  foldr (fun e acc => m - e.(attempt) + 1 + acc) 0 l2.
Proof. induction l1 as [|x l1 IH]; cbn; [lia|]. rewrite IH. lia. Qed.

Lemma work_nonneg self : processor_ok self -> 0 <= work self.
Proof.
  intros [_ Ha]. unfold work. induction Ha as [|e l He _ IH]; cbn; lia.
Qed.

Lemma work_zero self : processor_ok self -> work self <= 0 -> self.(retry_queue).(_items) = [].
Proof.
  intros Hok Hw. pose proof Hok as [_ Ha]. unfold work in Hw.
  destruct (_items (retry_queue self)) as [|e l]; [done|]. exfalso. cbn in Hw.
  apply Forall_cons in Ha as [He Ha].
  assert (0 <= foldr (fun e acc => max_attempts (retry_policy self) - attempt e + 1 + acc) 0 l).
  { clear - Ha. induction Ha as [|x l Hx _ IH]; cbn; lia. }
  lia.
Qed.

(** Every redelivery spends one attempt. *)
Lemma redeliver_work self f :
  processor_ok self -> self.(retry_queue).(_items) <> [] ->
  work (consumer_step self (Redeliver f)).2 <= work self - 1.
Proof.
  intros [_ Hatt] Hne. cbn. unfold queue_get. destruct (_items (retry_queue self)) as [|e rest] eqn:Eq; [done|].
  cbn. set (self' := Build_DeliveryProcessor _ _ _ _).
  pose proof (process_queue self' e f) as Hp. cbn zeta in Hp. destruct Hp as [Hp Hq].
  unfold work. rewrite Hp, Eq. cbn [foldr retry_policy self'].
  destruct Hq as [-> | (Hlt & _ & ->)]; cbn [_items retry_queue self'] in *.
  - apply Forall_cons in Hatt as [He _]. lia.
  - rewrite work_app. cbn. lia.
Qed.

(** Retrying ends whatever the side effects do: taking as many retries as
    there are attempts left empties the retry queue. *)
Theorem retries_drain self fs :
  processor_ok self -> work self <= Z.of_nat (length fs) ->
  (run self (map Redeliver fs)).2.(retry_queue).(_items) = [].
Proof.
  revert self. induction fs as [|f fs IH]; intros self Hok Hw; cbn [map run].
  - by apply work_zero.
  - pose proof (consumer_step_ok self (Redeliver f) Hok) as Hok1.
    assert (work (consumer_step self (Redeliver f)).2 <= Z.of_nat (length fs)) as Hw1.
    { destruct (_items (retry_queue self)) as [|e rest] eqn:Eq.
      - cbn. unfold queue_get. rewrite Eq. cbn. unfold work. rewrite Eq. cbn. lia.
      - pose proof (redeliver_work self f Hok ltac:(by rewrite Eq)). cbn [length] in Hw. lia. }
    destruct (consumer_step self (Redeliver f)) as [o self1]. cbn in Hok1, Hw1.
    specialize (IH self1 Hok1 Hw1). by destruct (run self1 (map Redeliver fs)).
Qed.

(** Nothing is dropped silently.  A call that returns either acknowledges (and
    its key is now in the ledger), reports a duplicate or back-pressure and changes
    nothing, puts the next attempt at the end of the retry queue, or puts the
    envelope at the end of the dead letters, which happens only on a permanent
    failure or on the last attempt. *)
Theorem process_fate self e f o :
  (process self e f).(pr_outcome) = Ok o ->
  let st := (process self e f).(pr_state) in
  match o.(disposition) with
  | ACK =>
      f e.(env_payload) = Done /\ e.(idempotency_key) ∈ st.(ledger).(completed_keys) /\
      st.(retry_queue) = self.(retry_queue) /\ st.(dead_letter_queue) = self.(dead_letter_queue)
  | DUPLICATE => st = self /\ (process self e f).(pr_called) = false
  | BACKPRESSURE =>
      st = self /\ o.(out_envelope) = e /\
      self.(retry_queue).(capacity) <= depth self.(retry_queue)
  | RETRY =>
      o.(out_envelope) = next_attempt e /\
      st.(retry_queue).(_items) = (self.(retry_queue).(_items) ++ [next_attempt e])%list /\
      st.(ledger) = self.(ledger) /\ st.(dead_letter_queue) = self.(dead_letter_queue)
  | DEAD_LETTER =>
      st.(dead_letter_queue) = (self.(dead_letter_queue) ++ [e])%list /\
      st.(ledger) = self.(ledger) /\ st.(retry_queue) = self.(retry_queue) /\
      ((exists m, f e.(env_payload) = PermanentDeliveryError m) \/
       self.(retry_policy).(max_attempts) <= e.(attempt))
  end.
Proof.
  cbn zeta. unfold process, dead_letter. destruct (is_completed _ _).
  - intros E. injection E as <-. done.
  - destruct (f (env_payload e)) as [|m|m|x] eqn:Ef; cbn.
    + intros E. injection E as <-. cbn. split; [done|]. split; [set_solver|done].
    + intros E. injection E as <-. cbn. do 3 (split; [done|]). left. eauto.
    + destruct (max_attempts (retry_policy self) <=? attempt e) eqn:Em; cbn.
      { intros E. injection E as <-. cbn. do 3 (split; [done|]). right. lia. }
      unfold try_put. destruct (capacity (retry_queue self) <=? depth (retry_queue self)) eqn:Ec;
        cbn; intros E; injection E as <-; cbn; [|done].
      split; [by destruct self|]. split; [done|]. lia.
    + done.
Qed.
End Delivery.

(** ** Concrete instances *)
Module DeliveryWitness.
Definition envelope (id key : string) : DeliveryEnvelope :=
  {| event_id := id; idempotency_key := key; env_payload := 7; attempt := 1 |}.
Definition fresh : DeliveryProcessor (T := Z) :=
  {| retry_policy := {| max_attempts := 3 |}; ledger := {| completed_keys := ∅ |};
     retry_queue := {| capacity := 1; _items := [] |}; dead_letter_queue := [] |}.
Definition flaky (_ : Z) : effect_outcome := TransientDeliveryError "busy".
Definition fine (_ : Z) : effect_outcome := Done.

(** A retry that succeeds, then a duplicate of it. *)
Definition steps : list (step_kind (T := Z)) :=
  [Deliver (envelope "e1" "k") flaky; Redeliver fine; Deliver (envelope "e2" "k") fine].

Lemma completes_at_most_once_witness :
  completions "k" (run fresh steps).1 = 1%nat /\
  "k" ∈ (run fresh steps).2.(ledger).(completed_keys).
Proof.
  split; [vm_compute; reflexivity|].
  apply (completes_at_most_once fresh steps (fst (run fresh steps)) (snd (run fresh steps)) "k").
  - vm_compute. reflexivity.
  - right. vm_compute. reflexivity.
Defined.

Lemma fresh_ok : processor_ok fresh.
Proof. split; [vm_compute; discriminate|constructor]. Qed.

Lemma retry_queue_bounded_witness : processor_ok (run fresh steps).2.
Proof. apply (retry_queue_bounded fresh steps). apply fresh_ok. Defined.

Definition busy : DeliveryProcessor (T := Z) := (run fresh [Deliver (envelope "e1" "k") flaky]).2.

Lemma retries_drain_witness :
  busy.(retry_queue).(_items) <> [] /\
  (run busy (map Redeliver [flaky; flaky])).2.(retry_queue).(_items) = [].
Proof.
  split; [vm_compute; discriminate|].
  apply (retries_drain busy [flaky; flaky]); [|vm_compute; discriminate].
  split; [vm_compute; discriminate|]. repeat constructor. vm_compute. discriminate.
Defined.

Lemma process_fate_witness :
  busy.(retry_queue).(_items) = [next_attempt (envelope "e1" "k")].
Proof.
  apply (process_fate fresh (envelope "e1" "k") flaky
           {| disposition := RETRY; out_envelope := next_attempt (envelope "e1" "k");
              error := Some "busy" |}). reflexivity.
Defined.
End DeliveryWitness.
