(* ===== verification/OrderFlow.v ===== *)
(** * The order-flow simulator

    [order_flow_simulator/]: the table of order transitions, the simulator that
    keeps a state per order and appends one audit row per event, the scripted
    scenarios and the replay of one order from the log.  The clock readings of a
    call are arguments. *)

From S2P Require Import Prelude PyValue.
From Stdlib Require Import String SpecFloat.
From stdpp Require Import strings gmap.

Open Scope string_scope.
Open Scope Z_scope.

(** ** Model *)

Inductive OrderState :=
| NEW | ACCEPTED | PARTIALLY_FILLED | FILLED | CANCEL_PENDING | CANCELLED | REJECTED.

Inductive OrderEventType :=
| ORDER_SUBMITTED | ORDER_ACCEPTED | PARTIAL_FILL | FULL_FILL | CANCEL_REQUESTED
| CANCEL_CONFIRMED | REJECT.

#[export] Instance OrderState_eq_dec : EqDecision OrderState.
Proof. solve_decision. Defined.
#[export] Instance OrderEventType_eq_dec : EqDecision OrderEventType.
Proof. solve_decision. Defined.

Definition state_value (s : OrderState) : string :=
  match s with
  | NEW => "NEW" | ACCEPTED => "ACCEPTED" | PARTIALLY_FILLED => "PARTIALLY_FILLED"
  | FILLED => "FILLED" | CANCEL_PENDING => "CANCEL_PENDING" | CANCELLED => "CANCELLED"
  | REJECTED => "REJECTED"
  end.

Definition event_value (e : OrderEventType) : string :=
  match e with
  | ORDER_SUBMITTED => "order_submitted" | ORDER_ACCEPTED => "order_accepted"
  | PARTIAL_FILL => "partial_fill" | FULL_FILL => "full_fill"
  | CANCEL_REQUESTED => "cancel_requested" | CANCEL_CONFIRMED => "cancel_confirmed"
  | REJECT => "reject"
  end.

(** The audit row; its JSON form rounds the latency to three digits. *)
Record OrderEvent := {
  ev_type : OrderEventType;
  ev_order_id : string;
  ev_timestamp : string;
  ev_latency_ms : F64.t;
  ev_from_state : OrderState;
  ev_to_state : OrderState;
  ev_valid : bool;
  ev_detail : string;
}.

Definition to_jsonable (self : OrderEvent) : pydict :=
  ["schema_version" :-> PStr "order_flow.v1";
   "record_type" :-> PStr "order_flow_event";
   "timestamp" :-> PStr self.(ev_timestamp);
   "event_type" :-> PStr (event_value self.(ev_type));
   "order_id" :-> PStr self.(ev_order_id);
   "latency_ms" :-> PFloat (F64.round_digits 3 self.(ev_latency_ms));
   "from_state" :-> PStr (state_value self.(ev_from_state));
   "to_state" :-> PStr (state_value self.(ev_to_state));
   "valid" :-> PBool self.(ev_valid);
   "detail" :-> PStr self.(ev_detail)].

(** ** Transitions *)

Definition _EVENT_RULES (e : OrderEventType) : list OrderState * OrderState :=
  match e with
  | ORDER_SUBMITTED => ([NEW], NEW)
  | ORDER_ACCEPTED => ([NEW], ACCEPTED)
  | PARTIAL_FILL => ([ACCEPTED; PARTIALLY_FILLED], PARTIALLY_FILLED)
  | FULL_FILL => ([ACCEPTED; PARTIALLY_FILLED], FILLED)
  | CANCEL_REQUESTED => ([ACCEPTED; PARTIALLY_FILLED], CANCEL_PENDING)
  | CANCEL_CONFIRMED => ([CANCEL_PENDING], CANCELLED)
  | REJECT => ([NEW; ACCEPTED], REJECTED)
  end.

(** Every event type has a rule, so the "unknown event" branch of the source
    cannot be taken. *)
Definition apply_event (current : OrderState) (e : OrderEventType) : OrderState * bool * string :=
  let '(allowed_from, to_state) := _EVENT_RULES e in
  if existsb (fun s => bool_decide (current = s)) allowed_from then (to_state, true, "ok")
  else (current, false,
        "invalid_transition:" ++ state_value current ++ "->" ++ state_value to_state ++ " via "
        ++ event_value e).

Definition build_audit_event (order_id : string) (event_type : OrderEventType)
    (from_state to_state : OrderState) (valid : bool) (latency_ms : F64.t) (detail : string)
    (timestamp : string) : OrderEvent :=
  {| ev_type := event_type; ev_order_id := order_id; ev_timestamp := timestamp;
     ev_latency_ms := latency_ms; ev_from_state := from_state; ev_to_state := to_state;
     ev_valid := valid; ev_detail := detail |}.

(** ** The simulator *)

(** The audit log holds the rows themselves; a line of the file is the JSON text of
    their [to_jsonable].  [sim_audit_path] is the printed path of that file. *)
Record simulator := {
  sim_audit_path : string;
  _states : gmap string OrderState;
  audit_log : list OrderEvent;
}.

Definition OrderFlowSimulator_init (path : string) : simulator :=
  {| sim_audit_path := path; _states := ∅; audit_log := [] |}.

Definition _state (sim : simulator) (order_id : string) : OrderState :=
  default NEW (sim.(_states) !! order_id).

(** Two readings of the performance counter (in seconds) and the wall clock. *)
Record tick := { t0 : F64.t; t1 : F64.t; wall : string }.

Definition elapsed_ms (tk : tick) (simulated_latency_ms : F64.t) : F64.t :=
  F64.add (F64.mul (F64.sub tk.(t1) tk.(t0)) (F64.of_Z 1000)) simulated_latency_ms.

Definition sim_apply (tk : tick) (order_id : string) (e : OrderEventType)
    (simulated_latency_ms : F64.t) (sim : simulator) : OrderEvent * simulator :=
  let before := _state sim order_id in
  let '(after, valid, detail) := apply_event before e in
  let fresh :=
    match sim.(_states) !! order_id with
    | None => bool_decide (e = ORDER_SUBMITTED)
    | Some _ => false
    end in
  let states1 := if fresh then <[order_id := NEW]> sim.(_states) else sim.(_states) in
  let before := if fresh then NEW else before in
  let '(after, valid, detail) :=
    if fresh then apply_event before e else (after, valid, detail) in
  let states2 := if valid then <[order_id := after]> states1 else states1 in
  let row :=
    build_audit_event order_id e before (if valid then after else before) valid
      (elapsed_ms tk simulated_latency_ms) detail tk.(wall) in
  (row, {| sim_audit_path := sim.(sim_audit_path); _states := states2; audit_log := (sim.(audit_log) ++ [row])%list |}).

Definition SCENARIOS (name : string) : option (list OrderEventType) :=
  if String.eqb name "happy_path"
  then Some [ORDER_SUBMITTED; ORDER_ACCEPTED; PARTIAL_FILL; FULL_FILL]
  else if String.eqb name "cancel_path"
  then Some [ORDER_SUBMITTED; ORDER_ACCEPTED; CANCEL_REQUESTED; CANCEL_CONFIRMED]
  else if String.eqb name "invalid_cancel"
  then Some [ORDER_SUBMITTED; ORDER_ACCEPTED; FULL_FILL; CANCEL_REQUESTED]
  else if String.eqb name "reject_early"
  then Some [ORDER_SUBMITTED; REJECT]
  else None.

Record SimulationResult := {
  scenario : string;
  sr_order_id : string;
  final_state : OrderState;
  sr_events : list OrderEvent;
  invalid_transition_count : Z;
  processing_latency_ms_total : F64.t;
  audit_path : string;
}.

Definition result_to_jsonable (self : SimulationResult) : pydict :=
  ["scenario" :-> PStr self.(scenario);
   "order_id" :-> PStr self.(sr_order_id);
   "final_state" :-> PStr (state_value self.(final_state));
   "invalid_transition_count" :-> PInt self.(invalid_transition_count);
   "processing_latency_ms_total" :-> PFloat (F64.round_digits 3 self.(processing_latency_ms_total));
   "audit_path" :-> PStr self.(audit_path);
   "events" :-> PList (map (fun e => PDict (to_jsonable e)) self.(sr_events))].

(** The loop of [run_scenario]; [clock i] gives the readings of event [i].  The
    running total adds the rounded latency of each row. *)
Fixpoint run_script (clock : nat -> tick) (i : nat) (oid : string) (script : list OrderEventType)
    (events : list OrderEvent) (invalid : Z) (total : F64.t) (sim : simulator)
    : list OrderEvent * Z * F64.t * simulator :=
  match script with
  | [] => (events, invalid, total, sim)
  | e :: rest =>
      let '(row, sim') := sim_apply (clock i) oid e (F64.lit 5 100) sim in
      let latency := F64.round_digits 3 row.(ev_latency_ms) in
      run_script clock (S i) oid rest (events ++ [row])%list
        (if row.(ev_valid) then invalid else invalid + 1)
        (F64.add total (if F64.truth latency then latency else F64.zero)) sim'
  end.

Definition run_scenario (clock : nat -> tick) (name : string) (order_id : option string)
    (sim : simulator) : result (SimulationResult * simulator) :=
  match SCENARIOS name with
  | None => Raise ValueError
  | Some script =>
      let oid :=
        match order_id with
        | Some s => if PyStr.is_empty s then "ORD-" ++ name else s
        | None => "ORD-" ++ name
        end in
      let sim1 := {| sim_audit_path := sim.(sim_audit_path);
                     _states := <[oid := NEW]> sim.(_states); audit_log := sim.(audit_log) |} in
      let '(events, invalid, total, sim2) :=
        run_script clock 0 oid script [] 0 F64.zero sim1 in
      Ok ({| scenario := name; sr_order_id := oid; final_state := _state sim2 oid;
             sr_events := events; invalid_transition_count := invalid;
             processing_latency_ms_total := total;
             audit_path := sim2.(sim_audit_path) |}, sim2)
  end.

Definition replay_order (sim : simulator) (order_id : string) : list OrderEvent :=
  List.filter (fun r => String.eqb r.(ev_order_id) order_id) sim.(audit_log).

(** ** The life of an order *)

Definition terminal (s : OrderState) : bool :=
  match s with FILLED | CANCELLED | REJECTED => true | _ => false end.

(** Two steps of the table never leave the order of the life cycle. *)
Definition rank (s : OrderState) : Z :=
  match s with
  | NEW => 0 | ACCEPTED => 1 | PARTIALLY_FILLED => 2 | CANCEL_PENDING => 3
  | FILLED | CANCELLED | REJECTED => 4
  end.

(** The transition table is a life cycle: a valid event never moves an order
    backwards and moves it strictly forwards except for a repeated submission or a
    repeated partial fill; an order in a terminal state refuses every event; and a
    refused event leaves the state unchanged. *)
Theorem apply_event_lifecycle s e s' valid detail :
  apply_event s e = (s', valid, detail) ->
  (valid = true ->
     rank s <= rank s' /\ terminal s = false /\ s' = (_EVENT_RULES e).2 /\
     (rank s = rank s' -> s' = s /\ (e = ORDER_SUBMITTED \/ e = PARTIAL_FILL))) /\
  (valid = false -> s' = s) /\ (terminal s = true -> valid = false).
Proof.
  destruct s, e; cbn; intros E; injection E as <- <- <-;
    (split; [intros Hv; try discriminate Hv; cbn; repeat split; auto; lia|]);
    split; done.
Qed.

(** ** The log determines the states *)

(** Replaying rows: the state after the last valid one. *)
Definition replay_state (rows : list OrderEvent) : OrderState :=
  foldl (fun s r => if r.(ev_valid) then r.(ev_to_state) else s) NEW rows.

(** Rows follow each other: each starts in the state the previous ones lead to,
    and is what the table says of its event. *)
Fixpoint continuous (s : OrderState) (rows : list OrderEvent) : Prop :=
  match rows with
  | [] => True
  | r :: rest =>
      r.(ev_from_state) = s /\
      apply_event s r.(ev_type) = (r.(ev_to_state), r.(ev_valid), r.(ev_detail)) /\
      continuous r.(ev_to_state) rest
  end.

Lemma continuous_app s rows r :
  continuous s (rows ++ [r]) <->
  continuous s rows /\ continuous (foldl (fun _ x => x.(ev_to_state)) s rows) [r].
Proof.
  revert s. induction rows as [|x rows IH]; intros s; cbn [app continuous foldl]; [tauto|].
  rewrite IH. cbn [continuous]. tauto.
Qed.

Definition log_consistent (sim : simulator) : Prop :=
  forall id, _state sim id = replay_state (replay_order sim id) /\
    continuous NEW (replay_order sim id) /\
    foldl (fun _ x => x.(ev_to_state)) NEW (replay_order sim id) = _state sim id.

Lemma apply_event_invalid s e s' d : apply_event s e = (s', false, d) -> s' = s.
Proof.
  unfold apply_event. destruct (_EVENT_RULES e) as [allowed to].
  destruct (existsb _ allowed); congruence.
Qed.

(** What a call does to its own order and to the others. *)
Lemma sim_apply_spec tk id e lat sim row sim' :
  sim_apply tk id e lat sim = (row, sim') ->
  row.(ev_order_id) = id /\ row.(ev_type) = e /\ row.(ev_from_state) = _state sim id /\
  apply_event (_state sim id) e = (row.(ev_to_state), row.(ev_valid), row.(ev_detail)) /\
  sim'.(audit_log) = (sim.(audit_log) ++ [row])%list /\
  _state sim' id = row.(ev_to_state) /\ (forall id', id' <> id -> _state sim' id' = _state sim id').
Proof.
  unfold sim_apply. intros E. destruct (_states sim !! id) as [s|] eqn:Es.
  - assert (_state sim id = s) as Hs by (unfold _state; by rewrite Es). rewrite Hs in *.
    destruct (apply_event s e) as [[after valid] detail] eqn:Ea. cbn in E. injection E as Hr Hs'. subst row sim'. cbn.
    assert ((if valid then after else s) = after) as Ht.
    { destruct valid; [done|]. symmetry. by eapply apply_event_invalid. }
    rewrite Ht. do 5 (split; [done|]). unfold _state. cbn. destruct valid; split.
    + by rewrite lookup_insert_eq.
    + intros id' Hne. by rewrite lookup_insert_ne.
    + rewrite Es. done.
    + done.
  - assert (_state sim id = NEW) as Hs by (unfold _state; by rewrite Es). rewrite Hs in *.
    destruct (apply_event NEW e) as [[after valid] detail] eqn:Ea.
    assert ((if valid then after else NEW) = after) as Ht.
    { destruct valid; [done|]. symmetry. by eapply apply_event_invalid. }
    case_bool_decide as Hsub; cbn in E; rewrite ?Ea in E; injection E as Hr Hs'; subst row sim'; cbn; rewrite Ht.
    all: do 5 (split; [done|]); unfold _state; cbn.
    + destruct valid; split; rewrite ?lookup_insert_eq; try done.
      * intros id' Hne. by rewrite !lookup_insert_ne.
      * intros id' Hne. by rewrite lookup_insert_ne.
    + destruct valid; split; rewrite ?lookup_insert_eq, ?Es; try done.
      intros id' Hne. by rewrite lookup_insert_ne.
Qed.

Lemma sim_apply_consistent tk id e lat sim :
  log_consistent sim -> log_consistent (sim_apply tk id e lat sim).2.
Proof.
  intros Hc. destruct (sim_apply tk id e lat sim) as [row sim'] eqn:E. cbn [snd].
  apply sim_apply_spec in E as (Hid & Hty & Hfrom & Hap & Hlog & Hst & Hoth).
  intros id'. unfold replay_order in *. rewrite Hlog, List.filter_app. cbn [List.filter].
  destruct (Hc id') as (H1 & H2 & H3). unfold replay_order in *.
  destruct (String.eqb (ev_order_id row) id') eqn:Eid.
  - apply String.eqb_eq in Eid. rewrite Hid in Eid. subst id'. rewrite Hst.
    unfold replay_state. rewrite !foldl_app. cbn [foldl]. split; [|split].
    + destruct (ev_valid row) eqn:Ev; [done|]. unfold replay_state in H1. rewrite <- H1.
      by eapply apply_event_invalid.
    + apply continuous_app. split; [done|]. rewrite H3. cbn. rewrite Hty. done.
    + done.
  - apply String.eqb_neq in Eid. rewrite app_nil_r, Hoth by congruence. done.
Qed.

(** The calls of a session: the order, the event and the readings. *)
Definition call : Type := tick * string * OrderEventType * F64.t.

Fixpoint apply_all (calls : list call) (sim : simulator) : simulator :=
  match calls with
  | [] => sim
  | (tk, id, e, lat) :: rest => apply_all rest (sim_apply tk id e lat sim).2
  end.

Lemma apply_all_consistent calls sim : log_consistent sim -> log_consistent (apply_all calls sim).
Proof.
  revert sim. induction calls as [|[[[tk id] e] lat] calls IH]; intros sim Hc; [done|].
  cbn. apply IH, sim_apply_consistent, Hc.
Qed.

(** The audit log is a faithful event source.  After any interleaving of
    events over any orders, the state of each order is what replaying its own rows
    gives, and its rows form a continuous path of the transition table from NEW,
    each with the validity and the detail the table gives it. *)
Theorem replay_refines_state path calls id :
  let sim := apply_all calls (OrderFlowSimulator_init path) in
  _state sim id = replay_state (replay_order sim id) /\ continuous NEW (replay_order sim id).
Proof.
  cbn zeta. assert (log_consistent (apply_all calls (OrderFlowSimulator_init path))) as Hc.
  { apply apply_all_consistent. intros i. done. }
  destruct (Hc id) as (H1 & H2 & _). done.
Qed.

(** ** Scenarios *)

Lemma run_script_counts clock i oid script events invalid total sim evs' inv' tot' sim' :
  run_script clock i oid script events invalid total sim = (evs', inv', tot', sim') ->
  exists rows, evs' = (events ++ rows)%list /\ length rows = length script /\
    sim'.(audit_log) = (sim.(audit_log) ++ rows)%list /\
    inv' = invalid + Z.of_nat (length (List.filter (fun r => negb r.(ev_valid)) rows)).
Proof.
  revert i events invalid total sim. induction script as [|e script IH];
    intros i events invalid total sim; cbn [run_script].
  - intros E. injection E as <- <- <- <-. exists []. rewrite !app_nil_r. cbn. split; [done|].
    split; [done|]. split; [done|]. lia.
  - destruct (sim_apply (clock i) oid e _ sim) as [row sim1] eqn:Ea. intros E.
    apply IH in E as (rows & -> & Hlen & Hlog & Hinv). exists (row :: rows).
    apply sim_apply_spec in Ea as (_ & _ & _ & _ & Hl & _). rewrite Hlog, Hl, <- !app_assoc.
    cbn [length List.filter]. split; [done|]. split; [lia|]. split; [done|].
    rewrite Hinv. destruct (ev_valid row); cbn [negb length]; lia.
Qed.

(** A scenario run appends exactly one audit row per scripted event, returns
    those rows, and counts exactly the invalid ones among them. *)
Theorem run_scenario_audited clock name oid sim res sim' :
  run_scenario clock name oid sim = Ok (res, sim') ->
  exists script, SCENARIOS name = Some script /\
    length res.(sr_events) = length script /\
    sim'.(audit_log) = (sim.(audit_log) ++ res.(sr_events))%list /\
    res.(invalid_transition_count) =
      Z.of_nat (length (List.filter (fun r => negb r.(ev_valid)) res.(sr_events))).
Proof.
  unfold run_scenario. destruct (SCENARIOS name) as [script|]; [|done]. cbn zeta.
  destruct (run_script _ _ _ _ _ _ _ _) as [[[evs inv] tot] sim2] eqn:E. intros Eq.
  injection Eq as <- <-. apply run_script_counts in E as (rows & -> & Hlen & Hlog & ->).
  exists script. done.
Qed.

(** ** Concrete instances *)
Module OrderFlowWitness.
Definition tk : tick := {| t0 := F64.zero; t1 := F64.lit 1 1000; wall := "2026-01-01T00:00:00Z" |}.
Definition clock (i : nat) : tick := tk.

Lemma apply_event_lifecycle_witness : rank ACCEPTED <= rank FILLED /\ FILLED = (_EVENT_RULES FULL_FILL).2.
Proof.
  split.
  - apply (apply_event_lifecycle ACCEPTED FULL_FILL FILLED true "ok"); reflexivity.
  - apply (apply_event_lifecycle ACCEPTED FULL_FILL FILLED true "ok"); reflexivity.
Defined.

Definition outcome : option (SimulationResult * simulator) :=
  match run_scenario clock "invalid_cancel" None (OrderFlowSimulator_init "logs/order_flow_audit.jsonl") with
  | Ok r => Some r
  | Raise _ => None
  end.

Lemma run_scenario_audited_witness :
  match outcome with
  | Some (res, sim') =>
      res.(invalid_transition_count) = 1 /\ sim'.(audit_log) = res.(sr_events)
  | None => False
  end.
Proof.
  destruct outcome as [[res sim']|] eqn:E; [|vm_compute in E; discriminate].
  assert (run_scenario clock "invalid_cancel" None (OrderFlowSimulator_init "logs/order_flow_audit.jsonl") = Ok (res, sim')) as Er.
  { unfold outcome in E. destruct (run_scenario _ _ _ _); congruence. }
  destruct (run_scenario_audited clock "invalid_cancel" None (OrderFlowSimulator_init "logs/order_flow_audit.jsonl") res sim' Er)
    as (script & _ & _ & Hl & _).
  split; [|exact Hl]. vm_compute in E. injection E as <- _. reflexivity.
Defined.
End OrderFlowWitness.
