(* ===== verification/ProxyDisable.v ===== *)
(** * Allowlisted proxy remediation actions

    [src/proxy_guard/remediation.py]: the rows of actions the proxy guard knows,
    the confirmation gate of a live mutation and the [reg.exe] argument vectors
    that disable the WinINET proxy of the user, with their preview in
    [windows_network_toolkit/remediation/proxy_disable.py]. *)

From S2P Require Import Prelude PyValue.
From Stdlib Require Import Ascii String Permutation.
From stdpp Require Import strings.

Open Scope string_scope.
Open Scope Z_scope.
Open Scope py_scope.

Definition INTERNET_SETTINGS_KEY : string :=
  "HKCU\Software\Microsoft\Windows\CurrentVersion\Internet Settings".

Definition CONFIRMATION_PHRASE : string := "DISABLE_WININET_PROXY".
Definition RESTORE_WININET_PROXY_FROM_LKG_PHRASE : string := "RESTORE_WININET_PROXY_FROM_LKG".
Definition STOP_PROXY_LISTENER_PHRASE : string := "STOP_PROXY_LISTENER".
Definition STOP_PROXY_REVERTER_PHRASE : string := "STOP_PROXY_REVERTER".

Inductive GuardRisk := risk_low | risk_medium | risk_high | risk_blocked.

Definition guard_risk_value (r : GuardRisk) : string :=
  match r with
  | risk_low => "low" | risk_medium => "medium" | risk_high => "high" | risk_blocked => "blocked"
  end.

Inductive GuardDecision := GUARD_ALLOW | GUARD_PREVIEW | GUARD_BLOCK.

Record AllowlistedRemediationAction := {
  aa_action_id : string;
  aa_description : string;
  aa_risk_level : GuardRisk;
  aa_required_confirmation : string;
  aa_allowed_registry_fields : list string;
  aa_reversible : bool;
  aa_blocked_reason : string;
}.

Definition allowlisted_to_dict (self : AllowlistedRemediationAction) : pydict :=
  ["action_id" :-> PStr self.(aa_action_id);
   "description" :-> PStr self.(aa_description);
   "risk_level" :-> PStr (guard_risk_value self.(aa_risk_level));
   "required_confirmation" :-> PStr self.(aa_required_confirmation);
   "allowed_registry_fields" :-> str_list self.(aa_allowed_registry_fields);
   "reversible" :-> PBool self.(aa_reversible);
   "blocked_reason" :-> PStr self.(aa_blocked_reason)].

(** A row the guard never executes. *)
Definition blocked_row (id description reason : string) : AllowlistedRemediationAction :=
  {| aa_action_id := id; aa_description := description; aa_risk_level := risk_blocked;
     aa_required_confirmation := ""; aa_allowed_registry_fields := []; aa_reversible := false;
     aa_blocked_reason := reason |}.

(** The dictionary in insertion order; every key is the [action_id] of its row. *)
Definition _ALLOWLIST : list AllowlistedRemediationAction :=
  [{| aa_action_id := "disable_wininet_proxy";
      aa_description := "Disable the current user's WinINET proxy by setting HKCU ProxyEnable to 0.";
      aa_risk_level := risk_medium;
      aa_required_confirmation := CONFIRMATION_PHRASE;
      aa_allowed_registry_fields := ["ProxyEnable"; "ProxyServer"; "AutoConfigURL"];
      aa_reversible := true; aa_blocked_reason := "" |};
   {| aa_action_id := "restore_wininet_proxy_from_lkg";
      aa_description :=
        "Restore targeted HKCU WinINET proxy fields from a last-known-good snapshot.";
      aa_risk_level := risk_medium;
      aa_required_confirmation := RESTORE_WININET_PROXY_FROM_LKG_PHRASE;
      aa_allowed_registry_fields :=
        ["ProxyEnable"; "ProxyServer"; "AutoConfigURL"; "ProxyOverride"; "AutoDetect"];
      aa_reversible := true; aa_blocked_reason := "" |};
   {| aa_action_id := "stop_proxy_listener";
      aa_description :=
        "Terminate the process tree listening on the attributed localhost WinINET proxy port "
        ++ "(operator-confirmed; Administrator required).";
      aa_risk_level := risk_high;
      aa_required_confirmation := STOP_PROXY_LISTENER_PHRASE;
      aa_allowed_registry_fields := [];
      aa_reversible := false; aa_blocked_reason := "" |};
   {| aa_action_id := "stop_proxy_reverter";
      aa_description :=
        "Terminate the attributed parent powershell.exe process tree that respawns the "
        ++ "localhost proxy listener (operator-confirmed; Administrator required; manual only).";
      aa_risk_level := risk_high;
      aa_required_confirmation := STOP_PROXY_REVERTER_PHRASE;
      aa_allowed_registry_fields := [];
      aa_reversible := false; aa_blocked_reason := "" |};
   blocked_row "reset_firewall" "Firewall reset is not allowed from proxy remediation."
     "firewall reset is blocked from automatic remediation";
   blocked_row "disable_adapter" "Adapter disable is not allowed from proxy remediation."
     "adapter disable is blocked from automatic remediation";
   blocked_row "kill_process" "Process kill is not allowed from proxy remediation."
     "process kill is blocked from automatic remediation";
   blocked_row "delete_certificate" "Certificate deletion is not allowed from proxy remediation."
     "certificate deletion is blocked from automatic remediation";
   blocked_row "broad_registry_cleanup"
     "Broad registry cleanup is not allowed from proxy remediation."
     "broad registry cleanup is blocked from automatic remediation"].

Definition remediation_action_catalog : list AllowlistedRemediationAction := _ALLOWLIST.

Definition get_allowlisted_action (action_id : string) : option AllowlistedRemediationAction :=
  List.find (fun a => String.eqb a.(aa_action_id) action_id) _ALLOWLIST.

(** [sorted(set(requested) - set(allowed))]. *)
Definition not_allowlisted (requested allowed : list string) : list string :=
  sorted_by String.ltb id
    (List.filter (fun f => negb (PyStr.mem f allowed)) (dedupe String.eqb requested)).

Definition validate_action_confirmation (action_id : string) (dry_run : bool)
    (confirmation : string) (requested_registry_fields : list string)
    : GuardDecision * string * option AllowlistedRemediationAction :=
  match get_allowlisted_action action_id with
  | None => (GUARD_BLOCK, "unknown_action", None)
  | Some action =>
      if negb (PyStr.is_empty action.(aa_blocked_reason))
      then (GUARD_BLOCK, action.(aa_blocked_reason), Some action)
      else
        let not_allowed :=
          not_allowlisted requested_registry_fields action.(aa_allowed_registry_fields) in
        match not_allowed with
        | _ :: _ =>
            (GUARD_BLOCK, "registry_fields_not_allowlisted:" ++ PyStr.join "," not_allowed,
             Some action)
        | [] =>
            if dry_run then (GUARD_PREVIEW, "dry_run_preview_only", Some action)
            else if PyStr.is_empty (PyStr.strip confirmation)
            then (GUARD_BLOCK, "missing_confirmation", Some action)
            else if negb (String.eqb (PyStr.strip confirmation) action.(aa_required_confirmation))
            then (GUARD_BLOCK, "confirmation_mismatch", Some action)
            else (GUARD_ALLOW, "confirmed_allowlisted_action", Some action)
        end
  end.

(** ** The mutations *)

Record ProxyDisableMutation := { argv : list string; human : string }.

Definition dquote : string := String (ascii_of_N 34) "".

Definition delete_value (name : string) : ProxyDisableMutation :=
  {| argv := ["reg"; "delete"; INTERNET_SETTINGS_KEY; "/v"; name; "/f"];
     human := "reg delete " ++ dquote ++ INTERNET_SETTINGS_KEY ++ dquote ++ " /v " ++ name ++ " /f" |}.

Definition build_user_proxy_disable_mutations (clear_proxy_server_value clear_autoconfig_url : bool)
    : list ProxyDisableMutation * list string :=
  let m1 :=
    {| argv := ["reg"; "add"; INTERNET_SETTINGS_KEY; "/v"; "ProxyEnable"; "/t"; "REG_DWORD"; "/d";
                "0"; "/f"];
       human := "reg add " ++ dquote ++ INTERNET_SETTINGS_KEY ++ dquote
                ++ " /v ProxyEnable /t REG_DWORD /d 0 /f" |} in
  let mutations :=
    (m1 :: (if clear_proxy_server_value then [delete_value "ProxyServer"] else [])
        ++ (if clear_autoconfig_url then [delete_value "AutoConfigURL"] else []))%list in
  (mutations,
   (map human mutations ++
    ["This modifies only HKCU WinINET proxy values; WinHTTP is unchanged.";
     "Software that reapplies proxy policy may restore these keys after logout or schedule."])%list).

(** [action] is found in the table, so the source's attribute accesses succeed. *)
Definition preview_proxy_disable (dry_run : bool) : result pydict :=
  match get_allowlisted_action "disable_wininet_proxy" with
  | None => Raise AttributeError
  | Some action =>
      let mutations := (build_user_proxy_disable_mutations true true).1 in
      Ok ["action_id" :-> PStr action.(aa_action_id);
          "dry_run" :-> PBool dry_run;
          "risk_level" :-> PStr (guard_risk_value action.(aa_risk_level));
          "required_confirmation" :-> PStr action.(aa_required_confirmation);
          "mutations" :-> PList
            (map (fun m => PDict ["argv" :-> str_list m.(argv); "human" :-> PStr m.(human)])
               mutations);
          "reversible" :-> PBool action.(aa_reversible)]
  end.

(** ** The confirmation gate *)

Lemma not_allowlisted_nil requested allowed :
  not_allowlisted requested allowed = [] <-> incl requested allowed.
Proof.
  unfold not_allowlisted. split.
  - intros E f Hf. apply sorted_by_nil in E.
    destruct (PyStr.mem f allowed) eqn:Em; [by apply PyStr.mem_In|]. exfalso.
    assert (In f (List.filter (fun f => negb (PyStr.mem f allowed)) (dedupe String.eqb requested)))
      as Hin.
    { apply filter_In. rewrite Em. split; [|done]. apply dedupe_In; [apply String.eqb_eq|done]. }
    by rewrite E in Hin.
  - intros Hincl.
    assert (List.filter (fun f => negb (PyStr.mem f allowed)) (dedupe String.eqb requested) = [])
      as ->; [|done].
    destruct (List.filter _ _) as [|f l] eqn:Ef; [done|]. exfalso.
    assert (In f (f :: l)) as Hin by (by left). rewrite <- Ef in Hin.
    apply filter_In in Hin as [Hd Hm]. apply negb_true_iff in Hm.
    assert (In f requested) as Hr by (apply dedupe_In in Hd; [done|apply String.eqb_eq]).
    apply Hincl, PyStr.mem_In in Hr. congruence.
Qed.

(** Rows that are not blocked have a phrase to type. *)
Lemma allowlist_phrases a :
  In a _ALLOWLIST -> a.(aa_blocked_reason) = "" -> a.(aa_required_confirmation) <> "".
Proof.
  intros Hin. cbn in Hin. repeat destruct Hin as [<- | Hin]; cbn; try done.
Qed.

Lemma get_allowlisted_action_In id a :
  get_allowlisted_action id = Some a -> In a _ALLOWLIST /\ a.(aa_action_id) = id.
Proof.
  intros E. apply find_some in E as [Hin E]. by apply String.eqb_eq in E.
Qed.

(** The guard allows a live mutation exactly when the action is a known row that
    is not blocked, every requested registry field is in the row's list, the call is
    not a dry run and the typed text, stripped, is the row's phrase; and the row it
    then returns is that action's. *)
Theorem confirmation_allows_iff id dry typed fields :
  (validate_action_confirmation id dry typed fields).1.1 = GUARD_ALLOW <->
  exists a, get_allowlisted_action id = Some a /\ a.(aa_blocked_reason) = "" /\
    incl fields a.(aa_allowed_registry_fields) /\ dry = false /\
    PyStr.strip typed = a.(aa_required_confirmation) /\
    (validate_action_confirmation id dry typed fields).2 = Some a.
Proof.
  unfold validate_action_confirmation.
  destruct (get_allowlisted_action id) as [a|] eqn:Ea; [|split; [done|intros (a & ? & _); done]].
  destruct (get_allowlisted_action_In id a Ea) as [Hin _].
  split.
  - destruct (PyStr.is_empty (aa_blocked_reason a)) eqn:Eb; cbn [negb]; [|done].
    apply PyStr.is_empty_true in Eb.
    destruct (not_allowlisted fields _) eqn:En; [|done]. apply not_allowlisted_nil in En.
    destruct dry; [done|]. destruct (PyStr.is_empty (PyStr.strip typed)); [done|].
    destruct (String.eqb _ _) eqn:Es; cbn [negb]; [|done]. apply String.eqb_eq in Es.
    intros _. exists a. auto 8.
  - intros (a' & [= <-] & Hb & Hf & -> & Hs & _).
    pose proof (allowlist_phrases a Hin Hb) as Hp. apply not_allowlisted_nil in Hf.
    rewrite Hb, Hf, Hs, String.eqb_refl. cbn [PyStr.is_empty negb].
    apply PyStr.is_empty_false in Hp. by rewrite Hp.
Qed.

(** The registry value an argument vector names. *)
Definition value_name (m : ProxyDisableMutation) : option string := m.(argv) !! 4%nat.

(** Every mutation of the disable action stays within the fields its row allows. *)
Lemma mutations_allowlisted s c m name a :
  get_allowlisted_action "disable_wininet_proxy" = Some a ->
  In m (build_user_proxy_disable_mutations s c).1 -> value_name m = Some name ->
  In name a.(aa_allowed_registry_fields).
Proof.
  intros Ea Hin Hn. vm_compute in Ea. injection Ea as <-.
  destruct s, c; cbn in Hin; repeat destruct Hin as [<- | Hin]; try done;
    vm_compute in Hn; injection Hn as <-; cbn; auto.
Qed.

(** ** Concrete instances *)
Module ProxyDisableWitness.
Example disable_confirmed :
  (validate_action_confirmation "disable_wininet_proxy" false " DISABLE_WININET_PROXY "
     ["ProxyEnable"; "ProxyServer"]).1.1 = GUARD_ALLOW.
Proof. vm_compute. reflexivity. Qed.

Example override_refused :
  (validate_action_confirmation "disable_wininet_proxy" false "DISABLE_WININET_PROXY"
     ["ProxyOverride"; "AutoDetect"]).1 =
  (GUARD_BLOCK, "registry_fields_not_allowlisted:AutoDetect,ProxyOverride").
Proof. vm_compute. reflexivity. Qed.
End ProxyDisableWitness.
