(* ===== verification/EvidenceTiers.v ===== *)
(** * Evidence tiers and their guards

    [src/platform_core/evidence/]: the tier vocabulary ([tiers.py]), the guards of
    a tier upgrade and of destructive remediation ([guards.py]), the tier state
    machine ([state_machine.py]), signal conflicts ([conflicts.py]) and decision
    explanations ([explanations.py]).  Tiers are the strings the code compares. *)

From S2P Require Import Prelude PyValue.
From Stdlib Require Import Ascii String SpecFloat.
From stdpp Require Import strings.

Open Scope string_scope.
Open Scope Z_scope.
Open Scope py_scope.

(** ** Tiers *)

Definition EVIDENCE_TIER_ORDER : list string :=
  ["OBSERVED_ONLY"; "CORRELATED"; "PROVEN_REGISTRY_WRITER"; "PROVEN_NETWORK_IMPACT";
   "FINAL_CAUSATION"].

Fixpoint index_from (i : Z) (x : string) (l : list string) : option Z :=
  match l with
  | [] => None
  | y :: l' => if String.eqb y x then Some i else index_from (i + 1) x l'
  end.

Definition _RANK (t : string) : option Z := index_from 0 t EVIDENCE_TIER_ORDER.

Definition _LEGACY_TIERS : list (string * string) :=
  [("OBSERVED_ONLY", "OBSERVED_ONLY");
   ("CORRELATED", "CORRELATED");
   ("CORRELATED_PROCESS", "CORRELATED");
   ("PROVEN_REGISTRY_WRITER", "PROVEN_REGISTRY_WRITER");
   ("PROVEN_NETWORK_IMPACT", "PROVEN_NETWORK_IMPACT");
   ("PATH_VALIDATED", "PROVEN_NETWORK_IMPACT");
   ("FINAL_CAUSATION", "FINAL_CAUSATION")].

Fixpoint str_assoc (k : string) (l : list (string * string)) : option string :=
  match l with
  | [] => None
  | (k', v) :: l' => if String.eqb k' k then Some v else str_assoc k l'
  end.

Definition tier_rank (tier : string) : Z :=
  let raw := PyStr.upper tier in
  let normalized := default raw (str_assoc raw _LEGACY_TIERS) in
  default (-1) (_RANK normalized).

Definition normalize_tier (tier : string) : string :=
  let key := PyStr.upper tier in
  match str_assoc key _LEGACY_TIERS with
  | Some t => t
  | None =>
      match List.find (fun known => String.eqb known key) EVIDENCE_TIER_ORDER with
      | Some known => known
      | None => "OBSERVED_ONLY"
      end
  end.

(** ** Guards *)

Record ProofInputs := {
  has_registry_writer_telemetry : bool;
  has_process_lineage : bool;
  has_timestamp_alignment : bool;
  has_path_validation : bool;
  has_listener_correlation_only : bool;
  has_replay_certification : bool;
  manual_tier_override : bool;
}.

Definition validate_tier_upgrade (current proposed : string) (proof : ProofInputs)
    : bool * string :=
  if proof.(manual_tier_override) && String.eqb proposed "FINAL_CAUSATION"
  then (false, "Manual FINAL_CAUSATION override forbidden")
  else if tier_rank proposed <=? tier_rank current then
    (String.eqb proposed current,
     if String.eqb proposed current then "unchanged" else "No downgrade")
  else if String.eqb proposed "CORRELATED" then
    (proof.(has_listener_correlation_only) || true, "correlation observed")
  else if String.eqb proposed "PROVEN_NETWORK_IMPACT" then
    (proof.(has_path_validation), "PROVEN_NETWORK_IMPACT requires network path validation proof")
  else if String.eqb proposed "PROVEN_REGISTRY_WRITER" then
    (proof.(has_registry_writer_telemetry), "PROVEN_REGISTRY_WRITER requires writer telemetry")
  else if String.eqb proposed "FINAL_CAUSATION" then
    let ok := proof.(has_registry_writer_telemetry) && proof.(has_process_lineage)
              && proof.(has_timestamp_alignment) && proof.(has_path_validation) in
    if negb ok
    then (false, "FINAL_CAUSATION requires writer + lineage + alignment + path validation")
    else (true, "guarded proof satisfied")
  else (false, "Unknown tier transition to " ++ proposed).

Definition can_unlock_destructive_remediation (tier : string) (proof : ProofInputs) : bool :=
  if proof.(has_listener_correlation_only) && negb proof.(has_registry_writer_telemetry) then false
  else if tier_rank tier <? tier_rank "FINAL_CAUSATION" then false
  else (validate_tier_upgrade "PROVEN_REGISTRY_WRITER" "FINAL_CAUSATION" proof).1.

(** The [truthy] of [guards.py] and of [conflicts.py]. *)
Definition truthy (v : pyval) : bool :=
  match v with
  | PBool b => b
  | PStr s => PyStr.mem (PyStr.lower (PyStr.strip s)) ["1"; "true"; "yes"; "on"]
  | _ => py_bool v
  end.

Definition proof_inputs_from_signals (signals : pydict) : ProofInputs :=
  let get k := Dict.get k signals in
  {| has_registry_writer_telemetry :=
       truthy (py_or (get "sysmon_event_13") (get "registry_writer_observed"));
     has_process_lineage := truthy (py_or (get "writer_process") (get "process_lineage"));
     has_timestamp_alignment := truthy (get "timestamp_alignment");
     has_path_validation :=
       truthy (py_or (py_or (get "proxy_bypass_succeeded") (get "direct_path_success"))
                 (get "path_validated"));
     has_listener_correlation_only :=
       truthy (py_or (get "listener_on_proxy_port") (get "listener_correlation"))
       && negb (truthy (get "sysmon_event_13"));
     has_replay_certification := truthy (get "replay_certified");
     manual_tier_override := truthy (get "force_final_causation") |}.

(** ** The tier state machine *)

Record EvidenceStateMachine := { tier : string }.

Definition propose (proposed : string) (proof : ProofInputs) (self : EvidenceStateMachine)
    : (bool * string) * EvidenceStateMachine :=
  let '(allowed, reason) := validate_tier_upgrade self.(tier) proposed proof in
  ((allowed, reason),
   if allowed && negb (String.eqb proposed self.(tier)) then {| tier := proposed |} else self).

(** The candidates, in the order they are proposed. *)
Definition signal_candidates (signals : pydict) (proof : ProofInputs) : list string :=
  (["OBSERVED_ONLY"]
   ++ (if proof.(has_listener_correlation_only)
          || (Dict.mem "listener_on_proxy_port" signals || Dict.mem "listener_process_name" signals)
       then ["CORRELATED"] else [])
   ++ (if proof.(has_path_validation) then ["PROVEN_NETWORK_IMPACT"] else [])
   ++ (if proof.(has_registry_writer_telemetry) then ["PROVEN_REGISTRY_WRITER"] else [])
   ++ (if proof.(has_registry_writer_telemetry) && proof.(has_path_validation)
       then if proof.(has_process_lineage) && proof.(has_timestamp_alignment)
            then ["FINAL_CAUSATION"] else []
       else []))%list.

Definition apply_signals (signals : pydict) (self : EvidenceStateMachine)
    : string * EvidenceStateMachine :=
  let proof := proof_inputs_from_signals signals in
  let self' :=
    foldl (fun m t => (propose t proof m).2) self (signal_candidates signals proof) in
  (self'.(tier), self').

Definition from_legacy_level (level : string) : EvidenceStateMachine :=
  {| tier := normalize_tier level |}.

(** ** Conflicts *)

Record EvidenceConflict := {
  ec_code : string;
  ec_description : string;
  ec_severity : string;
}.

Definition detect_conflicts (signals : pydict) : list EvidenceConflict :=
  let truthy k := truthy (Dict.get k signals) in
  let dns_ok := truthy "dns_ok" in
  let http_fail := truthy "browser_https_failed" || truthy "http_failed" in
  let tcp_ok := truthy "tcp_ok" || truthy "tcp_443_ok" in
  let browser_fail := truthy "browser_https_failed" in
  let proxy_on := truthy "wininet_proxy_enabled" || truthy "proxy_enable" in
  let no_listener := truthy "proxy_enabled_no_listener" in
  let has_listener := truthy "listener_on_proxy_port" || truthy "listener_correlation" in
  let no_writer := negb (truthy "sysmon_event_13") && negb (truthy "registry_writer_observed") in
  ((if dns_ok && http_fail then
      [{| ec_code := "DNS_OK_HTTP_FAIL";
          ec_description := "DNS resolves but HTTP path fails — likely L7/proxy/TLS, not DNS.";
          ec_severity := "medium" |}] else [])
   ++ (if tcp_ok && browser_fail then
      [{| ec_code := "TCP_OK_BROWSER_FAIL";
          ec_description :=
            "TCP succeeds but browser path fails — inspect proxy/TLS/app layer.";
          ec_severity := "medium" |}] else [])
   ++ (if proxy_on && no_listener then
      [{| ec_code := "PROXY_ON_NO_LISTENER";
          ec_description :=
            "Proxy enabled but no localhost listener observed — stale config or remote proxy.";
          ec_severity := "high" |}] else [])
   ++ (if has_listener && no_writer then
      [{| ec_code := "LISTENER_NO_WRITER_PROOF";
          ec_description :=
            "Listener correlated but registry writer telemetry missing — not causation proof.";
          ec_severity := "high" |}] else []))%list.

(** ** Explanations *)

Record DecisionExplanation := {
  preferred_hypothesis : string;
  why_selected : string;
  missing_proof : list string;
  unjustified_claims : list string;
  conflicts : list EvidenceConflict;
}.

Definition build_explanation (incident_type evidence_tier : string) (confidence : F64.t)
    (signals : pydict) (reasoning : string) : DecisionExplanation :=
  let below t := tier_rank evidence_tier <? tier_rank t in
  let conflicts := detect_conflicts signals in
  let missing :=
    ((if below "PROVEN_REGISTRY_WRITER"
      then ["Registry writer telemetry (e.g. Sysmon EID 13)"] else [])
     ++ (if below "PROVEN_NETWORK_IMPACT"
         then ["Network path validation (direct vs proxy contrast)"] else [])
     ++ (if below "FINAL_CAUSATION"
         then ["Process lineage + timestamp alignment for final causation"] else []))%list in
  let unjustified :=
    ((if below "FINAL_CAUSATION" then ["Claiming certain root cause / writer identity"] else [])
     ++ (if below "CORRELATED" then ["Attributing failure to a specific process"] else []))%list in
  let why :=
    if PyStr.is_empty reasoning
    then "Incident type " ++ incident_type ++ " ranked with ordinal confidence "
         ++ format_2f confidence ++ "."
    else reasoning in
  let why :=
    match conflicts with
    | [] => why
    | _ => why ++ " " ++ PyStr.of_Z (Z.of_nat (length conflicts))
               ++ " signal conflict(s) limit stronger claims."
    end in
  {| preferred_hypothesis := incident_type; why_selected := why; missing_proof := missing;
     unjustified_claims := unjustified; conflicts := conflicts |}.

(** ** What a tier needs *)

(** Full causation: the four proofs and no manual override. *)
Definition causation (p : ProofInputs) : bool :=
  p.(has_registry_writer_telemetry) && p.(has_process_lineage) && p.(has_timestamp_alignment)
  && p.(has_path_validation) && negb p.(manual_tier_override).

Lemma causation_proofs p :
  causation p = true <->
  p.(has_registry_writer_telemetry) = true /\ p.(has_process_lineage) = true /\
  p.(has_timestamp_alignment) = true /\ p.(has_path_validation) = true /\
  p.(manual_tier_override) = false.
Proof. unfold causation. rewrite !andb_true_iff, negb_true_iff. tauto. Qed.

(** The proofs of the three proven tiers. *)
Definition proven (p : ProofInputs) (t : string) : Prop :=
  (t = "PROVEN_REGISTRY_WRITER" /\ p.(has_registry_writer_telemetry) = true) \/
  (t = "PROVEN_NETWORK_IMPACT" /\ p.(has_path_validation) = true) \/
  (t = "FINAL_CAUSATION" /\ causation p = true).

(** A listener was seen among the signals of a batch. *)
Definition listener_seen (signals : pydict) : Prop :=
  (proof_inputs_from_signals signals).(has_listener_correlation_only) = true \/
  Dict.mem "listener_on_proxy_port" signals = true \/
  Dict.mem "listener_process_name" signals = true.

(** An accepted upgrade goes up; correlation needs nothing, every other tier its proof. *)
Lemma upgrade_supported current proposed p :
  (validate_tier_upgrade current proposed p).1 = true -> proposed <> current ->
  tier_rank current < tier_rank proposed /\ (proposed = "CORRELATED" \/ proven p proposed).
Proof.
  unfold validate_tier_upgrade, proven, causation. intros Hv Hne.
  destruct (manual_tier_override p && String.eqb proposed "FINAL_CAUSATION") eqn:Em; [done|].
  destruct (tier_rank proposed <=? tier_rank current) eqn:El.
  { cbn in Hv. apply String.eqb_eq in Hv. congruence. }
  split; [lia|].
  destruct (String.eqb proposed "CORRELATED") eqn:E1; [bool_facts; by left|].
  destruct (String.eqb proposed "PROVEN_NETWORK_IMPACT") eqn:E2; [bool_facts; auto|].
  destruct (String.eqb proposed "PROVEN_REGISTRY_WRITER") eqn:E3; [bool_facts; auto|].
  destruct (String.eqb proposed "FINAL_CAUSATION") eqn:E4; [|done].
  rewrite andb_true_r in Em. rewrite Em. bool_facts. right. right. right. split; [done|].
  destruct (has_registry_writer_telemetry p), (has_process_lineage p),
    (has_timestamp_alignment p), (has_path_validation p); done.
Qed.

Lemma propose_step t p self :
  (propose t p self).2 = self \/
  ((propose t p self).2.(tier) = t /\ tier_rank self.(tier) < tier_rank t /\
   (t = "CORRELATED" \/ proven p t)).
Proof.
  unfold propose. destruct (validate_tier_upgrade (tier self) t p) as [ok reason] eqn:Ev. cbn.
  destruct ok; [|by left]. destruct (String.eqb t (tier self)) eqn:Et; cbn; [by left|].
  right. split; [done|]. apply upgrade_supported; [by rewrite Ev|]. bool_facts. done.
Qed.

(** A direct proposal of correlation is accepted from below whatever the proof inputs,
    also from none: the test of its branch is a disjunction with [True]. *)
Lemma correlation_needs_no_proof current p :
  tier_rank current < tier_rank "CORRELATED" ->
  validate_tier_upgrade current "CORRELATED" p = (true, "correlation observed").
Proof.
  intros Hr. unfold validate_tier_upgrade. cbn [String.eqb Ascii.eqb Bool.eqb].
  rewrite andb_false_r, orb_true_r. by destruct (Z.leb_spec (tier_rank "CORRELATED") (tier_rank current)); [lia|].
Qed.

(** ** Histories of the machine *)

Inductive tier_call :=
| Propose (t : string) (p : ProofInputs)
| ApplySignals (signals : pydict).

Definition call_proof (c : tier_call) : ProofInputs :=
  match c with
  | Propose _ p => p
  | ApplySignals s => proof_inputs_from_signals s
  end.

(** What a call offers for the tier it reaches: a proven tier has its proofs among those of
    the call; correlation was seen as a listener among the signals of a batch, or it was
    named by a direct proposal, for which the guard asks no evidence. *)
Definition earned_by (c : tier_call) (t : string) : Prop :=
  proven (call_proof c) t \/
  t = "CORRELATED" /\
  match c with
  | Propose named _ => named = "CORRELATED"
  | ApplySignals s => listener_seen s
  end.

Definition tier_step (self : EvidenceStateMachine) (c : tier_call) : EvidenceStateMachine :=
  match c with
  | Propose t p => (propose t p self).2
  | ApplySignals s => (apply_signals s self).2
  end.

Lemma proposals_step p ts self :
  let self' := foldl (fun m t => (propose t p m).2) self ts in
  self' = self \/
  (tier_rank self.(tier) < tier_rank self'.(tier) /\ In self'.(tier) ts /\
   (self'.(tier) = "CORRELATED" \/ proven p self'.(tier))).
Proof.
  cbn zeta. revert self. induction ts as [|t ts IH]; intros self; cbn [foldl]; [by left|].
  destruct (propose_step t p self) as [E|(Et & Hr & Hs)].
  { rewrite E. destruct (IH self) as [?|(? & ? & ?)]; [by left|]. right. split; [done|]. by split; [right|]. }
  right. destruct (IH (propose t p self).2) as [E|(Hr' & Hin & Hs')].
  - rewrite E, Et. split; [done|]. by split; [left|].
  - rewrite Et in Hr'. split; [lia|]. by split; [right|].
Qed.

Lemma candidate_correlated s :
  In "CORRELATED" (signal_candidates s (proof_inputs_from_signals s)) -> listener_seen s.
Proof.
  unfold signal_candidates, listener_seen.
  generalize (proof_inputs_from_signals s). intros [w l a path lis rep ovr].
  cbn [has_registry_writer_telemetry has_process_lineage has_timestamp_alignment
       has_path_validation has_listener_correlation_only].
  destruct lis; [by left|]. destruct (Dict.mem "listener_on_proxy_port" s); [by right; left|].
  destruct (Dict.mem "listener_process_name" s); [by right; right|].
  destruct w, l, a, path; cbn; intuition discriminate.
Qed.

Lemma tier_step_earned self c :
  tier_step self c = self \/
  (tier_rank self.(tier) < tier_rank (tier_step self c).(tier) /\
   earned_by c (tier_step self c).(tier)).
Proof.
  unfold earned_by. destruct c as [t p|s]; cbn [tier_step call_proof].
  - destruct (propose_step t p self) as [E|(Et & Hr & [->|Hs])]; [by left| |]; rewrite Et; auto.
  - unfold apply_signals. cbn [snd].
    destruct (proposals_step (proof_inputs_from_signals s)
                (signal_candidates s (proof_inputs_from_signals s)) self)
      as [E|(Hr & Hin & Hs)]; [by left|]. right. split; [done|].
    destruct Hs as [Hc|Hs]; [|by left]. right. split; [done|]. apply candidate_correlated.
    by rewrite <- Hc at 1.
Qed.


(** From a fresh machine, a batch of signals gives the highest tier its proof
    inputs support: final causation with the four proofs and no manual override, else
    network impact with path validation, else the registry writer with its telemetry,
    else correlation when a listener was seen, else observation only. *)
Theorem apply_signals_verdict signals :
  let p := proof_inputs_from_signals signals in
  (apply_signals signals {| tier := "OBSERVED_ONLY" |}).1 =
    if causation p then "FINAL_CAUSATION"
    else if p.(has_path_validation) then "PROVEN_NETWORK_IMPACT"
    else if p.(has_registry_writer_telemetry) then "PROVEN_REGISTRY_WRITER"
    else if p.(has_listener_correlation_only)
            || (Dict.mem "listener_on_proxy_port" signals
                || Dict.mem "listener_process_name" signals)
    then "CORRELATED" else "OBSERVED_ONLY".
Proof.
  cbn zeta. unfold apply_signals. cbn [fst]. generalize (proof_inputs_from_signals signals).
  intros [w l a path lis rep ovr]. unfold signal_candidates, causation.
  cbn [has_registry_writer_telemetry has_process_lineage has_timestamp_alignment
       has_path_validation has_listener_correlation_only has_replay_certification
       manual_tier_override].
  generalize (Dict.mem "listener_on_proxy_port" signals || Dict.mem "listener_process_name" signals).
  intros seen. destruct w, l, a, path, lis, ovr, seen; vm_compute; reflexivity.
Qed.

(** ** Destructive remediation *)

Lemma validate_final p :
  (validate_tier_upgrade "PROVEN_REGISTRY_WRITER" "FINAL_CAUSATION" p).1 = causation p.
Proof.
  destruct p as [w l a path lis rep ovr]. destruct w, l, a, path, ovr; vm_compute; reflexivity.
Qed.

Lemma unlock_iff t p :
  can_unlock_destructive_remediation t p = true <->
  tier_rank "FINAL_CAUSATION" <= tier_rank t /\ causation p = true.
Proof.
  unfold can_unlock_destructive_remediation. rewrite validate_final.
  destruct (has_listener_correlation_only p && negb (has_registry_writer_telemetry p)) eqn:El.
  - split; [done|]. intros [_ Hc]. unfold causation in Hc. bool_facts. congruence.
  - destruct (tier_rank t <? tier_rank "FINAL_CAUSATION") eqn:E.
    + split; [done|]. intros [? _]. lia.
    + split; [|by intros [_ ?]]. intros Hc. split; [lia|done].
Qed.

(** A known tier of the rank of final causation is final causation. *)
Lemma final_rank t : In t EVIDENCE_TIER_ORDER -> tier_rank "FINAL_CAUSATION" <= tier_rank t ->
  t = "FINAL_CAUSATION".
Proof.
  intros Hin. cbn in Hin. repeat destruct Hin as [<- | Hin]; try done;
    vm_compute; congruence.
Qed.

(** Every string normalises to a tier. *)
Lemma normalize_tier_known t : In (normalize_tier t) EVIDENCE_TIER_ORDER.
Proof.
  unfold normalize_tier. destruct (str_assoc _ _) as [x|] eqn:Ea.
  - cbn [str_assoc _LEGACY_TIERS] in Ea.
    repeat (destruct (String.eqb _ _); [injection Ea as <-; cbn; tauto|]). done.
  - destruct (List.find _ _) eqn:Ef; [by apply find_some in Ef as [Hin _]|]. cbn. tauto.
Qed.
