(* ===== verification/EvidencePolicy.v ===== *)
(** * The evidence policy engine and the remediation planner

    [src/platform_core/policy/actions.py], [policy/engine.py] and
    [policy/outcome_normalizer.py], the contracts they exchange
    ([src/platform_core/contracts.py]) and
    [src/platform_core/remediation/planner.py].  A pydantic validation error is a
    [ValueError]; the range check of the decision's confidence, the clock readings
    and the random identifiers are arguments. *)

From S2P Require Import Prelude PyValue Rollback ProxyDisable EvidenceTiers.
From Stdlib Require Import Ascii String SpecFloat.
From stdpp Require Import strings.

Open Scope string_scope.
Open Scope Z_scope.
Open Scope py_scope.

(** ** Destructive actions *)

Definition DESTRUCTIVE_ACTIONS : list string :=
  ["registry_modification"; "kill_process"; "disable_proxy"; "firewall_reset"; "adapter_disable";
   "delete_files"; "system_network_change"].

Definition ACTION_ALIASES : list (string * string) :=
  [("disable_wininet_proxy", "disable_proxy");
   ("stop_proxy_listener", "kill_process");
   ("stop_proxy_reverter", "kill_process");
   ("registry_modification", "registry_modification");
   ("reset_firewall", "firewall_reset");
   ("adapter_disable", "adapter_disable")].

Definition normalize_action (action : string) : string :=
  let key := PyStr.replace_char "-" "_" (PyStr.lower (PyStr.strip action)) in
  default key (str_assoc key ACTION_ALIASES).

Definition is_destructive (action : string) : bool :=
  let norm := normalize_action action in
  PyStr.mem norm DESTRUCTIVE_ACTIONS
  || existsb (fun d => PyStr.contains d norm) ["disable"; "kill"; "reset"; "delete"].

(** ** Contracts *)

Inductive PolicyOutcomeName :=
| OUT_ALLOW | OUT_PREVIEW_ONLY | OUT_REQUIRE_HUMAN_APPROVAL | OUT_BLOCK | OUT_ROLLBACK_REQUIRED.

#[export] Instance PolicyOutcomeName_eq_dec : EqDecision PolicyOutcomeName.
Proof. solve_decision. Defined.

Definition outcome_value (o : PolicyOutcomeName) : string :=
  match o with
  | OUT_ALLOW => "ALLOW" | OUT_PREVIEW_ONLY => "PREVIEW_ONLY"
  | OUT_REQUIRE_HUMAN_APPROVAL => "REQUIRE_HUMAN_APPROVAL" | OUT_BLOCK => "BLOCK"
  | OUT_ROLLBACK_REQUIRED => "ROLLBACK_REQUIRED"
  end.

Definition SCHEMA_VERSION : string := "erp.platform.v1".

Record EvidenceItem := {
  ei_evidence_id : string;
  ei_event_id : string;
  ei_timestamp_utc : string;
  ei_source : string;
  ei_signal : string;
  ei_observed_value : string;
  ei_tier : string;
}.

Record EvidenceBundle := {
  eb_bundle_id : string;
  eb_incident_id : string;
  eb_created_at : string;
  eb_tier : string;
  eb_items : list EvidenceItem;
}.

Record Decision := {
  de_decision_id : string;
  de_incident_id : string;
  de_timestamp_utc : string;
  de_incident_type : string;
  de_recommended_action : string;
  de_confidence : F64.t;
  de_risk_level : string;
  de_evidence_tier : string;
  de_reasoning : string;
  de_requires_human_review : bool;
}.

(** [model_dump(mode="json")], with the defaults of the other fields. *)
Definition decision_dump (d : Decision) : pydict :=
  ["decision_id" :-> PStr d.(de_decision_id);
   "incident_id" :-> PStr d.(de_incident_id);
   "trace_id" :-> PStr "";
   "schema_version" :-> PStr SCHEMA_VERSION;
   "timestamp_utc" :-> PStr d.(de_timestamp_utc);
   "incident_type" :-> PStr d.(de_incident_type);
   "recommended_action" :-> PStr d.(de_recommended_action);
   "confidence" :-> PFloat d.(de_confidence);
   "risk_level" :-> PStr d.(de_risk_level);
   "evidence_tier" :-> PStr d.(de_evidence_tier);
   "evidence_refs" :-> PList [];
   "reasoning" :-> PStr d.(de_reasoning);
   "requires_human_review" :-> PBool d.(de_requires_human_review)].

Record PolicyEvaluation := {
  ev_evaluation_id : string;
  ev_decision_id : string;
  ev_timestamp_utc : string;
  ev_requested_action : string;
  ev_evidence_tier : string;
  ev_outcome : PolicyOutcomeName;
  ev_allowed : bool;
  ev_requires_approval : bool;
  ev_requires_rollback_plan : bool;
  ev_blocked_reasons : list string;
  ev_rationale : string;
}.

Definition evaluation_dump (e : PolicyEvaluation) : pydict :=
  ["evaluation_id" :-> PStr e.(ev_evaluation_id);
   "decision_id" :-> PStr e.(ev_decision_id);
   "schema_version" :-> PStr SCHEMA_VERSION;
   "timestamp_utc" :-> PStr e.(ev_timestamp_utc);
   "requested_action" :-> PStr e.(ev_requested_action);
   "evidence_tier" :-> PStr e.(ev_evidence_tier);
   "outcome" :-> PStr (outcome_value e.(ev_outcome));
   "allowed" :-> PBool e.(ev_allowed);
   "requires_approval" :-> PBool e.(ev_requires_approval);
   "requires_rollback_plan" :-> PBool e.(ev_requires_rollback_plan);
   "blocked_reasons" :-> str_list e.(ev_blocked_reasons);
   "rationale" :-> PStr e.(ev_rationale)].

(** ** The engine *)

Definition POLICY_RATIONALE : string :=
  "Policy permission is not a safety guarantee. "
  ++ "Destructive actions require FINAL_CAUSATION, preview, approval, audit, validation, rollback.".

(** [{item.signal: item.observed_value for item in bundle.items}]. *)
Definition bundle_signals (b : EvidenceBundle) : pydict :=
  foldl (fun d i => Dict.set i.(ei_signal) (PStr i.(ei_observed_value)) d) [] b.(eb_items).

(** [operator_context] is not read by the source. *)
Definition evaluate_policy (decision : Decision) (bundle : EvidenceBundle)
    (requested_action : string) (proof : option ProofInputs) (dry_run : bool)
    : PolicyEvaluation :=
  let proof := default (proof_inputs_from_signals (bundle_signals bundle)) proof in
  let tier := bundle.(eb_tier) in
  let action := normalize_action requested_action in
  let destructive := is_destructive action in
  let '(outcome, blocked, requires_approval, requires_rollback) :=
    if destructive && negb (can_unlock_destructive_remediation tier proof)
    then (OUT_BLOCK, [action; "destructive_without_final_causation"], false, false)
    else if destructive then (OUT_REQUIRE_HUMAN_APPROVAL, [], true, true)
    else if tier_rank tier <? tier_rank "PROVEN_NETWORK_IMPACT"
    then (OUT_PREVIEW_ONLY, [], false, false)
    else ((if negb dry_run then OUT_ALLOW else OUT_PREVIEW_ONLY), [], false, false) in
  let '(outcome, requires_approval) :=
    if decision.(de_requires_human_review) then (OUT_REQUIRE_HUMAN_APPROVAL, true)
    else (outcome, requires_approval) in
  let allowed :=
    bool_decide (outcome ∈ [OUT_ALLOW; OUT_PREVIEW_ONLY; OUT_REQUIRE_HUMAN_APPROVAL]) in
  {| ev_evaluation_id := "peval-" ++ decision.(de_decision_id);
     ev_decision_id := decision.(de_decision_id);
     ev_timestamp_utc := decision.(de_timestamp_utc);
     ev_requested_action := action;
     ev_evidence_tier := tier;
     ev_outcome := outcome;
     ev_allowed := allowed && negb (PyStr.mem action blocked);
     ev_requires_approval := requires_approval;
     ev_requires_rollback_plan := requires_rollback;
     ev_blocked_reasons := blocked;
     ev_rationale := POLICY_RATIONALE |}.

(** ** Outcome vocabulary *)

Inductive CanonicalPolicyGate :=
| GATE_ALLOW | GATE_PREVIEW | GATE_BLOCK | GATE_REQUIRE_CONFIRMATION | GATE_REQUIRE_ADMIN
| GATE_REQUIRE_HUMAN_REVIEW.

Definition _LEGACY_OUTCOMES : list (string * CanonicalPolicyGate) :=
  [("ALLOW", GATE_ALLOW);
   ("ALLOW_OBSERVE", GATE_ALLOW);
   ("ALLOW_PREVIEW", GATE_PREVIEW);
   ("PREVIEW", GATE_PREVIEW);
   ("PREVIEW_ONLY", GATE_PREVIEW);
   ("OBSERVE", GATE_ALLOW);
   ("BLOCK", GATE_BLOCK);
   ("BLOCK_DESTRUCTIVE", GATE_BLOCK);
   ("BLOCK_RECOMMENDED", GATE_BLOCK);
   ("BLOCK_UNSAFE_ACTION", GATE_BLOCK);
   ("BLOCK_AUTOMATION", GATE_BLOCK);
   ("BLOCK_LOW_CONFIDENCE", GATE_BLOCK);
   ("REQUIRE_TYPED_CONFIRMATION", GATE_REQUIRE_CONFIRMATION);
   ("REQUIRE_CONFIRMATION", GATE_REQUIRE_CONFIRMATION);
   ("REQUIRE_ADMIN", GATE_REQUIRE_ADMIN);
   ("REQUIRE_HUMAN_APPROVAL", GATE_REQUIRE_HUMAN_REVIEW);
   ("REQUIRE_HUMAN_REVIEW", GATE_REQUIRE_HUMAN_REVIEW);
   ("HUMAN_REVIEW_REQUIRED", GATE_REQUIRE_HUMAN_REVIEW);
   ("ESCALATE_REVIEW", GATE_REQUIRE_HUMAN_REVIEW);
   ("CORRELATION_ONLY_ALERT", GATE_PREVIEW);
   ("ROLLBACK_REQUIRED", GATE_REQUIRE_HUMAN_REVIEW)].

Definition normalize_policy_outcome (outcome : string) : CanonicalPolicyGate :=
  let key := PyStr.upper (PyStr.strip outcome) in
  if PyStr.is_empty key then GATE_PREVIEW
  else match List.find (fun kv => String.eqb kv.1 key) _LEGACY_OUTCOMES with
       | Some kv => kv.2
       | None => GATE_PREVIEW
       end.

(** ** The planner *)

(** What a call takes from the machine and from pydantic: the clock readings, the
    random hex of the decision, the range check [ge=0.0, le=1.0] of a confidence,
    the fresh token and the draws of the rollback builders. *)
Record plan_env := {
  pe_item_now : nat -> string;
  pe_bundle_now : string;
  pe_decision_hex : string;
  pe_decision_now : string;
  pe_in_unit : F64.t -> bool;
  pe_snapshot : draw;
  pe_token : string;
  pe_package : package_draws;
  pe_plan : package_draws;
  pe_plan_snapshot : draw;
}.

Definition BUNDLE_TIERS : list string := EVIDENCE_TIER_ORDER.

Section WithHost.
Context {H : PyHost}.

(** The bundle; the items are validated before it, with the same error. *)
Definition _bundle_from_signals (env : plan_env) (signals : pydict) (incident_id tier : string)
    : result EvidenceBundle :=
  let items :=
    imap (fun i kv =>
      {| ei_evidence_id := "ev-" ++ PyStr.of_Z (Z.of_nat i); ei_event_id := incident_id;
         ei_timestamp_utc := env.(pe_item_now) i; ei_source := "remediation_planner";
         ei_signal := kv.1; ei_observed_value := py_str kv.2; ei_tier := tier |})
      (sorted_by String.ltb fst signals) in
  if PyStr.mem tier BUNDLE_TIERS
  then Ok {| eb_bundle_id := "bundle-" ++ incident_id; eb_incident_id := incident_id;
             eb_created_at := env.(pe_bundle_now); eb_tier := tier; eb_items := items |}
  else Raise ValueError.

Definition plan_decision (env : plan_env) (signals : pydict) (incident_id recommended_action : string)
    (bundle : EvidenceBundle) : result Decision :=
  confidence ← py_float (Dict.get_default "confidence" (PFloat (F64.lit 5 10)) signals);
  if negb (env.(pe_in_unit) confidence) then Raise ValueError else
  Ok {| de_decision_id := "dec-" ++ PyStr.take 12 env.(pe_decision_hex);
        de_incident_id := incident_id;
        de_timestamp_utc := env.(pe_decision_now);
        de_incident_type :=
          py_str (Dict.get_default "incident_type" (PStr "WININET_PROXY_DRIFT") signals);
        de_recommended_action := recommended_action;
        de_confidence := confidence;
        de_risk_level := "medium";
        de_evidence_tier := bundle.(eb_tier);
        de_reasoning :=
          "Proxy drift with direct-path success suggests disabling WinINET proxy after approval.";
        de_requires_human_review := true |}.

(** The result dictionary once the parts are built. *)
Definition plan_result (incident_id : string) (dry_run : bool) (decision : Decision)
    (policy : PolicyEvaluation) (previews : list pydict) (rollback rollback_preview : pydict)
    (approval_token : string) (approved : bool) : pydict :=
  let can_execute :=
    approved && bool_decide (policy.(ev_outcome) ∈ [OUT_ALLOW; OUT_REQUIRE_HUMAN_APPROVAL])
    && negb dry_run in
  ["incident_id" :-> PStr incident_id;
   "dry_run" :-> PBool dry_run;
   "decision" :-> PDict (decision_dump decision);
   "policy_gate" :-> PDict (evaluation_dump policy);
   "previews" :-> PList (map PDict previews);
   "rollback_plan" :-> PDict rollback;
   "rollback_preview" :-> PDict rollback_preview;
   "approval" :-> PDict
     ["required" :-> PBool (policy.(ev_requires_approval)
                            || bool_decide (policy.(ev_outcome) = OUT_REQUIRE_HUMAN_APPROVAL));
      "token_expected_hint" :-> PStr
        (if dry_run then PyStr.take 8 approval_token ++ "…" else "");
      "approved" :-> PBool approved;
      "can_execute" :-> PBool can_execute];
   "blocked_reasons" :-> str_list policy.(ev_blocked_reasons);
   "rationale" :-> PStr policy.(ev_rationale);
   "safety_notes" :-> str_list
     ["No registry mutation without typed confirmation.";
      "Policy permission is not a safety guarantee.";
      "Rollback plan must be reviewed before execution."]].

(** The preview module is part of the repository, so its import succeeds. *)
Definition plan_proxy_drift_remediation (env : plan_env) (incident_id recommended_action : string)
    (signals : option pydict) (prior_proxy_enable : Z) (prior_proxy_server : string)
    (dry_run : bool) (confirmation_token expected_token : string) : result pydict :=
  let signals := default [] signals in
  bundle ← _bundle_from_signals env signals incident_id
    (py_str (Dict.get_default "evidence_tier" (PStr "OBSERVED_ONLY") signals));
  decision ← plan_decision env signals incident_id recommended_action bundle;
  let policy :=
    evaluate_policy decision bundle recommended_action
      (Some (proof_inputs_from_signals signals)) dry_run in
  previews ←
    (if bool_decide (policy.(ev_outcome) = OUT_BLOCK) then Ok []
     else p ← preview_proxy_disable true; Ok [p]);
  let endpoint := py_str (Dict.get_default "endpoint_id" (PStr "local") signals) in
  let server := if PyStr.is_empty prior_proxy_server then "127.0.0.1:8080" else prior_proxy_server in
  let pre_snapshot :=
    capture_pre_change_snapshot env.(pe_snapshot) endpoint incident_id signals
      (Some prior_proxy_enable) (Some server) in
  let mutations :=
    match previews with
    | p :: _ => match Dict.get "mutations" p with PList l => l | _ => [] end
    | [] => []
    end in
  let mutation_preview :=
    build_proposed_mutation_preview recommended_action endpoint true mutations in
  let approval_token := if PyStr.is_empty expected_token then env.(pe_token) else expected_token in
  rollback_preview ←
    build_rollback_preview_package env.(pe_package) endpoint incident_id recommended_action
      pre_snapshot mutation_preview true approval_token confirmation_token "";
  rollback ←
    build_rollback_plan env.(pe_plan) env.(pe_plan_snapshot) recommended_action
      prior_proxy_enable server true;
  approved ←
    (if PyStr.is_empty confirmation_token then Ok false
     else validate_approval_token confirmation_token approval_token);
  Ok (plan_result incident_id dry_run decision policy previews rollback rollback_preview
        approval_token approved).
End WithHost.

(** ** The engine's decisions *)

(** The proofs the engine uses. *)
Definition effective_proof (bundle : EvidenceBundle) (proof : option ProofInputs) : ProofInputs :=
  default (proof_inputs_from_signals (bundle_signals bundle)) proof.

Lemma mem_self a l : PyStr.mem a (a :: l) = true.
Proof. apply PyStr.mem_In. by left. Qed.

(** C25: a destructive action is never simply allowed nor only previewed.  The engine
    permits it exactly when the bundle has the rank of final causation, the writer
    telemetry, the process lineage, the timestamp alignment and the path validation are
    all there and no manual override is asked for; it then asks for human approval and a
    rollback plan.  Otherwise it refuses, with the action and the missing causation as its
    reasons.  A dry run gets the same answer as a live one. *)
Theorem destructive_needs_causation decision bundle action proof dry :
  is_destructive (normalize_action action) = true ->
  let ev := evaluate_policy decision bundle action proof dry in
  let p := effective_proof bundle proof in
  ev.(ev_outcome) <> OUT_ALLOW /\ ev.(ev_outcome) <> OUT_PREVIEW_ONLY /\
  (ev.(ev_allowed) = true <->
     tier_rank "FINAL_CAUSATION" <= tier_rank bundle.(eb_tier) /\
     p.(has_registry_writer_telemetry) = true /\ p.(has_process_lineage) = true /\
     p.(has_timestamp_alignment) = true /\ p.(has_path_validation) = true /\
     p.(manual_tier_override) = false) /\
  (ev.(ev_allowed) = true ->
     ev.(ev_outcome) = OUT_REQUIRE_HUMAN_APPROVAL /\ ev.(ev_requires_approval) = true /\
     ev.(ev_requires_rollback_plan) = true /\ ev.(ev_blocked_reasons) = []) /\
  (ev.(ev_allowed) = false ->
     ev.(ev_blocked_reasons) = [normalize_action action; "destructive_without_final_causation"] /\
     ev.(ev_requires_rollback_plan) = false /\
     (decision.(de_requires_human_review) = false -> ev.(ev_outcome) = OUT_BLOCK)) /\
  evaluate_policy decision bundle action proof (negb dry) = ev.
Proof.
  intros Hd. cbn zeta. rewrite <- causation_proofs, <- unlock_iff.
  unfold evaluate_policy. cbn zeta. rewrite Hd. fold (effective_proof bundle proof).
  destruct (can_unlock_destructive_remediation (eb_tier bundle) (effective_proof bundle proof)).
  - destruct (de_requires_human_review decision); cbn; repeat split; done.
  - destruct (de_requires_human_review decision);
      cbn -[PyStr.mem]; rewrite mem_self; cbn; repeat split; done.
Qed.

(** For an action that is not destructive the engine never blocks; it allows a
    live run exactly when the evidence reaches network impact, the call is not a dry
    run and the decision asks for no review, and asks for approval exactly when the
    decision does. *)
Theorem harmless_action_outcome decision bundle action proof dry :
  is_destructive (normalize_action action) = false ->
  let ev := evaluate_policy decision bundle action proof dry in
  ev.(ev_allowed) = true /\ ev.(ev_blocked_reasons) = [] /\
  (ev.(ev_outcome) = OUT_ALLOW <->
     tier_rank "PROVEN_NETWORK_IMPACT" <= tier_rank bundle.(eb_tier) /\ dry = false /\
     decision.(de_requires_human_review) = false) /\
  (ev.(ev_outcome) = OUT_REQUIRE_HUMAN_APPROVAL <-> decision.(de_requires_human_review) = true).
Proof.
  intros Hd. cbn zeta. unfold evaluate_policy. cbn zeta. rewrite Hd. cbn [andb].
  destruct (tier_rank (eb_tier bundle) <? tier_rank "PROVEN_NETWORK_IMPACT") eqn:E;
    destruct (de_requires_human_review decision), dry; cbn -[tier_rank];
    (split; [done|]); (split; [done|]); split; split; try done; intros; try lia.
  all: try (split; [lia|]; done).
Qed.

(** An unknown or empty outcome is a preview: only three spellings allow. *)
Lemma normalize_outcome_allow o :
  normalize_policy_outcome o = GATE_ALLOW <->
  In (PyStr.upper (PyStr.strip o)) ["ALLOW"; "ALLOW_OBSERVE"; "OBSERVE"].
Proof.
  unfold normalize_policy_outcome. generalize (PyStr.upper (PyStr.strip o)). intros k. split.
  - destruct (PyStr.is_empty k); [done|].
    destruct (List.find _ _) as [kv|] eqn:Ef; [|done]. apply find_some in Ef as [Hin Ek].
    apply String.eqb_eq in Ek. subst k. intros Hv. cbn in Hin.
    repeat destruct Hin as [<- | Hin]; cbn in Hv; try discriminate; cbn; tauto.
  - cbn. intros [<- | [<- | [<- | []]]]; reflexivity.
Qed.

(** A decision that asks for review always gets the approval outcome, blocked or not. *)
Lemma evaluate_under_review decision bundle action proof dry :
  decision.(de_requires_human_review) = true ->
  (evaluate_policy decision bundle action proof dry).(ev_outcome) = OUT_REQUIRE_HUMAN_APPROVAL.
Proof.
  intros Hr. unfold evaluate_policy. rewrite Hr.
  destruct (_ && negb _); [done|]. destruct (is_destructive _); [done|]. by destruct (_ <? _).
Qed.

Lemma evaluate_allowed decision bundle action proof dry :
  decision.(de_requires_human_review) = true ->
  (evaluate_policy decision bundle action proof dry).(ev_allowed) =
    negb (is_destructive (normalize_action action))
    || can_unlock_destructive_remediation bundle.(eb_tier) (effective_proof bundle proof).
Proof.
  intros Hr. unfold evaluate_policy. rewrite Hr. fold (effective_proof bundle proof).
  destruct (is_destructive _); cbn [andb negb orb].
  - destruct (can_unlock_destructive_remediation _ _); cbn -[PyStr.mem]; [done|].
    by rewrite mem_self.
  - by destruct (_ <? _).
Qed.

Section Planner.
Context {H : PyHost}.

Lemma plan_decision_review env signals incident action bundle d :
  plan_decision env signals incident action bundle = Ok d -> d.(de_requires_human_review) = true.
Proof.
  unfold plan_decision. intros E. apply bind_Ok in E as (c & _ & E).
  destruct (negb _); [done|]. by injection E as <-.
Qed.

(** The token a confirmation is compared with. *)
Definition plan_token (env : plan_env) (expected_token : string) : string :=
  if PyStr.is_empty expected_token then env.(pe_token) else expected_token.

(** What a returned plan says about execution.  Its policy outcome is always human
    approval; it reports that it can execute exactly when the call is not a dry run
    and the confirmation token matches, whatever the evidence; and the policy gate it
    carries is allowed only for a harmless action or with final causation, so a plan
    may report both a refused gate and a possible execution. *)
Theorem plan_execution_gate env incident action signals prior server dry tok exp out :
  plan_proxy_drift_remediation env incident action signals prior server dry tok exp = Ok out ->
  exists gate approval tier,
    Dict.lookup "policy_gate" out = Some (PDict gate) /\
    Dict.lookup "approval" out = Some (PDict approval) /\
    Dict.lookup "outcome" gate = Some (PStr "REQUIRE_HUMAN_APPROVAL") /\
    Dict.lookup "evidence_tier" gate = Some (PStr tier) /\
    Dict.lookup "allowed" gate =
      Some (PBool (negb (is_destructive (normalize_action action))
                   || can_unlock_destructive_remediation tier
                        (proof_inputs_from_signals (default [] signals)))) /\
    (Dict.lookup "can_execute" approval = Some (PBool true) <->
       dry = false /\ tok <> "" /\ validate_approval_token tok (plan_token env exp) = Ok true).
Proof.
  unfold plan_proxy_drift_remediation. intros E.
  apply bind_Ok in E as (bundle & _ & E). apply bind_Ok in E as (d & Ed & E).
  apply plan_decision_review in Ed. cbn zeta in E.
  apply bind_Ok in E as (previews & _ & E). apply bind_Ok in E as (rp & _ & E).
  apply bind_Ok in E as (rb & _ & E). apply bind_Ok in E as (approved & Eap & E).
  injection E as <-. fold (plan_token env exp) in Eap.
  set (p := Some (proof_inputs_from_signals (default [] signals))).
  pose proof (evaluate_under_review d bundle action p dry Ed) as Ho.
  pose proof (evaluate_allowed d bundle action p dry Ed) as Ha.
  change (effective_proof bundle p) with (proof_inputs_from_signals (default [] signals)) in Ha.
  eexists _, _, (eb_tier bundle). split; [reflexivity|]. split; [reflexivity|].
  split; [cbn; by rewrite Ho|]. split.
  { cbn. unfold evaluate_policy. rewrite Ed. destruct (_ && negb _); [done|].
    destruct (is_destructive _); [done|]. by destruct (_ <? _). }
  split; [by rewrite <- Ha|]. cbn -[evaluate_policy]. rewrite Ho. cbn. rewrite andb_true_r.
  destruct (PyStr.is_empty tok) eqn:Et.
  - injection Eap as <-. apply PyStr.is_empty_true in Et. cbn. intuition congruence.
  - apply PyStr.is_empty_false in Et. rewrite Eap. destruct approved, dry; cbn; intuition congruence.
Qed.
End Planner.

(** ** Concrete instances *)
Module EvidencePolicyWitness.
#[local] Instance host : PyHost := DemoHost.demo_host.

Definition dr : draw := {| hex := "0123456789abcdef"; at_utc := "2026-01-01T00:00:00Z" |}.
Definition draws : package_draws :=
  {| pd_token := "fresh"; pd_reversible := dr; pd_preview := dr; pd_audit := dr |}.
Definition env : plan_env :=
  {| pe_item_now := fun _ => "2026-01-01T00:00:00Z"; pe_bundle_now := "2026-01-01T00:00:00Z";
     pe_decision_hex := "0123456789abcdef"; pe_decision_now := "2026-01-01T00:00:00Z";
     pe_in_unit := fun c => F64.leb F64.zero c && F64.leb c (F64.of_Z 1);
     pe_snapshot := dr; pe_token := "fresh"; pe_package := draws; pe_plan := draws;
     pe_plan_snapshot := dr |}.

(** A plan made on an observation alone, confirmed with the right token. *)
Definition plan : result pydict :=
  plan_proxy_drift_remediation env "inc-1" "disable_wininet_proxy"
    (Some ["listener_on_proxy_port" :-> PBool true]) 1 "" false "cafe" "cafe".
Definition plan_out : pydict := match plan with Ok d => d | Raise _ => [] end.

Lemma plan_execution_gate_witness :
  exists gate approval,
    Dict.lookup "policy_gate" plan_out = Some (PDict gate) /\
    Dict.lookup "approval" plan_out = Some (PDict approval) /\
    Dict.lookup "allowed" gate = Some (PBool false) /\
    Dict.lookup "can_execute" approval = Some (PBool true).
Proof.
  destruct (plan_execution_gate env "inc-1" "disable_wininet_proxy"
              (Some ["listener_on_proxy_port" :-> PBool true]) 1 "" false "cafe" "cafe" plan_out)
    as (gate & approval & tier & Hg & Ha & _ & Ht & Hal & Hc).
  { vm_compute. reflexivity. }
  exists gate, approval. split; [exact Hg|]. split; [exact Ha|]. split.
  - vm_compute in Hg. injection Hg as <-. reflexivity.
  - apply Hc. split; [reflexivity|]. split; [discriminate|]. vm_compute. reflexivity.
Defined.

Definition decision (review : bool) : Decision :=
  {| de_decision_id := "dec-1"; de_incident_id := "inc-1";
     de_timestamp_utc := "2026-01-01T00:00:00Z"; de_incident_type := "WININET_PROXY_DRIFT";
     de_recommended_action := "observe"; de_confidence := F64.lit 1 2; de_risk_level := "low";
     de_evidence_tier := "FINAL_CAUSATION"; de_reasoning := "";
     de_requires_human_review := review |}.
Definition item (signal value : string) : EvidenceItem :=
  {| ei_evidence_id := "ev"; ei_event_id := "inc-1"; ei_timestamp_utc := "2026-01-01T00:00:00Z";
     ei_source := "probe"; ei_signal := signal; ei_observed_value := value;
     ei_tier := "FINAL_CAUSATION" |}.
Definition bundle : EvidenceBundle :=
  {| eb_bundle_id := "b"; eb_incident_id := "inc-1"; eb_created_at := "2026-01-01T00:00:00Z";
     eb_tier := "FINAL_CAUSATION";
     eb_items := [item "sysmon_event_13" "True"; item "process_lineage" "yes";
                  item "timestamp_alignment" "1"; item "path_validated" "on"] |}.

Lemma destructive_needs_causation_witness :
  (evaluate_policy (decision false) bundle "disable-wininet-proxy" None false).(ev_allowed) = true.
Proof.
  destruct (destructive_needs_causation (decision false) bundle "disable-wininet-proxy" None false
              eq_refl) as (_ & _ & Hiff & _).
  apply Hiff. split; [vm_compute; discriminate|]. vm_compute. repeat split; reflexivity.
Defined.

Lemma harmless_action_outcome_witness :
  (evaluate_policy (decision false) bundle "flush_dns" None false).(ev_outcome) = OUT_ALLOW.
Proof.
  destruct (harmless_action_outcome (decision false) bundle "flush_dns" None false eq_refl)
    as (_ & _ & Hiff & _).
  apply Hiff. split; [vm_compute; discriminate|]. split; reflexivity.
Defined.

(** Signals read back from a bundle are strings: a printed [False] hides the writer
    telemetry that stands beside it. *)
Example printed_false_hides_writer :
  let b := {| eb_bundle_id := "b"; eb_incident_id := "i"; eb_created_at := "";
              eb_tier := "PROVEN_REGISTRY_WRITER";
              eb_items := [item "sysmon_event_13" "False"; item "registry_writer_observed" "True"] |} in
  (proof_inputs_from_signals (bundle_signals b)).(has_registry_writer_telemetry) = false /\
  (proof_inputs_from_signals
     ["sysmon_event_13" :-> PBool false; "registry_writer_observed" :-> PBool true])
    .(has_registry_writer_telemetry) = true.
Proof. vm_compute. split; reflexivity. Qed.
End EvidencePolicyWitness.
