(* ===== verification/Timing.v ===== *)
(** * Timing: urgency, SLA clocks, windows

    [src/platform_core/timing/]: the SLA and evidence clocks ([sla.py]), the
    maintenance and business-hours windows in a named time zone ([windows.py]) and
    the evaluator that turns them into a timing decision ([evaluator.py]).

    A UTC date-time is its wall clock in microseconds ([PyTime]); a time of day is
    microseconds since midnight.  The time-zone database is a parameter. *)

From S2P Require Import Prelude PyValue PyTime.
From Stdlib Require Import Ascii String SpecFloat.
From stdpp Require Import strings.

Open Scope string_scope.
Open Scope Z_scope.
Open Scope py_scope.

#[local] Ltac Zify.zify_post_hook ::= Z.to_euclidean_division_equations.

(** ** Vocabulary ([models.py]) *)

Inductive Urgency := URG_LOW | URG_MEDIUM | URG_HIGH | URG_CRITICAL.

Inductive TimingDecision :=
| TD_READY | TD_ESCALATE_NOW | TD_MONITOR_UNTIL | TD_DEFERRED_TO_WINDOW
| TD_BLOCKED_BY_CHANGE_FREEZE | TD_EVIDENCE_EXPIRED | TD_SLA_OVERDUE.

Inductive TimingReasonCode :=
| TR_WITHIN_SLA | TR_SLA_BREACHED | TR_EVIDENCE_VALID | TR_EVIDENCE_STALE
| TR_IN_MAINTENANCE_WINDOW | TR_OUTSIDE_MAINTENANCE_WINDOW | TR_CHANGE_FREEZE_ACTIVE
| TR_BUSINESS_HOURS | TR_AFTER_HOURS | TR_HIGH_URGENCY_ESCALATION | TR_RETRY_AFTER_SET.

#[export] Instance Urgency_eq_dec : EqDecision Urgency.
Proof. solve_decision. Defined.
#[export] Instance TimingDecision_eq_dec : EqDecision TimingDecision.
Proof. solve_decision. Defined.
#[export] Instance TimingReasonCode_eq_dec : EqDecision TimingReasonCode.
Proof. solve_decision. Defined.

Definition urgency_value (u : Urgency) : string :=
  match u with
  | URG_LOW => "low" | URG_MEDIUM => "medium" | URG_HIGH => "high" | URG_CRITICAL => "critical"
  end.

(** [Urgency(text)]; [None] is its [ValueError]. *)
Definition urgency_of_value (s : string) : option Urgency :=
  if String.eqb s "low" then Some URG_LOW
  else if String.eqb s "medium" then Some URG_MEDIUM
  else if String.eqb s "high" then Some URG_HIGH
  else if String.eqb s "critical" then Some URG_CRITICAL
  else None.

Definition timing_decision_value (d : TimingDecision) : string :=
  match d with
  | TD_READY => "READY" | TD_ESCALATE_NOW => "ESCALATE_NOW" | TD_MONITOR_UNTIL => "MONITOR_UNTIL"
  | TD_DEFERRED_TO_WINDOW => "DEFERRED_TO_WINDOW"
  | TD_BLOCKED_BY_CHANGE_FREEZE => "BLOCKED_BY_CHANGE_FREEZE"
  | TD_EVIDENCE_EXPIRED => "EVIDENCE_EXPIRED" | TD_SLA_OVERDUE => "SLA_OVERDUE"
  end.

Definition timing_reason_value (r : TimingReasonCode) : string :=
  match r with
  | TR_WITHIN_SLA => "WITHIN_SLA" | TR_SLA_BREACHED => "SLA_BREACHED"
  | TR_EVIDENCE_VALID => "EVIDENCE_VALID" | TR_EVIDENCE_STALE => "EVIDENCE_STALE"
  | TR_IN_MAINTENANCE_WINDOW => "IN_MAINTENANCE_WINDOW"
  | TR_OUTSIDE_MAINTENANCE_WINDOW => "OUTSIDE_MAINTENANCE_WINDOW"
  | TR_CHANGE_FREEZE_ACTIVE => "CHANGE_FREEZE_ACTIVE"
  | TR_BUSINESS_HOURS => "BUSINESS_HOURS" | TR_AFTER_HOURS => "AFTER_HOURS"
  | TR_HIGH_URGENCY_ESCALATION => "HIGH_URGENCY_ESCALATION"
  | TR_RETRY_AFTER_SET => "RETRY_AFTER_SET"
  end.

Record TimingContext := {
  tc_case_id : string;
  tc_detected_at_utc : string;
  tc_evaluated_at_utc : string;
  tc_timezone : string;
  tc_urgency : Urgency;
  tc_action_window_start_utc : option string;
  tc_action_window_end_utc : option string;
  tc_sla_due_utc : string;
  tc_evidence_expires_utc : string;
  tc_retry_after_utc : option string;
  tc_maintenance_window_required : bool;
  tc_in_maintenance_window : option bool;
  tc_change_freeze_active : bool;
  tc_business_hours : bool;
  tc_decision : TimingDecision;
  tc_reason_codes : list TimingReasonCode;
  tc_inputs_fingerprint : string;
  tc_timezone_requested : pyval;   (** [config_refs["timezone_requested"]] *)
}.

(** ** Clocks ([sla.py]) *)

Definition DEFAULT_SLA_HOURS (u : Urgency) : F64.t :=
  F64.of_Z match u with URG_LOW => 72 | URG_MEDIUM => 24 | URG_HIGH => 8 | URG_CRITICAL => 2 end.

Definition DEFAULT_EVIDENCE_TTL_HOURS (u : Urgency) : F64.t :=
  F64.of_Z
    match u with URG_LOW => 168 | URG_MEDIUM => 48 | URG_HIGH => 24 | URG_CRITICAL => 12 end.

(** [timedelta(hours=h)] in microseconds: whole hours exactly, the fraction in
    floating point, its remainder rounded to even.  A value beyond the range of
    [timedelta] is beyond the range of dates too and raises the same error there. *)
Definition timedelta_hours (h : F64.t) : result Z :=
  whole ← F64.to_int h;
  let frac := F64.sub h (F64.of_Z whole) in
  let us := F64.mul (F64.of_Z 3600000000) frac in
  us_whole ← F64.to_int us;
  let leftover := F64.sub us (F64.of_Z us_whole) in
  let x := whole * 3600000000 + us_whole in
  let half := F64.lit 1 2 in
  Ok (if F64.ltb half leftover || (F64.eqb leftover half && Z.odd x) then x + 1
      else if F64.ltb leftover (SFopp half) || (F64.eqb leftover (SFopp half) && Z.odd x)
      then x - 1 else x).

(** [dt + timedelta]. *)
Definition dt_add (us delta : Z) : result Z :=
  if in_range (us + delta) then Ok (us + delta) else Raise OverflowError.

(** [(dt if dt.tzinfo else dt.replace(tzinfo=UTC)).astimezone(UTC)]. *)
Definition utc_of (dt : datetime) : result Z :=
  match dt.(dt_offset) with
  | None => Ok dt.(dt_wall)
  | Some off => to_utc dt.(dt_wall) off
  end.

Definition sla_due_utc (detected : datetime) (urgency : Urgency) (hours : option F64.t) : result Z :=
  base ← utc_of detected;
  delta ← timedelta_hours (default (DEFAULT_SLA_HOURS urgency) hours);
  dt_add base delta.

Definition evidence_expires_utc (detected : datetime) (urgency : Urgency) (hours : option F64.t)
    : result Z :=
  base ← utc_of detected;
  delta ← timedelta_hours (default (DEFAULT_EVIDENCE_TTL_HOURS urgency) hours);
  dt_add base delta.

(** Every caller passes an aware UTC date-time. *)
Definition format_utc (us : Z) : string := format_utc_wall us.

(** ** Time zones *)

(** What [zoneinfo] provides: whether a key names a zone (or which error the lookup
    raises), the offset in force at a UTC instant, and the offset of a wall-clock
    reading in the zone. *)
Inductive zone_lookup := ZoneFound | ZoneInfoNotFoundError | ZoneError (e : pyexc).

Class TzDatabase := {
  zone_key : string -> zone_lookup;
  offset_at : string -> Z -> Z;
  offset_of_wall : string -> Z -> Z;
}.

(** Documented: an offset is strictly between -24 and 24 hours, and UTC is the zone
    of offset zero. *)
Class TzLaws (D : TzDatabase) : Prop := {
  offset_at_bound : forall z t, - US_PER_DAY < offset_at z t < US_PER_DAY;
  offset_of_wall_bound : forall z t, - US_PER_DAY < offset_of_wall z t < US_PER_DAY;
  utc_found : zone_key "UTC" = ZoneFound;
  utc_offset_at : forall t, offset_at "UTC" t = 0;
  utc_offset_of_wall : forall t, offset_of_wall "UTC" t = 0;
}.

(** ** Windows ([windows.py]) *)

Section Windows.
Context {D : TzDatabase}.

(** A zone is its key. *)
Definition resolve_tz (tz_name : option string) : result string :=
  let name :=
    match tz_name with
    | Some s => if PyStr.is_empty s then "UTC" else s
    | None => "UTC"
    end in
  let name := PyStr.strip name in
  let name := if PyStr.is_empty name then "UTC" else name in
  match zone_key name with
  | ZoneFound => Ok name
  | ZoneInfoNotFoundError => Ok "UTC"
  | ZoneError e => Raise e
  end.

Definition parse_utc (iso : string) : result Z :=
  match fromisoformat (replace_z (PyStr.strip iso)) with
  | None => Raise ValueError
  | Some dt => utc_of dt
  end.

(** The wall clock in the zone. *)
Definition to_local (dt_utc : Z) (tz : string) : result Z := dt_add dt_utc (offset_at tz dt_utc).

Definition is_business_hours (dt_utc : Z) (tz : string) (start stop : Z)
    (weekdays : option (list Z)) : result bool :=
  let days := default [0; 1; 2; 3; 4] weekdays in
  local ← to_local dt_utc tz;
  if negb (existsb (Z.eqb (Cal.weekday (dt_ordinal local))) days) then Ok false
  else Ok ((start <=? dt_time local) && (dt_time local <? stop)).

Definition in_named_window (dt_utc : Z) (tz : string) (window_start_local window_end_local : Z)
    (weekdays : option (list Z)) : result bool :=
  is_business_hours dt_utc tz window_start_local window_end_local weekdays.

(** [datetime.combine(date, start, tzinfo=tz).astimezone(UTC)] for the day with
    ordinal [ord]. *)
Definition combine_utc (tz : string) (ord start : Z) : result Z :=
  let wall := (ord - 1) * US_PER_DAY + start in
  to_utc wall (offset_of_wall tz wall).

(** One pass of the search loop over the remaining day offsets. *)
Fixpoint search_window (dt_utc local : Z) (tz : string) (start : Z) (days : list Z)
    (offsets : list Z) : result (option Z) :=
  match offsets with
  | [] => Ok None
  | offset :: rest =>
      day ← (if offset =? 0 then Ok local else dt_add local (offset * US_PER_DAY));
      let ord := dt_ordinal day in
      if negb (existsb (Z.eqb (Cal.weekday ord)) days)
      then search_window dt_utc local tz start days rest
      else
        candidate_utc ← combine_utc tz ord start;
        if dt_utc <? candidate_utc then Ok (Some candidate_utc)
        else search_window dt_utc local tz start days rest
  end.

Definition next_window_start_utc (dt_utc : Z) (tz : string) (window_start_local : Z)
    (weekdays : option (list Z)) : result Z :=
  let days := default [0; 1; 2; 3; 4; 5; 6] weekdays in
  local ← to_local dt_utc tz;
  found ← search_window dt_utc local tz window_start_local days [0; 1; 2; 3; 4; 5; 6; 7];
  match found with
  | Some candidate_utc => Ok candidate_utc
  | None =>
      fallback ← dt_add local US_PER_DAY;
      combine_utc tz (dt_ordinal fallback) window_start_local
  end.
End Windows.

(** ** The evaluator *)

Definition hm (h m : Z) : Z := (h * 60 + m) * 60 * US_PER_SEC.

Section Evaluator.
Context {H : PyHost} {D : TzDatabase}.

(** [json.dumps(payload, sort_keys=True, default=str)], hashed and cut. *)
Definition _fingerprint (payload : pydict) : string :=
  PyStr.take 16 (sha256_hexdigest (Json.dumps_default (PDict payload))).

Definition _urgency_from (classification policy_outcome : string) (explicit : pyval) : Urgency :=
  match (if py_bool explicit then urgency_of_value (PyStr.lower (py_str explicit)) else None) with
  | Some u => u
  | None =>
      let cls := PyStr.upper classification in
      if PyStr.mem cls ["POSSIBLE_MITM_RISK"; "UNKNOWN_LOCAL_PROXY"] then URG_HIGH
      else if PyStr.mem cls ["DEAD_PROXY_CONFIG"] then URG_HIGH
      else if PyStr.mem (PyStr.upper policy_outcome) ["BLOCK"; "BLOCK_DESTRUCTIVE"] then URG_MEDIUM
      else URG_MEDIUM
  end.

Definition urgent (u : Urgency) : bool :=
  match u with URG_HIGH | URG_CRITICAL => true | _ => false end.

Abbreviation verdict := (TimingDecision * list TimingReasonCode)%type.

(** The five stages that refine the decision, in the order of the code. *)
Definition stage_clocks (now evidence_exp sla_due : Z) : verdict :=
  let '(d, r) :=
    if evidence_exp <=? now then (TD_EVIDENCE_EXPIRED, [TR_EVIDENCE_STALE])
    else (TD_READY, [TR_EVIDENCE_VALID]) in
  if (sla_due <=? now) && negb (bool_decide (d = TD_EVIDENCE_EXPIRED))
  then (TD_SLA_OVERDUE, (r ++ [TR_SLA_BREACHED])%list)
  else if negb (bool_decide (d = TD_EVIDENCE_EXPIRED)) then (d, (r ++ [TR_WITHIN_SLA])%list)
  else (d, r).

Definition stage_freeze (change_freeze_active : bool) (urg : Urgency) (v : verdict) : verdict :=
  let '(d, r) := v in
  if change_freeze_active
     && bool_decide (d ∈ [TD_READY; TD_DEFERRED_TO_WINDOW; TD_MONITOR_UNTIL])
  then if urgent urg
       then (TD_ESCALATE_NOW, (r ++ [TR_HIGH_URGENCY_ESCALATION; TR_CHANGE_FREEZE_ACTIVE])%list)
       else (TD_BLOCKED_BY_CHANGE_FREEZE, (r ++ [TR_CHANGE_FREEZE_ACTIVE])%list)
  else v.

Definition stage_maintenance (required : bool) (in_maint : option bool) (v : verdict) : verdict :=
  let '(d, r) := v in
  if required && bool_decide (in_maint = Some false)
     && bool_decide (d ∈ [TD_READY; TD_MONITOR_UNTIL])
  then (TD_DEFERRED_TO_WINDOW, (r ++ [TR_OUTSIDE_MAINTENANCE_WINDOW])%list)
  else if required && bool_decide (in_maint = Some true)
  then (d, (r ++ [TR_IN_MAINTENANCE_WINDOW])%list)
  else v.

Definition stage_urgency (urg : Urgency) (biz : bool) (v : verdict) : verdict :=
  let '(d, r) := v in
  if urgent urg && bool_decide (d = TD_READY) then
    if negb biz
    then (TD_ESCALATE_NOW, (r ++ [TR_HIGH_URGENCY_ESCALATION; TR_AFTER_HOURS])%list)
    else (if bool_decide (urg = URG_CRITICAL) then TD_ESCALATE_NOW else d,
          (r ++ [TR_BUSINESS_HOURS; TR_HIGH_URGENCY_ESCALATION])%list)
  else v.

(** A retry time that does not parse is ignored; one out of range is not. *)
Definition stage_retry (now : Z) (retry_after : option string) (v : verdict) : result verdict :=
  let '(d, r) := v in
  match retry_after with
  | None | Some "" => Ok v
  | Some text =>
      let r := (r ++ [TR_RETRY_AFTER_SET])%list in
      match parse_utc text with
      | Ok ra =>
          Ok (if (now <? ra) && bool_decide (d = TD_READY) then TD_MONITOR_UNTIL else d, r)
      | Raise ValueError => Ok (d, r)
      | Raise e => Raise e
      end
  end.

Definition stage_hours (biz : bool) (v : verdict) : verdict :=
  let '(d, r) := v in
  if biz then
    if negb (bool_decide (TR_BUSINESS_HOURS ∈ r)) && negb (bool_decide (TR_AFTER_HOURS ∈ r))
    then (d, (r ++ [TR_BUSINESS_HOURS])%list) else v
  else if negb (bool_decide (TR_AFTER_HOURS ∈ r)) then (d, (r ++ [TR_AFTER_HOURS])%list) else v.

(** Whether the local time is in the maintenance window, which may wrap midnight. *)
Definition maintenance_state (now : Z) (tz : string) (maintenance_start maintenance_end : Z)
    : result (bool * option Z) :=
  local ← to_local now tz;
  let t := dt_time local in
  let in_maint :=
    if maintenance_start <=? maintenance_end
    then (maintenance_start <=? t) && (t <? maintenance_end)
    else (maintenance_start <=? t) || (t <? maintenance_end) in
  if in_maint then Ok (true, None)
  else
    next ← next_window_start_utc now tz maintenance_start None;
    Ok (false, Some next).

(** The arguments of [evaluate_timing] with their defaults. *)
Record timing_args := {
  ta_case_id : string;
  ta_detected_at_utc : string;
  ta_evaluated_at_utc : option string;
  ta_timezone_name : option string;
  ta_classification : string;
  ta_policy_outcome : string;
  ta_urgency : option string;
  ta_maintenance_window_required : bool;
  ta_change_freeze_active : bool;
  ta_retry_after_utc : option string;
  ta_sla_hours : option F64.t;
  ta_evidence_ttl_hours : option F64.t;
  ta_business_hours_start : Z;
  ta_business_hours_end : Z;
  ta_maintenance_start : Z;
  ta_maintenance_end : Z;
  ta_config : option pydict;
}.

Definition text_or_none (o : option string) : pyval := of_opt PStr o.

(** [if key in cfg: value = bool(cfg[key])]. *)
Definition config_flag (cfg : pydict) (key : string) (value : bool) : bool :=
  match Dict.lookup key cfg with Some v => py_bool v | None => value end.

(** [clock_now] is what [datetime.now(UTC)] reads when no evaluation time is given. *)
Definition evaluate_timing (clock_now : Z) (a : timing_args) : result TimingContext :=
  let cfg := default [] a.(ta_config) in
  let tz_name :=
    py_or (py_or (text_or_none a.(ta_timezone_name)) (Dict.get "timezone" cfg)) (PStr "UTC") in
  tz ← resolve_tz (Some (py_str tz_name));
  detected ← parse_utc a.(ta_detected_at_utc);
  now ← match a.(ta_evaluated_at_utc) with
        | Some text => if PyStr.is_empty text then Ok clock_now else parse_utc text
        | None => Ok clock_now
        end;
  let urg :=
    _urgency_from a.(ta_classification) a.(ta_policy_outcome)
      (py_or (text_or_none a.(ta_urgency)) (Dict.get "urgency" cfg)) in
  let required :=
    config_flag cfg "maintenance_window_required" a.(ta_maintenance_window_required) in
  let freeze := config_flag cfg "change_freeze_active" a.(ta_change_freeze_active) in
  let detected_dt := {| dt_wall := detected; dt_offset := Some 0 |} in
  sla_due ← sla_due_utc detected_dt urg a.(ta_sla_hours);
  evidence_exp ← evidence_expires_utc detected_dt urg a.(ta_evidence_ttl_hours);
  biz ← is_business_hours now tz a.(ta_business_hours_start) a.(ta_business_hours_end) None;
  maint ←
    (if required
     then m ← maintenance_state now tz a.(ta_maintenance_start) a.(ta_maintenance_end); Ok (Some m)
     else Ok None);
  let in_maint := option_map fst maint in
  let action_start := maint ≫= snd in
  v ← stage_retry now a.(ta_retry_after_utc)
        (stage_urgency urg biz
           (stage_maintenance required in_maint
              (stage_freeze freeze urg (stage_clocks now evidence_exp sla_due))));
  let '(decision, reasons) := stage_hours biz v in
  let fp :=
    _fingerprint
      ["case_id" :-> PStr a.(ta_case_id);
       "detected_at_utc" :-> PStr (format_utc detected);
       "evaluated_at_utc" :-> PStr (format_utc now);
       "timezone" :-> PStr tz;
       "urgency" :-> PStr (urgency_value urg);
       "classification" :-> PStr a.(ta_classification);
       "maintenance_window_required" :-> PBool required;
       "change_freeze_active" :-> PBool freeze;
       "retry_after_utc" :-> text_or_none a.(ta_retry_after_utc)] in
  Ok {| tc_case_id := a.(ta_case_id);
        tc_detected_at_utc := format_utc detected;
        tc_evaluated_at_utc := format_utc now;
        tc_timezone := tz;
        tc_urgency := urg;
        tc_action_window_start_utc := option_map format_utc action_start;
        tc_action_window_end_utc := None;
        tc_sla_due_utc := format_utc sla_due;
        tc_evidence_expires_utc := format_utc evidence_exp;
        tc_retry_after_utc := a.(ta_retry_after_utc);
        tc_maintenance_window_required := required;
        tc_in_maintenance_window := in_maint;
        tc_change_freeze_active := freeze;
        tc_business_hours := biz;
        tc_decision := decision;
        tc_reason_codes := dedupe (fun x y => bool_decide (x = y)) reasons;
        tc_inputs_fingerprint := fp;
        tc_timezone_requested := tz_name |}.
End Evaluator.

(** ** The decision against its priorities *)

(** Whether a retry time lies in the future of [now]. *)
Definition retry_pending (now : Z) (retry_after : option string) : bool :=
  match retry_after with
  | None | Some "" => false
  | Some text => match parse_utc text with Ok ra => now <? ra | Raise _ => false end
  end.

(** The decision as a list of priorities. *)
Definition timing_reference (now evidence_exp sla_due : Z) (freeze required : bool)
    (in_maint : option bool) (urg : Urgency) (biz retry : bool) : TimingDecision :=
  if evidence_exp <=? now then TD_EVIDENCE_EXPIRED
  else if sla_due <=? now then TD_SLA_OVERDUE
  else if freeze then if urgent urg then TD_ESCALATE_NOW else TD_BLOCKED_BY_CHANGE_FREEZE
  else if required && bool_decide (in_maint = Some false) then TD_DEFERRED_TO_WINDOW
  else if urgent urg && (negb biz || bool_decide (urg = URG_CRITICAL)) then TD_ESCALATE_NOW
  else if retry then TD_MONITOR_UNTIL
  else TD_READY.

Lemma stage_hours_decision biz v : (stage_hours biz v).1 = v.1.
Proof. destruct v as [d r], biz; cbn -[bool_decide]; by repeat case_match. Qed.

Lemma stage_retry_decision now retry v v' :
  stage_retry now retry v = Ok v' ->
  v'.1 = if bool_decide (v.1 = TD_READY) && retry_pending now retry then TD_MONITOR_UNTIL else v.1.
Proof.
  destruct v as [d r]. cbn. unfold retry_pending.
  destruct retry as [[|c text]|]; [intros E; injection E as <-; by rewrite andb_false_r| |
    intros E; injection E as <-; by rewrite andb_false_r].
  destruct (parse_utc _) as [ra|e].
  - intros E. injection E as <-. cbn [fst]. by rewrite andb_comm.
  - rewrite andb_false_r. by destruct e; intros E; try discriminate E; injection E as <-.
Qed.

Lemma stages_reference now exp sla freeze required in_maint urg biz retry v :
  stage_retry now retry
    (stage_urgency urg biz
       (stage_maintenance required in_maint
          (stage_freeze freeze urg (stage_clocks now exp sla)))) = Ok v ->
  (stage_hours biz v).1 =
    timing_reference now exp sla freeze required in_maint urg biz (retry_pending now retry).
Proof.
  intros E. apply stage_retry_decision in E. rewrite stage_hours_decision, E. clear E.
  unfold timing_reference, stage_clocks.
  generalize (retry_pending now retry). intros pending.
  destruct (exp <=? now), (sla <=? now), freeze, required, in_maint as [[]|], urg, biz, pending;
    vm_compute; reflexivity.
Qed.

Section Properties.
Context {H : PyHost} {D : TzDatabase}.

(** What a returned context carries. *)
Lemma evaluate_reference clock a ctx :
  evaluate_timing clock a = Ok ctx ->
  exists detected now sla exp,
    parse_utc a.(ta_detected_at_utc) = Ok detected /\
    sla_due_utc {| dt_wall := detected; dt_offset := Some 0 |} ctx.(tc_urgency) a.(ta_sla_hours)
      = Ok sla /\
    evidence_expires_utc {| dt_wall := detected; dt_offset := Some 0 |} ctx.(tc_urgency)
      a.(ta_evidence_ttl_hours) = Ok exp /\
    ctx.(tc_detected_at_utc) = format_utc detected /\ ctx.(tc_evaluated_at_utc) = format_utc now /\
    ctx.(tc_sla_due_utc) = format_utc sla /\ ctx.(tc_evidence_expires_utc) = format_utc exp /\
    ctx.(tc_decision) =
      timing_reference now exp sla ctx.(tc_change_freeze_active)
        ctx.(tc_maintenance_window_required) ctx.(tc_in_maintenance_window) ctx.(tc_urgency)
        ctx.(tc_business_hours) (retry_pending now a.(ta_retry_after_utc)).
Proof.
  unfold evaluate_timing. cbn zeta. intros E.
  apply bind_Ok in E as (tz & _ & E). apply bind_Ok in E as (detected & Hdet & E).
  apply bind_Ok in E as (now & _ & E). apply bind_Ok in E as (sla & Hsla & E).
  apply bind_Ok in E as (exp & Hexp & E). apply bind_Ok in E as (biz & _ & E).
  apply bind_Ok in E as (maint & _ & E). apply bind_Ok in E as (v & Hv & E).
  apply stages_reference in Hv. destruct (stage_hours biz v) as [d r] eqn:Ev.
  injection E as <-. exists detected, now, sla, exp. by cbn.
Qed.

(** The five stages of the evaluator decide by a fixed list of priorities.  A
    context that is returned carries the first that applies of: evidence expired, SLA
    overdue, change freeze (escalated when urgent, blocked otherwise), outside a
    required maintenance window, urgent after hours or critical, retry time in the
    future, ready; its clocks are those of the detection time and its urgency. *)
Theorem evaluate_by_priority clock a ctx :
  evaluate_timing clock a = Ok ctx ->
  exists detected now sla exp,
    parse_utc a.(ta_detected_at_utc) = Ok detected /\
    sla_due_utc {| dt_wall := detected; dt_offset := Some 0 |} ctx.(tc_urgency) a.(ta_sla_hours)
      = Ok sla /\
    evidence_expires_utc {| dt_wall := detected; dt_offset := Some 0 |} ctx.(tc_urgency)
      a.(ta_evidence_ttl_hours) = Ok exp /\
    ctx.(tc_detected_at_utc) = format_utc detected /\ ctx.(tc_evaluated_at_utc) = format_utc now /\
    ctx.(tc_sla_due_utc) = format_utc sla /\ ctx.(tc_evidence_expires_utc) = format_utc exp /\
    ctx.(tc_decision) =
      timing_reference now exp sla ctx.(tc_change_freeze_active)
        ctx.(tc_maintenance_window_required) ctx.(tc_in_maintenance_window) ctx.(tc_urgency)
        ctx.(tc_business_hours) (retry_pending now a.(ta_retry_after_utc)).
Proof. apply evaluate_reference. Qed.

(** A parsed time stamp of the form the toolkit prints. *)
Lemma parse_format us : in_range us = true -> parse_utc (format_utc us) = Ok (us - us mod US_PER_SEC).
Proof.
  intros Hr. unfold parse_utc, format_utc. rewrite fromisoformat_format by done.
  unfold utc_of, to_utc. cbn [dt_offset dt_wall]. rewrite Z.sub_0_r.
  assert (in_range (us - us mod US_PER_SEC) = true) as -> ; [|done].
  unfold in_range, US_PER_SEC in *. lia.
Qed.

(** A time stamp printed by [format_utc] is parsed back to the same instant, up to
    the fraction of a second that is not printed; printing the parsed instant gives the
    same text. *)
Theorem timestamp_roundtrip us :
  in_range us = true ->
  parse_utc (format_utc us) = Ok (us - us mod US_PER_SEC) /\
  format_utc (us - us mod US_PER_SEC) = format_utc us.
Proof.
  intros Hr. split; [by apply parse_format|].
  unfold format_utc, format_utc_wall, dt_ordinal, dt_time.
  assert ((us - us mod US_PER_SEC) / US_PER_DAY = us / US_PER_DAY) as ->
    by (unfold US_PER_DAY, US_PER_SEC; lia).
  assert ((us - us mod US_PER_SEC) mod US_PER_DAY / US_PER_SEC = us mod US_PER_DAY / US_PER_SEC) as ->;
    [unfold US_PER_DAY, US_PER_SEC; lia|]. done.
Qed.
End Properties.

(** ** The next window *)

Section NextWindow.
Context {D : TzDatabase} {L : TzLaws D}.

Lemma weekday_any ord : existsb (Z.eqb (Cal.weekday ord)) [0; 1; 2; 3; 4; 5; 6] = true.
Proof.
  unfold Cal.weekday. assert (0 <= (ord + 6) mod 7 < 7) as Hb by (apply Z.mod_pos_bound; lia).
  cbn. lia.
Qed.

Definition window_utc (tz : string) (ord start : Z) : Z :=
  let wall := (ord - 1) * US_PER_DAY + start in wall - offset_of_wall tz wall.

Lemma window_bounds tz ord start :
  0 <= start < US_PER_DAY ->
  (ord - 1) * US_PER_DAY - US_PER_DAY < window_utc tz ord start < (ord - 1) * US_PER_DAY + 2 * US_PER_DAY.
Proof.
  intros Hs. unfold window_utc. cbn zeta.
  pose proof (offset_of_wall_bound tz ((ord - 1) * US_PER_DAY + start)). lia.
Qed.

(** One step of the search, away from the ends of the calendar. *)
Lemma search_window_step now local tz start k rest :
  0 <= start < US_PER_DAY -> US_PER_DAY <= local -> 0 <= k <= 7 ->
  local + 9 * US_PER_DAY < MAX_ORD * US_PER_DAY ->
  search_window now local tz start [0; 1; 2; 3; 4; 5; 6] (k :: rest) =
    let c := window_utc tz (dt_ordinal local + k) start in
    if now <? c then Ok (Some c)
    else search_window now local tz start [0; 1; 2; 3; 4; 5; 6] rest.
Proof.
  intros Hs Hlo Hk Hhi. cbn [search_window].
  assert ((if k =? 0 then Ok local else dt_add local (k * US_PER_DAY)) = Ok (local + k * US_PER_DAY))
    as ->.
  { destruct (k =? 0) eqn:Ek; [f_equal; lia|]. unfold dt_add, in_range.
    assert ((0 <=? local + k * US_PER_DAY) && (local + k * US_PER_DAY <? MAX_ORD * US_PER_DAY) = true)
      as -> ; [|done]. unfold US_PER_DAY, US_PER_SEC in *. lia. }
  rewrite bind_ok_l. cbn zeta.
  assert (dt_ordinal (local + k * US_PER_DAY) = dt_ordinal local + k) as ->.
  { unfold dt_ordinal. rewrite Z.div_add by (unfold US_PER_DAY, US_PER_SEC; lia). lia. }
  rewrite weekday_any. cbn [negb].
  assert (combine_utc tz (dt_ordinal local + k) start = Ok (window_utc tz (dt_ordinal local + k) start))
    as ->.
  { unfold combine_utc, to_utc. cbn zeta. fold (window_utc tz (dt_ordinal local + k) start).
    pose proof (window_bounds tz (dt_ordinal local + k) start Hs) as Hw.
    assert (in_range (window_utc tz (dt_ordinal local + k) start) = true) as ->; [|done].
    unfold in_range, dt_ordinal in *. unfold US_PER_DAY, US_PER_SEC, MAX_ORD in *. lia. }
  rewrite bind_ok_l. done.
Qed.

(** C40: a deferred action always gets a later window.  Away from the ends of the
    calendar the search returns; the instant it returns is strictly later, less than six
    days away in any zone and at most one day away in a zone of constant offset, and its
    wall clock in the zone reads the start of the window. *)
Theorem next_window_exists now tz start :
  0 <= start < US_PER_DAY -> 2 * US_PER_DAY <= now -> now + 10 * US_PER_DAY < MAX_ORD * US_PER_DAY ->
  exists r, next_window_start_utc now tz start None = Ok r /\ now < r < now + 6 * US_PER_DAY /\
    (exists wall, dt_time wall = start /\ r = wall - offset_of_wall tz wall) /\
    (forall c, (forall t, offset_at tz t = c) -> (forall t, offset_of_wall tz t = c) ->
       r <= now + US_PER_DAY).
Proof.
  intros Hs Hlo Hhi. unfold next_window_start_utc, to_local.
  pose proof (offset_at_bound tz now) as Hoff. set (off := offset_at tz now) in *.
  assert (dt_add now off = Ok (now + off)) as ->.
  { unfold dt_add, in_range. unfold US_PER_DAY, US_PER_SEC, MAX_ORD in *.
    assert ((0 <=? now + off) && (now + off <? 3652059 * (86400 * 1000000)) = true) as ->; [lia|done]. }
  rewrite bind_ok_l. cbn zeta. cbn [default from_option].
  change (default [0; 1; 2; 3; 4; 5; 6] None) with [0; 1; 2; 3; 4; 5; 6].
  set (local := now + off) in *. set (o := dt_ordinal local).
  assert (o * US_PER_DAY - US_PER_DAY <= local < o * US_PER_DAY) as Hday.
  { unfold o, dt_ordinal, US_PER_DAY, US_PER_SEC. lia. }
  assert (forall k, 0 <= k <= 3 -> now < window_utc tz (o + k) start ->
            (k = 0 \/ window_utc tz (o + (k - 1)) start <= now) ->
            let r := window_utc tz (o + k) start in
            now < r < now + 6 * US_PER_DAY /\
            (exists wall, dt_time wall = start /\ r = wall - offset_of_wall tz wall) /\
            (forall c, (forall t, offset_at tz t = c) -> (forall t, offset_of_wall tz t = c) ->
               r <= now + US_PER_DAY)) as Hfin.
  { intros k Hk Hgt Hprev. cbn zeta. split; [|split].
    - pose proof (window_bounds tz (o + k) start Hs). nia.
    - exists ((o + k - 1) * US_PER_DAY + start). split; [|done]. unfold dt_time.
      rewrite Z.add_comm, Z.mod_add by (unfold US_PER_DAY, US_PER_SEC; lia). apply Z.mod_small. lia.
    - intros c Hat Hw. unfold window_utc in *. cbn zeta in *. rewrite Hw in *.
      unfold local, off in Hday. rewrite Hat in Hday. destruct Hprev as [-> | Hprev]; nia. }
  assert (now < window_utc tz (o + 3) start) as H3.
  { pose proof (window_bounds tz (o + 3) start Hs). nia. }
  assert (US_PER_DAY <= local /\ local + 9 * US_PER_DAY < MAX_ORD * US_PER_DAY) as [Hl1 Hl2]
    by (unfold local; lia).
  rewrite !search_window_step by lia. cbn zeta. fold o.
  destruct (now <? window_utc tz (o + 0) start) eqn:E0.
  { eexists. split; [reflexivity|]. apply (Hfin 0); lia. }
  destruct (now <? window_utc tz (o + 1) start) eqn:E1.
  { eexists. split; [reflexivity|]. apply (Hfin 1); [lia..|]. right. change (1 - 1) with 0. lia. }
  destruct (now <? window_utc tz (o + 2) start) eqn:E2.
  { eexists. split; [reflexivity|]. apply (Hfin 2); [lia..|]. right. change (2 - 1) with 1. lia. }
  assert ((now <? window_utc tz (o + 3) start) = true) as -> by lia.
  eexists. split; [reflexivity|]. apply (Hfin 3); [lia..|]. right. change (3 - 1) with 2. lia.
Qed.
End NextWindow.

(** ** Concrete instances *)
Module TimingWitness.
#[local] Instance host : PyHost := DemoHost.demo_host.

(** Two zones of constant offset. *)
Definition demo_offset (z : string) : Z :=
  if String.eqb z "Asia/Taipei" then 8 * 3600 * US_PER_SEC else 0.
#[export] Instance zones : TzDatabase := {|
  zone_key := fun z => if PyStr.mem z ["UTC"; "Asia/Taipei"] then ZoneFound else ZoneInfoNotFoundError;
  offset_at := fun z _ => demo_offset z;
  offset_of_wall := fun z _ => demo_offset z;
|}.
#[export] Instance zones_laws : TzLaws zones.
Proof.
  split; cbn; unfold demo_offset, US_PER_DAY, US_PER_SEC; intros; try reflexivity;
    destruct (String.eqb _ _); lia.
Qed.

Definition args : timing_args :=
  {| ta_case_id := "case-1"; ta_detected_at_utc := "2026-03-02T10:00:00Z";
     ta_evaluated_at_utc := Some "2026-03-02T11:30:00+00:00"; ta_timezone_name := None;
     ta_classification := "UNKNOWN_LOCAL_PROXY"; ta_policy_outcome := "PREVIEW_ONLY";
     ta_urgency := None; ta_maintenance_window_required := true; ta_change_freeze_active := false;
     ta_retry_after_utc := None; ta_sla_hours := None; ta_evidence_ttl_hours := None;
     ta_business_hours_start := hm 9 0; ta_business_hours_end := hm 18 0;
     ta_maintenance_start := hm 22 0; ta_maintenance_end := hm 5 0;
     ta_config := Some ["timezone" :-> PStr "Asia/Taipei"] |}.

(** 19:30 in Taipei: after hours, outside the night window. *)
Example evaluated :
  match evaluate_timing 0 args with
  | Ok c => (c.(tc_decision), c.(tc_action_window_start_utc), c.(tc_sla_due_utc))
  | Raise _ => (TD_READY, None, "")
  end = (TD_DEFERRED_TO_WINDOW, Some "2026-03-02T14:00:00Z", "2026-03-02T18:00:00Z").
Proof. vm_compute. reflexivity. Qed.

Definition context : option TimingContext :=
  match evaluate_timing 0 args with Ok c => Some c | Raise _ => None end.

Lemma evaluate_by_priority_witness :
  match context with
  | Some c => exists now exp sla,
      c.(tc_decision) = timing_reference now exp sla false true (Some false) URG_HIGH false false
  | None => False
  end.
Proof.
  destruct context as [c|] eqn:E; [|vm_compute in E; discriminate].
  assert (evaluate_timing 0 args = Ok c) as Ev.
  { unfold context in E. destruct (evaluate_timing 0 args); congruence. }
  destruct (evaluate_by_priority 0 args c Ev) as (det & now & sla & exp & _ & _ & _ & _ & _ & _ & _ & Hd).
  exists now, exp, sla. rewrite Hd. vm_compute in E. injection E as <-. reflexivity.
Defined.

Lemma timestamp_roundtrip_witness :
  parse_utc (format_utc (EPOCH + 1500000)) = Ok (EPOCH + 1000000).
Proof. apply (timestamp_roundtrip (EPOCH + 1500000)). vm_compute. reflexivity. Defined.

Lemma next_window_exists_witness :
  exists r, next_window_start_utc EPOCH "Asia/Taipei" (hm 22 0) None = Ok r /\
    EPOCH < r <= EPOCH + US_PER_DAY.
Proof.
  destruct (next_window_exists EPOCH "Asia/Taipei" (hm 22 0)) as (r & Hr & Hb & _ & Hc).
  - vm_compute. split; congruence.
  - vm_compute. congruence.
  - vm_compute. congruence.
  - exists r. split; [exact Hr|]. split; [apply Hb|].
    apply (Hc (8 * 3600 * US_PER_SEC)); reflexivity.
Defined.
End TimingWitness.
