(* ===== verification/Stakeholder.v ===== *)
(** * Stakeholders: roles, authority, escalation

    [src/platform_core/stakeholder/]: the role registry ([registry.py]), the
    escalation ladder ([escalation.py]) and the resolver ([resolver.py]), which
    chooses roles from explicit configuration, asset metadata, control and
    classification mappings, in this order.  Configuration and evidence are
    dictionaries of Python values. *)

From S2P Require Import Prelude PyValue EvidenceTiers Timing.
From Stdlib Require Import Ascii String.
From stdpp Require Import strings.

Open Scope string_scope.
Open Scope Z_scope.
Open Scope py_scope.

(** ** Vocabulary ([models.py]) *)

Inductive StakeholderResolutionSource :=
| EXPLICIT_CONFIGURATION | ASSET_METADATA | CONTROL_MAPPING | CLASSIFICATION_MAPPING
| DEFAULT_ROLE_MAPPING | UNRESOLVED_SOURCE.

Inductive StakeholderReasonCode :=
| STAKEHOLDER_RESOLVED | OWNER_UNRESOLVED | APPROVER_REQUIRED | SECURITY_ESCALATION_REQUIRED
| SEGREGATION_OF_DUTIES_REQUIRED | EXECUTION_AUTHORITY_MISSING | INFORMED_ROLE_MAPPED
| AFFECTED_PARTY_MAPPED.

#[export] Instance StakeholderResolutionSource_eq_dec : EqDecision StakeholderResolutionSource.
Proof. solve_decision. Defined.
#[export] Instance StakeholderReasonCode_eq_dec : EqDecision StakeholderReasonCode.
Proof. solve_decision. Defined.

Definition stakeholder_reason_value (r : StakeholderReasonCode) : string :=
  match r with
  | STAKEHOLDER_RESOLVED => "STAKEHOLDER_RESOLVED" | OWNER_UNRESOLVED => "OWNER_UNRESOLVED"
  | APPROVER_REQUIRED => "APPROVER_REQUIRED"
  | SECURITY_ESCALATION_REQUIRED => "SECURITY_ESCALATION_REQUIRED"
  | SEGREGATION_OF_DUTIES_REQUIRED => "SEGREGATION_OF_DUTIES_REQUIRED"
  | EXECUTION_AUTHORITY_MISSING => "EXECUTION_AUTHORITY_MISSING"
  | INFORMED_ROLE_MAPPED => "INFORMED_ROLE_MAPPED"
  | AFFECTED_PARTY_MAPPED => "AFFECTED_PARTY_MAPPED"
  end.

(** [kind] is "configured_identity" or "role". *)
Record RoleRef := {
  role_id : string;
  display_name : string;
  kind : string;
  identity : option string;
  source : StakeholderResolutionSource;
  reason_code : StakeholderReasonCode;
  rationale : string;
}.

Record EscalationHop := { order : Z; hop_role : RoleRef; trigger : string }.

Record StakeholderContext := {
  sc_case_id : string;
  sc_classification : string;
  asset_owner : option RoleRef;
  control_owner : option RoleRef;
  affected_parties : list RoleRef;
  approver_roles : list RoleRef;
  executor_roles : list RoleRef;
  informed_roles : list RoleRef;
  escalation_path : list EscalationHop;
  execution_authority : option RoleRef;
  segregation_of_duties_required : bool;
  resolution_confidence : string;
  unresolved_fields : list string;
  sc_reason_codes : list StakeholderReasonCode;
  sc_inputs_fingerprint : string;
  sc_has_explicit_config : bool;   (** [config_refs] *)
  sc_identity_count : Z;
}.

(** ** Registry *)

Record role_map := {
  rm_asset_owner : string; rm_control_owner : string; rm_approver : string;
  rm_executor : string; rm_informed : string; rm_escalation : string;
}.

(** [class_map.get(field)]. *)
Definition role_of (m : role_map) (field : string) : option string :=
  if String.eqb field "asset_owner" then Some m.(rm_asset_owner)
  else if String.eqb field "control_owner" then Some m.(rm_control_owner)
  else if String.eqb field "approver" then Some m.(rm_approver)
  else if String.eqb field "executor" then Some m.(rm_executor)
  else if String.eqb field "informed" then Some m.(rm_informed)
  else if String.eqb field "escalation" then Some m.(rm_escalation)
  else None.

Definition DEFAULT_ROLE_MAP : role_map :=
  {| rm_asset_owner := "endpoint_owner";
     rm_control_owner := "endpoint_reliability_control_owner";
     rm_approver := "it_operations_approver";
     rm_executor := "desktop_support_executor";
     rm_informed := "service_desk";
     rm_escalation := "it_operations_lead" |}.

Definition CLASSIFICATION_ROLE_MAP : list (string * role_map) :=
  [("DEAD_PROXY_CONFIG",
    {| rm_asset_owner := "endpoint_owner";
       rm_control_owner := "endpoint_reliability_control_owner";
       rm_approver := "it_operations_approver"; rm_executor := "desktop_support_executor";
       rm_informed := "service_desk"; rm_escalation := "it_operations_lead" |});
   ("KNOWN_DEV_PROXY",
    {| rm_asset_owner := "endpoint_owner";
       rm_control_owner := "developer_tooling_control_owner";
       rm_approver := "it_operations_approver"; rm_executor := "endpoint_owner";
       rm_informed := "developer_experience"; rm_escalation := "it_operations_lead" |});
   ("LOCAL_PROXY_ACTIVE",
    {| rm_asset_owner := "endpoint_owner";
       rm_control_owner := "endpoint_reliability_control_owner";
       rm_approver := "it_operations_approver"; rm_executor := "desktop_support_executor";
       rm_informed := "service_desk"; rm_escalation := "it_operations_lead" |});
   ("UNKNOWN_LOCAL_PROXY",
    {| rm_asset_owner := "endpoint_owner"; rm_control_owner := "security_control_owner";
       rm_approver := "security_approver"; rm_executor := "security_operations_executor";
       rm_informed := "it_operations_lead"; rm_escalation := "security_incident_manager" |});
   ("POSSIBLE_MITM_RISK",
    {| rm_asset_owner := "endpoint_owner"; rm_control_owner := "security_control_owner";
       rm_approver := "security_approver"; rm_executor := "security_operations_executor";
       rm_informed := "ciso_office"; rm_escalation := "security_incident_manager" |});
   ("WININET_WINHTTP_MISMATCH",
    {| rm_asset_owner := "endpoint_owner";
       rm_control_owner := "endpoint_reliability_control_owner";
       rm_approver := "it_operations_approver"; rm_executor := "desktop_support_executor";
       rm_informed := "service_desk"; rm_escalation := "it_operations_lead" |});
   ("OS_NETWORK_OK_BROWSER_PROFILE_FAIL",
    {| rm_asset_owner := "endpoint_owner";
       rm_control_owner := "endpoint_reliability_control_owner";
       rm_approver := "it_operations_approver"; rm_executor := "desktop_support_executor";
       rm_informed := "service_desk"; rm_escalation := "it_operations_lead" |})].

Definition ROLE_DISPLAY : list (string * string) :=
  [("endpoint_owner", "Endpoint Owner");
   ("endpoint_reliability_control_owner", "Endpoint Reliability Control Owner");
   ("developer_tooling_control_owner", "Developer Tooling Control Owner");
   ("security_control_owner", "Security Control Owner");
   ("it_operations_approver", "IT Operations Approver");
   ("security_approver", "Security Approver");
   ("desktop_support_executor", "Desktop Support Executor");
   ("security_operations_executor", "Security Operations Executor");
   ("service_desk", "Service Desk (Informed)");
   ("developer_experience", "Developer Experience (Informed)");
   ("it_operations_lead", "IT Operations Lead");
   ("security_incident_manager", "Security Incident Manager");
   ("ciso_office", "CISO Office (Informed)")].

Definition SECURITY_ESCALATION_CLASSIFICATIONS : list string :=
  ["UNKNOWN_LOCAL_PROXY"; "POSSIBLE_MITM_RISK"; "SUSPICIOUS_PROXY"].

Definition CONTROL_OWNER_MAP : list (string * string) :=
  [("CTRL-PROXY-001", "endpoint_reliability_control_owner");
   ("CTRL-PROXY-002", "security_control_owner");
   ("CTRL-TLS-001", "security_control_owner")].

(** [s.title()]: a letter is upper case after a character that is not a letter. *)
Fixpoint title_from (prev : bool) (s : string) : string :=
  match s with
  | EmptyString => EmptyString
  | String c s' =>
      String (if prev then PyStr.lower_char c else PyStr.upper_char c)
        (title_from (PyStr.is_alpha c) s')
  end.
Definition title : string -> string := title_from false.

Definition role_display (id : string) : string :=
  match str_assoc id ROLE_DISPLAY with
  | Some d => d
  | None => title (PyStr.replace_char "_" " " id)
  end.

Definition map_for_classification (classification : string) : role_map :=
  let key := PyStr.upper (PyStr.strip classification) in
  match List.find (fun kv => String.eqb kv.1 key) CLASSIFICATION_ROLE_MAP with
  | Some kv => kv.2
  | None => DEFAULT_ROLE_MAP
  end.

Definition load_explicit_config (config : option pydict) : pydict :=
  List.filter
    (fun kv => PyStr.mem kv.1
       ["asset_owner"; "control_owner"; "approver"; "executor"; "informed"; "escalation";
        "identities"; "segregation_of_duties_required"])
    (default [] config).

(** ** Escalation *)

Definition build_escalation_path (classification : string) (primary_escalation : RoleRef)
    (security_required : option bool) : list EscalationHop :=
  let need_security :=
    match security_required with
    | Some b => b
    | None => PyStr.mem (PyStr.upper classification) SECURITY_ESCALATION_CLASSIFICATIONS
    end in
  {| order := 1; hop_role := primary_escalation; trigger := "primary_escalation" |} ::
  (if need_security then
     [{| order := 2;
         hop_role :=
           {| role_id := "security_incident_manager";
              display_name := role_display "security_incident_manager";
              kind := "role"; identity := None; source := CLASSIFICATION_MAPPING;
              reason_code := SECURITY_ESCALATION_REQUIRED;
              rationale := "Classification maps to security escalation path." |};
         trigger := "security_escalation_required" |}]
   else []).

(** ** Resolver *)

(** The configured identities: names bound to non-blank strings.  Anything truthy
    that is not a dictionary has no [items]. *)
Definition identity_entry (kv : string * pyval) : option (string * string) :=
  match kv.2 with
  | PStr v => if PyStr.is_empty (PyStr.strip v) then None else Some (kv.1, v)
  | _ => None
  end.

Definition identities_of (cfg : pydict) : result (list (string * string)) :=
  d ← Dict.of_val (py_or (Dict.get "identities" cfg) (PDict []));
  Ok (omap (M := list) identity_entry d).

Definition _role_from_config (field id : string) (identities : list (string * string))
    (src : StakeholderResolutionSource) (reason : StakeholderReasonCode) (why : string)
    : option RoleRef :=
  if PyStr.is_empty id then None
  else
    let who :=
      match str_assoc id identities with
      | Some v => Some v
      | None => str_assoc field identities
      end in
    Some {| role_id := id;
            display_name := role_display id;
            kind := if bool_decide (who = None) then "role" else "configured_identity";
            identity := who;
            source := if negb (bool_decide (who = None)) || bool_decide (src = EXPLICIT_CONFIGURATION)
                      then EXPLICIT_CONFIGURATION else src;
            reason_code := reason;
            rationale := why |}.

Section WithHost.
Context {H : PyHost}.

(** The arguments of [resolve]. *)
Record resolve_args := {
  ra_case_id : string;
  ra_classification : string;
  ra_evidence_summary : option pydict;
  ra_proof_status : string;
  ra_policy_outcome : string;
  ra_policy_requires_approval : bool;
  ra_control_ids : option (list string);
  ra_config : option pydict;
}.

(** The first control with an owner. *)
Definition control_pick (control_ids : list string) : option (string * string) :=
  List.fold_right
    (fun cid found => match str_assoc cid CONTROL_OWNER_MAP with
                      | Some owner => Some (owner, cid)
                      | None => found
                      end) None control_ids.

Definition pick (a : resolve_args) (cfg : pydict) (class_map : role_map)
    (field default_role : string) : string * StakeholderResolutionSource * string :=
  let from_cfg := Dict.get field cfg in
  if py_bool from_cfg then (py_str from_cfg, EXPLICIT_CONFIGURATION, "explicit config") else
  let asset_meta := py_or (Dict.get "asset" (default [] a.(ra_evidence_summary))) (PDict []) in
  let from_asset := match asset_meta with PDict d => Dict.get field d | _ => PNone end in
  if py_bool from_asset then (py_str from_asset, ASSET_METADATA, "asset metadata") else
  match (if String.eqb field "control_owner" then control_pick (default [] a.(ra_control_ids))
         else None) with
  | Some (owner, cid) => (owner, CONTROL_MAPPING, "control " ++ cid)
  | None =>
      match role_of class_map field with
      | Some role =>
          if negb (PyStr.is_empty a.(ra_classification)) && negb (PyStr.is_empty role)
          then (role, CLASSIFICATION_MAPPING, "classification " ++ a.(ra_classification))
          else (default_role, DEFAULT_ROLE_MAPPING, "default role map")
      | None => (default_role, DEFAULT_ROLE_MAPPING, "default role map")
      end
  end.

Definition APPROVAL_OUTCOMES : list string :=
  ["REQUIRE_HUMAN_APPROVAL"; "REQUIRE_TYPED_CONFIRMATION"; "REQUIRE_CONFIRMATION";
   "ROLLBACK_REQUIRED"; "PREVIEW_ONLY"; "PREVIEW"; "ALLOW_PREVIEW"; "CORRELATION_ONLY_ALERT"].

Definition needs_approval (a : resolve_args) : bool :=
  a.(ra_policy_requires_approval) || PyStr.mem (PyStr.upper a.(ra_policy_outcome)) APPROVAL_OUTCOMES.

(** [approver and executor and approver.role_id == executor.role_id]. *)
Definition same_role (x y : option RoleRef) : bool :=
  match x, y with
  | Some a, Some b => String.eqb a.(role_id) b.(role_id)
  | _, _ => false
  end.

(** The approvers: the approver when one is needed, replaced by the escalation role
    when duties must be split and the approver is the executor. *)
Definition choose_approvers (needed sod : bool) (approver executor escalation : option RoleRef)
    : list RoleRef :=
  let approvers := if needed then option_list approver else [] in
  if sod && same_role approver executor then
    match escalation with
    | Some e =>
        if negb (same_role escalation executor) then
          [{| role_id := e.(role_id); display_name := e.(display_name); kind := e.(kind);
              identity := e.(identity); source := DEFAULT_ROLE_MAPPING;
              reason_code := SEGREGATION_OF_DUTIES_REQUIRED;
              rationale := "Approver must differ from executor (SoD)." |}]
        else approvers
    | None => approvers
    end
  else approvers.

(** [pick] followed by [_role_from_config], as the code does for each of six fields. *)
Definition resolve_role (a : resolve_args) (cfg : pydict) (identities : list (string * string))
    (class_map : role_map) (field default_role : string) (reason : StakeholderReasonCode)
    : option RoleRef :=
  let '(id, src, why) := pick a cfg class_map field default_role in
  _role_from_config field id identities src reason why.

(** The context, once the six roles are known. *)
Definition assemble (a : resolve_args) (cfg : pydict) (identities : list (string * string))
    (asset_owner control_owner approver executor informed escalation : option RoleRef)
    : StakeholderContext :=
  let owner_ok := bool_decide (is_Some asset_owner) in
  let needed := needs_approval a in
  let security_required :=
    PyStr.mem (PyStr.upper a.(ra_classification)) SECURITY_ESCALATION_CLASSIFICATIONS in
  let sod := py_bool (Dict.get_default "segregation_of_duties_required" (PBool true) cfg) in
  let approvers := choose_approvers needed sod approver executor escalation in
  let authority :=
    match executor with
    | Some e => if negb needed || negb (bool_decide (approvers = [])) then Some e else None
    | None => None
    end in
  let unresolved :=
    ((if owner_ok then [] else ["asset_owner"])
     ++ (if needed && negb (bool_decide (is_Some approver)) then ["approver"] else [])
     ++ (if bool_decide (is_Some authority) then [] else ["execution_authority"]))%list in
  let reasons :=
    ([if owner_ok then STAKEHOLDER_RESOLVED else OWNER_UNRESOLVED]
     ++ (if needed then [APPROVER_REQUIRED] else [])
     ++ (if security_required then [SECURITY_ESCALATION_REQUIRED] else [])
     ++ (if sod && same_role approver executor then [SEGREGATION_OF_DUTIES_REQUIRED] else [])
     ++ (if bool_decide (is_Some authority) then [] else [EXECUTION_AUTHORITY_MISSING]))%list in
  let affected :=
    match asset_owner with
    | Some o =>
        [{| role_id := o.(role_id); display_name := o.(display_name); kind := o.(kind);
            identity := o.(identity); source := o.(source); reason_code := AFFECTED_PARTY_MAPPED;
            rationale := "Asset owner is an affected party." |}]
    | None => []
    end in
  let primary :=
    default {| role_id := "it_operations_lead"; display_name := role_display "it_operations_lead";
               kind := "role"; identity := None; source := DEFAULT_ROLE_MAPPING;
               reason_code := STAKEHOLDER_RESOLVED; rationale := "fallback escalation" |}
      escalation in
  let esc_path := build_escalation_path a.(ra_classification) primary (Some security_required) in
  let confidence := match identities with [] => "role_only" | _ => "configured" end in
  let confidence :=
    match unresolved with
    | [] => confidence
    | _ => if owner_ok || bool_decide (is_Some control_owner) then "partial" else "unresolved"
    end in
  let no_input := PyStr.is_empty a.(ra_classification) && match cfg with [] => true | _ => false end in
  let confidence := if no_input then "unresolved" else confidence in
  let unresolved :=
    if no_input && negb (PyStr.mem "asset_owner" unresolved)
    then (unresolved ++ ["asset_owner"])%list else unresolved in
  let fp :=
    _fingerprint
      ["case_id" :-> PStr a.(ra_case_id);
       "classification" :-> PStr a.(ra_classification);
       "policy_outcome" :-> PStr a.(ra_policy_outcome);
       "policy_requires_approval" :-> PBool needed;
       "proof_status" :-> PStr a.(ra_proof_status);
       "control_ids" :-> str_list (default [] a.(ra_control_ids));
       "config" :-> PDict cfg] in
  {| sc_case_id := a.(ra_case_id);
        sc_classification := a.(ra_classification);
        asset_owner := asset_owner;
        control_owner := control_owner;
        affected_parties := affected;
        approver_roles := approvers;
        executor_roles := option_list executor;
        informed_roles := option_list informed;
        escalation_path := esc_path;
        execution_authority := authority;
        segregation_of_duties_required := sod;
        resolution_confidence := confidence;
        unresolved_fields := dedupe String.eqb unresolved;
        sc_reason_codes := dedupe (fun x y => bool_decide (x = y)) reasons;
        sc_inputs_fingerprint := fp;
        sc_has_explicit_config := match cfg with [] => false | _ => true end;
        sc_identity_count := Z.of_nat (length identities) |}.

Definition resolve (a : resolve_args) : result StakeholderContext :=
  let cfg := load_explicit_config a.(ra_config) in
  identities ← identities_of cfg;
  let class_map := map_for_classification a.(ra_classification) in
  let role := resolve_role a cfg identities class_map in
  Ok (assemble a cfg identities
        (role "asset_owner" class_map.(rm_asset_owner) STAKEHOLDER_RESOLVED)
        (role "control_owner" class_map.(rm_control_owner) STAKEHOLDER_RESOLVED)
        (role "approver" class_map.(rm_approver) APPROVER_REQUIRED)
        (role "executor" class_map.(rm_executor) STAKEHOLDER_RESOLVED)
        (role "informed" class_map.(rm_informed) INFORMED_ROLE_MAPPED)
        (role "escalation" class_map.(rm_escalation) STAKEHOLDER_RESOLVED)).
End WithHost.

(** ** Where identities come from *)

(** Every role a context names. *)
Definition context_roles (c : StakeholderContext) : list RoleRef :=
  (option_list c.(asset_owner) ++ option_list c.(control_owner) ++ c.(affected_parties)
   ++ c.(approver_roles) ++ c.(executor_roles) ++ c.(informed_roles)
   ++ map hop_role c.(escalation_path) ++ option_list c.(execution_authority))%list.

(** A plain role, or an identity out of the list. *)
Definition role_sound (ids : list (string * string)) (r : RoleRef) : Prop :=
  (r.(kind) = "role" /\ r.(identity) = None) \/
  (r.(kind) = "configured_identity" /\ exists k v, In (k, v) ids /\ r.(identity) = Some v).

Lemma str_assoc_In k l v : str_assoc k l = Some v -> In (k, v) l.
Proof.
  induction l as [|[k' v'] l IH]; cbn; [done|]. destruct (String.eqb k' k) eqn:E.
  - apply String.eqb_eq in E. intros [= ->]. left. congruence.
  - intros Hs. right. auto.
Qed.

Lemma role_from_config_sound field id ids src reason why r :
  _role_from_config field id ids src reason why = Some r -> role_sound ids r.
Proof.
  unfold _role_from_config. destruct (PyStr.is_empty id); [done|].
  destruct (str_assoc id ids) as [v|] eqn:E1; [|destruct (str_assoc field ids) as [v|] eqn:E2];
    intros E; injection E as <-; unfold role_sound; cbn.
  - right. split; [done|]. eauto using str_assoc_In.
  - right. split; [done|]. eauto using str_assoc_In.
  - by left.
Qed.

Lemma choose_approvers_sound ids needed sod ap ex esc :
  (forall r, ap = Some r -> role_sound ids r) -> (forall r, esc = Some r -> role_sound ids r) ->
  Forall (role_sound ids) (choose_approvers needed sod ap ex esc).
Proof.
  intros Hap Hesc.
  assert (Forall (role_sound ids) (if needed then option_list ap else [])) as Hbase.
  { destruct needed, ap as [r|]; cbn; auto. }
  unfold choose_approvers. destruct (sod && same_role ap ex); [|done].
  destruct esc as [e|]; [|done]. destruct (negb _); [|done].
  constructor; [|constructor]. destruct (Hesc e eq_refl) as [[? ?]|[? (k & v & ? & ?)]].
  - by left.
  - right. split; [done|]. by exists k, v.
Qed.

Lemma resolve_role_sound {H : PyHost} a cfg ids m field d reason r :
  resolve_role a cfg ids m field d reason = Some r -> role_sound ids r.
Proof.
  unfold resolve_role. destruct (pick a cfg m field d) as [[id src] why]. apply role_from_config_sound.
Qed.

(** Roles soundly resolved stay sound in the context. *)
Lemma assemble_sound {H : PyHost} a cfg ids ao co ap ex inf esc :
  (forall o, In o [ao; co; ap; ex; inf; esc] -> forall r, o = Some r -> role_sound ids r) ->
  Forall (role_sound ids) (context_roles (assemble a cfg ids ao co ap ex inf esc)).
Proof.
  intros Hs.
  assert (forall o, In o [ao; co; ap; ex; inf; esc] -> Forall (role_sound ids) (option_list o)) as Hl.
  { intros o Ho. destruct o as [r|]; cbn; [|constructor]. constructor; [|constructor]. by eapply Hs. }
  unfold context_roles, assemble. cbn zeta.
  cbn [asset_owner control_owner affected_parties approver_roles executor_roles informed_roles
       escalation_path execution_authority].
  rewrite !Forall_app. split_and!; try (apply Hl; cbn; tauto).
  - destruct ao as [o|]; [|constructor]. constructor; [|constructor].
    destruct (Hs (Some o) ltac:(cbn; tauto) o eq_refl) as [[? ?]|[? ?]]; [by left|by right].
  - apply choose_approvers_sound; intros r Hr; eapply Hs; [|exact Hr| |exact Hr]; cbn; tauto.
  - unfold build_escalation_path. cbn [map hop_role]. constructor.
    + destruct esc as [e|]; [eapply Hs; [|reflexivity]; cbn; tauto|]. by left.
    + destruct (PyStr.mem _ _); cbn; [|constructor]. constructor; [by left|constructor].
  - destruct ex as [e|]; [|constructor]. destruct (_ || _); [|constructor].
    apply (Hl (Some e)). cbn. tauto.
Qed.

Section Properties.
Context {H : PyHost}.

(** The resolver never invents a person.  In a context it returns, every role (the
    owners, affected parties, approvers, executors, informed roles, the escalation
    ladder and the execution authority) is either a plain role without an identity, or
    carries an identity that the configuration binds, as a non-blank string, under its
    [identities]. *)
Theorem identities_configured a c r :
  resolve a = Ok c -> In r (context_roles c) ->
  (r.(kind) = "role" /\ r.(identity) = None) \/
  (r.(kind) = "configured_identity" /\
   exists ids k v, Dict.lookup "identities" (load_explicit_config a.(ra_config)) = Some (PDict ids) /\
     In (k, PStr v) ids /\ PyStr.strip v <> "" /\ r.(identity) = Some v).
Proof.
  unfold resolve. cbn zeta. intros E Hin. apply bind_Ok in E as (ids & Hids & E). injection E as <-.
  assert (role_sound ids r) as [Hs|(Hk & k & v & Hkv & Hid)]; [|by left|right].
  { eapply Forall_forall; [apply assemble_sound|by apply list_elem_of_In].
    cbn. intros o Ho x Hx. repeat destruct Ho as [<- | Ho]; try done; by eapply resolve_role_sound. }
  split; [done|]. unfold identities_of in Hids. apply bind_Ok in Hids as (d & Hd & Hids).
  injection Hids as <-. apply list_elem_of_In, list_elem_of_omap in Hkv as ([k' v'] & Hin' & He).
  unfold identity_entry in He. cbn in He. destruct v' as [| | | |v'| |]; try done.
  destruct (PyStr.is_empty (PyStr.strip v')) eqn:Ev; [done|]. injection He as -> ->.
  exists d, k, v. apply list_elem_of_In in Hin'. apply PyStr.is_empty_false in Ev. split_and!; try done.
  unfold py_or, Dict.get in Hd.
  destruct (Dict.lookup "identities" (load_explicit_config (ra_config a))) as [x|]; cbn in Hd.
  - destruct (py_bool x); [|by injection Hd as <-]. destruct x; try done. by injection Hd as ->.
  - by injection Hd as <-.
Qed.
(** The ladder starts with the escalation role. *)
Lemma assemble_escalation a cfg ids ao co ap ex inf e :
  exists hop rest,
    escalation_path (assemble a cfg ids ao co ap ex inf (Some e)) = hop :: rest /\
    hop.(hop_role) = e.
Proof. do 2 eexists. split; reflexivity. Qed.

Lemma same_role_true x y : same_role x y = true <->
  exists a b, x = Some a /\ y = Some b /\ a.(role_id) = b.(role_id).
Proof.
  destruct x as [a|], y as [b|]; cbn; try (split; [done|intros (? & ? & ? & ? & ?); done]).
  rewrite String.eqb_eq. split; [intros E; by exists a, b|]. intros (a' & b' & [= <-] & [= <-] & E). done.
Qed.

(** With segregation asked for, a chosen approver that is the executor means the
    escalation role is no alternative. *)
Lemma choose_approvers_split needed ap ex esc r e :
  ex = Some e -> In r (choose_approvers needed true ap ex esc) -> r.(role_id) = e.(role_id) ->
  same_role ap ex = true /\ (esc = None \/ same_role esc ex = true).
Proof.
  intros He Hin Hr. unfold choose_approvers in Hin. cbn [andb] in Hin.
  destruct (same_role ap ex) eqn:Es.
  - split; [done|]. destruct esc as [x|]; [|by left]. right.
    destruct (same_role (Some x) ex) eqn:Ex; [done|]. cbn [negb] in Hin.
    destruct Hin as [<- | []]. cbn in Hr. exfalso.
    assert (same_role (Some x) ex = true) as Ht by (apply same_role_true; by exists x, e). congruence.
  - exfalso. assert (same_role ap ex = true) as Ht; [|congruence].
    destruct needed; [|done]. destruct ap as [x|]; [|done]. destruct Hin as [<- | []].
    apply same_role_true. by exists x, e.
Qed.

(** Execution authority is bounded.  When a context names an authority it is the
    executor; if the policy needs approval there is an approver; and when duties are
    segregated, an approver with the executor's role is only left when the resolver
    found no escalation role, or the head of the ladder has the executor's role too,
    and the context carries the segregation reason code. *)
Theorem authority_bounded a c e :
  resolve a = Ok c -> c.(execution_authority) = Some e ->
  c.(executor_roles) = [e] /\ (needs_approval a = true -> c.(approver_roles) <> []) /\
  (c.(segregation_of_duties_required) = true ->
   forall r, In r c.(approver_roles) -> r.(role_id) = e.(role_id) ->
     In SEGREGATION_OF_DUTIES_REQUIRED c.(sc_reason_codes) /\
     exists hop rest, c.(escalation_path) = hop :: rest /\
       (hop.(hop_role).(role_id) = e.(role_id) \/ hop.(hop_role).(rationale) = "fallback escalation")).
Proof.
  unfold resolve. cbn zeta. intros E Hauth. apply bind_Ok in E as (ids & _ & E). injection E as <-.
  set (ao := resolve_role _ _ _ _ "asset_owner" _ _) in *.
  set (co := resolve_role _ _ _ _ "control_owner" _ _) in *.
  set (ap := resolve_role _ _ _ _ "approver" _ _) in *.
  set (ex := resolve_role _ _ _ _ "executor" _ _) in *.
  set (inf := resolve_role _ _ _ _ "informed" _ _) in *.
  set (esc := resolve_role _ _ _ _ "escalation" _ _) in *. clearbody ao co ap ex inf esc.
  set (cfg := load_explicit_config (ra_config a)) in *. clearbody cfg.
  unfold assemble in *. cbn zeta in *.
  cbn [execution_authority executor_roles approver_roles segregation_of_duties_required
       sc_reason_codes escalation_path] in *.
  set (sod := py_bool _) in *. clearbody sod.
  destruct ex as [x|]; [|done].
  destruct (negb (needs_approval a) || _) eqn:Eok in Hauth; [|done]. injection Hauth as ->.
  split; [done|]. split.
  { intros Hn. rewrite Hn in *. cbn [negb orb] in Eok. apply negb_true_iff, bool_decide_eq_false in Eok.
    done. }
  intros -> r Hin Hr. destruct (choose_approvers_split _ _ _ _ _ _ eq_refl Hin Hr) as [Hs Hesc].
  split.
  { apply dedupe_In; [intros; apply bool_decide_eq_true|]. rewrite Hs. cbn [andb].
    rewrite !in_app_iff. right. right. right. left. by left. }
  do 2 eexists. split; [reflexivity|]. cbn [hop_role].
  destruct Hesc as [-> | Hesc]; [by right|]. left.
  apply same_role_true in Hesc as (y & z & -> & [= <-] & Hy). done.
Qed.
End Properties.

(** ** Concrete instances *)
Module StakeholderWitness.
#[local] Instance host : PyHost := DemoHost.demo_host.

Definition request (config : pydict) : resolve_args :=
  {| ra_case_id := "case-1"; ra_classification := "unknown_local_proxy"; ra_evidence_summary := None;
     ra_proof_status := ""; ra_policy_outcome := "preview_only"; ra_policy_requires_approval := false;
     ra_control_ids := Some ["CTRL-X"; "CTRL-TLS-001"]; ra_config := Some config |}.

(** An approver that would approve its own execution is replaced by the lead. *)
Definition split_config : pydict :=
  ["approver" :-> PStr "soc"; "executor" :-> PStr "soc";
   "identities" :-> PDict ["soc" :-> PStr "soc@example.org"; "blank" :-> PStr " "]].

Definition context_of (config : pydict) : option StakeholderContext :=
  match resolve (request config) with Ok c => Some c | Raise _ => None end.

Example split_context :
  option_map (fun c => (map role_id c.(approver_roles), c.(sc_reason_codes),
                        option_map identity c.(execution_authority)))
    (context_of split_config) =
  Some (["security_incident_manager"],
        [STAKEHOLDER_RESOLVED; APPROVER_REQUIRED; SECURITY_ESCALATION_REQUIRED;
         SEGREGATION_OF_DUTIES_REQUIRED], Some (Some "soc@example.org")).
Proof. vm_compute. reflexivity. Qed.

(** The one case left: every role of the decision is the same one. *)
Definition single_config : pydict :=
  ["approver" :-> PStr "soc"; "executor" :-> PStr "soc"; "escalation" :-> PStr "soc"].

Lemma authority_bounded_witness :
  match context_of single_config with
  | Some c => exists e r, c.(execution_authority) = Some e /\ In r c.(approver_roles) /\
      r.(role_id) = e.(role_id) /\ In SEGREGATION_OF_DUTIES_REQUIRED c.(sc_reason_codes)
  | None => False
  end.
Proof.
  destruct (context_of single_config) as [c|] eqn:E; [|vm_compute in E; discriminate].
  assert (resolve (request single_config) = Ok c) as Er.
  { unfold context_of in E. destruct (resolve (request single_config)); congruence. }
  destruct (execution_authority c) as [e|] eqn:Ea;
    [|exfalso; vm_compute in E; injection E as <-; discriminate Ea].
  destruct (authority_bounded (request single_config) c e Er Ea) as (_ & Hne & Hsep).
  destruct (approver_roles c) as [|r l] eqn:Eap; [exfalso; apply Hne; reflexivity|].
  assert (role_id r = role_id e) as Hr.
  { vm_compute in E. injection E as <-. vm_compute in Ea, Eap. injection Ea as <-.
    injection Eap as <- _. reflexivity. }
  exists e, r. split; [reflexivity|]. split; [by left|]. split; [exact Hr|].
  apply (Hsep ltac:(vm_compute in E; injection E as <-; reflexivity) r ltac:(by left) Hr).
Defined.

Lemma identities_configured_witness :
  match context_of split_config with
  | Some c => exists r, In r (context_roles c) /\ r.(identity) = Some "soc@example.org" /\
      r.(kind) = "configured_identity"
  | None => False
  end.
Proof.
  destruct (context_of split_config) as [c|] eqn:E; [|vm_compute in E; discriminate].
  assert (resolve (request split_config) = Ok c) as Er.
  { unfold context_of in E. destruct (resolve (request split_config)); congruence. }
  destruct (execution_authority c) as [e|] eqn:Ea;
    [|exfalso; vm_compute in E; injection E as <-; discriminate Ea].
  assert (In e (context_roles c)) as Hin.
  { unfold context_roles. rewrite Ea, !in_app_iff. do 7 right. by left. }
  assert (identity e = Some "soc@example.org") as Hid.
  { vm_compute in E. injection E as <-. vm_compute in Ea. injection Ea as <-. reflexivity. }
  exists e. split; [exact Hin|]. split; [exact Hid|].
  destruct (identities_configured (request split_config) c e Er Hin) as [[_ Hn]|[Hk _]];
    [congruence|exact Hk].
Defined.
End StakeholderWitness.
