(* ===== verification/DecisionContext.v ===== *)
(** * Decision envelopes: policy, stakeholders and timing together

    [src/platform_core/decision_context/]: the coordination status, the
    orchestrator that resolves stakeholders, evaluates the timing and writes four
    audit rows, the explanation text and the store of envelopes by case; and the
    coordination KPIs of [src/platform_core/governance/coordination_kpis.py], which
    read those audit rows back. *)

From S2P Require Import Prelude PyValue PyTime AuditChain EvidenceTiers EvidencePolicy Timing Stakeholder.
From Stdlib Require Import Ascii String.
From stdpp Require Import strings gmap.

Open Scope string_scope.
Open Scope Z_scope.
Open Scope py_scope.

Inductive CoordinationStatus :=
| CS_READY | CS_NEEDS_OWNER | CS_NEEDS_APPROVAL | CS_DEFERRED_TO_WINDOW | CS_ESCALATE_NOW
| CS_MONITOR_UNTIL | CS_EXPIRED | CS_BLOCKED_BY_CHANGE_FREEZE | CS_BLOCKED_BY_POLICY.

#[export] Instance CoordinationStatus_eq_dec : EqDecision CoordinationStatus.
Proof. solve_decision. Defined.
#[export] Instance CanonicalPolicyGate_eq_dec : EqDecision CanonicalPolicyGate.
Proof. solve_decision. Defined.

Definition status_value (s : CoordinationStatus) : string :=
  match s with
  | CS_READY => "READY" | CS_NEEDS_OWNER => "NEEDS_OWNER" | CS_NEEDS_APPROVAL => "NEEDS_APPROVAL"
  | CS_DEFERRED_TO_WINDOW => "DEFERRED_TO_WINDOW" | CS_ESCALATE_NOW => "ESCALATE_NOW"
  | CS_MONITOR_UNTIL => "MONITOR_UNTIL" | CS_EXPIRED => "EXPIRED"
  | CS_BLOCKED_BY_CHANGE_FREEZE => "BLOCKED_BY_CHANGE_FREEZE"
  | CS_BLOCKED_BY_POLICY => "BLOCKED_BY_POLICY"
  end.

(** ** Coordination status ([orchestrator.py]) *)

(** [policy_allowed] is not read by the source. *)
Definition _policy_blocks_execution (policy_decision : string) (policy_allowed : bool) : bool :=
  bool_decide (normalize_policy_outcome policy_decision = GATE_BLOCK)
  || PyStr.mem (PyStr.upper policy_decision)
       ["BLOCK"; "BLOCK_DESTRUCTIVE"; "BLOCK_LOW_CONFIDENCE"; "BLOCK_UNSAFE_ACTION";
        "BLOCK_AUTOMATION"].

Definition owner_missing (unresolved : list string) (reasons : list StakeholderReasonCode) : bool :=
  bool_decide (OWNER_UNRESOLVED ∈ reasons) || PyStr.mem "asset_owner" unresolved.

Definition derive_coordination_status (policy_decision : string)
    (policy_allowed policy_requires_approval : bool) (stakeholder_unresolved : list string)
    (stakeholder_reasons : list StakeholderReasonCode) (timing_decision : option TimingDecision)
    : CoordinationStatus :=
  if _policy_blocks_execution policy_decision policy_allowed then
    if bool_decide (timing_decision = Some TD_ESCALATE_NOW) then CS_ESCALATE_NOW
    else CS_BLOCKED_BY_POLICY
  else
  match timing_decision with
  | Some TD_EVIDENCE_EXPIRED => CS_EXPIRED
  | Some TD_SLA_OVERDUE =>
      if owner_missing stakeholder_unresolved stakeholder_reasons then CS_NEEDS_OWNER
      else if policy_requires_approval then CS_NEEDS_APPROVAL
      else CS_ESCALATE_NOW
  | Some TD_BLOCKED_BY_CHANGE_FREEZE => CS_BLOCKED_BY_CHANGE_FREEZE
  | Some TD_DEFERRED_TO_WINDOW => CS_DEFERRED_TO_WINDOW
  | Some TD_MONITOR_UNTIL => CS_MONITOR_UNTIL
  | Some TD_ESCALATE_NOW => CS_ESCALATE_NOW
  | Some TD_READY | None =>
      if owner_missing stakeholder_unresolved stakeholder_reasons then CS_NEEDS_OWNER
      else if policy_requires_approval || bool_decide (APPROVER_REQUIRED ∈ stakeholder_reasons) then
        if PyStr.mem "approver" stakeholder_unresolved
           || PyStr.mem "execution_authority" stakeholder_unresolved
        then CS_NEEDS_APPROVAL else CS_NEEDS_APPROVAL
      else CS_READY
  end.

(** ** The envelope ([models.py]) *)

Definition SCHEMA_DECISION_CONTEXT : string := "decision_context.v1".

Definition ENVELOPE_LIMITATIONS : list string :=
  ["Observation is not proof.";
   "Correlation is not causation.";
   "Confidence is not certainty.";
   "Classification is not accusation.";
   "Policy permission is not a safety guarantee.";
   "Stakeholder assignment is not approval.";
   "A valid maintenance window is not execution authorization.";
   "Remediation remains preview-only by default."].

Definition ENVELOPE_NON_CLAIMS : list string :=
  ["Does not authorize silent destructive action.";
   "Does not bypass typed confirmation via urgency.";
   "Does not invent stakeholder identities."].

(** The fields with constant defaults (schema, rollback requirements, limitations,
    non-claims) are the constants. *)
Record DecisionEnvelope := {
  dc_case_id : string;
  dc_decision_id : string;
  dc_evidence_refs : list string;
  dc_ranked_hypotheses : list pydict;
  dc_proof_result : pydict;
  dc_policy_decision : string;
  dc_policy_allowed : bool;
  dc_policy_requires_approval : bool;
  dc_stakeholder : option StakeholderContext;
  dc_timing : option TimingContext;
  dc_coordination_status : CoordinationStatus;
  dc_remediation_preview : pydict;
  dc_audit_metadata : pydict;
}.

Section Orchestrator.
Context {H : PyHost} {D : TzDatabase} {R : RecordCodec}.

Record envelope_args := {
  ea_case_id : string;
  ea_decision_id : string;
  ea_evidence_refs : option (list string);
  ea_ranked_hypotheses : option (list pydict);
  ea_proof_result : option pydict;
  ea_policy_decision : string;
  ea_policy_allowed : bool;
  ea_policy_requires_approval : bool;
  ea_classification : string;
  ea_proof_status : string;
  ea_detected_at_utc : option string;
  ea_timezone_name : option string;
  ea_stakeholder_config : option pydict;
  ea_timing_config : option pydict;
  ea_remediation_preview : option pydict;
  ea_control_ids : option (list string);
  ea_evidence_summary : option pydict;
  ea_write_audit : bool;
  ea_actor : string;
}.

(** [a or b] of strings. *)
Definition str_or (a b : string) : string := if PyStr.is_empty a then b else a.

(** Append the rows in turn.  A call that raises stops the loop; the rows written
    before it stay in the log. *)
Fixpoint append_rows (envs : nat -> audit_env) (i : nat) (reqs : list audit_request)
    (st : audit_store) : result (list string) * audit_store :=
  match reqs with
  | [] => (Ok [], st)
  | req :: rest =>
      match append_audit (envs i) req true st with
      | Raise e => (Raise e, st)
      | Ok (_, st1) =>
          let '(ids, st2) := append_rows envs (S i) rest st1 in
          (l ← ids; Ok ((envs i).(env_uuid) :: l), st2)
      end
  end.

(** The four audit rows of an envelope. *)
Definition envelope_requests (a : envelope_args) (stakeholder : StakeholderContext)
    (timing : TimingContext) (coordination : CoordinationStatus) : list audit_request :=
  let request action payload :=
    {| action_type := action; trace_id := a.(ea_case_id);
       decision_id := str_or a.(ea_decision_id) a.(ea_case_id); incident_id := a.(ea_case_id);
       actor := a.(ea_actor); payload := payload |} in
  [request "stakeholder_resolved"
     ["reason_codes" :-> str_list (map stakeholder_reason_value stakeholder.(sc_reason_codes));
      "unresolved_fields" :-> str_list stakeholder.(unresolved_fields);
      "resolution_confidence" :-> PStr stakeholder.(resolution_confidence);
      "inputs_fingerprint" :-> PStr stakeholder.(sc_inputs_fingerprint)];
   request "timing_evaluated"
     ["decision" :-> PStr (timing_decision_value timing.(tc_decision));
      "urgency" :-> PStr (urgency_value timing.(tc_urgency));
      "sla_due_utc" :-> PStr timing.(tc_sla_due_utc);
      "evidence_expires_utc" :-> PStr timing.(tc_evidence_expires_utc);
      "reason_codes" :-> str_list (map timing_reason_value timing.(tc_reason_codes));
      "timezone" :-> PStr timing.(tc_timezone);
      "inputs_fingerprint" :-> PStr timing.(tc_inputs_fingerprint)];
   request "coordination_status_set"
     ["policy_decision" :-> PStr a.(ea_policy_decision);
      "coordination_status" :-> PStr (status_value coordination);
      "execution_authority_present" :->
        PBool (bool_decide (is_Some stakeholder.(execution_authority)))];
   request "decision_context_built"
     ["schema_version" :-> PStr SCHEMA_DECISION_CONTEXT; "case_id" :-> PStr a.(ea_case_id)]].

(** The inputs of the two evaluators. *)
Definition envelope_classification (a : envelope_args) : string :=
  str_or a.(ea_classification)
    (py_str (py_or (Dict.get "classification" (default [] a.(ea_proof_result))) (PStr ""))).

Definition envelope_resolve_args (a : envelope_args) : resolve_args :=
  {| ra_case_id := a.(ea_case_id);
     ra_classification := envelope_classification a;
     ra_evidence_summary := a.(ea_evidence_summary);
     ra_proof_status :=
       str_or a.(ea_proof_status)
         (py_str (py_or (Dict.get "proof_tier" (default [] a.(ea_proof_result))) (PStr "")));
     ra_policy_outcome := a.(ea_policy_decision);
     ra_policy_requires_approval := a.(ea_policy_requires_approval);
     ra_control_ids := a.(ea_control_ids);
     ra_config := a.(ea_stakeholder_config) |}.

Definition envelope_timing_args (a : envelope_args) (now : string) : timing_args :=
  {| ta_case_id := a.(ea_case_id);
     ta_detected_at_utc :=
       match a.(ea_detected_at_utc) with Some t => str_or t now | None => now end;
     ta_evaluated_at_utc := Some now;
     ta_timezone_name := a.(ea_timezone_name);
     ta_classification := envelope_classification a;
     ta_policy_outcome := a.(ea_policy_decision);
     ta_urgency := None;
     ta_maintenance_window_required := false;
     ta_change_freeze_active := false;
     ta_retry_after_utc := None;
     ta_sla_hours := None;
     ta_evidence_ttl_hours := None;
     ta_business_hours_start := hm 9 0;
     ta_business_hours_end := hm 18 0;
     ta_maintenance_start := hm 22 0;
     ta_maintenance_end := hm 5 0;
     ta_config := a.(ea_timing_config) |}.

(** [remediation_preview or {...}]. *)
Definition envelope_preview (a : envelope_args) (coordination : CoordinationStatus) : pydict :=
  match a.(ea_remediation_preview) with
  | Some (kv :: d) => kv :: d
  | _ =>
      ["dry_run" :-> PBool true;
       "preview_only" :-> PBool true;
       "message" :-> PStr
         "Remediation remains preview-only; coordination does not authorize apply.";
       "coordination_status" :-> PStr (status_value coordination);
       "policy_decision" :-> PStr a.(ea_policy_decision)]
  end.

(** The envelope, the result of the audit writes given. *)
Definition make_envelope (a : envelope_args) (stakeholder : StakeholderContext)
    (timing : TimingContext) (coordination : CoordinationStatus) (audit_ids : option (list string))
    : DecisionEnvelope :=
  {| dc_case_id := a.(ea_case_id);
     dc_decision_id := str_or a.(ea_decision_id) a.(ea_case_id);
     dc_evidence_refs := default [] a.(ea_evidence_refs);
     dc_ranked_hypotheses := default [] a.(ea_ranked_hypotheses);
     dc_proof_result := default [] a.(ea_proof_result);
     dc_policy_decision := a.(ea_policy_decision);
     dc_policy_allowed := a.(ea_policy_allowed);
     dc_policy_requires_approval := a.(ea_policy_requires_approval);
     dc_stakeholder := Some stakeholder;
     dc_timing := Some timing;
     dc_coordination_status := coordination;
     dc_remediation_preview := envelope_preview a coordination;
     dc_audit_metadata :=
       (["schema_version" :-> PStr SCHEMA_DECISION_CONTEXT;
         "policy_decision" :-> PStr a.(ea_policy_decision);
         "coordination_status" :-> PStr (status_value coordination);
         "stakeholder_fingerprint" :-> PStr stakeholder.(sc_inputs_fingerprint);
         "timing_fingerprint" :-> PStr timing.(tc_inputs_fingerprint)]
        ++ match audit_ids with Some ids => ["audit_ids" :-> str_list ids] | None => [] end)%list |}.

(** [clock] is the reading of [datetime.now(UTC)]; [envs] what each append draws. *)
Definition build_decision_envelope (clock : Z) (envs : nat -> audit_env) (a : envelope_args)
    (st : audit_store) : result DecisionEnvelope * audit_store :=
  let now := format_utc clock in
  match
    stakeholder ← resolve (envelope_resolve_args a);
    timing ← evaluate_timing clock (envelope_timing_args a now);
    Ok (stakeholder, timing)
  with
  | Raise e => (Raise e, st)
  | Ok (stakeholder, timing) =>
      let coordination :=
        derive_coordination_status a.(ea_policy_decision) a.(ea_policy_allowed)
          a.(ea_policy_requires_approval) stakeholder.(unresolved_fields)
          stakeholder.(sc_reason_codes) (Some timing.(tc_decision)) in
      if a.(ea_write_audit) then
        let '(ids, st') :=
          append_rows envs 0 (envelope_requests a stakeholder timing coordination) st in
        (l ← ids; Ok (make_envelope a stakeholder timing coordination (Some l)), st')
      else (Ok (make_envelope a stakeholder timing coordination None), st)
  end.
End Orchestrator.

(** ** Explanation *)

Definition explanation_lines (e : DecisionEnvelope) : list string :=
  (["Case: " +:+ e.(dc_case_id);
    "Policy decision: " +:+ e.(dc_policy_decision);
    "Coordination status: " +:+ status_value e.(dc_coordination_status)]
   ++ match e.(dc_stakeholder) with
      | None => []
      | Some sh =>
          ["Asset owner role: " +:+
             match sh.(asset_owner) with Some r => r.(display_name) | None => "(unresolved)" end]
          ++ match sh.(unresolved_fields) with
             | [] => []
             | l => ["Unresolved stakeholder fields: " +:+ PyStr.join ", " l]
             end
          ++ ["Stakeholder confidence: " +:+ sh.(resolution_confidence)]
      end
   ++ match e.(dc_timing) with
      | None => []
      | Some tm =>
          ["Timing decision: " +:+ timing_decision_value tm.(tc_decision);
           "Urgency: " +:+ urgency_value tm.(tc_urgency);
           "Timezone: " +:+ tm.(tc_timezone)]
          ++ (if PyStr.is_empty tm.(tc_sla_due_utc) then []
              else ["SLA due (UTC): " +:+ tm.(tc_sla_due_utc)])
          ++ (if PyStr.is_empty tm.(tc_evidence_expires_utc) then []
              else ["Evidence expires (UTC): " +:+ tm.(tc_evidence_expires_utc)])
      end
   ++ [""; "Principles:"]
   ++ map (fun p => "- " +:+ p) ENVELOPE_LIMITATIONS)%list.

Definition newline : string := String (ascii_of_N 10) "".

Definition explain_decision_envelope (e : DecisionEnvelope) : pydict :=
  let lines := explanation_lines e in
  ["schema_version" :-> PStr SCHEMA_DECISION_CONTEXT;
   "case_id" :-> PStr e.(dc_case_id);
   "policy_decision" :-> PStr e.(dc_policy_decision);
   "coordination_status" :-> PStr (status_value e.(dc_coordination_status));
   "summary_lines" :-> str_list lines;
   "text" :-> PStr (PyStr.join newline lines);
   "limitations" :-> str_list ENVELOPE_LIMITATIONS;
   "non_claims" :-> str_list ENVELOPE_NON_CLAIMS].

Definition format_decision_text {H : PyHost} (e : DecisionEnvelope) : string :=
  py_str (Dict.get "text" (explain_decision_envelope e)).

(** ** Coordination *)

Lemma coordination_ready policy allowed requires unresolved reasons timing :
  derive_coordination_status policy allowed requires unresolved reasons timing = CS_READY <->
  _policy_blocks_execution policy allowed = false /\ (timing = None \/ timing = Some TD_READY) /\
  owner_missing unresolved reasons = false /\ requires = false /\ ~ In APPROVER_REQUIRED reasons.
Proof.
  unfold derive_coordination_status. rewrite <- list_elem_of_In.
  destruct (_policy_blocks_execution policy allowed).
  - case_bool_decide; split; try done; intros (? & _); done.
  - destruct timing as [[]|]; destruct (owner_missing unresolved reasons), requires;
      cbn [orb]; try case_bool_decide; repeat case_match; split; intros E;
      repeat match goal with
      | H : _ /\ _ |- _ => destruct H
      | H : _ \/ _ |- _ => destruct H
      end; try discriminate; try congruence; try contradiction; auto.
Qed.

(** The coordination status reports READY exactly when the policy does not block,
    the timing asks for nothing, the asset owner is resolved, and neither the policy nor
    the stakeholder rules need an approver; and a blocking policy leaves only the
    statuses BLOCKED_BY_POLICY and, for an urgent timing, ESCALATE_NOW. *)
Theorem coordination_ready_iff policy allowed requires unresolved reasons timing :
  let s := derive_coordination_status policy allowed requires unresolved reasons timing in
  (s = CS_READY <->
     _policy_blocks_execution policy allowed = false /\ (timing = None \/ timing = Some TD_READY) /\
     owner_missing unresolved reasons = false /\ requires = false /\ ~ In APPROVER_REQUIRED reasons) /\
  (_policy_blocks_execution policy allowed = true ->
     s = if bool_decide (timing = Some TD_ESCALATE_NOW) then CS_ESCALATE_NOW
         else CS_BLOCKED_BY_POLICY).
Proof.
  cbn zeta. split; [apply coordination_ready|].
  intros Hb. unfold derive_coordination_status. by rewrite Hb.
Qed.

(** ** Envelopes and the audit log *)

(** Take apart rows that were written for a known list of requests. *)
Ltac inv_rows :=
  repeat match goal with
  | H : Forall2 _ (_ :: _) _ |- _ => inversion H; subst; clear H
  | H : Forall2 _ [] _ |- _ => inversion H; subst; clear H
  | H : _ ?req ?rec |- _ =>
      is_var rec; let T := type of req in unify T audit_request; destruct H as (? & ? & ? & ->)
  end.

Section Audited.
Context {H : PyHost} {D : TzDatabase} {R : RecordCodec} {HD : HexDigest H} {L : JsonLaws R}.

Lemma append_audit_record env req w st rec st' :
  append_audit env req w st = Ok (rec, st') -> exists prev cur, rec = audit_record env req prev cur.
Proof.
  unfold append_audit. intros E. apply bind_Ok in E as (prev & _ & E).
  destruct (negb _); [done|]. cbn zeta in E. injection E as <- _. eauto.
Qed.

(** A record is the row of a request. *)
Definition row_of_request (req : audit_request) (rec : pydict) : Prop :=
  exists env prev cur, rec = audit_record env req prev cur.

Lemma append_rows_ok envs i reqs st rs :
  store_ok st rs -> (forall j req, In req reqs -> call_ok (envs j, req)) ->
  exists ids recs st', append_rows envs i reqs st = (Ok ids, st') /\ store_ok st' (rs ++ recs) /\
    Forall2 row_of_request reqs recs /\
    map (Dict.lookup "audit_id") recs = map (fun j => Some (PStr (envs j).(env_uuid))) (seq i (length reqs)) /\
    ids = map (fun j => (envs j).(env_uuid)) (seq i (length reqs)).
Proof.
  revert i st rs. induction reqs as [|req reqs IH]; intros i st rs Hst Hok; cbn [append_rows].
  - exists [], [], st. rewrite app_nil_r. split; [done|]. split; [exact Hst|]. by split; [constructor|].
  - destruct (append_audit_ok (envs i) req st rs Hst (Hok i req ltac:(by left))) as (rec & st1 & E & Hst1).
    rewrite E. destruct (IH (S i) st1 (rs ++ [rec])%list Hst1) as (ids & recs & st' & E' & Hst' & Hall & Hu & ->).
    { intros j r Hr. apply Hok. by right. }
    rewrite E', bind_ok_l. eexists _, (rec :: recs), st'. split; [reflexivity|].
    rewrite <- app_assoc in Hst'. split; [exact Hst'|].
    destruct (append_audit_record _ _ _ _ _ _ E) as (prev & cur & ->). split.
    { constructor; [by eexists _, _, _|exact Hall]. }
    split; [|done]. cbn [map length seq]. by rewrite Hu.
Qed.

Definition envelope_actions : list string :=
  ["stakeholder_resolved"; "timing_evaluated"; "coordination_status_set"; "decision_context_built"].

Lemma envelope_requests_actions a sh tm s :
  map action_type (envelope_requests a sh tm s) = envelope_actions.
Proof. reflexivity. Qed.

Lemma envelope_calls_ok (envs : nat -> audit_env) reqs :
  map action_type reqs = envelope_actions ->
  (forall j, (envs j).(env_tip_writable) = true) ->
  (forall j req, In req reqs -> json_plain (PDict (audit_record (envs j) req "" "")) = true) ->
  forall (j : nat) req, In req reqs -> call_ok (envs j, req).
Proof.
  intros Ha Hw Hp j req Hreq. split; [by apply Hp|]. split; [|apply Hw].
  assert (In (action_type req) envelope_actions) as Hin by (rewrite <- Ha; by apply in_map).
  cbn [snd]. revert Hin. generalize (action_type req). clear.
  intros x Hin. repeat destruct Hin as [<- | Hin]; try reflexivity. destruct Hin.
Qed.

(** C23: building an envelope is audited.  On a well-formed log, whenever the two
    evaluators return, the texts of the four records are ones JSON carries on one line, and
    the anchor can be written, the call returns an envelope, appends exactly four rows
    (stakeholders, timing, status, envelope), which the readers find after the earlier ones,
    leaves the log well formed and accepted with its refreshed anchor, and lists the rows'
    identifiers in the envelope's metadata. *)
Theorem envelope_audited clock envs a st rs sh tm :
  store_ok st rs ->
  resolve (envelope_resolve_args a) = Ok sh ->
  evaluate_timing clock (envelope_timing_args a (format_utc clock)) = Ok tm ->
  a.(ea_write_audit) = true ->
  (forall j, (envs j).(env_tip_writable) = true) ->
  (forall j status req, In req (envelope_requests a sh tm status) ->
     json_plain (PDict (audit_record (envs j) req "" "")) = true) ->
  exists e recs st', build_decision_envelope clock envs a st = (Ok e, st') /\
    store_ok st' (rs ++ recs) /\ read_audit_records st' = (rs ++ recs)%list /\ accepted st' /\
    map (Dict.lookup "action_type") recs = map (fun x => Some (PStr x)) envelope_actions /\
    Forall (fun rec => Dict.lookup "incident_id" rec = Some (PStr a.(ea_case_id))) recs /\
    map (Dict.lookup "audit_id") recs = map (fun j => Some (PStr (envs j).(env_uuid))) [0; 1; 2; 3]%nat /\
    Dict.lookup "audit_ids" e.(dc_audit_metadata) =
      Some (str_list (map (fun j => (envs j).(env_uuid)) [0; 1; 2; 3]%nat)).
Proof.
  intros Hst Hsh Htm Hw Htip Hplain. unfold build_decision_envelope. cbn zeta.
  rewrite Hsh, bind_ok_l, Htm, bind_ok_l, Hw.
  set (s := derive_coordination_status _ _ _ _ _ _).
  destruct (append_rows_ok envs 0 (envelope_requests a sh tm s) st rs Hst)
    as (ids & recs & st' & E & Hst' & Hall & Huuid & ->).
  { apply envelope_calls_ok; [reflexivity|done|]. intros j req. apply Hplain. }
  rewrite E, bind_ok_l. eexists _, recs, st'. split; [reflexivity|]. split; [exact Hst'|].
  split; [exact (store_records _ _ Hst')|]. split.
  { apply (store_ok_accepted _ _ Hst'). intros [_ ->]%app_eq_nil. inversion Hall. }
  unfold envelope_requests in Hall. cbn zeta in Hall. cbn [length seq map] in Huuid.
  inv_rows.
  split; [reflexivity|]. split; [by repeat constructor|]. split; [exact Huuid|]. reflexivity.
Qed.

(** ** Ready envelopes *)

Lemma resolve_needs_approval a c :
  resolve a = Ok c -> needs_approval a = true -> In APPROVER_REQUIRED c.(sc_reason_codes).
Proof.
  unfold resolve. cbn zeta. intros E Hn. apply bind_Ok in E as (ids & _ & E). injection E as <-.
  unfold assemble. cbn zeta. cbn [sc_reason_codes]. rewrite Hn.
  apply dedupe_In; [intros; apply bool_decide_eq_true|]. rewrite !in_app_iff. right. left. by left.
Qed.

Lemma resolve_owner a c :
  resolve a = Ok c -> owner_missing c.(unresolved_fields) c.(sc_reason_codes) = false ->
  is_Some c.(asset_owner).
Proof.
  unfold resolve, owner_missing. cbn zeta. intros E Hn. apply bind_Ok in E as (ids & _ & E).
  injection E as <-. apply orb_false_iff in Hn as [Hn _]. apply bool_decide_eq_false in Hn.
  unfold assemble in *. cbn zeta in *. cbn [sc_reason_codes asset_owner] in *.
  destruct (resolve_role _ _ _ _ "asset_owner" _ _) as [o|]; [by eexists|]. exfalso. apply Hn.
  apply list_elem_of_In, dedupe_In; [intros; apply bool_decide_eq_true|]. rewrite !in_app_iff.
  left. by left.
Qed.

(** What READY means for the clocks. *)
Lemma reference_ready now exp sla freeze required in_maint urg biz retry :
  timing_reference now exp sla freeze required in_maint urg biz retry = TD_READY ->
  now < exp /\ now < sla /\ freeze = false /\ (required = true -> in_maint <> Some false) /\
  (urg = URG_HIGH -> biz = true) /\ urg <> URG_CRITICAL.
Proof.
  unfold timing_reference. destruct (exp <=? now) eqn:E1; [done|]. destruct (sla <=? now) eqn:E2; [done|].
  destruct freeze; [by destruct (urgent urg)|].
  destruct required, in_maint as [[]|], urg, biz, retry; cbn; intros E; try discriminate E;
    split_and!; try done; lia.
Qed.

(** C22: READY is earned through every layer.  An envelope that is returned with status
    READY has a policy decision that does not normalise to a block and needs no
    approval, a resolved asset owner, fresh evidence within its SLA, no change freeze,
    no missed maintenance window, and no urgency that calls for escalation. *)
Theorem envelope_ready_sound clock envs a st e st' :
  build_decision_envelope clock envs a st = (Ok e, st') -> e.(dc_coordination_status) = CS_READY ->
  normalize_policy_outcome a.(ea_policy_decision) <> GATE_BLOCK /\
  needs_approval (envelope_resolve_args a) = false /\
  exists sh tm now exp sla, e.(dc_stakeholder) = Some sh /\ e.(dc_timing) = Some tm /\
    is_Some sh.(asset_owner) /\
    tm.(tc_evaluated_at_utc) = format_utc now /\ tm.(tc_sla_due_utc) = format_utc sla /\
    tm.(tc_evidence_expires_utc) = format_utc exp /\ now < exp /\ now < sla /\
    tm.(tc_change_freeze_active) = false /\
    (tm.(tc_maintenance_window_required) = true -> tm.(tc_in_maintenance_window) <> Some false) /\
    (tm.(tc_urgency) = URG_HIGH -> tm.(tc_business_hours) = true) /\
    tm.(tc_urgency) <> URG_CRITICAL.
Proof.
  unfold build_decision_envelope. cbn zeta. intros E Hs.
  destruct (resolve (envelope_resolve_args a)) as [sh|x] eqn:Esh; [|done]. rewrite bind_ok_l in E.
  destruct (evaluate_timing clock _) as [tm|x] eqn:Etm; [|done]. rewrite bind_ok_l in E.
  set (s := derive_coordination_status _ _ _ _ _ _) in E.
  assert (exists ids, e = make_envelope a sh tm s ids) as (ids & ->).
  { destruct (ea_write_audit a); [|injection E as <- _; by eexists].
    destruct (append_rows _ _ _ _) as [r st2]. injection E as E _.
    apply bind_Ok in E as (l & _ & E). injection E as <-. by eexists. }
  cbn [make_envelope dc_coordination_status dc_stakeholder dc_timing] in *.
  apply coordination_ready in Hs as (Hb & Ht & Ho & Hreq & Hna).
  unfold _policy_blocks_execution in Hb. apply orb_false_iff in Hb as [Hb _].
  apply bool_decide_eq_false in Hb. split; [done|]. split.
  { destruct (needs_approval (envelope_resolve_args a)) eqn:En; [|done].
    exfalso. by apply Hna, (resolve_needs_approval _ _ Esh). }
  destruct Ht as [? | [= Ht]]; [done|].
  apply evaluate_reference in Etm as (det & now & sla & exp & _ & _ & _ & _ & Hnow & Hsla & Hexp & Hd).
  rewrite Ht in Hd. symmetry in Hd. apply reference_ready in Hd as (H1 & H2 & H3 & H4 & H5 & H6).
  exists sh, tm, now, exp, sla. pose proof (resolve_owner _ _ Esh Ho). split_and!; done.
Qed.
End Audited.

(** ** The store ([store.py]) *)

(** [str.isalnum] of the characters outside ASCII. *)
Class UnicodeTable := { uni_isalnum : N -> bool }.

(** [to_dict] through JSON text, and [DecisionEnvelope.model_validate]. *)
Class EnvelopeCodec := {
  env_dump : DecisionEnvelope -> pydict;
  env_validate : pydict -> result DecisionEnvelope;
}.

Section Store.
Context {H : PyHost} {U : UnicodeTable} {C : EnvelopeCodec}.

Definition safe_char (c : N) : bool :=
  (if c <? 128
   then (48 <=? c) && (c <=? 57) || (65 <=? c) && (c <=? 90) || (97 <=? c) && (c <=? 122)
        || (c =? 45) || (c =? 46) || (c =? 95)
   else uni_isalnum c)%N.

Definition _safe_case_filename (case_id : string) : string :=
  let cleaned :=
    map (fun c => if safe_char c then c else 95%N) (Json.code_points (PyStr.strip case_id)) in
  str_or (Utf8.encode (firstn 180 cleaned)) "case".

(** The files of the store directory by name; [path_str] prints the path of one. *)
Abbreviation files := (gmap string pydict).

Definition save_decision_envelope (path_str : string -> string) (envelope : DecisionEnvelope)
    (fs : files) : files :=
  let name := _safe_case_filename envelope.(dc_case_id) ++ ".json" in
  <["latest.json" :=
      ["case_id" :-> PStr envelope.(dc_case_id); "path" :-> PStr (path_str name)]]>
    (<[name := env_dump envelope]> fs).

Definition load_decision_envelope (case_id : string) (fs : files)
    : result (option DecisionEnvelope) :=
  match fs !! (_safe_case_filename case_id ++ ".json") with
  | None => Ok None
  | Some data => e ← env_validate data; Ok (Some e)
  end.

Definition load_latest_decision_envelope (fs : files) : result (option DecisionEnvelope) :=
  match fs !! "latest.json" with
  | None => Ok None
  | Some meta =>
      let case_id := py_str (py_or (Dict.get "case_id" meta) (PStr "")) in
      if PyStr.is_empty case_id then Ok None else load_decision_envelope case_id fs
  end.

Lemma append_length (a b : string) : String.length (a ++ b) = (String.length a + String.length b)%nat.
Proof. induction a as [|c a IH]; [done|]. rewrite PyStr.append_cons. cbn. by rewrite IH. Qed.

Lemma append_cancel_r (a b s : string) : a ++ s = b ++ s -> a = b.
Proof.
  revert b. induction a as [|c a IH]; intros [|c' b] E; [done| | |].
  - apply (f_equal String.length) in E. rewrite !append_length in E. cbn in E. lia.
  - apply (f_equal String.length) in E. rewrite !append_length in E. cbn in E. lia.
  - rewrite !PyStr.append_cons in E. injection E as -> E. f_equal. auto.
Qed.

(** A saved envelope is found again.  When validation reads back what was dumped
    and the case does not use the reserved name "latest", loading its case gives the
    envelope, the latest envelope is this one, and every case with another file name
    keeps what it had. *)
Theorem envelope_store_roundtrip path_str e fs :
  env_validate (env_dump e) = Ok e -> e.(dc_case_id) <> "" ->
  _safe_case_filename e.(dc_case_id) <> "latest" ->
  let fs' := save_decision_envelope path_str e fs in
  load_decision_envelope e.(dc_case_id) fs' = Ok (Some e) /\
  load_latest_decision_envelope fs' = Ok (Some e) /\
  forall id, _safe_case_filename id <> _safe_case_filename e.(dc_case_id) ->
    _safe_case_filename id <> "latest" ->
    load_decision_envelope id fs' = load_decision_envelope id fs.
Proof.
  intros Hrt Hne Hlat. cbn zeta.
  assert (forall id, _safe_case_filename id <> "latest" -> "latest.json" <> _safe_case_filename id ++ ".json")
    as Hname.
  { intros id Hid E. apply Hid. symmetry. by apply (append_cancel_r _ _ ".json"). }
  assert (load_decision_envelope (dc_case_id e) (save_decision_envelope path_str e fs) = Ok (Some e))
    as Hload.
  { unfold load_decision_envelope, save_decision_envelope. cbn zeta.
    rewrite lookup_insert_ne by (by apply Hname). rewrite lookup_insert_eq, Hrt. done. }
  split; [exact Hload|]. split.
  - unfold load_latest_decision_envelope. unfold save_decision_envelope at 1. cbn zeta.
    rewrite lookup_insert_eq. unfold Dict.get. cbn [Dict.lookup String.eqb].
    cbn -[load_decision_envelope save_decision_envelope]. unfold py_or. cbn [py_bool].
    apply PyStr.is_empty_false in Hne. rewrite Hne. cbn [negb py_str]. by rewrite Hne.
  - intros id Hid Hid'. unfold load_decision_envelope, save_decision_envelope. cbn zeta.
    rewrite lookup_insert_ne by (by apply Hname). rewrite lookup_insert_ne; [done|].
    intros E. apply Hid. symmetry. by apply (append_cancel_r _ _ ".json").
Qed.

(** The pointer of the store overwrites the envelope of a case whose file is "latest". *)
Lemma latest_case_overwritten path_str e fs :
  _safe_case_filename e.(dc_case_id) = "latest" ->
  save_decision_envelope path_str e fs !! "latest.json" =
    Some ["case_id" :-> PStr e.(dc_case_id); "path" :-> PStr (path_str "latest.json")].
Proof. intros E. unfold save_decision_envelope. rewrite E. cbn zeta. by rewrite lookup_insert_eq. Qed.
End Store.

(** ** Calls with defaults never raise *)

Section Defaults.
Context {H : PyHost} {D : TzDatabase} {L : TzLaws D}.

Lemma default_clock_hours u :
  timedelta_hours (DEFAULT_SLA_HOURS u) =
    Ok (match u with URG_LOW => 72 | URG_MEDIUM => 24 | URG_HIGH => 8 | URG_CRITICAL => 2 end
        * 3600 * US_PER_SEC) /\
  timedelta_hours (DEFAULT_EVIDENCE_TTL_HOURS u) =
    Ok (match u with URG_LOW => 168 | URG_MEDIUM => 48 | URG_HIGH => 24 | URG_CRITICAL => 12 end
        * 3600 * US_PER_SEC).
Proof. destruct u; vm_compute; split; reflexivity. Qed.

Lemma dt_add_ok us d : in_range (us + d) = true -> dt_add us d = Ok (us + d).
Proof. intros Hr. unfold dt_add. by rewrite Hr. Qed.

(** The clocks of an instant away from the end of the calendar. *)
Lemma default_clocks us u :
  0 <= us -> us + 10 * US_PER_DAY < MAX_ORD * US_PER_DAY ->
  (exists s, sla_due_utc {| dt_wall := us; dt_offset := Some 0 |} u None = Ok s) /\
  (exists x, evidence_expires_utc {| dt_wall := us; dt_offset := Some 0 |} u None = Ok x).
Proof.
  intros Hlo Hhi. destruct (default_clock_hours u) as [Hs He].
  unfold sla_due_utc, evidence_expires_utc, utc_of, to_utc. cbn [dt_offset dt_wall].
  rewrite Z.sub_0_r.
  assert (in_range us = true) as Hus by (unfold in_range, US_PER_DAY, US_PER_SEC in *; lia).
  rewrite Hus, !bind_ok_l. change (default ?x None) with x. rewrite Hs, He, !bind_ok_l.
  split; eexists; apply dt_add_ok; destruct u; unfold in_range, US_PER_DAY, US_PER_SEC, MAX_ORD in *;
    lia.
Qed.

(** A call that leaves the optional inputs out never raises: without a stakeholder
    or timing configuration, a time zone or a detection time, both evaluators return for
    every clock reading at least two days after the start of the calendar and ten days
    before its end. *)
Theorem default_envelope_total clock a :
  a.(ea_stakeholder_config) = None -> a.(ea_timing_config) = None -> a.(ea_timezone_name) = None ->
  a.(ea_detected_at_utc) = None ->
  2 * US_PER_DAY <= clock -> clock + 10 * US_PER_DAY < MAX_ORD * US_PER_DAY ->
  exists sh tm, resolve (envelope_resolve_args a) = Ok sh /\
    evaluate_timing clock (envelope_timing_args a (format_utc clock)) = Ok tm.
Proof.
  intros Hsc Htc Htz Hdet Hlo Hhi.
  assert (exists sh, resolve (envelope_resolve_args a) = Ok sh) as (sh & Hsh).
  { unfold resolve, envelope_resolve_args. cbn [ra_config]. rewrite Hsc. by eexists. }
  exists sh. rewrite Hsh.
  assert (in_range clock = true) as Hr by (unfold in_range, US_PER_DAY, US_PER_SEC in *; lia).
  pose proof (parse_format clock Hr) as Hp. set (now := clock - clock mod US_PER_SEC) in *.
  assert (US_PER_DAY <= now /\ now + 10 * US_PER_DAY < MAX_ORD * US_PER_DAY) as [Hn1 Hn2].
  { pose proof (Z.mod_pos_bound clock US_PER_SEC ltac:(reflexivity)).
    unfold now, US_PER_DAY, US_PER_SEC in *. lia. }
  unfold evaluate_timing, envelope_timing_args. rewrite Htc, Htz, Hdet.
  cbn [ta_config ta_timezone_name ta_detected_at_utc ta_evaluated_at_utc ta_classification
       ta_policy_outcome ta_urgency ta_maintenance_window_required ta_change_freeze_active
       ta_retry_after_utc ta_sla_hours ta_evidence_ttl_hours ta_business_hours_start
       ta_business_hours_end ta_maintenance_start ta_maintenance_end ta_case_id].
  cbn zeta. change (default [] None) with ([] : pydict).
  assert (resolve_tz (Some (py_str (py_or (py_or (text_or_none None) (Dict.get "timezone" []))
            (PStr "UTC")))) = Ok "UTC") as ->.
  { unfold resolve_tz. cbn. by rewrite utc_found. }
  rewrite bind_ok_l, Hp, bind_ok_l.
  assert (PyStr.is_empty (format_utc clock) = false) as ->.
  { destruct (PyStr.is_empty (format_utc clock)) eqn:Ee; [|done].
    apply PyStr.is_empty_true in Ee. rewrite Ee in Hp. discriminate Hp. }
  rewrite bind_ok_l. set (urg := _urgency_from _ _ _).
  destruct (default_clocks now urg) as [[sla Hsla] [exp Hexp]]; [unfold US_PER_DAY, US_PER_SEC in *; lia|done|].
  rewrite Hsla, bind_ok_l, Hexp, bind_ok_l. unfold is_business_hours, to_local. rewrite utc_offset_at.
  rewrite dt_add_ok by (unfold in_range, US_PER_DAY, US_PER_SEC in *; lia). rewrite bind_ok_l. cbn zeta.
  assert (forall b x y, exists z, (if negb b then Ok x else Ok y) = Ok (z : bool)) as Hif
    by (intros [] x y; by eexists).
  match goal with |- context [if negb ?b then Ok ?x else Ok ?y] => destruct (Hif b x y) as [z ->] end.
  rewrite bind_ok_l. unfold config_flag. cbn [Dict.lookup]. rewrite !bind_ok_l.
  destruct (stage_urgency urg z _) as [d r]. cbn [stage_retry]. rewrite bind_ok_l.
  destruct (stage_hours z (d, r)). by eexists.
Qed.
End Defaults.

(** ** Coordination KPIs *)

(** The counters; the three mean times of the source are never computed and stay
    [None], since nothing is ever added to [owner_deltas]. *)
Record coordination_kpis := {
  unassigned_owner_cases : Z;
  cases_awaiting_approval : Z;
  cases_deferred_to_maintenance_windows : Z;
  sla_overdue_cases : Z;
  evidence_expired_cases : Z;
  immediate_escalation_cases : Z;
  n_stakeholder_resolved : Z;
  n_timing_evaluated : Z;
  n_coordination_status_set : Z;
}.

Definition kpi_zero : coordination_kpis := Build_coordination_kpis 0 0 0 0 0 0 0 0 0.

Definition kpi_add (a b : coordination_kpis) : coordination_kpis :=
  {| unassigned_owner_cases := a.(unassigned_owner_cases) + b.(unassigned_owner_cases);
     cases_awaiting_approval := a.(cases_awaiting_approval) + b.(cases_awaiting_approval);
     cases_deferred_to_maintenance_windows :=
       a.(cases_deferred_to_maintenance_windows) + b.(cases_deferred_to_maintenance_windows);
     sla_overdue_cases := a.(sla_overdue_cases) + b.(sla_overdue_cases);
     evidence_expired_cases := a.(evidence_expired_cases) + b.(evidence_expired_cases);
     immediate_escalation_cases := a.(immediate_escalation_cases) + b.(immediate_escalation_cases);
     n_stakeholder_resolved := a.(n_stakeholder_resolved) + b.(n_stakeholder_resolved);
     n_timing_evaluated := a.(n_timing_evaluated) + b.(n_timing_evaluated);
     n_coordination_status_set := a.(n_coordination_status_set) + b.(n_coordination_status_set) |}.

Definition one_if (b : bool) : Z := if b then 1 else 0.

Section Kpis.
Context {H : PyHost}.

(** What one row adds. *)
Definition kpi_row (row : pydict) : result coordination_kpis :=
  let text k d := py_str (py_or (Dict.get k d) (PStr "")) in
  let action := text "action_type" row in
  let payload :=
    match py_or (Dict.get "payload" row) (PDict []) with PDict d => d | _ => [] end in
  if String.eqb action "stakeholder_resolved" then
    missing ← py_contains "asset_owner" (py_or (Dict.get "unresolved_fields" payload) (PList []));
    Ok (Build_coordination_kpis (one_if missing) 0 0 0 0 0 1 0 0)
  else if String.eqb action "timing_evaluated" then
    let decision := text "decision" payload in
    Ok (Build_coordination_kpis 0 0
          (one_if (String.eqb decision "DEFERRED_TO_WINDOW"))
          (one_if (String.eqb decision "SLA_OVERDUE"))
          (one_if (String.eqb decision "EVIDENCE_EXPIRED"))
          (one_if (String.eqb decision "ESCALATE_NOW")) 0 1 0)
  else if String.eqb action "coordination_status_set" then
    let status := text "coordination_status" payload in
    Ok (Build_coordination_kpis
          (one_if (String.eqb status "NEEDS_OWNER"))
          (one_if (String.eqb status "NEEDS_APPROVAL"))
          (one_if (String.eqb status "DEFERRED_TO_WINDOW")) 0
          (one_if (String.eqb status "EXPIRED"))
          (one_if (String.eqb status "ESCALATE_NOW")) 0 0 1)
  else Ok kpi_zero.

(** The lines of all log files, in order.  A line that is JSON but not an object has no
    [get]. *)
Fixpoint kpi_lines (lines : list jline) (acc : coordination_kpis) : result coordination_kpis :=
  match lines with
  | [] => Ok acc
  | (LBlank | LBad) :: rest => kpi_lines rest acc
  | LJson v :: rest =>
      row ← Dict.of_val v;
      k ← kpi_row row;
      kpi_lines rest (kpi_add acc k)
  end.

(** [None] when the directory is missing. *)
Definition compute_coordination_kpis (logs : option (list (list jline))) : result coordination_kpis :=
  kpi_lines (concat (default [] logs)) kpi_zero.

Lemma kpi_lines_rows rows acc ks :
  mapM_result kpi_row rows = Ok ks ->
  kpi_lines (map (fun d => LJson (PDict d)) rows) acc = Ok (foldl kpi_add acc ks).
Proof.
  revert acc ks. induction rows as [|row rows IH]; intros acc ks E; cbn in *; [by injection E as <-|].
  apply bind_Ok in E as (k & Ek & E). apply bind_Ok in E as (ks' & Eks & E). injection E as <-.
  rewrite Ek. cbn. by apply IH.
Qed.
End Kpis.

(** One deferred case counts twice.  On an empty log, building an envelope whose
    timing defers it to a window, under a policy that does not block, writes rows from
    which the KPIs report one case evaluated and two cases deferred. *)
Theorem deferred_case_counted_twice {H : PyHost} {D : TzDatabase} {R : RecordCodec} {HD : HexDigest H}
    {L : JsonLaws R} clock envs a sh tm :
  resolve (envelope_resolve_args a) = Ok sh ->
  evaluate_timing clock (envelope_timing_args a (format_utc clock)) = Ok tm ->
  a.(ea_write_audit) = true ->
  (forall j, (envs j).(env_tip_writable) = true) ->
  (forall j status req, In req (envelope_requests a sh tm status) ->
     json_plain (PDict (audit_record (envs j) req "" "")) = true) ->
  _policy_blocks_execution a.(ea_policy_decision) a.(ea_policy_allowed) = false ->
  tm.(tc_decision) = TD_DEFERRED_TO_WINDOW ->
  exists e st k,
    build_decision_envelope clock envs a {| log := None; tip := None |} = (Ok e, st) /\
    compute_coordination_kpis (Some [map line_of (log_lines st)]) = Ok k /\
    k.(n_timing_evaluated) = 1 /\ k.(cases_deferred_to_maintenance_windows) = 2.
Proof.
  intros Hsh Htm Hw Htip Hplain Hb Hd. unfold build_decision_envelope. cbn zeta.
  rewrite Hsh, bind_ok_l, Htm, bind_ok_l, Hw. unfold derive_coordination_status. rewrite Hb, Hd.
  destruct (append_rows_ok envs 0 (envelope_requests a sh tm CS_DEFERRED_TO_WINDOW)
              {| log := None; tip := None |} []) as (ids & recs & st' & E & Hst' & Hall & _ & _).
  { apply empty_store_ok. }
  { apply envelope_calls_ok; [reflexivity|done|]. intros j req. apply Hplain. }
  rewrite E, bind_ok_l. eexists _, st'.
  pose proof (store_lines _ _ Hst') as Hlines. cbn [app] in Hlines.
  unfold envelope_requests in Hall. cbn zeta in Hall.
  inv_rows.
  unfold compute_coordination_kpis. cbn [default from_option concat id]. rewrite Hlines, app_nil_r.
  cbn [map].
  rewrite Hd.
  assert (forall v, exists b, py_contains "asset_owner" (py_or (str_list v) (PList [])) = Ok b) as Hc.
  { intros [|y w]; by eexists. }
  destruct (Hc (unresolved_fields sh)) as [b Hcb].
  eexists. split; [reflexivity|]. split; [|].
  - cbn -[py_contains str_list]. rewrite Hcb. reflexivity.
  - split; reflexivity.
Qed.

(** ** Witnesses *)

Module DecisionContextWitness.
Import AuditChainWitness TimingWitness.
#[local] Instance host : PyHost := DemoHost.demo_host.
#[local] Instance codec : RecordCodec := AuditChainWitness.table.
#[local] Instance demo_digest : HexDigest host := AuditChainWitness.demo_hex.

(** Noon of 2026-03-02, UTC. *)
Definition noon : Z := EPOCH + (1772409600 + 43200) * US_PER_SEC.
Definition envs (j : nat) : audit_env :=
  env (match j with 0%nat => "a" | 1%nat => "b" | 2%nat => "c" | _ => "d" end).
Definition input (timing : option pydict) : envelope_args :=
  {| ea_case_id := "case-7"; ea_decision_id := ""; ea_evidence_refs := None;
     ea_ranked_hypotheses := None; ea_proof_result := None; ea_policy_decision := "ALLOW";
     ea_policy_allowed := true; ea_policy_requires_approval := false;
     ea_classification := "KNOWN_DEV_PROXY"; ea_proof_status := ""; ea_detected_at_utc := None;
     ea_timezone_name := None; ea_stakeholder_config := None; ea_timing_config := timing;
     ea_remediation_preview := None; ea_control_ids := None; ea_evidence_summary := None;
     ea_write_audit := true; ea_actor := "operator" |}.
Definition deferring : pydict := ["maintenance_window_required" :-> PBool true].

Definition built (timing : option pydict) : option DecisionEnvelope :=
  match build_decision_envelope noon envs (input timing) store0 with
  | (Ok e, _) => Some e
  | _ => None
  end.

Example built_statuses :
  option_map (fun e => (e.(dc_coordination_status),
                        option_map (fun t => t.(tc_evaluated_at_utc)) e.(dc_timing))) (built None)
    = Some (CS_READY, Some "2026-03-02T12:00:00Z") /\
  option_map dc_coordination_status (built (Some deferring)) = Some CS_DEFERRED_TO_WINDOW.
Proof. vm_compute. split; reflexivity. Qed.

Lemma tips_writable (j : nat) : (envs j).(env_tip_writable) = true.
Proof. by destruct j as [|[|[|]]]. Qed.

(** The envelope of a call that returns. *)
Definition stakeholders : option StakeholderContext :=
  match resolve (envelope_resolve_args (input None)) with Ok c => Some c | Raise _ => None end.
Definition timing_of (timing : option pydict) : option TimingContext :=
  match evaluate_timing noon (envelope_timing_args (input timing) (format_utc noon)) with
  | Ok c => Some c
  | Raise _ => None
  end.

Lemma stakeholders_eq timing sh :
  stakeholders = Some sh -> resolve (envelope_resolve_args (input timing)) = Ok sh.
Proof.
  unfold stakeholders. change (envelope_resolve_args (input timing)) with
    (envelope_resolve_args (input None)). destruct (resolve _); congruence.
Qed.

Lemma timing_of_eq timing tm :
  timing_of timing = Some tm ->
  evaluate_timing noon (envelope_timing_args (input timing) (format_utc noon)) = Ok tm.
Proof. unfold timing_of. destruct (evaluate_timing _ _); congruence. Qed.

(** The texts of the four records are plain, for any status. *)
Lemma records_plain timing sh tm (j : nat) status req :
  stakeholders = Some sh -> timing_of timing = Some tm ->
  (timing = None \/ timing = Some deferring) ->
  In req (envelope_requests (input timing) sh tm status) ->
  json_plain (PDict (audit_record (envs j) req "" "")) = true.
Proof.
  intros Es Et Htm Hin.
  assert (In (envs j) (map env ["a"; "b"; "c"; "d"])) as He
    by (destruct j as [|[|[|]]]; cbn; tauto).
  vm_compute in Es. injection Es as <-.
  destruct Htm as [-> | ->]; vm_compute in Et; injection Et as <-;
    destruct status; repeat destruct Hin as [<-|Hin]; try done;
    repeat destruct He as [<-|He]; try done; vm_compute; reflexivity.
Qed.

Lemma envelope_audited_witness :
  exists e recs st',
    build_decision_envelope (R := DemoCodec.codec) noon envs (input None) store0 = (Ok e, st') /\
    map (Dict.lookup "action_type") recs = map (fun x => Some (PStr x)) envelope_actions /\
    read_audit_records (R := DemoCodec.codec) st' = recs /\ accepted (R := DemoCodec.codec) st'.
Proof.
  destruct stakeholders as [sh|] eqn:Es; [|vm_compute in Es; discriminate].
  destruct (timing_of None) as [tm|] eqn:Et; [|vm_compute in Et; discriminate].
  destruct (envelope_audited (R := DemoCodec.codec) (L := DemoCodec.laws) noon envs (input None) store0 [] sh tm)
    as (e & recs & st' & E & _ & Hr & Hacc & Ha & _).
  - apply (empty_store_ok (R := DemoCodec.codec)).
  - exact (stakeholders_eq None sh Es).
  - exact (timing_of_eq None tm Et).
  - reflexivity.
  - exact tips_writable.
  - intros j status req Hreq. apply (records_plain None sh tm j status req Es Et); [by left|exact Hreq].
  - exists e, recs, st'. split; [exact E|]. split; [exact Ha|]. split; [exact Hr|exact Hacc].
Defined.

Lemma envelope_ready_sound_witness :
  match built None with
  | Some e => exists sh tm, e.(dc_stakeholder) = Some sh /\ e.(dc_timing) = Some tm /\
      is_Some sh.(asset_owner) /\ tm.(tc_change_freeze_active) = false
  | None => False
  end.
Proof.
  destruct (build_decision_envelope noon envs (input None) store0) as [[e|x] st'] eqn:E;
    unfold built; rewrite E; [|vm_compute in E; discriminate].
  destruct (envelope_ready_sound noon envs (input None) store0 e st' E)
    as (_ & _ & sh & tm & now & exp & sla & Hs & Ht & Ho & _ & _ & _ & _ & _ & Hf & _).
  - vm_compute in E. injection E as <- _. reflexivity.
  - exists sh, tm. split; [exact Hs|]. split; [exact Ht|]. split; [exact Ho|exact Hf].
Defined.

(** A codec that keeps the case and fills in the rest. *)
Definition blank_envelope (case_id : string) : DecisionEnvelope :=
  {| dc_case_id := case_id; dc_decision_id := case_id; dc_evidence_refs := [];
     dc_ranked_hypotheses := []; dc_proof_result := []; dc_policy_decision := "BLOCK";
     dc_policy_allowed := false; dc_policy_requires_approval := false; dc_stakeholder := None;
     dc_timing := None; dc_coordination_status := CS_BLOCKED_BY_POLICY;
     dc_remediation_preview := []; dc_audit_metadata := [] |}.
#[local] Instance ascii_only : UnicodeTable := {| uni_isalnum := fun _ => false |}.
#[local] Instance envelope_codec : EnvelopeCodec := {|
  env_dump := fun e => ["case_id" :-> PStr e.(dc_case_id)];
  env_validate := fun d => Ok (blank_envelope (py_str (Dict.get "case_id" d)));
|}.

Lemma envelope_store_roundtrip_witness :
  let fs := save_decision_envelope id (blank_envelope "case/7") ∅ in
  load_decision_envelope "case/7" fs = Ok (Some (blank_envelope "case/7")) /\
  load_latest_decision_envelope fs = Ok (Some (blank_envelope "case/7")).
Proof.
  destruct (envelope_store_roundtrip id (blank_envelope "case/7") ∅) as (H1 & H2 & _).
  - reflexivity.
  - discriminate.
  - vm_compute. discriminate.
  - split; [exact H1|exact H2].
Defined.

Lemma default_envelope_total_witness :
  exists sh tm, resolve (envelope_resolve_args (input None)) = Ok sh /\
    evaluate_timing noon (envelope_timing_args (input None) (format_utc noon)) = Ok tm.
Proof.
  apply (default_envelope_total noon (input None)); try reflexivity; vm_compute; congruence.
Defined.

Lemma deferred_case_counted_twice_witness :
  exists st k,
    compute_coordination_kpis (Some [map (line_of (R := DemoCodec.codec)) (log_lines st)]) = Ok k /\
    k.(n_timing_evaluated) = 1 /\ k.(cases_deferred_to_maintenance_windows) = 2.
Proof.
  destruct stakeholders as [sh|] eqn:Es; [|vm_compute in Es; discriminate].
  destruct (timing_of (Some deferring)) as [tm|] eqn:Et; [|vm_compute in Et; discriminate].
  destruct (deferred_case_counted_twice (R := DemoCodec.codec) (L := DemoCodec.laws) noon envs (input (Some deferring)) sh tm)
    as (e & st & k & _ & Hk & H1 & H2).
  - exact (stakeholders_eq _ sh Es).
  - exact (timing_of_eq _ tm Et).
  - reflexivity.
  - exact tips_writable.
  - intros j status req Hreq. apply (records_plain (Some deferring) sh tm j status req Es Et); [by right|exact Hreq].
  - reflexivity.
  - vm_compute in Et. injection Et as <-. reflexivity.
  - exists st, k. split; [exact Hk|]. split; [exact H1|exact H2].
Defined.
End DecisionContextWitness.
