(* ===== verification/CanonicalState.v ===== *)
(** * The canonical endpoint state machine

    [platform_core/state_machine.py]: the five platform-wide states, the explicit
    transition rules, the projection of scenario transitions onto those states, the
    removal of repeated transitions and the path they describe; with the event and
    transition models of [platform_core/reasoning_models.py] it works on.

    Identifiers and timestamps drawn when a model is built, and the constant audit
    metadata, are left out; the identifier of an event, which transitions and evidence
    nodes refer to, is kept. *)

From S2P Require Import Prelude PyValue.
From Stdlib Require Import Ascii String SpecFloat.
From stdpp Require Import strings.

Open Scope string_scope.
Open Scope Z_scope.
Open Scope py_scope.

(** ** Data ([reasoning_models.py]) *)

Record EndpointEvent := {
  evt_id : string;
  evt_source : string;
  event_type : string;
  evt_category : string;
  evt_severity : string;
  evt_confidence : F64.t;
  observation_ids : list string;
  evt_details : pydict;
  evt_limitations : list string;
  evt_next_steps : list string;
}.

Record StateTransition := {
  from_state : string;
  to_state : string;
  event_ids : list string;
  rule_id : string;
  tr_confidence : F64.t;
  tr_evidence_level : string;
}.

Inductive CanonicalState := NORMAL | SUSPICIOUS | DEGRADED | BROKEN | RECOVERING.

#[export] Instance CanonicalState_eq_dec : EqDecision CanonicalState.
Proof. solve_decision. Defined.

Definition CANONICAL_STATES : list CanonicalState :=
  [NORMAL; SUSPICIOUS; DEGRADED; BROKEN; RECOVERING].

Definition canonical_value (s : CanonicalState) : string :=
  match s with
  | NORMAL => "NORMAL" | SUSPICIOUS => "SUSPICIOUS" | DEGRADED => "DEGRADED"
  | BROKEN => "BROKEN" | RECOVERING => "RECOVERING"
  end.

Definition SCENARIO_TO_CANONICAL : list (string * CanonicalState) :=
  [("healthy_browser_path", NORMAL);
   ("proxy_drift_detected", SUSPICIOUS);
   ("browser_path_failure_suspected", DEGRADED);
   ("proxy_path_failure_confirmed", BROKEN);
   ("remediation_preview_ready", BROKEN);
   ("resolved", RECOVERING);
   ("unresolved", BROKEN)].

(** A rule has a set of events or a set of signals; [None] is a missing key. *)
Record canonical_rule := {
  cr_rule_id : string;
  cr_from : CanonicalState;
  cr_to : CanonicalState;
  trigger_events : option (list string);
  trigger_signals : option (list string);
  cr_confidence : F64.t;
}.

Definition CANONICAL_TRANSITION_RULES : list canonical_rule :=
  [{| cr_rule_id := "canonical_proxy_drift"; cr_from := NORMAL; cr_to := SUSPICIOUS;
      trigger_events :=
        Some ["wininet_proxy_changed"; "wininet_proxy_enabled"; "localhost_proxy_detected"];
      trigger_signals := None; cr_confidence := F64.lit 72 100 |};
   {| cr_rule_id := "canonical_path_degraded"; cr_from := SUSPICIOUS; cr_to := DEGRADED;
      trigger_events :=
        Some ["ping_ok"; "dns_ok"; "tcp443_ok"; "browser_https_failed"; "wininet_proxy_enabled"];
      trigger_signals := None; cr_confidence := F64.lit 84 100 |};
   {| cr_rule_id := "canonical_path_broken"; cr_from := DEGRADED; cr_to := BROKEN;
      trigger_events := Some ["proxy_bypass_succeeded"; "proxied_path_failed"];
      trigger_signals := None; cr_confidence := F64.lit 92 100 |};
   {| cr_rule_id := "canonical_recovering"; cr_from := BROKEN; cr_to := RECOVERING;
      trigger_events := None;
      trigger_signals := Some ["endpoint_health_restored"; "proxy_restored"];
      cr_confidence := F64.lit 88 100 |};
   {| cr_rule_id := "canonical_restored"; cr_from := RECOVERING; cr_to := NORMAL;
      trigger_events := None;
      trigger_signals := Some ["browser_https_ok"; "wininet_proxy_disabled"];
      cr_confidence := F64.lit 90 100 |}].

(** ** Operations *)

(** [d.get(k)] of a table with string keys. *)
Fixpoint table_get {A} (k : string) (t : list (string * A)) : option A :=
  match t with
  | [] => None
  | (k', a) :: t' => if String.eqb k k' then Some a else table_get k t'
  end.

Definition map_scenario_state (scenario_state : string) : CanonicalState :=
  default SUSPICIOUS (table_get scenario_state SCENARIO_TO_CANONICAL).

Definition event_category (event_type : string) : string :=
  if PyStr.endswith event_type "_ok" then "connectivity_positive"
  else if PyStr.endswith event_type "_failed" || PyStr.endswith event_type "_failure"
  then "connectivity_failure"
  else if PyStr.contains "proxy" event_type then "proxy"
  else if PyStr.startswith event_type "browser_" then "browser"
  else if PyStr.startswith event_type "dns_" || PyStr.startswith event_type "tcp"
  then "network_transport"
  else if PyStr.startswith event_type "policy_" then "policy"
  else "signal".

Record CanonicalStateTransition := {
  ct_from : CanonicalState;
  ct_to : CanonicalState;
  ct_rule_id : string;
  ct_scenario_rule_id : string;
  ct_event_ids : list string;
  ct_confidence : F64.t;
  ct_details : pydict;
}.

Definition _event_ids_for_types (required : list string) (events : list EndpointEvent)
    : list string :=
  map evt_id (List.filter (fun e => PyStr.mem e.(event_type) required) events).

Definition _has_signal (signals : pydict) (name : string) : bool :=
  match Dict.get name signals with
  | PNone => false
  | PBool b => b
  | PInt z => negb (z =? 0)
  | PFloat f => negb (F64.eqb f F64.zero)
  | v => py_bool v
  end.

Definition issubset (a b : list string) : bool := forallb (fun x => PyStr.mem x b) a.

(** Whether the two guards of a rule let it through. *)
Definition rule_enabled (observed : list string) (signals : pydict) (rule : canonical_rule) : bool :=
  match rule.(trigger_events) with Some (x :: l) => issubset (x :: l) observed | _ => true end
  && match rule.(trigger_signals) with
     | Some (x :: l) => forallb (_has_signal signals) (x :: l)
     | _ => true
     end.

Definition rule_transition (events : list EndpointEvent) (rule : canonical_rule)
    : CanonicalStateTransition :=
  {| ct_from := rule.(cr_from); ct_to := rule.(cr_to); ct_rule_id := rule.(cr_rule_id);
     ct_scenario_rule_id := "";
     ct_event_ids :=
       match rule.(trigger_events) with
       | Some (x :: l) => _event_ids_for_types (x :: l) events
       | _ => []
       end;
     ct_confidence := rule.(cr_confidence);
     ct_details := ["trigger" :-> PStr "explicit_rule"] |}.

(** The list built so far and the current state. *)
Abbreviation walk := (list CanonicalStateTransition * CanonicalState)%type.

Definition rule_step (events : list EndpointEvent) (signals : pydict) (w : walk)
    (rule : canonical_rule) : walk :=
  let '(canonical, current) := w in
  if negb (rule_enabled (map event_type events) signals rule) then w
  else if negb (bool_decide (current = rule.(cr_from))) then w
  else ((canonical ++ [rule_transition events rule])%list, rule.(cr_to)).

Definition scenario_transition (current : CanonicalState) (t : StateTransition)
    : CanonicalStateTransition :=
  {| ct_from := current; ct_to := map_scenario_state t.(to_state);
     ct_rule_id := "canonical_map_" ++ (if PyStr.is_empty t.(rule_id) then "scenario" else t.(rule_id));
     ct_scenario_rule_id := t.(rule_id);
     ct_event_ids := t.(event_ids);
     ct_confidence := t.(tr_confidence);
     ct_details :=
       ["scenario_from" :-> PStr t.(from_state); "scenario_to" :-> PStr t.(to_state);
        "trigger" :-> PStr "scenario_projection"] |}.

Definition scenario_step (w : walk) (t : StateTransition) : walk :=
  let '(canonical, current) := w in
  let mapped_from := map_scenario_state t.(from_state) in
  let mapped_to := map_scenario_state t.(to_state) in
  if bool_decide (mapped_to = current) then w
  else if negb (bool_decide (mapped_from = current))
          && match canonical with [] => false | _ => true end then w
  else ((canonical ++ [scenario_transition current t])%list, mapped_to).

(** The key of a transition, and the transitions whose key is not in [seen]. *)
Definition transition_key (t : CanonicalStateTransition) : CanonicalState * CanonicalState * string :=
  (t.(ct_from), t.(ct_to), t.(ct_rule_id)).

Fixpoint dedupe_transitions (seen : list (CanonicalState * CanonicalState * string))
    (l : list CanonicalStateTransition) : list CanonicalStateTransition :=
  match l with
  | [] => []
  | item :: l' =>
      let key := transition_key item in
      if bool_decide (key ∈ seen) then dedupe_transitions seen l'
      else item :: dedupe_transitions (key :: seen) l'
  end.

Definition _dedupe_canonical_transitions (transitions : list CanonicalStateTransition)
    : list CanonicalStateTransition := dedupe_transitions [] transitions.

Definition infer_canonical_transitions (scenario_transitions : list StateTransition)
    (events : list EndpointEvent) (signals : pydict) : list CanonicalStateTransition :=
  let w := foldl (rule_step events signals) ([], NORMAL) CANONICAL_TRANSITION_RULES in
  let '(canonical, _) := foldl scenario_step w scenario_transitions in
  _dedupe_canonical_transitions canonical.

Fixpoint path_from (last : CanonicalState) (transitions : list CanonicalStateTransition)
    : list CanonicalState :=
  match transitions with
  | [] => []
  | item :: rest =>
      if bool_decide (last = item.(ct_to)) then path_from last rest
      else item.(ct_to) :: path_from item.(ct_to) rest
  end.

Definition canonical_state_path (transitions : list CanonicalStateTransition)
    : list CanonicalState :=
  match transitions with
  | [] => [NORMAL]
  | first :: _ => first.(ct_from) :: path_from first.(ct_from) transitions
  end.

(** ** Contiguity *)

(** Each transition starts where the one before it ended. *)
Fixpoint contiguous (s : CanonicalState) (l : list CanonicalStateTransition) : Prop :=
  match l with
  | [] => True
  | t :: l' => t.(ct_from) = s /\ t.(ct_from) <> t.(ct_to) /\ contiguous t.(ct_to) l'
  end.

Definition end_state (s : CanonicalState) (l : list CanonicalStateTransition) : CanonicalState :=
  foldl (fun _ t => t.(ct_to)) s l.

Lemma contiguous_snoc s l t :
  contiguous s l -> t.(ct_from) = end_state s l -> t.(ct_from) <> t.(ct_to) ->
  contiguous s (l ++ [t]).
Proof.
  revert s. induction l as [|u l IH]; intros s Hl Ht Hne; cbn in *; [done|].
  destruct Hl as (Hu & Hn & Hl). split_and!; [done|done|]. by apply IH.
Qed.

Lemma end_state_snoc s l t : end_state s (l ++ [t]) = t.(ct_to).
Proof. unfold end_state. by rewrite foldl_app. Qed.

(** The invariant of the two loops. *)
Definition walk_ok (w : walk) : Prop := contiguous NORMAL w.1 /\ w.2 = end_state NORMAL w.1.

Lemma walk_ok_snoc l t :
  contiguous NORMAL l -> t.(ct_from) = end_state NORMAL l -> t.(ct_from) <> t.(ct_to) ->
  walk_ok ((l ++ [t])%list, t.(ct_to)).
Proof.
  intros Hl Ht Hne. split; cbn; [by apply contiguous_snoc|by rewrite end_state_snoc].
Qed.

Lemma rule_step_ok events signals w rule :
  In rule CANONICAL_TRANSITION_RULES -> walk_ok w -> walk_ok (rule_step events signals w rule).
Proof.
  intros Hin Hw. destruct w as [l s]. destruct Hw as [Hl Hs]; cbn in Hl, Hs. subst s.
  unfold rule_step. destruct (negb (rule_enabled _ _ _)); [done|].
  destruct (decide (end_state NORMAL l = rule.(cr_from))) as [E|E].
  - rewrite bool_decide_true by done. cbn [negb].
    apply (walk_ok_snoc l (rule_transition events rule)); [done|by cbn|].
    cbn. repeat destruct Hin as [<-|Hin]; done.
  - by rewrite bool_decide_false.
Qed.

Lemma scenario_step_ok w t : walk_ok w -> walk_ok (scenario_step w t).
Proof.
  intros Hw. destruct w as [l s]. destruct Hw as [Hl Hs]; cbn in Hl, Hs. subst s.
  unfold scenario_step. cbn zeta. case_bool_decide as E; [done|].
  destruct (negb _ && _); [done|].
  apply (walk_ok_snoc l (scenario_transition (end_state NORMAL l) t)); [done|done|].
  cbn [scenario_transition ct_from ct_to]. intros Heq. by apply E.
Qed.

(** The list before repeated transitions are dropped. *)
Definition canonical_walk (scenario_transitions : list StateTransition)
    (events : list EndpointEvent) (signals : pydict) : walk :=
  foldl scenario_step (foldl (rule_step events signals) ([], NORMAL) CANONICAL_TRANSITION_RULES)
    scenario_transitions.

Lemma infer_is_dedupe ts events signals :
  infer_canonical_transitions ts events signals =
  dedupe_transitions [] (canonical_walk ts events signals).1.
Proof. unfold infer_canonical_transitions. fold (canonical_walk ts events signals). by destruct canonical_walk. Qed.

Lemma foldl_inv {A B} (P : A -> Prop) (f : A -> B -> A) a l :
  P a -> (forall a b, In b l -> P a -> P (f a b)) -> P (foldl f a l).
Proof.
  revert a. induction l as [|b l IH]; intros a Ha Hf; cbn; [done|].
  apply IH; [apply Hf; [by left|done]|]. intros a' b' Hb. apply Hf. by right.
Qed.

Lemma canonical_walk_ok ts events signals : walk_ok (canonical_walk ts events signals).
Proof.
  apply (foldl_inv walk_ok); [|intros; by apply scenario_step_ok].
  apply (foldl_inv walk_ok); [done|]. intros w rule. apply rule_step_ok.
Qed.

(** ** Removal of repeated transitions *)

Lemma dedupe_transitions_In seen l t :
  In t (dedupe_transitions seen l) -> In t l /\ transition_key t ∉ seen.
Proof.
  revert seen. induction l as [|u l IH]; intros seen Ht; cbn in *; [done|].
  case_bool_decide as E.
  - destruct (IH _ Ht). by split; [right|].
  - destruct Ht as [->|Ht]; [by split; [left|]|]. apply IH in Ht as [Ht Hk].
    split; [by right|]. rewrite elem_of_cons in Hk. tauto.
Qed.

Lemma dedupe_transitions_NoDup seen l :
  List.NoDup (map transition_key (dedupe_transitions seen l)).
Proof.
  revert seen. induction l as [|u l IH]; intros seen; cbn; [constructor|].
  case_bool_decide; [done|]. cbn. constructor; [|done].
  rewrite in_map_iff. intros (t & Ek & Ht). apply dedupe_transitions_In in Ht as [_ Ht].
  rewrite Ek, elem_of_cons in Ht. tauto.
Qed.

Lemma dedupe_transitions_id seen l :
  List.NoDup (map transition_key l) -> (forall t, In t l -> transition_key t ∉ seen) ->
  dedupe_transitions seen l = l.
Proof.
  revert seen. induction l as [|u l IH]; intros seen Hnd Hseen; cbn; [done|].
  inversion_clear Hnd as [|? ? Hu Hnd']. rewrite bool_decide_false by (apply Hseen; by left).
  f_equal. apply IH; [done|]. intros t Ht Hin. apply elem_of_cons in Hin as [Hin|Hin].
  - apply Hu. rewrite <- Hin. by apply in_map.
  - by apply (Hseen t); [right|].
Qed.

(** The transitions describe the path step by step. *)
Lemma path_from_contiguous s l : contiguous s l -> path_from s l = map ct_to l.
Proof.
  revert s. induction l as [|t l IH]; intros s; cbn; [done|]. intros (E & Hne & Hl).
  rewrite bool_decide_false by congruence. f_equal. by apply IH.
Qed.

Lemma canonical_path_contiguous l :
  contiguous NORMAL l -> canonical_state_path l = NORMAL :: map ct_to l.
Proof.
  destruct l as [|t l]; [done|]. intros Hl. unfold canonical_state_path.
  destruct Hl as (E & Hne & Hl). rewrite E.
  by rewrite path_from_contiguous.
Qed.

(** ** The rule identifiers of a walk *)

Definition projected_id (t : StateTransition) : string :=
  "canonical_map_" ++ (if PyStr.is_empty t.(rule_id) then "scenario" else t.(rule_id)).

(** A loop that extends the list by at most one transition per element. *)
Lemma walk_ids_sublist {B} (step : walk -> B -> walk) (ident : B -> string) bs w :
  (forall w b, (step w b).1 = w.1 \/
     exists t, (step w b).1 = (w.1 ++ [t])%list /\ t.(ct_rule_id) = ident b) ->
  sublist (map ct_rule_id (foldl step w bs).1) (map ct_rule_id w.1 ++ map ident bs)%list.
Proof.
  intros Hstep. revert w. induction bs as [|b bs IH]; intros w; cbn; [by rewrite app_nil_r|].
  etransitivity; [apply IH|]. destruct (Hstep w b) as [->|(t & -> & Ht)].
  - apply sublist_app; [done|]. by constructor.
  - rewrite map_app, <- app_assoc. cbn. by rewrite Ht.
Qed.

Lemma rule_step_extends events signals w rule :
  (rule_step events signals w rule).1 = w.1 \/
  exists t, (rule_step events signals w rule).1 = (w.1 ++ [t])%list /\ t.(ct_rule_id) = rule.(cr_rule_id).
Proof.
  destruct w as [l s]. unfold rule_step. repeat case_match; [by left|by left|].
  right. by eexists.
Qed.

Lemma scenario_step_extends w t :
  (scenario_step w t).1 = w.1 \/
  exists c, (scenario_step w t).1 = (w.1 ++ [c])%list /\ c.(ct_rule_id) = projected_id t.
Proof.
  destruct w as [l s]. unfold scenario_step. cbn zeta. repeat (case_match; [by left|]).
  right. by eexists.
Qed.

Lemma canonical_walk_ids ts events signals :
  sublist (map ct_rule_id (canonical_walk ts events signals).1)
    (map cr_rule_id CANONICAL_TRANSITION_RULES ++ map projected_id ts)%list.
Proof.
  etransitivity; [apply walk_ids_sublist, scenario_step_extends|].
  apply sublist_app; [|done].
  apply (walk_ids_sublist (rule_step events signals) cr_rule_id CANONICAL_TRANSITION_RULES ([], NORMAL)),
    rule_step_extends.
Qed.

Lemma projected_id_fresh t : ~ In (projected_id t) (map cr_rule_id CANONICAL_TRANSITION_RULES).
Proof.
  unfold projected_id. intros Hin. cbv [String.append] in Hin.
  repeat destruct Hin as [Hin|Hin]; done.
Qed.

Lemma infer_exact ts events signals :
  List.NoDup (map projected_id ts) ->
  infer_canonical_transitions ts events signals = (canonical_walk ts events signals).1.
Proof.
  intros Hts. rewrite infer_is_dedupe. apply dedupe_transitions_id; [|intros; apply not_elem_of_nil].
  apply (NoDup_map_inv snd). rewrite map_map. cbn.
  apply NoDup_ListNoDup. eapply sublist_NoDup; [|apply canonical_walk_ids].
  apply NoDup_app. split_and!.
  - apply NoDup_ListNoDup. cbn.
    repeat (constructor; [cbn; intros Hin; repeat destruct Hin as [Hin|Hin]; done|]). constructor.
  - intros x Hx Hin. apply list_elem_of_In, in_map_iff in Hin as (t & <- & _).
    apply list_elem_of_In in Hx. by apply (projected_id_fresh t).
  - by apply NoDup_ListNoDup.
Qed.

(** The canonical transitions of scenario transitions with distinct rules form one
    walk: the first leaves NORMAL, each starts in the state the one before it reached, none
    stays where it is, no (from, to, rule) triple is repeated, and the reported path is the
    sequence of the states they reach. *)
Theorem canonical_transitions_contiguous ts events signals :
  List.NoDup (map projected_id ts) ->
  let l := infer_canonical_transitions ts events signals in
  contiguous NORMAL l /\ List.NoDup (map transition_key l) /\
  canonical_state_path l = NORMAL :: map ct_to l.
Proof.
  intros Hts. cbn zeta.
  assert (contiguous NORMAL (infer_canonical_transitions ts events signals)) as Hc.
  { rewrite infer_exact by done. apply canonical_walk_ok. }
  split; [done|]. split; [|by apply canonical_path_contiguous].
  rewrite infer_is_dedupe. apply dedupe_transitions_NoDup.
Qed.

(** ** Witnesses *)

Module CanonicalWitness.
Definition move (a b r : string) : StateTransition :=
  {| from_state := a; to_state := b; event_ids := []; rule_id := r;
     tr_confidence := F64.lit 9 10; tr_evidence_level := "inferred" |}.

Lemma canonical_transitions_contiguous_witness :
  let l := infer_canonical_transitions
             [move "healthy_browser_path" "proxy_drift_detected" "a";
              move "proxy_drift_detected" "unresolved" "b"] [] [] in
  contiguous NORMAL l /\ canonical_state_path l = [NORMAL; SUSPICIOUS; BROKEN].
Proof.
  destruct (canonical_transitions_contiguous
              [move "healthy_browser_path" "proxy_drift_detected" "a";
               move "proxy_drift_detected" "unresolved" "b"] [] []) as (H1 & _ & H3).
  - repeat (constructor; [cbn; intros Hin; repeat destruct Hin as [Hin|Hin]; done|]). constructor.
  - split; [exact H1|]. exact H3.
Defined.

(** With a repeated rule the dropped transition leaves a gap: the path steps from NORMAL
    to DEGRADED although every inferred transition into DEGRADED left SUSPICIOUS. *)
Example repeated_rule_gap :
  let l := infer_canonical_transitions
             [move "healthy_browser_path" "proxy_drift_detected" "a";
              move "proxy_drift_detected" "healthy_browser_path" "b";
              move "healthy_browser_path" "proxy_drift_detected" "a";
              move "proxy_drift_detected" "browser_path_failure_suspected" "c"] [] [] in
  map (fun t => (t.(ct_from), t.(ct_to))) l =
    [(NORMAL, SUSPICIOUS); (SUSPICIOUS, NORMAL); (SUSPICIOUS, DEGRADED)] /\
  canonical_state_path l = [NORMAL; SUSPICIOUS; NORMAL; DEGRADED].
Proof. vm_compute. split; reflexivity. Qed.
End CanonicalWitness.
