(* ===== verification/Reasoning.v ===== *)
(** * The endpoint reasoning engine and its policy gate

    [platform_core/failure_scenarios.py] (signals, events, the declared scenario),
    [platform_core/reasoning_engine.py] (scenario transitions, rejected alternatives,
    hypothesis ranking, the ALLOW/PREVIEW/BLOCK gate and the pipeline around it),
    [platform_core/impact_score.py], [platform_core/policy_v2.py] and
    [platform_core/evidence_tree.py].

    Scores are binary64 floats, rounded as the source rounds them.  Identifiers drawn for
    events and runs come from a supply [fresh]. *)

From S2P Require Import Prelude PyValue CanonicalState.
From Stdlib Require Import Ascii String SpecFloat.
From stdpp Require Import strings.

Open Scope string_scope.
Open Scope Z_scope.
Open Scope py_scope.

(** ** Observations, signals and events *)

Record Observation := {
  obs_id : string;
  obs_source : string;
  signal_name : string;
  obs_value : pyval;
  normalized_value : pyval;
  obs_confidence : F64.t;
  obs_limitations : list string;
  obs_next_steps : list string;
}.

Definition TRUE_VALUES : list string :=
  ["true"; "yes"; "ok"; "success"; "succeeded"; "enabled"; "1"].

(** Membership in a set that also holds [True]: numbers compare with 1, and a value that
    cannot be hashed raises. *)
Definition _is_true (value : pyval) : result bool :=
  match value with
  | PStr s => Ok (PyStr.mem (PyStr.lower (PyStr.strip s)) TRUE_VALUES)
  | PNone => Ok false
  | PBool b => Ok b
  | PInt z => Ok (z =? 1)
  | PFloat f => Ok (F64.eqb f (F64.of_Z 1))
  | PList _ | PDict _ => Raise TypeError
  end.

(** [obs.normalized_value if obs.normalized_value is not None else obs.value]. *)
Definition effective_value (o : Observation) : pyval :=
  if is_none o.(normalized_value) then o.(obs_value) else o.(normalized_value).

Definition normalize_signals (observations : list Observation) : pydict :=
  foldl (fun out o => Dict.set o.(signal_name) (effective_value o) out) [] observations.

Definition event_severity (signal : string) : string :=
  if PyStr.mem signal ["wininet_proxy_changed"; "localhost_proxy_detected"; "wininet_proxy_enabled"]
  then "low"
  else if PyStr.mem signal ["browser_https_failed"; "proxied_path_failed"] then "medium"
  else "info".

Definition detected_event (id : string) (o : Observation) : EndpointEvent :=
  {| evt_id := id; evt_source := o.(obs_source); event_type := o.(signal_name);
     evt_category := event_category o.(signal_name);
     evt_severity := event_severity o.(signal_name);
     evt_confidence := o.(obs_confidence); observation_ids := [o.(obs_id)];
     evt_details := ["value" :-> o.(obs_value)];
     evt_limitations := o.(obs_limitations); evt_next_steps := o.(obs_next_steps) |}.

(** [fresh i] is the identifier of the [i]-th event. *)
Fixpoint detect_events (fresh : nat -> string) (i : nat) (observations : list Observation)
    : result (list EndpointEvent) :=
  match observations with
  | [] => Ok []
  | o :: rest =>
      present ← _is_true (effective_value o);
      if (present : bool) then
        es ← detect_events fresh (S i) rest; Ok (detected_event (fresh i) o :: es)
      else detect_events fresh i rest
  end.

Definition detect_endpoint_events (fresh : nat -> string) (observations : list Observation)
    : result (list EndpointEvent) := detect_events fresh 0 observations.

Definition event_types (events : list EndpointEvent) : list string := map event_type events.

(** ** The declared scenario *)

Record scenario_rule := {
  sr_id : string;
  requires_any : list string;
  requires_all : list string;
  sr_from : string;
  sr_to : string;
}.

Record FailureScenario := {
  sc_id : string;
  sc_states : list string;
  sc_events : list string;
  sc_rules : list scenario_rule;
  alternative_hypotheses : list string;
  sc_limitations : list string;
  sc_next_steps : list string;
}.

Definition SUSPECT_REQUIRED : list string :=
  ["ping_ok"; "dns_ok"; "tcp443_ok"; "browser_https_failed"; "wininet_proxy_enabled"].
Definition DRIFT_EVENTS : list string :=
  ["wininet_proxy_changed"; "wininet_proxy_enabled"; "localhost_proxy_detected"].
Definition CONFIRMED_REQUIRED : list string := ["proxy_bypass_succeeded"; "proxied_path_failed"].

Definition browser_proxy_path_regression : FailureScenario :=
  {| sc_id := "browser_proxy_path_regression";
     sc_states :=
       ["healthy_browser_path"; "proxy_drift_detected"; "browser_path_failure_suspected";
        "proxy_path_failure_confirmed"; "remediation_preview_ready"; "resolved"; "unresolved"];
     sc_events :=
       ["wininet_proxy_changed"; "localhost_proxy_detected"; "browser_https_failed"; "dns_ok";
        "tcp443_ok"; "proxy_bypass_succeeded"; "proxied_path_failed"; "policy_preview_allowed"];
     sc_rules :=
       [{| sr_id := "proxy_drift"; requires_any := DRIFT_EVENTS; requires_all := [];
           sr_from := "healthy_browser_path"; sr_to := "proxy_drift_detected" |};
        {| sr_id := "browser_path_suspected"; requires_any := []; requires_all := SUSPECT_REQUIRED;
           sr_from := "proxy_drift_detected"; sr_to := "browser_path_failure_suspected" |};
        {| sr_id := "proxy_path_confirmed"; requires_any := []; requires_all := CONFIRMED_REQUIRED;
           sr_from := "browser_path_failure_suspected"; sr_to := "proxy_path_failure_confirmed" |};
        {| sr_id := "preview_ready"; requires_any := []; requires_all := ["policy_preview_allowed"];
           sr_from := "proxy_path_failure_confirmed"; sr_to := "remediation_preview_ready" |}];
     alternative_hypotheses :=
       ["total_network_outage"; "dns_only_failure"; "tcp_blocked"; "upstream_isp_issue";
        "certificate_tls_issue"];
     sc_limitations :=
       ["Listener/process correlation does not prove registry writer identity.";
        "Registry writer proof requires Sysmon/EventLog/Procmon-style telemetry."];
     sc_next_steps :=
       ["Run a proxy bypass contrast proof before changing registry values.";
        "Preserve proxy and process attribution evidence before remediation."] |}.

(** ** Scenario transitions ([reasoning_engine.py]) *)

Definition _has (signals : pydict) (name : string) : bool :=
  match Dict.get name signals with
  | PStr s => PyStr.mem (PyStr.lower (PyStr.strip s)) TRUE_VALUES
  | v => py_bool v
  end.

Definition _event_ids_for (required : list string) (events : list EndpointEvent) : list string :=
  map evt_id (List.filter (fun e => PyStr.mem e.(event_type) required) events).

(** One guarded block of the function: a transition out of [current] when [fires]. *)
Definition scenario_block (fires : bool) (to rule : string) (confidence : F64.t) (level : string)
    (ids : list string) (w : list StateTransition * string) : list StateTransition * string :=
  let '(transitions, current) := w in
  if fires
  then ((transitions ++ [{| from_state := current; to_state := to; event_ids := ids;
                            rule_id := rule; tr_confidence := confidence;
                            tr_evidence_level := level |}])%list, to)
  else w.

Definition infer_browser_proxy_transitions (events : list EndpointEvent) (signals : pydict)
    : list StateTransition :=
  let observed := event_types events in
  let drift_events := List.filter (fun x => PyStr.mem x observed) DRIFT_EVENTS in
  let w1 := scenario_block (match drift_events with [] => false | _ => true end)
              "proxy_drift_detected" "proxy_drift" (F64.lit 72 100) "inferred"
              (_event_ids_for drift_events events) ([], "healthy_browser_path") in
  let w2 := scenario_block (issubset SUSPECT_REQUIRED observed)
              "browser_path_failure_suspected" "browser_path_suspected" (F64.lit 84 100) "inferred"
              (_event_ids_for SUSPECT_REQUIRED events) w1 in
  let w3 := scenario_block (issubset CONFIRMED_REQUIRED observed)
              "proxy_path_failure_confirmed" "proxy_path_confirmed" (F64.lit 92 100) "validated"
              (_event_ids_for CONFIRMED_REQUIRED events) w2 in
  (scenario_block (_has signals "policy_preview_allowed"
                   && String.eqb w3.2 "proxy_path_failure_confirmed")
     "remediation_preview_ready" "preview_ready" (F64.lit 90 100) "validated"
     (_event_ids_for ["policy_preview_allowed"] events) w3).1.

(** ** Hypotheses *)

Definition rejected (hypothesis reason : string) : string * string := (hypothesis, reason).

Definition reject_alternatives (signals : pydict) : list (string * string) :=
  let has := _has signals in
  ((if has "ping_ok" || has "dns_ok" || has "tcp443_ok"
    then [rejected "total_network_outage" "ping/dns/tcp checks succeeded"] else [])
   ++ (if has "dns_ok" then [rejected "dns_only_failure" "dns resolution succeeded"] else [])
   ++ (if has "tcp443_ok" then [rejected "tcp_blocked" "TCP 443 connectivity succeeded"] else [])
   ++ (if has "tcp443_ok" && has "proxy_bypass_succeeded"
       then [rejected "upstream_isp_issue" "direct HTTPS path succeeded outside proxy"] else [])
   ++ (if has "proxy_bypass_succeeded" && negb (has "tls_certificate_error")
       then [rejected "certificate_tls_issue" "proxy bypass succeeded without TLS error signal"]
       else []))%list.

Inductive ProofStatus := NOT_RUN | CONFIRMED | REJECTED | INCONCLUSIVE.

#[export] Instance ProofStatus_eq_dec : EqDecision ProofStatus.
Proof. solve_decision. Defined.

Definition proof_status_value (s : ProofStatus) : string :=
  match s with
  | NOT_RUN => "NOT_RUN" | CONFIRMED => "CONFIRMED"
  | REJECTED => "REJECTED" | INCONCLUSIVE => "INCONCLUSIVE"
  end.

Record ProofResult := {
  pr_hypothesis : string;
  pr_status : ProofStatus;
  pr_confidence : F64.t;
  checks_run : list string;
  pr_evidence : list string;
  pr_limitations : list string;
  pr_next_steps : list string;
}.

(** A row of the ranking; the keys "state_depth" and "rejected" are optional. *)
Record ranked_hypothesis := {
  rh_hypothesis : string;
  rh_confidence : F64.t;
  rh_evidence : list string;
  rh_state_depth : option nat;
  rh_rejected : option bool;
}.

(** The running score and the evidence names. *)
Definition credit (fires : bool) (weight : F64.t) (names : list string)
    (acc : F64.t * list string) : F64.t * list string :=
  if fires then (F64.add acc.1 weight, (acc.2 ++ names)%list) else acc.

Definition hypothesis_score (transitions : list StateTransition) (signals : pydict)
    (proof_result : ProofResult) : F64.t * list string :=
  let acc :=
    foldl (fun acc name => credit (_has signals name) (F64.lit 10 100) [name] acc)
      (F64.lit 20 100, [])
      ["ping_ok"; "dns_ok"; "tcp443_ok"; "browser_https_failed"; "wininet_proxy_enabled"] in
  let acc := credit (_has signals "localhost_proxy_detected") (F64.lit 8 100)
               ["localhost_proxy_detected"] acc in
  let acc := credit (_has signals "proxy_bypass_succeeded" && _has signals "proxied_path_failed")
               (F64.lit 18 100) ["proxy_bypass_succeeded"; "proxied_path_failed"] acc in
  let '(score, evidence) :=
    credit (bool_decide (proof_result.(pr_status) = CONFIRMED)) (F64.lit 12 100)
      ["proof_confirmed"] acc in
  let score := match transitions with [] => F64.pymin score (F64.lit 30 100) | _ => score end in
  (F64.round_digits 2 (F64.pymax F64.zero (F64.pymin (F64.lit 98 100) score)), evidence).

Definition rank_hypotheses (transitions : list StateTransition) (signals : pydict)
    (proof_result : ProofResult) : list ranked_hypothesis :=
  let '(score, evidence) := hypothesis_score transitions signals proof_result in
  {| rh_hypothesis := "browser_proxy_path_regression"; rh_confidence := score;
     rh_evidence := evidence; rh_state_depth := Some (length transitions); rh_rejected := None |}
  :: map (fun item =>
       {| rh_hypothesis := item.1; rh_confidence := F64.lit 10 100; rh_evidence := [item.2];
          rh_state_depth := None; rh_rejected := Some true |}) (reject_alternatives signals).

(** ** Reliability impact ([impact_score.py]) *)

Inductive ImpactSeverity := IMPACT_LOW | IMPACT_MEDIUM | IMPACT_HIGH | IMPACT_CRITICAL.
Inductive ImpactScope := BROWSER_ONLY | DEV_TOOLS | BROWSER_AND_DEV_TOOLS | SYSTEM_WIDE | MULTI_ENDPOINT.
Inductive ImpactDuration := DURATION_SHORT | DURATION_MEDIUM | DURATION_LONG | DURATION_UNKNOWN.

#[export] Instance ImpactSeverity_eq_dec : EqDecision ImpactSeverity.
Proof. solve_decision. Defined.

Definition SEVERITY_WEIGHTS (s : ImpactSeverity) : F64.t :=
  match s with
  | IMPACT_LOW => F64.lit 25 100 | IMPACT_MEDIUM => F64.lit 55 100
  | IMPACT_HIGH => F64.lit 85 100 | IMPACT_CRITICAL => F64.lit 1 1
  end.

Definition SCOPE_WEIGHTS (s : ImpactScope) : F64.t :=
  match s with
  | BROWSER_ONLY => F64.lit 65 100 | DEV_TOOLS => F64.lit 55 100
  | BROWSER_AND_DEV_TOOLS => F64.lit 90 100 | SYSTEM_WIDE => F64.lit 1 1
  | MULTI_ENDPOINT => F64.lit 1 1
  end.

Definition DURATION_WEIGHTS (d : ImpactDuration) : F64.t :=
  match d with
  | DURATION_SHORT => F64.lit 65 100 | DURATION_MEDIUM => F64.lit 85 100
  | DURATION_LONG => F64.lit 1 1 | DURATION_UNKNOWN => F64.lit 85 100
  end.

Definition impact_level (score : F64.t) : ImpactSeverity :=
  if F64.leb (F64.lit 75 100) score then IMPACT_CRITICAL
  else if F64.leb (F64.lit 50 100) score then IMPACT_HIGH
  else if F64.leb (F64.lit 25 100) score then IMPACT_MEDIUM
  else IMPACT_LOW.

(** The explanation text is left out: it prints a float with a fixed precision. *)
Record ReliabilityImpact := {
  ri_severity : ImpactSeverity;
  ri_scope : ImpactScope;
  ri_confidence : F64.t;
  ri_duration_factor : ImpactDuration;
  impact_score : F64.t;
  ri_impact_level : ImpactSeverity;
  ri_limitations : list string;
  ri_next_steps : list string;
}.

Definition calculate_reliability_impact (severity : ImpactSeverity) (scope : ImpactScope)
    (confidence : F64.t) (duration_factor : ImpactDuration) : ReliabilityImpact :=
  let bounded_confidence := F64.pymax F64.zero (F64.pymin (F64.of_Z 1) confidence) in
  let score :=
    F64.mul (F64.mul (F64.mul (SEVERITY_WEIGHTS severity) (SCOPE_WEIGHTS scope))
               bounded_confidence) (DURATION_WEIGHTS duration_factor) in
  let score := F64.round_digits 2 (F64.pymax F64.zero (F64.pymin (F64.of_Z 1) score)) in
  {| ri_severity := severity; ri_scope := scope; ri_confidence := bounded_confidence;
     ri_duration_factor := duration_factor; impact_score := score;
     ri_impact_level := impact_level score;
     ri_limitations :=
       ["Impact score is ordinal and explainable; it is not a calibrated outage probability."];
     ri_next_steps := ["Validate user-visible workflow impact before executing remediation."] |}.

(** ** Policy vocabulary ([policy_v2.py]) *)

Inductive PolicyOutcome := OUT_ALLOW | OUT_PREVIEW | OUT_BLOCK.

#[export] Instance PolicyOutcome_eq_dec : EqDecision PolicyOutcome.
Proof. solve_decision. Defined.

Definition tri_state_value (o : PolicyOutcome) : string :=
  match o with OUT_ALLOW => "ALLOW" | OUT_PREVIEW => "PREVIEW" | OUT_BLOCK => "BLOCK" end.

Definition ALWAYS_BLOCKED_ACTIONS : list string :=
  ["firewall_reset"; "reset_firewall"; "adapter_disable"; "process_kill"; "kill";
   "arbitrary_shell"; "arbitrary_command"; "delete_certificates"; "netsh_reset"].

(** [(requested_action or "").strip().lower()]. *)
Definition normal_action (requested_action : option string) : string :=
  PyStr.lower (PyStr.strip (default "" requested_action)).

Definition blocked_actions_for_request (outcome : PolicyOutcome) (requested_action : option string)
    : list string :=
  let blocked := ALWAYS_BLOCKED_ACTIONS in
  let action := normal_action requested_action in
  dedupe String.eqb
    (if bool_decide (outcome = OUT_BLOCK) && negb (PyStr.is_empty action)
        && negb (PyStr.mem action blocked)
     then (blocked ++ [action])%list else blocked).

Definition policy_envelope (decision : PolicyOutcome) (reason_codes : list string)
    (requested_action : option string) (blocked_actions : option (list string)) : pydict :=
  let ba := match blocked_actions with
            | Some l => l
            | None => blocked_actions_for_request decision requested_action
            end in
  ["decision" :-> PStr (tri_state_value decision);
   "reason_codes" :-> str_list (dedupe String.eqb reason_codes);
   "blocked_actions" :-> str_list ba].

(** ** The policy gate *)

Definition SAFE_REGISTRY_ACTIONS : list string :=
  ["restore_proxy"; "disable_proxy"; "reset_wininet_proxy"; "restore_known_good_proxy"].
Definition DESTRUCTIVE_ACTION_TOKENS : list string :=
  ["firewall"; "adapter_disable"; "kill"; "process_kill"; "arbitrary_shell"; "netsh_reset"].

Record ReasoningPolicyDecision := {
  pd_outcome : PolicyOutcome;
  pd_requested_action : option string;
  pd_hypothesis : string;
  pd_state_transition : string;
  pd_evidence_level : string;
  pd_proof_status : ProofStatus;
  pd_confidence : F64.t;
  pd_trust_level : string;
  pd_impact_level : ImpactSeverity;
  pd_requires_confirmation : bool;
  pd_confirmation_phrase : option string;
  pd_reason_codes : list string;
  pd_blocked_actions : list string;
  pd_limitations : list string;
  pd_next_steps : list string;
}.

(** The guardrails work on the outcome, the reason codes and the limitations. *)
Abbreviation gate := (PolicyOutcome * list string * list string)%type.

Definition guardrail (fires : bool) (code limitation : string) (g : gate) : gate :=
  let '(outcome, codes, limitations) := g in
  if fires
  then (OUT_PREVIEW, (codes ++ [code])%list,
        if bool_decide (outcome = OUT_ALLOW) then (limitations ++ [limitation])%list
        else limitations)
  else g.

Definition evaluate_reasoning_policy (hypothesis : string) (transitions : list StateTransition)
    (proof_result : ProofResult) (confidence : F64.t) (impact : ImpactSeverity)
    (requested_action : option string) (explicit_confirmation conflicting_signals : bool)
    : ReasoningPolicyDecision :=
  let action := normal_action requested_action in
  let confirmed := bool_decide (proof_result.(pr_status) = CONFIRMED) in
  let state_transition :=
    match last_opt transitions with Some t => t.(to_state) | None => "unknown" end in
  let evidence_level :=
    if confirmed then "proof" else match transitions with [] => "inferred" | _ => "validated" end in
  let trust_level :=
    if conflicting_signals then "low" else if confirmed then "high" else "medium" in
  let decision outcome requested requires phrase codes limitations steps :=
    {| pd_outcome := outcome; pd_requested_action := requested; pd_hypothesis := hypothesis;
       pd_state_transition := state_transition; pd_evidence_level := evidence_level;
       pd_proof_status := proof_result.(pr_status); pd_confidence := confidence;
       pd_trust_level := trust_level; pd_impact_level := impact;
       pd_requires_confirmation := requires; pd_confirmation_phrase := phrase;
       pd_reason_codes := codes;
       pd_blocked_actions := blocked_actions_for_request outcome requested;
       pd_limitations := limitations; pd_next_steps := steps |} in
  if negb (PyStr.is_empty action)
     && existsb (fun token => PyStr.contains token action) DESTRUCTIVE_ACTION_TOKENS then
    decision OUT_BLOCK (Some action) false None ["DESTRUCTIVE_ACTION_BLOCKED"]
      ["Firewall reset, adapter disable, process kill, and arbitrary shell remain blocked."]
      ["Use manual incident response after preserving evidence."]
  else if PyStr.is_empty action then
    decision OUT_PREVIEW None false None ["DIAGNOSTIC_ONLY"] []
      ["Run preview with a safe remediation action if repair is needed."]
  else if negb (PyStr.mem action SAFE_REGISTRY_ACTIONS) then
    decision OUT_BLOCK (Some action) false None ["UNKNOWN_ACTION"]
      ["Only allowlisted remediation action keys can pass policy."]
      ["Choose an allowlisted preview action or continue diagnostics."]
  else
    let g :=
      if conflicting_signals then
        (OUT_PREVIEW, ["CONFLICTING_SIGNALS"],
         ["Conflicting observations reduce trust; live execution is not allowed."])
      else if confirmed && explicit_confirmation then
        (OUT_ALLOW, ["CONFIRMED_SAFE_TIER_WITH_CONFIRMATION"; "SAFE_TIER_ACTION"], [])
      else (OUT_PREVIEW, ["REQUIRES_OPERATOR_CONFIRMATION"; "PREVIEW_UNTIL_PROOF"], []) in
    let g := guardrail (bool_decide (impact ∈ [IMPACT_HIGH; IMPACT_CRITICAL]) && negb confirmed)
               "HIGH_IMPACT_UNPROVEN"
               "High or critical reliability impact requires CONFIRMED proof before live execute." g in
    let g := guardrail (bool_decide (impact = IMPACT_CRITICAL) && negb (String.eqb trust_level "high"))
               "CRITICAL_IMPACT_LOW_TRUST"
               "Critical reliability impact requires high trust (CONFIRMED proof, no conflicting signals)." g in
    let '(outcome, codes, limitations) :=
      guardrail (negb confirmed) "HIGH_CONFIDENCE_UNPROVEN"
        "Unproven hypothesis cannot grant execute authority even with high confidence." g in
    let safe := PyStr.mem action SAFE_REGISTRY_ACTIONS in
    let codes := if safe then (codes ++ ["REQUIRES_TYPED_CONFIRMATION"])%list else codes in
    decision outcome (Some action) safe (if safe then Some "RESTORE_PROXY" else None)
      (dedupe String.eqb codes) limitations
      ["Show remediation preview and require typed operator confirmation."].

Definition _conflicting_signals (signals : pydict) : bool :=
  (_has signals "browser_https_failed" && _has signals "browser_https_ok")
  || (_has signals "dns_ok" && _has signals "dns_failed").

(** ** Evidence trees ([evidence_tree.py]) *)

#[local] Set Warnings "-register-all".

Inductive EvidenceNode :=
  Node (label level : string) (confidence : F64.t) (obs_ids ev_ids : list string)
    (details : pydict) (limitations next_steps : list string) (children : list EvidenceNode).

Definition node_confidence (n : EvidenceNode) : F64.t :=
  match n with Node _ _ c _ _ _ _ _ _ => c end.
Definition node_event_ids (n : EvidenceNode) : list string :=
  match n with Node _ _ _ _ ids _ _ _ _ => ids end.
Definition node_children (n : EvidenceNode) : list EvidenceNode :=
  match n with Node _ _ _ _ _ _ _ _ cs => cs end.

Record EvidenceTree := {
  et_run_id : string;
  et_accepted_hypothesis : string;
  state_path : list string;
  accepted_because : list string;
  et_rejected_alternatives : list (string * string);
  root : EvidenceNode;
  et_limitations : list string;
  et_next_steps : list string;
}.

Definition observed_node (e : EndpointEvent) : EvidenceNode :=
  Node e.(event_type) "observed" e.(evt_confidence) e.(observation_ids) [e.(evt_id)]
    e.(evt_details) e.(evt_limitations) e.(evt_next_steps) [].

(** The transitions of the engine carry no limitations and no next steps. *)
Definition inferred_node (t : StateTransition) : EvidenceNode :=
  Node (t.(from_state) ++ "->" ++ t.(to_state)) "inferred" t.(tr_confidence) [] t.(event_ids)
    ["rule_id" :-> PStr t.(rule_id)] [] [] [].

Definition rejected_node (item : string * string) : EvidenceNode :=
  Node item.1 "rejected" (F64.of_Z 1) [] [] ["reason" :-> PStr item.2] [] [] [].

Definition proof_node (p : ProofResult) : EvidenceNode :=
  Node ("proof:" ++ proof_status_value p.(pr_status))
    (if bool_decide (p.(pr_status) = CONFIRMED) then "proof" else "validated")
    p.(pr_confidence) [] []
    ["checks_run" :-> str_list p.(checks_run); "evidence" :-> str_list p.(pr_evidence)]
    p.(pr_limitations) p.(pr_next_steps) [].

(** [max(l or [0.0])]. *)
Definition max_confidence (l : list F64.t) : F64.t :=
  match l with [] => F64.zero | x :: l' => foldl F64.pymax x l' end.

Definition group_node (label level : string) (children : list EvidenceNode) : EvidenceNode :=
  Node label level (F64.of_Z 1) [] [] [] [] [] children.

Definition build_evidence_tree (run_id accepted_hypothesis : string) (events : list EndpointEvent)
    (transitions : list StateTransition) (rejected_alternatives : list (string * string))
    (proof_result : ProofResult) (limitations next_steps : list string) : EvidenceTree :=
  let observed_children := map observed_node events in
  let inferred_children := map inferred_node transitions in
  {| et_run_id := run_id; et_accepted_hypothesis := accepted_hypothesis;
     state_path :=
       (match transitions with t :: _ => [t.(from_state)] | [] => [] end
        ++ map to_state transitions)%list;
     accepted_because := event_types events;
     et_rejected_alternatives := rejected_alternatives;
     root :=
       Node accepted_hypothesis "inferred"
         (max_confidence (map node_confidence (observed_children ++ inferred_children)%list))
         [] [] [] limitations next_steps
         [group_node "observed" "observed" observed_children;
          group_node "state_transitions" "inferred" inferred_children;
          proof_node proof_result;
          group_node "rejected_alternatives" "rejected" (map rejected_node rejected_alternatives)];
     et_limitations := limitations; et_next_steps := next_steps |}.

(** ** The pipeline *)

Record ReasoningRun := {
  rr_id : string;
  rr_source : string;
  raw_observations : list Observation;
  normalized_signals : pydict;
  detected_events : list EndpointEvent;
  state_transitions : list StateTransition;
  rr_canonical_path : list CanonicalState;
  rr_canonical_transitions : list CanonicalStateTransition;
  hypothesis_ranking : list ranked_hypothesis;
  accepted_hypothesis : string;
  evidence_tree : EvidenceTree;
  rr_proof_result : ProofResult;
  reliability_impact : ReliabilityImpact;
  policy_decision : ReasoningPolicyDecision;
  remediation_preview : pydict;
  rr_limitations : list string;
  rr_next_steps : list string;
}.

(** [ProofResult(hypothesis=h)]. *)
Definition not_run (h : string) : ProofResult :=
  {| pr_hypothesis := h; pr_status := NOT_RUN; pr_confidence := F64.zero; checks_run := [];
     pr_evidence := []; pr_limitations := []; pr_next_steps := [] |}.

(** What the run draws: the identifiers of its events, and its own when none is given. *)
Record id_supply := { fresh_event : nat -> string; fresh_run : string }.

Definition run_reasoning (ids : id_supply) (observations : list Observation)
    (proof_result : option ProofResult) (requested_action : option string)
    (explicit_confirmation : bool) (source : string) (run_id : option string)
    : result ReasoningRun :=
  let proof := default (not_run "browser_proxy_path_regression") proof_result in
  let rid :=
    match run_id with
    | Some r => if PyStr.is_empty r then ids.(fresh_run) else r
    | None => ids.(fresh_run)
    end in
  let signals := normalize_signals observations in
  events ← detect_endpoint_events ids.(fresh_event) observations;
  let transitions := infer_browser_proxy_transitions events signals in
  let canonical_transitions := infer_canonical_transitions transitions events signals in
  let ranking := rank_hypotheses transitions signals proof in
  let accepted := match ranking with r :: _ => r.(rh_hypothesis) | [] => "unknown" end in
  let confidence := match ranking with r :: _ => r.(rh_confidence) | [] => F64.zero end in
  let scenario := browser_proxy_path_regression in
  let limitations :=
    (scenario.(sc_limitations)
     ++ (if _conflicting_signals signals
         then ["Conflicting signals were observed; policy is downgraded to preview."] else [])
     ++ (if bool_decide (proof.(pr_status) = NOT_RUN)
         then ["Proof checks were not run; confidence remains heuristic."] else []))%list in
  let impact :=
    calculate_reliability_impact
      (if _has signals "browser_https_failed" then IMPACT_HIGH else IMPACT_MEDIUM)
      (if _has signals "proxied_path_failed" then BROWSER_AND_DEV_TOOLS else BROWSER_ONLY)
      confidence DURATION_UNKNOWN in
  let policy :=
    evaluate_reasoning_policy accepted transitions proof confidence impact.(ri_impact_level)
      requested_action explicit_confirmation (_conflicting_signals signals) in
  let preview :=
    if bool_decide (policy.(pd_outcome) = OUT_PREVIEW)
    then ["action" :-> of_opt PStr requested_action; "dry_run" :-> PBool true;
          "requires_confirmation" :-> PBool policy.(pd_requires_confirmation);
          "confirmation_phrase" :-> of_opt PStr policy.(pd_confirmation_phrase)]
    else [] in
  let recommendations :=
    dedupe String.eqb (scenario.(sc_next_steps) ++ policy.(pd_next_steps))%list in
  Ok {| rr_id := rid; rr_source := source; raw_observations := observations;
        normalized_signals := signals; detected_events := events;
        state_transitions := transitions;
        rr_canonical_path := canonical_state_path canonical_transitions;
        rr_canonical_transitions := canonical_transitions;
        hypothesis_ranking := ranking; accepted_hypothesis := accepted;
        evidence_tree :=
          build_evidence_tree rid accepted events transitions (reject_alternatives signals) proof
            (limitations ++ policy.(pd_limitations))%list recommendations;
        rr_proof_result := proof; reliability_impact := impact; policy_decision := policy;
        remediation_preview := preview;
        rr_limitations :=
          dedupe String.eqb (limitations ++ proof.(pr_limitations) ++ policy.(pd_limitations))%list;
        rr_next_steps := recommendations |}.

Definition make_observation (id name : string) (value : pyval) (source : string) (confidence : F64.t)
    : Observation :=
  {| obs_id := id; obs_source := source; signal_name := name; obs_value := value;
     normalized_value := value; obs_confidence := confidence; obs_limitations := [];
     obs_next_steps := [] |}.

(** ** The gate *)

Lemma safe_not_destructive action :
  PyStr.mem action SAFE_REGISTRY_ACTIONS = true ->
  existsb (fun token => PyStr.contains token action) DESTRUCTIVE_ACTION_TOKENS = false /\
  PyStr.is_empty action = false.
Proof.
  intros Hm. apply PyStr.mem_In in Hm. by repeat destruct Hm as [<-|Hm].
Qed.

(** Both sides of the gate lemmas are closed after case analysis. *)
Ltac solve_gate :=
  split; [intros ?; try discriminate; split_and!; done
         |intros Hc; repeat match goal with H : _ /\ _ |- _ => destruct H end; done].

Section Gate.
Context (h : string) (ts : list StateTransition) (p : ProofResult) (c : F64.t) (imp : ImpactSeverity)
  (req : option string) (conf conflict : bool).
Let d := evaluate_reasoning_policy h ts p c imp req conf conflict.

Lemma gate_allow :
  d.(pd_outcome) = OUT_ALLOW <->
  In (normal_action req) SAFE_REGISTRY_ACTIONS /\ p.(pr_status) = CONFIRMED /\ conf = true /\
  conflict = false.
Proof.
  unfold d, evaluate_reasoning_policy. rewrite <- PyStr.mem_In.
  destruct (PyStr.mem (normal_action req) SAFE_REGISTRY_ACTIONS) eqn:Es.
  - destruct (safe_not_destructive _ Es) as [-> ->]. cbn [negb andb].
    destruct (decide (p.(pr_status) = CONFIRMED)) as [E|E].
    + rewrite !bool_decide_true by done. destruct conf, conflict, imp; cbn; solve_gate.
    + rewrite !bool_decide_false by done. destruct conf, conflict, imp; cbn; solve_gate.
  - destruct (negb _ && _); [cbn; solve_gate|].
    destruct (PyStr.is_empty _); cbn; solve_gate.
Qed.

Lemma gate_block :
  d.(pd_outcome) = OUT_BLOCK <->
  normal_action req <> "" /\ ~ In (normal_action req) SAFE_REGISTRY_ACTIONS.
Proof.
  unfold d, evaluate_reasoning_policy.
  rewrite <- PyStr.mem_In, <- PyStr.is_empty_false.
  destruct (PyStr.mem (normal_action req) SAFE_REGISTRY_ACTIONS) eqn:Es.
  - destruct (safe_not_destructive _ Es) as [-> ->]. cbn [negb andb].
    destruct (bool_decide (p.(pr_status) = CONFIRMED)), conf, conflict, imp; cbn; solve_gate.
  - destruct (PyStr.is_empty _), (existsb _ _); cbn; solve_gate.
Qed.

End Gate.

Lemma normal_action_idem req : normal_action (Some (normal_action req)) = normal_action req.
Proof.
  unfold normal_action. cbn [default from_option id].
  by rewrite PyStr.strip_lower, PyStr.strip_idem, PyStr.lower_idem.
Qed.

(** ** Runs *)

(** The pipeline in one equation. *)
Lemma run_reasoning_ok ids obs proof req conf src rid run :
  run_reasoning ids obs proof req conf src rid = Ok run ->
  exists events,
    detect_endpoint_events ids.(fresh_event) obs = Ok events /\
    let signals := normalize_signals obs in
    let p := default (not_run "browser_proxy_path_regression") proof in
    let ts := infer_browser_proxy_transitions events signals in
    let score := (hypothesis_score ts signals p).1 in
    run.(detected_events) = events /\ run.(state_transitions) = ts /\
    run.(raw_observations) = obs /\ run.(rr_proof_result) = p /\
    run.(rr_canonical_transitions) = infer_canonical_transitions ts events signals /\
    run.(rr_canonical_path) = canonical_state_path run.(rr_canonical_transitions) /\
    run.(hypothesis_ranking) = rank_hypotheses ts signals p /\
    run.(reliability_impact) =
      calculate_reliability_impact
        (if _has signals "browser_https_failed" then IMPACT_HIGH else IMPACT_MEDIUM)
        (if _has signals "proxied_path_failed" then BROWSER_AND_DEV_TOOLS else BROWSER_ONLY)
        score DURATION_UNKNOWN /\
    run.(policy_decision) =
      evaluate_reasoning_policy "browser_proxy_path_regression" ts p score
        run.(reliability_impact).(ri_impact_level) req conf (_conflicting_signals signals).
Proof.
  unfold run_reasoning. cbn zeta. intros E. apply bind_Ok in E as (events & Ev & E).
  exists events. split; [done|]. cbn zeta. unfold rank_hypotheses in *.
  destruct (hypothesis_score _ _ _) as [score evidence]. injection E as <-. by split_and!.
Qed.

Lemma run_reasoning_total ids obs proof req conf src rid events :
  detect_endpoint_events ids.(fresh_event) obs = Ok events ->
  exists run, run_reasoning ids obs proof req conf src rid = Ok run.
Proof. intros E. unfold run_reasoning. cbn zeta. rewrite E, bind_ok_l. by eexists. Qed.

(** C9: who may execute.  A run allows the requested action exactly when the trimmed,
    lower-cased key is one of the four safe registry actions, the proof is CONFIRMED, the
    operator confirmed, and no observed signals contradict each other, whatever the impact
    level; it blocks exactly the other non-empty keys. *)
Theorem reasoning_allow_iff ids obs proof req conf src rid run :
  run_reasoning ids obs proof req conf src rid = Ok run ->
  (run.(policy_decision).(pd_outcome) = OUT_ALLOW <->
     In (normal_action req) SAFE_REGISTRY_ACTIONS /\
     run.(rr_proof_result).(pr_status) = CONFIRMED /\ conf = true /\
     _conflicting_signals (normalize_signals obs) = false) /\
  (run.(policy_decision).(pd_outcome) = OUT_BLOCK <->
     normal_action req <> "" /\ ~ In (normal_action req) SAFE_REGISTRY_ACTIONS).
Proof.
  intros E. apply run_reasoning_ok in E as (events & _ & _ & _ & _ & Hp & _ & _ & _ & _ & Hd).
  rewrite Hd, Hp. split; [apply gate_allow|apply gate_block].
Qed.

(** Unhashable values. *)
Definition unhashable (v : pyval) : bool :=
  match v with PList _ | PDict _ => true | _ => false end.

Lemma is_true_raise v e : _is_true v = Raise e <-> e = TypeError /\ unhashable v = true.
Proof. destruct v; cbn; intuition congruence. Qed.

Lemma detect_events_raise fresh i obs e :
  detect_events fresh i obs = Raise e <->
  e = TypeError /\ exists o, In o obs /\ unhashable (effective_value o) = true.
Proof.
  revert i. induction obs as [|o obs IH]; intros i; cbn [detect_events].
  - split; [done|]. by intros (_ & o & [] & _).
  - destruct (_is_true (effective_value o)) as [b|x] eqn:Et.
    + rewrite bind_ok_l.
      assert (unhashable (effective_value o) = false) as Hu.
      { destruct (unhashable _) eqn:Hu; [|done].
        assert (_is_true (effective_value o) = Raise TypeError) as Hr by by apply is_true_raise.
        congruence. }
      assert (forall A (f : list EndpointEvent -> A) j,
        (es ← detect_events fresh j obs; Ok (f es)) = Raise e <-> detect_events fresh j obs = Raise e)
        as Hb by (intros A f j; destruct (detect_events fresh j obs); cbn; intuition congruence).
      transitivity (exists j, detect_events fresh j obs = Raise e).
      * destruct b; [rewrite Hb|]; split; [by eexists| |by eexists|];
          intros (j & Hj); apply IH in Hj; by apply IH.
      * split.
        -- intros (j & Hj). apply IH in Hj as (-> & o' & Ho & Hv). split; [done|]. exists o'.
           by split; [right|].
        -- intros (-> & o' & [->|Ho] & Hv); [congruence|]. exists i. apply IH. eauto.
    + apply is_true_raise in Et as [-> Hu]. cbn. split.
      * intros [= <-]. split; [done|]. exists o. by split; [left|].
      * intros (-> & _). done.
Qed.

(** A run raises exactly on unhashable observations: [TypeError], when the effective
    value of an observation is a list or a dictionary, and never otherwise. *)
Theorem run_raises_iff ids obs proof req conf src rid e :
  run_reasoning ids obs proof req conf src rid = Raise e <->
  e = TypeError /\ exists o, In o obs /\ unhashable (effective_value o) = true.
Proof.
  rewrite <- (detect_events_raise ids.(fresh_event) 0). unfold run_reasoning, detect_endpoint_events.
  cbn zeta. destruct (detect_events _ _ _) as [es|x]; cbn -[rank_hypotheses]; [|intuition congruence].
  done.
Qed.

(** ** Scores *)

(** The score from the tests it depends on. *)
Definition score_of (checks : list bool) (localhost contrast confirmed moved : bool) : F64.t :=
  let add (b : bool) w s := if b then F64.add s w else s in
  let s := foldl (fun s b => add b (F64.lit 10 100) s) (F64.lit 20 100) checks in
  let s := add confirmed (F64.lit 12 100)
             (add contrast (F64.lit 18 100) (add localhost (F64.lit 8 100) s)) in
  let s := if moved then s else F64.pymin s (F64.lit 30 100) in
  F64.round_digits 2 (F64.pymax F64.zero (F64.pymin (F64.lit 98 100) s)).

Lemma credit_fst b w names acc : (credit b w names acc).1 = if b then F64.add acc.1 w else acc.1.
Proof. by destruct b. Qed.

Lemma hypothesis_score_eq ts signals p :
  (hypothesis_score ts signals p).1 =
  score_of (map (_has signals) SUSPECT_REQUIRED) (_has signals "localhost_proxy_detected")
    (_has signals "proxy_bypass_succeeded" && _has signals "proxied_path_failed")
    (bool_decide (p.(pr_status) = CONFIRMED)) (match ts with [] => false | _ => true end).
Proof.
  unfold hypothesis_score, SUSPECT_REQUIRED. cbn [foldl map].
  destruct (credit (bool_decide _) _ _ _) as [s ev] eqn:E.
  apply (f_equal fst) in E. rewrite !credit_fst in E. cbn [fst] in E.
  unfold score_of. cbn [foldl]. cbn zeta. rewrite <- E. by destruct ts.
Qed.

(** The scores of every combination of tests. *)
Definition bools : list bool := [false; true].
Definition all_scores : list F64.t :=
  a ← bools; b ← bools; c ← bools; d ← bools; e ← bools; l ← bools; k ← bools; p ← bools; m ← bools;
  [score_of [a; b; c; d; e] l k p m].

Lemma bools_all b : b ∈ bools.
Proof. unfold bools. rewrite !elem_of_cons. destruct b; auto. Qed.

Lemma score_of_all a b c d e l k p m : In (score_of [a; b; c; d; e] l k p m) all_scores.
Proof.
  apply list_elem_of_In. unfold all_scores.
  do 9 (apply list_elem_of_bind; eexists; split; [|apply bools_all]). by left.
Qed.

(** A score of two decimals up to 0.98, and the impact it can reach in a run. *)
Definition hundredth (s : F64.t) : bool :=
  existsb (fun n => F64.eqb s (F64.int_div (Z.of_nat n) 100)) (seq 20 79).

Definition run_impact (browser proxied : bool) (s : F64.t) : ImpactSeverity :=
  (calculate_reliability_impact (if browser then IMPACT_HIGH else IMPACT_MEDIUM)
     (if proxied then BROWSER_AND_DEV_TOOLS else BROWSER_ONLY) s DURATION_UNKNOWN).(ri_impact_level).

Lemma all_scores_ok :
  forallb (fun s => hundredth s
    && forallb (fun b => forallb (fun q =>
         negb (bool_decide (run_impact b q s = IMPACT_CRITICAL))) bools) bools) all_scores = true.
Proof. vm_compute. reflexivity. Qed.

(** The scores of a run.  The confidence of the accepted hypothesis is one of the
    two-decimal numbers from 0.20 to 0.98, and the impact level is never critical. *)
Theorem run_scores_bounded ids obs proof req conf src rid run :
  run_reasoning ids obs proof req conf src rid = Ok run ->
  (exists n, 20 <= Z.of_nat n <= 98 /\
     F64.eqb run.(policy_decision).(pd_confidence) (F64.int_div (Z.of_nat n) 100) = true) /\
  run.(policy_decision).(pd_impact_level) <> IMPACT_CRITICAL.
Proof.
  intros E. apply run_reasoning_ok in E as (events & _ & _ & _ & _ & _ & _ & _ & _ & Hi & Hd).
  set (p := default _ proof) in *.
  assert (run.(policy_decision).(pd_confidence) =
          (hypothesis_score (infer_browser_proxy_transitions events (normalize_signals obs))
             (normalize_signals obs) p).1 /\
          run.(policy_decision).(pd_impact_level) = run.(reliability_impact).(ri_impact_level)) as [-> ->].
  { rewrite Hd. unfold evaluate_reasoning_policy. repeat case_match; done. }
  rewrite Hi. clear Hi Hd. rewrite hypothesis_score_eq.
  set (s := score_of _ _ _ _ _).
  assert (In s all_scores) as Hs by apply score_of_all.
  pose proof all_scores_ok as Hok. rewrite forallb_forall in Hok. specialize (Hok s Hs).
  apply andb_true_iff in Hok as [Hh Hi]. split.
  - unfold hundredth in Hh. apply existsb_exists in Hh as (n & Hn & Hn'). apply in_seq in Hn.
    exists n. split; [lia|done].
  - rewrite forallb_forall in Hi. specialize (Hi (_has (normalize_signals obs) "browser_https_failed")).
    rewrite forallb_forall in Hi. specialize (Hi (proj1 (list_elem_of_In _ _) (bools_all _))
      (_has (normalize_signals obs) "proxied_path_failed") (proj1 (list_elem_of_In _ _) (bools_all _))).
    apply negb_true_iff, bool_decide_eq_false in Hi. exact Hi.
Qed.

(** ** The declared scenario and the engine *)

Definition rule_fires (observed : list string) (r : scenario_rule) : bool :=
  match r.(requires_any) with [] => true | l => existsb (fun x => PyStr.mem x observed) l end
  && issubset r.(requires_all) observed.

(** The declared rules, in order, each from the state it names. *)
Fixpoint scenario_walk (observed : list string) (current : string) (rules : list scenario_rule)
    : list (string * string * string) :=
  match rules with
  | [] => []
  | r :: rest =>
      if rule_fires observed r && String.eqb current r.(sr_from)
      then (r.(sr_id), r.(sr_from), r.(sr_to)) :: scenario_walk observed r.(sr_to) rest
      else scenario_walk observed current rest
  end.

Definition transition_triple (t : StateTransition) : string * string * string :=
  (t.(rule_id), t.(from_state), t.(to_state)).

Lemma filter_nonempty {A} (f : A -> bool) l :
  (match List.filter f l with [] => false | _ => true end) = existsb f l.
Proof. induction l as [|x l IH]; cbn; [done|]. by destruct (f x). Qed.

Lemma suspect_drifts observed :
  issubset SUSPECT_REQUIRED observed = true ->
  existsb (fun x => PyStr.mem x observed) DRIFT_EVENTS = true.
Proof.
  unfold issubset. intros Hs. rewrite forallb_forall in Hs. apply existsb_exists.
  exists "wininet_proxy_enabled". split; [cbn; auto|]. apply Hs. cbn. auto 10.
Qed.

(** The transitions by the four tests that decide them. *)
Definition infer_tests (drift suspect confirmed preview : bool) : list (string * string * string) :=
  let s1 := if drift then "proxy_drift_detected" else "healthy_browser_path" in
  let s2 := if suspect then "browser_path_failure_suspected" else s1 in
  ((if drift then [("proxy_drift", "healthy_browser_path", "proxy_drift_detected")] else [])
   ++ (if suspect then [("browser_path_suspected", s1, "browser_path_failure_suspected")] else [])
   ++ (if confirmed then [("proxy_path_confirmed", s2, "proxy_path_failure_confirmed")] else [])
   ++ (if preview && confirmed
       then [("preview_ready", "proxy_path_failure_confirmed", "remediation_preview_ready")]
       else []))%list.

Lemma infer_transitions_tests events signals :
  let observed := event_types events in
  map transition_triple (infer_browser_proxy_transitions events signals) =
  infer_tests (existsb (fun x => PyStr.mem x observed) DRIFT_EVENTS)
    (issubset SUSPECT_REQUIRED observed) (issubset CONFIRMED_REQUIRED observed)
    (_has signals "policy_preview_allowed").
Proof.
  cbn zeta. unfold infer_browser_proxy_transitions. cbn zeta. rewrite filter_nonempty.
  destruct (existsb _ DRIFT_EVENTS), (issubset SUSPECT_REQUIRED _), (issubset CONFIRMED_REQUIRED _),
    (_has _ _); reflexivity.
Qed.

(** The engine runs the declared scenario.  Whenever the confirmation events come with
    the suspicion events and the preview signal is an event, the transitions inferred by
    the code are those of the scenario's declared rules, applied in order from the healthy
    state. *)
Theorem engine_follows_scenario events signals :
  let observed := event_types events in
  (issubset CONFIRMED_REQUIRED observed = true -> issubset SUSPECT_REQUIRED observed = true) ->
  _has signals "policy_preview_allowed" = PyStr.mem "policy_preview_allowed" observed ->
  map transition_triple (infer_browser_proxy_transitions events signals) =
  scenario_walk observed "healthy_browser_path" browser_proxy_path_regression.(sc_rules).
Proof.
  cbn zeta. intros Hc Hp. rewrite infer_transitions_tests, Hp. set (observed := event_types events) in *.
  assert (issubset ["policy_preview_allowed"] observed = PyStr.mem "policy_preview_allowed" observed) as Hone.
  { unfold issubset. cbn. apply andb_true_r. }
  pose proof (suspect_drifts observed) as Hd.
  cbn [browser_proxy_path_regression sc_rules scenario_walk]. unfold rule_fires.
  cbn [requires_any requires_all sr_from sr_to sr_id].
  change (match DRIFT_EVENTS with [] => true | l => existsb (fun x => PyStr.mem x observed) l end)
    with (existsb (fun x => PyStr.mem x observed) DRIFT_EVENTS).
  change (issubset [] observed) with true. rewrite Hone.
  destruct (existsb _ DRIFT_EVENTS), (issubset SUSPECT_REQUIRED _), (issubset CONFIRMED_REQUIRED _),
    (PyStr.mem _ _); try reflexivity; try (discriminate (Hd eq_refl)); discriminate (Hc eq_refl).
Qed.

(** The canonical path of a run. *)
Lemma infer_rules_distinct events signals :
  List.NoDup (map projected_id (infer_browser_proxy_transitions events signals)).
Proof.
  assert (map projected_id (infer_browser_proxy_transitions events signals) =
          map (fun t => "canonical_map_" +:+ (if PyStr.is_empty t.1.1 then "scenario" else t.1.1))
            (map transition_triple (infer_browser_proxy_transitions events signals))) as ->
    by by rewrite map_map.
  rewrite infer_transitions_tests. generalize (existsb (fun x => PyStr.mem x (event_types events)) DRIFT_EVENTS).
  intros drift. destruct drift, (issubset SUSPECT_REQUIRED _), (issubset CONFIRMED_REQUIRED _), (_has _ _);
    cbn; repeat (constructor; [cbn; intros Hin; repeat destruct Hin as [Hin|Hin]; done|]); constructor.
Qed.

(** The canonical history of a run is one walk from NORMAL: each transition starts
    where the one before it ended, and the reported path lists the states in order. *)
Theorem run_path_contiguous ids obs proof req conf src rid run :
  run_reasoning ids obs proof req conf src rid = Ok run ->
  contiguous NORMAL run.(rr_canonical_transitions) /\
  run.(rr_canonical_path) = NORMAL :: map ct_to run.(rr_canonical_transitions).
Proof.
  intros E. apply run_reasoning_ok in E as (events & _ & _ & _ & _ & _ & Hc & Hpath & _).
  assert (contiguous NORMAL run.(rr_canonical_transitions)) as Hcont.
  { rewrite Hc, infer_exact by apply infer_rules_distinct. apply canonical_walk_ok. }
  split; [done|]. rewrite Hpath. by apply canonical_path_contiguous.
Qed.

(** ** Witnesses *)

Module ReasoningWitness.
#[local] Instance host : PyHost := DemoHost.demo_host.

Definition ids : id_supply := {| fresh_event := fun i => "evt_" ++ PyStr.of_Z (Z.of_nat i); fresh_run := "run_1" |}.
Definition ids' : id_supply := {| fresh_event := fun i => "evt_b" ++ PyStr.of_Z (Z.of_nat i); fresh_run := "run_2" |}.
Definition seen (name : string) : Observation :=
  make_observation ("obs_" ++ name) name (PBool true) "fixture" (F64.of_Z 1).
Definition broken : list Observation :=
  map seen (DRIFT_EVENTS ++ ["ping_ok"; "dns_ok"; "tcp443_ok"; "browser_https_failed"]
            ++ CONFIRMED_REQUIRED)%list.
Definition confirmed : ProofResult :=
  {| pr_hypothesis := "browser_proxy_path_regression"; pr_status := CONFIRMED;
     pr_confidence := F64.lit 9 10; checks_run := []; pr_evidence := []; pr_limitations := [];
     pr_next_steps := [] |}.
Definition request : option string := Some " Restore_Proxy ".
Definition demo : result ReasoningRun :=
  run_reasoning ids broken (Some confirmed) request true "cli" None.
Definition the_run : option ReasoningRun := match demo with Ok r => Some r | Raise _ => None end.

Example demo_values :
  option_map (fun r => (r.(policy_decision).(pd_outcome), r.(policy_decision).(pd_reason_codes),
                        r.(rr_canonical_path), r.(policy_decision).(pd_impact_level))) the_run =
  Some (OUT_ALLOW, ["CONFIRMED_SAFE_TIER_WITH_CONFIRMATION"; "SAFE_TIER_ACTION";
                    "REQUIRES_TYPED_CONFIRMATION"],
        [NORMAL; SUSPICIOUS; DEGRADED; BROKEN], IMPACT_HIGH).
Proof. vm_compute. reflexivity. Qed.

Lemma demo_run r : the_run = Some r -> demo = Ok r.
Proof. unfold the_run. destruct demo; congruence. Qed.

Ltac with_run r E :=
  destruct the_run as [r|] eqn:E; [apply demo_run in E|vm_compute in E; discriminate].

Lemma reasoning_allow_iff_witness :
  match the_run with
  | Some r => r.(policy_decision).(pd_outcome) = OUT_ALLOW
  | None => False
  end.
Proof.
  with_run r E. apply (reasoning_allow_iff ids broken (Some confirmed) request true "cli" None r E).
  split; [by left|]. split; [|by split; vm_compute].
  vm_compute in E. injection E as <-. reflexivity.
Defined.

Lemma run_scores_bounded_witness :
  match the_run with
  | Some r => r.(policy_decision).(pd_impact_level) <> IMPACT_CRITICAL
  | None => False
  end.
Proof.
  with_run r E.
  exact (proj2 (run_scores_bounded ids broken (Some confirmed) request true "cli" None r E)).
Defined.

Lemma run_path_contiguous_witness :
  match the_run with
  | Some r => contiguous NORMAL r.(rr_canonical_transitions)
  | None => False
  end.
Proof.
  with_run r E.
  exact (proj1 (run_path_contiguous ids broken (Some confirmed) request true "cli" None r E)).
Defined.

Definition events : list EndpointEvent :=
  match detect_endpoint_events ids.(fresh_event) broken with Ok es => es | Raise _ => [] end.

Lemma engine_follows_scenario_witness :
  map transition_triple (infer_browser_proxy_transitions events []) =
  scenario_walk (event_types events) "healthy_browser_path" browser_proxy_path_regression.(sc_rules).
Proof.
  apply (engine_follows_scenario events []); vm_compute; reflexivity.
Defined.

(** Without the suspicion events the engine still confirms, from a state the declared
    rule does not start in. *)
Example confirmed_unsuspected :
  map transition_triple (infer_browser_proxy_transitions
    (map (detected_event "e") (map seen CONFIRMED_REQUIRED)) []) =
  [("proxy_path_confirmed", "healthy_browser_path", "proxy_path_failure_confirmed")].
Proof. vm_compute. reflexivity. Qed.

(** A recovered endpoint: the explicit rules return to NORMAL, then the scenario
    transitions lead away from it again. *)
Definition recovered : list Observation :=
  (broken ++ map seen ["endpoint_health_restored"; "proxy_restored"; "browser_https_ok";
                       "wininet_proxy_disabled"])%list.
Example recovered_reported_broken :
  match run_reasoning ids recovered None None false "cli" None with
  | Ok r => r.(rr_canonical_path)
  | Raise _ => []
  end = [NORMAL; SUSPICIOUS; DEGRADED; BROKEN; RECOVERING; NORMAL; SUSPICIOUS; DEGRADED; BROKEN].
Proof. vm_compute. reflexivity. Qed.
End ReasoningWitness.
