(* ===== verification/ReasoningReplay.v ===== *)
(** * Replay of stored reasoning runs, and signal correlation

    [platform_core/reasoning_audit.py]: the audit record of a run and the run recomputed
    from it; [platform_core/correlation_engine.py]: the pipeline on the signal rows of an
    API request.  The pydantic models enter through [ReasoningCodec]. *)

From S2P Require Import Prelude PyValue CanonicalState Reasoning.
From Stdlib Require Import Ascii String SpecFloat.
From stdpp Require Import strings.

Open Scope string_scope.
Open Scope Z_scope.
Open Scope py_scope.

(** ** Audit records and replay ([reasoning_audit.py]) *)

(** The models through [model_dump(mode="json")] and their constructors. *)
Class ReasoningCodec := {
  obs_dump : Observation -> pydict;
  obs_validate : pydict -> result Observation;
  proof_dump : ProofResult -> pydict;
  proof_validate : pydict -> result ProofResult;
  policy_dump : ReasoningPolicyDecision -> pydict;
  event_dump : EndpointEvent -> pydict;
  transition_dump : StateTransition -> pydict;
  canonical_dump : CanonicalStateTransition -> pydict;
  tree_dump : EvidenceTree -> pydict;
  run_dump : ReasoningRun -> pydict;
}.

Definition ranking_dict (r : ranked_hypothesis) : pydict :=
  (["hypothesis" :-> PStr r.(rh_hypothesis); "confidence" :-> PFloat r.(rh_confidence);
    "evidence" :-> str_list r.(rh_evidence)]
   ++ match r.(rh_state_depth) with
      | Some n => ["state_depth" :-> PInt (Z.of_nat n)] | None => [] end
   ++ match r.(rh_rejected) with Some b => ["rejected" :-> PBool b] | None => [] end)%list.

Section Audit.
Context {H : PyHost} {C : ReasoningCodec}.

Definition dicts (l : list pydict) : pyval := PList (map PDict l).

Definition to_audit_record (run : ReasoningRun) : pydict :=
  ["record_type" :-> PStr "reasoning_run";
   "version_metadata" :-> PDict ["reasoning_schema" :-> PStr "reasoning.v1";
                                 "engine_version" :-> PStr "2026.05"];
   "run" :-> PDict (run_dump run);
   "raw_observations" :-> dicts (map obs_dump run.(raw_observations));
   "normalized_signals" :-> PDict run.(normalized_signals);
   "detected_events" :-> dicts (map event_dump run.(detected_events));
   "state_transitions" :-> dicts (map transition_dump run.(state_transitions));
   "canonical_state_path" :-> str_list (map canonical_value run.(rr_canonical_path));
   "canonical_state_transitions" :-> dicts (map canonical_dump run.(rr_canonical_transitions));
   "hypothesis_ranking" :-> dicts (map ranking_dict run.(hypothesis_ranking));
   "evidence_tree" :-> PDict (tree_dump run.(evidence_tree));
   "proof_result" :-> PDict (proof_dump run.(rr_proof_result));
   "policy_decision" :-> PDict (policy_dump run.(policy_decision));
   "recommended_next_test" :-> PStr "Run proxy bypass contrast proof if not already confirmed.";
   "remediation_preview" :-> PDict run.(remediation_preview);
   "limitations" :-> str_list run.(rr_limitations)].

(** The dictionaries among the elements of an iterable; a number cannot be iterated. *)
Definition dict_items (v : pyval) : result (list pydict) :=
  match v with
  | PList l => Ok (omap (fun x => match x with PDict d => Some d | _ => None end) l)
  | PStr _ | PDict _ => Ok []
  | _ => Raise TypeError
  end.

(** A requested action is text or absent; [strip] fails on other true values. *)
Definition action_arg (v : pyval) : result (option string) :=
  match v with
  | PStr s => Ok (Some s)
  | _ => if py_bool v then Raise AttributeError else Ok None
  end.

Definition replay_reasoning_record (ids : id_supply) (record : pydict) : result ReasoningRun :=
  run_blob ← Dict.of_val (py_or (Dict.get "run" record) (PDict []));
  items ← dict_items (py_or (py_or (Dict.get "raw_observations" record)
                                   (Dict.get "raw_observations" run_blob)) (PList []));
  observations ← mapM_result obs_validate items;
  proof ←
    match py_or (py_or (Dict.get "proof_result" record) (Dict.get "proof_result" run_blob))
            (PDict []) with
    | PDict d => proof_validate d
    | _ => Ok (not_run "")
    end;
  '(requested, explicit_confirmation) ←
    match py_or (py_or (Dict.get "policy_decision" record) (Dict.get "policy_decision" run_blob))
            (PDict []) with
    | PDict policy =>
        let codes := py_or (Dict.get "reason_codes" policy) (PList []) in
        c1 ← py_contains "CONFIRMED_SAFE_TIER_WITH_CONFIRMATION" codes;
        c2 ← (if (c1 : bool) then Ok true
              else py_contains "confirmed_proof_safe_action_confirmation_present" codes);
        requested ← action_arg (Dict.get "requested_action" policy);
        Ok (requested, c2)
    | _ => Ok (None, false)
    end;
  run_reasoning ids observations (Some proof) requested explicit_confirmation "replay"
    (Some (py_str (py_or (py_or (Dict.get "id" run_blob) (Dict.get "run_id" record)) (PStr "")))).
End Audit.

(** ** Correlation ([correlation_engine.py]) *)

Section Correlate.
Context {H : PyHost}.

Fixpoint observations_from_signals (fresh : nat -> string) (i : nat) (rows : list pydict)
    : list Observation :=
  match rows with
  | [] => []
  | row :: rest =>
      let name := py_str (py_or (py_or (Dict.get "signal_name" row) (Dict.get "name" row))
                                (PStr "")) in
      if PyStr.is_empty name then observations_from_signals fresh i rest
      else
        match Dict.get "value" row with
        | PDict _ => observations_from_signals fresh i rest
        | value =>
            make_observation (fresh i) name value
              (py_str (py_or (Dict.get "source" row) (PStr "api"))) (F64.of_Z 1)
            :: observations_from_signals fresh (S i) rest
        end
  end.

Definition first_event_confidence (run : ReasoningRun) : F64.t :=
  match run.(detected_events) with e :: _ => e.(evt_confidence) | [] => F64.zero end.

Definition _confidence_from_run (run : ReasoningRun) : F64.t :=
  match run.(hypothesis_ranking) with
  | top :: _ =>
      match Dict.get "score" (ranking_dict top) with
      | PInt z => F64.of_Z z
      | PBool b => F64.of_Z (if b then 1 else 0)
      | PFloat f => f
      | _ => first_event_confidence run
      end
  | [] => first_event_confidence run
  end.

(** The keys of the answer that are not a dump of a part of the run. *)
Record correlation := {
  correlation_run : ReasoningRun;
  correlation_endpoint_id : string;
  confidence_score : F64.t;
  dry_run_only : bool;
}.

Definition correlate (obs_ids : nat -> string) (ids : id_supply) (signals : list pydict)
    (requested_action : string) (proof_result : option ProofResult) (endpoint_id : string)
    : result correlation :=
  let obs := observations_from_signals obs_ids 0 signals in
  let proof := default (not_run "") proof_result in
  run ← run_reasoning ids obs (Some proof) (Some requested_action) false "reasoning_engine" None;
  Ok {| correlation_run := run; correlation_endpoint_id := endpoint_id;
        confidence_score := _confidence_from_run run;
        dry_run_only :=
          negb (bool_decide (run.(policy_decision).(pd_outcome) = OUT_ALLOW)) |}.
End Correlate.

(** ** Correlation *)

Lemma detect_events_of fresh i obs es e :
  detect_events fresh i obs = Ok es -> In e es -> exists j o, In o obs /\ e = detected_event (fresh j) o.
Proof.
  revert i es. induction obs as [|o obs IH]; intros i es E He; cbn [detect_events] in E.
  - by injection E as <-.
  - apply bind_Ok in E as ([] & _ & E).
    + apply bind_Ok in E as (es' & E' & E). injection E as <-. destruct He as [<-|He].
      * exists i, o. by split; [left|].
      * destruct (IH _ _ E' He) as (j & o' & Ho & ->). exists j, o'. by split; [right|].
    + destruct (IH _ _ E He) as (j & o' & Ho & ->). exists j, o'. by split; [right|].
Qed.

Lemma signal_observations_confidence {H : PyHost} fresh i rows o :
  In o (observations_from_signals fresh i rows) -> o.(obs_confidence) = F64.of_Z 1.
Proof.
  revert i. induction rows as [|row rows IH]; intros i Ho; cbn in Ho; [done|].
  destruct (PyStr.is_empty _); [by eapply IH|].
  destruct (Dict.get "value" row); try (destruct Ho as [<-|Ho]; [done|by eapply IH]). by eapply IH.
Qed.

(** Correlation never authorises a live action, and its confidence score says only
    whether an event was detected: 1.0 when one was and 0.0 otherwise, whatever confidence
    the ranking gives the accepted hypothesis. *)
Theorem correlate_score {H : PyHost} obs_ids ids signals action proof endpoint c :
  correlate obs_ids ids signals action proof endpoint = Ok c ->
  c.(dry_run_only) = true /\
  c.(confidence_score) =
    match c.(correlation_run).(detected_events) with [] => F64.zero | _ => F64.of_Z 1 end.
Proof.
  unfold correlate. cbn zeta. intros E. apply bind_Ok in E as (run & Er & E). injection E as <-.
  cbn [dry_run_only confidence_score correlation_run].
  apply run_reasoning_ok in Er as (events & Ev & He & _ & _ & _ & _ & _ & Hr & _ & Hd). split.
  - apply negb_true_iff, bool_decide_eq_false. rewrite Hd. intros Ha. by apply gate_allow in Ha as (_ & _ & ? & _).
  - unfold _confidence_from_run. rewrite Hr. unfold rank_hypotheses.
    destruct (hypothesis_score _ _ _) as [score evidence].
    change (Dict.get "score" _) with PNone. cbn match. unfold first_event_confidence. rewrite He.
    destruct events as [|e es]; [done|].
    destruct (detect_events_of _ _ _ _ e Ev ltac:(by left)) as (j & o & Ho & ->).
    cbn. by eapply signal_observations_confidence.
Qed.

(** ** Replay *)

(** Identifiers do not decide anything: the events of the same observations have the
    same types. *)
Lemma detect_events_types fresh fresh' i i' obs es :
  detect_events fresh i obs = Ok es ->
  exists es', detect_events fresh' i' obs = Ok es' /\ event_types es' = event_types es.
Proof.
  revert i i' es. induction obs as [|o obs IH]; intros i i' es E; cbn [detect_events] in *.
  - injection E as <-. by exists [].
  - apply bind_Ok in E as (b & Eb & E). rewrite Eb, bind_ok_l. destruct b.
    + apply bind_Ok in E as (es0 & E0 & E). injection E as <-.
      destruct (IH _ (S i') _ E0) as (es' & -> & Et). rewrite bind_ok_l.
      eexists. split; [done|]. unfold event_types in *. cbn. by rewrite Et.
    + by apply (IH i).
Qed.

Lemma triples_states ts ts' :
  map transition_triple ts = map transition_triple ts' -> map to_state ts = map to_state ts'.
Proof.
  intros E. apply (f_equal (map snd)) in E. by rewrite !map_map in E.
Qed.

(** The gate reads of the transitions only the states they reach, and of the request only
    the normalised key. *)
Lemma gate_ext h ts ts' p c imp req req' conf conflict :
  map to_state ts = map to_state ts' -> normal_action req = normal_action req' ->
  evaluate_reasoning_policy h ts p c imp req conf conflict =
  evaluate_reasoning_policy h ts' p c imp req' conf conflict.
Proof.
  intros Hts Hreq.
  assert ((match last_opt ts with Some t => t.(to_state) | None => "unknown" end) =
          (match last_opt ts' with Some t => t.(to_state) | None => "unknown" end)) as Hlast.
  { apply (f_equal last_opt) in Hts. rewrite !last_opt_map in Hts.
    destruct (last_opt ts), (last_opt ts'); cbn in Hts; congruence. }
  assert ((match ts with [] => "inferred" | _ => "validated" end) =
          (match ts' with [] => "inferred" | _ => "validated" end)) as Hlevel
    by (by destruct ts, ts').
  unfold evaluate_reasoning_policy. cbn zeta. by rewrite Hreq, Hlast, Hlevel.
Qed.

(** A confirmation that did not lead to ALLOW changes nothing. *)
Lemma gate_unconfirmed h ts p c imp req conf conflict :
  (evaluate_reasoning_policy h ts p c imp req conf conflict).(pd_outcome) <> OUT_ALLOW ->
  evaluate_reasoning_policy h ts p c imp req conf conflict =
  evaluate_reasoning_policy h ts p c imp req false conflict.
Proof.
  destruct conf; [|done]. rewrite gate_allow, <- PyStr.mem_In. unfold evaluate_reasoning_policy. cbn zeta.
  intros Hn. destruct (negb _ && _); [done|]. destruct (PyStr.is_empty _); [done|].
  destruct (PyStr.mem _ SAFE_REGISTRY_ACTIONS) eqn:Es; [|done]. destruct conflict; [done|].
  rewrite bool_decide_false; [done|]. naive_solver.
Qed.

Definition ALLOW_CODE : string := "CONFIRMED_SAFE_TIER_WITH_CONFIRMATION".
Definition LEGACY_ALLOW_CODE : string := "confirmed_proof_safe_action_confirmation_present".

Lemma gate_codes h ts p c imp req conf conflict :
  let d := evaluate_reasoning_policy h ts p c imp req conf conflict in
  PyStr.mem ALLOW_CODE d.(pd_reason_codes) = bool_decide (d.(pd_outcome) = OUT_ALLOW) /\
  PyStr.mem LEGACY_ALLOW_CODE d.(pd_reason_codes) = false.
Proof.
  cbn zeta. unfold evaluate_reasoning_policy. cbn zeta. destruct (negb _ && _); [done|].
  destruct (PyStr.is_empty _); [done|]. destruct (PyStr.mem _ SAFE_REGISTRY_ACTIONS); [|done].
  destruct conflict, (bool_decide (p.(pr_status) = CONFIRMED)), conf, imp; done.
Qed.

Lemma gate_action h ts p c imp req conf conflict :
  let d := evaluate_reasoning_policy h ts p c imp req conf conflict in
  d.(pd_requested_action) =
    if PyStr.is_empty (normal_action req) then None else Some (normal_action req).
Proof.
  cbn zeta. unfold evaluate_reasoning_policy. cbn zeta.
  destruct (PyStr.is_empty (normal_action req)); [done|].
  destruct (negb _ && _); [done|]. destruct (PyStr.mem _ SAFE_REGISTRY_ACTIONS); [|done].
  destruct (guardrail _ _ _ _) as [[outcome codes] lims]. reflexivity.
Qed.

(** Replaying the gate on what the decision records gives the decision. *)
Lemma gate_replay h ts ts' p c imp req conf conflict :
  let d := evaluate_reasoning_policy h ts p c imp req conf conflict in
  map to_state ts = map to_state ts' ->
  evaluate_reasoning_policy h ts' p c imp d.(pd_requested_action)
    (PyStr.mem ALLOW_CODE d.(pd_reason_codes)) conflict = d.
Proof.
  cbn zeta. intros Hts.
  set (d := evaluate_reasoning_policy h ts p c imp req conf conflict).
  destruct (gate_codes h ts p c imp req conf conflict) as [Hcode _]. fold d in Hcode. rewrite Hcode.
  assert (normal_action d.(pd_requested_action) = normal_action req) as Hact.
  { unfold d. rewrite gate_action. destruct (PyStr.is_empty (normal_action req)) eqn:Ee.
    - apply PyStr.is_empty_true in Ee. by rewrite Ee.
    - apply normal_action_idem. }
  rewrite (gate_ext h ts' ts p c imp _ req _ conflict (eq_sym Hts) Hact).
  destruct (decide (d.(pd_outcome) = OUT_ALLOW)) as [E|E].
  - rewrite bool_decide_true by done. unfold d in *. apply gate_allow in E as (_ & _ & -> & _). done.
  - rewrite bool_decide_false by done. unfold d in *. symmetry. by apply gate_unconfirmed.
Qed.

(** The canonical walk also ignores identifiers. *)
Definition same_walk (w w' : walk) : Prop :=
  map transition_key w.1 = map transition_key w'.1 /\ w.2 = w'.2.

Lemma same_walk_nil (l l' : list CanonicalStateTransition) :
  map transition_key l = map transition_key l' ->
  (match l with [] => false | _ => true end) = (match l' with [] => false | _ => true end).
Proof. by destruct l, l'. Qed.

Lemma rule_step_same events events' signals w w' rule :
  event_types events = event_types events' -> same_walk w w' ->
  same_walk (rule_step events signals w rule) (rule_step events' signals w' rule).
Proof.
  destruct w as [l s], w' as [l' s']. unfold event_types. intros He [Hl Hs]. cbn in Hl, Hs. subst s'.
  unfold rule_step. rewrite He. destruct (negb (rule_enabled _ _ _)); [done|].
  destruct (negb _); [done|]. split; [|done]. cbn. by rewrite !map_app, Hl.
Qed.

Lemma scenario_step_same w w' t t' :
  transition_triple t = transition_triple t' -> same_walk w w' ->
  same_walk (scenario_step w t) (scenario_step w' t').
Proof.
  destruct w as [l s], w' as [l' s']. intros Ht [Hl Hs]. cbn in Hl, Hs. subst s'.
  unfold transition_triple in Ht. injection Ht as Hr Hf Hto.
  unfold scenario_step. cbn zeta. rewrite Hf, Hto, (same_walk_nil _ _ Hl).
  destruct (bool_decide _); [done|]. destruct (negb _ && _); [done|]. split; [|done].
  cbn [fst]. rewrite !map_app, Hl. unfold transition_key. cbn. by rewrite Hto, Hr.
Qed.

Lemma foldl_same {B} (R : B -> B -> Prop) (step step' : walk -> B -> walk) l l' w w' :
  (forall w w' b b', R b b' -> same_walk w w' -> same_walk (step w b) (step' w' b')) ->
  Forall2 R l l' -> same_walk w w' -> same_walk (foldl step w l) (foldl step' w' l').
Proof.
  intros Hstep Hl. revert w w'. induction Hl as [|b b' l l' Hb Hl IH]; intros w w' Hw; cbn; [done|].
  apply IH. by apply Hstep.
Qed.

Lemma canonical_walk_same ts ts' events events' signals :
  event_types events = event_types events' ->
  map transition_triple ts = map transition_triple ts' ->
  same_walk (canonical_walk ts events signals) (canonical_walk ts' events' signals).
Proof.
  intros He Hts. unfold canonical_walk.
  apply (foldl_same (fun t t' => transition_triple t = transition_triple t')).
  - intros. by apply scenario_step_same.
  - apply Forall2_fmap_1. change (map transition_triple ts) with (transition_triple <$> ts) in Hts.
    change (map transition_triple ts') with (transition_triple <$> ts') in Hts. rewrite Hts.
    apply Forall_Forall2_diag. by apply Forall_true.
  - apply (foldl_same eq); [|by apply Forall_Forall2_diag, Forall_true|done].
    intros w w' b ? <- Hw. by apply rule_step_same.
Qed.

Lemma canonical_path_same ts ts' events events' signals :
  event_types events = event_types events' ->
  map transition_triple ts = map transition_triple ts' ->
  List.NoDup (map projected_id ts) -> List.NoDup (map projected_id ts') ->
  canonical_state_path (infer_canonical_transitions ts events signals) =
  canonical_state_path (infer_canonical_transitions ts' events' signals).
Proof.
  intros He Hts Hn Hn'. rewrite !infer_exact by done.
  rewrite !canonical_path_contiguous by apply canonical_walk_ok. f_equal.
  destruct (canonical_walk_same ts ts' events events' signals He Hts) as [Hk _].
  apply (f_equal (map (fun k => k.1.2))) in Hk. by rewrite !map_map in Hk.
Qed.

Lemma ranking_same ts ts' signals p :
  length ts = length ts' -> rank_hypotheses ts signals p = rank_hypotheses ts' signals p.
Proof.
  intros Hl. unfold rank_hypotheses, hypothesis_score. rewrite Hl. by destruct ts, ts'.
Qed.

(** What the dumps of the models are known to hold. *)
Class ReasoningCodecLaws (C : ReasoningCodec) : Prop := {
  policy_dump_action d :
    Dict.lookup "requested_action" (policy_dump d) = Some (of_opt PStr d.(pd_requested_action));
  policy_dump_codes d :
    Dict.lookup "reason_codes" (policy_dump d) = Some (str_list d.(pd_reason_codes));
  run_dump_id r : Dict.lookup "id" (run_dump r) = Some (PStr r.(rr_id));
  run_dump_observations r :
    Dict.lookup "raw_observations" (run_dump r) = Some (dicts (map obs_dump r.(raw_observations)));
}.

Section Replay.
Context {H : PyHost} {C : ReasoningCodec} {L : ReasoningCodecLaws C}.

Lemma dict_items_dicts l :
  dict_items (py_or (py_or (dicts l) (dicts l)) (PList [])) = Ok l.
Proof.
  destruct l as [|d l]; [done|]. cbn. do 2 f_equal. induction l as [|x l IH]; cbn; [done|].
  by rewrite IH.
Qed.

Lemma contains_codes code codes :
  py_contains code (py_or (str_list codes) (PList [])) = Ok (PyStr.mem code codes).
Proof.
  destruct codes as [|x codes]; [done|]. cbn -[String.eqb]. f_equal. rewrite String.eqb_sym. f_equal.
  induction codes as [|y codes IH]; cbn -[String.eqb]; [done|]. by rewrite String.eqb_sym, IH.
Qed.

Lemma lookup_truthy k (d : pydict) v : Dict.lookup k d = Some v -> forall w, py_or (PDict d) w = PDict d.
Proof. by destruct d. Qed.

(** The inputs replay recovers from a record. *)
Lemma replay_inputs ids run :
  (forall o, In o run.(raw_observations) -> obs_validate (obs_dump o) = Ok o) ->
  proof_dump run.(rr_proof_result) <> [] ->
  proof_validate (proof_dump run.(rr_proof_result)) = Ok run.(rr_proof_result) ->
  PyStr.mem LEGACY_ALLOW_CODE run.(policy_decision).(pd_reason_codes) = false ->
  exists rid, replay_reasoning_record ids (to_audit_record run) =
    run_reasoning ids run.(raw_observations) (Some run.(rr_proof_result))
      run.(policy_decision).(pd_requested_action)
      (PyStr.mem ALLOW_CODE run.(policy_decision).(pd_reason_codes)) "replay" (Some rid).
Proof using L.
  intros Hobs Hne Hproof Hleg. eexists. unfold replay_reasoning_record.
  change (Dict.get "run" (to_audit_record run)) with (PDict (run_dump run)).
  rewrite (lookup_truthy _ _ _ (run_dump_id run)). change (Dict.of_val (PDict ?d)) with (Ok d).
  rewrite bind_ok_l.
  change (Dict.get "raw_observations" (to_audit_record run)) with
    (dicts (map obs_dump run.(raw_observations))).
  assert (Dict.get "raw_observations" (run_dump run) = dicts (map obs_dump run.(raw_observations))) as ->
    by (unfold Dict.get; by rewrite run_dump_observations).
  rewrite dict_items_dicts, bind_ok_l.
  assert (mapM_result obs_validate (map obs_dump run.(raw_observations)) = Ok run.(raw_observations)) as ->.
  { apply mapM_result_Forall2. clear -Hobs. induction (raw_observations run) as [|o l IH]; cbn; constructor.
    - apply Hobs. by left.
    - apply IH. intros o' Ho. apply Hobs. by right. }
  rewrite bind_ok_l.
  change (Dict.get "proof_result" (to_audit_record run)) with (PDict (proof_dump run.(rr_proof_result))).
  assert (forall w, py_or (PDict (proof_dump run.(rr_proof_result))) w =
                    PDict (proof_dump run.(rr_proof_result))) as Hor
    by (by destruct (proof_dump run.(rr_proof_result))).
  rewrite !Hor, Hproof, bind_ok_l.
  change (Dict.get "policy_decision" (to_audit_record run)) with (PDict (policy_dump run.(policy_decision))).
  rewrite !(lookup_truthy _ _ _ (policy_dump_action run.(policy_decision))). cbn zeta.
  assert (Dict.get "reason_codes" (policy_dump run.(policy_decision)) =
          str_list run.(policy_decision).(pd_reason_codes)) as ->
    by (unfold Dict.get; by rewrite policy_dump_codes).
  rewrite !contains_codes. fold ALLOW_CODE LEGACY_ALLOW_CODE. rewrite Hleg, bind_ok_l.
  assert (Dict.get "requested_action" (policy_dump run.(policy_decision)) =
          of_opt PStr run.(policy_decision).(pd_requested_action)) as ->
    by (unfold Dict.get; by rewrite policy_dump_action).
  assert (action_arg (of_opt PStr run.(policy_decision).(pd_requested_action)) =
          Ok run.(policy_decision).(pd_requested_action)) as -> by (by destruct pd_requested_action).
  destruct (PyStr.mem ALLOW_CODE _); reflexivity.
Qed.

(** C18: a stored run replays to the same decision.  The record of a run, read back in any
    later process, replays without raising, and the replay reaches the same policy
    decision (outcome, reason codes, blocked actions and every other field), ranking,
    impact and canonical path, although the confirmation flag and the original spelling
    of the action are not stored. *)
Theorem replay_reproduces ids ids' obs proof req conf src rid run :
  run_reasoning ids obs proof req conf src rid = Ok run ->
  (forall o, In o obs -> obs_validate (obs_dump o) = Ok o) ->
  proof_dump run.(rr_proof_result) <> [] ->
  proof_validate (proof_dump run.(rr_proof_result)) = Ok run.(rr_proof_result) ->
  exists run', replay_reasoning_record ids' (to_audit_record run) = Ok run' /\
    run'.(policy_decision) = run.(policy_decision) /\
    run'.(hypothesis_ranking) = run.(hypothesis_ranking) /\
    run'.(reliability_impact) = run.(reliability_impact) /\
    run'.(rr_canonical_path) = run.(rr_canonical_path).
Proof using L.
  intros E Hobs Hne Hproof. pose proof E as E0.
  apply run_reasoning_ok in E as (events & Ev & _ & Ht & Ho & Hp & Hc & Hpath & Hr & Hi & Hd).
  destruct (replay_inputs ids' run) as (rid' & Erep); [by rewrite Ho|done|done| |].
  { rewrite Hd. apply gate_codes. }
  rewrite Erep, Ho. clear Erep.
  destruct (detect_events_types ids.(fresh_event) ids'.(fresh_event) 0 0 obs events Ev)
    as (events' & Ev' & Het).
  destruct (run_reasoning_total ids' obs (Some run.(rr_proof_result))
              run.(policy_decision).(pd_requested_action)
              (PyStr.mem ALLOW_CODE run.(policy_decision).(pd_reason_codes)) "replay" (Some rid')
              events' Ev') as (run' & E').
  exists run'. split; [done|].
  apply run_reasoning_ok in E' as (events2 & Ev2 & _ & Ht2 & _ & _ & Hc2 & Hpath2 & Hr2 & Hi2 & Hd2).
  unfold detect_endpoint_events in Ev2. rewrite Ev' in Ev2. injection Ev2 as <-.
  cbn [default from_option id] in *. rewrite Hp in *.
  set (signals := normalize_signals obs) in *. set (p := default _ proof) in *.
  set (ts := infer_browser_proxy_transitions events signals) in *.
  set (ts' := infer_browser_proxy_transitions events' signals) in *.
  assert (map transition_triple ts' = map transition_triple ts) as Htri
    by (unfold ts, ts'; by rewrite !infer_transitions_tests, Het).
  assert (length ts' = length ts) as Hlen
    by (rewrite <- (length_map transition_triple), Htri; apply length_map).
  assert ((hypothesis_score ts' signals p).1 = (hypothesis_score ts signals p).1) as Hscore
    by (rewrite !hypothesis_score_eq; by destruct ts, ts').
  rewrite Hscore in *. assert (reliability_impact run' = reliability_impact run) as Himp by congruence.
  split_and!.
  - rewrite Hd2, Himp, Hd. apply gate_replay. by apply triples_states.
  - rewrite Hr2, Hr. by apply ranking_same.
  - exact Himp.
  - rewrite Hpath2, Hpath, Hc2, Hc.
    apply canonical_path_same; [done|done|apply infer_rules_distinct|apply infer_rules_distinct].
Qed.
End Replay.

(** ** Witnesses *)

Module ReplayWitness.
Import ReasoningWitness.
#[local] Instance host : PyHost := DemoHost.demo_host.

Definition rows : list pydict :=
  [["name" :-> PStr "ping_ok"; "value" :-> PStr "yes"];
   ["signal_name" :-> PStr "note"; "value" :-> PDict []]].
Definition answer : option correlation :=
  match correlate (fun _ => "obs") ids rows "inspect_proxy" None "local" with
  | Ok c => Some c
  | Raise _ => None
  end.

Lemma correlate_score_witness :
  match answer with
  | Some c => c.(dry_run_only) = true /\ c.(confidence_score) = F64.of_Z 1
  | None => False
  end.
Proof.
  destruct answer as [c|] eqn:E; [|vm_compute in E; discriminate].
  assert (correlate (fun _ => "obs") ids rows "inspect_proxy" None "local" = Ok c) as Ec.
  { unfold answer in E. destruct (correlate _ _ _ _ _ _); congruence. }
  destruct (correlate_score (fun _ => "obs") ids rows "inspect_proxy" None "local" c Ec) as [H1 H2].
  split; [exact H1|]. rewrite H2. vm_compute in E. injection E as <-. reflexivity.
Defined.

(** A codec for observations without limitations and proofs without lists. *)
Definition text_of (k : string) (d : pydict) : string := py_str (Dict.get k d).
Definition float_of (k : string) (d : pydict) : F64.t :=
  match Dict.get k d with PFloat f => f | _ => F64.zero end.
#[local] Instance demo_codec : ReasoningCodec := {|
  obs_dump o := ["id" :-> PStr o.(obs_id); "source" :-> PStr o.(obs_source);
                 "signal_name" :-> PStr o.(signal_name); "value" :-> o.(obs_value);
                 "normalized_value" :-> o.(normalized_value);
                 "confidence" :-> PFloat o.(obs_confidence)];
  obs_validate d := Ok
    {| obs_id := text_of "id" d; obs_source := text_of "source" d;
       signal_name := text_of "signal_name" d; obs_value := Dict.get "value" d;
       normalized_value := Dict.get "normalized_value" d; obs_confidence := float_of "confidence" d;
       obs_limitations := []; obs_next_steps := [] |};
  proof_dump p := ["hypothesis" :-> PStr p.(pr_hypothesis);
                   "status" :-> PStr (proof_status_value p.(pr_status));
                   "confidence" :-> PFloat p.(pr_confidence)];
  proof_validate d := Ok
    {| pr_hypothesis := text_of "hypothesis" d;
       pr_status := if String.eqb (text_of "status" d) "CONFIRMED" then CONFIRMED else NOT_RUN;
       pr_confidence := float_of "confidence" d; checks_run := []; pr_evidence := [];
       pr_limitations := []; pr_next_steps := [] |};
  policy_dump d := ["requested_action" :-> of_opt PStr d.(pd_requested_action);
                    "reason_codes" :-> str_list d.(pd_reason_codes)];
  event_dump e := ["id" :-> PStr e.(evt_id)];
  transition_dump t := ["rule_id" :-> PStr t.(rule_id)];
  canonical_dump t := ["rule_id" :-> PStr t.(ct_rule_id)];
  tree_dump t := ["run_id" :-> PStr t.(et_run_id)];
  run_dump r := ["id" :-> PStr r.(rr_id);
                 "raw_observations" :->
                   PList (map (fun o => PDict ["id" :-> PStr o.(obs_id); "source" :-> PStr o.(obs_source);
                     "signal_name" :-> PStr o.(signal_name); "value" :-> o.(obs_value);
                     "normalized_value" :-> o.(normalized_value);
                     "confidence" :-> PFloat o.(obs_confidence)]) r.(raw_observations))];
|}.
#[local] Instance demo_codec_laws : ReasoningCodecLaws demo_codec.
Proof. split; intros; cbn; try reflexivity. unfold dicts. by rewrite map_map. Qed.

Lemma replay_reproduces_witness :
  match the_run with
  | Some r => exists r', replay_reasoning_record ids' (to_audit_record r) = Ok r' /\
      r'.(policy_decision) = r.(policy_decision)
  | None => False
  end.
Proof.
  with_run r E.
  destruct (replay_reproduces ids ids' broken (Some confirmed) request true "cli" None r E)
    as (r' & Hr & Hd & _).
  - intros o Ho. repeat destruct Ho as [<-|Ho]; [..|destruct Ho]; reflexivity.
  - discriminate.
  - vm_compute in E. injection E as <-. reflexivity.
  - exists r'. split; [exact Hr|exact Hd].
Defined.
End ReplayWitness.
