(* ===== verification/Incidents.v ===== *)
(** * Incident lifecycle

    [platform_core/incident_model.py], [platform_core/incident_store.py],
    [platform_core/incident_engine.py] and the three transition routes of
    [backend/platform_routes.py]: incidents are rows of an append-only log, the last row
    of an incident is its current version, and a transition is checked against a table
    before a new version is appended.  A request is a check, a second read and an append,
    and requests in flight interleave between them ([service_step]).

    [IncidentRecord.model_validate] is a parameter; [model_dump] is written out. *)

From S2P Require Import Prelude PyValue AuditChain PolicyGate.
From Stdlib Require Import Ascii String.
From stdpp Require Import strings.

Open Scope string_scope.
Open Scope Z_scope.
Open Scope py_scope.

Inductive IncidentState := OPEN | ACKNOWLEDGED | MITIGATED | RESOLVED | FALSE_POSITIVE.
Inductive IncidentSeverity := SEV_LOW | SEV_MEDIUM | SEV_HIGH | SEV_CRITICAL.

#[export] Instance IncidentState_eq_dec : EqDecision IncidentState.
Proof. solve_decision. Defined.
#[export] Instance IncidentSeverity_eq_dec : EqDecision IncidentSeverity.
Proof. solve_decision. Defined.

Definition incident_state_value (s : IncidentState) : string :=
  match s with
  | OPEN => "OPEN" | ACKNOWLEDGED => "ACKNOWLEDGED" | MITIGATED => "MITIGATED"
  | RESOLVED => "RESOLVED" | FALSE_POSITIVE => "FALSE_POSITIVE"
  end.

Definition incident_severity_value (s : IncidentSeverity) : string :=
  match s with
  | SEV_LOW => "low" | SEV_MEDIUM => "medium" | SEV_HIGH => "high" | SEV_CRITICAL => "critical"
  end.

Record IncidentRecord := {
  inc_id : string;
  inc_endpoint_id : string;
  inc_title : string;
  inc_state : IncidentState;
  inc_severity : IncidentSeverity;
  inc_evidence_level : string;
  inc_created_at : string;
  inc_updated_at : string;
  inc_signals : list string;
  inc_limitations : list string;
}.

Definition incident_dump (r : IncidentRecord) : pydict :=
  ["incident_id" :-> PStr r.(inc_id); "endpoint_id" :-> PStr r.(inc_endpoint_id);
   "title" :-> PStr r.(inc_title); "state" :-> PStr (incident_state_value r.(inc_state));
   "severity" :-> PStr (incident_severity_value r.(inc_severity));
   "evidence_level" :-> PStr r.(inc_evidence_level); "created_at" :-> PStr r.(inc_created_at);
   "updated_at" :-> PStr r.(inc_updated_at); "signals" :-> str_list r.(inc_signals);
   "limitations" :-> str_list r.(inc_limitations)].

(** [IncidentRecord.model_validate]: it accepts a dump, and ignores a key the model does
    not declare. *)
Class IncidentCodec := { incident_validate : pydict -> result IncidentRecord }.
Class IncidentCodecLaws (C : IncidentCodec) : Prop := {
  validate_incident_dump r : incident_validate (incident_dump r) = Ok r;
  validate_incident_extra r v :
    incident_validate (incident_dump r ++ ["last_transition_actor" :-> v])%list = Ok r;
}.

(** ** Store ([incident_store.py], [storage.py]) *)

(** The lines of [incidents.jsonl]; an absent file is an empty log. *)
Abbreviation incident_log := (list jline).

Definition append_incident_event (row : pydict) (log : incident_log) : incident_log :=
  (log ++ [LJson (PDict row)])%list.

Definition iter_jsonl (log : incident_log) : list pydict := omap row_of log.

Section Store.
Context {H : PyHost}.

Definition row_incident (row : pydict) : string :=
  py_str (py_or (Dict.get "incident_id" row) (PStr "")).

(** [latest[iid] = row] over the rows: a key keeps its first position. *)
Fixpoint set_row (k : string) (row : pydict) (latest : list (string * pydict))
    : list (string * pydict) :=
  match latest with
  | [] => [(k, row)]
  | (k', r) :: rest => if String.eqb k k' then (k', row) :: rest else (k', r) :: set_row k row rest
  end.

Definition list_incident_rows (log : incident_log) : list pydict :=
  let latest :=
    foldl (fun latest row =>
      let iid := row_incident row in
      if PyStr.is_empty iid then latest else set_row iid row latest) [] (iter_jsonl log) in
  sorted_by String.ltb (fun r => py_str (py_or (Dict.get "updated_at" r) (PStr "")))
    (map snd latest).

Definition get_incident (incident_id : string) (log : incident_log) : option pydict :=
  last_opt (List.filter (fun row => String.eqb (row_incident row) incident_id) (iter_jsonl log)).

Context {C : IncidentCodec}.

(** [if not current]: no row, or an empty one. *)
Definition found_incident (incident_id : string) (log : incident_log) : result pydict :=
  match get_incident incident_id log with
  | Some (kv :: d) => Ok (kv :: d)
  | _ => Raise KeyError
  end.

(** The read of [transition_incident], and the row it makes of what it read. *)
Definition read_version (incident_id : string) (log : incident_log) : result IncidentRecord :=
  current ← found_incident incident_id log;
  incident_validate current.

Definition transitioned_row (now : string) (new_state : IncidentState) (actor : string)
    (record : IncidentRecord) : pydict :=
  Dict.set "last_transition_actor" (PStr actor)
    (Dict.set "updated_at" (PStr now)
       (Dict.set "state" (PStr (incident_state_value new_state)) (incident_dump record))).

Definition transition_incident (now incident_id : string) (new_state : IncidentState)
    (actor : string) (log : incident_log) : result IncidentRecord * incident_log :=
  match read_version incident_id log with
  | Raise e => (Raise e, log)
  | Ok record =>
      let row := transitioned_row now new_state actor record in
      (incident_validate row, append_incident_event row log)
  end.

(** ** Engine ([incident_engine.py]) *)

Definition VALID_TRANSITIONS (from : string) : list IncidentState :=
  if String.eqb from "OPEN" then [ACKNOWLEDGED; MITIGATED; RESOLVED; FALSE_POSITIVE]
  else if String.eqb from "ACKNOWLEDGED" then [MITIGATED; RESOLVED; FALSE_POSITIVE]
  else if String.eqb from "MITIGATED" then [RESOLVED; FALSE_POSITIVE]
  else [].

Definition can_transition (from : string) (to : IncidentState) : bool :=
  bool_decide (to ∈ VALID_TRANSITIONS from).

Definition row_state (row : pydict) : string :=
  py_str (py_or (Dict.get "state" row) (PStr "OPEN")).

(** The first half of [apply_transition]; the log is read again by the second. *)
Definition check_transition (incident_id : string) (new_state : IncidentState)
    (log : incident_log) : result unit :=
  current ← found_incident incident_id log;
  if can_transition (row_state current) new_state then Ok tt else Raise ValueError.

Definition apply_transition (now incident_id : string) (new_state : IncidentState)
    (actor : string) (log : incident_log) : result IncidentRecord * incident_log :=
  match check_transition incident_id new_state log with
  | Raise e => (Raise e, log)
  | Ok _ => transition_incident now incident_id new_state actor log
  end.

(** The routes: a principal that may write, then the transition. *)
Definition transition_route (new_state : IncidentState) (now : string) (p : DemoPrincipal)
    (incident_id : string) (log : incident_log) : result IncidentRecord * incident_log :=
  match assert_can_write_platform_payload p with
  | Raise e => (Raise e, log)
  | Ok _ => apply_transition now incident_id new_state p.(operator_id) log
  end.

Definition ack_incident := transition_route ACKNOWLEDGED.
Definition resolve_incident := transition_route RESOLVED.
Definition false_positive_incident := transition_route FALSE_POSITIVE.

(** *** Creation *)

Definition _signal_names (observations : list pydict) : list string :=
  List.filter (fun n => negb (PyStr.is_empty n))
    (map (fun obs => py_str (py_or (py_or (Dict.get "name" obs) (Dict.get "signal" obs)) (PStr "")))
       observations).

Definition incident_rule (signals : list string) (suspicious_persistence reenabled : bool)
    : option (IncidentSeverity * string) :=
  let has_part part := existsb (PyStr.contains part) signals in
  let browser_failed := PyStr.mem "browser_https_failed" signals || has_part "browser" in
  let proxy_enabled := PyStr.mem "wininet_proxy_enabled" signals || has_part "proxy_enabled" in
  let bypass_ok := PyStr.mem "proxy_bypass_succeeded" signals in
  if browser_failed && proxy_enabled && bypass_ok then
    Some (SEV_MEDIUM, "Browser HTTPS failed with WinINET proxy enabled; bypass path succeeded")
  else if reenabled then Some (SEV_HIGH, "Proxy re-enabled after remediation soak window")
  else if proxy_enabled && suspicious_persistence then
    Some (SEV_HIGH, "Unknown local proxy with suspicious persistence indicator")
  else None.

(** [uuid], [created] and [updated] are what the call draws. *)
Definition evaluate_incident_candidate (uuid created updated : string) (endpoint_id : string)
    (observations : list pydict) (persistence : pydict) (reenabled : bool)
    (evidence_level : string) (log : incident_log) : option IncidentRecord * incident_log :=
  let signals := _signal_names observations in
  let suspicious :=
    py_bool (py_or (Dict.get "suspicious_startup" persistence) (Dict.get "run_key_hits" persistence)) in
  match incident_rule signals suspicious reenabled with
  | None => (None, log)
  | Some (severity, title) =>
      let '(severity, limitations) :=
        if PyStr.mem evidence_level ["observation"; "inference"]
           && bool_decide (severity = SEV_CRITICAL)
        then (SEV_HIGH, ["Weak evidence caps severity below critical."])
        else (severity, []) in
      let limitations :=
        (limitations ++
         if String.eqb evidence_level "observation"
         then ["Incident created from observations only; proof not established."] else [])%list in
      let record :=
        {| inc_id := uuid; inc_endpoint_id := endpoint_id; inc_title := title; inc_state := OPEN;
           inc_severity := severity; inc_evidence_level := evidence_level;
           inc_created_at := created; inc_updated_at := updated;
           inc_signals := sorted_by String.ltb id (dedupe String.eqb signals);
           inc_limitations := limitations |} in
      (Some record, append_incident_event (incident_dump record) log)
  end.

(** ** Histories *)

(** The states an incident went through, oldest first. *)
Definition history (incident_id : string) (log : incident_log) : list string :=
  map row_state (List.filter (fun row => String.eqb (row_incident row) incident_id) (iter_jsonl log)).

Fixpoint legal_from (s : string) (l : list string) : Prop :=
  match l with
  | [] => True
  | s' :: l' => (exists t, s' = incident_state_value t /\ can_transition s t = true) /\ legal_from s' l'
  end.

(** A history starts OPEN and follows the table. *)
Definition legal_history (l : list string) : Prop :=
  match l with [] => True | s :: l' => s = "OPEN" /\ legal_from s l' end.

(** One call on the log, run without interruption: an incident is created under an
    identifier no row has, or a transition is applied. *)
Inductive incident_step : incident_log -> incident_log -> Prop :=
| step_create log uuid created updated ep obs persistence re level r log' :
    uuid <> "" -> history uuid log = [] ->
    evaluate_incident_candidate uuid created updated ep obs persistence re level log = (Some r, log') ->
    incident_step log log'
| step_transition log now iid s actor r log' :
    apply_transition now iid s actor log = (Ok r, log') -> incident_step log log'.

Inductive incident_reachable : incident_log -> Prop :=
| reach_empty : incident_reachable []
| reach_step log log' : incident_reachable log -> incident_step log log' -> incident_reachable log'.

(** ** Requests in flight

    The transition routes run in a pool of threads, and only the append itself is under a
    lock: a request reads the log for its check, reads it again for the version it moves,
    and appends a line, and other requests run in between. *)
Inductive in_flight :=
| Checked (incident_id : string) (new_state : IncidentState) (actor : string)
| Fetched (incident_id : string) (new_state : IncidentState) (actor : string)
    (record : IncidentRecord).

Definition flight_incident (q : in_flight) : string :=
  match q with Checked iid _ _ => iid | Fetched iid _ _ _ => iid end.
Definition flight_state (q : in_flight) : IncidentState :=
  match q with Checked _ s _ => s | Fetched _ s _ _ => s end.

Record service := { sv_log : incident_log; sv_flight : list in_flight }.

(** One step of the service.  With [serial] a request is only admitted while no other
    request on its incident is in flight.  A request that fails its check or its second
    read ends there. *)
Inductive service_step (serial : bool) : service -> service -> Prop :=
| serve_create log qs uuid created updated ep obs persistence re level r log' :
    uuid <> "" -> history uuid log = [] ->
    evaluate_incident_candidate uuid created updated ep obs persistence re level log = (Some r, log') ->
    service_step serial {| sv_log := log; sv_flight := qs |} {| sv_log := log'; sv_flight := qs |}
| serve_check log qs iid s actor :
    (serial = true -> ~ In iid (map flight_incident qs)) ->
    check_transition iid s log = Ok tt ->
    service_step serial {| sv_log := log; sv_flight := qs |}
      {| sv_log := log; sv_flight := Checked iid s actor :: qs |}
| serve_fetch log qs1 qs2 iid s actor record :
    read_version iid log = Ok record ->
    service_step serial {| sv_log := log; sv_flight := qs1 ++ Checked iid s actor :: qs2 |}
      {| sv_log := log; sv_flight := qs1 ++ Fetched iid s actor record :: qs2 |}
| serve_fail log qs1 qs2 iid s actor e :
    read_version iid log = Raise e ->
    service_step serial {| sv_log := log; sv_flight := qs1 ++ Checked iid s actor :: qs2 |}
      {| sv_log := log; sv_flight := qs1 ++ qs2 |}
| serve_append log qs1 qs2 iid s actor record now :
    service_step serial {| sv_log := log; sv_flight := qs1 ++ Fetched iid s actor record :: qs2 |}
      {| sv_log := append_incident_event (transitioned_row now s actor record) log;
         sv_flight := qs1 ++ qs2 |}.

(** What the service can reach from an empty log. *)
Inductive served (serial : bool) : service -> Prop :=
| served_start : served serial {| sv_log := []; sv_flight := [] |}
| served_step sv sv' : served serial sv -> service_step serial sv sv' -> served serial sv'.

(** A history that grew from the table: it starts OPEN, and every later state is one the
    table allows after some state recorded before it. *)
Definition grown_history (l : list string) : Prop :=
  match l with
  | [] => True
  | s :: _ =>
      s = "OPEN" /\
      forall before s' after, l = (before ++ s' :: after)%list -> before <> [] ->
        exists s0 t, In s0 before /\ s' = incident_state_value t /\ can_transition s0 t = true
  end.
End Store.

(** ** Rows the program writes *)

Section Lifecycle.
Context {H : PyHost} {C : IncidentCodec} {L : IncidentCodecLaws C}.

(** The row of a version: a dump, with the actor after a transition. *)
Definition version_row (r : IncidentRecord) (actor : option string) : pydict :=
  (incident_dump r ++
   match actor with Some a => ["last_transition_actor" :-> PStr a] | None => [] end)%list.

Definition version_line (l : jline) : Prop :=
  exists r actor, r.(inc_id) <> "" /\ l = LJson (PDict (version_row r actor)).

Lemma version_incident r actor : r.(inc_id) <> "" -> row_incident (version_row r actor) = r.(inc_id).
Proof.
  intros Hne. unfold row_incident. cbn. unfold py_or. cbn.
  destruct (PyStr.is_empty r.(inc_id)) eqn:E; [|done]. by apply PyStr.is_empty_true in E.
Qed.

Lemma version_state r actor : row_state (version_row r actor) = incident_state_value r.(inc_state).
Proof. unfold row_state. cbn. by destruct (inc_state r). Qed.

Lemma validate_version r actor : incident_validate (version_row r actor) = Ok r.
Proof using L.
  unfold version_row. destruct actor; [apply validate_incident_extra|].
  rewrite app_nil_r. apply validate_incident_dump.
Qed.

Definition moved (r : IncidentRecord) (s : IncidentState) (now : string) : IncidentRecord :=
  {| inc_id := r.(inc_id); inc_endpoint_id := r.(inc_endpoint_id); inc_title := r.(inc_title);
     inc_state := s; inc_severity := r.(inc_severity);
     inc_evidence_level := r.(inc_evidence_level); inc_created_at := r.(inc_created_at);
     inc_updated_at := now; inc_signals := r.(inc_signals); inc_limitations := r.(inc_limitations) |}.

Lemma transitioned_row_version now s actor r :
  transitioned_row now s actor r = version_row (moved r s now) (Some actor).
Proof. done. Qed.

(** ** Histories grow at the end *)

Lemma history_snoc iid log row :
  history iid (log ++ [LJson (PDict row)])%list =
  (history iid log ++ if String.eqb (row_incident row) iid then [row_state row] else [])%list.
Proof.
  unfold history, iter_jsonl. rewrite omap_app. cbn. rewrite List.filter_app, map_app. cbn.
  by destruct (String.eqb _ _).
Qed.

Lemma get_incident_history iid log :
  option_map row_state (get_incident iid log) = last_opt (history iid log).
Proof. unfold get_incident, history. by rewrite last_opt_map. Qed.

Lemma get_incident_version iid log row :
  Forall version_line log -> get_incident iid log = Some row ->
  exists r actor, r.(inc_id) <> "" /\ r.(inc_id) = iid /\ row = version_row r actor.
Proof.
  unfold get_incident. intros Hlog Hget. apply last_opt_In, filter_In in Hget as [Hin Heq].
  apply list_elem_of_In in Hin. unfold iter_jsonl in Hin. apply list_elem_of_omap in Hin as (l & Hl & Hrow).
  rewrite Forall_forall in Hlog. destruct (Hlog l Hl) as (r & actor & Hne & ->).
  change (Some (version_row r actor) = Some row) in Hrow. injection Hrow as <-. apply String.eqb_eq in Heq. rewrite version_incident in Heq by done.
  by exists r, actor.
Qed.

(** A successful look-up, and the write that follows it. *)
Lemma found_version iid log row :
  Forall version_line log -> found_incident iid log = Ok row ->
  exists r actor, r.(inc_id) <> "" /\ r.(inc_id) = iid /\ row = version_row r actor /\
    last_opt (history iid log) = Some (incident_state_value r.(inc_state)).
Proof.
  unfold found_incident. intros Hlog E.
  destruct (get_incident iid log) as [[|kv d]|] eqn:Eg; [done| |done]. injection E as <-.
  destruct (get_incident_version _ _ _ Hlog Eg) as (r & actor & Hne & Hid & Hrow).
  exists r, actor. split_and!; [done|done|done|].
  rewrite <- get_incident_history, Eg. cbn [option_map]. by rewrite Hrow, version_state.
Qed.

Lemma transition_version now iid s actor log :
  Forall version_line log -> history iid log <> [] ->
  exists r a0, r.(inc_id) <> "" /\ r.(inc_id) = iid /\
    found_incident iid log = Ok (version_row r a0) /\
    last_opt (history iid log) = Some (incident_state_value r.(inc_state)) /\
    transition_incident now iid s actor log =
      (Ok (moved r s now), (log ++ [LJson (PDict (version_row (moved r s now) (Some actor)))])%list).
Proof using L.
  intros Hlog Hh. destruct (get_incident iid log) as [row|] eqn:Eg.
  2: { exfalso. apply Hh. pose proof (get_incident_history iid log) as E. rewrite Eg in E.
       by apply last_opt_None. }
  destruct (get_incident_version _ _ _ Hlog Eg) as (r & a0 & Hne & Hid & ->).
  assert (found_incident iid log = Ok (version_row r a0)) as Ef
    by (unfold found_incident; rewrite Eg; done).
  exists r, a0. split_and!; [done|done|done| |].
  - rewrite <- get_incident_history, Eg. cbn [option_map]. by rewrite version_state.
  - unfold transition_incident, read_version. rewrite Ef, bind_ok_l, validate_version. cbn zeta.
    rewrite transitioned_row_version. by rewrite validate_version.
Qed.

Lemma legal_from_snoc s l s' t :
  legal_from s l -> can_transition (default s (last_opt l)) t = true -> s' = incident_state_value t ->
  legal_from s (l ++ [s']).
Proof.
  revert s. induction l as [|x l IH]; intros s Hl Ht Hs; cbn.
  - split; [|done]. by exists t.
  - destruct Hl as [Hx Hl]. split; [done|]. apply IH; [done| |done].
    destruct l as [|y l]; [exact Ht|]. change (last_opt (x :: y :: l)) with (last_opt (y :: l)) in Ht.
    destruct (last_opt (y :: l)) eqn:El; [exact Ht|]. by apply last_opt_None in El.
Qed.

Lemma legal_from_unsnoc s l x :
  legal_from s (l ++ [x]) ->
  legal_from s l /\ exists t, x = incident_state_value t /\ can_transition (default s (last_opt l)) t = true.
Proof.
  revert s. induction l as [|y l IH]; intros s; cbn [app legal_from]; [by intros [? _]|].
  intros [Hy Hl]. destruct (IH y Hl) as (Hl' & t & Hx & Ht). split; [done|]. exists t. split; [done|].
  destruct l as [|z l]; [exact Ht|]. change (last_opt (y :: z :: l)) with (last_opt (z :: l)).
  destruct (last_opt (z :: l)) eqn:El; [exact Ht|]. by apply last_opt_None in El.
Qed.

Lemma legal_history_snoc l s0 t :
  legal_history l -> last_opt l = Some s0 -> can_transition s0 t = true ->
  legal_history (l ++ [incident_state_value t])%list.
Proof.
  destruct l as [|s l]; [done|]. cbn [legal_history app]. intros [-> Hl] Hlast Ht. split; [done|].
  eapply legal_from_snoc; [done| |done]. destruct l as [|x l]; cbn in Hlast |- *; [congruence|].
  by rewrite Hlast.
Qed.

Lemma created_row uuid created updated ep obs persistence re level log r log' :
  evaluate_incident_candidate uuid created updated ep obs persistence re level log = (Some r, log') ->
  r.(inc_id) = uuid /\ r.(inc_state) = OPEN /\
  log' = (log ++ [LJson (PDict (version_row r None))])%list.
Proof.
  unfold evaluate_incident_candidate. cbn zeta. destruct (incident_rule _ _ _) as [[sev title]|]; [|done].
  unfold append_incident_event, version_row.
  by destruct (PyStr.mem level _ && _); intros [= <- <-]; rewrite app_nil_r.
Qed.

(** ** Lifecycle theorems *)

Definition state_rank (s : string) : nat :=
  if String.eqb s "OPEN" then 3 else if String.eqb s "ACKNOWLEDGED" then 2
  else if String.eqb s "MITIGATED" then 1 else 0.

Lemma transition_rank s t :
  can_transition s t = true -> (state_rank (incident_state_value t) < state_rank s)%nat.
Proof.
  unfold can_transition, VALID_TRANSITIONS, state_rank. intros Ht.
  destruct (String.eqb s "OPEN"); [|destruct (String.eqb s "ACKNOWLEDGED");
    [|destruct (String.eqb s "MITIGATED")]];
    destruct t; try discriminate Ht; cbn; lia.
Qed.

Lemma legal_from_length s l : legal_from s l -> (length l <= state_rank s)%nat.
Proof.
  revert s. induction l as [|x l IH]; intros s Hl; cbn; [lia|].
  destruct Hl as [(t & -> & Ht) Hl]. apply transition_rank in Ht. apply IH in Hl. lia.
Qed.

(** ** Interleaved requests *)

(** The check of a request, as the log shows it now: some state of the history, and under
    serial service the last one, allows the new state. *)
Definition still_allowed (serial : bool) (log : incident_log) (q : in_flight) : Prop :=
  exists s0,
    (if serial then last_opt (history (flight_incident q) log) = Some s0
     else In s0 (history (flight_incident q) log)) /\
    can_transition s0 (flight_state q) = true.

(** The version a request fetched is one of its incident. *)
Definition fetched_version (q : in_flight) : Prop :=
  match q with
  | Checked _ _ _ => True
  | Fetched iid _ _ r => r.(inc_id) = iid /\ iid <> ""
  end.

Definition good_history (serial : bool) (l : list string) : Prop :=
  if serial then legal_history l else grown_history l.

Definition service_ok (serial : bool) (sv : service) : Prop :=
  Forall version_line sv.(sv_log) /\
  (forall iid, good_history serial (history iid sv.(sv_log))) /\
  Forall (fun q => still_allowed serial sv.(sv_log) q /\ fetched_version q) sv.(sv_flight) /\
  (serial = true -> List.NoDup (map flight_incident sv.(sv_flight))).

Lemma grown_history_snoc l s0 t :
  grown_history l -> In s0 l -> can_transition s0 t = true ->
  grown_history (l ++ [incident_state_value t])%list.
Proof.
  destruct l as [|s l]; [done|]. intros [-> Hl] Hin Ht. cbn [app grown_history]. split; [done|].
  intros before s' after E Hne. destruct after as [|a after] using rev_ind.
  - change ("OPEN" :: (l ++ [incident_state_value t])%list)
      with (("OPEN" :: l) ++ [incident_state_value t])%list in E.
    apply app_inj_tail in E as [<- <-]. by exists s0, t.
  - clear IHafter. change ("OPEN" :: (l ++ [incident_state_value t])%list)
      with (("OPEN" :: l) ++ [incident_state_value t])%list in E.
    rewrite app_comm_cons, app_assoc in E. apply app_inj_tail in E as [E _]. by eapply Hl.
Qed.

Lemma good_history_snoc serial l s0 t :
  good_history serial l -> (if serial then last_opt l = Some s0 else In s0 l) ->
  can_transition s0 t = true -> good_history serial (l ++ [incident_state_value t])%list.
Proof.
  destruct serial; cbn [good_history]; [apply legal_history_snoc|apply grown_history_snoc].
Qed.

(** A row of another incident, or under concurrent service any row, leaves a check valid. *)
Lemma still_allowed_snoc serial log q row :
  still_allowed serial log q -> (serial = true -> row_incident row <> flight_incident q) ->
  still_allowed serial (log ++ [LJson (PDict row)])%list q.
Proof.
  intros (s0 & Hs & Ht) Hd. exists s0. split; [|done]. rewrite history_snoc. destruct serial.
  - destruct (String.eqb_spec (row_incident row) (flight_incident q)) as [E|_]; [by apply Hd in E|].
    by rewrite app_nil_r.
  - apply in_or_app. by left.
Qed.

(** Appending a good version keeps the service sound. *)
Lemma service_ok_snoc serial log qs r actor :
  service_ok serial {| sv_log := log; sv_flight := qs |} -> r.(inc_id) <> "" ->
  good_history serial (history r.(inc_id) log ++ [incident_state_value r.(inc_state)])%list ->
  (serial = true -> ~ In r.(inc_id) (map flight_incident qs)) ->
  service_ok serial {| sv_log := (log ++ [LJson (PDict (version_row r actor))])%list;
                       sv_flight := qs |}.
Proof.
  intros (Hv & Hh & Hf & Hnd) Hne Hr Hfree. cbn [sv_log sv_flight] in *.
  split; [|split; [|split; [|done]]]; cbn [sv_log sv_flight].
  - apply Forall_app. split; [done|]. constructor; [|constructor]. by exists r, actor.
  - intros iid. rewrite history_snoc, version_incident, version_state by done.
    destruct (String.eqb_spec r.(inc_id) iid) as [<-|Hd]; [done|]. rewrite app_nil_r. apply Hh.
  - rewrite Forall_forall in Hf |- *. intros q Hq. destruct (Hf q Hq) as [Ha Hb]. split; [|done].
    apply still_allowed_snoc; [done|]. intros Hs E. apply (Hfree Hs).
    rewrite version_incident in E by done. rewrite E. apply in_map. by apply list_elem_of_In.
Qed.

(** Dropping a request, or replacing it by one of the same incident. *)
Lemma service_ok_drop serial log qs1 q qs2 :
  service_ok serial {| sv_log := log; sv_flight := qs1 ++ q :: qs2 |} ->
  service_ok serial {| sv_log := log; sv_flight := qs1 ++ qs2 |} /\
  (serial = true -> ~ In (flight_incident q) (map flight_incident (qs1 ++ qs2))) /\
  still_allowed serial log q /\ fetched_version q.
Proof.
  intros (Hv & Hh & Hf & Hnd). cbn [sv_log sv_flight] in *.
  apply Forall_app in Hf as [Hf1 Hf2]. inversion_clear Hf2 as [|? ? Hq Hf2'].
  assert (serial = true ->
    List.NoDup (map flight_incident (qs1 ++ qs2)) /\
    ~ In (flight_incident q) (map flight_incident (qs1 ++ qs2))) as Hnd'.
  { intros Hs. specialize (Hnd Hs). rewrite map_app in Hnd |- *. cbn [map] in Hnd.
    by apply List.NoDup_remove in Hnd. }
  split; [|split; [apply Hnd'|done]]. split; [done|]. split; [done|]. split; [|apply Hnd'].
  apply Forall_app. by split.
Qed.

Lemma service_ok_add serial log qs1 q qs2 :
  service_ok serial {| sv_log := log; sv_flight := qs1 ++ qs2 |} ->
  (serial = true -> ~ In (flight_incident q) (map flight_incident (qs1 ++ qs2))) ->
  still_allowed serial log q -> fetched_version q ->
  service_ok serial {| sv_log := log; sv_flight := qs1 ++ q :: qs2 |}.
Proof.
  intros (Hv & Hh & Hf & Hnd) Hfree Ha Hb. cbn [sv_log sv_flight] in *.
  apply Forall_app in Hf as [Hf1 Hf2]. split; [done|]. split; [done|]. cbn [sv_log sv_flight].
  split; [apply Forall_app; split; [done|by constructor]|]. intros Hs.
  rewrite map_app. cbn [map]. specialize (Hnd Hs). specialize (Hfree Hs). rewrite map_app in Hnd, Hfree.
  eapply Permutation.Permutation_NoDup; [apply Permutation.Permutation_middle|by constructor].
Qed.

Lemma service_step_ok serial sv sv' :
  service_ok serial sv -> service_step serial sv sv' -> service_ok serial sv'.
Proof using L.
  intros Hok Hstep.
  destruct Hstep as [log qs uuid created updated ep obs persistence re level r log' Hne Hh E
    |log qs iid s actor Hfree Ec|log qs1 qs2 iid s actor record Er|log qs1 qs2 iid s actor e Er
    |log qs1 qs2 iid s actor record now].
  - destruct (created_row uuid created updated ep obs persistence re level log r log' E)
      as (Hid & Hst & ->).
    apply (service_ok_snoc serial log qs r None); [done|by rewrite Hid| |].
    + rewrite Hid, Hh, Hst. destruct serial; cbn; [done|]. split; [done|].
      intros [|x before] s' after [= _ E'] Hn; [done|]. by destruct before.
    + rewrite Hid. intros Hs Hin. apply in_map_iff in Hin as (q & Hq & Hin).
      destruct Hok as (_ & _ & Hf & _). cbn in Hf. rewrite Forall_forall in Hf.
      destruct (Hf q) as [(s0 & Hl & _) _]; [by apply list_elem_of_In|].
      rewrite Hq, Hh in Hl. by destruct serial.
  - apply (service_ok_add serial log [] _ qs); [done|done| |done].
    unfold check_transition in Ec. apply bind_Ok in Ec as (row & Ef & Ec).
    destruct (can_transition (row_state row) s) eqn:Ect; [|done].
    destruct (found_version _ _ _ (proj1 Hok) Ef) as (r0 & a0 & _ & _ & -> & Hlast).
    rewrite version_state in Ect. eexists. split; [|exact Ect]. cbn [flight_incident].
    destruct serial; [done|by apply last_opt_In].
  - apply service_ok_drop in Hok as (Hok & Hfree & Ha & _). apply service_ok_add; [done|done|done|].
    unfold read_version in Er. apply bind_Ok in Er as (row & Ef & Er).
    destruct (found_version _ _ _ (proj1 Hok) Ef) as (r0 & a0 & Hne & Hid & -> & _).
    rewrite validate_version in Er. injection Er as <-. cbn. split; [done|congruence].
  - by apply service_ok_drop in Hok as [? _].
  - apply service_ok_drop in Hok as (Hok & Hfree & (s0 & Hs0 & Ht) & [Hid Hne]).
    cbn [flight_incident flight_state] in *.
    unfold append_incident_event. rewrite transitioned_row_version.
    apply service_ok_snoc; [done|by cbn; rewrite Hid| |by cbn; rewrite Hid].
    cbn [moved inc_id inc_state]. rewrite Hid. eapply good_history_snoc; [apply Hok|done|done].
Qed.

Lemma served_ok serial sv : served serial sv -> service_ok serial sv.
Proof using L.
  induction 1 as [|sv sv' _ IH Hs]; [|by eapply service_step_ok].
  split; [constructor|]. split; [intros iid; by destruct serial|]. split; [constructor|].
  intros _. constructor.
Qed.

(** A legal history grew from the table. *)
Lemma legal_grown l : legal_history l -> grown_history l.
Proof.
  induction l as [|x l IH] using rev_ind; [done|]. destruct l as [|y l].
  - intros [-> _]. split; [done|]. intros [|? [|]] s' after [= _ E] Hn; done.
  - intros [-> Hl]. destruct (legal_from_unsnoc _ _ _ Hl) as (Hl' & t & -> & Ht).
    eapply grown_history_snoc; [by apply IH| |exact Ht].
    destruct (last_opt l) as [z|] eqn:El; cbn [default]; [right; by apply last_opt_In|by left].
Qed.

(** C24: histories under concurrent requests.  However creations and the reads and appends
    of transition requests interleave, the recorded states of an incident start at OPEN
    and every later one is allowed by the transition table after some state recorded
    before it.  When at most one request on an incident is in flight at a time, each
    recorded state is allowed after the one just before it, and no incident is ever
    recorded more than four times. *)
Theorem incident_history_legal serial sv iid :
  served serial sv ->
  grown_history (history iid sv.(sv_log)) /\
  (serial = true ->
   legal_history (history iid sv.(sv_log)) /\ (length (history iid sv.(sv_log)) <= 4)%nat).
Proof using L.
  intros (_ & Hh & _)%served_ok. specialize (Hh iid). destruct serial; cbn [good_history] in Hh; [|done].
  split; [by apply legal_grown|]. intros _. split; [done|].
  destruct (history iid (sv_log sv)) as [|s l]; [cbn; lia|]. destruct Hh as [-> Hl].
  apply legal_from_length in Hl. cbn in *. lia.
Qed.

(** A call that is not interrupted is its three steps in a row. *)
Lemma served_apply serial log now iid s actor r log' :
  served serial {| sv_log := log; sv_flight := [] |} ->
  apply_transition now iid s actor log = (Ok r, log') ->
  served serial {| sv_log := log'; sv_flight := [] |}.
Proof.
  unfold apply_transition, transition_incident. intros Hs E.
  destruct (check_transition iid s log) as [[]|] eqn:Ec; [|done].
  destruct (read_version iid log) as [record|] eqn:Er; [|done]. injection E as _ <-.
  eapply served_step; [|apply (serve_append serial log [] [] iid s actor record now)].
  eapply served_step; [|apply (serve_fetch serial log [] [] iid s actor record Er)].
  eapply served_step; [exact Hs|]. apply serve_check; [intros _ []|done].
Qed.

Lemma reachable_served serial log :
  incident_reachable log -> served serial {| sv_log := log; sv_flight := [] |}.
Proof.
  induction 1 as [|log log' _ IH Hs]; [apply served_start|].
  destruct Hs as [log uuid created updated ep obs persistence re level r log' Hne Hh E
                 |log now iid s actor r log' E]; [|by eapply served_apply].
  eapply served_step; [exact IH|]. by eapply serve_create.
Qed.

Lemma reachable_versions log : incident_reachable log -> Forall version_line log.
Proof using L. intros Hr. apply (served_ok false _ (reachable_served false log Hr)). Qed.

(** An incident can always be closed.  In every reachable log, an incident whose last
    state is not terminal can be resolved: the call returns the incident as RESOLVED and
    records it, and every other incident keeps its history. *)
Theorem incident_can_close log iid s now actor :
  incident_reachable log -> last_opt (history iid log) = Some s ->
  s <> "RESOLVED" -> s <> "FALSE_POSITIVE" ->
  exists r log', apply_transition now iid RESOLVED actor log = (Ok r, log') /\
    r.(inc_state) = RESOLVED /\ r.(inc_id) = iid /\
    history iid log' = (history iid log ++ ["RESOLVED"])%list /\
    forall other, other <> iid -> history other log' = history other log.
Proof using L.
  intros Hr Hs Hn1 Hn2. pose proof (reachable_versions _ Hr) as Hv.
  destruct (transition_version now iid RESOLVED actor log Hv) as (r & a0 & Hne & Hid & Ef & Hlast & Et).
  { intros Hn. by rewrite Hn in Hs. }
  exists (moved r RESOLVED now). eexists. unfold apply_transition, check_transition.
  rewrite Ef, bind_ok_l, version_state. rewrite Hs in Hlast. injection Hlast as Hst.
  assert (can_transition (incident_state_value r.(inc_state)) RESOLVED = true) as ->.
  { destruct (inc_state r); [done|done|done|done|done]. }
  split; [exact Et|]. split_and!; [done|done| |].
  - rewrite history_snoc, version_incident, version_state by done. cbn [moved inc_id inc_state].
    by rewrite Hid, String.eqb_refl.
  - intros other Hd. rewrite history_snoc, version_incident by done. cbn [moved inc_id].
    rewrite Hid. assert (String.eqb iid other = false) as -> by (apply String.eqb_neq; congruence).
    apply app_nil_r.
Qed.

Lemma served_both log iid s1 s2 now1 now2 actor1 actor2 r1 r2 log1 log2 :
  served false {| sv_log := log; sv_flight := [] |} ->
  check_transition iid s1 log = Ok tt -> check_transition iid s2 log = Ok tt ->
  transition_incident now1 iid s1 actor1 log = (Ok r1, log1) ->
  transition_incident now2 iid s2 actor2 log1 = (Ok r2, log2) ->
  served false {| sv_log := log2; sv_flight := [] |}.
Proof.
  intros Hs Hc1 Hc2. unfold transition_incident.
  destruct (read_version iid log) as [v1|] eqn:E1; [|done].
  intros Ht1%(f_equal snd). cbn [snd] in Ht1. subst log1.
  destruct (read_version iid (append_incident_event _ _)) as [v2|] eqn:E2; [|done].
  intros Ht2%(f_equal snd). cbn [snd] in Ht2. subst log2.
  eapply served_step; [|apply (serve_append false _ [] [] iid s2 actor2 v2 now2)].
  eapply served_step; [|apply (serve_fetch false _ [] [] iid s2 actor2 v2 E2)].
  eapply served_step; [|apply (serve_append false log [] [Checked iid s2 actor2] iid s1 actor1 v1 now1)].
  eapply served_step; [|apply (serve_fetch false log [] [Checked iid s2 actor2] iid s1 actor1 v1 E1)].
  eapply served_step; [|by apply serve_check].
  eapply served_step; [exact Hs|]. by apply serve_check.
Qed.

(** The check and the write are two reads.  When two requests on an OPEN incident are
    interleaved so that both check before either writes, both succeed, and the log the
    concurrent service reaches records FALSE_POSITIVE after RESOLVED, which the transition
    table forbids. *)
Theorem interleaved_transitions log iid now1 now2 actor1 actor2 :
  incident_reachable log -> last_opt (history iid log) = Some "OPEN" ->
  check_transition iid RESOLVED log = Ok tt /\ check_transition iid FALSE_POSITIVE log = Ok tt /\
  exists r1 log1 r2 log2,
    transition_incident now1 iid RESOLVED actor1 log = (Ok r1, log1) /\
    transition_incident now2 iid FALSE_POSITIVE actor2 log1 = (Ok r2, log2) /\
    served false {| sv_log := log2; sv_flight := [] |} /\
    history iid log2 = (history iid log ++ ["RESOLVED"; "FALSE_POSITIVE"])%list /\
    can_transition "RESOLVED" FALSE_POSITIVE = false.
Proof using L.
  intros Hr Hs. pose proof (reachable_versions _ Hr) as Hv. pose proof (reachable_served false _ Hr) as Hsv.
  assert (history iid log <> []) as Hne by (intros Hn; by rewrite Hn in Hs).
  destruct (transition_version now1 iid RESOLVED actor1 log Hv Hne)
    as (r & a0 & Hid0 & Hid & Ef & Hlast & Et).
  assert (Forall version_line (log ++ [LJson (PDict (version_row (moved r RESOLVED now1) (Some actor1)))])%list)
    as Hv1.
  { apply Forall_app. split; [done|]. constructor; [|constructor]. by exists (moved r RESOLVED now1), (Some actor1). }
  assert (history iid (log ++ [LJson (PDict (version_row (moved r RESOLVED now1) (Some actor1)))])%list =
          (history iid log ++ ["RESOLVED"])%list) as Hh1.
  { rewrite history_snoc, version_incident, version_state by done. cbn [moved inc_id inc_state].
    by rewrite Hid, String.eqb_refl. }
  destruct (transition_version now2 iid FALSE_POSITIVE actor2 _ Hv1) as (r' & a1 & Hid0' & Hid' & _ & _ & Et').
  { rewrite Hh1. by destruct (history iid log). }
  unfold check_transition. rewrite Ef, !bind_ok_l, version_state. rewrite Hs in Hlast. injection Hlast as Hst. rewrite <- Hst.
  split; [done|]. split; [done|]. do 4 eexists. split; [exact Et|]. split; [exact Et'|].
  split.
  { eapply served_both; [exact Hsv| | |exact Et|exact Et'];
      unfold check_transition; rewrite Ef, bind_ok_l, version_state; by rewrite <- Hst. }
  split; [|done].
  rewrite history_snoc, version_incident, version_state, Hh1 by done. cbn [moved inc_id inc_state].
  by rewrite Hid', String.eqb_refl, <- app_assoc.
Qed.

(** ** The list of incidents *)

Lemma set_row_In k row latest k' row' :
  List.NoDup (map fst latest) ->
  In (k', row') (set_row k row latest) <->
  (k' = k /\ row' = row) \/ (k' <> k /\ In (k', row') latest).
Proof.
  induction latest as [|[k0 r0] latest IH]; intros Hnd; cbn.
  - split; [intros [[= <- <-]|[]]; by left|]. intros [[-> ->]|[_ []]]. by left.
  - inversion_clear Hnd as [|? ? Hk0 Hnd']. destruct (String.eqb_spec k k0) as [->|Hd]; cbn.
    + split.
      * intros [[= <- <-]|Hin]; [by left|]. destruct (decide (k' = k0)) as [->|Hd].
        -- exfalso. apply Hk0. apply (in_map fst) in Hin. exact Hin.
        -- right. by split; [|right].
      * intros [[-> ->]|[Hd [[= <- <-]|Hin]]]; [by left|done|by right].
    + rewrite IH by done. split.
      * intros [[= <- <-]|[[-> ->]|[Hd' Hin]]]; [right; split; [congruence|by left]|by left|].
        right. by split; [|right].
      * intros [[-> ->]|[Hd' [[= <- <-]|Hin]]]; [by right; left|by left|by right; right].
Qed.

Lemma set_row_NoDup k row latest :
  List.NoDup (map fst latest) -> List.NoDup (map fst (set_row k row latest)).
Proof.
  induction latest as [|[k0 r0] latest IH]; intros Hnd; cbn; [repeat constructor; cbn; tauto|].
  inversion_clear Hnd as [|? ? Hk0 Hnd']. destruct (String.eqb_spec k k0) as [->|Hd]; cbn; constructor; auto.
  rewrite in_map_iff. intros ([k1 r1] & Hk1 & Hin). cbn in Hk1. subst k1.
  apply set_row_In in Hin as [[-> _]|[_ Hin]]; [done| |done]. apply Hk0. by apply (in_map fst) in Hin.
Qed.

Definition latest_rows (rows : list pydict) : list (string * pydict) :=
  foldl (fun latest row =>
    let iid := row_incident row in
    if PyStr.is_empty iid then latest else set_row iid row latest) [] rows.

Lemma latest_rows_spec rows :
  List.NoDup (map fst (latest_rows rows)) /\
  forall k row, In (k, row) (latest_rows rows) <->
    k <> "" /\ last_opt (List.filter (fun r => String.eqb (row_incident r) k) rows) = Some row.
Proof.
  induction rows as [|r rows [IHn IH]] using rev_ind; [split; [constructor|]; cbn; intuition congruence|].
  unfold latest_rows. rewrite foldl_app. fold (latest_rows rows). cbn [foldl]. cbn zeta.
  destruct (PyStr.is_empty (row_incident r)) eqn:Ee.
  - apply PyStr.is_empty_true in Ee. split; [done|]. intros k row. rewrite IH, List.filter_app. cbn.
    destruct (String.eqb_spec (row_incident r) k) as [<-|Hd]; [rewrite Ee; intuition congruence|].
    by rewrite app_nil_r.
  - apply PyStr.is_empty_false in Ee. split; [by apply set_row_NoDup|].
    intros k row. rewrite set_row_In, IH, List.filter_app by done. cbn.
    destruct (String.eqb_spec (row_incident r) k) as [<-|Hd].
    + rewrite last_opt_app. split; [intros [[_ ->]|[Hc _]]; done|]. intros [_ [= ->]]. by left.
    + rewrite app_nil_r. split; [intros [[-> _]|[_ Hx]]; done|]. intros Hx. right. by split; [congruence|].
Qed.

(** The list of incidents is the current version of each.  A row is listed exactly
    when it is what looking up some non-empty incident identifier returns, and no incident
    is listed twice. *)
Theorem incident_list_current log :
  (forall row, In row (list_incident_rows log) <->
     exists iid, iid <> "" /\ get_incident iid log = Some row) /\
  List.NoDup (map row_incident (list_incident_rows log)).
Proof using.
  unfold list_incident_rows. fold (latest_rows (iter_jsonl log)).
  set (rows := iter_jsonl log). destruct (latest_rows_spec rows) as [Hnd Hspec].
  assert (forall k row, In (k, row) (latest_rows rows) -> row_incident row = k) as Hkey.
  { intros k row Hin. apply Hspec in Hin as [_ Hl]. apply last_opt_In, filter_In in Hl as [_ Hl].
    by apply String.eqb_eq. }
  split.
  - intros row. rewrite <- !list_elem_of_In, (sorted_by_Permutation _ _ (map snd (latest_rows rows))).
    rewrite list_elem_of_In, in_map_iff. split.
    + intros ([k r] & <- & Hin). exists k. by apply Hspec in Hin.
    + intros (iid & Hne & Hget). exists (iid, row). split; [done|]. by apply Hspec.
  - assert (map row_incident (map snd (latest_rows rows)) = map fst (latest_rows rows)) as Hmap.
    { rewrite map_map. apply map_ext_in. intros [k r] Hin. cbn. by apply Hkey. }
    apply NoDup_ListNoDup. rewrite (sorted_by_Permutation _ _ (map snd (latest_rows rows))).
    apply NoDup_ListNoDup. by rewrite Hmap.
Qed.
End Lifecycle.

(** ** Witnesses *)

Module IncidentsWitness.
#[local] Instance host : PyHost := DemoHost.demo_host.

Definition text (k : string) (d : pydict) : string := py_str (Dict.get k d).
Definition texts (k : string) (d : pydict) : list string :=
  match Dict.get k d with
  | PList l => omap (fun v => match v with PStr s => Some s | _ => None end) l
  | _ => []
  end.
Definition find_value {A} (value : A -> string) (l : list A) (s : string) : option A :=
  List.find (fun a => String.eqb (value a) s) l.
Definition states : list IncidentState := [OPEN; ACKNOWLEDGED; MITIGATED; RESOLVED; FALSE_POSITIVE].
Definition severities : list IncidentSeverity := [SEV_LOW; SEV_MEDIUM; SEV_HIGH; SEV_CRITICAL].

(** Validation of the keys of the model; other keys are ignored. *)
#[local] Instance codec : IncidentCodec := {|
  incident_validate d :=
    match find_value incident_state_value states (text "state" d),
          find_value incident_severity_value severities (text "severity" d) with
    | Some st, Some sv =>
        Ok {| inc_id := text "incident_id" d; inc_endpoint_id := text "endpoint_id" d;
              inc_title := text "title" d; inc_state := st; inc_severity := sv;
              inc_evidence_level := text "evidence_level" d; inc_created_at := text "created_at" d;
              inc_updated_at := text "updated_at" d; inc_signals := texts "signals" d;
              inc_limitations := texts "limitations" d |}
    | _, _ => Raise ValueError
    end |}.

Lemma omap_texts l : omap (fun v => match v with PStr s => Some s | _ => None end) (map PStr l) = l.
Proof. induction l as [|x l IH]; cbn; [done|]. by rewrite IH. Qed.

#[local] Instance codec_laws : IncidentCodecLaws codec.
Proof.
  split; intros [a b c st sv e f g h i]; destruct st, sv; cbn; unfold texts; cbn;
    by rewrite !omap_texts.
Qed.

Definition obs (name : string) : pydict := ["name" :-> PStr name; "value" :-> PBool true].
Definition failing : list pydict :=
  [obs "browser_https_failed"; obs "wininet_proxy_enabled"; obs "proxy_bypass_succeeded"].
Definition created : option IncidentRecord * incident_log :=
  evaluate_incident_candidate "i-1" "t0" "t0" "ep" failing [] false "inference" [].
Definition log1 : incident_log := created.2.
Definition log2 : incident_log := (apply_transition "t1" "i-1" ACKNOWLEDGED "op" log1).2.

Definition log3 : incident_log :=
  (transition_incident "t2" "i-1" FALSE_POSITIVE "b"
     (transition_incident "t1" "i-1" RESOLVED "a" log1).2).2.

Lemma log1_reachable : incident_reachable log1.
Proof.
  eapply reach_step; [apply reach_empty|].
  eapply (step_create [] "i-1" "t0" "t0" "ep" failing [] false "inference");
    [discriminate|reflexivity|vm_compute; reflexivity].
Qed.

Lemma log2_reachable : incident_reachable log2.
Proof.
  eapply reach_step; [apply log1_reachable|]. 
  eapply (step_transition log1 "t1" "i-1" ACKNOWLEDGED "op"). vm_compute. reflexivity.
Qed.

Example log2_history : history "i-1" log2 = ["OPEN"; "ACKNOWLEDGED"].
Proof. vm_compute. reflexivity. Qed.

Lemma log3_served : served false {| sv_log := log3; sv_flight := [] |}.
Proof.
  destruct (transition_incident "t1" "i-1" RESOLVED "a" log1) as [o1 l1] eqn:E1.
  destruct (transition_incident "t2" "i-1" FALSE_POSITIVE "b" l1) as [o2 l2] eqn:E2.
  assert (log3 = l2) as -> by (unfold log3; rewrite E1; cbn [snd]; by rewrite E2).
  assert (exists r, o1 = Ok r) as [r1 ->] by (vm_compute in E1; injection E1 as <- _; by eexists).
  assert (exists r, o2 = Ok r) as [r2 ->].
  { vm_compute in E1. injection E1 as _ <-. vm_compute in E2. injection E2 as <- _. by eexists. }
  refine (served_both log1 "i-1" RESOLVED FALSE_POSITIVE "t1" "t2" "a" "b" r1 r2 l1 l2 _ _ _ E1 E2);
    [apply reachable_served, log1_reachable|vm_compute; reflexivity..].
Qed.

(** Served one at a time, and two requests at once. *)
Lemma incident_history_legal_witness :
  (legal_history (history "i-1" log2) /\ (length (history "i-1" log2) <= 4)%nat) /\
  exists log, history "i-1" log = ["OPEN"; "RESOLVED"; "FALSE_POSITIVE"] /\
    grown_history (history "i-1" log).
Proof.
  split.
  - exact (proj2 (incident_history_legal true {| sv_log := log2; sv_flight := [] |} "i-1"
                    (reachable_served true log2 log2_reachable)) eq_refl).
  - exists log3. split; [vm_compute; reflexivity|].
    exact (proj1 (incident_history_legal false {| sv_log := log3; sv_flight := [] |} "i-1"
                    log3_served)).
Defined.

Lemma incident_can_close_witness :
  exists r log', apply_transition "t2" "i-1" RESOLVED "op" log2 = (Ok r, log') /\
    r.(inc_state) = RESOLVED.
Proof.
  destruct (incident_can_close log2 "i-1" "ACKNOWLEDGED" "t2" "op") as (r & log' & E & Hs & _).
  - exact log2_reachable.
  - vm_compute. reflexivity.
  - discriminate.
  - discriminate.
  - exists r, log'. split; [exact E|exact Hs].
Defined.

Lemma interleaved_transitions_witness :
  exists log', history "i-1" log' = ["OPEN"; "RESOLVED"; "FALSE_POSITIVE"].
Proof.
  destruct (interleaved_transitions log1 "i-1" "t1" "t2" "a" "b") as (_ & _ & r1 & l1 & r2 & l2 & _ & _ & _ & Hh & _).
  - exact log1_reachable.
  - vm_compute. reflexivity.
  - exists l2. rewrite Hh. vm_compute. reflexivity.
Defined.

(** Any signal whose name contains "browser" counts as a browser failure, the success
    signal too. *)
Example browser_success_opens_incident :
  option_map inc_title
    (evaluate_incident_candidate "i-1" "t" "t" "ep"
       [obs "browser_https_ok"; obs "wininet_proxy_enabled"; obs "proxy_bypass_succeeded"]
       [] false "inference" []).1 =
  Some "Browser HTTPS failed with WinINET proxy enabled; bypass path succeeded".
Proof. vm_compute. reflexivity. Qed.
End IncidentsWitness.
