(* ===== verification/ProofTier.v ===== *)
(** * Proof tiers and the evidence-to-decision lifecycle

    [src/platform_core/governance/proof_tier.py]: the ladder T0..T7 and its resolution from
    a case fixture; [src/platform_core/governance/evidence_decision_lifecycle.py]: the claim,
    verification, uncertainty and knowledge records derived from a risk decision.

    A fixture is any dictionary: attribute access on a value that is not one raises. *)

From S2P Require Import Prelude PyValue Stakeholder.
From Stdlib Require Import Ascii String SpecFloat.
From stdpp Require Import strings.

Open Scope string_scope.
Open Scope Z_scope.
Open Scope py_scope.

(** ** Proof tiers *)

Inductive ProofTier :=
| T0_OBSERVATION_ONLY | T1_LOCAL_CONFIG_EVIDENCE | T2_RUNTIME_CORROBORATION
| T3_BEHAVIORAL_REPRODUCTION | T4_OPERATOR_CONFIRMED | T5_GOVERNANCE_PROOF
| T6_CONTROLLED_VALIDATION | T7_INDEPENDENT_VERIFICATION.

#[export] Instance ProofTier_eq_dec : EqDecision ProofTier.
Proof. solve_decision. Defined.

Definition proof_tier_value (t : ProofTier) : string :=
  match t with
  | T0_OBSERVATION_ONLY => "T0_OBSERVATION_ONLY"
  | T1_LOCAL_CONFIG_EVIDENCE => "T1_LOCAL_CONFIG_EVIDENCE"
  | T2_RUNTIME_CORROBORATION => "T2_RUNTIME_CORROBORATION"
  | T3_BEHAVIORAL_REPRODUCTION => "T3_BEHAVIORAL_REPRODUCTION"
  | T4_OPERATOR_CONFIRMED => "T4_OPERATOR_CONFIRMED"
  | T5_GOVERNANCE_PROOF => "T5_GOVERNANCE_PROOF"
  | T6_CONTROLLED_VALIDATION => "T6_CONTROLLED_VALIDATION"
  | T7_INDEPENDENT_VERIFICATION => "T7_INDEPENDENT_VERIFICATION"
  end.

Definition _TIER_ORDER : list ProofTier :=
  [T0_OBSERVATION_ONLY; T1_LOCAL_CONFIG_EVIDENCE; T2_RUNTIME_CORROBORATION;
   T3_BEHAVIORAL_REPRODUCTION; T4_OPERATOR_CONFIRMED; T5_GOVERNANCE_PROOF;
   T6_CONTROLLED_VALIDATION; T7_INDEPENDENT_VERIFICATION].

Definition DEFAULT_TIER_LIMITATIONS : list string :=
  ["Proof tiers describe evidence strength — not malware, compromise, or MITM confirmation.";
   "Observation is not proof; correlation is not causation.";
   "Proof tier does not grant execution authority; policy and human approval remain separate."].

Record ProofTierResult := {
  ptr_tier : ProofTier;
  ptr_label : string;
  ptr_limitations : list string;
  ptr_rationale : string;
}.

(** ** Reading a fixture *)

(** [for x in v]. *)
Definition py_iter (v : pyval) : result (list pyval) :=
  match v with
  | PList l => Ok l
  | PDict d => Ok (map (fun kv => PStr kv.1) d)
  | PStr s => Ok (map (fun c => PStr (Utf8.encode [c])) (Json.code_points s))
  | _ => Raise TypeError
  end.

(** The first element that satisfies [f] ends the loop. *)
Fixpoint any_result {A} (f : A -> result bool) (l : list A) : result bool :=
  match l with
  | [] => Ok false
  | x :: l' => b ← f x; if (b : bool) then Ok true else any_result f l'
  end.

(** [fixture.get(k) or {}], used as a dictionary. *)
Definition sub_dict (k : string) (d : pydict) : result pydict :=
  Dict.of_val (py_or (Dict.get k d) (PDict [])).

Definition is_text (s : string) (v : pyval) : bool :=
  match v with PStr t => String.eqb t s | _ => false end.

(** [v is True]. *)
Definition is_true (v : pyval) : bool := match v with PBool true => true | _ => false end.

Section Tiers.
Context {H : PyHost}.

Definition tier_classification (fixture : pydict) : result string :=
  block ← sub_dict "classification" fixture;
  Ok (PyStr.upper (py_str (py_or (py_or (Dict.get "primary_classification" block)
                                        (Dict.get "classification" fixture)) (PStr "")))).

Definition _listener_found (fixture : pydict) : result (option bool) :=
  let owner := py_or (py_or (Dict.get "proxy_owner" fixture) (Dict.get "listener_info" fixture))
                 (PDict []) in
  known ← py_contains "listener_found" owner;
  if (known : bool) then
    d ← Dict.of_val owner; Ok (Some (py_bool (Dict.get "listener_found" d)))
  else
    proxy_state ←
      Dict.of_val (py_or (py_or (Dict.get "proxy_state" fixture) (Dict.get "proxy_status" fixture))
                     (PDict []));
    if is_none (Dict.get "localhost_port" proxy_state) then Ok None
    else d ← Dict.of_val owner;
         Ok (if py_bool (Dict.get "process" d) then Some true else None).

Definition proof_attempts (proof : pydict) : result (list pyval) :=
  py_iter (py_or (Dict.get "proof_attempts" proof) (PList [])).

Definition _proof_supported (fixture : pydict) : result bool :=
  proof ← sub_dict "proof" fixture;
  conclusion ← sub_dict "conclusion" proof;
  if is_text "supported" (Dict.get "status" conclusion) then Ok true
  else
    attempts ← proof_attempts proof;
    any_result (fun attempt => d ← Dict.of_val attempt; Ok (is_text "supported" (Dict.get "status" d)))
      attempts.

Definition _runtime_corroboration (fixture : pydict) : result bool :=
  proof ← sub_dict "proof" fixture;
  attempts ← proof_attempts proof;
  found ←
    any_result (fun attempt =>
      d ← Dict.of_val attempt;
      let name := PyStr.lower (py_str (Dict.get_default "name" (PStr "") d)) in
      let status := Dict.get "status" d in
      Ok (PyStr.mem name ["localhost_listener_check"; "wininet_winhttp_comparison";
                          "direct_https_probe"; "proxied_https_probe"]
          && (is_text "supported" status || is_text "failed" status))) attempts;
  if (found : bool) then Ok true else _proof_supported fixture.

Definition audit_entries (fixture : pydict) : result (list pyval) :=
  py_iter (py_or (Dict.get "audit_log_entries" fixture) (PList [])).

(** Whether an entry of the audit log has one of two flags. *)
Definition entry_flag (a b : string) (fixture : pydict) : result bool :=
  rows ← audit_entries fixture;
  any_result (fun row =>
    d ← Dict.of_val row; Ok (py_bool (Dict.get a d) || py_bool (Dict.get b d))) rows.

Definition _operator_confirmed (fixture : pydict) : result bool :=
  policy ← sub_dict "policy_decision" fixture;
  if py_bool (Dict.get "executed" policy)
     && negb (py_bool (Dict.get_default "dry_run" (PBool true) policy)) then Ok true
  else if negb (PyStr.is_empty (PyStr.strip
            (py_str (py_or (Dict.get "confirmation_token_used" policy) (PStr ""))))) then Ok true
  else entry_flag "confirmation_used" "executed" fixture.

Definition _governance_proof (fixture : pydict) : result bool :=
  confirmed ← _operator_confirmed fixture;
  if negb confirmed then Ok false
  else
    chain ← sub_dict "audit_chain_verification" fixture;
    if is_true (Dict.get "verified" chain) then Ok true
    else
      certified ← entry_flag "replay_certified" "chain_verified" fixture;
      if (certified : bool) then Ok true else Ok (py_bool (Dict.get "governance_proof" fixture)).

(** [all(required)] over keys that must be [True]. *)
Definition all_true (keys : list string) (d : pydict) : bool :=
  forallb (fun k => is_true (Dict.get k d)) keys.

Definition CONTROLLED_KEYS : list string :=
  ["isolated_or_fixture_based"; "change_applied"; "failure_reproduced"; "rollback_applied";
   "recovery_verified"; "repeatable"].
Definition INDEPENDENT_KEYS : list string :=
  ["independent_verifier"; "evidence_bundle_verified"; "hash_chain_verified";
   "deterministic_replay_verified"; "classification_reproduced"].

Definition _controlled_validation (fixture : pydict) : result bool :=
  validation ← sub_dict "controlled_validation" fixture;
  governed ← _governance_proof fixture;
  Ok ((governed : bool) && all_true CONTROLLED_KEYS validation).

Definition _independent_verification (fixture : pydict) : result bool :=
  verification ← sub_dict "independent_verification" fixture;
  controlled ← _controlled_validation fixture;
  Ok ((controlled : bool) && all_true INDEPENDENT_KEYS verification).

Definition map_proof_tier_to_evidence_tier (tier : ProofTier) : string :=
  match tier with
  | T0_OBSERVATION_ONLY | T1_LOCAL_CONFIG_EVIDENCE => "OBSERVED_ONLY"
  | T2_RUNTIME_CORROBORATION => "CORRELATED"
  | T3_BEHAVIORAL_REPRODUCTION => "PROVEN_NETWORK_IMPACT"
  | T4_OPERATOR_CONFIRMED => "PROVEN_REGISTRY_WRITER"
  | T5_GOVERNANCE_PROOF => "GOVERNANCE_VERIFIED"
  | T6_CONTROLLED_VALIDATION => "CONTROLLED_VALIDATION"
  | T7_INDEPENDENT_VERIFICATION => "INDEPENDENTLY_VERIFIED"
  end.

Definition tier_result (t : ProofTier) (label rationale extra : string) : ProofTierResult :=
  {| ptr_tier := t; ptr_label := label; ptr_rationale := rationale;
     ptr_limitations := (DEFAULT_TIER_LIMITATIONS ++ [extra])%list |}.

Definition TRIAGE_LABELS : list string := ["POSSIBLE_MITM_RISK"; "SUSPICIOUS_PROXY"].

(** The tiers below T4: the tier, the rationale and the limitations as they grow. *)
Definition resolve_lower (primary : string) (listener : option bool) (fixture : pydict)
    : result ProofTierResult :=
  let local := negb (PyStr.is_empty primary) || py_bool (Dict.get "proxy_state" fixture)
               || py_bool (Dict.get "proxy_status" fixture) in
  let tier := if local then T1_LOCAL_CONFIG_EVIDENCE else T0_OBSERVATION_ONLY in
  let parts :=
    ("Baseline observation from available signals." ::
     if local then ["Local WinINET/WinHTTP configuration evidence present."] else []) in
  runtime ← _runtime_corroboration fixture;
  let '(tier, parts) :=
    if (runtime : bool)
    then (T2_RUNTIME_CORROBORATION,
          (parts ++ ["Runtime path or stack contrast corroborates configuration hypothesis."])%list)
    else (tier, parts) in
  let dead := String.eqb primary "DEAD_PROXY_CONFIG" in
  let '(tier, parts, limitations) :=
    if dead && bool_decide (listener = Some false) then
      (if (runtime : bool) then T2_RUNTIME_CORROBORATION else T1_LOCAL_CONFIG_EVIDENCE,
       (parts ++ if (runtime : bool) then []
                 else ["Dead proxy without listener capped at T1–T2; no behavioral reproduction claimed."])%list,
       (DEFAULT_TIER_LIMITATIONS
        ++ ["Dead localhost proxy config does not imply malware or MITM."])%list)
    else (tier, parts, DEFAULT_TIER_LIMITATIONS) in
  supported ← _proof_supported fixture;
  let '(tier, parts) :=
    if (supported : bool) && bool_decide (tier = T2_RUNTIME_CORROBORATION) && negb dead
    then (T3_BEHAVIORAL_REPRODUCTION,
          (parts ++ ["Structured proof checks support reproducible failure pattern."])%list)
    else (tier, parts) in
  Ok {| ptr_tier := tier; ptr_label := title (PyStr.replace_char "_" " " (proof_tier_value tier));
        ptr_rationale := PyStr.join " " parts; ptr_limitations := limitations |}.

Definition resolve_proof_tier (fixture : pydict) : result ProofTierResult :=
  primary ← tier_classification fixture;
  listener ← _listener_found fixture;
  if PyStr.mem primary TRIAGE_LABELS then
    Ok (tier_result T2_RUNTIME_CORROBORATION "Runtime Corroboration"
          "Suspicious/MITM classifications remain triage-only regardless of governance metadata."
          "MITM or suspicious labels remain triage — not confirmed interception.")
  else
    independent ← _independent_verification fixture;
    if (independent : bool) then
      Ok (tier_result T7_INDEPENDENT_VERIFICATION "Independent verification"
            "Independent verifier validated evidence integrity and deterministically reproduced the classification after controlled validation."
            "Independent verification increases assurance; it does not establish intent or remove human authorization requirements.")
    else
      controlled ← _controlled_validation fixture;
      if (controlled : bool) then
        Ok (tier_result T6_CONTROLLED_VALIDATION "Controlled causal validation"
              "Controlled change reproduced the failure and rollback restored service repeatedly with governance evidence preserved."
              "Controlled validation supports a bounded causal mechanism, not universal causation.")
      else
        governed ← _governance_proof fixture;
        if (governed : bool) then
          Ok (tier_result T5_GOVERNANCE_PROOF "Governance-confirmed reproducible evidence chain"
                "Human-confirmed action with audit chain verification."
                "Governance proof supports committee reporting — not formal audit opinion.")
        else
          confirmed ← _operator_confirmed fixture;
          if (confirmed : bool) then
            Ok (tier_result T4_OPERATOR_CONFIRMED "Operator-confirmed action recorded"
                  "Human confirmation or executed remediation with audit evidence."
                  "Operator confirmation does not prove absence of compromise.")
          else resolve_lower primary listener fixture.
End Tiers.

(** ** The lifecycle ([evidence_decision_lifecycle.py]) *)

Inductive ClaimStatus := PROPOSED | SUPPORTED | PARTIALLY_SUPPORTED | NOT_SUPPORTED | CLAIM_INCONCLUSIVE.
Inductive VerificationStatus := VERIFIED | PARTIALLY_VERIFIED | NOT_VERIFIED | VERIFICATION_INCONCLUSIVE.

#[export] Instance VerificationStatus_eq_dec : EqDecision VerificationStatus.
Proof. solve_decision. Defined.

(** The fields of a risk decision record the adapter reads. *)
Record RiskDecisionRecord := {
  rd_incident_id : string;
  rd_evidence_id : string;
  rd_decision_key : string;
  rd_classification : string;
  rd_secondary_signals : list string;
  rd_proof_tier : ProofTier;
  rd_confidence_score : F64.t;
  rd_confidence_label : string;
  rd_limitations : list string;
  rd_audit_id : string;
}.

Record Claim := {
  cl_claim_id : string; cl_incident_id : string; cl_statement : string;
  cl_source_observations : list string; cl_evidence_ids : list string; cl_status : ClaimStatus;
}.

Record VerificationResult := {
  vf_claim_id : string; vf_status : VerificationStatus; vf_checks_run : list string;
  vf_supporting_evidence : list string; vf_limitations : list string; vf_reproducible : bool;
}.

Record UncertaintyAssessment := {
  ua_claim_id : string; ua_confidence_ordinal : string; ua_confidence_score : F64.t;
  ua_probability_calibrated : bool; ua_uncertainty_sources : list string;
  ua_missing_evidence : list string;
}.

Record KnowledgeRecord := {
  kr_knowledge_id : string; kr_incident_id : string; kr_claim_id : string; kr_statement : string;
  kr_verification_status : VerificationStatus; kr_uncertainty : UncertaintyAssessment;
  kr_evidence_ids : list string; kr_limitations : list string; kr_valid_for_decision : bool;
}.

Record EvidenceDecisionLifecycle := {
  lc_incident_id : string; lc_claim : Claim; lc_verification : VerificationResult;
  lc_uncertainty : UncertaintyAssessment; lc_knowledge : KnowledgeRecord; lc_decision_id : string;
}.

Definition text_or (a b : string) : string := if PyStr.is_empty a then b else a.

Fixpoint remove_char (c : ascii) (s : string) : string :=
  match s with
  | EmptyString => EmptyString
  | String c' s' => if Ascii.eqb c c' then remove_char c s' else String c' (remove_char c s')
  end.

(** [int(str(tier).split("_")[0].replace("T", ""))], 0 when it is not a number. *)
Definition proof_rank (proof_tier : string) : Z :=
  match PyStr.to_int (remove_char "T" (PyStr.span (fun c => negb (Ascii.eqb c "_")) proof_tier).1) with
  | Ok n => n
  | Raise _ => 0
  end.

Definition lifecycle_from_risk_decision (record : RiskDecisionRecord) : EvidenceDecisionLifecycle :=
  let incident_id := record.(rd_incident_id) in
  let claim_id := "claim-" ++ incident_id in
  let classification := text_or record.(rd_classification) "UNCLASSIFIED" in
  let evidence_id := text_or record.(rd_evidence_id) ("ev-" ++ incident_id) in
  let rank := proof_rank (proof_tier_value record.(rd_proof_tier)) in
  let '(verification_status, claim_status) :=
    if 3 <=? rank then (VERIFIED, SUPPORTED)
    else if 2 <=? rank then (PARTIALLY_VERIFIED, PARTIALLY_SUPPORTED)
    else (VERIFICATION_INCONCLUSIVE, CLAIM_INCONCLUSIVE) in
  let verified := bool_decide (verification_status = VERIFIED) in
  let uncertainty :=
    {| ua_claim_id := claim_id; ua_confidence_ordinal := record.(rd_confidence_label);
       ua_confidence_score := record.(rd_confidence_score); ua_probability_calibrated := false;
       ua_uncertainty_sources := record.(rd_limitations);
       ua_missing_evidence :=
         if verified then []
         else ["Higher proof-tier corroboration may be required before stronger causal claims."] |} in
  {| lc_incident_id := incident_id;
     lc_claim :=
       {| cl_claim_id := claim_id; cl_incident_id := incident_id;
          cl_statement := "Endpoint evidence is consistent with classification " ++ classification ++ ".";
          cl_source_observations := record.(rd_secondary_signals);
          cl_evidence_ids := [evidence_id]; cl_status := claim_status |};
     lc_verification :=
       {| vf_claim_id := claim_id; vf_status := verification_status;
          vf_checks_run := ["proof_tier_resolution"; "control_testing"; "deterministic_classification"];
          vf_supporting_evidence := [evidence_id]; vf_limitations := record.(rd_limitations);
          vf_reproducible := 2 <=? rank |};
     lc_uncertainty := uncertainty;
     lc_knowledge :=
       {| kr_knowledge_id := "knowledge-" ++ incident_id; kr_incident_id := incident_id;
          kr_claim_id := claim_id;
          kr_statement :=
            if verified then "Verified evidence supports " ++ classification ++ "."
            else "Available evidence is consistent with " ++ classification ++
                 ", subject to stated limitations.";
          kr_verification_status := verification_status; kr_uncertainty := uncertainty;
          kr_evidence_ids := [evidence_id]; kr_limitations := record.(rd_limitations);
          kr_valid_for_decision :=
            bool_decide (verification_status ∈ [VERIFIED; PARTIALLY_VERIFIED]) |};
     lc_decision_id := text_or record.(rd_decision_key) record.(rd_audit_id) |}.

(** ** The ladder *)

Definition ladder_rank (t : ProofTier) : Z :=
  match t with
  | T0_OBSERVATION_ONLY => 0 | T1_LOCAL_CONFIG_EVIDENCE => 1 | T2_RUNTIME_CORROBORATION => 2
  | T3_BEHAVIORAL_REPRODUCTION => 3 | T4_OPERATOR_CONFIRMED => 4 | T5_GOVERNANCE_PROOF => 5
  | T6_CONTROLLED_VALIDATION => 6 | T7_INDEPENDENT_VERIFICATION => 7
  end.

Lemma proof_rank_value t : proof_rank (proof_tier_value t) = ladder_rank t.
Proof. by destruct t. Qed.

Section Ladder.
Context {H : PyHost}.

(** Each upper rung contains the one below it. *)
Lemma governed_confirmed f : _governance_proof f = Ok true -> _operator_confirmed f = Ok true.
Proof.
  unfold _governance_proof. intros E. apply bind_Ok in E as ([] & Hc & E); [done|discriminate E].
Qed.

Lemma controlled_governed f : _controlled_validation f = Ok true -> _governance_proof f = Ok true.
Proof.
  unfold _controlled_validation. intros E. apply bind_Ok in E as (v & _ & E).
  apply bind_Ok in E as ([] & Hg & E); [done|discriminate E].
Qed.

Lemma independent_controlled f : _independent_verification f = Ok true -> _controlled_validation f = Ok true.
Proof.
  unfold _independent_verification. intros E. apply bind_Ok in E as (v & _ & E).
  apply bind_Ok in E as ([] & Hg & E); [done|discriminate E].
Qed.

Lemma lower_rank primary listener f r :
  resolve_lower primary listener f = Ok r ->
  ladder_rank r.(ptr_tier) <= 3 /\
  (ladder_rank r.(ptr_tier) = 3 -> _proof_supported f = Ok true /\ primary <> "DEAD_PROXY_CONFIG") /\
  (ladder_rank r.(ptr_tier) = 2 -> _runtime_corroboration f = Ok true).
Proof.
  unfold resolve_lower. cbn zeta. intros E. apply bind_Ok in E as (runtime & Hr & E).
  destruct (if runtime then _ else _) as [t1 p1] eqn:E1.
  destruct (if String.eqb primary _ && _ then _ else _) as [[t2 p2] l2] eqn:E2.
  apply bind_Ok in E as (supported & Hs & E).
  destruct (if supported && _ && _ then _ else _) as [t3 p3] eqn:E3. injection E as <-. cbn [ptr_tier].
  assert (ladder_rank t1 <= 2 /\ (ladder_rank t1 = 2 -> runtime = true)) as [H1 H1'].
  { destruct runtime; injection E1 as <- _; [by split|].
    destruct (_ || _ || _); cbn; split; (lia || done). }
  assert (ladder_rank t2 <= 2 /\ (ladder_rank t2 = 2 -> runtime = true)) as [H2 H2'].
  { destruct (_ && _); injection E2 as <- _ _; [|done]. destruct runtime; cbn; split; (lia || done). }
  destruct supported; cbn [andb] in E3.
  2: { injection E3 as <- _. split_and!; [lia|lia|]. intros Ht. by rewrite <- (H2' Ht). }
  destruct (bool_decide (t2 = _) && _) eqn:E4; injection E3 as <- _.
  - apply andb_true_iff in E4 as [_ E4]. apply negb_true_iff, String.eqb_neq in E4. cbn.
    split_and!; [lia|done|lia].
  - split_and!; [lia|lia|]. intros Ht. by rewrite <- (H2' Ht).
Qed.

(** C33: a proof tier is earned.  When a tier is resolved, a MITM or suspicious label is
    always T2; otherwise the tier reaches T4, T5, T6 and T7 exactly when the operator
    confirmation, the governance proof, the controlled validation and the independent
    verification hold, T3 only with a supported proof of something other than a dead proxy,
    and T2 only with runtime corroboration. *)
Theorem proof_tier_earned f r :
  resolve_proof_tier f = Ok r ->
  exists primary, tier_classification f = Ok primary /\
  (In primary TRIAGE_LABELS -> r.(ptr_tier) = T2_RUNTIME_CORROBORATION) /\
  (~ In primary TRIAGE_LABELS ->
     let n := ladder_rank r.(ptr_tier) in
     (4 <= n <-> _operator_confirmed f = Ok true) /\ (5 <= n <-> _governance_proof f = Ok true) /\
     (6 <= n <-> _controlled_validation f = Ok true) /\
     (7 <= n <-> _independent_verification f = Ok true) /\
     (n = 3 -> _proof_supported f = Ok true /\ primary <> "DEAD_PROXY_CONFIG") /\
     (n = 2 -> _runtime_corroboration f = Ok true)).
Proof.
  unfold resolve_proof_tier. intros E. apply bind_Ok in E as (primary & Hp & E).
  apply bind_Ok in E as (listener & _ & E). exists primary. split; [done|].
  rewrite <- PyStr.mem_In. destruct (PyStr.mem primary TRIAGE_LABELS); [by injection E as <-|].
  split; [done|]. intros _. cbn zeta.
  pose proof (governed_confirmed f) as Hgc. pose proof (controlled_governed f) as Hcg.
  pose proof (independent_controlled f) as Hic.
  apply bind_Ok in E as (i & Hi & E). destruct i.
  { injection E as <-. cbn. split_and!; try (intuition lia); intuition congruence. }
  apply bind_Ok in E as (c & Hc & E). destruct c.
  { injection E as <-. cbn. rewrite Hi. split_and!; try (intuition lia); intuition (congruence || lia). }
  apply bind_Ok in E as (g & Hg & E). destruct g.
  { injection E as <-. cbn. rewrite Hi, Hc. split_and!; try (intuition lia); intuition (congruence || lia). }
  apply bind_Ok in E as (o & Ho & E). rewrite Hi, Hc, Hg, Ho. destruct o.
  { injection E as <-. cbn. split_and!; try (intuition lia); intuition (congruence || lia). }
  apply lower_rank in E as (Hle & H3 & H2). split_and!; try done; split; intros; (lia || congruence).
Qed.

(** Triage labels never verify.  The lifecycle of a decision whose proof tier was
    resolved for a MITM or suspicious label is partially verified and no more, whatever
    else the fixture contains; in general a decision is verified from T3 and usable from
    T2. *)
Theorem triage_never_verified f r record :
  resolve_proof_tier f = Ok r -> record.(rd_proof_tier) = r.(ptr_tier) ->
  let lc := lifecycle_from_risk_decision record in
  (lc.(lc_verification).(vf_status) = VERIFIED <-> 3 <= ladder_rank r.(ptr_tier)) /\
  (lc.(lc_knowledge).(kr_valid_for_decision) = true <-> 2 <= ladder_rank r.(ptr_tier)) /\
  forall primary, tier_classification f = Ok primary -> In primary TRIAGE_LABELS ->
    lc.(lc_verification).(vf_status) = PARTIALLY_VERIFIED /\
    lc.(lc_uncertainty).(ua_missing_evidence) <> [].
Proof.
  intros E Ht. cbn zeta. unfold lifecycle_from_risk_decision. rewrite proof_rank_value, Ht.
  split_and!.
  - destruct (ptr_tier r); cbn; split; intros; (lia || done).
  - destruct (ptr_tier r); cbn; split; intros; (lia || done).
  - intros primary Hp Hin. unfold resolve_proof_tier in E. rewrite Hp, bind_ok_l in E.
    apply bind_Ok in E as (listener & _ & E). apply PyStr.mem_In in Hin. rewrite Hin in E.
    by injection E as <-.
Qed.

(** A classification given as text is not read.  Any fixture whose classification is
    a non-empty string, rather than a dictionary, makes the resolution raise. *)
Theorem text_classification_raises f s :
  Dict.get "classification" f = PStr s -> s <> "" ->
  resolve_proof_tier f = Raise AttributeError.
Proof.
  intros Hc Hne. unfold resolve_proof_tier, tier_classification, sub_dict. rewrite Hc. unfold py_or. cbn.
  by destruct s.
Qed.
End Ladder.

(** ** Witnesses *)

Module ProofTierWitness.
#[local] Instance host : PyHost := DemoHost.demo_host.

Definition governed : pydict :=
  ["classification" :-> PDict ["primary_classification" :-> PStr "local_proxy_active"];
   "policy_decision" :-> PDict ["executed" :-> PBool true; "dry_run" :-> PBool false];
   "audit_log_entries" :-> PList [PDict ["chain_verified" :-> PBool true]]].

Lemma proof_tier_earned_witness :
  match resolve_proof_tier governed with
  | Ok r => ladder_rank r.(ptr_tier) = 5 /\ _governance_proof governed = Ok true
  | Raise _ => False
  end.
Proof.
  destruct (resolve_proof_tier governed) as [r|e] eqn:E; [|vm_compute in E; discriminate].
  destruct (proof_tier_earned governed r E) as (primary & Hp & _ & Hup).
  destruct Hup as (_ & H5 & _).
  - vm_compute in Hp. injection Hp as <-. cbn. intuition discriminate.
  - assert (5 <= ladder_rank r.(ptr_tier)) as Hge.
    { vm_compute in E. injection E as <-. vm_compute. discriminate. }
    split; [vm_compute in E; injection E as <-; reflexivity|]. apply H5. exact Hge.
Defined.

Definition mitm : pydict :=
  Dict.set "classification" (PDict ["primary_classification" :-> PStr "POSSIBLE_MITM_RISK"]) governed.
Definition decision (t : ProofTier) : RiskDecisionRecord :=
  {| rd_incident_id := "i"; rd_evidence_id := ""; rd_decision_key := "k";
     rd_classification := "POSSIBLE_MITM_RISK"; rd_secondary_signals := []; rd_proof_tier := t;
     rd_confidence_score := F64.lit 1 2; rd_confidence_label := "low"; rd_limitations := [];
     rd_audit_id := "a" |}.

Lemma triage_never_verified_witness :
  match resolve_proof_tier mitm with
  | Ok r => (lifecycle_from_risk_decision (decision r.(ptr_tier))).(lc_verification).(vf_status) =
            PARTIALLY_VERIFIED
  | Raise _ => False
  end.
Proof.
  destruct (resolve_proof_tier mitm) as [r|e] eqn:E; [|vm_compute in E; discriminate].
  destruct (triage_never_verified mitm r (decision r.(ptr_tier)) E eq_refl) as (_ & _ & Ht).
  apply (Ht "POSSIBLE_MITM_RISK"); [vm_compute; reflexivity|by left].
Defined.

Lemma text_classification_raises_witness :
  resolve_proof_tier ["classification" :-> PStr "DEAD_PROXY_CONFIG"] = Raise AttributeError.
Proof.
  apply (text_classification_raises ["classification" :-> PStr "DEAD_PROXY_CONFIG"] "DEAD_PROXY_CONFIG");
    [reflexivity|discriminate].
Defined.
End ProofTierWitness.
