(* ===== verification/HumanReview.v ===== *)
(** * Human review and governance language

    [src/platform_core/governance/human_review.py]: which classifications need a reviewer,
    the guard on who may approve, and the two logs a decision is written to;
    [src/platform_core/governance/evidence_to_action.py]: claim strength, execution
    authority, the governance envelope and the check on accusatory language;
    [src/platform_core/risk/business_impact_mapping.py]: the forum of a classification. *)

From S2P Require Import Prelude PyValue AuditChain.
From Stdlib Require Import Ascii String.
From stdpp Require Import strings.

Open Scope string_scope.
Open Scope Z_scope.
Open Scope py_scope.

(** ** Review queue *)

Definition REVIEW_CLASSES : list string :=
  ["UNKNOWN_LOCAL_PROXY"; "SUSPICIOUS_PROXY"; "SUSPICIOUS_LOCAL_PROXY"; "POSSIBLE_MITM_RISK";
   "REVERTER_SUSPECTED"].

Inductive HumanReviewStatus :=
| PENDING_REVIEW | ACCEPTED | OVERRIDDEN | NEEDS_MORE_EVIDENCE | REVIEW_REJECTED | CLOSED.

Definition review_status_value (s : HumanReviewStatus) : string :=
  match s with
  | PENDING_REVIEW => "PENDING_REVIEW" | ACCEPTED => "ACCEPTED" | OVERRIDDEN => "OVERRIDDEN"
  | NEEDS_MORE_EVIDENCE => "NEEDS_MORE_EVIDENCE" | REVIEW_REJECTED => "REJECTED" | CLOSED => "CLOSED"
  end.

Inductive ReviewAction :=
| ACCEPT_CLASSIFICATION | OVERRIDE_CLASSIFICATION | REQUEST_MORE_EVIDENCE
| APPROVE_REMEDIATION_PREVIEW | REJECT_REMEDIATION | MARK_FALSE_POSITIVE | CLOSE_NO_ACTION.

#[export] Instance ReviewAction_eq_dec : EqDecision ReviewAction.
Proof. solve_decision. Defined.

Definition review_action_value (a : ReviewAction) : string :=
  match a with
  | ACCEPT_CLASSIFICATION => "accept_classification"
  | OVERRIDE_CLASSIFICATION => "override_classification"
  | REQUEST_MORE_EVIDENCE => "request_more_evidence"
  | APPROVE_REMEDIATION_PREVIEW => "approve_remediation_preview"
  | REJECT_REMEDIATION => "reject_remediation"
  | MARK_FALSE_POSITIVE => "mark_false_positive"
  | CLOSE_NO_ACTION => "close_no_action"
  end.

Definition _RISKY_APPROVE_ACTIONS : list ReviewAction :=
  [APPROVE_REMEDIATION_PREVIEW; OVERRIDE_CLASSIFICATION].
Definition _AI_ACTOR_PREFIXES : list string :=
  ["ai_"; "gpt"; "claude"; "copilot"; "assistant"; "model"].

Record HumanReviewItem := {
  ri_review_id : string; ri_incident_id : string; ri_evidence_id : string;
  ri_classification : string; ri_policy_decision_id : string; ri_status : HumanReviewStatus;
  ri_created_at : string; ri_assigned_to : option string; ri_reason : string;
}.

Record HumanReviewDecision := {
  hd_review_id : string; hd_action : ReviewAction; hd_reason : string; hd_actor : string;
  hd_timestamp : string; hd_evidence_id : string; hd_policy_decision_id : string;
  hd_override_classification : option string;
}.

(** The model's validator: a decision needs a reason. *)
Definition _require_reason (d : HumanReviewDecision) : result HumanReviewDecision :=
  if PyStr.is_empty (PyStr.strip d.(hd_reason)) then Raise ValueError else Ok d.

Definition classification_needs_review (classification : string) : bool :=
  PyStr.mem (PyStr.upper classification) REVIEW_CLASSES.

(** [uuid] is the hexadecimal text the call draws. *)
Definition enqueue_from_incident (uuid now incident_id classification evidence_id
    policy_decision_id : string) (assigned_to : option string) : option HumanReviewItem :=
  if negb (classification_needs_review classification) then None
  else Some
    {| ri_review_id := "HR-" ++ PyStr.take 12 uuid; ri_incident_id := incident_id;
       ri_evidence_id := evidence_id; ri_classification := PyStr.upper classification;
       ri_policy_decision_id := policy_decision_id; ri_status := PENDING_REVIEW;
       ri_created_at := now; ri_assigned_to := assigned_to;
       ri_reason := "Accusatory-adjacent classification requires human review." |}.

Definition risky_action_of_review (a : ReviewAction) : bool :=
  bool_decide (a ∈ _RISKY_APPROVE_ACTIONS).
Definition ai_actor (actor : string) : bool :=
  existsb (PyStr.startswith (PyStr.lower actor)) _AI_ACTOR_PREFIXES.

Definition _validate_decision_actor (d : HumanReviewDecision) : result unit :=
  if ai_actor d.(hd_actor) && risky_action_of_review d.(hd_action) then Raise ValueError
  else if risky_action_of_review d.(hd_action) then
    if PyStr.is_empty (PyStr.strip d.(hd_evidence_id)) then Raise ValueError
    else if PyStr.is_empty (PyStr.strip d.(hd_policy_decision_id)) then Raise ValueError
    else Ok tt
  else Ok tt.

(** [human_review.jsonl] and [audit.jsonl] of the audit directory. *)
Record review_logs := { review_log : list jline; audit_mirror : list jline }.

Definition with_timestamp (now : string) (d : HumanReviewDecision) : HumanReviewDecision :=
  if PyStr.is_empty d.(hd_timestamp)
  then {| hd_review_id := d.(hd_review_id); hd_action := d.(hd_action); hd_reason := d.(hd_reason);
          hd_actor := d.(hd_actor); hd_timestamp := now; hd_evidence_id := d.(hd_evidence_id);
          hd_policy_decision_id := d.(hd_policy_decision_id);
          hd_override_classification := d.(hd_override_classification) |}
  else d.

Definition review_row (d : HumanReviewDecision) : pydict :=
  ["review_id" :-> PStr d.(hd_review_id); "action" :-> PStr (review_action_value d.(hd_action));
   "reason" :-> PStr d.(hd_reason); "actor" :-> PStr d.(hd_actor);
   "timestamp" :-> PStr d.(hd_timestamp); "evidence_id" :-> PStr d.(hd_evidence_id);
   "policy_decision_id" :-> PStr d.(hd_policy_decision_id);
   "override_classification" :-> of_opt PStr d.(hd_override_classification);
   "event" :-> PStr "human_review_decision"].

Definition mirror_row (d : HumanReviewDecision) : pydict :=
  ["timestamp" :-> PStr d.(hd_timestamp); "incident_id" :-> PStr d.(hd_review_id);
   "action" :-> PStr (review_action_value d.(hd_action)); "actor" :-> PStr d.(hd_actor);
   "reason" :-> PStr d.(hd_reason); "evidence_id" :-> PStr d.(hd_evidence_id);
   "policy_decision_id" :-> PStr d.(hd_policy_decision_id); "dry_run" :-> PBool true;
   "limitations" :-> str_list ["Human review decision — not autonomous remediation."]].

(** The returned dictionary is the row of the review log. *)
Definition record_decision (now : string) (d : HumanReviewDecision) (logs : review_logs)
    : result pydict * review_logs :=
  match _validate_decision_actor d with
  | Raise e => (Raise e, logs)
  | Ok _ =>
      let d := with_timestamp now d in
      (Ok (review_row d),
       {| review_log := (logs.(review_log) ++ [LJson (PDict (review_row d))])%list;
          audit_mirror := (logs.(audit_mirror) ++ [LJson (PDict (mirror_row d))])%list |})
  end.

(** ** Business forum ([business_impact_mapping.py]) *)

Definition suggested_forum (classification : string) : string :=
  let key := PyStr.upper classification in
  if PyStr.mem key ["DEAD_PROXY_CONFIG"; "LOCAL_PROXY_ENABLED"]
  then "IT support / Technology risk review"
  else if String.eqb key "WININET_WINHTTP_MISMATCH" then "Endpoint reliability / Platform governance"
  else if String.eqb key "LOCAL_PROXY_ACTIVE" then "Endpoint reliability / Developer platform review"
  else if String.eqb key "PAC_CONFIGURED" then "Platform governance / Change advisory"
  else if String.eqb key "UNKNOWN_LOCAL_PROXY" then "Cyber risk triage / Technology risk review"
  else if String.eqb key "REVERTER_SUSPECTED" then "Endpoint reliability / Security operations review"
  else if String.eqb key "POSSIBLE_MITM_RISK" then "Cyber risk review"
  else if String.eqb key "NO_PROXY" then "Routine operations"
  else "Technology risk review".

Section Queue.
Context {H : PyHost}.

Definition row_classification (row : pydict) : string :=
  match Dict.get "classification" row with
  | PDict d => PyStr.upper (py_str (Dict.get_default "primary_classification" (PStr "") d))
  | _ => PyStr.upper (py_str (Dict.get_default "classification" (PStr "") row))
  end.

Definition row_incident_key (row : pydict) : string :=
  py_str (py_or (py_or (py_or (Dict.get "incident_id" row) (Dict.get "case_id" row))
                       (Dict.get "timestamp" row)) (PStr "")).

Definition queue_entry (row : pydict) : pydict :=
  ["incident_id" :-> py_or (Dict.get "incident_id" row) (Dict.get "case_id" row);
   "classification" :-> PStr (row_classification row);
   "reason" :-> PStr
     "Accusatory-adjacent classification requires human review before remediation narrative.";
   "recommended_forum" :-> PStr (suggested_forum (row_classification row))].

Fixpoint review_queue (seen : list string) (records : list pydict) : list pydict :=
  match records with
  | [] => []
  | row :: rest =>
      if negb (PyStr.mem (row_classification row) REVIEW_CLASSES) then review_queue seen rest
      else if PyStr.mem (row_incident_key row) seen then review_queue seen rest
      else queue_entry row :: review_queue (row_incident_key row :: seen) rest
  end.

Definition items_needing_review (records : list pydict) : list pydict := review_queue [] records.
End Queue.

(** ** Evidence to action *)

Definition _ACCUSATORY_CLASSIFICATIONS : list string :=
  ["SUSPICIOUS_PROXY"; "POSSIBLE_MITM_RISK"; "UNKNOWN_LOCAL_PROXY"; "REVERTER_SUSPECTED"].
Definition _CAUSAL_LANGUAGE_TIERS : list string := ["attribution"; "final_causation"].
Definition _PROHIBITED_CAUSAL_PHRASES : list string :=
  ["caused by"; "prove malware"; "proved malware"; "proves malware"; "confirmed mitm";
   "confirms mitm"; "prove mitm"; "attacker"; "compromised"; "safe to execute automatically"].

(** [text.find(phrase)]. *)
Definition find_text (phrase text : string) : option nat := String.index 0 phrase text.

(** [s.replace(a, b)] for a non-empty [a], left to right; [fuel] is at least the length. *)
Fixpoint replace_text (fuel : nat) (a b s : string) : string :=
  match fuel with
  | O => s
  | S fuel' =>
      match find_text a s with
      | None => s
      | Some i =>
          PyStr.take i s ++ b ++
          replace_text fuel' a b
            (String.substring (i + String.length a) (String.length s - (i + String.length a)) s)
      end
  end.

Definition resolve_claim_strength (evidence_tier proof_conclusion : option string) : string :=
  match evidence_tier with
  | Some (String c t) =>
      let s := PyStr.lower (String c t) in
      replace_text (String.length s) "observed_only" "observation" s
  | _ =>
      match proof_conclusion with
      | Some c =>
          if String.eqb c "supported" then "proof"
          else if PyStr.mem c ["weakened"; "inconclusive"] then "correlation" else "observation"
      | None => "observation"
      end
  end.

Definition causal_language_allowed (claim_strength : string) : bool :=
  PyStr.mem (PyStr.lower claim_strength) _CAUSAL_LANGUAGE_TIERS.

Definition classification_is_accusation (primary_classification : option string) : bool := false.

Definition resolve_execution_authority (policy_outcome : option string)
    (dry_run requires_confirmation executed : bool) : string :=
  let outcome := PyStr.upper (default "" policy_outcome) in
  if String.eqb outcome "BLOCK" || String.eqb outcome "DENY" then "blocked"
  else if executed && negb dry_run && negb requires_confirmation then "automated_forbidden"
  else if dry_run || PyStr.mem outcome ["PREVIEW_ONLY"; "PREVIEW"] then "preview_only"
  else if String.eqb outcome "REQUIRE_TYPED_CONFIRMATION" then "human_required"
  else "human_required".

Definition build_governance_envelope (primary_classification evidence_tier proof_conclusion
    policy_outcome : option string) (dry_run requires_confirmation executed : bool)
    (limitations : list string) : pydict :=
  let claim_strength := resolve_claim_strength evidence_tier proof_conclusion in
  let merged :=
    (["Observation is not proof; correlation is not causation.";
      "Confidence is ordinal, not a statistical probability.";
      "Classification is not accusation.";
      "Policy permission is not a safety guarantee.";
      "Recommendation is not execution authority."]
     ++ limitations
     ++ match primary_classification with
        | Some c =>
            if PyStr.mem c _ACCUSATORY_CLASSIFICATIONS
            then [c +:+ " is an investigative label — not a confirmed threat verdict."] else []
        | None => []
        end)%list in
  ["governance_model" :-> PStr "evidence_to_action.v1";
   "claim_strength" :-> PStr claim_strength;
   "confidence_type" :-> PStr "ordinal_not_probability";
   "causal_language_allowed" :-> PBool (causal_language_allowed claim_strength);
   "classification_is_accusation" :-> PBool (classification_is_accusation primary_classification);
   "execution_authority" :-> PStr
     (resolve_execution_authority policy_outcome dry_run requires_confirmation executed);
   "limitations" :-> str_list merged].

(** The 24 characters before the first occurrence. *)
Definition before_phrase (text : string) (idx : nat) : string :=
  let chars := Json.code_points (PyStr.take idx text) in
  Utf8.encode (skipn (length chars - 24) chars).

Definition NEGATIONS : list string := ["does not "; "do not "; "not "; "never "; "without "].

Definition _negated (text phrase : string) : bool :=
  match find_text phrase text with
  | None => false
  | Some idx => existsb (fun neg => PyStr.contains neg (before_phrase text idx)) NEGATIONS
  end.

Definition narrative_passes_governance_language (text claim_strength : string)
    (primary_classification : option string) : bool :=
  let lower := PyStr.lower text in
  let has l := existsb (fun p => PyStr.contains p lower) l in
  if negb (causal_language_allowed claim_strength)
     && existsb (fun phrase => PyStr.contains phrase lower && negb (_negated lower phrase))
          _PROHIBITED_CAUSAL_PHRASES
  then false
  else if bool_decide (primary_classification = Some "SUSPICIOUS_PROXY")
          && has ["prove malware"; "proved malware"; "malware confirmed"] then false
  else if bool_decide (primary_classification = Some "POSSIBLE_MITM_RISK")
          && has ["confirmed mitm"; "confirms mitm"; "prove mitm"; "proven mitm"] then false
  else true.

(** ** Stored review items *)

Section Items.
Context {H : PyHost} (item_validate : pydict -> result HumanReviewItem).

(** The lines of the items file; text that is not JSON raises. *)
Fixpoint list_pending (lines : list jline) : result (list HumanReviewItem) :=
  match lines with
  | [] => Ok []
  | LBlank :: rest => list_pending rest
  | LBad :: _ => Raise ValueError
  | LJson v :: rest =>
      row ← Dict.of_val v;
      match Dict.get "status" row with
      | PStr s =>
          if String.eqb s (review_status_value PENDING_REVIEW) then
            item ← item_validate row; items ← list_pending rest; Ok (item :: items)
          else list_pending rest
      | _ => list_pending rest
      end
  end.

Fixpoint get_item (review_id : string) (lines : list jline) : result (option HumanReviewItem) :=
  match lines with
  | [] => Ok None
  | LBlank :: rest => get_item review_id rest
  | LBad :: _ => Raise ValueError
  | LJson v :: rest =>
      row ← Dict.of_val v;
      match Dict.get "review_id" row with
      | PStr s =>
          if String.eqb s review_id then item ← item_validate row; Ok (Some item)
          else get_item review_id rest
      | _ => get_item review_id rest
      end
  end.
End Items.

(** ** Decisions *)

(** Who may decide.  A recorded decision that approves a remediation or overrides a
    classification was not made by an AI actor and names its evidence and its policy
    decision; recording adds one row to each of the two logs, with the same timestamp,
    actor and action; a refused decision is refused for such an action, with [ValueError],
    and writes nothing. *)
Theorem review_decision_guarded now d logs :
  match record_decision now d logs with
  | (Ok row, logs') =>
      (In d.(hd_action) _RISKY_APPROVE_ACTIONS ->
         ai_actor d.(hd_actor) = false /\ PyStr.strip d.(hd_evidence_id) <> "" /\
         PyStr.strip d.(hd_policy_decision_id) <> "") /\
      exists mirror,
        logs'.(review_log) = (logs.(review_log) ++ [LJson (PDict row)])%list /\
        logs'.(audit_mirror) = (logs.(audit_mirror) ++ [LJson (PDict mirror)])%list /\
        Forall (fun k => Dict.lookup k row = Dict.lookup k mirror)
          ["timestamp"; "actor"; "action"; "reason"; "evidence_id"; "policy_decision_id"]
  | (Raise e, logs') => logs' = logs /\ e = ValueError /\ In d.(hd_action) _RISKY_APPROVE_ACTIONS
  end.
Proof.
  unfold record_decision, _validate_decision_actor.
  assert (risky_action_of_review d.(hd_action) = true <-> In d.(hd_action) _RISKY_APPROVE_ACTIONS) as Hr.
  { unfold risky_action_of_review. rewrite bool_decide_eq_true. apply list_elem_of_In. }
  destruct (risky_action_of_review (hd_action d)).
  - destruct (ai_actor (hd_actor d)); cbn [andb]; [split_and!; try done; by apply Hr|].
    destruct (PyStr.is_empty (PyStr.strip (hd_evidence_id d))) eqn:E1; [split_and!; try done; by apply Hr|].
    destruct (PyStr.is_empty (PyStr.strip (hd_policy_decision_id d))) eqn:E2;
      [split_and!; try done; by apply Hr|].
    apply PyStr.is_empty_false in E1, E2. split; [done|]. eexists. split_and!; [reflexivity..|].
    by repeat constructor.
  - rewrite andb_false_r. split; [intros Hin; by apply Hr in Hin|]. eexists.
    split_and!; [reflexivity..|]. by repeat constructor.
Qed.

(** ** The queue *)

Section QueueTheorems.
Context {H : PyHost}.

Lemma review_queue_spec seen records :
  exists rows, review_queue seen records = map queue_entry rows /\ sublist rows records /\
    Forall (fun r => PyStr.mem (row_classification r) REVIEW_CLASSES = true /\
                     ~ In (row_incident_key r) seen) rows /\
    List.NoDup (map row_incident_key rows) /\
    forall r, In r records -> PyStr.mem (row_classification r) REVIEW_CLASSES = true ->
      In (row_incident_key r) seen \/ In (row_incident_key r) (map row_incident_key rows).
Proof.
  revert seen. induction records as [|row records IH]; intros seen; cbn [review_queue].
  - exists []. split_and!; [done|constructor|constructor|constructor|by intros r []].
  - destruct (PyStr.mem (row_classification row) REVIEW_CLASSES) eqn:Ec; cbn [negb].
    2: { destruct (IH seen) as (rows & E & Hs & Hf & Hn & Hc). exists rows.
         split_and!; [done|by constructor|done|done|].
         intros r [->|Hr] Hm; [congruence|by apply Hc]. }
    destruct (PyStr.mem (row_incident_key row) seen) eqn:Es.
    + destruct (IH seen) as (rows & E & Hs & Hf & Hn & Hc). exists rows.
      split_and!; [done|by constructor|done|done|].
      intros r [->|Hr] Hm; [left; by apply PyStr.mem_In|by apply Hc].
    + destruct (IH (row_incident_key row :: seen)) as (rows & E & Hs & Hf & Hn & Hc).
      exists (row :: rows). cbn [map]. rewrite E.
      assert (~ In (row_incident_key row) seen) as Hns by (rewrite <- PyStr.mem_In; congruence).
      rewrite Forall_forall in Hf. split_and!; [done|by constructor| | |].
      * constructor; [done|]. apply Forall_forall. intros r Hr. destruct (Hf r Hr) as [? Hk].
        split; [done|]. cbn in Hk. tauto.
      * constructor; [|done]. rewrite in_map_iff. intros (r & Hk & Hr).
        apply list_elem_of_In in Hr. destruct (Hf r Hr) as [_ Hk']. apply Hk'. by left.
      * intros r [->|Hr] Hm; [by right; left|]. destruct (Hc r Hr Hm) as [[->|Hin]|Hin];
          [by right; left|by left|by right; right].
Qed.

(** The review queue is exact.  Its entries are those of records with a class that
    needs review, in the order of the log, one per incident key; and every record with
    such a class has an entry for its key. *)
Theorem review_queue_exact records :
  exists rows, items_needing_review records = map queue_entry rows /\ sublist rows records /\
    Forall (fun r => In (row_classification r) REVIEW_CLASSES) rows /\
    List.NoDup (map row_incident_key rows) /\
    forall r, In r records -> In (row_classification r) REVIEW_CLASSES ->
      In (row_incident_key r) (map row_incident_key rows).
Proof.
  destruct (review_queue_spec [] records) as (rows & E & Hs & Hf & Hn & Hc). exists rows.
  split_and!; [done|done| |done|].
  - eapply Forall_impl; [exact Hf|]. intros r [Hm _]. by apply PyStr.mem_In.
  - intros r Hr Hm. apply PyStr.mem_In in Hm. by destruct (Hc r Hr Hm).
Qed.

(** Records without an incident, case or timestamp share the empty key: only the first of
    them is queued. *)
Example anonymous_records_collapse :
  length (items_needing_review [["classification" :-> PStr "unknown_local_proxy"];
                                ["classification" :-> PStr "possible_mitm_risk"]]) = 1%nat.
Proof. reflexivity. Qed.
End QueueTheorems.

(** ** Language *)

(** Only the first mention of a phrase is checked for a negation. *)
Example later_mention_passes :
  narrative_passes_governance_language
    "The first log does not prove malware. The new logs prove malware." "observation" None = true /\
  narrative_passes_governance_language "The new logs prove malware." "observation" None = false.
Proof. vm_compute. split; reflexivity. Qed.

Lemma forallb_negb_existsb {A} (f g : A -> bool) l :
  existsb (fun x => f x && negb (g x)) l = false <-> forall x, In x l -> f x = true -> g x = true.
Proof.
  induction l as [|x l IH]; cbn; [split; [by intros _ x []|done]|]. rewrite orb_false_iff, IH. split.
  - intros [Hx Hl] y [->|Hy] Hf; [|by apply Hl]. rewrite Hf in Hx. cbn in Hx.
    by apply negb_false_iff in Hx.
  - intros Hall. split; [|intros y Hy; apply Hall; by right].
    destruct (f x) eqn:Ef; [|done]. cbn. apply negb_false_iff, Hall; [by left|done].
Qed.

(** What a passing narrative contains.  Below the causal tiers, a text passes
    exactly when every prohibited phrase it contains is negated at its first mention and,
    for the two accusatory labels, none of their banned phrases occurs at all. *)
Theorem narrative_passes_iff text strength cls :
  causal_language_allowed strength = false ->
  let lower := PyStr.lower text in
  let clean l := forall p, In p l -> PyStr.contains p lower = false in
  narrative_passes_governance_language text strength cls = true <->
  (forall p, In p _PROHIBITED_CAUSAL_PHRASES -> PyStr.contains p lower = true ->
     _negated lower p = true) /\
  (cls = Some "SUSPICIOUS_PROXY" -> clean ["prove malware"; "proved malware"; "malware confirmed"]) /\
  (cls = Some "POSSIBLE_MITM_RISK" ->
     clean ["confirmed mitm"; "confirms mitm"; "prove mitm"; "proven mitm"]).
Proof.
  intros Hs. cbn zeta. unfold narrative_passes_governance_language. rewrite Hs. cbn [negb andb].
  rewrite <- (forallb_negb_existsb (fun p => PyStr.contains p (PyStr.lower text))
                (_negated (PyStr.lower text))).
  assert (forall l, existsb (fun p => PyStr.contains p (PyStr.lower text)) l = false <->
                    forall p, In p l -> PyStr.contains p (PyStr.lower text) = false) as Hex.
  { intros l. rewrite <- not_true_iff_false, existsb_exists. split.
    - intros Hn p Hp. apply not_true_iff_false. intros Hc. apply Hn. by exists p.
    - intros Hall (p & Hp & Hc). rewrite (Hall p Hp) in Hc. done. }
  rewrite <- !Hex. destruct (existsb _ _PROHIBITED_CAUSAL_PHRASES); [intuition congruence|].
  destruct (decide (cls = Some "SUSPICIOUS_PROXY")) as [E1|E1].
  - rewrite bool_decide_true by done. cbn [andb]. subst cls.
    destruct (existsb _ ["prove malware"; _; _]); [split; [done|intros (_ & Hc & _); by specialize (Hc eq_refl)]|].
    split; [done|]. intros _. reflexivity.
  - rewrite bool_decide_false by done. cbn [andb].
    destruct (decide (cls = Some "POSSIBLE_MITM_RISK")) as [E2|E2].
    + rewrite bool_decide_true by done. cbn [andb].
      destruct (existsb _ ["confirmed mitm"; _; _; _]); [split; [done|intros (_ & _ & Hc); by specialize (Hc E2)]|].
      split; [done|]. by intros _.
    + rewrite bool_decide_false by done. cbn [andb]. split; [done|]. by intros _.
Qed.

(** ** Witnesses *)

Module HumanReviewWitness.
Lemma narrative_passes_iff_witness :
  narrative_passes_governance_language "This does NOT prove malware." "observation" (Some "NO_PROXY") = true.
Proof.
  apply (narrative_passes_iff "This does NOT prove malware." "observation" (Some "NO_PROXY"));
    [reflexivity|].
  split; [|split; discriminate].
  apply (forallb_negb_existsb (fun p => PyStr.contains p (PyStr.lower "This does NOT prove malware."))
           (_negated (PyStr.lower "This does NOT prove malware."))).
  vm_compute. reflexivity.
Defined.

(** A leading space hides an AI actor from the prefix test. *)
Example padded_actor_approves :
  ai_actor "claude" = true /\ ai_actor " claude" = false /\
  is_ok (record_decision "t"
    {| hd_review_id := "r"; hd_action := APPROVE_REMEDIATION_PREVIEW; hd_reason := "ok";
       hd_actor := " claude"; hd_timestamp := ""; hd_evidence_id := "e"; hd_policy_decision_id := "p";
       hd_override_classification := None |} {| review_log := []; audit_mirror := [] |}).1 = true.
Proof. vm_compute. split_and!; reflexivity. Qed.
End HumanReviewWitness.
