(* ===== verification/ProxyReplay.v ===== *)
(** * Replay of recorded proxy sessions and the watch controls

    [windows_network_toolkit/proxy_replay.py] and
    [windows_network_toolkit/proxy_watch_controls.py].  Recorded rows are turned
    into transitions, coalesced, classified by the state machine and checked
    against six controls.  The rows are the parsed JSON objects; reading the
    file and printing the payload are not modelled.  The clock readings of a
    replay are a record of parameters. *)

From S2P Require Import Prelude PyValue PyTime ProxyParser ProxyState ProxyEvidence ProxyCoalesce.
From Stdlib Require Import Ascii String SpecFloat.
From stdpp Require Import strings.

Open Scope string_scope.
Open Scope Z_scope.
Open Scope py_scope.

(** ** Control results *)

Module ControlStatus.
Inductive controlStatus := PASS | FAIL | PARTIAL | NOT_TESTED.

#[export] Instance controlStatus_eq_dec : EqDecision controlStatus.
Proof. solve_decision. Defined.

Definition control_status_value (s : controlStatus) : string :=
  match s with
  | PASS => "PASS"
  | FAIL => "FAIL"
  | PARTIAL => "PARTIAL"
  | NOT_TESTED => "NOT_TESTED"
  end.
End ControlStatus.

Record ProxyWatchControlResult := {
  control_id : string;
  status : ControlStatus.controlStatus;
  evidence : list string;
  control_limitations : list string;
  recommendation : string;
}.

Definition control_to_dict (r : ProxyWatchControlResult) : pydict :=
  ["control_id" :-> PStr r.(control_id);
   "status" :-> PStr (ControlStatus.control_status_value r.(status));
   "evidence" :-> str_list r.(evidence);
   "limitations" :-> str_list r.(control_limitations);
   "recommendation" :-> PStr r.(recommendation)].

(** A result without limitations. *)
Definition control (cid : string) (st : ControlStatus.controlStatus) (ev : list string)
    (rec : string) : ProxyWatchControlResult :=
  {| control_id := cid; status := st; evidence := ev; control_limitations := [];
     recommendation := rec |}.

(** The clock readings of one replay: for the merged batches, for the
    classified items, for the two runs of the determinism control and for the
    batches of the coalescing control. *)
Record replay_clocks := {
  clk_coalesce : nat -> string;
  clk_classify : nat -> string;
  clk_run1 : string;
  clk_run2 : string;
  clk_control : nat -> string;
}.

Definition REMOTE_LABEL : string :=
  TransitionClass.class_value TransitionClass.REMOTE_OR_NON_LOOPBACK_PROXY_CONFIGURED.

Section WithHost.
Context {H : PyHost} {C : PyZone}.

(** [str(event.get(k) or d)]. *)
Definition text_field (k d : string) (event : pydict) : string :=
  py_str (py_or (Dict.get k event) (PStr d)).

(** [build_proxy_evidence_event] on values that need not be dictionaries: the
    before value is read and normalised before the after value is touched. *)
Definition build_event_of_values (now : string) (before after : pyval) (ts : string)
    (listener : pyval) (meta : pydict) : result pydict :=
  b ← Dict.of_val before;
  _ ← normalize_proxy_state (Some b);
  a ← Dict.of_val after;
  build_proxy_evidence_event now b a (Some ts) listener false None None [] None meta [].

(** ** Per-event controls *)

Definition _ctrl_classification_accuracy (event : pydict) : result ProxyWatchControlResult :=
  let cid := "CTRL_PROXY_CLASSIFICATION_ACCURACY" in
  let transition := text_field "transition_class" "" event in
  after ← Dict.of_val (py_or (py_or (Dict.get "after_state" event) (Dict.get "after" event))
                         (PDict []));
  let after_server := Dict.get "proxy_server" after in
  let server_empty := is_none after_server || PyStr.is_empty (PyStr.strip (py_str after_server)) in
  let evidence := ["transition_class=" +:+ transition] in
  if server_empty && String.eqb transition REMOTE_LABEL then
    Ok {| control_id := cid; status := ControlStatus.FAIL;
          evidence := (evidence ++ ["after ProxyServer empty but classified as remote proxy"])%list;
          control_limitations :=
            ["Removed proxy server must not map to remote proxy classification"];
          recommendation :=
            "Fix state machine — empty after.ProxyServer cannot be REMOTE_OR_NON_LOOPBACK" |}
  else
  let serialized := py_str (PDict event) in
  if server_empty && PyStr.contains "REMOTE_OR_NON_LOOPBACK_PROXY_CONFIGURED" serialized
     && negb (String.eqb transition REMOTE_LABEL)
  then Ok (control cid ControlStatus.PARTIAL
             (evidence ++ ["legacy string contains remote proxy wording"])%list
             "Review human-readable output for stale remote proxy messaging")
  else if PyStr.mem transition
            ["PROXY_SERVER_REMOVED_PARTIAL"; "PROXY_SERVER_REMOVED";
             "PROXY_DISABLED_AND_SERVER_REMOVED"]
  then Ok (control cid ControlStatus.PASS
             (evidence ++ ["Removal transition correctly classified"])%list
             "Continue monitoring removal transitions for false remote proxy alerts")
  else if String.eqb transition REMOTE_LABEL && negb server_empty
  then Ok (control cid ControlStatus.PASS
             (evidence ++ ["Remote proxy classification with non-empty ProxyServer"])%list
             "Validate business justification for remote proxy endpoints")
  else Ok (control cid ControlStatus.PASS evidence "No misclassification detected for this event").

Definition bad_phrases : list string :=
  ["definitely changed"; "changed registry"; "node.exe changed"; "Cursor disabled";
   "Proxy manually disabled"].

Definition _ctrl_attribution_proof_boundary (event : pydict) : result ProxyWatchControlResult :=
  let cid := "CTRL_ATTRIBUTION_PROOF_BOUNDARY" in
  let proof_tier := text_field "proof_tier" "T1" event in
  attribution ← Dict.of_val (py_or (Dict.get "attribution" event) (PDict []));
  let kind := text_field "kind" "none" attribution in
  let evidence := ["proof_tier=" +:+ proof_tier; "attribution.kind=" +:+ kind] in
  let blob := PyStr.lower (py_str (PDict event)) in
  let high := PyStr.mem proof_tier ["T3"; "T4"] in
  match List.find (fun phrase => PyStr.contains (PyStr.lower phrase) blob && negb high)
          bad_phrases with
  | Some phrase =>
      Ok (control cid ControlStatus.FAIL
            (evidence ++ ["Found definitive wording without T3+ proof: " +:+ phrase])%list
            "Use correlation-only language when proof tier < T3")
  | None =>
      if String.eqb kind "correlation" && high
      then Ok (control cid ControlStatus.FAIL evidence
                 "Correlation attribution must not exceed T2 proof tier")
      else if PyStr.mem proof_tier ["T0"; "T1"; "T2"] && PyStr.mem kind ["correlation"; "none"]
      then Ok (control cid ControlStatus.PASS evidence
                 "Attribution bounded correctly — collect Sysmon E13 for writer proof if needed")
      else if high && PyStr.mem kind ["sysmon"; "procmon"; "eventlog"]
      then Ok (control cid ControlStatus.PASS evidence
                 "Writer proof tier aligned with attribution kind")
      else Ok (control cid ControlStatus.PARTIAL evidence
                 "Review attribution proof tier alignment")
  end.

Definition forbidden_actions : list string :=
  ["auto_disable"; "kill_process"; "reset_firewall"; "disable_adapter"; "silent_remediation"].
Definition gate_decisions : list string :=
  ["OBSERVE"; "ALERT"; "REQUIRE_HUMAN_REVIEW"; "BLOCK_AUTOMATION"].

Definition _ctrl_policy_gate (event : pydict) : ProxyWatchControlResult :=
  let cid := "CTRL_POLICY_GATE_NO_AUTONOMOUS_REMEDIATION" in
  let policy := text_field "policy_decision" "" event in
  let action := PyStr.lower (text_field "recommended_action" "" event) in
  let evidence :=
    ["policy_decision=" +:+ policy; "recommended_action=" +:+ Utf8.prefix 120 action] in
  if existsb (fun x => PyStr.contains x action) forbidden_actions
  then control cid ControlStatus.FAIL evidence
         "Remove autonomous remediation language from policy recommendations"
  else if PyStr.mem policy gate_decisions
  then control cid ControlStatus.PASS evidence
         "Policy gate remains observe/alert/human-review only"
  else control cid ControlStatus.FAIL evidence
         "Set policy_decision to OBSERVE|ALERT|REQUIRE_HUMAN_REVIEW|BLOCK_AUTOMATION".

Definition replay_keys : list string :=
  ["transition_class"; "risk"; "proof_tier"; "policy_decision"; "recommended_action"].

(** [run1.get(k) != run2.get(k)]; the compared fields of an event are text. *)
Definition field_differs (run1 run2 : pydict) (k : string) : bool :=
  match Dict.get k run1, Dict.get k run2 with
  | PStr a, PStr b => negb (String.eqb a b)
  | PNone, PNone => false
  | _, _ => true
  end.

Definition _ctrl_replay_determinism (clocks : replay_clocks) (replay_input : pydict)
    : result ProxyWatchControlResult :=
  let cid := "CTRL_AUDIT_REPLAY_DETERMINISM" in
  let before := py_or (py_or (Dict.get "before" replay_input) (Dict.get "before_state" replay_input))
                  (PDict []) in
  let after := py_or (py_or (Dict.get "after" replay_input) (Dict.get "after_state" replay_input))
                 (PDict []) in
  let ts := text_field "timestamp_utc" "2026-01-01T00:00:00Z" replay_input in
  run1 ← build_event_of_values clocks.(clk_run1) before after ts PNone [];
  run2 ← build_event_of_values clocks.(clk_run2) before after ts PNone [];
  match List.filter (field_differs run1 run2) replay_keys with
  | (_ :: _) as mismatches =>
      Ok (control cid ControlStatus.FAIL
            ["mismatched_fields=" +:+ py_str (str_list mismatches)]
            "Ensure classification functions are pure and deterministic")
  | [] =>
      if field_differs run1 run2 "event_id"
      then Ok (control cid ControlStatus.FAIL ["event_id not deterministic"]
                 "event_id must be stable for identical input")
      else Ok (control cid ControlStatus.PASS
                 ["transition_class=" +:+ py_str (Dict.get "transition_class" run1)]
                 "Replay output is deterministic for fixed inputs")
  end.

(** ** Controls over the whole list *)

(** The pair of sub-events used when the supplied rows are not raw ones. *)
Definition coalescing_fixture : list pydict :=
  [["timestamp_utc" :-> PStr "2026-01-01T00:00:00Z";
    "before" :-> PDict ["wininet_proxy_enabled" :-> PBool true;
                        "wininet_proxy_server" :-> PStr "127.0.0.1:62285"];
    "after" :-> PDict ["wininet_proxy_enabled" :-> PBool true;
                       "wininet_proxy_server" :-> PStr ""]];
   ["timestamp_utc" :-> PStr "2026-01-01T00:00:00.500Z";
    "before" :-> PDict ["wininet_proxy_enabled" :-> PBool true;
                        "wininet_proxy_server" :-> PStr ""];
    "after" :-> PDict ["wininet_proxy_enabled" :-> PBool false;
                       "wininet_proxy_server" :-> PStr ""]]].

Definition coalescing_input (events : list pydict) : list pydict :=
  match events with
  | first :: _ => if Dict.mem "before" first then events else coalescing_fixture
  | [] => coalescing_fixture
  end.

Definition _ctrl_coalescing (clock : nat -> string) (events : list pydict) (coalesce_ms : Z)
    : result ProxyWatchControlResult :=
  let cid := "CTRL_COALESCING_REDUCES_FALSE_ALERTS" in
  let raw_events := coalescing_input events in
  if Z.of_nat (length raw_events) <? 2 then
    Ok (control cid ControlStatus.NOT_TESTED ["Fewer than two raw events supplied"]
          "Supply paired ProxyServer removal + ProxyEnable disable sub-events")
  else
  merged_list ← coalesce_proxy_events clock raw_events coalesce_ms;
  let evidence :=
    ["raw_events=" +:+ PyStr.of_Z (Z.of_nat (length raw_events));
     "merged_events=" +:+ PyStr.of_Z (Z.of_nat (length merged_list))] in
  match merged_list with
  | [merged] =>
      if negb (py_bool (Dict.get "coalesced" merged)) then
        Ok (control cid ControlStatus.FAIL evidence
              "Expected coalesced=true for multi-sub-event batch")
      else
      let tc := text_field "transition_class" "" merged in
      if String.eqb tc
           (TransitionClass.class_value TransitionClass.PROXY_DISABLED_AND_SERVER_REMOVED)
      then Ok (control cid ControlStatus.PASS
                 (evidence ++ ["transition_class=" +:+ tc;
                               "raw_sub_event_count="
                               +:+ py_str (Dict.get "raw_sub_event_count" merged)])%list
                 "Coalescing correctly merged disable + server removal")
      else if PyStr.contains "REMOTE_OR_NON_LOOPBACK" tc
      then Ok (control cid ControlStatus.FAIL (evidence ++ ["transition_class=" +:+ tc])%list
                 "Coalesced removal/disable must not classify as remote proxy")
      else Ok (control cid ControlStatus.PARTIAL (evidence ++ ["transition_class=" +:+ tc])%list
                 "Verify coalesced transition matches expected PROXY_DISABLED_AND_SERVER_REMOVED")
  | _ => Ok (control cid ControlStatus.FAIL evidence
               "Coalescing should merge rapid sub-events into one transition")
  end.

(** [detect_reverter_loop_pattern] with its default window and cycles. *)
Definition detect_loop (transitions : list pydict) : result (option TransitionClass.t) :=
  detect_reverter_loop_pattern transitions (F64.of_Z 300) 3.

Definition is_loop (detected : option TransitionClass.t) : bool :=
  match detected with
  | Some TransitionClass.REVERTER_SUSPECTED_LOCALHOST_PROXY_LOOP => true
  | _ => false
  end.

Definition _ctrl_reverter_loop (transitions : list pydict) : result ProxyWatchControlResult :=
  let cid := "CTRL_REVERTER_LOOP_PATTERN_DETECTION" in
  detected ← detect_loop transitions;
  let evidence :=
    ["transitions=" +:+ PyStr.of_Z (Z.of_nat (length transitions));
     "detected=" +:+ match detected with
                     | Some c => TransitionClass.class_value c
                     | None => "None"
                     end] in
  if is_loop detected
  then Ok (control cid ControlStatus.PASS evidence
             "Investigate listener path; collect Sysmon E13 for registry writer proof")
  else if 5 <=? Z.of_nat (length transitions)
  then Ok (control cid ControlStatus.FAIL evidence
             "Expected reverter loop detection for repeated enable/disable cycles")
  else Ok (control cid ControlStatus.NOT_TESTED evidence
             "Supply at least 5 alternating enable/disable transitions on same port").

Definition EVENT_CONTROL_IDS : list string :=
  ["CTRL_PROXY_CLASSIFICATION_ACCURACY"; "CTRL_ATTRIBUTION_PROOF_BOUNDARY";
   "CTRL_POLICY_GATE_NO_AUTONOMOUS_REMEDIATION"; "CTRL_AUDIT_REPLAY_DETERMINISM"].

(** The results before [to_dict]. *)
Definition proxy_watch_control_results (clocks : replay_clocks) (events : list pydict)
    (coalesce_ms : Z) : result (list ProxyWatchControlResult) :=
  per_event ←
    match last_opt events with
    | Some ((_ :: _) as primary) =>
        r1 ← _ctrl_classification_accuracy primary;
        r2 ← _ctrl_attribution_proof_boundary primary;
        r4 ← _ctrl_replay_determinism clocks primary;
        Ok [r1; r2; _ctrl_policy_gate primary; r4]
    | _ =>
        Ok (map (fun cid => control cid ControlStatus.NOT_TESTED [] "No events supplied")
              EVENT_CONTROL_IDS)
    end;
  r5 ← _ctrl_coalescing clocks.(clk_control) events coalesce_ms;
  r6 ← _ctrl_reverter_loop events;
  Ok (per_event ++ [r5; r6])%list.

Definition run_proxy_watch_control_tests (clocks : replay_clocks) (events : list pydict)
    (coalesce_ms : Z) : result (list pydict) :=
  results ← proxy_watch_control_results clocks events coalesce_ms;
  Ok (map control_to_dict results).

(** ** Replay *)

Definition event_is (name : string) (row : pydict) : bool :=
  match Dict.get "event" row with PStr s => String.eqb s name | _ => false end.

Definition transition_row (row : pydict) : option pydict :=
  if event_is "proxy_change" row then
    Some ["timestamp_utc" :-> Dict.get "timestamp_utc" row;
          "before" :-> py_or (Dict.get "old_state" row) (Dict.get "before" row);
          "after" :-> py_or (Dict.get "new_state" row) (Dict.get "after" row);
          "owner" :-> Dict.get "owner" row;
          "listener" :-> Dict.get "owner" row]
  else if Dict.mem "before_state" row && Dict.mem "after_state" row then Some row
  else if Dict.mem "before" row && Dict.mem "after" row then Some row
  else if Dict.mem "ProxyEnable" row || Dict.mem "wininet_proxy_enabled" row then Some row
  else None.

Definition _extract_transition_rows (rows : list pydict) : list pydict :=
  omap transition_row rows.

Definition transitions_of (rows : list pydict) : list pydict :=
  match _extract_transition_rows rows with
  | [] => rows
  | ts => ts
  end.

(** [for s in v]: the dictionaries of a list; [s.get] raises on anything else. *)
Definition iter_dicts (v : pyval) : result (list pydict) :=
  match v with
  | PList l => mapM_result Dict.of_val l
  | PStr _ | PDict _ => Raise AttributeError
  | _ => Raise TypeError
  end.

(** An item that was classified before the replay, or by the coalescer. *)
Definition already_classified (item : pydict) : bool :=
  Dict.mem "transition_class" item && Dict.mem "before_state" item.

(** The states an item is classified from, and its raw sub-events. *)
Definition item_states (item : pydict) : result (pyval * pyval * list pyval) :=
  if py_bool (Dict.get "coalesced" item) then
    '(b, a, raw) ← merge_coalesced_states [item];
    let subs := Dict.get "raw_sub_events" item in
    if py_bool subs then
      ss ← iter_dicts subs;
      '(b, a, raw) ← merge_coalesced_states
        (map (fun s => Dict.update ["before" :-> Dict.get "before" s;
                                    "after" :-> Dict.get "after" s] s) ss);
      Ok (PDict b, PDict a, raw)
    else Ok (PDict b, PDict a, raw)
  else
    Ok (py_or (py_or (Dict.get "before" item) (Dict.get "before_state" item)) (PDict []),
        py_or (py_or (Dict.get "after" item) (Dict.get "after_state" item)) (PDict []), []).

Definition classify_item (now : string) (coalesce_ms : Z) (item : pydict) : result pydict :=
  if already_classified item then Ok item else
  '(before, after, raw_sub) ← item_states item;
  evidence ← build_event_of_values now before after (text_field "timestamp_utc" "" item)
    (py_or (Dict.get "owner" item) (Dict.get "listener" item))
    ["coalesced" :-> PBool (py_bool (Dict.get "coalesced" item));
     "coalesce_window_ms" :-> Dict.get_default "coalesce_window_ms" (PInt coalesce_ms) item;
     "raw_sub_event_count" :-> Dict.get_default "raw_sub_event_count" (PInt 1) item];
  let subs := py_or (Dict.get "raw_sub_events" item) (PList raw_sub) in
  Ok (if py_bool subs then Dict.set "raw_sub_events" subs evidence else evidence).

Fixpoint classify_items (clock : nat -> string) (coalesce_ms : Z) (i : nat)
    (items : list pydict) : result (list pydict) :=
  match items with
  | [] => Ok []
  | item :: rest =>
      ev ← classify_item (clock i) coalesce_ms item;
      evs ← classify_items clock coalesce_ms (S i) rest;
      Ok (ev :: evs)
  end.

Definition LOOP_ACTION : string :=
  "require human review — pattern suggests a proxy reverter or auto-reapply loop; "
  ++ "this is correlation, not proof of registry write".

Definition relabel_loop (last : pydict) : pydict :=
  Dict.update last
    ["transition_class" :->
       PStr (TransitionClass.class_value TransitionClass.REVERTER_SUSPECTED_LOCALHOST_PROXY_LOOP);
     "recommended_action" :-> PStr LOOP_ACTION;
     "limitations" :-> str_list
       ["Pattern suggests a proxy reverter or auto-reapply loop";
        "This is correlation, not proof of registry write";
        "Collect Sysmon Event ID 13 or Procmon trace for registry writer proof"];
     "risk" :-> PStr "HIGH";
     "policy_decision" :-> PStr "REQUIRE_HUMAN_REVIEW"].

(** [classified[-1] = f(classified[-1])]. *)
Fixpoint map_last {A} (f : A -> A) (l : list A) : list A :=
  match l with
  | [] => []
  | [x] => [f x]
  | x :: rest => x :: map_last f rest
  end.

Record replay_payload := {
  summary : pydict;
  events : list pydict;
  controls : list pydict;
}.

(** The classified events of a replay and the loop verdict. *)
Definition replay_events (clocks : replay_clocks) (rows : list pydict) (coalesce_ms : Z)
    : result (list pydict * option TransitionClass.t) :=
  coalesced ← coalesce_proxy_events clocks.(clk_coalesce) (transitions_of rows) coalesce_ms;
  classified ← classify_items clocks.(clk_classify) coalesce_ms 0 coalesced;
  loop ← detect_loop classified;
  Ok (if is_loop loop then map_last relabel_loop classified else classified, loop).

Definition replay_proxy_events (clocks : replay_clocks) (rows : list pydict) (coalesce_ms : Z)
    : result replay_payload :=
  '(classified, loop) ← replay_events clocks rows coalesce_ms;
  controls ← run_proxy_watch_control_tests clocks classified coalesce_ms;
  Ok {| summary :=
          ["input_event_count" :-> PInt (Z.of_nat (length rows));
           "transition_count" :-> PInt (Z.of_nat (length (transitions_of rows)));
           "coalesced_event_count" :-> PInt (Z.of_nat (length classified));
           "coalesce_window_ms" :-> PInt coalesce_ms;
           "reverter_loop_detected" :-> PBool (is_loop loop)];
        events := classified;
        controls := controls |}.
End WithHost.

(** ** What the state machine guarantees of its events *)

Section Properties.
Context {H : PyHost} {C : PyZone}.

(** What the controls read of an event the state machine built. *)
Record controllable (ev : pydict) : Prop := {
  c_class : exists label st,
    Dict.lookup "transition_class" ev = Some (PStr label) /\
    Dict.lookup "after_state" ev = Some (PDict (to_dict st)) /\
    (label = REMOTE_LABEL -> _server_empty st.(proxy_server) = false);
  c_policy : exists p, Dict.lookup "policy_decision" ev = Some (PStr p) /\ In p gate_decisions;
  c_action : exists a, Dict.lookup "recommended_action" ev = Some (PStr a) /\
    existsb (fun x => PyStr.contains x (PyStr.lower a)) forbidden_actions = false;
  c_tier : exists tier attr kind,
    Dict.lookup "proof_tier" ev = Some (PStr tier) /\ In tier ["T0"; "T1"; "T2"] /\
    Dict.lookup "attribution" ev = Some (PDict attr) /\
    Dict.lookup "kind" attr = Some (PStr kind) /\ In kind ["correlation"; "none"];
  c_before : exists b st,
    py_or (py_or (Dict.get "before" ev) (Dict.get "before_state" ev)) (PDict []) = PDict b /\
    normalize_proxy_state (Some b) = Ok st;
  c_after : exists a st,
    py_or (py_or (Dict.get "after" ev) (Dict.get "after_state" ev)) (PDict []) = PDict a /\
    normalize_proxy_state (Some a) = Ok st;
  c_stamp : exists ts, Dict.lookup "timestamp_utc" ev = Some (PStr ts);
}.

(** Re-reading an emitted state never raises. *)
Lemma normalize_to_dict_ok st : exists st', normalize_proxy_state (Some (to_dict st)) = Ok st'.
Proof.
  destruct st as [en sv pac ad ov ho po mo wh]. unfold normalize_proxy_state, to_dict.
  destruct ad, po, wh; cbn -[parse_proxy_server derive_mode server_of text_of];
    destruct (localhost_port _); cbn -[parse_proxy_server derive_mode server_of text_of]; eauto.
Qed.

(** The fields of an event that [event_view] does not mention. *)
Lemma event_rest now b a ts listener wp wk mm health override meta subs ev before after :
  build_proxy_evidence_event now b a ts listener wp wk mm health override meta subs = Ok ev ->
  coalesce_keys_only meta ->
  normalize_proxy_state (Some b) = Ok before -> normalize_proxy_state (Some a) = Ok after ->
  (exists t, Dict.lookup "recommended_action" ev = Some (PStr (_recommended_action t))) /\
  (exists stamp, Dict.lookup "timestamp_utc" ev = Some (PStr stamp)) /\
  Dict.lookup "before_state" ev = Some (PDict (to_dict before)) /\
  Dict.lookup "after_state" ev = Some (PDict (to_dict after)) /\
  Dict.lookup "before" ev = None /\ Dict.lookup "after" ev = None.
Proof.
  unfold build_proxy_evidence_event. cbn zeta. intros E Hm Hb Ha.
  rewrite Hb, bind_ok_l, Ha, bind_ok_l in E.
  apply bind_Ok in E as (t & _ & E). do 3 apply bind_Ok in E as (? & _ & E).
  injection E as <-.
  split_and!; try (eexists); rewrite lookup_event_extras;
    first [reflexivity|assumption|cbn; intuition discriminate].
Qed.

(** No recommended action names an autonomous repair. *)
Lemma recommended_action_allowed t :
  existsb (fun x => PyStr.contains x (PyStr.lower (_recommended_action t))) forbidden_actions
  = false.
Proof. by destruct t. Qed.

Lemma policy_decision_gated risk : In (_policy_decision_for_risk risk) gate_decisions.
Proof. unfold _policy_decision_for_risk. repeat split_goal; cbn; tauto. Qed.

Lemma tier_without_writer t l :
  In (_proof_tier_for_transition t false l) ["T0"; "T1"; "T2"].
Proof. unfold _proof_tier_for_transition. repeat split_goal; cbn; tauto. Qed.

Lemma attribution_kind listener wk attr :
  build_attribution listener false wk = Ok attr ->
  exists kind, Dict.lookup "kind" attr = Some (PStr kind) /\ In kind ["correlation"; "none"].
Proof.
  unfold build_attribution. intros E. apply bind_Ok in E as (p & _ & E).
  destruct wk; destruct (proc_truthy p); injection E as <-; eexists; (split; [reflexivity|]);
    cbn; tauto.
Qed.

Lemma remote_label_class t :
  TransitionClass.class_value t = REMOTE_LABEL -> is_remote_class t = true.
Proof. by destruct t. Qed.

Lemma get_of_lookup k d v : Dict.lookup k d = Some v -> Dict.get k d = v.
Proof. unfold Dict.get. by intros ->. Qed.

(** An event the state machine built without writer proof satisfies the record. *)
Lemma built_controllable now b a ts listener wk mm health meta subs ev :
  build_proxy_evidence_event now b a ts listener false wk mm health None meta subs = Ok ev ->
  coalesce_keys_only meta -> controllable ev.
Proof.
  intros E Hm. pose proof E as E'.
  apply event_inv in E' as (before & after & t & proc & attr & cls & V); [|done].
  destruct V as [Hb Ha Ht _ Hattr _ Hc (tr & un & _ & Hp) Htier (attr' & Hat & Hk & _) _ _].
  destruct (event_rest _ _ _ _ _ _ _ _ _ _ _ _ _ _ _ E Hm Hb Ha)
    as ((t' & Hact) & (stamp & Hts) & Hbs & Has & Hnb & Hna).
  destruct (attribution_kind _ _ _ Hattr) as (kind & Hkind & Hin).
  constructor.
  - exists (TransitionClass.class_value t), after. split_and!; [done..|].
    intros Hr%remote_label_class. subst t. by apply classify_states_remote in Hr as [_ ?].
  - eexists. split; [exact Hp|apply policy_decision_gated].
  - eexists. split; [exact Hact|apply recommended_action_allowed].
  - eexists _, attr', kind. split_and!; [exact Htier|apply tier_without_writer|done| |done].
    by rewrite Hk.
  - destruct (normalize_to_dict_ok before) as [st' Hst']. exists (to_dict before), st'.
    split; [|done]. rewrite (get_of_lookup _ _ _ Hbs). unfold Dict.get. by rewrite Hnb.
  - destruct (normalize_to_dict_ok after) as [st' Hst']. exists (to_dict after), st'.
    split; [|done]. rewrite (get_of_lookup _ _ _ Has). unfold Dict.get. by rewrite Hna.
  - by exists stamp.
Qed.

(** Fields outside the ones the controls read may be added. *)
Definition CONTROL_KEYS : list string :=
  ["transition_class"; "after_state"; "policy_decision"; "recommended_action"; "proof_tier";
   "attribution"; "before"; "before_state"; "after"; "timestamp_utc"].

Lemma controllable_set k v ev :
  ~ In k CONTROL_KEYS -> controllable ev -> controllable (Dict.set k v ev).
Proof.
  intros Hk [? ? ? ? ? ? ?].
  assert (forall k', In k' CONTROL_KEYS -> Dict.lookup k' (Dict.set k v ev) = Dict.lookup k' ev)
    as Hl by (intros k' Hin; apply Dict.lookup_set_ne; intros ->; done).
  constructor; unfold Dict.get in *; repeat rewrite Hl by (cbn; tauto); assumption.
Qed.

(** The raw states beside a built event are read first, the emitted ones when
    they are empty. *)
Lemma states_or b v : exists d, py_or (PDict b) (PDict v) = PDict d /\ (d = b \/ d = v).
Proof. unfold py_or. destruct (py_bool (PDict b)); eauto. Qed.

Lemma py_or_dict_nil d : py_or (PDict d) (PDict []) = PDict d.
Proof. by destruct d. Qed.

Lemma merged_controllable now b a ts listener meta subs ev :
  build_proxy_evidence_event now b a ts listener false None None [] None meta subs = Ok ev ->
  coalesce_keys_only meta ->
  controllable (Dict.set "after" (PDict a) (Dict.set "before" (PDict b) ev)).
Proof.
  intros E Hm. destruct (built_controllable _ _ _ _ _ _ _ _ _ _ _ E Hm) as [? ? ? ? _ _ ?].
  apply event_inv in E as E'; [|done]. destruct E' as (before & after & ? & ? & ? & ? & [Hb Ha]).
  destruct (event_rest _ _ _ _ _ _ _ _ _ _ _ _ _ _ _ E Hm Hb Ha) as (_ & _ & Hbs & Has & _ & _).
  assert (forall k, ~ In k ["before"; "after"] -> Dict.lookup k
    (Dict.set "after" (PDict a) (Dict.set "before" (PDict b) ev)) = Dict.lookup k ev) as Hl.
  { intros k Hk. rewrite !Dict.lookup_set_ne; [done|intros ->; apply Hk; cbn; tauto..]. }
  constructor; try (unfold Dict.get in *; repeat rewrite Hl by (cbn; intuition discriminate);
    assumption).
  - rewrite (get_of_lookup "before" _ (PDict b));
      [|by rewrite Dict.lookup_set_ne, Dict.lookup_set_eq].
    rewrite (get_of_lookup "before_state" _ (PDict (to_dict before)));
      [|by rewrite Hl by (cbn; intuition discriminate)].
    destruct (states_or b (to_dict before)) as (d & -> & [-> | ->]); rewrite py_or_dict_nil.
    + by exists b, before.
    + destruct (normalize_to_dict_ok before) as [st' ?]. by exists (to_dict before), st'.
  - rewrite (get_of_lookup "after" _ (PDict a)); [|by rewrite Dict.lookup_set_eq].
    rewrite (get_of_lookup "after_state" _ (PDict (to_dict after)));
      [|by rewrite Hl by (cbn; intuition discriminate)].
    destruct (states_or a (to_dict after)) as (d & -> & [-> | ->]); rewrite py_or_dict_nil.
    + by exists a, after.
    + destruct (normalize_to_dict_ok after) as [st' ?]. by exists (to_dict after), st'.
Qed.

Lemma relabel_controllable ev : controllable ev -> controllable (relabel_loop ev).
Proof.
  intros [(label & st & _ & Has & _) _ _ (tier & attr & kind & Ht) Hb Ha Hs].
  unfold relabel_loop, Dict.update. cbn [foldl fst snd].
  constructor; unfold Dict.get in *;
    repeat (rewrite Dict.lookup_set_eq || rewrite Dict.lookup_set_ne by done);
    try assumption.
  - eexists _, st. split_and!; [reflexivity|done|discriminate].
  - eexists. split; [reflexivity|]. cbn. tauto.
  - eexists. split; [reflexivity|]. reflexivity.
  - by exists tier, attr, kind.
Qed.

(** ** From rows to events *)

(** An item of the coalesced list: an unclassified row or a merged event. *)
Definition replay_item (item : pydict) : Prop :=
  already_classified item = false \/ controllable item.

Lemma setdefault_mem k k' v d : k <> k' -> Dict.mem k (Dict.setdefault k' v d) = Dict.mem k d.
Proof. intros Hk. unfold Dict.mem. by rewrite Dict.lookup_setdefault_ne. Qed.

Lemma coalesced_meta_keys v1 v2 v3 :
  coalesce_keys_only
    ["coalesced" :-> v1; "coalesce_window_ms" :-> v2; "raw_sub_event_count" :-> v3].
Proof. by intros k. Qed.

Lemma emit_batch_item now ms b ev :
  (forall row, In row b -> already_classified row = false) ->
  b <> [] -> emit_batch now ms b = Ok ev -> replay_item ev.
Proof.
  intros Hrows Hne E. destruct b as [|e0 [|e1 b]]; [done| |].
  - left. cbn in E. injection E as <-. unfold already_classified.
    rewrite !setdefault_mem by done. apply Hrows. by left.
  - right. unfold emit_batch in E. destruct (last_opt _) as [last|] eqn:El.
    + apply bind_Ok in E as ([[bf af] raw] & _ & E). cbn zeta in E.
      apply bind_Ok in E as (merged & Em & E). injection E as <-.
      by apply (merged_controllable _ _ _ _ _ _ _ _ Em), coalesced_meta_keys.
    + by apply last_opt_None in El.
Qed.

Lemma emit_batches_items clock ms i bs out :
  (forall row, In row (concat bs) -> already_classified row = false) ->
  Forall (fun b => b <> []) bs -> emit_batches clock ms i bs = Ok out -> Forall replay_item out.
Proof.
  revert i out. induction bs as [|b bs IH]; intros i out Hr Hne E; cbn in E.
  - injection E as <-. constructor.
  - apply bind_Ok in E as (ev & Eev & E). apply bind_Ok in E as (evs & Eevs & E).
    injection E as <-. apply Forall_cons in Hne as [Hb Hbs]. constructor.
    + eapply emit_batch_item; [|exact Hb|exact Eev].
      intros row Hin. apply Hr. cbn. apply in_or_app. by left.
    + eapply IH; [|exact Hbs|exact Eevs].
      intros row Hin. apply Hr. cbn. apply in_or_app. by right.
Qed.

Lemma coalesce_items clock rows ms out :
  (forall row, In row rows -> already_classified row = false) ->
  coalesce_proxy_events clock rows ms = Ok out -> Forall replay_item out.
Proof.
  intros Hr E. unfold coalesce_proxy_events in E. destruct rows as [|r rows].
  - injection E as <-. constructor.
  - apply bind_Ok in E as (window & _ & E).
    destruct (batches_of_spec window (sort_events (r :: rows))) as (Hc & Hb & _).
    eapply emit_batches_items; [|by apply (batch_ok_ne window)|exact E].
    intros row Hin. rewrite Hc in Hin. apply Hr.
    eapply Permutation.Permutation_in; [|exact Hin]. apply sorted_by_Permutation.
Qed.

Lemma classify_item_controllable now ms item ev :
  replay_item item -> classify_item now ms item = Ok ev -> controllable ev.
Proof.
  unfold classify_item. intros Hi E. destruct (already_classified item) eqn:Ec.
  - injection E as <-. destruct Hi; [congruence|done].
  - apply bind_Ok in E as ([[b a] raw] & _ & E).
    apply bind_Ok in E as (ev0 & E0 & E). cbn zeta in E.
    unfold build_event_of_values in E0.
    do 3 apply bind_Ok in E0 as (? & _ & E0).
    apply built_controllable in E0; [|apply coalesced_meta_keys].
    injection E as <-. destruct (py_bool _); [|done].
    apply controllable_set; [cbn; intuition discriminate|done].
Qed.

Lemma classify_items_controllable clock ms i items evs :
  Forall replay_item items -> classify_items clock ms i items = Ok evs -> Forall controllable evs.
Proof.
  revert i evs. induction items as [|item items IH]; intros i evs Hi E; cbn in E.
  - injection E as <-. constructor.
  - apply bind_Ok in E as (ev & Eev & E). apply bind_Ok in E as (evs' & Eevs & E).
    injection E as <-. apply Forall_cons in Hi as [Hitem Hitems].
    constructor; [by eapply classify_item_controllable|by eapply IH].
Qed.

Lemma map_last_Forall {A} (P : A -> Prop) f l :
  (forall x, P x -> P (f x)) -> Forall P l -> Forall P (map_last f l).
Proof.
  intros Hf. induction l as [|x [|y l] IH]; intros Hl; [done| |].
  - apply Forall_cons in Hl as [? _]. constructor; auto.
  - apply Forall_cons in Hl as [? Hl]. constructor; [done|]. by apply IH.
Qed.

(** ** The controls on such events *)

Lemma text_field_str k d ev s :
  Dict.lookup k ev = Some (PStr s) -> s <> "" -> text_field k d ev = s.
Proof.
  unfold text_field, Dict.get. intros -> Hs. cbn. unfold py_or. cbn.
  by apply PyStr.is_empty_false in Hs as ->.
Qed.

Lemma accuracy_not_fail ev : controllable ev ->
  exists r, _ctrl_classification_accuracy ev = Ok r /\
    control_id r = "CTRL_PROXY_CLASSIFICATION_ACCURACY" /\ status r <> ControlStatus.FAIL.
Proof.
  intros [(label & st & Hc & Ha & Hremote) _ _ _ _ _ _]. unfold _ctrl_classification_accuracy.
  rewrite (get_of_lookup _ _ _ Ha). cbn zeta. cbn [to_dict py_or py_bool Dict.of_val].
  rewrite bind_ok_l.
  assert (is_none (Dict.get "proxy_server" (to_dict st)) || PyStr.is_empty (PyStr.strip (py_str
    (Dict.get "proxy_server" (to_dict st)))) = _server_empty st.(proxy_server)) as ->.
  { unfold to_dict, Dict.get. cbn -[PyStr.strip]. by destruct (proxy_server st). }
  destruct (_server_empty _ && String.eqb _ REMOTE_LABEL) eqn:Ef.
  - exfalso. apply andb_true_iff in Ef as [Ee El]. apply String.eqb_eq in El.
    enough (label = REMOTE_LABEL) as Hl by (apply Hremote in Hl; congruence).
    destruct label as [|c label].
    + revert El. unfold text_field, Dict.get. rewrite Hc. discriminate.
    + by rewrite (text_field_str _ _ _ _ Hc) in El.
  - repeat split_goal; eexists; (split_and!; [reflexivity|reflexivity|discriminate]).
Qed.

(** The wording control looks for a phrase in the printed event. *)
Definition has_bad_phrase (ev : pydict) : bool :=
  existsb (fun phrase => PyStr.contains (PyStr.lower phrase) (PyStr.lower (py_str (PDict ev))))
    bad_phrases.

Lemma attribution_bounded ev : controllable ev ->
  exists r, _ctrl_attribution_proof_boundary ev = Ok r /\
    control_id r = "CTRL_ATTRIBUTION_PROOF_BOUNDARY" /\
    status r = if has_bad_phrase ev then ControlStatus.FAIL else ControlStatus.PASS.
Proof.
  intros [_ _ _ (tier & attr & kind & Ht & Hin & Ha & Hk & Hkin) _ _ _].
  unfold _ctrl_attribution_proof_boundary.
  rewrite (text_field_str _ _ _ _ Ht) by (by intros ->; cbn in Hin; intuition discriminate).
  rewrite (get_of_lookup _ _ _ Ha). cbn zeta.
  assert (py_or (PDict attr) (PDict []) = PDict attr) as -> by apply py_or_dict_nil.
  cbn [Dict.of_val]. rewrite bind_ok_l.
  rewrite (text_field_str _ _ _ _ Hk) by (by intros ->; cbn in Hkin; intuition discriminate).
  assert (PyStr.mem tier ["T3"; "T4"] = false) as Hhigh
    by (cbn in Hin; intuition subst; reflexivity).
  rewrite Hhigh. cbn [negb]. unfold has_bad_phrase.
  assert (forall phrase, PyStr.contains (PyStr.lower phrase) (PyStr.lower (py_str (PDict ev)))
    && true = PyStr.contains (PyStr.lower phrase) (PyStr.lower (py_str (PDict ev)))) as Hb
    by (intros; apply andb_true_r).
  destruct (List.find _ _) as [phrase|] eqn:Ef.
  - apply find_some in Ef as [Hph Hcn]. rewrite Hb in Hcn. eexists. split_and!; [reflexivity..|].
    assert (existsb (fun phrase => PyStr.contains (PyStr.lower phrase)
      (PyStr.lower (py_str (PDict ev)))) bad_phrases = true) as ->; [|done].
    apply existsb_exists. eauto.
  - assert (existsb (fun phrase => PyStr.contains (PyStr.lower phrase)
      (PyStr.lower (py_str (PDict ev)))) bad_phrases = false) as ->.
    { apply not_true_iff_false. intros (x & Hx & Hxc)%existsb_exists.
      pose proof (find_none _ _ Ef x Hx) as Hn. cbn beta in Hn. rewrite Hb in Hn. congruence. }
    rewrite andb_false_r.
    rewrite (proj2 (PyStr.mem_In tier _) Hin), (proj2 (PyStr.mem_In kind _) Hkin).
    eexists. split_and!; reflexivity.
Qed.

Lemma policy_gate_pass ev : controllable ev ->
  control_id (_ctrl_policy_gate ev) = "CTRL_POLICY_GATE_NO_AUTONOMOUS_REMEDIATION" /\
  status (_ctrl_policy_gate ev) = ControlStatus.PASS.
Proof.
  intros [_ (p & Hp & Hpin) (a & Ha & Hforb) _ _ _ _]. unfold _ctrl_policy_gate. cbn zeta.
  assert (text_field "recommended_action" "" ev = a) as ->.
  { destruct a; [|by rewrite (text_field_str _ _ _ _ Ha)].
    unfold text_field, Dict.get. by rewrite Ha. }
  rewrite (text_field_str _ _ _ _ Hp) by (by intros ->; cbn in Hpin; intuition discriminate).
  by rewrite Hforb, (proj2 (PyStr.mem_In p _) Hpin).
Qed.

(** Building an event without a listener from states that normalise succeeds,
    and the clock is not read when a time stamp is given. *)
Lemma build_event_ok now b a ts before after :
  normalize_proxy_state (Some b) = Ok before -> normalize_proxy_state (Some a) = Ok after ->
  exists ev, build_proxy_evidence_event now b a (Some ts) PNone false None None [] None [] []
    = Ok ev /\
    Forall (fun k => exists s, Dict.lookup k ev = Some (PStr s)) ("event_id" :: replay_keys).
Proof.
  intros Hb Ha. unfold build_proxy_evidence_event, classify_transition. cbn zeta.
  rewrite Hb, bind_ok_l, Ha, !bind_ok_l.
  unfold listener_proc, build_attribution, build_explainable_classification, _secondary_signals,
    listener_proc. cbn [py_bool].
  rewrite !bind_ok_l, Hb, bind_ok_l, Ha, !bind_ok_l.
  eexists. split; [reflexivity|]. repeat constructor; eexists; reflexivity.
Qed.

Lemma build_event_clock now now' b a ts listener wp wk mm health override meta subs :
  ts <> "" ->
  build_proxy_evidence_event now b a (Some ts) listener wp wk mm health override meta subs =
  build_proxy_evidence_event now' b a (Some ts) listener wp wk mm health override meta subs.
Proof. intros Hts. unfold build_proxy_evidence_event, truthy_str. by destruct ts. Qed.

Lemma field_differs_refl ev k s : Dict.lookup k ev = Some (PStr s) -> field_differs ev ev k = false.
Proof. intros Hk. unfold field_differs. by rewrite (get_of_lookup _ _ _ Hk), String.eqb_refl. Qed.

Lemma determinism_pass clocks ev : controllable ev ->
  exists r, _ctrl_replay_determinism clocks ev = Ok r /\
    control_id r = "CTRL_AUDIT_REPLAY_DETERMINISM" /\ status r = ControlStatus.PASS.
Proof.
  intros [_ _ _ _ (b & stb & Hb & Hnb) (a & sta & Ha & Hna) (ts & Hts)].
  unfold _ctrl_replay_determinism, build_event_of_values. rewrite Hb, Ha. cbn [Dict.of_val].
  assert (text_field "timestamp_utc" "2026-01-01T00:00:00Z" ev <> "") as Hne.
  { destruct ts; [|by rewrite (text_field_str _ _ _ _ Hts)].
    unfold text_field, Dict.get. by rewrite Hts. }
  set (stamp := text_field "timestamp_utc" _ ev) in *. cbn zeta.
  rewrite !bind_ok_l, !Hnb, !bind_ok_l, (build_event_clock (clk_run2 clocks) (clk_run1 clocks))
    by done.
  destruct (build_event_ok (clk_run1 clocks) b a stamp stb sta Hnb Hna) as (run & -> & Hf).
  rewrite !bind_ok_l. unfold replay_keys in *. rewrite !Forall_cons in Hf.
  destruct Hf as ([? H0] & [? H1] & [? H2] & [? H3] & [? H4] & [? H5] & _).
  cbn [List.filter].
  rewrite (field_differs_refl _ _ _ H0), (field_differs_refl _ _ _ H1),
    (field_differs_refl _ _ _ H2), (field_differs_refl _ _ _ H3), (field_differs_refl _ _ _ H4),
    (field_differs_refl _ _ _ H5).
  eexists. by split_and!.
Qed.

(** ** Replays *)

Lemma extract_unclassified rows :
  (forall row, In row rows -> already_classified row = false) ->
  forall row, In row (transitions_of rows) -> already_classified row = false.
Proof.
  intros Hr row. unfold transitions_of.
  assert (forall t, In t (_extract_transition_rows rows) -> already_classified t = false) as Hx.
  { intros t. unfold _extract_transition_rows. rewrite <- list_elem_of_In, list_elem_of_omap.
    intros (row' & Hin & Ht). apply list_elem_of_In in Hin. unfold transition_row in Ht.
    repeat split_hyp Ht; try discriminate Ht; injection Ht as <-; auto. }
  destruct (_extract_transition_rows rows); auto.
Qed.

Lemma replay_controllable clocks rows ms evs loop :
  replay_events clocks rows ms = Ok (evs, loop) ->
  (forall row, In row rows -> already_classified row = false) -> Forall controllable evs.
Proof.
  unfold replay_events. intros E Hr. apply bind_Ok in E as (co & Eco & E).
  apply bind_Ok in E as (cl & Ecl & E). apply bind_Ok in E as (lp & _ & E). injection E as <- <-.
  apply coalesce_items in Eco; [|by apply extract_unclassified].
  apply classify_items_controllable in Ecl; [|done].
  destruct (is_loop lp); [|done]. apply map_last_Forall; [apply relabel_controllable|done].
Qed.

Lemma controllable_ne ev : controllable ev -> ev <> [].
Proof. by intros [_ _ _ _ _ _ (ts & Hts)] ->. Qed.

(** A replay of unclassified rows that produces events passes its safety
    controls on the last one, whatever the clock said: the classification
    control does not fail, the policy gate and the determinism control pass,
    and the attribution control fails exactly on definitive wording in the
    printed event. *)
Theorem replay_controls_hold clocks rows ms out primary :
  replay_proxy_events clocks rows ms = Ok out ->
  (forall row, In row rows -> already_classified row = false) ->
  last_opt out.(events) = Some primary ->
  exists r1 r2 r3 r4 r5 r6,
    out.(controls) = map control_to_dict [r1; r2; r3; r4; r5; r6] /\
    map control_id [r1; r2; r3; r4] = EVENT_CONTROL_IDS /\
    status r1 <> ControlStatus.FAIL /\
    status r2 = (if has_bad_phrase primary then ControlStatus.FAIL else ControlStatus.PASS) /\
    status r3 = ControlStatus.PASS /\ status r4 = ControlStatus.PASS.
Proof.
  unfold replay_proxy_events. intros E Hr Hl. apply bind_Ok in E as ([evs loop] & Eev & E).
  apply bind_Ok in E as (cs & Ecs & E). injection E as <-. cbn [events controls] in *.
  apply replay_controllable in Eev; [|done].
  assert (controllable primary) as Hp.
  { rewrite Forall_forall in Eev. apply Eev, list_elem_of_In. by apply last_opt_In. }
  unfold run_proxy_watch_control_tests, proxy_watch_control_results in Ecs. rewrite Hl in Ecs.
  apply bind_Ok in Ecs as (rs & Ers & Ecs). injection Ecs as <-.
  apply bind_Ok in Ers as (per & Eper & Ers). apply bind_Ok in Ers as (r5 & _ & Ers).
  apply bind_Ok in Ers as (r6 & _ & Ers). injection Ers as <-.
  pose proof (controllable_ne _ Hp) as Hne. destruct primary as [|kv primary]; [done|].
  destruct (accuracy_not_fail _ Hp) as (r1 & E1 & I1 & S1).
  destruct (attribution_bounded _ Hp) as (r2 & E2 & I2 & S2).
  destruct (determinism_pass clocks _ Hp) as (r4 & E4 & I4 & S4).
  destruct (policy_gate_pass _ Hp) as [I3 S3].
  rewrite E1, bind_ok_l, E2, bind_ok_l, E4, bind_ok_l in Eper. injection Eper as <-.
  exists r1, r2, (_ctrl_policy_gate (kv :: primary)), r4, r5, r6. split; [reflexivity|].
  split_and!; try done. cbn [map]. by rewrite I1, I2, I3, I4.
Qed.

(** ** Controls that do not look at the session *)

(** Rows whose first one has no [before] key leave the coalescing control to its
    built-in pair, and it passes with the default window whatever they hold. *)
Lemma coalescing_fixture_passes clock events :
  coalescing_input events = coalescing_fixture ->
  exists r, _ctrl_coalescing clock events 1000 = Ok r /\
    control_id r = "CTRL_COALESCING_REDUCES_FALSE_ALERTS" /\ status r = ControlStatus.PASS.
Proof.
  intros Hi. unfold _ctrl_coalescing. cbn zeta. rewrite Hi.
  eexists. split; [vm_compute; reflexivity|]. split; reflexivity.
Qed.

(** A replay of no rows does not leave every control untested: the coalescing
    control is reported as passed. *)
Theorem empty_replay_reports_pass clocks :
  exists out r5 r6, replay_proxy_events clocks [] 1000 = Ok out /\ out.(events) = [] /\
    out.(controls) = map control_to_dict
      (map (fun cid => control cid ControlStatus.NOT_TESTED [] "No events supplied")
         EVENT_CONTROL_IDS ++ [r5; r6])%list /\
    control_id r5 = "CTRL_COALESCING_REDUCES_FALSE_ALERTS" /\ status r5 = ControlStatus.PASS /\
    status r6 = ControlStatus.NOT_TESTED.
Proof.
  destruct (coalescing_fixture_passes (clk_control clocks) [] eq_refl) as (r5 & E5 & I5 & S5).
  assert (replay_events clocks [] 1000 = Ok ([], None)) as Er by reflexivity.
  unfold replay_proxy_events, run_proxy_watch_control_tests, proxy_watch_control_results.
  rewrite Er, bind_ok_l. cbn [last_opt]. rewrite bind_ok_l, E5, bind_ok_l.
  do 3 eexists. split_and!; try reflexivity; done.
Qed.

(** ** Raw state rows *)

(** The keys that hold the two sides of a change. *)
Definition SIDE_KEYS : list string :=
  ["before"; "after"; "before_state"; "after_state"; "old_state"; "new_state"].

(** A row that records a state and not a change. *)
Record state_only (row : pydict) : Prop := {
  so_event : event_is "proxy_change" row = false;
  so_state : (Dict.mem "ProxyEnable" row || Dict.mem "wininet_proxy_enabled" row) = true;
  so_sides : forall k, In k SIDE_KEYS -> Dict.lookup k row = None;
  so_coalesced : Dict.lookup "coalesced" row = None;
}.

Definition empty_state : ProxyWininetState :=
  {| proxy_enable := false; proxy_server := None; auto_config_url := None; auto_detect := None;
     proxy_override := None; parsed_host := None; parsed_port := None;
     proxy_mode := ProxyMode.DISABLED; winhttp_direct_access := None |}.

Lemma normalize_nil : normalize_proxy_state (Some []) = Ok empty_state.
Proof. reflexivity. Qed.

(** An event that reports no change of an absent configuration. *)
Record blank (ev : pydict) : Prop := {
  b_class : Dict.lookup "transition_class" ev = Some (PStr "NO_CHANGE");
  b_before : Dict.lookup "before_state" ev = Some (PDict (to_dict empty_state));
  b_after : Dict.lookup "after_state" ev = Some (PDict (to_dict empty_state));
}.

Lemma built_blank now ts listener meta subs ev :
  build_proxy_evidence_event now [] [] ts listener false None None [] None meta subs = Ok ev ->
  coalesce_keys_only meta -> blank ev.
Proof.
  intros E Hm. pose proof E as E'.
  apply event_inv in E' as (before & after & t & proc & attr & cls & V); [|done].
  destruct V as [Hb Ha Ht _ _ _ Hc _ _ _ _ _].
  rewrite normalize_nil in Hb, Ha. injection Hb as <-. injection Ha as <-.
  destruct (event_rest _ _ _ _ _ _ _ _ _ _ _ _ _ _ _ E Hm normalize_nil normalize_nil)
    as (_ & _ & Hbs & Has & _).
  constructor; [|done..]. by rewrite Hc, Ht.
Qed.

Lemma blank_set k v ev :
  ~ In k ["transition_class"; "before_state"; "after_state"] -> blank ev -> blank (Dict.set k v ev).
Proof.
  intros Hk [? ? ?].
  constructor; (rewrite Dict.lookup_set_ne; [done|]); intros <-; apply Hk; cbn; tauto.
Qed.

(** An unclassified item with neither side, or a blank event. *)
Definition blank_item (item : pydict) : Prop :=
  ((forall k, In k SIDE_KEYS -> Dict.lookup k item = None) /\
   py_bool (Dict.get "coalesced" item) = false) \/ blank item.

Lemma merge_blank batch b a raw :
  Forall state_only batch -> merge_coalesced_states batch = Ok (b, a, raw) -> b = [] /\ a = [].
Proof.
  unfold merge_coalesced_states. intros Hs E. destruct batch as [|first batch]; [by injection E|].
  destruct (last_opt (first :: batch)) as [last|] eqn:El; [|by injection E].
  assert (state_only last) as Hl.
  { rewrite Forall_forall in Hs. apply Hs, list_elem_of_In. by apply last_opt_In. }
  apply Forall_cons in Hs as [Hf _]. cbn zeta in E. unfold Dict.get in E.
  rewrite !(so_sides first Hf), !(so_sides last Hl) in E by (cbn; tauto).
  apply bind_Ok in E as (b' & Eb & E). apply bind_Ok in E as (a' & Ea & E).
  cbn in Eb, Ea. by inv_ok.
Qed.

Lemma emit_batch_blank now ms b ev :
  Forall state_only b -> b <> [] -> emit_batch now ms b = Ok ev -> blank_item ev.
Proof.
  intros Hs Hne E. destruct b as [|e0 [|e1 b]]; [done| |].
  - left. apply Forall_cons in Hs as [Hs _]. cbn in E. injection E as <-. split.
    + intros k Hk. rewrite !Dict.lookup_setdefault_ne
        by (intros ->; cbn in Hk; intuition discriminate). by apply so_sides.
    + unfold Dict.get. rewrite !Dict.lookup_setdefault_ne by done.
      unfold Dict.setdefault, Dict.mem. rewrite (so_coalesced _ Hs).
      by rewrite Dict.lookup_set_eq.
  - right. unfold emit_batch in E. destruct (last_opt _) as [last|] eqn:El.
    + apply bind_Ok in E as ([[bf af] raw] & Em & E). cbn zeta in E.
      apply merge_blank in Em as [-> ->]; [|done].
      apply bind_Ok in E as (merged & Ev & E). injection E as <-.
      do 2 (apply blank_set; [cbn; intuition discriminate|]).
      by apply (built_blank _ _ _ _ _ _ Ev), coalesced_meta_keys.
    + by apply last_opt_None in El.
Qed.

Lemma classify_item_blank now ms item ev :
  blank_item item -> classify_item now ms item = Ok ev -> blank ev.
Proof.
  unfold classify_item. intros [[Hs Hc]|Hb] E.
  - assert (already_classified item = false) as Ha.
    { unfold already_classified, Dict.mem. rewrite (Hs "before_state") by (cbn; tauto).
      apply andb_false_r. }
    assert (item_states item = Ok (PDict [], PDict [], [])) as Ei.
    { unfold item_states. rewrite Hc. unfold Dict.get. rewrite !Hs by (cbn; tauto). done. }
    rewrite Ha, Ei in E.
    rewrite bind_ok_l in E. apply bind_Ok in E as (ev0 & E0 & E). cbn zeta in E.
    unfold build_event_of_values in E0. cbn [Dict.of_val] in E0.
    rewrite bind_ok_l, normalize_nil, !bind_ok_l in E0.
    apply built_blank in E0; [|apply coalesced_meta_keys]. injection E as <-.
    destruct (py_bool (py_or _ _)); [|exact E0]. apply blank_set; [cbn; intuition discriminate|done].
  - assert (already_classified item = true) as Ha.
    { unfold already_classified, Dict.mem. by rewrite (b_class _ Hb), (b_before _ Hb). }
    rewrite Ha in E. by injection E as <-.
Qed.

Lemma Forall_concat_in {A} (P : A -> Prop) (bs : list (list A)) :
  Forall P (concat bs) -> Forall (Forall P) bs.
Proof.
  induction bs as [|b bs IH]; cbn; [constructor|]. intros [? ?]%Forall_app. constructor; auto.
Qed.

Lemma emit_batches_blank clock ms i bs out :
  Forall (Forall state_only) bs -> Forall (fun b => b <> []) bs ->
  emit_batches clock ms i bs = Ok out -> Forall blank_item out.
Proof.
  revert i out. induction bs as [|b bs IH]; intros i out Hs Hne E; cbn in E.
  - injection E as <-. constructor.
  - apply bind_Ok in E as (ev & Eev & E). apply bind_Ok in E as (evs & Eevs & E).
    injection E as <-. apply Forall_cons in Hne as [Hb Hbs]. apply Forall_cons in Hs as [Hsb Hs].
    constructor; [by eapply emit_batch_blank|by eapply IH].
Qed.

Lemma classify_items_blank clock ms i items evs :
  Forall blank_item items -> classify_items clock ms i items = Ok evs -> Forall blank evs.
Proof.
  revert i evs. induction items as [|item items IH]; intros i evs Hi E; cbn in E.
  - injection E as <-. constructor.
  - apply bind_Ok in E as (ev & Eev & E). apply bind_Ok in E as (evs' & Eevs & E).
    injection E as <-. apply Forall_cons in Hi as [Hitem Hitems].
    constructor; [by eapply classify_item_blank|by eapply IH].
Qed.

(** Blank events put no port on the reverter timeline. *)
Lemma blank_timeline tl evs out :
  Forall blank evs -> Forall (fun p : point => p.2 = None) tl ->
  build_timeline tl evs = Ok out -> Forall (fun p : point => p.2 = None) out.
Proof.
  revert tl. induction evs as [|ev evs IH]; intros tl Hb Htl E; cbn in E; [by injection E as <-|].
  apply Forall_cons in Hb as [Hev Hevs]. destruct (event_ts ev) as [ts|]; [|by eapply IH].
  unfold Dict.get in E. rewrite (b_before _ Hev), (b_after _ Hev) in E. cbn [default] in E.
  apply bind_Ok in E as (first & Ef & E).
  assert (Forall (fun p : point => p.2 = None) first) as Hf.
  { destruct tl; [|injection Ef as <-; constructor]. vm_compute in Ef. injection Ef as <-.
    by repeat constructor. }
  apply bind_Ok in E as (a & Ea & E). vm_compute in Ea. injection Ea as <-.
  apply bind_Ok in E as (ast & East & E). vm_compute in East. injection East as <-.
  eapply IH; [exact Hevs| |exact E]. apply Forall_app. split; [done|].
  apply Forall_app. split; [done|]. by repeat constructor.
Qed.

Lemma no_ports w : Forall (fun p : point => p.2 = None) w -> distinct_ports w = [].
Proof.
  intros Hw. unfold distinct_ports. enough (omap snd w = []) as -> by done.
  induction Hw as [|p w Hp _ IH]; [done|]. cbn. by rewrite Hp.
Qed.

Lemma blank_no_loop evs loop : Forall blank evs -> detect_loop evs = Ok loop -> loop = None.
Proof.
  unfold detect_loop, detect_reverter_loop_pattern. intros Hb E.
  destruct (_ <? 3); [by injection E|]. apply bind_Ok in E as (tl & Etl & E).
  apply blank_timeline in Etl; [|done|constructor].
  destruct (_ <? 3 + 1); [by injection E|]. cbn zeta in E.
  destruct (last_opt _) as [newest|]; [|done]. destruct (_ <? 3 + 1); [by injection E|].
  rewrite no_ports in E; [by injection E|].
  rewrite Forall_forall in *. intros p Hp. apply Etl.
  apply list_elem_of_In, filter_In in Hp as [Hp _]. apply list_elem_of_In.
  eapply Permutation.Permutation_in; [|exact Hp]. apply sorted_by_Permutation.
Qed.

Lemma state_rows_kept rows : Forall state_only rows -> transitions_of rows = rows.
Proof.
  intros Hs. unfold transitions_of.
  enough (_extract_transition_rows rows = rows) as -> by (by destruct rows).
  unfold _extract_transition_rows. induction Hs as [|row rows Hr _ IH]; [done|].
  assert (transition_row row = Some row) as E.
  { unfold transition_row. rewrite (so_event _ Hr), (so_state _ Hr). unfold Dict.mem.
    by rewrite !(so_sides _ Hr) by (cbn; tauto). }
  cbn. by rewrite E, IH.
Qed.

(** Rows that record a state are accepted as transitions and then read as a
    change from nothing to nothing: every event of their replay says NO_CHANGE
    between two empty states, and no loop is found, whatever the states were. *)
Theorem state_rows_replay_blank clocks rows ms out :
  replay_proxy_events clocks rows ms = Ok out -> Forall state_only rows ->
  Forall blank out.(events) /\
  Dict.lookup "transition_count" out.(summary) = Some (PInt (Z.of_nat (length rows))) /\
  Dict.lookup "reverter_loop_detected" out.(summary) = Some (PBool false).
Proof.
  unfold replay_proxy_events, replay_events. intros E Hs. rewrite (state_rows_kept _ Hs) in E.
  apply bind_Ok in E as ([evs loop] & Eev & E). apply bind_Ok in E as (cs & _ & E).
  injection E as <-. cbn [events summary].
  apply bind_Ok in Eev as (co & Eco & Eev). apply bind_Ok in Eev as (cl & Ecl & Eev).
  apply bind_Ok in Eev as (lp & Elp & Eev). injection Eev as <- <-.
  assert (Forall blank cl) as Hcl.
  { apply classify_items_blank in Ecl; [done|]. unfold coalesce_proxy_events in Eco.
    destruct rows as [|r rows]; [injection Eco as <-; constructor|].
    apply bind_Ok in Eco as (window & _ & Eco).
    destruct (batches_of_spec window (sort_events (r :: rows))) as (Hc & Hb & _).
    eapply emit_batches_blank; [|by apply (batch_ok_ne window)|exact Eco].
    apply Forall_concat_in. rewrite Hc. unfold sort_events. by rewrite sorted_by_Permutation. }
  rewrite (blank_no_loop _ _ Hcl Elp). by split_and!.
Qed.

(** ** No transition is lost *)

Definition counted (item : pydict) : Prop := Dict.mem "raw_sub_event_count" item = true.

Lemma built_count now b a ts listener wp wk mm health override v1 v2 v3 ev :
  build_proxy_evidence_event now b a ts listener wp wk mm health override
    ["coalesced" :-> v1; "coalesce_window_ms" :-> v2; "raw_sub_event_count" :-> v3] [] = Ok ev ->
  Dict.lookup "raw_sub_event_count" ev = Some v3.
Proof.
  unfold build_proxy_evidence_event. cbn zeta. intros E.
  do 6 apply bind_Ok in E as (? & _ & E). by injection E as <-.
Qed.

Lemma emit_batches_counted clock ms i bs out :
  Forall (fun b => b <> []) bs -> emit_batches clock ms i bs = Ok out -> Forall counted out.
Proof.
  revert i out. induction bs as [|b bs IH]; intros i out Hne E; cbn in E.
  - injection E as <-. constructor.
  - apply bind_Ok in E as (ev & Eev & E). apply bind_Ok in E as (evs & Eevs & E).
    injection E as <-. apply Forall_cons in Hne as [Hb Hbs]. constructor; [|by eapply IH].
    unfold counted, Dict.mem. destruct b as [|e0 [|e1 b]]; [done| |].
    + cbn in Eev. injection Eev as <-. unfold Dict.setdefault at 1.
      destruct (Dict.mem _ _) eqn:Em; [by unfold Dict.mem in Em; destruct (Dict.lookup _ _)|].
      by rewrite Dict.lookup_set_eq.
    + unfold emit_batch in Eev. destruct (last_opt _) as [last|] eqn:El;
        [|by apply last_opt_None in El].
      apply bind_Ok in Eev as ([[bf af] raw] & _ & Eev). cbn zeta in Eev.
      apply bind_Ok in Eev as (merged & Em & Eev). injection Eev as <-.
      rewrite !Dict.lookup_set_ne by done. by rewrite (event_count_field _ _ _ _ _ _ _ _ _ _ _ _ _ _ Em).
Qed.

Lemma classify_item_count now ms item ev :
  counted item -> classify_item now ms item = Ok ev -> sub_event_count ev = sub_event_count item.
Proof.
  unfold classify_item, counted, Dict.mem. intros Hc E.
  destruct (already_classified item); [by injection E as <-|].
  apply bind_Ok in E as ([[b a] raw] & _ & E). apply bind_Ok in E as (ev0 & E0 & E).
  cbn zeta in E. unfold build_event_of_values in E0.
  do 3 apply bind_Ok in E0 as (? & _ & E0). apply built_count in E0.
  unfold Dict.get_default in E0. unfold sub_event_count at 2.
  destruct (Dict.lookup "raw_sub_event_count" item) as [n|]; [|done]. injection E as <-.
  unfold sub_event_count.
  destruct (py_bool (py_or _ _)); [rewrite Dict.lookup_set_ne by done|]; by rewrite E0.
Qed.

Lemma classify_items_count clock ms i items evs :
  Forall counted items -> classify_items clock ms i items = Ok evs ->
  map sub_event_count evs = map sub_event_count items.
Proof.
  revert i evs. induction items as [|item items IH]; intros i evs Hi E; cbn in E.
  - by injection E as <-.
  - apply bind_Ok in E as (ev & Eev & E). apply bind_Ok in E as (evs' & Eevs & E).
    injection E as <-. apply Forall_cons in Hi as [Hitem Hitems]. cbn. f_equal.
    + by eapply classify_item_count.
    + by eapply IH.
Qed.

Lemma map_map_last {A B} (g : A -> B) f l :
  (forall x, g (f x) = g x) -> map g (map_last f l) = map g l.
Proof.
  intros Hg. induction l as [|x [|y l] IH]; [done| |].
  - cbn. by rewrite Hg.
  - change (map_last f (x :: y :: l)) with (x :: map_last f (y :: l)). cbn [map] in *. by rewrite IH.
Qed.

Lemma relabel_count ev : sub_event_count (relabel_loop ev) = sub_event_count ev.
Proof.
  unfold sub_event_count, relabel_loop, Dict.update. cbn [foldl fst snd].
  by rewrite !Dict.lookup_set_ne by done.
Qed.

(** The events of a replay account for every transition: their sub-event counts
    add up to the transition count of the summary, when the recorded
    transitions carry no count of their own. *)
Theorem replay_lossless clocks rows ms out :
  replay_proxy_events clocks rows ms = Ok out ->
  (forall t, In t (transitions_of rows) -> Dict.mem "raw_sub_event_count" t = false) ->
  Dict.lookup "transition_count" out.(summary) =
    Some (PInt (sum_Z (map sub_event_count out.(events)))).
Proof.
  unfold replay_proxy_events, replay_events. intros E Hf.
  apply bind_Ok in E as ([evs loop] & Eev & E). apply bind_Ok in E as (cs & _ & E).
  injection E as <-. cbn [events summary].
  apply bind_Ok in Eev as (co & Eco & Eev). apply bind_Ok in Eev as (cl & Ecl & Eev).
  apply bind_Ok in Eev as (lp & _ & Eev). injection Eev as <- <-.
  assert (map sub_event_count (if is_loop lp then map_last relabel_loop cl else cl) =
    map sub_event_count cl) as ->.
  { destruct (is_loop lp); [|done]. apply map_map_last, relabel_count. }
  assert (Forall counted co) as Hc.
  { unfold coalesce_proxy_events in Eco.
    destruct (transitions_of rows) as [|r ts]; [injection Eco as <-; constructor|].
    apply bind_Ok in Eco as (window & _ & Eco).
    destruct (batches_of_spec window (sort_events (r :: ts))) as (_ & Hb & _).
    eapply emit_batches_counted; [by apply (batch_ok_ne window)|exact Eco]. }
  rewrite (classify_items_count _ _ _ _ _ Hc Ecl), (coalesce_counts _ _ _ _ Eco Hf). done.
Qed.
End Properties.

(** ** Concrete instances *)
Module ProxyReplayWitness.
#[local] Instance host : PyHost := DemoHost.demo_host.
#[local] Instance zone : PyZone := ProxyCoalesceWitness.zone.

Definition reading (i : nat) : string := "2026-01-01T00:00:09Z".
Definition clocks : replay_clocks :=
  {| clk_coalesce := reading; clk_classify := reading; clk_run1 := "2026-01-01T00:00:09Z";
     clk_run2 := "2026-01-01T00:00:10Z"; clk_control := reading |}.

Definition recorded (ts : string) (before after : pydict) : pydict :=
  ["event" :-> PStr "proxy_change"; "timestamp_utc" :-> PStr ts;
   "old_state" :-> PDict before; "new_state" :-> PDict after].
Definition local_on : pydict :=
  ["ProxyEnable" :-> PInt 1; "ProxyServer" :-> PStr "127.0.0.1:8080"].
Definition cleared : pydict := ["ProxyEnable" :-> PInt 1; "ProxyServer" :-> PStr ""].
Definition off : pydict := ["ProxyEnable" :-> PInt 0; "ProxyServer" :-> PStr ""].
Definition session : list pydict :=
  [recorded "2026-01-01T00:00:00Z" local_on cleared;
   recorded "2026-01-01T00:00:00.500Z" cleared off;
   recorded "2026-01-01T00:10:00Z" off local_on].

Definition no_payload : replay_payload := {| summary := []; events := []; controls := [] |}.
Definition payload_of (rows : list pydict) : replay_payload :=
  match replay_proxy_events clocks rows 1000 with Ok out => out | Raise _ => no_payload end.
Definition last_event (rows : list pydict) : pydict :=
  default [] (last_opt (payload_of rows).(events)).

Lemma replay_controls_hold_witness :
  exists r1 r2 r3 r4 r5 r6,
    (payload_of session).(controls) = map control_to_dict [r1; r2; r3; r4; r5; r6] /\
    map control_id [r1; r2; r3; r4] = EVENT_CONTROL_IDS /\
    status r1 <> ControlStatus.FAIL /\
    status r2 = (if has_bad_phrase (last_event session)
                 then ControlStatus.FAIL else ControlStatus.PASS) /\
    status r3 = ControlStatus.PASS /\ status r4 = ControlStatus.PASS.
Proof.
  apply (replay_controls_hold clocks session 1000); [vm_compute; reflexivity| |].
  - intros row Hr. cbn in Hr. by repeat destruct Hr as [<-|Hr].
  - vm_compute. reflexivity.
Defined.

Definition snapshots : list pydict :=
  [["timestamp_utc" :-> PStr "2026-01-01T00:00:00Z"; "ProxyEnable" :-> PInt 0];
   ["timestamp_utc" :-> PStr "2026-01-01T00:10:00Z"; "ProxyEnable" :-> PInt 1;
    "ProxyServer" :-> PStr "203.0.113.7:8080"]].

Lemma snapshots_state_only : Forall state_only snapshots.
Proof.
  repeat constructor; intros k Hk; cbn in Hk; by repeat destruct Hk as [<-|Hk].
Qed.

Lemma state_rows_replay_blank_witness :
  Forall blank (payload_of snapshots).(events) /\
  Dict.lookup "transition_count" (payload_of snapshots).(summary) = Some (PInt 2) /\
  Dict.lookup "reverter_loop_detected" (payload_of snapshots).(summary) = Some (PBool false).
Proof.
  apply (state_rows_replay_blank clocks snapshots 1000);
    [vm_compute; reflexivity|exact snapshots_state_only].
Defined.

Lemma replay_lossless_witness :
  Dict.lookup "transition_count" (payload_of session).(summary) =
    Some (PInt (sum_Z (map sub_event_count (payload_of session).(events)))) /\
  sum_Z (map sub_event_count (payload_of session).(events)) = 3.
Proof.
  split; [|vm_compute; reflexivity].
  apply (replay_lossless clocks session 1000); [vm_compute; reflexivity|].
  intros t Ht. cbn in Ht. by repeat destruct Ht as [<-|Ht].
Defined.

(** Five unrelated changes of the PAC address, hours apart. *)
Definition pac (url : string) : pydict :=
  ["ProxyEnable" :-> PInt 0; "ProxyServer" :-> PStr ""; "AutoConfigURL" :-> PStr url].
Definition pac_session : list pydict :=
  [recorded "2026-01-01T00:00:00Z" off (pac "http://a/p.pac");
   recorded "2026-01-01T01:00:00Z" (pac "http://a/p.pac") (pac "http://b/p.pac");
   recorded "2026-01-01T02:00:00Z" (pac "http://b/p.pac") (pac "http://c/p.pac");
   recorded "2026-01-01T03:00:00Z" (pac "http://c/p.pac") (pac "http://d/p.pac");
   recorded "2026-01-01T04:00:00Z" (pac "http://d/p.pac") off].
End ProxyReplayWitness.

(** A session of five changes that contains no localhost proxy at all fails the
    reverter control, which reports a missed detection for any five events in
    which no loop is found. *)
Theorem quiet_session_fails_reverter_control :
  exists out r, @replay_proxy_events ProxyReplayWitness.host ProxyReplayWitness.zone
      ProxyReplayWitness.clocks ProxyReplayWitness.pac_session 1000 = Ok out /\
    length out.(events) = 5%nat /\
    Dict.lookup "reverter_loop_detected" out.(summary) = Some (PBool false) /\
    last_opt out.(controls) = Some (control_to_dict r) /\
    control_id r = "CTRL_REVERTER_LOOP_PATTERN_DETECTION" /\ status r = ControlStatus.FAIL.
Proof.
  eexists _, (control "CTRL_REVERTER_LOOP_PATTERN_DETECTION" ControlStatus.FAIL
    ["transitions=5"; "detected=None"]
    "Expected reverter loop detection for repeated enable/disable cycles").
  split; [vm_compute; reflexivity|]. by split_and!.
Qed.
