(* ===== verification/EventStore.v ===== *)
(** * The normalised event bus and the unified event store

    [platform_core/event_bus.py]: an append-only JSONL file with a schema gate
    and a filtered, bounded reader.  [platform_core/event_store.py]: three
    append-only logs under [logs/] from which a run is assembled again.

    A file is the list of its lines; an absent file is the empty list, which the
    readers treat alike.  A bus line keeps its text beside what [json.loads]
    made of it, since the reader reports the text of a refused line.  Paths,
    directories and [fsync] are not modelled; the clock readings are arguments. *)

From S2P Require Import Prelude PyValue AuditChain Incidents.
From Stdlib Require Import Ascii String.
From stdpp Require Import strings.

Open Scope string_scope.
Open Scope Z_scope.
Open Scope py_scope.

(** ** The bus *)

Definition SUPPORTED_SCHEMA_VERSIONS : list string := ["1"; "2026.01"].

(** What [json.loads] makes of a stripped line. *)
Inductive json_read :=
| JValue (v : pyval)
| JError (detail : string).

Record bus_line := {
  bl_text : string;     (** the stripped line *)
  bl_read : json_read;
}.

Section Bus.
Context {H : PyHost}.

Definition validate_schema_version (raw : pydict) : bool * string :=
  match Dict.get "schema_version" raw with
  | PNone => (false, "missing_schema_version")
  | sv =>
      if PyStr.mem (py_str sv) SUPPORTED_SCHEMA_VERSIONS then (true, "")
      else (false, "unsupported_schema_version:" ++ py_str sv)
  end.

(** The line of a dictionary; [text] is what [json.dumps] printed. *)
Definition row_line (text : string) (row : pydict) : bus_line :=
  {| bl_text := text; bl_read := JValue (PDict row) |}.

(** [append_event] of a dictionary. *)
Definition bus_append_event (text : string) (event : pydict) (file : list bus_line)
    : result unit * list bus_line :=
  let '(ok, err) := validate_schema_version event in
  if ok then (Ok tt, (file ++ [row_line text event])%list)
  else (Raise ValueError, file).

Definition sev_rank (s : string) : Z :=
  if String.eqb s "low" then 1
  else if String.eqb s "medium" then 2
  else if String.eqb s "high" then 3
  else if String.eqb s "critical" then 4
  else 0.

(** The optional arguments of [read_events]; empty text counts as absent. *)
Record read_filter := {
  rf_event_type : option string;
  rf_min_severity : option string;
  rf_endpoint_id_hash : option string;
  rf_schema_version : option string;
}.

Definition given (o : option string) : option string :=
  match o with
  | Some s => if PyStr.is_empty s then None else Some s
  | None => None
  end.

(** [value == s] for a value read from JSON. *)
Definition equals_text (v : pyval) (s : string) : bool :=
  match v with PStr t => String.eqb t s | _ => false end.

Definition passes_filter (f : read_filter) (obj : pydict) : bool :=
  match given f.(rf_event_type) with
  | Some t => equals_text (Dict.get "event_type" obj) t
  | None => true
  end &&
  match given f.(rf_schema_version) with
  | Some v => String.eqb (py_str (Dict.get "schema_version" obj)) v
  | None => true
  end &&
  match given f.(rf_endpoint_id_hash) with
  | Some h => equals_text (Dict.get "endpoint_id_hash" obj) h
  | None => true
  end &&
  match given f.(rf_min_severity) with
  | Some m => sev_rank m <=? sev_rank (py_str (py_or (Dict.get "severity" obj) (PStr "info")))
  | None => true
  end.

(** An error row: the line number, the reason and, if it is kept, the text. *)
Definition error_row (line_no : Z) (detail : string) (raw : option string) : pydict :=
  (["line_no" :-> PInt line_no; "detail" :-> PStr detail] ++
   match raw with Some t => ["raw" :-> PStr t] | None => [] end)%list.

(** A line of the file: skipped, an error, or an object with a supported
    schema. *)
Definition parse_bus_line (line_no : Z) (l : bus_line) : option (pydict + pydict) :=
  if PyStr.is_empty l.(bl_text) then None else
  match l.(bl_read) with
  | JError detail => Some (inr (error_row line_no detail (Some (Utf8.prefix 200 l.(bl_text)))))
  | JValue (PDict obj) =>
      let '(ok, err) := validate_schema_version obj in
      if ok then Some (inl obj)
      else Some (inr (error_row line_no err (Some (Utf8.prefix 200 l.(bl_text)))))
  | JValue _ => Some (inr (error_row line_no "not_a_json_object" None))
  end.

(** The loop over the lines: [good] and [errors] are the two lists so far. *)
Fixpoint read_loop (f : read_filter) (limit line_no : Z) (good errors : list pydict)
    (lines : list bus_line) : list pydict * list pydict :=
  match lines with
  | [] => (good, errors)
  | l :: rest =>
      match parse_bus_line line_no l with
      | None => read_loop f limit (line_no + 1) good errors rest
      | Some (inr e) => read_loop f limit (line_no + 1) good (errors ++ [e])%list rest
      | Some (inl obj) =>
          if passes_filter f obj then
            let good := (good ++ [obj])%list in
            if limit <=? Z.of_nat (length good) then (good, errors)
            else read_loop f limit (line_no + 1) good errors rest
          else read_loop f limit (line_no + 1) good errors rest
      end
  end.

Definition read_events (f : read_filter) (limit : Z) (file : list bus_line)
    : list pydict * list pydict :=
  read_loop f limit 1 [] [] file.

(** The objects of a file, schema not looked at, and the lines reported. *)
Definition iter_event_lines (file : list bus_line) : list pydict :=
  omap (fun l =>
    if PyStr.is_empty l.(bl_text) then None
    else match l.(bl_read) with JValue (PDict obj) => Some obj | _ => None end) file.
End Bus.

(** ** The store *)

Record event_store := {
  es_events : list jline;
  es_decisions : list jline;
  es_previews : list jline;
  es_legacy : list jline;     (** [logs/decision_runs.jsonl] *)
}.

Definition STORE_SCHEMA_VERSION : string := "platform_event_store.v1".

Definition append_event (now run_id event_type : string) (payload : pydict)
    (actor evidence_level : string) (st : event_store) : event_store :=
  {| es_events := (st.(es_events) ++ [LJson (PDict
       ["schema_version" :-> PStr STORE_SCHEMA_VERSION;
        "record_type" :-> PStr "platform_event";
        "timestamp" :-> PStr now;
        "run_id" :-> PStr run_id;
        "event_type" :-> PStr event_type;
        "actor" :-> PStr actor;
        "evidence_level" :-> PStr evidence_level;
        "payload" :-> PDict payload])])%list;
     es_decisions := st.(es_decisions); es_previews := st.(es_previews);
     es_legacy := st.(es_legacy) |}.

Definition decision_row (now run_id decision : string) (reason_codes blocked_actions : list pyval)
    (payload : pydict) : pydict :=
  ["schema_version" :-> PStr STORE_SCHEMA_VERSION;
   "record_type" :-> PStr "platform_decision";
   "timestamp" :-> PStr now;
   "run_id" :-> PStr run_id;
   "decision" :-> PStr decision;
   "reason_codes" :-> PList reason_codes;
   "blocked_actions" :-> PList blocked_actions;
   "payload" :-> PDict payload].

Definition append_decision (now run_id decision : string)
    (reason_codes blocked_actions : list pyval) (payload : pydict) (st : event_store)
    : event_store :=
  {| es_events := st.(es_events);
     es_decisions := (st.(es_decisions) ++
       [LJson (PDict (decision_row now run_id decision reason_codes blocked_actions payload))])%list;
     es_previews := st.(es_previews); es_legacy := st.(es_legacy) |}.

Definition append_remediation_preview (now run_id action_id policy : string) (dry_run : bool)
    (detail : string) (st : event_store) : event_store :=
  {| es_events := st.(es_events); es_decisions := st.(es_decisions);
     es_previews := (st.(es_previews) ++ [LJson (PDict
       ["schema_version" :-> PStr STORE_SCHEMA_VERSION;
        "record_type" :-> PStr "remediation_preview";
        "timestamp" :-> PStr now;
        "run_id" :-> PStr run_id;
        "action_id" :-> PStr action_id;
        "policy" :-> PStr policy;
        "dry_run" :-> PBool dry_run;
        "detail" :-> PStr detail])])%list;
     es_legacy := st.(es_legacy) |}.

Section Store.
Context {H : PyHost}.

Definition row_key (row : pydict) : string :=
  py_str (py_or (py_or (Dict.get "run_id" row) (Dict.get "diagnosis_id" row)) (PStr "")).

(** The last row of one log with the key. *)
Definition last_row (rid : string) (log : list jline) : option pydict :=
  last_opt (List.filter (fun row => String.eqb (row_key row) rid) (iter_jsonl log)).

Definition find_decision_row (run_id : string) (st : event_store) : option pydict :=
  let rid := PyStr.strip run_id in
  match last_row rid st.(es_decisions) with
  | Some row => Some row
  | None => last_row rid st.(es_legacy)
  end.

Record timeline := {
  tl_run_id : string;
  tl_events : list pydict;
  tl_decision : option pydict;
  tl_previews : list pydict;
}.

(** [str(r.get("run_id")) == rid]. *)
Definition of_run (rid : string) (log : list jline) : list pydict :=
  List.filter (fun r => String.eqb (py_str (Dict.get "run_id" r)) rid) (iter_jsonl log).

Definition replay_timeline (run_id : string) (st : event_store) : timeline :=
  let rid := PyStr.strip run_id in
  {| tl_run_id := rid;
     tl_events := of_run rid st.(es_events);
     tl_decision := find_decision_row rid st;
     tl_previews := of_run rid st.(es_previews) |}.

(** [primary_decision or (hypothesis_decisions[0] if hypothesis_decisions else {})]. *)
Definition primary_of (primary_decision : option pydict) (hypotheses : list pydict) : pydict :=
  match primary_decision with
  | Some ((_ :: _) as d) => d
  | _ => match hypotheses with h :: _ => h | [] => [] end
  end.

Definition live_payload (primary : pydict) (hypotheses : list pydict) : pydict :=
  ["proof_status" :-> Dict.get "proof_status" primary;
   "hypothesis" :-> Dict.get "hypothesis" primary;
   "confidence" :-> Dict.get "confidence" primary;
   "hypothesis_decisions" :-> PList (map PDict hypotheses)].

Definition live_decision (primary : pydict) : string :=
  py_str (py_or (Dict.get "decision" primary) (PStr "PREVIEW")).

(** The event row is written before the decision row is computed. *)
Definition record_live_diagnosis_run (now1 now2 run_id : string) (observations : pydict)
    (hypotheses : list pydict) (primary_decision : option pydict) (st : event_store)
    : result unit * event_store :=
  let st := append_event now1 run_id "diagnosis_live_completed"
    ["observation_keys" :-> str_list (sorted_by String.ltb id (map fst observations))]
    "python -m src" "observed" st in
  let primary := primary_of primary_decision hypotheses in
  match
    reasons ← py_list (py_or (Dict.get "reason_codes" primary) (PList []));
    blocked ← py_list (py_or (Dict.get "blocked_actions" primary) (PList []));
    Ok (reasons, blocked)
  with
  | Ok (reasons, blocked) =>
      (Ok tt, append_decision now2 run_id (live_decision primary) reasons blocked
                (live_payload primary hypotheses) st)
  | Raise e => (Raise e, st)
  end.
End Store.

(** ** The reader as a bounded prefix *)

Section BusProperties.
Context {H : PyHost}.

(** The supported objects of a file, in order. *)
Definition supported (l : bus_line) : option pydict :=
  match parse_bus_line 0 l with Some (inl obj) => Some obj | _ => None end.

Definition matching (f : read_filter) (file : list bus_line) : list pydict :=
  List.filter (passes_filter f) (omap supported file).

Lemma parse_bus_line_inl n l obj :
  parse_bus_line n l = Some (inl obj) <-> supported l = Some obj.
Proof.
  unfold supported, parse_bus_line. destruct (PyStr.is_empty _); [done|].
  destruct (bl_read l) as [[]|]; try (split; congruence).
  destruct (validate_schema_version _) as [[] ?]; split; congruence.
Qed.

Lemma matching_cons f l file :
  matching f (l :: file) =
    match supported l with
    | Some obj => if passes_filter f obj then obj :: matching f file else matching f file
    | None => matching f file
    end.
Proof. unfold matching. cbn. by destruct (supported l). Qed.

Lemma matching_app f a b : matching f (a ++ b)%list = (matching f a ++ matching f b)%list.
Proof. unfold matching. by rewrite omap_app, List.filter_app. Qed.

Lemma read_loop_good f limit n good errors lines :
  Z.of_nat (length good) < Z.max 1 limit ->
  (read_loop f limit n good errors lines).1 =
    firstn (Z.to_nat (Z.max 1 limit)) (good ++ matching f lines)%list.
Proof.
  revert n good errors. induction lines as [|l lines IH]; intros n good errors Hlt.
  - cbn. rewrite app_nil_r, firstn_all2 by lia. done.
  - cbn [read_loop]. rewrite matching_cons.
    destruct (parse_bus_line n l) as [[obj|e]|] eqn:Ep.
    + apply parse_bus_line_inl in Ep as ->. destruct (passes_filter f obj); [|by apply IH].
      destruct (limit <=? _) eqn:El; rewrite length_app in El;
        change (length [obj]) with 1%nat in El.
      * apply Z.leb_le in El. change (obj :: matching f lines) with ([obj] ++ matching f lines)%list.
        rewrite app_assoc, firstn_app, firstn_all2 by (rewrite length_app; cbn [length]; lia).
        replace (Z.to_nat (Z.max 1 limit) - length (good ++ [obj])%list)%nat with 0%nat
          by (rewrite length_app; cbn [length]; lia).
        cbn. by rewrite app_nil_r.
      * apply Z.leb_gt in El. rewrite IH by (rewrite length_app; cbn [length]; lia). by rewrite <- app_assoc.
    + assert (supported l = None) as ->; [|by apply IH].
      destruct (supported l) eqn:Es; [|done]. apply (parse_bus_line_inl n) in Es. congruence.
    + assert (supported l = None) as ->; [|by apply IH].
      destruct (supported l) eqn:Es; [|done]. apply (parse_bus_line_inl n) in Es. congruence.
Qed.

Lemma read_events_good f limit file :
  (read_events f limit file).1 = firstn (Z.to_nat (Z.max 1 limit)) (matching f file).
Proof. unfold read_events. rewrite read_loop_good; [done|cbn; lia]. Qed.

(** The reader returns the oldest rows that pass the filter and the schema
    gate, at most [limit] of them and never fewer than one when there is one; a
    file that holds [limit] such rows hides everything appended later. *)
Theorem read_events_oldest f limit file newer :
  let rows := (read_events f limit file).1 in
  rows = firstn (Z.to_nat (Z.max 1 limit)) (matching f file) /\
  (Z.max 1 limit <= Z.of_nat (length (matching f file)) ->
     (read_events f limit (file ++ newer)%list).1 = rows).
Proof.
  cbn zeta. rewrite !read_events_good. split; [done|]. intros Hl. rewrite matching_app, firstn_app.
  replace (_ - length (matching f file))%nat with 0%nat by lia. cbn. apply app_nil_r.
Qed.

(** An event is written exactly when its schema version is supported; a refused
    one raises and leaves the file.  A written event is the last one the reader
    returns as long as the limit has room for it. *)
Theorem bus_append_read f limit text event file r file' :
  bus_append_event text event file = (r, file') -> PyStr.is_empty text = false ->
  (validate_schema_version event).1 = is_ok r /\
  (is_ok r = false -> r = Raise ValueError /\ file' = file) /\
  (is_ok r = true -> passes_filter f event = true ->
   Z.of_nat (length (matching f file)) < limit ->
   (read_events f limit file').1 = ((read_events f limit file).1 ++ [event])%list).
Proof.
  unfold bus_append_event. intros E Ht.
  destruct (validate_schema_version event) as [ok err] eqn:Ev.
  destruct ok; injection E as <- <-; (split; [done|]).
  - split; [done|]. intros _ Hf Hl. rewrite !read_events_good, matching_app, matching_cons.
    assert (supported (row_line text event) = Some event) as ->.
    { unfold supported, parse_bus_line. cbn [row_line bl_text bl_read]. by rewrite Ht, Ev. }
    rewrite Hf. cbn [matching omap list_omap List.filter].
    rewrite !firstn_all2; [done|lia|rewrite length_app; cbn; lia].
  - by split.
Qed.
End BusProperties.

(** ** Reading a run back *)

Section StoreProperties.
Context {H : PyHost}.

Lemma iter_jsonl_snoc log row :
  iter_jsonl (log ++ [LJson (PDict row)])%list = (iter_jsonl log ++ [row])%list.
Proof. unfold iter_jsonl. by rewrite omap_app. Qed.

Lemma of_run_snoc rid log row s :
  Dict.lookup "run_id" row = Some (PStr s) ->
  of_run rid (log ++ [LJson (PDict row)])%list =
    (of_run rid log ++ if String.eqb s rid then [row] else [])%list.
Proof.
  intros Hs. unfold of_run. rewrite iter_jsonl_snoc, List.filter_app. cbn [List.filter].
  unfold Dict.get at 2. rewrite Hs. cbn. by destruct (String.eqb s rid).
Qed.

Lemma last_row_snoc rid log row s :
  Dict.lookup "run_id" row = Some (PStr s) -> Dict.lookup "diagnosis_id" row = None ->
  last_row rid (log ++ [LJson (PDict row)])%list =
    if String.eqb s rid then Some row else last_row rid log.
Proof.
  intros Hs Hd. unfold last_row. rewrite iter_jsonl_snoc, List.filter_app. cbn [List.filter].
  assert (row_key row = s) as ->.
  { unfold row_key, Dict.get. rewrite Hs, Hd. destruct s; reflexivity. }
  destruct (String.eqb s rid); [apply last_opt_app|by rewrite app_nil_r].
Qed.

(** Recording a live run and assembling it again.  The row is found exactly
    when the identifier has no space around it: then the timeline gains one
    event and its decision is the recorded one; an identifier with space around
    it is stored as it is and looked up stripped, so its timeline stays what it
    was.  Remediation previews are never touched. *)
Theorem replay_after_record now1 now2 run_id obs hyps prim st st' :
  record_live_diagnosis_run now1 now2 run_id obs hyps prim st = (Ok tt, st') ->
  let found := String.eqb run_id (PyStr.strip run_id) in
  let before := replay_timeline run_id st in
  let after := replay_timeline run_id st' in
  exists event reasons blocked,
    Dict.lookup "run_id" event = Some (PStr run_id) /\
    after.(tl_events) = (before.(tl_events) ++ if found then [event] else [])%list /\
    after.(tl_decision) =
      (if found
       then Some (decision_row now2 run_id (live_decision (primary_of prim hyps)) reasons blocked
                    (live_payload (primary_of prim hyps) hyps))
       else before.(tl_decision)) /\
    after.(tl_previews) = before.(tl_previews).
Proof.
  unfold record_live_diagnosis_run. cbn zeta. intros E.
  set (primary := primary_of prim hyps) in *.
  destruct (py_list (py_or (Dict.get "reason_codes" primary) (PList []))) as [reasons|] eqn:Er;
    cbn in E; [|congruence].
  destruct (py_list (py_or (Dict.get "blocked_actions" primary) (PList []))) as [blocked|] eqn:Eb;
    cbn in E; [|congruence].
  injection E as <-. unfold replay_timeline, find_decision_row.
  rewrite !PyStr.strip_idem.
  cbn [tl_events tl_decision tl_previews append_event append_decision es_events es_decisions
       es_previews es_legacy].
  eexists _, reasons, blocked. split; [|split; [by apply of_run_snoc|split; [|done]]]; [done|].
  rewrite (last_row_snoc _ _ _ run_id) by done.
  by destruct (String.eqb run_id (PyStr.strip run_id)).
Qed.

(** Recording raises exactly when the reason codes or the blocked actions of
    the primary decision are truthy and neither a list, text nor an object; the
    event row is written all the same, so the timeline shows a completed
    diagnosis without its decision. *)
Theorem record_raises_after_event now1 now2 run_id obs hyps prim st e st' :
  record_live_diagnosis_run now1 now2 run_id obs hyps prim st = (Raise e, st') ->
  e = TypeError /\ st'.(es_decisions) = st.(es_decisions) /\
  exists row, st'.(es_events) = (st.(es_events) ++ [LJson (PDict row)])%list /\
    Dict.lookup "event_type" row = Some (PStr "diagnosis_live_completed").
Proof.
  unfold record_live_diagnosis_run. cbn zeta. set (primary := primary_of prim hyps). intros E.
  assert (forall v err, py_list v = Raise err -> err = TypeError) as Ht
    by (intros [] err [= <-]; done).
  destruct (py_list (py_or (Dict.get "reason_codes" primary) (PList []))) eqn:Er; cbn in E.
  - destruct (py_list (py_or (Dict.get "blocked_actions" primary) (PList []))) eqn:Eb; cbn in E;
      [congruence|]. injection E as <- <-. apply Ht in Eb. split_and!; [done..|]. by eexists.
  - injection E as <- <-. apply Ht in Er. split_and!; [done..|]. by eexists.
Qed.
End StoreProperties.

(** ** Witnesses *)
Module EventStoreWitness.
#[local] Instance host : PyHost := DemoHost.demo_host.

Definition any_event : read_filter :=
  {| rf_event_type := None; rf_min_severity := None; rf_endpoint_id_hash := None;
     rf_schema_version := None |}.
Definition bus_event (id : string) : pydict :=
  ["schema_version" :-> PStr "1"; "event_id" :-> PStr id].
Definition bus_file : list bus_line :=
  [row_line "{first}" (bus_event "a");
   {| bl_text := "not json"; bl_read := JError "Expecting value" |};
   row_line "{old}" ["schema_version" :-> PStr "0.9"];
   row_line "{second}" (bus_event "b")].

Lemma bus_append_read_witness :
  (read_events any_event 3 (bus_file ++ [row_line "{third}" (bus_event "c")])%list).1 =
  ((read_events any_event 3 bus_file).1 ++ [bus_event "c"])%list.
Proof.
  apply (bus_append_read any_event 3 "{third}" (bus_event "c") bus_file (Ok tt)
           (bus_file ++ [row_line "{third}" (bus_event "c")])%list); reflexivity.
Defined.

Lemma read_events_oldest_witness :
  (read_events any_event 2 (bus_file ++ [row_line "{third}" (bus_event "c")])%list).1 =
  [bus_event "a"; bus_event "b"].
Proof.
  apply (read_events_oldest any_event 2 bus_file [row_line "{third}" (bus_event "c")]).
  vm_compute. discriminate.
Defined.

Definition no_store : event_store :=
  {| es_events := []; es_decisions := []; es_previews := []; es_legacy := [] |}.
Definition hypothesis : pydict :=
  ["decision" :-> PStr "BLOCK"; "reason_codes" :-> str_list ["proxy_drift"]].
Definition recorded (run_id : string) : result unit * event_store :=
  record_live_diagnosis_run "2026-01-01T00:00:00Z" "2026-01-01T00:00:01Z" run_id
    ["proxy" :-> PBool true] [hypothesis] None no_store.

(** The timeline of a padded identifier stays empty. *)
Lemma replay_after_record_witness :
  exists event reasons blocked,
    Dict.lookup "run_id" event = Some (PStr " run-1") /\
    (replay_timeline " run-1" (recorded " run-1").2).(tl_events) = [] /\
    (replay_timeline " run-1" (recorded " run-1").2).(tl_decision) =
      (if String.eqb " run-1" (PyStr.strip " run-1")
       then Some (decision_row "2026-01-01T00:00:01Z" " run-1" (live_decision hypothesis) reasons
                    blocked (live_payload hypothesis [hypothesis]))
       else None) /\
    (replay_timeline " run-1" (recorded " run-1").2).(tl_previews) = [].
Proof.
  apply (replay_after_record "2026-01-01T00:00:00Z" "2026-01-01T00:00:01Z" " run-1"
           ["proxy" :-> PBool true] [hypothesis] None no_store).
  vm_compute. reflexivity.
Defined.

Definition bad_hypothesis : pydict := ["reason_codes" :-> PInt 3].

Lemma record_raises_after_event_witness :
  (record_live_diagnosis_run "t1" "t2" "run-2" [] [bad_hypothesis] None no_store).1
    = Raise TypeError /\
  exists row,
    (record_live_diagnosis_run "t1" "t2" "run-2" [] [bad_hypothesis] None no_store).2.(es_events)
      = [LJson (PDict row)] /\
    Dict.lookup "event_type" row = Some (PStr "diagnosis_live_completed").
Proof.
  split; [reflexivity|].
  eapply (record_raises_after_event "t1" "t2" "run-2" [] [bad_hypothesis] None no_store TypeError).
  vm_compute. reflexivity.
Defined.
End EventStoreWitness.
