(* ===== verification/IncidentClusters.v ===== *)
(** * Clusters of failure events

    [platform_core/incidents.py]: failure events that share a category and a
    fingerprint are sorted by time and cut where the gap exceeds a window; each
    piece becomes an [IncidentCluster] with the widest span, the joint
    identifiers and a severity that rises when several endpoints are affected.

    [uuid.uuid5] is a parameter ([Uuid5]), as the SHA-256 digest is; the clock
    is read once per event without a readable time stamp. *)

From S2P Require Import Prelude PyValue PyTime.
From Stdlib Require Import Ascii String SpecFloat Permutation.
From stdpp Require Import strings.

Open Scope string_scope.
Open Scope Z_scope.
Open Scope py_scope.

(** [str(uuid.uuid5(uuid.NAMESPACE_URL, name))]. *)
Class Uuid5 := { uuid5_url : string -> string }.

(** ** Date-times as the module uses them *)

(** The point in time two date-times of the same kind are compared by. *)
Definition instant (dt : datetime) : Z := dt.(dt_wall) - default 0 dt.(dt_offset).

Definition is_aware (dt : datetime) : bool :=
  match dt.(dt_offset) with Some _ => true | None => false end.

(** Comparing a naive and an aware date-time raises: [min], [max] and [sorted]
    of two or more compare some pair of different kinds when there is one. *)
Definition same_kind (dts : list datetime) : bool :=
  forallb is_aware dts || forallb (fun dt => negb (is_aware dt)) dts.

Definition check_kind (dts : list datetime) : result unit :=
  if same_kind dts then Ok tt else Raise TypeError.

(** [dt.isoformat()]. *)
Definition offset_text (off : Z) : string :=
  let a := Z.abs off in
  let secs := a / US_PER_SEC in
  (if off <? 0 then "-" else "+") ++ pad 2 (secs / 3600) ++ ":" ++ pad 2 (secs / 60 mod 60) ++
  (if a mod (60 * US_PER_SEC) =? 0 then ""
   else ":" ++ pad 2 (secs mod 60) ++
        (if a mod US_PER_SEC =? 0 then "" else "." ++ pad 6 (a mod US_PER_SEC))).

Definition isoformat (dt : datetime) : string :=
  let us := dt.(dt_wall) in
  let '(y, m, d) := Cal.ord2ymd (dt_ordinal us) in
  let t := dt_time us / US_PER_SEC in
  pad 4 y ++ "-" ++ pad 2 m ++ "-" ++ pad 2 d ++ "T" ++
  pad 2 (t / 3600) ++ ":" ++ pad 2 (t / 60 mod 60) ++ ":" ++ pad 2 (t mod 60) ++
  (if us mod US_PER_SEC =? 0 then "" else "." ++ pad 6 (us mod US_PER_SEC)) ++
  match dt.(dt_offset) with Some off => offset_text off | None => "" end.

(** [dt.replace(tzinfo=UTC)]: the clock face stays, the offset is forgotten. *)
Definition replace_utc (dt : datetime) : datetime :=
  {| dt_wall := dt.(dt_wall); dt_offset := Some 0 |}.

(** [s[:-1] + "+00:00"] when the text ends in [Z]. *)
Definition expand_z (s : string) : string :=
  if PyStr.endswith s "Z" then PyStr.take (String.length s - 1) s ++ "+00:00" else s.

Definition _parse_iso (ts : pyval) : option datetime :=
  match ts with
  | PStr s => if PyStr.is_empty s then None else fromisoformat (expand_z (PyStr.strip s))
  | _ => None
  end.

(** ** Clusters *)

Inductive ClusterSeverity := sev_low | sev_medium | sev_high.

Definition cluster_severity_value (s : ClusterSeverity) : string :=
  match s with sev_low => "low" | sev_medium => "medium" | sev_high => "high" end.

Definition _rank_to_label (r : Z) : ClusterSeverity :=
  if 3 <=? r then sev_high else if r =? 2 then sev_medium else sev_low.

Record IncidentCluster := {
  cluster_id : string;
  cluster_category : string;
  pattern_key : string;
  event_ids : list string;
  endpoint_ids : list string;
  first_seen_at : string;
  last_seen_at : string;
  cluster_severity : ClusterSeverity;
  affected_endpoint_count : Z;
  event_count : Z;
}.

(** An event with its first and last time. *)
Record seen_event := {
  se_event : pydict;
  se_first : datetime;
  se_last : datetime;
}.

(** [min] and [max] keep the first of equal elements. *)
Definition earliest (d : datetime) (dts : list datetime) : datetime :=
  foldl (fun cur dt => if instant dt <? instant cur then dt else cur) d dts.
Definition latest (d : datetime) (dts : list datetime) : datetime :=
  foldl (fun cur dt => if instant cur <? instant dt then dt else cur) d dts.

Section Clusters.
Context {H : PyHost} {U : Uuid5}.

(** [str(ev.get(k) or d)]. *)
Definition text_or_default (k d : string) (ev : pydict) : string :=
  py_str (py_or (Dict.get k ev) (PStr d)).

Definition _severity_rank (s : pyval) : Z :=
  let t := PyStr.lower (py_str (py_or s (PStr "low"))) in
  if String.eqb t "low" then 1
  else if String.eqb t "medium" then 2
  else if String.eqb t "high" then 3
  else 1.

Definition _pattern_fingerprint (ev : pydict) : string :=
  let cat := text_or_default "category" "unknown" ev in
  let action := text_or_default "recommended_action_key" "" ev in
  let summary_hint :=
    Utf8.prefix 48 (text_or_default "summary" "" ev) in
  PyStr.take 16 (sha256_hexdigest (cat ++ "|" ++ action ++ "|" ++ summary_hint)).

Definition max_rank (evs : list pydict) : Z :=
  foldr Z.max 1 (map (fun e => _severity_rank (Dict.get "severity" e)) evs).

Definition endpoints_of (evs : list pydict) : list string :=
  sorted_set (omap (fun e =>
    if py_bool (Dict.get "endpoint_id" e) then Some (text_or_default "endpoint_id" "" e)
    else None) evs).

Definition event_ids_of (evs : list pydict) : list string :=
  sorted_set (omap (fun e =>
    if py_bool (Dict.get "event_id" e) then Some (py_str (Dict.get "event_id" e)) else None) evs).

(** The rank of a cluster: one more than its events' when several endpoints
    are affected, up to high. *)
Definition cluster_rank (evs : list pydict) : Z :=
  let mx := max_rank evs in
  if (2 <=? Z.of_nat (length (endpoints_of evs))) && (mx <? 3) then Z.min 3 (mx + 1) else mx.

Definition _make_cluster (bucket : list seen_event) : result IncidentCluster :=
  match bucket with
  | [] => Raise ValueError
  | b0 :: rest =>
      _ ← check_kind (map se_first bucket);
      _ ← check_kind (map se_last bucket);
      let first_t := earliest b0.(se_first) (map se_first rest) in
      let last_t := latest b0.(se_last) (map se_last rest) in
      let evs := map se_event bucket in
      let cat := text_or_default "category" "unknown" b0.(se_event) in
      let eids := event_ids_of evs in
      let eps := endpoints_of evs in
      Ok {| cluster_id :=
              uuid5_url (PyStr.join "|" (eids ++ [isoformat first_t; isoformat last_t])%list);
            cluster_category := cat;
            pattern_key := cat +:+ ":" +:+ _pattern_fingerprint b0.(se_event);
            event_ids := eids;
            endpoint_ids := eps;
            first_seen_at := isoformat (replace_utc first_t);
            last_seen_at := isoformat (replace_utc last_t);
            cluster_severity := _rank_to_label (cluster_rank evs);
            affected_endpoint_count := Z.of_nat (length eps);
            event_count := Z.of_nat (length bucket) |}
  end.

(** ** Clustering *)

(** The times of an event; [now] is the UTC clock. *)
Definition event_times (now : Z) (ev : pydict) : datetime * datetime :=
  let first_p := _parse_iso (Dict.get "first_seen_at" ev) in
  let last_p := _parse_iso (Dict.get "last_seen_at" ev) in
  let fs := match first_p with Some d => Some d | None => last_p end in
  let ls := match last_p with Some d => Some d | None => fs end in
  match fs, ls with
  | Some f, Some l => (f, l)
  | _, _ => let d := {| dt_wall := now; dt_offset := Some 0 |} in (d, d)
  end.

Definition has_event_id (ev : pydict) : bool :=
  negb (PyStr.is_empty (text_or_default "event_id" "" ev)).

(** The events with an identifier, each with its times; the i-th event reads
    the clock as [clock i]. *)
Fixpoint seen_events (clock : nat -> Z) (i : nat) (events : list pydict) : list seen_event :=
  match events with
  | [] => []
  | ev :: rest =>
      if has_event_id ev then
        let '(f, l) := event_times (clock i) ev in
        {| se_event := ev; se_first := f; se_last := l |} :: seen_events clock (S i) rest
      else seen_events clock (S i) rest
  end.

Definition group_key (r : seen_event) : string :=
  text_or_default "category" "unknown" r.(se_event) ++ "|" ++ _pattern_fingerprint r.(se_event).

(** The groups in the order of their keys, each in the order of the input. *)
Definition groups_of (rows : list seen_event) : list (list seen_event) :=
  map (fun k => List.filter (fun r => String.eqb (group_key r) k) rows)
    (sorted_set (map group_key rows)).

(** The key of [sorted]: the last time, then the identifier. *)
Definition seen_key_ltb (a b : Z * string) : bool :=
  (a.1 <? b.1) || ((a.1 =? b.1) && String.ltb a.2 b.2).
Definition seen_key (r : seen_event) : Z * string :=
  (instant r.(se_last), py_str (Dict.get "event_id" r.(se_event))).

Definition sort_rows (rows : list seen_event) : result (list seen_event) :=
  _ ← check_kind (map se_last rows);
  Ok (sorted_by seen_key_ltb seen_key rows).

(** [(ls - prev_ls).total_seconds() > window_seconds]; windows are below 2^53. *)
Definition gap_exceeds (window_seconds us : Z) : bool :=
  F64.ltb (F64.of_Z window_seconds) (F64.int_div us US_PER_SEC).

(** [max(b[2] for b in bucket)] for the bucket [b0 :: rest]. *)
Definition bucket_end (b0 : seen_event) (rest : list seen_event) : datetime :=
  latest b0.(se_last) (map se_last rest).

(** The loop over the sorted rows after the first one: the open bucket is
    [b0 :: bucket]. *)
Fixpoint bucket_loop (window_seconds : Z) (b0 : seen_event) (bucket rows : list seen_event)
    : list (list seen_event) :=
  match rows with
  | [] => [b0 :: bucket]
  | r :: rest =>
      if gap_exceeds window_seconds (instant r.(se_last) - instant (bucket_end b0 bucket))
      then (b0 :: bucket) :: bucket_loop window_seconds r [] rest
      else bucket_loop window_seconds b0 (bucket ++ [r])%list rest
  end.

Definition buckets_of (window_seconds : Z) (rows : list seen_event) : list (list seen_event) :=
  match rows with
  | [] => []
  | r :: rest => bucket_loop window_seconds r [] rest
  end.

Definition cluster_group (window_seconds : Z) (rows : list seen_event)
    : result (list IncidentCluster) :=
  sorted ← sort_rows rows;
  mapM_result _make_cluster (buckets_of window_seconds sorted).

Definition cluster_key_ltb (a b : string * string) : bool :=
  String.ltb a.1 b.1 || (String.eqb a.1 b.1 && String.ltb a.2 b.2).

Definition cluster_failure_events (clock : nat -> Z) (events : list pydict) (window_seconds : Z)
    : result (list IncidentCluster) :=
  clusters ← mapM_result (cluster_group window_seconds) (groups_of (seen_events clock 0 events));
  Ok (sorted_by cluster_key_ltb (fun c => (c.(last_seen_at), c.(cluster_id))) (concat clusters)).

Definition cluster_dump (c : IncidentCluster) : pydict :=
  ["cluster_id" :-> PStr c.(cluster_id);
   "category" :-> PStr c.(cluster_category);
   "pattern_key" :-> PStr c.(pattern_key);
   "event_ids" :-> str_list c.(event_ids);
   "endpoint_ids" :-> str_list c.(endpoint_ids);
   "first_seen_at" :-> PStr c.(first_seen_at);
   "last_seen_at" :-> PStr c.(last_seen_at);
   "cluster_severity" :-> PStr (cluster_severity_value c.(cluster_severity));
   "affected_endpoint_count" :-> PInt c.(affected_endpoint_count);
   "event_count" :-> PInt c.(event_count)].

Definition incident_summaries (clock : nat -> Z) (events : list pydict) (window_seconds : Z)
    : result (list pydict) :=
  cs ← cluster_failure_events clock events window_seconds;
  Ok (map cluster_dump cs).
End Clusters.

Section Properties.
Context {H : PyHost} {U : Uuid5}.

Lemma groups_of_Permutation rows : Permutation (concat (groups_of rows)) rows.
Proof.
  apply (groups_Permutation group_key); [apply sorted_set_NoDup|].
  intros r Hr. apply sorted_set_In, in_map, Hr.
Qed.

(** ** Buckets *)

(** Each row of a bucket follows the rows before it within the window. *)
Fixpoint follows (w : Z) (b0 : seen_event) (pre rest : list seen_event) : Prop :=
  match rest with
  | [] => True
  | r :: rest' =>
      gap_exceeds w (instant r.(se_last) - instant (bucket_end b0 pre)) = false /\
      follows w b0 (pre ++ [r])%list rest'
  end.

Definition bucket_ok (w : Z) (b : list seen_event) : Prop :=
  match b with [] => False | b0 :: rest => follows w b0 [] rest end.

(** A bucket ends where the gap to the next one exceeds the window. *)
Fixpoint separated (w : Z) (bs : list (list seen_event)) : Prop :=
  match bs with
  | (b0 :: bucket) :: (((r :: _) :: _) as rest) =>
      gap_exceeds w (instant r.(se_last) - instant (bucket_end b0 bucket)) = true /\
      separated w rest
  | _ => True
  end.

Lemma follows_app w b0 pre a b :
  follows w b0 pre (a ++ b)%list <-> follows w b0 pre a /\ follows w b0 (pre ++ a)%list b.
Proof.
  revert pre. induction a as [|r a IH]; intros pre; cbn.
  - rewrite app_nil_r. tauto.
  - rewrite IH. rewrite <- app_assoc. cbn. tauto.
Qed.

Lemma bucket_loop_spec w b0 bucket rows :
  follows w b0 [] bucket ->
  concat (bucket_loop w b0 bucket rows) = (b0 :: bucket ++ rows)%list /\
  Forall (bucket_ok w) (bucket_loop w b0 bucket rows) /\
  separated w (bucket_loop w b0 bucket rows) /\
  exists bucket' bs, bucket_loop w b0 bucket rows = (b0 :: bucket') :: bs.
Proof.
  revert b0 bucket. induction rows as [|r rows IH]; intros b0 bucket Hf; cbn [bucket_loop].
  - cbn. rewrite app_nil_r. split_and!; [done|by repeat constructor|done|eauto].
  - destruct (gap_exceeds _ _) eqn:Eg.
    + destruct (IH r [] I) as (Hc & Hok & Hs & bk & bs & Eq). split_and!.
      * cbn. by rewrite Hc.
      * by constructor.
      * rewrite Eq in *. cbn. split; [done|exact Hs].
      * eauto.
    + destruct (IH b0 (bucket ++ [r])%list) as (Hc & Hok & Hs & Hx).
      { apply follows_app. by split; [|cbn]. }
      split_and!; [|done..]. by rewrite Hc, <- app_assoc.
Qed.

Lemma buckets_of_spec w rows :
  concat (buckets_of w rows) = rows /\ Forall (bucket_ok w) (buckets_of w rows) /\
  separated w (buckets_of w rows).
Proof.
  destruct rows as [|r rows]; [by repeat constructor|].
  destruct (bucket_loop_spec w r [] rows I) as (Hc & Hok & Hs & _). by split_and!.
Qed.

(** ** Clusters *)

Lemma make_cluster_count b c : _make_cluster b = Ok c -> c.(event_count) = Z.of_nat (length b).
Proof.
  unfold _make_cluster. destruct b as [|b0 rest]; [done|]. intros E.
  do 2 apply bind_Ok in E as (? & _ & E). by injection E as <-.
Qed.

(** How the clusters of one group are made. *)
Definition group_clusters (w : Z) (rows : list seen_event) (bs : list (list seen_event))
    (cs : list IncidentCluster) : Prop :=
  Permutation (concat bs) rows /\ Forall (bucket_ok w) bs /\ separated w bs /\
  Forall2 (fun b c => _make_cluster b = Ok c) bs cs.

Lemma cluster_group_spec w rows cs :
  cluster_group w rows = Ok cs -> exists bs, group_clusters w rows bs cs.
Proof.
  unfold cluster_group, sort_rows. intros E. apply bind_Ok in E as (sorted & Es & E).
  apply bind_Ok in Es as (_ & _ & Es). injection Es as <-.
  exists (buckets_of w (sorted_by seen_key_ltb seen_key rows)).
  destruct (buckets_of_spec w (sorted_by seen_key_ltb seen_key rows)) as (Hc & Hok & Hs).
  split_and!; [|done..|by apply mapM_result_Forall2].
  rewrite Hc. apply sorted_by_Permutation.
Qed.

Definition total_events (cs : list IncidentCluster) : Z := foldr Z.add 0 (map event_count cs).

Lemma total_events_app a b : total_events (a ++ b)%list = total_events a + total_events b.
Proof. unfold total_events. induction a as [|c a IH]; cbn in *; lia. Qed.

#[local] Instance total_events_Proper : Proper (Permutation ==> eq) total_events.
Proof. unfold total_events. induction 1; cbn in *; lia. Qed.

Lemma group_total w rows bs cs :
  group_clusters w rows bs cs -> total_events cs = Z.of_nat (length rows).
Proof.
  intros (Hp & _ & _ & Hc). rewrite <- Hp. clear Hp. unfold total_events.
  induction Hc as [|b c bs cs Hb _ IH]; [done|]. apply make_cluster_count in Hb.
  cbn. rewrite length_app. cbn in IH. lia.
Qed.

Lemma groups_total w gs bss css :
  Forall3 (fun g bs cs => group_clusters w g bs cs) gs bss css ->
  total_events (concat css) = Z.of_nat (length (concat gs)).
Proof.
  induction 1 as [|g bs cs gs bss css Hg _ IH]; [done|].
  cbn [concat]. rewrite total_events_app, length_app, IH, (group_total _ _ _ _ Hg). lia.
Qed.

Lemma seen_events_length clock i events :
  length (seen_events clock i events) = length (List.filter has_event_id events).
Proof.
  revert i. induction events as [|ev events IH]; intros i; [done|]. cbn.
  destruct (has_event_id ev); [|apply IH]. destruct (event_times _ _). cbn. by rewrite IH.
Qed.

(** The clusters of a list of events are the maximal runs of its groups: each
    group is cut into buckets in which every event follows the ones before it
    within the window, with a larger gap between neighbours; there is one
    cluster per bucket; the groups together hold every event that has an
    identifier, once, and the event counts of the clusters add up to their
    number. *)
Theorem clusters_partition clock events w out :
  cluster_failure_events clock events w = Ok out ->
  (exists bss css,
     Forall3 (fun g bs cs => group_clusters w g bs cs)
       (groups_of (seen_events clock 0 events)) bss css /\
     Permutation out (concat css)) /\
  Permutation (concat (groups_of (seen_events clock 0 events))) (seen_events clock 0 events) /\
  total_events out = Z.of_nat (length (List.filter has_event_id events)).
Proof.
  unfold cluster_failure_events. intros E. apply bind_Ok in E as (css & Ec & E).
  injection E as <-. apply mapM_result_Forall2 in Ec.
  pose proof (groups_of_Permutation (seen_events clock 0 events)) as Hg.
  assert (exists bss, Forall3 (fun g bs cs => group_clusters w g bs cs)
            (groups_of (seen_events clock 0 events)) bss css) as [bss Hb].
  { clear Hg. induction Ec as [|g cs gs css Hg _ [bss IH]]; [by exists []; constructor|].
    apply cluster_group_spec in Hg as [bs Hbs]. exists (bs :: bss). by constructor. }
  split; [|split; [done|]].
  - exists bss, css. split; [done|]. apply sorted_by_Permutation.
  - rewrite sorted_by_Permutation, (groups_total _ _ _ _ Hb), Hg. by rewrite seen_events_length.
Qed.

(** ** When clustering raises *)

Lemma check_kind_ok dts : same_kind dts = true -> check_kind dts = Ok tt.
Proof. unfold check_kind. by intros ->. Qed.

Lemma same_kind_aware dts : Forall (fun d => is_aware d = true) dts -> same_kind dts = true.
Proof.
  intros Hd. unfold same_kind. apply orb_true_iff. left. apply forallb_forall.
  rewrite Forall_forall in Hd. intros d Hin. by apply Hd, list_elem_of_In.
Qed.

Definition aware_row (r : seen_event) : Prop :=
  is_aware r.(se_first) = true /\ is_aware r.(se_last) = true.

Lemma aware_firsts b : Forall aware_row b -> same_kind (map se_first b) = true.
Proof. intros Hb. apply same_kind_aware, Forall_map. by eapply Forall_impl; [exact Hb|intros ? []]. Qed.

Lemma aware_lasts b : Forall aware_row b -> same_kind (map se_last b) = true.
Proof. intros Hb. apply same_kind_aware, Forall_map. by eapply Forall_impl; [exact Hb|intros ? []]. Qed.

Lemma make_cluster_ok b : b <> [] -> Forall aware_row b -> is_ok (_make_cluster b) = true.
Proof.
  intros Hne Hb. unfold _make_cluster. destruct b as [|b0 rest]; [done|].
  rewrite (check_kind_ok _ (aware_firsts _ Hb)), bind_ok_l.
  rewrite (check_kind_ok _ (aware_lasts _ Hb)), bind_ok_l. done.
Qed.

Lemma mapM_result_ok {A B} (f : A -> result B) l :
  Forall (fun x => is_ok (f x) = true) l -> is_ok (mapM_result f l) = true.
Proof.
  induction 1 as [|x l Hx _ IH]; [done|]. cbn.
  destruct (f x); [|done]. rewrite bind_ok_l. by destruct (mapM_result f l).
Qed.

Lemma cluster_group_ok w rows : Forall aware_row rows -> is_ok (cluster_group w rows) = true.
Proof.
  intros Hr. unfold cluster_group, sort_rows.
  rewrite (check_kind_ok _ (aware_lasts _ Hr)), !bind_ok_l. apply mapM_result_ok.
  destruct (buckets_of_spec w (sorted_by seen_key_ltb seen_key rows)) as (Hc & Hok & _).
  assert (Forall aware_row (concat (buckets_of w (sorted_by seen_key_ltb seen_key rows)))) as Ha
    by (by rewrite Hc, sorted_by_Permutation).
  rewrite Forall_forall in Hok |- *. intros b Hb. apply make_cluster_ok.
  - intros ->. by apply (Hok [] Hb).
  - rewrite Forall_forall in Ha |- *. intros r Hr'. apply Ha.
    apply list_elem_of_In, in_concat. exists b. by rewrite <- !list_elem_of_In.
Qed.

Lemma mapM_result_raise {A B} (f : A -> result B) l x e :
  In x l -> f x = Raise e -> (forall y e', In y l -> f y = Raise e' -> e' = e) ->
  mapM_result f l = Raise e.
Proof.
  induction l as [|y l IH]; intros Hin Hx Hall; [done|]. cbn.
  destruct (f y) as [v|e'] eqn:Ey.
  - rewrite bind_ok_l. rewrite IH; [done| |done|].
    + destruct Hin as [->|?]; [congruence|done].
    + intros z e' Hz. apply Hall. by right.
  - cbn. f_equal. apply (Hall y e'); [by left|done].
Qed.

Lemma check_kind_error dts e : check_kind dts = Raise e -> e = TypeError.
Proof. unfold check_kind. destruct (same_kind dts); congruence. Qed.

Lemma make_cluster_error b e : b <> [] -> _make_cluster b = Raise e -> e = TypeError.
Proof.
  unfold _make_cluster. destruct b as [|b0 rest]; [done|]. intros _ E.
  apply bind_Raise in E as [E|([] & _ & E)]; [by apply check_kind_error in E|].
  apply bind_Raise in E as [E|([] & _ & E)]; [by apply check_kind_error in E|done].
Qed.

Lemma cluster_group_error w rows e : cluster_group w rows = Raise e -> e = TypeError.
Proof.
  unfold cluster_group, sort_rows. intros E. apply bind_Raise in E as [E|(sorted & Es & E)].
  - apply bind_Raise in E as [E|(? & _ & E)]; [by apply check_kind_error in E|done].
  - destruct (buckets_of_spec w sorted) as (_ & Hok & _).
    induction Hok as [|b bs Hb _ IH]; [done|]. cbn in E.
    apply bind_Raise in E as [E|(c & _ & E)].
    + eapply make_cluster_error; [|exact E]. by intros ->.
    + apply bind_Raise in E as [E|(cs & _ & E)]; [by apply IH|done].
Qed.

Lemma mixed_kind l a b :
  In a l -> In b l -> is_aware a <> is_aware b -> same_kind l = false.
Proof.
  intros Ha Hb Hne. unfold same_kind. apply orb_false_iff.
  destruct (is_aware a) eqn:Ea, (is_aware b) eqn:Eb; try done; split;
    apply not_true_iff_false; intros Hf; rewrite forallb_forall in Hf;
    pose proof (Hf _ Ha) as H1; pose proof (Hf _ Hb) as H2; cbn in *; rewrite ?Ea in H1; rewrite ?Eb in H2; cbn in *; congruence.
Qed.

Definition aware_stamps (ev : pydict) : Prop :=
  forall k dt, In k ["first_seen_at"; "last_seen_at"] ->
    _parse_iso (Dict.get k ev) = Some dt -> is_aware dt = true.

Lemma event_times_aware now ev f l :
  aware_stamps ev -> event_times now ev = (f, l) -> is_aware f = true /\ is_aware l = true.
Proof.
  intros Ha. unfold event_times.
  pose proof (Ha "first_seen_at") as H1. pose proof (Ha "last_seen_at") as H2.
  destruct (_parse_iso (Dict.get "first_seen_at" ev)) as [d1|],
    (_parse_iso (Dict.get "last_seen_at" ev)) as [d2|]; intros [= <- <-];
    split; first [done|apply H1; cbn; tauto|apply H2; cbn; tauto].
Qed.

Lemma seen_events_aware clock i events :
  Forall aware_stamps events -> Forall aware_row (seen_events clock i events).
Proof.
  intros He. revert i. induction He as [|ev events Hev _ IH]; intros i; [constructor|]. cbn.
  destruct (has_event_id ev); [|apply IH].
  destruct (event_times (clock i) ev) as [f l] eqn:Et. constructor; [|apply IH].
  by apply (event_times_aware (clock i) ev).
Qed.

Lemma aware_group_rows rows : Forall aware_row rows -> Forall (Forall aware_row) (groups_of rows).
Proof.
  intros Hr. unfold groups_of. apply Forall_map, Forall_forall. intros k _.
  rewrite Forall_forall in Hr |- *. intros r [Hin _]%list_elem_of_In%filter_In.
  by apply Hr, list_elem_of_In.
Qed.

(** Clustering raises nothing but [TypeError].  It returns whenever every
    readable time stamp carries an offset, and it raises when two events of one
    group are last seen at a naive and at an aware time; an event without a
    readable time stamp counts as aware, since it is given the UTC clock. *)
Theorem clustering_raises clock events w :
  (forall e, cluster_failure_events clock events w = Raise e -> e = TypeError) /\
  (Forall aware_stamps events -> is_ok (cluster_failure_events clock events w) = true) /\
  (forall a b, In a (seen_events clock 0 events) -> In b (seen_events clock 0 events) ->
     group_key a = group_key b -> is_aware a.(se_last) <> is_aware b.(se_last) ->
     cluster_failure_events clock events w = Raise TypeError).
Proof.
  unfold cluster_failure_events. set (rows := seen_events clock 0 events). split_and!.
  - intros e [E|(css & _ & E)]%bind_Raise; [|done].
    induction (groups_of rows) as [|g gs IH]; [done|]. cbn in E.
    apply bind_Raise in E as [E|(c & _ & E)]; [by apply cluster_group_error in E|].
    apply bind_Raise in E as [E|(cs & _ & E)]; [by apply IH|done].
  - intros He. apply (seen_events_aware clock 0), aware_group_rows in He. fold rows in He.
    assert (is_ok (mapM_result (cluster_group w) (groups_of rows)) = true) as Hok.
    { apply mapM_result_ok. eapply Forall_impl; [exact He|]. apply cluster_group_ok. }
    by destruct (mapM_result _ _).
  - intros a b Ha Hb Hk Hne.
    set (g := List.filter (fun r => String.eqb (group_key r) (group_key a)) rows).
    assert (In g (groups_of rows)) as Hg.
    { unfold groups_of. apply in_map_iff. exists (group_key a). split; [done|].
      apply sorted_set_In, in_map, Ha. }
    assert (In a g /\ In b g) as [Hag Hbg].
    { unfold g. rewrite !filter_In, Hk, !String.eqb_refl. done. }
    rewrite (mapM_result_raise _ _ g TypeError); [done|done| |].
    + unfold cluster_group, sort_rows, check_kind.
      by rewrite (mixed_kind (map se_last g) (se_last a) (se_last b)); [|apply in_map..|].
    + intros y e' _. apply cluster_group_error.
Qed.

(** ** Severity *)

Definition label_rank (s : ClusterSeverity) : Z :=
  match s with sev_low => 1 | sev_medium => 2 | sev_high => 3 end.

Lemma severity_rank_range v : 1 <= _severity_rank v <= 3.
Proof. unfold _severity_rank. repeat split_goal; lia. Qed.

Lemma max_rank_spec evs :
  1 <= max_rank evs <= 3 /\
  forall e, In e evs -> _severity_rank (Dict.get "severity" e) <= max_rank evs.
Proof.
  unfold max_rank. induction evs as [|ev evs [Hr IH]]; [done|]. cbn [map foldr].
  pose proof (severity_rank_range (Dict.get "severity" ev)). split; [lia|].
  intros e [<-|He]; [lia|]. specialize (IH e He). lia.
Qed.

Lemma label_rank_of r : 1 <= r <= 3 -> label_rank (_rank_to_label r) = r.
Proof.
  intros Hr. unfold _rank_to_label.
  destruct (3 <=? r) eqn:E3; [cbn; lia|]. destruct (r =? 2) eqn:E2; cbn; lia.
Qed.

(** A cluster is at least as severe as each of its events and at most one step
    above the worst of them, and it is above it only when at least two distinct
    endpoints are affected. *)
Theorem cluster_severity_bounds b c :
  _make_cluster b = Ok c ->
  let worst := max_rank (map se_event b) in
  (forall r, In r b ->
     _severity_rank (Dict.get "severity" r.(se_event)) <= label_rank c.(cluster_severity)) /\
  worst <= label_rank c.(cluster_severity) <= Z.min 3 (worst + 1) /\
  (worst < label_rank c.(cluster_severity) <-> 2 <= c.(affected_endpoint_count) /\ worst < 3) /\
  List.NoDup c.(endpoint_ids) /\ c.(affected_endpoint_count) = Z.of_nat (length c.(endpoint_ids)).
Proof.
  intros E. cbn zeta. destruct (max_rank_spec (map se_event b)) as [Hr Hin].
  assert (c.(cluster_severity) = _rank_to_label (cluster_rank (map se_event b)) /\
    c.(endpoint_ids) = endpoints_of (map se_event b) /\
    c.(affected_endpoint_count) = Z.of_nat (length (endpoints_of (map se_event b))))
    as (-> & -> & ->).
  { unfold _make_cluster in E. destruct b as [|b0 rest]; [done|].
    do 2 apply bind_Ok in E as (? & _ & E). by injection E as <-. }
  assert (1 <= cluster_rank (map se_event b) <= 3 /\
    max_rank (map se_event b) <= cluster_rank (map se_event b)) as [Hcr Hle].
  { unfold cluster_rank. destruct (_ && _); lia. }
  rewrite label_rank_of by done. split_and!.
  - intros r Hb. pose proof (Hin _ (in_map se_event _ _ Hb)). lia.
  - done.
  - unfold cluster_rank. destruct (_ && _); lia.
  - unfold cluster_rank. destruct (_ && _) eqn:Eb; [bool_facts; lia|].
    apply andb_false_iff in Eb. lia.
  - apply sorted_set_NoDup.
  - done.
Qed.
End Properties.

(** ** Witnesses *)
Module ClusterWitness.
#[local] Instance host : PyHost := DemoHost.demo_host.
#[local] Instance uuid : Uuid5 := {| uuid5_url := fun name => "u5:" ++ DemoHost.digest name |}.

Definition clock (i : nat) : Z := 63902908800000000.

Definition failure (id endpoint severity seen : string) : pydict :=
  ["event_id" :-> PStr id; "endpoint_id" :-> PStr endpoint; "severity" :-> PStr severity;
   "category" :-> PStr "proxy"; "first_seen_at" :-> PStr seen; "last_seen_at" :-> PStr seen].

(** Two endpoints within an hour, a third event a day later. *)
Definition failures : list pydict :=
  [failure "e1" "host-a" "low" "2026-01-01T00:00:00Z";
   failure "e2" "host-b" "low" "2026-01-01T00:30:00Z";
   failure "e3" "host-a" "low" "2026-01-02T00:00:00Z";
   ["category" :-> PStr "proxy"]].

Definition clusters : list IncidentCluster :=
  match cluster_failure_events clock failures 3600 with Ok cs => cs | Raise _ => [] end.

Lemma clusters_partition_witness :
  map event_count clusters = [2; 1] /\
  map cluster_severity clusters = [sev_medium; sev_low] /\
  total_events clusters = 3.
Proof.
  split; [vm_compute; reflexivity|]. split; [vm_compute; reflexivity|].
  apply (clusters_partition clock failures 3600). vm_compute. reflexivity.
Defined.

Definition first_bucket : list seen_event := firstn 2 (seen_events clock 0 failures).
Definition first_cluster : IncidentCluster :=
  match _make_cluster first_bucket with
  | Ok c => c
  | Raise _ => {| cluster_id := ""; cluster_category := ""; pattern_key := ""; event_ids := [];
                  endpoint_ids := []; first_seen_at := ""; last_seen_at := "";
                  cluster_severity := sev_low; affected_endpoint_count := 0; event_count := 0 |}
  end.

Lemma cluster_severity_bounds_witness :
  max_rank (map se_event first_bucket) < label_rank first_cluster.(cluster_severity) <->
  2 <= first_cluster.(affected_endpoint_count) /\ max_rank (map se_event first_bucket) < 3.
Proof. apply (cluster_severity_bounds first_bucket). vm_compute. reflexivity. Defined.

(** One event of a group without an offset, the other with one. *)
Definition mixed : list pydict :=
  [failure "e1" "host-a" "low" "2026-01-01T00:00:00"; failure "e2" "host-a" "low" "soon"].

Lemma mixed_raises : cluster_failure_events clock mixed 3600 = Raise TypeError.
Proof. vm_compute. reflexivity. Qed.

Lemma failures_aware : Forall aware_stamps failures.
Proof.
  assert (forall ev, In ev failures ->
    _parse_iso (Dict.get "first_seen_at" ev) = _parse_iso (Dict.get "last_seen_at" ev) /\
    match _parse_iso (Dict.get "last_seen_at" ev) with Some dt => is_aware dt | None => true end
      = true) as Hall.
  { intros ev Hev. cbn in Hev. by repeat destruct Hev as [<-|Hev]. }
  apply Forall_forall. intros ev Hev%list_elem_of_In k dt Hk Hp.
  destruct (Hall ev Hev) as [E1 E2].
  destruct Hk as [<-|[<-|[]]]; [rewrite E1 in Hp|]; by rewrite Hp in E2.
Qed.

Lemma clustering_raises_witness :
  cluster_failure_events clock mixed 3600 = Raise TypeError /\
  is_ok (cluster_failure_events clock failures 3600) = true.
Proof.
  split.
  - eapply (proj2 (proj2 (clustering_raises clock mixed 3600))); [left; reflexivity
      |right; left; reflexivity|vm_compute; reflexivity|vm_compute; discriminate].
  - apply (clustering_raises clock failures 3600). exact failures_aware.
Defined.

(** The clock face of an event is printed as UTC: midnight at +02:00 becomes
    midnight UTC, two hours later. *)
Example offset_forgotten :
  map first_seen_at (match cluster_failure_events clock
      [failure "e1" "host-a" "low" "2026-01-01T00:00:00+02:00"] 3600 with
    | Ok cs => cs | Raise _ => [] end) = ["2026-01-01T00:00:00+00:00"].
Proof. vm_compute. reflexivity. Qed.
End ClusterWitness.
