(* ===== verification/EvidenceSchema.v ===== *)
(** * Normalised evidence events

    [windows_network_toolkit/evidence_schema.py] and the normalisation half of
    [windows_network_toolkit/analytics_pipeline.py]: rows of the proxy commands
    become [EvidenceEvent] records that keep the row, a few normalised fields, a
    tier and a deterministic identifier.  The host name is a parameter
    ([EndpointHost]); reading the audit files is not modelled. *)

From S2P Require Import Prelude PyValue.
From Stdlib Require Import Ascii String SpecFloat Permutation.
From stdpp Require Import strings.

Open Scope string_scope.
Open Scope Z_scope.
Open Scope py_scope.

(** What [default_endpoint_id] returns on this machine. *)
Class EndpointHost := { default_endpoint_id : string }.

Module EvidenceTier.
Inductive evidenceTier :=
| T0_OBSERVATION
| T1_STATE_EVIDENCE
| T2_RUNTIME_EVIDENCE
| T3_PATH_EVIDENCE
| T4_WRITER_PROOF
| T5_GOVERNANCE_PROOF
| T6_CONTROLLED_VALIDATION
| T7_INDEPENDENT_VERIFICATION.

Definition evidence_tier_value (t : evidenceTier) : string :=
  match t with
  | T0_OBSERVATION => "T0_OBSERVATION"
  | T1_STATE_EVIDENCE => "T1_STATE_EVIDENCE"
  | T2_RUNTIME_EVIDENCE => "T2_RUNTIME_EVIDENCE"
  | T3_PATH_EVIDENCE => "T3_PATH_EVIDENCE"
  | T4_WRITER_PROOF => "T4_WRITER_PROOF"
  | T5_GOVERNANCE_PROOF => "T5_GOVERNANCE_PROOF"
  | T6_CONTROLLED_VALIDATION => "T6_CONTROLLED_VALIDATION"
  | T7_INDEPENDENT_VERIFICATION => "T7_INDEPENDENT_VERIFICATION"
  end.
End EvidenceTier.

Definition STANDARD_LIMITATIONS : list string :=
  ["Listener ownership is correlation, not registry writer proof.";
   "Registry writer attribution requires Sysmon, Procmon, ETW, or EventLog evidence.";
   "Successful proxy probe does not prove the proxy is safe or intended.";
   "Risk classification is a triage signal, not a malware verdict.";
   "Evidence tier does not grant execution authority; policy and human approval remain separate."].

Record EvidenceEvent := {
  event_id : string;
  timestamp_utc : string;
  endpoint_id : option string;
  evidence_type : string;
  source_command : string;
  raw_snapshot : pydict;
  normalized_fields : pydict;
  evidence_tier : string;
  evidence_summary : string;
  event_limitations : list string;
}.

(** [v == n] for an integer [n]. *)
Definition equals_int (v : pyval) (n : Z) : bool :=
  match v with
  | PInt z => z =? n
  | PBool b => (if b then 1 else 0) =? n
  | PFloat f => F64.eqb f (F64.of_Z n)
  | _ => false
  end.

(** [v if isinstance(v, dict) else {}]. *)
Definition dict_or_empty (v : pyval) : pydict :=
  match v with PDict d => d | _ => [] end.

Section Normalise.
Context {H : PyHost} {E : EndpointHost}.

Definition make_event_id (timestamp_utc evidence_type : string) (stable_fields : pydict) : string :=
  PyStr.take 24 (sha256_hexdigest (Json.dumps_compact (PDict
    ["timestamp_utc" :-> PStr timestamp_utc; "evidence_type" :-> PStr evidence_type;
     "stable" :-> PDict stable_fields]))).

(** [str(raw.get("timestamp_utc") or raw.get("timestamp") or "")]. *)
Definition row_timestamp (raw : pydict) : string :=
  py_str (py_or (py_or (Dict.get "timestamp_utc" raw) (Dict.get "timestamp" raw)) (PStr "")).

(** [raw.get("endpoint_id") or default_endpoint_id()], printed unless falsy. *)
Definition row_endpoint (raw : pydict) : option string :=
  let v := py_or (Dict.get "endpoint_id" raw) (PStr default_endpoint_id) in
  if py_bool v then Some (py_str v) else None.

Definition make_event (raw : pydict) (etype command : string) (normalized stable : pydict)
    (tier : EvidenceTier.evidenceTier) (summary : string) : EvidenceEvent :=
  let ts := row_timestamp raw in
  {| event_id := make_event_id ts etype stable;
     timestamp_utc := ts;
     endpoint_id := row_endpoint raw;
     evidence_type := etype;
     source_command := command;
     raw_snapshot := raw;
     normalized_fields := normalized;
     evidence_tier := EvidenceTier.evidence_tier_value tier;
     evidence_summary := summary;
     event_limitations := STANDARD_LIMITATIONS |}.

(** The four normalisers; a row that is not a dictionary has no [get]. *)
Definition state_event (row : pyval) (source_command : string) : result EvidenceEvent :=
  raw ← Dict.of_val row;
  let enabled := py_bool (py_or (Dict.get "wininet_proxy_enabled" raw)
                                (Dict.get "proxy_enable" raw)) in
  let server := py_str (py_or (py_or (Dict.get "wininet_proxy_server" raw)
                                     (Dict.get "proxy_server" raw)) (PStr "")) in
  let winhttp_direct := Dict.get "winhttp_direct_access" raw in
  Ok (make_event raw "proxy_state" source_command
    ["wininet_proxy_enabled" :-> PBool enabled;
     "wininet_proxy_server" :-> PStr server;
     "wininet_auto_config_url" :->
       PStr (py_str (py_or (py_or (Dict.get "wininet_auto_config_url" raw)
                                  (Dict.get "auto_config_url" raw)) (PStr "")));
     "winhttp_direct_access" :-> winhttp_direct;
     "localhost_port" :-> Dict.get "localhost_port" raw;
     "wininet_winhttp_mismatch" :-> PBool (enabled && py_bool winhttp_direct)]
    ["server" :-> PStr server; "enabled" :-> PBool enabled; "winhttp_direct" :-> winhttp_direct]
    EvidenceTier.T1_STATE_EVIDENCE
    ("WinINET proxy_enable=" ++ (if enabled then "1" else "0") ++ " proxy_server=" ++
     (if PyStr.is_empty server then "(none)" else server))).

Definition listener_event (row : pyval) (source_command : string) : result EvidenceEvent :=
  raw ← Dict.of_val row;
  let proc := dict_or_empty (Dict.get "process" raw) in
  let port := Dict.get "localhost_port" raw in
  let found := py_bool (Dict.get "listener_found" raw) in
  let tier :=
    if py_bool (Dict.get "writer_proof" raw) || equals_int (Dict.get "sysmon_event_id" raw) 13
    then EvidenceTier.T4_WRITER_PROOF else EvidenceTier.T2_RUNTIME_EVIDENCE in
  Ok (make_event raw "listener_state" source_command
    ["listener_found" :-> PBool found;
     "localhost_port" :-> port;
     "listener_pid" :-> Dict.get "pid" proc;
     "listener_name" :-> Dict.get "name" proc;
     "listener_path" :-> Dict.get "exe_path" proc;
     "listener_command_line" :-> Dict.get "cmdline" proc]
    ["port" :-> port; "pid" :-> Dict.get "pid" proc; "name" :-> Dict.get "name" proc]
    tier
    ("listener_found=" ++ py_str (PBool found) ++ " port=" ++ py_str port ++ " process=" ++
     py_str (py_or (Dict.get "name" proc) (PStr "unknown")))).

Definition probe_event (row : pyval) (source_command : string) : result EvidenceEvent :=
  raw ← Dict.of_val row;
  let health := match Dict.get "health" raw with PDict h => h | _ => raw end in
  let status := Dict.get "proxy_status" health in
  let direct := Dict.get "direct_probe_ok" health in
  let proxy := py_or (Dict.get "proxy_probe_ok" health) (Dict.get "external_probe_ok" health) in
  Ok (make_event raw "probe_result" source_command
    ["proxy_status" :-> status;
     "tcp_listening" :-> Dict.get "tcp_listening" health;
     "tcp_connect_ok" :-> Dict.get "tcp_connect_ok" health;
     "direct_probe_ok" :-> direct;
     "proxy_probe_ok" :-> proxy;
     "proxy_https_connect_ok" :-> Dict.get "proxy_https_connect_ok" health;
     "failure_reason" :-> Dict.get "failure_reason" health]
    ["proxy_status" :-> status; "direct" :-> direct; "proxy" :-> proxy]
    EvidenceTier.T3_PATH_EVIDENCE
    ("proxy_status=" ++ py_str status ++ " direct=" ++ py_str direct ++ " proxy=" ++ py_str proxy)).

Definition change_event (row : pyval) (source_command : string) : result EvidenceEvent :=
  raw ← Dict.of_val row;
  old_state ← Dict.of_val (py_or (py_or (Dict.get "old_state" raw) (Dict.get "before" raw))
                             (PDict []));
  new_state ← Dict.of_val (py_or (py_or (Dict.get "new_state" raw) (Dict.get "after" raw))
                             (PDict []));
  diagnosis ← Dict.of_val (py_or (Dict.get "reverter_diagnosis" raw) (PDict []));
  let old_server := Dict.get "wininet_proxy_server" old_state in
  let new_server := Dict.get "wininet_proxy_server" new_state in
  let new_enabled := Dict.get "wininet_proxy_enabled" new_state in
  Ok (make_event raw "proxy_change" source_command
    ["old_proxy_server" :-> old_server;
     "new_proxy_server" :-> new_server;
     "old_proxy_enabled" :-> Dict.get "wininet_proxy_enabled" old_state;
     "new_proxy_enabled" :-> new_enabled;
     "localhost_port" :-> Dict.get "localhost_port" new_state;
     "reverter_suspected" :-> PBool (py_bool (Dict.get "reverter_suspected" raw));
     "reverter_status" :-> Dict.get "status" diagnosis]
    ["old" :-> old_server; "new" :-> new_server; "enabled" :-> new_enabled]
    EvidenceTier.T1_STATE_EVIDENCE
    ("ProxyServer " ++ py_str old_server ++ " -> " ++ py_str new_server)).

(** ** Audit rows *)

(** [_dedupe_events]: the first event of each identifier. *)
Definition _dedupe_events (events : list EvidenceEvent) : list EvidenceEvent :=
  dedupe (fun a b => String.eqb a.(event_id) b.(event_id)) events.

Definition row_event_is (names : list string) (row : pydict) : bool :=
  match Dict.get "event" row with PStr s => PyStr.mem s names | _ => false end.

(** [f(v)] when [v] is truthy, nothing otherwise. *)
Definition when_truthy (v : pyval) (f : pyval -> result EvidenceEvent)
    : result (list EvidenceEvent) :=
  if py_bool v then e ← f v; Ok [e] else Ok [].

(** The two states of a change recorded as a [diff]. *)
Definition diff_side (diff : pydict) (side : string) : result pydict :=
  d ← Dict.of_val (py_or (Dict.get side diff) (PDict []));
  Ok ["wininet_proxy_server" :-> Dict.get "proxy_server" d;
      "wininet_proxy_enabled" :-> Dict.get "proxy_enable" d].

Definition diff_row_events (row : pydict) : result (list EvidenceEvent) :=
  diff ← Dict.of_val (Dict.get "diff" row);
  before ← diff_side diff "before";
  after ← diff_side diff "after";
  e ← change_event (PDict
    ["timestamp_utc" :-> py_or (Dict.get "timestamp" row) (Dict.get "timestamp_utc" row);
     "old_state" :-> PDict before;
     "new_state" :-> PDict after;
     "reverter_diagnosis" :-> Dict.get "reverter_diagnosis" row]) "proxy-watch";
  attribution ← Dict.of_val (Dict.get "attribution" row);
  probes ← when_truthy (Dict.get "health_audit" attribution)
             (fun v => probe_event v "proxy-health");
  Ok (e :: probes).

Definition audit_row_events (row : pydict) : result (list EvidenceEvent) :=
  if row_event_is ["proxy_change"] row then
    e ← change_event (PDict row) "proxy-watch";
    probes ← when_truthy (Dict.get "health_audit" row) (fun v => probe_event v "proxy-health");
    owners ← when_truthy (Dict.get "owner" row) (fun v => listener_event v "proxy-owner");
    states ← when_truthy (Dict.get "new_state" row) (fun v => state_event v "proxy-watch");
    Ok (e :: probes ++ owners ++ states)%list
  else if row_event_is ["poll"; "initial_poll"] row && py_bool (Dict.get "state" row) then
    e ← state_event (Dict.get "state" row) "proxy-watch"; Ok [e]
  else if row_event_is ["proxy_health_check"] row || py_bool (Dict.get "health" row) then
    e ← probe_event (PDict row) "proxy-health"; Ok [e]
  else if negb (is_none (Dict.get "wininet_proxy_server" row))
          || negb (is_none (Dict.get "wininet_proxy_enabled" row)) then
    e ← state_event (PDict row) "audit"; Ok [e]
  else if negb (is_none (Dict.get "listener_found" row)) then
    e ← listener_event (PDict row) "proxy-owner"; Ok [e]
  else if py_bool (Dict.get "diff" row) && py_bool (Dict.get "attribution" row) then
    diff_row_events row
  else Ok [].

Definition normalize_events_from_audit_rows (rows : list pydict) : result (list EvidenceEvent) :=
  es ← mapM_result audit_row_events rows;
  Ok (_dedupe_events (concat es)).

(** A fixture; [typed] are the events of its [evidence_events] key, which are
    records already. *)
Definition normalize_events_from_fixture (fixture : pydict) (typed : list EvidenceEvent)
    : result (list EvidenceEvent) :=
  states ← when_truthy (Dict.get "proxy_state" fixture) (fun v => state_event v "fixture");
  owners ← when_truthy (Dict.get "proxy_owner" fixture) (fun v => listener_event v "fixture");
  let inject := Dict.get "health_inject" fixture in
  health_row ←
    (if py_bool inject then
       h ← Dict.of_val inject;
       Ok (PDict ["timestamp_utc" :-> Dict.get "timestamp_utc" h; "health" :-> inject])
     else Ok (py_or (Dict.get "health_audit" fixture) (PDict [])));
  probes ← when_truthy health_row (fun v => probe_event v "proxy-health");
  timeline ←
    match py_or (Dict.get "timeline" fixture) (PList []) with
    | PList l => Ok l
    | PStr _ | PDict _ => Raise AttributeError
    | _ => Raise TypeError
    end;
  changes ← mapM_result (fun item =>
    d ← Dict.of_val item;
    if py_bool (Dict.get "new_state" d) || py_bool (Dict.get "old_state" d)
    then e ← change_event item "proxy-watch"; Ok [e] else Ok []) timeline;
  Ok (states ++ owners ++ probes ++ concat changes ++ typed)%list.
End Normalise.

(** ** Tiers of the normalised events *)

Section Properties.
Context {H : PyHost} {E : EndpointHost}.

(** A row that claims the registry writer. *)
Definition claims_writer (raw : pydict) : bool :=
  py_bool (Dict.get "writer_proof" raw) || equals_int (Dict.get "sysmon_event_id" raw) 13.

(** What a normaliser guarantees of its event. *)
Record normalised (e : EvidenceEvent) : Prop := {
  n_limitations : e.(event_limitations) = STANDARD_LIMITATIONS;
  n_stamp : e.(timestamp_utc) = row_timestamp e.(raw_snapshot);
  n_endpoint : e.(endpoint_id) = row_endpoint e.(raw_snapshot);
  n_tier :
    (e.(evidence_type) = "proxy_state" /\ e.(evidence_tier) = "T1_STATE_EVIDENCE") \/
    (e.(evidence_type) = "proxy_change" /\ e.(evidence_tier) = "T1_STATE_EVIDENCE") \/
    (e.(evidence_type) = "probe_result" /\ e.(evidence_tier) = "T3_PATH_EVIDENCE") \/
    (e.(evidence_type) = "listener_state" /\
     e.(evidence_tier) = if claims_writer e.(raw_snapshot) then "T4_WRITER_PROOF"
                         else "T2_RUNTIME_EVIDENCE");
}.

Lemma state_event_normalised v c e : state_event v c = Ok e -> normalised e.
Proof.
  unfold state_event. intros E1. apply bind_Ok in E1 as (raw & _ & E1). injection E1 as <-.
  constructor; cbn; tauto.
Qed.

Lemma listener_event_normalised v c e : listener_event v c = Ok e -> normalised e.
Proof.
  unfold listener_event. intros E1. apply bind_Ok in E1 as (raw & _ & E1). injection E1 as <-.
  constructor; cbn; try done. do 3 right. split; [done|]. unfold claims_writer.
  by destruct (_ || _).
Qed.

Lemma probe_event_normalised v c e : probe_event v c = Ok e -> normalised e.
Proof.
  unfold probe_event. intros E1. apply bind_Ok in E1 as (raw & _ & E1). injection E1 as <-.
  constructor; cbn; tauto.
Qed.

Lemma change_event_normalised v c e : change_event v c = Ok e -> normalised e.
Proof.
  unfold change_event. intros E1. do 4 apply bind_Ok in E1 as (? & _ & E1). injection E1 as <-.
  constructor; cbn; tauto.
Qed.

Lemma when_truthy_Forall (P : EvidenceEvent -> Prop) v f es :
  (forall v e, f v = Ok e -> P e) -> when_truthy v f = Ok es -> Forall P es.
Proof.
  intros Hf. unfold when_truthy. destruct (py_bool v); intros E1.
  - apply bind_Ok in E1 as (e & Ee & E1). injection E1 as <-. by repeat constructor; eauto.
  - injection E1 as <-. constructor.
Qed.

Lemma audit_row_events_normalised row es : audit_row_events row = Ok es -> Forall normalised es.
Proof.
  assert (forall v c e, state_event v c = Ok e -> normalised e) as Hs
    by (intros; by eapply state_event_normalised).
  assert (forall v c e, listener_event v c = Ok e -> normalised e) as Hl
    by (intros; by eapply listener_event_normalised).
  assert (forall v c e, probe_event v c = Ok e -> normalised e) as Hp
    by (intros; by eapply probe_event_normalised).
  assert (forall v c e, change_event v c = Ok e -> normalised e) as Hc
    by (intros; by eapply change_event_normalised).
  unfold audit_row_events, diff_row_events. intros E1. repeat split_hyp E1; inv_ok;
    repeat first [apply Forall_nil_2 | apply Forall_cons_2 | apply Forall_app_2]; eauto;
    (eapply when_truthy_Forall; [|eassumption]; cbn beta; eauto).
Qed.

Lemma audit_events_normalised rows es :
  normalize_events_from_audit_rows rows = Ok es -> Forall normalised es.
Proof.
  unfold normalize_events_from_audit_rows. intros E1. apply bind_Ok in E1 as (ess & Em & E1).
  injection E1 as <-. apply mapM_result_Forall2 in Em.
  assert (Forall normalised (concat ess)) as Hall.
  { induction Em as [|row es rows ess Hrow _ IH]; [constructor|]. cbn. apply Forall_app_2; [|done].
    by eapply audit_row_events_normalised. }
  rewrite Forall_forall in Hall |- *. intros e He. apply Hall.
  apply list_elem_of_In. apply list_elem_of_In in He. unfold _dedupe_events in He.
  by apply dedupe_incl in He.
Qed.

(** Normalised audit rows: every event carries the standard limitations; path,
    state and change rows never exceed their tier; a listener row is writer
    proof exactly when it claims the writer; and the identifiers are distinct. *)
Theorem audit_events_bounded rows es :
  normalize_events_from_audit_rows rows = Ok es ->
  Forall normalised es /\ List.NoDup (map event_id es) /\
  forall e, In e es -> e.(evidence_tier) = "T4_WRITER_PROOF" <->
    e.(evidence_type) = "listener_state" /\ claims_writer e.(raw_snapshot) = true.
Proof.
  intros E1. pose proof (audit_events_normalised _ _ E1) as Hn. split_and!; [done| |].
  - unfold normalize_events_from_audit_rows in E1. apply bind_Ok in E1 as (ess & _ & E1).
    injection E1 as <-. unfold _dedupe_events. rewrite map_dedupe.
    apply dedupe_NoDup, String.eqb_eq.
  - intros e He. rewrite Forall_forall in Hn.
    destruct (Hn e) as [_ _ _ Ht]; [by apply list_elem_of_In|].
    destruct Ht as [[-> ->]|[[-> ->]|[[-> ->]|[-> ->]]]]; [by intuition discriminate..|].
    destruct (claims_writer _); intuition discriminate.
Qed.
End Properties.
