(* ===== verification/ProxyHealth.v ===== *)
(** * Localhost proxy health

    [windows_network_toolkit/proxy_health.py]: the probes of a configured localhost proxy,
    the status derived from them, the incident a status stands for and the health block of
    the audit row.  The probes themselves (TCP connect, direct and proxied requests) are
    parameters that answer a flag and a message; a fixture passed in place of them is not
    modelled. *)

From S2P Require Import Prelude PyValue.
From Stdlib Require Import Ascii String.
From stdpp Require Import strings.

Open Scope string_scope.
Open Scope Z_scope.
Open Scope py_scope.

Inductive ProxyStatus :=
| HEALTHY_LOCALHOST_PROXY | DEAD_LOCALHOST_PROXY | LISTENER_NOT_PROXY | PROXY_FORWARDING_FAILED
| DIRECT_ONLY_WORKS | PROXY_ONLY_WORKS | BOTH_DIRECT_AND_PROXY_WORK | BOTH_DIRECT_AND_PROXY_FAIL
| INSUFFICIENT_DATA | STATUS_ERROR.

#[export] Instance ProxyStatus_eq_dec : EqDecision ProxyStatus.
Proof. solve_decision. Defined.

Definition proxy_status_value (s : ProxyStatus) : string :=
  match s with
  | HEALTHY_LOCALHOST_PROXY => "HEALTHY_LOCALHOST_PROXY"
  | DEAD_LOCALHOST_PROXY => "DEAD_LOCALHOST_PROXY"
  | LISTENER_NOT_PROXY => "LISTENER_NOT_PROXY"
  | PROXY_FORWARDING_FAILED => "PROXY_FORWARDING_FAILED"
  | DIRECT_ONLY_WORKS => "DIRECT_ONLY_WORKS"
  | PROXY_ONLY_WORKS => "PROXY_ONLY_WORKS"
  | BOTH_DIRECT_AND_PROXY_WORK => "BOTH_DIRECT_AND_PROXY_WORK"
  | BOTH_DIRECT_AND_PROXY_FAIL => "BOTH_DIRECT_AND_PROXY_FAIL"
  | INSUFFICIENT_DATA => "INSUFFICIENT_DATA"
  | STATUS_ERROR => "ERROR"
  end.

Definition _derive_proxy_status (tcp_connect_ok tcp_listening proxy_http_ok proxy_https_connect_ok
    direct_probe_ok external_probe_ok run_direct run_proxy : bool) : ProxyStatus * option string :=
  let proxy_any_ok := proxy_http_ok || proxy_https_connect_ok || external_probe_ok in
  if negb tcp_listening && negb tcp_connect_ok then
    (DEAD_LOCALHOST_PROXY, Some "No TCP listener on configured localhost port")
  else if run_direct && direct_probe_ok && run_proxy && negb proxy_any_ok then
    (DIRECT_ONLY_WORKS,
     Some "Direct path works; localhost proxy path failed — likely ERR_PROXY_CONNECTION_FAILED")
  else if tcp_connect_ok && run_proxy && negb proxy_any_ok then
    if tcp_listening
    then (LISTENER_NOT_PROXY, Some "Port accepts TCP but HTTP proxy / CONNECT forwarding failed")
    else (DEAD_LOCALHOST_PROXY, Some "TCP connect failed for configured port")
  else if run_proxy && proxy_any_ok && negb direct_probe_ok && run_direct then
    (PROXY_ONLY_WORKS, Some "Proxy path works; direct path failed")
  else if run_direct && direct_probe_ok && proxy_any_ok then (BOTH_DIRECT_AND_PROXY_WORK, None)
  else if run_direct && run_proxy && negb direct_probe_ok && negb proxy_any_ok then
    (BOTH_DIRECT_AND_PROXY_FAIL, Some "Both direct and proxy paths failed")
  else if proxy_any_ok then (HEALTHY_LOCALHOST_PROXY, None)
  else if run_proxy && tcp_connect_ok && negb proxy_any_ok then
    (PROXY_FORWARDING_FAILED, Some "Listener present but external forwarding failed")
  else (INSUFFICIENT_DATA, Some "Insufficient probe data").

(** ** The check *)

(** What the network answers to the probes of one check. *)
Record Probes := {
  tcp_probe : bool * string;
  direct_probe : string -> bool * string;
  proxy_probe : string -> bool * string;
  connect_probe : string -> bool * string;
}.

Record ProxyHealthResult := {
  hr_host : string;
  hr_port : Z;
  hr_timestamp_utc : string;
  hr_tcp_listening : bool;
  hr_listener_pid : pyval;
  hr_listener_name : pyval;
  hr_tcp_connect_ok : bool;
  hr_proxy_http_ok : bool;
  hr_proxy_https_connect_ok : bool;
  hr_external_probe_ok : bool;
  hr_direct_probe_ok : bool;
  hr_proxy_probe_ok : bool;
  hr_proxy_status : ProxyStatus;
  hr_failure_reason : option string;
  hr_evidence : list string;
  hr_limitations : list string;
  hr_test_urls_attempted : list string;
}.

Definition DEFAULT_TEST_URLS : list string :=
  ["https://www.msftconnecttest.com/connecttest.txt"; "https://www.microsoft.com";
   "https://www.google.com/generate_204"].

Definition _default_limitations : list string :=
  ["Listener ownership is correlation, not registry writer proof.";
   "Registry write attribution requires Sysmon, Procmon, or EventLog evidence.";
   "Successful probe does not prove the proxy is safe or intended."].

(** The direct probes stop at the first address that answers. *)
Fixpoint direct_loop (net : Probes) (urls : list string) : bool * list string :=
  match urls with
  | [] => (false, [])
  | url :: rest =>
      let '(ok, msg) := net.(direct_probe) url in
      if ok then (true, [msg]) else let '(found, msgs) := direct_loop net rest in (found, msg :: msgs)
  end.

(** The proxied probes of an address: a request, and for HTTPS a CONNECT; they stop when one
    of them went through.  The flags are those of the request and of the CONNECT. *)
Fixpoint proxy_loop (net : Probes) (urls : list string) : bool * bool * list string :=
  match urls with
  | [] => (false, false, [])
  | url :: rest =>
      let '(ok_http, msg_http) := net.(proxy_probe) url in
      let '(ok_conn, msgs) :=
        if PyStr.startswith url "https://"
        then let '(ok, msg) := net.(connect_probe) url in (ok, [msg_http; msg])
        else (false, [msg_http]) in
      if ok_http || ok_conn then (ok_http, ok_conn, msgs)
      else let '(h, c, more) := proxy_loop net rest in (h, c, (msgs ++ more)%list)
  end.

Section Check.
Context {H : PyHost}.

Definition check_localhost_proxy_health (net : Probes) (now host : string) (port : Z)
    (test_urls : option (list string)) (run_direct_probe run_proxy_probe : bool)
    (listener_info : option pydict) : ProxyHealthResult :=
  let urls := match test_urls with Some (u :: us) => u :: us | _ => DEFAULT_TEST_URLS end in
  let listener := default [] listener_info in
  let proc := match Dict.get "process" listener with PDict d => d | _ => [] end in
  let name := Dict.get "name" proc in
  let pid := Dict.get "pid" proc in
  let tcp_listening := py_bool (Dict.get "listener_found" listener) in
  let '(tcp_ok, tcp_msg) := net.(tcp_probe) in
  let listener_lines :=
    if tcp_listening then
      (("Port " ++ PyStr.of_Z port ++ " has a TCP listener")%string ::
       (if py_bool name
        then [("Listener process appears to be " ++ py_str name ++ " (PID " ++ py_str pid ++ ")")%string]
        else []))
    else [("No listener attributed on port " ++ PyStr.of_Z port)%string] in
  let '(direct_ok, direct_lines) := if run_direct_probe then direct_loop net urls else (false, []) in
  let '(proxy_http_ok, proxy_https_ok, proxy_lines) :=
    if run_proxy_probe && tcp_ok then proxy_loop net urls else (false, false, []) in
  let external_ok := proxy_http_ok || proxy_https_ok in
  let '(status, failure) :=
    _derive_proxy_status tcp_ok tcp_listening proxy_http_ok proxy_https_ok direct_ok external_ok
      run_direct_probe run_proxy_probe in
  {| hr_host := host; hr_port := port; hr_timestamp_utc := now; hr_tcp_listening := tcp_listening;
     hr_listener_pid := pid; hr_listener_name := name; hr_tcp_connect_ok := tcp_ok;
     hr_proxy_http_ok := proxy_http_ok; hr_proxy_https_connect_ok := proxy_https_ok;
     hr_external_probe_ok := external_ok; hr_direct_probe_ok := direct_ok;
     hr_proxy_probe_ok := proxy_http_ok || proxy_https_ok || external_ok;
     hr_proxy_status := status; hr_failure_reason := failure;
     hr_evidence := (tcp_msg :: listener_lines ++ direct_lines ++ proxy_lines)%list;
     hr_limitations := _default_limitations; hr_test_urls_attempted := urls |}.
End Check.

(** The health block of the audit row. *)
Definition health_block (h : ProxyHealthResult) : pydict :=
  ["proxy_status" :-> PStr (proxy_status_value h.(hr_proxy_status));
   "tcp_listening" :-> PBool h.(hr_tcp_listening);
   "listener_pid" :-> h.(hr_listener_pid);
   "listener_name" :-> h.(hr_listener_name);
   "proxy_https_connect_ok" :-> PBool h.(hr_proxy_https_connect_ok);
   "proxy_probe_ok" :-> PBool h.(hr_proxy_probe_ok);
   "direct_probe_ok" :-> PBool h.(hr_direct_probe_ok);
   "external_probe_ok" :-> PBool h.(hr_external_probe_ok);
   "failure_reason" :-> of_opt PStr h.(hr_failure_reason)].

(** ** What the flags and the status mean *)

Lemma direct_loop_ok (net : Probes) (urls : list string) :
  (direct_loop net urls).1 = true <-> exists url, In url urls /\ (net.(direct_probe) url).1 = true.
Proof.
  induction urls as [|url urls IH]; cbn [direct_loop].
  { split; [done|]. by intros (? & [] & _). }
  destruct (direct_probe net url) as [ok msg] eqn:E. destruct ok.
  - split; [|done]. intros _. exists url. rewrite E. by split; [left|].
  - destruct (direct_loop net urls) as [found msgs]. cbn [fst] in *. rewrite IH. split.
    + intros (u & Hin & Hu). exists u. by split; [right|].
    + intros (u & [<-|Hin] & Hu); [by rewrite E in Hu|]. by exists u.
Qed.

(** An address goes through the proxy: the request does, or the CONNECT of an HTTPS one. *)
Definition goes_through (net : Probes) (url : string) : bool :=
  (net.(proxy_probe) url).1 || PyStr.startswith url "https://" && (net.(connect_probe) url).1.

Lemma proxy_loop_ok (net : Probes) (urls : list string) :
  (proxy_loop net urls).1.1 || (proxy_loop net urls).1.2 = true
  <-> exists url, In url urls /\ goes_through net url = true.
Proof.
  unfold goes_through. induction urls as [|url urls IH]; cbn [proxy_loop].
  { split; [done|]. by intros (? & [] & _). }
  destruct (proxy_probe net url) as [ok msg] eqn:Ep, (connect_probe net url) as [okc msgc] eqn:Ec.
  destruct (PyStr.startswith url "https://") eqn:Es; cbn [fst snd andb];
    [destruct (ok || okc) eqn:Eo|destruct (ok || false) eqn:Eo].
  all: cbn [fst snd].
  1,3: rewrite Eo; split; [|done]; intros _; exists url; rewrite Ep, Es, ?Ec; by split; [left|].
  all: destruct (proxy_loop net urls) as [[h c] more]; cbn [fst snd] in *; rewrite IH; split.
  all: try (intros (u & Hin & Hu); exists u; by split; [right|]).
  all: intros (u & [<-|Hin] & Hu); [rewrite Ep, Es, ?Ec in Hu; cbn in Hu; congruence|by exists u].
Qed.

(** What a status says of the two paths: which of them was seen to work, and that a status
    of a healthy proxy is one of a check that did not try the direct path. *)
Definition status_paths (s : ProxyStatus) (run_direct direct proxy : bool) : Prop :=
  match s with
  | DIRECT_ONLY_WORKS => direct = true /\ proxy = false
  | PROXY_ONLY_WORKS => run_direct = true /\ direct = false /\ proxy = true
  | BOTH_DIRECT_AND_PROXY_WORK => direct = true /\ proxy = true
  | BOTH_DIRECT_AND_PROXY_FAIL => run_direct = true /\ direct = false /\ proxy = false
  | HEALTHY_LOCALHOST_PROXY => run_direct = false /\ proxy = true
  | LISTENER_NOT_PROXY => proxy = false
  | PROXY_FORWARDING_FAILED | STATUS_ERROR => False
  | DEAD_LOCALHOST_PROXY | INSUFFICIENT_DATA => True
  end.

Section Properties.
Context {H : PyHost}.

(** A check records what its probes found: the direct path works exactly when it was tried and
    some address answered, the proxy path exactly when it was tried, the port accepts
    connections and some address went through; and the status says of the two paths what
    these flags do.  A status PROXY_FORWARDING_FAILED is never given. *)
Theorem health_measured net now host port urls run_direct run_proxy listener :
  let h := check_localhost_proxy_health net now host port urls run_direct run_proxy listener in
  (h.(hr_direct_probe_ok) = true <->
     run_direct = true
     /\ exists url, In url h.(hr_test_urls_attempted) /\ (net.(direct_probe) url).1 = true)
  /\ (h.(hr_proxy_probe_ok) = true <->
     run_proxy = true /\ net.(tcp_probe).1 = true
     /\ exists url, In url h.(hr_test_urls_attempted) /\ goes_through net url = true)
  /\ status_paths h.(hr_proxy_status) run_direct h.(hr_direct_probe_ok) h.(hr_proxy_probe_ok).
Proof.
  cbn zeta. unfold check_localhost_proxy_health.
  set (us := match urls with Some (u :: us) => u :: us | _ => DEFAULT_TEST_URLS end).
  destruct (tcp_probe net) as [tcp_ok msg]. set (listening := py_bool _).
  pose proof (direct_loop_ok net us) as Hd. pose proof (proxy_loop_ok net us) as Hp.
  destruct (direct_loop net us) as [dok dl], (proxy_loop net us) as [[ph pc] pl].
  cbn [fst snd] in Hd, Hp.
  destruct run_direct, run_proxy, tcp_ok; cbn [andb];
    destruct (_derive_proxy_status _ _ _ _ _ _ _ _) as [st failure] eqn:Es;
    cbn [hr_direct_probe_ok hr_proxy_probe_ok hr_proxy_status hr_test_urls_attempted fst];
    rewrite ?orb_diag, <- ?Hd, <- ?Hp; clear Hd Hp; clearbody listening;
    (split; [tauto || intuition discriminate|]);
    (split; [destruct ph, pc; tauto || intuition discriminate|]);
    destruct listening, dok, ph, pc; cbn in Es; injection Es as <- _; cbn; repeat split; auto.
Qed.

Lemma external_is_proxy net now host port urls run_direct run_proxy listener :
  let h := check_localhost_proxy_health net now host port urls run_direct run_proxy listener in
  h.(hr_external_probe_ok) = h.(hr_proxy_probe_ok).
Proof.
  cbn zeta. unfold check_localhost_proxy_health. destruct (tcp_probe net) as [tcp_ok msg].
  destruct (if run_direct then _ else _) as [dok dl], (if run_proxy && tcp_ok then _ else _) as [[ph pc] pl].
  destruct (_derive_proxy_status _ _ _ _ _ _ _ _) as [st failure]. cbn. by rewrite orb_diag.
Qed.
End Properties.

(** A port that accepts a connection but has no attributed listener is called dead, because
    its connect failed. *)
Example accepted_port_called_dead :
  _derive_proxy_status true false false false false false true true
  = (DEAD_LOCALHOST_PROXY, Some "TCP connect failed for configured port").
Proof. reflexivity. Qed.
