(* ===== verification/IncidentClassifier.v ===== *)
(** * Classifying endpoint proxy incidents

    [windows_network_toolkit/incident_classifier.py]: the latest event of each
    type is read, a chain of conditions picks the incident class, and three
    adjustments follow (trusted developer tools, WinINET/WinHTTP mismatch, stale
    proxies).  The extracted fields are a record ([signals]) so that the
    decision can be stated on them; what a class reports is also stated on the
    events, and on the health check ([ProxyHealth]) a probe event comes from. *)

From S2P Require Import Prelude PyValue EvidenceSchema ProxyHealth.
From Stdlib Require Import Ascii String SpecFloat Permutation.
From stdpp Require Import strings.

Open Scope string_scope.
Open Scope Z_scope.
Open Scope py_scope.

Definition _DEV_TRUSTED : list string := ["node.exe"; "node"; "python.exe"; "python"].

Record EndpointIncidentRecord := {
  incident_id : string;
  ir_timestamp_utc : string;
  ir_endpoint_id : option string;
  incident_class : string;
  risk_level : string;
  ir_confidence : F64.t;
  supporting_evidence : list string;
  contradicting_evidence : list string;
  ir_limitations : list string;
  recommended_policy_action : string;
  human_interpretation : string;
}.

(** What the classifier reads of a bundle. *)
Record signals := {
  sg_enabled : option bool;
  sg_winhttp_mismatch : option bool;
  sg_listener_found : option bool;
  sg_direct_ok : option bool;
  sg_proxy_ok : option bool;
  sg_proxy_status : option string;
  sg_listener_name : option string;
  sg_reverter_status : option string;
  sg_reverter_flag : option bool;
  sg_writer_proof : bool;
}.

(** The five variables the chain of conditions assigns. *)
Record incident_verdict := {
  v_class : string;
  v_risk : string;
  v_confidence : F64.t;
  v_policy : string;
  v_interpretation : string;
}.

(** Truthiness and identity tests on an optional flag. *)
Definition yes (o : option bool) : bool := match o with Some true => true | _ => false end.
Definition is_false (o : option bool) : bool := match o with Some false => true | _ => false end.

(** [o in (s1, ...)] for an optional text. *)
Definition text_in (o : option string) (l : list string) : bool :=
  match o with Some s => PyStr.mem s l | None => false end.

(** [o or d]. *)
Definition name_or (o : option string) (d : string) : string :=
  match o with Some s => if PyStr.is_empty s then d else s | None => d end.

Definition verdict_of (cls risk : string) (conf : Z) (policy text : string) : incident_verdict :=
  {| v_class := cls; v_risk := risk; v_confidence := F64.lit conf 100; v_policy := policy;
     v_interpretation := text |}.

Definition REVERTER_STATUSES : list string :=
  ["REVERTER_SUSPECTED"; "PROXY_FLAPPING"; "REPEATED_LOCALHOST_PROXY_PORTS"].

(** The chain of conditions. *)
Definition base_verdict (s : signals) : incident_verdict :=
  if text_in s.(sg_reverter_status) REVERTER_STATUSES || yes s.(sg_reverter_flag) then
    verdict_of
      (if text_in s.(sg_reverter_status) ["PROXY_FLAPPING"; "REPEATED_LOCALHOST_PROXY_PORTS"]
       then "PROXY_FLAPPING" else "REVERTER_SUSPECTED")
      "HIGH" 80 "alert_reverter_suspected"
      "Proxy settings changed repeatedly — attribution remains correlational without writer proof."
  else if is_false s.(sg_enabled) && yes s.(sg_direct_ok) then
    verdict_of "NO_PROXY_DIRECT_OK" "LOW" 85 "observe"
      "WinINET proxy disabled and direct path probe succeeded."
  else if is_false s.(sg_enabled) && is_false s.(sg_direct_ok) then
    verdict_of "BOTH_DIRECT_AND_PROXY_FAIL" "HIGH" 70 "investigate_network_path"
      "Proxy disabled but direct connectivity probe failed."
  else if yes s.(sg_enabled) && is_false s.(sg_listener_found) then
    verdict_of "DEAD_PROXY_CONFIG" "HIGH" 92 "block_or_disable_preview"
      "WinINET points to localhost proxy but no listener is attributed."
  else if text_in s.(sg_proxy_status) ["DIRECT_ONLY_WORKS"]
          || (yes s.(sg_direct_ok) && is_false s.(sg_proxy_ok) && yes s.(sg_enabled)) then
    verdict_of "DIRECT_ONLY_WORKS" "HIGH" 90 "block_or_disable_preview"
      "Direct path works; configured localhost proxy path fails."
  else if text_in s.(sg_proxy_status) ["LISTENER_NOT_PROXY"] then
    verdict_of "LISTENER_NOT_PROXY" "HIGH" 88 "alert_high_risk_proxy_transition"
      "Port has a listener but does not behave as an HTTP proxy."
  else if text_in s.(sg_proxy_status) ["PROXY_FORWARDING_FAILED"] then
    verdict_of "PROXY_FORWARDING_FAILED" "HIGH" 86 "alert_high_risk_proxy_transition"
      "Proxy-like listener cannot forward external traffic."
  else if text_in s.(sg_proxy_status) ["BOTH_DIRECT_AND_PROXY_WORK"; "HEALTHY_LOCALHOST_PROXY"] then
    verdict_of "BOTH_DIRECT_AND_PROXY_WORK" "LOW" 75 "observe_or_alert"
      "Both direct and proxy paths succeeded; audit whether routing is intended."
  else if text_in s.(sg_proxy_status) ["PROXY_ONLY_WORKS"]
          || (yes s.(sg_proxy_ok) && is_false s.(sg_direct_ok)) then
    verdict_of "PROXY_ONLY_WORKS" "MEDIUM" 72 "observe_or_alert"
      "Proxy path works while direct path failed — possible tunnel/VPN dependency."
  else if is_false s.(sg_direct_ok) && is_false s.(sg_proxy_ok) then
    verdict_of "BOTH_DIRECT_AND_PROXY_FAIL" "HIGH" 78 "investigate_network_path"
      "Both direct and proxy probes failed."
  else if yes s.(sg_enabled) && yes s.(sg_listener_found)
          && match s.(sg_proxy_ok) with None => true | Some _ => false end then
    verdict_of "LOCAL_PROXY_ACTIVE" "MEDIUM" 65 "observe_or_alert"
      "Localhost listener present; path probes incomplete."
  else if yes s.(sg_enabled) && yes s.(sg_listener_found) then
    verdict_of "LOCAL_PROXY_ACTIVE" "MEDIUM" 70 "observe_or_alert"
      ("Localhost proxy active; listener appears to be "
       ++ name_or s.(sg_listener_name) "unknown" ++ ".")
  else if yes s.(sg_enabled) then
    verdict_of "UNKNOWN_LOCAL_PROXY" "HIGH" 55 "human_review"
      "Proxy enabled but listener and probe evidence incomplete."
  else
    verdict_of "INSUFFICIENT_DATA" "UNKNOWN" 45 "observe" "Endpoint proxy evidence reviewed.".

(** A trusted developer tool on the port sets the risk to MEDIUM. *)
Definition adjust_trusted (s : signals) (v : incident_verdict) : incident_verdict :=
  match s.(sg_listener_name) with
  | Some name =>
      if negb (PyStr.is_empty name) && PyStr.mem (PyStr.lower name) _DEV_TRUSTED
         && PyStr.mem v.(v_class)
              ["LOCAL_PROXY_ACTIVE"; "BOTH_DIRECT_AND_PROXY_WORK"; "UNKNOWN_LOCAL_PROXY"]
      then {| v_class := v.(v_class); v_risk := "MEDIUM"; v_confidence := v.(v_confidence);
              v_policy := v.(v_policy); v_interpretation := v.(v_interpretation) |}
      else v
  | None => v
  end.

Definition adjust_mismatch (s : signals) (v : incident_verdict) : incident_verdict :=
  if yes s.(sg_winhttp_mismatch)
     && negb (PyStr.mem v.(v_class)
                ["REVERTER_SUSPECTED"; "PROXY_FLAPPING"; "DEAD_PROXY_CONFIG"])
  then {| v_class := "WININET_WINHTTP_MISMATCH";
          v_risk := if PyStr.mem v.(v_risk) ["LOW"; "UNKNOWN"] then "MEDIUM" else v.(v_risk);
          v_confidence := F64.pymax v.(v_confidence) (F64.lit 72 100);
          v_policy := v.(v_policy); v_interpretation := v.(v_interpretation) |}
  else v.

Definition adjust_stale (s : signals) (v : incident_verdict) : incident_verdict :=
  if text_in s.(sg_reverter_status) ["STALE_PROXY_AFTER_PROCESS_EXIT"]
  then {| v_class := "STALE_PROXY_AFTER_PROCESS_EXIT"; v_risk := "HIGH";
          v_confidence := v.(v_confidence); v_policy := v.(v_policy);
          v_interpretation := "Proxy remains enabled after listener exited." |}
  else v.

Definition final_verdict (s : signals) : incident_verdict :=
  adjust_stale s (adjust_mismatch s (adjust_trusted s (base_verdict s))).

Definition MISMATCH_LINE : string := "WinINET enabled while WinHTTP reports direct access.".
Definition CORRELATION_LIMITATION : string :=
  "Likely process / correlation only; registry writer proof unavailable.".

(** ** Bundles *)

(** [sorted(l, key=timestamp)[-1]]. *)
Definition latest_of (events : list EvidenceEvent) : option EvidenceEvent :=
  last_opt (sorted_by String.ltb timestamp_utc events).

Definition _latest_by_type (events : list EvidenceEvent) (etype : string)
    : option EvidenceEvent :=
  latest_of (List.filter (fun e => String.eqb e.(evidence_type) etype) events).

Definition field_of (events : list EvidenceEvent) (etype name : string) : option pyval :=
  ev ← _latest_by_type events etype;
  match Dict.get name ev.(normalized_fields) with
  | PNone => None
  | v => Some v
  end.

Definition _bool_field (events : list EvidenceEvent) (etype name : string) : option bool :=
  option_map py_bool (field_of events etype name).

Section Classify.
Context {H : PyHost}.

Definition _str_field (events : list EvidenceEvent) (etype name : string) : option string :=
  option_map py_str (field_of events etype name).

Definition make_incident_id (ts cls : string) (endpoint : option string) : string :=
  "INC-" ++ PyStr.take 16 (sha256_hexdigest (Json.dumps_default (PDict
    ["ts" :-> PStr ts; "class" :-> PStr cls; "endpoint" :-> PStr (name_or endpoint "local")]))).

Definition signals_of (events : list EvidenceEvent) : signals :=
  {| sg_enabled := _bool_field events "proxy_state" "wininet_proxy_enabled";
     sg_winhttp_mismatch := _bool_field events "proxy_state" "wininet_winhttp_mismatch";
     sg_listener_found := _bool_field events "listener_state" "listener_found";
     sg_direct_ok := _bool_field events "probe_result" "direct_probe_ok";
     sg_proxy_ok := _bool_field events "probe_result" "proxy_probe_ok";
     sg_proxy_status := _str_field events "probe_result" "proxy_status";
     sg_listener_name := _str_field events "listener_state" "listener_name";
     sg_reverter_status := _str_field events "proxy_change" "reverter_status";
     sg_reverter_flag := _bool_field events "proxy_change" "reverter_suspected";
     sg_writer_proof :=
       existsb (fun e => String.eqb e.(evidence_tier) "T4_WRITER_PROOF") events |}.

(** The summaries of the latest events, in the order the code appends them. *)
Definition summaries_of (events : list EvidenceEvent) : list string :=
  omap (fun etype => option_map evidence_summary (_latest_by_type events etype))
    ["proxy_state"; "listener_state"; "probe_result"; "proxy_change"].

(** [next((e.endpoint_id for e in reversed(events) if e.endpoint_id), None)]. *)
Definition last_endpoint (events : list EvidenceEvent) : option string :=
  last_opt (omap (fun e => match e.(endpoint_id) with
                           | Some n => if PyStr.is_empty n then None else Some n
                           | None => None
                           end) events).

Definition endpoint_or_last (endpoint : option string) (events : list EvidenceEvent)
    : option string :=
  match endpoint with
  | Some s => if PyStr.is_empty s then last_endpoint events else Some s
  | None => last_endpoint events
  end.

Definition classify_incident_from_events (events : list EvidenceEvent)
    (timestamp endpoint : option string) : EndpointIncidentRecord :=
  match latest_of events with
  | None =>
      let ts := name_or timestamp "" in
      {| incident_id := make_incident_id ts "INSUFFICIENT_DATA" endpoint;
         ir_timestamp_utc := ts;
         ir_endpoint_id := endpoint;
         incident_class := "INSUFFICIENT_DATA";
         risk_level := "UNKNOWN";
         ir_confidence := F64.lit 2 10;
         supporting_evidence := [];
         contradicting_evidence := [];
         ir_limitations := (STANDARD_LIMITATIONS ++ ["No evidence events supplied."])%list;
         recommended_policy_action := "observe";
         human_interpretation :=
           "Insufficient evidence to classify endpoint proxy incident." |}
  | Some newest =>
      let ts := name_or timestamp newest.(timestamp_utc) in
      let endpoint := endpoint_or_last endpoint events in
      let s := signals_of events in
      let v := final_verdict s in
      {| incident_id := make_incident_id ts v.(v_class) endpoint;
         ir_timestamp_utc := ts;
         ir_endpoint_id := endpoint;
         incident_class := v.(v_class);
         risk_level := v.(v_risk);
         ir_confidence := v.(v_confidence);
         supporting_evidence :=
           (summaries_of events ++
            if yes s.(sg_winhttp_mismatch) then [MISMATCH_LINE] else [])%list;
         contradicting_evidence := [];
         ir_limitations :=
           (STANDARD_LIMITATIONS ++
            if yes s.(sg_listener_found)
               && negb (PyStr.is_empty (name_or s.(sg_listener_name) ""))
               && negb s.(sg_writer_proof)
            then [CORRELATION_LIMITATION] else [])%list;
         recommended_policy_action := v.(v_policy);
         human_interpretation := v.(v_interpretation) |}
  end.

(** The group of an event: its endpoint, or [local]. *)
Definition endpoint_key (e : EvidenceEvent) : string := name_or e.(endpoint_id) "local".

Definition endpoint_groups (events : list EvidenceEvent)
    : list (string * list EvidenceEvent) :=
  map (fun k => (k, List.filter (fun e => String.eqb (endpoint_key e) k) events))
    (sorted_set (map endpoint_key events)).

Definition classify_incidents_from_events (events : list EvidenceEvent) : list EndpointIncidentRecord :=
  map (fun kg => classify_incident_from_events kg.2 None
                   (if String.eqb kg.1 "local" then None else Some kg.1))
    (endpoint_groups events).
End Classify.

(** ** What a class says about the signals *)

Section Properties.
Context {H : PyHost}.

(** The signals each class needs; [class_shown] states them on the events. *)
Definition class_evidence (cls : string) (s : signals) : bool :=
  if PyStr.mem cls ["REVERTER_SUSPECTED"; "PROXY_FLAPPING"] then
    text_in s.(sg_reverter_status) REVERTER_STATUSES || yes s.(sg_reverter_flag)
  else if String.eqb cls "STALE_PROXY_AFTER_PROCESS_EXIT" then
    text_in s.(sg_reverter_status) ["STALE_PROXY_AFTER_PROCESS_EXIT"]
  else if String.eqb cls "WININET_WINHTTP_MISMATCH" then yes s.(sg_winhttp_mismatch)
  else if String.eqb cls "NO_PROXY_DIRECT_OK" then
    is_false s.(sg_enabled) && yes s.(sg_direct_ok)
  else if String.eqb cls "BOTH_DIRECT_AND_PROXY_FAIL" then
    is_false s.(sg_direct_ok) && (is_false s.(sg_enabled) || is_false s.(sg_proxy_ok))
  else if String.eqb cls "DEAD_PROXY_CONFIG" then
    yes s.(sg_enabled) && is_false s.(sg_listener_found)
  else if String.eqb cls "DIRECT_ONLY_WORKS" then
    text_in s.(sg_proxy_status) ["DIRECT_ONLY_WORKS"]
    || (yes s.(sg_direct_ok) && is_false s.(sg_proxy_ok) && yes s.(sg_enabled))
  else if PyStr.mem cls ["LISTENER_NOT_PROXY"; "PROXY_FORWARDING_FAILED"] then
    text_in s.(sg_proxy_status) [cls]
  else if String.eqb cls "BOTH_DIRECT_AND_PROXY_WORK" then
    text_in s.(sg_proxy_status) ["BOTH_DIRECT_AND_PROXY_WORK"; "HEALTHY_LOCALHOST_PROXY"]
  else if String.eqb cls "PROXY_ONLY_WORKS" then
    text_in s.(sg_proxy_status) ["PROXY_ONLY_WORKS"]
    || (yes s.(sg_proxy_ok) && is_false s.(sg_direct_ok))
  else if String.eqb cls "LOCAL_PROXY_ACTIVE" then
    yes s.(sg_enabled) && yes s.(sg_listener_found)
  else if String.eqb cls "UNKNOWN_LOCAL_PROXY" then
    yes s.(sg_enabled) && negb (yes s.(sg_listener_found))
  else String.eqb cls "INSUFFICIENT_DATA" && negb (yes s.(sg_enabled)).

(** The classes with their risk before the adjustments. *)
Definition CLASS_RISKS : list (string * string) :=
  [("REVERTER_SUSPECTED", "HIGH"); ("PROXY_FLAPPING", "HIGH"); ("NO_PROXY_DIRECT_OK", "LOW");
   ("BOTH_DIRECT_AND_PROXY_FAIL", "HIGH"); ("DEAD_PROXY_CONFIG", "HIGH");
   ("DIRECT_ONLY_WORKS", "HIGH"); ("LISTENER_NOT_PROXY", "HIGH");
   ("PROXY_FORWARDING_FAILED", "HIGH"); ("BOTH_DIRECT_AND_PROXY_WORK", "LOW");
   ("PROXY_ONLY_WORKS", "MEDIUM"); ("LOCAL_PROXY_ACTIVE", "MEDIUM");
   ("UNKNOWN_LOCAL_PROXY", "HIGH"); ("INSUFFICIENT_DATA", "UNKNOWN")].

Definition bounded_confidence (c : F64.t) : bool :=
  F64.leb (F64.lit 2 10) c && F64.leb c (F64.lit 92 100).

Lemma base_verdict_spec s :
  class_evidence (base_verdict s).(v_class) s = true /\
  In ((base_verdict s).(v_class), (base_verdict s).(v_risk)) CLASS_RISKS /\
  bounded_confidence (base_verdict s).(v_confidence) = true /\
  bounded_confidence (F64.pymax (base_verdict s).(v_confidence) (F64.lit 72 100)) = true.
Proof.
  unfold base_verdict.
  destruct (text_in s.(sg_reverter_status) REVERTER_STATUSES || _) eqn:E0.
  { destruct (text_in (sg_reverter_status s) ["PROXY_FLAPPING"; _]);
      (split_and!; [exact E0|cbn; tauto|vm_compute; reflexivity..]). }
  repeat match goal with
  | |- context [if ?b then verdict_of _ _ _ _ _ else _] =>
      destruct b eqn:?;
        [split_and!; [cbn; bool_facts; repeat match goal with E : _ = true |- _ => rewrite E end;
                      rewrite ?orb_true_r;
                      try (destruct (yes (sg_enabled s)), (yes (sg_listener_found s)); done)
                     |cbn; tauto|vm_compute; reflexivity..]|]
  end.
  split_and!; [|cbn; tauto|vm_compute; reflexivity..].
  cbn. by destruct (yes (sg_enabled s)).
Qed.

(** What every stage of the adjustments keeps. *)
Definition sound_verdict (s : signals) (v : incident_verdict) : Prop :=
  class_evidence v.(v_class) s = true /\
  In v.(v_risk) ["LOW"; "MEDIUM"; "HIGH"; "UNKNOWN"] /\
  (v.(v_risk) = "LOW" -> In v.(v_class) ["NO_PROXY_DIRECT_OK"; "BOTH_DIRECT_AND_PROXY_WORK"]) /\
  (v.(v_risk) = "UNKNOWN" -> v.(v_class) = "INSUFFICIENT_DATA") /\
  bounded_confidence v.(v_confidence) = true /\
  bounded_confidence (F64.pymax v.(v_confidence) (F64.lit 72 100)) = true.

Lemma base_sound s : sound_verdict s (base_verdict s).
Proof.
  destruct (base_verdict_spec s) as (He & Hr & Hc & Hm).
  assert (forallb (fun cr =>
      PyStr.mem cr.2 ["LOW"; "MEDIUM"; "HIGH"; "UNKNOWN"]
      && (negb (String.eqb cr.2 "LOW")
          || PyStr.mem cr.1 ["NO_PROXY_DIRECT_OK"; "BOTH_DIRECT_AND_PROXY_WORK"])
      && (negb (String.eqb cr.2 "UNKNOWN") || String.eqb cr.1 "INSUFFICIENT_DATA"))
    CLASS_RISKS = true) as Ht by (vm_compute; reflexivity).
  rewrite forallb_forall in Ht. apply Ht in Hr. cbn [fst snd] in Hr.
  rewrite !andb_true_iff, PyStr.mem_In in Hr. destruct Hr as [[H1 H2] H3].
  split_and!; [done|done| | |done|done].
  - intros El. rewrite El in H2. by apply PyStr.mem_In in H2.
  - intros El. rewrite El in H3. by apply String.eqb_eq in H3.
Qed.

Lemma trusted_sound s v : sound_verdict s v -> sound_verdict s (adjust_trusted s v).
Proof.
  intros Hv. unfold adjust_trusted. destruct (sg_listener_name s) as [name|]; [|done].
  destruct (_ && _); [|done]. destruct Hv as (He & _ & _ & _ & Hc & Hm).
  split_and!; cbn; first [done|tauto].
Qed.

Lemma mismatch_sound s v : sound_verdict s v -> sound_verdict s (adjust_mismatch s v).
Proof.
  intros Hv. unfold adjust_mismatch. destruct (_ && _) eqn:Eb; [|done].
  apply andb_true_iff in Eb as [Ey _]. destruct Hv as (_ & Hr & _ & _ & _ & Hm).
  destruct (PyStr.mem v.(v_risk) ["LOW"; "UNKNOWN"]) eqn:Er.
  - split_and!; cbn [v_class v_risk v_confidence]; try done; [cbn; tauto|].
    unfold bounded_confidence, F64.pymax in *.
    destruct (F64.ltb (v_confidence v) (F64.lit 72 100)) eqn:El; [by vm_compute|].
    by rewrite El.
  - assert (~ In v.(v_risk) ["LOW"; "UNKNOWN"]) as Hn
      by (rewrite <- PyStr.mem_In; congruence).
    split_and!; cbn [v_class v_risk v_confidence]; try done.
    + intros Hl. destruct Hn. rewrite Hl. cbn. tauto.
    + intros Hl. destruct Hn. rewrite Hl. cbn. tauto.
    + unfold bounded_confidence, F64.pymax in *.
      destruct (F64.ltb (v_confidence v) (F64.lit 72 100)) eqn:El; [by vm_compute|].
      by rewrite El.
Qed.

Lemma stale_sound s v : sound_verdict s v -> sound_verdict s (adjust_stale s v).
Proof.
  intros Hv. unfold adjust_stale. destruct (text_in _ _) eqn:Eb; [|done].
  destruct Hv as (_ & _ & _ & _ & Hc & Hm). split_and!; cbn; first [done|tauto].
Qed.

Lemma final_sound s : sound_verdict s (final_verdict s).
Proof. apply stale_sound, mismatch_sound, trusted_sound, base_sound. Qed.

(** ** What the events show *)

(** The newest event of a type has this value in this field. *)
Definition newest_field (events : list EvidenceEvent) (etype name : string) (v : pyval) : Prop :=
  exists e, In e events /\ e.(evidence_type) = etype
    /\ (forall e', In e' events -> e'.(evidence_type) = etype ->
          String.ltb e.(timestamp_utc) e'.(timestamp_utc) = false)
    /\ Dict.get name e.(normalized_fields) = v /\ v <> PNone.

Definition shows (events : list EvidenceEvent) (etype name : string) (b : bool) : Prop :=
  exists v, newest_field events etype name v /\ py_bool v = b.
Definition shows_text (events : list EvidenceEvent) (etype name : string) (texts : list string) : Prop :=
  exists v, newest_field events etype name v /\ In (py_str v) texts.

Lemma last_sorted_newest (l : list EvidenceEvent) (e : EvidenceEvent) :
  last_opt (sorted_by String.ltb timestamp_utc l) = Some e ->
  In e l /\ forall e', In e' l -> String.ltb e.(timestamp_utc) e'.(timestamp_utc) = false.
Proof.
  intros Hl. assert (forall x, In x (sorted_by String.ltb timestamp_utc l) <-> In x l) as Hin.
  { intros x. rewrite <- !list_elem_of_In. by rewrite (sorted_by_Permutation String.ltb timestamp_utc l). }
  split; [apply Hin; by apply last_opt_In|]. intros e' He'%Hin.
  pose proof (sorted_by_sorted String.ltb timestamp_utc string_ltb_trans string_ltb_asym
                string_ltb_total string_eq_or l) as Hs.
  destruct (sorted_by String.ltb timestamp_utc l) as [|x l' _] using rev_ind; [done|].
  rewrite last_opt_app in Hl. injection Hl as ->. apply in_app_iff in He' as [He'|[->|[]]].
  - clear - Hs He'. induction l' as [|y l' IH]; [done|]. cbn in Hs. inversion_clear Hs as [|? ? Hs' Hy].
    destruct He' as [->|He']; [|by apply IH]. rewrite List.Forall_forall in Hy.
    apply (Hy e). apply in_or_app. right. by left.
  - destruct (String.ltb e'.(timestamp_utc) e'.(timestamp_utc)) eqn:E; [|done]. pose proof (string_ltb_asym _ _ E). congruence.
Qed.

Lemma field_newest events etype name v :
  field_of events etype name = Some v -> newest_field events etype name v.
Proof.
  unfold field_of. intros E. destruct (_latest_by_type events etype) as [e|] eqn:El; [|done].
  cbn in E. unfold _latest_by_type, latest_of in El. apply last_sorted_newest in El as [Hin Hnew].
  apply filter_In in Hin as [Hin Ht%String.eqb_eq]. exists e. split; [done|]. split; [done|]. split.
  - intros e' He' Ht'. apply Hnew, filter_In. split; [done|]. by rewrite Ht', String.eqb_refl.
  - destruct (Dict.get name (normalized_fields e)); try discriminate; by injection E as <-.
Qed.

Lemma bool_shown events etype name b :
  _bool_field events etype name = Some b -> shows events etype name b.
Proof.
  unfold _bool_field. destruct (field_of events etype name) as [v|] eqn:E; [|done].
  intros [= <-]. exists v. split; [by apply field_newest|done].
Qed.

Lemma yes_shown events etype name :
  yes (_bool_field events etype name) = true -> shows events etype name true.
Proof. intros Hy. apply bool_shown. by destruct (_bool_field _ _ _) as [[]|]. Qed.

Lemma no_shown events etype name :
  is_false (_bool_field events etype name) = true -> shows events etype name false.
Proof. intros Hy. apply bool_shown. by destruct (_bool_field _ _ _) as [[]|]. Qed.

Lemma text_shown events etype name texts :
  text_in (_str_field events etype name) texts = true -> shows_text events etype name texts.
Proof.
  unfold _str_field. destruct (field_of events etype name) as [v|] eqn:E; [|done].
  intros Ht%PyStr.mem_In. exists v. split; [by apply field_newest|done].
Qed.

(** What a class reports of the endpoint, read off the newest events. *)
Definition class_shown (events : list EvidenceEvent) (cls : string) : Prop :=
  let enabled := shows events "proxy_state" "wininet_proxy_enabled" in
  let listener := shows events "listener_state" "listener_found" in
  let direct := shows events "probe_result" "direct_probe_ok" in
  let proxy := shows events "probe_result" "proxy_probe_ok" in
  let status := shows_text events "probe_result" "proxy_status" in
  In cls ["REVERTER_SUSPECTED"; "PROXY_FLAPPING"]
    /\ (shows_text events "proxy_change" "reverter_status" REVERTER_STATUSES
        \/ shows events "proxy_change" "reverter_suspected" true)
  \/ cls = "STALE_PROXY_AFTER_PROCESS_EXIT"
    /\ shows_text events "proxy_change" "reverter_status" ["STALE_PROXY_AFTER_PROCESS_EXIT"]
  \/ cls = "WININET_WINHTTP_MISMATCH" /\ shows events "proxy_state" "wininet_winhttp_mismatch" true
  \/ cls = "NO_PROXY_DIRECT_OK" /\ enabled false /\ direct true
  \/ cls = "BOTH_DIRECT_AND_PROXY_FAIL" /\ direct false /\ (enabled false \/ proxy false)
  \/ cls = "DEAD_PROXY_CONFIG" /\ enabled true /\ listener false
  \/ cls = "DIRECT_ONLY_WORKS"
    /\ (status ["DIRECT_ONLY_WORKS"] \/ direct true /\ proxy false /\ enabled true)
  \/ In cls ["LISTENER_NOT_PROXY"; "PROXY_FORWARDING_FAILED"] /\ status [cls]
  \/ cls = "BOTH_DIRECT_AND_PROXY_WORK"
    /\ status ["BOTH_DIRECT_AND_PROXY_WORK"; "HEALTHY_LOCALHOST_PROXY"]
  \/ cls = "PROXY_ONLY_WORKS" /\ (status ["PROXY_ONLY_WORKS"] \/ proxy true /\ direct false)
  \/ cls = "LOCAL_PROXY_ACTIVE" /\ enabled true /\ listener true
  \/ cls = "UNKNOWN_LOCAL_PROXY" /\ enabled true
  \/ cls = "INSUFFICIENT_DATA".

Lemma evidence_shown events cls :
  class_evidence cls (signals_of events) = true -> class_shown events cls.
Proof.
  unfold class_evidence, class_shown. cbn zeta.
  repeat match goal with
  | |- (if PyStr.mem cls ?l then _ else _) = true -> _ =>
      let E := fresh in destruct (PyStr.mem cls l) eqn:E; [apply PyStr.mem_In in E|clear E]
  | |- (if String.eqb cls ?c then _ else _) = true -> _ =>
      let E := fresh in destruct (String.eqb_spec cls c) as [E|_]
  end.
  all: cbn [signals_of sg_reverter_status sg_reverter_flag sg_winhttp_mismatch sg_enabled
            sg_direct_ok sg_proxy_ok sg_proxy_status sg_listener_found];
    rewrite ?andb_true_iff, ?orb_true_iff, ?andb_true_iff, ?String.eqb_eq.
  all: pose proof (yes_shown events) as Y; pose proof (no_shown events) as N;
    pose proof (text_shown events) as T; intuition auto 12.
Qed.

(** An alarm among the newest events: a reverter, a stale proxy, a WinINET/WinHTTP mismatch
    or an enabled proxy without a listener. *)
Definition alarm (s : signals) : bool :=
  text_in s.(sg_reverter_status) ("STALE_PROXY_AFTER_PROCESS_EXIT" :: REVERTER_STATUSES)
  || yes s.(sg_reverter_flag) || yes s.(sg_winhttp_mismatch)
  || yes s.(sg_enabled) && is_false s.(sg_listener_found).

(** A LOW verdict survived every adjustment. *)
Lemma low_adjusted s :
  (final_verdict s).(v_risk) = "LOW" ->
  (base_verdict s).(v_risk) = "LOW" /\ yes s.(sg_winhttp_mismatch) = false
  /\ text_in s.(sg_reverter_status) ["STALE_PROXY_AFTER_PROCESS_EXIT"] = false
  /\ (final_verdict s).(v_class) = (base_verdict s).(v_class).
Proof.
  unfold final_verdict, adjust_stale. destruct (text_in _ ["STALE_PROXY_AFTER_PROCESS_EXIT"]); [done|].
  assert (Ht : (adjust_trusted s (base_verdict s)).(v_risk) = "LOW" ->
    (base_verdict s).(v_risk) = "LOW" /\ (adjust_trusted s (base_verdict s)) = base_verdict s).
  { unfold adjust_trusted. destruct (sg_listener_name s); [|done]. by destruct (_ && _). }
  assert (Hc : (base_verdict s).(v_risk) = "LOW" ->
    PyStr.mem (base_verdict s).(v_class) ["REVERTER_SUSPECTED"; "PROXY_FLAPPING"; "DEAD_PROXY_CONFIG"]
    = false).
  { intros Hr. destruct (base_sound s) as (_ & _ & Hl & _).
    destruct (Hl Hr) as [E|[E|[]]]; rewrite <- E; reflexivity. }
  unfold adjust_mismatch. destruct (yes (sg_winhttp_mismatch s)); cbn [andb].
  - destruct (negb _) eqn:En; cbn [v_risk].
    + destruct (PyStr.mem _ ["LOW"; "UNKNOWN"]) eqn:Em; [done|]. intros Hl. rewrite Hl in Em. done.
    + intros [Hl E]%Ht. rewrite E, (Hc Hl) in En. done.
  - intros [Hl E]%Ht. by rewrite E.
Qed.

(** A LOW risk is never given over an alarm. *)
Lemma low_no_alarm s :
  (final_verdict s).(v_risk) = "LOW" ->
  alarm s = false
  /\ ((final_verdict s).(v_class) = "NO_PROXY_DIRECT_OK"
      \/ (final_verdict s).(v_class) = "BOTH_DIRECT_AND_PROXY_WORK").
Proof.
  intros (Hl & Hm & Hs & Hc)%low_adjusted. rewrite Hc. unfold alarm. rewrite Hm. split.
  - assert (text_in s.(sg_reverter_status) ("STALE_PROXY_AFTER_PROCESS_EXIT" :: REVERTER_STATUSES)
            = text_in s.(sg_reverter_status) REVERTER_STATUSES) as ->.
    { destruct (sg_reverter_status s) as [t|]; [|done]. cbn in Hs |- *.
      rewrite orb_false_r in Hs. by rewrite Hs. }
    revert Hl. unfold base_verdict.
    destruct (text_in s.(sg_reverter_status) REVERTER_STATUSES || yes s.(sg_reverter_flag));
      [by destruct (text_in _ _)|].
    destruct (sg_enabled s) as [[]|], (sg_listener_found s) as [[]|]; done.
  - destruct (base_sound s) as (_ & _ & Hin & _). destruct (Hin Hl) as [E|[E|[]]]; rewrite <- E; auto.
Qed.

(** ** Incidents of a health check *)

(** What the path classes say when the newest probe event is that of a health check: the
    paths they name were measured.  A check that skips the direct path and finds the proxy
    working is also called BOTH_DIRECT_AND_PROXY_WORK. *)
Definition measured_class (cls : string) (run_direct direct proxy : bool) : Prop :=
  (cls = "NO_PROXY_DIRECT_OK" -> direct = true)
  /\ (cls = "DIRECT_ONLY_WORKS" -> direct = true /\ proxy = false)
  /\ (cls = "PROXY_ONLY_WORKS" -> proxy = true /\ direct = false)
  /\ (cls = "BOTH_DIRECT_AND_PROXY_WORK" -> proxy = true /\ (direct = true \/ run_direct = false))
  /\ (cls = "BOTH_DIRECT_AND_PROXY_FAIL" -> direct = false).

(** The probe signals of a health check. *)
Definition health_signals (s : signals) (h : ProxyHealthResult) : Prop :=
  s.(sg_direct_ok) = Some h.(hr_direct_probe_ok)
  /\ s.(sg_proxy_ok) = Some h.(hr_proxy_probe_ok)
  /\ s.(sg_proxy_status) = Some (proxy_status_value h.(hr_proxy_status)).

Lemma health_event_signals events e row cmd h :
  _latest_by_type events "probe_result" = Some e ->
  Dict.get "health" row = PDict (health_block h) ->
  h.(hr_external_probe_ok) = h.(hr_proxy_probe_ok) ->
  forall (E : EndpointHost), probe_event (PDict row) cmd = Ok e ->
  health_signals (signals_of events) h.
Proof.
  intros Hl Hh Hx E He. unfold probe_event in He. cbn [Dict.of_val mbind result_bind] in He.
  rewrite Hh in He. injection He as <-.
  unfold health_signals, signals_of, _bool_field, _str_field, field_of.
  cbn [sg_direct_ok sg_proxy_ok sg_proxy_status]. rewrite Hl.
  split; [done|]. split; [|done].
  cbn. rewrite Hx. by destruct (hr_proxy_probe_ok h).
Qed.

Lemma health_class_measured s h run_direct :
  health_signals s h ->
  status_paths h.(hr_proxy_status) run_direct h.(hr_direct_probe_ok) h.(hr_proxy_probe_ok) ->
  measured_class (final_verdict s).(v_class) run_direct h.(hr_direct_probe_ok) h.(hr_proxy_probe_ok).
Proof.
  intros (Hd & Hp & Hs) Hst. destruct (final_sound s) as [He _]. unfold measured_class.
  split_and!; intros Hc; rewrite Hc in He; unfold class_evidence in He; cbn in He;
    rewrite ?Hd, ?Hp, ?Hs in He; cbn in He.
  all: destruct (hr_proxy_status h), (hr_direct_probe_ok h), (hr_proxy_probe_ok h);
    cbn in He, Hst; try (destruct (yes (sg_enabled s)), (is_false (sg_enabled s))); cbn in He;
    intuition congruence.
Qed.

(** ** Incidents *)

Lemma writer_proof_absent events :
  sg_writer_proof (signals_of events) = false <->
  forall e, In e events -> e.(evidence_tier) <> "T4_WRITER_PROOF".
Proof.
  cbn. rewrite <- not_true_iff_false, existsb_exists. split.
  - intros Hx e He' Ht. apply Hx. exists e. by rewrite Ht, String.eqb_refl.
  - intros Hx (e & He' & Ht%String.eqb_eq). by apply (Hx e).
Qed.


Lemma endpoint_groups_partition events :
  Permutation (concat (map snd (endpoint_groups events))) events.
Proof.
  unfold endpoint_groups. rewrite map_map. cbn.
  apply (groups_Permutation endpoint_key); [apply sorted_set_NoDup|].
  intros e He. apply sorted_set_In, in_map, He.
Qed.

(** The bundles of a run: their keys are distinct, each is not empty and holds
    exactly the events of its key, and together they hold every event once. *)
Theorem endpoint_groups_spec events :
  List.NoDup (map fst (endpoint_groups events)) /\
  Permutation (concat (map snd (endpoint_groups events))) events /\
  forall k g, In (k, g) (endpoint_groups events) ->
    g <> [] /\ forall e, In e g <-> In e events /\ endpoint_key e = k.
Proof.
  split_and!.
  - unfold endpoint_groups. rewrite map_map. cbn. rewrite map_id. apply sorted_set_NoDup.
  - apply endpoint_groups_partition.
  - intros k g Hin. unfold endpoint_groups in Hin.
    apply in_map_iff in Hin as (k' & [= -> <-] & Hk).
    apply sorted_set_In, in_map_iff in Hk as (e0 & <- & He0).
    assert (forall e, In e (List.filter (fun e => String.eqb (endpoint_key e) (endpoint_key e0))
      events) <-> In e events /\ endpoint_key e = endpoint_key e0) as Hf.
    { intros e. by rewrite filter_In, String.eqb_eq. }
    split; [|exact Hf]. intros Hnil. specialize (Hf e0). rewrite Hnil in Hf.
    by apply Hf.
Qed.

Definition trusted_name (s : signals) : bool :=
  match s.(sg_listener_name) with
  | Some n => PyStr.mem (PyStr.lower n) _DEV_TRUSTED
  | None => false
  end.

(** With both paths working, a listener on the list of trusted developer tools
    makes the incident MEDIUM where any other listener leaves it LOW. *)
Theorem trusted_listener_raises_risk s :
  (base_verdict s).(v_class) = "BOTH_DIRECT_AND_PROXY_WORK" ->
  yes s.(sg_winhttp_mismatch) = false ->
  text_in s.(sg_reverter_status) ["STALE_PROXY_AFTER_PROCESS_EXIT"] = false ->
  (final_verdict s).(v_risk) = if trusted_name s then "MEDIUM" else "LOW".
Proof.
  intros Hc Hm Hs. unfold final_verdict, adjust_stale, adjust_mismatch, adjust_trusted, trusted_name.
  rewrite Hs, Hm. cbn [andb].
  assert ((base_verdict s).(v_risk) = "LOW") as Hl.
  { destruct (base_verdict_spec s) as (_ & Hin & _). rewrite Hc in Hin.
    cbn in Hin. by repeat destruct Hin as [[= <-]|Hin]. }
  destruct (sg_listener_name s) as [name|]; [|done]. rewrite Hc.
  destruct name as [|c name]; [done|]. cbn [PyStr.is_empty negb andb].
  destruct (PyStr.mem (PyStr.lower (String c name)) _DEV_TRUSTED); [done|exact Hl].
Qed.
End Properties.

(** ** Witnesses *)
Module ClassifierWitness.
#[local] Instance host : PyHost := DemoHost.demo_host.
#[local] Instance endpoint : EndpointHost := {| default_endpoint_id := "host-a" |}.

Definition rows : list pydict :=
  [["event" :-> PStr "poll"; "state" :-> PDict
      ["timestamp_utc" :-> PStr "2026-01-01T00:00:00Z"; "wininet_proxy_enabled" :-> PBool true;
       "wininet_proxy_server" :-> PStr "127.0.0.1:8080"]];
   ["event" :-> PStr "proxy_health_check"; "timestamp_utc" :-> PStr "2026-01-01T00:00:05Z";
    "health" :-> PDict ["proxy_status" :-> PStr "HEALTHY_LOCALHOST_PROXY"]];
   ["listener_found" :-> PBool true; "timestamp_utc" :-> PStr "2026-01-01T00:00:06Z";
    "process" :-> PDict ["name" :-> PStr "node.exe"]]].

Definition events : list EvidenceEvent :=
  match normalize_events_from_audit_rows rows with Ok es => es | Raise _ => [] end.

Lemma audit_events_bounded_witness : List.NoDup (map event_id events).
Proof.
  refine (proj1 (proj2 (audit_events_bounded rows events _))). vm_compute. reflexivity.
Defined.

(** A host whose direct path is down and whose local proxy works. *)
Definition net : Probes :=
  {| tcp_probe := (true, "connected"); direct_probe := fun _ => (false, "direct failed");
     proxy_probe := fun _ => (true, "proxied"); connect_probe := fun _ => (true, "connected") |}.
Definition owner : pydict :=
  ["listener_found" :-> PBool true; "timestamp_utc" :-> PStr "2026-01-01T00:00:06Z";
   "process" :-> PDict ["name" :-> PStr "agent.exe"; "pid" :-> PInt 7]].
Definition check (run_direct : bool) : ProxyHealthResult :=
  check_localhost_proxy_health net "2026-01-01T00:00:05Z" "127.0.0.1" 8080 None run_direct true (Some owner).
Definition health_row (run_direct : bool) : pydict :=
  ["event" :-> PStr "proxy_health_check"; "timestamp_utc" :-> PStr "2026-01-01T00:00:05Z";
   "health" :-> PDict (health_block (check run_direct))].
Definition checked (run_direct : bool) : list EvidenceEvent :=
  match normalize_events_from_audit_rows
          [["event" :-> PStr "poll"; "state" :-> PDict
              ["timestamp_utc" :-> PStr "2026-01-01T00:00:00Z"; "wininet_proxy_enabled" :-> PBool true;
               "winhttp_direct_access" :-> PBool false;
               "wininet_proxy_server" :-> PStr "127.0.0.1:8080"]];
           health_row run_direct; owner] with
  | Ok es => es
  | Raise _ => []
  end.


(** The same host, checked without the direct probe, is reported as an endpoint on which both
    paths succeeded, at LOW risk. *)
Example untested_direct_path_called_working :
  let r := classify_incident_from_events (checked false) None None in
  (check false).(hr_proxy_status) = HEALTHY_LOCALHOST_PROXY
  /\ (check false).(hr_direct_probe_ok) = false
  /\ r.(incident_class) = "BOTH_DIRECT_AND_PROXY_WORK" /\ r.(risk_level) = "LOW"
  /\ r.(human_interpretation) = "Both direct and proxy paths succeeded; audit whether routing is intended."
  /\ (classify_incident_from_events (checked true) None None).(incident_class) = "PROXY_ONLY_WORKS".
Proof. vm_compute. repeat split; reflexivity. Qed.

Lemma trusted_listener_raises_risk_witness :
  (final_verdict (signals_of events)).(v_risk) = "MEDIUM".
Proof.
  apply (trusted_listener_raises_risk (signals_of events)); vm_compute; reflexivity.
Defined.
End ClassifierWitness.
