(* ===== verification/EndpointControls.v ===== *)
(** * Endpoint control tests

    [windows_network_toolkit/control_tests.py]: six controls over the collected
    proxy state, health audit, listener owner and reverter diagnosis, and their
    refinement by the class of an incident.  Evidence lines may be any value an
    audit row holds, so they are values here. *)

From S2P Require Import Prelude PyValue EvidenceSchema IncidentClassifier.
From Stdlib Require Import Ascii String.
From stdpp Require Import strings.

Open Scope string_scope.
Open Scope Z_scope.
Open Scope py_scope.

Module ControlTestOutcome.
Inductive controlTestOutcome := PASS | FAIL | PARTIAL | NOT_TESTED.

#[export] Instance controlTestOutcome_eq_dec : EqDecision controlTestOutcome.
Proof. solve_decision. Defined.

Definition outcome_text (o : controlTestOutcome) : string :=
  match o with
  | PASS => "PASS"
  | FAIL => "FAIL"
  | PARTIAL => "PARTIAL"
  | NOT_TESTED => "NOT_TESTED"
  end.
End ControlTestOutcome.
Import ControlTestOutcome.

Definition WRITER_LIMITATION : string :=
  "Likely process / correlation only; registry writer proof unavailable.".

Definition INCIDENT_CONTROL_MAP : list (string * list string) :=
  [("DEAD_PROXY_CONFIG",
    ["WININET_LOCALHOST_PROXY_HEALTH"; "DIRECT_VS_PROXY_PATH_COMPARISON";
     "WININET_PROXY_OWNER_VERIFICATION"]);
   ("LOCAL_PROXY_ACTIVE",
    ["WININET_LOCALHOST_PROXY_HEALTH"; "WININET_PROXY_OWNER_VERIFICATION";
     "DIRECT_VS_PROXY_PATH_COMPARISON"]);
   ("REVERTER_SUSPECTED", ["PROXY_REVERTER_DETECTION"; "SAFE_REMEDIATION_POLICY"]);
   ("PROXY_FLAPPING", ["PROXY_REVERTER_DETECTION"]);
   ("WININET_WINHTTP_MISMATCH", ["WININET_WINHTTP_ALIGNMENT"]);
   ("DIRECT_ONLY_WORKS", ["DIRECT_VS_PROXY_PATH_COMPARISON"]);
   ("BOTH_DIRECT_AND_PROXY_FAIL", ["DIRECT_VS_PROXY_PATH_COMPARISON"]);
   ("NO_PROXY", ["SAFE_REMEDIATION_POLICY"]);
   ("UNKNOWN_LOCAL_PROXY",
    ["WININET_PROXY_OWNER_VERIFICATION"; "WININET_LOCALHOST_PROXY_HEALTH"])].

Definition controls_for_incident_class (cls : string) : list string :=
  match List.find (fun kv => String.eqb kv.1 cls) INCIDENT_CONTROL_MAP with
  | Some kv => kv.2
  | None => ["WININET_LOCALHOST_PROXY_HEALTH"; "SAFE_REMEDIATION_POLICY"]
  end.

Record EndpointControlTestResult := {
  ct_control_id : string;
  ct_objective : string;
  ct_result : controlTestOutcome;
  ct_risk : string;
  ct_evidence : list pyval;
  ct_limitations : list pyval;
  ct_recommendation : string;
}.

Definition control_result (cid objective : string) (r : controlTestOutcome) (risk : string)
    (evidence limitations : list pyval) (rec : string) : EndpointControlTestResult :=
  {| ct_control_id := cid; ct_objective := objective; ct_result := r; ct_risk := risk;
     ct_evidence := evidence; ct_limitations := limitations; ct_recommendation := rec |}.

Definition control_test_dict (t : EndpointControlTestResult) : pydict :=
  ["control_id" :-> PStr t.(ct_control_id);
   "control_objective" :-> PStr t.(ct_objective);
   "test_result" :-> PStr (outcome_text t.(ct_result));
   "risk" :-> PStr t.(ct_risk);
   "evidence" :-> PList t.(ct_evidence);
   "limitations" :-> PList t.(ct_limitations);
   "recommendation" :-> PStr t.(ct_recommendation)].

Definition control_tests_to_dict (tests : list EndpointControlTestResult) : list pydict :=
  map control_test_dict tests.

Section Controls.
Context {H : PyHost}.

(** [health_audit] is absent, empty or a dictionary: an absent one is empty. *)
Definition _health_status (audit : pydict) : result string :=
  match audit with
  | [] => Ok ""
  | _ =>
      h ← Dict.of_val (py_or (Dict.get "health" audit) (PDict []));
      Ok (py_str (py_or (Dict.get "proxy_status" h) (PStr "")))
  end.

(** Outcome, risk and recommendation for a proxy status. *)
Definition health_outcome (status : string) : controlTestOutcome * string * string :=
  if PyStr.mem status ["HEALTHY_LOCALHOST_PROXY"; "BOTH_DIRECT_AND_PROXY_WORK"; "PROXY_ONLY_WORKS"]
  then (PASS, "LOW", "Continue monitoring; document expected dev tooling if applicable.")
  else if PyStr.mem status ["DEAD_LOCALHOST_PROXY"; "DIRECT_ONLY_WORKS"]
  then (FAIL, "HIGH",
        "Preview proxy-disable with typed confirmation; verify listener before apply.")
  else if PyStr.mem status ["LISTENER_NOT_PROXY"; "PROXY_FORWARDING_FAILED"]
  then (FAIL, "HIGH",
        "Investigate process on port; do not assume listener is a valid proxy.")
  else if String.eqb status "BOTH_DIRECT_AND_PROXY_FAIL"
  then (FAIL, "HIGH",
        "Broader network path investigation before proxy-specific remediation.")
  else (PARTIAL, "MEDIUM",
        "Re-run proxy-health with network access or fixture inject for full proof.").

Definition _test_localhost_proxy_health (state audit : pydict)
    : result EndpointControlTestResult :=
  let cid := "WININET_LOCALHOST_PROXY_HEALTH" in
  let objective := "Localhost WinINET proxy must forward external HTTPS when enabled." in
  wininet ← Dict.of_val (Dict.get_default "wininet" (PDict []) audit);
  let parsed := py_or (Dict.get "parsed_proxy_server" wininet) (PDict []) in
  let enabled := py_bool (Dict.get "wininet_proxy_enabled" state) in
  localhost ←
    (if enabled then d ← Dict.of_val parsed; Ok (py_bool (Dict.get "is_localhost_proxy" d))
     else Ok false);
  if negb localhost then
    Ok (control_result cid objective NOT_TESTED "LOW"
          [PStr "WinINET localhost proxy not enabled — health control not applicable"] []
          "No action unless proxy is later enabled toward localhost.")
  else
  status ← _health_status audit;
  evidence ← py_list (py_or (Dict.get "evidence" audit) (PList []));
  limitations ← py_list (py_or (Dict.get "limitations" audit) (PList []));
  let '(result, risk, rec) := health_outcome status in
  let evidence := firstn 4 evidence in
  Ok (control_result cid objective result risk
        match evidence with [] => [PStr ("proxy_status=" +:+ status)] | _ => evidence end
        limitations rec).

Definition _test_proxy_owner (state owner : pydict) : EndpointControlTestResult :=
  let cid := "WININET_PROXY_OWNER_VERIFICATION" in
  let objective := "Proxy registry changes should have a known and attributable owner." in
  if negb (py_bool (Dict.get "wininet_proxy_enabled" state)) then
    control_result cid objective NOT_TESTED "LOW" [PStr "Proxy disabled"] []
      "Enable proxy-watch when investigating drift."
  else
  let server := Dict.get "wininet_proxy_server" state in
  let evidence :=
    if py_bool server then [PStr ("ProxyServer: " ++ py_str server)] else [] in
  let name := Dict.get "name" (dict_or_empty (Dict.get "process" owner)) in
  let limitations :=
    [PStr WRITER_LIMITATION; PStr "Port ownership is correlation, not registry writer proof."] in
  if py_bool name then
    control_result cid objective PARTIAL "HIGH"
      (evidence ++ [PStr (py_str name +:+ " was listening on port "
                          +:+ py_str (Dict.get "localhost_port" owner))])%list
      limitations "Enable Sysmon Event ID 13 or collect Procmon registry trace."
  else if py_bool (Dict.get "listener_found" owner) then
    control_result cid objective PARTIAL "MEDIUM" evidence limitations
      "Listener found but process metadata incomplete — re-run proxy-owner elevated."
  else
    control_result cid objective FAIL "HIGH" evidence limitations
      "No listener owner — treat as dead proxy risk; collect writer attribution.".

Definition _test_reverter_detection (reverter : pydict) : result EndpointControlTestResult :=
  let cid := "PROXY_REVERTER_DETECTION" in
  let objective :=
    "Detect proxy settings returning after disable without operator confirmation." in
  let status := Dict.get "status" reverter in
  if negb (py_bool status) || match status with PStr s => String.eqb s "NONE" | _ => false end then
    Ok (control_result cid objective PASS "LOW"
          [PStr "No reverter or flapping pattern in timeline window"] [PStr WRITER_LIMITATION]
          "Continue proxy-watch during remediation windows.")
  else
  let text := py_str status in
  evidence ← py_list (py_or (Dict.get "evidence" reverter) (PList []));
  limitations ← py_list (py_or (Dict.get "limitations" reverter)
                           (PList [PStr WRITER_LIMITATION]));
  let '(result, risk) :=
    if PyStr.mem text ["REVERTER_SUSPECTED"; "PROXY_FLAPPING"; "REPEATED_LOCALHOST_PROXY_PORTS"]
    then (FAIL, "HIGH")
    else if String.eqb text "STALE_PROXY_AFTER_PROCESS_EXIT" then (FAIL, "HIGH")
    else (PARTIAL, "MEDIUM") in
  Ok (control_result cid objective result risk evidence limitations
        "Correlate with Sysmon registry writes; do not kill processes automatically.").

Definition path_outcome (direct_ok proxy_ok : bool) : controlTestOutcome * string * string :=
  if direct_ok && proxy_ok then
    (PASS, "LOW", "Both paths work — audit whether WinINET routing is intended.")
  else if direct_ok then
    (FAIL, "HIGH", "Browser likely broken via proxy — preview disable after human review.")
  else if proxy_ok then
    (PARTIAL, "MEDIUM", "Proxy path works without direct — check VPN/tunnel dependency.")
  else
    (FAIL, "HIGH", "Neither path succeeded — investigate DNS/TLS/firewall before proxy fix.").

Definition _test_direct_vs_proxy (audit : pydict) : result EndpointControlTestResult :=
  let cid := "DIRECT_VS_PROXY_PATH_COMPARISON" in
  let objective := "Compare direct HTTPS path with WinINET localhost proxy path." in
  match audit with
  | [] =>
      Ok (control_result cid objective NOT_TESTED "LOW" [PStr "No health audit available"] []
            "Run proxy-health before path comparison control.")
  | _ =>
      health ← Dict.of_val (py_or (Dict.get "health" audit) (PDict []));
      let direct_ok := py_bool (Dict.get "direct_probe_ok" health) in
      let proxy_ok := py_bool (Dict.get "proxy_probe_ok" health) in
      status ← _health_status audit;
      limitations ← py_list (py_or (Dict.get "limitations" audit) (PList []));
      let '(result, risk, rec) := path_outcome direct_ok proxy_ok in
      Ok (control_result cid objective result risk
            [PStr ("direct_probe_ok=" +:+ py_str (PBool direct_ok));
             PStr ("proxy_probe_ok=" +:+ py_str (PBool proxy_ok));
             PStr ("proxy_status=" +:+ status)]
            limitations rec)
  end.

Definition _test_safe_remediation_policy : EndpointControlTestResult :=
  control_result "SAFE_REMEDIATION_POLICY"
    "Destructive remediation must remain preview-only or require typed confirmation."
    PASS "LOW"
    [PStr "proxy-health and proxy-watch are read-only";
     PStr "proxy-disable defaults to dry-run";
     PStr "No automatic process kill or registry mutation in health pipeline"]
    [PStr "Operator may still run gated commands manually"]
    "Use proxy-disable --dry-run true before any live apply.".

Definition _test_wininet_winhttp_alignment (state : pydict) : EndpointControlTestResult :=
  let cid := "WININET_WINHTTP_ALIGNMENT" in
  let objective :=
    "WinINET and WinHTTP proxy configuration should align for predictable browser behavior." in
  let enabled := py_bool (Dict.get "wininet_proxy_enabled" state) in
  let winhttp_direct := py_bool (Dict.get_default "winhttp_direct_access" (PBool true) state) in
  if negb enabled then
    control_result cid objective PASS "LOW" [PStr "WinINET proxy disabled"] []
      "No alignment action required."
  else if winhttp_direct then
    control_result cid objective FAIL "MEDIUM"
      [PStr "WinINET proxy enabled"; PStr "WinHTTP reports direct access (no proxy server)"] []
      "Run diagnose --proof; reconcile WinINET vs WinHTTP with change management."
  else
    control_result cid objective PASS "LOW"
      [PStr "WinINET and WinHTTP both indicate proxied or aligned configuration"] []
      "Document expected corporate proxy policy.".

(** Absent arguments are empty dictionaries. *)
Definition run_endpoint_control_tests (proxy_state audit owner reverter : pydict)
    : result (list EndpointControlTestResult) :=
  t1 ← _test_localhost_proxy_health proxy_state audit;
  t3 ← _test_reverter_detection reverter;
  t4 ← _test_direct_vs_proxy audit;
  Ok [t1; _test_proxy_owner proxy_state owner; t3; t4; _test_safe_remediation_policy;
      _test_wininet_winhttp_alignment proxy_state].

(** ** Refinement by the incident *)

(** [next((e for e in reversed(events) if e.evidence_type == t), None)]. *)
Definition last_of_type (events : list EvidenceEvent) (etype : string) : option EvidenceEvent :=
  last_opt (List.filter (fun e => String.eqb e.(evidence_type) etype) events).

(** The state, audit and owner dictionaries the controls read. *)
Definition mapped_state (events : list EvidenceEvent) : pydict :=
  match last_of_type events "proxy_state" with
  | Some e => Dict.update e.(raw_snapshot) e.(normalized_fields)
  | None => []
  end.

Definition mapped_audit (events : list EvidenceEvent) : pydict :=
  match last_of_type events "probe_result" with
  | Some e =>
      ["health" :-> PDict e.(normalized_fields);
       "evidence" :-> PList [PStr e.(evidence_summary)];
       "limitations" :-> str_list e.(event_limitations);
       "wininet" :-> PDict ["parsed_proxy_server" :-> PDict
         ["is_localhost_proxy" :->
            PBool (py_bool (Dict.get "localhost_port" (mapped_state events)))]]]
  | None => []
  end.

Definition mapped_owner (events : list EvidenceEvent) : pydict :=
  match last_of_type events "listener_state" with
  | Some e => e.(raw_snapshot)
  | None => []
  end.

Definition mapped_reverter (incident : EndpointIncidentRecord) : pydict :=
  ["status" :-> PStr (if PyStr.mem incident.(incident_class)
                           ["REVERTER_SUSPECTED"; "PROXY_FLAPPING"; "STALE_PROXY_AFTER_PROCESS_EXIT"]
                      then incident.(incident_class) else "NONE");
   "evidence" :-> str_list incident.(supporting_evidence);
   "limitations" :-> str_list incident.(ir_limitations)].

Definition has_writer_proof (events : list EvidenceEvent) : bool :=
  existsb (fun e => String.eqb e.(evidence_tier) "T4_WRITER_PROOF") events.

Definition set_outcome (t : EndpointControlTestResult) (r : controlTestOutcome) (risk : string)
    (evidence : list pyval) : EndpointControlTestResult :=
  control_result t.(ct_control_id) t.(ct_objective) r risk evidence t.(ct_limitations)
    t.(ct_recommendation).

Definition refine_control (incident : EndpointIncidentRecord) (events : list EvidenceEvent)
    (t : EndpointControlTestResult) : EndpointControlTestResult :=
  let cls := incident.(incident_class) in
  let cid := t.(ct_control_id) in
  if String.eqb cid "WININET_LOCALHOST_PROXY_HEALTH" then
    if String.eqb cls "DEAD_PROXY_CONFIG" then set_outcome t FAIL "HIGH" t.(ct_evidence)
    else if PyStr.mem cls ["BOTH_DIRECT_AND_PROXY_WORK"; "LOCAL_PROXY_ACTIVE"; "PROXY_ONLY_WORKS"]
    then set_outcome t PASS t.(ct_risk) t.(ct_evidence)
    else t
  else if String.eqb cid "WININET_PROXY_OWNER_VERIFICATION" then
    if PyStr.mem cls ["LOCAL_PROXY_ACTIVE"; "UNKNOWN_LOCAL_PROXY"; "BOTH_DIRECT_AND_PROXY_WORK"]
    then if has_writer_proof events then set_outcome t PASS "LOW" t.(ct_evidence)
         else set_outcome t PARTIAL "HIGH" t.(ct_evidence)
    else t
  else if String.eqb cid "DIRECT_VS_PROXY_PATH_COMPARISON" then
    match last_of_type events "probe_result" with
    | None => set_outcome t NOT_TESTED t.(ct_risk) t.(ct_evidence)
    | Some _ =>
        if PyStr.mem cls ["DIRECT_ONLY_WORKS"; "BOTH_DIRECT_AND_PROXY_FAIL"]
        then set_outcome t FAIL t.(ct_risk) t.(ct_evidence)
        else if PyStr.mem cls ["BOTH_DIRECT_AND_PROXY_WORK"; "PROXY_ONLY_WORKS"]
        then set_outcome t PASS t.(ct_risk) t.(ct_evidence)
        else set_outcome t PARTIAL t.(ct_risk) t.(ct_evidence)
    end
  else if String.eqb cid "PROXY_REVERTER_DETECTION" then
    if PyStr.mem cls ["REVERTER_SUSPECTED"; "PROXY_FLAPPING"]
    then set_outcome t FAIL "HIGH"
           (t.(ct_evidence) ++ [PStr incident.(human_interpretation)])%list
    else t
  else if String.eqb cid "WININET_WINHTTP_ALIGNMENT" then
    if String.eqb cls "WININET_WINHTTP_MISMATCH" then set_outcome t FAIL "MEDIUM" t.(ct_evidence)
    else t
  else t.

Definition map_control_tests_from_incident (incident : EndpointIncidentRecord)
    (events : list EvidenceEvent) : result (list EndpointControlTestResult) :=
  tests ← run_endpoint_control_tests (mapped_state events) (mapped_audit events)
            (mapped_owner events) (mapped_reverter incident);
  Ok (map (refine_control incident events) tests).
End Controls.

Definition outcome_of (tests : list EndpointControlTestResult) (cid : string)
    : option controlTestOutcome :=
  ct_result <$> List.find (fun t => String.eqb t.(ct_control_id) cid) tests.

(** ** Properties *)

Section Properties.
Context {H : PyHost}.

Lemma py_or_dict (d : pydict) : exists d', py_or (PDict d) (PDict []) = PDict d'.
Proof. destruct d; eexists; reflexivity. Qed.

Lemma health_status_mapped (ev lim w : pyval) (d : pydict) :
  exists s, _health_status
    ["health" :-> PDict d; "evidence" :-> ev; "limitations" :-> lim; "wininet" :-> w] = Ok s.
Proof. destruct (py_or_dict d) as [d' Hd]. unfold _health_status. cbn -[py_or]. rewrite Hd. eauto. Qed.

(** The raw health control always answers when the audit is the mapped one. *)
Lemma health_mapped (state : pydict) (events : list EvidenceEvent) :
  exists t, _test_localhost_proxy_health state (mapped_audit events) = Ok t
            /\ t.(ct_control_id) = "WININET_LOCALHOST_PROXY_HEALTH".
Proof.
  unfold mapped_audit. destruct (last_of_type events "probe_result") as [e|].
  2:{ unfold _test_localhost_proxy_health; cbn -[py_bool Dict.get].
      destruct (py_bool (Dict.get "wininet_proxy_enabled" state)); cbn; eauto. }
  unfold _test_localhost_proxy_health.
  destruct (health_status_mapped (PList [PStr e.(evidence_summary)])
    (str_list e.(event_limitations))
    (PDict ["parsed_proxy_server" :-> PDict ["is_localhost_proxy" :->
       PBool (py_bool (Dict.get "localhost_port" (mapped_state events)))]])
    e.(normalized_fields)) as [s Hs].
  rewrite Hs. clear Hs. cbn -[health_outcome str_list mapped_state Dict.get _health_status].
  destruct (py_bool (Dict.get "wininet_proxy_enabled" state)); [|eexists; split; reflexivity].
  unfold str_list.
  destruct (py_bool (Dict.get "localhost_port" (mapped_state events)));
    [|eexists; split; reflexivity].
  destruct (health_outcome s) as [[r k] rec] eqn:Ho.
  destruct e.(event_limitations); eexists; split; reflexivity.
Qed.

(** The raw path control: it is untested exactly without a probe. *)
Lemma path_mapped (events : list EvidenceEvent) :
  exists t, _test_direct_vs_proxy (mapped_audit events) = Ok t
            /\ t.(ct_control_id) = "DIRECT_VS_PROXY_PATH_COMPARISON".
Proof.
  unfold mapped_audit. destruct (last_of_type events "probe_result") as [e|];
    [|eexists; split; reflexivity].
  unfold _test_direct_vs_proxy.
  destruct (health_status_mapped (PList [PStr e.(evidence_summary)])
    (str_list e.(event_limitations))
    (PDict ["parsed_proxy_server" :-> PDict ["is_localhost_proxy" :->
       PBool (py_bool (Dict.get "localhost_port" (mapped_state events)))]])
    e.(normalized_fields)) as [s Hs].
  rewrite Hs. clear Hs. destruct (py_or_dict e.(normalized_fields)) as [d Hd].
  cbn -[path_outcome str_list py_or _health_status Dict.get].
  change (Dict.get "health" (_ :: _)) with (PDict e.(normalized_fields)). rewrite Hd.
  cbn -[path_outcome str_list py_or _health_status Dict.get].
  change (Dict.get "limitations" (_ :: _)) with (str_list e.(event_limitations)).
  destruct (path_outcome _ _) as [[r k] rec].
  unfold str_list. destruct e.(event_limitations); eexists; split; reflexivity.
Qed.

(** The raw reverter control on the mapped diagnosis. *)
Lemma reverter_mapped (incident : EndpointIncidentRecord) :
  exists t, _test_reverter_detection (mapped_reverter incident) = Ok t
    /\ t.(ct_control_id) = "PROXY_REVERTER_DETECTION"
    /\ t.(ct_result) = (if PyStr.mem incident.(incident_class)
         ["REVERTER_SUSPECTED"; "PROXY_FLAPPING"; "STALE_PROXY_AFTER_PROCESS_EXIT"]
         then FAIL else PASS).
Proof.
  unfold _test_reverter_detection, mapped_reverter, str_list.
  destruct (PyStr.mem _ _) eqn:Hm; [|eexists; repeat split].
  apply PyStr.mem_In in Hm. cbn -[py_or].
  destruct Hm as [<-|[<-|[<-|[]]]], incident.(supporting_evidence), incident.(ir_limitations);
    eexists; repeat split.
Qed.

(** The owner control never passes before refinement. *)
Lemma owner_raw (state owner : pydict) :
  (_test_proxy_owner state owner).(ct_control_id) = "WININET_PROXY_OWNER_VERIFICATION"
  /\ (_test_proxy_owner state owner).(ct_result) <> PASS.
Proof.
  unfold _test_proxy_owner.
  repeat match goal with |- context [if ?b then _ else _] => destruct b; try (split; [reflexivity|discriminate]) end.
Qed.

Lemma alignment_raw (state : pydict) :
  (_test_wininet_winhttp_alignment state).(ct_control_id) = "WININET_WINHTTP_ALIGNMENT"
  /\ (_test_wininet_winhttp_alignment state).(ct_result)
     = if py_bool (Dict.get "wininet_proxy_enabled" state)
          && py_bool (Dict.get_default "winhttp_direct_access" (PBool true) state)
       then FAIL else PASS.
Proof.
  unfold _test_wininet_winhttp_alignment.
  destruct (py_bool (Dict.get "wininet_proxy_enabled" state));
    [destruct (py_bool (Dict.get_default _ _ _))|]; split; reflexivity.
Qed.

Lemma refine_id (incident : EndpointIncidentRecord) (events : list EvidenceEvent) (t : EndpointControlTestResult) :
  (refine_control incident events t).(ct_control_id) = t.(ct_control_id).
Proof.
  unfold refine_control.
  repeat match goal with
         | |- context [if ?b then _ else _] => destruct b; try reflexivity
         | |- context [match ?o with Some _ => _ | None => _ end] => destruct o; try reflexivity
         end.
Qed.

Definition CONTROL_IDS : list string :=
  ["WININET_LOCALHOST_PROXY_HEALTH"; "WININET_PROXY_OWNER_VERIFICATION";
   "PROXY_REVERTER_DETECTION"; "DIRECT_VS_PROXY_PATH_COMPARISON"; "SAFE_REMEDIATION_POLICY";
   "WININET_WINHTTP_ALIGNMENT"].

(** The six refined controls, with what is known of each before refinement. *)
Lemma mapped_controls_shape (incident : EndpointIncidentRecord) (events : list EvidenceEvent) :
  exists t1 t2 t3 t4 t5 t6,
    map_control_tests_from_incident incident events
    = Ok (map (refine_control incident events) [t1; t2; t3; t4; t5; t6])
    /\ map ct_control_id [t1; t2; t3; t4; t5; t6] = CONTROL_IDS
    /\ t2.(ct_result) <> PASS
    /\ t3.(ct_result) = (if PyStr.mem incident.(incident_class)
         ["REVERTER_SUSPECTED"; "PROXY_FLAPPING"; "STALE_PROXY_AFTER_PROCESS_EXIT"]
         then FAIL else PASS)
    /\ t5.(ct_result) = PASS
    /\ t6.(ct_result)
       = (if py_bool (Dict.get "wininet_proxy_enabled" (mapped_state events))
             && py_bool (Dict.get_default "winhttp_direct_access" (PBool true) (mapped_state events))
          then FAIL else PASS).
Proof.
  destruct (health_mapped (mapped_state events) events) as (t1 & E1 & I1).
  destruct (reverter_mapped incident) as (t3 & E3 & I3 & R3).
  destruct (path_mapped events) as (t4 & E4 & I4).
  destruct (owner_raw (mapped_state events) (mapped_owner events)) as [I2 R2].
  destruct (alignment_raw (mapped_state events)) as [I6 R6].
  exists t1, (_test_proxy_owner (mapped_state events) (mapped_owner events)), t3, t4,
    _test_safe_remediation_policy, (_test_wininet_winhttp_alignment (mapped_state events)).
  unfold map_control_tests_from_incident, run_endpoint_control_tests.
  rewrite E1, E3, E4. cbn [map]. rewrite I1, I2, I3, I4, I6.
  repeat split; assumption.
Qed.

Lemma has_writer_proof_spec (events : list EvidenceEvent) :
  has_writer_proof events = true
  <-> exists e, In e events /\ e.(evidence_tier) = "T4_WRITER_PROOF".
Proof.
  unfold has_writer_proof. rewrite existsb_exists.
  split; intros (e & Hin & He); exists e; (split; [exact Hin|by apply String.eqb_eq]).
Qed.

Lemma last_of_type_none (events : list EvidenceEvent) (etype : string) :
  last_of_type events etype = None <-> Forall (fun e => e.(evidence_type) <> etype) events.
Proof.
  unfold last_of_type. induction events as [|e es IH]; [split; [constructor|reflexivity]|].
  cbn [List.filter]. destruct (String.eqb_spec e.(evidence_type) etype) as [E|E].
  - split; [|intros Hf; inversion Hf; contradiction].
    intros Hl%last_opt_None. discriminate.
  - rewrite IH. split; [by constructor|by inversion 1].
Qed.

(** What refinement does to each of the controls. *)
Lemma refine_health (incident : EndpointIncidentRecord) (events : list EvidenceEvent)
    (t : EndpointControlTestResult) :
  t.(ct_control_id) = "WININET_LOCALHOST_PROXY_HEALTH" ->
  PyStr.mem incident.(incident_class)
    ["BOTH_DIRECT_AND_PROXY_WORK"; "LOCAL_PROXY_ACTIVE"; "PROXY_ONLY_WORKS"] = true ->
  (refine_control incident events t).(ct_result) = PASS.
Proof.
  unfold refine_control. intros -> Hm. rewrite Hm. cbn -[PyStr.mem String.eqb].
  destruct (String.eqb_spec incident.(incident_class) "DEAD_PROXY_CONFIG") as [E|E]; [|reflexivity].
  by rewrite E in Hm.
Qed.

Lemma refine_owner (incident : EndpointIncidentRecord) (events : list EvidenceEvent)
    (t : EndpointControlTestResult) :
  t.(ct_control_id) = "WININET_PROXY_OWNER_VERIFICATION" -> t.(ct_result) <> PASS ->
  (refine_control incident events t).(ct_result) = PASS
  <-> PyStr.mem incident.(incident_class)
        ["LOCAL_PROXY_ACTIVE"; "UNKNOWN_LOCAL_PROXY"; "BOTH_DIRECT_AND_PROXY_WORK"] = true
      /\ has_writer_proof events = true.
Proof.
  unfold refine_control. intros -> Hr.
  change (String.eqb "WININET_PROXY_OWNER_VERIFICATION" "WININET_LOCALHOST_PROXY_HEALTH") with false.
  rewrite String.eqb_refl. cbn match.
  destruct (PyStr.mem _ _), (has_writer_proof events); cbn; naive_solver.
Qed.

Lemma refine_path (incident : EndpointIncidentRecord) (events : list EvidenceEvent)
    (t : EndpointControlTestResult) :
  t.(ct_control_id) = "DIRECT_VS_PROXY_PATH_COMPARISON" ->
  (refine_control incident events t).(ct_result) = NOT_TESTED
  <-> last_of_type events "probe_result" = None.
Proof.
  unfold refine_control. intros ->.
  cbn -[PyStr.mem last_of_type].
  destruct (last_of_type events "probe_result"); [|easy].
  destruct (PyStr.mem _ _); [|destruct (PyStr.mem _ _)]; easy.
Qed.

Lemma refine_reverter (incident : EndpointIncidentRecord) (events : list EvidenceEvent)
    (t : EndpointControlTestResult) :
  t.(ct_control_id) = "PROXY_REVERTER_DETECTION" ->
  t.(ct_result) = (if PyStr.mem incident.(incident_class)
         ["REVERTER_SUSPECTED"; "PROXY_FLAPPING"; "STALE_PROXY_AFTER_PROCESS_EXIT"]
         then FAIL else PASS) ->
  (refine_control incident events t).(ct_result)
  = if PyStr.mem incident.(incident_class)
         ["REVERTER_SUSPECTED"; "PROXY_FLAPPING"; "STALE_PROXY_AFTER_PROCESS_EXIT"]
    then FAIL else PASS.
Proof.
  unfold refine_control. intros -> Hr. cbn -[PyStr.mem].
  destruct (PyStr.mem _ ["REVERTER_SUSPECTED"; "PROXY_FLAPPING"]) eqn:Hm; [|exact Hr].
  apply PyStr.mem_In in Hm. by destruct Hm as [<-|[<-|[]]].
Qed.

Lemma refine_alignment (incident : EndpointIncidentRecord) (events : list EvidenceEvent)
    (t : EndpointControlTestResult) (b : bool) :
  t.(ct_control_id) = "WININET_WINHTTP_ALIGNMENT" ->
  t.(ct_result) = (if b then FAIL else PASS) ->
  (refine_control incident events t).(ct_result) = FAIL
  <-> incident.(incident_class) = "WININET_WINHTTP_MISMATCH" \/ b = true.
Proof.
  unfold refine_control. intros -> Hr. cbn -[String.eqb].
  destruct (String.eqb_spec incident.(incident_class) "WININET_WINHTTP_MISMATCH"); cbn;
    [naive_solver|]. rewrite Hr. destruct b; naive_solver.
Qed.

Lemma refine_other (incident : EndpointIncidentRecord) (events : list EvidenceEvent)
    (t : EndpointControlTestResult) :
  t.(ct_control_id) = "SAFE_REMEDIATION_POLICY" -> refine_control incident events t = t.
Proof. unfold refine_control. by intros ->. Qed.

(** Mapping an incident to its controls never raises, whatever the events
    hold, and returns the six controls in their stable order.  Ownership passes
    only for the three listener classes and only on an event of the writer-proof
    tier; the path comparison is untested exactly when no event is a probe result;
    the reverter control fails exactly on the three reverter classes; the safe
    remediation control passes; alignment fails exactly on a mismatch incident or
    an enabled proxy beside direct WinHTTP access. *)
Theorem mapped_controls_spec (incident : EndpointIncidentRecord) (events : list EvidenceEvent) :
  exists tests,
    map_control_tests_from_incident incident events = Ok tests
    /\ map ct_control_id tests = CONTROL_IDS
    /\ (outcome_of tests "WININET_PROXY_OWNER_VERIFICATION" = Some PASS
        <-> In incident.(incident_class)
              ["LOCAL_PROXY_ACTIVE"; "UNKNOWN_LOCAL_PROXY"; "BOTH_DIRECT_AND_PROXY_WORK"]
            /\ exists e, In e events /\ e.(evidence_tier) = "T4_WRITER_PROOF")
    /\ (outcome_of tests "DIRECT_VS_PROXY_PATH_COMPARISON" = Some NOT_TESTED
        <-> Forall (fun e => e.(evidence_type) <> "probe_result") events)
    /\ outcome_of tests "PROXY_REVERTER_DETECTION"
       = Some (if PyStr.mem incident.(incident_class)
            ["REVERTER_SUSPECTED"; "PROXY_FLAPPING"; "STALE_PROXY_AFTER_PROCESS_EXIT"]
            then FAIL else PASS)
    /\ outcome_of tests "SAFE_REMEDIATION_POLICY" = Some PASS
    /\ (outcome_of tests "WININET_WINHTTP_ALIGNMENT" = Some FAIL
        <-> incident.(incident_class) = "WININET_WINHTTP_MISMATCH"
            \/ py_bool (Dict.get "wininet_proxy_enabled" (mapped_state events))
               && py_bool (Dict.get_default "winhttp_direct_access" (PBool true)
                             (mapped_state events)) = true).
Proof.
  destruct (mapped_controls_shape incident events)
    as (t1 & t2 & t3 & t4 & t5 & t6 & E & Hids & R2 & R3 & R5 & R6).
  injection Hids as I1 I2 I3 I4 I5 I6.
  exists (map (refine_control incident events) [t1; t2; t3; t4; t5; t6]).
  unfold outcome_of. cbn [map List.find].
  rewrite !refine_id, I1, I2, I3, I4, I5, I6. cbn -[refine_control PyStr.mem In Dict.get_default Dict.get].
  rewrite (refine_reverter _ _ _ I3 R3), (refine_other _ _ _ I5), R5,
    <- last_of_type_none, <- has_writer_proof_spec, <- PyStr.mem_In,
    <- (refine_owner incident events t2 I2 R2), <- (refine_path incident events t4 I4),
    <- (refine_alignment incident events t6 _ I6 R6).
  cbn [map] in E. rewrite (refine_other _ _ _ I5) in E.
  repeat apply conj; try reflexivity; try exact E; congruence.
Qed.

(** An incident of class LOCAL_PROXY_ACTIVE passes the health control, whatever
    the probe events say and even when there is none. *)
Theorem active_proxy_health_passes (incident : EndpointIncidentRecord) (events : list EvidenceEvent)
    (tests : list EndpointControlTestResult) :
  incident.(incident_class) = "LOCAL_PROXY_ACTIVE" ->
  map_control_tests_from_incident incident events = Ok tests ->
  outcome_of tests "WININET_LOCALHOST_PROXY_HEALTH" = Some PASS.
Proof.
  intros Hc Ht.
  destruct (mapped_controls_shape incident events)
    as (t1 & t2 & t3 & t4 & t5 & t6 & E & Hids & _).
  injection Hids as I1 _ _ _ _ _. rewrite E in Ht. injection Ht as <-.
  unfold outcome_of. cbn [map List.find]. rewrite refine_id, I1. cbn -[refine_control].
  by rewrite (refine_health _ _ _ I1) by (rewrite Hc; reflexivity).
Qed.
End Properties.

Module ControlsWitness.
#[local] Instance host : PyHost := DemoHost.demo_host.
#[local] Instance endpoint : EndpointHost := {| default_endpoint_id := "host-a" |}.

(** A proxy state, its listener and no probe. *)
Definition events : list EvidenceEvent :=
  match normalize_events_from_audit_rows
    [["event" :-> PStr "poll"; "state" :-> PDict
        ["timestamp_utc" :-> PStr "2026-01-01T00:00:00Z"; "wininet_proxy_enabled" :-> PBool true;
         "wininet_proxy_server" :-> PStr "127.0.0.1:8080"]];
     ["listener_found" :-> PBool true; "timestamp_utc" :-> PStr "2026-01-01T00:00:06Z";
      "process" :-> PDict ["name" :-> PStr "node.exe"]]] with
  | Ok es => es
  | Raise _ => []
  end.

Definition incident : EndpointIncidentRecord := classify_incident_from_events events None None.

Definition tests : list EndpointControlTestResult :=
  match map_control_tests_from_incident incident events with Ok ts => ts | Raise _ => [] end.

Lemma active_proxy_health_passes_witness :
  outcome_of tests "WININET_LOCALHOST_PROXY_HEALTH" = Some PASS
  /\ outcome_of tests "DIRECT_VS_PROXY_PATH_COMPARISON" = Some NOT_TESTED.
Proof.
  split; [|vm_compute; reflexivity].
  apply (active_proxy_health_passes incident events tests); vm_compute; reflexivity.
Defined.
End ControlsWitness.
