(* ===== verification/RiskScoring.v ===== *)
(** * Ordinal risk scoring

    [windows_network_toolkit/risk_scoring_engine.py]: the score of an incident from
    its class, the quality and tier of its evidence, the business impact, how often
    it recurred and the worst outcome of its controls.  The arithmetic is the
    code's binary64 arithmetic, in its order. *)

From S2P Require Import Prelude PyValue FloatFacts.
From Stdlib Require Import Ascii String SpecFloat.
From stdpp Require Import strings.

Open Scope string_scope.
Open Scope Z_scope.
Open Scope py_scope.

Definition GOVERNANCE_LIMITATIONS : list string :=
  ["Risk score is ordinal governance input, not a statistical probability.";
   "Correlation and listener attribution do not prove registry writer identity without T4 proof.";
   "Classification is not accusation — this is not malware or EDR verdicting.";
   "Policy permission is not a safety guarantee; human review may still be required."].

Definition PROOF_LEVELS : list string := ["T0"; "T1"; "T2"; "T3"; "T4"; "NOT_RUN"; "UNKNOWN"].

Definition _PROOF_WEIGHT : list (string * F64.t) :=
  [("T0", F64.lit 15 100); ("T1", F64.lit 35 100); ("T2", F64.lit 55 100);
   ("T3", F64.lit 75 100); ("T4", F64.lit 9 10); ("NOT_RUN", F64.lit 1 10);
   ("UNKNOWN", F64.lit 2 10)].

Definition _IMPACT_SCORE : list (string * F64.t) :=
  [("low", F64.of_Z 1); ("medium", F64.lit 25 10); ("high", F64.of_Z 4);
   ("critical", F64.of_Z 5)].

Definition _HIGH_CLASSES : list string :=
  ["REVERTER_SUSPECTED"; "PROXY_FLAPPING"; "POSSIBLE_MITM_RISK"; "BOTH_DIRECT_AND_PROXY_FAIL";
   "DEAD_PROXY_CONFIG"].

Definition _MEDIUM_CLASSES : list string :=
  ["LOCAL_PROXY_ACTIVE"; "UNKNOWN_LOCAL_PROXY"; "WININET_WINHTTP_MISMATCH"; "DIRECT_ONLY_WORKS";
   "STALE_PROXY_AFTER_PROCESS_EXIT"].

Definition _CONTROL_MODIFIER : list (string * F64.t) :=
  [("PASS", SFopp (F64.lit 15 100)); ("PARTIAL", F64.lit 5 100); ("FAIL", F64.lit 25 100);
   ("NOT_TESTED", F64.lit 1 10)].

(** [table.get(key, default)]. *)
Definition weight_of (table : list (string * F64.t)) (d : F64.t) (key : string) : F64.t :=
  match List.find (fun kv => String.eqb kv.1 key) table with Some kv => kv.2 | None => d end.

Record RiskScoringInput := {
  ri_incident_class : string;
  ri_evidence_quality : F64.t;
  ri_proof_level : string;
  ri_business_impact : string;
  ri_recurrence_count : Z;
  ri_control_test_result : string;
}.

(** [RiskScoringInput(...)]: quality and recurrence are clamped. *)
Definition risk_input (cls : string) (quality : F64.t) (proof impact : string)
    (recurrence : Z) (control : string) : RiskScoringInput :=
  {| ri_incident_class := cls;
     ri_evidence_quality := F64.pymax F64.zero (F64.pymin (F64.of_Z 1) quality);
     ri_proof_level := proof; ri_business_impact := impact;
     ri_recurrence_count := Z.max 0 recurrence; ri_control_test_result := control |}.

Record RiskScoringResult := {
  rr_likelihood : string;
  rr_impact : string;
  rr_risk_score : F64.t;
  rr_risk_level : string;
  rr_explanation : string;
  rr_limitations : list string;
  rr_incident_class : string;
  rr_human_review_recommended : bool;
}.

Definition risk_result_dict (r : RiskScoringResult) : pydict :=
  ["likelihood" :-> PStr r.(rr_likelihood);
   "impact" :-> PStr r.(rr_impact);
   "risk_score" :-> PFloat r.(rr_risk_score);
   "risk_level" :-> PStr r.(rr_risk_level);
   "explanation" :-> PStr r.(rr_explanation);
   "limitations" :-> str_list r.(rr_limitations);
   "incident_class" :-> PStr r.(rr_incident_class);
   "human_review_recommended" :-> PBool r.(rr_human_review_recommended)].

Definition _normalize_proof_level (proof : string) : string :=
  let raw := PyStr.upper (if PyStr.is_empty proof then "UNKNOWN" else proof) in
  if PyStr.startswith raw "T4" then "T4"
  else if PyStr.startswith raw "T3" then "T3"
  else if PyStr.startswith raw "T2" then "T2"
  else if PyStr.startswith raw "T1" then "T1"
  else if PyStr.startswith raw "T0" then "T0"
  else if PyStr.mem raw PROOF_LEVELS then raw
  else "UNKNOWN".

Definition _class_likelihood_base (cls : string) : F64.t :=
  if PyStr.mem cls _HIGH_CLASSES then F64.lit 75 100
  else if PyStr.mem cls _MEDIUM_CLASSES then F64.lit 5 10
  else if PyStr.mem cls ["NO_PROXY"; "BOTH_DIRECT_AND_PROXY_WORK"; "PROXY_ONLY_WORKS"]
  then F64.lit 2 10
  else F64.lit 35 100.

Definition _score_to_level (score : F64.t) : string :=
  if F64.leb (F64.of_Z 70) score then "HIGH"
  else if F64.leb (F64.of_Z 40) score then "MEDIUM"
  else "LOW".

Definition _likelihood_label (score : F64.t) : string :=
  if F64.leb (F64.lit 7 10) score then "high"
  else if F64.leb (F64.lit 4 10) score then "medium"
  else "low".

(** The likelihood before labelling.  Multiplying the recurrence count by a float
    raises when the count exceeds the floats. *)
Definition likelihood_raw (i : RiskScoringInput) : result F64.t :=
  n ← py_float (PInt i.(ri_recurrence_count));
  let boost := F64.pymin (F64.lit 2 10) (F64.mul n (F64.lit 5 100)) in
  let proof := weight_of _PROOF_WEIGHT (F64.lit 2 10) (_normalize_proof_level i.(ri_proof_level)) in
  Ok (F64.pymin (F64.of_Z 1)
        (F64.add
           (F64.add
              (F64.add
                 (F64.add (F64.mul (_class_likelihood_base i.(ri_incident_class)) (F64.lit 45 100))
                    (F64.mul i.(ri_evidence_quality) (F64.lit 25 100)))
                 (F64.mul proof (F64.lit 2 10)))
              boost)
           (weight_of _CONTROL_MODIFIER (F64.lit 1 10) i.(ri_control_test_result)))).

Definition impact_key (i : RiskScoringInput) : string :=
  PyStr.lower (if PyStr.is_empty i.(ri_business_impact) then "medium" else i.(ri_business_impact)).

(** [round(min(100.0, likelihood * impact * 20.0), 1)]. *)
Definition composite_score (likelihood impact : F64.t) : F64.t :=
  F64.round_digits 1
    (F64.pymin (F64.of_Z 100) (F64.mul (F64.mul likelihood impact) (F64.of_Z 20))).

Definition risk_limitations (i : RiskScoringInput) (proof_key : string) : list string :=
  (GOVERNANCE_LIMITATIONS
   ++ (if PyStr.mem proof_key ["T0"; "T1"; "UNKNOWN"] then
         ["Proof tier is observation or correlation — escalate only with additional validation."]
       else [])
   ++ (if String.eqb i.(ri_control_test_result) "NOT_TESTED" then
         ["One or more controls were NOT_TESTED; residual risk may be understated."] else [])
   ++ (if 3 <=? i.(ri_recurrence_count) then
         ["Recurrence pattern observed — review change management and writer attribution."]
       else []))%list.

Section Scoring.
Context {H : PyHost}.

Definition score_risk (i : RiskScoringInput) : result RiskScoringResult :=
  let proof_key := _normalize_proof_level i.(ri_proof_level) in
  raw ← likelihood_raw i;
  let key := impact_key i in
  let score := composite_score raw (weight_of _IMPACT_SCORE (F64.lit 25 10) key) in
  let level := _score_to_level score in
  let likelihood := _likelihood_label raw in
  let impact := if PyStr.mem key (map fst _IMPACT_SCORE) then key else "medium" in
  Ok {| rr_likelihood := likelihood; rr_impact := impact; rr_risk_score := score;
        rr_risk_level := level;
        rr_explanation :=
          "Incident class " ++ i.(ri_incident_class) ++ " with " ++ likelihood
          ++ " likelihood and " ++ impact ++ " impact (evidence_quality="
          ++ format_2f i.(ri_evidence_quality) ++ ", proof=" ++ proof_key
          ++ ", controls=" ++ i.(ri_control_test_result) ++ ", recurrence="
          ++ PyStr.of_Z i.(ri_recurrence_count) ++ ") yields risk_score="
          ++ py_str (PFloat score) ++ " (" ++ level ++ ").";
        rr_limitations := risk_limitations i proof_key;
        rr_incident_class := i.(ri_incident_class);
        rr_human_review_recommended :=
          String.eqb level "HIGH" || String.eqb i.(ri_control_test_result) "FAIL" |}.

(** Severity order, worst first. *)
Definition CONTROL_ORDER : list string := ["FAIL"; "PARTIAL"; "NOT_TESTED"; "PASS"].

Definition aggregate_control_result (results : list string) : string :=
  match List.find (fun o => PyStr.mem o (map PyStr.upper results)) CONTROL_ORDER with
  | Some o => o
  | None => "NOT_TESTED"
  end.

(** [max] of a non-empty list of strings. *)
Fixpoint max_string (best : string) (l : list string) : string :=
  match l with
  | [] => best
  | s :: l' => max_string (if String.ltb best s then s else best) l'
  end.

(** The controls that count for an incident. *)
Definition related_controls (incident_id : pyval) (tests : list pydict) : list pydict :=
  let mine c := existsb (py_eqb (Dict.get "incident_id" c)) [incident_id; PNone; PStr ""] in
  match List.filter (fun c => negb (py_bool incident_id) || mine c) tests with
  | [] => tests
  | l => l
  end.

Definition control_tier (controls : list pydict) : string :=
  match map (fun c => py_str (Dict.get "evidence_tier" c))
          (List.filter (fun c => py_bool (Dict.get "evidence_tier" c)) controls) with
  | [] => "T1"
  | t :: l => max_string t l
  end.

(** An absent list of controls is the empty one. *)
Definition score_risk_from_incident (incident : pydict) (tests : list pydict)
    (proof_level business_impact : option string) (recurrence : Z) : result RiskScoringResult :=
  let cls := py_str (py_or (Dict.get "incident_class" incident) (PStr "UNKNOWN")) in
  quality ← py_float (py_or (Dict.get "confidence" incident) (PFloat (F64.lit 5 10)));
  let related := related_controls (Dict.get_default "incident_id" (PStr "") incident) tests in
  let control :=
    aggregate_control_result
      (map (fun c => py_str (Dict.get_default "test_result" (PStr "") c)) related) in
  let tier := match proof_level with Some p => p | None => control_tier related end in
  let biz :=
    match business_impact with
    | Some b => b
    | None => if py_eqb (Dict.get "risk_level" incident) (PStr "HIGH") then "high" else "medium"
    end in
  score_risk (risk_input cls quality tier biz recurrence control).
End Scoring.

(** ** Properties *)

Section Properties.
Context {H : PyHost}.

Definition severity (o : string) : Z :=
  if String.eqb o "FAIL" then 3
  else if String.eqb o "PARTIAL" then 2
  else if String.eqb o "NOT_TESTED" then 1
  else 0.

Lemma severity_bounds (o : string) : 0 <= severity o <= 3.
Proof.
  unfold severity. destruct (String.eqb o "FAIL"), (String.eqb o "PARTIAL"), (String.eqb o "NOT_TESTED"); lia.
Qed.

(** The first recognised outcome in severity order is one of the results. *)
Lemma aggregate_found (results : list string) :
  match List.find (fun o => PyStr.mem o (map PyStr.upper results)) CONTROL_ORDER with
  | Some o => In o (map PyStr.upper results) /\ In o CONTROL_ORDER
              /\ forall r, In r results -> In (PyStr.upper r) CONTROL_ORDER ->
                 severity (PyStr.upper r) <= severity o
  | None => forall r, In r results -> In (PyStr.upper r) CONTROL_ORDER -> False
  end.
Proof.
  assert (Hin : forall r, In r results -> PyStr.mem (PyStr.upper r) (map PyStr.upper results) = true)
    by (intros r Hr; apply PyStr.mem_In; by apply in_map).
  unfold CONTROL_ORDER. cbn [List.find].
  repeat match goal with
  | |- context [PyStr.mem ?o ?l] => destruct (PyStr.mem o l) eqn:?;
      [split; [by apply PyStr.mem_In|split; [cbn; tauto|]]|]
  end.
  all: intros r Hi Hr; specialize (Hin r Hi).
  all: destruct Hr as [Hr|[Hr|[Hr|[Hr|[]]]]]; rewrite <- Hr in *; try congruence.
  all: vm_compute; discriminate.
Qed.

(** The aggregate of control outcomes is the worst recognised one: it is one
    of the results as written in upper case, no recognised result is more severe, and it is NOT_TESTED when
    no result is recognised. *)
Theorem aggregate_is_worst (results : list string) :
  let agg := aggregate_control_result results in
  In agg CONTROL_ORDER
  /\ (forall r, In r results -> In (PyStr.upper r) CONTROL_ORDER ->
        In agg (map PyStr.upper results) /\ severity (PyStr.upper r) <= severity agg)
  /\ ((forall r, In r results -> ~ In (PyStr.upper r) CONTROL_ORDER) -> agg = "NOT_TESTED").
Proof.
  unfold aggregate_control_result. pose proof (aggregate_found results) as Hf.
  destruct (List.find _ CONTROL_ORDER) as [o|].
  - destruct Hf as (Hi & Ho & Hs). repeat split; [done|done|by apply Hs|].
    intros Hn. apply in_map_iff in Hi as (r & <- & Hr). by destruct (Hn r Hr).
  - repeat split; [cbn; tauto|by destruct (Hf r)|by destruct (Hf r)].
Qed.

Lemma composite_le_100 (likelihood impact : F64.t) :
  F64.leb (composite_score likelihood impact) (F64.of_Z 100) = true.
Proof. apply capped_round_le_100, mul_narrow. Qed.

(** C37: every score is at most one hundred, whatever the inputs; the level is HIGH
    exactly from seventy on, else MEDIUM or LOW; human review is recommended exactly for a
    HIGH level or a failed control; the governance caveats head the limitations, and weak
    proof and untested controls add a caveat. *)
Theorem score_risk_bounded (i : RiskScoringInput) (r : RiskScoringResult) :
  score_risk i = Ok r ->
  F64.leb r.(rr_risk_score) (F64.of_Z 100) = true
  /\ (r.(rr_risk_level) = "HIGH" <-> F64.leb (F64.of_Z 70) r.(rr_risk_score) = true)
  /\ In r.(rr_risk_level) ["HIGH"; "MEDIUM"; "LOW"]
  /\ In r.(rr_impact) ["low"; "medium"; "high"; "critical"]
  /\ (r.(rr_human_review_recommended) = true
      <-> r.(rr_risk_level) = "HIGH" \/ i.(ri_control_test_result) = "FAIL")
  /\ (exists extra, r.(rr_limitations) = (GOVERNANCE_LIMITATIONS ++ extra)%list
      /\ (In (_normalize_proof_level i.(ri_proof_level)) ["T0"; "T1"; "UNKNOWN"] -> extra <> [])
      /\ (i.(ri_control_test_result) = "NOT_TESTED" -> extra <> [])).
Proof.
  unfold score_risk. destruct (likelihood_raw i) as [raw|]; [|discriminate].
  cbn -[composite_score _score_to_level PyStr.mem risk_limitations String.eqb GOVERNANCE_LIMITATIONS
        F64.leb F64.of_Z In weight_of F64.lit impact_key].
  intros [= <-]. cbn -[composite_score _score_to_level PyStr.mem risk_limitations String.eqb
    GOVERNANCE_LIMITATIONS F64.leb F64.of_Z In weight_of F64.lit impact_key].
  set (score := composite_score _ _).
  assert (Hle : F64.leb score (F64.of_Z 100) = true) by apply composite_le_100.
  clearbody score.
  split; [exact Hle|]. unfold _score_to_level.
  split; [destruct (F64.leb (F64.of_Z 70) score), (F64.leb (F64.of_Z 40) score); easy|].
  split; [destruct (F64.leb (F64.of_Z 70) score), (F64.leb (F64.of_Z 40) score); cbn; tauto|].
  split.
  { match goal with |- In (if ?b then _ else _) ?l =>
      change b with (PyStr.mem (impact_key i) l) end.
    destruct (PyStr.mem (impact_key i) _) eqn:Hm; [by apply PyStr.mem_In|cbn; tauto]. }
  split; [by rewrite orb_true_iff, !String.eqb_eq|].
  unfold risk_limitations. eexists. split; [reflexivity|].
  rewrite <- PyStr.mem_In. split.
  - intros ->. discriminate.
  - intros ->. rewrite String.eqb_refl. by destruct (PyStr.mem _ _).
Qed.

(** Scoring never raises without recurrences. *)
Lemma score_risk_total (i : RiskScoringInput) :
  i.(ri_recurrence_count) = 0 -> exists r, score_risk i = Ok r.
Proof. intros Hz. unfold score_risk, likelihood_raw. rewrite Hz. eexists. reflexivity. Qed.

(** The score is not bounded below by zero: a class with no proxy, no evidence
    quality, no proof run and a passed control scores minus four on a critical
    endpoint, and the label is LOW. *)
Theorem score_can_be_negative :
  exists r,
    score_risk (risk_input "NO_PROXY" F64.zero "NOT_RUN" "critical" 0 "PASS") = Ok r
    /\ r.(rr_risk_score) = F64.of_Z (-4)
    /\ F64.ltb r.(rr_risk_score) F64.zero = true
    /\ r.(rr_risk_level) = "LOW".
Proof. eexists. split; [reflexivity|]. vm_compute. repeat split. Qed.

(** A result outside the four outcomes is ignored beside a recognised one. *)
Lemma unknown_result_ignored : aggregate_control_result ["PASS"; "CRASHED"] = "PASS".
Proof. reflexivity. Qed.
End Properties.

Module RiskWitness.
#[local] Instance host : PyHost := DemoHost.demo_host.

Definition input : RiskScoringInput :=
  risk_input "DEAD_PROXY_CONFIG" (F64.lit 92 100) "T1_CORRELATION" "critical" 4 "FAIL".

Lemma score_risk_bounded_witness :
  exists r, score_risk input = Ok r
    /\ F64.leb r.(rr_risk_score) (F64.of_Z 100) = true
    /\ r.(rr_human_review_recommended) = true.
Proof.
  eexists. split; [vm_compute; reflexivity|].
  split; [|reflexivity].
  refine (proj1 (score_risk_bounded input _ _)). vm_compute. reflexivity.
Defined.
End RiskWitness.
