(* ===== verification/AnalyticsPipeline.v ===== *)
(** * Endpoint analytics pipeline

    [windows_network_toolkit/analytics.py] (chart aggregates and the KPI summary) and
    the orchestration half of [windows_network_toolkit/analytics_pipeline.py]: events are
    classified per endpoint, every incident is mapped to its controls, the dashboard
    is aggregated and every incident is scored. *)

From S2P Require Import Prelude PyValue PyTime EvidenceSchema IncidentClassifier EndpointControls RiskScoring.
From Stdlib Require Import Ascii String Permutation.
From stdpp Require Import strings.

Open Scope string_scope.
Open Scope Z_scope.
Open Scope py_scope.
Import ControlTestOutcome.

(** ** Aggregates *)

Definition _bucket_timestamp (ts bucket : string) : string :=
  if PyStr.is_empty ts then "unknown" else
  match fromisoformat (replace_z ts) with
  | None => if (10 <=? length (Json.code_points ts))%nat then Utf8.prefix 10 ts else "unknown"
  | Some dt =>
      let '(y, m, d) := Cal.ord2ymd (dt_ordinal dt.(dt_wall)) in
      let day := pad 4 y ++ "-" ++ pad 2 m ++ "-" ++ pad 2 d in
      if String.eqb bucket "hour"
      then day ++ "T" ++ pad 2 (dt_time dt.(dt_wall) / US_PER_SEC / 3600) ++ ":00"
      else day
  end.

(** [Counter(keys)[k]]. *)
Definition tally (keys : list string) (k : string) : Z :=
  Z.of_nat (length (List.filter (fun k' => String.eqb k' k) keys)).

(** [sorted(Counter(keys).items())]. *)
Definition counter_items (keys : list string) : list (string * Z) :=
  map (fun k => (k, tally keys k)) (sorted_set keys).

(** [Counter(keys).most_common(limit)] for a limit that is not negative: by falling
    count, keys of equal count in the order of their first occurrence. *)
Definition most_common (limit : nat) (keys : list string) : list (string * Z) :=
  firstn limit
    (sorted_by Z.ltb (fun kv => - kv.2)
       (map (fun k => (k, tally keys k)) (dedupe String.eqb keys))).

Definition chart_rows (label : string) (rows : list (string * Z)) : list pydict :=
  map (fun kv => [label :-> PStr kv.1; "count" :-> PInt kv.2]) rows.

Definition aggregate_incidents_by_class (incidents : list EndpointIncidentRecord) : list (string * Z) :=
  counter_items (map incident_class incidents).

Definition aggregate_incidents_by_risk (incidents : list EndpointIncidentRecord) : list (string * Z) :=
  counter_items (map risk_level incidents).

Definition aggregate_control_results (controls : list EndpointControlTestResult)
    : list (string * Z) :=
  counter_items (map (fun c => outcome_text c.(ct_result)) controls).

Definition PATH_CLASSES : list string :=
  ["DIRECT_ONLY_WORKS"; "PROXY_ONLY_WORKS"; "BOTH_DIRECT_AND_PROXY_WORK";
   "BOTH_DIRECT_AND_PROXY_FAIL"; "HEALTHY_LOCALHOST_PROXY"].

Definition aggregate_direct_vs_proxy_outcomes (incidents : list EndpointIncidentRecord)
    : list (string * Z) :=
  let classes := map incident_class incidents in
  match List.filter (fun c => PyStr.mem c PATH_CLASSES) classes with
  | [] => counter_items classes
  | l => counter_items l
  end.

Definition aggregate_evidence_tiers (events : list EvidenceEvent) : list (string * Z) :=
  counter_items (map evidence_tier events).

Definition aggregate_timeline_counts (incidents : list EndpointIncidentRecord) (bucket : string)
    : list (string * Z) :=
  counter_items (map (fun i => _bucket_timestamp i.(ir_timestamp_utc) bucket) incidents).

Record Dashboard := {
  total_evidence_events : Z;
  total_incidents : Z;
  high_risk_incidents : Z;
  control_failures : Z;
  reverter_suspected_count : Z;
  chart_incident_classes : list (string * Z);
  chart_risk_levels : list (string * Z);
  chart_control_results : list (string * Z);
  chart_top_listener_processes : list (string * Z);
  chart_direct_vs_proxy_outcomes : list (string * Z);
  chart_evidence_tiers : list (string * Z);
  chart_timeline : list (string * Z);
}.

(** [sum(1 for x in l if p(x))]. *)
Definition count_if {A} (p : A -> bool) (l : list A) : Z := Z.of_nat (length (List.filter p l)).

(** The dictionary of incident fields the scoring stage reads. *)
Definition incident_dict (i : EndpointIncidentRecord) : pydict :=
  ["incident_id" :-> PStr i.(incident_id);
   "timestamp_utc" :-> PStr i.(ir_timestamp_utc);
   "endpoint_id" :-> of_opt PStr i.(ir_endpoint_id);
   "incident_class" :-> PStr i.(incident_class);
   "risk_level" :-> PStr i.(risk_level);
   "confidence" :-> PFloat i.(ir_confidence);
   "supporting_evidence" :-> str_list i.(supporting_evidence);
   "contradicting_evidence" :-> str_list i.(contradicting_evidence);
   "limitations" :-> str_list i.(ir_limitations);
   "recommended_policy_action" :-> PStr i.(recommended_policy_action);
   "human_interpretation" :-> PStr i.(human_interpretation)].

Record Payload := {
  p_evidence_events : list EvidenceEvent;
  p_incidents : list EndpointIncidentRecord;
  p_control_tests : list EndpointControlTestResult;
  p_dashboard : Dashboard;
  p_limitations : list string;
  p_risk_scores : list (string * RiskScoringResult);
}.

(** [l[:n]]. *)
Definition slice_to {A} (n : Z) (l : list A) : list A :=
  firstn (Z.to_nat (if 0 <=? n then n else Z.of_nat (length l) + n)) l.

Section Pipeline.
Context {H : PyHost} {E : EndpointHost}.
(** The iteration order of a set of strings. *)
Context (set_order : list string -> list string).

Definition listener_names (events : list EvidenceEvent) : list string :=
  map (fun e => py_str (Dict.get "listener_name" e.(normalized_fields)))
    (List.filter (fun e => String.eqb e.(evidence_type) "listener_state"
                           && py_bool (Dict.get "listener_name" e.(normalized_fields))) events).

Definition aggregate_top_listener_processes (events : list EvidenceEvent) (limit : nat)
    : list (string * Z) :=
  most_common limit (listener_names events).

Definition build_dashboard_dataset (events : list EvidenceEvent) (incidents : list EndpointIncidentRecord)
    (controls : list EndpointControlTestResult) (bucket : string) : Dashboard :=
  {| total_evidence_events := Z.of_nat (length events);
     total_incidents := Z.of_nat (length incidents);
     high_risk_incidents := count_if (fun i => String.eqb i.(risk_level) "HIGH") incidents;
     control_failures :=
       count_if (fun c => String.eqb (outcome_text c.(ct_result)) "FAIL") controls;
     reverter_suspected_count :=
       count_if (fun i => PyStr.mem i.(incident_class) ["REVERTER_SUSPECTED"; "PROXY_FLAPPING"])
         incidents;
     chart_incident_classes := aggregate_incidents_by_class incidents;
     chart_risk_levels := aggregate_incidents_by_risk incidents;
     chart_control_results := aggregate_control_results controls;
     chart_top_listener_processes := aggregate_top_listener_processes events 10;
     chart_direct_vs_proxy_outcomes := aggregate_direct_vs_proxy_outcomes incidents;
     chart_evidence_tiers := aggregate_evidence_tiers events;
     chart_timeline := aggregate_timeline_counts incidents bucket |}.

Definition cap_processes (limit : Z) (d : Dashboard) : Dashboard :=
  {| total_evidence_events := d.(total_evidence_events); total_incidents := d.(total_incidents);
     high_risk_incidents := d.(high_risk_incidents); control_failures := d.(control_failures);
     reverter_suspected_count := d.(reverter_suspected_count);
     chart_incident_classes := d.(chart_incident_classes);
     chart_risk_levels := d.(chart_risk_levels);
     chart_control_results := d.(chart_control_results);
     chart_top_listener_processes := slice_to limit d.(chart_top_listener_processes);
     chart_direct_vs_proxy_outcomes := d.(chart_direct_vs_proxy_outcomes);
     chart_evidence_tiers := d.(chart_evidence_tiers); chart_timeline := d.(chart_timeline) |}.

(** The controls of all incidents; the fallback is the code's own. *)
Definition pipeline_controls (events : list EvidenceEvent) (incidents : list EndpointIncidentRecord)
    : result (list EndpointControlTestResult) :=
  controls ← mapM_result (fun i => map_control_tests_from_incident i events) incidents;
  match concat controls, incidents with
  | [], _ :: _ =>
      run_endpoint_control_tests match events with e :: _ => e.(raw_snapshot) | [] => [] end
        [] [] []
  | l, _ => Ok l
  end.

(** The pipeline from its events on. *)
Definition analytics_of_events (events : list EvidenceEvent) (bucket : string)
    (limit_processes : Z) : result Payload :=
  let incidents := classify_incidents_from_events events in
  controls ← pipeline_controls events incidents;
  let dicts := control_tests_to_dict controls in
  scores ← mapM_result (fun i =>
    r ← score_risk_from_incident (incident_dict i) dicts None None 0;
    Ok (i.(incident_id), r)) incidents;
  Ok {| p_evidence_events := events; p_incidents := incidents; p_control_tests := controls;
        p_dashboard :=
          cap_processes limit_processes (build_dashboard_dataset events incidents controls bucket);
        p_limitations := set_order (dedupe String.eqb (concat (map event_limitations events)));
        p_risk_scores := scores |}.

(** A non-empty fixture takes precedence over the audit rows. *)
Definition run_endpoint_analytics_pipeline (fixture : pydict) (typed : list EvidenceEvent)
    (rows : list pydict) (bucket : string) (limit_processes : Z) : result Payload :=
  events ←
    match fixture with
    | [] => normalize_events_from_audit_rows rows
    | _ => normalize_events_from_fixture fixture typed
    end;
  analytics_of_events events bucket limit_processes.
End Pipeline.

(** ** Properties *)

Definition chart_sum (rows : list (string * Z)) : Z := foldr (fun kv acc => kv.2 + acc) 0 rows.

(** The count a chart shows for a key. *)
Definition chart_count (k : string) (rows : list (string * Z)) : Z :=
  match List.find (fun kv => String.eqb kv.1 k) rows with Some kv => kv.2 | None => 0 end.

Lemma sum_group_lengths (keys : list string) (ks : list string) :
  chart_sum (map (fun k => (k, tally keys k)) ks)
  = Z.of_nat (length (concat (map (group id keys) ks))).
Proof.
  induction ks as [|k ks IH]; [reflexivity|].
  cbn [map concat chart_sum foldr snd]. fold (chart_sum (map (fun k => (k, tally keys k)) ks)).
  rewrite IH, length_app, Nat2Z.inj_add. reflexivity.
Qed.

Lemma counted_sum (keys : list string) : chart_sum (counter_items keys) = Z.of_nat (length keys).
Proof.
  unfold counter_items. rewrite sum_group_lengths. f_equal. apply Permutation_length.
  apply (groups_Permutation id); [apply sorted_set_NoDup|].
  intros r Hr. by apply sorted_set_In.
Qed.

Lemma tally_absent (keys : list string) (k : string) : ~ In k keys -> tally keys k = 0.
Proof.
  intros Hk. unfold tally. replace (List.filter _ keys) with (@nil string); [reflexivity|].
  symmetry. induction keys as [|x keys IH]; [reflexivity|]. cbn.
  destruct (String.eqb_spec x k) as [->|]; [destruct Hk; by left|]. apply IH. intros ?. apply Hk. by right.
Qed.

Lemma find_counted (keys : list string) (k : string) (ks : list string) :
  chart_count k (map (fun k => (k, tally keys k)) ks)
  = if PyStr.mem k ks then tally keys k else 0.
Proof.
  unfold chart_count. induction ks as [|x ks IH]; [reflexivity|].
  cbn -[tally]. rewrite (String.eqb_sym k x).
  destruct (String.eqb_spec x k) as [->|]; [reflexivity|exact IH].
Qed.

Lemma counted_count (keys : list string) (k : string) : chart_count k (counter_items keys) = tally keys k.
Proof.
  unfold counter_items. rewrite find_counted. destruct (PyStr.mem k (sorted_set keys)) eqn:Hm; [done|].
  symmetry. apply tally_absent. rewrite <- (sorted_set_In keys k), <- PyStr.mem_In. congruence.
Qed.

Lemma tally_map {A} (f : A -> string) (l : list A) (k : string) :
  tally (map f l) k = count_if (fun x => String.eqb (f x) k) l.
Proof.
  unfold tally, count_if. f_equal. induction l as [|x l IH]; [reflexivity|]. cbn.
  destruct (String.eqb (f x) k); cbn; by rewrite IH.
Qed.

Lemma filter_all_true {A} (p : A -> bool) (l : list A) :
  (forall x, In x l -> p x = true) -> List.filter p l = l.
Proof.
  induction l as [|x l IH]; intros Hp; [reflexivity|]. cbn. rewrite Hp by (by left).
  f_equal. apply IH. intros y Hy. apply Hp. by right.
Qed.

(** Counts of disjoint predicates add up. *)
Lemma count_if_split {A} (p q r : A -> bool) (l : list A) :
  (forall x, r x = p x || q x) -> (forall x, p x && q x = false) ->
  count_if r l = count_if p l + count_if q l.
Proof.
  intros Hr Hd. unfold count_if. rewrite <- Nat2Z.inj_add. f_equal.
  induction l as [|x l IH]; [reflexivity|]. cbn. rewrite Hr. specialize (Hd x).
  destruct (p x), (q x); cbn; rewrite IH; try discriminate; lia.
Qed.

Section Properties.
Context {H : PyHost} {E : EndpointHost}.

(** The dashboard's charts and KPIs agree: class, risk and timeline charts each
    add up to the number of incidents, the tier chart to the number of events, the
    control chart to the number of control results; the high-risk and control-failure
    KPIs are the HIGH and FAIL rows of their charts; a chart lists each key once, and no
    key without an occurrence. *)
Theorem dashboard_consistent (events : list EvidenceEvent) (incidents : list EndpointIncidentRecord)
    (controls : list EndpointControlTestResult) (bucket : string) :
  let d := build_dashboard_dataset events incidents controls bucket in
  chart_sum d.(chart_incident_classes) = d.(total_incidents)
  /\ chart_sum d.(chart_risk_levels) = d.(total_incidents)
  /\ chart_sum d.(chart_timeline) = d.(total_incidents)
  /\ chart_sum d.(chart_evidence_tiers) = d.(total_evidence_events)
  /\ chart_sum d.(chart_control_results) = Z.of_nat (length controls)
  /\ d.(high_risk_incidents) = chart_count "HIGH" d.(chart_risk_levels)
  /\ d.(control_failures) = chart_count "FAIL" d.(chart_control_results)
  /\ d.(reverter_suspected_count)
     = chart_count "REVERTER_SUSPECTED" d.(chart_incident_classes)
       + chart_count "PROXY_FLAPPING" d.(chart_incident_classes)
  /\ List.NoDup (map fst d.(chart_incident_classes))
  /\ (forall k, In k (map fst d.(chart_incident_classes)) <-> In k (map incident_class incidents)).
Proof.
  cbn [total_incidents total_evidence_events chart_incident_classes chart_risk_levels
       chart_timeline chart_evidence_tiers chart_control_results high_risk_incidents
       control_failures reverter_suspected_count build_dashboard_dataset].
  unfold aggregate_incidents_by_class, aggregate_incidents_by_risk, aggregate_timeline_counts,
    aggregate_evidence_tiers, aggregate_control_results.
  rewrite !counted_sum, !counted_count, !length_map, !tally_map.
  repeat (split; [reflexivity|]).
  assert (map fst (counter_items (map incident_class incidents)) = sorted_set (map incident_class incidents))
    as -> by (unfold counter_items; rewrite map_map; apply map_id).
  split; [|split; [apply sorted_set_NoDup|intros k; apply sorted_set_In]].
  apply count_if_split; intros i; cbn -[String.eqb]; [by rewrite orb_false_r|].
  destruct (String.eqb_spec i.(incident_class) "REVERTER_SUSPECTED") as [->|]; reflexivity.
Qed.

(** ** Scoring stage *)

Lemma control_dict_fields (t : EndpointControlTestResult) :
  Dict.get "incident_id" (control_test_dict t) = PNone
  /\ Dict.get "evidence_tier" (control_test_dict t) = PNone
  /\ Dict.get_default "test_result" (PStr "") (control_test_dict t)
     = PStr (outcome_text t.(ct_result)).
Proof. repeat split. Qed.

(** No control carries an incident id: all of them count for every incident. *)
Lemma related_controls_all (incident_id : pyval) (tests : list EndpointControlTestResult) :
  related_controls incident_id (control_tests_to_dict tests) = control_tests_to_dict tests.
Proof.
  unfold related_controls. rewrite (filter_all_true _ (control_tests_to_dict tests)).
  - by destruct (control_tests_to_dict tests).
  - intros c Hc. unfold control_tests_to_dict in Hc. apply in_map_iff in Hc as (t & <- & _).
    apply orb_true_iff. right. unfold existsb.
    rewrite (proj1 (control_dict_fields t)). cbn. by rewrite orb_true_r.
Qed.

Lemma control_tier_T1 (tests : list EndpointControlTestResult) :
  control_tier (control_tests_to_dict tests) = "T1".
Proof.
  unfold control_tier. replace (List.filter _ _) with (@nil pydict); [reflexivity|].
  symmetry. induction tests as [|t ts IH]; [reflexivity|]. exact IH.
Qed.

Definition outcome_texts (tests : list EndpointControlTestResult) : list string :=
  map (fun t => outcome_text t.(ct_result)) tests.

(** How an incident of a run is scored: its own class, tier T1, no recurrence and the worst
    outcome among all controls of the run. *)
Definition scored_as (tests : list EndpointControlTestResult) (i : EndpointIncidentRecord)
    (r : RiskScoringResult) : Prop :=
  exists inp, score_risk inp = Ok r
    /\ inp.(ri_incident_class) = i.(incident_class) /\ inp.(ri_proof_level) = "T1"
    /\ inp.(ri_recurrence_count) = 0
    /\ inp.(ri_control_test_result) = aggregate_control_result (outcome_texts tests).

(** The score of an incident, given all controls of the run. *)
Lemma incident_score (i : EndpointIncidentRecord) (tests : list EndpointControlTestResult) :
  i.(incident_class) <> "" ->
  exists r,
    score_risk_from_incident (incident_dict i) (control_tests_to_dict tests) None None 0 = Ok r
    /\ scored_as tests i r.
Proof.
  intros Hc. unfold score_risk_from_incident. rewrite related_controls_all, control_tier_T1.
  assert (map (fun c => py_str (Dict.get_default "test_result" (PStr "") c))
            (control_tests_to_dict tests) = outcome_texts tests) as ->
    by (unfold control_tests_to_dict, outcome_texts; rewrite map_map; by apply map_ext).
  assert (exists q, py_float (py_or (PFloat i.(ir_confidence)) (PFloat (F64.lit 5 10))) = Ok q)
    as [q Hq] by (unfold py_or; destruct (py_bool _); eexists; reflexivity).
  change (Dict.get "confidence" (incident_dict i)) with (PFloat i.(ir_confidence)).
  change (Dict.get "incident_class" (incident_dict i)) with (PStr i.(incident_class)).
  rewrite Hq. cbn [mbind result_bind].
  match goal with |- context [score_risk ?inp] => destruct (score_risk_total inp eq_refl) as [r Hr] end.
  exists r. split; [exact Hr|]. eexists. split; [exact Hr|].
  repeat split. cbn [ri_incident_class risk_input]. unfold py_or. cbn [py_bool].
  apply PyStr.is_empty_false in Hc. by rewrite Hc.
Qed.

Lemma mapped_ids (i : EndpointIncidentRecord) (events : list EvidenceEvent) :
  exists ts, map_control_tests_from_incident i events = Ok ts
             /\ map ct_control_id ts = CONTROL_IDS.
Proof.
  destruct (mapped_controls_shape i events) as (t1 & t2 & t3 & t4 & t5 & t6 & Em & Hids & _).
  eexists. split; [exact Em|]. rewrite map_map, <- Hids. apply map_ext. intros t. apply refine_id.
Qed.

Lemma mapped_all (events : list EvidenceEvent) (incidents : list EndpointIncidentRecord) :
  exists cs, mapM_result (fun i => map_control_tests_from_incident i events) incidents = Ok cs
             /\ map ct_control_id (concat cs) = concat (map (fun _ => CONTROL_IDS) incidents).
Proof.
  induction incidents as [|i l IH]; [exists []; split; reflexivity|].
  destruct (mapped_ids i events) as (ts & Et & Ht), IH as (cs & Ec & Hc).
  exists (ts :: cs). cbn -[map_control_tests_from_incident CONTROL_IDS].
  rewrite Et. cbn -[CONTROL_IDS]. rewrite Ec. split; [reflexivity|].
  by rewrite map_app, Ht, Hc.
Qed.

(** Every incident has its six controls; the fallback of the code never runs. *)
Lemma pipeline_controls_total (events : list EvidenceEvent) (incidents : list EndpointIncidentRecord) :
  exists controls, pipeline_controls events incidents = Ok controls
    /\ map ct_control_id controls = concat (map (fun _ => CONTROL_IDS) incidents).
Proof.
  destruct (mapped_all events incidents) as (cs & Ec & Hc).
  exists (concat cs). split; [|exact Hc]. unfold pipeline_controls. rewrite Ec. cbn.
  destruct (concat cs) eqn:Hcs, incidents; try reflexivity. discriminate Hc.
Qed.

Lemma scores_total (tests : list EndpointControlTestResult) (incidents : list EndpointIncidentRecord) :
  Forall (fun i => i.(incident_class) <> "") incidents ->
  exists scores,
    mapM_result (fun i =>
      r ← score_risk_from_incident (incident_dict i) (control_tests_to_dict tests) None None 0;
      Ok (i.(incident_id), r)) incidents = Ok scores
    /\ Forall2 (fun i s => s.1 = i.(incident_id) /\ scored_as tests i s.2) incidents scores.
Proof.
  induction 1 as [|i l Hi _ IH]; [exists []; split; [done|constructor]|].
  destruct (incident_score i tests Hi) as (r & Er & Hr), IH as (ss & Es & Hs).
  exists ((i.(incident_id), r) :: ss). cbn -[score_risk_from_incident]. rewrite Er.
  cbn -[score_risk_from_incident]. rewrite Es. split; [done|]. by constructor.
Qed.

(** A failing control anywhere makes the aggregate FAIL. *)
Lemma aggregate_fail (tests : list EndpointControlTestResult) :
  (exists c, In c tests /\ c.(ct_result) = FAIL) ->
  aggregate_control_result (outcome_texts tests) = "FAIL".
Proof.
  intros (c & Hc & Hr). unfold aggregate_control_result. cbn [List.find CONTROL_ORDER].
  replace (PyStr.mem "FAIL" _) with true; [reflexivity|]. symmetry.
  apply PyStr.mem_In, in_map_iff. exists "FAIL". split; [reflexivity|].
  apply in_map_iff. exists c. by rewrite Hr.
Qed.

(** What a score discloses and recommends. *)
Definition discloses_T1 (r : RiskScoringResult) : Prop :=
  (exists before after, r.(rr_explanation) = before +:+ ", proof=T1, controls=" +:+ after)
  /\ In "Proof tier is observation or correlation — escalate only with additional validation."
       r.(rr_limitations).

Lemma string_app_assoc (a b c : string) : (a +:+ b) +:+ c = a +:+ (b +:+ c).
Proof. induction a as [|x a IH]; [done|]. exact (f_equal (String x) IH). Qed.

Lemma score_T1 (tests : list EndpointControlTestResult) (i : EndpointIncidentRecord) (r : RiskScoringResult) :
  scored_as tests i r ->
  r.(rr_incident_class) = i.(incident_class) /\ discloses_T1 r
  /\ ((exists c, In c tests /\ c.(ct_result) = FAIL) -> r.(rr_human_review_recommended) = true).
Proof.
  intros (inp & Es & Hc & Ht & _ & Hr). revert Es. unfold score_risk.
  destruct (likelihood_raw _) as [raw|]; [|discriminate]. rewrite Hc, Ht, Hr.
  intros [= <-]. cbn [rr_incident_class rr_limitations rr_human_review_recommended].
  split; [done|]. split; [|intros Hf; rewrite (aggregate_fail _ Hf); apply orb_true_r].
  split.
  - cbn [rr_explanation].
    match goal with
    | |- exists before after, ?a1 +:+ (?a2 +:+ (?a3 +:+ (?a4 +:+ (?a5 +:+ (?a6 +:+ (?a7 +:+ (?a8 +:+ _)))))))
           = _ => exists (a1 +:+ (a2 +:+ (a3 +:+ (a4 +:+ (a5 +:+ (a6 +:+ (a7 +:+ a8)))))))
    end.
    eexists. rewrite !string_app_assoc. reflexivity.
  - cbn [rr_limitations]. unfold risk_limitations. rewrite !in_app_iff. right. left. by left.
Qed.

(** ** One incident per endpoint *)

(** The incident of an endpoint carries its name and the time of its newest event. *)
Definition incident_of (events : list EvidenceEvent) (k : string) (i : EndpointIncidentRecord) : Prop :=
  name_or i.(ir_endpoint_id) "local" = k
  /\ exists e, In e events /\ endpoint_key e = k /\ i.(ir_timestamp_utc) = e.(timestamp_utc)
     /\ forall e', In e' events -> endpoint_key e' = k ->
          String.ltb e.(timestamp_utc) e'.(timestamp_utc) = false.

Lemma last_endpoint_local (g : list EvidenceEvent) :
  (forall e, In e g -> endpoint_key e = "local") -> name_or (last_endpoint g) "local" = "local".
Proof.
  intros Hg. unfold last_endpoint. destruct (last_opt _) as [n|] eqn:El; [|done].
  apply last_opt_In, list_elem_of_In, list_elem_of_omap in El as (e & Hin & He).
  apply list_elem_of_In, Hg in Hin. unfold endpoint_key, name_or in Hin.
  destruct (endpoint_id e) as [m|]; [|done]. destruct (PyStr.is_empty m) eqn:Em; [done|].
  injection He as ->. cbn. rewrite Em. exact Hin.
Qed.

Lemma group_incident (events g : list EvidenceEvent) (k : string) :
  In (k, g) (endpoint_groups events) ->
  let i := classify_incident_from_events g None (if String.eqb k "local" then None else Some k) in
  incident_of events k i /\ i.(incident_class) <> "".
Proof.
  intros Hin. destruct (endpoint_groups_spec events) as (_ & _ & Hg).
  destruct (Hg k g Hin) as [Hne Hmem]. cbn zeta.
  unfold classify_incident_from_events, latest_of.
  destruct (last_opt _) as [newest|] eqn:El; [|by apply last_opt_None, sorted_by_nil in El].
  apply last_sorted_newest in El as [Hn Hnew]. apply Hmem in Hn as [Hn Hk].
  unfold incident_of. cbn [ir_endpoint_id ir_timestamp_utc incident_class name_or]. split; [split|].
  - destruct (String.eqb_spec k "local") as [->|Hd]; cbn [endpoint_or_last].
    + apply last_endpoint_local. intros e He. by apply Hmem in He as [_ ?].
    + destruct (PyStr.is_empty k) eqn:Ek; cbn [name_or].
      * apply PyStr.is_empty_true in Ek. subst k. exfalso. revert Ek.
        unfold endpoint_key, name_or. destruct (endpoint_id newest) as [m|]; [|done].
        destruct (PyStr.is_empty m) eqn:Em; [done|]. intros ->. done.
      * by rewrite Ek.
  - exists newest. split; [done|]. split; [done|]. split; [done|].
    intros e' He' Hk'. apply Hnew, Hmem. done.
  - destruct (final_sound (signals_of g)) as [He _]. intros Hc. by rewrite Hc in He.
Qed.

Lemma incidents_by_endpoint (events : list EvidenceEvent) :
  exists keys, List.NoDup keys /\ (forall k, In k keys <-> exists e, In e events /\ endpoint_key e = k)
    /\ Forall2 (incident_of events) keys (classify_incidents_from_events events)
    /\ Forall (fun i => i.(incident_class) <> "") (classify_incidents_from_events events).
Proof.
  exists (map fst (endpoint_groups events)). destruct (endpoint_groups_spec events) as (Hnd & _ & Hg).
  split; [done|]. split.
  - intros k. unfold endpoint_groups. rewrite map_map. cbn. rewrite map_id, sorted_set_In, in_map_iff.
    split; intros (e & H1 & H2); exists e; done.
  - unfold classify_incidents_from_events.
    assert (forall kg, In kg (endpoint_groups events) -> In (kg.1, kg.2) (endpoint_groups events)) as Hin
      by (by intros []).
    revert Hin. generalize (endpoint_groups events) at 1 3 4 5. intros l Hin.
    induction l as [|[k g] l IH]; [split; constructor|].
    destruct IH as [IH1 IH2]; [intros kg Hkg; apply Hin; by right|].
    destruct (group_incident events g k (Hin (k, g) (or_introl eq_refl))) as [Hi Hc].
    split; cbn [map fst]; constructor; done.
Qed.

(** C34: from any events the pipeline produces a payload.  The endpoints of the events have
    one incident each, under the endpoint's name and with the time of its newest event; the
    controls are the six of each incident, in order; and each incident has one score, under
    its identifier and for its class.  The controls carry neither an incident nor a tier: every
    score is computed, and explained, with proof tier T1, also beside writer proof, and one
    failed control of any endpoint recommends human review for every incident of the run. *)
Theorem pipeline_total (set_order : list string -> list string) (events : list EvidenceEvent)
    (bucket : string) (limit : Z) :
  exists p keys,
    analytics_of_events set_order events bucket limit = Ok p
    /\ List.NoDup keys /\ (forall k, In k keys <-> exists e, In e events /\ endpoint_key e = k)
    /\ Forall2 (incident_of events) keys p.(p_incidents)
    /\ map ct_control_id p.(p_control_tests) = concat (map (fun _ => CONTROL_IDS) p.(p_incidents))
    /\ Forall2 (fun i s => s.1 = i.(incident_id) /\ s.2.(rr_incident_class) = i.(incident_class)
                           /\ scored_as p.(p_control_tests) i s.2 /\ discloses_T1 s.2)
         p.(p_incidents) p.(p_risk_scores)
    /\ ((exists c, In c p.(p_control_tests) /\ c.(ct_result) = FAIL) ->
        Forall (fun s => s.2.(rr_human_review_recommended) = true) p.(p_risk_scores)).
Proof.
  destruct (incidents_by_endpoint events) as (keys & Hnd & Hk & Hi & Hc).
  unfold analytics_of_events.
  destruct (pipeline_controls_total events (classify_incidents_from_events events)) as (cs & Ec & Hcs).
  destruct (scores_total cs (classify_incidents_from_events events) Hc) as (ss & Es & Hs).
  rewrite Ec. cbn [mbind result_bind]. rewrite Es. cbn [mbind result_bind].
  eexists. exists keys. split; [reflexivity|]. cbn [p_incidents p_control_tests p_risk_scores].
  split; [done|]. split; [done|]. split; [done|]. split; [done|]. split.
  - eapply Forall2_impl; [exact Hs|]. intros i s [H1 H2]. by destruct (score_T1 _ _ _ H2) as (? & ? & _).
  - intros Hf. clear - Hs Hf. induction Hs as [|i s l1 l2 [_ H2] _ IH]; constructor; [|done].
    by destruct (score_T1 _ _ _ H2) as (_ & _ & Hr); apply Hr.
Qed.
End Properties.

Module PipelineWitness.
#[local] Instance host : PyHost := DemoHost.demo_host.
#[local] Instance endpoint : EndpointHost := {| default_endpoint_id := "host-a" |}.

Definition state_row (host ts server : string) : pydict :=
  ["event" :-> PStr "poll"; "state" :-> PDict
     ["timestamp_utc" :-> PStr ts; "endpoint_id" :-> PStr host;
      "wininet_proxy_enabled" :-> PBool true; "winhttp_direct_access" :-> PBool false;
      "wininet_proxy_server" :-> PStr server]].

Definition owner_row (host ts : string) (proof : pyval) : pydict :=
  ["listener_found" :-> PBool true; "timestamp_utc" :-> PStr ts; "endpoint_id" :-> PStr host;
   "writer_proof" :-> proof; "process" :-> PDict ["name" :-> PStr "tool.exe"]].

(** Only the first host has writer proof. *)
Definition two_hosts : list pydict :=
  [state_row "host-a" "2026-01-01T00:00:00Z" "127.0.0.1:8080";
   owner_row "host-a" "2026-01-01T00:00:01Z" (PBool true);
   state_row "host-b" "2026-01-01T00:00:02Z" "127.0.0.1:9090";
   owner_row "host-b" "2026-01-01T00:00:03Z" (PBool false)].

Definition owner_outcomes (p : Payload) : list string :=
  map (fun c => outcome_text c.(ct_result))
    (List.filter (fun c => String.eqb c.(ct_control_id) "WININET_PROXY_OWNER_VERIFICATION")
       p.(p_control_tests)).

(** Writer proof on one endpoint passes the owner control of the other. *)
Lemma writer_proof_crosses_endpoints :
  match run_endpoint_analytics_pipeline id [] [] two_hosts "day" 10 with
  | Ok p => map ir_endpoint_id p.(p_incidents) = [Some "host-a"; Some "host-b"]
            /\ owner_outcomes p = ["PASS"; "PASS"]
  | Raise _ => False
  end.
Proof. vm_compute. split; reflexivity. Qed.

(** Event identifiers leave the endpoint out: of two hosts with the same state at
    the same second, the second is dropped and has no incident. *)
Lemma same_state_hosts_merge :
  match run_endpoint_analytics_pipeline id [] []
          [state_row "host-a" "2026-01-01T00:00:00Z" "127.0.0.1:8080";
           state_row "host-b" "2026-01-01T00:00:00Z" "127.0.0.1:8080"] "day" 10 with
  | Ok p => map ir_endpoint_id p.(p_incidents) = [Some "host-a"]
  | Raise _ => False
  end.
Proof. vm_compute. reflexivity. Qed.

(** No events, no incidents. *)
Lemma empty_run_has_no_incident :
  match run_endpoint_analytics_pipeline id [] [] [] "day" 10 with
  | Ok p => p.(p_incidents) = []
  | Raise _ => False
  end.
Proof. vm_compute. reflexivity. Qed.
End PipelineWitness.
