(* ===== verification/RegistryWriter.v ===== *)
(** * Registry writer evidence

    [evidence/registry_writer.py]: which process wrote the WinINET proxy values,
    from Sysmon event 13, Security event 4657 and Procmon exports.  PowerShell and
    the JSON and CSV readers are outside the model: a query yields a process outcome,
    and its output is read by a given [json_loads]; a Procmon file is its header and
    the rows [csv.DictReader] yields.  A query is named by what its script asks for,
    with the clamped bounds the script is built from. *)

From S2P Require Import Prelude PyValue.
From Stdlib Require Import Ascii String.
From stdpp Require Import strings.

Open Scope string_scope.
Open Scope Z_scope.
Open Scope py_scope.

(** A backslash. *)
Definition BS : ascii := Json.backslash.
Definition bs : string := String BS EmptyString.

(** The key, in lower case. *)
Definition INTERNET_SETTINGS_FRAGMENT : string :=
  PyStr.join bs ["software"; "microsoft"; "windows"; "currentversion"; "internet settings"].

Definition PROXY_VALUE_DISPLAY : list (string * string) :=
  [("proxyenable", "ProxyEnable"); ("proxyserver", "ProxyServer");
   ("autoconfigurl", "AutoConfigURL"); ("proxyoverride", "ProxyOverride");
   ("autodetect", "AutoDetect")].

Definition PROXY_VALUE_NAMES : list string := map fst PROXY_VALUE_DISPLAY.

(** [PROXY_VALUE_DISPLAY[name]]. *)
Definition display (name : string) : string :=
  match List.find (fun kv => String.eqb kv.1 name) PROXY_VALUE_DISPLAY with
  | Some kv => kv.2
  | None => ""
  end.

Definition WRITER_PROOF_UNAVAILABLE : string :=
  "writer proof unavailable; enable Sysmon registry telemetry or import Procmon trace.".

(** Keys of the raw fields are column names; surplus CSV cells have none. *)
Record RegistryWriterEvidence := {
  rw_timestamp : option string;
  rw_process_image : option string;
  rw_process_id : option Z;
  rw_user : option string;
  rw_target_object : string;
  rw_value_name : string;
  rw_previous_value : option string;
  rw_current_value : option string;
  rw_event_source : string;
  rw_source_event_id : string;
  rw_raw : list (option string * pyval);
  rw_confidence : F64.t;
  rw_limitations : list string;
}.

(** ** String and number reading *)

(** [int(s, 0)] of a stripped text: sign, then [0x], [0o], [0b] or a decimal
    without leading zeros; single underscores between digits. *)
Module IntZero.
Definition digit_of (c : ascii) : Z :=
  let n := Z.of_N (PyStr.code (PyStr.lower_char c)) in
  if PyStr.is_digit c then n - 48 else if PyStr.is_alpha c then n - 87 else 99.

Fixpoint base_val (base acc : Z) (prev : bool) (s : string) : option Z :=
  match s with
  | EmptyString => if prev then Some acc else None
  | String c s' =>
      if digit_of c <? base then base_val base (acc * base + digit_of c) true s'
      else if Ascii.eqb c "_" && prev then base_val base acc false s'
      else None
  end.

Definition prefixed (base : Z) (s : string) : option Z :=
  base_val base 0 false match s with String "_" r => r | r => r end.

Definition int0_unsigned (s : string) : option Z :=
  match s with
  | String "0" (String c r) =>
      let c' := PyStr.lower_char c in
      if Ascii.eqb c' "x" then prefixed 16 r
      else if Ascii.eqb c' "o" then prefixed 8 r
      else if Ascii.eqb c' "b" then prefixed 2 r
      else v ← base_val 10 0 false s; if v =? 0 then Some 0 else None
  | _ => base_val 10 0 false s
  end.

Definition parse (s : string) : option Z :=
  match s with
  | String "-" r => z ← int0_unsigned r; Some (- z)
  | String "+" r => int0_unsigned r
  | r => int0_unsigned r
  end.
End IntZero.

(** What follows the first occurrence of [sub]: [s.split(sub, 1)[-1]]. *)
Fixpoint after_first (sub s : string) : option string :=
  if String.prefix sub s
  then Some (String.substring (String.length sub) (String.length s - String.length sub) s)
  else match s with
       | EmptyString => None
       | String _ s' => after_first sub s'
       end.

(** [s.split(c)[-1]]. *)
Fixpoint last_segment (c : ascii) (s : string) : string :=
  match s with
  | EmptyString => EmptyString
  | String d s' =>
      if existsb (Ascii.eqb c) (list_ascii_of_string s') then last_segment c s'
      else if Ascii.eqb d c then s' else s
  end.

(** [s or None]. *)
Definition nonempty_text (s : string) : option string := if PyStr.is_empty s then None else Some s.

(** [d.get(k1) or d.get(k2) or ... or v]. *)
Definition first_truthy (keys : list string) (d : pydict) (v : pyval) : pyval :=
  foldr (fun k acc => py_or (Dict.get k d) acc) v keys.

(** ** Value names *)

Section Names.
(** The iteration order of the frozen set of value names. *)
Context (order : list string).

(** An absent fallback is the empty one. *)
Definition normalize_registry_value_name (target_object fallback : string) : option string :=
  let target_l := PyStr.lower (PyStr.replace_char "/" BS target_object) in
  let candidate := PyStr.lower (PyStr.strip fallback) in
  let in_scope := PyStr.contains INTERNET_SETTINGS_FRAGMENT target_l in
  if PyStr.mem candidate PROXY_VALUE_NAMES then
    if negb (PyStr.is_empty target_l) && negb in_scope then None else Some (display candidate)
  else
  match after_first INTERNET_SETTINGS_FRAGMENT target_l with
  | None => None
  | Some rest =>
      let tail_name := PyStr.lower (PyStr.strip (last_segment BS (PyStr.strip_chars bs rest))) in
      if PyStr.mem tail_name PROXY_VALUE_NAMES then Some (display tail_name)
      else option_map display (List.find (fun v => PyStr.contains v target_l) order)
  end.

Definition is_proxy_registry_target (target_object fallback : string) : bool :=
  match normalize_registry_value_name target_object fallback with Some _ => true | None => false end.
End Names.

(** ** Telemetry rows *)

Section Parsers.
Context {H : PyHost} (order : list string).

Definition _coerce_int (v : pyval) : option Z :=
  match v with
  | PNone => None
  | _ =>
      let s := PyStr.strip (py_str v) in
      if PyStr.is_empty s then None else IntZero.parse s
  end.

Definition normal_key (k : string) : string :=
  PyStr.replace_char " " "_" (PyStr.lower (PyStr.strip k)).

Definition _lower_keys (row : pydict) : pydict :=
  foldl (fun acc kv => Dict.set (normal_key kv.1) kv.2 acc) [] row.

(** The event id of a row with normalised keys. *)
Definition row_event_id (lower : pydict) : option Z :=
  _coerce_int (first_truthy ["eventid"; "event_id"] lower (Dict.get "id" lower)).

Definition id_mismatch (id : option Z) (expected : Z) : bool :=
  match id with Some n => negb (n =? expected) | None => false end.

Definition first_field (keys : list string) (d : pydict) : string :=
  py_str (first_truthy keys d (PStr "")).

Definition _parse_sysmon_like_row (row : pydict) : option RegistryWriterEvidence :=
  let lower := _lower_keys row in
  if id_mismatch (row_event_id lower) 13 then None else
  let target := PyStr.strip
    (first_field ["targetobject"; "target_object"; "target"; "registry_path"] lower) in
  value_name ← normalize_registry_value_name order target "";
  Some {| rw_timestamp := nonempty_text (first_field ["utctime"; "utc_time"; "timecreated"; "timestamp"] lower);
          rw_process_image :=
            nonempty_text (PyStr.strip (first_field ["image"; "process_image"; "processpath"] lower));
          rw_process_id :=
            _coerce_int (first_truthy ["processid"; "process_id"] lower (Dict.get "pid" lower));
          rw_user := nonempty_text (PyStr.strip (first_field ["user"] lower));
          rw_target_object := target;
          rw_value_name := value_name;
          rw_previous_value := None;
          rw_current_value :=
            match Dict.get "details" lower with
            | PNone => None
            | v => Some (Utf8.prefix 2048 (py_str v))
            end;
          rw_event_source := "sysmon_event_13";
          rw_source_event_id := "13";
          rw_raw := map (fun kv => (Some kv.1, kv.2)) row;
          rw_confidence := F64.lit 94 100;
          rw_limitations :=
            ["Sysmon Event ID 13 supplies the set value detail; it does not always include previous value."] |}.

(** Rows that are not dictionaries are skipped. *)
Definition dict_rows (rows : list pyval) : list pydict :=
  omap (fun v => match v with PDict d => Some d | _ => None end) rows.

Definition parse_sysmon_event_rows (rows : list pyval) : list RegistryWriterEvidence :=
  omap _parse_sysmon_like_row (dict_rows rows).

(** [line.partition(":")] on a line that has a colon. *)
Definition message_pair (line : string) : option (string * string) :=
  let '(key, rest) := PyStr.span (fun c => negb (Ascii.eqb c ":")) line in
  match rest with
  | String _ val => Some (key, val)
  | EmptyString => None
  end.

Definition _parse_message_pairs (message : string) : pydict :=
  foldl (fun acc raw =>
    match message_pair (PyStr.strip raw) with
    | Some (key, val) =>
        let norm := normal_key key in
        if PyStr.is_empty norm then acc else Dict.set norm (PStr (PyStr.strip val)) acc
    | None => acc
    end) [] (splitlines message).

Definition parse_security_row (row : pydict) : option RegistryWriterEvidence :=
  let lower := _lower_keys row in
  if id_mismatch (row_event_id lower) 4657 then None else
  let fields :=
    match Dict.get "message" lower with
    | PStr msg => Dict.update lower (_parse_message_pairs msg)
    | _ => lower
    end in
  let target := PyStr.strip
    (first_field ["object_name"; "objectname"; "target_object"; "targetobject"] fields) in
  let hint := first_field ["object_value_name"; "objectvaluename"; "value_name"] fields in
  value_name ← normalize_registry_value_name order target hint;
  Some {| rw_timestamp := nonempty_text (first_field ["timecreated"; "timestamp"] fields);
          rw_process_image :=
            nonempty_text (PyStr.strip (first_field ["process_name"; "processname"; "image"] fields));
          rw_process_id :=
            _coerce_int (first_truthy ["process_id"; "processid"] fields (Dict.get "pid" fields));
          rw_user :=
            nonempty_text (PyStr.strip (first_field ["subject_user_name"; "subjectusername"; "user"] fields));
          rw_target_object := target;
          rw_value_name := value_name;
          rw_previous_value := nonempty_text (first_field ["old_value"; "oldvalue"] fields);
          rw_current_value := nonempty_text (first_field ["new_value"; "newvalue"] fields);
          rw_event_source := "windows_security_event_4657";
          rw_source_event_id := "4657";
          rw_raw := map (fun kv => (Some kv.1, kv.2)) row;
          rw_confidence := F64.lit 90 100;
          rw_limitations :=
            ["Security Event ID 4657 requires registry auditing/SACL coverage on the target key."] |}.

Definition parse_security_4657_rows (rows : list pydict) : list RegistryWriterEvidence :=
  omap parse_security_row rows.

(** *** Procmon exports *)

Definition _norm_header (name : string) : string :=
  PyStr.replace_char "_" " " (PyStr.lower (PyStr.strip name)).

(** A row of [csv.DictReader]: missing cells are [None], surplus cells a list
    under no name. *)
Definition csv_row := list (option string * pyval).

Record csv_table := { csv_fieldnames : list string; csv_rows : list csv_row }.

Definition csv_get (k : string) (row : csv_row) : pyval :=
  match List.find (fun kv => match kv.1 with Some k' => String.eqb k' k | None => false end) row with
  | Some kv => kv.2
  | None => PNone
  end.

(** The last header with a given normal form. *)
Definition header_of (fields : list string) (norm : string) : option string :=
  last_opt (List.filter (fun h => String.eqb (_norm_header h) norm) fields).

(** The column of the first name that has a non-empty header, empty without one. *)
Definition col (fields names : list string) : string :=
  default "" (head (omap (fun n => h ← header_of fields (_norm_header n); nonempty_text h) names)).

Definition cell (fields names : list string) (row : csv_row) : string :=
  py_str (py_or (csv_get (col fields names) row) (PStr "")).

Definition parse_procmon_row (fields : list string) (row : csv_row) : option RegistryWriterEvidence :=
  let op := cell fields ["operation"] row in
  if negb (PyStr.contains "regsetvalue" (PyStr.lower op))
     && negb (PyStr.contains "setvalue" (PyStr.lower op)) then None else
  let result := cell fields ["result"] row in
  if negb (PyStr.is_empty result) && negb (PyStr.contains "success" (PyStr.lower result))
  then None else
  let target := cell fields ["path"; "registry path"; "target object"] row in
  value_name ← normalize_registry_value_name order target "";
  let detail := cell fields ["detail"; "details"] row in
  Some {| rw_timestamp :=
            nonempty_text (cell fields ["time of day"; "time"; "date time"; "utc time"] row);
          rw_process_image := nonempty_text (cell fields ["process name"; "process"; "image"] row);
          rw_process_id := _coerce_int (csv_get (col fields ["pid"; "process id"]) row);
          rw_user := nonempty_text (cell fields ["user"] row);
          rw_target_object := target;
          rw_value_name := value_name;
          rw_previous_value := None;
          rw_current_value := if PyStr.is_empty detail then None else Some (Utf8.prefix 2048 detail);
          rw_event_source := "procmon_csv";
          rw_source_event_id := if PyStr.is_empty op then "RegSetValue" else op;
          rw_raw := map (fun kv => (kv.1, PStr (Utf8.prefix 2048 (py_str kv.2)))) row;
          rw_confidence := F64.lit 88 100;
          rw_limitations :=
            ["Procmon CSV is imported operator evidence; preserve original trace for audit chain of custody.";
             "Procmon timestamps may be local time and may not include full date."] |}.

(** [None]: no such file, or it cannot be opened. *)
Definition parse_procmon_csv (file : option csv_table) : list RegistryWriterEvidence :=
  match file with
  | None => []
  | Some t =>
      match t.(csv_fieldnames) with
      | [] => []
      | fields => omap (parse_procmon_row fields) t.(csv_rows)
      end
  end.
End Parsers.

(** ** Queries *)

Inductive ps_query :=
| QSysmonStatus
| QSysmonEvents (since_seconds max_events : Z)
| QSecurityEvents (since_seconds max_events : Z).

(** A process that could not run or timed out, named by its exception, or one
    that ended. *)
Inductive run_outcome :=
| RunRaises (exception : string)
| RunDone (returncode : Z) (stdout stderr : string).

Record SysmonStatus := {
  ss_installed : bool;
  ss_running : bool;
  ss_service_names : list string;
  ss_log_available : bool;
  ss_record_count : option pyval;
  ss_limitations : list string;
}.

Record QueryResult := {
  qr_evidence : list RegistryWriterEvidence;
  qr_limitations : list string;
  qr_status : option SysmonStatus;
}.

Definition clamp_since (n : Z) : Z := Z.max 1 n.
Definition clamp_events (n : Z) : Z := Z.max 1 (Z.min n 1000).

(** The parsed output as rows: a lone object is one row. *)
Definition rows_of_output (v : pyval) : list pydict :=
  match v with
  | PDict d => [d]
  | PList l => dict_rows l
  | _ => []
  end.

Section Queries.
Context {H : PyHost} (order : list string).
Context (json_loads : string -> option pyval) (run : ps_query -> run_outcome).

Definition no_sysmon (limitations : list string) : SysmonStatus :=
  {| ss_installed := false; ss_running := false; ss_service_names := []; ss_log_available := false;
     ss_record_count := None; ss_limitations := limitations |}.

(** The status read from the query's output. *)
Definition sysmon_status_of (blob : pyval) : SysmonStatus :=
  let d := match blob with PDict d => d | _ => [] end in
  let services :=
    match Dict.get "services" d with
    | PDict s => [s]
    | PList l => dict_rows l
    | _ => []
    end in
  let name s := py_str (py_or (Dict.get "Name" s) (PStr "")) in
  let names := List.filter (fun n => negb (PyStr.is_empty (PyStr.strip n))) (map name services) in
  let running :=
    existsb (fun s => String.eqb
      (PyStr.lower (py_str (py_or (Dict.get "Status" s) (PStr "")))) "running") services in
  let log_available := py_bool (Dict.get "log_available" d) in
  let installed := match names with [] => log_available | _ => true end in
  {| ss_installed := installed; ss_running := running; ss_service_names := names;
     ss_log_available := log_available; ss_record_count := Some (Dict.get "record_count" d);
     ss_limitations :=
       ((if negb installed then [WRITER_PROOF_UNAVAILABLE]
         else if negb running then
           ["Sysmon service is installed but not running; recent writer proof may be incomplete."]
         else [])
        ++ (if installed && negb log_available then
              ["Sysmon service found but Operational event log was not readable."] else []))%list |}.

(** [text.strip() or d]. *)
Definition output_or (d text : string) : string :=
  let s := PyStr.strip text in if PyStr.is_empty s then d else s.

Definition detect_sysmon_status (platform : string) : SysmonStatus :=
  if negb (String.eqb (PyStr.lower platform) "windows") then no_sysmon ["non_windows_platform"] else
  match run QSysmonStatus with
  | RunRaises e => no_sysmon ["sysmon_status_query_failed:" ++ e]
  | RunDone code stdout stderr =>
      if negb (code =? 0) then
        no_sysmon ["sysmon_status_query_nonzero"; Utf8.prefix 300 stderr]
      else
      match json_loads (output_or "{}" stdout) with
      | None => no_sysmon ["sysmon_status_json_parse_failed"]
      | Some blob => sysmon_status_of blob
      end
  end.

Definition query_sysmon_registry_writes (since_seconds max_events : Z) (platform : string)
    : QueryResult :=
  let status := detect_sysmon_status platform in
  let none limitations :=
    {| qr_evidence := []; qr_limitations := limitations; qr_status := Some status |} in
  if negb status.(ss_installed) then
    none match status.(ss_limitations) with [] => [WRITER_PROOF_UNAVAILABLE] | l => l end
  else
  match run (QSysmonEvents (clamp_since since_seconds) (clamp_events max_events)) with
  | RunRaises e => none (("sysmon_event_query_failed:" +:+ e) :: status.(ss_limitations))
  | RunDone code stdout stderr =>
      if negb (code =? 0) then
        none ("sysmon_event_query_nonzero" :: Utf8.prefix 500 stderr :: status.(ss_limitations))
      else
      match json_loads (output_or "[]" stdout) with
      | None => none ["sysmon_event_json_parse_failed"]
      | Some parsed =>
          let evidence := parse_sysmon_event_rows order (map PDict (rows_of_output parsed)) in
          {| qr_evidence := evidence;
             qr_limitations :=
               (status.(ss_limitations) ++
                match evidence with
                | [] => ["No Sysmon Event ID 13 proxy registry writes found in the requested time window."]
                | _ => []
                end)%list;
             qr_status := Some status |}
      end
  end.

Definition query_security_registry_writes (since_seconds max_events : Z) (platform : string)
    : QueryResult :=
  let none limitations :=
    {| qr_evidence := []; qr_limitations := limitations; qr_status := None |} in
  if negb (String.eqb (PyStr.lower platform) "windows") then
    none ["Security 4657 registry audit log unavailable on non-Windows platform."]
  else
  match run (QSecurityEvents (clamp_since since_seconds) (clamp_events max_events)) with
  | RunRaises e => none ["security_4657_query_failed:" +:+ e]
  | RunDone code stdout stderr =>
      if negb (code =? 0) then none ["security_4657_query_nonzero"; Utf8.prefix 500 stderr] else
      match json_loads (output_or "[]" stdout) with
      | None => none ["security_4657_json_parse_failed"]
      | Some parsed =>
          let evidence := parse_security_4657_rows order (rows_of_output parsed) in
          {| qr_evidence := evidence;
             qr_limitations :=
               match evidence with
               | [] => ["No Security Event ID 4657 proxy registry writes found; registry auditing may be disabled."]
               | _ => []
               end;
             qr_status := None |}
      end
  end.

Record WriterCollection := {
  wc_evidence : list RegistryWriterEvidence;
  wc_limitations : list string;
  wc_sysmon_status : option SysmonStatus;
  wc_security_log_checked : bool;
  wc_procmon_rows_imported : Z;
  wc_telemetry_available : bool;
}.

(** [procmon]: the export, when a path was given. *)
Definition collect_registry_writer_evidence (since_seconds : Z)
    (procmon : option (option csv_table)) (include_security_log : bool) (platform : string)
    : WriterCollection :=
  let truthy := List.filter (fun s => negb (PyStr.is_empty s)) in
  let sysmon := query_sysmon_registry_writes since_seconds 200 platform in
  let security :=
    if include_security_log then query_security_registry_writes since_seconds 200 platform
    else {| qr_evidence := []; qr_limitations := []; qr_status := None |} in
  let imported := match procmon with Some f => parse_procmon_csv order f | None => [] end in
  let evidence := (sysmon.(qr_evidence) ++ security.(qr_evidence) ++ imported)%list in
  let limitations :=
    (truthy sysmon.(qr_limitations) ++ truthy security.(qr_limitations)
     ++ match procmon, imported with
        | Some _, [] => ["No Procmon CSV rows matched WinINET proxy RegSetValue filters."]
        | _, _ => []
        end)%list in
  let limitations :=
    match evidence with
    | [] => if PyStr.mem WRITER_PROOF_UNAVAILABLE limitations then limitations
            else (limitations ++ [WRITER_PROOF_UNAVAILABLE])%list
    | _ => limitations
    end in
  {| wc_evidence := evidence;
     wc_limitations := dedupe String.eqb limitations;
     wc_sysmon_status := sysmon.(qr_status);
     wc_security_log_checked := include_security_log;
     wc_procmon_rows_imported := Z.of_nat (length imported);
     wc_telemetry_available := match evidence with [] => false | _ => true end |}.
End Queries.

(** *** The proof contract

    [evidence/registry_writer_proof.py]; an [OSError] of the collectors carries its
    rendered reason. *)

Definition LISTENER_LIMITATION : string :=
  "listener/process correlation does not prove registry writer identity; this proof requires Sysmon Event ID 13, Security Event ID 4657 with registry auditing, or imported Procmon CSV.".

Inductive WriterProof :=
| Unavailable (reason : string) (sysmon_status : option SysmonStatus)
| Found (events : list pydict) (sysmon_status : option SysmonStatus).

Definition _evidence_event_dict (e : RegistryWriterEvidence) : pydict :=
  ["timestamp" :-> of_opt PStr e.(rw_timestamp);
   "image" :-> of_opt PStr e.(rw_process_image);
   "process_id" :-> of_opt PInt e.(rw_process_id);
   "user" :-> of_opt PStr e.(rw_user);
   "target_object" :-> PStr e.(rw_target_object);
   "value_name" :-> PStr e.(rw_value_name);
   "details" :-> of_opt PStr e.(rw_current_value);
   "event_source" :-> PStr e.(rw_event_source);
   "source_event_id" :-> PStr e.(rw_source_event_id);
   "confidence" :-> PFloat e.(rw_confidence)].

(** The first limitation that speaks of missing proof. *)
Definition unavailable_reason (limitations : list string) : string :=
  match List.find (fun t => negb (PyStr.is_empty t)
           && (PyStr.contains "no sysmon event" (PyStr.lower t)
               || PyStr.contains "writer proof unavailable" (PyStr.lower t))) limitations with
  | Some t => t
  | None => WRITER_PROOF_UNAVAILABLE
  end.

Definition proof_of_collection (bundle : WriterCollection) : WriterProof :=
  match bundle.(wc_evidence) with
  | [] => Unavailable (unavailable_reason bundle.(wc_limitations)) bundle.(wc_sysmon_status)
  | evidence => Found (map _evidence_event_dict evidence) bundle.(wc_sysmon_status)
  end.

(** [bundle]: the collection, or the reason an [OSError] gives. *)
Definition build_registry_writer_proof (bundle : WriterCollection + string) : WriterProof :=
  match bundle with
  | inl c => proof_of_collection c
  | inr reason => Unavailable reason None
  end.

(** ** Properties *)

Definition DISPLAY_NAMES : list string := map snd PROXY_VALUE_DISPLAY.

Lemma display_In (name : string) : In name PROXY_VALUE_NAMES -> In (display name) DISPLAY_NAMES.
Proof. cbn [In PROXY_VALUE_NAMES map fst PROXY_VALUE_DISPLAY]. intros Hn. repeat (destruct Hn as [<-|Hn]; [vm_compute; tauto|]). contradiction. Qed.

Lemma after_first_contains (sub s : string) :
  PyStr.contains sub s = match after_first sub s with Some _ => true | None => false end.
Proof.
  induction s as [|c s IH]; cbn [PyStr.contains after_first].
  - by destruct (String.prefix sub "").
  - destruct (String.prefix sub (String c s)); [done|exact IH].
Qed.

Lemma map_chars_empty (f : ascii -> ascii) (s : string) :
  PyStr.is_empty (PyStr.map_chars f s) = PyStr.is_empty s.
Proof. by destruct s. Qed.

(** A target in the scope of the WinINET key. *)
Definition in_key (target : string) : bool :=
  PyStr.contains INTERNET_SETTINGS_FRAGMENT (PyStr.lower (PyStr.replace_char "/" BS target)).

Lemma normalize_scope (order : list string) (target fallback v : string) :
  Permutation order PROXY_VALUE_NAMES ->
  normalize_registry_value_name order target fallback = Some v ->
  In v DISPLAY_NAMES
  /\ (in_key target = true
      \/ target = "" /\ In (PyStr.lower (PyStr.strip fallback)) PROXY_VALUE_NAMES).
Proof.
  intros Hp. unfold normalize_registry_value_name, in_key.
  destruct (PyStr.mem (PyStr.lower (PyStr.strip fallback)) PROXY_VALUE_NAMES) eqn:Hc.
  - apply PyStr.mem_In in Hc.
    set (target_l := PyStr.lower (PyStr.replace_char "/" BS target)).
    assert (PyStr.is_empty target_l = PyStr.is_empty target) as -> by
      (unfold target_l, PyStr.lower, PyStr.replace_char; by rewrite !map_chars_empty).
    destruct (PyStr.contains INTERNET_SETTINGS_FRAGMENT target_l).
    + rewrite andb_false_r. intros [= <-]. split; [by apply display_In|by left].
    + destruct (PyStr.is_empty target) eqn:Ht; [|discriminate]. intros [= <-].
      split; [by apply display_In|right]. split; [by apply PyStr.is_empty_true|done].
  - rewrite after_first_contains.
    destruct (after_first _ _) as [rest|]; [|discriminate]. intros Hn. split; [|by left].
    destruct (PyStr.mem (PyStr.lower (PyStr.strip (last_segment _ _))) PROXY_VALUE_NAMES) eqn:Hm.
    + injection Hn as <-. apply display_In. by apply PyStr.mem_In.
    + destruct (List.find _ order) as [w|] eqn:Hf; [|discriminate]. injection Hn as <-.
      apply display_In. apply find_some in Hf as [Hw _]. by rewrite <- Hp.
Qed.

(** *** Canonical paths *)

Lemma substring_append_skip (a t : string) :
  String.substring (String.length a) (String.length (a ++ t) - String.length a) (a ++ t) = t.
Proof.
  induction a as [|c a IH]; [|exact IH]. change ("" ++ t) with t. cbn [String.length].
  rewrite Nat.sub_0_r.
  induction t as [|c t IH]; [done|]. cbn. by rewrite IH.
Qed.

Lemma prefix_split (sub s : string) : String.prefix sub s = true -> exists r, s = sub ++ r.
Proof.
  revert s. induction sub as [|c sub IH]; intros s Hs; [by exists s|].
  destruct s as [|d s]; [discriminate|]. cbn in Hs.
  destruct (ascii_dec c d) as [->|]; [|discriminate].
  destruct (IH s Hs) as [r ->]. by exists r.
Qed.

Lemma append_empty (t : string) : "" ++ t = t.
Proof. reflexivity. Qed.

Lemma append_string_assoc (a b c : string) : (a ++ b) ++ c = a ++ (b ++ c).
Proof.
  induction a as [|x a IH]; [reflexivity|]. by rewrite !PyStr.append_cons, IH.
Qed.

Lemma length_append_string (a b : string) :
  String.length (a ++ b) = (String.length a + String.length b)%nat.
Proof. induction a as [|x a IH]; [reflexivity|]. rewrite PyStr.append_cons. cbn. by rewrite IH. Qed.

Lemma append_suffix (a b t r : string) :
  (String.length b <= String.length a)%nat -> a ++ t = b ++ r -> exists x, r = x ++ t.
Proof.
  revert b. induction a as [|c a IH]; intros [|d b] Hl Heq; cbn in Hl; try lia.
  - by exists "".
  - exists (String c a). by rewrite Heq.
  - rewrite !PyStr.append_cons in Heq. injection Heq as _ Heq. eapply IH; [|exact Heq]. lia.
Qed.

Lemma prefix_append (sub t : string) : String.prefix sub (sub ++ t) = true.
Proof.
  induction sub as [|c sub IH]; [by destruct t|]. rewrite PyStr.append_cons. cbn.
  destruct (ascii_dec c c); done.
Qed.

Lemma after_first_step (sub s : string) :
  after_first sub s =
    if String.prefix sub s
    then Some (String.substring (String.length sub) (String.length s - String.length sub) s)
    else match s with EmptyString => None | String _ s' => after_first sub s' end.
Proof. by destruct s. Qed.

(** What follows the first occurrence keeps everything after a known one. *)
Lemma after_first_suffix (sub h t : string) :
  exists x, after_first sub (h ++ sub ++ t) = Some (x ++ t).
Proof.
  induction h as [|c h IH].
  - exists "". rewrite append_empty, after_first_step, prefix_append, substring_append_skip.
    reflexivity.
  - rewrite PyStr.append_cons, after_first_step.
    destruct (String.prefix sub (String c (h ++ sub ++ t))) eqn:Hp; [|exact IH].
    apply prefix_split in Hp as [r Hr]. rewrite Hr, substring_append_skip.
    destruct (append_suffix (String c (h ++ sub)) sub t r) as [x ->].
    + cbn. rewrite length_append_string. lia.
    + by rewrite PyStr.append_cons, append_string_assoc.
    + by exists x.
Qed.

(** The last segment of a path whose last segment is known. *)
Definition no_char (c : ascii) (s : string) : bool := negb (existsb (Ascii.eqb c) (list_ascii_of_string s)).

Lemma list_ascii_append (a b : string) :
  list_ascii_of_string (a ++ b) = (list_ascii_of_string a ++ list_ascii_of_string b)%list.
Proof.
  induction a as [|c a IH]; [reflexivity|]. rewrite PyStr.append_cons. cbn. by rewrite IH.
Qed.

Lemma last_segment_none (c : ascii) (t : string) : no_char c t = true -> last_segment c t = t.
Proof.
  destruct t as [|d t]; [done|]. unfold no_char. cbn. rewrite negb_orb, andb_true_iff, !negb_true_iff.
  intros [Hd ->]. rewrite Ascii.eqb_sym. by rewrite Hd.
Qed.

Lemma last_segment_append (c : ascii) (x t : string) :
  no_char c t = true -> last_segment c (x ++ String c t) = t.
Proof.
  intros Ht. unfold no_char in Ht. apply negb_true_iff in Ht. induction x as [|d x IH].
  - rewrite append_empty. cbn [last_segment]. by rewrite Ht, Ascii.eqb_refl.
  - rewrite PyStr.append_cons. cbn [last_segment].
    rewrite list_ascii_append, existsb_app. cbn [list_ascii_of_string existsb].
    by rewrite Ascii.eqb_refl, orb_true_r.
Qed.

Lemma rstrip_append (p : ascii -> bool) (s t : string) :
  t <> "" -> PyStr.rstrip_by p t = t -> PyStr.rstrip_by p (s ++ t) = s ++ t.
Proof.
  intros Hne Ht. induction s as [|c s IH]; [exact Ht|]. rewrite PyStr.append_cons. cbn.
  rewrite IH. destruct (s ++ t) eqn:E; [|done]. destruct s; [|discriminate E].
  by destruct Hne.
Qed.

(** Stripping separators around a path keeps its last segment. *)
Lemma strip_last_segment (x t : string) :
  t <> "" -> no_char BS t = true ->
  last_segment BS (PyStr.strip_chars bs (x ++ String BS t)) = t.
Proof.
  intros Hne Ht. unfold PyStr.strip_chars, PyStr.strip_by.
  set (p := fun c => existsb (Ascii.eqb c) (list_ascii_of_string bs)).
  assert (Hp : PyStr.all_chars (fun c => negb (p c)) t = true).
  { clear Hne. unfold no_char in Ht. apply negb_true_iff in Ht. induction t as [|c t IH]; [done|].
    cbn [list_ascii_of_string existsb] in Ht. apply orb_false_iff in Ht as [Hc Ht].
    cbn [PyStr.all_chars]. rewrite (IH Ht), andb_true_r.
    change (p c) with (Ascii.eqb c BS || false). by rewrite Ascii.eqb_sym, Hc. }
  assert (Hr : PyStr.rstrip_by p t = t) by (by apply PyStr.rstrip_by_none).
  assert (Hl : PyStr.lstrip_by p t = t).
  { destruct t as [|c t]; [done|]. cbn [PyStr.all_chars PyStr.lstrip_by] in Hp |- *.
    destruct (p c); [discriminate|done]. }
  induction x as [|c x IH].
  - change ("" ++ String BS t) with (String BS t). cbn [PyStr.lstrip_by].
    change (p BS) with true. cbn match. rewrite Hl, Hr. by apply last_segment_none.
  - rewrite PyStr.append_cons. cbn [PyStr.lstrip_by]. destruct (p c); [exact IH|].
    rewrite <- PyStr.append_cons.
    replace (String c x ++ String BS t) with ((String c x ++ bs) ++ t)
      by (by rewrite append_string_assoc).
    rewrite rstrip_append by done. rewrite append_string_assoc. by apply last_segment_append.
Qed.

Lemma map_chars_append (f : ascii -> ascii) (a b : string) :
  PyStr.map_chars f (a ++ b) = PyStr.map_chars f a ++ PyStr.map_chars f b.
Proof.
  induction a as [|c a IH]; [reflexivity|]. rewrite PyStr.append_cons. cbn. by rewrite IH.
Qed.

(** The path of a WinINET value under any hive. *)
Definition value_path (hive value : string) : string :=
  hive ++ PyStr.join bs ["Software"; "Microsoft"; "Windows"; "CurrentVersion"; "Internet Settings"]
  ++ bs ++ value.

(** The path of each monitored WinINET value, under any hive and with any
    separators in the hive, is recognised as that value, whatever the order in which
    the set of names is iterated. *)
Theorem value_path_recognised (order : list string) (hive : string) :
  Forall (fun value => normalize_registry_value_name order (value_path hive value) "" = Some value)
    DISPLAY_NAMES.
Proof.
  assert (Hgen : forall value low,
    PyStr.lower (PyStr.replace_char "/" BS value) = low ->
    PyStr.mem low PROXY_VALUE_NAMES = true -> display low = value ->
    no_char BS low = true -> low <> "" -> PyStr.lower (PyStr.strip low) = low ->
    normalize_registry_value_name order (value_path hive value) "" = Some value).
  { intros value low Hlow Hm Hd Hc Hne Hs. unfold normalize_registry_value_name, value_path.
    change (PyStr.mem (PyStr.lower (PyStr.strip "")) PROXY_VALUE_NAMES) with false. cbn match.
    unfold PyStr.lower at 1, PyStr.replace_char at 1. rewrite !map_chars_append.
    set (h := PyStr.map_chars _ (PyStr.map_chars _ hive)).
    unfold PyStr.lower, PyStr.replace_char in Hlow. rewrite Hlow.
    match goal with |- context [after_first _ (h ++ ?k ++ ?b ++ low)] =>
      change k with INTERNET_SETTINGS_FRAGMENT; change b with bs end.
    destruct (after_first_suffix INTERNET_SETTINGS_FRAGMENT h (bs ++ low)) as [x ->].
    change (bs ++ low) with (String BS low). rewrite strip_last_segment by done.
    by rewrite Hs, Hm, Hd. }
  repeat (apply Forall_cons; split; [eapply Hgen; [reflexivity|reflexivity|reflexivity|reflexivity|discriminate|reflexivity]|]).
  constructor.
Qed.

(** *** Collected evidence *)

Section Collection.
Context {H : PyHost} (order : list string) (Horder : Permutation order PROXY_VALUE_NAMES).

(** What every piece of writer evidence shows. *)
Definition sound_evidence (source : string) (e : RegistryWriterEvidence) : Prop :=
  e.(rw_event_source) = source
  /\ In e.(rw_value_name) DISPLAY_NAMES
  /\ e.(rw_limitations) <> []
  /\ (in_key e.(rw_target_object) = true
      \/ source = "windows_security_event_4657" /\ e.(rw_target_object) = "").

Lemma no_hint : ~ In (PyStr.lower (PyStr.strip "")) PROXY_VALUE_NAMES.
Proof. rewrite <- PyStr.mem_In. vm_compute. discriminate. Qed.

Lemma id_match (id : option Z) (n : Z) : id_mismatch id n = false -> id = None \/ id = Some n.
Proof.
  destruct id as [m|]; [|by left]. cbn. rewrite negb_false_iff, Z.eqb_eq. intros ->. by right.
Qed.

Lemma sysmon_row_sound (row : pydict) (e : RegistryWriterEvidence) :
  _parse_sysmon_like_row order row = Some e ->
  sound_evidence "sysmon_event_13" e
  /\ (row_event_id (_lower_keys row) = None \/ row_event_id (_lower_keys row) = Some 13).
Proof using Horder.
  unfold _parse_sysmon_like_row. destruct (id_mismatch _ 13) eqn:Hid; [discriminate|].
  destruct (normalize_registry_value_name order _ "") as [v|] eqn:Hn; [|discriminate].
  intros [= <-]. apply (normalize_scope _ _ _ _ Horder) in Hn as [Hv Hs].
  split; [|by apply id_match]. repeat split; [exact Hv|discriminate|].
  destruct Hs as [Hs|[_ Hh]]; [by left|by destruct (no_hint Hh)].
Qed.

Lemma security_row_sound (row : pydict) (e : RegistryWriterEvidence) :
  parse_security_row order row = Some e ->
  sound_evidence "windows_security_event_4657" e
  /\ (row_event_id (_lower_keys row) = None \/ row_event_id (_lower_keys row) = Some 4657).
Proof using Horder.
  unfold parse_security_row. destruct (id_mismatch _ 4657) eqn:Hid; [discriminate|].
  set (fields := match Dict.get "message" _ with PStr _ => _ | _ => _ end). clearbody fields.
  destruct (normalize_registry_value_name order _ _) as [v|] eqn:Hn; [|discriminate].
  intros [= <-]. apply (normalize_scope _ _ _ _ Horder) in Hn as [Hv Hs].
  split; [|by apply id_match]. repeat split; [exact Hv|discriminate|].
  destruct Hs as [Hs|[Ht _]]; [by left|by right].
Qed.

Lemma procmon_row_sound (fields : list string) (row : csv_row) (e : RegistryWriterEvidence) :
  parse_procmon_row order fields row = Some e -> sound_evidence "procmon_csv" e.
Proof using Horder.
  unfold parse_procmon_row. destruct (_ && _); [discriminate|]. destruct (_ && _); [discriminate|].
  destruct (normalize_registry_value_name order _ "") as [v|] eqn:Hn; [|discriminate].
  intros [= <-]. apply (normalize_scope _ _ _ _ Horder) in Hn as [Hv Hs].
  repeat split; [exact Hv|discriminate|].
  destruct Hs as [Hs|[_ Hh]]; [by left|by destruct (no_hint Hh)].
Qed.

Lemma omap_Forall {A B} (f : A -> option B) (P : B -> Prop) (l : list A) :
  (forall x y, f x = Some y -> P y) -> Forall P (omap f l).
Proof.
  intros Hf. induction l as [|x l IH]; [constructor|]. cbn. destruct (f x) eqn:E; [|exact IH].
  constructor; [by eapply Hf|exact IH].
Qed.

Context (json_loads : string -> option pyval) (run : ps_query -> run_outcome).

Lemma sysmon_query_sound (since max_events : Z) (platform : string) :
  let q := query_sysmon_registry_writes order json_loads run since max_events platform in
  Forall (sound_evidence "sysmon_event_13") q.(qr_evidence)
  /\ (PyStr.lower platform <> "windows" -> q.(qr_evidence) = []).
Proof using Horder.
  unfold query_sysmon_registry_writes. split.
  - destruct (negb _); [constructor|]. destruct (run _) as [|code out err]; [constructor|].
    destruct (negb _); [constructor|]. destruct (json_loads _); [|constructor].
    apply omap_Forall. intros row e He. by apply sysmon_row_sound in He as [? _].
  - intros Hw. unfold detect_sysmon_status.
    by rewrite (proj2 (String.eqb_neq _ _) Hw).
Qed.

Lemma security_query_sound (since max_events : Z) (platform : string) :
  let q := query_security_registry_writes order json_loads run since max_events platform in
  Forall (sound_evidence "windows_security_event_4657") q.(qr_evidence)
  /\ (PyStr.lower platform <> "windows" -> q.(qr_evidence) = []).
Proof using Horder.
  unfold query_security_registry_writes. split.
  - destruct (negb _); [constructor|]. destruct (run _) as [|code out err]; [constructor|].
    destruct (negb _); [constructor|]. destruct (json_loads _); [|constructor].
    apply omap_Forall. intros row e He. by apply security_row_sound in He as [? _].
  - intros Hw. by rewrite (proj2 (String.eqb_neq _ _) Hw).
Qed.

Lemma procmon_sound (file : option csv_table) :
  Forall (sound_evidence "procmon_csv") (parse_procmon_csv order file).
Proof using Horder.
  unfold parse_procmon_csv. destruct file as [t|]; [|constructor].
  destruct t.(csv_fieldnames) as [|h fields]; [constructor|].
  apply omap_Forall. intros row e. apply procmon_row_sound.
Qed.

Definition SOURCES : list string :=
  ["sysmon_event_13"; "windows_security_event_4657"; "procmon_csv"].

(** Without evidence the limitations say so. *)
Lemma no_evidence_discloses (since : Z) (procmon : option (option csv_table))
    (security : bool) (platform : string) :
  let c := collect_registry_writer_evidence order json_loads run since procmon security platform in
  c.(wc_evidence) = [] -> In WRITER_PROOF_UNAVAILABLE c.(wc_limitations).
Proof.
  unfold collect_registry_writer_evidence. cbn [wc_evidence wc_limitations].
  intros ->. apply dedupe_In; [apply String.eqb_eq|].
  destruct (PyStr.mem WRITER_PROOF_UNAVAILABLE _) eqn:Hm; [by apply PyStr.mem_In|].
  rewrite in_app_iff. right. by left.
Qed.

(** C36: whatever PowerShell, the log output and the export contain, every piece of
    collected writer evidence names one of the five monitored values, carries a
    caveat, comes from one of the three sources, and lies under the WinINET key unless it
    is a Security row without a key path.  Off Windows only the export contributes.
    Telemetry is reported available exactly when there is evidence; without evidence the
    limitations say that writer proof is unavailable; no limitation is repeated. *)
Theorem writer_collection_sound (since : Z) (procmon : option (option csv_table))
    (security : bool) (platform : string) :
  let c := collect_registry_writer_evidence order json_loads run since procmon security platform in
  Forall (fun e => exists s, In s SOURCES /\ sound_evidence s e) c.(wc_evidence)
  /\ (PyStr.lower platform <> "windows" ->
      c.(wc_evidence) = match procmon with Some f => parse_procmon_csv order f | None => [] end)
  /\ (c.(wc_telemetry_available) = false <-> c.(wc_evidence) = [])
  /\ (c.(wc_evidence) = [] -> In WRITER_PROOF_UNAVAILABLE c.(wc_limitations))
  /\ List.NoDup c.(wc_limitations).
Proof using Horder.
  pose proof (no_evidence_discloses since procmon security platform) as Hd. revert Hd.
  unfold collect_registry_writer_evidence.
  destruct (sysmon_query_sound since 200 platform) as [Hs Hsw].
  destruct (security_query_sound since 200 platform) as [Hk Hkw].
  set (qs := query_sysmon_registry_writes order json_loads run since 200 platform) in *.
  set (qk := query_security_registry_writes order json_loads run since 200 platform) in *.
  clearbody qs qk. intros Hd. cbn [wc_evidence wc_telemetry_available wc_limitations].
  set (imported := match procmon with Some f => parse_procmon_csv order f | None => [] end).
  assert (Hp : Forall (sound_evidence "procmon_csv") imported)
    by (unfold imported; destruct procmon; [apply procmon_sound|constructor]).
  set (ksec := qr_evidence (if security then qk else _)).
  assert (Hk' : Forall (sound_evidence "windows_security_event_4657") ksec)
    by (unfold ksec; destruct security; [exact Hk|constructor]).
  split_and!.
  - rewrite !Forall_app. split_and!; (eapply Forall_impl; [eassumption|]); intros e He;
      eexists; (split; [|exact He]); vm_compute; tauto.
  - intros Hw. rewrite (Hsw Hw). unfold ksec. destruct security; cbn; [by rewrite (Hkw Hw)|done].
  - destruct (qs.(qr_evidence) ++ ksec ++ imported)%list; easy.
  - exact Hd.
  - apply dedupe_NoDup. apply String.eqb_eq.
Qed.

(** The strict proof contract says found exactly when the collection holds
    evidence, with one event per piece in order; otherwise the reason is a limitation of
    the collection that speaks of the missing proof. *)
Theorem writer_proof_contract (since : Z) (procmon : option (option csv_table))
    (security : bool) (platform : string) :
  let c := collect_registry_writer_evidence order json_loads run since procmon security platform in
  match build_registry_writer_proof (inl c) with
  | Found events _ => events = map _evidence_event_dict c.(wc_evidence) /\ events <> []
  | Unavailable reason _ =>
      c.(wc_evidence) = [] /\ In reason c.(wc_limitations)
      /\ (PyStr.contains "no sysmon event" (PyStr.lower reason)
          || PyStr.contains "writer proof unavailable" (PyStr.lower reason)) = true
  end.
Proof.
  pose proof (no_evidence_discloses since procmon security platform) as Hd.
  set (c := collect_registry_writer_evidence _ _ _ _ _ _ _) in *. clearbody c.
  cbn [build_registry_writer_proof]. unfold proof_of_collection.
  destruct c.(wc_evidence) as [|e es] eqn:He; [|split; [reflexivity|discriminate]].
  split; [reflexivity|]. specialize (Hd He). unfold unavailable_reason.
  destruct (List.find _ c.(wc_limitations)) as [t|] eqn:Hf.
  - apply find_some in Hf as [Hin Ht]. apply andb_true_iff in Ht as [_ Ht]. by split.
  - exfalso. pose proof (find_none _ _ Hf _ Hd) as Hn. vm_compute in Hn. discriminate.
Qed.
End Collection.

Module WriterWitness.
#[local] Instance host : PyHost := DemoHost.demo_host.

(** A host whose status query reports Sysmon and whose event queries return one row. *)
Definition run (q : ps_query) : run_outcome :=
  RunDone 0 match q with QSysmonStatus => "status" | QSysmonEvents _ _ => "sysmon" | _ => "security" end "".

Definition json_loads (s : string) : option pyval :=
  if String.eqb s "status" then
    Some (PDict ["services" :-> PDict ["Name" :-> PStr "Sysmon64"; "Status" :-> PStr "Running"];
                 "log_available" :-> PBool true])
  else if String.eqb s "sysmon" then
    Some (PDict ["EventID" :-> PStr "13"; "Image" :-> PStr "tool.exe";
                 "TargetObject" :-> PStr (value_path ("HKU" ++ bs) "ProxyServer")])
  else None.

Definition collection : WriterCollection :=
  collect_registry_writer_evidence PROXY_VALUE_NAMES json_loads run 120 None true "Windows".

Lemma writer_collection_sound_witness :
  map rw_value_name collection.(wc_evidence) = ["ProxyServer"]
  /\ Forall (fun e => exists s, In s SOURCES /\ sound_evidence s e) collection.(wc_evidence).
Proof.
  split; [vm_compute; reflexivity|].
  refine (proj1 (writer_collection_sound PROXY_VALUE_NAMES _ json_loads run 120 None true "Windows")).
  reflexivity.
Defined.

(** A Security row with a value name and nothing else counts as writer proof. *)
Lemma bare_value_name_is_proof :
  option_map (fun e => (e.(rw_value_name), e.(rw_process_image), e.(rw_target_object)))
    (parse_security_row PROXY_VALUE_NAMES ["value_name" :-> PStr "ProxyEnable"])
  = Some ("ProxyEnable", None, "").
Proof. vm_compute. reflexivity. Qed.

(** A different value whose name contains a monitored one is taken for it. *)
Lemma backup_value_taken_for_proxy_server :
  normalize_registry_value_name PROXY_VALUE_NAMES (value_path "" "ProxyServerBackup") ""
  = Some "ProxyServer".
Proof. vm_compute. reflexivity. Qed.

(** With two contained names the answer depends on the iteration order of the set. *)
Lemma answer_depends_on_set_order :
  normalize_registry_value_name PROXY_VALUE_NAMES (value_path "" "ProxyEnableProxyServer") ""
  = Some "ProxyEnable"
  /\ normalize_registry_value_name (rev PROXY_VALUE_NAMES)
       (value_path "" "ProxyEnableProxyServer") "" = Some "ProxyServer".
Proof. vm_compute. split; reflexivity. Qed.
End WriterWitness.
