(* ===== verification/WriterAttribution.v ===== *)
(** * Writer attribution

    [evidence/attribution_engine.py] with the readers it fuses: registry hints
    ([registry_event_parser.py]), Sysmon rows ([sysmon_reader.py]) and Procmon rows
    ([procmon_importer.py]).  Procmon text is the rows [csv.DictReader] yields. *)

From S2P Require Import Prelude PyValue FloatFacts RegistryWriter.
From Stdlib Require Import Ascii String SpecFloat.
From stdpp Require Import strings.

Open Scope string_scope.
Open Scope Z_scope.
Open Scope py_scope.

(** ** Registry hints *)

Record RegistryDiffHint := {
  proxy_enable_before : option string;
  proxy_enable_after : option string;
  proxy_server_before : option string;
  proxy_server_after : option string;
}.

Fixpoint drop_chars (p : ascii -> bool) (s : string) : string :=
  match s with
  | EmptyString => EmptyString
  | String c s' => if p c then drop_chars p s' else String c (drop_chars p s')
  end.

Definition flat_key (k : string) : string :=
  drop_chars (fun c => Ascii.eqb c " " || Ascii.eqb c BS || Ascii.eqb c "/") (PyStr.lower k).

Definition _flatten_keys (d : pydict) : pydict :=
  foldl (fun acc kv => Dict.set (flat_key kv.1) kv.2 acc) [] d.

Section Attribution.
Context {H : PyHost}.

(** One needle: the first key with a value that contains it. *)
Definition _get_any (dflat : pydict) (needle : string) : option string :=
  kv ← List.find (fun kv => negb (is_none kv.2)
                            && (PyStr.contains needle (PyStr.lower kv.1)
                                || PyStr.endswith (PyStr.lower kv.1) needle)) dflat;
  Some (py_str kv.2).

(** An absent context is the empty one. *)
Definition parse_registry_hint (obj : pydict) : RegistryDiffHint :=
  match obj with
  | [] => {| proxy_enable_before := None; proxy_enable_after := None;
             proxy_server_before := None; proxy_server_after := None |}
  | _ =>
      let before := _flatten_keys match Dict.get "before" obj with PDict d => d | _ => obj end in
      let after := _flatten_keys match Dict.get "after" obj with PDict d => d | _ => [] end in
      {| proxy_enable_before := _get_any before "proxyenable";
         proxy_enable_after := _get_any after "proxyenable";
         proxy_server_before := _get_any before "proxyserver";
         proxy_server_after := _get_any after "proxyserver" |}
  end.

(** [repr(s)] of an optional text. *)
Definition opt_repr (o : option string) : string :=
  match o with Some s => compound_repr (PStr s) | None => "None" end.

(** One field of the description; two equal values are no change. *)
Definition describe_field (name : string) (a b : option string) : list string :=
  if decide (a = b) then [] else [name ++ " " ++ opt_repr a ++ "->" ++ opt_repr b].

Definition describe_diff (h : RegistryDiffHint) : string :=
  match (describe_field "ProxyEnable" h.(proxy_enable_before) h.(proxy_enable_after)
         ++ describe_field "ProxyServer" h.(proxy_server_before) h.(proxy_server_after))%list with
  | [] => "no_proxy_key_delta_in_hint"
  | parts => PyStr.join "; " parts
  end.

(** ** Sysmon and Procmon rows *)

Record SysmonRegistrySetEvent := {
  se_image : string;
  se_target_object : string;
  se_details : string;
  se_utc_time : option string;
}.

(** [int(str(v).strip())], absent when it does not parse. *)
Definition sysmon_int (v : pyval) : option Z :=
  match PyStr.to_int (py_str v) with Ok z => Some z | Raise _ => None end.

Definition parse_sysmon_row (row : pydict) : option SysmonRegistrySetEvent :=
  match sysmon_int (first_truthy ["EventID"; "Id"] row (Dict.get "event_id" row)) with
  | Some n =>
      if negb (n =? 13) then None else
      let img := PyStr.strip (first_field ["Image"; "ProcessPath"; "image"] row) in
      let obj := PyStr.strip (first_field ["TargetObject"; "target_object"; "RegistryPath"] row) in
      if PyStr.is_empty img && PyStr.is_empty obj then None else
      Some {| se_image := img; se_target_object := obj;
              se_details := first_field ["Details"; "details"] row;
              se_utc_time :=
                match first_truthy ["UtcTime"] row (Dict.get "timestamp" row) with
                | PNone => None
                | v => Some (py_str v)
                end |}
  | None => None
  end.

Definition parse_sysmon_sequence (rows : list pydict) : list SysmonRegistrySetEvent :=
  omap parse_sysmon_row rows.

Definition registry_event_concerns_internet_settings (ev : SysmonRegistrySetEvent) : bool :=
  existsb (fun n => PyStr.contains n (PyStr.lower ev.(se_target_object)))
    ["internet settings"; "proxyenable"; "proxyserver"; bs ++ "proxy"].

Record ProcmonRegistryWrite := {
  pm_process_name : string;
  pm_operation : string;
  pm_path : string;
  pm_detail : string;
}.

Definition REGISTRY_OPS : list string := ["RegSetValue"; "RegDeleteValue"].

(** [str(raw.get(k1) or raw.get(k2) or ... or "")]. *)
Definition csv_text (keys : list string) (row : csv_row) : string :=
  py_str (foldr (fun k acc => py_or (csv_get k row) acc) (PStr "") keys).

Definition procmon_write (row : csv_row) : option ProcmonRegistryWrite :=
  let op := PyStr.strip (csv_text ["Operation"; "operation"] row) in
  if negb (PyStr.is_empty op) && negb (PyStr.mem op REGISTRY_OPS) then None else
  let path := csv_text ["Path"; "path"] row in
  let det := csv_text ["Detail"; "detail"] row in
  if PyStr.is_empty path && PyStr.is_empty det then None else
  Some {| pm_process_name := csv_text ["Process Name"; "ProcessName"; "process"] row;
          pm_operation := if PyStr.is_empty op then "RegSetValue" else op;
          pm_path := path; pm_detail := det |}.

Definition iter_procmon_registry_writes_from_csv (rows : list csv_row) : list ProcmonRegistryWrite :=
  omap procmon_write rows.

Definition procmon_concerns_proxy (row : ProcmonRegistryWrite) : bool :=
  let pl := PyStr.lower (row.(pm_path) ++ " " ++ row.(pm_detail)) in
  PyStr.contains "proxy" pl || PyStr.contains "internet settings" pl.

Definition procmon_row_to_dict (row : ProcmonRegistryWrite) : pydict :=
  ["Process Name" :-> PStr row.(pm_process_name); "Operation" :-> PStr row.(pm_operation);
   "Path" :-> PStr row.(pm_path); "Detail" :-> PStr row.(pm_detail)].

(** ** Fusion *)

Inductive attributionLevel :=
| unknown
| heuristic
| listener_match
| procmon_confirmed
| sysmon_confirmed
| etw_confirmed.

Definition level_text (l : attributionLevel) : string :=
  match l with
  | unknown => "unknown"
  | heuristic => "heuristic"
  | listener_match => "listener_match"
  | procmon_confirmed => "procmon_confirmed"
  | sysmon_confirmed => "sysmon_confirmed"
  | etw_confirmed => "etw_confirmed"
  end.

Definition LEVELS : list attributionLevel :=
  [unknown; heuristic; listener_match; procmon_confirmed; sysmon_confirmed; etw_confirmed].

Definition attribution_level_aliases : list (string * attributionLevel) :=
  [("evidence_supported", procmon_confirmed); ("confirmed_by_eventlog", sysmon_confirmed)].

Definition coerce_attribution_level (raw : string) : attributionLevel :=
  match List.find (fun kv => String.eqb kv.1 raw) attribution_level_aliases with
  | Some kv => kv.2
  | None =>
      match List.find (fun l => String.eqb (level_text l) raw) LEVELS with
      | Some l => l
      | None => unknown
      end
  end.

Record WriterEvidenceItem := { item_source : string; item_detail : string; weight_hint : F64.t }.

Record AttributionResult := {
  ar_event_id : string;
  candidate_actor : string;
  ar_confidence : F64.t;
  attribution_level : attributionLevel;
  ar_evidence : list WriterEvidenceItem;
  ar_notes : string;
}.

Definition evidence_item (source detail : string) (w : Z) : WriterEvidenceItem :=
  {| item_source := source; item_detail := detail; weight_hint := F64.lit w 100 |}.

Definition as_dict (r : AttributionResult) : pydict :=
  ["event_id" :-> PStr r.(ar_event_id);
   "candidate_actor" :-> PStr r.(candidate_actor);
   "confidence" :-> PFloat (F64.round_digits 6 r.(ar_confidence));
   "attribution_level" :-> PStr (level_text r.(attribution_level));
   "evidence" :-> PList (map (fun e => PDict
      ["source" :-> PStr e.(item_source); "detail" :-> PStr e.(item_detail);
       "weight_hint" :-> PFloat e.(weight_hint)]) r.(ar_evidence));
   "notes" :-> PStr r.(ar_notes)].

Definition _clamp01 (x : F64.t) : F64.t := F64.pymax F64.zero (F64.pymin (F64.of_Z 1) x).

(** The first key with a non-blank text. *)
Definition first_nonblank (keys : list string) (d : pydict) (default_text : string) : string :=
  default default_text (head (omap (fun k =>
    match Dict.get k d with PStr s => nonempty_text (PyStr.strip s) | _ => None end) keys)).

Definition _inventory_actor (inventory : pydict) : string :=
  first_nonblank ["candidate_name"; "exe_name"; "process_name"; "name"; "Image"] inventory "unknown".

Definition _parent_hint (parent : pydict) : string :=
  first_nonblank ["parent_name"; "parent_image"; "name"] parent "".

Definition listener_aligns (ps : string) (ln : pydict) : bool :=
  let port := first_field ["port"; "lport"; "ListenPort"] ln in
  let addr := PyStr.lower (first_field ["address"; "addr"; "ip"] ln) in
  negb (PyStr.is_empty port)
  && (PyStr.contains (":" ++ port) ps || PyStr.endswith ps (":" ++ port)
      || PyStr.contains ("127.0.0.1:" ++ port) ps)
  && PyStr.mem addr ["127.0.0.1"; "0.0.0.0"; "::"; ""].

Definition _listener_match (listeners : list pydict) (proxy_server : option string) : bool :=
  match proxy_server with
  | Some ps => negb (PyStr.is_empty ps) && existsb (listener_aligns (PyStr.lower ps)) listeners
  | None => false
  end.

(** The image a Sysmon event names, from the first relevant event that has one. *)
Definition sysmon_writer (events : list SysmonRegistrySetEvent)
    : option (SysmonRegistrySetEvent * string) :=
  ev ← List.find (fun ev => registry_event_concerns_internet_settings ev
                            && negb (PyStr.is_empty (PyStr.strip ev.(se_image)))) events;
  Some (ev, PyStr.strip ev.(se_image)).

Definition procmon_writer (rows : list ProcmonRegistryWrite)
    : option (ProcmonRegistryWrite * string) :=
  row ← List.find procmon_concerns_proxy rows;
  let pn := PyStr.strip row.(pm_process_name) in
  Some (row, if PyStr.is_empty pn then "(unnamed)" else pn).

Definition etw_text (e : pydict) : string := compound_repr (PDict e).

Definition etw_hint (events : list pydict) : option string :=
  e ← List.find (fun e => PyStr.contains "proxy" (PyStr.lower (etw_text e))) events;
  Some (etw_text e).

(** The three sources in the order that names the writer. *)
Definition confirmed_image (sysmon : list SysmonRegistrySetEvent)
    (procmon : list ProcmonRegistryWrite) (etw : list pydict) : option string :=
  match sysmon_writer sysmon with
  | Some (_, img) => Some img
  | None =>
      match procmon_writer procmon with
      | Some (_, pn) => Some pn
      | None => match etw_hint etw with Some _ => Some "etw_process_hint" | None => None end
      end
  end.

(** Score, level and note, from the score of the weak signals. *)
Definition attribution_rank (base : F64.t) (confirmed : option string) (sysmon : list SysmonRegistrySetEvent)
    (procmon : list ProcmonRegistryWrite) (etw : list pydict) (matched : bool)
    : F64.t * attributionLevel * string :=
  match confirmed with
  | Some _ =>
      let score := F64.add base (F64.lit 28 100) in
      if existsb registry_event_concerns_internet_settings sysmon then
        (F64.add score (F64.lit 12 100), sysmon_confirmed,
         "Structured telemetry (Sysmon registry) corroborates a writer image path — not a malware verdict.")
      else
      match procmon with
      | _ :: _ =>
          (F64.add score (F64.lit 5 100), procmon_confirmed,
           "Procmon registry write rows corroborate a writing process name.")
      | [] =>
          (score, etw_confirmed,
           "ETW-shaped evidence corroborates registry/proxy-adjacent activity; weaker than Sysmon EID13.")
      end
  | None =>
      match sysmon, procmon, etw with
      | [], [], [] =>
          if matched then
            (base, listener_match,
             "Listener port aligns with ProxyServer tokens — correlation only; does not identify the registry writer.")
          else
            (base, heuristic,
             "Honest_boundary: registry polling and process correlation cannot prove registry writer; add Sysmon (EID13) or Procmon RegSetValue exports to raise confidence.")
      | _, _, _ =>
          (F64.add base (F64.lit 5 100), heuristic,
           "Telemetry rows present but did not correlate to proxy registry targets; score capped.")
      end
  end.

Definition add_if (b : bool) (w : Z) (score : F64.t) : F64.t :=
  if b then F64.add score (F64.lit w 100) else score.

(** The score of registry delta, inventory, parent and listener. *)
Definition weak_score (delta actor parent matched : bool) : F64.t :=
  add_if matched 22 (add_if parent 6 (add_if actor 18 (add_if delta 12 (F64.lit 18 100)))).

(** [split("\\")[-1]] of an image. *)
Definition image_name (image : string) : string :=
  if PyStr.contains bs image then last_segment BS image else image.

Definition build_writer_attribution (event_id failure_summary : string)
    (registry_context process_inventory parent_process : pydict) (listeners : list pydict)
    (sysmon : list SysmonRegistrySetEvent) (procmon : list ProcmonRegistryWrite)
    (etw : list pydict) : AttributionResult :=
  let hint := parse_registry_hint registry_context in
  let reg_desc := describe_diff hint in
  let inv_actor := _inventory_actor process_inventory in
  let has_actor := negb (String.eqb inv_actor "unknown") in
  let parent := _parent_hint parent_process in
  let has_parent := negb (PyStr.is_empty parent) in
  let proxy_server :=
    match hint.(proxy_server_after) with
    | Some s => if PyStr.is_empty s then hint.(proxy_server_before) else Some s
    | None => hint.(proxy_server_before)
    end in
  let matched := _listener_match listeners proxy_server in
  let confirmed := confirmed_image sysmon procmon etw in
  let base :=
    weak_score (negb (String.eqb reg_desc "no_proxy_key_delta_in_hint")) has_actor has_parent
      matched in
  let '(score, level, note) := attribution_rank base confirmed sysmon procmon etw matched in
  {| ar_event_id := event_id;
     candidate_actor := match confirmed with Some img => image_name img | None => inv_actor end;
     ar_confidence := _clamp01 score;
     attribution_level := level;
     ar_evidence :=
       ([evidence_item "registry_poll" reg_desc 15]
        ++ (if has_actor then
              [evidence_item "proc_inventory" ("inventory_suggests_actor=" +:+ inv_actor) 20] else [])
        ++ (if has_parent then [evidence_item "parent_process" ("parent=" +:+ parent) 10] else [])
        ++ (if matched then
              [evidence_item "listener_match" "localhost_listener_aligns_with_proxy_server_token" 25]
            else [])
        ++ match sysmon_writer sysmon with
           | Some (ev, img) =>
               [evidence_item "sysmon" ("EID13 image=" +:+ compound_repr (PStr img) +:+ " target="
                                        +:+ Utf8.prefix 120 ev.(se_target_object)) 55]
           | None => []
           end
        ++ match procmon_writer procmon with
           | Some (row, pn) =>
               [evidence_item "procmon" ("RegWrite proc=" +:+ compound_repr (PStr pn) +:+ " path="
                                         +:+ Utf8.prefix 160 row.(pm_path)) 45]
           | None => []
           end
        ++ match etw_hint etw with
           | Some text => [evidence_item "etw" (Utf8.prefix 200 text) 35]
           | None => []
           end)%list;
     ar_notes :=
       PyStr.strip (PyStr.join " "
         ((if PyStr.is_empty failure_summary then [] else [Utf8.prefix 240 failure_summary])
          ++ [note])%list) |}.
End Attribution.

(** ** Properties *)

(** Clamping bounds every float, NaN included. *)
Lemma clamp01_bounds (x : F64.t) :
  F64.leb F64.zero (_clamp01 x) = true /\ F64.leb (_clamp01 x) (F64.of_Z 1) = true.
Proof.
  unfold _clamp01. set (y := F64.pymin (F64.of_Z 1) x).
  assert (Hy : F64.leb y (F64.of_Z 1) = true).
  { unfold y, F64.pymin. destruct (F64.ltb x (F64.of_Z 1)) eqn:E; [|reflexivity]. by apply ltb_leb. }
  unfold F64.pymax. destruct (F64.ltb F64.zero y) eqn:E; [|split; reflexivity].
  split; [by apply ltb_leb|exact Hy].
Qed.

Section Properties.
Context {H : PyHost}.

(** Some telemetry names the proxy settings. *)
Definition relevant_telemetry (sysmon : list SysmonRegistrySetEvent)
    (procmon : list ProcmonRegistryWrite) (etw : list pydict) : Prop :=
  (exists ev, In ev sysmon /\ registry_event_concerns_internet_settings ev = true
              /\ PyStr.strip ev.(se_image) <> "")
  \/ (exists row, In row procmon /\ procmon_concerns_proxy row = true)
  \/ (exists e, In e etw /\ PyStr.contains "proxy" (PyStr.lower (etw_text e)) = true).

Lemma confirmed_relevant sysmon procmon etw :
  confirmed_image sysmon procmon etw <> None <-> relevant_telemetry sysmon procmon etw.
Proof.
  unfold confirmed_image, relevant_telemetry, sysmon_writer, procmon_writer, etw_hint.
  destruct (List.find _ sysmon) as [ev|] eqn:E1.
  { apply find_some in E1 as [Hin Hb]. apply andb_true_iff in Hb as [Hc Hi].
    apply negb_true_iff, PyStr.is_empty_false in Hi. cbn. split; [|discriminate].
    intros _. left. by exists ev. }
  assert (N1 : ~ exists ev, In ev sysmon /\ registry_event_concerns_internet_settings ev = true
                 /\ PyStr.strip ev.(se_image) <> "").
  { intros (ev & Hin & Hc & Hi). pose proof (find_none _ _ E1 ev Hin) as Hn.
    apply andb_false_iff in Hn as [Hn|Hn]; [congruence|].
    by apply negb_false_iff, PyStr.is_empty_true in Hn. }
  cbn. destruct (List.find procmon_concerns_proxy procmon) as [row|] eqn:E2; cbn.
  { apply find_some in E2 as [Hin Hc]. split; [|discriminate]. intros _. right. left. by exists row. }
  assert (N2 : ~ exists row, In row procmon /\ procmon_concerns_proxy row = true).
  { intros (row & Hin & Hc). rewrite (find_none _ _ E2 row Hin) in Hc. discriminate. }
  destruct (List.find _ etw) as [e|] eqn:E3; cbn.
  { apply find_some in E3 as [Hin Hc]. split; [|discriminate]. intros _. right. right. by exists e. }
  split; [by intros []|]. intros [?|[?|(e & Hin & Hc)]]; [by destruct N1|by destruct N2|].
  rewrite (find_none _ _ E3 e Hin) in Hc. discriminate.
Qed.

(** Signals on which nothing is confirmed score at most 0.77. *)
Lemma weak_score_bound (delta actor parent matched : bool) :
  F64.leb (_clamp01 (weak_score delta actor parent matched)) (F64.lit 77 100) = true.
Proof. destruct delta, actor, parent, matched; vm_compute; reflexivity. Qed.

(** For any inputs the confidence lies between zero and one.  A confirmed level
    is reached exactly when some telemetry names the proxy settings, and is Sysmon's
    exactly when a Sysmon event among the inputs does.  Without telemetry rows the level is a listener match
    or heuristic, the candidate is the inventory's, and the confidence stays at or below
    0.77. *)
Theorem attribution_levels (event_id summary : string) (registry inventory parent : pydict)
    (listeners : list pydict) (sysmon : list SysmonRegistrySetEvent)
    (procmon : list ProcmonRegistryWrite) (etw : list pydict) :
  let r := build_writer_attribution event_id summary registry inventory parent listeners sysmon procmon etw in
  (F64.leb F64.zero r.(ar_confidence) = true /\ F64.leb r.(ar_confidence) (F64.of_Z 1) = true)
  /\ (In r.(attribution_level) [sysmon_confirmed; procmon_confirmed; etw_confirmed]
      <-> relevant_telemetry sysmon procmon etw)
  /\ (relevant_telemetry sysmon procmon etw ->
      (r.(attribution_level) = sysmon_confirmed
       <-> exists ev, In ev sysmon /\ registry_event_concerns_internet_settings ev = true))
  /\ (sysmon = [] /\ procmon = [] /\ etw = [] ->
      In r.(attribution_level) [listener_match; heuristic]
      /\ r.(candidate_actor) = _inventory_actor inventory
      /\ F64.leb r.(ar_confidence) (F64.lit 77 100) = true).
Proof.
  unfold build_writer_attribution.
  set (matched := _listener_match _ _). set (base := weak_score _ _ _ matched).
  pose proof (confirmed_relevant sysmon procmon etw) as Hrel.
  destruct (attribution_rank base (confirmed_image sysmon procmon etw) sysmon procmon etw matched)
    as [[score level] note] eqn:Hr.
  cbn [ar_confidence attribution_level candidate_actor]. unfold attribution_rank in Hr.
  split; [apply clamp01_bounds|].
  destruct (confirmed_image sysmon procmon etw) as [img|] eqn:Hc.
  - assert (Ht : relevant_telemetry sysmon procmon etw) by (by apply Hrel).
    rewrite <- existsb_exists.
    split; [|split].
    + split; [done|]. intros _.
      destruct (existsb _ sysmon); [|destruct procmon]; injection Hr as _ <- _; cbn; tauto.
    + intros _. destruct (existsb _ sysmon); [|destruct procmon]; injection Hr as _ <- _;
        split; congruence.
    + intros (-> & -> & ->). discriminate Hc.
  - assert (Hn : ~ relevant_telemetry sysmon procmon etw) by (intros Ht; by apply Hrel in Ht).
    assert (Hl : level = listener_match \/ level = heuristic)
      by (destruct sysmon, procmon, etw; [destruct matched|..]; injection Hr as _ <- _; tauto).
    split; [|split].
    + split; [|done]. destruct Hl as [-> | ->]; cbn; intuition discriminate.
    + done.
    + intros (-> & -> & ->). split; [destruct Hl as [-> | ->]; cbn; tauto|]. split; [done|].
      assert (score = base) as -> by (by destruct matched; injection Hr as <- _ _).
      apply weak_score_bound.
Qed.
End Properties.

Module AttributionWitness.
#[local] Instance host : PyHost :=
  {| float_repr := fun _ => "<float>";
     compound_repr := fun v =>
       match v with PDict (("Provider", PStr s) :: _) => s | PStr s => s | _ => "<object>" end;
     sha256_hexdigest := fun s => s |}.

Definition attribute := build_writer_attribution "e-1" "".

(** An event of an ETW provider that mentions a proxy. *)
Definition etw_event : pydict := ["Provider" :-> PStr "proxy-adjacent"].

(** A Procmon row that has nothing to do with the proxy. *)
Definition other_write : ProcmonRegistryWrite :=
  {| pm_process_name := "editor.exe"; pm_operation := "RegSetValue"; pm_path := "HKCU";
     pm_detail := "REG_SZ" |}.

(** The hint of the ETW event is reported as confirmed by Procmon. *)
Lemma unrelated_procmon_row_confirms :
  procmon_concerns_proxy other_write = false
  /\ (attribute [] [] [] [] [] [other_write] [etw_event]).(attribution_level) = procmon_confirmed
  /\ (attribute [] [] [] [] [] [other_write] [etw_event]).(candidate_actor) = "etw_process_hint"
  /\ (attribute [] [] [] [] [] [] [etw_event]).(attribution_level) = etw_confirmed.
Proof. vm_compute. repeat split. Qed.

(** Rows that say nothing about the proxy raise the score they are said to cap. *)
Lemma unrelated_rows_raise_the_score :
  F64.ltb (attribute [] [] [] [] [] [] []).(ar_confidence)
          (attribute [] [] [] [] [] [other_write] []).(ar_confidence) = true.
Proof. vm_compute. reflexivity. Qed.

(** A Sysmon event without an image lends its level to the process Procmon names. *)
Lemma sysmon_level_for_procmon_name :
  let r := attribute [] [] [] []
    [{| se_image := ""; se_target_object := "HKCU" ++ bs ++ "ProxyServer"; se_details := "";
        se_utc_time := None |}]
    [{| pm_process_name := "tool.exe"; pm_operation := "RegSetValue"; pm_path := "ProxyEnable";
        pm_detail := "" |}] [] in
  r.(attribution_level) = sysmon_confirmed /\ r.(candidate_actor) = "tool.exe".
Proof. vm_compute. split; reflexivity. Qed.
End AttributionWitness.
