(* ===== verification/WatchDiagnosis.v ===== *)
(** * Reverter diagnosis of the proxy watch

    [windows_network_toolkit/proxy_watch_diagnosis.py]: cycles, port churn, repeated
    listeners and stale configuration in a history of change records.  Records are
    dictionaries as the watch wrote them; a field of another shape raises as it does
    in the code. *)

From S2P Require Import Prelude PyValue FloatFacts.
From Stdlib Require Import Ascii String SpecFloat.
From stdpp Require Import strings.

Open Scope string_scope.
Open Scope Z_scope.
Open Scope py_scope.

Definition WATCH_LIMITATIONS : list string :=
  ["Likely process / correlation only; registry writer proof unavailable.";
   "Flapping detection uses observed state transitions, not registry write events."].

Record ReverterDiagnosis := {
  rd_status : string;
  rd_transition_count : Z;
  rd_enable_disable_cycle_count : Z;
  rd_last_ports : list Z;
  rd_repeated_process_names : list string;
  rd_repeated_command_line_hashes : list string;
  rd_suspected_reverter_process : option string;
  rd_confidence : F64.t;
  rd_evidence : list string;
  rd_limitations : list string;
}.

(** What one pass over the history collects. *)
Record watch_history := {
  h_enable : list Z;
  h_ports : list Z;
  h_names : list string;
  h_hashes : list string;
}.

Section Diagnosis.
Context {H : PyHost}.

Definition _cmd_hash (cmdline : pyval) : result (option string) :=
  if negb (py_bool cmdline) then Ok None else
  match cmdline with
  | PStr s => Ok (Some (PyStr.take 16 (sha256_hexdigest s)))
  | _ => Raise AttributeError
  end.

(** [ev.get(k) or {}] as a dictionary. *)
Definition record_dict (k : string) (ev : pydict) : result pydict :=
  Dict.of_val (py_or (Dict.get k ev) (PDict [])).

(** [int(state.get("wininet_proxy_enabled") or 0)]. *)
Definition enable_of (state : pydict) : result Z :=
  py_int (py_or (Dict.get "wininet_proxy_enabled" state) (PInt 0)).

(** The port of a state; a value that is no integer is skipped. *)
Definition port_of (state : pydict) : result (list Z) :=
  match Dict.get "localhost_port" state with
  | PNone => Ok []
  | v =>
      match py_int v with
      | Ok z => Ok [z]
      | Raise e => if type_or_value_error e then Ok [] else Raise e
      end
  end.

Definition owner_process (owner : pydict) : pydict :=
  match Dict.get "process" owner with PDict d => d | _ => [] end.

(** One record; the first one also contributes its state before. *)
Definition scan_event (first : bool) (ev : pydict) : result watch_history :=
  before ← record_dict "before" ev;
  after ← record_dict "after" ev;
  '(vals0, ports0) ←
    (if first && match before with [] => false | _ => true end then
       v ← enable_of before; p ← port_of before; Ok ([v], p)
     else Ok ([], []));
  v ← enable_of after;
  p ← port_of after;
  owner ← record_dict "owner" ev;
  let proc := owner_process owner in
  let name := Dict.get "name" proc in
  h ← _cmd_hash (Dict.get "cmdline" proc);
  Ok {| h_enable := (vals0 ++ [v])%list;
        h_ports := (ports0 ++ p)%list;
        h_names := if py_bool name then [py_str name] else [];
        h_hashes := match h with Some s => [s] | None => [] end |}.

Definition join_history (a b : watch_history) : watch_history :=
  {| h_enable := (a.(h_enable) ++ b.(h_enable))%list; h_ports := (a.(h_ports) ++ b.(h_ports))%list;
     h_names := (a.(h_names) ++ b.(h_names))%list; h_hashes := (a.(h_hashes) ++ b.(h_hashes))%list |}.

Fixpoint scan (first : bool) (events : list pydict) : result watch_history :=
  match events with
  | [] => Ok {| h_enable := []; h_ports := []; h_names := []; h_hashes := [] |}
  | ev :: rest => a ← scan_event first ev; b ← scan false rest; Ok (join_history a b)
  end.

(** Positions where the proxy goes on, off, on. *)
Fixpoint count_cycles (vals : list Z) : Z :=
  match vals with
  | a :: ((b :: c :: _) as rest) =>
      (if (a =? 1) && (b =? 0) && (c =? 1) then 1 else 0) + count_cycles rest
  | _ => 0
  end.

(** The values that occur at least twice, in order of first occurrence. *)
Definition repeated_values (l : list string) : list string :=
  List.filter (fun n => (2 <=? length (List.filter (String.eqb n) l))%nat) (dedupe String.eqb l).

(** [ports[i] if i < len(ports) else (ports[-1] if ports else None)]. *)
Definition port_context (ports : list Z) (i : nat) : option Z :=
  match ports !! i with Some p => Some p | None => last_opt ports end.

(** The loop over transitions; [i] is the index of [b]. *)
Fixpoint reenable_loop (ports : list Z) (i : nat) (seen : list Z) (a : Z) (vals : list Z) : bool :=
  match vals with
  | [] => false
  | b :: rest =>
      let ctx := port_context ports i in
      let seen' :=
        match ctx with
        | Some p => if (a =? 1) && (b =? 0) then p :: seen else seen
        | None => seen
        end in
      let hit :=
        (a =? 0) && (b =? 1)
        && match ctx with Some p => existsb (Z.eqb p) seen' | None => false end in
      hit || reenable_loop ports (S i) seen' b rest
  end.

Definition same_port_reenable (vals ports : list Z) : bool :=
  match vals with
  | [] => false
  | a :: rest => reenable_loop ports 1 [] a rest
  end.

Definition unique_ports (ports : list Z) : list Z := sorted_by Z.ltb id (dedupe Z.eqb ports).

Definition int_list_repr (l : list Z) : string :=
  "[" ++ PyStr.join ", " (map PyStr.of_Z l) ++ "]".

(** [health.get("proxy_status") == s]. *)
Definition status_in (l : list string) (health : pydict) : bool :=
  match Dict.get "proxy_status" health with PStr s => PyStr.mem s l | _ => false end.

(** The scan for a stale configuration, newest record first. *)
Fixpoint stale_loop (events : list pydict) : result bool :=
  match events with
  | [] => Ok false
  | ev :: rest =>
      health ← record_dict "health" ev;
      if status_in ["DEAD_LOCALHOST_PROXY"] health then Ok true else
      owner ← record_dict "owner" ev;
      hit ←
        match Dict.get "listener_found" owner with
        | PBool false => after ← record_dict "after" ev; v ← enable_of after; Ok (v =? 1)
        | _ => Ok false
        end;
      if hit : bool then Ok true else stale_loop rest
  end.

(** Status, confidence and evidence lines from cycles, ports and transitions. *)
Definition pattern (n_events : nat) (h : watch_history) : string * F64.t * list string :=
  let cycles := count_cycles h.(h_enable) in
  if 1 <=? cycles then
    ("REVERTER_SUSPECTED",
     F64.pymin (F64.lit 95 100) (F64.add (F64.lit 6 10) (F64.mul (F64.lit 15 100) (F64.of_Z cycles))),
     ("ProxyEnable cycled off→on " +:+ PyStr.of_Z cycles +:+ " time(s) within watch window")
     :: (if same_port_reenable h.(h_enable) h.(h_ports)
         then ["ProxyServer returned to same localhost port after manual disable"] else []))
  else if (2 <=? length (unique_ports h.(h_ports)))%nat
          && match last_opt h.(h_enable) with Some v => v =? 1 | None => false end then
    ("REPEATED_LOCALHOST_PROXY_PORTS", F64.lit 7 10,
     ["Localhost proxy ports changed across " +:+ int_list_repr (unique_ports h.(h_ports))])
  else if (3 <=? n_events)%nat && (1 <? length (dedupe Z.eqb h.(h_enable)))%nat then
    ("PROXY_FLAPPING", F64.lit 55 100, ["Multiple proxy enable transitions in short window"])
  else ("NONE", F64.zero, []).

(** The status of a history without a pattern whose proxy is enabled at the end. *)
Definition quiet_status (events : list pydict) (h : watch_history) : result (string * F64.t) :=
  match last_opt h.(h_enable) with
  | Some 1 =>
      health ← match last_opt events with Some ev => record_dict "health" ev | None => Ok [] end;
      if status_in ["HEALTHY_LOCALHOST_PROXY"; "BOTH_DIRECT_AND_PROXY_WORK"; "PROXY_ONLY_WORKS"] health
      then Ok ("LOCAL_PROXY_ACTIVE", F64.lit 6 10)
      else if status_in ["DEAD_LOCALHOST_PROXY"; "DIRECT_ONLY_WORKS"] health
      then Ok ("DEAD_PROXY_CONFIG", F64.lit 85 100)
      else
        let ps := Dict.get "proxy_status" health in
        Ok (if py_bool ps then py_str ps else "NONE", F64.zero)
  | _ => Ok ("NONE", F64.zero)
  end.

Definition analyze_proxy_watch_history (events : list pydict) : result ReverterDiagnosis :=
  match events with
  | [] =>
      Ok {| rd_status := "NONE"; rd_transition_count := 0; rd_enable_disable_cycle_count := 0;
            rd_last_ports := []; rd_repeated_process_names := [];
            rd_repeated_command_line_hashes := []; rd_suspected_reverter_process := None;
            rd_confidence := F64.zero; rd_evidence := []; rd_limitations := WATCH_LIMITATIONS |}
  | _ =>
      h ← scan true events;
      let repeated := repeated_values h.(h_names) in
      let suspect := head repeated in
      let '(status, confidence, lines) := pattern (length events) h in
      let correlation :=
        match suspect with
        | Some name =>
            if PyStr.is_empty name then [] else
            ["Repeated listener correlation: " +:+ name
             +:+ " (correlation only; not registry writer proof)"]
        | None => []
        end in
      stale ← stale_loop (rev events);
      let '(status, confidence, lines') :=
        if (stale : bool) && String.eqb status "NONE" then
          ("STALE_PROXY_AFTER_PROCESS_EXIT", F64.lit 7 10,
           ["Proxy enabled but listener absent — stale proxy config suspected"])
        else (status, confidence, []) in
      '(status, confidence) ←
        (if String.eqb status "NONE" then quiet_status events h else Ok (status, confidence));
      Ok {| rd_status := status;
            rd_transition_count := Z.of_nat (length events);
            rd_enable_disable_cycle_count := count_cycles h.(h_enable);
            rd_last_ports := skipn (length h.(h_ports) - 5) h.(h_ports);
            rd_repeated_process_names := repeated;
            rd_repeated_command_line_hashes := repeated_values h.(h_hashes);
            rd_suspected_reverter_process := suspect;
            rd_confidence := confidence;
            rd_evidence := (lines ++ correlation ++ lines')%list;
            rd_limitations := WATCH_LIMITATIONS |}
  end.
End Diagnosis.

(** ** Properties *)

(** An enabled, disabled, enabled run at some position. *)
Definition on_off_on (vals : list Z) : Prop :=
  exists i, vals !! i = Some 1 /\ vals !! S i = Some 0 /\ vals !! S (S i) = Some 1.

Lemma count_cycles_step (a : Z) (rest : list Z) :
  count_cycles (a :: rest)
  = match rest with
    | b :: c :: _ => (if (a =? 1) && (b =? 0) && (c =? 1) then 1 else 0) + count_cycles rest
    | _ => 0
    end.
Proof. by destruct rest as [|b [|c r]]. Qed.

Lemma count_cycles_nonneg (vals : list Z) : 0 <= count_cycles vals.
Proof.
  induction vals as [|a rest IH]; [done|]. rewrite count_cycles_step.
  destruct rest as [|b [|c r]]; [done|done|]. destruct (_ && _); lia.
Qed.

Lemma count_cycles_spec (vals : list Z) : 1 <= count_cycles vals <-> on_off_on vals.
Proof.
  induction vals as [|a rest IH].
  { split; [cbn; lia|]. intros (i & Hi & _). by rewrite lookup_nil in Hi. }
  rewrite count_cycles_step. split.
  - destruct rest as [|b [|c r]]; [lia|lia|].
    destruct ((a =? 1) && (b =? 0) && (c =? 1)) eqn:E.
    + intros _. apply andb_true_iff in E as [[E1 E2]%andb_true_iff E3].
      apply Z.eqb_eq in E1, E2, E3. subst. by exists 0%nat.
    + intros Hc. destruct (proj1 IH ltac:(lia)) as (i & Hi). by exists (S i).
  - intros ([|i] & H0 & H1 & H2).
    + destruct rest as [|b [|c r]]; [discriminate H1|discriminate H2|].
      cbn in H0, H1, H2. injection H0 as ->. injection H1 as ->. injection H2 as ->. cbn match.
      pose proof (count_cycles_nonneg (0 :: 1 :: r)). cbn [Z.eqb Pos.eqb andb]. lia.
    + assert (on_off_on rest) as Hr by (by exists i).
      apply IH in Hr. destruct rest as [|b [|c r]]; [done|cbn in Hr; lia|].
      destruct (_ && _); lia.
Qed.

Lemma repeated_values_spec (l : list string) (n : string) :
  In n (repeated_values l) -> (2 <= length (List.filter (String.eqb n) l))%nat.
Proof. unfold repeated_values. intros [_ Hn]%filter_In. by apply Nat.leb_le. Qed.

Section Properties.
Context {H : PyHost}.

Lemma pattern_bounded (n : nat) (h : watch_history) :
  F64.leb (pattern n h).1.2 (F64.lit 95 100) = true.
Proof.
  unfold pattern. destruct (1 <=? count_cycles _).
  - cbn [fst snd]. unfold F64.pymin. destruct (F64.ltb _ _) eqn:E; [by apply ltb_leb|reflexivity].
  - destruct (_ && _); [reflexivity|]. destruct (_ && _); reflexivity.
Qed.

Lemma quiet_bounded (events : list pydict) (h : watch_history) (s : string) (c : F64.t) :
  quiet_status events h = Ok (s, c) -> F64.leb c (F64.lit 95 100) = true.
Proof.
  unfold quiet_status. destruct (last_opt h.(h_enable)) as [[|[]|]|]; try (by intros [= _ <-]).
  destruct (match last_opt events with Some _ => _ | None => _ end) as [health|]; [|discriminate].
  cbn [mbind result_bind]. destruct (status_in _ health); [by intros [= _ <-]|].
  destruct (status_in _ health); by intros [= _ <-].
Qed.

(** Records as the watch writes them. *)
Definition state_shape (v : pyval) : bool :=
  match v with
  | PNone => true
  | PDict d =>
      match Dict.get "wininet_proxy_enabled" d with PNone | PBool _ | PInt _ => true | _ => false end
      && match Dict.get "localhost_port" d with PFloat _ => false | _ => true end
  | _ => false
  end.

Definition owner_shape (v : pyval) : bool :=
  match v with
  | PNone => true
  | PDict d => match Dict.get "cmdline" (owner_process d) with PNone | PStr _ => true | _ => false end
  | _ => false
  end.

Definition health_shape (v : pyval) : bool :=
  match v with PNone | PDict _ => true | _ => false end.

Definition record_shape (ev : pydict) : bool :=
  state_shape (Dict.get "before" ev) && state_shape (Dict.get "after" ev)
  && owner_shape (Dict.get "owner" ev) && health_shape (Dict.get "health" ev).

Lemma sub_dict_shape (k : string) (ev : pydict) :
  health_shape (Dict.get k ev) = true ->
  exists d, record_dict k ev = Ok d /\ (d = [] \/ Dict.get k ev = PDict d).
Proof.
  unfold record_dict. destruct (Dict.get k ev) as [| | | | | |d]; try discriminate; intros _.
  - exists []. split; [reflexivity|by left].
  - destruct d as [|kv d]; eexists; split; [reflexivity|by left|reflexivity|by right].
Qed.

Lemma state_shape_dict (v : pyval) : state_shape v = true -> health_shape v = true.
Proof. by destruct v. Qed.

Lemma owner_shape_dict (v : pyval) : owner_shape v = true -> health_shape v = true.
Proof. by destruct v. Qed.

Lemma sub_state (k : string) (ev : pydict) :
  state_shape (Dict.get k ev) = true ->
  exists d v p, record_dict k ev = Ok d /\ enable_of d = Ok v /\ port_of d = Ok p.
Proof.
  intros Hs. destruct (sub_dict_shape k ev (state_shape_dict _ Hs)) as (d & Ed & [->|Eg]).
  - exists [], 0, []. by repeat split.
  - rewrite Eg in Hs. cbn [state_shape] in Hs. apply andb_true_iff in Hs as [Hv Hp].
    assert (exists v, enable_of d = Ok v) as [v Ev].
    { unfold enable_of. destruct (Dict.get "wininet_proxy_enabled" d) as [|[]|[]| | | |];
        try discriminate; eexists; reflexivity. }
    assert (exists p, port_of d = Ok p) as [p Ep].
    { unfold port_of. destruct (Dict.get "localhost_port" d) as [| | | |s| |]; try discriminate;
        try (eexists; reflexivity). cbn [py_int].
      destruct (PyStr.to_int s) as [z|e] eqn:Et; [eexists; reflexivity|].
      assert (e = ValueError) as ->; [|eexists; reflexivity].
      revert Et. unfold PyStr.to_int.
      destruct (PyStr.strip s) as [|c r]; [by intros [= <-]|].
      repeat match goal with
             | |- context [PyStr.digits_val ?a ?b ?t] => destruct (PyStr.digits_val a b t)
             | |- context [match ?c with Ascii _ _ _ _ _ _ _ _ => _ end] => destruct c as [[] [] [] [] [] [] [] []]
             end; cbn; congruence. }
    exists d, v, p. by repeat split.
Qed.

Lemma record_shape_parts (ev : pydict) :
  record_shape ev = true ->
  state_shape (Dict.get "before" ev) = true /\ state_shape (Dict.get "after" ev) = true
  /\ owner_shape (Dict.get "owner" ev) = true /\ health_shape (Dict.get "health" ev) = true.
Proof. unfold record_shape. rewrite !andb_true_iff. tauto. Qed.

Lemma scan_event_total (first : bool) (ev : pydict) :
  record_shape ev = true -> exists h, scan_event first ev = Ok h.
Proof.
  intros (Hb & Ha & Ho & _)%record_shape_parts. unfold scan_event.
  destruct (sub_state _ _ Hb) as (b & vb & pb & -> & Evb & Epb).
  destruct (sub_state _ _ Ha) as (a & va & pa & -> & Eva & Epa).
  cbn [mbind result_bind]. rewrite Eva, Epa.
  assert (exists x, (if first && match b with [] => false | _ => true end
                     then v ← enable_of b; p ← port_of b; Ok ([v], p) else Ok ([], [])) = Ok x)
    as [[x y] ->] by (rewrite Evb, Epb; destruct (first && _); eexists; reflexivity).
  cbn [mbind result_bind].
  destruct (sub_dict_shape _ _ (owner_shape_dict _ Ho)) as (o & -> & Hd). cbn [mbind result_bind].
  assert (exists c, _cmd_hash (Dict.get "cmdline" (owner_process o)) = Ok c) as [c ->].
  { destruct Hd as [->|Eg]; [eexists; reflexivity|]. rewrite Eg in Ho. cbn [owner_shape] in Ho.
    unfold _cmd_hash. destruct (Dict.get "cmdline" (owner_process o)) as [| | | |s| |]; try discriminate;
      [eexists; reflexivity|]. destruct (negb _); eexists; reflexivity. }
  eexists. reflexivity.
Qed.

Lemma scan_total (first : bool) (events : list pydict) :
  Forall (fun ev => record_shape ev = true) events -> exists h, scan first events = Ok h.
Proof.
  intros Hf. revert first. induction Hf as [|ev rest He _ IH]; intros first; [eexists; reflexivity|].
  destruct (scan_event_total first ev He) as [a Ea], (IH false) as [b Eb].
  cbn [scan]. rewrite Ea. cbn [mbind result_bind]. rewrite Eb. eexists. reflexivity.
Qed.

Lemma stale_total (events : list pydict) :
  Forall (fun ev => record_shape ev = true) events -> exists b, stale_loop events = Ok b.
Proof.
  induction 1 as [|ev rest He _ [b IH]]; [eexists; reflexivity|].
  apply record_shape_parts in He as (_ & Ha & Ho & Hh). cbn [stale_loop].
  destruct (sub_dict_shape _ _ Hh) as (h & -> & _). cbn [mbind result_bind].
  destruct (status_in _ h); [eexists; reflexivity|].
  destruct (sub_dict_shape _ _ (owner_shape_dict _ Ho)) as (o & -> & _). cbn [mbind result_bind].
  destruct (sub_state _ _ Ha) as (a & v & p & -> & Ev & _). cbn [mbind result_bind]. rewrite Ev.
  destruct (Dict.get "listener_found" o) as [|[]| | | | |]; cbn [mbind result_bind];
    try (eexists; exact IH). destruct (v =? 1); [eexists; reflexivity|eexists; exact IH].
Qed.

Lemma quiet_total (events : list pydict) (h : watch_history) :
  Forall (fun ev => record_shape ev = true) events -> exists r, quiet_status events h = Ok r.
Proof.
  intros Hf. unfold quiet_status.
  destruct (last_opt h.(h_enable)) as [[|[]|]|]; try (eexists; reflexivity).
  destruct (last_opt events) as [ev|] eqn:El.
  - apply last_opt_In in El. rewrite List.Forall_forall in Hf.
    specialize (Hf ev El). apply record_shape_parts in Hf as (_ & _ & _ & Hh).
    destruct (sub_dict_shape _ _ Hh) as (d & -> & _). cbn [mbind result_bind].
    destruct (status_in _ d); [eexists; reflexivity|].
    destruct (status_in _ d); eexists; reflexivity.
  - eexists. reflexivity.
Qed.

(** What a diagnosis says of the scanned history. *)
Lemma diagnosis_of_history (ev : pydict) (rest : list pydict) (h : watch_history)
    (stale : bool) (d : ReverterDiagnosis) :
  scan true (ev :: rest) = Ok h -> stale_loop (rev (ev :: rest)) = Ok stale ->
  analyze_proxy_watch_history (ev :: rest) = Ok d ->
  d.(rd_enable_disable_cycle_count) = count_cycles h.(h_enable)
  /\ (1 <= count_cycles h.(h_enable) -> d.(rd_status) = "REVERTER_SUSPECTED")
  /\ F64.leb d.(rd_confidence) (F64.lit 95 100) = true
  /\ d.(rd_suspected_reverter_process) = head (repeated_values h.(h_names))
  /\ d.(rd_limitations) = WATCH_LIMITATIONS.
Proof.
  intros Hs Hl. unfold analyze_proxy_watch_history. rewrite Hs, Hl. cbn [mbind result_bind].
  pose proof (pattern_bounded (length (ev :: rest)) h) as Hb.
  assert (Hp : 1 <= count_cycles h.(h_enable) ->
               (pattern (length (ev :: rest)) h).1.1 = "REVERTER_SUSPECTED")
    by (intros Hc; unfold pattern; by rewrite (proj2 (Z.leb_le _ _) Hc)).
  destruct (pattern (length (ev :: rest)) h) as [[status conf] lines]. cbn [fst snd] in *.
  destruct (stale && String.eqb status "NONE") eqn:Est.
  - cbn [String.eqb]. cbn -[F64.leb F64.lit WATCH_LIMITATIONS count_cycles repeated_values].
    intros [= <-]. cbn -[F64.leb F64.lit WATCH_LIMITATIONS count_cycles repeated_values].
    repeat split. intros Hc. rewrite (Hp Hc) in Est. by rewrite andb_false_r in Est.
  - destruct (String.eqb_spec status "NONE") as [->|Hne].
    + destruct (quiet_status _ h) as [[s c]|] eqn:Hq; [|discriminate].
      apply quiet_bounded in Hq. intros [= <-].
      cbn -[F64.leb F64.lit WATCH_LIMITATIONS count_cycles repeated_values].
      repeat split; [|exact Hq]. intros Hc. by specialize (Hp Hc).
    + intros [= <-]. cbn -[F64.leb F64.lit WATCH_LIMITATIONS count_cycles repeated_values].
      repeat split; assumption.
Qed.

(** A history of well-formed records is always diagnosed.  The cycle count is
    positive exactly when the observed states go on, off, on somewhere, and then the
    status is REVERTER_SUSPECTED; the confidence never exceeds 0.95; a suspected process was
    the listener of at least two records; the two caveats are always attached. *)
Theorem watch_diagnosis_sound (ev : pydict) (rest : list pydict) :
  Forall (fun ev => record_shape ev = true) (ev :: rest) ->
  exists h d,
    scan true (ev :: rest) = Ok h
    /\ analyze_proxy_watch_history (ev :: rest) = Ok d
    /\ (1 <= d.(rd_enable_disable_cycle_count) <-> on_off_on h.(h_enable))
    /\ (on_off_on h.(h_enable) -> d.(rd_status) = "REVERTER_SUSPECTED")
    /\ F64.leb d.(rd_confidence) (F64.lit 95 100) = true
    /\ (forall name, d.(rd_suspected_reverter_process) = Some name ->
          (2 <= length (List.filter (String.eqb name) h.(h_names)))%nat)
    /\ d.(rd_limitations) = WATCH_LIMITATIONS.
Proof.
  intros Hf. destruct (scan_total true _ Hf) as [h Hs].
  assert (Hr : Forall (fun ev => record_shape ev = true) (rev (ev :: rest)))
    by (by rewrite <- Permutation_rev).
  destruct (stale_total _ Hr) as [stale Hl]. destruct (quiet_total _ h Hf) as [[s c] Hq].
  assert (exists d, analyze_proxy_watch_history (ev :: rest) = Ok d) as [d Hd].
  { unfold analyze_proxy_watch_history. rewrite Hs, Hl. cbn [mbind result_bind].
    destruct (pattern _ h) as [[status conf] lines]. destruct (stale && _); [eexists; reflexivity|].
    destruct (String.eqb status "NONE"); [rewrite Hq|]; eexists; reflexivity. }
  destruct (diagnosis_of_history _ _ _ _ _ Hs Hl Hd) as (E1 & E2 & E3 & E4 & E5).
  exists h, d. rewrite E1, E4, <- count_cycles_spec. repeat split; try done.
  intros name Hn. apply repeated_values_spec. destruct (repeated_values h.(h_names)); [done|].
  injection Hn as ->. by left.
Qed.

(** A proxy on one port is disabled, then enabled on another. *)
Definition moved_port (p q : Z) : list pydict :=
  [["before" :-> PDict ["wininet_proxy_enabled" :-> PInt 1; "localhost_port" :-> PInt p];
    "after" :-> PDict ["wininet_proxy_enabled" :-> PInt 0]];
   ["before" :-> PDict ["wininet_proxy_enabled" :-> PInt 0];
    "after" :-> PDict ["wininet_proxy_enabled" :-> PInt 1; "localhost_port" :-> PInt q]]].

(** A disabled state has no port, so the list of ports is shorter than the list
    of states and is read one position late: whatever the two ports, a proxy that comes
    back on another port is reported to have returned to the same one. *)
Theorem moved_port_reported_same (p q : Z) :
  exists d, analyze_proxy_watch_history (moved_port p q) = Ok d
    /\ d.(rd_last_ports) = [p; q]
    /\ In "ProxyServer returned to same localhost port after manual disable" d.(rd_evidence).
Proof.
  assert (Hscan : scan true (moved_port p q)
    = Ok {| h_enable := [1; 0; 1]; h_ports := [p; q]; h_names := []; h_hashes := [] |})
    by reflexivity.
  assert (Hsame : same_port_reenable [1; 0; 1] [p; q] = true)
    by (unfold same_port_reenable; cbn; by rewrite Z.eqb_refl).
  assert (Hpat : exists c line, pattern 2
      {| h_enable := [1; 0; 1]; h_ports := [p; q]; h_names := []; h_hashes := [] |}
    = ("REVERTER_SUSPECTED", c,
       [line; "ProxyServer returned to same localhost port after manual disable"]))
    by (unfold pattern; cbn [h_enable h_ports]; rewrite Hsame; do 2 eexists; reflexivity).
  destruct Hpat as (c & line & Hpat). unfold analyze_proxy_watch_history.
  change (moved_port p q) with (List.hd [] (moved_port p q) :: List.tl (moved_port p q)) at 1.
  cbn match. rewrite Hscan. cbn [mbind result_bind]. cbn [length moved_port]. rewrite Hpat.
  change (stale_loop (rev (moved_port p q))) with (@Ok bool false).
  eexists. split; [reflexivity|]. split; [reflexivity|]. right. by left.
Qed.
End Properties.

Module WatchWitness.
#[local] Instance host : PyHost := DemoHost.demo_host.

Lemma watch_diagnosis_sound_witness :
  exists h d, scan true (moved_port 8080 9090) = Ok h
    /\ analyze_proxy_watch_history (moved_port 8080 9090) = Ok d
    /\ on_off_on h.(h_enable).
Proof.
  destruct (watch_diagnosis_sound (List.hd [] (moved_port 8080 9090)) (List.tl (moved_port 8080 9090)))
    as (h & d & Hs & Hd & Hc & _); [repeat constructor|].
  exists h, d. split; [exact Hs|]. split; [exact Hd|]. apply Hc.
  vm_compute in Hd. injection Hd as <-. vm_compute. discriminate.
Defined.

(** A dead probe early in the history makes a recovered proxy stale. *)
Lemma recovered_proxy_is_stale :
  option_map rd_status (match analyze_proxy_watch_history
    [["after" :-> PDict ["wininet_proxy_enabled" :-> PInt 1];
      "health" :-> PDict ["proxy_status" :-> PStr "DEAD_LOCALHOST_PROXY"]];
     ["after" :-> PDict ["wininet_proxy_enabled" :-> PInt 1];
      "owner" :-> PDict ["listener_found" :-> PBool true];
      "health" :-> PDict ["proxy_status" :-> PStr "HEALTHY_LOCALHOST_PROXY"]]]
    with Ok d => Some d | Raise _ => None end)
  = Some "STALE_PROXY_AFTER_PROCESS_EXIT".
Proof. vm_compute. reflexivity. Qed.
End WatchWitness.
