(* ===== verification/StopListener.v ===== *)
(** * Stopping a proxy listener or its reverter

    [src/proxy_guard/stop_listener.py] and [stop_reverter.py], the two workflows that
    terminate processes, with the listener look-up they rest on
    ([src/attribution/port_owner.py], [src/proxy_guard/owner.py]).  What the host
    answers (registry, netstat text, task list, process query, elevation, taskkill)
    is a record; every taskkill that is run is logged with the process at the root of the
    tree it ends, and its outcome may depend on the ones before it. *)

From S2P Require Import Prelude PyValue ProxyParser ProxyDisable RegistryWriter.
From Stdlib Require Import Ascii String.
From stdpp Require Import strings relations.

Open Scope string_scope.
Open Scope Z_scope.
Open Scope py_scope.

(** ** Netstat *)

(** The words of a line. *)
Fixpoint words_from (cur : string) (s : string) : list string :=
  match s with
  | EmptyString => if PyStr.is_empty cur then [] else [cur]
  | String c s' =>
      if PyStr.is_space c then
        (if PyStr.is_empty cur then [] else [cur]) ++ words_from "" s'
      else words_from (cur ++ String c "") s'
  end%list.

(** [_TCP_LISTEN.match]: address and process id of a listening row. *)
Definition match_tcp_listen (line : string) : option (string * Z) :=
  match words_from "" line with
  | proto :: local :: _ :: state :: pid :: _ =>
      let digits := (PyStr.span PyStr.is_digit pid).1 in
      if String.eqb (PyStr.lower proto) "tcp" && String.eqb (PyStr.lower state) "listening"
         && negb (PyStr.is_empty digits)
      then match PyStr.to_int digits with Ok n => Some (local, n) | Raise _ => None end
      else None
  | _ => None
  end.

(** [loc.rpartition(":")] of a text with a colon. *)
Fixpoint rpartition_colon (s : string) : option (string * string) :=
  match s with
  | EmptyString => None
  | String c s' =>
      match rpartition_colon s' with
      | Some (a, b) => Some (String c a, b)
      | None => if Ascii.eqb c ":" then Some ("", s') else None
      end
  end.

Definition _split_host_port (loc : string) : option (string * Z) :=
  let loc := PyStr.strip loc in
  match loc with
  | String "[" rest =>
      let '(h, r) := PyStr.span (fun c => negb (Ascii.eqb c "]")) rest in
      match r with
      | String "]" (String ":" p) =>
          if negb (PyStr.is_empty h) && negb (PyStr.is_empty p) && PyStr.all_chars PyStr.is_digit p
          then match PyStr.to_int p with Ok n => Some (h, n) | Raise _ => None end
          else None
      | _ => None
      end
  | _ =>
      '(host, port_s) ← rpartition_colon loc;
      match PyStr.to_int port_s with Ok n => Some (PyStr.strip host, n) | Raise _ => None end
  end.

Definition netstat_listen_rows (text : string) : list (string * Z * Z) :=
  omap (fun line =>
    '(local, pid) ← match_tcp_listen (PyStr.strip line);
    '(host, port) ← _split_host_port local;
    Some (host, port, pid)) (splitlines text).

Definition owners_for_port (rows : list (string * Z * Z)) (port : Z) : list Z :=
  dedupe Z.eqb (map snd (List.filter (fun r => r.1.2 =? port) rows)).

(** ** The host *)

(** How a taskkill ends: it cannot run, or it returns. *)
Inductive kill_outcome :=
| KillRaises (text : string)
| KillDone (returncode : Z) (stdout stderr : string).

(** [gh_kill], [gh_processes] and [gh_ended] depend on the taskkills run before: how the
    next one ends, the processes with their parents, and the processes it terminates. *)
Record guard_host := {
  gh_proxy_server : option string;
  gh_netstat : Z * string;
  gh_tasks : option (list (Z * string));
  gh_process : Z -> option pydict;
  gh_admin : bool;
  gh_kill : list Z -> Z -> kill_outcome;
  gh_processes : list Z -> list (Z * Z);
  gh_ended : list Z -> Z -> list Z;
}.

(** A process of the tree under [root]: itself, or one whose chain of parents leads to it. *)
Definition in_tree (processes : list (Z * Z)) (root x : Z) : Prop :=
  rtc (fun parent child => In (child, parent) processes) root x.

(** Documented of [taskkill /PID root /T]: it ends the process and those it started. *)
Definition ends_trees (host : guard_host) : Prop :=
  forall log root x, In x (host.(gh_ended) log root) -> in_tree (host.(gh_processes) log) root x.

(** All the processes the logged taskkills terminated, [ran] being run before. *)
Fixpoint terminated (host : guard_host) (ran log : list Z) : list Z :=
  match log with
  | [] => []
  | root :: rest => (host.(gh_ended) ran root ++ terminated host (ran ++ [root]) rest)%list
  end.

Lemma terminated_in_trees (host : guard_host) (ran log : list Z) (x : Z) :
  ends_trees host -> In x (terminated host ran log) ->
  exists before root, In root log /\ in_tree (host.(gh_processes) before) root x.
Proof.
  intros He. revert ran. induction log as [|root log IH]; intros ran; [done|]. cbn [terminated].
  intros [Hx|Hx]%in_app_or.
  - exists ran, root. split; [by left|]. by apply He.
  - destruct (IH _ Hx) as (before & r & Hr & Ht). exists before, r. split; [by right|done].
Qed.

Record PortOwnerRecord := {
  po_port : Z;
  po_pid : Z;
  po_process_name : option string;
  po_parent_pid : option Z;
  po_parent_name : option string;
  po_command_line : option string;
  po_executable_path : option string;
  po_permission_limited : bool;
}.

Definition task_name (tasks : list (Z * string)) (pid : pyval) : result (option string) :=
  match pid with
  | PNone => Ok None
  | PList _ | PDict _ => Raise TypeError
  | v => Ok (snd <$> List.find (fun kv => py_eqb (PInt kv.1) v) tasks)
  end.

(** The parent id of a process query: an integer, or digits. *)
Definition parent_value (v : pyval) : pyval :=
  match v with
  | PStr s =>
      if negb (PyStr.is_empty s) && PyStr.all_chars PyStr.is_digit s
      then match PyStr.to_int s with Ok n => PInt n | Raise _ => v end
      else v
  | _ => v
  end.

Definition opt_text (v : pyval) : option string := match v with PStr s => Some s | _ => None end.

Definition owner_record (tasks : list (Z * string)) (cim : option pydict) (port pid : Z)
    : result PortOwnerRecord :=
  let d := default [] cim in
  let parent := parent_value (Dict.get "ParentProcessId" d) in
  parent_name ← task_name tasks parent;
  Ok {| po_port := port; po_pid := pid;
        po_process_name := snd <$> List.find (fun kv => kv.1 =? pid) tasks;
        po_parent_pid :=
          match parent with PInt n => Some n | PBool b => Some (if b then 1 else 0) | _ => None end;
        po_parent_name := parent_name;
        po_command_line := opt_text (Dict.get "CommandLine" d);
        po_executable_path := opt_text (Dict.get "ExecutablePath" d);
        po_permission_limited :=
          match cim with None => true | Some _ => is_none (Dict.get "CommandLine" d) end |}.

Definition resolve_localhost_proxy_owners (host : guard_host) (port : Z)
    : result (list PortOwnerRecord * list string) :=
  let '(code, text) := host.(gh_netstat) in
  let pids := owners_for_port (netstat_listen_rows text) port in
  let tasks := default [] host.(gh_tasks) in
  owners ← mapM_result (fun pid => owner_record tasks (host.(gh_process) pid) port pid) pids;
  Ok (owners,
      (if code =? 0 then []
       else ["netstat failed (code " +:+ PyStr.of_Z code +:+ "); owner list may be empty."])
      ++ match pids with
         | [] => ["No LISTENING rows found for port " +:+ PyStr.of_Z port +:+ " in netstat snapshot."]
         | _ => []
         end
      ++ match host.(gh_tasks) with
         | None => ["tasklist failed; process names may be unknown."]
         | Some _ => []
         end)%list.

(** ** Targets and policies *)

Definition LISTENER_ATTRIBUTION_LIMITATION : string :=
  "Listener correlation is not registry-writer proof; stopping the listener may not stop proxy re-enable if another process writes HKCU keys.".

Definition REVERTER_ATTRIBUTION_LIMITATION : string :=
  "Parent process correlation is not registry-writer proof; stopping the parent may not prevent proxy re-enable if a scheduled task or service respawns the reverter.".

Record StopListenerTarget := {
  st_port : Z;
  st_pid : Z;
  st_process_name : option string;
  st_parent_pid : option Z;
  st_parent_name : option string;
}.

Definition resolve_stop_listener_target (host : guard_host) (port : option Z)
    : result (option StopListenerTarget * list string) :=
  let resolved :=
    match port with
    | Some p => Some p
    | None => (parse_proxy_server host.(gh_proxy_server)).(localhost_port)
    end in
  match resolved with
  | None =>
      Ok (None, ["No localhost proxy port parsed from HKCU ProxyServer; pass --port explicitly."])
  | Some p =>
      '(owners, notes) ← resolve_localhost_proxy_owners host p;
      match owners with
      | [] => Ok (None, (notes ++ ["No listener owner rows resolved; cannot plan taskkill."])%list)
      | o :: _ =>
          Ok (Some {| st_port := p; st_pid := o.(po_pid); st_process_name := o.(po_process_name);
                      st_parent_pid := o.(po_parent_pid); st_parent_name := o.(po_parent_name) |},
              notes)
      end
  end.

Definition build_taskkill_argv (pid : Z) : list string :=
  ["taskkill"; "/F"; "/PID"; PyStr.of_Z pid; "/T"].

(** [elevated], or what the token says. *)
Definition effective_elevation (host : guard_host) (elevated : option bool) : bool :=
  default host.(gh_admin) elevated.

(** The phrase and elevation gates both policies share. *)
Definition phrase_gate (host : guard_host) (phrase confirmation : string) (elevated : option bool)
    : GuardDecision * string :=
  let typed := PyStr.strip confirmation in
  if PyStr.is_empty typed then (GUARD_BLOCK, "missing_confirmation")
  else if negb (String.eqb typed phrase) then (GUARD_BLOCK, "confirmation_mismatch")
  else if negb (effective_elevation host elevated)
  then (GUARD_BLOCK, "administrator_elevation_required")
  else (GUARD_ALLOW, "confirmed_allowlisted_action").

(** The reason the catalogue blocks an action, if it does. *)
Definition catalogue_block (action_id : string) : option string :=
  match get_allowlisted_action action_id with
  | None => Some "unknown_action"
  | Some a => if PyStr.is_empty a.(aa_blocked_reason) then None else Some a.(aa_blocked_reason)
  end.

Definition evaluate_stop_listener_policy (host : guard_host) (dry_run : bool)
    (confirmation : string) (target : option StopListenerTarget) (elevated : option bool)
    : GuardDecision * string :=
  match catalogue_block "stop_proxy_listener", target with
  | Some r, _ => (GUARD_BLOCK, r)
  | None, None => (GUARD_BLOCK, "no_listener_pid")
  | None, Some _ =>
      if dry_run then (GUARD_PREVIEW, "dry_run_preview_only")
      else phrase_gate host STOP_PROXY_LISTENER_PHRASE confirmation elevated
  end.

Definition _ELIGIBLE_PARENT_NAMES : list string := ["powershell.exe"; "pwsh.exe"].

Definition is_eligible_reverter_parent (name : option string) : bool :=
  match name with
  | Some n => negb (PyStr.is_empty n) && PyStr.mem (PyStr.lower (PyStr.strip n)) _ELIGIBLE_PARENT_NAMES
  | None => false
  end.

Definition resolve_reverter_parent_pid (target : option StopListenerTarget) : option Z :=
  t ← target;
  p ← t.(st_parent_pid);
  if is_eligible_reverter_parent t.(st_parent_name) then Some p else None.

Definition evaluate_stop_reverter_policy (host : guard_host) (dry_run : bool)
    (confirmation : string) (target : option StopListenerTarget) (parent_pid : option Z)
    (elevated : option bool) : GuardDecision * string :=
  match catalogue_block "stop_proxy_reverter", target, parent_pid with
  | Some r, _, _ => (GUARD_BLOCK, r)
  | None, None, _ => (GUARD_BLOCK, "no_listener_pid")
  | None, Some _, None => (GUARD_BLOCK, "no_eligible_parent_pid")
  | None, Some _, Some _ =>
      if dry_run then (GUARD_PREVIEW, "dry_run_preview_only")
      else phrase_gate host STOP_PROXY_REVERTER_PHRASE confirmation elevated
  end.

(** ** Workflows *)

Record taskkill_result := {
  tk_argv : list string;
  tk_returncode : Z;
  tk_stdout : string;
  tk_stderr : string;
  tk_success : bool;
}.

Definition taskkill_report (host : guard_host) (log : list Z) (pid : Z) : taskkill_result :=
  match host.(gh_kill) log pid with
  | KillDone code out err =>
      {| tk_argv := build_taskkill_argv pid; tk_returncode := code;
         tk_stdout := Utf8.prefix 4000 out; tk_stderr := Utf8.prefix 4000 err;
         tk_success := code =? 0 |}
  | KillRaises text =>
      {| tk_argv := build_taskkill_argv pid; tk_returncode := -1; tk_stdout := "";
         tk_stderr := Utf8.prefix 4000 text; tk_success := false |}
  end.

(** Runs one taskkill, of the tree under the process ([/T]), and logs that process. *)
Definition execute_taskkill (host : guard_host) (log : list Z) (pid : Z)
    : taskkill_result * list Z :=
  (taskkill_report host log pid, (log ++ [pid])%list).

(** The result of either workflow; the two taskkill reports stand for the states before and
    after that the source keeps as dictionaries. *)
Record StopResult := {
  sr_action_id : string;
  sr_decision : GuardDecision;
  sr_dry_run : bool;
  sr_mutated : bool;
  sr_reason : string;
  sr_target : option StopListenerTarget;
  sr_parent_pid : option Z;
  sr_planned_argv : list string;
  sr_taskkill : option taskkill_result;
  sr_parent_taskkill : option taskkill_result;
  sr_notes : list string;
}.

Definition stop_result (id : string) (decision : GuardDecision) (dry_run mutated : bool)
    (reason : string) (target : option StopListenerTarget) (parent : option Z)
    (argv : list string) (tk ptk : option taskkill_result) (notes : list string) : StopResult :=
  {| sr_action_id := id; sr_decision := decision; sr_dry_run := dry_run; sr_mutated := mutated;
     sr_reason := reason; sr_target := target; sr_parent_pid := parent; sr_planned_argv := argv;
     sr_taskkill := tk; sr_parent_taskkill := ptk; sr_notes := notes |}.

Definition target_argv (target : option StopListenerTarget) : list string :=
  match target with Some t => build_taskkill_argv t.(st_pid) | None => [] end.

(** [build_taskkill_argv(parent_pid) if parent_pid else ()]. *)
Definition parent_argv (parent : option Z) : list string :=
  match parent with Some p => if p =? 0 then [] else build_taskkill_argv p | None => [] end.

Definition is_allow (d : GuardDecision) : bool := match d with GUARD_ALLOW => true | _ => false end.

(** The part after the optional parent stage. *)
Definition listener_stage (host : guard_host) (dry_run : bool) (confirmation : string)
    (elevated : option bool) (target : option StopListenerTarget) (parent : option Z)
    (ptk : option taskkill_result) (notes : list string) (log : list Z) : StopResult * list Z :=
  let '(decision, reason) :=
    evaluate_stop_listener_policy host dry_run confirmation target elevated in
  let finish := stop_result "stop_proxy_listener" in
  match is_allow decision, target with
  | true, Some t =>
      let '(tk, log') := execute_taskkill host log t.(st_pid) in
      let mutated :=
        tk.(tk_success) && match ptk with Some p => p.(tk_success) | None => true end in
      (finish (if mutated then decision else GUARD_BLOCK) dry_run mutated
         (if mutated then reason else "taskkill_failed") target parent (target_argv target)
         (Some tk) ptk notes, log')
  | _, _ => (finish decision dry_run false reason target parent (target_argv target) None None notes, log)
  end.

Definition run_stop_listener_workflow (host : guard_host) (dry_run : bool)
    (confirmation : string) (stop_parent_tree : bool) (reverter_confirmation : string)
    (port : option Z) (elevated : option bool) : result (StopResult * list Z) :=
  '(target, notes) ← resolve_stop_listener_target host port;
  let notes := LISTENER_ATTRIBUTION_LIMITATION :: notes in
  let finish := stop_result "stop_proxy_listener" in
  Ok (if stop_parent_tree then
        let parent := resolve_reverter_parent_pid target in
        let planned := parent_argv parent in
        if dry_run then listener_stage host dry_run confirmation elevated target parent None notes []
        else
        let '(rev_decision, rev_reason) :=
          evaluate_stop_reverter_policy host false reverter_confirmation target parent elevated in
        if negb (is_allow rev_decision) then
          (finish GUARD_BLOCK dry_run false rev_reason target parent
             match planned with [] => target_argv target | _ => planned end None None notes, [])
        else
        match parent with
        | Some p =>
            let '(ptk, log) := execute_taskkill host [] p in
            if negb ptk.(tk_success) then
              (finish GUARD_BLOCK dry_run false "parent_taskkill_failed" target parent planned
                 (Some ptk) (Some ptk) notes, log)
            else listener_stage host dry_run confirmation elevated target parent (Some ptk) notes log
        | None => listener_stage host dry_run confirmation elevated target parent None notes []
        end
      else listener_stage host dry_run confirmation elevated target None None notes []).

Definition run_stop_reverter_workflow (host : guard_host) (dry_run : bool)
    (confirmation : string) (port : option Z) (elevated : option bool)
    : result (StopResult * list Z) :=
  '(target, notes) ← resolve_stop_listener_target host port;
  let notes := REVERTER_ATTRIBUTION_LIMITATION :: LISTENER_ATTRIBUTION_LIMITATION :: notes in
  let parent := resolve_reverter_parent_pid target in
  let '(decision, reason) :=
    evaluate_stop_reverter_policy host dry_run confirmation target parent elevated in
  let finish := stop_result "stop_proxy_reverter" in
  Ok match is_allow decision, parent with
     | true, Some p =>
         let '(tk, log) := execute_taskkill host [] p in
         (finish (if tk.(tk_success) then decision else GUARD_BLOCK) dry_run tk.(tk_success)
            (if tk.(tk_success) then reason else "taskkill_failed") target parent
            (parent_argv parent) (Some tk) None notes, log)
     | _, _ => (finish decision dry_run false reason target parent (parent_argv parent) None None notes, [])
     end.

(** ** Properties *)

Lemma phrase_gate_allow (host : guard_host) (phrase confirmation : string) (elevated : option bool) :
  is_allow (phrase_gate host phrase confirmation elevated).1 = true ->
  PyStr.strip confirmation = phrase /\ effective_elevation host elevated = true.
Proof.
  unfold phrase_gate. destruct (PyStr.is_empty _); [discriminate|].
  destruct (String.eqb_spec (PyStr.strip confirmation) phrase) as [E|E]; [|discriminate].
  destruct (effective_elevation host elevated); [done|discriminate].
Qed.

Lemma listener_policy_allow (host : guard_host) (dry_run : bool) (confirmation : string)
    (target : option StopListenerTarget) (elevated : option bool) :
  is_allow (evaluate_stop_listener_policy host dry_run confirmation target elevated).1 = true ->
  dry_run = false /\ PyStr.strip confirmation = STOP_PROXY_LISTENER_PHRASE
  /\ effective_elevation host elevated = true /\ target <> None.
Proof.
  unfold evaluate_stop_listener_policy. change (catalogue_block "stop_proxy_listener") with (@None string).
  destruct target; [|discriminate]. destruct dry_run; [discriminate|].
  intros [? ?]%phrase_gate_allow. repeat split; done.
Qed.

Lemma reverter_policy_allow (host : guard_host) (dry_run : bool) (confirmation : string)
    (target : option StopListenerTarget) (parent : option Z) (elevated : option bool) :
  is_allow (evaluate_stop_reverter_policy host dry_run confirmation target parent elevated).1 = true ->
  dry_run = false /\ PyStr.strip confirmation = STOP_PROXY_REVERTER_PHRASE
  /\ effective_elevation host elevated = true /\ parent <> None.
Proof.
  unfold evaluate_stop_reverter_policy. change (catalogue_block "stop_proxy_reverter") with (@None string).
  destruct target; [|discriminate]. destruct parent; [|discriminate]. destruct dry_run; [discriminate|].
  intros [? ?]%phrase_gate_allow. repeat split; done.
Qed.

(** The listener stage kills at most the target, and only when it is allowed; what it
    reports as changed was changed. *)
Lemma listener_stage_spec (host : guard_host) (dry_run : bool) (confirmation : string)
    (elevated : option bool) (target : option StopListenerTarget) (parent : option Z)
    (ptk : option taskkill_result) (notes : list string) (log : list Z) :
  let '(r, log') :=
    listener_stage host dry_run confirmation elevated target parent ptk notes log in
  (log' = log /\ r.(sr_mutated) = false
   \/ exists t, target = Some t /\ log' = (log ++ [t.(st_pid)])%list /\ dry_run = false
        /\ PyStr.strip confirmation = STOP_PROXY_LISTENER_PHRASE
        /\ effective_elevation host elevated = true)
  /\ (r.(sr_mutated) = true ->
      r.(sr_decision) = GUARD_ALLOW
      /\ exists tk, r.(sr_taskkill) = Some tk /\ tk.(tk_success) = true).
Proof.
  unfold listener_stage.
  pose proof (listener_policy_allow host dry_run confirmation target elevated) as Ha.
  destruct (evaluate_stop_listener_policy _ _ _ _ _) as [decision reason]. cbn [fst] in Ha.
  destruct (is_allow decision) eqn:Hd; [|split; [by left|discriminate]].
  destruct (Ha eq_refl) as (-> & Hp & He & Ht). destruct target as [t|]; [|done].
  cbn [execute_taskkill]. set (tk := taskkill_report host log t.(st_pid)).
  split; [right; by exists t|]. cbn [sr_mutated sr_decision sr_taskkill stop_result].
  destruct tk.(tk_success) eqn:Es; cbn [andb]; [|discriminate].
  destruct ptk as [p|]; [destruct p.(tk_success); [|discriminate]|]; intros _;
    (split; [by destruct decision|by exists tk]).
Qed.

(** Who may be terminated, and on what authority. *)
Definition authorised (host : guard_host) (dry_run : bool) (confirmation : string)
    (stop_parent_tree : bool) (reverter_confirmation : string) (elevated : option bool)
    (target : option StopListenerTarget) (pid : Z) : Prop :=
  dry_run = false /\ effective_elevation host elevated = true
  /\ ((exists t, target = Some t /\ pid = t.(st_pid))
      /\ PyStr.strip confirmation = STOP_PROXY_LISTENER_PHRASE
      \/ stop_parent_tree = true /\ resolve_reverter_parent_pid target = Some pid
         /\ PyStr.strip reverter_confirmation = STOP_PROXY_REVERTER_PHRASE).

(** C10: the stop-listener workflow runs [taskkill] only outside dry runs, with elevation, at
    most twice, and only on the resolved listener under its own typed phrase or on its eligible
    PowerShell parent under the reverter phrase.  As [/T] ends whole trees, every process that
    is terminated lies in the process tree of one of these.  A result that reports a change is
    an allowed one for which a taskkill was run. *)
Theorem stop_listener_safe (host : guard_host) (dry_run : bool) (confirmation : string)
    (stop_parent_tree : bool) (reverter_confirmation : string) (port : option Z)
    (elevated : option bool) (r : StopResult) (log : list Z) :
  ends_trees host ->
  run_stop_listener_workflow host dry_run confirmation stop_parent_tree reverter_confirmation
    port elevated = Ok (r, log) ->
  exists target notes,
    resolve_stop_listener_target host port = Ok (target, notes)
    /\ Forall (authorised host dry_run confirmation stop_parent_tree reverter_confirmation
                 elevated target) log
    /\ (length log <= 2)%nat
    /\ (forall x, In x (terminated host [] log) ->
         exists before root, in_tree (host.(gh_processes) before) root x
           /\ authorised host dry_run confirmation stop_parent_tree reverter_confirmation
                elevated target root)
    /\ (r.(sr_mutated) = true -> r.(sr_decision) = GUARD_ALLOW /\ log <> []).
Proof.
  intros Htree. unfold run_stop_listener_workflow.
  destruct (resolve_stop_listener_target host port) as [[target notes]|] eqn:Et; [|discriminate].
  cbn [mbind result_bind]. intros Hr. exists target, notes. split; [reflexivity|].
  enough (Forall (authorised host dry_run confirmation stop_parent_tree reverter_confirmation elevated target) log
    /\ (length log <= 2)%nat
    /\ (r.(sr_mutated) = true -> r.(sr_decision) = GUARD_ALLOW /\ log <> [])) as (Ha & Hl & Hm).
  { split; [done|]. split; [done|]. split; [|done]. intros x Hx.
    destruct (terminated_in_trees _ _ _ _ Htree Hx) as (before & root & Hroot & Hin).
    exists before, root. split; [done|]. rewrite Forall_forall in Ha. by apply Ha, list_elem_of_In. }
  assert (Hstage : forall parent ptk ns log0,
    (length log0 <= 1)%nat ->
    Forall (authorised host dry_run confirmation stop_parent_tree reverter_confirmation elevated target) log0 ->
    listener_stage host dry_run confirmation elevated target parent ptk ns log0 = (r, log) ->
    Forall (authorised host dry_run confirmation stop_parent_tree reverter_confirmation elevated target) log
    /\ (length log <= 2)%nat
    /\ (r.(sr_mutated) = true -> r.(sr_decision) = GUARD_ALLOW /\ log <> [])).
  { intros parent ptk ns log0 Hlen Hauth Hl.
    pose proof (listener_stage_spec host dry_run confirmation elevated target parent ptk ns log0) as Hs.
    rewrite Hl in Hs. destruct Hs as [[[-> Hm]|(t & Ht & -> & Hdry & Hp & He)] Hmut].
    - split; [exact Hauth|]. split; [lia|]. rewrite Hm. discriminate.
    - split; [apply Forall_app; split; [exact Hauth|constructor; [|constructor]]|].
      + split; [exact Hdry|]. split; [exact He|]. left. split; [by exists t|exact Hp].
      + rewrite length_app. cbn. split; [lia|]. intros [Ha _]%Hmut. split; [exact Ha|].
        by destruct log0. }
  injection Hr as Hr. destruct stop_parent_tree; [|by eapply Hstage; [..|exact Hr]; [cbn; lia|constructor]].
  destruct dry_run; [by eapply Hstage; [..|exact Hr]; [cbn; lia|constructor]|].
  pose proof (reverter_policy_allow host false reverter_confirmation target
                (resolve_reverter_parent_pid target) elevated) as Ha.
  destruct (evaluate_stop_reverter_policy _ _ _ _ _ _) as [rd rr]. cbn [fst] in Ha.
  destruct (is_allow rd) eqn:Hd; cbn [negb] in Hr.
  2:{ injection Hr as <- <-. split; [constructor|]. split; [cbn; lia|discriminate]. }
  destruct (Ha eq_refl) as (_ & Hp & He & Hpar).
  destruct (resolve_reverter_parent_pid target) as [p|] eqn:Ep; [|done].
  assert (Hauth : Forall (authorised host false confirmation true reverter_confirmation elevated target) [p]).
  { constructor; [|constructor]. repeat split; [exact He|]. right. by rewrite Ep. }
  cbn [execute_taskkill app] in Hr.
  destruct (taskkill_report host [] p).(tk_success); cbn [negb] in Hr.
  - eapply Hstage; [..|exact Hr]; [cbn; lia|exact Hauth].
  - injection Hr as <- <-. split; [exact Hauth|]. split; [cbn; lia|discriminate].
Qed.

(** C38: with both trees requested, the parent is terminated before the listener's phrase
    is checked: under a correct reverter phrase and a wrong or missing listener phrase the
    parent is gone, while the result says blocked, unchanged, and carries no record of the
    termination. *)
Theorem parent_stopped_but_reported_unchanged (host : guard_host) (confirmation rev_confirmation : string)
    (port : option Z) (elevated : option bool) (t : StopListenerTarget)
    (notes : list string) (p : Z) :
  resolve_stop_listener_target host port = Ok (Some t, notes) ->
  resolve_reverter_parent_pid (Some t) = Some p ->
  effective_elevation host elevated = true ->
  PyStr.strip rev_confirmation = STOP_PROXY_REVERTER_PHRASE ->
  PyStr.strip confirmation <> STOP_PROXY_LISTENER_PHRASE ->
  (taskkill_report host [] p).(tk_success) = true ->
  exists r,
    run_stop_listener_workflow host false confirmation true rev_confirmation port elevated
    = Ok (r, [p])
    /\ r.(sr_decision) = GUARD_BLOCK /\ r.(sr_mutated) = false
    /\ r.(sr_taskkill) = None /\ r.(sr_parent_taskkill) = None
    /\ r.(sr_planned_argv) = build_taskkill_argv t.(st_pid).
Proof.
  intros Ht Hp He Hr Hl Hk. unfold run_stop_listener_workflow. rewrite Ht. cbn [mbind result_bind].
  rewrite Hp.
  assert (evaluate_stop_reverter_policy host false rev_confirmation (Some t) (Some p) elevated
          = (GUARD_ALLOW, "confirmed_allowlisted_action")) as ->.
  { unfold evaluate_stop_reverter_policy.
    change (catalogue_block "stop_proxy_reverter") with (@None string). cbn match.
    unfold phrase_gate. rewrite Hr, He. reflexivity. }
  cbn [is_allow negb execute_taskkill app]. rewrite Hk. cbn [negb]. unfold listener_stage.
  assert (exists reason, evaluate_stop_listener_policy host false confirmation (Some t) elevated
          = (GUARD_BLOCK, reason)) as [reason ->].
  { unfold evaluate_stop_listener_policy.
    change (catalogue_block "stop_proxy_listener") with (@None string). cbn match.
    unfold phrase_gate. destruct (PyStr.is_empty _); [eexists; reflexivity|].
    rewrite (proj2 (String.eqb_neq _ _) Hl). eexists. reflexivity. }
  cbn [is_allow]. eexists. split; [reflexivity|]. repeat split.
Qed.

(** The owner record of a process id keeps it. *)
Lemma owner_record_pid (tasks : list (Z * string)) (cim : option pydict) (port pid : Z)
    (o : PortOwnerRecord) :
  owner_record tasks cim port pid = Ok o -> o.(po_pid) = pid.
Proof.
  unfold owner_record. destruct (task_name _ _); [|discriminate]. by intros [= <-].
Qed.

(** The process a stop workflow targets is the first one the netstat snapshot lists
    as listening on the port, and some row of the snapshot has that port and process. *)
Theorem target_is_listener (host : guard_host) (port : option Z) (t : StopListenerTarget)
    (notes : list string) :
  resolve_stop_listener_target host port = Ok (Some t, notes) ->
  head (owners_for_port (netstat_listen_rows host.(gh_netstat).2) t.(st_port)) = Some t.(st_pid)
  /\ (exists address, In (address, t.(st_port), t.(st_pid)) (netstat_listen_rows host.(gh_netstat).2)).
Proof.
  unfold resolve_stop_listener_target.
  destruct (match port with Some p => Some p | None => _ end) as [p|]; [|discriminate].
  unfold resolve_localhost_proxy_owners. destruct host.(gh_netstat) as [code text] eqn:En. cbn [snd].
  set (pids := owners_for_port (netstat_listen_rows text) p).
  destruct (mapM_result _ pids) as [owners|] eqn:Em; [|discriminate]. cbn [mbind result_bind].
  apply mapM_result_Forall2 in Em. destruct owners as [|o owners]; [discriminate|].
  intros [= <- _]. cbn [st_port st_pid].
  destruct pids as [|pid rest] eqn:Epids; [by apply Forall2_nil_inv_l in Em|].
  apply Forall2_cons in Em as [Ho _]. rewrite (owner_record_pid _ _ _ _ _ Ho).
  split; [unfold pids in Epids; by rewrite Epids|].
  assert (Hin : In pid pids) by (rewrite Epids; by left).
  apply dedupe_incl, in_map_iff in Hin as ([[a q] n] & En' & Hf). cbn in En'. subst n.
  apply filter_In in Hf as [Hf Hq]. cbn in Hq. apply Z.eqb_eq in Hq. subst q. by exists a.
Qed.

Module StopWitness.
(** A loopback proxy whose port another interface also uses. *)
Definition netstat : string :=
  String.concat (String "010" "")
    ["  TCP    192.168.1.5:8080    0.0.0.0:0    LISTENING    77";
     "  TCP    127.0.0.1:8080    0.0.0.0:0    LISTENING    88"].

Definition host : guard_host :=
  {| gh_proxy_server := Some "127.0.0.1:8080"; gh_netstat := (0, netstat);
     gh_tasks := Some [(77, "server.exe"); (88, "proxy.exe"); (5, "powershell.exe")];
     gh_process := fun _ => Some ["ParentProcessId" :-> PInt 5; "CommandLine" :-> PStr "x"];
     gh_admin := true; gh_kill := fun _ _ => KillDone 0 "" "";
     gh_processes := fun _ => [(77, 5); (99, 77)];
     gh_ended := fun _ root => if root =? 77 then [77; 99] else [root] |}.

Lemma host_ends_trees : ends_trees host.
Proof.
  intros log root x. cbn. destruct (Z.eqb_spec root 77) as [->|_]; cbn.
  - intros [<-|[<-|[]]]; [apply rtc_refl|]. apply rtc_once. by right; left.
  - intros [<-|[]]. apply rtc_refl.
Qed.

Definition confirmed : result (StopResult * list Z) :=
  run_stop_listener_workflow host false "STOP_PROXY_LISTENER" true "STOP_PROXY_REVERTER" None None.

(** Process 99, a child of the listener, is among the terminated ones. *)
Lemma stop_listener_safe_witness :
  match confirmed with
  | Ok (r, log) =>
      r.(sr_mutated) = true /\ (length log <= 2)%nat /\ In 99 (terminated host [] log)
      /\ exists before root, in_tree (host.(gh_processes) before) root 99 /\ root <> 99
  | Raise _ => False
  end.
Proof.
  destruct confirmed as [[r log]|] eqn:E.
  - pose proof E as E'. vm_compute in E'. injection E' as Hr Hlog.
    destruct (stop_listener_safe host false "STOP_PROXY_LISTENER" true "STOP_PROXY_REVERTER" None None
                r log host_ends_trees E) as (target & notes & Ht & _ & Hl & Hx & _).
    split; [by rewrite <- Hr|]. split; [exact Hl|].
    assert (Hin : In 99 (terminated host [] log)) by (rewrite <- Hlog; vm_compute; tauto).
    split; [exact Hin|]. destruct (Hx 99 Hin) as (before & root & Htree & _ & _ & Hwho).
    exists before, root. split; [exact Htree|]. vm_compute in Ht. injection Ht as <- _.
    destruct Hwho as [[(t & [= <-] & ->) _]|(_ & Hp & _)]; [discriminate|].
    vm_compute in Hp. injection Hp as <-. discriminate.
  - vm_compute in E. discriminate.
Defined.

Definition target : StopListenerTarget :=
  {| st_port := 8080; st_pid := 77; st_process_name := Some "server.exe"; st_parent_pid := Some 5;
     st_parent_name := Some "powershell.exe" |}.

Lemma parent_stopped_but_reported_unchanged_witness :
  exists r, run_stop_listener_workflow host false "no" true "STOP_PROXY_REVERTER" None None = Ok (r, [5])
    /\ r.(sr_mutated) = false.
Proof.
  destruct (parent_stopped_but_reported_unchanged host "no" "STOP_PROXY_REVERTER" None None target
    [] 5) as (r & Hr & _ & Hm & _); [vm_compute; reflexivity..|vm_compute; discriminate|vm_compute; reflexivity|].
  exists r. split; [exact Hr|exact Hm].
Defined.

(** The target is the process on the other interface, not the proxy. *)
Lemma target_is_listener_witness :
  head (owners_for_port (netstat_listen_rows netstat) 8080) = Some 77
  /\ In ("192.168.1.5", 8080, 77) (netstat_listen_rows netstat).
Proof.
  split; [|vm_compute; tauto].
  refine (proj1 (target_is_listener host None target [] _)). vm_compute. reflexivity.
Defined.
End StopWitness.
