(* ===== verification/GuardPolicy.v ===== *)
(** * Guard policies and snapshot drift

    The two JSON policies an operator writes and what they are evaluated on: the
    process allowlist of the proxy guard ([src/proxy_guard/policy.py]), the network
    state policy ([src/network_state/policy.py]) and the snapshot drift it is applied to
    ([src/proxy_guard/known_good_diff.py], [src/network_state/diff_engine.py]).

    Reading a policy file is a parameter: what the decoder returned, or how it failed. *)

From S2P Require Import Prelude PyValue ProxyParser.
From Stdlib Require Import Ascii String Permutation.
From stdpp Require Import strings.

Open Scope string_scope.
Open Scope Z_scope.
Open Scope py_scope.

(** ** The process allowlist *)

Record GuardDecisionRecord := {
  gd_allowed : bool;
  gd_reason : string;
  gd_matched_rule : option string;
  gd_primary_process_name : option string;
}.

Record ProxyGuardPolicy := {
  gp_source_path : string;
  gp_name_substrings : list string;
  gp_names_exact : list string;
  gp_allow_when_attribution_empty : bool;
  gp_trusted_exe_paths : list string;
  gp_autoconfig_url_substrings : list string;
  gp_observe_only : bool;
}.

(** The process name of a row the loop does not skip. *)
Definition row_process_name (row : pydict) : option string :=
  match Dict.get "process_name" row with
  | PStr name => if PyStr.is_empty (PyStr.strip name) then None else Some name
  | _ => None
  end.

(** The first rule of a policy that a name satisfies: exact names, then substrings. *)
Definition match_process_name (policy : ProxyGuardPolicy) (name : string)
    : option (string * string) :=
  let lowered := PyStr.lower name in
  match List.find (fun exact => String.eqb lowered (PyStr.lower exact)) policy.(gp_names_exact) with
  | Some exact => Some ("exact_process_name_match", "exact:" ++ exact)
  | None =>
      match List.find (fun sub => PyStr.contains (PyStr.lower sub) lowered)
              policy.(gp_name_substrings) with
      | Some sub => Some ("substring_process_name_match", "substring:" ++ sub)
      | None => None
      end
  end.

Fixpoint scan_owner_rows (policy : ProxyGuardPolicy) (primary : option string)
    (rows : list pydict) : GuardDecisionRecord :=
  match rows with
  | [] =>
      {| gd_allowed := false; gd_reason := "no_whitelist_match_default_deny";
         gd_matched_rule := None; gd_primary_process_name := primary |}
  | row :: rest =>
      match row_process_name row with
      | None => scan_owner_rows policy primary rest
      | Some name =>
          match match_process_name policy name with
          | Some (reason, rule) =>
              {| gd_allowed := true; gd_reason := reason; gd_matched_rule := Some rule;
                 gd_primary_process_name :=
                   Some match primary with
                        | Some p => if PyStr.is_empty p then PyStr.lower name else p
                        | None => PyStr.lower name
                        end |}
          | None => scan_owner_rows policy primary rest
          end
      end
  end.

Definition evaluate_owner_rows (policy : ProxyGuardPolicy) (rows : list pydict)
    : GuardDecisionRecord :=
  match rows with
  | [] =>
      if policy.(gp_allow_when_attribution_empty) then
        {| gd_allowed := true; gd_reason := "no_attribution_allowed_by_policy_flag";
           gd_matched_rule := Some "allow_when_attribution_empty";
           gd_primary_process_name := None |}
      else
        {| gd_allowed := false; gd_reason := "no_attribution_default_deny";
           gd_matched_rule := None; gd_primary_process_name := None |}
  | row :: _ =>
      let primary :=
        match Dict.get "process_name" row with PStr s => Some (PyStr.lower s) | _ => None end in
      scan_owner_rows policy primary rows
  end.

(** One list of strings of the policy file: a missing or falsy value is the empty list. *)
Definition policy_strings (key : string) (blob : pydict) : result (list string) :=
  match py_or (Dict.get key blob) (PList []) with
  | PList l => mapM_result (fun v => match v with PStr s => Ok s | _ => Raise ValueError end) l
  | _ => Raise ValueError
  end.

(** [decoded] is what the JSON decoder made of the file; a decode error is a [ValueError]. *)
Definition load_proxy_guard_policy (path : string) (decoded : option pyval)
    : result ProxyGuardPolicy :=
  match decoded with
  | Some (PDict blob) =>
      subs ← policy_strings "allowed_process_name_substrings" blob;
      exact ← policy_strings "allowed_process_names_exact" blob;
      trusted ← policy_strings "trusted_exe_paths" blob;
      ac_subs ← policy_strings "allowed_autoconfig_url_substrings" blob;
      Ok {| gp_source_path := path; gp_name_substrings := subs; gp_names_exact := exact;
            gp_allow_when_attribution_empty :=
              py_bool (Dict.get_default "allow_when_attribution_empty" (PBool false) blob);
            gp_trusted_exe_paths := trusted; gp_autoconfig_url_substrings := ac_subs;
            gp_observe_only :=
              py_bool (Dict.get_default "observe_only_when_unknown_attribution" (PBool false) blob) |}
  | _ => Raise ValueError
  end.

(** ** The network state policy *)

Record NetworkStatePolicy := {
  ns_allowed_process_names : list string;
  ns_blocked_process_names : list string;
  ns_allowed_proxy_hosts : list string;
  ns_blocked_proxy_hosts : list string;
  ns_rollback_on_unknown_loopback : bool;
  ns_alert_on_unknown_loopback : bool;
}.

Definition default_network_policy : NetworkStatePolicy :=
  {| ns_allowed_process_names := []; ns_blocked_process_names := [];
     ns_allowed_proxy_hosts := []; ns_blocked_proxy_hosts := [];
     ns_rollback_on_unknown_loopback := false; ns_alert_on_unknown_loopback := true |}.

(** How reading the file ends. *)
Inductive policy_file :=
| FileMissing
| FileUnreadable
| FileBadJson
| FileBadEncoding
| FileDecoded (v : pyval).

Section NetworkPolicy.
Context {H : PyHost}.

Definition tup (key : string) (blob : pydict) : list string :=
  match Dict.get key blob with
  | PList l => map (fun x => PyStr.lower (py_str x)) l
  | _ => []
  end.

(** The two host lists are iterated whatever they are; only their texts are kept. *)
Definition host_texts (key : string) (blob : pydict) : result (list string) :=
  items ← py_list (Dict.get_default key (PList []) blob);
  Ok (omap (fun v => match v with PStr s => Some (PyStr.lower s) | _ => None end)
        (items : list pyval)).

(** A text that is not UTF-8 is a [ValueError] no handler of the source catches. *)
Definition network_policy_from_file (file : policy_file) : result NetworkStatePolicy :=
  match file with
  | FileMissing | FileUnreadable | FileBadJson => Ok default_network_policy
  | FileBadEncoding => Raise ValueError
  | FileDecoded (PDict blob) =>
      allowed_hosts ← host_texts "allowed_proxy_hosts" blob;
      blocked_hosts ← host_texts "blocked_proxy_hosts" blob;
      Ok {| ns_allowed_process_names := tup "allowed_process_names" blob;
            ns_blocked_process_names := tup "blocked_process_names" blob;
            ns_allowed_proxy_hosts := allowed_hosts; ns_blocked_proxy_hosts := blocked_hosts;
            ns_rollback_on_unknown_loopback :=
              py_bool (Dict.get_default "rollback_on_unknown_loopback" (PBool false) blob);
            ns_alert_on_unknown_loopback :=
              py_bool (Dict.get_default "alert_on_unknown_loopback" (PBool true) blob) |}
  | FileDecoded _ => Ok default_network_policy
  end.

Definition _host_guess (parsed : ParsedProxy) : option string :=
  let h := match parsed.(localhost_host) with
           | Some h => if PyStr.is_empty h then PyStr.strip (default "" parsed.(pp_raw)) else h
           | None => PyStr.strip (default "" parsed.(pp_raw))
           end in
  if PyStr.is_empty h then None else Some (PyStr.lower h).

Inductive networkDecision := net_observe | net_blocked | net_allowed_context | net_rollback_suggested.

#[export] Instance networkDecision_eq_dec : EqDecision networkDecision.
Proof. solve_decision. Defined.

(** One loop over rules: a rule that fires changes the decision and leaves a reason. *)
Definition apply_rules (test : string -> bool) (tag : string)
    (change : networkDecision -> networkDecision) (rules : list string)
    (st : networkDecision * list string) : networkDecision * list string :=
  foldl (fun st rule => if test rule then (change st.1, (st.2 ++ [tag +:+ rule])%list) else st) st rules.

Definition actor_names (attribution : option pydict) : list string :=
  match attribution with
  | Some d =>
      match py_or (Dict.get "owners" d) (PList []) with
      | PList owners =>
          omap (fun o => match o with
                         | PDict row =>
                             let name := Dict.get "process_name" row in
                             if py_bool name then Some (PyStr.lower (py_str name)) else None
                         | _ => None
                         end) owners
      | _ => []
      end
  | None => []
  end.

(** [parsed.raw], when it is not empty, in lower case. *)
Definition raw_lower (parsed : ParsedProxy) : option string :=
  match parsed.(pp_raw) with
  | Some r => if PyStr.is_empty r then None else Some (PyStr.lower r)
  | None => None
  end.

Definition named (rule : string) (names : list string) : bool :=
  negb (PyStr.is_empty rule) && existsb (PyStr.contains rule) names.

Definition host_allowed (policy : NetworkStatePolicy) (parsed : ParsedProxy) : bool :=
  existsb (fun allowed =>
    negb (PyStr.is_empty allowed)
    && (PyStr.contains allowed (default "" (_host_guess parsed))
        || match raw_lower parsed with Some r => PyStr.contains allowed r | None => false end))
    policy.(ns_allowed_proxy_hosts).

Definition evaluate_network_state_policy (policy : NetworkStatePolicy) (parsed : ParsedProxy)
    (suspicions : list string) (attribution : option pydict)
    : networkDecision * list string :=
  let host_s := default "" (_host_guess parsed) in
  let st := apply_rules (fun b => negb (PyStr.is_empty b) && PyStr.contains b host_s)
              "blocked_proxy_host:" (fun _ => net_blocked) policy.(ns_blocked_proxy_hosts)
              (net_observe, []) in
  let st :=
    match bool_decide (st.1 = net_blocked), raw_lower parsed with
    | false, Some raw_l =>
        apply_rules (fun b => PyStr.contains b raw_l) "blocked_literal:" (fun _ => net_blocked)
          policy.(ns_blocked_proxy_hosts) st
    | _, _ => st
    end in
  let names := actor_names attribution in
  let st := apply_rules (fun b => named b names) "blocked_process_heuristic:"
              (fun _ => net_blocked) policy.(ns_blocked_process_names) st in
  let st := apply_rules (fun a => named a names) "allowed_process_heuristic:"
              (fun d => if bool_decide (d = net_observe) then net_allowed_context else d)
              policy.(ns_allowed_process_names) st in
  let unknown := existsb (PyStr.contains "loopback") suspicions
                 || parsed.(is_localhost_proxy) && negb (host_allowed policy parsed) in
  let reasons := (st.2 ++ (if unknown && policy.(ns_alert_on_unknown_loopback)
                           then ["alert_unknown_loopback_context"] else []))%list in
  let '(decision, reasons) :=
    if unknown && policy.(ns_rollback_on_unknown_loopback)
       && negb (bool_decide (st.1 = net_blocked))
    then (net_rollback_suggested, (reasons ++ ["rollback_suggested_unknown_loopback"])%list)
    else (st.1, reasons) in
  (decision, sorted_set reasons).

(** ** Snapshots and their drift *)

Record ProxySnapshot := {
  sn_proxy_enable : option Z;
  sn_proxy_server : option string;
  sn_proxy_override : option string;
  sn_auto_config_url : option string;
  sn_auto_detect : option Z;
  sn_winhttp_proxy : string;
  sn_winhttp_direct_access : bool;
  sn_winhttp_proxy_server_literal : option string;
  sn_git_http_proxy : option string;
  sn_git_https_proxy : option string;
  sn_npm_proxy : option string;
  sn_npm_https_proxy : option string;
  sn_user_http_proxy : option string;
  sn_user_https_proxy : option string;
  sn_user_all_proxy : option string;
  sn_user_no_proxy : option string;
  sn_captured_at : string;
}.

Definition snapshot_jsonable (s : ProxySnapshot) : pydict :=
  ["proxy_enable" :-> of_opt PInt s.(sn_proxy_enable);
   "proxy_server" :-> of_opt PStr s.(sn_proxy_server);
   "proxy_override" :-> of_opt PStr s.(sn_proxy_override);
   "auto_config_url" :-> of_opt PStr s.(sn_auto_config_url);
   "auto_detect" :-> of_opt PInt s.(sn_auto_detect);
   "winhttp_proxy" :-> PStr s.(sn_winhttp_proxy);
   "winhttp_direct_access" :-> PBool s.(sn_winhttp_direct_access);
   "winhttp_proxy_server_literal" :-> of_opt PStr s.(sn_winhttp_proxy_server_literal);
   "git_http_proxy" :-> of_opt PStr s.(sn_git_http_proxy);
   "git_https_proxy" :-> of_opt PStr s.(sn_git_https_proxy);
   "npm_proxy" :-> of_opt PStr s.(sn_npm_proxy);
   "npm_https_proxy" :-> of_opt PStr s.(sn_npm_https_proxy);
   "user_http_proxy" :-> of_opt PStr s.(sn_user_http_proxy);
   "user_https_proxy" :-> of_opt PStr s.(sn_user_https_proxy);
   "user_all_proxy" :-> of_opt PStr s.(sn_user_all_proxy);
   "user_no_proxy" :-> of_opt PStr s.(sn_user_no_proxy);
   "captured_at" :-> PStr s.(sn_captured_at)].

Definition _FIELDS : list string :=
  ["proxy_enable"; "proxy_server"; "proxy_override"; "auto_config_url"; "auto_detect";
   "winhttp_proxy"; "winhttp_direct_access"; "winhttp_proxy_server_literal"; "git_http_proxy";
   "git_https_proxy"; "npm_proxy"; "npm_https_proxy"; "user_http_proxy"; "user_https_proxy";
   "user_all_proxy"; "user_no_proxy"].

(** [re.search] of a literal whose match must be followed as [next] says. *)
Fixpoint search_then (literal : string) (next : string -> bool) (s : string) : bool :=
  (String.prefix literal s
   && next (String.substring (String.length literal) (String.length s) s))
  || match s with EmptyString => false | String _ s' => search_then literal next s' end.

(** The next character is a digit; the next character ends a word. *)
Definition digit_next (s : string) : bool :=
  match s with String c _ => PyStr.is_digit c | EmptyString => false end.

Definition word_ends (s : string) : bool :=
  match s with
  | EmptyString => true
  | String c _ => negb (PyStr.is_alpha c || PyStr.is_digit c || Ascii.eqb c "_")
  end.

Definition _loopback_hint (field : string) (saved current : pyval) : option string :=
  let blob := PyStr.join " " (map (fun v => PyStr.lower (py_str v))
                (List.filter (fun v => negb (is_none v)) [saved; current])) in
  if PyStr.contains "127.0.0.1" blob || PyStr.contains "localhost" blob
     || search_then "::1" word_ends blob
  then Some (field +:+ "_suspicious_loopback_proxy_candidate") else None.

(** A field's two values when they differ; [winhttp_proxy] is compared trimmed. *)
Definition field_change (key : string) (saved current : pyval) : option (pyval * pyval) :=
  if String.eqb key "winhttp_proxy" then
    let sa := PyStr.strip (py_str (py_or saved (PStr ""))) in
    let sb := PyStr.strip (py_str (py_or current (PStr ""))) in
    if String.eqb sa sb then None else Some (PStr sa, PStr sb)
  else if py_eqb saved current then None else Some (saved, current).

Record SnapshotDiff := {
  sd_changed_fields : list (string * (pyval * pyval));
  sd_loopback_hints : list string;
}.

Definition diff_snapshots (saved current : ProxySnapshot) : SnapshotDiff :=
  let changed :=
    omap (fun key =>
      c ← field_change key (Dict.get key (snapshot_jsonable saved)) (Dict.get key (snapshot_jsonable current));
      Some (key, c)) _FIELDS in
  {| sd_changed_fields := changed;
     sd_loopback_hints := sorted_set (omap (fun kc => _loopback_hint kc.1 kc.2.1 kc.2.2) changed) |}.

Definition _empty (v : option string) : bool :=
  match v with None => true | Some s => PyStr.is_empty (PyStr.strip s) end.

Definition detect_suspicious_cases (saved current : ProxySnapshot) : list string :=
  let ss := default "" saved.(sn_proxy_server) in
  let cs := default "" current.(sn_proxy_server) in
  let low := PyStr.lower cs in
  let sa := PyStr.strip (default "" saved.(sn_auto_config_url)) in
  let ca := PyStr.strip (default "" current.(sn_auto_config_url)) in
  let tool_pairs :=
    [("git_http_proxy", saved.(sn_git_http_proxy), current.(sn_git_http_proxy));
     ("git_https_proxy", saved.(sn_git_https_proxy), current.(sn_git_https_proxy));
     ("npm_proxy", saved.(sn_npm_proxy), current.(sn_npm_proxy));
     ("npm_https_proxy", saved.(sn_npm_https_proxy), current.(sn_npm_https_proxy));
     ("user_http_proxy", saved.(sn_user_http_proxy), current.(sn_user_http_proxy));
     ("user_https_proxy", saved.(sn_user_https_proxy), current.(sn_user_https_proxy));
     ("user_all_proxy", saved.(sn_user_all_proxy), current.(sn_user_all_proxy))] in
  sorted_set
    ((if bool_decide (saved.(sn_proxy_enable) = Some 0) && bool_decide (current.(sn_proxy_enable) = Some 1)
      then ["proxy_enable_escalated_off_to_on"] else [])
     ++ (if negb (String.eqb ss cs)
            && (search_then "127.0.0.1:" digit_next low || search_then "localhost:" digit_next low)
         then ["proxy_server_loopback_port_pattern"] else [])
     ++ (if _empty (Some sa) && negb (_empty (Some ca)) then ["auto_config_url_newly_set"] else [])
     ++ omap (fun p => if _empty p.1.2 && negb (_empty p.2)
                       then Some (p.1.1 +:+ "_proxy_suddenly_added") else None) tool_pairs)%list.

Record DriftBundle := {
  db_changed_fields : list (string * (pyval * pyval));
  db_loopback_hints : list string;
  db_suspicious_cases : list string;
  db_policy : option (networkDecision * list string);
}.

Definition drift_bundle (saved current : ProxySnapshot) (policy : option NetworkStatePolicy)
    (attribution_heuristic : option pydict) : DriftBundle :=
  let base := diff_snapshots saved current in
  let suspicions := detect_suspicious_cases saved current in
  let parsed := parse_proxy_server current.(sn_proxy_server) in
  {| db_changed_fields := base.(sd_changed_fields);
     db_loopback_hints := base.(sd_loopback_hints);
     db_suspicious_cases := suspicions;
     db_policy := option_map (fun p => evaluate_network_state_policy p parsed suspicions
                                         attribution_heuristic) policy |}.

(** ** Properties of the process allowlist *)

(** A rule of the policy a name satisfies. *)
Definition name_permitted (policy : ProxyGuardPolicy) (name : string) : Prop :=
  (exists exact, In exact policy.(gp_names_exact) /\ PyStr.lower name = PyStr.lower exact)
  \/ (exists sub, In sub policy.(gp_name_substrings)
      /\ PyStr.contains (PyStr.lower sub) (PyStr.lower name) = true).

Lemma match_process_name_spec (policy : ProxyGuardPolicy) (name : string) :
  match match_process_name policy name with
  | Some (reason, rule) =>
      (reason = "exact_process_name_match" /\ exists exact, rule = "exact:" ++ exact
         /\ In exact policy.(gp_names_exact) /\ PyStr.lower name = PyStr.lower exact)
      \/ (reason = "substring_process_name_match" /\ exists sub, rule = "substring:" ++ sub
         /\ In sub policy.(gp_name_substrings)
         /\ PyStr.contains (PyStr.lower sub) (PyStr.lower name) = true)
  | None => ~ name_permitted policy name
  end.
Proof.
  unfold match_process_name.
  destruct (List.find _ policy.(gp_names_exact)) as [e|] eqn:Ee.
  { apply find_some in Ee as [Hin He%String.eqb_eq]. left. eauto. }
  destruct (List.find _ policy.(gp_name_substrings)) as [sub|] eqn:Es.
  { apply find_some in Es as [Hin He]. right. eauto. }
  intros [(e & Hin & He)|(sub & Hin & He)].
  - pose proof (find_none _ _ Ee e Hin) as Hn. cbn beta in Hn. rewrite He, String.eqb_refl in Hn. done.
  - pose proof (find_none _ _ Es sub Hin) as Hn. cbn beta in Hn. congruence.
Qed.

Lemma scan_allowed_iff (policy : ProxyGuardPolicy) (primary : option string) (rows : list pydict) :
  (scan_owner_rows policy primary rows).(gd_allowed) = true
  <-> exists row name, In row rows /\ row_process_name row = Some name /\ name_permitted policy name.
Proof.
  induction rows as [|row rows IH]; cbn [scan_owner_rows].
  { split; [discriminate|]. by intros (? & ? & [] & _). }
  destruct (row_process_name row) as [name|] eqn:En.
  - pose proof (match_process_name_spec policy name) as Hm.
    destruct (match_process_name policy name) as [[reason rule]|].
    + cbn [gd_allowed]. split; [intros _|done]. exists row, name. split; [by left|]. split; [done|].
      destruct Hm as [(_ & e & _ & ?)|(_ & e & _ & ?)]; [left|right]; eauto.
    + rewrite IH. split; intros (r & n & Hin & Hr & Hp); [exists r, n; split; [by right|done]|].
      destruct Hin as [->|Hin]; [|by exists r, n]. rewrite En in Hr. injection Hr as <-. done.
  - rewrite IH. split; intros (r & n & Hin & Hr & Hp); [exists r, n; split; [by right|done]|].
    destruct Hin as [->|Hin]; [congruence|by exists r, n].
Qed.

(** What an allowing decision reports: the rule its deciding name satisfies, an exact rule
    whenever one fits. *)
Definition rule_reported (policy : ProxyGuardPolicy) (name : string) (d : GuardDecisionRecord)
    : Prop :=
  (d.(gd_reason) = "exact_process_name_match"
   /\ exists exact, d.(gd_matched_rule) = Some ("exact:" ++ exact)
        /\ In exact policy.(gp_names_exact) /\ PyStr.lower name = PyStr.lower exact)
  \/ (d.(gd_reason) = "substring_process_name_match"
      /\ (forall exact, In exact policy.(gp_names_exact) -> PyStr.lower name <> PyStr.lower exact)
      /\ exists sub, d.(gd_matched_rule) = Some ("substring:" ++ sub)
           /\ In sub policy.(gp_name_substrings)
           /\ PyStr.contains (PyStr.lower sub) (PyStr.lower name) = true).

(** A row that decides: its name is permitted. *)
Definition row_permitted (policy : ProxyGuardPolicy) (row : pydict) : Prop :=
  exists name, row_process_name row = Some name /\ name_permitted policy name.

Lemma match_reported (policy : ProxyGuardPolicy) (name reason rule : string)
    (primary : option string) :
  match_process_name policy name = Some (reason, rule) ->
  name_permitted policy name /\
  rule_reported policy name
    {| gd_allowed := true; gd_reason := reason; gd_matched_rule := Some rule;
       gd_primary_process_name := primary |}.
Proof.
  intros Hm. pose proof (match_process_name_spec policy name) as Hs. rewrite Hm in Hs.
  unfold rule_reported, name_permitted. cbn [gd_reason gd_matched_rule].
  destruct Hs as [(-> & e & -> & Hin & He)|(-> & sub & -> & Hin & He)]; [by eauto 10|].
  split; [by eauto|]. right. split; [done|]. split; [|by eauto].
  intros e Hine Hl. unfold match_process_name in Hm.
  destruct (List.find _ policy.(gp_names_exact)) eqn:Ef; [discriminate|].
  apply (find_none _ _ Ef) in Hine. cbn beta in Hine. by rewrite Hl, String.eqb_refl in Hine.
Qed.

(** An allowing scan is decided by the first row with a permitted name. *)
Lemma scan_first_match (policy : ProxyGuardPolicy) (primary : option string) (rows : list pydict) :
  let d := scan_owner_rows policy primary rows in
  if d.(gd_allowed) then
    exists before row after name,
      rows = (before ++ row :: after)%list
      /\ Forall (fun r => ~ row_permitted policy r) before
      /\ row_process_name row = Some name /\ name_permitted policy name
      /\ rule_reported policy name d
  else d.(gd_reason) = "no_whitelist_match_default_deny" /\ d.(gd_matched_rule) = None.
Proof.
  cbn zeta. induction rows as [|row rows IH]; cbn [scan_owner_rows]; [done|].
  assert (Hskip : ~ row_permitted policy row ->
    let d := scan_owner_rows policy primary rows in
    if d.(gd_allowed) then
      exists before row0 after name, row :: rows = (before ++ row0 :: after)%list
        /\ Forall (fun r => ~ row_permitted policy r) before
        /\ row_process_name row0 = Some name /\ name_permitted policy name
        /\ rule_reported policy name d
    else d.(gd_reason) = "no_whitelist_match_default_deny" /\ d.(gd_matched_rule) = None).
  { intros Hn. cbn zeta. destruct (gd_allowed _); [|done].
    destruct IH as (before & r & after & name & -> & Hb & Hr). exists (row :: before), r, after, name.
    split; [done|]. split; [by constructor|done]. }
  destruct (row_process_name row) as [name|] eqn:En.
  - destruct (match_process_name policy name) as [[reason rule]|] eqn:Em; cbn [gd_allowed].
    + destruct (match_reported policy name reason rule
        (Some match primary with Some p => if PyStr.is_empty p then PyStr.lower name else p
              | None => PyStr.lower name end) Em) as [Hp Hr].
      exists [], row, rows, name. split; [done|]. split; [constructor|done].
    + apply Hskip. intros (n & Hn & Hp). rewrite En in Hn. injection Hn as <-.
      pose proof (match_process_name_spec policy name) as Hs. by rewrite Em in Hs.
  - apply Hskip. intros (n & Hn & _). congruence.
Qed.

(** C17: the process allowlist denies by default.  Remediation is permitted exactly when
    some owner row has a non-blank process name that a rule of the policy names, or when
    there is no row at all and the policy says that is fine.  A permission granted by a row
    is decided by the first row that has a permitted name and reports a rule of the policy
    that this name satisfies, an exact one whenever one fits; a denial reports no rule. *)
Theorem guard_allow_iff (policy : ProxyGuardPolicy) (rows : list pydict) :
  let d := evaluate_owner_rows policy rows in
  (d.(gd_allowed) = true
   <-> (rows = [] /\ policy.(gp_allow_when_attribution_empty) = true)
       \/ exists row name, In row rows /\ row_process_name row = Some name
            /\ name_permitted policy name)
  /\ (d.(gd_allowed) = true -> rows <> [] ->
      exists before row after name,
        rows = (before ++ row :: after)%list
        /\ Forall (fun r => ~ row_permitted policy r) before
        /\ row_process_name row = Some name /\ rule_reported policy name d)
  /\ (d.(gd_allowed) = false -> d.(gd_matched_rule) = None).
Proof.
  cbn zeta. destruct rows as [|row rows]; cbn [evaluate_owner_rows].
  - destruct policy.(gp_allow_when_attribution_empty); cbn.
    + split; [split; [by left|done]|]. by split.
    + split; [|by split]. split; [discriminate|]. by intros [[_ ?]|(? & ? & [] & _)].
  - set (primary := match Dict.get _ _ with PStr _ => _ | _ => _ end).
    split; [|split].
    + rewrite scan_allowed_iff. split; [by right|]. by intros [[? _]|?].
    + intros Ha _. pose proof (scan_first_match policy primary (row :: rows)) as Hf.
      cbn zeta in Hf. rewrite Ha in Hf. destruct Hf as (b & r & a & n & ? & ? & ? & _ & ?). by eauto 10.
    + intros Ha. pose proof (scan_first_match policy primary (row :: rows)) as Hf.
      cbn zeta in Hf. rewrite Ha in Hf. apply Hf.
Qed.

(** A row that only a substring admits decides before any later row, one with an exact
    match included. *)
Lemma substring_row_decides (policy : ProxyGuardPolicy) (row : pydict) (rest : list pydict)
    (name sub : string) :
  row_process_name row = Some name ->
  match_process_name policy name = Some ("substring_process_name_match", sub) ->
  (evaluate_owner_rows policy (row :: rest)).(gd_reason) = "substring_process_name_match".
Proof. intros Hn Hm. cbn [evaluate_owner_rows scan_owner_rows]. by rewrite Hn, Hm. Qed.

(** The loader accepts a list when it is absent, falsy or a list of strings. *)
Lemma policy_strings_ok (key : string) (blob : pydict) (l : list string) :
  policy_strings key blob = Ok l <->
  py_or (Dict.get key blob) (PList []) = PList (map PStr l).
Proof.
  unfold policy_strings. split.
  - destruct (py_or _ _) as [| | | | |items|]; try discriminate.
    intros Hm. apply mapM_result_Forall2 in Hm. f_equal.
    induction Hm as [|v s items l Hv _ IH]; [done|]. cbn [map].
    destruct v; try discriminate. injection Hv as ->. by rewrite IH.
  - intros ->. induction l as [|s l IH]; [done|]. cbn [map mapM_result]. by rewrite IH.
Qed.

(** A policy file loads only when its root is an object whose four rule lists are
    absent, falsy or lists of strings, and the loaded rules are those strings in order;
    every other file is an error and never a policy. *)
Theorem load_policy_exact (path : string) (decoded : option pyval) (policy : ProxyGuardPolicy) :
  load_proxy_guard_policy path decoded = Ok policy <->
  exists blob, decoded = Some (PDict blob)
    /\ py_or (Dict.get "allowed_process_name_substrings" blob) (PList [])
       = PList (map PStr policy.(gp_name_substrings))
    /\ py_or (Dict.get "allowed_process_names_exact" blob) (PList [])
       = PList (map PStr policy.(gp_names_exact))
    /\ py_or (Dict.get "trusted_exe_paths" blob) (PList [])
       = PList (map PStr policy.(gp_trusted_exe_paths))
    /\ py_or (Dict.get "allowed_autoconfig_url_substrings" blob) (PList [])
       = PList (map PStr policy.(gp_autoconfig_url_substrings))
    /\ policy = {| gp_source_path := path;
                   gp_name_substrings := policy.(gp_name_substrings);
                   gp_names_exact := policy.(gp_names_exact);
                   gp_allow_when_attribution_empty :=
                     py_bool (Dict.get_default "allow_when_attribution_empty" (PBool false) blob);
                   gp_trusted_exe_paths := policy.(gp_trusted_exe_paths);
                   gp_autoconfig_url_substrings := policy.(gp_autoconfig_url_substrings);
                   gp_observe_only :=
                     py_bool (Dict.get_default "observe_only_when_unknown_attribution"
                                (PBool false) blob) |}.
Proof.
  setoid_rewrite <- policy_strings_ok. split.
  - destruct decoded as [[| | | | | |blob]|]; try discriminate. intros Hl. exists blob. split; [done|].
    revert Hl. cbn [load_proxy_guard_policy].
    destruct (policy_strings "allowed_process_name_substrings" blob); [|discriminate].
    destruct (policy_strings "allowed_process_names_exact" blob); [|discriminate].
    destruct (policy_strings "trusted_exe_paths" blob); [|discriminate].
    destruct (policy_strings "allowed_autoconfig_url_substrings" blob); [|discriminate].
    intros [= <-]. by repeat split.
  - intros (blob & -> & Hs & He & Ht & Ha & Hp). cbn [load_proxy_guard_policy].
    rewrite Hs, He, Ht, Ha. cbn [mbind result_bind]. by rewrite <- Hp.
Qed.

(** ** Properties of the network state policy *)

Lemma apply_rules_spec (test : string -> bool) (tag : string)
    (change : networkDecision -> networkDecision) (rules : list string)
    (st : networkDecision * list string) :
  (forall d, change (change d) = change d) ->
  apply_rules test tag change rules st
  = (if existsb test rules then change st.1 else st.1,
     (st.2 ++ map (fun r => (tag +:+ r)%string) (List.filter test rules))%list).
Proof.
  intros Hc. unfold apply_rules. revert st. induction rules as [|r rules IH]; intros [d rs]; cbn [foldl].
  - cbn. by rewrite app_nil_r.
  - rewrite IH. cbn [existsb List.filter]. destruct (test r); cbn [orb fst snd map].
    + rewrite Hc, <- app_assoc. by destruct (existsb test rules).
    + done.
Qed.

(** The host, or a nonempty raw text, contains a blocked host. *)
Definition host_blocked (policy : NetworkStatePolicy) (parsed : ParsedProxy) : bool :=
  existsb (fun b => negb (PyStr.is_empty b) && PyStr.contains b (default "" (_host_guess parsed)))
    policy.(ns_blocked_proxy_hosts)
  || match raw_lower parsed with
     | Some raw_l => existsb (fun b => PyStr.contains b raw_l) policy.(ns_blocked_proxy_hosts)
     | None => false
     end.

Definition loopback_unknown (policy : NetworkStatePolicy) (parsed : ParsedProxy)
    (suspicions : list string) : bool :=
  existsb (PyStr.contains "loopback") suspicions
  || parsed.(is_localhost_proxy) && negb (host_allowed policy parsed).

(** The priority of the four loops, written once: a blocked host or process, then the
    rollback suggestion, then an allowed process. *)
Definition reference_decision (policy : NetworkStatePolicy) (parsed : ParsedProxy)
    (suspicions : list string) (names : list string) : networkDecision :=
  if host_blocked policy parsed || existsb (fun b => named b names) policy.(ns_blocked_process_names)
  then net_blocked
  else if loopback_unknown policy parsed suspicions && policy.(ns_rollback_on_unknown_loopback)
  then net_rollback_suggested
  else if existsb (fun a => named a names) policy.(ns_allowed_process_names)
  then net_allowed_context
  else net_observe.

(** What the loops compute: the reference decision, and the reasons of the rules that
    fired followed by the two about an unknown loopback. *)
Lemma evaluate_shape (policy : NetworkStatePolicy) (parsed : ParsedProxy)
    (suspicions : list string) (attribution : option pydict) :
  let decision := reference_decision policy parsed suspicions (actor_names attribution) in
  exists fired,
    evaluate_network_state_policy policy parsed suspicions attribution
    = (decision,
       sorted_set ((fired
         ++ (if loopback_unknown policy parsed suspicions && policy.(ns_alert_on_unknown_loopback)
             then ["alert_unknown_loopback_context"] else []))
         ++ (if bool_decide (decision = net_rollback_suggested)
             then ["rollback_suggested_unknown_loopback"] else []))%list).
Proof.
  unfold evaluate_network_state_policy, reference_decision, host_blocked.
  fold (loopback_unknown policy parsed suspicions).
  set (unknown := loopback_unknown policy parsed suspicions).
  set (names := actor_names attribution).
  rewrite (apply_rules_spec _ "blocked_proxy_host:"); [|done]. cbn [fst snd].
  set (host := existsb _ policy.(ns_blocked_proxy_hosts)).
  set (st2 := match bool_decide _ with true => _ | false => _ end).
  assert (H2 : st2.1 = if host || match raw_lower parsed with
                 | Some raw_l => existsb (fun b => PyStr.contains b raw_l) policy.(ns_blocked_proxy_hosts)
                 | None => false end then net_blocked else net_observe).
  { unfold st2. destruct host; cbn; [done|]. destruct (raw_lower parsed); [|done].
    rewrite apply_rules_spec; [|done]. done. }
  clearbody st2. revert H2. set (hb := host || _). intros H2.
  rewrite (apply_rules_spec _ "blocked_process_heuristic:"); [|done].
  rewrite (apply_rules_spec _ "allowed_process_heuristic:"); [|by intros []]. cbn [fst snd].
  rewrite H2. clear H2. clearbody hb unknown names.
  set (pb := existsb (fun b => named b names) policy.(ns_blocked_process_names)).
  set (pa := existsb (fun a => named a names) policy.(ns_allowed_process_names)). clearbody pb pa.
  generalize (map (fun r => "allowed_process_heuristic:" +:+ r)
    (List.filter (fun a => named a names) policy.(ns_allowed_process_names))).
  generalize (map (fun r => "blocked_process_heuristic:" +:+ r)
    (List.filter (fun b => named b names) policy.(ns_blocked_process_names))).
  intros l2 l3. exists ((st2.2 ++ l2) ++ l3)%list.
  destruct hb, pb, pa, unknown, policy.(ns_rollback_on_unknown_loopback),
    policy.(ns_alert_on_unknown_loopback);
    cbn [orb andb negb bool_decide decide fst snd];
    rewrite ?app_nil_r; reflexivity.
Qed.

(** The running decision of the policy loops has the priority of [reference_decision]; the
    reasons are free of duplicates and name the loopback alert whenever it is due. *)
Theorem network_policy_spec (policy : NetworkStatePolicy) (parsed : ParsedProxy)
    (suspicions : list string) (attribution : option pydict) :
  let '(decision, reasons) := evaluate_network_state_policy policy parsed suspicions attribution in
  decision = reference_decision policy parsed suspicions (actor_names attribution)
  /\ List.NoDup reasons
  /\ (decision = net_rollback_suggested -> In "rollback_suggested_unknown_loopback" reasons)
  /\ (loopback_unknown policy parsed suspicions && policy.(ns_alert_on_unknown_loopback) = true ->
      In "alert_unknown_loopback_context" reasons).
Proof.
  destruct (evaluate_shape policy parsed suspicions attribution) as [fired ->].
  split; [done|]. split; [apply sorted_set_NoDup|]. split; intros Hd; apply sorted_set_In;
    rewrite !in_app_iff.
  - right. rewrite bool_decide_true; [by left|done].
  - left. right. rewrite Hd. by left.
Qed.

(** The parser keeps the text it was given. *)
Lemma parse_raw (raw : option string) : (parse_proxy_server raw).(pp_raw) = raw.
Proof.
  destruct raw as [r|]; [|done]. cbn [parse_proxy_server]. destruct (PyStr.is_empty _); [done|].
  destruct (finditer_pair _); unfold parse_single, parse_pairs; by repeat case_match.
Qed.

(** An empty text among the blocked hosts blocks every configured server. *)
Lemma empty_host_blocks_all (policy : NetworkStatePolicy) (saved current : ProxySnapshot)
    (attribution : option pydict) (server : string) :
  In "" policy.(ns_blocked_proxy_hosts) ->
  current.(sn_proxy_server) = Some server -> server <> "" ->
  fst <$> (drift_bundle saved current (Some policy) attribution).(db_policy) = Some net_blocked.
Proof.
  intros Hin Hc Hs. cbn [drift_bundle db_policy option_map]. rewrite Hc.
  destruct (evaluate_shape policy (parse_proxy_server (Some server))
              (detect_suspicious_cases saved current) attribution) as [fired ->].
  cbn [fmap option_fmap option_map fst]. f_equal. unfold reference_decision.
  assert (host_blocked policy (parse_proxy_server (Some server)) = true) as ->; [|done].
  unfold host_blocked, raw_lower. rewrite parse_raw.
  destruct server as [|c server]; [done|]. cbn [PyStr.is_empty].
  apply orb_true_iff. right. apply existsb_exists. exists "". split; [done|reflexivity].
Qed.

(** ** Properties of the drift *)

(** What a comparison looks at: everything but the time of capture, and the WinHTTP text
    without surrounding space. *)
Definition settings (s : ProxySnapshot) : ProxySnapshot :=
  {| sn_proxy_enable := s.(sn_proxy_enable); sn_proxy_server := s.(sn_proxy_server);
     sn_proxy_override := s.(sn_proxy_override); sn_auto_config_url := s.(sn_auto_config_url);
     sn_auto_detect := s.(sn_auto_detect); sn_winhttp_proxy := PyStr.strip s.(sn_winhttp_proxy);
     sn_winhttp_direct_access := s.(sn_winhttp_direct_access);
     sn_winhttp_proxy_server_literal := s.(sn_winhttp_proxy_server_literal);
     sn_git_http_proxy := s.(sn_git_http_proxy); sn_git_https_proxy := s.(sn_git_https_proxy);
     sn_npm_proxy := s.(sn_npm_proxy); sn_npm_https_proxy := s.(sn_npm_https_proxy);
     sn_user_http_proxy := s.(sn_user_http_proxy); sn_user_https_proxy := s.(sn_user_https_proxy);
     sn_user_all_proxy := s.(sn_user_all_proxy); sn_user_no_proxy := s.(sn_user_no_proxy);
     sn_captured_at := "" |}.

Lemma text_unchanged (key : string) (a b : option string) :
  String.eqb key "winhttp_proxy" = false ->
  field_change key (of_opt PStr a) (of_opt PStr b) = None <-> a = b.
Proof.
  intros Hk. unfold field_change. rewrite Hk. destruct a as [a|], b as [b|]; cbn; try (split; done).
  destruct (String.eqb_spec a b); split; congruence.
Qed.

Lemma number_unchanged (key : string) (a b : option Z) :
  String.eqb key "winhttp_proxy" = false ->
  field_change key (of_opt PInt a) (of_opt PInt b) = None <-> a = b.
Proof.
  intros Hk. unfold field_change. rewrite Hk.
  destruct a as [a|], b as [b|]; cbn [of_opt py_eqb number]; try (split; done).
  unfold number_eqb. cbn [fst snd Z.min Z.compare Z.sub Z.opp Z.add].
  rewrite !Z.mul_1_r. destruct (Z.eqb_spec a b); split; congruence.
Qed.

Lemma flag_unchanged (key : string) (a b : bool) :
  String.eqb key "winhttp_proxy" = false ->
  field_change key (PBool a) (PBool b) = None <-> a = b.
Proof. intros Hk. unfold field_change. rewrite Hk. by destruct a, b. Qed.

Lemma winhttp_unchanged (a b : string) :
  field_change "winhttp_proxy" (PStr a) (PStr b) = None <-> PyStr.strip a = PyStr.strip b.
Proof.
  assert (Hs : forall t, py_str (py_or (PStr t) (PStr "")) = t) by (by intros []).
  unfold field_change. rewrite String.eqb_refl, !Hs.
  destruct (String.eqb_spec (PyStr.strip a) (PyStr.strip b)); split; congruence.
Qed.

Lemma omap_none {A B} (f : A -> option B) (l : list A) :
  omap f l = [] <-> Forall (fun x => f x = None) l.
Proof.
  induction l as [|x l IH]; [by split|]. cbn. rewrite Forall_cons. destruct (f x); [|tauto].
  split; [discriminate|]. by intros [? _].
Qed.

Lemma changed_nil (saved current : ProxySnapshot) :
  (diff_snapshots saved current).(sd_changed_fields) = [] <-> settings saved = settings current.
Proof.
  assert (Hp : forall (o : option (pyval * pyval)) (k : string),
    (c ← o; Some (k, c)) = None <-> o = None) by (by intros []).
  unfold diff_snapshots. cbn [sd_changed_fields]. rewrite omap_none. setoid_rewrite Hp.
  unfold _FIELDS. rewrite !Forall_cons, Forall_nil. cbv beta. unfold Dict.get, snapshot_jsonable, settings.
  cbn [Dict.lookup String.eqb Ascii.eqb Bool.eqb from_option id].
  rewrite ?text_unchanged, ?number_unchanged, ?flag_unchanged, ?winhttp_unchanged by reflexivity.
  destruct saved, current. cbn [sn_proxy_enable sn_proxy_server sn_proxy_override
    sn_auto_config_url sn_auto_detect sn_winhttp_proxy sn_winhttp_direct_access
    sn_winhttp_proxy_server_literal sn_git_http_proxy sn_git_https_proxy sn_npm_proxy
    sn_npm_https_proxy sn_user_http_proxy sn_user_https_proxy sn_user_all_proxy sn_user_no_proxy].
  split.
  - intros Hall. destruct_and!. by f_equal.
  - intros [=]. by repeat split.
Qed.

(** The structural diff is empty exactly when the two snapshots agree on every
    setting, and then neither the loopback hints nor the suspicion codes fire. *)
Theorem no_drift_is_quiet (saved current : ProxySnapshot) (policy : option NetworkStatePolicy)
    (attribution : option pydict) :
  let bundle := drift_bundle saved current policy attribution in
  (bundle.(db_changed_fields) = [] <-> settings saved = settings current)
  /\ (settings saved = settings current ->
      bundle.(db_loopback_hints) = [] /\ bundle.(db_suspicious_cases) = []).
Proof.
  cbn zeta. unfold drift_bundle. cbn [db_changed_fields db_loopback_hints db_suspicious_cases].
  split; [apply changed_nil|]. intros He. split.
  - unfold diff_snapshots in *. cbn [sd_loopback_hints].
    apply changed_nil in He. unfold diff_snapshots in He. cbn [sd_changed_fields] in He.
    by rewrite He.
  - destruct saved, current. unfold settings in He. cbn in He. injection He as -> -> -> -> -> _ -> -> -> -> -> -> -> -> -> ->.
    unfold detect_suspicious_cases. cbn [sn_proxy_enable sn_proxy_server sn_auto_config_url
      sn_git_http_proxy sn_git_https_proxy sn_npm_proxy sn_npm_https_proxy sn_user_http_proxy
      sn_user_https_proxy sn_user_all_proxy].
    rewrite String.eqb_refl, !andb_negb_r. cbn [negb andb app].
    rewrite (proj2 (omap_none _ _)); [|repeat constructor; cbn; by rewrite andb_negb_r].
    destruct (bool_decide _) eqn:E1; [|done]. apply bool_decide_eq_true in E1 as ->. done.
Qed.

End NetworkPolicy.

Module GuardPolicyWitness.
Definition rules : ProxyGuardPolicy :=
  {| gp_source_path := "policy.json"; gp_name_substrings := ["chrome"];
     gp_names_exact := ["clash-win.exe"]; gp_allow_when_attribution_empty := false;
     gp_trusted_exe_paths := []; gp_autoconfig_url_substrings := []; gp_observe_only := false |}.

(** The exact match of the second row is not the one reported. *)
Lemma substring_before_exact :
  (evaluate_owner_rows rules [["process_name" :-> PStr "Chrome.exe"];
                              ["process_name" :-> PStr "clash-win.exe"]]).(gd_matched_rule)
  = Some "substring:chrome".
Proof. reflexivity. Qed.

(** An empty substring rule admits every named process. *)
Lemma empty_substring_admits_all (name : string) :
  PyStr.is_empty (PyStr.strip name) = false ->
  (evaluate_owner_rows {| gp_source_path := ""; gp_name_substrings := [""]; gp_names_exact := [];
     gp_allow_when_attribution_empty := false; gp_trusted_exe_paths := [];
     gp_autoconfig_url_substrings := []; gp_observe_only := false |}
     [["process_name" :-> PStr name]]).(gd_allowed) = true.
Proof.
  intros Hn. cbn [evaluate_owner_rows scan_owner_rows]. unfold row_process_name. cbn -[PyStr.strip].
  rewrite Hn. unfold match_process_name. cbn [gp_names_exact gp_name_substrings List.find].
  by destruct (PyStr.lower name).
Qed.

(** A null host list and a file that is not UTF-8 are errors, not defaults. *)
Lemma null_hosts_raise :
  network_policy_from_file (H := DemoHost.demo_host)
    (FileDecoded (PDict ["allowed_proxy_hosts" :-> PNone])) = Raise TypeError
  /\ network_policy_from_file (H := DemoHost.demo_host) FileBadEncoding = Raise ValueError.
Proof. split; reflexivity. Qed.

Definition blank : ProxySnapshot :=
  {| sn_proxy_enable := Some 0; sn_proxy_server := None; sn_proxy_override := None;
     sn_auto_config_url := None; sn_auto_detect := None; sn_winhttp_proxy := " direct ";
     sn_winhttp_direct_access := true; sn_winhttp_proxy_server_literal := None;
     sn_git_http_proxy := None; sn_git_https_proxy := None; sn_npm_proxy := None;
     sn_npm_https_proxy := None; sn_user_http_proxy := None; sn_user_https_proxy := None;
     sn_user_all_proxy := None; sn_user_no_proxy := None; sn_captured_at := "t0" |}.

Definition drifted : ProxySnapshot :=
  {| sn_proxy_enable := Some 1; sn_proxy_server := Some "127.0.0.1:8080";
     sn_proxy_override := None; sn_auto_config_url := None; sn_auto_detect := None;
     sn_winhttp_proxy := "direct"; sn_winhttp_direct_access := true;
     sn_winhttp_proxy_server_literal := None; sn_git_http_proxy := None;
     sn_git_https_proxy := None; sn_npm_proxy := None; sn_npm_https_proxy := None;
     sn_user_http_proxy := None; sn_user_https_proxy := None; sn_user_all_proxy := None;
     sn_user_no_proxy := None; sn_captured_at := "t1" |}.

Definition lenient : NetworkStatePolicy :=
  {| ns_allowed_process_names := ["clash"]; ns_blocked_process_names := [];
     ns_allowed_proxy_hosts := ["127.0.0.1"]; ns_blocked_proxy_hosts := [];
     ns_rollback_on_unknown_loopback := true; ns_alert_on_unknown_loopback := true |}.

(** A change to an allowed loopback host run by an allowed process is still escalated:
    the drift code alone makes the loopback unknown. *)
Lemma allowed_loopback_still_escalated :
  let b := drift_bundle (H := DemoHost.demo_host) blank drifted (Some lenient)
             (Some ["owners" :-> PList [PDict ["process_name" :-> PStr "clash.exe"]]]) in
  map fst b.(db_changed_fields) = ["proxy_enable"; "proxy_server"]
  /\ b.(db_suspicious_cases)
     = ["proxy_enable_escalated_off_to_on"; "proxy_server_loopback_port_pattern"]
  /\ fst <$> b.(db_policy) = Some net_rollback_suggested.
Proof. vm_compute. repeat split. Qed.
End GuardPolicyWitness.
