(* ===== verification/FinalCausation.v ===== *)
(** * Final causation

    The engine that names the cause of a proxy change: registry writes seen by Sysmon
    ([src/telemetry/registry_targets.py], [src/proxy_guard/registry_writer_proof.py]), the
    path contrast ([proxy_path_proof.py]), the ancestors of a process ([process_tree.py])
    and the verdict that merges them ([final_causation.py]).

    Sysmon events are given; the order in which Python walks the set of value names is a
    parameter. *)

From S2P Require Import Prelude PyValue RegistryWriter.
From Stdlib Require Import Ascii String Permutation.
From stdpp Require Import strings.

Open Scope string_scope.
Open Scope Z_scope.
Open Scope py_scope.

(** ** Registry targets *)

(** [s.replace(sub, by)]; [skip] counts the characters of a match still to drop. *)
Fixpoint replace_from (sub by_ : string) (skip : nat) (s : string) : string :=
  match s with
  | EmptyString => EmptyString
  | String c s' =>
      match skip with
      | S k => replace_from sub by_ k s'
      | O => if String.prefix sub s then by_ +:+ replace_from sub by_ (String.length sub - 1) s'
             else String c (replace_from sub by_ 0 s')
      end
  end.

Definition replace_substring (sub by_ s : string) : string := replace_from sub by_ 0 s.

Definition _HKCU_PREFIXES : list string :=
  ["hkcu" +:+ bs; "hkey_current_user" +:+ bs; "hkey_current_user/"].

Definition normalize_registry_path (target_object : string) (user_sid : option string) : string :=
  if PyStr.is_empty target_object then "" else
  let text := PyStr.replace_char "/" BS (PyStr.strip target_object) in
  let low := PyStr.lower text in
  let low :=
    match List.find (PyStr.startswith low) _HKCU_PREFIXES with
    | Some prefix =>
        let sid := match user_sid with
                   | Some s => if PyStr.is_empty s then "<current_user>" else s
                   | None => "<current_user>"
                   end in
        let rest := String.substring (String.length prefix) (String.length text) text in
        let rest := PyStr.lstrip_by (fun c => Ascii.eqb c BS || Ascii.eqb c "/") rest in
        PyStr.lower ("HKU" +:+ bs +:+ sid +:+ bs +:+ rest)
    | None => low
    end in
  replace_substring ("hkey_users" +:+ bs) ("hku" +:+ bs) low.

(** The four monitored value names. *)
Definition monitored_names : list string :=
  ["proxyenable"; "proxyserver"; "autoconfigurl"; "proxyoverride"].

Definition _canonical_suffix (low_path : string) : option string :=
  let norm := PyStr.replace_char "/" BS low_path in
  match after_first INTERNET_SETTINGS_FRAGMENT norm with
  | None => None
  | Some rest =>
      let tail := PyStr.strip_chars bs rest in
      if PyStr.is_empty tail then None else
      let atom := PyStr.rstrip_by (Ascii.eqb ":") (PyStr.strip (last_segment BS tail)) in
      if PyStr.mem atom monitored_names then Some atom else None
  end.

Section Targets.
Context (order : list string).

Definition is_telemetry_target (target_object : string) : bool :=
  if PyStr.is_empty target_object then false else
  let low := normalize_registry_path target_object None in
  match _canonical_suffix low with
  | Some _ => true
  | None =>
      let low_flat := replace_substring bs "" low in
      PyStr.contains "internetsettings" low_flat
      && existsb (fun name => PyStr.contains name low_flat) order
  end.

Definition proxy_registry_value_name (target_object : string) : option string :=
  if PyStr.is_empty target_object then None else
  let low := normalize_registry_path target_object None in
  match _canonical_suffix low with
  | Some name => Some name
  | None => List.find (fun pv => PyStr.contains pv (replace_substring bs "" low)) order
  end.

(** ** Registry writes *)

(** The fields of an event that registry evidence is made of. *)
Record SysmonEvent := {
  sm_utc_time : string;
  sm_event_id : Z;
  sm_process_guid : option string;
  sm_process_id : option Z;
  sm_image : option string;
  sm_command_line : option string;
  sm_target_object : option string;
  sm_details : option string;
  sm_user : option string;
  sm_rule_name : option string;
}.

Inductive writeProof := WP_OBSERVED | WP_CORRELATED | WP_PROVEN.

#[export] Instance writeProof_eq_dec : EqDecision writeProof.
Proof. solve_decision. Defined.

(** A row without the raw event it also keeps. *)
Record RegistryWriteEvidence := {
  we_timestamp_utc : string;
  we_event_source : string;
  we_event_id : Z;
  we_registry_path : string;
  we_registry_value_name : string;
  we_written_value : string;
  we_process_id : option Z;
  we_process_guid : option string;
  we_image : string;
  we_command_line : string;
  we_user : string;
  we_confidence : F64.t;
  we_proof_level : writeProof;
  we_rule_name : string;
  we_details : string;
}.

Definition _proof_level_for_event (e : SysmonEvent) : writeProof :=
  if (e.(sm_event_id) =? 13) && is_telemetry_target (default "" e.(sm_target_object))
  then WP_PROVEN
  else if (e.(sm_event_id) =? 12) || (e.(sm_event_id) =? 13) then WP_CORRELATED
  else WP_OBSERVED.

Definition _normalize_sysmon_event (e : SysmonEvent) : option RegistryWriteEvidence :=
  let is13 := e.(sm_event_id) =? 13 in
  if negb ((e.(sm_event_id) =? 12) || is13) then None else
  let target := default "" e.(sm_target_object) in
  if is13 && negb (is_telemetry_target target) then None else
  let value_name := default "" (proxy_registry_value_name target) in
  if is13 && PyStr.is_empty value_name then None else
  let proof := _proof_level_for_event e in
  Some {| we_timestamp_utc := e.(sm_utc_time); we_event_source := "sysmon";
          we_event_id := e.(sm_event_id); we_registry_path := target;
          we_registry_value_name :=
            if PyStr.is_empty value_name then last_segment BS target else value_name;
          we_written_value := default "" e.(sm_details);
          we_process_id := e.(sm_process_id); we_process_guid := e.(sm_process_guid);
          we_image := default "" e.(sm_image); we_command_line := default "" e.(sm_command_line);
          we_user := default "" e.(sm_user);
          we_confidence :=
            match proof with
            | WP_PROVEN => F64.lit 95 100
            | WP_CORRELATED => F64.lit 55 100
            | WP_OBSERVED => F64.lit 25 100
            end;
          we_proof_level := proof; we_rule_name := default "" e.(sm_rule_name);
          we_details := default "" e.(sm_details) |}.

(** Lexicographic order of the sort key. *)
Definition write_key_ltb (a b : string * string) : bool :=
  String.ltb a.1 b.1 || String.eqb a.1 b.1 && String.ltb a.2 b.2.

Definition collect_registry_write_evidence (events : list SysmonEvent)
    : list RegistryWriteEvidence :=
  sorted_by write_key_ltb (fun r => (r.(we_timestamp_utc), r.(we_registry_value_name)))
    (omap (fun e =>
       if e.(sm_event_id) =? 13 then _normalize_sysmon_event e
       else if (e.(sm_event_id) =? 12) && is_telemetry_target (default "" e.(sm_target_object))
       then _normalize_sysmon_event e
       else None) events).
End Targets.

(** [max(rows, key=confidence)]: the first of the largest. *)
Definition most_confident (r : RegistryWriteEvidence) (rows : list RegistryWriteEvidence)
    : RegistryWriteEvidence :=
  foldl (fun best x => if F64.ltb best.(we_confidence) x.(we_confidence) then x else best) r rows.

Definition with_level (level : writeProof) (evidence : list RegistryWriteEvidence)
    : list RegistryWriteEvidence :=
  List.filter (fun e => bool_decide (e.(we_proof_level) = level)) evidence.

Definition best_registry_writer (evidence : list RegistryWriteEvidence)
    : option RegistryWriteEvidence :=
  match with_level WP_PROVEN evidence with
  | r :: rows => Some (most_confident r rows)
  | [] =>
      match with_level WP_CORRELATED evidence with
      | r :: rows => Some (most_confident r rows)
      | [] => head evidence
      end
  end.

(** ** Path contrast *)

Inductive FailureMode :=
| fm_none | fm_direct_blocked | fm_proxy_broken | fm_bypass_blocked | fm_dns_failure | fm_unknown.

#[export] Instance FailureMode_eq_dec : EqDecision FailureMode.
Proof. solve_decision. Defined.

Definition is_False (o : option bool) : bool := match o with Some false => true | _ => false end.
Definition is_True (o : option bool) : bool := match o with Some true => true | _ => false end.

Definition _infer_failure (direct proxied bypass : option bool) : FailureMode :=
  if is_False proxied && is_True bypass then fm_proxy_broken
  else if is_False direct then fm_direct_blocked
  else if is_False bypass then fm_bypass_blocked
  else if is_False direct && is_False proxied then fm_dns_failure
  else if negb (is_False proxied) then fm_none else fm_unknown.

Record ProxyPathProof := {
  pf_direct_path_ok : option bool;
  pf_proxied_path_ok : option bool;
  pf_bypass_path_ok : option bool;
  pf_failure_mode : FailureMode;
  pf_evidence_summary : string;
  pf_dns_ok : option bool;
  pf_notes : list string;
}.

(** What name resolution and the direct, bypass and proxied probes answered, or the text of
    the exception that stopped them; the proxied probe runs when there is a server. *)
Record path_probes := {
  pr_dns_ok : option bool;
  pr_paths : bool * bool * bool + string;
}.

(** The probing branch; a fixture replaces it by stored results. *)
Definition collect_proxy_path_proof (host : string) (proxy_server : string) (proxy_enabled : bool)
    (probes : path_probes) : ProxyPathProof :=
  if negb proxy_enabled then
    {| pf_direct_path_ok := Some true; pf_proxied_path_ok := None; pf_bypass_path_ok := Some true;
       pf_failure_mode := fm_none;
       pf_evidence_summary := "Proxy disabled — proxied path not applicable.";
       pf_dns_ok := None; pf_notes := ["proxy_enable=0"] |}
  else
    let dns_notes := if is_False probes.(pr_dns_ok) then ["dns_resolve_failed:" +:+ host] else [] in
    let '(direct, proxied, bypass, notes) :=
      match probes.(pr_paths) with
      | inl (d, b, p) =>
          if PyStr.is_empty proxy_server then (Some d, None, Some b, ["proxy_server empty"])
          else (Some d, Some p, Some b, [])
      | inr exc => (None, None, None, ["path_probe_skipped: " +:+ exc])
      end in
    {| pf_direct_path_ok := direct; pf_proxied_path_ok := proxied; pf_bypass_path_ok := bypass;
       pf_failure_mode :=
         if is_False probes.(pr_dns_ok) then fm_dns_failure else _infer_failure direct proxied bypass;
       pf_evidence_summary :=
         if is_False proxied && is_True bypass
         then "Browser path fails through configured localhost proxy but direct bypass works."
         else if is_True proxied then "Proxied HTTPS path succeeded."
         else "Path contrast inconclusive or not run.";
       pf_dns_ok := probes.(pr_dns_ok); pf_notes := (dns_notes ++ notes)%list |}.

(** ** Ancestors of a process *)

(** [int(v)] where [isinstance(v, int)]. *)
Definition as_int (v : pyval) : option Z :=
  match v with PInt z => Some z | PBool b => Some (if b then 1 else 0) | _ => None end.

(** [{int(r["pid"]): r for r in rows if isinstance(r.get("pid"), int)}]: the last row of a
    process id stands. *)
Definition by_pid (rows : list pydict) : list (Z * pydict) :=
  omap (fun r => p ← as_int (Dict.get "pid" r); Some (p, r)) rows.

Definition pid_row (table : list (Z * pydict)) (pid : Z) : pydict :=
  default [] (snd <$> List.find (fun kv => kv.1 =? pid) (rev table)).

Record chain_node := {
  cn_pid : Z;
  cn_process_name : pyval;
  cn_executable_path : pyval;
  cn_command_line : pyval;
  cn_parent_pid : pyval;
  cn_listens : option Z;
}.

Definition node_of (focus : Z) (port : option Z) (pid : Z) (row : pydict) : chain_node :=
  {| cn_pid := pid;
     cn_process_name := py_or (Dict.get "process_name" row) (Dict.get "parent_process_name" row);
     cn_executable_path := Dict.get "executable_path" row;
     cn_command_line := Dict.get "command_line" row;
     cn_parent_pid := Dict.get "parent_pid" row;
     cn_listens := if pid =? focus then port else None |}.

(** The [while] loop over parent pointers, from the focus process up. *)
Fixpoint walk_parents (fuel : nat) (table : list (Z * pydict)) (focus : Z) (port : option Z)
    (seen : list Z) (pid : option Z) : list chain_node :=
  match fuel, pid with
  | S fuel', Some p =>
      if negb (existsb (Z.eqb p) seen) && (4 <? p) then
        let row := pid_row table p in
        node_of focus port p row
        :: walk_parents fuel' table focus port (p :: seen) (as_int (Dict.get "parent_pid" row))
      else []
  | _, _ => []
  end.

(** One round for the focus process and one for each process of the table suffice. *)
Definition chain_fuel (table : list (Z * pydict)) : nat := S (length table).

Definition build_process_chain_nodes (focus_pid : option Z) (process_rows : list pydict)
    (matched_port : option Z) : list chain_node :=
  match focus_pid with
  | None => []
  | Some focus =>
      let table := by_pid process_rows in
      rev (walk_parents (chain_fuel table) table focus matched_port [] (Some focus))
  end.

(** ** The verdict *)

Inductive FinalVerdict :=
| PROVEN_PROXY_WRITER_AND_PORT_OWNER
| PROVEN_PROXY_WRITER_ONLY
| LIKELY_LOCAL_PROXY_TOOL
| BENIGN_DEVELOPER_PROXY
| SUSPICIOUS_UNKNOWN_PROXY
| TOOL_CONFLICT_PROXY_FLAPPING
| FV_INCONCLUSIVE.

Inductive causationLevel :=
| CL_OBSERVED_ONLY
| CL_CORRELATED
| CL_PROVEN_REGISTRY_WRITER
| CL_PROVEN_NETWORK_IMPACT
| CL_FINAL_CAUSATION.

#[export] Instance causationLevel_eq_dec : EqDecision causationLevel.
Proof. solve_decision. Defined.

(** The fields the verdict reads; the process name may be missing although it is declared a
    text. *)
Record PortOwnerEvidence := {
  pe_port : Z;
  pe_process_id : option Z;
  pe_process_name : option string;
  pe_executable_path : string;
  pe_command_line : string;
}.

Definition _DEV_TOOL_NAMES : list string :=
  ["node.exe"; "nodejs.exe"; "cursor.exe"; "code.exe"; "python.exe"; "npm.cmd"; "pnpm.exe"; "yarn.exe"].

Definition _basename (path : string) : string :=
  PyStr.lower (last_segment BS (PyStr.replace_char "/" BS path)).

Definition _is_dev_tool (image command_line : string) : bool :=
  PyStr.mem (_basename image) _DEV_TOOL_NAMES
  || existsb (fun name => PyStr.contains (replace_substring ".exe" "" name) (PyStr.lower command_line))
       _DEV_TOOL_NAMES.

Definition SUSPICIOUS_PATHS : list string :=
  [bs +:+ "appdata" +:+ bs +:+ "local" +:+ bs +:+ "temp" +:+ bs;
   bs +:+ "temp" +:+ bs;
   bs +:+ "appdata" +:+ bs +:+ "roaming" +:+ bs].

Definition _is_suspicious_path (path : string) : bool :=
  existsb (fun x => PyStr.contains x (PyStr.lower path)) SUSPICIOUS_PATHS.

Definition _process_matches_port (writer_image : string) (writer_pid : option Z)
    (owner : PortOwnerEvidence) : bool :=
  match writer_pid, owner.(pe_process_id) with
  | Some a, Some b => a =? b
  | _, _ => false
  end
  || String.eqb (_basename writer_image) (_basename (default "" owner.(pe_process_name)))
  || String.eqb (_basename writer_image) (_basename owner.(pe_executable_path)).

(** A row's [diff.before] and [diff.after]. *)
Definition transition_sides (row : pydict) : result (pydict * pydict) :=
  diff ← Dict.of_val (py_or (Dict.get "diff" row) (PDict []));
  before ← Dict.of_val (py_or (Dict.get "before" diff) (PDict []));
  after ← Dict.of_val (py_or (Dict.get "after" diff) (PDict []));
  Ok (before, after).

Definition enable_is (n : Z) (side : pydict) : bool :=
  py_eqb (Dict.get "proxy_enable" side) (PInt n).

Definition _detect_flapping (transitions : list pydict) : result bool :=
  if (length transitions <? 2)%nat then Ok false else
  sides ← mapM_result transition_sides transitions;
  Ok (existsb (fun s => enable_is 0 s.1 && enable_is 1 s.2) sides
      && existsb (fun s => enable_is 1 s.1 && enable_is 0 s.2) sides).

(** The evidence tree is kept as the evidence it is built from; the process tree, which no
    decision reads, is left out. *)
Record FinalCausationReport := {
  fr_verdict : FinalVerdict;
  fr_confidence : F64.t;
  fr_proof_level : causationLevel;
  fr_root_cause_sentence : string;
  fr_timeline : list pydict;
  fr_registry_writes : list RegistryWriteEvidence;
  fr_port_owner : option PortOwnerEvidence;
  fr_path_proof : ProxyPathProof;
  fr_recommended_next_action : list string;
  fr_safe_operator_commands : list string;
  fr_proven_vs_likely : list (string * string);
  fr_current_proxy_state : pyval;
}.

Definition is_proven (w : RegistryWriteEvidence) : bool :=
  bool_decide (w.(we_proof_level) = WP_PROVEN).

(** [writer and writer.proof_level == "PROVEN"]. *)
Definition writer_proven (writer : option RegistryWriteEvidence) : bool :=
  match writer with Some w => is_proven w | None => false end.

Definition proof_text (p : writeProof) : string :=
  match p with WP_OBSERVED => "OBSERVED" | WP_CORRELATED => "CORRELATED" | WP_PROVEN => "PROVEN" end.

(** A name in an f-string. *)
Definition shown (name : option string) : string := default "None" name.

Definition causation_timeline (before after : pyval) (writer : option RegistryWriteEvidence)
    : list pydict :=
  ([["phase" :-> PStr "before"; "state" :-> before]; ["phase" :-> PStr "after"; "state" :-> after]]
   ++ match writer with
      | Some w =>
          [["phase" :-> PStr "registry_write"; "timestamp_utc" :-> PStr w.(we_timestamp_utc);
            "image" :-> PStr w.(we_image); "value" :-> PStr w.(we_written_value);
            "proof_level" :-> PStr (proof_text w.(we_proof_level))]]
      | None => []
      end)%list.

Definition proven_vs_likely (writer : option RegistryWriteEvidence)
    (owner : option PortOwnerEvidence) (path : ProxyPathProof) : list (string * string) :=
  [("registry_writer",
    match writer with
    | Some w => if is_proven w
                then "proven — " +:+ w.(we_image) +:+ " wrote " +:+ w.(we_registry_value_name)
                else "likely/correlated only — " +:+ w.(we_image)
    | None => "not observed"
    end);
   ("port_owner",
    match owner with
    | Some o => "correlated — " +:+ shown o.(pe_process_name) +:+ " listens on 127.0.0.1:"
                +:+ PyStr.of_Z o.(pe_port)
    | None => "not observed"
    end);
   ("network_path",
    match path.(pf_proxied_path_ok) with
    | Some false => "proven impact — proxied path fails"
    | Some true => "proxied path OK"
    | None => "not tested"
    end)].

(** The level before a verdict is chosen. *)
Definition initial_level (writer : option RegistryWriteEvidence) (owner : option PortOwnerEvidence)
    (path : ProxyPathProof) : causationLevel :=
  if bool_decide (path.(pf_failure_mode) = fm_proxy_broken) then CL_PROVEN_NETWORK_IMPACT
  else if writer_proven writer then CL_PROVEN_REGISTRY_WRITER
  else
    match owner, writer with
    | Some _, _ => CL_CORRELATED
    | None, Some w => if bool_decide (w.(we_proof_level) = WP_CORRELATED) then CL_CORRELATED
                      else CL_OBSERVED_ONLY
    | None, None => CL_OBSERVED_ONLY
    end.

Definition suspicious (writer : option RegistryWriteEvidence) (owner : option PortOwnerEvidence)
    : bool :=
  match writer with Some w => _is_suspicious_path w.(we_image) | None => false end
  || match owner with Some o => _is_suspicious_path o.(pe_executable_path) | None => false end.

(** [a or b] on texts that may be missing. *)
Definition or_name (a : string) (b : option string) : option string :=
  if PyStr.is_empty a then b else Some a.

(** Verdict, confidence, level and sentence. *)
Definition choose_verdict (writer : option RegistryWriteEvidence) (owner : option PortOwnerEvidence)
    (path : ProxyPathProof) (transitions : list pydict)
    : result (FinalVerdict * F64.t * causationLevel * string) :=
  let level := initial_level writer owner path in
  let proven := writer_proven writer in
  if suspicious writer owner then
    Ok (SUSPICIOUS_UNKNOWN_PROXY, (if proven then F64.lit 82 100 else F64.lit 78 100),
        (if proven then CL_FINAL_CAUSATION else level),
        "Suspicious process context near proxy change: "
        +:+ match writer, owner with
            | Some w, _ => w.(we_image)
            | None, Some o => shown o.(pe_process_name)
            | None, None => "unknown"
            end +:+ ".")
  else
  flapping ← match transitions with [] => Ok false | _ => _detect_flapping transitions end;
  Ok (if (flapping : bool) then
        (TOOL_CONFLICT_PROXY_FLAPPING, F64.lit 72 100,
         (if proven then CL_FINAL_CAUSATION else level),
         "Repeated enable/disable proxy flapping suggests conflicting tools (e.g. dev server vs IDE reset).")
      else
      let inconclusive :=
        (FV_INCONCLUSIVE, F64.lit 35 100, level,
         "Proxy settings changed; registry writer proof and port owner are unavailable.") in
      match writer, owner with
      | Some w, _ =>
          if is_proven w then
            match owner with
            | Some o =>
                if _process_matches_port w.(we_image) w.(we_process_id) o then
                  (PROVEN_PROXY_WRITER_AND_PORT_OWNER, F64.lit 92 100, CL_FINAL_CAUSATION,
                   w.(we_image) +:+ " provably wrote " +:+ w.(we_registry_value_name)
                   +:+ " and owns localhost port " +:+ PyStr.of_Z o.(pe_port) +:+ ".")
                else
                  (PROVEN_PROXY_WRITER_ONLY, F64.lit 88 100, CL_FINAL_CAUSATION,
                   w.(we_image) +:+ " provably wrote " +:+ w.(we_registry_value_name)
                   +:+ "; port owner not confirmed.")
            | None =>
                (PROVEN_PROXY_WRITER_ONLY, F64.lit 88 100, CL_FINAL_CAUSATION,
                 w.(we_image) +:+ " provably wrote " +:+ w.(we_registry_value_name)
                 +:+ "; port owner not confirmed.")
            end
          else
            let image := match owner with
                         | Some o => or_name w.(we_image) o.(pe_process_name)
                         | None => Some w.(we_image)
                         end in
            let cmd := match owner with
                       | Some o => if PyStr.is_empty w.(we_command_line) then o.(pe_command_line)
                                   else w.(we_command_line)
                       | None => w.(we_command_line)
                       end in
            if _is_dev_tool (default "" image) cmd then
              (BENIGN_DEVELOPER_PROXY, F64.lit 65 100, level,
               "Developer toolchain process near proxy change: " +:+ shown image +:+ ".")
            else inconclusive
      | None, Some o =>
          (LIKELY_LOCAL_PROXY_TOOL, F64.lit 62 100, level,
           shown o.(pe_process_name) +:+ " listens on 127.0.0.1:" +:+ PyStr.of_Z o.(pe_port)
           +:+ " near proxy change (correlation — not registry write proof).")
      | None, None => inconclusive
      end).

Definition BASE_ACTIONS : list string :=
  ["Run: python -m src proxy-causation --since-minutes 30";
   "Enable Sysmon registry auditing (Event ID 13) for Internet Settings keys";
   "Collect Procmon RegSetValue export filtered to Internet Settings"].

Definition causation_actions (path : ProxyPathProof) : list string :=
  if bool_decide (path.(pf_failure_mode) = fm_proxy_broken) then
    "Verify localhost listener is running on configured proxy port"
    :: "Compare proxy-owner PID with attribution suspect — correlation ≠ writer proof"
    :: BASE_ACTIONS
  else BASE_ACTIONS.

Definition build_final_causation_report (proxy_change : pydict)
    (registry_evidence : list RegistryWriteEvidence) (owner : option PortOwnerEvidence)
    (path : ProxyPathProof) (transitions : list pydict) : result FinalCausationReport :=
  let writer := best_registry_writer registry_evidence in
  diff ← Dict.of_val (py_or (Dict.get "diff" proxy_change) (PDict proxy_change));
  let side k := py_or (py_or (Dict.get k diff) (Dict.get k proxy_change)) (PDict []) in
  let after := side "after" in
  let before := side "before" in
  '(verdict, confidence, level, sentence) ← choose_verdict writer owner path transitions;
  Ok {| fr_verdict := verdict; fr_confidence := confidence; fr_proof_level := level;
        fr_root_cause_sentence := sentence;
        fr_timeline := causation_timeline before after writer;
        fr_registry_writes := registry_evidence; fr_port_owner := owner; fr_path_proof := path;
        fr_recommended_next_action := causation_actions path;
        fr_safe_operator_commands :=
          ["python -m src proxy-status"; "python -m src proxy-owner";
           "python -m src proxy-causation --format markdown"];
        fr_proven_vs_likely := proven_vs_likely writer owner path;
        fr_current_proxy_state := after |}.

(** ** Properties of the verdict *)

Lemma most_confident_In (r : RegistryWriteEvidence) (rows : list RegistryWriteEvidence) :
  In (most_confident r rows) (r :: rows).
Proof.
  unfold most_confident. revert r. induction rows as [|x rows IH]; intros r; [by left|].
  cbn [foldl]. destruct (F64.ltb _ _); [right; apply IH|].
  destruct (IH r) as [H|H]; [by left|by right; right].
Qed.

Lemma with_level_In (level : writeProof) (evidence : list RegistryWriteEvidence)
    (w : RegistryWriteEvidence) :
  In w (with_level level evidence) <-> In w evidence /\ w.(we_proof_level) = level.
Proof. unfold with_level. rewrite filter_In. by rewrite bool_decide_eq_true. Qed.

(** The chosen writer is proven exactly when some row is. *)
Lemma best_writer_proven (evidence : list RegistryWriteEvidence) :
  writer_proven (best_registry_writer evidence) = true
  <-> exists w, In w evidence /\ w.(we_proof_level) = WP_PROVEN.
Proof.
  unfold best_registry_writer.
  pose proof (with_level_In WP_PROVEN evidence) as Hp.
  destruct (with_level WP_PROVEN evidence) as [|r rows].
  - assert (Hn : forall w, In w evidence -> w.(we_proof_level) <> WP_PROVEN).
    { intros w Hin Hw. by apply (Hp w). }
    split; [|by intros (w & Hin & Hw); destruct (Hn w Hin)].
    assert (forall w, In w evidence -> is_proven w = true -> False) as Hc.
    { intros w Hin Hw. apply bool_decide_eq_true in Hw. by apply (Hn w). }
    pose proof (with_level_In WP_CORRELATED evidence) as Hl.
    destruct (with_level WP_CORRELATED evidence) as [|r rows]; cbn.
    + destruct evidence as [|e evidence]; cbn; [done|]. intros He. destruct (Hc e); [by left|done].
    + intros He. destruct (Hc (most_confident r rows)); [|done]. apply Hl, most_confident_In.
  - cbn. unfold is_proven. rewrite bool_decide_eq_true.
    pose proof (proj1 (Hp _) (most_confident_In r rows)) as [Hin Hm].
    split; [intros _; eauto|done].
Qed.

Lemma initial_level_not_final (writer : option RegistryWriteEvidence)
    (owner : option PortOwnerEvidence) (path : ProxyPathProof) :
  initial_level writer owner path <> CL_FINAL_CAUSATION.
Proof. unfold initial_level. by repeat case_match. Qed.

(** The verdicts that name a proven writer, and those that claim no proof. *)
Definition names_writer (v : FinalVerdict) : bool :=
  match v with PROVEN_PROXY_WRITER_AND_PORT_OWNER | PROVEN_PROXY_WRITER_ONLY => true | _ => false end.

Definition claims_no_proof (v : FinalVerdict) : bool :=
  match v with LIKELY_LOCAL_PROXY_TOOL | BENIGN_DEVELOPER_PROXY | FV_INCONCLUSIVE => true | _ => false end.

Lemma choose_verdict_level (writer : option RegistryWriteEvidence)
    (owner : option PortOwnerEvidence) (path : ProxyPathProof) (transitions : list pydict)
    (v : FinalVerdict) (c : F64.t) (level : causationLevel) (s : string) :
  choose_verdict writer owner path transitions = Ok (v, c, level, s) ->
  (level = CL_FINAL_CAUSATION <-> writer_proven writer = true)
  /\ (names_writer v = true -> writer_proven writer = true)
  /\ (claims_no_proof v = true -> writer_proven writer = false).
Proof.
  unfold choose_verdict. set (level0 := initial_level writer owner path).
  assert (Hn : level0 <> CL_FINAL_CAUSATION) by apply initial_level_not_final. clearbody level0.
  destruct (suspicious writer owner).
  { intros [= <- _ <- _]. destruct (writer_proven writer); cbn; repeat split; congruence. }
  destruct (match transitions with [] => _ | _ => _ end) as [flapping|]; [|discriminate].
  cbn [mbind result_bind]. destruct flapping.
  { intros [= <- _ <- _]. destruct (writer_proven writer); cbn; repeat split; congruence. }
  destruct writer as [w|]; cbn [writer_proven].
  - destruct (is_proven w).
    + destruct owner as [o|]; [destruct (_process_matches_port _ _ _)|];
        intros [= <- _ <- _]; cbn; repeat split; congruence.
    + destruct (_is_dev_tool _ _); intros [= <- _ <- _]; cbn; repeat split; congruence.
  - destruct owner as [o|]; intros [= <- _ <- _]; cbn; repeat split; congruence.
Qed.

(** ** Properties of the writes *)

Section Grounded.
Context (order : list string) (Horder : Permutation order monitored_names).

Lemma order_nonempty (name : string) : In name order -> PyStr.is_empty name = false.
Proof.
  rewrite Horder. intros Hin. cbn in Hin. by destruct_or! Hin; subst.
Qed.

(** A recognised target always has a value name. *)
Lemma target_has_name (target : string) :
  is_telemetry_target order target = true ->
  PyStr.is_empty (default "" (proxy_registry_value_name order target)) = false.
Proof.
  unfold is_telemetry_target, proxy_registry_value_name. destruct (PyStr.is_empty target); [done|].
  destruct (_canonical_suffix _) as [name|] eqn:Ec.
  - intros _. cbn. revert Ec. unfold _canonical_suffix. destruct (after_first _ _); [|done].
    destruct (PyStr.is_empty _); [done|]. destruct (PyStr.mem _ monitored_names) eqn:Em; [|done].
    intros [= <-]. apply existsb_exists in Em as (n & Hin & ->%String.eqb_eq).
    apply order_nonempty. by rewrite Horder.
  - intros [_ (n & Hin & Hn)%existsb_exists]%andb_prop.
    destruct (List.find _ order) as [pv|] eqn:Ef.
    + apply find_some in Ef as [Hpv _]. by apply order_nonempty.
    + pose proof (find_none _ _ Ef n Hin) as H. cbn beta in H. congruence.
Qed.

Lemma normalized_proven (e : SysmonEvent) (w : RegistryWriteEvidence) :
  _normalize_sysmon_event order e = Some w ->
  w.(we_proof_level) = WP_PROVEN <->
  e.(sm_event_id) = 13 /\ is_telemetry_target order (default "" e.(sm_target_object)) = true.
Proof.
  unfold _normalize_sysmon_event. destruct (negb _); [done|]. destruct (_ && negb _); [done|].
  destruct (_ && PyStr.is_empty _); [done|]. intros [= <-]. cbn [we_proof_level].
  unfold _proof_level_for_event.
  destruct (Z.eqb_spec e.(sm_event_id) 13) as [E|E], (is_telemetry_target _ _); cbn [andb];
    repeat case_match; split; try done; by intros [? ?].
Qed.

Lemma collected_proven (events : list SysmonEvent) :
  (exists w, In w (collect_registry_write_evidence order events) /\ w.(we_proof_level) = WP_PROVEN)
  <-> exists e, In e events /\ e.(sm_event_id) = 13
        /\ is_telemetry_target order (default "" e.(sm_target_object)) = true.
Proof.
  unfold collect_registry_write_evidence.
  setoid_rewrite sorted_by_Permutation. split.
  - intros (w & Hin & Hw). apply list_elem_of_In, list_elem_of_omap in Hin as (e & He & Hn).
    exists e. split; [by apply list_elem_of_In|]. revert Hn.
    destruct (e.(sm_event_id) =? 13); [|destruct (_ && _); [|done]];
      intros Hn; by apply (normalized_proven e w).
  - intros (e & He & Hid & Ht).
    destruct (_normalize_sysmon_event order e) as [w|] eqn:En.
    + exists w. split; [|by apply (normalized_proven e w)].
      apply list_elem_of_In, list_elem_of_omap. exists e. split; [by apply list_elem_of_In|].
      by rewrite Hid.
    + revert En. unfold _normalize_sysmon_event. rewrite Hid, Ht, (target_has_name _ Ht). done.
Qed.

(** C11: a final causation is grounded: the report claims it exactly when Sysmon recorded
    a value set (event 13) on a monitored proxy value; a verdict that names a proven writer
    always has that level, and a likely, benign or inconclusive one never does. *)
Theorem final_causation_grounded (events : list SysmonEvent) (change : pydict)
    (owner : option PortOwnerEvidence) (path : ProxyPathProof) (transitions : list pydict)
    (r : FinalCausationReport) :
  build_final_causation_report change (collect_registry_write_evidence order events) owner path
    transitions = Ok r ->
  (r.(fr_proof_level) = CL_FINAL_CAUSATION <->
   exists e, In e events /\ e.(sm_event_id) = 13
     /\ is_telemetry_target order (default "" e.(sm_target_object)) = true)
  /\ (names_writer r.(fr_verdict) = true -> r.(fr_proof_level) = CL_FINAL_CAUSATION)
  /\ (claims_no_proof r.(fr_verdict) = true -> r.(fr_proof_level) <> CL_FINAL_CAUSATION).
Proof.
  rewrite <- collected_proven, <- best_writer_proven. unfold build_final_causation_report.
  destruct (Dict.of_val _) as [diff|]; [|discriminate]. cbn [mbind result_bind].
  destruct (choose_verdict _ _ _ _) as [[[[v c] level] s]|] eqn:Ev; [|discriminate].
  cbn [mbind result_bind]. intros [= <-]. cbn [fr_proof_level fr_verdict].
  apply choose_verdict_level in Ev as (Hl & Hw & Hn). split; [done|]. rewrite Hl.
  split; [done|]. intros Hc. rewrite (Hn Hc). done.
Qed.
End Grounded.

(** ** Properties of the process chain *)

Lemma filter_length_lt {A} (p q : A -> bool) (x : A) (l : list A) :
  (forall y, q y = true -> p y = true) -> In x l -> p x = true -> q x = false ->
  (length (List.filter q l) < length (List.filter p l))%nat.
Proof.
  intros Hqp Hin Hp Hq.
  assert (Hle : forall m, (length (List.filter q m) <= length (List.filter p m))%nat).
  { induction m as [|y m IH]; [done|]. cbn. specialize (Hqp y).
    destruct (q y); [rewrite (Hqp eq_refl)|destruct (p y)]; cbn; lia. }
  induction l as [|y l IH]; [done|]. destruct Hin as [->|Hin]; cbn.
  - rewrite Hp, Hq. cbn. specialize (Hle l). lia.
  - specialize (IH Hin). specialize (Hqp y).
    destruct (q y); [rewrite (Hqp eq_refl)|destruct (p y)]; cbn; lia.
Qed.

Section Chain.
Context (table : list (Z * pydict)) (focus : Z) (port : option Z).

(** The rows of the table the loop has not visited. *)
Definition unvisited (seen : list Z) : nat :=
  length (List.filter (fun kv => negb (existsb (Z.eqb kv.1) seen)) table).

Lemma pid_row_missing (p : Z) : ~ In p (map fst table) -> pid_row table p = [].
Proof.
  intros Hn. unfold pid_row. destruct (List.find _ (rev table)) as [[k row]|] eqn:Ef; [|done].
  apply find_some in Ef as [Hin Hk]. cbn in Hk. apply Z.eqb_eq in Hk. subst k.
  destruct Hn. apply in_map_iff. exists (p, row). split; [done|]. by apply in_rev.
Qed.

Lemma unvisited_step (seen : list Z) (p : Z) :
  In p (map fst table) -> existsb (Z.eqb p) seen = false ->
  (unvisited (p :: seen) < unvisited seen)%nat.
Proof.
  intros ([k row] & Hk & Hin)%in_map_iff Hs. cbn in Hk. subst k. unfold unvisited.
  apply (filter_length_lt _ _ (p, row)); cbn; [|done|by rewrite Hs|by rewrite Z.eqb_refl].
  intros [k r]. cbn. destruct (k =? p); [done|]. by destruct (existsb _ seen).
Qed.

(** More rounds than unvisited rows change nothing. *)
Lemma walk_enough (f1 f2 : nat) (seen : list Z) (pid : option Z) :
  (unvisited seen < f1)%nat -> (unvisited seen < f2)%nat ->
  walk_parents f1 table focus port seen pid = walk_parents f2 table focus port seen pid.
Proof.
  revert f2 seen pid. induction f1 as [|f1 IH]; intros [|f2] seen pid H1 H2; try lia.
  destruct pid as [p|]; cbn [walk_parents]; [|done].
  destruct (existsb (Z.eqb p) seen) eqn:Es; cbn [negb andb]; [done|]. destruct (4 <? p); [|done].
  f_equal. destruct (in_dec Z.eq_dec p (map fst table)) as [Hin|Hout].
  - pose proof (unvisited_step seen p Hin Es). apply IH; lia.
  - rewrite (pid_row_missing p Hout). by destruct f1, f2.
Qed.

(** Each process of the list points at the next one as its parent. *)
Fixpoint parent_linked (nodes : list chain_node) : Prop :=
  match nodes with
  | child :: (parent :: _) as rest =>
      as_int child.(cn_parent_pid) = Some parent.(cn_pid) /\ parent_linked rest
  | _ => True
  end.

Lemma walk_sound (fuel : nat) (seen : list Z) (pid : option Z) :
  let nodes := walk_parents fuel table focus port seen pid in
  List.NoDup (map cn_pid nodes)
  /\ Forall (fun n => 4 < n.(cn_pid) /\ ~ In n.(cn_pid) seen) nodes
  /\ parent_linked nodes
  /\ (forall n, head nodes = Some n -> pid = Some n.(cn_pid)).
Proof.
  revert seen pid. induction fuel as [|fuel IH]; intros seen pid; cbn zeta.
  { repeat split; try constructor. discriminate. }
  destruct pid as [p|]; cbn [walk_parents]; [|repeat split; try constructor; discriminate].
  destruct (existsb (Z.eqb p) seen) eqn:Es; cbn [negb andb]; [repeat split; try constructor; discriminate|].
  destruct (Z.ltb_spec 4 p) as [Hp|Hp]; [|repeat split; try constructor; discriminate].
  destruct (IH (p :: seen) (as_int (Dict.get "parent_pid" (pid_row table p)))) as (Hnd & Hall & Hl & Hh).
  assert (Hps : ~ In p seen).
  { intros Hin. apply not_true_iff_false in Es. apply Es. apply existsb_exists.
    exists p. split; [done|apply Z.eqb_refl]. }
  set (rest := walk_parents fuel _ _ _ _ _) in *. clearbody rest. split_and!.
  - cbn [map]. constructor; [|done]. intros (n & Hn & Hin)%in_map_iff.
    rewrite Forall_forall in Hall. destruct (Hall n) as [_ Hns]; [by apply list_elem_of_In|].
    apply Hns. left. by rewrite Hn.
  - constructor; [done|]. eapply Forall_impl; [exact Hall|]. cbn. intros n [? ?]. tauto.
  - destruct rest as [|n rest]; [done|]. split; [|done]. by apply Hh.
  - by intros n [= <-].
Qed.
End Chain.

(** The walk over parent pointers terminates on every inventory, cyclic ones
    included: one round more than there are rows is enough and further rounds change
    nothing. Its chain has no process twice, none of the system processes, links every
    process to its parent and ends in the focus process. *)
Theorem process_chain_sound (focus : Z) (rows : list pydict) (port : option Z) :
  let nodes := build_process_chain_nodes (Some focus) rows port in
  (forall fuel, (chain_fuel (by_pid rows) <= fuel)%nat ->
     rev (walk_parents fuel (by_pid rows) focus port [] (Some focus)) = nodes)
  /\ List.NoDup (map cn_pid nodes)
  /\ Forall (fun n => 4 < n.(cn_pid)) nodes
  /\ parent_linked (rev nodes)
  /\ (if 4 <? focus then cn_pid <$> last nodes = Some focus else nodes = []).
Proof.
  cbn zeta. unfold build_process_chain_nodes.
  set (table := by_pid rows). set (walk := walk_parents (chain_fuel table) table focus port [] (Some focus)).
  destruct (walk_sound table focus port (chain_fuel table) [] (Some focus)) as (Hnd & Hall & Hl & Hh).
  fold walk in Hnd, Hall, Hl, Hh. split_and!.
  - intros fuel Hf. unfold walk. f_equal.
    assert (Hu : (unvisited table [] <= length table)%nat) by apply filter_length_le.
    apply walk_enough; unfold chain_fuel in *; lia.
  - rewrite map_rev. apply NoDup_rev, Hnd.
  - apply Forall_rev. eapply Forall_impl; [exact Hall|]. by intros n [? ?].
  - by rewrite rev_involutive.
  - unfold walk, chain_fuel. cbn [walk_parents existsb negb andb].
    destruct (4 <? focus); [|done]. cbn [rev]. by rewrite last_snoc.
Qed.

(** The path contrast blames the proxy exactly when the proxied probe failed and the
    bypass probe succeeded, whatever the direct probe said; its branch for a name
    resolution failure cannot be reached, so only the resolver itself reports one. *)
Theorem infer_failure_spec (direct proxied bypass : option bool) :
  (_infer_failure direct proxied bypass = fm_proxy_broken
   <-> proxied = Some false /\ bypass = Some true)
  /\ _infer_failure direct proxied bypass <> fm_dns_failure
  /\ (_infer_failure direct proxied bypass = fm_none ->
      direct <> Some false /\ proxied <> Some false /\ bypass <> Some false).
Proof.
  destruct direct as [[]|], proxied as [[]|], bypass as [[]|]; cbn;
    (split; [split; [try discriminate; by intros _|by intros [? ?]]|split; [discriminate|]]);
    try discriminate; by intros _.
Qed.

(** A broken proxy alone raises the level to a proven impact while the verdict stays
    inconclusive. *)
Lemma broken_proxy_alone (path : ProxyPathProof) :
  path.(pf_failure_mode) = fm_proxy_broken ->
  exists s, choose_verdict None None path []
    = Ok (FV_INCONCLUSIVE, F64.lit 35 100, CL_PROVEN_NETWORK_IMPACT, s).
Proof.
  intros Hp. unfold choose_verdict, initial_level. rewrite Hp. cbn. by eexists.
Qed.

(** A proven writer without an image owns every port whose owner has no name. *)
Lemma nameless_owner_matches (o : PortOwnerEvidence) (pid : option Z) :
  o.(pe_process_name) = None -> _process_matches_port "" pid o = true.
Proof. intros Hn. unfold _process_matches_port. rewrite Hn. cbn. by rewrite orb_true_r. Qed.

Module CausationWitness.
Definition path (parts : list string) : string := PyStr.join bs parts.

Definition value_set : SysmonEvent :=
  {| sm_utc_time := "2026-01-01 00:00:00"; sm_event_id := 13; sm_process_guid := None;
     sm_process_id := Some 100; sm_image := Some (path ["C:"; "Tools"; "clash.exe"]);
     sm_command_line := None;
     sm_target_object := Some (path ["HKU"; "S-1-5-21"; "SOFTWARE"; "Microsoft"; "Windows";
                                     "CurrentVersion"; "Internet Settings"; "ProxyEnable"]);
     sm_details := Some "DWORD (0x00000001)"; sm_user := None; sm_rule_name := None |}.

Definition broken : ProxyPathProof :=
  collect_proxy_path_proof "www.google.com" "127.0.0.1:8080" true
    {| pr_dns_ok := Some true; pr_paths := inl (true, true, false) |}.

Definition owner (pid : Z) : PortOwnerEvidence :=
  {| pe_port := 8080; pe_process_id := Some pid; pe_process_name := Some "clash.exe";
     pe_executable_path := ""; pe_command_line := "" |}.

Definition report (events : list SysmonEvent) : result FinalCausationReport :=
  build_final_causation_report [] (collect_registry_write_evidence monitored_names events)
    (Some (owner 7)) broken [].

Lemma final_causation_grounded_witness :
  match report [value_set] with
  | Ok r => r.(fr_verdict) = PROVEN_PROXY_WRITER_AND_PORT_OWNER
            /\ r.(fr_proof_level) = CL_FINAL_CAUSATION
  | Raise _ => False
  end.
Proof.
  destruct (report [value_set]) as [r|] eqn:E.
  - split; [vm_compute in E; injection E as <-; reflexivity|].
    apply (proj1 (final_causation_grounded monitored_names (reflexivity monitored_names) [value_set] []
             (Some (owner 7)) broken [] r E)).
    exists value_set. split; [by left|]. split; [reflexivity|vm_compute; reflexivity].
  - vm_compute in E. discriminate.
Defined.

(** A key path without its leading keys is not recognised, although the flattened
    comparison is there for it: it removes separators, not the space of the key name. *)
Lemma abbreviated_path_missed :
  is_telemetry_target monitored_names (path ["HKCU"; "Internet Settings"; "ProxyEnable"]) = false.
Proof. vm_compute. reflexivity. Qed.

(** A command line that merely contains "code" counts as a developer tool. *)
Lemma decoder_is_dev_tool : _is_dev_tool "miner.exe" "miner.exe --decoder x" = true.
Proof. vm_compute. reflexivity. Qed.

(** Two processes that are each other's parent. *)
Lemma cyclic_parents :
  map cn_pid (build_process_chain_nodes (Some 10)
    [["pid" :-> PInt 10; "parent_pid" :-> PInt 20]; ["pid" :-> PInt 20; "parent_pid" :-> PInt 10]] None)
  = [20; 10].
Proof. vm_compute. reflexivity. Qed.
End CausationWitness.
