(* ===== verification/TypedEvidence.v ===== *)
(** * Typed evidence records

    [src/platform_core/evidence/record.py]: the evidence atom with its chain of custody,
    its integrity hash, its conversion to the item the policy engine reads, and the bundle
    of records kept for replay.  The identifier and the clock are arguments; the field
    checks of the validation library are those of the record types. *)

From S2P Require Import Prelude PyValue AuditChain EvidencePolicy.
From Stdlib Require Import Ascii String Floats.SpecFloat.
From stdpp Require Import strings.

Open Scope string_scope.
Open Scope Z_scope.
Open Scope py_scope.

Definition PLATFORM_SCHEMA_VERSION : string := "erp.platform.v1".

Inductive ConfidenceOrdinal := very_low | low_ordinal | medium_ordinal | high_ordinal | very_high.

Definition ordinal_text (c : ConfidenceOrdinal) : string :=
  match c with
  | very_low => "very_low"
  | low_ordinal => "low"
  | medium_ordinal => "medium"
  | high_ordinal => "high"
  | very_high => "very_high"
  end.

(** The check that runs before the value is read. *)
Definition _reject_probability (v : pyval) : result pyval :=
  match v with PFloat _ => Raise ValueError | _ => Ok v end.

Record ChainOfCustody := {
  cu_collector_id : string;
  cu_collector_version : string;
  cu_host_id : string;
  cu_session_id : string;
  cu_collected_at_utc : string;
  cu_integrity_hash : string;
  cu_parent_evidence_id : string;
}.

Record TypedEvidenceRecord := {
  te_evidence_id : string;
  te_schema_version : string;
  te_source : string;
  te_timestamp : string;
  te_collector : string;
  te_evidence_type : string;
  te_observed_value : string;
  te_confidence_level : ConfidenceOrdinal;
  te_evidence_tier : string;
  te_limitations : list string;
  te_raw_reference : string;
  te_chain_of_custody : ChainOfCustody;
  te_event_id : string;
  te_signal : string;
}.

(** [model_dump] of the custody, without the hash it carries. *)
Definition custody_body (c : ChainOfCustody) : pydict :=
  ["collector_id" :-> PStr c.(cu_collector_id);
   "collector_version" :-> PStr c.(cu_collector_version);
   "host_id" :-> PStr c.(cu_host_id);
   "session_id" :-> PStr c.(cu_session_id);
   "collected_at_utc" :-> PStr c.(cu_collected_at_utc);
   "parent_evidence_id" :-> PStr c.(cu_parent_evidence_id)].

Definition custody_dump (c : ChainOfCustody) : pydict :=
  ["collector_id" :-> PStr c.(cu_collector_id);
   "collector_version" :-> PStr c.(cu_collector_version);
   "host_id" :-> PStr c.(cu_host_id);
   "session_id" :-> PStr c.(cu_session_id);
   "collected_at_utc" :-> PStr c.(cu_collected_at_utc);
   "integrity_hash" :-> PStr c.(cu_integrity_hash);
   "parent_evidence_id" :-> PStr c.(cu_parent_evidence_id)].

(** The fields of a record around its custody. *)
Definition record_fields (r : TypedEvidenceRecord) : pydict :=
  ["evidence_id" :-> PStr r.(te_evidence_id);
   "schema_version" :-> PStr r.(te_schema_version);
   "source" :-> PStr r.(te_source);
   "timestamp" :-> PStr r.(te_timestamp);
   "collector" :-> PStr r.(te_collector);
   "evidence_type" :-> PStr r.(te_evidence_type);
   "observed_value" :-> PStr r.(te_observed_value);
   "confidence_level" :-> PStr (ordinal_text r.(te_confidence_level));
   "evidence_tier" :-> PStr r.(te_evidence_tier);
   "limitations" :-> str_list r.(te_limitations);
   "raw_reference" :-> PStr r.(te_raw_reference);
   "event_id" :-> PStr r.(te_event_id);
   "signal" :-> PStr r.(te_signal)].

(** [model_dump(mode="json")]; the custody stands before the event id. *)
Definition record_dump (r : TypedEvidenceRecord) : pydict :=
  (firstn 11 (record_fields r)
   ++ ["chain_of_custody" :-> PDict (custody_dump r.(te_chain_of_custody))]
   ++ skipn 11 (record_fields r))%list.

Section Integrity.
Context {H : PyHost}.

Definition integrity_payload (r : TypedEvidenceRecord) : pydict :=
  (record_fields r ++ ["chain_of_custody" :-> PDict (custody_body r.(te_chain_of_custody))])%list.

Definition integrity_hash (r : TypedEvidenceRecord) : string :=
  sha256_hexdigest (Json.dumps_compact (PDict (integrity_payload r))).

Definition with_hash (h : string) (r : TypedEvidenceRecord) : TypedEvidenceRecord :=
  let c := r.(te_chain_of_custody) in
  {| te_evidence_id := r.(te_evidence_id); te_schema_version := r.(te_schema_version);
     te_source := r.(te_source); te_timestamp := r.(te_timestamp);
     te_collector := r.(te_collector); te_evidence_type := r.(te_evidence_type);
     te_observed_value := r.(te_observed_value);
     te_confidence_level := r.(te_confidence_level);
     te_evidence_tier := r.(te_evidence_tier); te_limitations := r.(te_limitations);
     te_raw_reference := r.(te_raw_reference);
     te_chain_of_custody :=
       {| cu_collector_id := c.(cu_collector_id); cu_collector_version := c.(cu_collector_version);
          cu_host_id := c.(cu_host_id); cu_session_id := c.(cu_session_id);
          cu_collected_at_utc := c.(cu_collected_at_utc); cu_integrity_hash := h;
          cu_parent_evidence_id := c.(cu_parent_evidence_id) |};
     te_event_id := r.(te_event_id); te_signal := r.(te_signal) |}.

Definition with_integrity (r : TypedEvidenceRecord) : TypedEvidenceRecord :=
  with_hash (integrity_hash r) r.

Definition text_or_else (a b : string) : string := if PyStr.is_empty a then b else a.

Definition ordinal_map (c : ConfidenceOrdinal) : F64.t :=
  match c with
  | very_low => F64.lit 2 10
  | low_ordinal => F64.lit 35 100
  | medium_ordinal => F64.lit 5 10
  | high_ordinal => F64.lit 7 10
  | very_high => F64.lit 85 100
  end.

(** The item of the policy engine, with the confidence and the raw data it also carries. *)
Definition to_evidence_item (r : TypedEvidenceRecord) : EvidenceItem * F64.t * pydict :=
  ({| ei_evidence_id := r.(te_evidence_id);
      ei_event_id := text_or_else r.(te_event_id) r.(te_evidence_id);
      ei_timestamp_utc := r.(te_timestamp); ei_source := r.(te_source);
      ei_signal := text_or_else r.(te_signal) r.(te_evidence_type);
      ei_observed_value := r.(te_observed_value); ei_tier := r.(te_evidence_tier) |},
   ordinal_map r.(te_confidence_level),
   ["collector" :-> PStr r.(te_collector);
    "evidence_type" :-> PStr r.(te_evidence_type);
    "confidence_level" :-> PStr (ordinal_text r.(te_confidence_level));
    "limitations" :-> str_list r.(te_limitations);
    "raw_reference" :-> PStr r.(te_raw_reference);
    "chain_of_custody" :-> PDict (custody_dump r.(te_chain_of_custody))]).

(** [ts] is the formatted clock and [hex] the hexadecimal text of a fresh identifier. *)
Definition from_observation (ts hex source collector evidence_type observed_value : string)
    (level : ConfidenceOrdinal) (tier : string) (limitations : list string)
    (raw_reference event_id signal host_id : string) : TypedEvidenceRecord :=
  with_integrity
    {| te_evidence_id := "ev-" ++ PyStr.take 12 hex;
       te_schema_version := PLATFORM_SCHEMA_VERSION; te_source := source; te_timestamp := ts;
       te_collector := collector; te_evidence_type := evidence_type;
       te_observed_value := observed_value; te_confidence_level := level;
       te_evidence_tier := tier; te_limitations := limitations;
       te_raw_reference := raw_reference;
       te_chain_of_custody :=
         {| cu_collector_id := collector; cu_collector_version := "1.0"; cu_host_id := host_id;
            cu_session_id := ""; cu_collected_at_utc := ts; cu_integrity_hash := "";
            cu_parent_evidence_id := "" |};
       te_event_id := event_id; te_signal := text_or_else signal evidence_type |}.

Definition content_hash (v : pyval) : string := sha256_hexdigest (Json.dumps_compact v).

Definition records_to_bundle (records : list TypedEvidenceRecord)
    (incident_id tier summary : string) : pydict :=
  let dumped := PList (map (fun r => PDict (record_dump r)) records) in
  ["incident_id" :-> PStr incident_id;
   "schema_version" :-> PStr PLATFORM_SCHEMA_VERSION;
   "tier" :-> PStr tier;
   "summary" :-> PStr summary;
   "records" :-> dumped;
   "bundle_hash" :-> PStr (content_hash dumped)].

(** ** Properties *)

(** A record whose custody carries the hash of its content. *)
Definition verifies (r : TypedEvidenceRecord) : Prop :=
  r.(te_chain_of_custody).(cu_integrity_hash) = integrity_hash r.

Lemma hash_ignores_hash (h : string) (r : TypedEvidenceRecord) :
  integrity_hash (with_hash h r) = integrity_hash r.
Proof. done. Qed.

(** Sealing a record makes it verify and sealing it again changes nothing; and when two
    records that verify carry the same hash, everything they state, custody included, has
    the same canonical text, unless these two texts collide. *)
Theorem record_integrity (r r' : TypedEvidenceRecord) :
  verifies (with_integrity r)
  /\ with_integrity (with_integrity r) = with_integrity r
  /\ (verifies r -> verifies r' ->
      r.(te_chain_of_custody).(cu_integrity_hash) = r'.(te_chain_of_custody).(cu_integrity_hash) ->
      Json.dumps_compact (PDict (integrity_payload r))
      = Json.dumps_compact (PDict (integrity_payload r'))
      \/ Json.dumps_compact (PDict (integrity_payload r))
         <> Json.dumps_compact (PDict (integrity_payload r'))
         /\ sha256_hexdigest (Json.dumps_compact (PDict (integrity_payload r)))
            = sha256_hexdigest (Json.dumps_compact (PDict (integrity_payload r')))).
Proof.
  split; [done|]. split; [done|]. unfold verifies. intros -> -> He.
  destruct (String.eqb_spec (Json.dumps_compact (PDict (integrity_payload r)))
              (Json.dumps_compact (PDict (integrity_payload r')))); [by left|by right].
Qed.

(** Every ordinal becomes a confidence the item accepts, and a stronger ordinal a larger one. *)
Lemma item_confidence_bounded (r : TypedEvidenceRecord) :
  let c := (to_evidence_item r).1.2 in
  F64.leb F64.zero c = true /\ F64.leb c (F64.of_Z 1) = true.
Proof. cbn. by destruct (te_confidence_level r). Qed.
End Integrity.

Module TypedEvidenceWitness.
Definition observed (value : string) : TypedEvidenceRecord :=
  from_observation (H := DemoHost.demo_host) "2026-01-01T00:00:00Z" "00112233445566778899" "wininet"
    "proxy" "proxy_state" value medium_ordinal "OBSERVED_ONLY" [] "" "" "" "local".

(** Sealed records verify; a changed value does not. *)
Lemma changed_value_detected :
  let r := observed "1" in
  verifies (H := DemoHost.demo_host) r
  /\ integrity_hash (H := DemoHost.demo_host) r <> integrity_hash (H := DemoHost.demo_host) (observed "0").
Proof. split; [reflexivity|]. vm_compute. discriminate. Qed.

(** The bundle hash covers the records only: relabelling the bundle keeps it. *)
Lemma bundle_hash_ignores_label :
  let b := records_to_bundle (H := DemoHost.demo_host) [observed "1"] in
  Dict.get "bundle_hash" (b "INC-1" "OBSERVED_ONLY" "") = Dict.get "bundle_hash" (b "INC-2" "FINAL_CAUSATION" "x").
Proof. reflexivity. Qed.
End TypedEvidenceWitness.
