(* ===== verification/ProxyRestore.v ===== *)
(** * Restoring and clearing proxy settings

    [src/proxy_guard/rollback.py] and the [reg.exe] runner of [src/repair/executor.py]: the
    argument vectors that recreate a snapshot, the runs that apply them, and what they
    report.

    The commands are run by a host.  [CommandHost] is its interface, [RegistryLaws] what
    the documentation of [reg.exe] says of the registry a host shows; the theorems are
    proved against these, and [DemoRegistry] is a host that satisfies them. *)

From S2P Require Import Prelude PyValue ProxyDisable RegistryWriter GuardPolicy.
From Stdlib Require Import Ascii String.
From stdpp Require Import strings gmap.

Open Scope string_scope.
Open Scope Z_scope.
Open Scope py_scope.

(** ** The host *)

(** How a command ends: it cannot be run or times out, or it returns. *)
Inductive command_outcome :=
| CommandRaises (text : string)
| CommandDone (returncode : Z) (stdout stderr : string).

Class CommandHost (W : Type) := run_command : W -> list string -> W * command_outcome.

(** One row of an audit: the command and how it went. *)
Record command_row := {
  cr_argv : list string;
  cr_returncode : Z;
  cr_stdout : string;
  cr_stderr : string;
}.

Section Runs.
Context {W : Type} `{!CommandHost W}.

(** A command as all runners of the source report it; a dry run leaves [preview]. *)
Definition run_row (preview : string) (dry_run : bool) (argv : list string) (w : W)
    : command_row * W :=
  if dry_run then
    ({| cr_argv := argv; cr_returncode := 0; cr_stdout := preview; cr_stderr := "" |}, w)
  else
    match run_command w argv with
    | (w', CommandRaises text) =>
        ({| cr_argv := argv; cr_returncode := -1; cr_stdout := ""; cr_stderr := text |}, w')
    | (w', CommandDone code out err) =>
        ({| cr_argv := argv; cr_returncode := code; cr_stdout := out; cr_stderr := err |}, w')
    end.

(** Commands in order, each on the world the one before it left. *)
Fixpoint run_rows (preview : string) (dry_run : bool) (argvs : list (list string)) (w : W)
    : list command_row * W :=
  match argvs with
  | [] => ([], w)
  | argv :: rest =>
      let '(row, w1) := run_row preview dry_run argv w in
      let '(rows, w2) := run_rows preview dry_run rest w1 in
      (row :: rows, w2)
  end.

Definition apply_reg_argv_sequences (argvs : list (list string)) (dry_run : bool) (w : W)
    : list command_row * W :=
  run_rows "[dry-run] not executed" dry_run argvs w.

Definition apply_mutations (mutations : list ProxyDisableMutation) (dry_run : bool) (w : W)
    : list command_row * W :=
  run_rows "[dry-run] not executed" dry_run (map argv mutations) w.

(** ** WinHTTP *)

Definition NOT_SET : list string := ["not set"; "(none)"; "none"].

(** The text after the first colon, or else the first equals sign, of a proxy line. *)
Definition proxy_line_value (line : string) : option string :=
  let ls := PyStr.strip line in
  let ll := PyStr.lower ls in
  if negb (PyStr.contains "proxy server(s)" ll || PyStr.contains "proxy-server" ll) then None else
  let sep := if PyStr.contains ":" ls then ":" else "=" in
  match after_first sep ls with
  | None => None
  | Some rhs =>
      let rhs := PyStr.strip rhs in
      if PyStr.is_empty rhs || PyStr.mem (PyStr.lower rhs) NOT_SET then None else Some rhs
  end.

Definition parse_netsh_winhttp_show (stdout : string) : bool * option string :=
  let lowered := PyStr.lower stdout in
  if PyStr.contains "direct access (no proxy server)" lowered then (true, None) else
  match omap proxy_line_value (splitlines stdout) with
  | rhs :: _ => (false, Some rhs)
  | [] => if PyStr.contains "direct access" lowered then (true, None) else (false, None)
  end.

Definition run_netsh_winhttp_set_proxy (proxy_server_literal : string) (dry_run : bool) (w : W)
    : command_row * W :=
  run_row "[dry-run] netsh winhttp set proxy not executed" dry_run
    ["netsh"; "winhttp"; "set"; "proxy"; "proxy-server=" +:+ PyStr.strip proxy_server_literal] w.

Definition run_netsh_winhttp_reset_proxy (dry_run : bool) (w : W) : command_row * W :=
  run_row "[dry-run] netsh not executed" dry_run ["netsh"; "winhttp"; "reset"; "proxy"] w.

(** ** WinINET *)

(** [val is None or str(val).strip() == ""]. *)
Definition blank (v : option string) : bool :=
  match v with None => true | Some s => PyStr.is_empty (PyStr.strip s) end.

Definition reg_delete (key name : string) : list string := ["reg"; "delete"; key; "/v"; name; "/f"].
Definition reg_add (key name type data : string) : list string :=
  ["reg"; "add"; key; "/v"; name; "/t"; type; "/d"; data; "/f"].

Definition sz_or_delete (key : string) (v : option string) (name : string) : list string :=
  if blank v then reg_delete key name
  else reg_add key name "REG_SZ" (PyStr.strip (default "" v)).

Definition build_wininet_restore_argv_list (lkg : ProxySnapshot) : list (list string) :=
  ([sz_or_delete INTERNET_SETTINGS_KEY lkg.(sn_proxy_server) "ProxyServer";
    sz_or_delete INTERNET_SETTINGS_KEY lkg.(sn_auto_config_url) "AutoConfigURL";
    sz_or_delete INTERNET_SETTINGS_KEY lkg.(sn_proxy_override) "ProxyOverride"]
   ++ match lkg.(sn_proxy_enable) with
      | Some n => [reg_add INTERNET_SETTINGS_KEY "ProxyEnable" "REG_DWORD" (PyStr.of_Z n)]
      | None => []
      end)%list.

Definition row_ok (r : command_row) : bool := r.(cr_returncode) =? 0.

(** The WinHTTP part both restores share. *)
Definition restore_winhttp_row (restore_winhttp : bool) (lkg : ProxySnapshot) (dry_run : bool)
    (w : W) : option command_row * W :=
  if negb restore_winhttp then (None, w)
  else if lkg.(sn_winhttp_direct_access) then
    let '(row, w') := run_netsh_winhttp_reset_proxy dry_run w in (Some row, w')
  else
    match lkg.(sn_winhttp_proxy_server_literal) with
    | Some literal =>
        if PyStr.is_empty literal then (None, w)
        else let '(row, w') := run_netsh_winhttp_set_proxy literal dry_run w in (Some row, w')
    | None => (None, w)
    end.

Record RestoreReport := {
  rs_kind : string;
  rs_skipped : bool;
  rs_reason : option string;
  rs_success : option bool;
  rs_wininet_reg : list command_row;
  rs_winhttp : option command_row;
  rs_git : list command_row;
  rs_npm : list command_row;
  rs_user_env : list command_row;
}.

Definition skipped_report (kind reason : string) (success : option bool) : RestoreReport :=
  {| rs_kind := kind; rs_skipped := true; rs_reason := Some reason; rs_success := success;
     rs_wininet_reg := []; rs_winhttp := None; rs_git := []; rs_npm := []; rs_user_env := [] |}.

Definition execute_lkg_snapshot_rollback (lkg : option ProxySnapshot) (dry_run restore_winhttp : bool)
    (restore_git_npm_env : bool) (w : W) : RestoreReport * W :=
  if restore_git_npm_env then
    (skipped_report "lkg_denied_git_env_not_implemented_in_tooling"
       "restore_git_npm_env_requires_separate_confirmation" None, w)
  else
  match lkg with
  | None => (skipped_report "lkg_restore" "skipped_no_lkg" None, w)
  | Some lkg =>
      let '(reg_rows, w1) :=
        apply_reg_argv_sequences (build_wininet_restore_argv_list lkg) dry_run w in
      let '(winhttp_row, w2) := restore_winhttp_row restore_winhttp lkg dry_run w1 in
      let all_ok := forallb row_ok reg_rows
                    && match winhttp_row with Some r => row_ok r | None => true end in
      ({| rs_kind := "lkg_restore"; rs_skipped := false; rs_reason := None;
          rs_success := Some all_ok; rs_wininet_reg := reg_rows; rs_winhttp := winhttp_row;
          rs_git := []; rs_npm := []; rs_user_env := [] |}, w2)
  end.

Definition wininet_user_proxy_already_cleared {H : PyHost} (reg_dict : pydict) : bool :=
  py_eqb (Dict.get "proxy_enable" reg_dict) (PInt 0)
  && match Dict.get "proxy_server" reg_dict with
     | PNone => true
     | v => PyStr.is_empty (PyStr.strip (py_str v))
     end.

Record ClearReport := {
  cl_wininet_reg : list command_row;
  cl_winhttp_reset : option command_row;
  cl_skipped : bool;
}.

Definition execute_low_risk_proxy_rollback {H : PyHost} (dry_run clear_proxy_server_value reset_winhttp : bool)
    (current_wininet_reg : option pydict) (skip_if_cleared : bool) (w : W) : ClearReport * W :=
  let skipped := skip_if_cleared
                 && match current_wininet_reg with
                    | Some d => wininet_user_proxy_already_cleared d
                    | None => false
                    end in
  let '(rows, w1) :=
    if skipped then ([], w)
    else apply_mutations (build_user_proxy_disable_mutations clear_proxy_server_value true).1
           dry_run w in
  let '(winhttp, w2) :=
    if reset_winhttp then let '(r, w') := run_netsh_winhttp_reset_proxy dry_run w1 in (Some r, w')
    else (None, w1) in
  ({| cl_wininet_reg := rows; cl_winhttp_reset := winhttp; cl_skipped := skipped |}, w2).

(** ** Developer tools and the user environment *)

Definition HKCU_ENVIRONMENT_KEY : string := "HKCU\Environment".

Definition _run_external_argv_audit (argv : list string) (dry_run : bool) (w : W)
    : command_row * W :=
  run_row "[dry-run] not executed" dry_run argv w.

Definition git_restore_argv (full_key : string) (v : option string) : list string :=
  if blank v then ["git"; "config"; "--global"; "--unset-all"; full_key]
  else ["git"; "config"; "--global"; full_key; PyStr.strip (default "" v)].

Definition _git_row_ok (row : command_row) : bool :=
  if PyStr.mem "unset-all" (map PyStr.lower row.(cr_argv))
     && ((row.(cr_returncode) =? 0) || (row.(cr_returncode) =? 5))
  then true else row.(cr_returncode) =? 0.

Definition npm_restore_argv (key : string) (v : option string) : list string :=
  let stripped := PyStr.strip (default "" v) in
  if PyStr.is_empty stripped || PyStr.mem (PyStr.lower stripped) ["null"; "undefined"]
  then ["npm"; "config"; "delete"; key; "--global"]
  else ["npm"; "config"; "set"; key; stripped; "--global"].

Definition _env_reg_row_ok (row : command_row) : bool :=
  if PyStr.mem "delete" row.(cr_argv)
  then (row.(cr_returncode) =? 0) || (row.(cr_returncode) =? 1)
  else row.(cr_returncode) =? 0.

Definition execute_known_good_proxy_restore (target : option ProxySnapshot)
    (dry_run restore_winhttp : bool) (w : W) : RestoreReport * W :=
  match target with
  | None => (skipped_report "known_good_restore" "skipped_no_target_snapshot" (Some false), w)
  | Some t =>
      let audit argvs w := run_rows "[dry-run] not executed" dry_run argvs w in
      let '(reg_rows, w1) :=
        apply_reg_argv_sequences (build_wininet_restore_argv_list t) dry_run w in
      let '(winhttp_row, w2) := restore_winhttp_row restore_winhttp t dry_run w1 in
      let '(git_audits, w3) :=
        audit [git_restore_argv "http.proxy" t.(sn_git_http_proxy);
               git_restore_argv "https.proxy" t.(sn_git_https_proxy)] w2 in
      let '(npm_audits, w4) :=
        audit [npm_restore_argv "proxy" t.(sn_npm_proxy);
               npm_restore_argv "https-proxy" t.(sn_npm_https_proxy)] w3 in
      let '(user_env_audits, w5) :=
        audit [sz_or_delete HKCU_ENVIRONMENT_KEY t.(sn_user_http_proxy) "HTTP_PROXY";
               sz_or_delete HKCU_ENVIRONMENT_KEY t.(sn_user_https_proxy) "HTTPS_PROXY";
               sz_or_delete HKCU_ENVIRONMENT_KEY t.(sn_user_all_proxy) "ALL_PROXY";
               sz_or_delete HKCU_ENVIRONMENT_KEY t.(sn_user_no_proxy) "NO_PROXY"] w4 in
      let overall :=
        forallb row_ok reg_rows
        && match winhttp_row with Some r => row_ok r | None => true end
        && forallb _git_row_ok git_audits && forallb row_ok npm_audits
        && forallb _env_reg_row_ok user_env_audits in
      ({| rs_kind := "known_good_restore"; rs_skipped := false; rs_reason := None;
          rs_success := Some overall; rs_wininet_reg := reg_rows; rs_winhttp := winhttp_row;
          rs_git := git_audits; rs_npm := npm_audits; rs_user_env := user_env_audits |}, w5)
  end.
End Runs.

(** ** What a host promises of the registry *)

(** Registry names are compared without case. *)
Definition same_value (a b : string * string) : Prop :=
  PyStr.lower a.1 = PyStr.lower b.1 /\ PyStr.lower a.2 = PyStr.lower b.2.

(** A value of a key: its type and its data. *)
Class RegistryView (W : Type) := reg_value : W -> string * string -> option (string * string).

(** The documented effect of [reg.exe]: a command touches only the value it names; a
    successful one sets or removes it; removing an absent one does not succeed; other
    programs leave the registry alone.  Any command may also fail or time out. *)
Class RegistryLaws (W : Type) `{!CommandHost W, !RegistryView W} := {
  reg_add_sets w key name type data w' out err :
    run_command w (reg_add key name type data) = (w', CommandDone 0 out err) ->
    reg_value w' (key, name) = Some (type, data);
  reg_delete_removes w key name w' out err :
    run_command w (reg_delete key name) = (w', CommandDone 0 out err) ->
    reg_value w' (key, name) = None;
  reg_delete_absent w key name :
    reg_value w (key, name) = None ->
    forall w' out err, run_command w (reg_delete key name) <> (w', CommandDone 0 out err);
  reg_add_frame w key name type data v :
    ~ same_value v (key, name) ->
    reg_value (run_command w (reg_add key name type data)).1 v = reg_value w v;
  reg_delete_frame w key name v :
    ~ same_value v (key, name) ->
    reg_value (run_command w (reg_delete key name)).1 v = reg_value w v;
  other_program_frame w program args v :
    program <> "reg" -> reg_value (run_command w (program :: args)).1 v = reg_value w v;
}.

(** A write: the value and what it should hold. *)
Record reg_write := { wr_name : string * string; wr_target : option (string * string) }.

Definition write_argv (x : reg_write) : list string :=
  match x.(wr_target) with
  | Some (type, data) => reg_add x.(wr_name).1 x.(wr_name).2 type data
  | None => reg_delete x.(wr_name).1 x.(wr_name).2
  end.

(** What a text field of a snapshot means for the registry. *)
Definition sz_target (v : option string) : option (string * string) :=
  if blank v then None else Some ("REG_SZ", PyStr.strip (default "" v)).

(** The writes of a snapshot. *)
Definition snapshot_writes (lkg : ProxySnapshot) : list reg_write :=
  ([{| wr_name := (INTERNET_SETTINGS_KEY, "ProxyServer"); wr_target := sz_target lkg.(sn_proxy_server) |};
    {| wr_name := (INTERNET_SETTINGS_KEY, "AutoConfigURL"); wr_target := sz_target lkg.(sn_auto_config_url) |};
    {| wr_name := (INTERNET_SETTINGS_KEY, "ProxyOverride"); wr_target := sz_target lkg.(sn_proxy_override) |}]
   ++ match lkg.(sn_proxy_enable) with
      | Some n => [{| wr_name := (INTERNET_SETTINGS_KEY, "ProxyEnable");
                      wr_target := Some ("REG_DWORD", PyStr.of_Z n) |}]
      | None => []
      end)%list.

Lemma sz_or_delete_write (key name : string) (v : option string) :
  sz_or_delete key v name = write_argv {| wr_name := (key, name); wr_target := sz_target v |}.
Proof. unfold sz_or_delete, sz_target, write_argv. by destruct (blank v). Qed.

Lemma restore_list_writes (lkg : ProxySnapshot) :
  build_wininet_restore_argv_list lkg = map write_argv (snapshot_writes lkg).
Proof.
  unfold build_wininet_restore_argv_list, snapshot_writes. rewrite !sz_or_delete_write.
  by destruct lkg.(sn_proxy_enable).
Qed.

(** Writes to different values. *)
Definition separate (ws : list reg_write) : Prop :=
  ForallOrdPairs (fun a b => ~ same_value a.(wr_name) b.(wr_name)) ws.

Lemma snapshot_writes_separate (lkg : ProxySnapshot) : separate (snapshot_writes lkg).
Proof.
  unfold separate, snapshot_writes. destruct lkg.(sn_proxy_enable);
    repeat constructor; cbn; intros [_ H]; vm_compute in H; discriminate.
Qed.

Lemma snapshot_writes_key (lkg : ProxySnapshot) :
  Forall (fun x => x.(wr_name).1 = INTERNET_SETTINGS_KEY) (snapshot_writes lkg).
Proof. unfold snapshot_writes. destruct lkg.(sn_proxy_enable); by repeat constructor. Qed.

(** The registry holds what a write asks for; the host is a parameter of what follows. *)
Section Restored.
Context {W : Type} `{!CommandHost W, !RegistryView W, !RegistryLaws W}.

Definition holds (w : W) (x : reg_write) : Prop := reg_value w x.(wr_name) = x.(wr_target).

Lemma write_frame (x : reg_write) (w : W) (v : string * string) :
  ~ same_value v x.(wr_name) -> reg_value (run_command w (write_argv x)).1 v = reg_value w v.
Proof.
  destruct x as [[key name] [[type data]|]]; cbn [write_argv wr_target wr_name fst snd]; intros Hv.
  - by apply reg_add_frame.
  - by apply reg_delete_frame.
Qed.

Lemma run_row_world (preview : string) (argv : list string) (w : W) :
  (run_row preview false argv w).2 = (run_command w argv).1.
Proof. unfold run_row. by destruct (run_command w argv) as [? []]. Qed.

Lemma write_ok (x : reg_write) (preview : string) (w : W) :
  row_ok (run_row preview false (write_argv x) w).1 = true ->
  holds (run_row preview false (write_argv x) w).2 x.
Proof.
  unfold run_row, holds, row_ok. destruct x as [[key name] target].
  destruct (run_command _ _) as [w' [text|code out err]] eqn:E; cbn; [done|].
  intros ->%Z.eqb_eq. destruct target as [[type data]|]; cbn in E |- *.
  - by eapply reg_add_sets.
  - by eapply reg_delete_removes.
Qed.

Lemma writes_frame (preview : string) (ws : list reg_write) (w : W) (v : string * string) :
  Forall (fun x => ~ same_value v x.(wr_name)) ws ->
  reg_value (run_rows preview false (map write_argv ws) w).2 v = reg_value w v.
Proof.
  revert w. induction ws as [|x ws IH]; intros w Hv; [done|]. apply Forall_cons in Hv as [Hx Hv].
  cbn [map run_rows]. rewrite (surjective_pairing (run_row _ _ _ _)).
  rewrite (surjective_pairing (run_rows _ _ _ _)). cbn [snd].
  rewrite IH; [|done]. rewrite run_row_world. by apply write_frame.
Qed.

(** When every row succeeds, every write holds at the end. *)
Lemma writes_hold (preview : string) (ws : list reg_write) (w : W) :
  separate ws ->
  forallb row_ok (run_rows preview false (map write_argv ws) w).1 = true ->
  Forall (holds (run_rows preview false (map write_argv ws) w).2) ws.
Proof.
  revert w. induction ws as [|x ws IH]; intros w Hs; [done|]. inversion_clear Hs as [|? ? Hx Hs'].
  cbn [map run_rows]. rewrite (surjective_pairing (run_row _ _ _ _)).
  set (w1 := (run_row preview false (write_argv x) w).2).
  rewrite (surjective_pairing (run_rows _ _ _ w1)). cbn [fst snd forallb].
  intros [Ho Hos]%andb_prop. constructor; [|by apply IH].
  unfold holds. rewrite writes_frame; [by apply write_ok|].
  eapply Forall_impl; [exact Hx|]. by intros y Hy.
Qed.

Definition not_reg (a : list string) : Prop := match a with p :: _ => p <> "reg" | [] => False end.

Lemma git_program (key : string) (v : option string) : not_reg (git_restore_argv key v).
Proof. unfold git_restore_argv. by destruct (blank v). Qed.

Lemma npm_program (key : string) (v : option string) : not_reg (npm_restore_argv key v).
Proof. unfold npm_restore_argv. by destruct (_ || _). Qed.

(** Programs other than [reg] do not matter. *)
Lemma other_rows_frame (preview : string) (argvs : list (list string)) (w : W) (v : string * string) :
  Forall not_reg argvs ->
  reg_value (run_rows preview false argvs w).2 v = reg_value w v.
Proof.
  revert w. induction argvs as [|a argvs IH]; intros w Ha; [done|]. apply Forall_cons in Ha as [Hp Ha].
  cbn [run_rows]. rewrite (surjective_pairing (run_row _ _ _ _)).
  rewrite (surjective_pairing (run_rows _ _ _ _)). cbn [snd]. rewrite IH, run_row_world; [|done].
  destruct a as [|p a]; [done|]. by apply other_program_frame.
Qed.

Lemma winhttp_frame (restore : bool) (lkg : ProxySnapshot) (w : W) (v : string * string) :
  reg_value (restore_winhttp_row restore lkg false w).2 v = reg_value w v.
Proof.
  unfold restore_winhttp_row, run_netsh_winhttp_reset_proxy, run_netsh_winhttp_set_proxy.
  destruct (negb restore); [done|]. destruct lkg.(sn_winhttp_direct_access).
  - rewrite (surjective_pairing (run_row _ _ _ _)). cbn [snd]. rewrite run_row_world.
    by apply other_program_frame.
  - destruct lkg.(sn_winhttp_proxy_server_literal) as [l|]; [|done]. destruct (PyStr.is_empty l); [done|].
    rewrite (surjective_pairing (run_row _ _ _ _)). cbn [snd]. rewrite run_row_world.
    by apply other_program_frame.
Qed.

(** The values a snapshot is about. *)
Definition untouched (lkg : ProxySnapshot) (v : string * string) : Prop :=
  Forall (fun x => ~ same_value v x.(wr_name)) (snapshot_writes lkg).

Lemma lkg_restore_effect (lkg : ProxySnapshot) (restore_winhttp : bool) (w w' : W)
    (r : RestoreReport) :
  execute_lkg_snapshot_rollback (Some lkg) false restore_winhttp false w = (r, w') ->
  (r.(rs_success) = Some true -> Forall (holds w') (snapshot_writes lkg))
  /\ (forall v, untouched lkg v -> reg_value w' v = reg_value w v).
Proof.
  unfold execute_lkg_snapshot_rollback, apply_reg_argv_sequences. rewrite restore_list_writes.
  rewrite (surjective_pairing (run_rows _ _ _ w)). set (w1 := (run_rows _ _ _ w).2).
  rewrite (surjective_pairing (restore_winhttp_row _ _ _ w1)). intros [= <- <-]. cbn [rs_success].
  split.
  - intros [= [Ho _]%andb_prop]. eapply Forall_impl; [apply writes_hold; [apply snapshot_writes_separate|exact Ho]|].
    intros x Hx. unfold holds. by rewrite winhttp_frame.
  - intros v Hv. rewrite winhttp_frame. by apply writes_frame.
Qed.

(** The same for the restore that also covers developer tools and the environment. *)
Lemma known_good_restore_effect (t : ProxySnapshot) (restore_winhttp : bool) (w w' : W)
    (r : RestoreReport) :
  execute_known_good_proxy_restore (Some t) false restore_winhttp w = (r, w') ->
  r.(rs_success) = Some true -> Forall (holds w') (snapshot_writes t).
Proof.
  unfold execute_known_good_proxy_restore, apply_reg_argv_sequences. rewrite restore_list_writes.
  rewrite !sz_or_delete_write.
  rewrite (surjective_pairing (run_rows _ _ (map write_argv (snapshot_writes t)) w)).
  set (w1 := (run_rows _ _ (map write_argv (snapshot_writes t)) w).2).
  rewrite (surjective_pairing (restore_winhttp_row _ _ _ w1)). set (w2 := (restore_winhttp_row _ _ _ w1).2).
  set (gits := [git_restore_argv "http.proxy" _; _]).
  rewrite (surjective_pairing (run_rows _ _ gits w2)). set (w3 := (run_rows _ _ gits w2).2).
  set (npms := [npm_restore_argv "proxy" _; _]).
  rewrite (surjective_pairing (run_rows _ _ npms w3)). set (w4 := (run_rows _ _ npms w3).2).
  set (envs := [{| wr_name := (HKCU_ENVIRONMENT_KEY, "HTTP_PROXY"); wr_target := sz_target t.(sn_user_http_proxy) |};
                {| wr_name := (HKCU_ENVIRONMENT_KEY, "HTTPS_PROXY"); wr_target := sz_target t.(sn_user_https_proxy) |};
                {| wr_name := (HKCU_ENVIRONMENT_KEY, "ALL_PROXY"); wr_target := sz_target t.(sn_user_all_proxy) |};
                {| wr_name := (HKCU_ENVIRONMENT_KEY, "NO_PROXY"); wr_target := sz_target t.(sn_user_no_proxy) |}]).
  change [write_argv _; _; _; _] with (map write_argv envs).
  rewrite (surjective_pairing (run_rows _ _ (map write_argv envs) w4)).
  intros [<- <-]%pair_equal_spec. cbn [rs_success]. intros [= Hall]. rewrite !andb_true_iff in Hall.
  destruct Hall as [[[[Ho _] _] _] _].
  pose proof (writes_hold "[dry-run] not executed" _ w (snapshot_writes_separate t) Ho) as Hw.
  fold w1 in Hw. rewrite Forall_forall in Hw |- *. intros x Hx. unfold holds.
  pose proof (snapshot_writes_key t) as Hkey. rewrite Forall_forall in Hkey. specialize (Hkey x Hx).
  rewrite writes_frame.
  2: { unfold envs. repeat constructor; intros [Hk _]; rewrite Hkey in Hk; vm_compute in Hk; discriminate. }
  unfold w4. rewrite other_rows_frame.
  2: { repeat apply Forall_cons_2; [apply npm_program|apply npm_program|apply Forall_nil_2]. }
  unfold w3. rewrite other_rows_frame.
  2: { repeat apply Forall_cons_2; [apply git_program|apply git_program|apply Forall_nil_2]. }
  unfold w2. rewrite winhttp_frame. by apply Hw.
Qed.

(** Beside the values of the snapshot only the user environment may change. *)
Lemma known_good_frame (t : ProxySnapshot) (rw : bool) (w : W) (v : string * string) :
  untouched t v -> PyStr.lower v.1 <> PyStr.lower HKCU_ENVIRONMENT_KEY ->
  reg_value (execute_known_good_proxy_restore (Some t) false rw w).2 v = reg_value w v.
Proof.
  intros Hi He. unfold execute_known_good_proxy_restore, apply_reg_argv_sequences.
  rewrite restore_list_writes, !sz_or_delete_write.
  rewrite (surjective_pairing (run_rows _ _ (map write_argv (snapshot_writes t)) w)).
  set (w1 := (run_rows _ _ (map write_argv (snapshot_writes t)) w).2).
  rewrite (surjective_pairing (restore_winhttp_row _ _ _ w1)). set (w2 := (restore_winhttp_row _ _ _ w1).2).
  rewrite (surjective_pairing (run_rows _ _ [git_restore_argv _ _; _] w2)).
  set (w3 := (run_rows _ _ [git_restore_argv _ _; _] w2).2).
  rewrite (surjective_pairing (run_rows _ _ [npm_restore_argv _ _; _] w3)).
  set (w4 := (run_rows _ _ [npm_restore_argv _ _; _] w3).2).
  match goal with |- context [run_rows _ _ [write_argv ?a; write_argv ?b; write_argv ?c; write_argv ?d] w4] =>
    change [write_argv a; write_argv b; write_argv c; write_argv d] with (map write_argv [a; b; c; d]) end.
  rewrite (surjective_pairing (run_rows _ _ (map write_argv _) w4)). cbn [snd].
  rewrite writes_frame by (repeat constructor; by intros [? _]).
  unfold w4. rewrite other_rows_frame
    by (repeat apply Forall_cons_2; [apply npm_program|apply npm_program|apply Forall_nil_2]).
  unfold w3. rewrite other_rows_frame
    by (repeat apply Forall_cons_2; [apply git_program|apply git_program|apply Forall_nil_2]).
  unfold w2. rewrite winhttp_frame. by apply writes_frame.
Qed.

Lemma auto_detect_untouched (s : ProxySnapshot) : untouched s (INTERNET_SETTINGS_KEY, "AutoDetect").
Proof.
  unfold untouched, snapshot_writes. destruct s.(sn_proxy_enable);
    repeat constructor; cbn; intros [_ H]; vm_compute in H; discriminate.
Qed.

Lemma unknown_switch_untouched (s : ProxySnapshot) :
  s.(sn_proxy_enable) = None -> untouched s (INTERNET_SETTINGS_KEY, "ProxyEnable").
Proof.
  intros Hn. unfold untouched, snapshot_writes. rewrite Hn.
  repeat constructor; cbn; intros [_ H]; vm_compute in H; discriminate.
Qed.

(** What a restore makes of the five WinINET values: the texts of the snapshot, trimmed, a
    blank one as no value; the switch, when the snapshot knows it; [AutoDetect] as it was,
    whatever the snapshot says of it. *)
Definition restored_values (lkg : ProxySnapshot) (before after : string -> option (string * string)) : Prop :=
  after "ProxyServer" = sz_target lkg.(sn_proxy_server)
  /\ after "AutoConfigURL" = sz_target lkg.(sn_auto_config_url)
  /\ after "ProxyOverride" = sz_target lkg.(sn_proxy_override)
  /\ after "ProxyEnable" = match lkg.(sn_proxy_enable) with
                           | Some n => Some ("REG_DWORD", PyStr.of_Z n)
                           | None => before "ProxyEnable"
                           end
  /\ after "AutoDetect" = before "AutoDetect".

Definition wininet_values (w : W) (name : string) : option (string * string) :=
  reg_value w (INTERNET_SETTINGS_KEY, name).

Lemma held_values (lkg : ProxySnapshot) (w w' : W) :
  Forall (holds w') (snapshot_writes lkg) ->
  (forall v, v.1 = INTERNET_SETTINGS_KEY -> untouched lkg v -> reg_value w' v = reg_value w v) ->
  restored_values lkg (wininet_values w) (wininet_values w').
Proof.
  unfold restored_values, wininet_values. intros Hh Hf.
  pose proof (Hf (INTERNET_SETTINGS_KEY, "AutoDetect") eq_refl (auto_detect_untouched lkg)) as Had.
  pose proof (fun E => Hf (INTERNET_SETTINGS_KEY, "ProxyEnable") eq_refl (unknown_switch_untouched lkg E)) as Hen.
  revert Hh. unfold snapshot_writes. destruct lkg.(sn_proxy_enable); cbn [app]; rewrite !Forall_cons;
    unfold holds; cbn [wr_name wr_target].
  - by intros (H1 & H2 & H3 & H4 & _).
  - intros (H1 & H2 & H3 & _). rewrite (Hen eq_refl). done.
Qed.


(** A write that should remove a value the registry does not have fails its run. *)
Lemma absent_delete_fails (preview : string) (ws : list reg_write) (w : W) (x : reg_write) :
  separate ws -> In x ws -> x.(wr_target) = None -> holds w x ->
  forallb row_ok (run_rows preview false (map write_argv ws) w).1 = false.
Proof.
  revert w. induction ws as [|y ws IH]; intros w Hs Hin Hx Hh; [done|].
  inversion_clear Hs as [|? ? Hy Hs']. cbn [map run_rows].
  rewrite (surjective_pairing (run_row _ _ _ _)). rewrite (surjective_pairing (run_rows _ _ _ _)).
  cbn [fst forallb]. destruct Hin as [->|Hin].
  - apply andb_false_iff. left. unfold holds in Hh. rewrite Hx in Hh. unfold write_argv. rewrite Hx.
    destruct x as [[key name] t]. cbn in Hh, Hx |- *.
    pose proof (reg_delete_absent w key name Hh) as Hno. unfold run_row, row_ok.
    destruct (run_command w _) as [w1 [text|code out err]]; [done|]. cbn.
    apply Z.eqb_neq. intros ->. by destruct (Hno w1 out err).
  - apply andb_false_iff. right. apply IH; [done..|]. unfold holds. rewrite run_row_world, write_frame; [done|].
    rewrite Forall_forall in Hy. specialize (Hy x (proj2 (list_elem_of_In _ _) Hin)).
    intros [H1 H2]. by apply Hy.
Qed.

(** Restoring a snapshot with an absent text value a second time reports a failure,
    although the registry is already as asked: the deletion of an absent value is not
    accepted as done. *)
Theorem repeated_restore_reports_failure (lkg : ProxySnapshot) (rw : bool) (w w1 w2 : W)
    (r1 r2 : RestoreReport) :
  blank lkg.(sn_proxy_server) || blank lkg.(sn_auto_config_url) || blank lkg.(sn_proxy_override) = true ->
  execute_lkg_snapshot_rollback (Some lkg) false rw false w = (r1, w1) ->
  r1.(rs_success) = Some true ->
  execute_lkg_snapshot_rollback (Some lkg) false rw false w1 = (r2, w2) ->
  Forall (holds w1) (snapshot_writes lkg) /\ r2.(rs_success) = Some false.
Proof.
  intros Hb E1 Hr1 E2.
  assert (Hw : Forall (holds w1) (snapshot_writes lkg)) by (by apply (lkg_restore_effect lkg rw w w1 r1)).
  split; [done|].
  assert (exists x, In x (snapshot_writes lkg) /\ x.(wr_target) = None) as (x & Hin & Hx).
  { unfold snapshot_writes, sz_target. rewrite !orb_true_iff in Hb.
    destruct Hb as [[->| ->]| ->]; eexists.
    - split; [by left|reflexivity].
    - split; [by right; left|reflexivity].
    - split; [by right; right; left|reflexivity]. }
  revert E2. unfold execute_lkg_snapshot_rollback, apply_reg_argv_sequences. rewrite restore_list_writes.
  rewrite (surjective_pairing (run_rows _ _ _ w1)).
  rewrite (surjective_pairing (restore_winhttp_row _ _ _ _)). intros [<- <-]%pair_equal_spec. cbn [rs_success].
  rewrite (absent_delete_fails _ _ _ x); [done|apply snapshot_writes_separate|done|done|].
  rewrite Forall_forall in Hw. by apply Hw, list_elem_of_In.
Qed.
End Restored.

(** ** Previews and scope *)

Section Scope.
Context {W : Type} `{!CommandHost W} {H : PyHost}.

Lemma dry_rows (preview : string) (argvs : list (list string)) (w : W) :
  (run_rows preview true argvs w).2 = w
  /\ forallb row_ok (run_rows preview true argvs w).1 = true
  /\ map cr_argv (run_rows preview true argvs w).1 = argvs.
Proof.
  induction argvs as [|a argvs (IHw & IHo & IHa)]; [done|]. cbn [run_rows run_row].
  rewrite (surjective_pairing (run_rows _ _ _ w)). cbn [fst snd forallb map].
  by rewrite IHo, IHa.
Qed.

(** A dry run runs nothing: whatever the host, the three procedures leave the world as
    it was, report success, and list exactly the commands a live run would try. *)
Theorem dry_run_inert (lkg : ProxySnapshot) (winhttp clear : bool) (current : option pydict)
    (skip : bool) (w : W) :
  (let '(r, w') := execute_lkg_snapshot_rollback (Some lkg) true winhttp false w in
   w' = w /\ r.(rs_success) = Some true
   /\ map cr_argv r.(rs_wininet_reg) = build_wininet_restore_argv_list lkg)
  /\ (let '(r, w') := execute_known_good_proxy_restore (Some lkg) true winhttp w in
      w' = w /\ r.(rs_success) = Some true
      /\ map cr_argv r.(rs_wininet_reg) = build_wininet_restore_argv_list lkg)
  /\ (let '(r, w') := execute_low_risk_proxy_rollback true clear winhttp current skip w in
      w' = w /\ forallb row_ok r.(cl_wininet_reg) = true).
Proof.
  assert (Hh : forall w, exists o, restore_winhttp_row winhttp lkg true w = (o, w)
             /\ match o with Some r => row_ok r | None => true end = true).
  { intros w0. unfold restore_winhttp_row, run_netsh_winhttp_reset_proxy, run_netsh_winhttp_set_proxy, run_row.
    destruct winhttp; cbn [negb]; [|by eexists]. destruct lkg.(sn_winhttp_direct_access); [by eexists|].
    destruct lkg.(sn_winhttp_proxy_server_literal) as [l|]; [|by eexists].
    destruct (PyStr.is_empty l); by eexists. }
  destruct (dry_rows "[dry-run] not executed" (build_wininet_restore_argv_list lkg) w) as (Hw & Ho & Ha).
  destruct (Hh w) as (o & Eo & Hok). split; [|split].
  - unfold execute_lkg_snapshot_rollback, apply_reg_argv_sequences.
    rewrite (surjective_pairing (run_rows _ _ _ w)), Hw, Eo. cbn [rs_success rs_wininet_reg].
    by rewrite Ho, Hok.
  - unfold execute_known_good_proxy_restore, apply_reg_argv_sequences.
    rewrite (surjective_pairing (run_rows _ _ (build_wininet_restore_argv_list lkg) w)), Hw, Eo.
    cbn [run_rows run_row rs_success rs_wininet_reg forallb andb]. rewrite Ho, Hok. split; [done|].
    split; [|done]. f_equal. unfold _git_row_ok, _env_reg_row_ok. cbn [cr_returncode cr_argv].
    by repeat case_match.
  - unfold execute_low_risk_proxy_rollback, apply_mutations, run_netsh_winhttp_reset_proxy, run_row.
    destruct (skip && _).
    + by destruct winhttp.
    + destruct (dry_rows "[dry-run] not executed"
        (map argv (build_user_proxy_disable_mutations clear true).1) w) as (Hw' & Ho' & _).
      rewrite (surjective_pairing (run_rows _ _ _ w)), Hw'. by destruct winhttp.
Qed.

(** Every command of a restore adds or deletes a value of the WinINET key that the
    allowlisted restore action names; the [AutoDetect] value it also names is never
    written. *)
Lemma restore_commands_allowlisted (lkg : ProxySnapshot) :
  exists action, get_allowlisted_action "restore_wininet_proxy_from_lkg" = Some action
    /\ Forall (fun a => exists verb name rest, In verb ["add"; "delete"]
         /\ a = "reg" :: verb :: INTERNET_SETTINGS_KEY :: "/v" :: name :: rest
         /\ In name action.(aa_allowed_registry_fields) /\ name <> "AutoDetect")
       (build_wininet_restore_argv_list lkg).
Proof.
  eexists. split; [reflexivity|]. rewrite restore_list_writes. unfold snapshot_writes.
  assert (Hs : forall name v, In name ["ProxyServer"; "AutoConfigURL"; "ProxyOverride"] ->
    exists verb n rest, In verb ["add"; "delete"]
      /\ write_argv {| wr_name := (INTERNET_SETTINGS_KEY, name); wr_target := sz_target v |}
         = "reg" :: verb :: INTERNET_SETTINGS_KEY :: "/v" :: n :: rest
      /\ In n ["ProxyEnable"; "ProxyServer"; "AutoConfigURL"; "ProxyOverride"; "AutoDetect"]
      /\ n <> "AutoDetect").
  { intros name v Hn. unfold sz_target, write_argv.
    destruct (blank v); cbn [wr_target wr_name fst snd]; eexists _, name, _;
      (split; [|split; [reflexivity|]]); [by right; left| |by left|];
      destruct Hn as [<-|[<-|[<-|[]]]]; (split; [cbn; auto 8|discriminate]). }
  rewrite map_app. apply Forall_app_2.
  - repeat apply Forall_cons_2; [apply Hs; cbn; auto..|apply Forall_nil_2].
  - destruct lkg.(sn_proxy_enable); [|apply Forall_nil_2].
    apply Forall_cons_2; [|apply Forall_nil_2]. eexists "add", "ProxyEnable", _.
    split; [by left|]. split; [reflexivity|]. split; [by left|discriminate].
Qed.

(** Removing a git setting that is not there (code 5) is counted as a failure: the test
    looks for the option without its dashes. *)
Lemma git_unset_missing_fails (key : string) (out err : string) :
  PyStr.lower key <> "unset-all" ->
  _git_row_ok {| cr_argv := git_restore_argv key None; cr_returncode := 5; cr_stdout := out;
                 cr_stderr := err |} = false.
Proof.
  intros Hk. unfold _git_row_ok. cbn [cr_argv cr_returncode].
  assert (PyStr.mem "unset-all" (map PyStr.lower (git_restore_argv key None)) = false) as ->; [|done].
  apply not_true_iff_false. intros Hm%PyStr.mem_In. cbn [git_restore_argv blank map In] in Hm.
  destruct Hm as [Hm|[Hm|[Hm|[Hm|[Hm|[]]]]]]; [vm_compute in Hm; discriminate..|done].
Qed.
End Scope.

(** ** A host that keeps the laws *)

Module DemoRegistry.
Definition canonical (v : string * string) : string * string := (PyStr.lower v.1, PyStr.lower v.2).

Definition registry : Type := gmap (string * string) (string * string).

#[export] Instance demo_view : RegistryView registry := fun w v => w !! canonical v.

#[export] Instance demo_host : CommandHost registry := fun w a =>
  match a with
  | ["reg"; "add"; key; "/v"; name; "/t"; type; "/d"; data; "/f"] =>
      (<[canonical (key, name) := (type, data)]> w, CommandDone 0 "" "")
  | ["reg"; "delete"; key; "/v"; name; "/f"] =>
      match w !! canonical (key, name) with
      | Some _ => (delete (canonical (key, name)) w, CommandDone 0 "" "")
      | None => (w, CommandDone 1 "" "not found")
      end
  | _ => (w, CommandDone 0 "" "")
  end.

Lemma canonical_ne (v x : string * string) : ~ same_value v x -> canonical v <> canonical x.
Proof. intros Hn [= H1 H2]. by apply Hn. Qed.

#[export] Instance demo_laws : RegistryLaws registry.
Proof.
  constructor.
  - intros w key name type data w' out err [= <- _ _]. apply lookup_insert_eq.
  - intros w key name w' out err. unfold run_command, reg_delete. cbn.
    destruct (w !! _) eqn:E; [|discriminate]. intros [= <- _ _]. apply lookup_delete_eq.
  - intros w key name Hn. unfold run_command, reg_delete. cbn. unfold reg_value, demo_view in Hn.
    rewrite Hn. by intros w' out err.
  - intros w key name type data v Hv. apply lookup_insert_ne. by apply not_eq_sym, canonical_ne.
  - intros w key name v Hv. unfold run_command, reg_delete. cbn. destruct (w !! _); [|done].
    apply lookup_delete_ne. by apply not_eq_sym, canonical_ne.
  - intros w program args v Hp. unfold run_command. cbn. by repeat case_match.
Qed.
End DemoRegistry.

Module RestoreWitness.
Import DemoRegistry.

Definition lkg : ProxySnapshot :=
  {| sn_proxy_enable := Some 1; sn_proxy_server := Some " 127.0.0.1:8080 "; sn_proxy_override := Some "<local>";
     sn_auto_config_url := None; sn_auto_detect := Some 1; sn_winhttp_proxy := "";
     sn_winhttp_direct_access := true; sn_winhttp_proxy_server_literal := None;
     sn_git_http_proxy := None; sn_git_https_proxy := None; sn_npm_proxy := None;
     sn_npm_https_proxy := None; sn_user_http_proxy := None; sn_user_https_proxy := None;
     sn_user_all_proxy := None; sn_user_no_proxy := None; sn_captured_at := "t" |}.

Definition drifted : registry :=
  <[canonical (INTERNET_SETTINGS_KEY, "AutoConfigURL") := ("REG_SZ", "http://pac")]> ∅.

Definition first : RestoreReport * registry :=
  execute_lkg_snapshot_rollback (Some lkg) false true false drifted.
Definition full : RestoreReport * registry :=
  execute_known_good_proxy_restore (Some lkg) false true drifted.
Definition second : RestoreReport * registry :=
  execute_lkg_snapshot_rollback (Some lkg) false true false first.2.


Lemma repeated_restore_reports_failure_witness :
  Forall (holds first.2) (snapshot_writes lkg) /\ second.1.(rs_success) = Some false.
Proof.
  refine (repeated_restore_reports_failure lkg true drifted first.2 second.2 first.1 second.1
            _ (surjective_pairing first) _ (surjective_pairing second)); vm_compute; reflexivity.
Defined.
End RestoreWitness.
