(* ===== verification/GuardTransition.v ===== *)
(** * Judging a proxy transition

    What the proxy guard thinks of one change of the WinINET settings:
    [src/proxy_guard/proxy_path_operational.py] (is the configured path usable),
    [guard_evaluation.py] (allowed, blocked or observed), [connectivity.py] (did the
    network get worse), [decision.py] and [pipeline.py] (the decision that is recorded).

    Probe outcomes are arguments. *)

From S2P Require Import Prelude PyValue ProxyParser RegistryWriter GuardPolicy.
From Stdlib Require Import Ascii String.
From stdpp Require Import strings.

Open Scope string_scope.
Open Scope Z_scope.
Open Scope py_scope.

(** ** The operational path *)

Inductive ProxyPathComposite :=
| DIRECT | LATENT_MISCONFIG | LOOPBACK_OPERATIONAL | LOOPBACK_BROKEN | ENTERPRISE_PAC.

#[export] Instance ProxyPathComposite_eq_dec : EqDecision ProxyPathComposite.
Proof. solve_decision. Defined.

Inductive PathRecommendation := observe_no_rollback | remediation_preview | insufficient_signal.

Inductive PathTier :=
| TIER_0_RAW_OBSERVATION | TIER_1_CORRELATED_SIGNAL | TIER_2_CONTRAST_TESTED.

Definition _norm_url (v : option string) : string := PyStr.strip (default "" v).

Definition classify_composite_state (proxy_enable : option Z) (proxy_server auto_config_url : option string)
    (parsed : ParsedProxy) (listener_up proxied_https_ok bypass_https_ok : option bool)
    : ProxyPathComposite :=
  if negb (PyStr.is_empty (_norm_url auto_config_url)) then ENTERPRISE_PAC else
  let enabled := bool_decide (proxy_enable = Some 1) in
  let server_set := negb (PyStr.is_empty (_norm_url proxy_server)) in
  if negb enabled && negb server_set then DIRECT
  else if negb enabled && server_set then LATENT_MISCONFIG
  else if enabled && parsed.(is_localhost_proxy) then
    if bool_decide (proxied_https_ok = Some false) && bool_decide (bypass_https_ok = Some true)
    then LOOPBACK_BROKEN
    else if bool_decide (listener_up = Some false) then LOOPBACK_BROKEN
    else if bool_decide (proxied_https_ok = Some true) then LOOPBACK_OPERATIONAL
    else if bool_decide (listener_up = Some true) && bool_decide (proxied_https_ok = None)
    then LOOPBACK_OPERATIONAL
    else LOOPBACK_BROKEN
  else DIRECT.

Definition policy_for_composite (state : ProxyPathComposite) : PathRecommendation :=
  match state with
  | LOOPBACK_BROKEN => remediation_preview
  | LOOPBACK_OPERATIONAL | ENTERPRISE_PAC | DIRECT | LATENT_MISCONFIG => observe_no_rollback
  end.

Definition evidence_tier_for (composite : ProxyPathComposite)
    (proxied_https_ok bypass_https_ok listener_up : option bool) : PathTier :=
  match proxied_https_ok, bypass_https_ok with
  | Some _, Some _ => TIER_2_CONTRAST_TESTED
  | _, _ =>
      if is_some listener_up || bool_decide (composite = LOOPBACK_OPERATIONAL)
         || bool_decide (composite = LOOPBACK_BROKEN)
      then TIER_1_CORRELATED_SIGNAL else TIER_0_RAW_OBSERVATION
  end.

Definition browser_path_healthy (composite : ProxyPathComposite)
    (proxied_https_ok bypass_https_ok : option bool) : option bool :=
  match composite with
  | LOOPBACK_OPERATIONAL => if bool_decide (proxied_https_ok = Some false) then Some false else Some true
  | LOOPBACK_BROKEN => Some false
  | DIRECT | LATENT_MISCONFIG =>
      if bool_decide (bypass_https_ok = Some false) then Some false else Some true
  | ENTERPRISE_PAC => None
  end.

(** What the probes answer: bypass, and through the proxy. *)
Record path_contrast := { pc_bypass : bool; pc_proxied : bool }.

(** [_run_https_contrast]; [has_url] says whether a proxy address could be built. *)
Definition https_contrast (parsed : ParsedProxy) (proxy_enable : option Z) (has_url : bool)
    (probes : path_contrast) : option bool * option bool :=
  if negb (bool_decide (proxy_enable = Some 1)) || negb parsed.(is_localhost_proxy) || negb has_url
  then (None, Some probes.(pc_bypass))
  else (Some probes.(pc_proxied), Some probes.(pc_bypass)).

Record PathAssessment := {
  pa_composite_state : ProxyPathComposite;
  pa_evidence_tier : PathTier;
  pa_policy : PathRecommendation;
  pa_listener_up : option bool;
  pa_proxied_https_ok : option bool;
  pa_bypass_https_ok : option bool;
  pa_browser_path_healthy : option bool;
}.

Definition assess_proxy_path_operational (snap : ProxySnapshot) (parsed : ParsedProxy)
    (port_listen : option bool) (include_https_contrast has_url : bool) (probes : path_contrast)
    : PathAssessment :=
  let '(proxied, bypass) :=
    if include_https_contrast then https_contrast parsed snap.(sn_proxy_enable) has_url probes
    else (None, Some probes.(pc_bypass)) in
  let composite := classify_composite_state snap.(sn_proxy_enable) snap.(sn_proxy_server)
                     snap.(sn_auto_config_url) parsed port_listen proxied bypass in
  {| pa_composite_state := composite;
     pa_evidence_tier := evidence_tier_for composite proxied bypass port_listen;
     pa_policy := policy_for_composite composite; pa_listener_up := port_listen;
     pa_proxied_https_ok := proxied; pa_bypass_https_ok := bypass;
     pa_browser_path_healthy := browser_path_healthy composite proxied bypass |}.

(** ** Attribution *)

Inductive AttributionMode := verified_eventlog | best_effort_process_snapshot | unknown_mode.

#[export] Instance AttributionMode_eq_dec : EqDecision AttributionMode.
Proof. solve_decision. Defined.

(** The fields of an identified process the policy reads. *)
Record ProcessIdentity := { pi_pid : option Z; pi_exe : option string; pi_name : option string }.

Record GuardAttribution := {
  ga_mode : AttributionMode;
  ga_process : option ProcessIdentity;
  ga_limitations : list string;
}.

(** The part of a Windows path after its drive and root ([ntpath.splitroot]). *)
Definition path_tail (p : string) : string :=
  let normp := PyStr.replace_char "/" BS p in
  let drop n := String.substring n (String.length normp) normp in
  let after_two s :=
    match after_first bs s with
    | Some r => default "" (after_first bs r)
    | None => ""
    end in
  match normp with
  | String c1 (String c2 rest) =>
      if Ascii.eqb c1 BS then
        if Ascii.eqb c2 BS then
          if String.eqb (PyStr.upper (PyStr.take 8 normp)) (bs +:+ bs +:+ "?" +:+ bs +:+ "UNC" +:+ bs)
          then after_two (drop 8%nat) else after_two rest
        else drop 1%nat
      else if Ascii.eqb c2 ":" then rest
      else normp
  | _ => normp
  end.

(** [PureWindowsPath(p).name]: the last component that is neither empty nor a dot. *)
Fixpoint last_component (cur last : string) (s : string) : string :=
  let keep := if PyStr.is_empty cur || String.eqb cur "." then last else cur in
  match s with
  | EmptyString => keep
  | String c s' => if Ascii.eqb c BS then last_component "" keep s' else last_component (cur +:+ String c "") last s'
  end.

Definition windows_path_name (p : string) : string := last_component "" "" (path_tail p).

Definition unquoted (s : string) : string := PyStr.strip_chars (String Json.quote_char "") (PyStr.strip s).

Definition _exe_basename_candidate (process_exe process_name : option string) : option string :=
  let by_name := match process_name with
                 | Some n => if PyStr.is_empty n then None else Some (PyStr.lower n)
                 | None => None
                 end in
  match process_exe with
  | Some e => if PyStr.is_empty e then by_name else Some (PyStr.lower (windows_path_name (unquoted e)))
  | None => by_name
  end.

Definition normal_path (p : string) : string :=
  PyStr.replace_char "/" BS (PyStr.lower (unquoted p)).

Definition exe_path_trusted (candidate_path : option string) (prefixes : list string) : bool :=
  match candidate_path with
  | Some p =>
      negb (PyStr.is_empty p)
      && existsb (fun pref =>
           let root := PyStr.rstrip_by (Ascii.eqb BS) (normal_path pref) in
           negb (PyStr.is_empty root) && PyStr.startswith (normal_path p) root) prefixes
  | None => false
  end.

Definition attribution_to_owner_rows (a : GuardAttribution) : list pydict :=
  match a.(ga_process) with
  | None => []
  | Some proc =>
      match _exe_basename_candidate proc.(pi_exe) proc.(pi_name) with
      | None => []
      | Some basename =>
          if PyStr.is_empty basename then []
          else [["process_name" :-> PStr basename; "pid" :-> of_opt PInt proc.(pi_pid)]]
      end
  end.

(** ** The transition policy *)

Inductive TransitionKind := tr_allowed | tr_blocked | tr_observe.

#[export] Instance TransitionKind_eq_dec : EqDecision TransitionKind.
Proof. solve_decision. Defined.

Record TransitionDecision := {
  td_decision : TransitionKind;
  td_reason : string;
  td_matched_rule : option string;
  td_rollback_allowed : bool;
  td_rollback_required : bool;
}.

(** Only a blocked transition may be rolled back, and none must be. *)
Definition transition_decision (kind : TransitionKind) (reason : string) (rule : option string)
    : TransitionDecision :=
  {| td_decision := kind; td_reason := reason; td_matched_rule := rule;
     td_rollback_allowed := bool_decide (kind = tr_blocked); td_rollback_required := false |}.

Definition hkcu_proxy_core_tuple (s : ProxySnapshot)
    : option Z * option string * option string * option string * option Z :=
  (s.(sn_proxy_enable), s.(sn_proxy_server), s.(sn_proxy_override), s.(sn_auto_config_url),
   s.(sn_auto_detect)).

Definition disabling_transition_allowed (prior curr : ProxySnapshot) : bool :=
  (default 0 prior.(sn_proxy_enable) =? 1) && (default 0 curr.(sn_proxy_enable) =? 0).

(** The PAC address changed to one no rule allows. *)
Definition pac_not_allowlisted (policy : ProxyGuardPolicy) (prior curr : ProxySnapshot) : bool :=
  let pac_prev := PyStr.strip (default "" prior.(sn_auto_config_url)) in
  let pac_curr := PyStr.strip (default "" curr.(sn_auto_config_url)) in
  negb (String.eqb pac_prev pac_curr) && negb (PyStr.is_empty pac_curr)
  && negb (existsb (fun s => PyStr.contains (PyStr.lower s) (PyStr.lower pac_curr))
             policy.(gp_autoconfig_url_substrings)).

Definition trusted_process (policy : ProxyGuardPolicy) (a : GuardAttribution) : bool :=
  match a.(ga_process) with
  | Some proc => exe_path_trusted proc.(pi_exe) policy.(gp_trusted_exe_paths)
  | None => false
  end.

(** The branches after the path assessment, for any proxy. *)
Definition judge_by_owner (policy : ProxyGuardPolicy) (a : GuardAttribution) : TransitionDecision :=
  let pd := evaluate_owner_rows policy (attribution_to_owner_rows a) in
  if pd.(gd_allowed) then transition_decision tr_allowed pd.(gd_reason) pd.(gd_matched_rule)
  else if policy.(gp_observe_only)
          && (bool_decide (a.(ga_mode) = unknown_mode) || match a.(ga_process) with None => true | _ => false end)
  then transition_decision tr_observe "observe_only_unknown_attribution_user_manual_mode" None
  else transition_decision tr_blocked pd.(gd_reason) None.

(** The branches of a loopback proxy; [None] falls through. *)
Definition judge_loopback (policy : ProxyGuardPolicy) (a : GuardAttribution)
    (port_listen : option bool) (path : option PathAssessment) : option TransitionDecision :=
  let by_signals :=
    let pd := evaluate_owner_rows policy (attribution_to_owner_rows a) in
    let verified_event := bool_decide (a.(ga_mode) = verified_eventlog) in
    let listener_ok := bool_decide (port_listen = Some true) in
    if listener_ok || trusted_process policy a || verified_event || pd.(gd_allowed) then
      let other := if listener_ok then "localhost_listener_present" else "trusted_override" in
      Some (transition_decision tr_allowed "localhost_loopback_policy_allow"
              (Some match pd.(gd_matched_rule) with
                    | Some r => if PyStr.is_empty r then other else r
                    | None => other
                    end))
    else if bool_decide (port_listen = Some false) then
      Some (transition_decision tr_blocked "loopback_proxy_without_listener_and_untrusted" None)
    else None in
  match option_map pa_composite_state path with
  | Some LOOPBACK_BROKEN =>
      Some (transition_decision tr_blocked "loopback_proxy_path_non_operational"
              (Some "proxy_path_operational"))
  | Some LOOPBACK_OPERATIONAL =>
      Some (transition_decision tr_allowed "loopback_path_operational_observe"
              (Some "proxy_path_operational"))
  | _ => by_signals
  end.

Definition evaluate_proxy_transition (prior curr : ProxySnapshot) (parsed_after : ParsedProxy)
    (a : GuardAttribution) (policy : ProxyGuardPolicy) (port_listen : option bool)
    (path : option PathAssessment) : TransitionDecision :=
  if bool_decide (hkcu_proxy_core_tuple prior = hkcu_proxy_core_tuple curr)
  then transition_decision tr_observe "no_op_registry_core" None
  else if disabling_transition_allowed prior curr
  then transition_decision tr_allowed "proxy_disable_transition_allowed_default" None
  else if pac_not_allowlisted policy prior curr
  then transition_decision tr_blocked "autoconfig_url_change_not_allowlisted" None
  else if bool_decide (a.(ga_mode) = verified_eventlog) && trusted_process policy a
  then transition_decision tr_allowed "trusted_exe_path_verified_eventlog" (Some "trusted_exe_paths")
  else
    match (if parsed_after.(is_localhost_proxy) then judge_loopback policy a port_listen path else None) with
    | Some d => d
    | None => judge_by_owner policy a
    end.


(** ** Connectivity before and after *)

Record CommandProbeResult := {
  pb_name : string;
  pb_ok : bool;
  pb_returncode : Z;
  pb_stdout : string;
  pb_stderr : string;
  pb_permission_limited : bool;
}.

(** How a probe command ends. *)
Inductive probe_outcome :=
| ProbeTimeout (text : string)
| ProbeOSError (text : string)
| ProbeDone (returncode : Z) (stdout stderr : string).

Definition _probe (name : string) (argv : list string) (run : list string -> probe_outcome)
    : CommandProbeResult :=
  match run argv with
  | ProbeTimeout text =>
      {| pb_name := name; pb_ok := false; pb_returncode := -1; pb_stdout := ""; pb_stderr := text;
         pb_permission_limited := false |}
  | ProbeOSError msg =>
      {| pb_name := name; pb_ok := false; pb_returncode := -1; pb_stdout := ""; pb_stderr := msg;
         pb_permission_limited := PyStr.contains "access is denied" (PyStr.lower msg)
                                  || PyStr.contains "permission" (PyStr.lower msg) |}
  | ProbeDone code out err =>
      {| pb_name := name; pb_ok := code =? 0; pb_returncode := code; pb_stdout := out; pb_stderr := err;
         pb_permission_limited := false |}
  end.

Record ConnectivitySnapshot := {
  cs_tcp_443_google : CommandProbeResult;
  cs_https_google : CommandProbeResult;
  cs_https_microsoft : CommandProbeResult;
  cs_dns_google : CommandProbeResult;
  cs_wininet_proxy_enable : option Z;
  cs_wininet_proxy_server : option string;
}.

Definition tcp_probe_argv : list string :=
  ["powershell"; "-NoProfile"; "-ExecutionPolicy"; "Bypass"; "-Command";
   "Test-NetConnection www.google.com -Port 443 | Select-Object -ExpandProperty TcpTestSucceeded"].

Definition capture_connectivity_snapshot (run : list string -> probe_outcome) (snapshot : ProxySnapshot)
    : ConnectivitySnapshot :=
  {| cs_tcp_443_google := _probe "post_change_tcp443_check" tcp_probe_argv run;
     cs_https_google :=
       _probe "post_change_https_check_google" ["curl"; "-I"; "https://www.google.com"] run;
     cs_https_microsoft :=
       _probe "post_change_https_check_microsoft" ["curl"; "-I"; "https://www.microsoft.com"] run;
     cs_dns_google := _probe "post_change_dns_check" ["nslookup"; "www.google.com"] run;
     cs_wininet_proxy_enable := snapshot.(sn_proxy_enable);
     cs_wininet_proxy_server := snapshot.(sn_proxy_server) |}.

Record ConnectivityValidation := {
  cv_pre_change : option ConnectivitySnapshot;
  cv_post_change : ConnectivitySnapshot;
  cv_regression_detected : bool;
  cv_regression_type : string;
  cv_summary : string;
}.

(** The names of the checks that passed before and fail now. *)
Definition connectivity_regressions (pre post : ConnectivitySnapshot) : list string :=
  omap (fun '(probe, label) =>
          if (probe pre).(pb_ok) && negb (probe post).(pb_ok) then Some label else None)
    [(cs_https_google, "https_google_regressed"); (cs_https_microsoft, "https_microsoft_regressed");
     (cs_tcp_443_google, "tcp_443_regressed"); (cs_dns_google, "dns_regressed")].

Definition compare_connectivity (pre_change : option ConnectivitySnapshot)
    (post_change : ConnectivitySnapshot) : ConnectivityValidation :=
  let validation detected kind summary :=
    {| cv_pre_change := pre_change; cv_post_change := post_change; cv_regression_detected := detected;
       cv_regression_type := kind; cv_summary := summary |} in
  match pre_change with
  | None =>
      validation false "insufficient_pre_change_baseline"
        "No pre-change baseline was available; post-change checks only."
  | Some pre =>
      match connectivity_regressions pre post_change with
      | [] => validation false "none"
                "No connectivity regression detected across pre/post change checks."
      | _ :: _ =>
          let kind :=
            if post_change.(cs_tcp_443_google).(pb_ok) && negb post_change.(cs_https_google).(pb_ok)
               && post_change.(cs_dns_google).(pb_ok)
            then "https_path_regression_tcp_ok_dns_ok" else "connectivity_regression" in
          validation true kind "Connectivity regressed after proxy-related registry change."
      end
  end.

(** ** The recorded decision *)

Inductive FinalKind :=
| blocked_high_risk | allowed_but_connectivity_regressed | allowed_no_regression | insufficient_evidence.

#[export] Instance FinalKind_eq_dec : EqDecision FinalKind.
Proof. solve_decision. Defined.

Inductive RiskLevel := risk_low | risk_medium | risk_high.

#[export] Instance RiskLevel_eq_dec : EqDecision RiskLevel.
Proof. solve_decision. Defined.

Record FinalDecision := {
  fd_decision : FinalKind;
  fd_reason : string;
  fd_matched_policy : option string;
  fd_risk_level : RiskLevel;
  fd_recommended_action : string;
  fd_validation : ConnectivityValidation;
  fd_confidence : string;
  fd_method : AttributionMode;
  fd_candidate_actor : option ProcessIdentity;
  fd_notes : list string;
}.

Definition finalize_decision (policy_decision : TransitionDecision) (validation : ConnectivityValidation)
    (a : GuardAttribution) (parsed_is_localhost : bool) : FinalDecision :=
  let '(decision, risk, action, reason) :=
    match policy_decision.(td_decision) with
    | tr_blocked =>
        (blocked_high_risk, risk_high,
         if policy_decision.(td_rollback_allowed) then "rollback_recommended" else "prompt_user",
         policy_decision.(td_reason))
    | k =>
        if validation.(cv_regression_detected) then
          (allowed_but_connectivity_regressed, risk_medium, "restore_previous_proxy_or_prompt_user",
           policy_decision.(td_reason) +:+ "|" +:+ validation.(cv_regression_type))
        else if bool_decide (k = tr_allowed) then
          (allowed_no_regression, risk_low, "none", policy_decision.(td_reason))
        else (insufficient_evidence, risk_low, "prompt_user", policy_decision.(td_reason))
    end in
  let verified := bool_decide (a.(ga_mode) = verified_eventlog) in
  {| fd_decision := decision; fd_reason := reason;
     fd_matched_policy := policy_decision.(td_matched_rule); fd_risk_level := risk;
     fd_recommended_action := action; fd_validation := validation;
     fd_confidence := if verified then "high"
                      else match a.(ga_process) with Some _ => "medium" | None => "low" end;
     fd_method := a.(ga_mode); fd_candidate_actor := a.(ga_process);
     fd_notes :=
       (a.(ga_limitations)
        ++ (if parsed_is_localhost then
              ["Listener attribution identifies process listening on localhost proxy port; it does not prove registry writer."]
            else [])
        ++ (if verified then []
            else ["No direct Sysmon/EventLog registry-write proof; candidate actor remains heuristic."]))%list |}.

Definition public_decision_label (k : TransitionKind) : string :=
  match k with tr_observe => "observe_only" | tr_allowed => "allowed" | tr_blocked => "blocked" end.

Definition infer_risk_level (gd : TransitionDecision) (curr_snap : ProxySnapshot) (parsed_after : ParsedProxy)
    : RiskLevel :=
  match gd.(td_decision) with
  | tr_allowed | tr_observe => risk_low
  | tr_blocked =>
      if parsed_after.(is_localhost_proxy) then risk_high
      else if (default 0 curr_snap.(sn_proxy_enable) =? 1)
              && negb (PyStr.is_empty (PyStr.strip (default "" curr_snap.(sn_proxy_server))))
      then risk_high else risk_medium
  end.

Definition infer_recommended_action (gd : TransitionDecision) : string :=
  match gd.(td_decision) with
  | tr_blocked => if gd.(td_rollback_allowed) then "rollback" else "prompt_user"
  | tr_observe => if PyStr.contains "unknown_attribution" gd.(td_reason) then "prompt_user" else "none"
  | tr_allowed => "none"
  end.

Definition risk_label (r : RiskLevel) : string :=
  match r with risk_low => "low" | risk_medium => "medium" | risk_high => "high" end.

Definition final_label (k : FinalKind) : string :=
  match k with
  | blocked_high_risk => "blocked_high_risk"
  | allowed_but_connectivity_regressed => "allowed_but_connectivity_regressed"
  | allowed_no_regression => "allowed_no_regression"
  | insufficient_evidence => "insufficient_evidence"
  end.

Definition policy_payload_for_audit (gd : TransitionDecision) (curr_snap : ProxySnapshot)
    (parsed_after : ParsedProxy) (final_decision : option FinalDecision) : pydict :=
  match final_decision with
  | Some f =>
      ["decision" :-> PStr (final_label f.(fd_decision)); "reason" :-> PStr f.(fd_reason);
       "matched_policy" :-> of_opt PStr f.(fd_matched_policy);
       "risk_level" :-> PStr (risk_label f.(fd_risk_level));
       "recommended_action" :-> PStr f.(fd_recommended_action)]
  | None =>
      ["decision" :-> PStr (public_decision_label gd.(td_decision)); "reason" :-> PStr gd.(td_reason);
       "matched_policy" :-> of_opt PStr gd.(td_matched_rule);
       "risk_level" :-> PStr (risk_label (infer_risk_level gd curr_snap parsed_after));
       "recommended_action" :-> PStr (infer_recommended_action gd)]
  end.

(** ** What the verdict means *)

Section Verdicts.
Context (policy : ProxyGuardPolicy) (a : GuardAttribution).

Lemma transition_rollback_flags (prior curr : ProxySnapshot) (parsed : ParsedProxy)
    (port_listen : option bool) (path : option PathAssessment) :
  let d := evaluate_proxy_transition prior curr parsed a policy port_listen path in
  d.(td_rollback_allowed) = bool_decide (d.(td_decision) = tr_blocked)
  /\ d.(td_rollback_required) = false.
Proof.
  unfold evaluate_proxy_transition, judge_loopback, judge_by_owner. cbn zeta.
  repeat case_match; simplify_eq; done.
Qed.

(** What can speak for a loopback proxy whose path was not found broken. *)
Definition loopback_support (port_listen : option bool) (path : option PathAssessment) : Prop :=
  option_map pa_composite_state path = Some LOOPBACK_OPERATIONAL \/ port_listen = Some true
  \/ trusted_process policy a = true \/ a.(ga_mode) = verified_eventlog
  \/ (evaluate_owner_rows policy (attribution_to_owner_rows a)).(gd_allowed) = true.

Lemma judge_loopback_allowed (port_listen : option bool) (path : option PathAssessment)
    (d : TransitionDecision) :
  judge_loopback policy a port_listen path = Some d -> d.(td_decision) = tr_allowed ->
  option_map pa_composite_state path <> Some LOOPBACK_BROKEN /\ loopback_support port_listen path.
Proof.
  unfold judge_loopback, loopback_support.
  destruct (option_map pa_composite_state path) as [[]|]; cbn zeta;
    try (intros [= <-]; done || (intros _; split; [done|by left]));
    (destruct (_ || _ || _ || _) eqn:Hs; [|case_match; [intros [= <-]; done|done]]);
    intros _ _; (split; [done|]);
    rewrite !orb_true_iff, !bool_decide_eq_true in Hs; tauto.
Qed.

Lemma judge_loopback_none (port_listen : option bool) (path : option PathAssessment) :
  judge_loopback policy a port_listen path = None ->
  option_map pa_composite_state path <> Some LOOPBACK_BROKEN.
Proof. unfold judge_loopback. destruct (option_map _ path) as [[]|]; done. Qed.

Lemma judge_by_owner_allowed :
  (judge_by_owner policy a).(td_decision) = tr_allowed ->
  (evaluate_owner_rows policy (attribution_to_owner_rows a)).(gd_allowed) = true.
Proof. unfold judge_by_owner. cbn zeta. destruct (gd_allowed _); [done|]. by case_match. Qed.

(** C14: a change is allowed only for a reason.  It turned the proxy off; or no unlisted PAC
    address came with it, and either the registry event names a trusted executable, or the
    policy lists the process found, or the new proxy is a loopback one with support of its own
    (a working path, a listener, a trusted program, a verified event or a listed owner).  A
    loopback proxy whose path was found broken is allowed only in the first two ways. *)
Theorem allowed_transition_justified (prior curr : ProxySnapshot) (parsed : ParsedProxy)
    (port_listen : option bool) (path : option PathAssessment) :
  (evaluate_proxy_transition prior curr parsed a policy port_listen path).(td_decision) = tr_allowed ->
  hkcu_proxy_core_tuple prior <> hkcu_proxy_core_tuple curr
  /\ (disabling_transition_allowed prior curr = true
      \/ pac_not_allowlisted policy prior curr = false
         /\ (a.(ga_mode) = verified_eventlog /\ trusted_process policy a = true
             \/ (parsed.(is_localhost_proxy) = true ->
                 option_map pa_composite_state path <> Some LOOPBACK_BROKEN)
                /\ ((evaluate_owner_rows policy (attribution_to_owner_rows a)).(gd_allowed) = true
                    \/ parsed.(is_localhost_proxy) = true /\ loopback_support port_listen path))).
Proof.
  unfold evaluate_proxy_transition. case_bool_decide as Hcore; [done|]. intros H. split; [done|]. revert H.
  destruct (disabling_transition_allowed prior curr); [by left|].
  destruct (pac_not_allowlisted policy prior curr); [done|].
  destruct (_ && trusted_process policy a) eqn:Ht.
  { apply andb_true_iff in Ht as [Hv%bool_decide_eq_true Ht]. intros _. right. split; [done|]. by left. }
  intros H. right. split; [done|]. right. destruct parsed.(is_localhost_proxy).
  - destruct (judge_loopback policy a port_listen path) as [d|] eqn:Hj.
    + apply judge_loopback_allowed in Hj as [Hb Hs]; [|done]. split; [done|]. by right.
    + split; [intros _; by apply judge_loopback_none in Hj|]. left. by apply judge_by_owner_allowed.
  - split; [done|]. left. by apply judge_by_owner_allowed.
Qed.

(** C15: for a changed, enabled loopback proxy without a PAC address, assessed with both
    probes: it is allowed exactly when a verified registry event names a process under a
    trusted path, or the request through the proxy succeeds and the listener is not known to
    be down; otherwise it is blocked, may be rolled back, and is recorded as high risk.  The
    allowlist of owners has no say. *)
Theorem loopback_verdict_exact (prior curr : ProxySnapshot) (parsed : ParsedProxy)
    (port_listen : option bool) (probes : path_contrast) (pre : option ConnectivitySnapshot)
    (post : ConnectivitySnapshot) :
  hkcu_proxy_core_tuple prior <> hkcu_proxy_core_tuple curr ->
  curr.(sn_proxy_enable) = Some 1 ->
  _norm_url curr.(sn_auto_config_url) = "" ->
  parsed.(is_localhost_proxy) = true ->
  let path := assess_proxy_path_operational curr parsed port_listen true true probes in
  let d := evaluate_proxy_transition prior curr parsed a policy port_listen (Some path) in
  let f := finalize_decision d (compare_connectivity pre post) a true in
  let trusted_writer := bool_decide (a.(ga_mode) = verified_eventlog) && trusted_process policy a in
  if trusted_writer || probes.(pc_proxied) && negb (bool_decide (port_listen = Some false))
  then d.(td_decision) = tr_allowed /\ f.(fd_decision) <> blocked_high_risk
  else d.(td_decision) = tr_blocked /\ d.(td_rollback_allowed) = true
       /\ f.(fd_decision) = blocked_high_risk /\ f.(fd_risk_level) = risk_high
       /\ f.(fd_recommended_action) = "rollback_recommended".
Proof.
  intros Hcore Hen Hpac Hloc path d f trusted_writer.
  assert (Hs : path.(pa_composite_state)
               = if probes.(pc_proxied) && negb (bool_decide (port_listen = Some false))
                 then LOOPBACK_OPERATIONAL else LOOPBACK_BROKEN).
  { subst path. unfold assess_proxy_path_operational, https_contrast, classify_composite_state.
    cbn [negb]. rewrite Hen, Hpac, Hloc. cbn.
    destruct probes as [[] []], port_listen as [[]|]; reflexivity. }
  assert (Hd : d = if trusted_writer
                   then transition_decision tr_allowed "trusted_exe_path_verified_eventlog" (Some "trusted_exe_paths")
                   else match path.(pa_composite_state) with
                   | LOOPBACK_BROKEN => transition_decision tr_blocked "loopback_proxy_path_non_operational" (Some "proxy_path_operational")
                   | _ => transition_decision tr_allowed "loopback_path_operational_observe" (Some "proxy_path_operational")
                   end).
  { subst d. unfold evaluate_proxy_transition, judge_loopback. rewrite Hloc.
    rewrite bool_decide_eq_false_2 by done.
    assert (disabling_transition_allowed prior curr = false) as ->.
    { unfold disabling_transition_allowed. rewrite Hen. cbn. by rewrite andb_false_r. }
    assert (pac_not_allowlisted policy prior curr = false) as ->.
    { unfold pac_not_allowlisted. unfold _norm_url in Hpac. rewrite Hpac. cbn. by rewrite andb_false_r. }
    fold trusted_writer. destruct trusted_writer; [done|]. cbn [option_map].
    rewrite Hs. by destruct (_ && _). }
  clearbody path d trusted_writer. subst d f. rewrite Hs.
  destruct trusted_writer; [|destruct (_ && _); [|done]]; (split; [done|]);
    unfold finalize_decision; cbn; by destruct (cv_regression_detected _).
Qed.

(** The probes of a connectivity snapshot. *)
Definition connectivity_probes : list (ConnectivitySnapshot -> CommandProbeResult) :=
  [cs_https_google; cs_https_microsoft; cs_tcp_443_google; cs_dns_google].

Lemma no_regressions (pre post : ConnectivitySnapshot) :
  connectivity_regressions pre post = []
  <-> forall p, In p connectivity_probes -> (p pre).(pb_ok) = true -> (p post).(pb_ok) = true.
Proof.
  unfold connectivity_regressions, connectivity_probes. cbn [omap list_omap]. split.
  - intros H p Hp. cbn [In] in Hp.
    destruct Hp as [<-|[<-|[<-|[<-|[]]]]]; intros Ho; rewrite Ho in H;
      repeat match type of H with context [if ?b then _ else _] => destruct b eqn:?; try discriminate end;
      match goal with Hb : true && negb ?b = false |- _ => by destruct b end.
  - intros H. pose proof (H _ (or_introl eq_refl)) as H1.
    pose proof (H _ (or_intror (or_introl eq_refl))) as H2.
    pose proof (H _ (or_intror (or_intror (or_introl eq_refl)))) as H3.
    pose proof (H _ (or_intror (or_intror (or_intror (or_introl eq_refl))))) as H4.
    repeat match goal with |- context [pb_ok ?x && _] => destruct (pb_ok x) eqn:? end;
      cbn [andb]; rewrite ?H1, ?H2, ?H3, ?H4 by done; reflexivity.
Qed.

(** The recorded decision says that nothing regressed exactly when the policy allowed the
    change and every check that passed before passes now, or there was nothing to compare
    with; it says high risk exactly when the policy blocked it. *)
Theorem final_decision_exact (d : TransitionDecision) (pre : option ConnectivitySnapshot)
    (post : ConnectivitySnapshot) (loc : bool) :
  let f := finalize_decision d (compare_connectivity pre post) a loc in
  (f.(fd_decision) = allowed_no_regression
   <-> d.(td_decision) = tr_allowed
       /\ (forall s p, pre = Some s -> In p connectivity_probes ->
             (p s).(pb_ok) = true -> (p post).(pb_ok) = true))
  /\ (f.(fd_decision) = blocked_high_risk <-> d.(td_decision) = tr_blocked)
  /\ (f.(fd_risk_level) = risk_high <-> d.(td_decision) = tr_blocked).
Proof.
  cbn zeta. unfold finalize_decision, compare_connectivity.
  destruct pre as [s|].
  - pose proof (no_regressions s post) as Hr. destruct (connectivity_regressions s post).
    + destruct (td_decision d); cbn; naive_solver.
    + destruct (td_decision d); cbn; (split; [|done || naive_solver]); split; try done;
        intros [? Hall]; try done; exfalso;
        assert (s0 :: l = []) by (apply Hr; intros p; by apply Hall); discriminate.
  - destruct (td_decision d); cbn; naive_solver.
Qed.

(** An observed change after which the network got worse is recorded as an allowed one. *)
Lemma observed_regression_recorded_as_allowed (d : TransitionDecision) (v : ConnectivityValidation)
    (loc : bool) :
  d.(td_decision) = tr_observe -> v.(cv_regression_detected) = true ->
  (finalize_decision d v a loc).(fd_decision) = allowed_but_connectivity_regressed.
Proof. unfold finalize_decision. by intros -> ->. Qed.
End Verdicts.

Module TransitionWitness.
Definition rules : ProxyGuardPolicy :=
  {| gp_source_path := "policy.json"; gp_name_substrings := ["clash"]; gp_names_exact := [];
     gp_allow_when_attribution_empty := false; gp_trusted_exe_paths := ["C:\Trusted"];
     gp_autoconfig_url_substrings := []; gp_observe_only := false |}.

(** A snapshot with the two values the cases differ in. *)
Definition snap (enable : Z) (server : option string) : ProxySnapshot :=
  {| sn_proxy_enable := Some enable; sn_proxy_server := server; sn_proxy_override := None;
     sn_auto_config_url := None; sn_auto_detect := Some 0; sn_winhttp_proxy := "";
     sn_winhttp_direct_access := true; sn_winhttp_proxy_server_literal := None;
     sn_git_http_proxy := None; sn_git_https_proxy := None; sn_npm_proxy := None;
     sn_npm_https_proxy := None; sn_user_http_proxy := None; sn_user_https_proxy := None;
     sn_user_all_proxy := None; sn_user_no_proxy := None; sn_captured_at := "t" |}.

Definition before : ProxySnapshot := snap 0 None.
Definition after : ProxySnapshot := snap 1 (Some "127.0.0.1:7890").
Definition parsed : ParsedProxy := parse_proxy_server after.(sn_proxy_server).

(** A process of an allowlisted name, found by the listener scan. *)
Definition clash : GuardAttribution :=
  {| ga_mode := best_effort_process_snapshot;
     ga_process := Some {| pi_pid := Some 42; pi_exe := Some "C:\Tools\Clash.exe"; pi_name := None |};
     ga_limitations := [] |}.

Definition link (ok : bool) : ConnectivitySnapshot :=
  capture_connectivity_snapshot (fun _ => ProbeDone (if ok then 0 else 1) "" "") after.

Lemma allowed_transition_justified_witness :
  disabling_transition_allowed before after = false
  /\ hkcu_proxy_core_tuple before <> hkcu_proxy_core_tuple after.
Proof.
  split; [reflexivity|].
  refine (proj1 (allowed_transition_justified rules clash before after parsed (Some true)
            (Some (assess_proxy_path_operational after parsed (Some true) true true
                     {| pc_bypass := true; pc_proxied := true |})) _)).
  vm_compute. reflexivity.
Defined.

(** The allowlisted program is blocked when requests through its port fail. *)
Lemma loopback_verdict_exact_witness :
  let path := assess_proxy_path_operational after parsed (Some true) true true
                {| pc_bypass := true; pc_proxied := false |} in
  let d := evaluate_proxy_transition before after parsed clash rules (Some true) (Some path) in
  (evaluate_owner_rows rules (attribution_to_owner_rows clash)).(gd_allowed) = true
  /\ d.(td_decision) = tr_blocked.
Proof.
  split; [vm_compute; reflexivity|].
  refine (proj1 (loopback_verdict_exact rules clash before after parsed (Some true)
            {| pc_bypass := true; pc_proxied := false |} (Some (link true)) (link true) _ _ _ _));
    [discriminate|reflexivity|reflexivity|vm_compute; reflexivity].
Defined.

(** The trusted directories are compared as bare prefixes: a sibling directory passes. *)
Lemma trusted_prefix_admits_sibling :
  exe_path_trusted (Some "C:\TrustedEvil\x.exe") ["C:\Trusted\"] = true.
Proof. vm_compute. reflexivity. Qed.

(** With the network down, a loopback proxy is judged broken although its port listens. *)
Lemma outage_judged_broken :
  (assess_proxy_path_operational after parsed (Some true) true true
     {| pc_bypass := false; pc_proxied := false |}).(pa_composite_state) = LOOPBACK_BROKEN.
Proof. vm_compute. reflexivity. Qed.

(** The TCP probe prints its answer and exits with zero, so an answer of False counts as ok. *)
Lemma tcp_probe_ignores_answer :
  (_probe "post_change_tcp443_check" tcp_probe_argv (fun _ => ProbeDone 0 "False" "")).(pb_ok) = true.
Proof. reflexivity. Qed.
End TransitionWitness.
