(* ===== verification/RegistryReader.v ===== *)
(** * Reading the WinINET values back

    [src/proxy_guard/registry.py], [probes.py] and [snapshot_capture.py]: the [reg query]
    reads, their parsers, the retries, the snapshot that is composed of them, and the check
    of [diff.py] that a rollback left what it should.

    The commands run on the host of [ProxyRestore]; [RegistryQueryLaws] adds what a query
    prints. *)

From S2P Require Import Prelude PyValue ProxyDisable RegistryWriter GuardPolicy ProxyRestore.
From Stdlib Require Import Ascii String.
From stdpp Require Import strings gmap.

Open Scope string_scope.
Open Scope Z_scope.
Open Scope py_scope.

(** ** The parsers *)

Definition is_hex_char (c : ascii) : bool := IntZero.digit_of c <? 16.

(** The first match of [0x([0-9a-fA-F]+)]: its group. *)
Fixpoint search_hex (s : string) : option string :=
  match s with
  | EmptyString => None
  | String c s' =>
      let here :=
        match s' with
        | String x r =>
            if Ascii.eqb c "0" && Ascii.eqb x "x" then (PyStr.span is_hex_char r).1 else ""
        | EmptyString => ""
        end in
      if PyStr.is_empty here then search_hex s' else Some here
  end.

(** [int(h, 16)] of hexadecimal digits. *)
Fixpoint hex_val (acc : Z) (s : string) : Z :=
  match s with
  | EmptyString => acc
  | String c s' => hex_val (acc * 16 + IntZero.digit_of c) s'
  end.

(** The first match of [REG_DWORD\s+(\d+)]: its group. *)
Fixpoint search_decimal (s : string) : option string :=
  match s with
  | EmptyString => None
  | String _ s' =>
      let r := String.substring 9 (String.length s) s in
      let '(gap, r') := PyStr.span PyStr.is_space r in
      let digits := (PyStr.span PyStr.is_digit r').1 in
      if String.prefix "REG_DWORD" s && negb (PyStr.is_empty gap) && negb (PyStr.is_empty digits)
      then Some digits else search_decimal s'
  end.

Definition dword_of_line (line : string) : option Z :=
  let line := PyStr.strip line in
  if negb (PyStr.contains "REG_DWORD" line) then None else
  match search_hex line with
  | Some h => Some (hex_val 0 h)
  | None =>
      match search_decimal line with
      | Some d => match PyStr.to_int d with Ok n => Some n | Raise _ => None end
      | None => None
      end
  end.

Definition _parse_reg_dword (text : string) : option Z := head (omap dword_of_line (splitlines text)).

(** The third part of [line.split(None, 2)]. *)
Definition third_part (line : string) : option string :=
  let skip s := PyStr.lstrip_by PyStr.is_space s in
  let after_word s := (PyStr.span (fun c => negb (PyStr.is_space c)) s).2 in
  let r := skip (after_word (skip (after_word (skip line)))) in
  if PyStr.is_empty r then None else Some r.

(** What the first line that names a text type says; [None] when the line names none. *)
Definition sz_of_line (line : string) : option (option string) :=
  let line := PyStr.strip line in
  let plain := PyStr.contains "REG_SZ" line in
  if negb (plain || PyStr.contains "REG_EXPAND_SZ" line) then None else
  match third_part line with
  | Some p => Some (Some (PyStr.strip p))
  | None =>
      let rest :=
        if plain then default "" (after_first "REG_SZ" line)
        else let r := default "" (after_first "REG_EXPAND_SZ" line) in
             String.substring 1 (String.length r) r in
      let val := PyStr.strip rest in
      Some (if PyStr.is_empty val then None else Some val)
  end.

Definition _parse_reg_sz (text : string) : option string :=
  default None (head (omap sz_of_line (splitlines text))).

(** ** The reads *)

Record ProxyRegistrySnapshot := {
  pr_proxy_enable : option Z;
  pr_proxy_server : option string;
  pr_auto_config_url : option string;
  pr_auto_detect : option Z;
  pr_proxy_override : option string;
}.

#[export] Instance ProxyRegistrySnapshot_eq_dec : EqDecision ProxyRegistrySnapshot.
Proof. solve_decision. Defined.

Definition reg_query_argv (value_name : string) : list string :=
  ["reg"; "query"; INTERNET_SETTINGS_KEY; "/v"; value_name].

Definition snapshot_totally_unreadable (snap : ProxyRegistrySnapshot) : bool :=
  match snap with
  | {| pr_proxy_enable := None; pr_proxy_server := None; pr_auto_config_url := None;
       pr_auto_detect := None; pr_proxy_override := None |} => true
  | _ => false
  end.

Section Reads.
Context {W : Type} `{!CommandHost W}.

Definition _run_reg_query (value_name : string) (w : W) : (Z * string) * W :=
  match run_command w (reg_query_argv value_name) with
  | (w', CommandRaises text) => ((1, text), w')
  | (w', CommandDone code out err) => ((code, out +:+ err), w')
  end.

(** A query and its parser: nothing when the query fails. *)
Definition read_value {A} (parse : string -> option A) (value_name : string) (w : W)
    : option A * W :=
  let '((code, out), w') := _run_reg_query value_name w in
  (if code =? 0 then parse out else None, w').

Definition read_proxy_registry (w : W) : ProxyRegistrySnapshot * W :=
  let '(proxy_enable, w1) := read_value _parse_reg_dword "ProxyEnable" w in
  let '(proxy_server, w2) := read_value _parse_reg_sz "ProxyServer" w1 in
  let '(auto_config_url, w3) := read_value _parse_reg_sz "AutoConfigURL" w2 in
  let '(auto_detect, w4) := read_value _parse_reg_dword "AutoDetect" w3 in
  let '(proxy_override, w5) := read_value _parse_reg_sz "ProxyOverride" w4 in
  ({| pr_proxy_enable := proxy_enable; pr_proxy_server := proxy_server;
      pr_auto_config_url := auto_config_url; pr_auto_detect := auto_detect;
      pr_proxy_override := proxy_override |}, w5).

(** Attempts from number [i] on, [n] of them left, with the notes so far. *)
Fixpoint read_attempts (n : nat) (i : Z) (notes : list string) (last : ProxyRegistrySnapshot) (w : W)
    : (ProxyRegistrySnapshot * list string) * W :=
  match n with
  | O => ((last, (notes ++ ["probe_retry_exhausted_partial_failure_accepted"])%list), w)
  | S n' =>
      let '(snap, w1) := read_proxy_registry w in
      if negb (snapshot_totally_unreadable snap) then
        ((snap, if 0 <? i then (notes ++ ["probe_recovered_after_attempts:" +:+ PyStr.of_Z (i + 1)])%list
                else notes), w1)
      else read_attempts n' (i + 1) (notes ++ ["probe_attempt_all_none:" +:+ PyStr.of_Z (i + 1)])%list
             snap w1
  end.

Definition unread : ProxyRegistrySnapshot :=
  {| pr_proxy_enable := None; pr_proxy_server := None; pr_auto_config_url := None;
     pr_auto_detect := None; pr_proxy_override := None |}.

Definition read_proxy_registry_with_retries (max_attempts : Z) (w : W)
    : (ProxyRegistrySnapshot * list string) * W :=
  read_attempts (Z.to_nat (Z.max 1 max_attempts)) 0 [] unread w.

(** ** A whole snapshot *)

Definition _capture_winhttp_stdout (w : W) : string * W :=
  match run_command w ["netsh"; "winhttp"; "show"; "proxy"] with
  | (w', CommandRaises _) => ("", w')
  | (w', CommandDone _ out _) => (out, w')
  end.

Definition _run_text (cmd : list string) (w : W) : option string * W :=
  match run_command w cmd with
  | (w', CommandDone 0 out _) =>
      let out := PyStr.strip out in ((if PyStr.is_empty out then None else Some out), w')
  | (w', _) => (None, w')
  end.

(** The user environment of the registry; [winreg] answers for the host. *)
Definition _user_env_optional (winreg : string -> option string) (name : string) : option string :=
  match winreg name with
  | Some v => if PyStr.is_empty (PyStr.strip v) then None else Some v
  | None => None
  end.

Definition either_env (winreg : string -> option string) (a b : string) : option string :=
  match _user_env_optional winreg a with Some v => Some v | None => _user_env_optional winreg b end.

Definition npm_unset (v : option string) : option string :=
  match v with
  | Some s => if PyStr.mem s ["null"; "undefined"] then None else Some s
  | None => None
  end.

Definition capture_proxy_snapshot (winreg : string -> option string) (utc_now : string)
    (registry_snapshot : option ProxyRegistrySnapshot) (skip_optional_cli : bool) (w : W)
    : ProxySnapshot * W :=
  let '(reg, w0) := match registry_snapshot with
                    | Some r => (r, w)
                    | None => read_proxy_registry w
                    end in
  let '(winhttp_txt, w1) := _capture_winhttp_stdout w0 in
  let '(direct, srv) := parse_netsh_winhttp_show winhttp_txt in
  let '((git_http, git_https, npm_p, npm_h), w5) :=
    if skip_optional_cli then ((None, None, None, None), w1)
    else
      let '(git_http, w2) := _run_text ["git"; "config"; "--global"; "--get"; "http.proxy"] w1 in
      let '(git_https, w3) := _run_text ["git"; "config"; "--global"; "--get"; "https.proxy"] w2 in
      let '(npm_p, w4) := _run_text ["npm"; "config"; "get"; "proxy"] w3 in
      let '(npm_h, w5) := _run_text ["npm"; "config"; "get"; "https-proxy"] w4 in
      ((git_http, git_https, npm_unset npm_p, npm_unset npm_h), w5) in
  ({| sn_proxy_enable := reg.(pr_proxy_enable); sn_proxy_server := reg.(pr_proxy_server);
      sn_proxy_override := reg.(pr_proxy_override); sn_auto_config_url := reg.(pr_auto_config_url);
      sn_auto_detect := reg.(pr_auto_detect); sn_winhttp_proxy := winhttp_txt;
      sn_winhttp_direct_access := direct; sn_winhttp_proxy_server_literal := srv;
      sn_git_http_proxy := git_http; sn_git_https_proxy := git_https;
      sn_npm_proxy := npm_p; sn_npm_https_proxy := npm_h;
      sn_user_http_proxy := either_env winreg "HTTP_PROXY" "http_proxy";
      sn_user_https_proxy := either_env winreg "HTTPS_PROXY" "https_proxy";
      sn_user_all_proxy := either_env winreg "ALL_PROXY" "all_proxy";
      sn_user_no_proxy := either_env winreg "NO_PROXY" "no_proxy";
      sn_captured_at := utc_now |}, w5).
End Reads.

(** ** Checking a rollback *)

Definition hkcu_tuple_from_registry (reg : ProxyRegistrySnapshot)
    : option Z * option string * option string * option Z :=
  (reg.(pr_proxy_enable), reg.(pr_proxy_server), reg.(pr_auto_config_url), reg.(pr_auto_detect)).

Definition hkcu_tuple_expected_from_snapshot (s : ProxySnapshot)
    : option Z * option string * option string * option Z :=
  (s.(sn_proxy_enable), s.(sn_proxy_server), s.(sn_auto_config_url), s.(sn_auto_detect)).

Definition verify_hkcu_core_matches_prior (observed : ProxyRegistrySnapshot)
    (prior_target : ProxySnapshot) : bool :=
  bool_decide (hkcu_tuple_from_registry observed = hkcu_tuple_expected_from_snapshot prior_target).

(** The argument after the first marker, of the two markers in this order. *)
Definition value_named (argv : list string) : option string :=
  let after m :=
    (fix go (l : list string) : option (option string) :=
       match l with
       | [] => None
       | x :: l' => if String.eqb x m then Some (head l') else go l'
       end) argv in
  match after "-v" with
  | Some r => r
  | None => default None (after "/v")
  end.

Definition wininet_argv_restored_fields (rows : list command_row) : list string :=
  dedupe String.eqb (omap (fun r => value_named r.(cr_argv)) rows).

(** ** What a query prints *)

Definition newline : string := String (ascii_of_N 10) "".

Fixpoint hex_fuel (fuel : nat) (n : Z) (acc : string) : string :=
  match fuel with
  | O => acc
  | S fuel' =>
      let acc' := String (Json.hex_digit (Z.to_N (n mod 16))) acc in
      if n <? 16 then acc' else hex_fuel fuel' (n / 16) acc'
  end.

(** Hexadecimal text of a 32-bit number: eight digits are enough. *)
Definition hex_text (n : Z) : string := hex_fuel 8 n "".

(** The key on a line, the value on the next. *)
Definition reg_query_text (name type shown : string) : string :=
  newline +:+ "HKEY_CURRENT_USER\Software\Microsoft\Windows\CurrentVersion\Internet Settings"
  +:+ newline +:+ "    " +:+ name +:+ "    " +:+ type +:+ "    " +:+ shown +:+ newline +:+ newline.

(** The documented behaviour of [reg query] for a value: it leaves the registry alone, and
    when it succeeds the value is present and it prints its type and data.  It may also fail
    or time out, whether or not the value is there. *)
Class RegistryQueryLaws (W : Type) `{!CommandHost W, !RegistryView W} := {
  reg_shown : string * string -> string;
  reg_shown_sz data : reg_shown ("REG_SZ", data) = data;
  reg_shown_dword n : 0 <= n < 2 ^ 32 -> reg_shown ("REG_DWORD", PyStr.of_Z n) = "0x" +:+ hex_text n;
  reg_query_prints w name w' out err :
    run_command w (reg_query_argv name) = (w', CommandDone 0 out err) ->
    exists value, reg_value w (INTERNET_SETTINGS_KEY, name) = Some value
      /\ out = reg_query_text name value.1 (reg_shown value) /\ err = "";
  reg_query_frame w name v :
    reg_value (run_command w (reg_query_argv name)).1 v = reg_value w v;
}.

(** *** Hexadecimal text *)

Lemma hex_digit_of (d : Z) :
  0 <= d < 16 -> IntZero.digit_of (Json.hex_digit (Z.to_N d)) = d.
Proof.
  intros H. assert (In d (map Z.of_nat (seq 0 16))) as Hin.
  { apply in_map_iff. exists (Z.to_nat d). split; [lia|]. apply in_seq. lia. }
  cbn in Hin. by repeat destruct Hin as [<-|Hin].
Qed.

Lemma hex_fuel_val (fuel : nat) (n : Z) (s : string) :
  0 <= n < 16 ^ Z.of_nat fuel ->
  exists k, forall a, hex_val a (hex_fuel fuel n s) = hex_val (a * 16 ^ Z.of_nat k + n) s.
Proof.
  revert n s. induction fuel as [|fuel IH]; intros n s Hn.
  - exists O. intros a. cbn [hex_fuel]. f_equal. cbn in Hn |- *. lia.
  - rewrite Nat2Z.inj_succ, Z.pow_succ_r in Hn by lia.
    pose proof (Z.mod_pos_bound n 16 ltac:(lia)) as Hm. cbn [hex_fuel].
    destruct (Z.ltb_spec n 16).
    + exists 1%nat. intros a. cbn [hex_val]. rewrite hex_digit_of, Z.mod_small by lia. f_equal; lia.
    + assert (0 <= n / 16 < 16 ^ Z.of_nat fuel) as Hq.
      { split; [apply Z.div_pos; lia|]. apply Z.div_lt_upper_bound; lia. }
      destruct (IH _ (String (Json.hex_digit (Z.to_N (n mod 16))) s) Hq) as [k Hk].
      exists (S k). intros a. rewrite Hk. cbn [hex_val]. rewrite hex_digit_of by lia. f_equal.
      rewrite Nat2Z.inj_succ, Z.pow_succ_r by lia. pose proof (Z.div_mod n 16). lia.
Qed.

Lemma hex_text_val (n : Z) : 0 <= n < 2 ^ 32 -> hex_val 0 (hex_text n) = n.
Proof.
  intros Hn. destruct (hex_fuel_val 8 n "" ltac:(cbn; lia)) as [k Hk]. unfold hex_text. rewrite Hk. done.
Qed.

Lemma hex_fuel_chars (fuel : nat) (n : Z) (s : string) :
  PyStr.all_chars is_hex_char s = true -> PyStr.all_chars is_hex_char (hex_fuel fuel n s) = true.
Proof.
  revert n s. induction fuel as [|fuel IH]; intros n s Hs; [done|].
  pose proof (Z.mod_pos_bound n 16 ltac:(lia)) as Hm.
  assert (PyStr.all_chars is_hex_char (String (Json.hex_digit (Z.to_N (n mod 16))) s) = true) as Hs'.
  { cbn. unfold is_hex_char at 1. rewrite hex_digit_of by lia.
    destruct (Z.ltb_spec (n mod 16) 16); [done|lia]. }
  cbn [hex_fuel]. destruct (n <? 16); [done|]. by apply IH.
Qed.

Lemma hex_fuel_cons (fuel : nat) (n : Z) (c : ascii) (s : string) :
  exists c' r, hex_fuel fuel n (String c s) = String c' r.
Proof.
  revert n c s. induction fuel as [|fuel IH]; intros n c s; [by eexists _, _|].
  cbn [hex_fuel]. destruct (n <? 16); [by eexists _, _|]. apply IH.
Qed.

Lemma hex_text_cons (n : Z) : exists c r, hex_text n = String c r.
Proof.
  unfold hex_text. generalize 7%nat as fuel. intros fuel. cbn [hex_fuel].
  destruct (n <? 16); [by eexists _, _|]. apply hex_fuel_cons.
Qed.

(** *** Lines of plain text *)

(** A printable ASCII character. *)
Definition plain_char (c : ascii) : bool := ((32 <=? PyStr.code c) && (PyStr.code c <? 127))%N.
Definition plain (s : string) : Prop := PyStr.all_chars plain_char s = true.

Definition ascii_char (c : ascii) : bool := (PyStr.code c <? 128)%N.

Lemma plain_ascii (s : string) : plain s -> PyStr.all_chars ascii_char s = true.
Proof.
  apply PyStr.all_chars_impl. intros c. unfold plain_char, ascii_char. rewrite andb_true_iff, !N.ltb_lt. lia.
Qed.

Lemma code_points_ascii (s : string) :
  PyStr.all_chars ascii_char s = true -> Json.code_points s = map PyStr.code (list_ascii_of_string s).
Proof.
  unfold Json.code_points. rewrite length_map. induction s as [|c s IH]; [done|].
  cbn [PyStr.all_chars list_ascii_of_string length map]. intros [Hc Hs]%andb_true_iff.
  cbn [Json.decode]. unfold Json.decode_head. unfold ascii_char in Hc. rewrite Hc. f_equal. by apply IH.
Qed.

Lemma encode_ascii (s : string) :
  PyStr.all_chars ascii_char s = true -> Utf8.encode (map PyStr.code (list_ascii_of_string s)) = s.
Proof.
  unfold Utf8.encode. induction s as [|c s IH]; [done|].
  cbn [PyStr.all_chars list_ascii_of_string map]. intros [Hc Hs]%andb_true_iff.
  unfold Utf8.encode_char at 1. unfold ascii_char in Hc. rewrite Hc.
  unfold Utf8.byte, PyStr.code at 1. rewrite ascii_N_embedding.
  specialize (IH Hs). destruct (map Utf8.encode_char _) eqn:E; cbn [String.concat] in IH |- *.
  - by rewrite <- IH.
  - rewrite IH. done.
Qed.

Lemma plain_no_break (s : string) :
  plain s -> forallb (fun c => negb (is_line_break c)) (map PyStr.code (list_ascii_of_string s)) = true.
Proof.
  unfold plain. induction s as [|c s IH]; [done|]. cbn [PyStr.all_chars list_ascii_of_string map forallb].
  intros [Hc Hs]%andb_true_iff. rewrite IH by done. rewrite andb_true_r.
  destruct c as [[] [] [] [] [] [] [] []]; first [done|discriminate Hc].
Qed.

Lemma list_ascii_app (a b : string) :
  list_ascii_of_string (a +:+ b) = (list_ascii_of_string a ++ list_ascii_of_string b)%list.
Proof. induction a as [|c a IH]; [done|]. rewrite PyStr.append_cons. cbn. by rewrite IH. Qed.

Lemma append_string_nil (a : string) : a +:+ "" = a.
Proof. induction a as [|c a IH]; [done|]. rewrite PyStr.append_cons. by rewrite IH. Qed.

Lemma splitlines_plain (a b : string) :
  plain a -> PyStr.all_chars ascii_char b = true ->
  splitlines (a +:+ newline +:+ b) = a :: splitlines b.
Proof.
  intros Ha Hb. pose proof (plain_ascii a Ha) as Ha'. unfold splitlines.
  rewrite code_points_ascii, !list_ascii_app, !map_app; [|by rewrite !PyStr.all_chars_app, Ha', Hb].
  cbn [list_ascii_of_string newline map app].
  change (PyStr.code (ascii_of_N 10)) with 10%N. rewrite split_lines_plain by (by apply plain_no_break).
  cbn [rev app map]. rewrite encode_ascii, (code_points_ascii b) by done. done.
Qed.

Definition key_line : string :=
  "HKEY_CURRENT_USER\Software\Microsoft\Windows\CurrentVersion\Internet Settings".

Definition value_line (name type shown : string) : string :=
  "    " +:+ name +:+ "    " +:+ type +:+ "    " +:+ shown.

Lemma query_lines (name type shown : string) :
  plain name -> plain type -> plain shown ->
  splitlines (reg_query_text name type shown +:+ "") = [""; key_line; value_line name type shown; ""].
Proof.
  intros Hn Ht Hs.
  assert (Hv : plain (value_line name type shown)).
  { unfold plain, value_line. rewrite !PyStr.all_chars_app, Hn, Ht, Hs. done. }
  assert (Hend : splitlines (value_line name type shown +:+ newline +:+ newline)
                 = [value_line name type shown; ""]).
  { rewrite splitlines_plain by done. done. }
  assert (E : reg_query_text name type shown +:+ ""
              = "" +:+ newline +:+ key_line +:+ newline +:+ value_line name type shown +:+ newline +:+ newline).
  { unfold reg_query_text, value_line. rewrite !append_string_assoc. by rewrite append_string_nil. }
  rewrite E. rewrite splitlines_plain, splitlines_plain, Hend; try done.
  - by rewrite !PyStr.all_chars_app, (plain_ascii _ Hv).
  - by rewrite !PyStr.all_chars_app, (plain_ascii _ Hv).
Qed.

(** *** Parsing what a query prints *)

Lemma rstrip_app (p : ascii -> bool) (a b : string) :
  b <> "" -> PyStr.rstrip_by p b = b -> PyStr.rstrip_by p (a +:+ b) = a +:+ b.
Proof.
  intros Hne Hb. induction a as [|c a IH]; [done|]. rewrite PyStr.append_cons. cbn [PyStr.rstrip_by].
  rewrite IH. destruct (a +:+ b) eqn:E; [|done]. destruct a; [done|discriminate].
Qed.

(** Text without space around it. *)
Definition trimmed (s : string) : Prop := PyStr.strip s = s /\ s <> "".

Lemma trimmed_sides (s : string) :
  trimmed s -> PyStr.lstrip_by PyStr.is_space s = s /\ PyStr.rstrip_by PyStr.is_space s = s.
Proof.
  intros [Hs Hne]. unfold PyStr.strip, PyStr.strip_by in Hs.
  assert (Hl : PyStr.lstrip_by PyStr.is_space s = s).
  { destruct s as [|c s]; [done|]. cbn. destruct (PyStr.is_space c) eqn:E; [|done].
    cbn in Hs. rewrite E in Hs. destruct (PyStr.lstrip_by PyStr.is_space s) as [|d r] eqn:El; [done|].
    destruct (PyStr.rstrip_by_head PyStr.is_space d r (PyStr.lstrip_by_head _ _ _ _ El)) as [r' Hr].
    rewrite Hr in Hs. injection Hs as -> _. by rewrite (PyStr.lstrip_by_head _ _ _ _ El) in E. }
  split; [done|]. by rewrite Hl in Hs.
Qed.

Definition WININET_NAMES : list string :=
  ["ProxyEnable"; "ProxyServer"; "AutoConfigURL"; "AutoDetect"; "ProxyOverride"].

Ltac each_name H := repeat destruct H as [<-|H]; [..|destruct H].

Lemma strip_value_line (name type shown : string) :
  In name WININET_NAMES -> trimmed shown ->
  PyStr.strip (value_line name type shown) = name +:+ "    " +:+ type +:+ "    " +:+ shown.
Proof.
  intros Hn Hs. pose proof (trimmed_sides _ Hs) as [_ Hr]. destruct Hs as [_ Hne].
  assert (PyStr.lstrip_by PyStr.is_space (value_line name type shown)
          = (name +:+ "    " +:+ type +:+ "    ") +:+ shown) as Hl.
  { rewrite !append_string_assoc. each_name Hn; reflexivity. }
  unfold PyStr.strip, PyStr.strip_by. rewrite Hl, rstrip_app by done. by rewrite !append_string_assoc.
Qed.

Lemma parse_sz_query (name data : string) :
  In name WININET_NAMES -> plain data -> trimmed data ->
  _parse_reg_sz (reg_query_text name "REG_SZ" data +:+ "") = Some data.
Proof.
  intros Hn Hp Ht. pose proof (trimmed_sides _ Ht) as [Hl _].
  unfold _parse_reg_sz. rewrite query_lines; [|by each_name Hn|done|done].
  assert (sz_of_line (value_line name "REG_SZ" data) = Some (Some data)) as E.
  { unfold sz_of_line. rewrite strip_value_line by done.
    assert (PyStr.contains "REG_SZ" (name +:+ "    " +:+ "REG_SZ" +:+ "    " +:+ data) = true) as ->
      by (each_name Hn; reflexivity).
    assert (third_part (name +:+ "    " +:+ "REG_SZ" +:+ "    " +:+ data)
            = if PyStr.is_empty (PyStr.lstrip_by PyStr.is_space data) then None
              else Some (PyStr.lstrip_by PyStr.is_space data)) as ->
      by (each_name Hn; reflexivity).
    rewrite Hl. destruct Ht as [Hs Hne]. apply PyStr.is_empty_false in Hne. cbn [orb negb].
    rewrite Hne. by rewrite Hs. }
  cbn [omap list_omap]. change (sz_of_line "") with (@None (option string)).
  change (sz_of_line key_line) with (@None (option string)). by rewrite E.
Qed.

Lemma hex_char_plain (c : ascii) : is_hex_char c = true -> plain_char c = true.
Proof. by destruct c as [[] [] [] [] [] [] [] []]. Qed.

Lemma hex_char_no_space (c : ascii) : is_hex_char c = true -> negb (PyStr.is_space c) = true.
Proof. by destruct c as [[] [] [] [] [] [] [] []]. Qed.

Lemma parse_dword_query (name : string) (n : Z) :
  In name WININET_NAMES -> 0 <= n < 2 ^ 32 ->
  _parse_reg_dword (reg_query_text name "REG_DWORD" ("0x" +:+ hex_text n) +:+ "") = Some n.
Proof.
  intros Hn Hb. pose proof (hex_fuel_chars 8 n "" eq_refl) as Hc. fold (hex_text n) in Hc.
  assert (Hsp : PyStr.all_chars (fun c => negb (PyStr.is_space c)) ("0x" +:+ hex_text n) = true).
  { rewrite PyStr.all_chars_app. cbn. by apply (PyStr.all_chars_impl _ _ _ hex_char_no_space). }
  assert (Ht : trimmed ("0x" +:+ hex_text n)) by (split; [by apply PyStr.strip_none|done]).
  unfold _parse_reg_dword. rewrite query_lines; [|by each_name Hn|done|].
  2: { unfold plain. rewrite PyStr.all_chars_app. cbn. by apply (PyStr.all_chars_impl _ _ _ hex_char_plain). }
  assert (dword_of_line (value_line name "REG_DWORD" ("0x" +:+ hex_text n)) = Some n) as E.
  { unfold dword_of_line. rewrite strip_value_line by done.
    assert (PyStr.contains "REG_DWORD" (name +:+ "    " +:+ "REG_DWORD" +:+ "    " +:+ "0x" +:+ hex_text n)
            = true) as -> by (each_name Hn; reflexivity).
    destruct (hex_text_cons n) as (c & r & Ecr).
    assert (search_hex (name +:+ "    " +:+ "REG_DWORD" +:+ "    " +:+ "0x" +:+ hex_text n)
            = Some (hex_text n)) as ->.
    { assert (search_hex ("0x" +:+ hex_text n) = Some (hex_text n)) as Hx.
      { change ("0x" +:+ hex_text n) with (String "0" (String "x" (hex_text n))).
        cbn [search_hex]. rewrite PyStr.span_all by done. by rewrite Ecr. }
      each_name Hn; exact Hx. }
    cbn [negb]. by rewrite hex_text_val. }
  cbn [omap list_omap]. change (dword_of_line "") with (@None Z).
  change (dword_of_line key_line) with (@None Z). by rewrite E.
Qed.

(** *** Texts that were read *)

(** The text of a field, as the registry keeps it. *)
Definition sz_field (v : option string) : option string :=
  if blank v then None else Some (PyStr.strip (default "" v)).

Lemma trimmed_field (s : string) : trimmed s -> sz_field (Some s) = Some s.
Proof.
  intros [Hs Hne]. unfold sz_field, blank. change (default "" (Some s)) with s. rewrite Hs. by destruct s.
Qed.

Lemma strip_trimmed (s : string) : PyStr.strip s <> "" -> trimmed (PyStr.strip s).
Proof. intros Hne. split; [apply PyStr.strip_idem|done]. Qed.

Lemma third_part_trimmed (line p : string) : third_part line = Some p -> PyStr.strip p <> "".
Proof.
  unfold third_part. set (x := (PyStr.span _ _).2).
  destruct (PyStr.lstrip_by PyStr.is_space x) as [|c r] eqn:E; cbn [PyStr.is_empty]; [done|].
  intros [= <-]. pose proof (PyStr.lstrip_by_head _ _ _ _ E) as Hc.
  unfold PyStr.strip, PyStr.strip_by. cbn [PyStr.lstrip_by]. rewrite Hc.
  by destruct (PyStr.rstrip_by_head PyStr.is_space c r Hc) as [r' ->].
Qed.

Lemma sz_of_line_trimmed (line s : string) : sz_of_line line = Some (Some s) -> trimmed s.
Proof.
  unfold sz_of_line. destruct (negb _); [done|]. destruct (third_part _) as [p|] eqn:E.
  - intros [= <-]. apply strip_trimmed. by eapply third_part_trimmed.
  - case_match eqn:Hv; [done|]. intros [= <-]. apply strip_trimmed. by apply PyStr.is_empty_false.
Qed.

(** A text that was read is trimmed and not empty. *)
Lemma parse_sz_field (text : string) : sz_field (_parse_reg_sz text) = _parse_reg_sz text.
Proof.
  unfold _parse_reg_sz. destruct (omap sz_of_line (splitlines text)) as [|[s|] l] eqn:E; [done| |done].
  cbn. apply trimmed_field.
  assert (Some s ∈ omap sz_of_line (splitlines text)) as Hin by (rewrite E; left).
  apply list_elem_of_omap in Hin as (line & _ & Hl). by eapply sz_of_line_trimmed.
Qed.

Lemma all_chars_strip (p : ascii -> bool) (s : string) :
  PyStr.all_chars p s = true -> PyStr.all_chars p (PyStr.strip s) = true.
Proof.
  unfold PyStr.strip, PyStr.strip_by. intros Hs.
  assert (PyStr.all_chars p (PyStr.lstrip_by PyStr.is_space s) = true) as Hl.
  { induction s as [|c s IH]; [done|]. cbn in Hs |- *. apply andb_true_iff in Hs as [Hc Hs].
    destruct (PyStr.is_space c); [by apply IH|]. cbn. by rewrite Hc, Hs. }
  revert Hl. generalize (PyStr.lstrip_by PyStr.is_space s) as t. intros t.
  induction t as [|c t IH]; [done|]. cbn. intros [Hc Ht]%andb_true_iff. specialize (IH Ht).
  destruct (PyStr.rstrip_by PyStr.is_space t); [destruct (PyStr.is_space c)|]; cbn in *; by rewrite ?Hc, ?IH.
Qed.

(** ** Reading back what was restored *)

Section ReadBack.
Context {W : Type} `{!CommandHost W, !RegistryView W, !RegistryLaws W, !RegistryQueryLaws W}.

Definition in_key (name : string) : string * string := (INTERNET_SETTINGS_KEY, name).

(** What the registry holds, as an undisturbed query shows it. *)
Definition held_value {A} (parse : string -> option A) (name : string) (w : W) : option A :=
  match reg_value w (in_key name) with
  | Some value => parse (reg_query_text name value.1 (reg_shown value) +:+ "")
  | None => None
  end.

Definition registry_snapshot (w : W) : ProxyRegistrySnapshot :=
  {| pr_proxy_enable := held_value _parse_reg_dword "ProxyEnable" w;
     pr_proxy_server := held_value _parse_reg_sz "ProxyServer" w;
     pr_auto_config_url := held_value _parse_reg_sz "AutoConfigURL" w;
     pr_auto_detect := held_value _parse_reg_dword "AutoDetect" w;
     pr_proxy_override := held_value _parse_reg_sz "ProxyOverride" w |}.

(** A value is reported as it is or not at all. *)
Definition seen {A} (observed actual : option A) : Prop := observed = None \/ observed = actual.

Definition sees (observed actual : ProxyRegistrySnapshot) : Prop :=
  seen observed.(pr_proxy_enable) actual.(pr_proxy_enable)
  /\ seen observed.(pr_proxy_server) actual.(pr_proxy_server)
  /\ seen observed.(pr_auto_config_url) actual.(pr_auto_config_url)
  /\ seen observed.(pr_auto_detect) actual.(pr_auto_detect)
  /\ seen observed.(pr_proxy_override) actual.(pr_proxy_override).

(** The query of a present value succeeds. *)
Definition query_answers (w : W) (name : string) : Prop :=
  reg_value w (in_key name) <> None ->
  exists w' out err, run_command w (reg_query_argv name) = (w', CommandDone 0 out err).

(** Worlds reached by running commands. *)
Definition command_step (w w' : W) : Prop := exists argv, w' = (run_command w argv).1.

(** From here on no query of a present value fails or times out. *)
Definition responsive (w : W) : Prop :=
  forall w', rtc command_step w w' -> forall name, query_answers w' name.

Lemma responsive_later (w w' : W) : responsive w -> rtc command_step w w' -> responsive w'.
Proof. intros Hr Hs w2 Hs2. apply Hr. by transitivity w'. Qed.

Lemma responsive_here (w : W) (name : string) : responsive w -> query_answers w name.
Proof. intros Hr. apply Hr. done. Qed.

Lemma command_later (w : W) (argv : list string) : rtc command_step w (run_command w argv).1.
Proof. apply rtc_once. by eexists. Qed.

Lemma read_value_outcome {A} (parse : string -> option A) (name : string) (w : W) :
  (read_value parse name w).1
  = match (run_command w (reg_query_argv name)).2 with
    | CommandRaises _ => None
    | CommandDone code out err => if code =? 0 then parse (out +:+ err) else None
    end
  /\ (read_value parse name w).2 = (run_command w (reg_query_argv name)).1.
Proof.
  unfold read_value, _run_reg_query. by destruct (run_command w _) as [? [?|? ? ?]].
Qed.

Lemma read_value_later {A} (parse : string -> option A) (name : string) (w : W) :
  rtc command_step w (read_value parse name w).2.
Proof. rewrite (proj2 (read_value_outcome _ _ _)). apply command_later. Qed.

Lemma read_value_seen {A} (parse : string -> option A) (name : string) (w : W) :
  seen (read_value parse name w).1 (held_value parse name w)
  /\ (query_answers w name -> (read_value parse name w).1 = held_value parse name w).
Proof.
  rewrite (proj1 (read_value_outcome _ _ _)). unfold seen, held_value, query_answers, in_key.
  pose proof (reg_query_prints w name) as Hp.
  destruct (run_command w (reg_query_argv name)) as [w' [text|code out err]] eqn:E; cbn [snd].
  - split; [by left|]. intros Ha. destruct (reg_value w _); [|done].
    by destruct (Ha ltac:(discriminate)) as (? & ? & ? & ?).
  - destruct (Z.eqb_spec code 0) as [->|Hc].
    + destruct (Hp _ _ _ eq_refl) as (v & -> & -> & ->). split; [by right|done].
    + split; [by left|]. intros Ha. destruct (reg_value w _); [|done].
      destruct (Ha ltac:(discriminate)) as (? & ? & ? & [=]). by destruct Hc.
Qed.

Lemma held_value_determined {A} (parse : string -> option A) (name : string) (w w' : W) :
  reg_value w (in_key name) = reg_value w' (in_key name) ->
  held_value parse name w = held_value parse name w'.
Proof. unfold held_value. by intros ->. Qed.

Lemma snapshot_determined (w w' : W) :
  (forall name, reg_value w (in_key name) = reg_value w' (in_key name)) ->
  registry_snapshot w = registry_snapshot w'.
Proof. intros E. unfold registry_snapshot. f_equal; apply held_value_determined, E. Qed.

Lemma read_value_frame {A} (parse : string -> option A) (name : string) (w : W) (v : string * string) :
  reg_value (read_value parse name w).2 v = reg_value w v.
Proof. rewrite (proj2 (read_value_outcome _ _ _)). apply reg_query_frame. Qed.

(** One read: it sees the registry, all of it when the queries answer, and leaves it alone. *)
Lemma read_fields (w : W) :
  sees (read_proxy_registry w).1 (registry_snapshot w)
  /\ (responsive w -> (read_proxy_registry w).1 = registry_snapshot w)
  /\ (forall v, reg_value (read_proxy_registry w).2 v = reg_value w v)
  /\ rtc command_step w (read_proxy_registry w).2.
Proof.
  unfold read_proxy_registry.
  rewrite (surjective_pairing (read_value _ "ProxyEnable" w)). set (w1 := (read_value _ _ w).2).
  rewrite (surjective_pairing (read_value _ "ProxyServer" w1)). set (w2 := (read_value _ _ w1).2).
  rewrite (surjective_pairing (read_value _ "AutoConfigURL" w2)). set (w3 := (read_value _ _ w2).2).
  rewrite (surjective_pairing (read_value _ "AutoDetect" w3)). set (w4 := (read_value _ _ w3).2).
  rewrite (surjective_pairing (read_value _ "ProxyOverride" w4)). set (w5 := (read_value _ _ w4).2).
  assert (L1 : rtc command_step w w1) by apply read_value_later.
  assert (L2 : rtc command_step w w2) by (etransitivity; [exact L1|apply read_value_later]).
  assert (L3 : rtc command_step w w3) by (etransitivity; [exact L2|apply read_value_later]).
  assert (L4 : rtc command_step w w4) by (etransitivity; [exact L3|apply read_value_later]).
  assert (L5 : rtc command_step w w5) by (etransitivity; [exact L4|apply read_value_later]).
  assert (F1 : forall v, reg_value w1 v = reg_value w v) by (intros v; apply read_value_frame).
  assert (F2 : forall v, reg_value w2 v = reg_value w v) by (intros v; rewrite <- F1; apply read_value_frame).
  assert (F3 : forall v, reg_value w3 v = reg_value w v) by (intros v; rewrite <- F2; apply read_value_frame).
  assert (F4 : forall v, reg_value w4 v = reg_value w v) by (intros v; rewrite <- F3; apply read_value_frame).
  assert (F5 : forall v, reg_value w5 v = reg_value w v) by (intros v; rewrite <- F4; apply read_value_frame).
  unfold sees, registry_snapshot. cbn [fst snd pr_proxy_enable pr_proxy_server pr_auto_config_url
    pr_auto_detect pr_proxy_override].
  rewrite <- (held_value_determined _parse_reg_sz "ProxyServer" w1 w (F1 _)).
  rewrite <- (held_value_determined _parse_reg_sz "AutoConfigURL" w2 w (F2 _)).
  rewrite <- (held_value_determined _parse_reg_dword "AutoDetect" w3 w (F3 _)).
  rewrite <- (held_value_determined _parse_reg_sz "ProxyOverride" w4 w (F4 _)).
  split; [|split; [|done]].
  - repeat split; apply read_value_seen.
  - intros Hr. f_equal; apply read_value_seen; by apply Hr.
Qed.

Lemma unread_sees (actual : ProxyRegistrySnapshot) : sees unread actual.
Proof. repeat split; by left. Qed.

(** The retried read: what it returns is seen in the registry; all of it when the queries
    answer; the registry stays as it is. *)
Lemma retries_read (max_attempts : Z) (w : W) :
  let '((observed, _), w') := read_proxy_registry_with_retries max_attempts w in
  sees observed (registry_snapshot w)
  /\ (responsive w -> observed = registry_snapshot w)
  /\ (forall v, reg_value w' v = reg_value w v)
  /\ rtc command_step w w'.
Proof.
  unfold read_proxy_registry_with_retries.
  assert (H : forall n i notes last w0, sees last (registry_snapshot w) ->
    (responsive w -> n <> O \/ last = registry_snapshot w) ->
    (forall v, reg_value w0 v = reg_value w v) -> rtc command_step w w0 ->
    let '((observed, _), w') := read_attempts n i notes last w0 in
    sees observed (registry_snapshot w) /\ (responsive w -> observed = registry_snapshot w)
    /\ (forall v, reg_value w' v = reg_value w v) /\ rtc command_step w w').
  { induction n as [|n IH]; intros i notes last w0 Hl Hn Hf Hs; cbn [read_attempts].
    { split; [done|]. split; [|done]. intros Hr. by destruct (Hn Hr). }
    destruct (read_fields w0) as (Hsees & Hclean & Hframe & Hlater).
    assert (E : registry_snapshot w0 = registry_snapshot w) by (apply snapshot_determined; intros; apply Hf).
    rewrite E in Hsees, Hclean.
    assert (Hc : responsive w -> (read_proxy_registry w0).1 = registry_snapshot w).
    { intros Hr. apply Hclean. by eapply responsive_later. }
    destruct (read_proxy_registry w0) as [snap w1]. cbn [fst snd] in *.
    assert (Hf1 : forall v, reg_value w1 v = reg_value w v) by (intros v; by rewrite Hframe).
    assert (Hs1 : rtc command_step w w1) by (by transitivity w0).
    destruct (negb _); [done|]. apply IH; try done. intros Hr. right. by apply Hc. }
  apply H; [apply unread_sees|left; lia|done|done].
Qed.

Lemma held_sz (name : string) (v : option string) (w : W) :
  In name WININET_NAMES -> plain (default "" v) -> reg_value w (in_key name) = sz_target v ->
  held_value _parse_reg_sz name w = sz_field v.
Proof.
  intros Hn Hp Hv. unfold held_value. rewrite Hv. unfold sz_target, sz_field in *.
  destruct (blank v) eqn:Hb; [done|]. rewrite reg_shown_sz.
  apply parse_sz_query; [done|by apply all_chars_strip|].
  apply strip_trimmed. destruct v as [s|]; [|done]. by apply PyStr.is_empty_false.
Qed.

Lemma held_dword (name : string) (n : Z) (w : W) :
  In name WININET_NAMES -> 0 <= n < 2 ^ 32 ->
  reg_value w (in_key name) = Some ("REG_DWORD", PyStr.of_Z n) ->
  held_value _parse_reg_dword name w = Some n.
Proof.
  intros Hn Hb Hv. unfold held_value. rewrite Hv, reg_shown_dword by done. by apply parse_dword_query.
Qed.

(** A snapshot the reads can return: texts of printable ASCII, the switch a 32-bit number. *)
Definition readable (s : ProxySnapshot) (n : Z) : Prop :=
  s.(sn_proxy_enable) = Some n /\ 0 <= n < 2 ^ 32
  /\ plain (default "" s.(sn_proxy_server)) /\ plain (default "" s.(sn_auto_config_url))
  /\ plain (default "" s.(sn_proxy_override)).

(** The registry a restore of the snapshot leaves, on one that had [detect] for AutoDetect. *)
Definition kept (s : ProxySnapshot) (n : Z) (detect : option Z) : ProxyRegistrySnapshot :=
  {| pr_proxy_enable := Some n; pr_proxy_server := sz_field s.(sn_proxy_server);
     pr_auto_config_url := sz_field s.(sn_auto_config_url); pr_auto_detect := detect;
     pr_proxy_override := sz_field s.(sn_proxy_override) |}.

Lemma restored_snapshot (s : ProxySnapshot) (n : Z) (restore_winhttp : bool) (w w' : W)
    (r : RestoreReport) :
  readable s n ->
  execute_lkg_snapshot_rollback (Some s) false restore_winhttp false w = (r, w') ->
  r.(rs_success) = Some true ->
  registry_snapshot w' = kept s n (registry_snapshot w).(pr_auto_detect).
Proof.
  intros (He & Hb & Hs & Hu & Ho) E Hok. destruct (lkg_restore_effect _ _ _ _ _ E) as [Hh Hf].
  specialize (Hh Hok). pose proof (Hf _ (auto_detect_untouched s)) as Had.
  revert Hh. unfold snapshot_writes. rewrite He. cbn [app]. rewrite !Forall_cons.
  unfold holds. cbn [wr_name wr_target]. intros (H1 & H2 & H3 & H4 & _).
  unfold registry_snapshot, kept. cbn [pr_auto_detect].
  f_equal; [apply held_dword|apply held_sz|apply held_sz|apply held_value_determined|apply held_sz];
    try done; cbn; auto 8.
Qed.

(** Texts the registry shows are as it keeps them. *)
Lemma held_value_field (name : string) (w : W) :
  sz_field (held_value _parse_reg_sz name w) = held_value _parse_reg_sz name w.
Proof. unfold held_value. destruct (reg_value w _); [apply parse_sz_field|done]. Qed.

(** C12: take a snapshot of printable texts and a known switch.  After a restore of it that
    succeeded, the registry shows the switch, the texts as it keeps them, and the [AutoDetect]
    it had.  However its queries fail or time out, the retried read returns of each value this
    or nothing, and the check after the rollback accepts only a snapshot whose server and PAC
    address are as the registry keeps them.  When every query answers, the read returns
    exactly this, and the check passes exactly when these texts are so and the [AutoDetect]
    of the snapshot was already in place. *)
Theorem restored_snapshot_read_back (s : ProxySnapshot) (n attempts : Z) (restore_winhttp : bool)
    (w w' : W) (r : RestoreReport) :
  readable s n ->
  execute_lkg_snapshot_rollback (Some s) false restore_winhttp false w = (r, w') ->
  r.(rs_success) = Some true ->
  let observed := (read_proxy_registry_with_retries attempts w').1.1 in
  let expected := kept s n (registry_snapshot w).(pr_auto_detect) in
  let texts_kept := sz_field s.(sn_proxy_server) = s.(sn_proxy_server)
                    /\ sz_field s.(sn_auto_config_url) = s.(sn_auto_config_url) in
  registry_snapshot w' = expected
  /\ sees observed expected
  /\ (verify_hkcu_core_matches_prior observed s = true -> texts_kept)
  /\ (responsive w' ->
      observed = expected
      /\ (verify_hkcu_core_matches_prior observed s = true
          <-> texts_kept /\ (registry_snapshot w).(pr_auto_detect) = s.(sn_auto_detect))).
Proof.
  intros Hr E Hok observed expected texts_kept.
  pose proof (restored_snapshot s n _ _ _ _ Hr E Hok) as Hreg. fold expected in Hreg.
  pose proof (retries_read attempts w') as Hread. subst observed.
  destruct (read_proxy_registry_with_retries attempts w') as [[observed notes] w2]. cbn [fst] in *.
  rewrite Hreg in Hread. destruct Hread as (Hsees & Hclean & _).
  split; [done|]. split; [done|]. unfold verify_hkcu_core_matches_prior. rewrite bool_decide_eq_true.
  unfold hkcu_tuple_from_registry, hkcu_tuple_expected_from_snapshot. split.
  - intros [= _ Es Eu _]. destruct Hsees as (_ & Hs & Hu & _). cbn in Hs, Hu. subst texts_kept.
    rewrite Es in Hs. rewrite Eu in Hu. split; [by destruct Hs as [->|Hs]|by destruct Hu as [->|Hu]].
  - intros Hresp. rewrite (Hclean Hresp). split; [done|]. cbn. subst texts_kept.
    destruct Hr as [-> _]. split; [by intros [= -> -> ->]|by intros [[-> ->] ->]].
Qed.
End ReadBack.

(** A host that also answers queries; the next ones may time out. *)
Module DemoQuery.
Record host := { hive : DemoRegistry.registry; timeouts : list bool }.

Definition shown (value : string * string) : string :=
  if String.eqb value.1 "REG_DWORD"
  then match PyStr.to_int value.2 with Ok n => "0x" +:+ hex_text n | Raise _ => "" end
  else value.2.

Definition answer (w : host) (key name : string) : command_outcome :=
  match w.(hive) !! DemoRegistry.canonical (key, name) with
  | Some value => CommandDone 0 (reg_query_text name value.1 (shown value)) ""
  | None => CommandDone 1 "" "not found"
  end.

#[export] Instance query_view : RegistryView host := fun w v => DemoRegistry.demo_view w.(hive) v.

#[export] Instance query_host : CommandHost host := fun w a =>
  match a with
  | ["reg"; "query"; key; "/v"; name] =>
      match w.(timeouts) with
      | true :: rest => ({| hive := w.(hive); timeouts := rest |}, CommandRaises "timed out")
      | false :: rest => ({| hive := w.(hive); timeouts := rest |}, answer w key name)
      | [] => (w, answer w key name)
      end
  | _ =>
      let '(h, o) := DemoRegistry.demo_host w.(hive) a in ({| hive := h; timeouts := w.(timeouts) |}, o)
  end.

#[export] Instance query_laws : RegistryLaws host.
Proof.
  constructor; unfold run_command, query_host, reg_value, query_view.
  - intros w key name type data w' out err [= <- _ _]. by eapply (DemoRegistry.demo_laws.(reg_add_sets) w.(hive)).
  - intros w key name w' out err. cbn [reg_delete]. destruct (DemoRegistry.demo_host _ _) as [h o] eqn:E.
    intros [= <- ->]. by apply (DemoRegistry.demo_laws.(reg_delete_removes) _ _ _ _ _ _ E).
  - intros w key name Hn. cbn [reg_delete].
    pose proof (DemoRegistry.demo_laws.(reg_delete_absent) w.(hive) key name Hn) as Hno.
    unfold run_command in Hno. intros w' out err. destruct (DemoRegistry.demo_host _ _) as [h o] eqn:E.
    intros [= _ ->]. by apply (Hno h out err).
  - intros w key name type data v Hv. cbn [reg_add].
    pose proof (DemoRegistry.demo_laws.(reg_add_frame) w.(hive) key name type data v Hv) as E.
    unfold run_command in E. by destruct (DemoRegistry.demo_host _ _).
  - intros w key name v Hv. cbn [reg_delete].
    pose proof (DemoRegistry.demo_laws.(reg_delete_frame) w.(hive) key name v Hv) as E.
    unfold run_command in E. by destruct (DemoRegistry.demo_host _ _).
  - intros w program args v Hp.
    pose proof (DemoRegistry.demo_laws.(other_program_frame) w.(hive) program args v Hp) as E.
    unfold run_command in E. destruct (DemoRegistry.demo_host w.(hive) (program :: args)).
    by repeat case_match.
Qed.

#[export] Instance query_query_laws : RegistryQueryLaws host.
Proof.
  refine {| reg_shown := shown |}.
  - done.
  - intros n Hn. unfold shown. cbn [fst snd String.eqb]. by rewrite PyStr.to_int_of_Z by lia.
  - intros w name w' out err. unfold run_command, query_host, reg_query_argv.
    assert (Ha : answer w INTERNET_SETTINGS_KEY name = CommandDone 0 out err ->
      exists value, reg_value w (INTERNET_SETTINGS_KEY, name) = Some value
        /\ out = reg_query_text name value.1 (shown value) /\ err = "").
    { unfold answer, reg_value, query_view, DemoRegistry.demo_view. destruct (_ !! _) as [v|]; [|done].
      intros [= <- <-]. by exists v. }
    destruct w.(timeouts) as [|[] rest]; intros [= _ Ho]; by apply Ha.
  - intros w name v. unfold run_command, query_host, reg_query_argv.
    by destruct w.(timeouts) as [|[] rest].
Defined.

(** Without pending time-outs the host answers from then on. *)
Lemma quiet_host_responsive (w : host) : w.(timeouts) = [] -> responsive w.
Proof.
  intros Hw w' Hs.
  assert (Hw' : w'.(timeouts) = []).
  { induction Hs as [w|w w1 w2 [a ->] _ IH]; [done|]. apply IH. unfold run_command, query_host.
    rewrite Hw. destruct (DemoRegistry.demo_host (hive w) a). by repeat case_match. }
  intros name. unfold query_answers, in_key, run_command, query_host, reg_query_argv, answer.
  unfold reg_value, query_view, DemoRegistry.demo_view. rewrite Hw'.
  destruct (_ !! _) as [v|]; [|done]. intros _. by eexists _, _, _.
Qed.
End DemoQuery.

Module ReaderWitness.
Import DemoQuery.

Definition drifted : host := {| hive := RestoreWitness.drifted; timeouts := [] |}.
Definition restored : RestoreReport * host :=
  execute_lkg_snapshot_rollback (Some RestoreWitness.lkg) false true false drifted.

Lemma restored_snapshot_read_back_witness :
  verify_hkcu_core_matches_prior (read_proxy_registry_with_retries 3 restored.2).1.1 RestoreWitness.lkg = false
  /\ (read_proxy_registry_with_retries 3 restored.2).1.1
     = {| pr_proxy_enable := Some 1; pr_proxy_server := Some "127.0.0.1:8080"; pr_auto_config_url := None;
          pr_auto_detect := None; pr_proxy_override := Some "<local>" |}.
Proof.
  split; [vm_compute; reflexivity|].
  destruct (restored_snapshot_read_back RestoreWitness.lkg 1 3 true drifted restored.2 restored.1)
    as (_ & _ & _ & H).
  - repeat split; vm_compute; done || reflexivity || discriminate.
  - exact (surjective_pairing restored).
  - vm_compute. reflexivity.
  - apply H. apply quiet_host_responsive. reflexivity.
Defined.

(** A query that times out is read like an absent value, and the retries accept it, since the
    other values were read. *)
Lemma timeout_reads_as_absent :
  let w := {| hive := restored.2.(hive); timeouts := [false; true] |} in
  (read_proxy_registry_with_retries 3 w).1
  = ({| pr_proxy_enable := Some 1; pr_proxy_server := None; pr_auto_config_url := None;
        pr_auto_detect := None; pr_proxy_override := Some "<local>" |}, []).
Proof. vm_compute. reflexivity. Qed.

(** The reads after a disable; a missing value is read as nothing. *)
Lemma reads_of_text :
  _parse_reg_dword (reg_query_text "ProxyEnable" "REG_DWORD" "0x1f") = Some 31
  /\ _parse_reg_sz (reg_query_text "ProxyServer" "REG_SZ" "") = None
  /\ _parse_reg_sz (reg_query_text "ProxyServer" "REG_EXPAND_SZ" "proxy corp:80") = Some "proxy corp:80".
Proof. vm_compute. auto. Qed.
End ReaderWitness.
