(* ===== verification/GuardLoop.v ===== *)
(** * The guard loop

    [src/proxy_guard/guard.py] with the pieces only it uses: the limiter of
    [rollback_limits.py], the plan of [audit.py], the views of [planning.py].  One poll reads
    the registry, compares it with the last one, judges a change and may roll it back.

    Clock readings are whole nanoseconds.  What the loop learns from processes, sockets and
    the network is the input of a poll. *)

From S2P Require Import Prelude PyValue ProxyDisable ProxyParser RegistryWriter GuardPolicy ProxyRestore GuardTransition RegistryReader.
From Stdlib Require Import Ascii String Sorting.Sorted.
From stdpp Require Import strings gmap.

Open Scope string_scope.
Open Scope Z_scope.
Open Scope py_scope.

(** ** The limiter *)

Definition second : Z := 1000000000.

Record RollbackLimitSettings := {
  rl_cooldown_seconds : Z;
  rl_window_seconds : Z;
  rl_max_rollbacks_per_window : Z;
}.

Record RollbackLimiter := {
  lim_rollback_times : list Z;
  lim_cooldown_until : option Z;
}.

Definition fresh_limiter : RollbackLimiter := {| lim_rollback_times := []; lim_cooldown_until := None |}.

Inductive LimitVerdict := limit_ok | limit_cooldown_active (remain : Z) | limit_rate_limited.

#[export] Instance LimitVerdict_eq_dec : EqDecision LimitVerdict.
Proof. solve_decision. Defined.

(** The reason code; the remaining time with one decimal. *)
Definition limit_reason (v : LimitVerdict) : string :=
  match v with
  | limit_ok => "ok"
  | limit_cooldown_active remain =>
      let tenths := F64.div_half_even remain (second / 10) in
      "rollback_cooldown_active:" +:+ PyStr.of_Z (tenths / 10) +:+ "." +:+ PyStr.of_Z (tenths mod 10) +:+ "s"
  | limit_rate_limited => "rollback_rate_limited_in_window"
  end.

Definition window_of (s : RollbackLimitSettings) : Z := Z.max second s.(rl_window_seconds).
Definition cooldown_of (s : RollbackLimitSettings) : Z := Z.max 0 s.(rl_cooldown_seconds).

Definition limiter_evaluate (s : RollbackLimitSettings) (now : Z) (lim : RollbackLimiter)
    : LimitVerdict * RollbackLimiter :=
  let judged :=
    let times := List.filter (fun t => now - window_of s <=? t) lim.(lim_rollback_times) in
    let lim' := {| lim_rollback_times := times; lim_cooldown_until := lim.(lim_cooldown_until) |} in
    if s.(rl_max_rollbacks_per_window) <=? Z.of_nat (length times)
    then (limit_rate_limited, lim') else (limit_ok, lim') in
  match lim.(lim_cooldown_until) with
  | Some until => if now <? until then (limit_cooldown_active (until - now), lim) else judged
  | None => judged
  end.

Definition record_rollback (s : RollbackLimitSettings) (now : Z) (lim : RollbackLimiter)
    : RollbackLimiter :=
  {| lim_rollback_times := (lim.(lim_rollback_times) ++ [now])%list;
     lim_cooldown_until := Some (now + cooldown_of s) |}.

(** ** Views, plans and results *)

#[export] Instance ParsedProxy_eq_dec : EqDecision ParsedProxy.
Proof. solve_decision. Defined.

(** The merged view; its JSON texts are equal when the fields are. *)
Record RegistryViewRow := { vw_registry : ProxyRegistrySnapshot; vw_parsed : ParsedProxy }.

#[export] Instance RegistryViewRow_eq_dec : EqDecision RegistryViewRow.
Proof. solve_decision. Defined.

Definition normalize_registry_view (reg : ProxyRegistrySnapshot) : RegistryViewRow :=
  {| vw_registry := reg; vw_parsed := parse_proxy_server reg.(pr_proxy_server) |}.

Definition registry_views_equal (a b : RegistryViewRow) : bool := bool_decide (a = b).

Definition winhttp_explicit (lkg : option ProxySnapshot) : bool :=
  match lkg with
  | None => false
  | Some s =>
      negb (PyStr.is_empty (PyStr.strip (default "" s.(sn_winhttp_proxy_server_literal))))
      || s.(sn_winhttp_direct_access)
      || negb (PyStr.is_empty (PyStr.strip s.(sn_winhttp_proxy)))
  end.

Record RollbackPlan := {
  pl_dry_run_requested : bool;
  pl_restore_wininet : bool;
  pl_restore_winhttp : bool;
  pl_would_restore_git_or_env : bool;
}.

Definition guard_rollback_plan (decision : TransitionKind) (rollback_allowed lkg_present : bool)
    (auto_rollback_enabled live_rollback_enabled explicit_winhttp_data restore_git_npm_env : bool)
    : RollbackPlan :=
  let wants := bool_decide (decision = tr_blocked) && rollback_allowed && auto_rollback_enabled
               && lkg_present in
  {| pl_dry_run_requested := negb live_rollback_enabled; pl_restore_wininet := wants;
     pl_restore_winhttp := wants && explicit_winhttp_data;
     pl_would_restore_git_or_env := restore_git_npm_env |}.

Inductive RollbackStatus :=
| skipped_no_lkg | skipped_not_blocked | skipped_dry_run | skipped_observe | skipped_suppressed
| skipped_auto_rollback_disabled | skipped_roll_back_disallowed | executed_ok | executed_partial
| status_error (detail : string).

#[export] Instance RollbackStatus_eq_dec : EqDecision RollbackStatus.
Proof. solve_decision. Defined.

Inductive PipelineAction := rollback_skipped | rollback_preview | rollback_failed | rollback_applied.

#[export] Instance PipelineAction_eq_dec : EqDecision PipelineAction.
Proof. solve_decision. Defined.

Inductive RollbackVerify := verify_passed | verify_failed | verify_not_run.

#[export] Instance RollbackVerify_eq_dec : EqDecision RollbackVerify.
Proof. solve_decision. Defined.

(** ** Configuration, state and inputs *)

Record GuardConfig := {
  gc_policy : ProxyGuardPolicy;
  gc_auto_rollback : bool;
  gc_cli_rollback : bool;
  gc_dry_run_rollback : bool;
  gc_confirm_phrase : string;
  gc_limits : RollbackLimitSettings;
  gc_max_attempts : Z;
  gc_trust_current_lkg : bool;
  gc_restore_git_npm_env : bool;
  gc_known_good_snapshot : option ProxySnapshot;
}.

Definition effective_rollback (cfg : GuardConfig) : bool :=
  cfg.(gc_auto_rollback) || cfg.(gc_cli_rollback).

Definition live_rollback_gate (cfg : GuardConfig) : bool :=
  let confirm_required := cfg.(gc_cli_rollback) && negb cfg.(gc_auto_rollback) in
  let phrase_ok := String.eqb (PyStr.strip cfg.(gc_confirm_phrase)) "RESTORE_PROXY" in
  effective_rollback cfg && negb cfg.(gc_dry_run_rollback) && (negb confirm_required || phrase_ok).

Record GuardState (W : Type) := {
  gs_world : W;
  gs_lkg : option ProxySnapshot;
  gs_prior_view : option RegistryViewRow;
  gs_prior_snap : option ProxySnapshot;
  gs_prior_connectivity : option ConnectivitySnapshot;
  gs_limiter : RollbackLimiter;
}.
Arguments gs_world {W}. Arguments gs_lkg {W}. Arguments gs_prior_view {W}.
Arguments gs_prior_snap {W}. Arguments gs_prior_connectivity {W}. Arguments gs_limiter {W}.

(** One poll: what happened to the machine since the last, and what the poll learns. *)
Record PollInputs (W : Type) := {
  in_drift : W -> W;
  in_winreg : string -> option string;
  in_utc_now : string;
  in_attribution : GuardAttribution;
  in_port_listen : option bool;
  in_has_url : bool;
  in_path_probes : path_contrast;
  in_run_probe : list string -> probe_outcome;
  in_evaluate_clock : Z;
  in_record_clock : Z;
}.
Arguments in_drift {W}. Arguments in_winreg {W}. Arguments in_utc_now {W}.
Arguments in_attribution {W}. Arguments in_port_listen {W}. Arguments in_has_url {W}.
Arguments in_path_probes {W}. Arguments in_run_probe {W}. Arguments in_evaluate_clock {W}.
Arguments in_record_clock {W}.

(** What the audit of a change records. *)
Record GuardOutcome := {
  go_before : ProxySnapshot;
  go_after : ProxySnapshot;
  go_policy : TransitionDecision;
  go_path : PathAssessment;
  go_final : FinalDecision;
  go_plan : RollbackPlan;
  go_suppressed : option LimitVerdict;
  go_report : option RestoreReport;
  go_recorded_at : option Z;
  go_pipeline_action : PipelineAction;
  go_verification : RollbackVerify;
  go_error : option string;
  go_restored_fields : list string;
  go_status : RollbackStatus;
}.

(** ** The rollback stage *)

(** What the stage leaves: the audit fields, the limiter, the world and, after an attempt, the
    registry read back. *)
Record StageResult (W : Type) := {
  st_suppressed : option LimitVerdict;
  st_report : option RestoreReport;
  st_recorded_at : option Z;
  st_action : PipelineAction;
  st_verification : RollbackVerify;
  st_error : option string;
  st_fields : list string;
  st_limiter : RollbackLimiter;
  st_world : W;
  st_after : option ProxyRegistrySnapshot;
}.
Arguments st_suppressed {W}. Arguments st_report {W}. Arguments st_recorded_at {W}.
Arguments st_action {W}. Arguments st_verification {W}. Arguments st_error {W}.
Arguments st_fields {W}. Arguments st_limiter {W}. Arguments st_world {W}. Arguments st_after {W}.

Section Stage.
Context {W : Type} `{!CommandHost W}.
Context (cfg : GuardConfig).

(** The restore that is tried. *)
Definition attempt_restore (prev : ProxySnapshot) (plan : RollbackPlan) (w : W) : RestoreReport * W :=
  let dry_run := negb (live_rollback_gate cfg) in
  match cfg.(gc_known_good_snapshot) with
  | Some target => execute_known_good_proxy_restore (Some target) dry_run plan.(pl_restore_winhttp) w
  | None => execute_lkg_snapshot_rollback (Some prev) dry_run plan.(pl_restore_winhttp)
              cfg.(gc_restore_git_npm_env) w
  end.

Definition restore_target (prev : ProxySnapshot) : ProxySnapshot :=
  default prev cfg.(gc_known_good_snapshot).

(** How an attempt is labelled. *)
Definition label_attempt (r : RestoreReport) (observed : ProxyRegistrySnapshot) (target : ProxySnapshot)
    : PipelineAction * RollbackVerify * option string :=
  if r.(rs_skipped) then (rollback_skipped, verify_not_run, None)
  else if negb (live_rollback_gate cfg) then (rollback_preview, verify_not_run, None)
  else if bool_decide (r.(rs_success) = Some false) then
    (rollback_failed, verify_failed, Some "registry_or_netsh_nonzero")
  else if verify_hkcu_core_matches_prior observed target then (rollback_applied, verify_passed, None)
  else (rollback_failed, verify_failed, Some "post_rollback_registry_mismatch").

Definition rollback_stage (gd : TransitionDecision) (prev : ProxySnapshot) (plan : RollbackPlan)
    (evaluate_clock record_clock : Z) (lim : RollbackLimiter) (w : W) : StageResult W :=
  let blocked := bool_decide (gd.(td_decision) = tr_blocked) && gd.(td_rollback_allowed) in
  if blocked && effective_rollback cfg then
    match limiter_evaluate cfg.(gc_limits) evaluate_clock lim with
    | (limit_ok, lim1) =>
        let '(r, w1) := attempt_restore prev plan w in
        let recorded := live_rollback_gate cfg && negb r.(rs_skipped) in
        let lim2 := if recorded then record_rollback cfg.(gc_limits) record_clock lim1 else lim1 in
        let '((observed, _), w2) := read_proxy_registry_with_retries cfg.(gc_max_attempts) w1 in
        let '(action, verification, error) := label_attempt r observed (restore_target prev) in
        {| st_suppressed := None; st_report := Some r;
           st_recorded_at := if recorded then Some record_clock else None;
           st_action := action; st_verification := verification; st_error := error;
           st_fields := wininet_argv_restored_fields r.(rs_wininet_reg);
           st_limiter := lim2; st_world := w2; st_after := Some observed |}
    | (reason, lim1) =>
        {| st_suppressed := Some reason; st_report := None; st_recorded_at := None;
           st_action := rollback_skipped; st_verification := verify_not_run;
           st_error := Some (limit_reason reason); st_fields := []; st_limiter := lim1; st_world := w;
           st_after := None |}
    end
  else
    {| st_suppressed := None; st_report := None; st_recorded_at := None;
       st_action := if blocked then rollback_preview else rollback_skipped;
       st_verification := verify_not_run; st_error := None; st_fields := []; st_limiter := lim;
       st_world := w; st_after := None |}.

(** The status of the second audit schema. *)
Definition rollback_status (gd : TransitionDecision) (s : StageResult W) : RollbackStatus :=
  match s.(st_suppressed) with
  | Some _ => skipped_suppressed
  | None =>
      match gd.(td_decision) with
      | tr_observe => skipped_observe
      | tr_allowed => skipped_not_blocked
      | tr_blocked =>
          if negb gd.(td_rollback_allowed) then skipped_roll_back_disallowed
          else if negb (effective_rollback cfg) then skipped_auto_rollback_disabled
          else
            match s.(st_report) with
            | None => status_error "rollback_executor_not_invoked_internal_error"
            | Some r =>
                if r.(rs_skipped) then
                  let reason := default "" r.(rs_reason) in
                  if String.eqb reason "skipped_no_lkg" then skipped_no_lkg
                  else status_error (if PyStr.is_empty reason then "skipped" else reason)
                else if negb (live_rollback_gate cfg) then skipped_dry_run
                else if bool_decide (r.(rs_success) = Some false) then executed_partial
                else executed_ok
            end
      end
  end.

(** ** One poll *)

Definition with_snapshot (w : W) (lkg : option ProxySnapshot) (view : RegistryViewRow)
    (snap : ProxySnapshot) (conn : ConnectivitySnapshot) (lim : RollbackLimiter) : GuardState W :=
  {| gs_world := w; gs_lkg := lkg; gs_prior_view := Some view; gs_prior_snap := Some snap;
     gs_prior_connectivity := Some conn; gs_limiter := lim |}.

(** The judgement of a change, and what is done about it. *)
Definition handle_change (inp : PollInputs W) (st : GuardState W) (lkg : option ProxySnapshot)
    (snap : ProxyRegistrySnapshot) (view : RegistryViewRow) (curr : ProxySnapshot) (w : W)
    : GuardState W * GuardOutcome :=
  let '(prev, w0) :=
    match st.(gs_prior_snap) with
    | Some s => (s, w)
    | None => capture_proxy_snapshot inp.(in_winreg) inp.(in_utc_now) (Some snap) false w
    end in
  let parsed := view.(vw_parsed) in
  let path := assess_proxy_path_operational curr parsed inp.(in_port_listen) true inp.(in_has_url)
                inp.(in_path_probes) in
  let gd := evaluate_proxy_transition prev curr parsed inp.(in_attribution) cfg.(gc_policy)
              inp.(in_port_listen) (Some path) in
  let post := capture_connectivity_snapshot inp.(in_run_probe) curr in
  let validation := compare_connectivity st.(gs_prior_connectivity) post in
  let final := finalize_decision gd validation inp.(in_attribution) parsed.(is_localhost_proxy) in
  let restore_basis :=
    match cfg.(gc_known_good_snapshot) with
    | Some k => k
    | None => default prev lkg
    end in
  let plan := guard_rollback_plan gd.(td_decision) gd.(td_rollback_allowed) true (effective_rollback cfg)
                (live_rollback_gate cfg) (winhttp_explicit (Some restore_basis))
                cfg.(gc_restore_git_npm_env) in
  let s := rollback_stage gd prev plan inp.(in_evaluate_clock) inp.(in_record_clock) st.(gs_limiter) w0 in
  let '(next_view, next_snap, w1) :=
    match s.(st_after) with
    | Some observed =>
        let '(snap', w1) := capture_proxy_snapshot inp.(in_winreg) inp.(in_utc_now) (Some observed) false
                              s.(st_world) in
        (normalize_registry_view observed, snap', w1)
    | None => (view, curr, s.(st_world))
    end in
  (with_snapshot w1 lkg next_view next_snap post s.(st_limiter),
   {| go_before := prev; go_after := curr; go_policy := gd; go_path := path; go_final := final;
      go_plan := plan; go_suppressed := s.(st_suppressed); go_report := s.(st_report);
      go_recorded_at := s.(st_recorded_at); go_pipeline_action := s.(st_action);
      go_verification := s.(st_verification); go_error := s.(st_error);
      go_restored_fields := s.(st_fields); go_status := rollback_status gd s |}).

Definition guard_poll (inp : PollInputs W) (st : GuardState W) : GuardState W * option GuardOutcome :=
  let '((snap, _), w1) := read_proxy_registry_with_retries cfg.(gc_max_attempts)
                            (inp.(in_drift) st.(gs_world)) in
  let '(curr, w2) := capture_proxy_snapshot inp.(in_winreg) inp.(in_utc_now) (Some snap) false w1 in
  let lkg := if cfg.(gc_trust_current_lkg) && negb (is_some st.(gs_prior_view)) then Some curr
             else st.(gs_lkg) in
  let view := normalize_registry_view snap in
  let conn := capture_connectivity_snapshot inp.(in_run_probe) curr in
  match st.(gs_prior_view) with
  | None => (with_snapshot w2 lkg view curr conn st.(gs_limiter), None)
  | Some prior =>
      if registry_views_equal prior view then
        ({| gs_world := w2; gs_lkg := lkg; gs_prior_view := Some prior; gs_prior_snap := Some curr;
            gs_prior_connectivity := Some conn; gs_limiter := st.(gs_limiter) |}, None)
      else
        let '(st', out) := handle_change inp st lkg snap view curr w2 in (st', Some out)
  end.

(** The loop over a list of polls: the state after each, and the changes it recorded. *)
Fixpoint run_proxy_guard_guard_loop (polls : list (PollInputs W)) (st : GuardState W)
    : GuardState W * list GuardOutcome :=
  match polls with
  | [] => (st, [])
  | inp :: rest =>
      let '(st1, out) := guard_poll inp st in
      let '(st2, outs) := run_proxy_guard_guard_loop rest st1 in
      (st2, (match out with Some o => [o] | None => [] end ++ outs)%list)
  end.

Definition guard_start (w : W) (lkg : option ProxySnapshot) : GuardState W :=
  {| gs_world := w; gs_lkg := lkg; gs_prior_view := None; gs_prior_snap := None;
     gs_prior_connectivity := None; gs_limiter := fresh_limiter |}.
End Stage.

(** ** The limiter keeps its promise *)

Section Limits.
Context (s : RollbackLimitSettings).

(** How many of the times lie in the window that starts at [x]. *)
Definition in_window (x : Z) (times : list Z) : list Z :=
  List.filter (fun t => (x <=? t) && (t <=? x + window_of s)) times.

(** What the limiter knows at time [now] of the rollbacks made so far, oldest first: those it
    forgot are older than the window, the last one fixes the end of the cooldown, any two are
    a cooldown apart, and no window holds more than the maximum. *)
Record limiter_knows (now : Z) (made : list Z) (lim : RollbackLimiter) : Prop := {
  lk_remembers : exists old, made = (old ++ lim.(lim_rollback_times))%list
                 /\ Forall (fun t => t < now - window_of s) old;
  lk_past : Forall (fun t => t <= now) made;
  lk_apart : StronglySorted (fun a b => a + cooldown_of s <= b) made;
  lk_cooldown : forall t, t ∈ made -> exists u, lim.(lim_cooldown_until) = Some u /\ t + cooldown_of s <= u;
  lk_bounded : forall x, Z.of_nat (length (in_window x made))
                         <= Z.max 0 s.(rl_max_rollbacks_per_window);
}.

Lemma limiter_fresh (now : Z) : limiter_knows now [] fresh_limiter.
Proof.
  split; [by exists []|done|constructor| |].
  - intros t Ht. by apply elem_of_nil in Ht.
  - intros x. cbn. lia.
Qed.

Lemma limiter_later (now now' : Z) (made : list Z) (lim : RollbackLimiter) :
  now <= now' -> limiter_knows now made lim -> limiter_knows now' made lim.
Proof.
  intros Hn [(old & -> & Hold) Hp Ha Hc Hb]. split; [|by eapply Forall_impl; [exact Hp|cbn; lia]|done..].
  exists old. split; [done|]. eapply Forall_impl; [exact Hold|cbn; lia].
Qed.

(** In an ordered list the recent elements are a suffix. *)
Lemma filter_recent (h : Z) (l : list Z) :
  StronglySorted (fun a b => a + cooldown_of s <= b) l ->
  exists old, l = (old ++ List.filter (fun t => h <=? t) l)%list /\ Forall (fun t => t < h) old.
Proof.
  intros Hs. induction Hs as [|x l Hs (old & IH & Hold) Hx]; [by exists []|]. cbn [List.filter].
  destruct (Z.leb_spec h x).
  - exists []. split; [|done]. cbn [app]. f_equal. symmetry. apply forallb_filter_id, forallb_forall.
    intros y Hy%list_elem_of_In. rewrite Forall_forall in Hx. specialize (Hx y Hy).
    unfold cooldown_of in Hx. apply Z.leb_le. lia.
  - exists (x :: old). split; [by cbn; f_equal|]. by constructor.
Qed.

Lemma sorted_suffix (R : Z -> Z -> Prop) (a b : list Z) : StronglySorted R (a ++ b) -> StronglySorted R b.
Proof. induction a as [|x a IH]; [done|]. cbn. intros H. inversion H. auto. Qed.

Lemma evaluate_knows (now : Z) (made : list Z) (lim : RollbackLimiter) :
  limiter_knows now made lim -> limiter_knows now made (limiter_evaluate s now lim).2.
Proof.
  intros H. unfold limiter_evaluate.
  set (lim' := {| lim_rollback_times := List.filter _ _; lim_cooldown_until := lim.(lim_cooldown_until) |}).
  enough (limiter_knows now made lim') by (destruct lim.(lim_cooldown_until); repeat case_match; done).
  destruct H as [(old & -> & Hold) Hp Ha Hc Hb]. split; [|done..]. subst lim'. cbn [lim_rollback_times].
  destruct (filter_recent (now - window_of s) lim.(lim_rollback_times)) as (mid & E & Hmid).
  { by eapply sorted_suffix. }
  exists (old ++ mid)%list. split; [by rewrite <- app_assoc, <- E|by apply Forall_app_2].
Qed.

Lemma in_window_app (x : Z) (a b : list Z) : in_window x (a ++ b) = (in_window x a ++ in_window x b)%list.
Proof. apply List.filter_app. Qed.

Lemma in_window_length (x : Z) (l : list Z) : (length (in_window x l) <= length l)%nat.
Proof. apply List.filter_length_le. Qed.

Lemma in_window_old (x : Z) (l : list Z) : Forall (fun t => t < x) l -> in_window x l = [].
Proof.
  induction 1 as [|t l Ht _ IH]; [done|]. cbn. destruct (Z.leb_spec x t); [lia|]. exact IH.
Qed.

(** A rollback that was let through may be recorded at any later time. *)
Lemma record_knows (now at_ : Z) (made : list Z) (lim lim' : RollbackLimiter) :
  now <= at_ -> limiter_knows now made lim -> limiter_evaluate s now lim = (limit_ok, lim') ->
  limiter_knows at_ (made ++ [at_]) (record_rollback s at_ lim').
Proof.
  intros Hat H E. pose proof (evaluate_knows _ _ _ H) as H'. rewrite E in H'. cbn [snd] in H'.
  assert (Hcool : lim'.(lim_cooldown_until) = lim.(lim_cooldown_until)
                  /\ (forall u, lim.(lim_cooldown_until) = Some u -> u <= now)
                  /\ Z.of_nat (length lim'.(lim_rollback_times)) < s.(rl_max_rollbacks_per_window)).
  { unfold limiter_evaluate in E. destruct lim.(lim_cooldown_until) as [u|] eqn:Eu;
      [destruct (Z.ltb_spec now u); [discriminate|]|];
      destruct (Z.leb_spec s.(rl_max_rollbacks_per_window)
        (Z.of_nat (length (List.filter (fun t => now - window_of s <=? t) lim.(lim_rollback_times)))));
      try discriminate; injection E as <-; cbn; (split; [done|]); (split; [|done]); intros ? [=]; lia. }
  destruct Hcool as (_ & Hu & Hlt). destruct H as [_ _ _ Hc _].
  destruct H' as [(old & Em & Hold) Hp Ha _ Hb].
  assert (Hlast : Forall (fun t => t + cooldown_of s <= at_) made).
  { apply Forall_forall. intros t Ht. destruct (Hc t Ht) as (u & Eu & Htu). specialize (Hu u Eu). lia. }
  assert (0 <= cooldown_of s) by (unfold cooldown_of; lia).
  split.
  - exists old. unfold record_rollback. cbn [lim_rollback_times]. rewrite Em, <- app_assoc. split; [done|].
    eapply Forall_impl; [exact Hold|cbn; lia].
  - apply Forall_app_2; [eapply Forall_impl; [exact Hp|cbn; lia]|by repeat constructor].
  - clear -Ha Hlast. induction made as [|t made IH]; cbn [app]; [by repeat constructor|].
    inversion_clear Ha. apply Forall_cons in Hlast as [Ht Hl]. constructor; [by apply IH|].
    apply Forall_app_2; [done|by repeat constructor].
  - intros t Ht. eexists. split; [reflexivity|]. apply elem_of_app in Ht as [Ht|Ht].
    + rewrite Forall_forall in Hlast. specialize (Hlast t Ht). lia.
    + apply list_elem_of_singleton in Ht as ->. lia.
  - intros x. rewrite in_window_app, length_app. destruct (Z.leb_spec x at_);
      [destruct (Z.leb_spec at_ (x + window_of s))|].
    + rewrite Em, in_window_app, (in_window_old x old);
        [|eapply Forall_impl; [exact Hold|cbn; lia]].
      cbn [app]. pose proof (in_window_length x lim'.(lim_rollback_times)).
      pose proof (in_window_length x [at_]). cbn [length] in *. lia.
    + specialize (Hb x). unfold in_window at 2. cbn. destruct (Z.leb_spec x at_); [|lia].
      destruct (Z.leb_spec at_ (x + window_of s)); [lia|]. cbn. lia.
    + specialize (Hb x). unfold in_window at 2. cbn. destruct (Z.leb_spec x at_); [lia|]. cbn. lia.
Qed.
End Limits.

(** ** Runs of the loop *)

Section Rate.
Context {W : Type} `{!CommandHost W}.
Context (cfg : GuardConfig).

Lemma stage_limited (gd : TransitionDecision) (prev : ProxySnapshot) (plan : RollbackPlan)
    (ev rc : Z) (lim : RollbackLimiter) (w : W) (made : list Z) :
  ev <= rc -> limiter_knows cfg.(gc_limits) ev made lim ->
  let s := rollback_stage cfg gd prev plan ev rc lim w in
  limiter_knows cfg.(gc_limits) rc (made ++ option_list s.(st_recorded_at)) s.(st_limiter).
Proof.
  intros Hle H. unfold rollback_stage. cbn zeta.
  pose proof (evaluate_knows _ _ _ _ H) as He.
  destruct (_ && effective_rollback cfg); cbn [st_recorded_at st_limiter option_list].
  2: { rewrite app_nil_r. by eapply limiter_later. }
  destruct (limiter_evaluate _ ev lim) as [[| |] lim1] eqn:E; cbn [snd] in He;
    [|cbn; rewrite app_nil_r; by eapply limiter_later..].
  rewrite (surjective_pairing (attempt_restore _ _ _ _)).
  destruct (read_proxy_registry_with_retries _ _) as [[observed notes] w2].
  destruct (label_attempt _ _ _ _) as [[action verification] error].
  cbn [st_recorded_at st_limiter]. destruct (_ && negb _); cbn [option_list].
  - eapply record_knows; [exact Hle|exact H|exact E].
  - rewrite app_nil_r. by eapply limiter_later.
Qed.

(** The rollbacks an outcome counts. *)
Definition recorded (out : option GuardOutcome) : list Z :=
  match out with Some o => option_list o.(go_recorded_at) | None => [] end.

Lemma poll_limited (inp : PollInputs W) (st : GuardState W) (now : Z) (made : list Z) :
  now <= inp.(in_evaluate_clock) <= inp.(in_record_clock) ->
  limiter_knows cfg.(gc_limits) now made st.(gs_limiter) ->
  let '(st', out) := guard_poll cfg inp st in
  limiter_knows cfg.(gc_limits) inp.(in_record_clock) (made ++ recorded out) st'.(gs_limiter).
Proof.
  intros [Hn Hc] H. unfold guard_poll.
  destruct (read_proxy_registry_with_retries _ _) as [[snap notes] w1].
  destruct (capture_proxy_snapshot _ _ _ _ _) as [curr w2].
  assert (Hq : limiter_knows cfg.(gc_limits) inp.(in_record_clock) (made ++ []) st.(gs_limiter)).
  { rewrite app_nil_r. eapply limiter_later; [|done]. lia. }
  destruct st.(gs_prior_view) as [prior|]; [|exact Hq].
  destruct (registry_views_equal _ _); [exact Hq|].
  unfold handle_change. destruct (match st.(gs_prior_snap) with Some s => (s, w2) | None => _ end) as [prev w0].
  cbn zeta. match goal with |- context [rollback_stage ?a ?b ?c ?d ?e ?f ?g ?h] =>
    pose proof (stage_limited b c d e f g h made Hc ltac:(by eapply limiter_later)) as Hs;
    destruct (rollback_stage a b c d e f g h) as [? ? rec ? ? ? ? lim ws after] end.
  cbn [st_after st_world st_limiter st_recorded_at] in *.
  destruct after as [obs|]; [destruct (capture_proxy_snapshot _ _ _ _ ws)|]; exact Hs.
Qed.

(** Polls whose clock readings never go back. *)
Fixpoint clocks_ordered (now : Z) (polls : list (PollInputs W)) : Prop :=
  match polls with
  | [] => True
  | inp :: rest =>
      now <= inp.(in_evaluate_clock) <= inp.(in_record_clock)
      /\ clocks_ordered inp.(in_record_clock) rest
  end.

Lemma loop_limited (polls : list (PollInputs W)) (st : GuardState W) (now : Z) (made : list Z) :
  clocks_ordered now polls -> limiter_knows cfg.(gc_limits) now made st.(gs_limiter) ->
  let '(st', outs) := run_proxy_guard_guard_loop cfg polls st in
  exists end_, limiter_knows cfg.(gc_limits) end_ (made ++ omap go_recorded_at outs) st'.(gs_limiter).
Proof.
  revert st now made. induction polls as [|inp rest IH]; intros st now made; cbn [clocks_ordered run_proxy_guard_guard_loop].
  - intros _ H. exists now. cbn. by rewrite app_nil_r.
  - intros [Hc Ho] H. pose proof (poll_limited inp st now made Hc H) as Hp.
    destruct (guard_poll cfg inp st) as [st1 out]. specialize (IH st1 _ _ Ho Hp).
    destruct (run_proxy_guard_guard_loop cfg rest st1) as [st2 outs]. destruct IH as [e He]. exists e.
    rewrite <- app_assoc in He. destruct out as [o|]; [|exact He]. cbn [app]. cbn [recorded omap list_omap] in *.
    by destruct (go_recorded_at o).
Qed.

(** C7: however the machine drifts, the rollbacks a run of the loop makes are limited: any
    window of the configured length, wherever it starts, holds at most the configured number of
    them, and any two are at least the cooldown apart. *)
Theorem loop_rollbacks_limited (polls : list (PollInputs W)) (w : W) (lkg : option ProxySnapshot) (now : Z) :
  clocks_ordered now polls ->
  let made := omap go_recorded_at (run_proxy_guard_guard_loop cfg polls (guard_start w lkg)).2 in
  (forall x, Z.of_nat (length (in_window cfg.(gc_limits) x made))
             <= Z.max 0 cfg.(gc_limits).(rl_max_rollbacks_per_window))
  /\ StronglySorted (fun a b => a + cooldown_of cfg.(gc_limits) <= b) made.
Proof.
  intros Ho made. pose proof (loop_limited polls (guard_start w lkg) now [] Ho (limiter_fresh _ _)) as H.
  subst made. destruct (run_proxy_guard_guard_loop _ _ _) as [st' outs]. destruct H as [e [_ _ Ha _ Hb]].
  by split.
Qed.
End Rate.

(** ** What the loop does to the registry *)

Section Effects.
Context {W : Type} `{!CommandHost W, !RegistryView W, !RegistryLaws W, !RegistryQueryLaws W}.
Context (cfg : GuardConfig).

(** Two worlds with the same registry. *)
Definition same_registry (w w' : W) : Prop := forall v, reg_value w v = reg_value w' v.

#[local] Instance same_registry_equiv : Equivalence same_registry.
Proof.
  split; [by intros w v|by intros w w' H v|]. intros a b c H1 H2 v. by rewrite (H1 v).
Qed.

Lemma retries_frame (n : Z) (w : W) : same_registry (read_proxy_registry_with_retries n w).2 w.
Proof.
  pose proof (retries_read n w) as H. destruct (read_proxy_registry_with_retries n w) as [[o notes] w'].
  destruct H as (_ & _ & Hf & _). exact Hf.
Qed.

(** *** Commands only lead to later worlds *)

Lemma run_row_later (preview : string) (dry : bool) (argv : list string) (w : W) :
  rtc command_step w (run_row preview dry argv w).2.
Proof.
  destruct dry; [done|]. rewrite run_row_world. apply command_later.
Qed.

Lemma run_rows_later (preview : string) (dry : bool) (argvs : list (list string)) (w : W) :
  rtc command_step w (run_rows preview dry argvs w).2.
Proof.
  revert w. induction argvs as [|a argvs IH]; intros w; [done|]. cbn [run_rows].
  rewrite (surjective_pairing (run_row _ _ _ _)), (surjective_pairing (run_rows _ _ _ _)). cbn [snd].
  etransitivity; [apply run_row_later|apply IH].
Qed.

Lemma winhttp_row_later (rw : bool) (s : ProxySnapshot) (dry : bool) (w : W) :
  rtc command_step w (restore_winhttp_row rw s dry w).2.
Proof.
  unfold restore_winhttp_row, run_netsh_winhttp_reset_proxy, run_netsh_winhttp_set_proxy.
  destruct (negb rw); [done|]. destruct s.(sn_winhttp_direct_access).
  - rewrite (surjective_pairing (run_row _ _ _ _)). apply run_row_later.
  - destruct s.(sn_winhttp_proxy_server_literal) as [l|]; [|done]. destruct (PyStr.is_empty l); [done|].
    rewrite (surjective_pairing (run_row _ _ _ _)). apply run_row_later.
Qed.

Lemma attempt_later (prev : ProxySnapshot) (plan : RollbackPlan) (w : W) :
  rtc command_step w (attempt_restore cfg prev plan w).2.
Proof.
  unfold attempt_restore, execute_known_good_proxy_restore, execute_lkg_snapshot_rollback,
    apply_reg_argv_sequences.
  destruct cfg.(gc_known_good_snapshot) as [k|]; [|destruct cfg.(gc_restore_git_npm_env); [done|]].
  all: repeat match goal with
  | |- context [let '(_, _) := run_rows ?p ?d ?a ?w0 in _] =>
      pose proof (run_rows_later p d a w0); destruct (run_rows p d a w0)
  | |- context [let '(_, _) := restore_winhttp_row ?b ?s ?d ?w0 in _] =>
      pose proof (winhttp_row_later b s d w0); destruct (restore_winhttp_row b s d w0)
  end; cbn [snd] in *; by repeat (etransitivity; [eassumption|]).
Qed.

Lemma run_text_later (argv : list string) (w : W) : rtc command_step w (_run_text argv w).2.
Proof.
  unfold _run_text. pose proof (command_later w argv) as Hc.
  destruct (run_command w argv) as [w' [?|code out err]]; [exact Hc|]. by destruct code.
Qed.

Lemma capture_later (winreg : string -> option string) (now : string) (reg : ProxyRegistrySnapshot)
    (skip : bool) (w : W) :
  rtc command_step w (capture_proxy_snapshot winreg now (Some reg) skip w).2.
Proof.
  unfold capture_proxy_snapshot.
  assert (Hc : rtc command_step w (_capture_winhttp_stdout w).2).
  { unfold _capture_winhttp_stdout. pose proof (command_later w ["netsh"; "winhttp"; "show"; "proxy"]) as Hc.
    by destruct (run_command w _) as [w' [?|? ? ?]]. }
  destruct (_capture_winhttp_stdout w) as [txt w1]. cbn [snd] in Hc.
  destruct (parse_netsh_winhttp_show txt) as [direct srv]. destruct skip; [exact Hc|].
  do 4 (rewrite (surjective_pairing (_run_text _ _))). cbn [snd].
  do 4 (etransitivity; [|apply run_text_later]). exact Hc.
Qed.

Lemma run_text_frame (program : string) (args : list string) (w : W) :
  program <> "reg" -> same_registry (_run_text (program :: args) w).2 w.
Proof.
  intros Hp v. unfold _run_text. pose proof (other_program_frame w program args v Hp) as Hf.
  destruct (run_command w _) as [w' [?|code out err]]; [exact Hf|]. by destruct code.
Qed.

Lemma winhttp_stdout_frame (w : W) : same_registry (_capture_winhttp_stdout w).2 w.
Proof.
  intros v. unfold _capture_winhttp_stdout.
  pose proof (other_program_frame w "netsh" ["winhttp"; "show"; "proxy"] v ltac:(done)) as Hf.
  by destruct (run_command w _) as [w' [?|? ? ?]].
Qed.

Lemma capture_frame (winreg : string -> option string) (now : string) (reg : ProxyRegistrySnapshot)
    (skip : bool) (w : W) :
  same_registry (capture_proxy_snapshot winreg now (Some reg) skip w).2 w.
Proof.
  unfold capture_proxy_snapshot. pose proof (winhttp_stdout_frame w) as Hc.
  destruct (_capture_winhttp_stdout w) as [txt w1]. cbn [snd] in Hc.
  destruct (parse_netsh_winhttp_show txt) as [direct srv]. destruct skip; [exact Hc|].
  do 4 (rewrite (surjective_pairing (_run_text _ _))). cbn [snd].
  by repeat (etransitivity; [by apply run_text_frame|]).
Qed.

Lemma capture_fields (winreg : string -> option string) (now : string) (reg : ProxyRegistrySnapshot)
    (skip : bool) (w : W) :
  let s := (capture_proxy_snapshot winreg now (Some reg) skip w).1 in
  s.(sn_proxy_enable) = reg.(pr_proxy_enable) /\ s.(sn_proxy_server) = reg.(pr_proxy_server)
  /\ s.(sn_auto_config_url) = reg.(pr_auto_config_url) /\ s.(sn_auto_detect) = reg.(pr_auto_detect)
  /\ s.(sn_proxy_override) = reg.(pr_proxy_override).
Proof.
  unfold capture_proxy_snapshot. destruct (_capture_winhttp_stdout w) as [txt w1].
  destruct (parse_netsh_winhttp_show txt) as [direct srv].
  destruct skip; [done|]. by do 4 (rewrite (surjective_pairing (_run_text _ _))).
Qed.

(** The values a rollback may write. *)
Definition rollback_scope (prev : ProxySnapshot) (v : string * string) : Prop :=
  match cfg.(gc_known_good_snapshot) with
  | None => ~ untouched prev v
  | Some _ => PyStr.lower v.1 = PyStr.lower INTERNET_SETTINGS_KEY
              \/ PyStr.lower v.1 = PyStr.lower HKCU_ENVIRONMENT_KEY
  end.

Lemma dry_winhttp_world (rw : bool) (s : ProxySnapshot) (w : W) : (restore_winhttp_row rw s true w).2 = w.
Proof.
  unfold restore_winhttp_row. destruct (negb rw); [done|]. destruct s.(sn_winhttp_direct_access); [done|].
  destruct s.(sn_winhttp_proxy_server_literal) as [l|]; [|done]. by destruct (PyStr.is_empty l).
Qed.

Lemma dry_attempt_world (prev : ProxySnapshot) (plan : RollbackPlan) (w : W) :
  live_rollback_gate cfg = false -> (attempt_restore cfg prev plan w).2 = w.
Proof.
  intros Hg. unfold attempt_restore. rewrite Hg. cbn [negb]. destruct cfg.(gc_known_good_snapshot) as [k|].
  - unfold execute_known_good_proxy_restore, apply_reg_argv_sequences.
    rewrite (surjective_pairing (run_rows _ _ (build_wininet_restore_argv_list k) w)).
    rewrite (proj1 (dry_rows _ _ w)). rewrite (surjective_pairing (restore_winhttp_row _ _ _ w)).
    by rewrite dry_winhttp_world.
  - unfold execute_lkg_snapshot_rollback, apply_reg_argv_sequences. destruct cfg.(gc_restore_git_npm_env); [done|].
    rewrite (surjective_pairing (run_rows _ _ _ w)), (proj1 (dry_rows _ _ w)).
    rewrite (surjective_pairing (restore_winhttp_row _ _ _ w)). by rewrite dry_winhttp_world.
Qed.

(** An attempt changes values only with the gate open, only when it is not skipped, and only
    those it is about. *)
Lemma attempt_effect (prev : ProxySnapshot) (plan : RollbackPlan) (w : W) (v : string * string) :
  reg_value (attempt_restore cfg prev plan w).2 v <> reg_value w v ->
  live_rollback_gate cfg = true /\ (attempt_restore cfg prev plan w).1.(rs_skipped) = false
  /\ rollback_scope prev v.
Proof.
  intros Hv. destruct (live_rollback_gate cfg) eqn:Hg.
  2: { exfalso. apply Hv. by rewrite dry_attempt_world. }
  split; [done|]. revert Hv. unfold attempt_restore, rollback_scope. rewrite Hg. cbn [negb].
  destruct cfg.(gc_known_good_snapshot) as [k|].
  - intros Hv. split.
    + unfold execute_known_good_proxy_restore. by repeat case_match; simplify_eq/=.
    + destruct (decide (PyStr.lower v.1 = PyStr.lower INTERNET_SETTINGS_KEY)); [by left|].
      destruct (decide (PyStr.lower v.1 = PyStr.lower HKCU_ENVIRONMENT_KEY)); [by right|].
      exfalso. apply Hv. apply known_good_frame; [|done].
      eapply Forall_impl; [apply snapshot_writes_key|]. intros x Hx [Hk _]. cbv beta in Hx.
      by rewrite Hx in Hk.
  - destruct cfg.(gc_restore_git_npm_env) eqn:Hgit; [done|].
    destruct (execute_lkg_snapshot_rollback _ _ _ _ w) as [r w'] eqn:E. cbn [fst snd]. intros Hv. split.
    + revert E. unfold execute_lkg_snapshot_rollback. repeat case_match; intros [= <- _]; done.
    + intros Hu. apply Hv. by apply (lkg_restore_effect _ _ _ _ _ E).
Qed.

Lemma stage_effect (gd : TransitionDecision) (prev : ProxySnapshot) (plan : RollbackPlan) (ev rc : Z)
    (lim : RollbackLimiter) (w : W) (v : string * string) :
  let s := rollback_stage cfg gd prev plan ev rc lim w in
  reg_value s.(st_world) v <> reg_value w v ->
  gd.(td_decision) = tr_blocked /\ live_rollback_gate cfg = true
  /\ (limiter_evaluate cfg.(gc_limits) ev lim).1 = limit_ok /\ s.(st_recorded_at) = Some rc
  /\ rollback_scope prev v.
Proof.
  unfold rollback_stage. cbn zeta. destruct (_ && effective_rollback cfg) eqn:Hb; [|done].
  apply andb_true_iff in Hb as [[Hd%bool_decide_eq_true _]%andb_true_iff _].
  destruct (limiter_evaluate _ ev lim) as [[| |] lim1]; [|done..].
  pose proof (attempt_effect prev plan w v) as Ha. destruct (attempt_restore cfg prev plan w) as [r w1].
  pose proof (retries_frame cfg.(gc_max_attempts) w1 v) as Hf.
  destruct (read_proxy_registry_with_retries _ w1) as [[observed notes] w2]. cbn [fst snd] in *.
  destruct (label_attempt _ _ _ _) as [[action verification] error]. cbn [st_world st_recorded_at].
  rewrite Hf. intros Hv. destruct (Ha Hv) as (Hg & Hs & Hscope). rewrite Hg, Hs. done.
Qed.

(** A snapshot composed of a read. *)
Definition snapshot_of (s : ProxySnapshot) (reg : ProxyRegistrySnapshot) : Prop :=
  s.(sn_proxy_enable) = reg.(pr_proxy_enable) /\ s.(sn_proxy_server) = reg.(pr_proxy_server)
  /\ s.(sn_auto_config_url) = reg.(pr_auto_config_url) /\ s.(sn_auto_detect) = reg.(pr_auto_detect)
  /\ s.(sn_proxy_override) = reg.(pr_proxy_override).

(** What a poll leaves behind: [reg] is the last read, and the baseline of the next poll. *)
Definition left_baseline (st' : GuardState W) (reg : ProxyRegistrySnapshot) : Prop :=
  st'.(gs_prior_view) = Some (normalize_registry_view reg)
  /\ exists s, st'.(gs_prior_snap) = Some s /\ snapshot_of s reg.

Lemma change_shape (inp : PollInputs W) (st st' : GuardState W) (lkg : option ProxySnapshot)
    (snap : ProxyRegistrySnapshot) (curr : ProxySnapshot) (w : W) (o : GuardOutcome) :
  snapshot_of curr snap ->
  handle_change cfg inp st lkg snap (normalize_registry_view snap) curr w = (st', o) ->
  exists w0, same_registry w0 w /\ rtc command_step w w0
  /\ (forall s, st.(gs_prior_snap) = Some s -> o.(go_before) = s)
  /\ o.(go_after) = curr
  /\ let s := rollback_stage cfg o.(go_policy) o.(go_before) o.(go_plan) inp.(in_evaluate_clock)
                inp.(in_record_clock) st.(gs_limiter) w0 in
     o.(go_suppressed) = s.(st_suppressed) /\ o.(go_report) = s.(st_report)
     /\ o.(go_recorded_at) = s.(st_recorded_at) /\ o.(go_pipeline_action) = s.(st_action)
     /\ o.(go_verification) = s.(st_verification) /\ o.(go_status) = rollback_status cfg o.(go_policy) s
     /\ same_registry st'.(gs_world) s.(st_world)
     /\ left_baseline st' (default snap s.(st_after)).
Proof.
  intros Hsnap. unfold handle_change.
  set (prevw := match st.(gs_prior_snap) with Some s => (s, w) | None => _ end).
  assert (Hprev : same_registry prevw.2 w /\ rtc command_step w prevw.2
                  /\ forall s, st.(gs_prior_snap) = Some s -> prevw.1 = s).
  { subst prevw. destruct st.(gs_prior_snap) as [s|]; [split; [done|]; split; [done|by intros ? [= <-]]|].
    split; [apply capture_frame|]. split; [apply capture_later|done]. }
  clearbody prevw. destruct prevw as [prev w0]. cbn [fst snd] in Hprev. destruct Hprev as (Hw0 & Hl0 & Hprev).
  cbn zeta. match goal with |- context [rollback_stage ?a ?b ?c ?d ?e ?f ?g ?h] =>
    set (s := rollback_stage a b c d e f g h) end.
  pose proof (capture_frame inp.(in_winreg) inp.(in_utc_now)) as Hcf.
  pose proof (capture_fields inp.(in_winreg) inp.(in_utc_now)) as Hcs.
  destruct s.(st_after) as [obs|] eqn:Hafter.
  - specialize (Hcf obs false s.(st_world)). specialize (Hcs obs false s.(st_world)).
    destruct (capture_proxy_snapshot _ _ (Some obs) _ s.(st_world)) as [snap' w1]. cbn [fst snd] in *.
    intros [<- <-]%pair_equal_spec. exists w0. do 4 (split; [done|]).
    cbn [go_policy go_before go_plan go_suppressed go_report go_recorded_at go_pipeline_action
         go_verification go_status]. fold s. rewrite Hafter. do 6 (split; [done|]). split; [exact Hcf|].
    split; [done|]. by exists snap'.
  - intros [<- <-]%pair_equal_spec. exists w0. do 4 (split; [done|]).
    cbn [go_policy go_before go_plan go_suppressed go_report go_recorded_at go_pipeline_action
         go_verification go_status]. fold s. rewrite Hafter. do 7 (split; [done|]).
    split; [done|]. by exists curr.
Qed.

(** A read of the registry of a world. *)
Definition read_of (w : W) (snap : ProxyRegistrySnapshot) : Prop :=
  sees snap (registry_snapshot w) /\ (responsive w -> snap = registry_snapshot w).

Lemma poll_shape (inp : PollInputs W) (st st' : GuardState W) (out : option GuardOutcome) :
  guard_poll cfg inp st = (st', out) ->
  let w := inp.(in_drift) st.(gs_world) in
  exists snap, read_of w snap /\
  match out with
  | None => same_registry st'.(gs_world) w /\ left_baseline st' snap
            /\ (st.(gs_prior_view) = None \/ st.(gs_prior_view) = Some (normalize_registry_view snap))
  | Some o =>
      st.(gs_prior_view) <> Some (normalize_registry_view snap)
      /\ exists lkg curr w2, same_registry w2 w /\ rtc command_step w w2 /\ snapshot_of curr snap
      /\ handle_change cfg inp st lkg snap (normalize_registry_view snap) curr w2 = (st', o)
  end.
Proof.
  cbn zeta. unfold guard_poll.
  pose proof (retries_read cfg.(gc_max_attempts) (inp.(in_drift) st.(gs_world))) as Hread.
  destruct (read_proxy_registry_with_retries _ _) as [[snap notes] w1].
  destruct Hread as (Hsees & Hclean & Hf1 & Hl1).
  pose proof (capture_frame inp.(in_winreg) inp.(in_utc_now) snap false w1) as Hf2.
  pose proof (capture_later inp.(in_winreg) inp.(in_utc_now) snap false w1) as Hl2.
  pose proof (capture_fields inp.(in_winreg) inp.(in_utc_now) snap false w1) as Hs.
  destruct (capture_proxy_snapshot _ _ _ _ w1) as [curr w2]. cbn [fst snd] in *.
  assert (Hw : same_registry w2 (inp.(in_drift) st.(gs_world))) by (by etransitivity).
  assert (Hl : rtc command_step (inp.(in_drift) st.(gs_world)) w2) by (by etransitivity).
  intros E. exists snap. split; [done|]. revert E.
  destruct st.(gs_prior_view) as [prior|] eqn:Hp.
  - unfold registry_views_equal. case_bool_decide as Heq.
    + intros [<- <-]%pair_equal_spec. subst prior. split; [exact Hw|]. split; [|by right].
      split; [done|]. by exists curr.
    + destruct (handle_change _ _ _ _ _ _ _ w2) as [st1 o] eqn:E. intros [<- <-]%pair_equal_spec.
      split; [by intros [= ->]|]. by eexists _, curr, w2.
  - intros [<- <-]%pair_equal_spec. split; [exact Hw|]. split; [|by left]. split; [done|]. by exists curr.
Qed.

Lemma gate_opened :
  live_rollback_gate cfg = true ->
  cfg.(gc_dry_run_rollback) = false
  /\ (cfg.(gc_auto_rollback) = true
      \/ cfg.(gc_cli_rollback) = true /\ PyStr.strip cfg.(gc_confirm_phrase) = "RESTORE_PROXY").
Proof.
  unfold live_rollback_gate, effective_rollback.
  destruct cfg.(gc_auto_rollback), cfg.(gc_cli_rollback), cfg.(gc_dry_run_rollback); cbn [orb andb negb];
    try done; try by (split; [|left]). intros He. split; [done|]. right. split; [done|]. by apply String.eqb_eq.
Qed.


(** The registry read after an attempt is the one the stage leaves. *)
Lemma after_is_read (gd : TransitionDecision) (prev : ProxySnapshot) (plan : RollbackPlan) (ev rc : Z)
    (lim : RollbackLimiter) (w w0 : W) (st' : GuardState W) :
  responsive w -> same_registry w0 w -> rtc command_step w w0 ->
  let s := rollback_stage cfg gd prev plan ev rc lim w0 in
  same_registry st'.(gs_world) s.(st_world) ->
  left_baseline st' (default (registry_snapshot w) s.(st_after)) ->
  left_baseline st' (registry_snapshot st'.(gs_world)).
Proof.
  intros Hresp Hw0 Hl0 s Hw. rewrite (snapshot_determined st'.(gs_world) s.(st_world) (fun n => Hw _)). subst s.
  unfold rollback_stage. destruct (_ && effective_rollback cfg).
  2: { cbn. by rewrite (snapshot_determined w0 w (fun n => Hw0 _)). }
  destruct (limiter_evaluate _ ev lim) as [[| |] lim1];
    [|cbn; by rewrite (snapshot_determined w0 w (fun n => Hw0 _))..].
  pose proof (attempt_later prev plan w0) as Hl1. destruct (attempt_restore cfg prev plan w0) as [r w1].
  pose proof (retries_read cfg.(gc_max_attempts) w1) as Hread.
  destruct (read_proxy_registry_with_retries _ w1) as [[observed notes] w2]. cbn [fst snd] in *.
  destruct Hread as (_ & Hclean & Hf & _).
  destruct (label_attempt _ _ _ _) as [[action verification] error]. cbn [st_world st_after].
  rewrite (snapshot_determined w2 w1 (fun n => Hf _)), Hclean; [done|].
  eapply responsive_later; [exact Hresp|]. by transitivity w0.
Qed.

(** After a poll in which every query answered, the baseline is what the registry holds. *)
Lemma poll_baseline (inp : PollInputs W) (st st' : GuardState W) (out : option GuardOutcome) :
  guard_poll cfg inp st = (st', out) -> responsive (inp.(in_drift) st.(gs_world)) ->
  left_baseline st' (registry_snapshot st'.(gs_world)).
Proof.
  intros (snap & [_ Hsnap] & E)%poll_shape Hresp. rewrite (Hsnap Hresp) in E. destruct out as [o|].
  - destruct E as (_ & lkg & curr & w2 & Hw2 & Hl2 & Hs & E). apply change_shape in E; [|done].
    destruct E as (w0 & Hw0 & Hl0 & _ & _ & _ & _ & _ & _ & _ & _ & Hw & Hb). revert Hw Hb.
    apply (after_is_read o.(go_policy) o.(go_before) o.(go_plan)); [done|by etransitivity|by etransitivity].
  - destruct E as (Hw & Hb & _).
    by rewrite (snapshot_determined st'.(gs_world) (inp.(in_drift) st.(gs_world)) (fun n => Hw _)).
Qed.

(** C16: each change is handled once.  When no query fails or times out during two polls and
    nothing has touched the registry between them, the second, whatever it learns elsewhere,
    records no change and writes nothing; this is so also after a rollback that failed, was
    only previewed or was suppressed.  A change recorded on an untouched registry is therefore
    a query that did not answer. *)
Theorem quiet_when_unchanged (inp inp' : PollInputs W) (st st1 st2 : GuardState W)
    (out out' : option GuardOutcome) :
  guard_poll cfg inp st = (st1, out) ->
  guard_poll cfg inp' st1 = (st2, out') ->
  responsive (inp.(in_drift) st.(gs_world)) -> responsive (inp'.(in_drift) st1.(gs_world)) ->
  same_registry (inp'.(in_drift) st1.(gs_world)) st1.(gs_world) ->
  out' = None /\ same_registry st2.(gs_world) st1.(gs_world).
Proof.
  intros E1 (snap & [_ Hsnap] & E2)%poll_shape Hr1 Hr2 Hd. pose proof (poll_baseline _ _ _ _ E1 Hr1) as Hb.
  rewrite (Hsnap Hr2) in E2.
  rewrite (snapshot_determined (inp'.(in_drift) st1.(gs_world)) st1.(gs_world) (fun n => Hd _)) in E2.
  destruct out' as [o|].
  - destruct E2 as [Hne _]. by destruct (Hne (proj1 Hb)).
  - split; [done|]. etransitivity; [exact (proj1 E2)|exact Hd].
Qed.

(** What the status and the label of an attempt say of it. *)
Lemma stage_executed (gd : TransitionDecision) (prev : ProxySnapshot) (plan : RollbackPlan) (ev rc : Z)
    (lim : RollbackLimiter) (w : W) :
  let s := rollback_stage cfg gd prev plan ev rc lim w in
  s.(st_action) = rollback_applied \/ rollback_status cfg gd s = executed_ok ->
  exists r w1, attempt_restore cfg prev plan w = (r, w1)
  /\ live_rollback_gate cfg = true /\ r.(rs_skipped) = false /\ r.(rs_success) <> Some false
  /\ s.(st_recorded_at) = Some rc
  /\ s.(st_after) = Some (read_proxy_registry_with_retries cfg.(gc_max_attempts) w1).1.1
  /\ same_registry s.(st_world) w1
  /\ rollback_status cfg gd s = executed_ok
  /\ (if verify_hkcu_core_matches_prior (read_proxy_registry_with_retries cfg.(gc_max_attempts) w1).1.1
           (restore_target cfg prev)
      then s.(st_action) = rollback_applied /\ s.(st_verification) = verify_passed
      else s.(st_action) = rollback_failed /\ s.(st_verification) = verify_failed).
Proof.
  unfold rollback_stage, rollback_status. cbn zeta.
  destruct (bool_decide (td_decision gd = tr_blocked)) eqn:Hd; cbn [andb].
  2: { apply bool_decide_eq_false in Hd. cbn. by destruct (td_decision gd); intros [|]. }
  apply bool_decide_eq_true in Hd. destruct (td_rollback_allowed gd) eqn:Ha; cbn [andb].
  2: { cbn. rewrite Hd. by intros [|]. }
  destruct (effective_rollback cfg) eqn:He.
  2: { cbn. rewrite Hd. by intros [|]. }
  destruct (limiter_evaluate _ ev lim) as [[| |] lim1]; [|cbn; by intros [|]..].
  destruct (attempt_restore cfg prev plan w) as [r w1].
  pose proof (retries_frame cfg.(gc_max_attempts) w1) as Hf.
  destruct (read_proxy_registry_with_retries _ w1) as [[observed notes] w2] eqn:Er. cbn [fst snd] in *.
  unfold label_attempt. rewrite Hd. cbn [negb].
  destruct (rs_skipped r) eqn:Hs.
  { cbn. rewrite ?Hs. case_match; by intros [|]. }
  destruct (live_rollback_gate cfg) eqn:Hg; cbn [negb andb]; [|cbn; rewrite ?Hs, ?Hg; by intros [|]].
  case_bool_decide as Hsu; [cbn; rewrite ?Hs, ?Hg, ?bool_decide_eq_true_2 by done; by intros [|]|]. intros _. exists r, w1. rewrite Er. cbn [fst].
  destruct (verify_hkcu_core_matches_prior _ _); cbn; rewrite ?He, ?Hs, ?Hg; cbn;
    rewrite ?bool_decide_eq_false_2 by done; done.
Qed.

(** An attempt that was made and in which no command failed. *)
Lemma attempt_success (prev : ProxySnapshot) (plan : RollbackPlan) (w w1 : W) (r : RestoreReport) :
  attempt_restore cfg prev plan w = (r, w1) -> live_rollback_gate cfg = true ->
  r.(rs_skipped) = false -> r.(rs_success) <> Some false ->
  r.(rs_success) = Some true
  /\ match cfg.(gc_known_good_snapshot) with
     | Some t => execute_known_good_proxy_restore (Some t) false plan.(pl_restore_winhttp) w = (r, w1)
     | None => execute_lkg_snapshot_rollback (Some prev) false plan.(pl_restore_winhttp) false w = (r, w1)
     end.
Proof.
  unfold attempt_restore. intros E Hg Hskip Hsucc. rewrite Hg in E. cbn [negb] in E.
  destruct cfg.(gc_known_good_snapshot) as [t|].
  - split; [|done]. revert E Hsucc. unfold execute_known_good_proxy_restore.
    rewrite (surjective_pairing (apply_reg_argv_sequences _ _ _)), (surjective_pairing (restore_winhttp_row _ _ _ _)).
    do 3 (rewrite (surjective_pairing (run_rows _ _ _ _))).
    intros [<- _]%pair_equal_spec. cbn [rs_success]. by destruct (_ && _).
  - destruct cfg.(gc_restore_git_npm_env); [injection E as <- _; discriminate Hskip|].
    split; [|done]. revert E Hsucc. unfold execute_lkg_snapshot_rollback.
    rewrite (surjective_pairing (apply_reg_argv_sequences _ _ _)), (surjective_pairing (restore_winhttp_row _ _ _ _)).
    intros [<- _]%pair_equal_spec. cbn [rs_success]. by destruct (_ && _).
Qed.

Lemma attempt_restored (prev : ProxySnapshot) (plan : RollbackPlan) (w w1 : W) (r : RestoreReport) :
  attempt_restore cfg prev plan w = (r, w1) -> live_rollback_gate cfg = true ->
  r.(rs_skipped) = false -> r.(rs_success) <> Some false ->
  restored_values (restore_target cfg prev) (wininet_values w) (wininet_values w1).
Proof.
  intros E Hg Hskip Hsucc. destruct (attempt_success prev plan w w1 r E Hg Hskip Hsucc) as [Hok Ex].
  unfold restore_target. destruct cfg.(gc_known_good_snapshot) as [t|]; cbn [default from_option id].
  - apply held_values; [by eapply known_good_restore_effect|]. intros v Hk Hv.
    pose proof (known_good_frame t plan.(pl_restore_winhttp) w v Hv) as Hf. rewrite Ex in Hf. apply Hf.
    rewrite Hk. vm_compute. discriminate.
  - apply lkg_restore_effect in Ex as [Hh Hf]. apply held_values; [by apply Hh|]. intros v _. apply Hf.
Qed.

(** A rollback to a snapshot of an earlier registry that ran without a failing command brings
    that registry back. *)
Lemma restored_as_before (s : ProxySnapshot) (n : Z) (plan : RollbackPlan) (earlier w w1 : W)
    (r : RestoreReport) :
  snapshot_of s (registry_snapshot earlier) -> readable s n ->
  cfg.(gc_known_good_snapshot) = None -> live_rollback_gate cfg = true ->
  attempt_restore cfg s plan w = (r, w1) ->
  r.(rs_skipped) = false -> r.(rs_success) <> Some false ->
  (registry_snapshot w).(pr_auto_detect) = s.(sn_auto_detect) ->
  registry_snapshot w1 = registry_snapshot earlier.
Proof.
  intros (Hen & Hsv & Hpac & Had & Hov) Hr Hk Hg E Hskip Hsucc Hdet.
  destruct (attempt_success s plan w w1 r E Hg Hskip Hsucc) as [Hok Ex]. rewrite Hk in Ex.
  rewrite (restored_snapshot s n _ _ _ _ Hr Ex Hok). unfold kept. rewrite Hdet, Had, Hsv, Hpac, Hov.
  destruct Hr as [Hn _]. rewrite Hn in Hen. rewrite Hen. unfold registry_snapshot.
  cbn [pr_proxy_server pr_auto_config_url pr_proxy_override pr_proxy_enable pr_auto_detect].
  by rewrite !held_value_field.
Qed.

(** While the queries of the poll answer, the read after an attempt returns the registry. *)
Lemma attempt_read_back before plan (drifted w0 w1 : W) r :
  responsive drifted -> rtc command_step drifted w0 ->
  attempt_restore cfg before plan w0 = (r, w1) ->
  (read_proxy_registry_with_retries cfg.(gc_max_attempts) w1).1.1 = registry_snapshot w1.
Proof.
  intros Hresp Hld Ea. pose proof (retries_read cfg.(gc_max_attempts) w1) as Hread.
  destruct (read_proxy_registry_with_retries _ w1) as [[obs notes] w3]. destruct Hread as (_ & Hclean & _).
  cbn [fst]. rewrite Hclean; [done|]. eapply responsive_later; [exact Hresp|].
  etransitivity; [exact Hld|]. pose proof (attempt_later before plan w0) as Hla. by rewrite Ea in Hla.
Qed.

(** C6: a rollback recorded as applied has been made: it was counted and verified, and, however
    the queries fared, the registry holds the texts of the snapshot it restored and its switch,
    if known, and the [AutoDetect] it had before; when the queries of the poll answered, its
    switch, server, PAC address and [AutoDetect] are those of the snapshot.  And when a rollback
    to the prior snapshot ran without a failing command, in two polls whose queries answered,
    the texts being printable ASCII, the switch known and [AutoDetect] unchanged, it is recorded
    as applied and the registry shows exactly what it showed after the poll before. *)
Theorem rollback_reaches_prior (inp0 inp : PollInputs W) (st0 st st' : GuardState W)
    (out0 : option GuardOutcome) (o : GuardOutcome) :
  guard_poll cfg inp0 st0 = (st, out0) ->
  guard_poll cfg inp st = (st', Some o) ->
  let drifted := inp.(in_drift) st.(gs_world) in
  (o.(go_pipeline_action) = rollback_applied ->
   restored_values (restore_target cfg o.(go_before)) (wininet_values drifted) (wininet_values st'.(gs_world))
   /\ o.(go_verification) = verify_passed /\ o.(go_status) = executed_ok
   /\ o.(go_recorded_at) = Some inp.(in_record_clock)
   /\ (responsive drifted ->
       hkcu_tuple_from_registry (registry_snapshot st'.(gs_world))
       = hkcu_tuple_expected_from_snapshot (restore_target cfg o.(go_before))))
  /\ (cfg.(gc_known_good_snapshot) = None -> o.(go_status) = executed_ok ->
      (exists n, readable o.(go_before) n) ->
      responsive (inp0.(in_drift) st0.(gs_world)) -> responsive drifted ->
      (registry_snapshot drifted).(pr_auto_detect) = (registry_snapshot st.(gs_world)).(pr_auto_detect) ->
      o.(go_pipeline_action) = rollback_applied
      /\ registry_snapshot st'.(gs_world) = registry_snapshot st.(gs_world)).
Proof.
  intros E0 (snap & _ & E)%poll_shape drifted.
  destruct E as (_ & lkg & curr & w2 & Hw2 & Hl2 & Hcurr & E). apply change_shape in E; [|done].
  destruct E as (w0 & Hw0 & Hl0 & Hbef & _ & _ & _ & Hrec & Hact & Hver & Hst & Hw & _).
  rewrite Hact, Hver, Hst, Hrec. cbn zeta in Hw. set (stage := rollback_stage _ _ _ _ _ _ _ w0) in *.
  assert (Hd : same_registry w0 drifted) by (by etransitivity).
  assert (Hld : rtc command_step drifted w0) by (by etransitivity).
  rewrite (snapshot_determined st'.(gs_world) stage.(st_world) (fun n => Hw _)).
  split.
  - intros Happ. destruct (stage_executed o.(go_policy) o.(go_before) o.(go_plan) inp.(in_evaluate_clock)
      inp.(in_record_clock) st.(gs_limiter) w0 (or_introl Happ))
      as (r & w1 & Ea & Hg & Hskip & Hsucc & Hr & _ & Hsw & Hok & Hv). fold stage in Hr, Hsw, Hok, Hv.
    destruct (verify_hkcu_core_matches_prior _ _) eqn:Hm; [|by destruct Hv as [Hv _]; rewrite Hv in Happ].
    destruct Hv as [_ Hv]. split.
    { pose proof (attempt_restored _ _ _ _ _ Ea Hg Hskip Hsucc) as Hres.
      unfold restored_values, wininet_values in *. rewrite !Hw, !Hsw, <- !Hd. exact Hres. }
    do 3 (split; [done|]). intros Hresp. apply bool_decide_eq_true in Hm.
    rewrite (snapshot_determined stage.(st_world) w1 (fun n => Hsw _)), <- Hm.
    by rewrite (attempt_read_back _ _ _ _ _ _ Hresp Hld Ea).
  - intros Hk Hexec [n Hread] Hr0 Hr1 Had.
    destruct (poll_baseline _ _ _ _ E0 Hr0) as (_ & s & Hps & Hs). specialize (Hbef s Hps).
    destruct (stage_executed o.(go_policy) o.(go_before) o.(go_plan)
      inp.(in_evaluate_clock) inp.(in_record_clock) st.(gs_limiter) w0 (or_intror Hexec))
      as (r & w1 & Ea & Hg & Hskip & Hsucc & _ & _ & Hsw & _ & Hv). fold stage in Hsw, Hv.
    rewrite Hbef in Ea, Hread, Hv.
    assert (Hback : registry_snapshot w1 = registry_snapshot st.(gs_world)).
    { apply (restored_as_before s n o.(go_plan) st.(gs_world) w0 w1 r); try done.
      rewrite (snapshot_determined w0 drifted), Had; [by destruct Hs as (_ & _ & _ & -> & _)|].
      intros name. apply Hd. }
    rewrite (attempt_read_back _ _ _ _ _ _ Hr1 Hld Ea), Hback in Hv. unfold verify_hkcu_core_matches_prior, restore_target in Hv. rewrite Hk in Hv.
    rewrite bool_decide_eq_true_2 in Hv.
    2: { destruct Hs as (H1 & H2 & H3 & H4 & _). unfold hkcu_tuple_from_registry, hkcu_tuple_expected_from_snapshot.
         cbn. by rewrite H1, H2, H3, H4. }
    split; [by destruct Hv|]. by rewrite (snapshot_determined stage.(st_world) w1 (fun n => Hsw _)).
Qed.
End Effects.

Module LoopWitness.
Import DemoQuery.

Definition at_key (name : string) : string * string := DemoRegistry.canonical (INTERNET_SETTINGS_KEY, name).

(** A machine with a corporate server, switched off. *)
Definition machine : host :=
  {| hive := <[at_key "ProxyEnable" := ("REG_DWORD", "0")]>
               (<[at_key "ProxyServer" := ("REG_SZ", "corp:80")]>
                  (<[at_key "ProxyOverride" := ("REG_SZ", "<local>")]> ∅));
     timeouts := [] |}.

(** Something switches it on and names a PAC file. *)
Definition hijack (w : host) : host :=
  {| hive := <[at_key "ProxyEnable" := ("REG_DWORD", "1")]>
               (<[at_key "AutoConfigURL" := ("REG_SZ", "http://evil/p.pac")]> w.(hive));
     timeouts := w.(timeouts) |}.

Definition config (max : Z) : GuardConfig :=
  {| gc_policy := TransitionWitness.rules; gc_auto_rollback := true; gc_cli_rollback := false;
     gc_dry_run_rollback := false; gc_confirm_phrase := "";
     gc_limits := {| rl_cooldown_seconds := 60 * second; rl_window_seconds := 300 * second;
                     rl_max_rollbacks_per_window := max |};
     gc_max_attempts := 3; gc_trust_current_lkg := false; gc_restore_git_npm_env := false;
     gc_known_good_snapshot := None |}.

Definition cfg : GuardConfig := config 5.

Definition poll_by (who : GuardAttribution) (drift : host -> host) (clock : Z) : PollInputs host :=
  {| in_drift := drift; in_winreg := fun _ => None; in_utc_now := "t";
     in_attribution := who; in_port_listen := None; in_has_url := false;
     in_path_probes := {| pc_bypass := true; pc_proxied := true |};
     in_run_probe := fun _ => ProbeDone 0 "" ""; in_evaluate_clock := clock; in_record_clock := clock + 1 |}.

Definition poll : (host -> host) -> Z -> PollInputs host := poll_by TransitionWitness.clash.

Definition nobody : GuardAttribution :=
  {| ga_mode := unknown_mode; ga_process := None; ga_limitations := [] |}.

Definition start : GuardState host := guard_start machine None.
Definition first : GuardState host * option GuardOutcome := guard_poll cfg (poll id 0) start.
Definition second_poll : GuardState host * option GuardOutcome := guard_poll cfg (poll hijack 10) first.1.
Definition third : GuardState host * option GuardOutcome := guard_poll cfg (poll id 20) second_poll.1.

(** The outcome of the change, and a stand-in no poll returns. *)
Definition outcome : GuardOutcome :=
  match second_poll.2 with
  | Some o => o
  | None =>
      (handle_change cfg (poll hijack 10) start None unread (normalize_registry_view unread)
         TransitionWitness.after machine).2
  end.

Lemma second_outcome : second_poll = (second_poll.1, Some outcome).
Proof. vm_compute. reflexivity. Qed.

Lemma loop_rollbacks_limited_witness :
  let made := omap go_recorded_at
                (run_proxy_guard_guard_loop cfg [poll id 0; poll hijack 10; poll hijack 20] start).2 in
  made = [11] /\ Z.of_nat (length (in_window cfg.(gc_limits) 0 made)) <= 5.
Proof.
  split; [vm_compute; reflexivity|].
  refine (proj1 (loop_rollbacks_limited cfg [poll id 0; poll hijack 10; poll hijack 20] machine None 0 _) 0).
  cbn. lia.
Defined.


Lemma quiet_when_unchanged_witness : third.2 = None.
Proof.
  refine (proj1 (quiet_when_unchanged cfg (poll hijack 10) (poll id 20) first.1 second_poll.1 third.1
                   second_poll.2 third.2 (surjective_pairing second_poll) (surjective_pairing third) _ _ _));
    [apply quiet_host_responsive; vm_compute; reflexivity..|].
  intros v. reflexivity.
Defined.

(** A query that times out on an untouched registry: the missing server is recorded as a
    change. *)
Definition hang (w : host) : host := {| hive := w.(hive); timeouts := [false; true] |}.
Definition hung_poll : GuardState host * option GuardOutcome := guard_poll cfg (poll hang 10) first.1.

(** The baseline of a hung first poll lacks the server; the next blocked change is rolled
    back to it, which deletes the server. *)
Definition hung_start : GuardState host * option GuardOutcome :=
  guard_poll cfg (poll hang 0) start.

Lemma timeout_recorded_as_change :
  option_map (fun o => (o.(go_before).(sn_proxy_server), o.(go_after).(sn_proxy_server))) hung_poll.2
    = Some (Some "corp:80", None)
  /\ (registry_snapshot hung_poll.1.(gs_world)).(pr_proxy_server) = Some "corp:80".
Proof. vm_compute. auto. Qed.

Lemma rollback_deletes_unread_server :
  let st1 := hung_start.1 in
  let '(st2, o) := guard_poll cfg (poll hijack 10) st1 in
  (registry_snapshot st1.(gs_world)).(pr_proxy_server) = Some "corp:80"
  /\ option_map go_pipeline_action o = Some rollback_applied
  /\ (registry_snapshot st2.(gs_world)).(pr_proxy_server) = None.
Proof. vm_compute. auto. Qed.


Lemma rollback_reaches_prior_witness :
  outcome.(go_pipeline_action) = rollback_applied
  /\ registry_snapshot second_poll.1.(gs_world) = registry_snapshot first.1.(gs_world).
Proof.
  refine (proj2 (rollback_reaches_prior cfg (poll id 0) (poll hijack 10) start first.1 second_poll.1
                   first.2 outcome (surjective_pairing first) second_outcome) eq_refl _ _ _ _ _);
    [vm_compute; reflexivity| |apply quiet_host_responsive; vm_compute; reflexivity
    |apply quiet_host_responsive; vm_compute; reflexivity|vm_compute; reflexivity].
  exists 0. repeat split; vm_compute; done || reflexivity || discriminate.
Defined.

(** With the limit reached, the change is suppressed, and being the new baseline it is not
    looked at again. *)
Lemma suppressed_change_stays :
  let c := config 0 in
  let s1 := (guard_poll c (poll id 0) start).1 in
  let '(s2, o2) := guard_poll c (poll hijack 10) s1 in
  option_map go_suppressed o2 = Some (Some limit_rate_limited)
  /\ (guard_poll c (poll id 20) s2).2 = None
  /\ (read_proxy_registry s2.(gs_world)).1.(pr_auto_config_url) = Some "http://evil/p.pac".
Proof. vm_compute. auto. Qed.

(** A change of AutoDetect alone is not undone: every command succeeds, the check fails, and
    the two audit schemas disagree about it. *)
Definition detect (w : host) : host :=
  {| hive := <[at_key "AutoDetect" := ("REG_DWORD", "1")]> (hijack w).(hive); timeouts := w.(timeouts) |}.

Lemma auto_detect_not_restored :
  let '(_, o) := guard_poll cfg (poll detect 10) first.1 in
  option_map (fun o => (o.(go_pipeline_action), o.(go_error), o.(go_status))) o
  = Some (rollback_failed, Some "post_rollback_registry_mismatch", executed_ok).
Proof. vm_compute. reflexivity. Qed.

(** Without a PAC address to delete, the deletion fails and so does the rollback's report. *)
Definition switch_on (w : host) : host :=
  {| hive := <[at_key "ProxyEnable" := ("REG_DWORD", "1")]> w.(hive); timeouts := w.(timeouts) |}.

Lemma absent_value_reported_failed :
  let '(s, o) := guard_poll cfg (poll_by nobody switch_on 10) first.1 in
  option_map (fun o => (o.(go_pipeline_action), o.(go_error), o.(go_status))) o
  = Some (rollback_failed, Some "registry_or_netsh_nonzero", executed_partial)
  /\ (read_proxy_registry s.(gs_world)).1 = (read_proxy_registry machine).1.
Proof. vm_compute. auto. Qed.
End LoopWitness.
