(* ===== verification/ProxyWatchLoop.v ===== *)
(** * Watching the proxy settings

    The read-only watchers of [src/proxy_guard]: [state.py] and [wininet_change_diff.py]
    (what changed and how risky it is), [proxy_watch.py] (the loop and its soak verdict),
    [soak.py] (does a disable stick) and [flip_flop.py] (is something switching it back).

    Clock readings are whole nanoseconds and inputs of the loops; a loop that has used them up
    is still running. *)

From S2P Require Import Prelude PyValue PyTime ProxyParser RegistryWriter IncidentClusters ProxyRestore RegistryReader GuardLoop.
From Stdlib Require Import Ascii String.
From stdpp Require Import strings.

Open Scope string_scope.
Open Scope Z_scope.
Open Scope py_scope.

(** ** The state *)

Inductive UIProxyMode := ui_disabled | ui_manual_localhost | ui_manual_remote | ui_pac | ui_auto_detect | ui_unknown.

Definition _classify_ui_mode (reg : ProxyRegistrySnapshot) (parsed : ParsedProxy) (is_enabled : bool)
    : UIProxyMode :=
  if negb (PyStr.is_empty (PyStr.strip (default "" reg.(pr_auto_config_url)))) then ui_pac
  else if bool_decide (reg.(pr_auto_detect) = Some 1) then ui_auto_detect
  else if negb is_enabled then ui_disabled
  else if parsed.(is_localhost_proxy)
          || bool_decide (parsed.(pp_mode) = manual_localhost)
          || bool_decide (parsed.(pp_mode) = http_https_localhost)
          || bool_decide (parsed.(pp_mode) = socks_localhost)
  then ui_manual_localhost
  else if parsed.(is_missing) || parsed.(is_malformed) then ui_unknown
  else if negb (PyStr.is_empty (PyStr.strip (default "" parsed.(pp_raw)))) then ui_manual_remote
  else ui_unknown.

Record WininetState := {
  ws_registry : ProxyRegistrySnapshot;
  ws_is_enabled : bool;
  ws_parsed : ParsedProxy;
  ws_ui_mode : UIProxyMode;
}.

Definition state_of_registry (reg : ProxyRegistrySnapshot) : WininetState :=
  let parsed := parse_proxy_server reg.(pr_proxy_server) in
  let is_enabled := bool_decide (reg.(pr_proxy_enable) = Some 1) in
  {| ws_registry := reg; ws_is_enabled := is_enabled; ws_parsed := parsed;
     ws_ui_mode := _classify_ui_mode reg parsed is_enabled |}.

Definition snapshot_wininet_state {W : Type} `{!CommandHost W} (w : W) : WininetState * W :=
  let '(reg, w') := read_proxy_registry w in (state_of_registry reg, w').

(** ** The difference of two states *)

(** The fields of a watch policy, its lists as lists. *)
Record WatchPolicy := {
  wp_allowed_process_names : list pyval;
  wp_allowed_proxy_ports : list pyval;
  wp_deny_unknown_localhost_proxy : bool;
  wp_auto_rollback : bool;
}.

(** The defaults of [load_watch_policy]. *)
Definition default_watch_policy : WatchPolicy :=
  {| wp_allowed_process_names := []; wp_allowed_proxy_ports := [];
     wp_deny_unknown_localhost_proxy := true; wp_auto_rollback := false |}.

Definition changed_labels (b a : ProxyRegistrySnapshot) : list string :=
  ((if bool_decide (b.(pr_proxy_enable) = a.(pr_proxy_enable)) then [] else ["ProxyEnable"])
   ++ (if bool_decide (b.(pr_proxy_server) = a.(pr_proxy_server)) then [] else ["ProxyServer"])
   ++ (if bool_decide (b.(pr_auto_config_url) = a.(pr_auto_config_url)) then [] else ["AutoConfigURL"])
   ++ (if bool_decide (b.(pr_auto_detect) = a.(pr_auto_detect)) then [] else ["AutoDetect"])
   ++ (if bool_decide (b.(pr_proxy_override) = a.(pr_proxy_override)) then [] else ["ProxyOverride"]))%list.

Inductive WatchRisk := wr_low | wr_medium | wr_high.

#[export] Instance WatchRisk_eq_dec : EqDecision WatchRisk.
Proof. solve_decision. Defined.

(** The ports [int] accepts; an infinite one raises. *)
Fixpoint allowed_ports (raw : list pyval) : result (list Z) :=
  match raw with
  | [] => Ok []
  | x :: raw' =>
      match py_int x with
      | Ok n => ns ← allowed_ports raw'; Ok (n :: ns)
      | Raise e => if type_or_value_error e then allowed_ports raw' else Raise e
      end
  end.

(** The first classification: a risk and its reasons. *)
Definition base_risk (b a : WininetState) (changed_fields : list string) : WatchRisk * list string :=
  let pac_before := PyStr.is_empty (PyStr.strip (default "" b.(ws_registry).(pr_auto_config_url))) in
  let pac_after := negb (PyStr.is_empty (PyStr.strip (default "" a.(ws_registry).(pr_auto_config_url)))) in
  let localhost := a.(ws_parsed).(is_localhost_proxy) in
  if b.(ws_is_enabled) && negb a.(ws_is_enabled) && negb pac_after
  then (wr_low, ["Proxy disabled during developer/tool session"])
  else if negb b.(ws_is_enabled) && a.(ws_is_enabled) then
    if localhost then (wr_high, ["Proxy enabled"; "Enabled target is localhost-loopback proxy"])
    else (wr_low, ["Proxy enabled"])
  else if PyStr.mem "ProxyServer" changed_fields then
    if localhost then (wr_high, ["ProxyServer registry value mutated"; "New ProxyServer resolves to localhost"])
    else (wr_low, ["ProxyServer registry value mutated"])
  else if PyStr.mem "AutoConfigURL" changed_fields && pac_after && pac_before
  then (wr_medium, ["AutoConfigURL added or replaced"])
  else if PyStr.mem "AutoConfigURL" changed_fields then (wr_medium, ["AutoConfigURL changed"])
  else match changed_fields with
       | [] => (wr_low, [])
       | _ => (wr_low, ["Proxy-related registry fields changed"])
       end.

Record WatchDiff := {
  wd_changed : bool;
  wd_changed_fields : list string;
  wd_risk : WatchRisk;
  wd_reason : string;
}.

Definition diff_wininet_states (b a : WininetState) (policy : WatchPolicy) : result WatchDiff :=
  let changed_fields := changed_labels b.(ws_registry) a.(ws_registry) in
  let changed := match changed_fields with [] => false | _ => true end in
  let localhost := a.(ws_parsed).(is_localhost_proxy) in
  ports ← allowed_ports policy.(wp_allowed_proxy_ports);
  let '(risk, reasons) := base_risk b a changed_fields in
  let server := PyStr.strip (default "" a.(ws_registry).(pr_proxy_server)) in
  let remote_added :=
    a.(ws_is_enabled) && negb localhost && negb (PyStr.is_empty server)
    && (negb b.(ws_is_enabled) || PyStr.mem "ProxyServer" changed_fields) in
  let names := omap (fun v => match v with PStr s => Some (PyStr.lower s) | _ => None end)
                 policy.(wp_allowed_process_names) in
  let allow_hit := existsb (fun name => PyStr.contains name (PyStr.lower server)) names in
  let '(risk, reasons) :=
    if remote_added && negb allow_hit then
      ((match risk with wr_low => wr_medium | r => r end),
       (reasons ++ ["Remote or non-loopback proxy server configured"])%list)
    else (risk, reasons) in
  let '(risk, reasons) :=
    match a.(ws_parsed).(localhost_port) with
    | Some p =>
        if localhost && existsb (Z.eqb p) ports then
          ((match risk with wr_high => wr_medium | r => r end),
           (reasons ++ ["Localhost proxy port explicitly allowlisted"])%list)
        else (risk, reasons)
    | None => (risk, reasons)
    end in
  let reasons :=
    if policy.(wp_deny_unknown_localhost_proxy) && localhost
    then (reasons ++ ["Policy flags unknown-loopback-proxy posture as sensitive"])%list else reasons in
  let reasons := match reasons with [] => ["No proxy drift"] | _ => reasons end in
  let reason := Utf8.prefix 500 (PyStr.join "; " (dedupe String.eqb reasons)) in
  Ok {| wd_changed := changed; wd_changed_fields := changed_fields;
        wd_risk := if changed then risk else wr_low;
        wd_reason := if changed then reason else "No change" |}.

Inductive WatchAction := wa_observe | wa_alert | wa_rollback_recommended.

#[export] Instance WatchAction_eq_dec : EqDecision WatchAction.
Proof. solve_decision. Defined.

Definition _decide_action (policy : WatchPolicy) (diff : WatchDiff) : WatchAction * string :=
  let or_else s d := if PyStr.is_empty s then d else s in
  if negb diff.(wd_changed) then (wa_observe, "no_proxy_core_change")
  else match diff.(wd_risk) with
       | wr_high =>
           if policy.(wp_auto_rollback) then
             (wa_rollback_recommended,
              "policy_auto_rollback_flag_set_but_execution_remains_confirmation_gated_elsewhere")
           else (wa_alert, "high_risk_proxy_transition")
       | wr_medium => (wa_alert, or_else diff.(wd_reason) "medium_risk_proxy_transition")
       | wr_low => (wa_observe, or_else diff.(wd_reason) "low_risk_transition")
       end.

(** ** The soak of the watch loop *)

Inductive WatchStatus := STABLE | CHANGED | REWRITE_DETECTED.

#[export] Instance WatchStatus_eq_dec : EqDecision WatchStatus.
Proof. solve_decision. Defined.

(** What the loop has seen so far. *)
Record WatchState := {
  wl_prior : option WininetState;
  wl_samples : Z;
  wl_changes : Z;
  wl_rewrite : bool;
  wl_baseline : option Z;
  wl_audit : list (WatchDiff * (WatchAction * string));
}.

Definition watch_start : WatchState :=
  {| wl_prior := None; wl_samples := 0; wl_changes := 0; wl_rewrite := false; wl_baseline := None;
     wl_audit := [] |}.

(** One sample: the counters, the rewrite flag and the audit row of a change. *)
Definition watch_sample (policy : WatchPolicy) (now_state : WininetState) (s : WatchState)
    : result WatchState :=
  let enable := now_state.(ws_registry).(pr_proxy_enable) in
  let baseline := match s.(wl_baseline) with None => enable | b => b end in
  let seen changes rewrite audit :=
    {| wl_prior := Some now_state; wl_samples := s.(wl_samples) + 1; wl_changes := changes;
       wl_rewrite := rewrite; wl_baseline := baseline; wl_audit := audit |} in
  match s.(wl_prior) with
  | None => Ok (seen s.(wl_changes) s.(wl_rewrite) s.(wl_audit))
  | Some prior =>
      diff ← diff_wininet_states prior now_state policy;
      if diff.(wd_changed) then
        Ok (seen (s.(wl_changes) + 1)
              (s.(wl_rewrite) || (bool_decide (prior.(ws_registry).(pr_proxy_enable) = Some 0)
                                  && bool_decide (enable = Some 1)))
              (s.(wl_audit) ++ [(diff, _decide_action policy diff)])%list)
      else Ok (seen s.(wl_changes) s.(wl_rewrite) s.(wl_audit))
  end.

(** A poll: the state it reads and the two clock readings after it. *)
Record watch_tick := { wt_state : WininetState; wt_now : Z; wt_then : Z }.

(** The loop of a soak; [None] while it is still running. *)
Fixpoint watch_soak_loop (policy : WatchPolicy) (exit_on_rewrite : bool) (deadline : Z)
    (ticks : list watch_tick) (s : WatchState) : result (option WatchState) :=
  match ticks with
  | [] => Ok None
  | t :: rest =>
      s' ← watch_sample policy t.(wt_state) s;
      if s'.(wl_rewrite) && exit_on_rewrite then Ok (Some s')
      else if deadline <=? t.(wt_now) then Ok (Some s')
      else if deadline - t.(wt_then) <=? 0 then Ok (Some s')
      else watch_soak_loop policy exit_on_rewrite deadline rest s'
  end.

Definition watch_status (s : WatchState) : WatchStatus :=
  if s.(wl_rewrite) then REWRITE_DETECTED else if 0 <? s.(wl_changes) then CHANGED else STABLE.

(** The soak from its first clock reading on; both durations in nanoseconds. *)
Definition run_proxy_watch_soak (policy : WatchPolicy) (soak start : Z) (exit_on_rewrite : bool)
    (ticks : list watch_tick) : result (option (WatchStatus * WatchState)) :=
  s ← watch_soak_loop policy exit_on_rewrite (start + soak) ticks watch_start;
  Ok (option_map (fun s => (watch_status s, s)) s).

(** ** The soak after a disable *)

Inductive SoakStatus := SOAK_STABLE | REMEDIATION_NOT_STICKY.

#[export] Instance SoakStatus_eq_dec : EqDecision SoakStatus.
Proof. solve_decision. Defined.

Record SoakResult := {
  sr_status : SoakStatus;
  sr_samples : Z;
  sr_detail : string;
  sr_last_proxy_enable : option Z;
}.

(** One turn of the loop: the clock at its test, and the switch it then reads. *)
Record soak_tick := { tk_now : Z; tk_enable : option Z }.

Fixpoint soak_loop (deadline : Z) (ticks : list soak_tick) (samples : Z) (last_en : option Z)
    : option SoakResult :=
  match ticks with
  | [] => None
  | t :: rest =>
      if t.(tk_now) <? deadline then
        if bool_decide (t.(tk_enable) = Some 1) then
          Some {| sr_status := REMEDIATION_NOT_STICKY; sr_samples := samples + 1;
                  sr_detail := "ProxyEnable returned to 1 during soak. Suspected active reverter. Do not keep resetting in a loop — identify writer (WMI / Procmon / Sysmon EID 13).";
                  sr_last_proxy_enable := t.(tk_enable) |}
        else soak_loop deadline rest (samples + 1) t.(tk_enable)
      else Some {| sr_status := SOAK_STABLE; sr_samples := samples;
                   sr_detail := "no_proxy_reenable_during_soak"; sr_last_proxy_enable := last_en |}
  end.

Definition run_remediation_soak (soak start : Z) (ticks : list soak_tick) : option SoakResult :=
  if soak <=? 0 then
    Some {| sr_status := SOAK_STABLE; sr_samples := 0; sr_detail := "soak_skipped";
            sr_last_proxy_enable := None |}
  else soak_loop (start + soak) ticks 0 None.

(** ** Repeated switching *)

Section FlipFlop.
Context {H : PyHost}.

(** [_parse_watch_ts]: a UTC wall clock; a text that is no date-time is nothing, one whose UTC time
    is out of range raises. *)
Definition _parse_watch_ts (value : pyval) : result (option Z) :=
  match value with
  | PNone => Ok None
  | v =>
      let text := PyStr.strip (py_str v) in
      if PyStr.is_empty text then Ok None else
      match fromisoformat (expand_z text) with
      | None => Ok None
      | Some dt => us ← to_utc dt.(dt_wall) (default 0 dt.(dt_offset)); Ok (Some us)
      end
  end.

Definition normalize_watch_record (raw : pydict) : pydict :=
  if py_eqb (Dict.get "event" raw) (PStr "proxy_state_change")
     || py_eqb (Dict.get "schema_version" raw) (PInt 1) then
    Dict.update raw
      ["schema_version" :-> Dict.get_default "schema_version" (PInt 1) raw;
       "event" :-> Dict.get_default "event" (PStr "proxy_state_change") raw;
       "timestamp" :-> py_or (Dict.get "timestamp_utc" raw) (Dict.get "timestamp" raw);
       "before_snapshot" :-> PDict ["proxy_enable" :-> Dict.get "old_enable" raw;
                                    "proxy_server" :-> Dict.get "old_server_masked" raw];
       "after_snapshot" :-> PDict ["proxy_enable" :-> Dict.get "new_enable" raw;
                                   "proxy_server" :-> Dict.get "new_server_masked" raw]]
  else raw.

(** The switch of a snapshot as an integer; [None] for what the [except] clause skips. *)
Definition snapshot_switch (snapshot : pyval) : result (option Z) :=
  d ← Dict.of_val (py_or snapshot (PDict []));
  try_except (Some <$> py_int (Dict.get "proxy_enable" d)) type_or_value_error None.

(** The transition of a row, if it is one. *)
Definition row_transition (raw : pydict) : result (option (Z * Z * Z)) :=
  let rec := normalize_watch_record raw in
  ts ← _parse_watch_ts (py_or (Dict.get "timestamp" rec) (Dict.get "timestamp_utc" rec));
  match ts with
  | None => Ok None
  | Some ts =>
      old_en ← snapshot_switch (Dict.get "before_snapshot" rec);
      match old_en with
      | None => Ok None
      | Some old_en =>
          new_en ← snapshot_switch (Dict.get "after_snapshot" rec);
          match new_en with
          | Some new_en => Ok (if old_en =? new_en then None else Some (ts, old_en, new_en))
          | None => Ok None
          end
      end
  end.

Definition iter_enable_transitions (records : list pydict) : result (list (Z * Z * Z)) :=
  fmap (fun rows : list (option (Z * Z * Z)) => omap id rows) (mapM_result row_transition records).

Record ActiveReverterResult := {
  ar_toggle_count : Z;
  ar_window_minutes : Z;
  ar_first_seen_utc : string;
  ar_last_seen_utc : string;
}.

Definition iso_utc (us : Z) : string := isoformat {| dt_wall := us; dt_offset := Some 0 |}.

Definition detect_active_reverter (records : list pydict) (window_minutes min_toggles : Z)
    (reference_utc : option Z) (utc_now : Z) : result (option ActiveReverterResult) :=
  transitions ← iter_enable_transitions records;
  if Z.of_nat (length transitions) <? min_toggles then Ok None else
  let ref := match reference_utc with
             | Some r => r
             | None => match last_opt transitions with Some t => t.1.1 | None => utc_now end
             end in
  let cutoff := ref - window_minutes * 60 * US_PER_SEC in
  if negb (in_range cutoff) then Raise OverflowError else
  let in_window := List.filter (fun t => cutoff <=? t.1.1) transitions in
  if Z.of_nat (length in_window) <? min_toggles then Ok None else
  match in_window, last_opt in_window with
  | first :: _, Some last =>
      Ok (Some {| ar_toggle_count := Z.of_nat (length in_window); ar_window_minutes := window_minutes;
                  ar_first_seen_utc := iso_utc first.1.1; ar_last_seen_utc := iso_utc last.1.1 |})
  | _, _ => Raise IndexError
  end.
End FlipFlop.

(** ** What counts as a change *)

Lemma changed_labels_nil (b a : ProxyRegistrySnapshot) : changed_labels b a = [] <-> b = a.
Proof.
  unfold changed_labels. split.
  - intros E. destruct b, a. cbn in *. repeat case_bool_decide; try discriminate. by subst.
  - intros ->. by rewrite !bool_decide_eq_true_2.
Qed.

Lemma diff_changed (b a : WininetState) (policy : WatchPolicy) (d : WatchDiff) :
  diff_wininet_states b a policy = Ok d ->
  d.(wd_changed) = negb (bool_decide (b.(ws_registry) = a.(ws_registry))).
Proof.
  unfold diff_wininet_states. pose proof (changed_labels_nil b.(ws_registry) a.(ws_registry)) as Hn.
  destruct (allowed_ports _) as [ports|]; [|done]. cbn [mbind result_bind].
  destruct (base_risk b a _) as [risk reasons]. repeat case_match; intros [= <-]; cbn [wd_changed];
    case_bool_decide as He; try done; exfalso.
  all: first [by apply He, Hn | by apply Hn in He].
Qed.

(** C29: switching the proxy on towards a loopback address never passes quietly: the watch
    rates it high, or medium when the policy lists its port, and the recorded action is an
    alert or a rollback recommendation.  An unchanged registry is rated low and observed. *)
Theorem loopback_enable_alerted (before after : ProxyRegistrySnapshot) (policy : WatchPolicy)
    (d : WatchDiff) :
  let b := state_of_registry before in
  let a := state_of_registry after in
  diff_wininet_states b a policy = Ok d ->
  (before.(pr_proxy_enable) <> Some 1 -> after.(pr_proxy_enable) = Some 1 ->
   a.(ws_parsed).(is_localhost_proxy) = true ->
   (_decide_action policy d).1 <> wa_observe
   /\ (d.(wd_risk) = wr_high
       \/ d.(wd_risk) = wr_medium
          /\ exists p ports, a.(ws_parsed).(localhost_port) = Some p
             /\ allowed_ports policy.(wp_allowed_proxy_ports) = Ok ports /\ In p ports))
  /\ (before = after -> d.(wd_risk) = wr_low /\ (_decide_action policy d).1 = wa_observe).
Proof.
  intros b a E. pose proof (diff_changed _ _ _ _ E) as Hc. cbn [b a state_of_registry ws_registry] in Hc.
  split.
  - intros Hb Ha Hl. rewrite bool_decide_eq_false_2 in Hc by (intros ->; congruence). cbn [negb] in Hc.
    assert (Hr : d.(wd_risk) = wr_high \/ d.(wd_risk) = wr_medium
          /\ exists p ports, a.(ws_parsed).(localhost_port) = Some p
             /\ allowed_ports policy.(wp_allowed_proxy_ports) = Ok ports /\ In p ports).
    { revert E Hc. unfold diff_wininet_states.
      destruct (allowed_ports _) as [ports|]; [|done]. cbn [mbind result_bind].
      assert (base_risk b a (changed_labels before after)
              = (wr_high, ["Proxy enabled"; "Enabled target is localhost-loopback proxy"])) as Hbase.
      { unfold base_risk. rewrite Hl. cbn [b a state_of_registry ws_is_enabled].
        rewrite (bool_decide_eq_false_2 (pr_proxy_enable before = _)) by done.
        by rewrite (bool_decide_eq_true_2 (pr_proxy_enable after = _)) by done. }
      cbn [b a state_of_registry ws_registry]. fold b a. rewrite Hbase, Hl. cbn [negb].
      rewrite andb_false_r. cbn [andb].
      destruct (localhost_port (ws_parsed a)) as [p|] eqn:Hp.
      2: { intros [= <-] Hc. cbn in Hc |- *. rewrite Hc. by left. }
      destruct (existsb (Z.eqb p) ports) eqn:Hx.
      - intros [= <-] Hc. cbn in Hc |- *. rewrite Hc. right. split; [done|]. exists p, ports.
        do 2 (split; [done|]). apply existsb_exists in Hx as (q & Hq & ->%Z.eqb_eq). done.
      - intros [= <-] Hc. cbn in Hc |- *. rewrite Hc. by left. }
    split; [|done]. unfold _decide_action. rewrite Hc. cbn [negb].
    destruct Hr as [->|[-> _]]; [by destruct (wp_auto_rollback policy)|done].
  - intros ->. rewrite bool_decide_eq_true_2 in Hc by done. cbn [negb] in Hc. split.
    + revert E Hc. unfold diff_wininet_states. destruct (allowed_ports _); [|done]. cbn [mbind result_bind].
      destruct (base_risk _ _ _). repeat case_match; intros [= <-]; cbn; congruence.
    + unfold _decide_action. by rewrite Hc.
Qed.

(** ** What a soak reports *)

(** Neighbours in a list. *)
Definition neighbours {A} (l : list A) : list (A * A) := combine l (tail l).

Lemma neighbours_snoc {A} (l : list A) (x y : A) :
  neighbours (l ++ [x; y]) = (neighbours (l ++ [x]) ++ [(x, y)])%list.
Proof.
  unfold neighbours. induction l as [|a l IH]; [done|]. destruct l as [|b l]; [done|].
  cbn [app tail combine] in *. f_equal. exact IH.
Qed.

Definition differs (p : ProxyRegistrySnapshot * ProxyRegistrySnapshot) : bool := negb (bool_decide (p.1 = p.2)).

(** The switch went from off to on between two samples. *)
Definition switched_on (p : ProxyRegistrySnapshot * ProxyRegistrySnapshot) : bool :=
  bool_decide (p.1.(pr_proxy_enable) = Some 0) && bool_decide (p.2.(pr_proxy_enable) = Some 1).

Definition count_if {A} (f : A -> bool) (l : list A) : Z := Z.of_nat (length (List.filter f l)).

Lemma count_if_snoc {A} (f : A -> bool) (l : list A) (x : A) :
  count_if f (l ++ [x]) = count_if f l + if f x then 1 else 0.
Proof. unfold count_if. rewrite List.filter_app, length_app. cbn. destruct (f x); cbn; lia. Qed.

(** The loop state after the samples [seen]. *)
Definition watched (seen : list ProxyRegistrySnapshot) (s : WatchState) : Prop :=
  option_map ws_registry s.(wl_prior) = last_opt seen
  /\ s.(wl_samples) = Z.of_nat (length seen)
  /\ s.(wl_changes) = count_if differs (neighbours seen)
  /\ s.(wl_rewrite) = existsb switched_on (neighbours seen)
  /\ Z.of_nat (length s.(wl_audit)) = s.(wl_changes).

Lemma sample_watched (policy : WatchPolicy) (seen : list ProxyRegistrySnapshot) (st : WininetState)
    (s s' : WatchState) :
  watched seen s -> watch_sample policy st s = Ok s' -> watched (seen ++ [st.(ws_registry)]) s'.
Proof.
  intros (Hp & Hs & Hc & Hr & Ha) E. unfold watched. rewrite last_opt_app, length_app. cbn [length].
  unfold watch_sample in E. destruct (wl_prior s) as [prior|] eqn:Ep; cbn in Hp.
  2: { symmetry in Hp. apply last_opt_None in Hp. subst seen. injection E as <-. cbn in *. repeat split; lia || done. }
  assert (exists l, seen = (l ++ [ws_registry prior])%list) as [l ->].
  { destruct (exists_last (l := seen)) as (l & x & ->); [intros ->; done|]. exists l.
    rewrite last_opt_app in Hp. by injection Hp as ->. }
  rewrite <- app_assoc. cbn [app]. rewrite neighbours_snoc, count_if_snoc, existsb_app. cbn [existsb].
  unfold differs at 2, switched_on at 2. cbn [fst snd].
  destruct (diff_wininet_states prior st policy) as [d|] eqn:Ed; [|done]. cbn [mbind result_bind] in E.
  rewrite (diff_changed _ _ _ _ Ed) in E. case_bool_decide as Heq; cbn [negb] in E |- *; injection E as <-; cbn.
  - split; [done|]. split; [lia|]. split; [lia|]. split; [|done]. rewrite Hr, orb_false_r.
    enough (bool_decide (pr_proxy_enable (ws_registry prior) = Some 0)
            && bool_decide (pr_proxy_enable (ws_registry st) = Some 1) = false) as -> by (by rewrite orb_false_r).
    rewrite Heq. destruct (pr_proxy_enable (ws_registry st)) as [[]|]; repeat case_bool_decide; done || congruence.
  - split; [done|]. split; [lia|]. split; [lia|]. split; [by rewrite Hr, orb_false_r|].
    rewrite length_app. cbn. lia.
Qed.

Lemma loop_watched (policy : WatchPolicy) (exit : bool) (deadline : Z) (ticks : list watch_tick)
    (seen : list ProxyRegistrySnapshot) (s s' : WatchState) :
  watched seen s -> watch_soak_loop policy exit deadline ticks s = Ok (Some s') ->
  exists k, watched (seen ++ map (fun t => t.(wt_state).(ws_registry)) (take k ticks)) s' /\ (1 <= k <= length ticks)%nat.
Proof.
  revert seen s. induction ticks as [|t rest IH]; intros seen s Hw; cbn [watch_soak_loop]; [done|].
  destruct (watch_sample policy (wt_state t) s) as [s1|] eqn:E; [|done]. cbn [mbind result_bind].
  pose proof (sample_watched _ _ _ _ _ Hw E) as Hw1.
  assert (Hstop : s1 = s' -> exists k, watched (seen ++ map (fun t => t.(wt_state).(ws_registry)) (take k (t :: rest))) s'
                    /\ (1 <= k <= length (t :: rest))%nat).
  { intros <-. exists 1%nat. split; [exact Hw1|cbn; lia]. }
  destruct (wl_rewrite s1 && exit); [by intros [= ->]; apply Hstop|].
  destruct (deadline <=? wt_now t); [by intros [= ->]; apply Hstop|].
  destruct (deadline - wt_then t <=? 0); [by intros [= ->]; apply Hstop|].
  intros E'. destruct (IH _ _ Hw1 E') as (k & Hk & Hle). exists (S k). cbn [take map].
  rewrite <- app_assoc in Hk. split; [exact Hk|cbn; lia].
Qed.

Lemma sample_total (policy : WatchPolicy) (ports : list Z) (st : WininetState) (s : WatchState) :
  allowed_ports policy.(wp_allowed_proxy_ports) = Ok ports ->
  exists s', watch_sample policy st s = Ok s' /\ s'.(wl_samples) = s.(wl_samples) + 1.
Proof.
  intros Hp. unfold watch_sample. destruct (wl_prior s) as [prior|]; [|by eexists].
  assert (exists d, diff_wininet_states prior st policy = Ok d) as [d ->].
  { unfold diff_wininet_states. rewrite Hp. cbn [mbind result_bind]. destruct (base_risk _ _ _).
    repeat case_match; by eexists. }
  cbn [mbind result_bind]. destruct (wd_changed d); by eexists.
Qed.

(** A clock that does not go back, and sleeps that last at least as long as asked. *)
Fixpoint watch_clock (poll deadline lo : Z) (ticks : list watch_tick) : Prop :=
  match ticks with
  | [] => True
  | t :: rest =>
      lo <= t.(wt_now) <= t.(wt_then)
      /\ watch_clock poll deadline (t.(wt_then) + Z.min poll (deadline - t.(wt_then))) rest
  end.

Lemma watch_loop_ends (policy : WatchPolicy) (ports : list Z) (exit : bool) (poll deadline : Z)
    (k : nat) (ticks : list watch_tick) (lo : Z) (s : WatchState) :
  allowed_ports policy.(wp_allowed_proxy_ports) = Ok ports -> 0 < poll ->
  watch_clock poll deadline lo ticks -> deadline - lo <= Z.of_nat k * poll -> (k < length ticks)%nat ->
  exists s', watch_soak_loop policy exit deadline ticks s = Ok (Some s')
             /\ s'.(wl_samples) <= s.(wl_samples) + Z.of_nat k + 1.
Proof.
  intros Hports Hpoll. revert k lo s. induction ticks as [|t rest IH]; intros k lo s Hc Hk Hlen; cbn in Hlen; [lia|].
  destruct Hc as [Hnow Hc]. cbn [watch_soak_loop].
  destruct (sample_total policy ports t.(wt_state) s Hports) as (s1 & -> & Hs1). cbn [mbind result_bind].
  destruct (wl_rewrite s1 && exit); [exists s1; split; [done|lia]|].
  destruct (Z.leb_spec deadline t.(wt_now)); [exists s1; split; [done|lia]|].
  destruct (Z.leb_spec (deadline - t.(wt_then)) 0); [exists s1; split; [done|lia]|].
  destruct k as [|k]; [lia|]. destruct (IH k _ s1 Hc) as (s' & E & Hs'); [|lia|].
  - destruct (Z.min_spec poll (deadline - t.(wt_then))) as [[_ ->]|[_ ->]]; nia.
  - exists s'. split; [exact E|lia].
Qed.

Lemma watched_start : watched [] watch_start.
Proof. by repeat split. Qed.

(** C27: a soak ends and says what it saw.  With sleeps that last as long as asked it makes at
    most [soak / poll + 2] samples; it reports a rewrite exactly when the switch was 0 at one
    sample and 1 at the next, reports stability exactly when all samples are alike, and writes
    one audit row for every two neighbouring samples that differ. *)
Theorem watch_soak_verdict (policy : WatchPolicy) (ports : list Z) (soak poll start : Z) (exit : bool)
    (ticks : list watch_tick) :
  allowed_ports policy.(wp_allowed_proxy_ports) = Ok ports -> 0 < soak -> 0 < poll ->
  watch_clock poll (start + soak) start ticks ->
  (Z.to_nat (soak / poll) + 2 <= length ticks)%nat ->
  exists status s k,
    run_proxy_watch_soak policy soak start exit ticks = Ok (Some (status, s))
    /\ let seen := map (fun t => t.(wt_state).(ws_registry)) (take k ticks) in
       s.(wl_samples) = Z.of_nat (length seen) /\ 1 <= s.(wl_samples) <= soak / poll + 2
       /\ (status = REWRITE_DETECTED <-> exists p, In p (neighbours seen) /\ switched_on p = true)
       /\ (status = STABLE <-> forall p, In p (neighbours seen) -> p.1 = p.2)
       /\ Z.of_nat (length s.(wl_audit)) = count_if differs (neighbours seen).
Proof.
  intros Hports Hsoak Hpoll Hclock Hlen.
  destruct (watch_loop_ends policy ports exit poll (start + soak) (Z.to_nat (soak / poll) + 1)%nat ticks start
              watch_start Hports Hpoll Hclock) as (s & E & Hs); [|lia|].
  { assert (0 <= soak / poll) by (apply Z.div_pos; lia).
    pose proof (Z.mul_succ_div_gt soak poll Hpoll). nia. }
  assert (0 <= soak / poll) by (apply Z.div_pos; lia). cbn [watch_start wl_samples] in Hs.
  destruct (loop_watched policy exit _ _ [] _ _ watched_start E) as (k & Hw & Hk). cbn [app] in Hw.
  destruct Hw as (_ & Hsm & Hch & Hrw & Hau). exists (watch_status s), s, k.
  unfold run_proxy_watch_soak. rewrite E. split; [done|].
  assert (Hl : length (take k ticks) = k) by (apply length_take_le; lia).
  set (seen := map _ (take k ticks)) in *. assert (Hk' : length seen = k) by (by subst seen; rewrite length_map).
  split; [done|]. split; [lia|]. rewrite <- Hch. unfold watch_status.
  assert (Hon : existsb switched_on (neighbours seen) = true <-> exists p, In p (neighbours seen) /\ switched_on p = true)
    by apply existsb_exists.
  assert (Hall : (0 <? wl_changes s) = false <-> forall p, In p (neighbours seen) -> p.1 = p.2).
  { rewrite Hch, Z.ltb_ge. unfold count_if. clear. induction (neighbours seen) as [|p l IH]; [by split|].
    cbn [List.filter In]. unfold differs at 1. case_bool_decide as He; cbn [negb length].
    - rewrite IH. split; [intros Hl q [<-|Hq]; [done|by apply Hl]|by intros Hl q Hq; apply Hl; right].
    - split; [lia|]. intros Hl. by destruct (He (Hl p (or_introl eq_refl))). }
  split; [|split; [|exact Hau]].
  - rewrite <- Hon, Hrw. destruct (existsb _ _); [done|]. by destruct (0 <? _).
  - rewrite <- Hall. rewrite Hrw. destruct (existsb switched_on (neighbours seen)) eqn:Hx; [|by destruct (0 <? _)].
    split; [done|]. intros Hno. apply existsb_exists in Hx as (p & Hp & Hsw). apply Hall with (p := p) in Hno; [|done].
    unfold switched_on in Hsw. rewrite Hno in Hsw. apply andb_true_iff in Hsw as [H1 H2].
    apply bool_decide_eq_true in H1, H2. congruence.
Qed.

(** Turns of a loop that sleeps at least [poll] between them. *)
Fixpoint soak_clock (poll lo : Z) (ticks : list soak_tick) : Prop :=
  match ticks with
  | [] => True
  | t :: rest => lo <= t.(tk_now) /\ soak_clock poll (t.(tk_now) + poll) rest
  end.

Lemma soak_late (poll lo deadline : Z) (ticks : list soak_tick) :
  0 < poll -> deadline <= lo -> soak_clock poll lo ticks -> Forall (fun t => deadline <= t.(tk_now)) ticks.
Proof.
  intros Hp. revert lo. induction ticks as [|t rest IH]; intros lo Hle H; [done|]. destruct H as [H1 H2].
  constructor; [lia|]. eapply IH; [|exact H2]. lia.
Qed.

Lemma soak_loop_ends (poll deadline : Z) (k : nat) (ticks : list soak_tick) (lo samples : Z) (last : option Z) :
  0 < poll -> soak_clock poll lo ticks -> deadline - lo <= Z.of_nat k * poll -> (k < length ticks)%nat ->
  exists r, soak_loop deadline ticks samples last = Some r
  /\ samples <= r.(sr_samples) <= samples + Z.of_nat k
  /\ (r.(sr_status) = REMEDIATION_NOT_STICKY
      <-> exists t, In t ticks /\ t.(tk_now) < deadline /\ t.(tk_enable) = Some 1).
Proof.
  intros Hp. revert k lo samples last. induction ticks as [|t rest IH]; intros k lo samples last Hc Hk Hlen; cbn in Hlen; [lia|].
  destruct Hc as [Hnow Hc]. cbn [soak_loop]. destruct (Z.ltb_spec t.(tk_now) deadline) as [Hlt|Hge].
  - destruct k as [|k]; [lia|]. case_bool_decide as He.
    + eexists. split; [done|]. split; [cbn; lia|]. split; [|done]. intros _. exists t. split; [by left|done].
    + destruct (IH k (tk_now t + poll) (samples + 1) (tk_enable t) Hc) as (r & E & Hs & Hst); [nia|lia|].
      exists r. split; [exact E|]. split; [lia|]. rewrite Hst. split.
      * intros (u & Hu & H1). exists u. split; [by right|done].
      * intros (u & [<-|Hu] & H1 & H2); [done|]. by exists u.
  - eexists. split; [done|]. split; [cbn; lia|]. cbn. split; [done|]. intros (u & Hu & H1 & _). exfalso.
    assert (Hall : Forall (fun t => deadline <= t.(tk_now)) (t :: rest)).
    { constructor; [done|]. eapply (soak_late poll); [done| |exact Hc]. lia. }
    rewrite Forall_forall in Hall. specialize (Hall u (proj2 (list_elem_of_In (t :: rest) u) Hu)). lia.
Qed.

(** C28: the soak after a disable ends within [soak / poll + 1] samples, and says that the disable
    did not stick exactly when the switch read 1 at some turn before the deadline. *)
Theorem remediation_soak_verdict (soak poll start : Z) (ticks : list soak_tick) :
  0 < soak -> 0 < poll -> soak_clock poll start ticks ->
  (Z.to_nat (soak / poll) + 2 <= length ticks)%nat ->
  exists r, run_remediation_soak soak start ticks = Some r
  /\ 0 <= r.(sr_samples) <= soak / poll + 1
  /\ (r.(sr_status) = REMEDIATION_NOT_STICKY
      <-> exists t, In t ticks /\ t.(tk_now) < start + soak /\ t.(tk_enable) = Some 1).
Proof.
  intros Hs Hp Hc Hlen. assert (0 <= soak / poll) by (apply Z.div_pos; lia).
  destruct (soak_loop_ends poll (start + soak) (Z.to_nat (soak / poll) + 1)%nat ticks start 0 None Hp Hc)
    as (r & E & Hsm & Hst); [|lia|].
  { pose proof (Z.mul_succ_div_gt soak poll Hp). nia. }
  exists r. unfold run_remediation_soak. destruct (Z.leb_spec soak 0); [lia|]. split; [exact E|]. split; [lia|exact Hst].
Qed.

(** ** What repeated switching means *)

Section Reverter.
Context {H : PyHost}.

(** Every transition is a real one. *)
Lemma transitions_differ (records : list pydict) (ts : list (Z * Z * Z)) (t : Z * Z * Z) :
  iter_enable_transitions records = Ok ts -> In t ts -> t.1.2 <> t.2.
Proof.
  unfold iter_enable_transitions. destruct (mapM_result row_transition records) as [rows|] eqn:E; [|done].
  intros [= <-] Hin. apply list_elem_of_In, list_elem_of_omap in Hin as (row & Hrow & Ht).
  unfold id in Ht. subst row. apply mapM_result_Forall2 in E. apply list_elem_of_In in Hrow.
  assert (exists raw, row_transition raw = Ok (Some t)) as [raw Hraw].
  { clear -E Hrow. induction E as [|raw r records rows Hr _ IH]; [done|]. destruct Hrow as [->|Hrow]; [by exists raw|by apply IH]. }
  revert Hraw. unfold row_transition.
  destruct (_parse_watch_ts _) as [[at_|]|]; cbn [mbind result_bind]; [|done|done].
  destruct (snapshot_switch (Dict.get "before_snapshot" _)) as [[old|]|]; cbn [mbind result_bind]; [|done|done].
  destruct (snapshot_switch (Dict.get "after_snapshot" _)) as [[new|]|]; cbn [mbind result_bind]; [|done|done].
  destruct (Z.eqb_spec old new); [done|]. by intros [= <-].
Qed.

(** An active reverter is reported exactly when enough real transitions lie in the window
    before the reference time, which is the last transition when none is given; the report
    counts them. *)
Theorem active_reverter_exact (records : list pydict) (ts : list (Z * Z * Z)) (window min now : Z)
    (reference : option Z) :
  iter_enable_transitions records = Ok ts -> 1 <= min ->
  let ref := match reference with
             | Some r => r
             | None => match last_opt ts with Some t => t.1.1 | None => now end
             end in
  let cutoff := ref - window * 60 * US_PER_SEC in
  in_range cutoff = true ->
  let hits := List.filter (fun t => cutoff <=? t.1.1) ts in
  match detect_active_reverter records window min reference now with
  | Ok (Some r) => min <= r.(ar_toggle_count) /\ r.(ar_toggle_count) = Z.of_nat (length hits)
                   /\ Forall (fun t => t.1.2 <> t.2) hits
  | Ok None => Z.of_nat (length hits) < min
  | Raise _ => False
  end.
Proof.
  intros E Hmin ref cutoff Hr hits. unfold detect_active_reverter. rewrite E. cbn [mbind result_bind].
  assert (Hle : (length hits <= length ts)%nat) by apply List.filter_length_le.
  destruct (Z.ltb_spec (Z.of_nat (length ts)) min); [lia|]. fold ref. fold cutoff. rewrite Hr. cbn [negb].
  fold hits. destruct (Z.ltb_spec (Z.of_nat (length hits)) min); [done|].
  assert (Hd : Forall (fun t => t.1.2 <> t.2) hits).
  { apply Forall_forall. intros t Ht%list_elem_of_In. apply filter_In in Ht as [Ht _].
    by eapply transitions_differ. }
  destruct hits as [|h hits'] eqn:Eh; [cbn in *; lia|].
  destruct (last_opt (h :: hits')) as [l|] eqn:El; [cbn [ar_toggle_count]; split; [lia|done]|].
  by apply last_opt_None in El.
Qed.
End Reverter.

Module WatchWitness.
Definition reg (enable : Z) (server pac : option string) : ProxyRegistrySnapshot :=
  {| pr_proxy_enable := Some enable; pr_proxy_server := server; pr_auto_config_url := pac;
     pr_auto_detect := None; pr_proxy_override := None |}.

Definition off : ProxyRegistrySnapshot := reg 0 (Some "127.0.0.1:7890") None.
Definition on : ProxyRegistrySnapshot := reg 1 (Some "127.0.0.1:7890") None.

Definition change : WatchDiff :=
  match diff_wininet_states (state_of_registry off) (state_of_registry on) default_watch_policy with
  | Ok d => d
  | Raise _ => {| wd_changed := false; wd_changed_fields := []; wd_risk := wr_low; wd_reason := "" |}
  end.

Lemma loopback_enable_alerted_witness :
  change.(wd_risk) = wr_high /\ (_decide_action default_watch_policy change).1 <> wa_observe.
Proof.
  split; [vm_compute; reflexivity|].
  refine (proj1 (proj1 (loopback_enable_alerted off on default_watch_policy change _) _ _ _));
    vm_compute; reflexivity || discriminate.
Defined.

Definition tick (r : ProxyRegistrySnapshot) (now : Z) : watch_tick :=
  {| wt_state := state_of_registry r; wt_now := now * second; wt_then := now * second |}.

Definition ticks : list watch_tick := [tick off 0; tick off 5; tick on 10; tick on 10; tick on 10].

Lemma watch_soak_verdict_witness : exists status s k,
  run_proxy_watch_soak default_watch_policy (10 * second) 0 true ticks = Ok (Some (status, s))
  /\ s.(wl_samples) = Z.of_nat (length (map (fun t => t.(wt_state).(ws_registry)) (take k ticks)))
  /\ status = REWRITE_DETECTED.
Proof.
  destruct (watch_soak_verdict default_watch_policy [] (10 * second) (5 * second) 0 true ticks)
    as (status & s & k & E & Hs & _);
    [reflexivity|reflexivity|reflexivity|vm_compute; intuition discriminate|vm_compute; lia|].
  exists status, s, k. split; [exact E|]. split; [exact Hs|]. vm_compute in E. injection E as <- _. reflexivity.
Defined.

Definition turns : list soak_tick :=
  [{| tk_now := 0; tk_enable := Some 0 |}; {| tk_now := 5; tk_enable := None |};
   {| tk_now := 10; tk_enable := Some 1 |}; {| tk_now := 15; tk_enable := Some 1 |}].

Lemma remediation_soak_verdict_witness : exists r, run_remediation_soak 10 0 turns = Some r
  /\ r.(sr_status) = SOAK_STABLE /\ 0 <= r.(sr_samples) <= 3.
Proof.
  destruct (remediation_soak_verdict 10 5 0 turns) as (r & E & Hs & _);
    [lia|lia|vm_compute; intuition discriminate|vm_compute; lia|].
  exists r. split; [exact E|]. split; [vm_compute in E; injection E as <-; reflexivity|exact Hs].
Defined.

(** A soak in which the switch could never be read reports stability. *)
Lemma unreadable_switch_is_stable :
  option_map sr_status (run_remediation_soak 10 0
    [{| tk_now := 0; tk_enable := None |}; {| tk_now := 10; tk_enable := None |}]) = Some SOAK_STABLE.
Proof. reflexivity. Qed.

(** A new PAC address is rated low when the switch goes on at the same time and names no server. *)
Lemma pac_masked_by_enable :
  match diff_wininet_states (state_of_registry (reg 0 None None))
          (state_of_registry (reg 1 None (Some "http://evil/p.pac"))) default_watch_policy with
  | Ok d => d.(wd_risk) = wr_low /\ (_decide_action default_watch_policy d).1 = wa_observe
  | Raise _ => False
  end.
Proof. vm_compute. auto. Qed.

#[local] Instance demo : PyHost := DemoHost.demo_host.

Definition row (ts : string) (old new : Z) : pydict :=
  ["event" :-> PStr "proxy_state_change"; "timestamp_utc" :-> PStr ts; "old_enable" :-> PInt old;
   "new_enable" :-> PInt new].

Definition rows : list pydict :=
  [row "2026-01-01T10:00:00Z" 1 0; row "2026-01-01T10:05:00Z" 0 1; row "2026-01-01T10:06:00Z" 1 0].

Definition found : list (Z * Z * Z) :=
  match iter_enable_transitions rows with Ok ts => ts | Raise _ => [] end.

Lemma active_reverter_exact_witness : iter_enable_transitions rows = Ok found
  /\ match detect_active_reverter rows 30 3 None 0 with
     | Ok (Some r) => r.(ar_toggle_count) = 3
     | _ => False
     end.
Proof.
  split; [vm_compute; reflexivity|].
  pose proof (active_reverter_exact rows found 30 3 0 None ltac:(vm_compute; reflexivity) ltac:(lia)
                ltac:(vm_compute; reflexivity)) as Hr.
  destruct (detect_active_reverter rows 30 3 None 0) as [[r|]|] eqn:E; [|vm_compute in E; discriminate|exact Hr].
  destruct Hr as (_ & Hn & _). rewrite Hn. vm_compute. reflexivity.
Defined.
End WatchWitness.
