(* ===== verification/DecisionIntelligence.v ===== *)
(** * The decision intelligence API

    [backend/decision_intelligence]: the JSON-lines store of events, evidence, decisions and
    outcomes ([store.py]), its counters ([metrics.py]), the routes over them ([routes.py]) and
    the outcome learning they report ([platform_core/outcome_learning]).

    A JSON-lines file is its text, which the store reads line by line: the parameters are the
    printer and the parser ([RecordCodec], here [json.dumps] without ASCII escapes and
    [json.loads]) and the validation of the four models.  The PostgreSQL store, the creation
    time it adds to a row and a replay of a named fixture file are not modelled. *)

From S2P Require Import Prelude PyValue PolicyGate AuditChain.
From Stdlib Require Import Ascii String Sorting.Permutation Sorting.Sorted.
From stdpp Require Import strings.

Open Scope string_scope.
Open Scope Z_scope.
Open Scope py_scope.

(** ** Rows and filters *)

Record EventRecord := {
  er_event_id : string;
  er_domain : string;
  er_title : string;
  er_category : string;
  er_timestamp_utc : string;
  er_payload : pydict;
}.

Record EvidenceRecord := {
  vr_evidence_id : string;
  vr_event_id : string;
  vr_decision_id : string;
  vr_label : string;
  vr_kind : string;
  vr_weight : F64.t;
  vr_supports_decision : option bool;
  vr_detail : string;
  vr_payload : pydict;
}.

Record DecisionRecord := {
  dr_decision_id : string;
  dr_domain : string;
  dr_title : string;
  dr_confidence : F64.t;
  dr_risk_score : F64.t;
  dr_policy_status : string;
  dr_payload : pydict;
  dr_content_digest : string;
  dr_timestamp_utc : string;
}.

Record OutcomeRecord := {
  or_outcome_id : string;
  or_decision_id : string;
  or_outcome : string;
  or_success : bool;
  or_predicted_success : bool;
  or_cost : F64.t;
  or_time_to_resolution : F64.t;
  or_notes : string;
  or_recorded_at_utc : string;
}.

Record EventFilters := {
  ef_domain : option string;
  ef_category : option string;
  ef_event_id : option string;
  ef_since : option string;
  ef_until : option string;
}.

Record EvidenceFilters := {
  vf_event_id : option string;
  vf_decision_id : option string;
  vf_kind : option string;
}.

Record DecisionFilters := {
  df_domain : option string;
  df_decision_id : option string;
  df_policy_status : option string;
  df_min_confidence : option F64.t;
}.

Record OutcomeFilters := { of_decision_id : option string; of_success : option bool }.

(** [if f: out = [r for r in out if p(r, f)]]: an absent or empty text filters nothing. *)
Definition by_text {A} (f : option string) (p : A -> string -> bool) (rows : list A) : list A :=
  match f with
  | Some s => if PyStr.is_empty s then rows else List.filter (fun r => p r s) rows
  | None => rows
  end.

Definition text_is {A} (field : A -> string) (r : A) (s : string) : bool := String.eqb (field r) s.

Definition _filter_events (rows : list EventRecord) (f : EventFilters) : list EventRecord :=
  by_text f.(ef_until) (fun r s => negb (String.ltb s r.(er_timestamp_utc)))
    (by_text f.(ef_since) (fun r s => negb (String.ltb r.(er_timestamp_utc) s))
       (by_text f.(ef_event_id) (text_is er_event_id)
          (by_text f.(ef_category) (text_is er_category)
             (by_text f.(ef_domain) (text_is er_domain) rows)))).

Definition _filter_evidence (rows : list EvidenceRecord) (f : EvidenceFilters) : list EvidenceRecord :=
  by_text f.(vf_kind) (text_is vr_kind)
    (by_text f.(vf_decision_id) (text_is vr_decision_id)
       (by_text f.(vf_event_id) (text_is vr_event_id) rows)).

Definition _filter_decisions (rows : list DecisionRecord) (f : DecisionFilters) : list DecisionRecord :=
  let out := by_text f.(df_policy_status) (text_is dr_policy_status)
               (by_text f.(df_decision_id) (text_is dr_decision_id)
                  (by_text f.(df_domain) (text_is dr_domain) rows)) in
  match f.(df_min_confidence) with
  | Some m => List.filter (fun r => F64.leb m r.(dr_confidence)) out
  | None => out
  end.

Definition _filter_outcomes (rows : list OutcomeRecord) (f : OutcomeFilters) : list OutcomeRecord :=
  let out := by_text f.(of_decision_id) (text_is or_decision_id) rows in
  match f.(of_success) with
  | Some b => List.filter (fun r => Bool.eqb r.(or_success) b) out
  | None => out
  end.

(** ** Pages *)

Record PaginatedResponse (A : Type) := {
  pg_items : list A;
  pg_page : Z;
  pg_page_size : Z;
  pg_total : Z;
  pg_has_more : bool;
}.
Arguments pg_items {A}. Arguments pg_page {A}. Arguments pg_page_size {A}. Arguments pg_total {A}.
Arguments pg_has_more {A}.

(** [l[start:end]]: a negative index counts from the end, and both are clipped. *)
Definition slice_index (n i : Z) : Z := Z.min n (Z.max 0 (if i <? 0 then i + n else i)).

Definition py_slice {A} (start end_ : Z) (l : list A) : list A :=
  let n := Z.of_nat (length l) in
  let a := slice_index n start in
  let b := slice_index n end_ in
  take (Z.to_nat (b - a)) (drop (Z.to_nat a) l).

Definition _paginate {A} (items : list A) (page page_size : Z) : PaginatedResponse A :=
  let total := Z.of_nat (length items) in
  let start := (page - 1) * page_size in
  let end_ := start + page_size in
  {| pg_items := py_slice start end_ items; pg_page := page; pg_page_size := page_size;
     pg_total := total; pg_has_more := end_ <? total |}.

(** ** The store *)

Definition pair_ltb (a b : string * string) : bool :=
  String.ltb a.1 b.1 || String.eqb a.1 b.1 && String.ltb a.2 b.2.

(** [rows.sort(key=..., reverse=True)]: descending, equal keys in their order. *)
Definition sort_descending {A} (key : A -> string * string) (rows : list A) : list A :=
  sorted_by (fun a b => pair_ltb b a) key rows.

(** The texts of the four files; an absent file reads like an empty one. *)
Record JsonlStore := {
  js_events : list N;
  js_evidence : list N;
  js_decisions : list N;
  js_outcomes : list N;
}.

Definition empty_store : JsonlStore :=
  {| js_events := []; js_evidence := []; js_decisions := []; js_outcomes := [] |}.

(** [model_dump(mode="json")] of the four models. *)
Definition event_dump (r : EventRecord) : pydict :=
  ["event_id" :-> PStr r.(er_event_id); "domain" :-> PStr r.(er_domain);
   "title" :-> PStr r.(er_title); "category" :-> PStr r.(er_category);
   "timestamp_utc" :-> PStr r.(er_timestamp_utc); "payload" :-> PDict r.(er_payload)].

Definition evidence_dump (r : EvidenceRecord) : pydict :=
  ["evidence_id" :-> PStr r.(vr_evidence_id); "event_id" :-> PStr r.(vr_event_id);
   "decision_id" :-> PStr r.(vr_decision_id); "label" :-> PStr r.(vr_label);
   "kind" :-> PStr r.(vr_kind); "weight" :-> PFloat r.(vr_weight);
   "supports_decision" :-> match r.(vr_supports_decision) with Some b => PBool b | None => PNone end;
   "detail" :-> PStr r.(vr_detail); "payload" :-> PDict r.(vr_payload)].

Definition decision_record_dump (r : DecisionRecord) : pydict :=
  ["decision_id" :-> PStr r.(dr_decision_id); "domain" :-> PStr r.(dr_domain);
   "title" :-> PStr r.(dr_title); "confidence" :-> PFloat r.(dr_confidence);
   "risk_score" :-> PFloat r.(dr_risk_score); "policy_status" :-> PStr r.(dr_policy_status);
   "payload" :-> PDict r.(dr_payload); "content_digest" :-> PStr r.(dr_content_digest);
   "timestamp_utc" :-> PStr r.(dr_timestamp_utc)].

Definition outcome_dump (r : OutcomeRecord) : pydict :=
  ["outcome_id" :-> PStr r.(or_outcome_id); "decision_id" :-> PStr r.(or_decision_id);
   "outcome" :-> PStr r.(or_outcome); "success" :-> PBool r.(or_success);
   "predicted_success" :-> PBool r.(or_predicted_success); "cost" :-> PFloat r.(or_cost);
   "time_to_resolution" :-> PFloat r.(or_time_to_resolution); "notes" :-> PStr r.(or_notes);
   "recorded_at_utc" :-> PStr r.(or_recorded_at_utc)].

(** The bounds the models declare. *)
Definition unit_float (x : F64.t) : bool := F64.leb F64.zero x && F64.leb x (F64.of_Z 1).
Definition evidence_bounds (r : EvidenceRecord) : bool := unit_float r.(vr_weight).
Definition decision_bounds (r : DecisionRecord) : bool :=
  unit_float r.(dr_confidence)
  && F64.leb F64.zero r.(dr_risk_score) && F64.leb r.(dr_risk_score) (F64.of_Z 100).
Definition outcome_bounds (r : OutcomeRecord) : bool :=
  F64.leb F64.zero r.(or_cost) && F64.leb F64.zero r.(or_time_to_resolution).

(** [model_validate] of the four models; it accepts the dump of a row within the bounds. *)
Class RowModels := {
  event_validate : pyval -> result EventRecord;
  evidence_validate : pyval -> result EvidenceRecord;
  decision_validate : pyval -> result DecisionRecord;
  outcome_validate : pyval -> result OutcomeRecord;
}.
Class RowModelLaws (M : RowModels) : Prop := {
  event_revalidates r : event_validate (PDict (event_dump r)) = Ok r;
  evidence_revalidates r :
    evidence_bounds r = true -> evidence_validate (PDict (evidence_dump r)) = Ok r;
  decision_revalidates r :
    decision_bounds r = true -> decision_validate (PDict (decision_record_dump r)) = Ok r;
  outcome_revalidates r :
    outcome_bounds r = true -> outcome_validate (PDict (outcome_dump r)) = Ok r;
}.

Section Store.
Context {R : RecordCodec} {M : RowModels}.

Definition _append (text : list N) (row : pydict) : list N :=
  (text ++ model_dump_json row ++ [10%N])%list.

(** Blank lines are skipped; a line that is not JSON raises. *)
Definition _read_all (text : list N) : result (list pyval) :=
  mapM_result (fun line => match json_loads line with Some v => Ok v | None => Raise ValueError end)
    (List.filter (fun line => negb (bool_decide (line = []))) (map strip_text (split_lines [] text))).

Definition read_rows {A} (validate : pyval -> result A) (text : list N) : result (list A) :=
  rows ← _read_all text;
  mapM_result validate rows.

Definition create_event (row : EventRecord) (s : JsonlStore) : result EventRecord * JsonlStore :=
  (event_validate (PDict (event_dump row)),
   {| js_events := _append s.(js_events) (event_dump row); js_evidence := s.(js_evidence);
      js_decisions := s.(js_decisions); js_outcomes := s.(js_outcomes) |}).

Definition create_evidence (row : EvidenceRecord) (s : JsonlStore) : result EvidenceRecord * JsonlStore :=
  (evidence_validate (PDict (evidence_dump row)),
   {| js_events := s.(js_events); js_evidence := _append s.(js_evidence) (evidence_dump row);
      js_decisions := s.(js_decisions); js_outcomes := s.(js_outcomes) |}).

Definition create_decision (row : DecisionRecord) (s : JsonlStore) : result DecisionRecord * JsonlStore :=
  (decision_validate (PDict (decision_record_dump row)),
   {| js_events := s.(js_events); js_evidence := s.(js_evidence);
      js_decisions := _append s.(js_decisions) (decision_record_dump row); js_outcomes := s.(js_outcomes) |}).

Definition create_outcome (row : OutcomeRecord) (s : JsonlStore) : result OutcomeRecord * JsonlStore :=
  (outcome_validate (PDict (outcome_dump row)),
   {| js_events := s.(js_events); js_evidence := s.(js_evidence);
      js_decisions := s.(js_decisions); js_outcomes := _append s.(js_outcomes) (outcome_dump row) |}).

Definition list_events (s : JsonlStore) (f : EventFilters) (page page_size : Z)
    : result (PaginatedResponse EventRecord) :=
  rows ← read_rows event_validate s.(js_events);
  Ok (_paginate (sort_descending (fun r => (r.(er_timestamp_utc), r.(er_event_id)))
                   (_filter_events rows f)) page page_size).

Definition list_evidence (s : JsonlStore) (f : EvidenceFilters) (page page_size : Z)
    : result (PaginatedResponse EvidenceRecord) :=
  rows ← read_rows evidence_validate s.(js_evidence);
  Ok (_paginate (sorted_by String.ltb vr_evidence_id (_filter_evidence rows f)) page page_size).

Definition list_decisions (s : JsonlStore) (f : DecisionFilters) (page page_size : Z)
    : result (PaginatedResponse DecisionRecord) :=
  rows ← read_rows decision_validate s.(js_decisions);
  Ok (_paginate (sort_descending (fun r => (r.(dr_timestamp_utc), r.(dr_decision_id)))
                   (_filter_decisions rows f)) page page_size).

Definition list_outcomes (s : JsonlStore) (f : OutcomeFilters) (page page_size : Z)
    : result (PaginatedResponse OutcomeRecord) :=
  rows ← read_rows outcome_validate s.(js_outcomes);
  Ok (_paginate (sort_descending (fun r => (r.(or_recorded_at_utc), r.(or_outcome_id)))
                   (_filter_outcomes rows f)) page page_size).

Definition list_all_outcomes (s : JsonlStore) : result (list OutcomeRecord) :=
  read_rows outcome_validate s.(js_outcomes).

Definition store_counts (s : JsonlStore) : result (list (string * Z)) :=
  events ← _read_all s.(js_events);
  evidence ← _read_all s.(js_evidence);
  decisions ← _read_all s.(js_decisions);
  outcomes ← _read_all s.(js_outcomes);
  Ok [("events", Z.of_nat (length events)); ("evidence", Z.of_nat (length evidence));
      ("decisions", Z.of_nat (length decisions)); ("outcomes", Z.of_nat (length outcomes))].
End Store.

(** ** Outcome learning *)

Inductive OutcomeClassification := true_positive | true_negative | false_positive | false_negative.

#[export] Instance OutcomeClassification_eq_dec : EqDecision OutcomeClassification.
Proof. solve_decision. Defined.

Definition classify_outcome (predicted_success actual_success : bool) : OutcomeClassification :=
  if predicted_success && actual_success then true_positive
  else if negb predicted_success && negb actual_success then true_negative
  else if predicted_success && negb actual_success then false_positive
  else false_negative.

Record OutcomeEvaluation := {
  oe_outcome_id : string;
  oe_decision_id : string;
  oe_actual_success : bool;
  oe_predicted_success : bool;
  oe_correct : bool;
  oe_classification : OutcomeClassification;
  oe_cost : F64.t;
  oe_time_to_resolution : F64.t;
  oe_notes : string;
}.

Definition evaluate_outcome (r : OutcomeRecord) : OutcomeEvaluation :=
  {| oe_outcome_id := r.(or_outcome_id); oe_decision_id := r.(or_decision_id);
     oe_actual_success := r.(or_success); oe_predicted_success := r.(or_predicted_success);
     oe_correct := Bool.eqb r.(or_predicted_success) r.(or_success);
     oe_classification := classify_outcome r.(or_predicted_success) r.(or_success);
     oe_cost := r.(or_cost); oe_time_to_resolution := r.(or_time_to_resolution);
     oe_notes := r.(or_notes) |}.

Definition outcome_key (r : OutcomeRecord) : string * string := (r.(or_decision_id), r.(or_outcome_id)).

Definition evaluate_outcomes (records : list OutcomeRecord) : list OutcomeEvaluation :=
  map evaluate_outcome (sorted_by pair_ltb outcome_key records).

Definition _safe_ratio (numerator denominator : Z) : F64.t :=
  if denominator <=? 0 then F64.zero else F64.round_digits 4 (F64.int_div numerator denominator).

Record LearningMetrics := {
  lm_decision_accuracy : F64.t;
  lm_decision_precision : F64.t;
  lm_decision_recall : F64.t;
  lm_average_cost : F64.t;
  lm_average_time_to_resolution : F64.t;
  lm_sample_count : Z;
  lm_true_positives : Z;
  lm_true_negatives : Z;
  lm_false_positives : Z;
  lm_false_negatives : Z;
}.

Definition count_class (c : OutcomeClassification) (l : list OutcomeEvaluation) : Z :=
  Z.of_nat (length (List.filter (fun e => bool_decide (e.(oe_classification) = c)) l)).

(** [sum(...)] of floats: how the interpreter rounds it depends on its version. *)
Class FloatSum := float_sum : list F64.t -> F64.t.

Definition compute_learning_metrics `{!FloatSum} (evaluations : list OutcomeEvaluation) : LearningMetrics :=
  match evaluations with
  | [] =>
      {| lm_decision_accuracy := F64.zero; lm_decision_precision := F64.zero; lm_decision_recall := F64.zero;
         lm_average_cost := F64.zero; lm_average_time_to_resolution := F64.zero; lm_sample_count := 0;
         lm_true_positives := 0; lm_true_negatives := 0; lm_false_positives := 0; lm_false_negatives := 0 |}
  | _ =>
      let tp := count_class true_positive evaluations in
      let tn := count_class true_negative evaluations in
      let fp := count_class false_positive evaluations in
      let fn := count_class false_negative evaluations in
      let n := Z.of_nat (length evaluations) in
      let average f := F64.round_digits 4 (F64.div (float_sum (map f evaluations)) (F64.of_Z n)) in
      {| lm_decision_accuracy := _safe_ratio (tp + tn) n;
         lm_decision_precision := _safe_ratio tp (tp + fp);
         lm_decision_recall := _safe_ratio tp (tp + fn);
         lm_average_cost := average oe_cost; lm_average_time_to_resolution := average oe_time_to_resolution;
         lm_sample_count := n; lm_true_positives := tp; lm_true_negatives := tn;
         lm_false_positives := fp; lm_false_negatives := fn |}
  end.

(** ** Counters *)

Record DiMetrics := {
  dm_events_total : Z;
  dm_decisions_total : Z;
  dm_decision_failures : Z;
  dm_decision_accuracy : F64.t;
  dm_latency_sum : F64.t;
  dm_latency_count : Z;
  dm_latency_mean : F64.t;
}.

Definition fresh_metrics : DiMetrics :=
  {| dm_events_total := 0; dm_decisions_total := 0; dm_decision_failures := 0;
     dm_decision_accuracy := F64.zero; dm_latency_sum := F64.zero; dm_latency_count := 0;
     dm_latency_mean := F64.zero |}.

(** The increments of the three counters, which stay far below the width of a float. *)
Definition bump (events decisions failures : Z) (m : DiMetrics) : DiMetrics :=
  {| dm_events_total := m.(dm_events_total) + events;
     dm_decisions_total := m.(dm_decisions_total) + decisions;
     dm_decision_failures := m.(dm_decision_failures) + failures;
     dm_decision_accuracy := m.(dm_decision_accuracy); dm_latency_sum := m.(dm_latency_sum);
     dm_latency_count := m.(dm_latency_count); dm_latency_mean := m.(dm_latency_mean) |}.

Definition inc_event : DiMetrics -> DiMetrics := bump 1 0 0.
Definition inc_decision : DiMetrics -> DiMetrics := bump 0 1 0.
Definition inc_decision_failure : DiMetrics -> DiMetrics := bump 0 0 1.

Definition set_decision_accuracy (value : F64.t) (m : DiMetrics) : DiMetrics :=
  {| dm_events_total := m.(dm_events_total); dm_decisions_total := m.(dm_decisions_total);
     dm_decision_failures := m.(dm_decision_failures);
     dm_decision_accuracy := F64.pymax F64.zero (F64.pymin (F64.of_Z 1) value);
     dm_latency_sum := m.(dm_latency_sum); dm_latency_count := m.(dm_latency_count);
     dm_latency_mean := m.(dm_latency_mean) |}.

Definition record_latency (seconds : F64.t) (m : DiMetrics) : DiMetrics :=
  let total := F64.add m.(dm_latency_sum) (F64.pymax F64.zero seconds) in
  let count := m.(dm_latency_count) + 1 in
  {| dm_events_total := m.(dm_events_total); dm_decisions_total := m.(dm_decisions_total);
     dm_decision_failures := m.(dm_decision_failures); dm_decision_accuracy := m.(dm_decision_accuracy);
     dm_latency_sum := total; dm_latency_count := count;
     dm_latency_mean := F64.div total (F64.of_Z count) |}.

(** ** Routes *)

Inductive DiRequest :=
| ListEvents (f : EventFilters) (page page_size : Z)
| CreateEvent (body : EventRecord)
| ListEvidence (f : EvidenceFilters) (page page_size : Z)
| CreateEvidence (body : EvidenceRecord)
| ListDecisions (f : DecisionFilters) (page page_size : Z)
| CreateDecision (body : DecisionRecord)
| ListOutcomes (f : OutcomeFilters) (page page_size : Z)
| CreateOutcome (body : OutcomeRecord)
| Replay
| Metrics.

(** What a replay hashes: the outcomes in the order they are stored, and their metrics. *)
Record ReplayResult := {
  rr_outcome_count : Z;
  rr_metrics : LearningMetrics;
  rr_hashed : list OutcomeRecord * LearningMetrics;
}.

Inductive DiResponse :=
| EventPage (p : PaginatedResponse EventRecord)
| EventCreated (r : EventRecord)
| EvidencePage (p : PaginatedResponse EvidenceRecord)
| EvidenceCreated (r : EvidenceRecord)
| DecisionPage (p : PaginatedResponse DecisionRecord)
| DecisionCreated (r : DecisionRecord)
| OutcomePage (p : PaginatedResponse OutcomeRecord)
| OutcomeCreated (r : OutcomeRecord)
| ReplayDone (r : ReplayResult)
| MetricsRead (counts : list (string * Z)) (learning : LearningMetrics).

Record DiState := { ds_store : JsonlStore; ds_metrics : DiMetrics }.

Section Routes.
Context {R : RecordCodec} {M : RowModels} `{!FloatSum}.

(** The outcomes of the bundled fixture, used while none is stored. *)
Context (fixture : list OutcomeRecord).

Definition learning_of (records : list OutcomeRecord) : LearningMetrics :=
  compute_learning_metrics (evaluate_outcomes records).

Definition run_replay (s : JsonlStore) : result ReplayResult :=
  stored ← list_all_outcomes s;
  let records := match stored with
                 | [] => sorted_by pair_ltb outcome_key fixture
                 | _ => stored
                 end in
  Ok {| rr_outcome_count := Z.of_nat (length records); rr_metrics := learning_of records;
        rr_hashed := (records, learning_of records) |}.

Definition get_metrics (s : JsonlStore) : result (list (string * Z) * LearningMetrics) :=
  replayed ← run_replay s;
  counts ← store_counts s;
  Ok (counts, replayed.(rr_metrics)).

(** FastAPI answers 422 when a declared bound is missed. *)
Definition request_valid (r : DiRequest) : bool :=
  let page_ok page size := (1 <=? page) && (1 <=? size) && (size <=? 100) in
  match r with
  | ListEvents _ p n | ListEvidence _ p n | ListOutcomes _ p n => page_ok p n
  | ListDecisions f p n =>
      page_ok p n && match f.(df_min_confidence) with Some m => unit_float m | None => true end
  | CreateEvent _ | Replay | Metrics => true
  | CreateEvidence b => evidence_bounds b
  | CreateDecision b => decision_bounds b
  | CreateOutcome b => outcome_bounds b
  end.

Definition request_guard (r : DiRequest) (p : DemoPrincipal) : result unit :=
  match r with
  | CreateEvent _ | CreateEvidence _ | CreateDecision _ | CreateOutcome _ => assert_can_preview p
  | _ => assert_can_read_metrics p
  end.

(** The body of a handler: the answer, the store and the counters.  The time is recorded
    also when the body raises; a counter only moves after it returned. *)
Definition request_body (r : DiRequest) (elapsed : F64.t) (s : DiState) : result DiResponse * DiState :=
  let st := s.(ds_store) in
  let m := record_latency elapsed s.(ds_metrics) in
  let read {A} (answer : result A) (page : A -> DiResponse) :=
    (a ← answer; Ok (page a), {| ds_store := st; ds_metrics := m |}) in
  let create {A} (made : result A * JsonlStore) (page : A -> DiResponse)
      (count : A -> DiMetrics -> DiMetrics) :=
    match made with
    | (Ok row, st') => (Ok (page row), {| ds_store := st'; ds_metrics := count row m |})
    | (Raise e, st') => (Raise e, {| ds_store := st'; ds_metrics := m |})
    end in
  match r with
  | ListEvents f p n => read (list_events st f p n) EventPage
  | ListEvidence f p n => read (list_evidence st f p n) EvidencePage
  | ListDecisions f p n => read (list_decisions st f p n) DecisionPage
  | ListOutcomes f p n => read (list_outcomes st f p n) OutcomePage
  | CreateEvent b => create (create_event b st) EventCreated (fun _ => inc_event)
  | CreateEvidence b => create (create_evidence b st) EvidenceCreated (fun _ m => m)
  | CreateDecision b => create (create_decision b st) DecisionCreated (fun _ => inc_decision)
  | CreateOutcome b =>
      create (create_outcome b st) OutcomeCreated
        (fun row m => if negb row.(or_success) then inc_decision_failure m else m)
  | Replay =>
      match run_replay st with
      | Raise e => (Raise e, {| ds_store := st; ds_metrics := m |})
      | Ok result =>
          (Ok (ReplayDone result),
           {| ds_store := st;
              ds_metrics := set_decision_accuracy result.(rr_metrics).(lm_decision_accuracy) m |})
      end
  | Metrics =>
      match get_metrics st with
      | Raise e => (Raise e, {| ds_store := st; ds_metrics := m |})
      | Ok (counts, learning) =>
          (Ok (MetricsRead counts learning),
           {| ds_store := st; ds_metrics := set_decision_accuracy learning.(lm_decision_accuracy) m |})
      end
  end.

Definition handle (p : DemoPrincipal) (r : DiRequest) (elapsed : F64.t) (s : DiState)
    : result DiResponse * DiState :=
  if negb (request_valid r) then (Raise (HTTPException 422), s)
  else match request_guard r p with
       | Raise e => (Raise e, s)
       | Ok _ => request_body r elapsed s
       end.

(** The state after a sequence of requests. *)
Definition di_run (reqs : list (DemoPrincipal * DiRequest * F64.t)) (s : DiState) : DiState :=
  foldl (fun s '(p, r, elapsed) => (handle p r elapsed s).2) s reqs.
End Routes.

(** ** Pages cover the list once *)

Lemma slice_page {A} (items : list A) (page size : Z) :
  1 <= page -> 1 <= size ->
  (_paginate items page size).(pg_items)
  = take (Z.to_nat size) (drop (Z.to_nat ((page - 1) * size)) items).
Proof.
  intros Hp Hs. unfold _paginate, py_slice, slice_index. cbn [pg_items].
  set (n := Z.of_nat (length items)). set (a := (page - 1) * size).
  assert (0 <= a) by (unfold a; nia).
  destruct (Z.ltb_spec a 0); [lia|]. destruct (Z.ltb_spec (a + size) 0); [lia|].
  rewrite !Z.max_r by lia. destruct (Z.le_gt_cases a n) as [Ha|Ha].
  - rewrite (Z.min_r n a) by lia. destruct (Z.le_gt_cases (a + size) n) as [Hb|Hb].
    + rewrite Z.min_r by lia. by replace (a + size - a) with size by lia.
    + rewrite Z.min_l by lia. rewrite !firstn_all2; [done|rewrite length_skipn; lia..].
  - rewrite !Z.min_l by lia. replace (n - n) with 0 by lia. cbn [Z.to_nat take].
    rewrite (skipn_all2 items (n := Z.to_nat a)) by lia. by rewrite firstn_nil.
Qed.

Lemma chunks_concat {A} (size k : nat) (items : list A) :
  (0 < size)%nat -> (length items <= k * size)%nat ->
  concat (map (fun i => take size (drop (i * size) items)) (seq 0 k)) = items.
Proof.
  intros Hs. revert items. induction k as [|k IH]; intros items Hk; cbn in Hk.
  - by destruct items; [|cbn in Hk; lia].
  - cbn [seq map concat]. rewrite <- seq_shift, map_map. change (drop (0 * size) items) with items.
    rewrite <- (take_drop size items) at 2. f_equal.
    etransitivity; [|apply (IH (drop size items)); rewrite length_drop; lia]. f_equal. apply map_ext. intros i.
    rewrite drop_drop. f_equal; lia.
Qed.

(** ** The store reads back what it appends *)

Section Files.
Context {R : RecordCodec} {L : JsonLaws R}.

(** An empty file, or one that ends with a line feed. *)
Definition ended (text : list N) : Prop := text = [] \/ exists t, text = (t ++ [10%N])%list.

Lemma mapM_result_snoc {A B} (f : A -> result B) (l : list A) (ys : list B) (x : A) (y : B) :
  mapM_result f l = Ok ys -> f x = Ok y -> mapM_result f (l ++ [x]) = Ok (ys ++ [y])%list.
Proof.
  rewrite !mapM_result_Forall2. intros Hl Hx. apply Forall2_app; [done|]. by repeat constructor.
Qed.

(** After a line feed the lines start afresh. *)
Lemma split_lines_lf (l rest cur : list N) :
  split_lines cur (l ++ 10%N :: rest) = (split_lines cur (l ++ [10%N]) ++ split_lines [] rest)%list.
Proof.
  revert cur. remember (length l) as n eqn:Hn. revert l Hn.
  induction n as [n IH] using lt_wf_ind. intros [|d l] Hn cur.
  { cbn [app split_lines]. change (is_line_break 10) with true. cbn. by destruct rest. }
  cbn in Hn. cbn [app split_lines]. destruct (is_line_break d); [|eapply IH; [|reflexivity]; lia].
  destruct l as [|e l]; cbn [app].
  - destruct (d =? 13)%N; cbn [andb]; [by destruct rest|].
    cbn [app]. f_equal. by apply (IH 0%nat ltac:(lia) [] eq_refl []).
  - cbn in Hn. cbn [app]. f_equal. destruct ((d =? 13) && (e =? 10))%N.
    + eapply IH; [|reflexivity]. lia.
    + apply (IH (S (length l)) ltac:(lia) (e :: l) eq_refl).
Qed.

Lemma append_lines (text : list N) (d : pydict) :
  ended text -> json_plain (PDict d) = true ->
  split_lines [] (_append text d) = (split_lines [] text ++ [model_dump_json d])%list /\ ended (_append text d).
Proof using L.
  intros He Hp. unfold _append. split.
  2: { right. exists (text ++ model_dump_json d)%list. by rewrite app_assoc. }
  assert (split_lines [] (model_dump_json d ++ [10%N]) = [model_dump_json d]) as Hd.
  { by rewrite split_lines_plain by (by apply dump_one_line). }
  destruct He as [->|[t ->]]; [exact Hd|].
  rewrite <- app_assoc. cbn [app]. by rewrite split_lines_lf, Hd.
Qed.

(** An appended row is read back after the rows before it. *)
Lemma read_append {A} (validate : pyval -> result A) (text : list N) (d : pydict) (rows : list A) (r : A) :
  ended text -> json_plain (PDict d) = true -> read_rows validate text = Ok rows ->
  validate (PDict d) = Ok r ->
  read_rows validate (_append text d) = Ok (rows ++ [r])%list.
Proof using L.
  intros He Hp Hr Hv. unfold read_rows in *. apply bind_Ok in Hr as (vs & Ha & Hr).
  assert (_read_all (_append text d) = Ok (vs ++ [PDict d])%list) as ->.
  { unfold _read_all in *. rewrite (proj1 (append_lines text d He Hp)), map_app, List.filter_app.
    cbn [map List.filter]. rewrite strip_dump. rewrite bool_decide_false.
    - cbn [negb]. apply mapM_result_snoc; [done|]. by rewrite dump_loads.
    - destruct (dump_object d) as [body ->]. done. }
  rewrite bind_ok_l. by apply mapM_result_snoc.
Qed.
End Files.

(** ** The counters agree with the store *)

Record StoreRows := {
  sr_events : list EventRecord;
  sr_evidence : list EvidenceRecord;
  sr_decisions : list DecisionRecord;
  sr_outcomes : list OutcomeRecord;
}.

Definition no_rows : StoreRows :=
  {| sr_events := []; sr_evidence := []; sr_decisions := []; sr_outcomes := [] |}.

Definition rows_app (a b : StoreRows) : StoreRows :=
  {| sr_events := a.(sr_events) ++ b.(sr_events); sr_evidence := a.(sr_evidence) ++ b.(sr_evidence);
     sr_decisions := a.(sr_decisions) ++ b.(sr_decisions);
     sr_outcomes := a.(sr_outcomes) ++ b.(sr_outcomes) |}.

Lemma rows_app_assoc (a b c : StoreRows) : rows_app a (rows_app b c) = rows_app (rows_app a b) c.
Proof. unfold rows_app. cbn. by rewrite !app_assoc. Qed.

Lemma rows_app_nil (a : StoreRows) : rows_app a no_rows = a.
Proof. destruct a. unfold rows_app. cbn. by rewrite !app_nil_r. Qed.

Definition failures (l : list OutcomeRecord) : Z :=
  Z.of_nat (length (List.filter (fun r => negb r.(or_success)) l)).

(** The counters after some rows were added to what they counted. *)
Definition counted (m m' : DiMetrics) (added : StoreRows) : Prop :=
  m'.(dm_events_total) = m.(dm_events_total) + Z.of_nat (length added.(sr_events))
  /\ m'.(dm_decisions_total) = m.(dm_decisions_total) + Z.of_nat (length added.(sr_decisions))
  /\ m'.(dm_decision_failures) = m.(dm_decision_failures) + failures added.(sr_outcomes).

Lemma counted_trans m m' m'' a b : counted m m' a -> counted m' m'' b -> counted m m'' (rows_app a b).
Proof.
  unfold counted, failures, rows_app. cbn [sr_events sr_decisions sr_outcomes].
  rewrite List.filter_app, !length_app, !Nat2Z.inj_add. lia.
Qed.

(** A request, who makes it and how long it takes. *)
Abbreviation di_call := (DemoPrincipal * DiRequest * F64.t)%type.

(** The row a call adds: that of a creation within the declared bounds, by an operator or an
    administrator. *)
Definition created_by (call : di_call) : StoreRows :=
  let '(p, r, _) := call in
  if request_valid r && role_in p [operator; admin] then
    match r with
    | CreateEvent b => {| sr_events := [b]; sr_evidence := []; sr_decisions := []; sr_outcomes := [] |}
    | CreateEvidence b => {| sr_events := []; sr_evidence := [b]; sr_decisions := []; sr_outcomes := [] |}
    | CreateDecision b => {| sr_events := []; sr_evidence := []; sr_decisions := [b]; sr_outcomes := [] |}
    | CreateOutcome b => {| sr_events := []; sr_evidence := []; sr_decisions := []; sr_outcomes := [b] |}
    | _ => no_rows
    end
  else no_rows.

Definition created (calls : list di_call) : StoreRows := foldr (fun c => rows_app (created_by c)) no_rows calls.

(** JSON carries the row of a creation unchanged on one line. *)
Definition carried (r : DiRequest) : bool :=
  match r with
  | CreateEvent b => json_plain (PDict (event_dump b))
  | CreateEvidence b => json_plain (PDict (evidence_dump b))
  | CreateDecision b => json_plain (PDict (decision_record_dump b))
  | CreateOutcome b => json_plain (PDict (outcome_dump b))
  | _ => true
  end.

Section Runs.
Context {R : RecordCodec} {M : RowModels} `{!FloatSum} (fixture : list OutcomeRecord).

(** The four files as they are read. *)
Definition store_rows (s : JsonlStore) : result StoreRows :=
  events ← read_rows event_validate s.(js_events);
  evidence ← read_rows evidence_validate s.(js_evidence);
  decisions ← read_rows decision_validate s.(js_decisions);
  outcomes ← read_rows outcome_validate s.(js_outcomes);
  Ok {| sr_events := events; sr_evidence := evidence; sr_decisions := decisions; sr_outcomes := outcomes |}.

(** A store that reads as these rows and whose files are ended. *)
Definition holds (s : JsonlStore) (rows : StoreRows) : Prop :=
  read_rows event_validate s.(js_events) = Ok rows.(sr_events)
  /\ read_rows evidence_validate s.(js_evidence) = Ok rows.(sr_evidence)
  /\ read_rows decision_validate s.(js_decisions) = Ok rows.(sr_decisions)
  /\ read_rows outcome_validate s.(js_outcomes) = Ok rows.(sr_outcomes)
  /\ ended s.(js_events) /\ ended s.(js_evidence) /\ ended s.(js_decisions) /\ ended s.(js_outcomes).

Lemma holds_rows (s : JsonlStore) (rows : StoreRows) : holds s rows -> store_rows s = Ok rows.
Proof.
  intros (H1 & H2 & H3 & H4 & _). unfold store_rows. rewrite H1, H2, H3, H4. by destruct rows.
Qed.

Context {L : JsonLaws R} {ML : RowModelLaws M}.

Lemma preview_roles (p : DemoPrincipal) :
  match assert_can_preview p with Ok _ => true | Raise _ => false end = role_in p [operator; admin].
Proof. unfold assert_can_preview, role_in, require. cbn. by destruct (role p). Qed.

(** A call that is refused, or that only reads, leaves the store and the totals. *)
Lemma handle_quiet (p : DemoPrincipal) (r : DiRequest) (elapsed : F64.t) (s : DiState) :
  created_by (p, r, elapsed) = no_rows ->
  let s' := (handle fixture p r elapsed s).2 in
  s'.(ds_store) = s.(ds_store) /\ counted s.(ds_metrics) s'.(ds_metrics) no_rows.
Proof.
  unfold created_by, handle, counted, failures. rewrite <- (preview_roles p).
  destruct (request_valid r); cbn [negb andb]; [|intros _; split; [done|cbn; lia]].
  destruct r; cbn [request_guard];
    destruct (assert_can_preview p), (assert_can_read_metrics p);
    try discriminate; intros _; cbn [request_body snd fst]; try (split; [done|cbn; lia]).
  - destruct (run_replay fixture s.(ds_store)); (split; [done|cbn; lia]).
  - destruct (run_replay fixture s.(ds_store)); (split; [done|cbn; lia]).
  - destruct (get_metrics fixture s.(ds_store)) as [[]|]; (split; [done|cbn; lia]).
  - destruct (get_metrics fixture s.(ds_store)) as [[]|]; (split; [done|cbn; lia]).
Qed.

(** The call of an accepted creation runs its body. *)
Lemma handle_accepted (p : DemoPrincipal) (r : DiRequest) (elapsed : F64.t) (s : DiState) :
  request_valid r && role_in p [operator; admin] = true ->
  request_guard r p = assert_can_preview p ->
  handle fixture p r elapsed s = request_body fixture r elapsed s.
Proof.
  intros [Hv Hr]%andb_true_iff Hg. unfold handle. rewrite Hv, Hg. cbn [negb].
  pose proof (preview_roles p) as Hp. rewrite Hr in Hp. by destruct (assert_can_preview p).
Qed.

Lemma append_holds {A} (validate : pyval -> result A) (text : list N) (d : pydict) (rows : list A) (r : A) :
  read_rows validate text = Ok rows -> ended text -> json_plain (PDict d) = true ->
  validate (PDict d) = Ok r ->
  read_rows validate (_append text d) = Ok (rows ++ [r])%list /\ ended (_append text d).
Proof using L. intros. split; [by apply read_append|by apply append_lines]. Qed.

Lemma handle_step (p : DemoPrincipal) (r : DiRequest) (elapsed : F64.t) (s : DiState) (rows : StoreRows) :
  holds s.(ds_store) rows -> carried r = true ->
  let s' := (handle fixture p r elapsed s).2 in
  holds s'.(ds_store) (rows_app rows (created_by (p, r, elapsed)))
  /\ counted s.(ds_metrics) s'.(ds_metrics) (created_by (p, r, elapsed)).
Proof using L ML.
  intros Hh Hc. cbn zeta.
  assert (Hquiet : created_by (p, r, elapsed) = no_rows ->
    holds (handle fixture p r elapsed s).2.(ds_store) (rows_app rows (created_by (p, r, elapsed)))
    /\ counted s.(ds_metrics) (handle fixture p r elapsed s).2.(ds_metrics) (created_by (p, r, elapsed))).
  { intros E. destruct (handle_quiet p r elapsed s E) as [Es Hm]. by rewrite E, Es, rows_app_nil. }
  destruct (request_valid r && role_in p [operator; admin]) eqn:Ha;
    [|apply Hquiet; unfold created_by; by rewrite Ha].
  destruct r as [| b| | b| | b| | b| |];
    try (apply Hquiet; unfold created_by; by rewrite Ha);
    rewrite (handle_accepted p _ elapsed s Ha eq_refl); clear Hquiet; unfold created_by; rewrite Ha;
    apply andb_true_iff in Ha as [Hv _]; cbn [carried request_valid] in Hc, Hv;
    destruct Hh as (H1 & H2 & H3 & H4 & E1 & E2 & E3 & E4);
    cbn [request_body create_event create_evidence create_decision create_outcome].
  - rewrite event_revalidates. cbn [snd ds_store ds_metrics].
    destruct (append_holds _ _ _ _ b H1 E1 Hc (event_revalidates b)) as [A1 A2].
    split; [unfold holds, rows_app; cbn; rewrite !app_nil_r; done|unfold counted, failures; cbn; lia].
  - rewrite evidence_revalidates by done. cbn [snd ds_store ds_metrics].
    destruct (append_holds _ _ _ _ b H2 E2 Hc (evidence_revalidates b Hv)) as [A1 A2].
    split; [unfold holds, rows_app; cbn; rewrite !app_nil_r; done|unfold counted, failures; cbn; lia].
  - rewrite decision_revalidates by done. cbn [snd ds_store ds_metrics].
    destruct (append_holds _ _ _ _ b H3 E3 Hc (decision_revalidates b Hv)) as [A1 A2].
    split; [unfold holds, rows_app; cbn; rewrite !app_nil_r; done|unfold counted, failures; cbn; lia].
  - rewrite outcome_revalidates by done. cbn [snd ds_store ds_metrics].
    destruct (append_holds _ _ _ _ b H4 E4 Hc (outcome_revalidates b Hv)) as [A1 A2].
    split; [unfold holds, rows_app; cbn; rewrite !app_nil_r; done|].
    unfold counted, failures. cbn. destruct (or_success b); cbn; lia.
Qed.

(** C30: counters and rows since the process started.  Take a JSON-lines store whose four
    files can be read and end with a line feed, and counters at any values.  After any calls
    whose created rows JSON carries on one line, the store reads as the rows it had followed
    by one row for each creation that was within the declared bounds and made by an operator
    or an administrator, in their order; and the event, decision and failure counters have
    grown by exactly the numbers of those events, decisions and failed outcomes.  A process
    starts with its counters at zero, so they count what was added since, not the rows an
    earlier process left. *)
Theorem counters_agree_with_store (calls : list di_call) (s : DiState) (rows : StoreRows) :
  holds s.(ds_store) rows -> Forall (fun c => carried c.1.2 = true) calls ->
  let s' := di_run fixture calls s in
  store_rows s'.(ds_store) = Ok (rows_app rows (created calls))
  /\ counted s.(ds_metrics) s'.(ds_metrics) (created calls).
Proof using L ML.
  intros Hh Hc. cbn zeta.
  assert (Hrun : holds (di_run fixture calls s).(ds_store) (rows_app rows (created calls))
    /\ counted s.(ds_metrics) (di_run fixture calls s).(ds_metrics) (created calls)).
  { revert s rows Hh. induction Hc as [|[[p r] e] calls Hr _ IH]; intros s rows Hh.
    - cbn. rewrite rows_app_nil. split; [done|]. unfold counted, failures. cbn. lia.
    - destruct (handle_step p r e s rows Hh Hr) as [Hh' Hm]. destruct (IH _ _ Hh') as [Hh'' Hm'].
      change (created ((p, r, e) :: calls)) with (rows_app (created_by (p, r, e)) (created calls)).
      rewrite rows_app_assoc. split; [exact Hh''|]. eapply counted_trans; [exact Hm|exact Hm']. }
  destruct Hrun as [Hs Hm]. split; [by apply holds_rows|done].
Qed.

(** An event whose text holds a line separator is accepted and counted, and from then on no
    page of the event list can be read: the rest of its line is not JSON. *)
Theorem separator_blocks_listing (s : JsonlStore) (b : EventRecord) (before after : list N) (c : N)
    (f : EventFilters) (page size : Z) :
  model_dump_json (event_dump b) = (before ++ c :: after)%list ->
  is_line_break c = true -> c <> 13%N -> after <> [] ->
  forallb (fun x => negb (is_line_break x)) after = true ->
  strip_text after <> [] -> json_loads (strip_text after) = None ->
  (create_event b s).1 = Ok b /\ exists e, list_events (create_event b s).2 f page size = Raise e.
Proof using ML.
  intros Hd Hc Hcr Hne Hp Hs Hj. split; [apply event_revalidates|].
  cbn [create_event snd]. unfold list_events, read_rows, _read_all, _append. cbn [js_events]. rewrite Hd.
  assert (exists ls, split_lines [] (s.(js_events) ++ (before ++ c :: after) ++ [10%N])
                     = (ls ++ [after])%list) as [ls ->].
  { rewrite <- app_assoc. cbn [app]. rewrite app_assoc. by apply split_lines_last. }
  rewrite map_app, List.filter_app. cbn [map List.filter]. rewrite bool_decide_false by done. cbn [negb].
  set (l := List.filter _ _). destruct (mapM_result _ _) as [vs|e] eqn:E; [|by exists e].
  exfalso. apply mapM_result_Forall2, Forall2_app_inv_l in E as (v1 & v2 & _ & E & _).
  inversion_clear E as [|? ? ? ? Hl _]. by rewrite Hj in Hl.
Qed.
End Runs.

(** ** Learning does not depend on the order of the outcomes *)

Lemma pair_ltb_trans (a b c : string * string) :
  pair_ltb a b = true -> pair_ltb b c = true -> pair_ltb a c = true.
Proof.
  unfold pair_ltb. rewrite !orb_true_iff, !andb_true_iff, !String.eqb_eq.
  intros [H1|[E1 H1]] [H2|[E2 H2]].
  - left. by eapply string_ltb_trans.
  - left. by rewrite <- E2.
  - left. by rewrite E1.
  - right. split; [by rewrite E1|by eapply string_ltb_trans].
Qed.

Lemma pair_ltb_asym (a b : string * string) : pair_ltb a b = true -> pair_ltb b a = false.
Proof.
  unfold pair_ltb. rewrite orb_true_iff, andb_true_iff, String.eqb_eq. intros [H1|[E1 H1]].
  - rewrite (string_ltb_asym _ _ H1). cbn. apply andb_false_iff. left. apply String.eqb_neq. intros E.
    rewrite E in H1. pose proof (string_ltb_asym _ _ H1). congruence.
  - rewrite E1, String.eqb_refl, (string_ltb_asym _ _ H1). cbn. rewrite orb_false_r.
    destruct (String.ltb b.1 b.1) eqn:E; [|done]. pose proof (string_ltb_asym _ _ E). congruence.
Qed.

Lemma pair_ltb_total (a b : string * string) : a <> b -> pair_ltb a b = true \/ pair_ltb b a = true.
Proof.
  intros Hne. unfold pair_ltb. rewrite !orb_true_iff, !andb_true_iff, !String.eqb_eq.
  destruct (decide (a.1 = b.1)) as [E|E].
  - destruct (string_ltb_total a.2 b.2); [|by left; right|by right; right].
    intros E2. apply Hne. by apply injective_projections.
  - destruct (string_ltb_total a.1 b.1 E); [by left; left|by right; left].
Qed.

(** ** Listings *)

(** An event has the fields the filters ask for; an absent or empty filter asks nothing. *)
Definition asks (f : option string) (p : string -> Prop) : Prop :=
  match f with Some s => s = "" \/ p s | None => True end.

Definition event_matches (f : EventFilters) (r : EventRecord) : Prop :=
  asks f.(ef_domain) (eq r.(er_domain)) /\ asks f.(ef_category) (eq r.(er_category))
  /\ asks f.(ef_event_id) (eq r.(er_event_id))
  /\ asks f.(ef_since) (fun since => String.ltb r.(er_timestamp_utc) since = false)
  /\ asks f.(ef_until) (fun until => String.ltb until r.(er_timestamp_utc) = false).

Definition keeps {A} (f : option string) (p : A -> string -> bool) (r : A) : bool :=
  match f with Some s => PyStr.is_empty s || p r s | None => true end.

Lemma by_text_filter {A} (f : option string) (p : A -> string -> bool) (rows : list A) :
  by_text f p rows = List.filter (keeps f p) rows.
Proof.
  unfold by_text, keeps. destruct f as [s|]; [destruct (PyStr.is_empty s); cbn|]; try done;
    symmetry; by apply forallb_filter_id, forallb_forall.
Qed.

Lemma keeps_asks {A} (f : option string) (p : A -> string -> bool) (r : A) (q : string -> Prop) :
  (forall s, p r s = true <-> q s) -> keeps f p r = true <-> asks f q.
Proof.
  intros H. destruct f as [s|]; cbn; [|done]. by rewrite orb_true_iff, PyStr.is_empty_true, H.
Qed.

Lemma filter_filter {A} (p q : A -> bool) (l : list A) :
  List.filter p (List.filter q l) = List.filter (fun x => q x && p x) l.
Proof. induction l as [|x l IH]; cbn; [done|]. destruct (q x), (p x) eqn:E; cbn; by rewrite ?E, IH. Qed.

Lemma filter_events_split (rows : list EventRecord) (f : EventFilters) :
  exists left_out, Permutation rows (_filter_events rows f ++ left_out)
    /\ Forall (event_matches f) (_filter_events rows f)
    /\ Forall (fun r => ~ event_matches f r) left_out.
Proof.
  unfold _filter_events. rewrite !by_text_filter, !filter_filter.
  match goal with |- context [List.filter ?k rows] => set (keep := k) end.
  assert (forall r, keep r = true <-> event_matches f r) as Hk.
  { intros r. unfold keep, event_matches. rewrite !andb_true_iff.
    rewrite (keeps_asks f.(ef_domain) _ r (eq r.(er_domain))),
      (keeps_asks f.(ef_category) _ r (eq r.(er_category))),
      (keeps_asks f.(ef_event_id) _ r (eq r.(er_event_id))),
      (keeps_asks f.(ef_since) _ r (fun since => String.ltb r.(er_timestamp_utc) since = false)),
      (keeps_asks f.(ef_until) _ r (fun until => String.ltb until r.(er_timestamp_utc) = false))
      by (intros; apply String.eqb_eq || apply negb_true_iff). tauto. }
  exists (List.filter (fun x => negb (keep x)) rows). split; [symmetry; apply filter_split|].
  split; apply List.Forall_forall; intros r Hin; apply filter_In in Hin as [_ Hin].
  - by apply Hk.
  - rewrite <- Hk. by destruct (keep r).
Qed.

(** The pages of any list, one after the other, are the list. *)
Lemma pages_concat {A} (items : list A) (size : Z) :
  1 <= size ->
  concat (map (fun i => (_paginate items (Z.of_nat i + 1) size).(pg_items))
            (seq 0 (Z.to_nat ((Z.of_nat (length items) + size - 1) / size)))) = items.
Proof.
  intros Hs. set (pages := (Z.of_nat (length items) + size - 1) / size).
  etransitivity; [|apply (chunks_concat (Z.to_nat size) (Z.to_nat pages) items); [lia|]].
  - f_equal. apply map_ext. intros i. rewrite slice_page by lia.
    by replace (Z.to_nat ((Z.of_nat i + 1 - 1) * size)) with (i * Z.to_nat size)%nat by nia.
  - assert (0 <= pages) by (apply Z.div_pos; lia).
    assert (Z.of_nat (length items) <= pages * size); [|nia].
    pose proof (Z.mul_succ_div_gt (Z.of_nat (length items) + size - 1) size ltac:(lia)). unfold pages. nia.
Qed.

Lemma has_more_iff {A} (items : list A) (page size : Z) :
  1 <= size -> 1 <= page ->
  (_paginate items page size).(pg_has_more) = true
  <-> (_paginate items (page + 1) size).(pg_items) <> [].
Proof.
  intros Hs Hp. rewrite slice_page by lia. unfold _paginate. cbn [pg_has_more].
  rewrite Z.ltb_lt. replace ((page - 1) * size + size) with (page * size) by lia.
  replace ((page + 1 - 1) * size) with (page * size) by lia. split.
  - intros Hlt E. apply (f_equal length) in E. rewrite length_take, length_drop in E. cbn in E. lia.
  - intros Hne. destruct (Z.lt_ge_cases (page * size) (Z.of_nat (length items))) as [|Hge]; [done|].
    exfalso. apply Hne. rewrite skipn_all2 by lia. by rewrite firstn_nil.
Qed.

(** Newest first: the time goes down, and among events of one time the identifier does. *)
Definition not_older (a b : EventRecord) : Prop :=
  String.ltb b.(er_timestamp_utc) a.(er_timestamp_utc) = true
  \/ a.(er_timestamp_utc) = b.(er_timestamp_utc)
     /\ String.ltb a.(er_event_id) b.(er_event_id) = false.

Lemma not_older_key (a b : EventRecord) :
  pair_ltb (a.(er_timestamp_utc), a.(er_event_id)) (b.(er_timestamp_utc), b.(er_event_id)) = false ->
  not_older a b.
Proof.
  unfold pair_ltb, not_older. cbn [fst snd]. rewrite orb_false_iff, andb_false_iff, String.eqb_neq.
  intros [Ht H]. destruct (decide (a.(er_timestamp_utc) = b.(er_timestamp_utc))) as [E|E].
  - right. split; [done|]. by destruct H.
  - left. destruct (string_ltb_total _ _ E); [congruence|done].
Qed.

Lemma newest_first_sorted (l : list EventRecord) :
  StronglySorted (fun a b => pair_ltb (a.(er_timestamp_utc), a.(er_event_id))
                               (b.(er_timestamp_utc), b.(er_event_id)) = false) l ->
  StronglySorted not_older l.
Proof.
  induction 1 as [|a l _ IH Ha]; constructor; [done|].
  eapply Forall_impl; [exact Ha|]. intros b. apply not_older_key.
Qed.

(** C32: the pages of the event listing.  When the events file reads as [rows], every page is
    answered, and the pages, one after the other, are one listing: it holds the rows that
    match the filters, each as often as it is stored, newest first, and with descending
    identifiers among rows of one time.  Every page reports the length of the listing, and
    says there is more exactly when the next page is not empty. *)
Theorem event_pages_partition {R : RecordCodec} {M : RowModels} (s : JsonlStore)
    (rows : list EventRecord) (f : EventFilters) (size : Z) :
  read_rows event_validate s.(js_events) = Ok rows -> 1 <= size ->
  exists listing : list EventRecord, exists pages : nat -> PaginatedResponse EventRecord,
    (forall i, list_events s f (Z.of_nat i + 1) size = Ok (pages i))
    /\ concat (map (fun i => (pages i).(pg_items))
                 (seq 0 (Z.to_nat ((Z.of_nat (length listing) + size - 1) / size)))) = listing
    /\ (exists left_out, Permutation rows (listing ++ left_out)
         /\ Forall (event_matches f) listing /\ Forall (fun r => ~ event_matches f r) left_out)
    /\ StronglySorted not_older listing
    /\ forall i, (pages i).(pg_total) = Z.of_nat (length listing)
                 /\ ((pages i).(pg_has_more) = true <-> (pages (S i)).(pg_items) <> []).
Proof.
  intros Hr Hs. set (key r := (r.(er_timestamp_utc), r.(er_event_id))).
  set (listing := sort_descending key (_filter_events rows f)).
  exists listing, (fun i => _paginate listing (Z.of_nat i + 1) size).
  split; [intros i; unfold list_events; by rewrite Hr|]. split; [by apply pages_concat|].
  split; [|split].
  - destruct (filter_events_split rows f) as (left_out & Hp & Hm & Hl). exists left_out.
    assert (Permutation listing (_filter_events rows f)) as Hpl by apply sorted_by_Permutation.
    split; [by rewrite Hpl|]. split; [|done]. by rewrite Hpl.
  - eapply newest_first_sorted, (sorted_by_sorted (fun a b => pair_ltb b a) key).
    + intros a b c Hab Hbc. by eapply pair_ltb_trans.
    + intros a b. apply pair_ltb_asym.
    + intros a b Hne. destruct (pair_ltb_total a b Hne); [by right|by left].
    + intros a b. destruct (decide (a = b)); [by left|by right].
  - intros i. split; [done|]. rewrite has_more_iff by lia.
    by replace (Z.of_nat i + 1 + 1) with (Z.of_nat (S i) + 1) by lia.
Qed.

Section Learning.
Context `{!FloatSum}.

(** Every evaluation is in one class. *)
Lemma classes_total (l : list OutcomeEvaluation) :
  count_class true_positive l + count_class true_negative l + count_class false_positive l
  + count_class false_negative l = Z.of_nat (length l).
Proof.
  unfold count_class. induction l as [|e l IH]; [done|]. cbn [List.filter].
  destruct (oe_classification e); repeat (case_bool_decide; try done); cbn [length]; lia.
Qed.

(** C31: what is learnt does not depend on the order in which the outcomes arrived: for outcomes
    with different keys the metrics of a rearrangement are the same, float averages included,
    and the four classes account for every outcome. *)
Theorem learning_order_independent (records records' : list OutcomeRecord) :
  Permutation records records' -> List.NoDup (map outcome_key records) ->
  learning_of records = learning_of records'
  /\ let m := learning_of records in
     m.(lm_true_positives) + m.(lm_true_negatives) + m.(lm_false_positives) + m.(lm_false_negatives)
     = Z.of_nat (length records).
Proof.
  intros Hp Hn. unfold learning_of, evaluate_outcomes. split.
  - f_equal. f_equal. apply sorted_by_perm; [apply pair_ltb_trans|apply pair_ltb_asym|apply pair_ltb_total|done|done].
  - cbn zeta. rewrite <- (Permutation_length (sorted_by_Permutation pair_ltb outcome_key records)).
    rewrite <- (length_map evaluate_outcome). set (l := map evaluate_outcome _).
    rewrite <- (classes_total l). by destruct l.
Qed.
End Learning.

Module DecisionWitness.
#[local] Instance naive_sum : FloatSum := foldl F64.add F64.zero.

Definition event (id ts : string) : EventRecord :=
  {| er_event_id := id; er_domain := "generic"; er_title := "t"; er_category := ""; er_timestamp_utc := ts;
     er_payload := [] |}.

(** A printer, a parser and models with the laws. *)
#[local] Instance codec : RecordCodec := DemoCodec.codec.
#[local] Instance codec_laws : JsonLaws codec := DemoCodec.laws.

Definition text (k : string) (d : pydict) : string := match Dict.get k d with PStr s => s | _ => "" end.
Definition float (k : string) (d : pydict) : F64.t :=
  match Dict.get k d with PFloat x => x | _ => F64.zero end.
Definition flag (k : string) (d : pydict) : bool := match Dict.get k d with PBool b => b | _ => false end.
Definition dict (k : string) (d : pydict) : pydict := match Dict.get k d with PDict e => e | _ => [] end.
Definition object {A} (f : pydict -> A) (v : pyval) : result A :=
  match v with PDict d => Ok (f d) | _ => Raise ValueError end.

#[local] Instance models : RowModels := {|
  event_validate := object (fun d =>
    {| er_event_id := text "event_id" d; er_domain := text "domain" d; er_title := text "title" d;
       er_category := text "category" d; er_timestamp_utc := text "timestamp_utc" d;
       er_payload := dict "payload" d |});
  evidence_validate := object (fun d =>
    {| vr_evidence_id := text "evidence_id" d; vr_event_id := text "event_id" d;
       vr_decision_id := text "decision_id" d; vr_label := text "label" d; vr_kind := text "kind" d;
       vr_weight := float "weight" d;
       vr_supports_decision :=
         match Dict.get "supports_decision" d with PBool b => Some b | _ => None end;
       vr_detail := text "detail" d; vr_payload := dict "payload" d |});
  decision_validate := object (fun d =>
    {| dr_decision_id := text "decision_id" d; dr_domain := text "domain" d; dr_title := text "title" d;
       dr_confidence := float "confidence" d; dr_risk_score := float "risk_score" d;
       dr_policy_status := text "policy_status" d; dr_payload := dict "payload" d;
       dr_content_digest := text "content_digest" d; dr_timestamp_utc := text "timestamp_utc" d |});
  outcome_validate := object (fun d =>
    {| or_outcome_id := text "outcome_id" d; or_decision_id := text "decision_id" d;
       or_outcome := text "outcome" d; or_success := flag "success" d;
       or_predicted_success := flag "predicted_success" d; or_cost := float "cost" d;
       or_time_to_resolution := float "time_to_resolution" d; or_notes := text "notes" d;
       or_recorded_at_utc := text "recorded_at_utc" d |});
|}.

#[local] Instance model_laws : RowModelLaws models.
Proof. split; intros r; [|intros _..]; destruct r; try reflexivity. by destruct vr_supports_decision0 as [[]|]. Qed.

Definition ev_a : EventRecord := event "a" "2026-01-01".
Definition ev_b : EventRecord := event "b" "2026-01-02".
Definition ev_c : EventRecord := event "c" "2026-01-01".

(** A store that an earlier process left behind. *)
Definition store : JsonlStore :=
  (create_event ev_c (create_event ev_b (create_event ev_a empty_store).2).2).2.
Definition stored : StoreRows :=
  {| sr_events := [ev_a; ev_b; ev_c]; sr_evidence := []; sr_decisions := []; sr_outcomes := [] |}.

Lemma store_holds : holds store stored.
Proof.
  assert (H : forall t rows r, read_rows event_validate t = Ok rows -> ended t ->
    json_plain (PDict (event_dump r)) = true ->
    read_rows event_validate (_append t (event_dump r)) = Ok (rows ++ [r])%list /\
    ended (_append t (event_dump r))) by (intros; apply append_holds; [done|done|done|apply event_revalidates]).
  destruct (H [] [] ev_a eq_refl (or_introl eq_refl) eq_refl) as [R1 E1].
  destruct (H _ _ ev_b R1 E1 eq_refl) as [R2 E2].
  destruct (H _ _ ev_c R2 E2 eq_refl) as [R3 E3].
  split; [exact R3|]. split; [reflexivity|]. split; [reflexivity|]. split; [reflexivity|].
  split; [exact E3|]. repeat split; by left.
Qed.

Definition no_filter : EventFilters :=
  {| ef_domain := None; ef_category := Some ""; ef_event_id := None; ef_since := None; ef_until := None |}.

Lemma event_pages_partition_witness :
  exists listing left_out, Permutation [ev_a; ev_b; ev_c] (listing ++ left_out)
    /\ StronglySorted not_older listing.
Proof.
  destruct (event_pages_partition store [ev_a; ev_b; ev_c] no_filter 2 (proj1 store_holds) ltac:(lia))
    as (listing & pages & _ & _ & (left_out & Hp & _) & Hs & _).
  exists listing, left_out. split; [exact Hp|exact Hs].
Defined.

Definition outcome (decision id : string) (success : bool) : OutcomeRecord :=
  {| or_outcome_id := id; or_decision_id := decision; or_outcome := "o"; or_success := success;
     or_predicted_success := true; or_cost := F64.of_Z 1; or_time_to_resolution := F64.of_Z 2; or_notes := "";
     or_recorded_at_utc := "t" |}.

Definition o1 : OutcomeRecord := outcome "d1" "o1" true.
Definition o2 : OutcomeRecord := outcome "d2" "o2" false.

Lemma learning_order_independent_witness : learning_of [o1; o2] = learning_of [o2; o1].
Proof.
  refine (proj1 (learning_order_independent [o1; o2] [o2; o1] _ _)).
  - apply perm_swap.
  - repeat constructor; cbn; intuition discriminate.
Defined.

Definition op : DemoPrincipal := {| role := operator; operator_id := "op" |}.
Definition guest : DemoPrincipal := {| role := viewer; operator_id := "guest" |}.

(** A second process on the store of the first: its counters start at zero. *)
Definition started : DiState := {| ds_store := store; ds_metrics := fresh_metrics |}.
Definition calls : list di_call :=
  [(op, CreateEvent (event "d" "2026-01-03"), F64.zero); (guest, CreateEvent ev_a, F64.zero);
   (op, CreateOutcome o2, F64.zero)].

Lemma counters_agree_with_store_witness :
  let s' := di_run [] calls started in
  store_rows s'.(ds_store)
    = Ok {| sr_events := [ev_a; ev_b; ev_c; event "d" "2026-01-03"]; sr_evidence := [];
            sr_decisions := []; sr_outcomes := [o2] |}
  /\ s'.(ds_metrics).(dm_events_total) = 1 /\ s'.(ds_metrics).(dm_decision_failures) = 1.
Proof.
  destruct (counters_agree_with_store [] calls started stored store_holds ltac:(repeat constructor))
    as (Hr & He & _ & Hf).
  split; [exact Hr|]. split; [exact He|exact Hf].
Defined.

(** What a replay hashes does depend on it. *)
Lemma replay_hash_depends_on_order :
  let with_ a b := (create_outcome b (create_outcome a empty_store).2).2 in
  exists r r', run_replay [] (with_ o1 o2) = Ok r /\ run_replay [] (with_ o2 o1) = Ok r'
    /\ r.(rr_metrics) = r'.(rr_metrics) /\ r.(rr_hashed) <> r'.(rr_hashed).
Proof.
  do 2 eexists. split; [vm_compute; reflexivity|]. split; [vm_compute; reflexivity|].
  split; [reflexivity|]. intros E. apply (f_equal fst) in E. discriminate E.
Qed.
End DecisionWitness.
